(* ===== verification/_CoqProject ===== *)
-Q . S2P
Prelude.v
GoText.v
GoHash.v
Certificates.v
Stats.v
WsCodec.v
H2Session.v
H2Stream.v
H2Run.v
GrpcCodec.v
GoHttp.v
GrpcServer.v
GrpcClient.v
GrpcProps.v
GrpcMain.v
GoHttp1.v
WsHandshake.v
WsServer.v
WsClient.v
WsRun.v
WsProps.v
WsServerProps.v
WsClear.v
WsClearProps.v
H2Load.v
H2LoadPhase.v
H2LoadProps.v
H2LoadMain.v
DnsWire.v
DnsClassic.v
DnsClassicProps.v
DnsDot.v
DnsDotProps.v
DnsDoq.v
DnsDoqProps.v
DnsDoh.v
DnsDoh2.v
DnsDoh2Props.v
DnsDoh3.v
DnsDoh3Props.v
QuicRaw.v
QuicRawProps.v
Http1Load.v
Http1LoadProps.v
TlsBase.v
TlsLoad.v
Tls13.v
Tls13Props.v
TlsHandshakes.v
TlsHandshakesProps.v
DatagramBase.v
Masque.v
MasqueProps.v
WebTransport.v
WebTransportProps.v
Resolvers.v
ResolversProps.v
Origins.v
OriginsProps.v
Serving.v
TlsServers.v
DnsServers.v
HttpServers.v
TlsServersProps.v
ServersProps.v
TlsDocuments.v
TlsDocumentsProps.v
Copies.v
RunDocuments.v
DnsDocuments.v
WsDocuments.v
RunDocumentsProps.v
