(* ===== verification/Prelude.v ===== *)
(** * ProtocolLab components: a verification development.

    The repository packages test executors (clients that check a protocol, put a load on
    it and report what they measured) and the implementations they are run against. This
    library models the Go packages of both kinds, states what each promises the other, and
    proves it: that an executor and the server beside it agree, that a result or an exit
    code 0 has been earned, and what the executors do when something fails.

    ** How the code is modelled

    Functions of the sources are functions here, under the same names. What a function
    reads from the world is an argument: a connection is the octets it will deliver, those
    written to it and the faults the next writes meet ([Prelude.conn]); a stream is its
    octets and how it ends ([Prelude.stream]); a run is a record of what its phases meet
    (dials, TLS states, replies, times). Errors are values of [Prelude.goerror], fallible
    functions return [Prelude.res]; exit codes are results of [main]. Goroutines are
    transition systems or schedules, and the theorems hold for every one of them. Floats
    are IEEE binary64, computed as Go computes them ([Stats]); SHA-256, SHA-1, base64 and
    hexadecimal are executable ([GoHash], [GoText]), so the digests the sources hard-code
    are checked against the octets they name. Fixed-width integers wrap where the code
    relies on it (message IDs, lengths, scheduler positions, durations).

    ** Files

    Shared: [Prelude] (octets, machine integers, errors, readers, connections, big-endian
    integers, masking, tactics, the hint database plab), [GoText] (strings, strconv, hex),
    [GoHash], [GoHttp] and [GoHttp1] (what the packages use of net/http), [Certificates]
    (the test certificates, for witnesses), [Stats] (mean, percentiles, sort.Float64s).

    WebSocket over HTTP/1.1 (executors/go-http1-websocket-tls-executor and
    implementations/go-http1-websocket, go-http1-websocket-tls): [WsCodec] (frames),
    [WsHandshake] (request, validation on both sides, 101 response), [WsServer] (echo
    loops), [WsClient] (one operation), [WsRun] (phases, result, main); theorems in
    [WsProps] and [WsServerProps]. The executor without TLS
    (executors/go-http1-websocket-executor) is [WsClear], its theorems are in
    [WsClearProps].

    WebSocket over HTTP/2 (executors/go-http2-websocket-executor): [H2Session] (the shared
    read loop and its interleaving with the streams), [H2Stream] (one WebSocket on a
    stream), [H2Run] (operations, the concurrent phase, main); theorems in the same files.

    gRPC over HTTP/2 (executors/go-grpc-h2-executor, implementations/go-grpc-h2):
    [GrpcCodec], [GrpcServer], [GrpcClient]; theorems in [GrpcCodec], [GrpcProps] and
    [GrpcMain].

    HTTP load: over HTTP/2 (executors/go-http2-executor) in [H2Load] (checks, profiles,
    scheduler, recorder, topology), [H2LoadPhase] (runLoadPhase as a transition system),
    [H2LoadProps] (its invariants), [H2LoadMain] (runs, main, theorems); over HTTP/1.1
    (executors/go-http1-executor) in [Http1Load] and [Http1LoadProps].

    DNS: [DnsWire] (fixtures, framing and phases shared by the executors); UDP and TCP in
    [DnsClassic] and [DnsClassicProps] (executors/dns-classic-fixture,
    implementations/go-dns-classic-authority); DNS over TLS in [DnsDot] and [DnsDotProps]
    (executors/go-dns-dot-executor, implementations/go-dns-dot); DNS over QUIC in [DnsDoq]
    and [DnsDoqProps] (executors/go-dns-doq-executor, implementations/go-dns-doq); DNS over
    HTTPS in [DnsDoh] (what both versions share), [DnsDoh2] and [DnsDoh2Props] (HTTP/2:
    executors/go-dns-doh2-executor, implementations/go-dns-doh2), [DnsDoh3] and
    [DnsDoh3Props] (HTTP/3: executors/go-dns-doh3-executor, implementations/go-dns-doh3).

    TLS: [TlsBase] (sessions, names and digests shared by the packages); TLS 1.3 in [Tls13]
    and [Tls13Props] (executors/go-tls13-executor, implementations/go-tls13); the packages
    of one handshake scenario in [TlsLoad] (their load and their run), [TlsHandshakes] and
    [TlsHandshakesProps] (executors/go-tls12-executor, go-tls13-mtls-executor,
    go-utls-tls13-chacha20-executor; implementations/go-tls12, go-tls13-mtls,
    go-tls13-chacha20).

    Raw QUIC (executors/quic-go-raw-load, implementations/quic-go-raw): [QuicRaw] and
    [QuicRawProps].

    Over HTTP/3: [DatagramBase] (the set of datagrams, the loop that awaits each echo, the
    documents of a run); CONNECT-UDP in [Masque] and [MasqueProps]
    (executors/go-masque-connect-udp-executor, implementations/masque-go-connect-udp, the
    echo target of envoy-connect-udp); WebTransport in [WebTransport] and
    [WebTransportProps] (executors/go-webtransport-executor,
    implementations/webtransport-go).

    Beside them: [Resolvers] and [ResolversProps] (the helpers of
    implementations/unbound-doh2-resolver, knot-resolver-secure-dns-resolver and
    bind9-dot-resolver), [Origins] and [OriginsProps] (implementations/go-nethttp-http1,
    go-nethttp-http2, quic-go-http3).

    Programs of the servers: [Serving] (what they share: the process they run in, the
    documents they print, TLS configurations, accept loops and how they end), [TlsServers],
    [DnsServers] and [HttpServers] (the [main] of every server, with the flags and
    environment it reads, what it checks before it listens, the ready document it prints
    and the exit code it leaves); theorems in [TlsServersProps] and [ServersProps].
    A connection or request is given to a goroutine, which has returned when the process
    exits or has not ([Serving.goroutine]). One that has not is killed ([Serving.unawaited]):
    os.Exit, which [fatal] calls, and the return of main wait for nobody. Only go-dns-dot and
    the WebSocket servers wait for theirs before main returns ([Serving.awaited]). How far a
    killed goroutine had come is not said.

    Directories: [TlsDocuments] and [TlsDocumentsProps] (every file a run of a single-handshake
    executor leaves, in full, and what becomes of the run when one cannot be written);
    [RunDocuments] (the same for a run that validates, warms up and measures), with what the
    DNS executors write in [DnsDocuments] and the HTTP/1.1 WebSocket executors in
    [WsDocuments], and its theorems in [RunDocumentsProps].
    Where writing a document fails, either the file was never opened and the directory is as
    it was, or it was created or truncated first, as os.WriteFile does, and is left with some
    of the document in it ([TlsDocuments.fault], [TlsDocuments.content]); either ends the run.
    [Copies] says which definition the copies of a helper are that each package carries, and
    writes out those that differ.

    ** What the theorems show

    - Executor and server agree: what one writes is a session the other serves or accepts to
      a normal end, for every scenario, any number of turns and any division into reads
      (websocket_session_completes, clear_session_completes, every_scenario_passes,
      terminal_scenarios_pass, classic_session_completes, dot_session_completes,
      doq_session_completes, doh2_session_completes, doh3_session_completes for every order
      of the server's map (doh3_order_irrelevant), record_transfer_agrees, group_completes,
      raw_session_decided, which also says when a stream must fail, masque_tunnel_completes,
      webtransport_session_completes, origins_pass_checks, which also says that only the
      answers of the contract pass and follows the URL of each check to the handler of its
      path, fixture_authorities_agree, and
      flush_decided for the flush of a resolver's cache).
    - Success is earned: a passed verdict, a genuine operation, a server's success status, a
      printed result and an exit code 0 imply what they stand for, said in the constants of
      the contract and not by the predicates of the code: the payloads, headers, digests,
      loads and counts themselves
      (verdict_is_earned, server_success_earned, websocket_operation_genuine,
      operation_genuine, doq_frame_sound, doh2_answer_sound, resumption_spends_its_ticket,
      client_hello_exact, http1_refuses_unproven, masque_run_earned, webtransport_run_earned
      and the theorems named ..._is_earned); echoes must come in order (echo_order_decides,
      datagram_server_echoes_prefix), a TLS session that is served is the one that was
      announced (tls_served_as_announced), and its configuration leaves only the protocol
      and the suite to the handler (tls_config_leaves_suite_and_protocol), the proof an
      executor writes of a handshake repeats what the server announced
      (proof_repeats_announcement), a byte stream is exactly the chunks before its context is
      done or a write fails (byte_stream_is_prefix); what an oha report counts is conserved
      (oha_metrics_conserve), a session ticket is never offered twice
      (ticket_never_offered_twice), and the records of a TLS connection are counted the same
      however they arrive (records_counted_exactly). The summary of a WebSocket phase counts
      its keys as a list of them does (websocket_phase_accounts), and the echo loop of the TLS
      server ends by its own returns, as a relation of its turns (server_loop_terminates).
    - Concurrency: the shared HTTP/2 session hands every stream its own events in order and
      returns its credit; the peak counter is exact; the load phase keeps its scheduler,
      recorder and barrier consistent in every interleaving, measures the configured
      topology, and ends; batches of the raw QUIC load count the same under every schedule.
    - Programs: when a TLS server starts and what it then announces (tls_server_announces);
      which servers survive a failed accept and which stop at it, and which of the connections
      they had accepted are then served and which killed (accept_failures); which announce
      themselves only when they listen (announcements); where the files of a package are
      found (material_beside); exit codes of quic-go-raw (raw_exit_codes).
    - Codecs: frames, gRPC messages and download requests are read back as they were
      written, and what is accepted is what a writer makes; the two WebSocket readers agree.
    - Failures: the phase that hangs when a worker returns before its first operation, the
      directory a run of a TLS executor leaves, which agrees with its exit code, and where a
      file that is cut is there only with exit code 1 (directories_tell_the_exit), the result.json of a DNS or
      WebSocket executor that says passed while the exit code says failed
      (result_file_told), the documents that say passed when the measured phase failed, the
      failed dial that is reported with no requests and an error rate of 0, the dotted label
      taken for a name, the reconnection that is reported as reuse
      (doh3_reconnection_unnoticed), the mutual authentication that checks the server only
      (mutual_check_is_server_only), the TLS phases that never end (phase_termination), the
      servers that announce themselves before they listen (announcements), the server that
      starts for any scenario (go_tls13_ignores_scenario), and the results that say passed
      with exit code 1 (handshake_run_result).

    ** Bounds and fuel

    Loops over input that are not structural have fuel: the length of the input and one,
    for loops that consume at least one octet per turn (serveLoop, tcpLoop, writeChunks,
    writeLoop, the WebSocket echo loops, frame readers), and the constant of the source
    where it has one (the 32 steps of readName, the window of the handshake reader). The
    session theorems show that the fuel is enough: the loops end by themselves, never by
    exhaustion. Loops bounded by a deadline run over the list of turns that began before
    it; the theorems are for any such list. Nearest-rank percentiles are checked against
    their definition for up to 2000 samples.

    ** What is not modelled

    Sockets, TLS and QUIC handshakes, HPACK, the HTTP/2 and HTTP/3 transports, compress/*,
    url.Parse, X.509, uTLS, quic-go, masque-go, webtransport-go and github.com/miekg/dns are
    parameters of the definitions that use them: they are not code of the repository. The
    ready documents of the servers and the files of the TLS handshake executors are
    complete, and so are those of the DNS and HTTP/1.1 WebSocket executors but for the
    constants of their proofs, summaries and results; the documents of the other executors
    are reduced to the fields that depend on the run, and the writing of their artifacts is
    modelled where its failure decides an exit code or its contents are claimed. Of the
    flags the value of each is modelled, not their syntax; a signal is a flag of the accept
    that fails after it; what a goroutine that is killed had done by then, and which octets
    of a file reached the disk beyond their number, is not modelled; keys and serial numbers of generated certificates are arguments.
    Every Go package of the repository is modelled but for these parts. Out of scope: the
    implementations that configure third-party servers, the executors in other languages,
    and the packaging scripts. *)
From stdpp Require Export base list strings gmap pretty.
From Stdlib Require Export ZArith Lia.

(** ** Scope, bytes and machine integers *)

Declare Scope plab_scope.
Delimit Scope plab_scope with plab.
#[global] Open Scope Z_scope.
#[global] Open Scope plab_scope.

(** A Go [[]byte]: every element of a well-formed slice is in [0, 256). *)
Abbreviation bytes := (list Z).

Definition is_byte (b : Z) : Prop := 0 <= b < 256.
Abbreviation all_bytes l := (Forall is_byte l).

(** Conversions to the unsigned types, and the wrap-around of Go's [int]
    (64 bits on the amd64 targets the packages are built for). *)
Definition u8 (z : Z) : Z := z mod 256.
Definition u16 (z : Z) : Z := z mod 65536.
Definition u32 (z : Z) : Z := z mod 4294967296.
Definition u64 (z : Z) : Z := z mod 18446744073709551616.
Definition int_of (z : Z) : Z :=
  (z + 9223372036854775808) mod 18446744073709551616 - 9223372036854775808.

(** [len(s)] as a Go [int]. *)
Definition len {A} (l : list A) : Z := Z.of_nat (length l).

(** [s[i]] for an index the code has already checked. *)
Definition byte_at (l : bytes) (i : nat) : Z := nth i l 0.

(** [s[a:b]] for bounds the code has already checked. *)
Definition slice {A} (a b : nat) (l : list A) : list A := take (b - a) (drop a l).

(** ** Errors *)

(** The error values the sources create, wrap or test for. *)
Inductive goerror :=
| EEOF                                     (* io.EOF *)
| EUnexpectedEOF                           (* io.ErrUnexpectedEOF *)
| EShortWrite                              (* io.ErrShortWrite *)
| EDeadline                                (* context.DeadlineExceeded *)
| ECanceled                                (* context.Canceled *)
| ENet (timeout : bool) (msg : string)     (* net.Error *)
| EMsg (msg : string)                      (* errors.New, fmt.Errorf *)
| EMalformed (reason : string)             (* malformedResponseError, malformedError *)
| EWrap (prefix : string) (cause : goerror). (* fmt.Errorf("prefix: %w", cause) *)

#[export] Instance goerror_eq_dec : EqDecision goerror.
Proof. solve_decision. Defined.

Fixpoint error_string (e : goerror) : string :=
  match e with
  | EEOF => "EOF"
  | EUnexpectedEOF => "unexpected EOF"
  | EShortWrite => "short write"
  | EDeadline => "context deadline exceeded"
  | ECanceled => "context canceled"
  | ENet _ m | EMsg m | EMalformed m => m
  | EWrap p c => p +:+ ": " +:+ error_string c
  end.

(** [errors.Is(err, target)] for the sentinel errors: unwraps [%w]. *)
Fixpoint errors_is (target e : goerror) : bool :=
  bool_decide (e = target) ||
  match e with EWrap _ c => errors_is target c | _ => false end.

(** [errors.As(err, &netErr) && netErr.Timeout()]; context.DeadlineExceeded is
    itself a [net.Error] whose [Timeout()] is true. *)
Fixpoint is_net_timeout (e : goerror) : bool :=
  match e with
  | EDeadline => true
  | ENet t _ => t
  | EWrap _ c => is_net_timeout c
  | _ => false
  end.

(** [errors.As(err, &malformed)]. *)
Fixpoint is_malformed (e : goerror) : bool :=
  match e with EMalformed _ => true | EWrap _ c => is_malformed c | _ => false end.

(** ** Results: a value or an error *)

Inductive res (A : Type) : Type :=
| Ok (a : A)
| Err (e : goerror).
Arguments Ok {A} a.
Arguments Err {A} e.

#[export] Instance res_eq_dec {A} `{EqDecision A} : EqDecision (res A).
Proof. solve_decision. Defined.

#[export] Instance Ok_inj A : Inj (=) (=) (@Ok A).
Proof. by intros ?? [=]. Qed.

Definition res_bind {A B} (x : res A) (f : A -> res B) : res B :=
  match x with Ok a => f a | Err e => Err e end.

Definition is_ok {A} (x : res A) : bool := match x with Ok _ => true | Err _ => false end.

Notation "'let?' x := e 'in' k" := (res_bind e (fun x => k))
  (at level 10, x pattern, e at level 100, k at level 200) : plab_scope.
(** An early return: [if !c { return err }]. *)
Notation "'guard' c 'else' e 'in' k" := (if c then k else Err e)
  (at level 10, c at level 100, e at level 100, k at level 200) : plab_scope.

Lemma res_bind_ok {A B} (x : res A) (f : A -> res B) b :
  res_bind x f = Ok b <-> exists a, x = Ok a /\ f a = Ok b.
Proof. destruct x; simpl; naive_solver. Qed.

(** ** Readers *)

(** What a reader still has to deliver: the bytes, then [st_end] for ever. *)
Record stream := Stream { st_data : bytes; st_end : goerror }.

(** [io.ReadFull(reader, make([]byte, n))]. *)
Definition read_full (n : nat) (s : stream) : res bytes * stream :=
  if decide (n <= length (st_data s))%nat
  then (Ok (take n (st_data s)), Stream (drop n (st_data s)) (st_end s))
  else (Err (match st_end s, st_data s with
             | EEOF, _ :: _ => EUnexpectedEOF
             | e, _ => e
             end), Stream [] (st_end s)).

(** [reader.ReadByte()]. *)
Definition read_byte (s : stream) : res Z * stream :=
  match st_data s with
  | b :: r => (Ok b, Stream r (st_end s))
  | [] => (Err (st_end s), s)
  end.

(** ** Connections *)

(** A duplex connection: what it will deliver, what was written to it, and the
    faults the next writes meet ([Some (n, e)]: [n] octets go out, then [e]). *)
Record conn := Conn {
  c_in : stream;
  c_out : bytes;
  c_faults : list (option (nat * goerror))
}.

(** [conn.Write(p)]. *)
Definition conn_write (p : bytes) (c : conn) : (Z * option goerror) * conn :=
  match c_faults c with
  | Some (n, e) :: f => ((len (take n p), Some e), Conn (c_in c) (c_out c ++ take n p) f)
  | None :: f => ((len p, None), Conn (c_in c) (c_out c ++ p) f)
  | [] => ((len p, None), Conn (c_in c) (c_out c ++ p) [])
  end.

(** ** Automation *)

Create HintDb plab.
#[export] Hint Constructors Forall : plab.

(** Turn boolean tests into propositions. *)
Ltac reflect_bools :=
  repeat match goal with
  | H : andb _ _ = true |- _ => apply andb_true_iff in H as [? ?]
  | H : orb _ _ = false |- _ => apply orb_false_iff in H as [? ?]
  | H : negb _ = true |- _ => apply negb_true_iff in H
  | H : negb _ = false |- _ => apply negb_false_iff in H
  | H : Z.eqb _ _ = true |- _ => apply Z.eqb_eq in H
  | H : Z.eqb _ _ = false |- _ => apply Z.eqb_neq in H
  | H : Z.ltb _ _ = true |- _ => apply Z.ltb_lt in H
  | H : Z.ltb _ _ = false |- _ => apply Z.ltb_ge in H
  | H : Z.leb _ _ = true |- _ => apply Z.leb_le in H
  | H : Z.leb _ _ = false |- _ => apply Z.leb_gt in H
  | H : bool_decide _ = true |- _ => apply bool_decide_eq_true in H
  | H : bool_decide _ = false |- _ => apply bool_decide_eq_false in H
  end.

(** [lia] with division and modulo by constants. *)
Ltac lia_mod := Z.to_euclidean_division_equations; lia.

(** The test of a [guard] that was passed. *)
Ltac pass_guard H :=
  match type of H with (if ?b then _ else Err _) = Ok _ => destruct b eqn:?; [|discriminate H] end.
Ltac pass_guard_as H G :=
  match type of H with (if ?b then _ else Err _) = Ok _ => destruct b eqn:G; [|discriminate H] end.

(** Rewrite the [if]s of the goal whose test the context decides. *)
Ltac decide_ifs :=
  repeat first
    [ rewrite bool_decide_true by (done || lia)
    | rewrite bool_decide_false by (done || lia)
    | rewrite (proj2 (Z.ltb_lt _ _)) by lia
    | rewrite (proj2 (Z.ltb_ge _ _)) by lia
    | rewrite (proj2 (Z.leb_le _ _)) by lia
    | rewrite (proj2 (Z.leb_gt _ _)) by lia
    | rewrite decide_True by (done || lia)
    | rewrite decide_False by (done || lia) ].

(** ** Bytes *)

(** A property of one byte is decided by checking the 256 of them. *)
Lemma byte_forall (P : Z -> bool) :
  forallb P (seqZ 0 256) = true -> forall b, is_byte b -> P b = true.
Proof.
  intros H b Hb. rewrite forallb_forall in H. apply H.
  apply list_elem_of_In, elem_of_seqZ. unfold is_byte in Hb. lia.
Qed.

(** The same for two bytes. *)
Lemma byte_forall2 (P : Z -> Z -> bool) :
  forallb (fun a => forallb (P a) (seqZ 0 256)) (seqZ 0 256) = true ->
  forall a b, is_byte a -> is_byte b -> P a b = true.
Proof.
  intros H a b Ha Hb. apply (byte_forall (P a)); [|done].
  apply (byte_forall (fun a => forallb (P a) (seqZ 0 256))); done.
Qed.

Lemma u8_byte z : is_byte (u8 z).
Proof. unfold is_byte, u8. lia_mod. Qed.

Lemma u8_small z : is_byte z -> u8 z = z.
Proof. unfold is_byte, u8. lia_mod. Qed.

Lemma lxor_byte a b : is_byte a -> is_byte b -> is_byte (Z.lxor a b).
Proof.
  intros Ha Hb.
  assert (H : ((0 <=? Z.lxor a b) && (Z.lxor a b <? 256)) = true).
  { apply (byte_forall2 (fun a b => (0 <=? Z.lxor a b) && (Z.lxor a b <? 256)));
      [vm_compute; reflexivity|done|done]. }
  reflect_bools. unfold is_byte. lia.
Qed.
#[export] Hint Resolve u8_byte lxor_byte : plab.

Lemma all_bytes_app l r : all_bytes (l ++ r) <-> all_bytes l /\ all_bytes r.
Proof. apply Forall_app. Qed.

Lemma all_bytes_take n l : all_bytes l -> all_bytes (take n l).
Proof. apply Forall_take. Qed.

Lemma all_bytes_drop n l : all_bytes l -> all_bytes (drop n l).
Proof. apply Forall_drop. Qed.

Lemma all_bytes_replicate n b : is_byte b -> all_bytes (replicate n b).
Proof. intros. by apply Forall_replicate. Qed.
#[export] Hint Resolve all_bytes_take all_bytes_drop all_bytes_replicate : plab.

Lemma len_nonneg {A} (l : list A) : 0 <= len l.
Proof. unfold len. lia. Qed.

Lemma len_app {A} (l r : list A) : len (l ++ r) = len l + len r.
Proof. unfold len. rewrite length_app. lia. Qed.

Lemma filter_snoc {A} (f : A -> bool) l x : List.filter f (l ++ [x]) = List.filter f l ++ (if f x then [x] else []).
Proof. rewrite List.filter_app. reflexivity. Qed.

(** A filter that keeps the length keeps everything. *)
Lemma filter_full {A} (f : A -> bool) l : len (List.filter f l) = len l -> List.filter f l = l.
Proof.
  unfold len. intros H. apply Nat2Z.inj in H. revert H. induction l as [|x l IH]; [reflexivity|]. cbn [List.filter]. destruct (f x).
  - cbn [length]. intros H. f_equal. apply IH. lia.
  - intros H. exfalso. pose proof (List.filter_length_le f l). cbn [length] in H. lia.
Qed.

Lemma slice_app_mid {A} (p l s : list A) a b :
  a = length p -> b = (length p + length l)%nat -> slice a b (p ++ l ++ s) = l.
Proof.
  intros -> ->. unfold slice. rewrite drop_app_length.
  replace (length p + length l - length p)%nat with (length l) by lia.
  apply take_app_length.
Qed.

(** ** encoding/binary: big-endian integers *)

(** [binary.BigEndian.PutUintN] of an [8 * n]-bit value. *)
Fixpoint be_encode (n : nat) (z : Z) : bytes :=
  match n with
  | O => []
  | S n => be_encode n (z / 256) ++ [z mod 256]
  end.

(** [binary.BigEndian.UintN]. *)
Definition be_decode (l : bytes) : Z := fold_left (fun acc b => acc * 256 + b) l 0.

Lemma length_be_encode n z : length (be_encode n z) = n.
Proof. revert z; induction n; intros; simpl; [done|]. rewrite length_app, IHn. simpl. lia. Qed.

Lemma be_encode_bytes n z : all_bytes (be_encode n z).
Proof.
  revert z; induction n as [|n IH]; intros z; simpl; [constructor|].
  apply all_bytes_app. split; [apply IH|]. repeat constructor; lia_mod.
Qed.
#[export] Hint Resolve be_encode_bytes : plab.

Lemma be_decode_snoc l b : be_decode (l ++ [b]) = be_decode l * 256 + b.
Proof. unfold be_decode. by rewrite fold_left_app. Qed.

Lemma be_decode_encode n z : be_decode (be_encode n z) = z mod 256 ^ Z.of_nat n.
Proof.
  revert z; induction n as [|n IH]; intros z; simpl be_encode.
  - by rewrite Z.mod_1_r.
  - rewrite be_decode_snoc, IH, Nat2Z.inj_succ, Z.pow_succ_r by lia.
    rewrite (Z.rem_mul_r z 256) by lia. lia.
Qed.

Lemma be_decode_bound l : all_bytes l -> 0 <= be_decode l < 256 ^ len l.
Proof.
  unfold len. induction l as [|b l IH] using rev_ind; intros H; [change (0 <= 0 < 1); lia|].
  apply all_bytes_app in H as [Hl Hb]. inversion_clear Hb as [|?? Hb' _].
  rewrite be_decode_snoc, length_app; simpl length.
  rewrite Nat2Z.inj_add, Z.pow_add_r by lia. specialize (IH Hl).
  unfold is_byte in Hb'. change (256 ^ Z.of_nat 1) with 256. nia.
Qed.

Lemma be_encode_decode l : all_bytes l -> be_encode (length l) (be_decode l) = l.
Proof.
  induction l as [|b l IH] using rev_ind; intros H; [done|].
  apply all_bytes_app in H as [Hl Hb]. inversion_clear Hb as [|?? Hb' _].
  rewrite be_decode_snoc, length_app, Nat.add_comm. simpl.
  unfold is_byte in Hb'.
  rewrite (Z.div_add_l (be_decode l) 256 b), (Z.div_small b 256) by lia.
  rewrite Z.add_0_r, IH by done. f_equal. f_equal.
  rewrite Z.add_comm, Z_mod_plus_full. apply Z.mod_small; lia.
Qed.

(** ** XOR masking ([for i := range p { p[i] ^= key[i%4] }]) *)

Definition xor_mask (key p : bytes) : bytes :=
  imap (fun i b => Z.lxor b (byte_at key (i mod 4))) p.

Lemma length_xor_mask key p : length (xor_mask key p) = length p.
Proof. apply length_imap. Qed.

Lemma byte_at_byte l i : all_bytes l -> is_byte (byte_at l i).
Proof.
  intros H. unfold byte_at. destruct (decide (i < length l)%nat).
  - eapply List.Forall_forall; [done|]. by apply nth_In.
  - rewrite nth_overflow by lia. unfold is_byte; lia.
Qed.
#[export] Hint Resolve byte_at_byte : plab.

Lemma xor_mask_bytes key p : all_bytes key -> all_bytes p -> all_bytes (xor_mask key p).
Proof.
  intros Hk Hp. unfold xor_mask. apply Forall_lookup. intros i x Hx.
  rewrite list_lookup_imap in Hx. destruct (p !! i) as [b|] eqn:E; simplify_eq/=.
  rewrite Forall_lookup in Hp. eauto with plab.
Qed.

Lemma xor_mask_involutive key p : xor_mask key (xor_mask key p) = p.
Proof.
  unfold xor_mask. apply list_eq. intros i. rewrite !list_lookup_imap.
  destruct (p !! i) as [b|]; simpl; [|done].
  by rewrite Z.lxor_assoc, Z.lxor_nilpotent, Z.lxor_0_r.
Qed.

(** ** Readers: the facts the codecs share *)

Lemma read_full_app l r e : read_full (length l) (Stream (l ++ r) e) = (Ok l, Stream r e).
Proof.
  unfold read_full; simpl. rewrite decide_True by (rewrite length_app; lia).
  by rewrite take_app_length, drop_app_length.
Qed.

Lemma read_full_app' n l r e :
  n = length l -> read_full n (Stream (l ++ r) e) = (Ok l, Stream r e).
Proof. intros ->. apply read_full_app. Qed.

Lemma read_full_ok n s l s' :
  read_full n s = (Ok l, s') ->
  length l = n /\ st_data s = l ++ st_data s' /\ st_end s' = st_end s.
Proof.
  unfold read_full. case_decide as H; intros; simplify_eq/=.
  rewrite length_take, take_drop. split_and!; [lia|done|done].
Qed.

Lemma read_full_short n s :
  (length (st_data s) < n)%nat -> exists e, read_full n s = (Err e, Stream [] (st_end s)).
Proof. intros H. unfold read_full. rewrite decide_False by lia. eauto. Qed.
