(* ===== verification/GoText.v ===== *)
(** Go's [strings], [strconv] and [encoding/hex] functions, on the byte strings the
    sources pass to them. Rocq's [string] is a sequence of octets, as Go's is. *)
From S2P Require Export Prelude.
From Stdlib Require Import Ascii.

Definition ord (a : ascii) : Z := Z.of_N (N_of_ascii a).
Definition chr (b : Z) : ascii := ascii_of_N (Z.to_N b).

(** [[]byte(s)] and [string(b)]. *)
Fixpoint bytes_of_string (s : string) : bytes :=
  match s with
  | EmptyString => []
  | String c s => ord c :: bytes_of_string s
  end.
Fixpoint string_of_bytes (l : bytes) : string :=
  match l with
  | [] => EmptyString
  | b :: l => String (chr b) (string_of_bytes l)
  end.

(** ** Case folding *)

Definition lower_ascii (a : ascii) : ascii :=
  let b := ord a in
  if (65 <=? b) && (b <=? 90) then chr (b + 32) else a.

(** [strings.ToLower]. Besides the ASCII letters, the only runes whose lower case
    is an ASCII letter are U+212A (k) and U+0130 (i); the other non-ASCII runes
    stay non-ASCII and are left as they are, so a comparison with an ASCII
    constant is exact. *)
Fixpoint to_lower (s : string) : string :=
  match s with
  | String "226"%char (String "132"%char (String "170"%char r)) => String "k" (to_lower r)
  | String "196"%char (String "176"%char r) => String "i" (to_lower r)
  | String c r => String (lower_ascii c) (to_lower r)
  | EmptyString => EmptyString
  end.

(** [strings.EqualFold(s, t)] for an ASCII constant [t]: U+017F folds with s and
    U+212A with k. *)
Fixpoint equal_fold (s t : string) : bool :=
  match t with
  | EmptyString => bool_decide (s = EmptyString)
  | String c t =>
      match s with
      | String "226"%char (String "132"%char (String "170"%char r)) =>
          bool_decide (lower_ascii c = "k"%char) && equal_fold r t
      | String "197"%char (String "191"%char r) =>
          bool_decide (lower_ascii c = "s"%char) && equal_fold r t
      | String d r => bool_decide (lower_ascii d = lower_ascii c) && equal_fold r t
      | EmptyString => false
      end
  end.

(** ** Trimming, splitting, joining *)

(** The UTF-8 encodings of the runes [unicode.IsSpace] accepts. *)
Definition space_runes : list bytes :=
  [[9]; [10]; [11]; [12]; [13]; [32]; [194; 133]; [194; 160]; [225; 154; 128]]
  ++ ((fun b => [226; 128; b]) <$> [128; 129; 130; 131; 132; 133; 134; 135; 136; 137; 138; 168; 169; 175])
  ++ [[226; 129; 159]; [227; 128; 128]].

Definition strip_prefix (p l : bytes) : option bytes :=
  if decide (take (length p) l = p) then Some (drop (length p) l) else None.

Fixpoint trim_left (fuel : nat) (spaces : list bytes) (l : bytes) : bytes :=
  match fuel with
  | O => l
  | S fuel =>
      match omap (fun p => strip_prefix p l) spaces with
      | r :: _ => trim_left fuel spaces r
      | [] => l
      end
  end.

(** [strings.TrimSpace]: the length is enough fuel, every rune having an octet. *)
Definition trim_bytes (l : bytes) : bytes :=
  let l := trim_left (length l) space_runes l in
  reverse (trim_left (length l) (reverse <$> space_runes) (reverse l)).
Definition trim_space (s : string) : string := string_of_bytes (trim_bytes (bytes_of_string s)).

(** [strings.Split(s, sep)] for a one-octet separator. *)
Fixpoint split_on (sep : ascii) (s : string) : list string :=
  match s with
  | EmptyString => [EmptyString]
  | String c r =>
      if decide (c = sep) then EmptyString :: split_on sep r
      else match split_on sep r with
           | w :: ws => String c w :: ws
           | [] => [String c EmptyString]
           end
  end.

(** [strings.Join]. *)
Fixpoint join (sep : string) (l : list string) : string :=
  match l with
  | [] => ""
  | [w] => w
  | w :: ws => w +:+ sep +:+ join sep ws
  end.

(** The [%q] of fmt, for ASCII text: quotes, backslashes and control octets escaped. *)
Definition dquote : string := String "034"%char EmptyString.
Definition hex_lower (n : Z) : ascii := chr (if n <? 10 then 48 + n else 87 + n).
Fixpoint go_escape (s : string) : string :=
  match s with
  | EmptyString => EmptyString
  | String c r =>
      let b := ord c in
      (if b =? 34 then "\" +:+ dquote
       else if b =? 92 then "\\"
       else if b =? 7 then "\a" else if b =? 8 then "\b" else if b =? 9 then "\t"
       else if b =? 10 then "\n" else if b =? 11 then "\v" else if b =? 12 then "\f"
       else if b =? 13 then "\r"
       else if (b <? 32) || (b =? 127)
       then "\x" +:+ String (hex_lower (b / 16)) (String (hex_lower (b mod 16)) EmptyString)
       else String c EmptyString) +:+ go_escape r
  end.
Definition go_quote (s : string) : string := dquote +:+ go_escape s +:+ dquote.

(** [strings.HasPrefix], [strings.TrimPrefix], [strings.Contains]. *)
Definition has_prefix (s p : string) : bool := String.prefix p s.
Definition trim_prefix (s p : string) : string :=
  if String.prefix p s then String.substring (String.length p) (String.length s - String.length p) s
  else s.
Fixpoint contains_sub (s sub : string) : bool :=
  String.prefix sub s ||
  match s with EmptyString => false | String _ r => contains_sub r sub end.

(** [strings.TrimRight(s, c)] for a one-octet cutset. *)
Fixpoint trim_right_char (c : ascii) (s : string) : string :=
  match s with
  | EmptyString => EmptyString
  | String d r =>
      match trim_right_char c r with
      | EmptyString => if decide (d = c) then EmptyString else String d EmptyString
      | r' => String d r'
      end
  end.

(** [net.JoinHostPort]. *)
Definition joinHostPort (host port : string) : string :=
  if contains_sub host ":" then "[" +:+ host +:+ "]:" +:+ port else host +:+ ":" +:+ port.

(** [slices.Contains] and the sources' own [contains] helpers are [existsb]. *)
Definition string_in (l : list string) (s : string) : bool := existsb (String.eqb s) l.

(** ** strconv.Atoi *)

Fixpoint digits_value (acc : Z) (s : string) : option Z :=
  match s with
  | EmptyString => Some acc
  | String c r =>
      let b := ord c in
      if (48 <=? b) && (b <=? 57) then digits_value (acc * 10 + (b - 48)) r else None
  end.

(** [strconv.Atoi]: an optional sign, then at least one digit, in the range of [int]. *)
Definition atoi (s : string) : option Z :=
  let signed := match s with
    | String "-" r => (-1, r)
    | String "+" r => (1, r)
    | _ => (1, s)
    end in
  match signed.2 with
  | EmptyString => None
  | _ => match digits_value 0 signed.2 with
         | Some v => let z := signed.1 * v in
             if (-9223372036854775808 <=? z) && (z <=? 9223372036854775807) then Some z else None
         | None => None
         end
  end.

(** The value [strconv.Atoi] returns beside its error: 0 for what is not a number, and the
    nearest of its range for a number out of it, whatever follows the digit that overflows
    64 bits. *)
Fixpoint digits_clamped (acc : Z) (s : string) : option Z :=
  match s with
  | EmptyString => Some acc
  | String c r =>
      let b := ord c in
      if (48 <=? b) && (b <=? 57) then
        let acc := acc * 10 + (b - 48) in
        if 18446744073709551615 <? acc then Some 18446744073709551615 else digits_clamped acc r
      else None
  end.
Definition atoi_value (s : string) : Z :=
  let signed := match s with
    | String "-" r => (-1, r)
    | String "+" r => (1, r)
    | _ => (1, s)
    end in
  match signed.2 with
  | EmptyString => 0
  | _ => match digits_clamped 0 signed.2 with
         | Some v => Z.max (-9223372036854775808) (Z.min 9223372036854775807 (signed.1 * v))
         | None => 0
         end
  end.

(** ** encoding/hex *)

Definition hex_digit (n : Z) : ascii := chr (if n <? 10 then 48 + n else 87 + n).
Fixpoint hex_encode (l : bytes) : string :=
  match l with
  | [] => EmptyString
  | b :: r => String (hex_digit (b / 16)) (String (hex_digit (b mod 16)) (hex_encode r))
  end.

Definition hex_value (c : ascii) : option Z :=
  let b := ord c in
  if (48 <=? b) && (b <=? 57) then Some (b - 48)
  else if (97 <=? b) && (b <=? 102) then Some (b - 87)
  else if (65 <=? b) && (b <=? 70) then Some (b - 55)
  else None.
Fixpoint hex_decode (s : string) : option bytes :=
  match s with
  | EmptyString => Some []
  | String c (String d r) =>
      match hex_value c, hex_value d, hex_decode r with
      | Some x, Some y, Some l => Some (x * 16 + y :: l)
      | _, _, _ => None
      end
  | _ => None
  end.

(** ** Facts *)

Lemma ord_byte a : is_byte (ord a).
Proof.
  unfold is_byte, ord. pose proof (N_ascii_bounded a). lia.
Qed.

Lemma ord_of_byte b : is_byte b -> ord (chr b) = b.
Proof.
  unfold is_byte, ord, chr. intros H.
  rewrite N_ascii_embedding by lia. lia.
Qed.

Lemma ascii_of_ord a : chr (ord a) = a.
Proof.
  unfold ord, chr. rewrite N2Z.id. apply ascii_N_embedding.
Qed.

Lemma bytes_of_string_bytes s : all_bytes (bytes_of_string s).
Proof. induction s; simpl; constructor; auto using ord_byte. Qed.

Lemma string_of_bytes_of_string s : string_of_bytes (bytes_of_string s) = s.
Proof. induction s; simpl; [done|]. by rewrite ascii_of_ord, IHs. Qed.

Lemma bytes_of_string_of_bytes l : all_bytes l -> bytes_of_string (string_of_bytes l) = l.
Proof. induction 1; simpl; [done|]. by rewrite ord_of_byte, IHForall. Qed.

Lemma bytes_of_string_app s t :
  bytes_of_string (s +:+ t) = bytes_of_string s ++ bytes_of_string t.
Proof. induction s; simpl; [done|]. by f_equal. Qed.

Lemma string_in_elem l m : string_in l m = true -> m ∈ l.
Proof.
  unfold string_in. induction l as [|x l IH]; cbn [existsb]; [done|].
  intros [H|H]%orb_prop; [apply String.eqb_eq in H as ->; left|right; by apply IH].
Qed.

Lemma elem_of_string_in l m : m ∈ l -> string_in l m = true.
Proof.
  unfold string_in. induction l as [|x l IH]; cbn [existsb]; [by intros ?%not_elem_of_nil|].
  intros [->|H]%elem_of_cons; [by rewrite String.eqb_refl|]. rewrite IH by done. apply orb_true_r.
Qed.

Lemma bytes_of_string_inj s t : bytes_of_string s = bytes_of_string t -> s = t.
Proof.
  intros H. rewrite <-(string_of_bytes_of_string s), <-(string_of_bytes_of_string t).
  by f_equal.
Qed.

#[export] Hint Resolve ord_byte bytes_of_string_bytes : plab.

Lemma hex_value_digit n : 0 <= n < 16 -> hex_value (hex_digit n) = Some n.
Proof.
  intros H. assert (Hn : is_byte n) by (unfold is_byte; lia).
  pose proof (byte_forall
    (fun n => (16 <=? n) || match hex_value (hex_digit n) with Some m => m =? n | None => false end)
    ltac:(vm_compute; reflexivity) n Hn) as E; cbv beta in E.
  apply orb_true_iff in E as [E|E]; reflect_bools; [lia|].
  destruct (hex_value (hex_digit n)); [|done]. reflect_bools. by subst.
Qed.

(** A number of the range, as [strconv.Atoi] reads it without an error. *)
Lemma atoi_value_ok s z : atoi s = Some z -> atoi_value s = z.
Proof.
  assert (Hm : forall s acc v, 0 <= acc -> digits_value acc s = Some v -> acc <= v).
  { clear. intros s; induction s as [|c s IH]; intros acc v Ha; cbn [digits_value]; [intros [= <-]; lia|].
    destruct (_ && _) eqn:E; [|done]. intros Hd. apply IH in Hd; reflect_bools; lia. }
  assert (Hc : forall s acc v, 0 <= acc -> digits_value acc s = Some v -> v <= 18446744073709551615 -> digits_clamped acc s = Some v).
  { clear -Hm. intros s; induction s as [|c s IH]; intros acc v Ha; cbn [digits_value digits_clamped]; [done|].
    destruct (_ && _) eqn:E; [|done]. intros Hd Hv.
    assert (Hn : 0 <= acc * 10 + (ord c - 48)) by (reflect_bools; lia). pose proof (Hm _ _ _ Hn Hd).
    rewrite (proj2 (Z.ltb_ge _ _)) by lia. apply IH; [exact Hn|exact Hd|exact Hv]. }
  unfold atoi, atoi_value. set (signed := match s with String "-" r => _ | String "+" r => _ | _ => _ end).
  assert (Hs : signed.1 = 1 \/ signed.1 = -1) by (unfold signed; repeat case_match; cbn; auto).
  destruct signed as [sg [|c r]]; cbn [fst snd] in *; [done|].
  destruct (digits_value 0 (String c r)) as [v|] eqn:E; [|done].
  destruct ((_ <=? _) && (_ <=? _)) eqn:Er; [|done]. intros [= <-].
  pose proof (Hm _ _ _ (Z.le_refl 0) E). reflect_bools. rewrite (Hc _ _ _ (Z.le_refl 0) E) by lia. lia.
Qed.

Example atoi_value_examples :
  atoi_value "-7" = -7 /\ atoi_value "7x" = 0 /\ atoi_value "99999999999999999999x" = 9223372036854775807 /\
  atoi_value "-9999999999999999999" = -9223372036854775808.
Proof. repeat split; reflexivity. Qed.

(** Decoding what [hex.EncodeToString] wrote gives the octets back. *)
Lemma hex_decode_encode l : all_bytes l -> hex_decode (hex_encode l) = Some l.
Proof.
  induction 1 as [|b l Hb Hl IH]; simpl; [done|]. unfold is_byte in Hb.
  rewrite !hex_value_digit, IH by lia_mod. do 2 f_equal. lia_mod.
Qed.
