(* ===== verification/GoHash.v ===== *)
(** Go's [crypto/sha256], [crypto/sha1] and [encoding/base64], executable, so that the
    digests the sources hard-code can be checked against the octets they name. *)
From S2P Require Export GoText.
From Stdlib Require Import Ascii.

(** ** 32-bit words *)

(** The low 32 bits, as a bit operation: it computes faster than [u32], its equal. *)
Definition word (z : Z) : Z := Z.land z 4294967295.
Definition rotr (x n : Z) : Z := Z.lor (Z.shiftr x n) (word (Z.shiftl x (32 - n))).
Definition rotl (x n : Z) : Z := Z.lor (word (Z.shiftl x n)) (Z.shiftr x (32 - n)).
Definition not32 (x : Z) : Z := 4294967295 - x.

(** The padded message: 0x80, zeros, and the bit length on 64 bits. *)
Definition md_pad (m : bytes) : bytes :=
  let zeros := ((119 - length m mod 64) mod 64)%nat in
  m ++ [128] ++ replicate zeros 0 ++ be_encode 8 (u64 (8 * len m)).

(** Cut a list into blocks of [n]; the list's length is enough fuel. *)
Fixpoint chunks_fuel {A} (fuel n : nat) (l : list A) : list (list A) :=
  match fuel, l with
  | S fuel, _ :: _ => take n l :: chunks_fuel fuel n (drop n l)
  | _, _ => []
  end.
Definition chunks {A} (n : nat) (l : list A) : list (list A) := chunks_fuel (length l) n l.

(** ** SHA-256 *)

(** FIPS 180-4 takes its constants from the first primes: the first 32 bits of the
    fractional parts of their cube roots (the round constants) and square roots (the
    initial state). *)
Definition small_primes : list Z :=
  filter (fun n => forallb (fun d => negb (n mod d =? 0)) (seqZ 2 (n - 2))) (seqZ 2 310).
Fixpoint cube_root_bits (n : nat) (x acc : Z) : Z :=
  match n with
  | O => acc
  | S n =>
      let next := acc + 2 ^ Z.of_nat n in
      cube_root_bits n x (if next * next * next <=? x then next else acc)
  end.
Definition sha256_k : list Z :=
  Eval vm_compute in (fun p => word (cube_root_bits 35 (p * 2 ^ 96) 0)) <$> small_primes.
Definition sha256_init : list Z :=
  Eval vm_compute in (fun p => word (Z.sqrt (p * 2 ^ 64))) <$> take 8 small_primes.

(** The message schedule, kept reversed while it grows: the last 16 words are in front. *)
Fixpoint sha256_extend (n : nat) (w : list Z) : list Z :=
  match n with
  | O => w
  | S n =>
      let w2 := byte_at w 1 in let w15 := byte_at w 14 in
      let s0 := Z.lxor (Z.lxor (rotr w15 7) (rotr w15 18)) (Z.shiftr w15 3) in
      let s1 := Z.lxor (Z.lxor (rotr w2 17) (rotr w2 19)) (Z.shiftr w2 10) in
      sha256_extend n (word (byte_at w 15 + s0 + byte_at w 6 + s1) :: w)
  end.
Definition sha256_schedule (block : bytes) : list Z :=
  reverse (sha256_extend 48 (reverse (be_decode <$> chunks 4 block))).

Definition sha256_round (s : list Z) (kw : Z * Z) : list Z :=
  match s with
  | [a; b; c; d; e; f; g; h] =>
      let S1 := Z.lxor (Z.lxor (rotr e 6) (rotr e 11)) (rotr e 25) in
      let ch := Z.lxor (Z.land e f) (Z.land (not32 e) g) in
      let t1 := h + S1 + ch + kw.1 + kw.2 in
      let S0 := Z.lxor (Z.lxor (rotr a 2) (rotr a 13)) (rotr a 22) in
      let maj := Z.lxor (Z.lxor (Z.land a b) (Z.land a c)) (Z.land b c) in
      [word (t1 + S0 + maj); a; b; c; word (d + t1); e; f; g]
  | _ => s
  end.
Definition sha256_block (s : list Z) (block : bytes) : list Z :=
  zip_with (fun x y => word (x + y)) s
    (fold_left sha256_round (zip sha256_k (sha256_schedule block)) s).

(** [sha256.Sum256]. *)
Definition sha256 (m : bytes) : bytes :=
  concat (be_encode 4 <$> fold_left sha256_block (chunks 64 (md_pad m)) sha256_init).
(** The packages' [hash] helper: the digest in lower-case hexadecimal. *)
Definition sha256_hex (m : bytes) : string := hex_encode (sha256 m).

(** ** SHA-1 *)

Fixpoint sha1_extend (n : nat) (w : list Z) : list Z :=
  match n with
  | O => w
  | S n =>
      let x := Z.lxor (Z.lxor (byte_at w 2) (byte_at w 7)) (Z.lxor (byte_at w 13) (byte_at w 15)) in
      sha1_extend n (rotl x 1 :: w)
  end.
Definition sha1_schedule (block : bytes) : list Z :=
  reverse (sha1_extend 64 (reverse (be_decode <$> chunks 4 block))).

Definition sha1_round (s : list Z) (iw : nat * Z) : list Z :=
  match s with
  | [a; b; c; d; e] =>
      let fk :=
        if (iw.1 <? 20)%nat then (Z.lor (Z.land b c) (Z.land (not32 b) d), 0x5a827999)
        else if (iw.1 <? 40)%nat then (Z.lxor (Z.lxor b c) d, 0x6ed9eba1)
        else if (iw.1 <? 60)%nat
             then (Z.lor (Z.lor (Z.land b c) (Z.land b d)) (Z.land c d), 0x8f1bbcdc)
        else (Z.lxor (Z.lxor b c) d, 0xca62c1d6) in
      [word (rotl a 5 + fk.1 + e + fk.2 + iw.2); a; rotl b 30; c; d]
  | _ => s
  end.
Definition sha1_block (s : list Z) (block : bytes) : list Z :=
  zip_with (fun x y => word (x + y)) s
    (fold_left sha1_round (imap (fun i w => (i, w)) (sha1_schedule block)) s).

(** [sha1.Sum]. *)
Definition sha1 (m : bytes) : bytes :=
  concat (be_encode 4 <$> fold_left sha1_block (chunks 64 (md_pad m))
    [0x67452301; 0xefcdab89; 0x98badcfe; 0x10325476; 0xc3d2e1f0]).

(** ** Base64, standard alphabet *)

Definition b64_char (n : Z) : ascii :=
  chr (if n <? 26 then 65 + n else if n <? 52 then 71 + n
                 else if n <? 62 then n - 4 else if n =? 62 then 43 else 47).
Definition b64_value (c : ascii) : option Z :=
  let b := ord c in
  if (65 <=? b) && (b <=? 90) then Some (b - 65)
  else if (97 <=? b) && (b <=? 122) then Some (b - 71)
  else if (48 <=? b) && (b <=? 57) then Some (b + 4)
  else if b =? 43 then Some 62 else if b =? 47 then Some 63 else None.

Definition b64_quad (x y z : Z) : list ascii :=
  b64_char <$> [x / 4; (x mod 4) * 16 + y / 16; (y mod 16) * 4 + z / 64; z mod 64].

(** [base64.StdEncoding.EncodeToString] and, without the padding, [RawStdEncoding]. *)
Fixpoint b64_encode (padded : bool) (l : bytes) : list ascii :=
  match l with
  | [] => []
  | [x] => take 2 (b64_quad x 0 0) ++ (if padded then ["="%char; "="%char] else [])
  | [x; y] => take 3 (b64_quad x y 0) ++ (if padded then ["="%char] else [])
  | x :: y :: z :: r => b64_quad x y z ++ b64_encode padded r
  end.
Definition base64_std_encode (l : bytes) : string := String.string_of_list_ascii (b64_encode true l).

(** [base64.RawURLEncoding]: '-' and '_' for '+' and '/', no padding. *)
Definition url_char (c : ascii) : ascii :=
  if ord c =? 43 then chr 45 else if ord c =? 47 then chr 95 else c.
Definition base64_rawurl_encode (l : bytes) : string := String.string_of_list_ascii (url_char <$> b64_encode false l).

(** The decoder drops '\r' and '\n' wherever they stand, as Go's does, and does not
    require the unused bits of the last quantum to be zero (Go's [Strict] mode is off). *)
Fixpoint b64_decode (padded : bool) (l : list ascii) : option bytes :=
  match l with
  | [] => Some []
  | a :: b :: c :: d :: r =>
      match b64_value a, b64_value b with
      | Some w, Some x =>
          match b64_value c, b64_value d with
          | Some y, Some z =>
              t ← b64_decode padded r;
              Some (w * 4 + x / 16 :: (x mod 16) * 16 + y / 4 :: (y mod 4) * 64 + z :: t)
          | Some y, None =>
              if padded && bool_decide (d = "="%char) && bool_decide (r = [])
              then Some [w * 4 + x / 16; (x mod 16) * 16 + y / 4] else None
          | None, _ =>
              if padded && bool_decide (c = "="%char) && bool_decide (d = "="%char) && bool_decide (r = [])
              then Some [w * 4 + x / 16] else None
          end
      | _, _ => None
      end
  | [a; b; c] =>
      if padded then None else
      match b64_value a, b64_value b, b64_value c with
      | Some w, Some x, Some y => Some [w * 4 + x / 16; (x mod 16) * 16 + y / 4]
      | _, _, _ => None
      end
  | [a; b] =>
      if padded then None else
      match b64_value a, b64_value b with
      | Some w, Some x => Some [w * 4 + x / 16]
      | _, _ => None
      end
  | _ => None
  end.
Definition strip_newlines (s : string) : list ascii :=
  filter (fun c => c <> "010"%char /\ c <> "013"%char) (String.list_ascii_of_string s).
Definition base64_std_decode (s : string) : option bytes := b64_decode true (strip_newlines s).
Definition base64_raw_decode (s : string) : option bytes := b64_decode false (strip_newlines s).

(** ** Known-answer tests and shape facts *)

Example sha256_empty :
  sha256_hex [] = "e3b0c44298fc1c149afbf4c8996fb92427ae41e4649b934ca495991b7852b855".
Proof. vm_compute. reflexivity. Qed.

Example sha256_two_blocks :
  sha256_hex (bytes_of_string "abcdbcdecdefdefgefghfghighijhijkijkljklmklmnlmnomnopnopq")
  = "248d6a61d20638b8e5c026930c3e6039a33ce45964ff2167f6ecedd419db06c1".
Proof. vm_compute. reflexivity. Qed.

Example sha1_abc :
  hex_encode (sha1 (bytes_of_string "abc")) = "a9993e364706816aba3e25717850c26c9cd0d89d".
Proof. vm_compute. reflexivity. Qed.

Lemma b64_value_char n : 0 <= n < 64 -> b64_value (b64_char n) = Some n.
Proof.
  intros H. assert (Hn : is_byte n) by (unfold is_byte; lia).
  pose proof (byte_forall
    (fun n => (64 <=? n) || match b64_value (b64_char n) with Some m => m =? n | None => false end)
    ltac:(vm_compute; reflexivity) n Hn) as E; cbv beta in E.
  apply orb_true_iff in E as [E|E]; reflect_bools; [lia|].
  destruct (b64_value (b64_char n)); [|done]. reflect_bools. by subst.
Qed.

Lemma b64_char_printable n : 0 <= n < 64 -> b64_char n <> "010"%char /\ b64_char n <> "013"%char.
Proof.
  intros H. pose proof (b64_value_char n H) as E.
  split; intros Hc; rewrite Hc in E; vm_compute in E; done.
Qed.

(** Induction by quanta of three octets. *)
Lemma list_ind3 {A} (P : list A -> Prop) :
  P [] -> (forall x, P [x]) -> (forall x y, P [x; y]) ->
  (forall x y z r, P r -> P (x :: y :: z :: r)) -> forall l, P l.
Proof.
  intros H0 H1 H2 H3. fix IH 1. intros [|x [|y [|z r]]];
    [exact H0|exact (H1 x)|exact (H2 x y)|exact (H3 x y z r (IH r))].
Qed.

(** Both alphabets' encoders are inverted by their decoders. *)
Lemma b64_decode_encode p l : all_bytes l -> b64_decode p (b64_encode p l) = Some l.
Proof.
  induction l as [|x|x y|x y z r IH] using list_ind3; intros H; [done| | |];
    repeat match goal with H : all_bytes (_ :: _) |- _ => inversion_clear H end;
    unfold is_byte in *.
  - destruct p; cbn; rewrite !b64_value_char by lia_mod; [vm_compute (b64_value "="%char); cbn|];
      do 2 f_equal; lia_mod.
  - destruct p; cbn; rewrite !b64_value_char by lia_mod; [vm_compute (b64_value "="%char); cbn|];
      repeat f_equal; lia_mod.
  - cbn. rewrite !b64_value_char by lia_mod.
    rewrite IH by done. cbn. repeat f_equal; lia_mod.
Qed.

Lemma b64_encode_no_newline p l : all_bytes l ->
  Forall (fun c => c <> "010"%char /\ c <> "013"%char) (b64_encode p l).
Proof.
  induction l as [|x|x y|x y z r IH] using list_ind3; intros H; [constructor| | |];
    repeat match goal with H : all_bytes (_ :: _) |- _ => inversion_clear H end;
    unfold is_byte in *.
  3: { cbn. repeat (constructor; [apply b64_char_printable; lia_mod|]). by apply IH. }
  all: destruct p; cbn; repeat (constructor; [first [apply b64_char_printable; lia_mod|done]|]);
    constructor.
Qed.

Lemma strip_newlines_id l :
  Forall (fun c => c <> "010"%char /\ c <> "013"%char) l ->
  strip_newlines (String.string_of_list_ascii l) = l.
Proof.
  intros H. unfold strip_newlines. rewrite String.list_ascii_of_string_of_list_ascii.
  induction H as [|c l Hc Hl IH]; [done|]. by rewrite filter_cons_True, IH.
Qed.

(** [base64.StdEncoding]: decoding what was encoded gives the octets back. *)
Lemma base64_std_roundtrip l : all_bytes l -> base64_std_decode (base64_std_encode l) = Some l.
Proof.
  intros H. unfold base64_std_decode, base64_std_encode.
  by rewrite strip_newlines_id, b64_decode_encode by auto using b64_encode_no_newline.
Qed.

(** Four characters for every quantum of three octets, the last one padded. *)
Lemma length_b64_encode l : length (b64_encode true l) = (4 * ((length l + 2) / 3))%nat.
Proof.
  induction l as [|x|x y|x y z r IH] using list_ind3; [reflexivity|reflexivity|reflexivity|].
  cbn [b64_encode length]. rewrite length_app, IH. change (length (b64_quad x y z)) with 4%nat.
  replace (S (S (S (length r))) + 2)%nat with (length r + 2 + 1 * 3)%nat by lia.
  rewrite Nat.div_add by lia. lia.
Qed.

(** A SHA-1 digest has at most twenty octets. *)
Lemma length_sha1 m : (length (sha1 m) <= 20)%nat.
Proof.
  unfold sha1. set (init := [_; _; _; _; _]).
  assert (H : forall blocks s, (length (fold_left sha1_block blocks s) <= length s)%nat).
  { induction blocks as [|b blocks IH]; intros s; cbn [fold_left]; [lia|].
    etrans; [apply IH|]. unfold sha1_block. rewrite length_zip_with. lia. }
  specialize (H (chunks 64 (md_pad m)) init). revert H. generalize (fold_left sha1_block (chunks 64 (md_pad m)) init).
  intros l Hl. change (length init) with 5%nat in Hl.
  assert (Hc : length (concat (be_encode 4 <$> l)) = (4 * length l)%nat).
  { clear. induction l as [|x l IH]; [done|]. cbn [fmap list_fmap concat length].
    rewrite length_app, length_be_encode, IH. lia. }
  lia.
Qed.

(** A SHA-256 digest has thirty-two octets. *)
Lemma length_sha256 m : length (sha256 m) = 32%nat.
Proof.
  assert (Hr : forall s kw, length s = 8%nat -> length (sha256_round s kw) = 8%nat).
  { intros s kw H. do 9 (destruct s as [|? s]; try discriminate H). reflexivity. }
  assert (Hrs : forall kws s, length s = 8%nat -> length (fold_left sha256_round kws s) = 8%nat).
  { induction kws as [|kw kws IH]; intros s H; cbn [fold_left]; auto. }
  assert (Hb : forall blocks s, length s = 8%nat -> length (fold_left sha256_block blocks s) = 8%nat).
  { induction blocks as [|b blocks IH]; intros s H; cbn [fold_left]; [done|]. apply IH.
    unfold sha256_block. rewrite length_zip_with, Hrs by done. rewrite H. reflexivity. }
  unfold sha256. specialize (Hb (chunks 64 (md_pad m)) sha256_init eq_refl). revert Hb.
  generalize (fold_left sha256_block (chunks 64 (md_pad m)) sha256_init). clear. intros l Hl.
  do 9 (destruct l as [|? l]; try discriminate Hl). cbn [fmap list_fmap concat].
  rewrite !length_app, !length_be_encode. reflexivity.
Qed.
