(* ===== verification/Certificates.v ===== *)
(** The test certificates of the WebSocket, secure DNS, CONNECT-UDP, WebTransport and TLS
    packages, for concrete runs of the certificate gates. *)
From S2P Require Export GoHash.

(** The certificate of the package (certs/root.pem, self-signed, also the server's leaf);
    its SubjectPublicKeyInfo is octets 131 to 222 of the DER encoding. *)
Definition root_pem : string :=
  "MIIBfDCCASKgAwIBAgIIHEnFSWgRuB4wCgYIKoZIzj0EAwIwHjEcMBoGA1UEAxMT" +:+
  "d2Vic29ja2V0LnBsYWIudGVzdDAeFw0yNjA3MTIyMDQwNTlaFw0zNjA3MTMyMDQw" +:+
  "NTlaMB4xHDAaBgNVBAMTE3dlYnNvY2tldC5wbGFiLnRlc3QwWTATBgcqhkjOPQIB" +:+
  "BggqhkjOPQMBBwNCAATs6lG8QJNu0icym9iDUAymDrd6t8fzES0cTdfvySDl7NcV" +:+
  "UnKqfgnmHYrKLABs44KzLEmT/PKbe5ugKNK306Wso0owSDAeBgNVHREEFzAVghN3" +:+
  "ZWJzb2NrZXQucGxhYi50ZXN0MA4GA1UdDwEB/wQEAwIHgDAWBgNVHSUBAf8EDDAK" +:+
  "BggrBgEFBQcDATAKBggqhkjOPQQDAgNIADBFAiEA9gJ/dWZcKPiLUlvzdCLSrmUw" +:+
  "oY1mRDeyRBScusD9KBgCIBV+Lt9gpl1kcNZsfJqFHMmzduy+GSUXqj3UcPoNV6IW".
Definition root_der : bytes := default [] (base64_std_decode root_pem).
Definition root_spki : bytes := slice 131 222 root_der.

(** The leaf certificate of go-dns-dot (certs/leaf.pem), and the SubjectPublicKeyInfo in it. *)
Definition dns_leaf_pem : string :=
  "MIIB1jCCAXygAwIBAgIUL9ejVf5b065emQvg/5cDE51k5F8wCgYIKoZIzj0EAwIw" +:+
  "KzEpMCcGA1UEAwwgUHJvdG9jb2xMYWIgU2VjdXJlIEROUyBUZXN0IFJvb3QwHhcN" +:+
  "MjYwNzEzMTcyNTE2WhcNMzYwNzEwMTcyNTE2WjAYMRYwFAYDVQQDDA1kbnMucGxh" +:+
  "Yi50ZXN0MFkwEwYHKoZIzj0CAQYIKoZIzj0DAQcDQgAELMjDBqse5EPJA7kqjNIv" +:+
  "Oia4kTPusFsbKbeIxJi9RJc7Hf2VPTIwhpwCcvbifc7Wdasx7Wg9xVB0fVLWCP2e" +:+
  "RaOBkDCBjTAYBgNVHREEETAPgg1kbnMucGxhYi50ZXN0MAwGA1UdEwEB/wQCMAAw" +:+
  "DgYDVR0PAQH/BAQDAgeAMBMGA1UdJQQMMAoGCCsGAQUFBwMBMB0GA1UdDgQWBBRh" +:+
  "5B6F+s3P+u4y5GUZe0hZRE2ShjAfBgNVHSMEGDAWgBRLvIwwQcRVRNy8W4gfXXT0" +:+
  "6huEHDAKBggqhkjOPQQDAgNIADBFAiEAssPJFRkDmuNqzIGeOfKWydwTwNOKZe2r" +:+
  "72W9inZ3of8CIC/fjdDp+UZbXabebvgk2VEKwM0ZJO9fovy89DwDz09M".
Definition dns_leaf_der : bytes := default [] (base64_std_decode dns_leaf_pem).
Definition dns_leaf_spki : bytes := slice 150 241 dns_leaf_der.

(** The certificate of masque-go-connect-udp and envoy-connect-udp (certs/server.pem). *)
Definition masque_server_pem : string :=
  "MIIBbDCCARKgAwIBAgIJANNlWc6rhH5DMAoGCCqGSM49BAMCMCExHzAdBgNVBAMT" +:+
  "Fm1hc3F1ZS1wcm94eS5wbGFiLnRlc3QwHhcNMjYwNzE3MDUxNjE1WhcNMzYwNzE3" +:+
  "MDUyMTE1WjAhMR8wHQYDVQQDExZtYXNxdWUtcHJveHkucGxhYi50ZXN0MFkwEwYH" +:+
  "KoZIzj0CAQYIKoZIzj0DAQcDQgAEuVO8nxyLAerQWy/zE0s6AsTfXubAvjDSAYhb" +:+
  "91Tu4/kxjSMToUwtljBizjIdo0Ocn5rxkYHGGl2YqePhLzbrk6MzMDEwIQYDVR0R" +:+
  "BBowGIIWbWFzcXVlLXByb3h5LnBsYWIudGVzdDAMBgNVHRMBAf8EAjAAMAoGCCqG" +:+
  "SM49BAMCA0gAMEUCIQC3Uer3bksb2yvX2Tb325TCDqb1A24zLAKSWYrpFwIW/wIg" +:+
  "MISdk0BACvmJvXnCjbwQ+8LjAMxxKqxeTf74doSnWBQ=".
Definition masque_server_der : bytes := default [] (base64_std_decode masque_server_pem).
Definition masque_server_spki : bytes := slice 138 229 masque_server_der.

(** The certificate of webtransport-go (certs/leaf.pem). *)
Definition webtransport_leaf_pem : string :=
  "MIIBhTCCASygAwIBAgIJAMw1G+gquC9TMAoGCCqGSM49BAMCMCExHzAdBgNVBAMT" +:+
  "FndlYnRyYW5zcG9ydC5wbGFiLnRlc3QwHhcNMjYwNzE2MDQyMTEzWhcNMzYwNzE3" +:+
  "MDQyMTEzWjAhMR8wHQYDVQQDExZ3ZWJ0cmFuc3BvcnQucGxhYi50ZXN0MFkwEwYH" +:+
  "KoZIzj0CAQYIKoZIzj0DAQcDQgAErNb4rBGAqD7Fb1QMQV7RG9XPpxhT9v2vQQXY" +:+
  "zlncMk727OfLQtf807xQyiMn+AWLYgsTqRAqzPY/gcp4I+4m0qNNMEswIQYDVR0R" +:+
  "BBowGIIWd2VidHJhbnNwb3J0LnBsYWIudGVzdDAOBgNVHQ8BAf8EBAMCB4AwFgYD" +:+
  "VR0lAQH/BAwwCgYIKwYBBQUHAwEwCgYIKoZIzj0EAwIDRwAwRAIgAR/2xMrwluCc" +:+
  "O74elQHVJBYv7/WUO4xRxz/en4FM2iMCIEfNn5xDklGiqSjO5RA+hiyYxhnnqVw7" +:+
  "En1dwuRXL/to".
Definition webtransport_leaf_der : bytes := default [] (base64_std_decode webtransport_leaf_pem).
Definition webtransport_leaf_spki : bytes := slice 138 229 webtransport_leaf_der.

(** The certificate of the TLS servers (certs/leaf.pem). *)
Definition tls_leaf_pem : string :=
  "MIIBxjCCAWygAwIBAgIMUExBQgAAAAAAAAARMAoGCCqGSM49BAMCMCMxITAfBgNV" +:+
  "BAMMGFByb3RvY29sTGFiIFRlc3QgUm9vdCB2MjAeFw0yNjA3MTMxNzEyMTBaFw0y" +:+
  "ODEwMTUxNzEyMTBaMBgxFjAUBgNVBAMMDXRscy5wbGFiLnRlc3QwWTATBgcqhkjO" +:+
  "PQIBBggqhkjOPQMBBwNCAATfHA4aQyT7SNJppNIGhjY6ZJpwVU5df/7jyMDYt+A4" +:+
  "xlFnLpk6chgIZ+SKdi58lIJ8hx/B6+pddlBXekea+myFo4GQMIGNMBgGA1UdEQQR" +:+
  "MA+CDXRscy5wbGFiLnRlc3QwDAYDVR0TAQH/BAIwADAOBgNVHQ8BAf8EBAMCB4Aw" +:+
  "EwYDVR0lBAwwCgYIKwYBBQUHAwEwHQYDVR0OBBYEFEInv3KZpx/D7MYT4HVhsmK2" +:+
  "XCBcMB8GA1UdIwQYMBaAFGPZ1NSQZ8UPrtAH2wmIMX8q2fgxMAoGCCqGSM49BAMC" +:+
  "A0gAMEUCIQDmdE3cvpuZ+nez/LPfFIwfog6g7D1mQrI/ykj5iB5PFwIgY8DBEV5q" +:+
  "0618a7u/GU3WcOr76arg1EmxawyUbgocNqY=".
Definition tls_leaf_der : bytes := default [] (base64_std_decode tls_leaf_pem).
Definition tls_leaf_spki : bytes := slice 134 225 tls_leaf_der.

(** The certificate of go-tls13-mtls-executor (certs/client.pem). *)
Definition tls_client_pem : string :=
  "MIIB0jCCAXmgAwIBAgIUKTlZBgiBCNAWk786sv8DUuOjS9YwCgYIKoZIzj0EAwIw" +:+
  "IjEgMB4GA1UEAwwXUHJvdG9jb2xMYWIgQ2xpZW50IFJvb3QwHhcNMjYwNzEzMjEy" +:+
  "ODE4WhcNMzYwNzEwMjEyODE4WjAbMRkwFwYDVQQDDBBjbGllbnQucGxhYi50ZXN0" +:+
  "MFkwEwYHKoZIzj0CAQYIKoZIzj0DAQcDQgAEL6ISGbEho1WAuMbzKpWnLjeOMXcu" +:+
  "9vruaDgEbMAz+eANUq6L1OYfq5s1e2nR8RgTX/MLSDTVb+Nf5EkpV4bGQaOBkzCB" +:+
  "kDAbBgNVHREEFDASghBjbGllbnQucGxhYi50ZXN0MAwGA1UdEwEB/wQCMAAwDgYD" +:+
  "VR0PAQH/BAQDAgeAMBMGA1UdJQQMMAoGCCsGAQUFBwMCMB0GA1UdDgQWBBS/C8kj" +:+
  "ffTAp6HCNTFLU9BfdlUQ+zAfBgNVHSMEGDAWgBTPlj8HWXA16LPsy2i9Em+bTW5i" +:+
  "YDAKBggqhkjOPQQDAgNHADBEAiBvghLuXJLuaOSjiHHA/qEUAhvPBFiZHy5qaLga" +:+
  "ajVP+QIgV0HFOOqqmRQYK8oYREbNs0zOQwsRvTCozv4E2FklOMI=".
Definition tls_client_der : bytes := default [] (base64_std_decode tls_client_pem).
Definition tls_client_spki : bytes := slice 144 235 tls_client_der.
