(* ===== verification/Stats.v ===== *)
(** Latency statistics: the [mean] and [percentile] helpers of the executors, over
    IEEE binary64 values computed exactly as Go's [float64] arithmetic does
    (round to nearest even, [SpecFloat] with 53 bits of precision). *)
From S2P Require Export Prelude.
From Stdlib Require Export SpecFloat.
From Stdlib Require Import Sorted Permutation.

Abbreviation float64 := spec_float.

Definition f_of_Z (z : Z) : float64 := binary_normalize 53 1024 z 0 false.
Definition f_zero : float64 := S754_zero false.
Definition fadd : float64 -> float64 -> float64 := SFadd 53 1024.
Definition fsub : float64 -> float64 -> float64 := SFsub 53 1024.
Definition fmul : float64 -> float64 -> float64 := SFmul 53 1024.
Definition fdiv : float64 -> float64 -> float64 := SFdiv 53 1024.
Definition f_is_nan (x : float64) : bool := match x with S754_nan => true | _ => false end.

(** The decimal constants of the sources, [n / d] rounded to nearest. *)
Definition f_ratio (n d : Z) : float64 := fdiv (f_of_Z n) (f_of_Z d).

(** [int(math.Ceil(x))] and [int(math.Floor(x))] of a finite [x]; the sources only
    apply them to [q * float64(n)] with a finite [q]. *)
Definition f_ceil (x : float64) : Z :=
  match x with
  | S754_finite s m e =>
      let v := if s then Z.neg m else Z.pos m in
      if 0 <=? e then v * 2 ^ e else - ((- v) / 2 ^ (- e))
  | _ => 0
  end.
Definition f_floor (x : float64) : Z :=
  match x with
  | S754_finite s m e =>
      let v := if s then Z.neg m else Z.pos m in
      if 0 <=? e then v * 2 ^ e else v / 2 ^ (- e)
  | _ => 0
  end.

(** [durationMS]: a [time.Duration] (nanoseconds) in milliseconds. *)
Definition durationMS (ns : Z) : float64 := fdiv (f_of_Z ns) (f_of_Z 1000000).

(** [Duration.Seconds()]: the whole seconds, and the rest as a fraction. *)
Definition seconds (ns : Z) : float64 :=
  fadd (f_of_Z (Z.quot ns 1000000000)) (fdiv (f_of_Z (Z.rem ns 1000000000)) (f_of_Z 1000000000)).

(** ** sort.Float64s *)

(** The order of [sort.Float64s]: NaN before every other value. *)
Definition f_less (x y : float64) : bool :=
  SFltb x y || (f_is_nan x && negb (f_is_nan y)).

Fixpoint f_insert (x : float64) (l : list float64) : list float64 :=
  match l with
  | [] => [x]
  | y :: r => if f_less x y then x :: l else y :: f_insert x r
  end.
Definition sort_floats (l : list float64) : list float64 := foldr f_insert [] l.

(** ** The helpers *)

Definition mean (values : list float64) : float64 :=
  match values with
  | [] => f_zero
  | _ => fdiv (fold_left fadd values f_zero) (f_of_Z (len values))
  end.

(** [int(math.Ceil(q*float64(n))) - 1], clamped to the indices of a slice of [n]. *)
Definition percentile_index (q : float64) (n : Z) : Z :=
  let index := f_ceil (fmul q (f_of_Z n)) - 1 in
  let index := if index <? 0 then 0 else index in
  if n <=? index then n - 1 else index.

Definition percentile (values : list float64) (q : float64) : float64 :=
  match values with
  | [] => f_zero
  | _ => nth (Z.to_nat (percentile_index q (len values))) (sort_floats values) f_zero
  end.

(** quic-go-raw-load interpolates between the two neighbours of an already sorted
    slice; [p] is in percent. *)
Definition percentile_position (p : float64) (n : Z) : float64 :=
  fmul (fdiv p (f_of_Z 100)) (f_of_Z (n - 1)).

Definition percentile_interpolated (values : list float64) (p : float64) : float64 :=
  match values with
  | [] => f_zero
  | v0 :: _ =>
      if SFleb p f_zero then v0
      else if SFleb (f_of_Z 100) p then List.last values f_zero
      else
        let position := percentile_position p (len values) in
        let lower := f_floor position in
        let upper := f_ceil position in
        let at_ i := nth (Z.to_nat i) values f_zero in
        if lower =? upper then at_ lower
        else
          let weight := fsub position (f_of_Z lower) in
          fadd (fmul (at_ lower) (fsub (f_of_Z 1) weight)) (fmul (at_ upper) weight)
  end.

(** ** Facts *)

Lemma sf_compare_flip x y :
  SFcompare y x = match SFcompare x y with
                  | Some Lt => Some Gt | Some Gt => Some Lt | c => c end.
Proof.
  destruct x as [[]|[]| |[] mx ex], y as [[]|[]| |[] my ey]; simpl; try done;
    rewrite (Z.compare_antisym ex ey);
    pose proof (Pos.compare_cont_antisym mx my Eq) as E; simpl in E; rewrite <-E;
    destruct (ex ?= ey); simpl; try done;
    destruct (Pos.compare_cont Eq mx my); done.
Qed.

Lemma f_less_asym x y : f_less x y = true -> f_less y x = false.
Proof.
  unfold f_less, SFltb. rewrite (sf_compare_flip x y).
  destruct x as [| | |], y as [| | |]; simpl; try done;
    repeat case_match; simpl in *; try done.
Qed.

Lemma f_insert_perm x l : Permutation (f_insert x l) (x :: l).
Proof.
  induction l as [|y l IH]; simpl; [done|]. destruct (f_less x y); [done|].
  rewrite IH. by constructor.
Qed.

Lemma sort_floats_perm l : Permutation (sort_floats l) l.
Proof. induction l; simpl; [done|]. rewrite f_insert_perm. by constructor. Qed.

Lemma length_sort_floats l : length (sort_floats l) = length l.
Proof. apply Permutation_length, sort_floats_perm. Qed.

Definition f_ordered (l : list float64) : Prop := Sorted (fun x y => f_less y x = false) l.

Lemma f_insert_ordered x l : f_ordered l -> f_ordered (f_insert x l).
Proof.
  unfold f_ordered. induction l as [|y l IH]; intros H; simpl; [repeat constructor|].
  destruct (f_less x y) eqn:E.
  - constructor; [done|]. constructor. by apply f_less_asym.
  - apply Sorted_inv in H as [H Hd]. constructor; [by apply IH|].
    destruct l as [|z l]; simpl; [by constructor|].
    destruct (f_less x z); constructor; [done|]. by inversion Hd.
Qed.

Lemma sort_floats_ordered l : f_ordered (sort_floats l).
Proof. induction l; simpl; [constructor|by apply f_insert_ordered]. Qed.

Lemma percentile_index_bounds q n : 0 < n -> 0 <= percentile_index q n < n.
Proof.
  intros Hn. unfold percentile_index.
  destruct (Z.ltb_spec (f_ceil (fmul q (f_of_Z n)) - 1) 0); [decide_ifs; lia|].
  destruct (Z.leb_spec n (f_ceil (fmul q (f_of_Z n)) - 1)); lia.
Qed.

(** The reported quantiles: the position [n] is checked for every sample count up to
    a bound, against the exact nearest rank [ceil(num * n / den)]. *)
Definition rank_exact (num den n : Z) : Z := - ((- (num * n)) / den).
Definition reported_quantiles : list (Z * Z) := [(50, 100); (75, 100); (90, 100); (95, 100); (99, 100)].
Definition nearest_rank_upto (bound : Z) : bool :=
  forallb (fun '(num, den) =>
    forallb (fun n => percentile_index (f_ratio num den) n =? rank_exact num den n - 1)
      (seqZ 1 bound)) reported_quantiles.
Definition interpolation_in_range_upto (bound : Z) : bool :=
  forallb (fun p =>
    forallb (fun n => let pos := percentile_position (f_of_Z p) n in
      (0 <=? f_floor pos) && (f_floor pos <=? f_ceil pos) && (f_ceil pos <? n))
      (seqZ 1 bound)) [50; 75; 90; 95; 99].

Lemma nearest_rank_upto_spec bound num den n :
  nearest_rank_upto bound = true -> In (num, den) reported_quantiles -> 0 < n <= bound ->
  percentile_index (f_ratio num den) n = rank_exact num den n - 1.
Proof.
  intros H Hq Hn. unfold nearest_rank_upto in H.
  rewrite forallb_forall in H. specialize (H _ Hq). cbv beta iota in H.
  rewrite forallb_forall in H. apply Z.eqb_eq, H.
  apply list_elem_of_In, elem_of_seqZ. lia.
Qed.

Lemma nearest_rank_2000 : nearest_rank_upto 2000 = true.
Proof. vm_compute. reflexivity. Qed.

(** ** Properties *)

(** For a sample of 1 to 2000 values, the 50th, 75th, 90th, 95th and 99th
    percentile the executors report is the value of nearest rank, [ceil(q*n)], of
    the sorted sample: the binary64 rounding of [q*float64(n)] never moves the rank. *)
Theorem percentile_nearest_rank : forall values num den,
  In (num, den) reported_quantiles -> 0 < len values <= 2000 ->
  exists sorted, Permutation sorted values /\ f_ordered sorted /\
    nth_error sorted (Z.to_nat (rank_exact num den (len values) - 1))
    = Some (percentile values (f_ratio num den)).
Proof.
  intros values num den Hq Hn.
  rewrite <-(nearest_rank_upto_spec _ _ _ _ nearest_rank_2000 Hq Hn).
  exists (sort_floats values). split_and!;
    [apply sort_floats_perm|apply sort_floats_ordered|].
  pose proof (percentile_index_bounds (f_ratio num den) (len values) ltac:(lia)) as Hb.
  unfold percentile. destruct values as [|v vs] eqn:E; [unfold len in Hn; simpl in Hn; lia|].
  rewrite <-E in *. apply nth_error_nth'.
  rewrite length_sort_floats. unfold len in *. lia.
Qed.

Lemma percentile_nearest_rank_witness :
  exists sorted, Permutation sorted [f_of_Z 3; f_of_Z 1; f_of_Z 2] /\ f_ordered sorted /\
    nth_error sorted (Z.to_nat (rank_exact 95 100 3 - 1))
    = Some (percentile [f_of_Z 3; f_of_Z 1; f_of_Z 2] (f_ratio 95 100)).
Proof.
  apply (percentile_nearest_rank [f_of_Z 3; f_of_Z 1; f_of_Z 2] 95 100).
  - simpl. do 3 right. left. reflexivity.
  - vm_compute. split; [reflexivity|discriminate].
Defined.
