(* ===== verification/WsCodec.v ===== *)
(** RFC 6455 frames: the blocking reader and the writers of the HTTP/1.1 executor and
    server, and the incremental parser and writer of the HTTP/2 executor. *)
From S2P Require Export Prelude.

(** ** The TLS executor's frames (go-http1-websocket-tls-executor) *)

Module Client.

Record wireFrame := WireFrame {
  fin : bool;
  rsv : Z;
  opcode : Z;
  masked : bool;
  payload : bytes;
  nbytes : Z
}.
Definition wireFrame_zero : wireFrame := WireFrame false 0 0 false [] 0.

Definition add_bytes (n : Z) (f : wireFrame) : wireFrame :=
  WireFrame (fin f) (rsv f) (opcode f) (masked f) (payload f) (nbytes f + n).
Definition set_payload (p : bytes) (f : wireFrame) : wireFrame :=
  WireFrame (fin f) (rsv f) (opcode f) (masked f) p (nbytes f).

(** The octets [writeClientFrameWithRSV1] sends; [mask] is what [rand.Read] returns. *)
Definition clientFrame (mask : res bytes) (opcode : Z) (payload : bytes) (rsv1 : bool) : res bytes :=
  let first := Z.lor 0x80 opcode in
  let first := if rsv1 then Z.lor first 0x40 else first in
  let? header :=
    (if len payload <=? 125 then Ok [first; Z.lor 0x80 (u8 (len payload))]
     else if len payload <=? 65535 then
       Ok [first; Z.lor 0x80 126; u8 (Z.shiftr (len payload) 8); u8 (len payload)]
     else Err (EMsg "payload exceeds package limit")) in
  let? mask := mask in
  Ok (header ++ mask ++ xor_mask mask payload).

(** The number of octets written, the error, and the connection after the call. *)
Definition writeClientFrameWithRSV1 (c : conn) (mask : res bytes) (opcode : Z) (payload : bytes)
    (rsv1 : bool) : (Z * option goerror) * conn :=
  match clientFrame mask opcode payload rsv1 with
  | Err e => ((0, Some e), c)
  | Ok wire => conn_write wire c
  end.

Definition writeClientFrame (c : conn) (mask : res bytes) (opcode : Z) (payload : bytes)
    : (Z * option goerror) * conn :=
  writeClientFrameWithRSV1 c mask opcode payload false.

(** The decoded length, the octets it took, the error. *)
Definition readPayloadLength (s : stream) (encoded : Z) : (Z * Z * option goerror) * stream :=
  if encoded =? 126 then
    match read_full 2 s with
    | (Err e, s) => ((0, 2, Some e), s)
    | (Ok value, s) => ((be_decode value, 2, None), s)
    end
  else if encoded =? 127 then
    match read_full 8 s with
    | (Err e, s) => ((0, 8, Some e), s)
    | (Ok value, s) =>
        let length := be_decode value in
        if 9223372036854775807 <? length
        then ((0, 8, Some (EMsg "frame length overflows int")), s)
        else ((int_of length, 8, None), s)
    end
  else ((encoded, 0, None), s).

(** The frame as far as it was read, the error, and the rest of the stream. *)
Definition readFrame (requireMask : bool) (s : stream) : (wireFrame * option goerror) * stream :=
  match read_full 2 s with
  | (Err e, s) => ((wireFrame_zero, Some e), s)
  | (Ok header, s) =>
  let h0 := byte_at header 0 in
  let h1 := byte_at header 1 in
  let result := WireFrame (negb (Z.land h0 0x80 =? 0)) (Z.land h0 0x70) (Z.land h0 0x0f)
                          (negb (Z.land h1 0x80 =? 0)) [] 2 in
  if negb (Bool.eqb (masked result) requireMask)
  then ((result, Some (EMsg "RFC 6455 masking direction mismatch")), s) else
  match readPayloadLength s (Z.land h1 0x7f) with
  | ((_, lengthBytes, Some e), s) => ((add_bytes lengthBytes result, Some e), s)
  | ((length, lengthBytes, None), s) =>
  let result := add_bytes lengthBytes result in
  if 1048576 <? length then ((result, Some (EMsg "frame exceeds package limit")), s) else
  match (if masked result then read_full 4 s else (Ok [0; 0; 0; 0], s)) with
  | (Err e, s) => ((result, Some e), s)
  | (Ok mask, s) =>
  let result := if masked result then add_bytes 4 result else result in
  match read_full (Z.to_nat length) s with
  | (Err e, s) => ((result, Some e), s)
  | (Ok payload, s) =>
  let result := add_bytes length (set_payload payload result) in
  let result := if masked result then set_payload (xor_mask mask payload) result else result in
  if (0x8 <=? opcode result) && (negb (fin result) || (125 <? len (Client.payload result)))
  then ((result, Some (EMsg "invalid control frame")), s)
  else ((result, None), s)
  end end end end.

End Client.

(** ** The cleartext server's frames (go-http1-websocket) *)

Module Server.

Record wireFrame := WireFrame {
  fin : bool;
  rsv : Z;
  opcode : Z;
  masked : bool;
  payload : bytes
}.
Definition wireFrame_zero : wireFrame := WireFrame false 0 0 false [].

Definition set_payload (p : bytes) (f : wireFrame) : wireFrame :=
  WireFrame (fin f) (rsv f) (opcode f) (masked f) p.

Definition readPayloadLength (s : stream) (encoded : Z) : res Z * stream :=
  if encoded =? 126 then
    match read_full 2 s with
    | (Err e, s) => (Err e, s)
    | (Ok value, s) => (Ok (be_decode value), s)
    end
  else if encoded =? 127 then
    match read_full 8 s with
    | (Err e, s) => (Err e, s)
    | (Ok value, s) =>
        let length := be_decode value in
        if 9223372036854775807 <? length
        then (Err (EMsg "frame length overflows int"), s)
        else (Ok (int_of length), s)
    end
  else (Ok encoded, s).

Definition readFrame (requireMask : bool) (s : stream) : (wireFrame * option goerror) * stream :=
  match read_full 2 s with
  | (Err e, s) => ((wireFrame_zero, Some e), s)
  | (Ok header, s) =>
  let h0 := byte_at header 0 in
  let h1 := byte_at header 1 in
  let result := WireFrame (negb (Z.land h0 0x80 =? 0)) (Z.land h0 0x70) (Z.land h0 0x0f)
                          (negb (Z.land h1 0x80 =? 0)) [] in
  if negb (Bool.eqb (masked result) requireMask)
  then ((result, Some (EMsg "RFC 6455 masking direction mismatch")), s) else
  match readPayloadLength s (Z.land h1 0x7f) with
  | (Err e, s) => ((result, Some e), s)
  | (Ok length, s) =>
  if 1048576 <? length then ((result, Some (EMsg "frame exceeds package limit")), s) else
  match (if masked result then read_full 4 s else (Ok [0; 0; 0; 0], s)) with
  | (Err e, s) => ((result, Some e), s)
  | (Ok mask, s) =>
  match read_full (Z.to_nat length) s with
  | (Err e, s) => ((result, Some e), s)
  | (Ok payload, s) =>
  let result := set_payload payload result in
  let result := if masked result then set_payload (xor_mask mask payload) result else result in
  if (0x8 <=? opcode result) && (negb (fin result) || (125 <? len (Server.payload result)))
  then ((result, Some (EMsg "invalid fragmented or oversized control frame")), s)
  else ((result, None), s)
  end end end end.

(** The octets [writeFrame] sends. *)
Definition serverFrame (opcode : Z) (payload : bytes) (masked : bool) : res bytes :=
  let maskBit := if masked then 0x80 else 0 in
  let? header :=
    (if len payload <=? 125 then Ok [Z.lor 0x80 opcode; Z.lor maskBit (u8 (len payload))]
     else if len payload <=? 65535 then
       Ok [Z.lor 0x80 opcode; Z.lor maskBit 126; u8 (Z.shiftr (len payload) 8); u8 (len payload)]
     else Err (EMsg "payload exceeds package limit")) in
  if masked then Err (EMsg "target must never mask server-to-client frames")
  else Ok (header ++ payload).

Definition writeFrame (c : conn) (opcode : Z) (payload : bytes) (masked : bool)
    : option goerror * conn :=
  match serverFrame opcode payload masked with
  | Err e => (Some e, c)
  | Ok wire => let '((_, err), c) := conn_write wire c in (err, c)
  end.

End Server.

(** ** The HTTP/2 executor's frames (go-http2-websocket-executor) *)

Module H2.

Record wsFrame := WsFrame {
  Opcode : Z;
  Masked : bool;
  Payload : bytes
}.

(** A complete frame and the octets it took, or [None] while more octets are needed. *)
Definition parseFrameConsumed (data : bytes) : res (option (wsFrame * Z)) :=
  if len data <? 2 then Ok None else
  let first := byte_at data 0 in
  let second := byte_at data 1 in
  if (Z.land first 0x80 =? 0) || negb (Z.land first 0x70 =? 0)
  then Err (EMsg "fragmented or RSV-bearing server frame") else
  let masked := negb (Z.land second 0x80 =? 0) in
  let length := Z.land second 0x7f in
  let? header :=
    (if length =? 126 then
       if len data <? 4 then Ok None else Ok (Some (be_decode (slice 2 4 data), 4))
     else if length =? 127 then Err (EMsg "unexpected 64-bit WebSocket frame")
     else Ok (Some (length, 2))) in
  match header with
  | None => Ok None
  | Some (length, offset) =>
    let maskBytes := if masked then 4 else 0 in
    if len data <? offset + maskBytes + length then Ok None else
    let payload := slice (Z.to_nat (offset + maskBytes)) (Z.to_nat (offset + maskBytes + length)) data in
    let payload :=
      if masked then xor_mask (slice (Z.to_nat offset) (Z.to_nat (offset + 4)) data) payload
      else payload in
    Ok (Some (WsFrame (Z.land first 0xf) masked payload, offset + maskBytes + length))
  end.

Definition parseFrame (data : bytes) : res (option wsFrame) :=
  let? r := parseFrameConsumed data in
  Ok (match r with Some (frame, _) => Some frame | None => None end).

(** The key [rand.Read] returned and the encoded frame. *)
Definition maskedFrame (key : res bytes) (opcode : Z) (payload : bytes) : res (bytes * bytes) :=
  let? key := key in
  let out := [Z.lor 0x80 opcode] in
  let out :=
    if len payload <=? 125 then out ++ [Z.lor 0x80 (u8 (len payload))]
    else out ++ [Z.lor 0x80 126] ++ be_encode 2 (u16 (len payload)) in
  Ok (key, out ++ key ++ xor_mask key payload).

End H2.

(** ** Facts shared by the codecs *)

Definition is_opcode (op : Z) : Prop := 0 <= op < 16.

Definition first_octet_ok (op : Z) : bool :=
  (16 <=? op) ||
  (negb (Z.land (Z.lor 0x80 op) 0x80 =? 0) && (Z.land (Z.lor 0x80 op) 0x70 =? 0)
   && (Z.land (Z.lor 0x80 op) 0x0f =? op)
   && negb (Z.land (Z.lor (Z.lor 0x80 op) 0x40) 0x80 =? 0)
   && (Z.land (Z.lor (Z.lor 0x80 op) 0x40) 0x70 =? 0x40)
   && (Z.land (Z.lor (Z.lor 0x80 op) 0x40) 0x0f =? op)).

Lemma first_octet op : is_opcode op ->
  Z.land (Z.lor 0x80 op) 0x80 <> 0 /\ Z.land (Z.lor 0x80 op) 0x70 = 0 /\
  Z.land (Z.lor 0x80 op) 0x0f = op /\
  Z.land (Z.lor (Z.lor 0x80 op) 0x40) 0x80 <> 0 /\ Z.land (Z.lor (Z.lor 0x80 op) 0x40) 0x70 = 0x40 /\
  Z.land (Z.lor (Z.lor 0x80 op) 0x40) 0x0f = op.
Proof.
  unfold is_opcode. intros H.
  pose proof (byte_forall first_octet_ok ltac:(vm_compute; reflexivity) op
    ltac:(unfold is_byte; lia)) as E.
  apply orb_true_iff in E as [E|E]; reflect_bools; [lia|]. done.
Qed.

Definition second_octet_ok (n : Z) : bool :=
  (128 <=? n) ||
  (negb (Z.land (Z.lor 0x80 n) 0x80 =? 0) && (Z.land (Z.lor 0x80 n) 0x7f =? n)
   && (Z.land n 0x80 =? 0) && (Z.land n 0x7f =? n)).

Lemma second_octet n : 0 <= n < 128 ->
  Z.land (Z.lor 0x80 n) 0x80 <> 0 /\ Z.land (Z.lor 0x80 n) 0x7f = n /\
  Z.land n 0x80 = 0 /\ Z.land n 0x7f = n.
Proof.
  intros H.
  pose proof (byte_forall second_octet_ok ltac:(vm_compute; reflexivity) n
    ltac:(unfold is_byte; lia)) as E.
  apply orb_true_iff in E as [E|E]; reflect_bools; [lia|]. done.
Qed.

Lemma be_decode_two n : 0 <= n <= 65535 -> be_decode [u8 (Z.shiftr n 8); u8 n] = n.
Proof.
  intros H. unfold be_decode, u8; simpl. rewrite Z.shiftr_div_pow2 by lia.
  change (2 ^ 8) with 256. lia_mod.
Qed.

Lemma be_encode_two n : be_encode 2 (u16 n) = [u8 (Z.shiftr n 8); u8 n].
Proof.
  unfold u16, u8; simpl. rewrite Z.shiftr_div_pow2 by lia. change (2 ^ 8) with 256.
  f_equal; [lia_mod|]. f_equal. lia_mod.
Qed.

(** What the writers of this package promise to a reader of the given direction. *)
Record frame_ok (opcode : Z) (payload : bytes) : Prop := {
  fo_opcode : is_opcode opcode;
  fo_bytes : all_bytes payload;
  fo_size : len payload <= 65535;
  fo_control : 8 <= opcode -> len payload <= 125
}.

(** The masking key: four octets from [rand.Read]. *)
Definition is_key (key : bytes) : Prop := length key = 4%nat /\ all_bytes key.

(** The three writers use one header layout: the first octet, then the length on one or
    three octets. *)
Definition length_octets (maskBit n : Z) : bytes :=
  if n <=? 125 then [Z.lor maskBit n] else [Z.lor maskBit 126; u8 (Z.shiftr n 8); u8 n].

Lemma clientFrame_layout key op p rsv1 :
  len p <= 65535 ->
  Client.clientFrame (Ok key) op p rsv1
  = Ok ((if rsv1 then Z.lor (Z.lor 0x80 op) 0x40 else Z.lor 0x80 op)
        :: length_octets 0x80 (len p) ++ key ++ xor_mask key p).
Proof.
  intros H. pose proof (len_nonneg p). unfold Client.clientFrame, length_octets.
  destruct (Z.leb_spec (len p) 125); simpl; [|decide_ifs; done].
  by rewrite u8_small by (unfold is_byte; lia).
Qed.

Lemma serverFrame_layout op p :
  len p <= 65535 ->
  Server.serverFrame op p false = Ok (Z.lor 0x80 op :: length_octets 0 (len p) ++ p).
Proof.
  intros H. pose proof (len_nonneg p). unfold Server.serverFrame, length_octets.
  destruct (Z.leb_spec (len p) 125); simpl; [|decide_ifs; done].
  by rewrite u8_small by (unfold is_byte; lia).
Qed.

Lemma maskedFrame_layout key op p :
  len p <= 65535 ->
  H2.maskedFrame (Ok key) op p
  = Ok (key, Z.lor 0x80 op :: length_octets 0x80 (len p) ++ key ++ xor_mask key p).
Proof.
  intros H. pose proof (len_nonneg p). unfold H2.maskedFrame, length_octets.
  destruct (Z.leb_spec (len p) 125); cbn [res_bind].
  - by rewrite u8_small by (unfold is_byte; lia).
  - by rewrite be_encode_two.
Qed.

(** The HTTP/2 executor's frames are the TLS executor's, for the payloads both accept. *)
Lemma maskedFrame_clientFrame key op p :
  len p <= 65535 ->
  H2.maskedFrame (Ok key) op p
  = match Client.clientFrame (Ok key) op p false with
    | Ok wire => Ok (key, wire) | Err e => Err e end.
Proof. intros H. by rewrite maskedFrame_layout, clientFrame_layout. Qed.

(** Reading the header a writer laid out. *)
Lemma read_header first mb n rest e :
  mb = 0 \/ mb = 0x80 -> 0 <= n <= 65535 ->
  exists second more,
    length_octets mb n = second :: more /\
    (negb (Z.land second 0x80 =? 0) = negb (mb =? 0)) /\
    Client.readPayloadLength (Stream (more ++ rest) e) (Z.land second 0x7f)
      = ((n, len more, None), Stream rest e) /\
    Server.readPayloadLength (Stream (more ++ rest) e) (Z.land second 0x7f)
      = (Ok n, Stream rest e) /\
    read_full 2 (Stream ((first :: length_octets mb n) ++ rest) e)
      = (Ok [first; second], Stream (more ++ rest) e).
Proof.
  intros Hmb Hn. unfold length_octets.
  assert (Hm : forall k, 0 <= k < 128 ->
    negb (Z.land (Z.lor mb k) 0x80 =? 0) = negb (mb =? 0) /\ Z.land (Z.lor mb k) 0x7f = k).
  { intros k Hk. destruct (second_octet k Hk) as (H1 & H2 & H3 & H4).
    destruct Hmb as [->| ->]; [rewrite Z.lor_0_l, H3, H4; done|].
    rewrite H2. split; [|done]. by apply Z.eqb_neq in H1 as ->. }
  destruct (Z.leb_spec n 125) as [Hle|Hgt].
  - exists (Z.lor mb n), []. destruct (Hm n ltac:(lia)) as [H1 H2]. split_and!; [done|done| | |].
    + rewrite H2. unfold Client.readPayloadLength.
      rewrite (proj2 (Z.eqb_neq n 126)), (proj2 (Z.eqb_neq n 127)) by lia. done.
    + rewrite H2. unfold Server.readPayloadLength.
      rewrite (proj2 (Z.eqb_neq n 126)), (proj2 (Z.eqb_neq n 127)) by lia. done.
    + apply (read_full_app' 2 [first; Z.lor mb n]). done.
  - exists (Z.lor mb 126), [u8 (Z.shiftr n 8); u8 n].
    destruct (Hm 126 ltac:(lia)) as [H1 H2].
    split_and!; [done|done|rewrite H2|rewrite H2|].
    + unfold Client.readPayloadLength. change (126 =? 126) with true. cbv iota.
      rewrite (read_full_app' 2 [u8 (Z.shiftr n 8); u8 n]) by done.
      by rewrite be_decode_two.
    + unfold Server.readPayloadLength. change (126 =? 126) with true. cbv iota.
      rewrite (read_full_app' 2 [u8 (Z.shiftr n 8); u8 n]) by done.
      by rewrite be_decode_two.
    + apply (read_full_app' 2 [first; Z.lor mb 126]). done.
Qed.

Lemma control_test op (p : bytes) fin' :
  (8 <= op -> len p <= 125) -> fin' = true ->
  (0x8 <=? op) && (negb fin' || (125 <? len p)) = false.
Proof.
  intros H ->. destruct (Z.leb_spec 8 op); simpl; [|done].
  apply Z.ltb_ge. auto.
Qed.

(** A masked frame as the server reads it. *)
Lemma server_reads first key p rest e :
  length key = 4%nat -> len p <= 65535 ->
  Z.land first 0x80 <> 0 -> (8 <= Z.land first 0x0f -> len p <= 125) ->
  Server.readFrame true
    (Stream ((first :: length_octets 0x80 (len p) ++ key ++ xor_mask key p) ++ rest) e)
  = ((Server.WireFrame true (Z.land first 0x70) (Z.land first 0x0f) true p, None), Stream rest e).
Proof.
  intros Hkey Hp Hfin Hctl. pose proof (len_nonneg p).
  replace ((first :: length_octets 0x80 (len p) ++ key ++ xor_mask key p) ++ rest)
    with ((first :: length_octets 0x80 (len p)) ++ key ++ xor_mask key p ++ rest)
    by (simpl; by rewrite <-!app_assoc).
  destruct (read_header first 0x80 (len p) (key ++ xor_mask key p ++ rest) e)
    as (second & more & _ & Hmask & _ & Hlen & Hread); [by right|lia|].
  unfold Server.readFrame. rewrite Hread. cbn [byte_at nth Server.masked].
  rewrite Hmask. cbn [Bool.eqb negb Z.eqb]. rewrite Hlen. cbv zeta. decide_ifs.
  rewrite read_full_app' by done.
  rewrite (read_full_app' _ (xor_mask key p)) by (rewrite length_xor_mask; unfold len; lia).
  cbn [Server.set_payload Server.payload Server.opcode Server.fin Server.masked Server.rsv].
  rewrite xor_mask_involutive. apply Z.eqb_neq in Hfin as Hfin'. rewrite Hfin'.
  by rewrite control_test.
Qed.

(** An unmasked frame as the TLS executor reads it. *)
Lemma client_reads first p rest e :
  len p <= 65535 ->
  Z.land first 0x80 <> 0 -> (8 <= Z.land first 0x0f -> len p <= 125) ->
  Client.readFrame false (Stream ((first :: length_octets 0 (len p) ++ p) ++ rest) e)
  = ((Client.WireFrame true (Z.land first 0x70) (Z.land first 0x0f) false p
        (1 + len (length_octets 0 (len p) ++ p)), None), Stream rest e).
Proof.
  intros Hp Hfin Hctl. pose proof (len_nonneg p).
  replace ((first :: length_octets 0 (len p) ++ p) ++ rest)
    with ((first :: length_octets 0 (len p)) ++ p ++ rest)
    by (simpl; by rewrite <-!app_assoc).
  destruct (read_header first 0 (len p) (p ++ rest) e)
    as (second & more & Hlay & Hmask & Hlen & _ & Hread); [by left|lia|].
  unfold Client.readFrame. rewrite Hread. cbn [byte_at nth Client.masked].
  rewrite Hmask. cbn [Bool.eqb negb Z.eqb]. rewrite Hlen. cbv zeta.
  decide_ifs. cbn [Client.masked Client.add_bytes].
  rewrite (read_full_app' _ p) by (unfold len; lia).
  cbn. apply Z.eqb_neq in Hfin as Hfin'. rewrite Hfin'.
  rewrite control_test by done. rewrite Hlay, len_app.
  unfold Client.add_bytes, Client.set_payload; cbn. do 3 f_equal.
  unfold len; simpl length; lia.
Qed.

(** ** Incremental parsing (HTTP/2 executor) *)

(** The end of [parseFrameConsumed], once the header gave [length] and [offset]. *)
Definition parse_body (first : Z) (masked : bool) (length offset : Z) (data : bytes)
    : res (option (H2.wsFrame * Z)) :=
  let maskBytes := if masked then 4 else 0 in
  if len data <? offset + maskBytes + length then Ok None else
  let payload := slice (Z.to_nat (offset + maskBytes)) (Z.to_nat (offset + maskBytes + length)) data in
  let payload :=
    if masked then xor_mask (slice (Z.to_nat offset) (Z.to_nat (offset + 4)) data) payload
    else payload in
  Ok (Some (H2.WsFrame (Z.land first 0xf) masked payload, offset + maskBytes + length)).

Lemma parse_body_ok first (masked : bool) (hdr key body rest : bytes) :
  len key = (if masked then 4 else 0) ->
  parse_body first masked (len body) (len hdr) (hdr ++ key ++ body ++ rest)
  = Ok (Some (H2.WsFrame (Z.land first 0xf) masked (if masked then xor_mask key body else body),
              len hdr + len key + len body)).
Proof.
  intros Hk. unfold parse_body. rewrite <-Hk, !len_app. pose proof (len_nonneg rest).
  rewrite (proj2 (Z.ltb_ge _ _)) by lia.
  assert (Hs : slice (Z.to_nat (len hdr + len key)) (Z.to_nat (len hdr + len key + len body))
                 (hdr ++ key ++ body ++ rest) = body).
  { rewrite app_assoc. apply slice_app_mid; rewrite length_app; unfold len; lia. }
  rewrite Hs. destruct masked; [|done].
  by rewrite (slice_app_mid hdr key (body ++ rest)) by (unfold len in *; lia).
Qed.

Lemma parse_unfold first second tail :
  Z.land first 0x80 <> 0 -> Z.land first 0x70 = 0 ->
  H2.parseFrameConsumed (first :: second :: tail)
  = let data := first :: second :: tail in
    let masked := negb (Z.land second 0x80 =? 0) in
    let length := Z.land second 0x7f in
    if length =? 126 then
      if len data <? 4 then Ok None
      else parse_body first masked (be_decode (slice 2 4 data)) 4 data
    else if length =? 127 then Err (EMsg "unexpected 64-bit WebSocket frame")
    else parse_body first masked length 2 data.
Proof.
  intros Hf Hr. unfold H2.parseFrameConsumed.
  rewrite (proj2 (Z.ltb_ge _ _)) by (unfold len; simpl; lia).
  cbn [byte_at nth]. rewrite (proj2 (Z.eqb_neq _ _) Hf), Hr. cbn [orb Z.eqb negb].
  change (byte_at (first :: second :: tail) 1) with second. cbv zeta.
  destruct (Z.land second 0x7f =? 126); [by destruct (_ <? 4)|].
  by destruct (Z.land second 0x7f =? 127).
Qed.

(** A complete frame at the front of the buffer is parsed, whatever follows it. *)
Lemma parse_layout first (masked : bool) (key p rest : bytes) :
  len key = (if masked then 4 else 0) -> len p <= 65535 ->
  Z.land first 0x80 <> 0 -> Z.land first 0x70 = 0 ->
  H2.parseFrameConsumed
    ((first :: length_octets (if masked then 0x80 else 0) (len p) ++ key
        ++ (if masked then xor_mask key p else p)) ++ rest)
  = Ok (Some (H2.WsFrame (Z.land first 0xf) masked p,
       1 + len (length_octets (if masked then 0x80 else 0) (len p)) + len key + len p)).
Proof.
  intros Hk Hp Hf Hr. pose proof (len_nonneg p).
  set (mb := if masked then 0x80 else 0).
  set (body := if masked then xor_mask key p else p).
  assert (Hb : len body = len p).
  { subst body. unfold len. destruct masked; [by rewrite length_xor_mask|done]. }
  assert (Hm : forall k, 0 <= k < 128 ->
    negb (Z.land (Z.lor mb k) 0x80 =? 0) = masked /\ Z.land (Z.lor mb k) 0x7f = k).
  { intros k Hk'. destruct (second_octet k Hk') as (H1 & H2 & H3 & H4). subst mb.
    destruct masked; [|by rewrite Z.lor_0_l, H3, H4]. by apply Z.eqb_neq in H1 as ->. }
  assert (Hxor : (if masked then xor_mask key body else body) = p).
  { subst body. destruct masked; [apply xor_mask_involutive|done]. }
  unfold length_octets. destruct (Z.leb_spec (len p) 125) as [Hle|Hgt].
  - destruct (Hm (len p) ltac:(lia)) as [H1 H2]. simpl app. rewrite <-!app_assoc.
    rewrite parse_unfold by done. cbv zeta. rewrite H1, H2.
    rewrite (proj2 (Z.eqb_neq _ _)), (proj2 (Z.eqb_neq (len p) 127)) by lia.
    pose proof (parse_body_ok first masked [first; Z.lor mb (len p)] key body rest Hk) as E.
    rewrite Hxor, Hb in E. exact E.
  - destruct (Hm 126 ltac:(lia)) as [H1 H2]. simpl app. rewrite <-!app_assoc.
    rewrite parse_unfold by done. cbv zeta. rewrite H1, H2.
    set (hdr := [first; Z.lor mb 126; u8 (Z.shiftr (len p) 8); u8 (len p)]).
    change (126 =? 126) with true. cbv iota.
    rewrite (proj2 (Z.ltb_ge _ _)) by (unfold len; simpl; lia).
    change (slice 2 4 _) with [u8 (Z.shiftr (len p) 8); u8 (len p)].
    rewrite be_decode_two by lia.
    pose proof (parse_body_ok first masked hdr key body rest Hk) as E.
    rewrite Hxor, Hb in E. exact E.
Qed.

Lemma slice_app_le {A} a b (l r : list A) : (b <= length l)%nat -> slice a b (l ++ r) = slice a b l.
Proof.
  intros H. unfold slice. destruct (decide (a <= b)%nat).
  - rewrite drop_app_le by lia. rewrite take_app_le; [done|]. rewrite length_drop. lia.
  - by replace (b - a)%nat with 0%nat by lia.
Qed.

Lemma slice_bytes a b l : all_bytes l -> all_bytes (slice a b l).
Proof. unfold slice. auto with plab. Qed.
#[export] Hint Resolve slice_bytes : plab.

Lemma length_slice {A} a b (l : list A) :
  (a <= b <= length l)%nat -> length (slice a b l) = (b - a)%nat.
Proof. intros H. unfold slice. rewrite length_take, length_drop. lia. Qed.

(** More octets never change a decided parse. *)
Lemma parse_body_app first masked length offset data more r :
  0 <= length -> 0 <= offset ->
  parse_body first masked length offset data = Ok (Some r) ->
  parse_body first masked length offset (data ++ more) = Ok (Some r).
Proof.
  unfold parse_body. intros Hl Ho H. pose proof (len_nonneg more).
  set (mk := if masked then 4 else 0) in *.
  assert (Hmk : 0 <= mk <= 4) by (subst mk; destruct masked; lia).
  destruct (Z.ltb_spec (len data) (offset + mk + length)); simplify_eq.
  rewrite len_app, (proj2 (Z.ltb_ge _ _)) by lia. unfold len in *.
  rewrite (slice_app_le (Z.to_nat (offset + mk))) by lia. destruct masked; [|done].
  by rewrite slice_app_le by (subst mk; lia).
Qed.

Lemma header_length_bound l : all_bytes l -> (length l <= 2)%nat -> 0 <= be_decode l <= 65535.
Proof.
  intros Hl Hn. pose proof (be_decode_bound l Hl) as H. unfold len in H.
  assert (256 ^ Z.of_nat (length l) <= 256 ^ 2) by (apply Z.pow_le_mono_r; lia). lia.
Qed.

Lemma slice_two_bound l : all_bytes l -> 0 <= be_decode (slice 2 4 l) <= 65535.
Proof.
  intros H. apply header_length_bound; [auto with plab|].
  unfold slice. rewrite length_take. lia.
Qed.

(** What a decided parse says about the buffer. *)
Lemma parse_inv data r :
  all_bytes data -> H2.parseFrameConsumed data = Ok (Some r) ->
  exists first second tail offset length masked,
    data = first :: second :: tail /\
    Z.land first 0x80 <> 0 /\ Z.land first 0x70 = 0 /\
    masked = negb (Z.land second 0x80 =? 0) /\
    0 <= length <= 65535 /\
    ((offset = 2 /\ length = Z.land second 0x7f /\ length <> 126 /\ length <> 127) \/
     (offset = 4 /\ Z.land second 0x7f = 126 /\ 4 <= len data /\ length = be_decode (slice 2 4 data))) /\
    parse_body first masked length offset data = Ok (Some r).
Proof.
  intros Hb H. destruct data as [|first [|second tail]]; [done|done|].
  destruct (decide (Z.land first 0x80 <> 0 /\ Z.land first 0x70 = 0)) as [[Hf Hr]|Hn].
  - rewrite parse_unfold in H by done. cbv zeta in H.
    destruct (Z.eqb_spec (Z.land second 0x7f) 126) as [E1|E1].
    + destruct (Z.ltb_spec (len (first :: second :: tail)) 4); [done|].
      eexists first, second, tail, 4, (be_decode (slice 2 4 (first :: second :: tail))), _.
      split_and!; try done; [by apply slice_two_bound..|]. right. done.
    + destruct (Z.eqb_spec (Z.land second 0x7f) 127) as [E2|E2]; [done|].
      assert (0 <= Z.land second 127 <= 127).
      { split; [by apply Z.land_nonneg; right|].
        pose proof (Z.mod_pos_bound second (2 ^ 7) ltac:(lia)).
        change 127 with (Z.ones 7) at 1. rewrite Z.land_ones by lia. lia. }
      eexists first, second, tail, 2, (Z.land second 0x7f), _.
      split_and!; try done; lia.
  - exfalso. unfold H2.parseFrameConsumed in H.
    rewrite (proj2 (Z.ltb_ge _ _)) in H by (unfold len; simpl; lia).
    cbn [byte_at nth] in H. destruct (Z.eqb_spec (Z.land first 0x80) 0); [done|].
    destruct (Z.eqb_spec (Z.land first 0x70) 0); [tauto|done].
Qed.

Lemma parse_app data more r :
  all_bytes data -> H2.parseFrameConsumed data = Ok (Some r) ->
  H2.parseFrameConsumed (data ++ more) = Ok (Some r).
Proof.
  intros Hb H. destruct (parse_inv data r Hb H)
    as (first & second & tail & offset & length & masked & -> & Hf & Hr & -> & Hl & Hc & Hp).
  simpl app. rewrite parse_unfold by done. cbv zeta.
  destruct Hc as [(-> & -> & Hn1 & Hn2)|(-> & E & Hd & ->)].
  - rewrite (proj2 (Z.eqb_neq _ _) Hn1), (proj2 (Z.eqb_neq _ _) Hn2).
    apply (parse_body_app _ _ _ _ (first :: second :: tail)); [lia|lia|done].
  - rewrite E. change (126 =? 126) with true. cbv iota.
    change (first :: second :: tail ++ more) with ((first :: second :: tail) ++ more).
    pose proof (len_nonneg more). rewrite len_app, (proj2 (Z.ltb_ge _ _)) by lia.
    unfold len in Hd. rewrite slice_app_le by lia.
    apply parse_body_app; [lia|lia|done].
Qed.

Lemma parse_bounds data f n :
  all_bytes data -> H2.parseFrameConsumed data = Ok (Some (f, n)) ->
  2 <= n <= len data /\ all_bytes (H2.Payload f) /\ is_opcode (H2.Opcode f) /\
  len (H2.Payload f) <= 65535.
Proof.
  intros Hb H. destruct (parse_inv data _ Hb H)
    as (first & second & tail & offset & length & masked & Hd & Hf & Hr & Hm & Hl & Hc & Hp).
  assert (Ho : offset = 2 \/ offset = 4) by naive_solver.
  unfold parse_body in Hp. set (mk := if masked then 4 else 0) in *.
  assert (Hmk : 0 <= mk <= 4) by (subst mk; destruct masked; lia).
  destruct (Z.ltb_spec (len data) (offset + mk + length)); simplify_eq/=.
  assert (Hs : len (slice (Z.to_nat (offset + mk)) (Z.to_nat (offset + mk + length))
                      (first :: second :: tail)) = length).
  { unfold len in *. rewrite length_slice by lia. lia. }
  split_and!; [lia|lia| | |].
  - destruct (negb _); [apply xor_mask_bytes|]; auto with plab.
  - unfold is_opcode. change 15 with (Z.ones 4). rewrite Z.land_ones by lia. apply Z.mod_pos_bound. lia.
  - destruct (negb _); [|lia]. unfold len in *. rewrite length_xor_mask. lia.
Qed.

(** ** Octet accounting (blocking readers) *)

Lemma land_ones_bound a n : 0 <= n -> 0 <= Z.land a (Z.ones n) < 2 ^ n.
Proof. intros. rewrite Z.land_ones by done. apply Z.mod_pos_bound. lia. Qed.

Lemma readPayloadLength_ok s encoded n k s' :
  all_bytes (st_data s) -> 0 <= encoded ->
  Client.readPayloadLength s encoded = ((n, k, None), s') ->
  exists more, st_data s = more ++ st_data s' /\ len more = k /\ 0 <= n /\ st_end s' = st_end s.
Proof.
  intros Hb He H. unfold Client.readPayloadLength in H.
  destruct (encoded =? 126), (encoded =? 127); [| | |simplify_eq; by exists []];
    match type of H with context [read_full ?m _] => destruct (read_full m s) as [[v|] s1] eqn:E end;
    try done; apply read_full_ok in E as (Hl & Hd & Hs);
    rewrite Hd in Hb; apply all_bytes_app in Hb as [Hv _];
    pose proof (be_decode_bound v Hv); unfold len in *; rewrite ?Hl in *.
  1,2: simplify_eq; exists v; split_and!; unfold len; (done || lia).
  destruct (Z.ltb_spec 9223372036854775807 (be_decode v)); simplify_eq.
  exists v. split_and!; unfold len; try (done || lia).
  unfold int_of. lia_mod.
Qed.

(** The two blocking readers differ only in the octet count and one error text. *)
Definition to_server (f : Client.wireFrame) : Server.wireFrame :=
  Server.WireFrame (Client.fin f) (Client.rsv f) (Client.opcode f) (Client.masked f) (Client.payload f).

Lemma control_limits op fin' n :
  (0x8 <=? op) && (negb fin' || (125 <? n)) = false -> 8 <= op -> fin' = true /\ n <= 125.
Proof.
  intros H Hop. rewrite (proj2 (Z.leb_le _ _) Hop) in H. simpl in H. reflect_bools. done.
Qed.

Lemma readPayloadLength_server s encoded :
  Server.readPayloadLength s encoded
  = match Client.readPayloadLength s encoded with
    | ((n, _, None), s) => (Ok n, s)
    | ((_, _, Some e), s) => (Err e, s)
    end.
Proof.
  unfold Client.readPayloadLength, Server.readPayloadLength.
  destruct (encoded =? 126); [by destruct (read_full 2 s) as [[]]|].
  destruct (encoded =? 127); [|done]. destruct (read_full 8 s) as [[]]; [|done].
  by destruct (_ <? _).
Qed.

(** ** Properties *)

(** C40: a frame either executor masks and sends is read back by the server exactly:
    final, RSV as sent, same opcode, unmasked payload, and the stream left where the
    next frame starts. *)
Theorem client_frame_roundtrip key op p rsv1 rest e :
  is_key key -> frame_ok op p ->
  exists wire,
    Client.clientFrame (Ok key) op p rsv1 = Ok wire /\
    (rsv1 = false -> H2.maskedFrame (Ok key) op p = Ok (key, wire)) /\
    Server.readFrame true (Stream (wire ++ rest) e)
    = ((Server.WireFrame true (if rsv1 then 0x40 else 0) op true p, None), Stream rest e).
Proof.
  intros [Hk _] [Hop _ Hp Hc]. destruct (first_octet op Hop) as (F1 & F2 & F3 & G1 & G2 & G3).
  eexists. split_and!.
  - by apply clientFrame_layout.
  - intros ->. by apply maskedFrame_layout.
  - destruct rsv1.
    + rewrite server_reads by (rewrite ?G3; done). by rewrite G2, G3.
    + rewrite server_reads by (rewrite ?F3; done). by rewrite F2, F3.
Qed.

Lemma client_frame_roundtrip_witness :
  exists wire,
    Client.clientFrame (Ok [1; 2; 3; 4]) 0x1 [112; 108; 97; 98; 33] false = Ok wire /\
    (false = false -> H2.maskedFrame (Ok [1; 2; 3; 4]) 0x1 [112; 108; 97; 98; 33] = Ok ([1; 2; 3; 4], wire)) /\
    Server.readFrame true (Stream (wire ++ [7]) EEOF)
    = ((Server.WireFrame true 0 0x1 true [112; 108; 97; 98; 33], None), Stream [7] EEOF).
Proof.
  apply (client_frame_roundtrip [1; 2; 3; 4] 0x1 [112; 108; 97; 98; 33] false [7] EEOF).
  - split; [reflexivity|]. repeat constructor; compute; discriminate.
  - split; [compute; split; [discriminate|reflexivity]| |compute; discriminate|compute; congruence].
    repeat constructor; compute; discriminate.
Defined.

(** A frame the server sends is read back by both clients: by the blocking reader of
    the TLS executor, with the octet count it accounts for, and by the incremental
    parser of the HTTP/2 executor, which consumes exactly the frame. *)
Theorem server_frame_roundtrip op p rest e :
  frame_ok op p ->
  exists wire,
    Server.serverFrame op p false = Ok wire /\
    Client.readFrame false (Stream (wire ++ rest) e)
    = ((Client.WireFrame true 0 op false p (len wire), None), Stream rest e) /\
    H2.parseFrameConsumed (wire ++ rest) = Ok (Some (H2.WsFrame op false p, len wire)).
Proof.
  intros [Hop _ Hp Hc]. destruct (first_octet op Hop) as (F1 & F2 & F3 & _).
  eexists. split_and!; [by apply serverFrame_layout| |].
  - rewrite client_reads by (rewrite ?F3; done). rewrite F2, F3. do 3 f_equal.
    unfold len; simpl length; lia.
  - pose proof (parse_layout (Z.lor 0x80 op) false [] p rest eq_refl Hp F1 F2) as E.
    simpl in E. rewrite F3 in E. simpl app in *. rewrite E. do 3 f_equal.
    unfold len; simpl length. rewrite length_app. lia.
Qed.

Lemma server_frame_roundtrip_witness :
  exists wire,
    Server.serverFrame 0xA [1; 2] false = Ok wire /\
    Client.readFrame false (Stream (wire ++ [3]) EEOF)
    = ((Client.WireFrame true 0 0xA false [1; 2] (len wire), None), Stream [3] EEOF) /\
    H2.parseFrameConsumed (wire ++ [3]) = Ok (Some (H2.WsFrame 0xA false [1; 2], len wire)).
Proof.
  apply (server_frame_roundtrip 0xA [1; 2] [3] EEOF).
  split; [compute; split; [discriminate|reflexivity]| |compute; discriminate|compute; discriminate].
  repeat constructor; compute; discriminate.
Defined.

(** The incremental parser is insensitive to how the octets arrive: once it
    returns a frame, the octets that follow change neither the frame nor the count,
    the count is within the buffer, and the frame is well formed. *)
Theorem parse_incremental data more f n :
  all_bytes data -> H2.parseFrameConsumed data = Ok (Some (f, n)) ->
  H2.parseFrameConsumed (data ++ more) = Ok (Some (f, n)) /\
  2 <= n <= len data /\ all_bytes (H2.Payload f) /\ is_opcode (H2.Opcode f).
Proof.
  intros Hb H. destruct (parse_bounds data f n Hb H) as (? & ? & ? & _).
  split; [by apply parse_app|]. done.
Qed.

Lemma parse_incremental_witness :
  H2.parseFrameConsumed ([129; 1; 65] ++ [137]) = Ok (Some (H2.WsFrame 1 false [65], 3)) /\
  2 <= 3 <= len [129; 1; 65] /\ all_bytes [65] /\ is_opcode 1.
Proof.
  apply (parse_incremental [129; 1; 65] [137] (H2.WsFrame 1 false [65]) 3);
    [repeat constructor; compute; discriminate|vm_compute; reflexivity].
Defined.

(** The blocking reader accounts for every octet: a frame it returns is exactly the
    octets it took from the stream, within the package's limits, in the expected masking
    direction, and every control frame is final and short. *)
Theorem reader_accounting requireMask data e f s' :
  all_bytes data ->
  Client.readFrame requireMask (Stream data e) = ((f, None), s') ->
  exists wire,
    data = wire ++ st_data s' /\ st_end s' = e /\ len wire = Client.nbytes f /\
    Client.masked f = requireMask /\ all_bytes (Client.payload f) /\
    len (Client.payload f) <= 1048576 /\
    (8 <= Client.opcode f -> Client.fin f = true /\ len (Client.payload f) <= 125).
Proof.
  intros Hb H. unfold Client.readFrame in H.
  destruct (read_full 2 _) as [[header|] s1] eqn:E1; [|done].
  apply read_full_ok in E1 as (L1 & D1 & S1). cbn in D1, S1.
  rewrite D1 in Hb. apply all_bytes_app in Hb as [_ Hb1].
  destruct (Bool.eqb _ requireMask) eqn:Em; [|done]. apply eqb_prop in Em. cbn [Client.masked] in *.
  pose proof (land_ones_bound (byte_at header 1) 7 ltac:(lia)) as Henc. change (Z.ones 7) with 127 in Henc.
  destruct (Client.readPayloadLength s1 _) as [[[n k] [e1|]] s2] eqn:E2; [done|].
  apply readPayloadLength_ok in E2 as (more & D2 & L2 & Hn & S2); [|done|lia].
  rewrite D2 in Hb1. apply all_bytes_app in Hb1 as [_ Hb2].
  cbn [negb Client.masked Client.add_bytes] in H.
  destruct (Z.ltb_spec 1048576 n); [done|]. rewrite Em in H.
  destruct (if requireMask then read_full 4 s2 else _) as [[mask|] s3] eqn:E3; [|done].
  assert (H3 : exists mk, st_data s2 = mk ++ st_data s3 /\ st_end s3 = st_end s2 /\
            all_bytes mask /\ len mk = (if requireMask then 4 else 0)).
  { destruct requireMask; simplify_eq.
    - apply read_full_ok in E3 as (L3 & D3 & S3). exists mask.
      rewrite D3 in Hb2. apply all_bytes_app in Hb2 as [? _]. unfold len. rewrite L3. done.
    - exists []. split_and!; try done. repeat constructor; lia. }
  destruct H3 as (mk & D3 & S3 & Hmask & L3).
  rewrite D3 in Hb2. apply all_bytes_app in Hb2 as [_ Hb3].
  destruct (read_full (Z.to_nat n) s3) as [[p|] s4] eqn:E4; [|done].
  apply read_full_ok in E4 as (L4 & D4 & S4).
  rewrite D4 in Hb3. apply all_bytes_app in Hb3 as [Hp _].
  exists (header ++ more ++ mk ++ p). rewrite D2, D3, D4, <-!app_assoc in *.
  destruct requireMask; cbn in H; rewrite ?Em in H; cbn in H;
    match type of H with context [if ?c then _ else _] => destruct c eqn:Ec; [done|] end;
    simplify_eq; cbn; rewrite !len_app; unfold len in *; rewrite ?length_xor_mask in *;
    split_and!; try done; try congruence; try lia; auto using xor_mask_bytes;
    by apply control_limits.
Qed.

Lemma reader_accounting_witness :
  exists wire,
    [129; 1; 65; 9] = wire ++ [9] /\ EEOF = EEOF /\ len wire = 3 /\
    false = false /\ all_bytes [65] /\ len [65] <= 1048576 /\
    (8 <= 1 -> true = true /\ len [65] <= 125).
Proof.
  apply (reader_accounting false [129; 1; 65; 9] EEOF
           (Client.WireFrame true 0 1 false [65] 3) (Stream [9] EEOF));
    [repeat constructor; compute; discriminate|vm_compute; reflexivity].
Defined.

(** The two blocking readers, written independently, agree on every stream: same
    verdict, same frame, same octets consumed. *)
Theorem readers_agree requireMask s :
  let '((f, err), s1) := Client.readFrame requireMask s in
  let '((g, err'), s2) := Server.readFrame requireMask s in
  s1 = s2 /\ (err = None <-> err' = None) /\ g = to_server f.
Proof.
  unfold Client.readFrame, Server.readFrame.
  destruct (read_full 2 s) as [[header|] s1]; [|done]. cbv zeta. cbn [Client.masked Server.masked].
  destruct (negb (Bool.eqb _ _)); [done|]. rewrite readPayloadLength_server.
  destruct (Client.readPayloadLength s1 _) as [[[n k] [e1|]] s2]; [done|].
  cbn [Client.masked Client.add_bytes].
  destruct (1048576 <? n); [done|].
  destruct (if negb _ then read_full 4 s2 else _) as [[mask|] s3]; [|done].
  destruct (read_full (Z.to_nat n) s3) as [[p|] s4] eqn:E4;
    destruct (negb (Z.land (byte_at header 1) 128 =? 0)); try done; cbn;
    by destruct (_ && _).
Qed.
