(* ===== verification/H2Session.v ===== *)
(** The shared HTTP/2 session of go-http2-websocket-executor: the read loop that
    acknowledges settings, returns flow-control credit, assembles header blocks and hands
    every stream its events, as a step function and as an interleaving with the streams
    that consume them. The framer (golang.org/x/net/http2) is the list of frames it
    delivers; the HPACK decoder is a parameter. *)
From S2P Require Export Prelude GoText.

(** ** The framer *)

(** What [fr.ReadFrame] returns, by the types the source switches on. *)
Inductive h2frame :=
| SettingsFrame (ack : bool) (settings : list (Z * Z))
| WindowUpdateFrame (streamID increment : Z)
| DataFrame (streamID : Z) (data : bytes)
| RSTStreamFrame (streamID : Z) (code : string)
| GoAwayFrame (lastStreamID : Z) (code : string)
| HeadersFrame (streamID : Z) (fragment : bytes) (ended : bool)
| ContinuationFrame (streamID : Z) (fragment : bytes) (ended : bool)
| OtherFrame (streamID : Z).

(** What the executor writes through the framer. *)
Inductive h2write :=
| WriteSettings (settings : list (Z * Z))
| WriteSettingsAck
| WriteWindowUpdate (streamID increment : Z)
| WriteHeaders (streamID : Z) (block : bytes)
| WriteData (streamID : Z) (data : bytes).

Record framer := Framer {
  fr_in : list h2frame;
  fr_end : goerror;                       (* what ReadFrame returns after them *)
  fr_out : list h2write;
  fr_faults : list (option goerror)       (* what the next writes return *)
}.

Definition ReadFrame (fr : framer) : res h2frame * framer :=
  match fr_in fr with
  | f :: r => (Ok f, Framer r (fr_end fr) (fr_out fr) (fr_faults fr))
  | [] => (Err (fr_end fr), fr)
  end.

Definition fr_write (w : h2write) (fr : framer) : option goerror * framer :=
  match fr_faults fr with
  | Some e :: f => (Some e, Framer (fr_in fr) (fr_end fr) (fr_out fr) f)
  | None :: f => (None, Framer (fr_in fr) (fr_end fr) (fr_out fr ++ [w]) f)
  | [] => (None, Framer (fr_in fr) (fr_end fr) (fr_out fr ++ [w]) [])
  end.

(** The setting RFC 8441 adds. *)
Definition SettingEnableConnectProtocol : Z := 0x8.

(** ** Events *)

(** A channel element: [Headers] is [nil] or a map. *)
Record streamEvent := StreamEvent {
  Headers : option (gmap string string);
  Data : bytes;
  SErr : option goerror
}.
Definition data_event (d : bytes) : streamEvent := StreamEvent None d None.
Definition headers_event (h : gmap string string) : streamEvent := StreamEvent (Some h) [] None.
Definition error_event (e : goerror) : streamEvent := StreamEvent None [] (Some e).

(** [make(chan streamEvent, 256)]. *)
Definition streamCapacity : nat := 256.

Definition header_map (fields : list (string * string)) : gmap string string :=
  fold_left (fun m '(name, value) => <[to_lower name := value]> m) fields ∅.

Section session.
Context {hpack : Type}.
(** [decoder.Write(block)]: the decoder after it, the fields it emitted, its error; and
    [decoder.Close()]. *)
Variable hpack_write : hpack -> bytes -> (hpack * list (string * string)) * option goerror.
Variable hpack_close : hpack -> hpack * option goerror.

Record h2Session := H2Session {
  fr : framer;
  streams : gmap Z (list streamEvent);    (* the buffered channel of each stream *)
  headerBlocks : gmap Z bytes;
  headerDecoder : hpack;
  done_ : bool;                           (* session.done is closed *)
  readerError : option goerror;
  settingsFrames : Z;
  windowUpdateFrames : Z;
  sending : option (Z * streamEvent)      (* the reader is inside dispatch's select *)
}.

Definition set_fr f s := H2Session f (streams s) (headerBlocks s) (headerDecoder s) (done_ s)
  (readerError s) (settingsFrames s) (windowUpdateFrames s) (sending s).
Definition set_streams m s := H2Session (fr s) m (headerBlocks s) (headerDecoder s) (done_ s)
  (readerError s) (settingsFrames s) (windowUpdateFrames s) (sending s).
Definition set_blocks b s := H2Session (fr s) (streams s) b (headerDecoder s) (done_ s)
  (readerError s) (settingsFrames s) (windowUpdateFrames s) (sending s).
Definition set_decoder d s := H2Session (fr s) (streams s) (headerBlocks s) d (done_ s)
  (readerError s) (settingsFrames s) (windowUpdateFrames s) (sending s).
Definition set_sending x s := H2Session (fr s) (streams s) (headerBlocks s) (headerDecoder s) (done_ s)
  (readerError s) (settingsFrames s) (windowUpdateFrames s) x.
Definition count_settings s := H2Session (fr s) (streams s) (headerBlocks s) (headerDecoder s) (done_ s)
  (readerError s) (settingsFrames s + 1) (windowUpdateFrames s) (sending s).
Definition count_window s := H2Session (fr s) (streams s) (headerBlocks s) (headerDecoder s) (done_ s)
  (readerError s) (settingsFrames s) (windowUpdateFrames s + 1) (sending s).

(** [session.readerError.Store(err); return], and the deferred [close(session.done)]. *)
Definition fail (e : goerror) s := H2Session (fr s) (streams s) (headerBlocks s) (headerDecoder s) true
  (Some e) (settingsFrames s) (windowUpdateFrames s) (sending s).

(** A new session, as [openH2Session] builds it. *)
Definition new_session (f : framer) (d : hpack) : h2Session :=
  H2Session f ∅ ∅ d false None 0 0 None.

Definition decodeHeaderBlock (block : bytes) (s : h2Session)
    : res (gmap string string) * h2Session :=
  let '((d, fields), err) := hpack_write (headerDecoder s) block in
  match err with
  | Some e => (Err e, set_decoder d s)
  | None =>
      let '(d, err) := hpack_close d in
      match err with
      | Some e => (Err e, set_decoder d s)
      | None => (Ok (header_map fields), set_decoder d s)
      end
  end.

(** [session.dispatch]: a registered stream is sent the event (the reader enters the
    [select] and stays there until the channel has room); another stream drops it. *)
Definition dispatch (streamID : Z) (event : streamEvent) (s : h2Session) : h2Session :=
  match streams s !! streamID with
  | None => s
  | Some _ => set_sending (Some (streamID, event)) s
  end.

Definition write (w : h2write) (s : h2Session) : option goerror * h2Session :=
  let '(err, f) := fr_write w (fr s) in (err, set_fr f s).

(** Return the credit of a DATA frame, to the connection and to the stream. *)
Definition returnCredit (streamID : Z) (data : bytes) (s : h2Session) : option goerror * h2Session :=
  let length := u32 (len data) in
  if 0 <? length then
    match write (WriteWindowUpdate 0 length) s with
    | (Some e, s) => (Some e, s)
    | (None, s) => write (WriteWindowUpdate streamID length) s
    end
  else (None, s).

(** The end of a header block, shared by HEADERS and CONTINUATION. *)
Definition finishBlock (streamID : Z) (block : bytes) (s : h2Session) : h2Session :=
  let '(decoded, s) := decodeHeaderBlock block s in
  let s := set_blocks (delete streamID (headerBlocks s)) s in
  match decoded with
  | Err e => fail e s
  | Ok headers => dispatch streamID (headers_event headers) s
  end.

(** The body of the read loop, for one frame. *)
Definition handleFrame (frame : h2frame) (s : h2Session) : h2Session :=
  match frame with
  | SettingsFrame ack _ =>
      let s := count_settings s in
      if negb ack then
        match write WriteSettingsAck s with
        | (Some e, s) => fail e s
        | (None, s) => s
        end
      else s
  | WindowUpdateFrame _ _ => count_window s
  | DataFrame streamID data =>
      match returnCredit streamID data s with
      | (Some e, s) => fail e s
      | (None, s) => dispatch streamID (data_event data) s
      end
  | RSTStreamFrame streamID code =>
      dispatch streamID (error_event (EMsg ("stream " +:+ pretty streamID +:+ " reset with " +:+ code))) s
  | GoAwayFrame lastStreamID code =>
      fail (EMsg ("HTTP/2 GOAWAY lastStream=" +:+ pretty lastStreamID +:+ " error=" +:+ code)) s
  | HeadersFrame streamID fragment ended =>
      let block := default [] (headerBlocks s !! streamID) ++ fragment in
      let s := set_blocks (<[streamID := block]> (headerBlocks s)) s in
      if negb ended then s else finishBlock streamID block s
  | ContinuationFrame streamID fragment ended =>
      match headerBlocks s !! streamID with
      | None => fail (EMsg ("stream " +:+ pretty streamID +:+ " continuation without header block")) s
      | Some block =>
          let block := block ++ fragment in
          let s := set_blocks (<[streamID := block]> (headerBlocks s)) s in
          if negb ended then s else finishBlock streamID block s
      end
  | OtherFrame _ => s
  end.

(** One turn of the reader: it completes a send that has room, waits on a send that has
    none, and otherwise reads the next frame. *)
Definition readTurn (s : h2Session) : h2Session :=
  match sending s with
  | Some (streamID, event) =>
      match streams s !! streamID with
      | Some queue =>
          if decide (length queue < streamCapacity)%nat
          then set_sending None (set_streams (<[streamID := queue ++ [event]]> (streams s)) s)
          else s
      | None => set_sending None s
      end
  | None =>
      if done_ s then s else
      match ReadFrame (fr s) with
      | (Err e, f) => fail e (set_fr f s)
      | (Ok frame, f) => handleFrame frame (set_fr f s)
      end
  end.

(** [n] turns with no consumer running. *)
Fixpoint readLoop (n : nat) (s : h2Session) : h2Session :=
  match n with O => s | S n => readLoop n (readTurn s) end.

(** ** The consumers *)

(** The ready branch a [select] takes. *)
Inductive branch := BFrame | BDone | BCtx.

(** [nextMultiplexedFrame] on the channel of a stream: [None] when the branch is not
    ready. [ctx_err] is [ctx.Err()] once the context is done. *)
Definition nextMultiplexedFrame (b : branch) (ctx_err : option goerror) (streamID : Z) (s : h2Session)
    : option (res streamEvent * h2Session) :=
  match b with
  | BFrame =>
      match streams s !! streamID with
      | Some (event :: queue) =>
          let s := set_streams (<[streamID := queue]> (streams s)) s in
          match SErr event with
          | Some e => Some (Err e, s)
          | None => Some (Ok event, s)
          end
      | _ => None
      end
  | BDone =>
      if done_ s then
        match readerError s with
        | Some e => Some (Err e, s)
        | None => Some (Err EEOF, s)
        end
      else None
  | BCtx => match ctx_err with Some e => Some (Err e, s) | None => None end
  end.

(** The channel [openWebSocket] registers, before it writes the request. *)
Definition register (streamID : Z) (s : h2Session) : res unit * h2Session :=
  match streams s !! streamID with
  | Some _ => (Err (EMsg ("duplicate HTTP/2 stream " +:+ pretty streamID)), s)
  | None => (Ok tt, set_streams (<[streamID := []]> (streams s)) s)
  end.

(** The session, the frames the reader took, what each stream's consumer received, and
    how many frames had been taken when the stream was registered. *)
Record world := World {
  w_session : h2Session;
  w_read : list h2frame;
  w_received : gmap Z (list streamEvent);
  w_from : gmap Z nat
}.

(** The frame a turn takes, if it takes one. *)
Definition taken (s : h2Session) : list h2frame :=
  match sending s, done_ s, fr_in (fr s) with
  | None, false, f :: _ => [f]
  | _, _, _ => []
  end.

(** The reader and the consumers run in any order; a consumer registers its stream, writes
    frames of its own ([writeMu] makes a write one step) and receives events. *)
Inductive step : world -> world -> Prop :=
| step_reader s rd rc from :
    step (World s rd rc from) (World (readTurn s) (rd ++ taken s) rc from)
| step_register s s' rd rc from streamID :
    register streamID s = (Ok tt, s') ->
    step (World s rd rc from) (World s' rd rc (<[streamID := length rd]> from))
| step_receive s rd rc from streamID event queue :
    streams s !! streamID = Some (event :: queue) ->
    step (World s rd rc from)
         (World (set_streams (<[streamID := queue]> (streams s)) s) rd
                (<[streamID := default [] (rc !! streamID) ++ [event]]> rc) from)
| step_write s rd rc from w :
    (forall streamID n, w <> WriteWindowUpdate streamID n) ->
    step (World s rd rc from) (World (write w s).2 rd rc from).

(** ** What the session promises: each stream its own events, in frame order *)

(** The event of one frame, from the header blocks under assembly and the decoder. *)
Definition finish_event (blocks : gmap Z bytes) (dec : hpack) (streamID : Z) (block : bytes)
    : (gmap Z bytes * hpack) * option (Z * streamEvent) :=
  let '((dec, fields), err) := hpack_write dec block in
  match err with
  | Some _ => ((delete streamID blocks, dec), None)
  | None =>
      let '(dec, err) := hpack_close dec in
      ((delete streamID blocks, dec),
       match err with
       | Some _ => None
       | None => Some (streamID, headers_event (header_map fields))
       end)
  end.

Definition frame_event (st : gmap Z bytes * hpack) (frame : h2frame)
    : (gmap Z bytes * hpack) * option (Z * streamEvent) :=
  let '(blocks, dec) := st in
  let extend streamID old fragment (ended : bool) :=
    let blocks := <[streamID := old ++ fragment]> blocks in
    if ended then finish_event blocks dec streamID (old ++ fragment) else ((blocks, dec), None) in
  match frame with
  | DataFrame streamID data => (st, Some (streamID, data_event data))
  | RSTStreamFrame streamID code =>
      (st, Some (streamID, error_event (EMsg ("stream " +:+ pretty streamID +:+ " reset with " +:+ code))))
  | HeadersFrame streamID fragment ended =>
      extend streamID (default [] (blocks !! streamID)) fragment ended
  | ContinuationFrame streamID fragment ended =>
      match blocks !! streamID with
      | Some block => extend streamID block fragment ended
      | None => (st, None)
      end
  | _ => (st, None)
  end.

Fixpoint assemble (st : gmap Z bytes * hpack) (frames : list h2frame)
    : (gmap Z bytes * hpack) * list (option (Z * streamEvent)) :=
  match frames with
  | [] => (st, [])
  | f :: frames =>
      let '(st, e) := frame_event st f in
      let '(st, es) := assemble st frames in
      (st, e :: es)
  end.

Definition select_stream (streamID : Z) (e : option (Z * streamEvent)) : option streamEvent :=
  match e with
  | Some (i, e) => if decide (i = streamID) then Some e else None
  | None => None
  end.

(** The events of a stream registered after [k] frames. *)
Definition expected (d : hpack) (streamID : Z) (k : nat) (frames : list h2frame) : list streamEvent :=
  omap (select_stream streamID) (drop k (assemble (∅, d) frames).2).

(** What has been handed to a stream: received, queued, and in the reader's hands. *)
Definition in_flight (streamID : Z) (s : h2Session) : list streamEvent :=
  match sending s with
  | Some (i, e) => if decide (i = streamID) then [e] else []
  | None => []
  end.
Definition handed (w : world) (streamID : Z) : list streamEvent :=
  default [] (w_received w !! streamID)
  ++ default [] (streams (w_session w) !! streamID) ++ in_flight streamID (w_session w).

(** The credit returned for a stream (0 for the connection), and the octets received. *)
Definition credit (streamID : Z) (out : list h2write) : Z :=
  fold_right (fun w acc => match w with
    | WriteWindowUpdate i n => if decide (i = streamID) then n + acc else acc
    | _ => acc end) 0 out.
Definition octets (select : Z -> bool) (frames : list h2frame) : Z :=
  fold_right (fun f acc => match f with
    | DataFrame i d => if select i then len d + acc else acc
    | _ => acc end) 0 frames.

Lemma assemble_app st f g :
  assemble st (f ++ g)
  = let '(st1, e1) := assemble st f in let '(st2, e2) := assemble st1 g in (st2, e1 ++ e2).
Proof.
  revert st. induction f as [|x f IH]; intros st; simpl; [by destruct (assemble st g)|].
  destruct (frame_event st x) as [st1 e]. rewrite IH.
  destruct (assemble st1 f) as [st2 es]. by destruct (assemble st2 g).
Qed.

Lemma length_assemble st f : length (assemble st f).2 = length f.
Proof.
  revert st. induction f as [|x f IH]; intros st; simpl; [done|].
  destruct (frame_event st x) as [st1 e]. specialize (IH st1).
  destruct (assemble st1 f). simpl in *. lia.
Qed.

Lemma expected_snoc d streamID k frames f :
  (k <= length frames)%nat ->
  expected d streamID k (frames ++ [f])
  = expected d streamID k frames
    ++ match select_stream streamID (frame_event (assemble (∅, d) frames).1 f).2 with
       | Some e => [e] | None => [] end.
Proof.
  intros Hk. unfold expected. rewrite assemble_app.
  pose proof (length_assemble (∅, d) frames) as Hl.
  destruct (assemble (∅, d) frames) as [st es]. simpl in *.
  destruct (frame_event st f) as [st1 e]. simpl.
  rewrite drop_app_le by lia. rewrite omap_app. simpl.
  by destruct (select_stream streamID e).
Qed.

Lemma write_inv w s e s' :
  write w s = (e, s') ->
  exists g, s' = set_fr g s /\ fr_in g = fr_in (fr s) /\ fr_out g = fr_out (fr s) ++ if e then [] else [w].
Proof.
  unfold write, fr_write. intros. repeat case_match; simplify_eq/=; eexists; split_and!; try done.
  simpl. by rewrite app_nil_r.
Qed.

(** One frame: either the reader stops, or it goes on as [frame_event] says. *)
Lemma handleFrame_spec s f s' :
  done_ s = false -> sending s = None -> handleFrame f s = s' ->
  streams s' = streams s /\ fr_in (fr s') = fr_in (fr s) /\
  ((done_ s' = true /\ sending s' = None) \/
   (done_ s' = false /\
    (headerBlocks s', headerDecoder s') = (frame_event (headerBlocks s, headerDecoder s) f).1 /\
    sending s' = match (frame_event (headerBlocks s, headerDecoder s) f).2 with
                 | Some (i, e) => match streams s !! i with Some _ => Some (i, e) | None => None end
                 | None => None end)).
Proof.
  intros Hd Hs <-. destruct f; simpl;
    unfold returnCredit, finishBlock, finish_event, decodeHeaderBlock, dispatch, fail in *;
    repeat (case_match; simplify_eq/=);
    repeat match goal with H : write _ _ = _ |- _ => apply write_inv in H as (? & -> & ? & _) end;
    simplify_eq/=; rewrite ?Hd, ?Hs; try (split_and!; [congruence|congruence|]); auto 10.
  all: try (left; by auto). all: right; split_and!; auto; try congruence.
Qed.

(** ** The invariant of the interleaving *)

Variable d0 : hpack.

Record session_inv (w : world) : Prop := {
  inv_assemble : done_ (w_session w) = false ->
    (headerBlocks (w_session w), headerDecoder (w_session w)) = (assemble (∅, d0) (w_read w)).1;
  inv_sending : forall i e, sending (w_session w) = Some (i, e) -> is_Some (streams (w_session w) !! i);
  inv_fresh : forall i, streams (w_session w) !! i = None -> w_received w !! i = None;
  inv_stream : forall i q, streams (w_session w) !! i = Some q ->
    exists k, w_from w !! i = Some k /\ (k <= length (w_read w))%nat /\
      handed w i `prefix_of` expected d0 i k (w_read w) /\
      (done_ (w_session w) = false -> handed w i = expected d0 i k (w_read w))
}.

Lemma expected_prefix i k frames f :
  (k <= length frames)%nat -> expected d0 i k frames `prefix_of` expected d0 i k (frames ++ [f]).
Proof. intros. rewrite expected_snoc by done. by apply prefix_app_r. Qed.

Lemma inv_init f : session_inv (World (new_session f d0) [] ∅ ∅).
Proof. split; simpl; [done|done|done|]. intros i q H. by rewrite lookup_empty in H. Qed.

(** A reader turn that completes a send moves the event from the reader to the queue. *)
Lemma handed_send s rd rc from i e q j :
  sending s = Some (i, e) -> streams s !! i = Some q ->
  handed (World (set_sending None (set_streams (<[i := q ++ [e]]> (streams s)) s)) rd rc from) j
  = handed (World s rd rc from) j.
Proof.
  intros Hs Hq. unfold handed, in_flight; simpl. rewrite Hs. f_equal.
  destruct (decide (i = j)) as [->|Hn].
  - rewrite lookup_insert_eq, Hq; simpl. by rewrite app_nil_r.
  - rewrite lookup_insert_ne by done. done.
Qed.

Lemma inv_reader s rd rc from :
  session_inv (World s rd rc from) -> session_inv (World (readTurn s) (rd ++ taken s) rc from).
Proof.
  intros [Ha Hs Hf Hst]; simpl in *. unfold readTurn, taken.
  destruct (sending s) as [[i e]|] eqn:Es.
  - rewrite app_nil_r. destruct (streams s !! i) as [q|] eqn:Eq; [|destruct (Hs i e eq_refl); congruence].
    case_decide; [|split; simpl; rewrite ?Es; done].
    split; simpl; [done|done| |].
    { intros j Hj. apply Hf. destruct (decide (i = j)) as [->|]; [by rewrite lookup_insert_eq in Hj|].
      by rewrite lookup_insert_ne in Hj. } intros j q' Hj.
    assert (exists q0, streams s !! j = Some q0) as [q0 Hq0].
    { destruct (decide (i = j)) as [->|]; [eauto|]. rewrite lookup_insert_ne in Hj; eauto. }
    rewrite (handed_send s rd rc from i e q) by done. eauto.
  - destruct (done_ s) eqn:Ed; [rewrite app_nil_r; split; simpl; rewrite ?Es, ?Ed; done|].
    unfold ReadFrame. destruct (fr_in (fr s)) as [|f fin] eqn:Ef.
    { rewrite app_nil_r. split; simpl; [done|by rewrite Es|done|]. intros j q Hj.
      destruct (Hst j q Hj) as (k & ? & ? & ? & ?). exists k. split_and!; done. }
    set (s1 := set_fr _ s). destruct (handleFrame_spec s1 f _ Ed Es eq_refl) as (H1 & _ & H2).
    assert (Hstate : (headerBlocks s1, headerDecoder s1) = (assemble (∅, d0) rd).1) by (by apply Ha).
    rewrite Hstate in H2. split; simpl.
    + intros Hd. destruct H2 as [[? _]|(_ & -> & _)]; [congruence|]. rewrite assemble_app.
      destruct (assemble (∅, d0) rd) as [st es]. simpl. by destruct (frame_event st f).
    + intros i e He. rewrite H1. destruct H2 as [[_ ?]|(_ & _ & H2)]; [congruence|].
      rewrite H2 in He. repeat case_match; simplify_eq/=; eauto.
    + intros i Hi. rewrite H1 in Hi. by apply Hf.
    + intros j q Hj. rewrite H1 in Hj. destruct (Hst j q Hj) as (k & ? & Hk & Hp & He).
      exists k. split; [done|]. split; [rewrite length_app; lia|]. specialize (He eq_refl).
      assert (Hold : handed (World s rd rc from) j
                     = default [] (rc !! j) ++ default [] (streams s !! j) ++ []).
      { unfold handed, in_flight; simpl. by rewrite Es. }
      destruct H2 as [[Hd H2]|(Hd & _ & H2)].
      * assert (handed (World (handleFrame f s1) (rd ++ [f]) rc from) j = handed (World s rd rc from) j) as ->.
        { rewrite Hold. unfold handed, in_flight; simpl. by rewrite H1, H2. }
        split; [rewrite He; by apply expected_prefix|congruence].
      * assert (handed (World (handleFrame f s1) (rd ++ [f]) rc from) j
                = expected d0 j k (rd ++ [f])) as ->; [|done].
        rewrite expected_snoc, <-He, Hold by done. unfold handed, in_flight; simpl.
        rewrite H1, H2, <-!app_assoc. do 2 f_equal. simpl.
        change (streams s1) with (streams s) in Hj |- *.
        destruct (frame_event _ f).2 as [[i e]|]; simpl; [|done].
        destruct (decide (i = j)) as [->|].
        -- rewrite Hj. by rewrite decide_True.
        -- destruct (streams s !! i); [by rewrite decide_False|done].
Qed.

Lemma inv_step w w' : step w w' -> session_inv w -> session_inv w'.
Proof.
  destruct 1 as [s rd rc from|s s' rd rc from i Hr|s rd rc from i e q Hq|s rd rc from x Hx];
    [apply inv_reader| | |]; intros [Ha Hs Hf Hst]; simpl in *.
  - unfold register in Hr. destruct (streams s !! i) eqn:Ei; simplify_eq. split; simpl; [done| | |].
    + intros j e He. destruct (decide (i = j)) as [->|]; [by rewrite lookup_insert_eq|].
      rewrite lookup_insert_ne by done. eauto.
    + intros j Hj. apply Hf. destruct (decide (i = j)) as [->|]; [by rewrite lookup_insert_eq in Hj|].
      by rewrite lookup_insert_ne in Hj.
    + intros j q Hj. destruct (decide (i = j)) as [->|].
      * exists (length rd). rewrite lookup_insert_eq. split_and!; [done|lia| |].
        all: assert (Hh : handed (World (set_streams (<[j:=[]]> (streams s)) s) rd rc (<[j:=length rd]> from)) j
                     = expected d0 j (length rd) rd); [|rewrite Hh; done].
        all: unfold handed, expected, in_flight; simpl; rewrite (Hf j Ei), lookup_insert_eq; simpl;
          rewrite drop_ge by (by rewrite length_assemble); simpl;
          destruct (sending s) as [[i e]|] eqn:Es; [|done]; case_decide; [|done]; subst;
          destruct (Hs j e eq_refl); congruence.
      * simpl in Hj. rewrite lookup_insert_ne in Hj by done. rewrite lookup_insert_ne by done.
        destruct (Hst j q Hj) as (k & ? & ? & Hp & He). exists k.
        assert (handed (World (set_streams (<[i:=[]]> (streams s)) s) rd rc (<[i:=length rd]> from)) j
                = handed (World s rd rc from) j) as ->; [|done].
        unfold handed; simpl. by rewrite lookup_insert_ne.
  - split; simpl; [done| | |].
    + intros j e' He. destruct (decide (i = j)) as [->|]; [by rewrite lookup_insert_eq|].
      rewrite lookup_insert_ne by done. eauto.
    + intros j Hj. destruct (decide (i = j)) as [->|]; [by rewrite lookup_insert_eq in Hj|].
      rewrite lookup_insert_ne in Hj by done. rewrite lookup_insert_ne by done. auto.
    + intros j q' Hj.
      assert (exists q0, streams s !! j = Some q0) as [q0 Hq0].
      { destruct (decide (i = j)) as [->|]; [eauto|]. rewrite lookup_insert_ne in Hj; eauto. }
      destruct (Hst j q0 Hq0) as (k & ? & ? & Hp & He). exists k.
      assert (handed (World (set_streams (<[i:=q]> (streams s)) s) rd
                (<[i:=default [] (rc !! i) ++ [e]]> rc) from) j = handed (World s rd rc from) j) as ->; [|done].
      unfold handed; simpl. unfold in_flight; simpl. destruct (decide (i = j)) as [->|].
      * rewrite !lookup_insert_eq, Hq. simpl. by rewrite <-!app_assoc.
      * by rewrite !lookup_insert_ne.
  - destruct (write x s) as [e s'] eqn:Ew. apply write_inv in Ew as (g & -> & _).
    split; simpl; done.
Qed.

Lemma inv_steps w w' : rtc step w w' -> session_inv w -> session_inv w'.
Proof. induction 1; eauto using inv_step. Qed.

(** The octets of the DATA frames of a stream. *)
Definition payloads (streamID : Z) (frames : list h2frame) : bytes :=
  concat (omap (fun f => match f with
    | DataFrame i d => if decide (i = streamID) then Some d else None
    | _ => None end) frames).

Lemma frame_event_data st i f :
  default [] (Data <$> select_stream i (frame_event st f).2) = payloads i [f].
Proof.
  destruct st as [blocks dec]. unfold payloads. destruct f; simpl; try done.
  - by case_decide; simpl; rewrite ?app_nil_r.
  - by case_decide.
  - unfold finish_event. by repeat (case_match; simplify_eq/=).
  - unfold finish_event. by repeat (case_match; simplify_eq/=).
Qed.

Lemma assemble_data i frames st :
  concat (Data <$> omap (select_stream i) (assemble st frames).2) = payloads i frames.
Proof.
  revert st. induction frames as [|f frames IH]; intros st; [done|].
  change (f :: frames) with ([f] ++ frames) at 2. unfold payloads in *.
  rewrite omap_app, concat_app. fold (payloads i [f]). rewrite <-(frame_event_data st i f). simpl.
  destruct (frame_event st f) as [st1 e]. simpl. specialize (IH st1).
  destruct (assemble st1 frames) as [st2 es]. simpl in *.
  rewrite <-IH. by destruct (select_stream i e).
Qed.

Lemma drop_assemble k frames st : exists st', drop k (assemble st frames).2 = (assemble st' (drop k frames)).2.
Proof.
  revert k st. induction frames as [|f frames IH]; intros k st; simpl; [exists st; by destruct k|].
  destruct k as [|k]; simpl; [by exists st|]. destruct (frame_event st f) as [st1 e].
  destruct (IH k st1) as [st' E]. exists st'. rewrite <-E. by destruct (assemble st1 frames).
Qed.

Lemma expected_data i k frames :
  concat (Data <$> expected d0 i k frames) = payloads i (drop k frames).
Proof.
  unfold expected. destruct (drop_assemble k frames (∅, d0)) as [st' ->]. apply assemble_data.
Qed.

Lemma concat_prefix {A} (l k : list (list A)) : l `prefix_of` k -> concat l `prefix_of` concat k.
Proof. intros [r ->]. rewrite concat_app. by apply prefix_app_r. Qed.

(** ** Flow control *)

Definition small_frame (f : h2frame) : Prop :=
  match f with DataFrame i d => i <> 0 /\ len d < 4294967296 | _ => True end.

Record credit_inv (w : world) : Prop := {
  credit_frames : Forall small_frame (fr_in (fr (w_session w)));
  credit_conn_le : credit 0 (fr_out (fr (w_session w))) <= octets (fun _ => true) (w_read w);
  credit_stream_le : forall i, i <> 0 ->
    credit i (fr_out (fr (w_session w))) <= octets (Z.eqb i) (w_read w);
  credit_conn : done_ (w_session w) = false ->
    credit 0 (fr_out (fr (w_session w))) = octets (fun _ => true) (w_read w);
  credit_stream : done_ (w_session w) = false -> forall i, i <> 0 ->
    credit i (fr_out (fr (w_session w))) = octets (Z.eqb i) (w_read w)
}.

Lemma credit_app i a b : credit i (a ++ b) = credit i a + credit i b.
Proof. induction a as [|x a IH]; simpl; [done|]. destruct x; try done. case_decide; lia. Qed.

Lemma octets_app p a b : octets p (a ++ b) = octets p a + octets p b.
Proof. induction a as [|x a IH]; simpl; [done|]. destruct x; try done. case_match; lia. Qed.

Lemma returnCredit_spec j data s e s' i :
  j <> 0 -> len data < 4294967296 -> returnCredit j data s = (e, s') ->
  exists g out, s' = set_fr g s /\ fr_in g = fr_in (fr s) /\ fr_out g = fr_out (fr s) ++ out /\
    credit i out <= octets (fun j => (i =? 0) || (i =? j)) [DataFrame j data] /\
    (e = None -> credit i out = octets (fun j => (i =? 0) || (i =? j)) [DataFrame j data]).
Proof.
  intros Hj Hd H. pose proof (len_nonneg data). unfold returnCredit in H.
  replace (u32 (len data)) with (len data) in H by (unfold u32; rewrite Z.mod_small by lia; done).
  assert (Hn : octets (fun j => (i =? 0) || (i =? j)) [DataFrame j data]
               = credit i [WriteWindowUpdate 0 (len data); WriteWindowUpdate j (len data)]).
  { simpl. destruct (Z.eqb_spec i 0), (Z.eqb_spec i j); simpl; repeat case_decide; lia. }
  rewrite Hn. destruct (Z.ltb_spec 0 (len data)).
  - destruct (write _ s) as [e1 s1] eqn:E1. apply write_inv in E1 as (g1 & -> & I1 & O1).
    destruct e1 as [e1|].
    + simplify_eq. exists g1, []. rewrite O1. split_and!; try done. simpl. repeat case_decide; lia.
    + apply write_inv in H as (g2 & -> & I2 & O2). simpl in *. rewrite I1 in I2. rewrite O1, <-app_assoc in O2.
      eexists g2, _. split_and!; [done|done|exact O2| |]; destruct e; simpl; repeat case_decide; (done || lia).
  - simplify_eq. exists (fr s'), []. rewrite app_nil_r.
    split_and!; [by destruct s'|done|done| |]; simpl; repeat case_decide; lia.
Qed.

(** One frame's credit: the connection and the stream, unless the reader stops. *)
Lemma handleFrame_credit s f i :
  small_frame f ->
  exists out, fr_out (fr (handleFrame f s)) = fr_out (fr s) ++ out /\
    fr_in (fr (handleFrame f s)) = fr_in (fr s) /\
    credit i out <= octets (fun j => (i =? 0) || (i =? j)) [f] /\
    (done_ (handleFrame f s) = false -> credit i out = octets (fun j => (i =? 0) || (i =? j)) [f]).
Proof.
  intros Hf. assert ((exists j d, f = DataFrame j d) \/ forall j d, f <> DataFrame j d) as [(j & d & ->)|Hn]
    by (destruct f; [right|right|left|right..]; eauto).
  - destruct Hf as [Hj Hd]. cbn [handleFrame].
    destruct (returnCredit j d s) as [e s1] eqn:E.
    destruct (returnCredit_spec j d s e s1 i Hj Hd E) as (g & out & -> & ? & ? & ? & He).
    exists out. destruct e; simpl; [done|]. unfold dispatch. specialize (He eq_refl).
    by destruct (streams _ !! j).
  - assert (Ho : octets (fun j => (i =? 0) || (i =? j)) [f] = 0) by (destruct f; naive_solver).
    rewrite Ho. destruct f; try naive_solver; simpl;
      unfold finishBlock, decodeHeaderBlock, dispatch, fail in *;
      repeat (case_match; simplify_eq/=);
      repeat match goal with H : write _ _ = _ |- _ => apply write_inv in H as (? & -> & ? & ?) end;
      simplify_eq/=;
      first [exists []; rewrite app_nil_r; by split_and!|eexists; split_and!; [eassumption|done|done|done]].
Qed.

Lemma octets_ext p q frames : (forall j, p j = q j) -> octets p frames = octets q frames.
Proof. intros H. induction frames as [|f l IH]; simpl; [done|]. destruct f; rewrite ?H, ?IH; done. Qed.

Lemma credit_step w w' : step w w' -> credit_inv w -> credit_inv w'.
Proof.
  destruct 1 as [s rd rc from|s s' rd rc from i Hr|s rd rc from i e q Hq|s rd rc from x Hx];
    intros [Hf Hc Hs Hc' Hs']; simpl in *.
  - unfold readTurn, taken. destruct (sending s) as [[i e]|].
    { rewrite app_nil_r. repeat case_match; split; simpl; done. }
    destruct (done_ s) eqn:Ed; [rewrite app_nil_r; split; simpl; rewrite ?Ed; done|].
    specialize (Hc' eq_refl). specialize (Hs' eq_refl).
    unfold ReadFrame. destruct (fr_in (fr s)) as [|f fin] eqn:Ef.
    { rewrite app_nil_r. split; simpl; rewrite ?Ef; done. }
    inversion_clear Hf as [|?? Hsmall Hrest].
    set (s1 := set_fr _ s).
    assert (Hi : forall i, exists n, credit i (fr_out (fr (handleFrame f s1))) = credit i (fr_out (fr s)) + n /\
       n <= octets (fun j => (i =? 0) || (i =? j)) [f] /\
       (done_ (handleFrame f s1) = false -> n = octets (fun j => (i =? 0) || (i =? j)) [f])).
    { intros i. destruct (handleFrame_credit s1 f i Hsmall) as (out & -> & _ & ? & ?).
      exists (credit i out). by rewrite credit_app. }
    assert (Hne : forall i, i <> 0 -> octets (fun j => (i =? 0) || (i =? j)) [f] = octets (Z.eqb i) [f]).
    { intros i Hi0. apply octets_ext. intros j. by rewrite (proj2 (Z.eqb_neq i 0) Hi0). }
    split; simpl.
    + destruct (handleFrame_credit s1 f 0 Hsmall) as (out & _ & -> & _). done.
    + destruct (Hi 0) as (n & -> & Hn & _). rewrite octets_app, Hc'. simpl in *. lia.
    + intros i Hi0. destruct (Hi i) as (n & -> & Hn & _). rewrite octets_app, (Hs' i Hi0), <-(Hne i Hi0). lia.
    + intros Hd. destruct (Hi 0) as (n & -> & _ & Hn). rewrite octets_app, Hc', (Hn Hd). done.
    + intros Hd i Hi0. destruct (Hi i) as (n & -> & _ & Hn).
      by rewrite octets_app, (Hs' i Hi0), <-(Hne i Hi0), (Hn Hd).
  - unfold register in Hr. repeat case_match; simplify_eq. by split.
  - by split.
  - assert (E : exists out, fr_out (fr (write x s).2) = fr_out (fr s) ++ out /\
                  fr_in (fr (write x s).2) = fr_in (fr s) /\ done_ (write x s).2 = done_ s /\
                  forall i, credit i out = 0).
    { destruct (write x s) as [e s'] eqn:E. apply write_inv in E as (g & -> & ? & Ho).
      eexists. split_and!; [exact Ho|done|done|]. intros i. destruct e, x; simpl; try done.
      by destruct (Hx streamID increment). }
    destruct E as (out & Ho & Hin & Hd & H0).
    assert (forall i, credit i (fr_out (fr (write x s).2)) = credit i (fr_out (fr s))) as Hcr.
    { intros i. rewrite Ho, credit_app, H0. lia. }
    split; simpl; rewrite ?Hin, ?Hd, ?Hcr; try done; intros; rewrite Hcr; auto.
Qed.

Lemma credit_steps w w' : rtc step w w' -> credit_inv w -> credit_inv w'.
Proof. induction 1; eauto using credit_step. Qed.

(** ** Properties *)

(** C38: demultiplexing. However the reader, the stream consumers and the writers
    interleave, what a registered stream has received, what waits in its channel and
    what the reader holds for it are, in order, the events of the frames that named it
    since its registration: none lost, none duplicated, none from another stream. Once
    the reader has stopped they are a prefix of these events. *)
Theorem session_demultiplexes f w streamID queue :
  rtc step (World (new_session f d0) [] ∅ ∅) w ->
  streams (w_session w) !! streamID = Some queue ->
  exists k, w_from w !! streamID = Some k /\ (k <= length (w_read w))%nat /\
    handed w streamID `prefix_of` expected d0 streamID k (w_read w) /\
    concat (Data <$> handed w streamID) `prefix_of` payloads streamID (drop k (w_read w)) /\
    (done_ (w_session w) = false ->
       handed w streamID = expected d0 streamID k (w_read w) /\
       concat (Data <$> handed w streamID) = payloads streamID (drop k (w_read w))).
Proof.
  intros Hw Hq. pose proof (inv_steps _ _ Hw (inv_init f)) as [_ _ _ Hst].
  destruct (Hst streamID queue Hq) as (k & Hk & Hle & Hp & He).
  exists k. rewrite <-(expected_data streamID k). split_and!; [done|done|done| |].
  - apply concat_prefix. destruct Hp as [r ->]. rewrite fmap_app. by apply prefix_app_r.
  - intros Hd. by rewrite (He Hd).
Qed.

(** Flow control. In every reachable state the window updates written never exceed
    the octets received, on the connection and on each stream, and while the reader runs
    they equal them: a long exchange never exhausts the windows it received on. *)
Theorem session_returns_credit f w :
  Forall small_frame (fr_in f) -> (forall i, credit i (fr_out f) = 0) ->
  rtc step (World (new_session f d0) [] ∅ ∅) w ->
  let out := fr_out (fr (w_session w)) in
  credit 0 out <= octets (fun _ => true) (w_read w) /\
  (forall i, i <> 0 -> credit i out <= octets (Z.eqb i) (w_read w)) /\
  (done_ (w_session w) = false ->
     credit 0 out = octets (fun _ => true) (w_read w) /\
     forall i, i <> 0 -> credit i out = octets (Z.eqb i) (w_read w)).
Proof.
  intros Hf Ho Hw. assert (credit_inv (World (new_session f d0) [] ∅ ∅)) as Hi.
  { split; simpl; [done|rewrite Ho|intros; rewrite Ho|done|]; done || auto. }
  destruct (credit_steps _ _ Hw Hi) as [_ ? ? ? ?]. split_and!; auto.
Qed.
End session.
Arguments h2Session : clear implicits.
Arguments world : clear implicits.

(** ** A concrete session, for the witnesses *)

(** A decoder that knows one indexed field. *)
Definition tiny_write (d : unit) (block : bytes) : (unit * list (string * string)) * option goerror :=
  ((d, if decide (block = [136]) then [(":status", "200")] else []), None).
Definition tiny_close (d : unit) : unit * option goerror := (d, None).

Definition tiny_framer : framer :=
  Framer [SettingsFrame false []; HeadersFrame 1 [136] true; DataFrame 3 [1]; DataFrame 1 [65; 66]]
    EEOF [] [].

(** Stream 1 registers, then the reader takes six turns. *)
Definition tiny_world : world unit :=
  World (readLoop tiny_write tiny_close 6 (register 1 (new_session tiny_framer tt)).2)
    (fr_in tiny_framer) ∅ {[1 := 0%nat]}.

Lemma session_demultiplexes_witness :
  streams (w_session tiny_world) !! 1
    = Some [headers_event {[":status" := "200"]}; data_event [65; 66]] /\
  exists k, w_from tiny_world !! 1 = Some k /\ (k <= length (w_read tiny_world))%nat /\
    handed tiny_world 1 `prefix_of` expected tiny_write tiny_close tt 1 k (w_read tiny_world) /\
    concat (Data <$> handed tiny_world 1) `prefix_of` payloads 1 (drop k (w_read tiny_world)) /\
    (done_ (w_session tiny_world) = false ->
       handed tiny_world 1 = expected tiny_write tiny_close tt 1 k (w_read tiny_world) /\
       concat (Data <$> handed tiny_world 1) = payloads 1 (drop k (w_read tiny_world))).
Proof.
  split; [vm_compute; reflexivity|].
  apply (session_demultiplexes tiny_write tiny_close tt tiny_framer tiny_world 1
           [headers_event {[":status" := "200"]}; data_event [65; 66]]); [|vm_compute; reflexivity].
  eapply rtc_l; [eapply step_register with (streamID := 1); reflexivity|].
  do 6 (eapply rtc_l; [apply step_reader|]). vm_compute. apply rtc_refl.
Defined.

Lemma session_returns_credit_witness :
  let out := fr_out (fr (w_session tiny_world)) in
  credit 0 out <= octets (fun _ => true) (w_read tiny_world) /\
  (forall i, i <> 0 -> credit i out <= octets (Z.eqb i) (w_read tiny_world)) /\
  (done_ (w_session tiny_world) = false ->
     credit 0 out = octets (fun _ => true) (w_read tiny_world) /\
     forall i, i <> 0 -> credit i out = octets (Z.eqb i) (w_read tiny_world)).
Proof.
  apply (session_returns_credit tiny_write tiny_close tt tiny_framer tiny_world).
  - repeat constructor; compute; congruence.
  - reflexivity.
  - eapply rtc_l; [eapply step_register with (streamID := 1); reflexivity|].
    do 6 (eapply rtc_l; [apply step_reader|]). vm_compute. apply rtc_refl.
Defined.

(** Head-of-line blocking: with 256 events waiting on a stream nobody reads, the reader
    holds the 257th and no other stream gets its frames, however many turns it takes. *)
Example full_channel_blocks_every_stream :
  let f := Framer (replicate 257 (DataFrame 1 [1]) ++ [DataFrame 3 [7]]) EEOF [] [] in
  let s := (register 3 (register 1 (new_session f tt)).2).2 in
  streams (readLoop tiny_write tiny_close 1000 s) !! 3 = Some [] /\
  done_ (readLoop tiny_write tiny_close 1000 s) = false.
Proof. vm_compute. done. Qed.
