(* ===== verification/H2Stream.v ===== *)
(** A WebSocket on one stream of the shared HTTP/2 session (go-http2-websocket-executor):
    the Extended CONNECT request, message groups, and the closing handshake. *)
From S2P Require Export Prelude GoText GoHash Stats WsCodec H2Session.

(** ** Scenarios *)

Record scenario := Scenario {
  ID : string;
  Operation : string;
  Opcode : Z;
  ResponseOpcode : Z;
  Payload : bytes;
  PayloadHash : string;
  MessageCount : Z
}.

Definition serverName : string := "websocket.plab.test".
Definition pathValue : string := "/websocket".
Definition textPayload : string := "protocol-lab".
Definition controlPayload : string := "protocol-lab-ping".
Definition textHash : string := "504585b0bb4fd77012ea2575efbcdb58f4c33e6b543e9567a65896d213720c29".
Definition binaryHash : string := "9b6ce55f379e9771551de6939556a7e6b949814ae27c2f5cfd5dbeb378ce7c2a".
Definition controlHash : string := "4848de689e96825e0e05b6c3e96e48f2ad7ec7805fb64ecf824ccc6aa9c58883".

Definition scenarios : list scenario :=
  [Scenario "http2.websocket.rfc8441.extended-connect" "extended-connect" 0 0 [] "" 0;
   Scenario "http2.websocket.rfc8441.control-frames" "control-frames" 0x9 0xA
     (bytes_of_string controlPayload) controlHash 1;
   Scenario "http2.websocket.rfc8441.text-echo" "text-echo" 0x1 0x1
     (bytes_of_string textPayload) textHash 1;
   Scenario "http2.websocket.rfc8441.binary-echo" "binary-echo" 0x2 0x2
     (replicate 1024 66) binaryHash 1;
   Scenario "http2.websocket.rfc8441.close" "close" 0 0 [] "" 0;
   Scenario "http2.websocket.rfc8441.multi-message-text-echo" "multi-message-text-echo" 0x1 0x1
     (bytes_of_string textPayload) textHash 100].

Definition find_scenario (id : string) : option scenario :=
  List.find (fun s => String.eqb (ID s) id) scenarios.

(** ** Counters *)

Record frameSummary := FrameSummary {
  SettingsFrames : Z; HeadersFrames : Z; DataFrames : Z; WindowUpdateFrames : Z;
  ClientMessageFrames : Z; ServerMessageFrames : Z;
  ClientMaskKeys : list string;
  ReceivedOrder : list Z;
  StreamIDs : list Z;
  ClientMaskedFrames : Z; ServerMaskedFrames : Z;
  UniqueClientMaskKeys : Z; DuplicateClientMaskKeys : Z;
  StrictPerStreamOrdering : bool
}.
Definition frameSummary_zero : frameSummary := FrameSummary 0 0 0 0 0 0 [] [] [] 0 0 0 0 false.

Definition count_data (s : frameSummary) : frameSummary :=
  let '(FrameSummary a b c d e f k r i m n u v o) := s in FrameSummary a b (c + 1) d e f k r i m n u v o.
Definition count_client_message (s : frameSummary) : frameSummary :=
  let '(FrameSummary a b c d e f k r i m n u v o) := s in FrameSummary a b c d (e + 1) f k r i m n u v o.
Definition count_server_message (s : frameSummary) : frameSummary :=
  let '(FrameSummary a b c d e f k r i m n u v o) := s in FrameSummary a b c d e (f + 1) k r i m n u v o.
Definition count_mask_key (key : string) (s : frameSummary) : frameSummary :=
  let '(FrameSummary a b c d e f k r i m n u v o) := s in
  FrameSummary a b c d e f (k ++ [key]) r i (m + 1) n u v o.
Definition count_server_masked (s : frameSummary) : frameSummary :=
  let '(FrameSummary a b c d e f k r i m n u v o) := s in FrameSummary a b c d e f k r i m (n + 1) u v o.
Definition set_order (order : list Z) (s : frameSummary) : frameSummary :=
  let '(FrameSummary a b c d e f k _ i m n u v o) := s in FrameSummary a b c d e f k order i m n u v o.

Definition hash (value : bytes) : string := sha256_hex value.
#[global] Arguments hash : simpl never.

(** [maskKeyCounts]: distinct values, and repetitions. *)
Definition maskKeyCounts (values : list string) : Z * Z :=
  let '(unique, duplicates) :=
    fold_left (fun '(unique, duplicates) value =>
      ({[value]} ∪ unique, if decide (value ∈ unique) then duplicates + 1 else duplicates))
      values (∅ : gset string, 0) in
  (Z.of_nat (size unique), duplicates).

Fixpoint strictFrom (i : Z) (values : list Z) : bool :=
  match values with
  | [] => true
  | v :: values => if negb (v =? i + 1) then false else strictFrom (i + 1) values
  end.
Definition strictOrder (values : list Z) : bool :=
  if negb (len values =? 100) then false else strictFrom 0 values.

(** ** The stream *)

(** What [nextMultiplexedFrame] returns to one stream: the events of its channel, then the
    reader's error, EOF or the context's error. *)
Record feed := Feed { fd_events : list streamEvent; fd_end : goerror }.

Definition next_event (fd : feed) : res streamEvent * feed :=
  match fd_events fd with
  | [] => (Err (fd_end fd), fd)
  | ev :: events =>
      match SErr ev with
      | Some e => (Err e, Feed events (fd_end fd))
      | None => (Ok ev, Feed events (fd_end fd))
      end
  end.

Record multiplexedWebSocket := Stream {
  streamID : Z;
  frames : feed;
  pending : bytes;
  summary : frameSummary;
  maskKeys : gset string;
  duplicateKeys : Z;
  keys : list (res bytes);               (* what the next calls of rand.Read return *)
  sent : list (Z * bytes);               (* WriteData(streamID, false, data) *)
  faults : list (option goerror)         (* what the next writes return *)
}.

Definition set_frames fd s := Stream (streamID s) fd (pending s) (summary s) (maskKeys s)
  (duplicateKeys s) (keys s) (sent s) (faults s).
Definition set_pending p s := Stream (streamID s) (frames s) p (summary s) (maskKeys s)
  (duplicateKeys s) (keys s) (sent s) (faults s).
Definition on_summary g s := Stream (streamID s) (frames s) (pending s) (g (summary s)) (maskKeys s)
  (duplicateKeys s) (keys s) (sent s) (faults s).
Definition set_keys k s := Stream (streamID s) (frames s) (pending s) (summary s) (maskKeys s)
  (duplicateKeys s) k (sent s) (faults s).

(** [maskKeys] and [duplicateKeys] after one more key. *)
Definition note_key (keyHash : string) (s : multiplexedWebSocket) : multiplexedWebSocket :=
  Stream (streamID s) (frames s) (pending s) (count_mask_key keyHash (summary s))
    ({[keyHash]} ∪ maskKeys s)
    (if decide (keyHash ∈ maskKeys s) then duplicateKeys s + 1 else duplicateKeys s)
    (keys s) (sent s) (faults s).

Definition random_key (s : multiplexedWebSocket) : res bytes * multiplexedWebSocket :=
  match keys s with
  | k :: r => (k, set_keys r s)
  | [] => (Err (EMsg "random source exhausted"), s)
  end.

Definition write_data (data : bytes) (s : multiplexedWebSocket) : option goerror * multiplexedWebSocket :=
  let put f ok := Stream (streamID s) (frames s) (pending s) (summary s) (maskKeys s)
    (duplicateKeys s) (keys s) (if ok : bool then sent s ++ [(streamID s, data)] else sent s) f in
  match faults s with
  | Some e :: f => (Some e, put f false)
  | None :: f => (None, put f true)
  | [] => (None, put [] true)
  end.

(** [stream.readWebSocketFrame]: parse what is pending, or wait for more. *)
Fixpoint read_loop (events : list streamEvent) (end_ : goerror) (s : multiplexedWebSocket)
    : res H2.wsFrame * multiplexedWebSocket :=
  match H2.parseFrameConsumed (pending s) with
  | Err e => (Err e, set_frames (Feed events end_) s)
  | Ok (Some (parsed, consumed)) =>
      (Ok parsed, set_frames (Feed events end_) (set_pending (drop (Z.to_nat consumed) (pending s)) s))
  | Ok None =>
      match events with
      | [] => (Err end_, set_frames (Feed [] end_) s)
      | event :: events =>
          match SErr event with
          | Some e => (Err e, set_frames (Feed events end_) s)
          | None =>
              if len (Data event) =? 0 then read_loop events end_ s
              else read_loop events end_ (set_pending (pending s ++ Data event) (on_summary count_data s))
          end
      end
  end.
Definition readWebSocketFrame (s : multiplexedWebSocket) : res H2.wsFrame * multiplexedWebSocket :=
  read_loop (fd_events (frames s)) (fd_end (frames s)) s.

Record messageGroupResult := GroupResult {
  MessageLatencies : list float64;
  TransferredBytes : Z;
  MaskKeyHashes : list string;
  GReceivedOrder : list Z
}.

(** The messages [index], ..., [index + n - 1] of a group; [latency i] is the time the
    [i]th exchange takes. *)
Fixpoint messages (n : nat) (index : Z) (spec : scenario) (latency : Z -> float64)
    (result : messageGroupResult) (s : multiplexedWebSocket)
    : (messageGroupResult * option goerror) * multiplexedWebSocket :=
  match n with
  | O => ((result, None), s)
  | S n =>
      let '(key, s) := random_key s in
      match H2.maskedFrame key (Opcode spec) (Payload spec) with
      | Err e => ((result, Some e), s)
      | Ok (key, encoded) =>
      let keyHash := hash key in
      let s := on_summary count_client_message (note_key keyHash s) in
      match write_data encoded s with
      | (Some e, s) => ((result, Some e), s)
      | (None, s) =>
      match readWebSocketFrame s with
      | (Err e, s) => ((result, Some e), s)
      | (Ok response, s) =>
      let s := if H2.Masked response then on_summary count_server_masked s else s in
      if H2.Masked response || negb (H2.Opcode response =? ResponseOpcode spec)
         || negb (bool_decide (H2.Payload response = Payload spec))
      then ((result, Some (EMsg ("stream " +:+ pretty (streamID s) +:+ " message "
                                 +:+ pretty (index + 1) +:+ " response mismatch"))), s)
      else
      let s := on_summary count_server_message s in
      let result :=
        GroupResult (MessageLatencies result ++ [latency index])
          (TransferredBytes result + len (Payload spec) * 2)
          (MaskKeyHashes result ++ [keyHash])
          (GReceivedOrder result ++ [index + 1]) in
      messages n (index + 1) spec latency result s
      end end end
  end.

Definition runMessageGroup (spec : scenario) (latency : Z -> float64) (s : multiplexedWebSocket)
    : (messageGroupResult * option goerror) * multiplexedWebSocket :=
  match messages (Z.to_nat (MessageCount spec)) 0 spec latency (GroupResult [] 0 [] []) s with
  | ((result, Some e), s) => ((result, Some e), s)
  | ((result, None), s) =>
      if negb (strictOrder (GReceivedOrder result))
      then ((result, Some (EMsg ("stream " +:+ pretty (streamID s)
                  +:+ " did not preserve strict 1..100 response order"))), s)
      else
      let s := match ReceivedOrder (summary s) with
               | [] => on_summary (set_order (GReceivedOrder result)) s
               | _ => s
               end in
      ((result, None), s)
  end.

Definition closePayload : bytes := [0x03; 0xE8].

(** [stream.close]: the closing handshake, code 1000 both ways. *)
Definition close (latency : float64) (s : multiplexedWebSocket)
    : (float64 * option goerror) * multiplexedWebSocket :=
  let '(key, s) := random_key s in
  match H2.maskedFrame key 0x8 closePayload with
  | Err e => ((f_zero, Some e), s)
  | Ok (key, encoded) =>
  let s := note_key (hash key) s in
  match write_data encoded s with
  | (Some e, s) => ((f_zero, Some e), s)
  | (None, s) =>
  match readWebSocketFrame s with
  | (Err e, s) => ((f_zero, Some e), s)
  | (Ok response, s) =>
  if H2.Masked response || negb (H2.Opcode response =? 0x8)
     || negb (bool_decide (H2.Payload response = closePayload))
  then ((f_zero, Some (EMsg ("stream " +:+ pretty (streamID s) +:+ " clean close mismatch"))), s)
  else ((latency, None), s)
  end end end.

(** ** Extended CONNECT *)

Record protocolProof := ProtocolProof {
  Protocol : string; ProtocolVersion : string; ProtocolVariant : string;
  TLSVersion : string; ALPN : string; DidResume : bool;
  CertificateDERSHA256 : string; CertificateSPKISHA256 : string;
  SettingsEnableConnectProtocol : Z;
  RequestPseudoHeaders : list (string * string);
  RequestHeaders : list (string * string);
  ProhibitedRequestHeadersPresent : bool;
  ResponseStatus : Z;
  ResponseHeaders : gmap string string;
  SecWebSocketAcceptPresent : bool; SecWebSocketKeyPresent : bool;
  SubprotocolPresent : bool; ExtensionsPresent : bool;
  ClientMaskRequired : bool; ClientMaskObserved : bool;
  MessageType : string; MessageBytes : Z; PMessageCount : Z; PayloadSHA256 : string;
  StrictOrdering : bool; PingSent : bool; PongReceived : bool;
  CloseSent : Z; CloseReceived : Z; CleanCompletion : bool; ConnectionReused : bool;
  ConfiguredConnections : Z; ConfiguredConcurrency : Z; ConfiguredStreamsPerConnection : Z;
  ObservedActiveConnections : Z; ObservedActiveStreams : Z; EffectiveConcurrency : Z
}.

Definition pseudo_headers : list (string * string) :=
  [(":method", "CONNECT"); (":protocol", "websocket"); (":scheme", "https");
   (":authority", serverName); (":path", pathValue)].
Definition request_headers : list (string * string) := [("sec-websocket-version", "13")].

(** The value a Go map gives an absent key. *)
Definition header (h : gmap string string) (name : string) : string := default "" (h !! name).
Definition present (h : gmap string string) (name : string) : bool :=
  negb (bool_decide (header h name = "")).

(** [proof] with the response recorded. *)
Definition with_response (h : gmap string string) (p : protocolProof) : protocolProof :=
  {| Protocol := Protocol p; ProtocolVersion := ProtocolVersion p; ProtocolVariant := ProtocolVariant p;
     TLSVersion := TLSVersion p; ALPN := ALPN p; DidResume := DidResume p;
     CertificateDERSHA256 := CertificateDERSHA256 p; CertificateSPKISHA256 := CertificateSPKISHA256 p;
     SettingsEnableConnectProtocol := SettingsEnableConnectProtocol p;
     RequestPseudoHeaders := RequestPseudoHeaders p; RequestHeaders := RequestHeaders p;
     ProhibitedRequestHeadersPresent := false;
     ResponseStatus := 200; ResponseHeaders := h;
     SecWebSocketAcceptPresent := present h "sec-websocket-accept";
     SecWebSocketKeyPresent := false;
     SubprotocolPresent := present h "sec-websocket-protocol";
     ExtensionsPresent := present h "sec-websocket-extensions";
     ClientMaskRequired := ClientMaskRequired p; ClientMaskObserved := ClientMaskObserved p;
     MessageType := MessageType p; MessageBytes := MessageBytes p; PMessageCount := PMessageCount p;
     PayloadSHA256 := PayloadSHA256 p; StrictOrdering := StrictOrdering p; PingSent := PingSent p;
     PongReceived := PongReceived p; CloseSent := CloseSent p; CloseReceived := CloseReceived p;
     CleanCompletion := CleanCompletion p; ConnectionReused := ConnectionReused p;
     ConfiguredConnections := ConfiguredConnections p; ConfiguredConcurrency := ConfiguredConcurrency p;
     ConfiguredStreamsPerConnection := ConfiguredStreamsPerConnection p;
     ObservedActiveConnections := ObservedActiveConnections p;
     ObservedActiveStreams := ObservedActiveStreams p; EffectiveConcurrency := EffectiveConcurrency p |}.

(** [readMultiplexedResponseHeaders]: skip events until one carries headers. *)
Fixpoint headers_loop (events : list streamEvent) (end_ : goerror) : res (gmap string string) * feed :=
  match events with
  | [] => (Err end_, Feed [] end_)
  | event :: events =>
      match SErr event with
      | Some e => (Err e, Feed events end_)
      | None =>
          match Headers event with
          | Some h => (Ok h, Feed events end_)
          | None => headers_loop events end_
          end
      end
  end.
Definition readMultiplexedResponseHeaders (fd : feed) : res (gmap string string) * feed :=
  headers_loop (fd_events fd) (fd_end fd).

Definition stream_summary (id : Z) : frameSummary :=
  FrameSummary 0 0 0 0 0 0 [] [] [id] 0 0 0 0 true.

(** [session.openWebSocket] after the stream is registered: [block] is what the HPACK
    encoder produced, [fault] what the write returned, [fd] what the stream is then fed. *)
Definition openWebSocket (id : Z) (baseProof : protocolProof) (block : res bytes)
    (fault : option goerror) (fd : feed) (random : list (res bytes)) (write_faults : list (option goerror))
    : res (multiplexedWebSocket * protocolProof) :=
  let? _ := block in
  match fault with
  | Some e => Err e
  | None =>
      let '(headers, fd) := readMultiplexedResponseHeaders fd in
      let? headers := headers in
      guard bool_decide (header headers ":status" = "200")
        else EMsg ("stream " +:+ pretty id +:+ " Extended CONNECT status "
                   +:+ go_quote (header headers ":status")) in
      let proof := with_response headers baseProof in
      guard negb (present headers "connection" || present headers "upgrade"
                  || SecWebSocketAcceptPresent proof || SubprotocolPresent proof || ExtensionsPresent proof)
        else EMsg ("stream " +:+ pretty id +:+ " prohibited response header present") in
      Ok (Stream id fd [] (stream_summary id) ∅ 0 random [] write_faults, proof)
  end.

(** ** Facts: reading one frame *)

Lemma parse_err_app data more e :
  all_bytes data -> H2.parseFrameConsumed data = Err e -> H2.parseFrameConsumed (data ++ more) = Err e.
Proof.
  intros Hb. destruct data as [|first [|second tail]]; [done|done|].
  unfold H2.parseFrameConsumed. simpl app.
  rewrite !(proj2 (Z.ltb_ge _ 2)) by (unfold len; simpl; lia).
  cbn [byte_at nth]. change (byte_at (first :: second :: ?t) 1) with second.
  destruct (_ || _); [done|]. cbv zeta.
  destruct (Z.land second 127 =? 126) eqn:E6.
  - destruct (len (first :: second :: tail) <? 4); [done|]. simpl. by destruct (_ <? _).
  - destruct (Z.land second 127 =? 127); [done|]. simpl. by destruct (_ <? _).
Qed.

Definition quiet (ev : streamEvent) : Prop := SErr ev = None /\ all_bytes (Data ev).
Abbreviation arriving events := (concat (Data <$> events)).

(** What changes when a frame is read: the buffer, the channel, the count of DATA frames. *)
Record same_stream (s s' : multiplexedWebSocket) : Prop := {
  ss_id : streamID s' = streamID s;
  ss_keys : keys s' = keys s;
  ss_sent : sent s' = sent s;
  ss_faults : faults s' = faults s;
  ss_maskKeys : maskKeys s' = maskKeys s;
  ss_duplicates : duplicateKeys s' = duplicateKeys s;
  ss_client_keys : ClientMaskKeys (summary s') = ClientMaskKeys (summary s);
  ss_order : ReceivedOrder (summary s') = ReceivedOrder (summary s)
}.

Lemma same_refl s : same_stream s s.
Proof. by split. Qed.
Lemma same_trans a b c : same_stream a b -> same_stream b c -> same_stream a c.
Proof. intros [] []. split; congruence. Qed.
#[export] Hint Resolve same_refl : plab.

Lemma same_set_frames fd s : same_stream s (set_frames fd s).
Proof. by split. Qed.
Lemma same_pending p s : same_stream s (set_pending p s).
Proof. by split. Qed.
Lemma same_count_data s : same_stream s (on_summary count_data s).
Proof. split; simpl; try done; by destruct (summary s). Qed.
#[export] Hint Resolve same_set_frames same_pending same_count_data : plab.

Lemma read_loop_same events e s r s' : read_loop events e s = (r, s') -> same_stream s s'.
Proof.
  revert s. induction events as [|ev events IH]; intros s; simpl;
    destruct (H2.parseFrameConsumed (pending s)) as [[[f n]|]|]; intros; simplify_eq/=;
    eauto using same_trans with plab.
  destruct (SErr ev); simplify_eq; [auto with plab|].
  destruct (_ =? 0); [eauto|]. eapply same_trans; [|by eapply IH].
  eapply same_trans; [apply same_count_data|apply same_pending].
Qed.

(** However the octets of a frame are cut into DATA frames, the next frame is read, and
    the octets after it stay for the next read. *)
Lemma read_loop_frame op p rest events e s wire :
  frame_ok op p -> Server.serverFrame op p false = Ok wire ->
  Forall quiet events -> all_bytes (pending s) ->
  pending s ++ arriving events = wire ++ rest ->
  exists s', read_loop events e s = (Ok (H2.WsFrame op false p), s') /\
    Forall quiet (fd_events (frames s')) /\ all_bytes (pending s') /\ fd_end (frames s') = e /\
    pending s' ++ arriving (fd_events (frames s')) = rest.
Proof.
  intros Hok Hwire. assert (Hparse : forall rest,
    H2.parseFrameConsumed (wire ++ rest) = Ok (Some (H2.WsFrame op false p, len wire))).
  { intros r. destruct Hok as [Hop _ Hp Hc]. destruct (first_octet op Hop) as (F1 & F2 & F3 & _).
    rewrite serverFrame_layout in Hwire by done. simplify_eq.
    pose proof (parse_layout (Z.lor 0x80 op) false [] p r eq_refl Hp F1 F2) as E.
    simpl in E. rewrite F3 in E. simpl app in *. rewrite E. do 3 f_equal.
    unfold len; simpl length. rewrite length_app. lia. }
  revert s. induction events as [|ev events IH]; intros s Hq Hb Hcat; cbn [read_loop].
  - simpl in Hcat. rewrite app_nil_r in Hcat. rewrite Hcat, Hparse. eexists. split; [done|]. simpl.
    rewrite app_nil_r. rewrite Hcat in Hb. apply all_bytes_app in Hb as [_ ?].
    unfold len. by rewrite Nat2Z.id, drop_app_length.
  - inversion_clear Hq as [|?? [He Hd] Hq'].
    change (arriving (ev :: events)) with (Data ev ++ arriving events) in Hcat.
    destruct (H2.parseFrameConsumed (pending s)) as [[[f n]|]|e'] eqn:E.
    + pose proof (parse_bounds _ _ _ Hb E) as (Hn & _).
      pose proof (parse_app _ (Data ev ++ arriving events) _ Hb E) as E'.
      rewrite Hcat, Hparse in E'. simplify_eq. eexists. split; [done|]. simpl.
      split_and!; [by constructor|auto with plab|done|].
      apply (f_equal (drop (Z.to_nat (len wire)))) in Hcat. unfold len in *. rewrite !Nat2Z.id in *.
      rewrite drop_app_length in Hcat. rewrite <-Hcat. by rewrite drop_app_le by lia.
    + rewrite He. destruct (Z.eqb_spec (len (Data ev)) 0) as [H0|].
      * apply IH; [done|done|]. destruct (Data ev); [done|]. unfold len in H0; simpl in H0. lia.
      * apply IH; [done|by apply all_bytes_app|]. simpl. by rewrite <-app_assoc.
    + apply (parse_err_app _ (Data ev ++ arriving events)) in E; [|done].
      by rewrite Hcat, Hparse in E.
Qed.

Lemma readWebSocketFrame_same s r s' : readWebSocketFrame s = (r, s') -> same_stream s s'.
Proof. apply read_loop_same. Qed.

(** ** Facts: message groups *)

(** The octets [maskedFrame] builds with a key. *)
Definition masked_wire (op : Z) (p key : bytes) : bytes :=
  match H2.maskedFrame (Ok key) op p with Ok (_, wire) => wire | Err _ => [] end.

Lemma maskedFrame_key key op p : exists wire, H2.maskedFrame (Ok key) op p = Ok (key, wire).
Proof. eexists. unfold H2.maskedFrame. simpl. done. Qed.

Lemma maskedFrame_wire key op p : H2.maskedFrame (Ok key) op p = Ok (key, masked_wire op p key).
Proof. unfold masked_wire. by destruct (maskedFrame_key key op p) as [w ->]. Qed.

Lemma maskedFrame_inv r op p key wire :
  H2.maskedFrame r op p = Ok (key, wire) -> r = Ok key /\ wire = masked_wire op p key.
Proof. destruct r as [k|]; [|done]. rewrite maskedFrame_wire. intros. by simplify_eq. Qed.

Lemma write_data_inv d s e s' :
  write_data d s = (e, s') ->
  streamID s' = streamID s /\ keys s' = keys s /\ frames s' = frames s /\ pending s' = pending s /\
  maskKeys s' = maskKeys s /\ duplicateKeys s' = duplicateKeys s /\ summary s' = summary s /\
  sent s' = sent s ++ (if e then [] else [(streamID s, d)]) /\
  (faults s = [] -> e = None /\ faults s' = []).
Proof.
  unfold write_data. intros. repeat case_match; simplify_eq/=; rewrite ?app_nil_r; done.
Qed.

Lemma random_key_inv s k s' :
  random_key s = (Ok k, s') -> keys s = Ok k :: keys s' /\ s' = set_keys (keys s') s.
Proof. unfold random_key. destruct (keys s) as [|[] r]; intros; by simplify_eq/=. Qed.

(** A group that returns no error sent its messages, each under the next random key, and
    received them back in order. *)
Lemma messages_sound n i spec lat r s r' s' :
  messages n i spec lat r s = ((r', None), s') ->
  exists ks, length ks = n /\ keys s = (Ok <$> ks) ++ keys s' /\
    streamID s' = streamID s /\
    GReceivedOrder r' = GReceivedOrder r ++ seqZ (i + 1) (Z.of_nat n) /\
    TransferredBytes r' = TransferredBytes r + Z.of_nat n * (len (Payload spec) * 2) /\
    MaskKeyHashes r' = MaskKeyHashes r ++ (hash <$> ks) /\
    sent s' = sent s ++ ((fun k => (streamID s, masked_wire (Opcode spec) (Payload spec) k)) <$> ks).
Proof.
  revert i r s. induction n as [|n IH]; intros i r s H; cbn [messages] in H.
  - simplify_eq. exists []. rewrite !app_nil_r. split_and!; try done. lia.
  - destruct (random_key s) as [k s1] eqn:E1.
    destruct (H2.maskedFrame k _ _) as [[key wire]|] eqn:E2; [|done].
    apply maskedFrame_inv in E2 as [-> ->]. apply random_key_inv in E1 as [K1 E1].
    destruct (write_data _ _) as [[|] s2] eqn:E3; [done|].
    apply write_data_inv in E3 as (I3 & K3 & _ & _ & _ & _ & _ & S3 & _). rewrite E1 in *. simpl in *.
    destruct (readWebSocketFrame s2) as [[f|] s3] eqn:E4; [|done].
    apply readWebSocketFrame_same in E4 as [I4 K4 S4 _ _ _ _ _].
    destruct (_ || _); [done|]. apply IH in H as (ks & <- & Hk & Hi & Ho & Ht & Hm & Hs).
    assert (streamID (if H2.Masked f then on_summary count_server_masked s3 else s3) = streamID s3 /\
            keys (if H2.Masked f then on_summary count_server_masked s3 else s3) = keys s3 /\
            sent (if H2.Masked f then on_summary count_server_masked s3 else s3) = sent s3)
      as (A1 & A2 & A3) by (by destruct (H2.Masked f)).
    simpl in *. exists (key :: ks). rewrite K1, Hi, Ho, Ht, Hm, Hs, A1, A3, <-K3, <-K4, <-A2, Hk, S4, S3, I4, I3.
    rewrite <-!app_assoc. split_and!; try done; [|lia].
    rewrite Nat2Z.inj_succ, (seqZ_cons (i + 1)), Z.pred_succ by lia. done.
Qed.

(** Against a peer that answers every message, a group of [n] succeeds, however the
    answers are cut into DATA frames. *)
Lemma messages_complete n i spec lat r s ks more wire rest :
  frame_ok (ResponseOpcode spec) (Payload spec) ->
  Server.serverFrame (ResponseOpcode spec) (Payload spec) false = Ok wire ->
  length ks = n -> keys s = (Ok <$> ks) ++ more -> faults s = [] ->
  Forall quiet (fd_events (frames s)) -> all_bytes (pending s) ->
  pending s ++ arriving (fd_events (frames s)) = concat (replicate n wire) ++ rest ->
  exists r' s', messages n i spec lat r s = ((r', None), s') /\
    keys s' = more /\ faults s' = [] /\ fd_end (frames s') = fd_end (frames s) /\
    Forall quiet (fd_events (frames s')) /\ all_bytes (pending s') /\
    pending s' ++ arriving (fd_events (frames s')) = rest.
Proof.
  intros Hok Hwire. revert i r s ks. induction n as [|n IH]; intros i r s ks Hl Hk Hf Hq Hb Hcat.
  - destruct ks; [|done]. exists r, s. split_and!; done.
  - destruct ks as [|key ks]; [done|]. injection Hl as Hl. cbn [messages].
    unfold random_key. rewrite Hk. simpl fmap. simpl app. cbv iota beta. rewrite maskedFrame_wire.
    destruct (write_data _ _) as [e s2] eqn:E3.
    apply write_data_inv in E3 as (I3 & K3 & F3 & P3 & _ & _ & _ & _ & W3). simpl in *.
    destruct (W3 Hf) as [-> Hf2].
    simpl in Hcat. rewrite <-app_assoc in Hcat.
    destruct (read_loop_frame _ _ (concat (replicate n wire) ++ rest) (fd_events (frames s2))
                (fd_end (frames s2)) s2 wire Hok Hwire) as (s3 & E4 & Q3 & B3 & D3 & C3);
      [by rewrite F3|by rewrite P3|by rewrite P3, F3|].
    pose proof (read_loop_same _ _ _ _ _ E4) as [I4 K4 S4 X4 _ _ _ _].
    unfold readWebSocketFrame. rewrite E4. cbn [H2.Masked H2.Opcode H2.Payload].
    rewrite Z.eqb_refl, bool_decide_true by done. cbn [negb orb].
    destruct (IH (i + 1) (GroupResult (MessageLatencies r ++ [lat i]) (TransferredBytes r + len (Payload spec) * 2)
                (MaskKeyHashes r ++ [hash key]) (GReceivedOrder r ++ [i + 1]))
                (on_summary count_server_message s3) ks)
      as (r' & s' & -> & ? & ? & He & ? & ? & ?); simpl; try done; [by rewrite K4, K3|by rewrite X4|].
    exists r', s'. simpl in He. split_and!; try done; try (by destruct_and!). by rewrite He, D3, F3.
Qed.

Lemma strictFrom_spec i l : strictFrom i l = true <-> l = seqZ (i + 1) (len l).
Proof.
  revert i. induction l as [|v l IH]; intros i; [done|]. cbn [strictFrom].
  replace (len (v :: l)) with (Z.succ (len l)) by (unfold len; simpl; lia).
  pose proof (len_nonneg l). rewrite (seqZ_cons (i + 1)), Z.pred_succ by lia.
  change (Z.succ (i + 1)) with (i + 1 + 1).
  destruct (Z.eqb_spec v (i + 1)) as [->|Hv]; cbn [negb].
  - rewrite IH. split; [by intros <-|intros; by simplify_eq].
  - split; [done|]. intros. by simplify_eq.
Qed.

Lemma strictOrder_spec l : strictOrder l = true <-> l = seqZ 1 100.
Proof.
  unfold strictOrder. destruct (Z.eqb_spec (len l) 100) as [E|E]; cbn [negb].
  - by rewrite (strictFrom_spec 0), E.
  - split; [done|]. intros ->. done.
Qed.

(** ** Facts: masking keys *)

Abbreviation key_set l := (list_to_set l : gset string).

Lemma size_add (x : string) (X : gset string) :
  Z.of_nat (size ({[x]} ∪ X)) = if decide (x ∈ X) then Z.of_nat (size X) else Z.of_nat (size X) + 1.
Proof.
  case_decide as H.
  - by replace ({[x]} ∪ X) with X by set_solver.
  - rewrite size_union by set_solver. rewrite size_singleton. lia.
Qed.

Lemma maskKeyCounts_spec l :
  maskKeyCounts l = (Z.of_nat (size (key_set l)), len l - Z.of_nat (size (key_set l))).
Proof.
  unfold maskKeyCounts.
  assert (H : fold_left (fun '(unique, duplicates) value =>
      ({[value]} ∪ unique, if decide (value ∈ unique) then duplicates + 1 else duplicates))
      l (∅ : gset string, 0) = (key_set l, len l - Z.of_nat (size (key_set l)))); [|by rewrite H].
  induction l as [|x l IH] using rev_ind; [done|].
  rewrite fold_left_app, IH. simpl.
  assert (E : key_set (l ++ [x]) = {[x]} ∪ key_set l) by (rewrite list_to_set_app_L; set_solver).
  rewrite E, size_add, len_app. change (len [x]) with 1. by case_decide; f_equal; lia.
Qed.

(** The incremental account of a stream's masking keys. *)
Record keys_accounted (s : multiplexedWebSocket) : Prop := {
  ka_set : maskKeys s = key_set (ClientMaskKeys (summary s));
  ka_count : duplicateKeys s + Z.of_nat (size (maskKeys s)) = len (ClientMaskKeys (summary s))
}.

Lemma note_key_accounted k s : keys_accounted s -> keys_accounted (note_key k s).
Proof.
  intros [Hs Hc]. unfold note_key. destruct (summary s) eqn:E. simpl in *. split; simpl.
  - rewrite list_to_set_app_L, Hs. set_solver.
  - rewrite size_add, len_app. change (len [k]) with 1. case_decide; lia.
Qed.

Lemma same_accounted s s' : same_stream s s' -> keys_accounted s -> keys_accounted s'.
Proof. intros [] [Hs Hc]. split; congruence. Qed.

Lemma on_summary_accounted g s :
  (forall u, ClientMaskKeys (g u) = ClientMaskKeys u) -> keys_accounted s -> keys_accounted (on_summary g s).
Proof. intros Hg [Hs Hc]. split; simpl; by rewrite Hg. Qed.

Lemma write_data_accounted d s : keys_accounted s -> keys_accounted (write_data d s).2.
Proof.
  intros [Hs Hc]. destruct (write_data d s) as [e s'] eqn:E.
  apply write_data_inv in E as (_ & _ & _ & _ & ? & ? & ? & _). split; simpl; congruence.
Qed.

Lemma random_key_accounted s : keys_accounted s -> keys_accounted (random_key s).2.
Proof. intros [Hs Hc]. unfold random_key. by destruct (keys s); split. Qed.

Lemma messages_accounted n i spec lat r s :
  keys_accounted s -> keys_accounted (messages n i spec lat r s).2.
Proof.
  revert i r s. induction n as [|n IH]; intros i r s Hs; cbn [messages]; [done|].
  pose proof (random_key_accounted s Hs) as H1. destruct (random_key s) as [k s1]. simpl in H1.
  destruct (H2.maskedFrame k _ _) as [[key wire]|]; [|done].
  set (s2 := on_summary _ _).
  assert (H2 : keys_accounted s2).
  { apply on_summary_accounted; [by intros []|]. by apply note_key_accounted. }
  pose proof (write_data_accounted wire s2 H2) as H3.
  destruct (write_data wire s2) as [[e|] s3]; [done|]. simpl in H3.
  destruct (readWebSocketFrame s3) as [[f|] s4] eqn:E4; apply readWebSocketFrame_same in E4;
    pose proof (same_accounted _ _ E4 H3) as H4; [|done].
  assert (H5 : keys_accounted (if H2.Masked f then on_summary count_server_masked s4 else s4)).
  { destruct (H2.Masked f); [|done]. apply on_summary_accounted; [by intros []|done]. }
  destruct (_ || _); [done|]. apply IH. apply on_summary_accounted; [by intros []|done].
Qed.

Lemma group_accounted spec lat s : keys_accounted s -> keys_accounted (runMessageGroup spec lat s).2.
Proof.
  intros Hs. unfold runMessageGroup. pose proof (messages_accounted (Z.to_nat (MessageCount spec)) 0
    spec lat (GroupResult [] 0 [] []) s Hs) as H.
  destruct (messages _ _ _ _ _ _) as [[r [e|]] s']; [done|]. simpl in H.
  destruct (negb _); [done|]. destruct (ReceivedOrder _); [|done].
  apply on_summary_accounted; [by intros []|done].
Qed.

Lemma close_accounted lat s : keys_accounted s -> keys_accounted (close lat s).2.
Proof.
  intros Hs. unfold close. pose proof (random_key_accounted s Hs) as H1.
  destruct (random_key s) as [k s1]. simpl in H1.
  destruct (H2.maskedFrame k _ _) as [[key wire]|]; [|done].
  pose proof (write_data_accounted wire _ (note_key_accounted (hash key) s1 H1)) as H3.
  destruct (write_data wire _) as [[e|] s3]; [done|]. simpl in H3.
  destruct (readWebSocketFrame s3) as [[f|] s4] eqn:E4; apply readWebSocketFrame_same in E4;
    pose proof (same_accounted _ _ E4 H3) as H4; [|done].
  by destruct (_ || _).
Qed.

(** The end of a group whose messages all came back. *)
Lemma runMessageGroup_ok spec lat s r s1 :
  messages (Z.to_nat (MessageCount spec)) 0 spec lat (GroupResult [] 0 [] []) s = ((r, None), s1) ->
  GReceivedOrder r = seqZ 1 100 ->
  exists s', runMessageGroup spec lat s = ((r, None), s') /\
    keys s' = keys s1 /\ sent s' = sent s1 /\ pending s' = pending s1 /\ frames s' = frames s1.
Proof.
  intros E Ho. unfold runMessageGroup. rewrite E, Ho.
  change (negb (strictOrder (seqZ 1 100))) with false. cbv iota.
  eexists. split; [reflexivity|]. by destruct (ReceivedOrder (summary s1)).
Qed.

(** ** Properties *)

(** Against a peer that answers each message with its frame, a group completes,
    however the answers are cut into DATA frames and even if they all arrive at once:
    the hundred messages come back in order and the octets after them are kept. *)
Theorem group_completes spec lat s ks more wire rest :
  MessageCount spec = 100 -> frame_ok (ResponseOpcode spec) (Payload spec) ->
  Server.serverFrame (ResponseOpcode spec) (Payload spec) false = Ok wire ->
  length ks = 100%nat -> keys s = (Ok <$> ks) ++ more -> faults s = [] ->
  Forall quiet (fd_events (frames s)) -> all_bytes (pending s) ->
  pending s ++ arriving (fd_events (frames s)) = concat (replicate 100 wire) ++ rest ->
  exists result s',
    runMessageGroup spec lat s = ((result, None), s') /\
    GReceivedOrder result = seqZ 1 100 /\
    TransferredBytes result = 200 * len (Payload spec) /\
    sent s' = sent s ++ ((fun k => (streamID s, masked_wire (Opcode spec) (Payload spec) k)) <$> ks) /\
    pending s' ++ arriving (fd_events (frames s')) = rest.
Proof.
  intros Hn Hok Hw Hl Hk Hf Hq Hb Hcat.
  destruct (messages_complete 100 0 spec lat (GroupResult [] 0 [] []) s ks more wire rest
              Hok Hw Hl Hk Hf Hq Hb Hcat) as (r & s1 & E & Hk' & _ & _ & _ & _ & Hrest).
  pose proof (messages_sound _ _ _ _ _ _ _ _ E) as (ks' & Hl' & Hks' & _ & Ho & Ht & _ & Hs).
  rewrite Hk', Hk in Hks'. apply app_inv_tail, (inj (fmap Ok)) in Hks' as <-.
  destruct (runMessageGroup_ok spec lat s r s1) as (s' & ? & _ & E2 & E3 & E4); [by rewrite Hn|done|].
  exists r, s'. rewrite E2, E3, E4. split_and!; try done. rewrite Ht. simpl. lia.
Qed.

(** A short response sequence, for the witnesses: the scenario's answers in two pieces. *)
Definition echo_spec : scenario := default (Scenario "" "" 0 0 [] "" 0)
  (find_scenario "http2.websocket.rfc8441.multi-message-text-echo").
Definition echo_wire : bytes := 129 :: 12 :: bytes_of_string textPayload.
Definition echo_stream : multiplexedWebSocket :=
  Stream 3 (Feed [data_event (take 500 (concat (replicate 100 echo_wire)));
                  data_event (drop 500 (concat (replicate 100 echo_wire)))] EEOF)
    [] (stream_summary 3) ∅ 0 ((fun n => Ok [1; 2; 3; n]) <$> seqZ 0 100) [] [].

Lemma echo_frame_ok : frame_ok (ResponseOpcode echo_spec) (Payload echo_spec).
Proof.
  split; [compute; split; [discriminate|reflexivity]| |compute; discriminate|compute; congruence].
  repeat constructor; compute; discriminate.
Qed.

Lemma echo_quiet : Forall quiet (fd_events (frames echo_stream)).
Proof. repeat constructor; try reflexivity; vm_compute; repeat constructor; compute; discriminate. Qed.

Lemma group_completes_witness :
  exists result s',
    runMessageGroup echo_spec durationMS echo_stream = ((result, None), s') /\
    GReceivedOrder result = seqZ 1 100 /\
    TransferredBytes result = 200 * len (Payload echo_spec) /\
    sent s' = sent echo_stream
      ++ ((fun k => (streamID echo_stream, masked_wire (Opcode echo_spec) (Payload echo_spec) k))
            <$> ((fun n => [1; 2; 3; n]) <$> seqZ 0 100)) /\
    pending s' ++ arriving (fd_events (frames s')) = [].
Proof.
  apply (group_completes echo_spec durationMS echo_stream _ [] echo_wire []).
  - reflexivity.
  - exact echo_frame_ok.
  - vm_compute. reflexivity.
  - vm_compute. reflexivity.
  - vm_compute. reflexivity.
  - reflexivity.
  - exact echo_quiet.
  - constructor.
  - vm_compute. reflexivity.
Defined.

(** A group that reports success did what it reports: exactly one hundred messages
    were sent, each masked under its own random key, the answers were counted 1 to 100,
    and a scenario of any other count never succeeds. *)
Theorem group_success_is_genuine spec lat s result s' :
  runMessageGroup spec lat s = ((result, None), s') ->
  MessageCount spec = 100 /\ GReceivedOrder result = seqZ 1 100 /\
  TransferredBytes result = 200 * len (Payload spec) /\
  exists ks, length ks = 100%nat /\ keys s = (Ok <$> ks) ++ keys s' /\
    MaskKeyHashes result = hash <$> ks /\
    sent s' = sent s ++ ((fun k => (streamID s, masked_wire (Opcode spec) (Payload spec) k)) <$> ks).
Proof.
  intros H. unfold runMessageGroup in H.
  destruct (messages _ _ _ _ _ s) as [[r [e|]] s1] eqn:E; [done|].
  apply messages_sound in E as (ks & Hl & Hk & Hi & Ho & Ht & Hm & Hs).
  destruct (strictOrder (GReceivedOrder r)) eqn:Es; [|done]. cbv iota in H. cbn [negb] in H.
  apply strictOrder_spec in Es as Es'.
  assert (Hn : Z.of_nat (Z.to_nat (MessageCount spec)) = 100).
  { apply (f_equal length) in Ho. rewrite Es', length_app, !length_seqZ in Ho. simpl in Ho. lia. }
  assert (Hr : r = result) by (destruct (ReceivedOrder _); by simplify_eq). subst r.
  assert (keys s' = keys s1 /\ sent s' = sent s1) as [E1 E2] by (destruct (ReceivedOrder _); by simplify_eq).
  split_and!; [lia|done|rewrite Ht, Hn; simpl; lia|]. exists ks. rewrite E1, E2. split_and!; (lia || done).
Qed.

Lemma echo_run : exists result s', runMessageGroup echo_spec durationMS echo_stream = ((result, None), s').
Proof.
  destruct (messages_complete 100 0 echo_spec durationMS (GroupResult [] 0 [] []) echo_stream
              ((fun n => [1; 2; 3; n]) <$> seqZ 0 100) [] echo_wire [])
    as (r & s1 & E & _);
    [exact echo_frame_ok|vm_compute; reflexivity|reflexivity|reflexivity|reflexivity|exact echo_quiet
    |constructor|vm_compute; reflexivity|].
  - pose proof (messages_sound _ _ _ _ _ _ _ _ E) as (_ & _ & _ & _ & Ho & _).
    destruct (runMessageGroup_ok echo_spec durationMS echo_stream r s1 E Ho) as (s' & ? & _). eauto.
Qed.

Lemma group_success_is_genuine_witness :
  exists result s',
    runMessageGroup echo_spec durationMS echo_stream = ((result, None), s') /\
    MessageCount echo_spec = 100 /\ GReceivedOrder result = seqZ 1 100 /\
    TransferredBytes result = 200 * len (Payload echo_spec) /\
    exists ks, length ks = 100%nat /\ keys echo_stream = (Ok <$> ks) ++ keys s' /\
      MaskKeyHashes result = hash <$> ks /\
      sent s' = sent echo_stream
        ++ ((fun k => (streamID echo_stream, masked_wire (Opcode echo_spec) (Payload echo_spec) k)) <$> ks).
Proof.
  destruct echo_run as (result & s' & E). exists result, s'.
  split; [exact E|exact (group_success_is_genuine echo_spec durationMS echo_stream result s' E)].
Defined.

(** Masking-key accounting. Through any number of groups and the close, errors
    included, the stream's incremental counts are those [maskKeyCounts] computes from the
    list of key hashes it reports: distinct keys and repetitions, adding up to the keys. *)
Theorem mask_keys_accounted spec lat closeLat s :
  keys_accounted s ->
  let s1 := (runMessageGroup spec lat s).2 in
  let s2 := (close closeLat s1).2 in
  keys_accounted s1 /\ keys_accounted s2 /\
  maskKeyCounts (ClientMaskKeys (summary s1)) = (Z.of_nat (size (maskKeys s1)), duplicateKeys s1) /\
  maskKeyCounts (ClientMaskKeys (summary s2)) = (Z.of_nat (size (maskKeys s2)), duplicateKeys s2).
Proof.
  intros Hs s1 s2. assert (H1 : keys_accounted s1) by (by apply group_accounted).
  assert (H2 : keys_accounted s2) by (by apply close_accounted).
  split_and!; [done|done| |]; rewrite maskKeyCounts_spec; f_equal;
    [destruct H1 as [<- ?]|destruct H1 as [<- ?]|destruct H2 as [<- ?]|destruct H2 as [<- ?]]; (done || lia).
Qed.

Lemma mask_keys_accounted_witness :
  let s1 := (runMessageGroup echo_spec durationMS echo_stream).2 in
  let s2 := (close f_zero s1).2 in
  keys_accounted s1 /\ keys_accounted s2 /\
  maskKeyCounts (ClientMaskKeys (summary s1)) = (Z.of_nat (size (maskKeys s1)), duplicateKeys s1) /\
  maskKeyCounts (ClientMaskKeys (summary s2)) = (Z.of_nat (size (maskKeys s2)), duplicateKeys s2).
Proof. apply (mask_keys_accounted echo_spec durationMS f_zero echo_stream). split; reflexivity. Defined.
