(* ===== verification/H2Run.v ===== *)
(** The runs of go-http2-websocket-executor: the single-stream operation, the concurrent
    message phase and its peak-concurrency counter, the load loops and their summaries,
    and the exit codes of [main]. *)
From S2P Require Export Prelude GoText GoHash Stats WsCodec H2Session H2Stream Certificates.
From Stdlib Require Import Sorted.

(** ** TLS *)

(** The [tls.ConnectionState] fields the gate reads. *)
Record tlsState := TLSState {
  Version : Z;
  NegotiatedProtocol : string;
  TDidResume : bool;
  PeerCertificates : list (bytes * bytes)   (* Raw, RawSubjectPublicKeyInfo *)
}.
Definition VersionTLS13 : Z := 0x0304.
Definition VersionName (v : Z) : string :=
  if v =? 0x0300 then "SSLv3" else if v =? 0x0301 then "TLS 1.0" else if v =? 0x0302 then "TLS 1.1"
  else if v =? 0x0303 then "TLS 1.2" else if v =? 0x0304 then "TLS 1.3" else "0x" +:+ pretty v.

Definition alpn : string := "h2".
Definition protocolVariant : string := "websocket-h2-extended-connect".
Definition certificateDERHash : string := "fe996190f39355e3cfc201cbb7e2cba962a701b94ed08ff49e68e830216d0109".
Definition certificateSPKIHash : string := "c2440fbe955033f341ca625c1804e21b50066d952ab24a4b53007dc1cfbf410c".

(** The proof as the dial fills it in; [shared] distinguishes the one-connection session
    from the single operation. *)
Definition base_proof (shared : bool) (state : tlsState) : protocolProof :=
  let n := if shared then 8 else 1 in
  {| Protocol := "h2"; ProtocolVersion := "HTTP/2"; ProtocolVariant := protocolVariant;
     TLSVersion := VersionName (Version state); ALPN := NegotiatedProtocol state;
     DidResume := TDidResume state;
     CertificateDERSHA256 := match PeerCertificates state with (raw, _) :: _ => hash raw | [] => "" end;
     CertificateSPKISHA256 := match PeerCertificates state with (_, spki) :: _ => hash spki | [] => "" end;
     SettingsEnableConnectProtocol := 0;
     RequestPseudoHeaders := pseudo_headers; RequestHeaders := request_headers;
     ProhibitedRequestHeadersPresent := false; ResponseStatus := 0; ResponseHeaders := ∅;
     SecWebSocketAcceptPresent := false; SecWebSocketKeyPresent := false;
     SubprotocolPresent := false; ExtensionsPresent := false;
     ClientMaskRequired := true; ClientMaskObserved := false;
     MessageType := ""; MessageBytes := 0; PMessageCount := 0; PayloadSHA256 := "";
     StrictOrdering := false; PingSent := false; PongReceived := false;
     CloseSent := 0; CloseReceived := 0; CleanCompletion := false; ConnectionReused := shared;
     ConfiguredConnections := 1; ConfiguredConcurrency := n; ConfiguredStreamsPerConnection := n;
     ObservedActiveConnections := 1; ObservedActiveStreams := n; EffectiveConcurrency := n |}.

Definition tls_gate (state : tlsState) (proof : protocolProof) : bool :=
  (Version state =? VersionTLS13) && String.eqb (NegotiatedProtocol state) alpn
  && negb (TDidResume state) && String.eqb (CertificateDERSHA256 proof) certificateDERHash
  && String.eqb (CertificateSPKISHA256 proof) certificateSPKIHash.

Definition with_settings (p : protocolProof) : protocolProof :=
  {| Protocol := Protocol p; ProtocolVersion := ProtocolVersion p; ProtocolVariant := ProtocolVariant p;
     TLSVersion := TLSVersion p; ALPN := ALPN p; DidResume := DidResume p;
     CertificateDERSHA256 := CertificateDERSHA256 p; CertificateSPKISHA256 := CertificateSPKISHA256 p;
     SettingsEnableConnectProtocol := 1;
     RequestPseudoHeaders := RequestPseudoHeaders p; RequestHeaders := RequestHeaders p;
     ProhibitedRequestHeadersPresent := ProhibitedRequestHeadersPresent p;
     ResponseStatus := ResponseStatus p; ResponseHeaders := ResponseHeaders p;
     SecWebSocketAcceptPresent := SecWebSocketAcceptPresent p;
     SecWebSocketKeyPresent := SecWebSocketKeyPresent p;
     SubprotocolPresent := SubprotocolPresent p; ExtensionsPresent := ExtensionsPresent p;
     ClientMaskRequired := ClientMaskRequired p; ClientMaskObserved := ClientMaskObserved p;
     MessageType := MessageType p; MessageBytes := MessageBytes p; PMessageCount := PMessageCount p;
     PayloadSHA256 := PayloadSHA256 p; StrictOrdering := StrictOrdering p; PingSent := PingSent p;
     PongReceived := PongReceived p; CloseSent := CloseSent p; CloseReceived := CloseReceived p;
     CleanCompletion := CleanCompletion p; ConnectionReused := ConnectionReused p;
     ConfiguredConnections := ConfiguredConnections p; ConfiguredConcurrency := ConfiguredConcurrency p;
     ConfiguredStreamsPerConnection := ConfiguredStreamsPerConnection p;
     ObservedActiveConnections := ObservedActiveConnections p;
     ObservedActiveStreams := ObservedActiveStreams p; EffectiveConcurrency := EffectiveConcurrency p |}.

(** The fields both runs fill in once the exchange is over. *)
Definition with_exchange (observed : bool) (kind : string) (spec : scenario) (strict ping pong : bool)
    (p : protocolProof) : protocolProof :=
  {| Protocol := Protocol p; ProtocolVersion := ProtocolVersion p; ProtocolVariant := ProtocolVariant p;
     TLSVersion := TLSVersion p; ALPN := ALPN p; DidResume := DidResume p;
     CertificateDERSHA256 := CertificateDERSHA256 p; CertificateSPKISHA256 := CertificateSPKISHA256 p;
     SettingsEnableConnectProtocol := SettingsEnableConnectProtocol p;
     RequestPseudoHeaders := RequestPseudoHeaders p; RequestHeaders := RequestHeaders p;
     ProhibitedRequestHeadersPresent := ProhibitedRequestHeadersPresent p;
     ResponseStatus := ResponseStatus p; ResponseHeaders := ResponseHeaders p;
     SecWebSocketAcceptPresent := SecWebSocketAcceptPresent p;
     SecWebSocketKeyPresent := SecWebSocketKeyPresent p;
     SubprotocolPresent := SubprotocolPresent p; ExtensionsPresent := ExtensionsPresent p;
     ClientMaskRequired := ClientMaskRequired p; ClientMaskObserved := observed;
     MessageType := kind; MessageBytes := len (Payload spec);
     PMessageCount := MessageCount spec; PayloadSHA256 := PayloadHash spec;
     StrictOrdering := strict; PingSent := ping; PongReceived := pong;
     CloseSent := 1000; CloseReceived := 1000; CleanCompletion := true;
     ConnectionReused := ConnectionReused p;
     ConfiguredConnections := ConfiguredConnections p; ConfiguredConcurrency := ConfiguredConcurrency p;
     ConfiguredStreamsPerConnection := ConfiguredStreamsPerConnection p;
     ObservedActiveConnections := ObservedActiveConnections p;
     ObservedActiveStreams := ObservedActiveStreams p; EffectiveConcurrency := EffectiveConcurrency p |}.

(** ** The framer loops of the single operation *)

Definition count_settings_frame (s : frameSummary) : frameSummary :=
  let '(FrameSummary a b c d e f k r i m n u v o) := s in FrameSummary (a + 1) b c d e f k r i m n u v o.
Definition count_headers_frame (s : frameSummary) : frameSummary :=
  let '(FrameSummary a b c d e f k r i m n u v o) := s in FrameSummary a (b + 1) c d e f k r i m n u v o.
Definition count_window_frame (s : frameSummary) : frameSummary :=
  let '(FrameSummary a b c d e f k r i m n u v o) := s in FrameSummary a b c (d + 1) e f k r i m n u v o.

Definition enables (settings : list (Z * Z)) : bool :=
  existsb (fun '(id, val) => (id =? SettingEnableConnectProtocol) && (val =? 1)) settings.

Definition with_in (ins : list h2frame) (f : framer) : framer :=
  Framer ins (fr_end f) (fr_out f) (fr_faults f).

(** Wait for SETTINGS_ENABLE_CONNECT_PROTOCOL = 1. *)
Fixpoint awaitConnectProtocol (ins : list h2frame) (f : framer) (s : frameSummary)
    : option goerror * framer * frameSummary :=
  match ins with
  | [] => (Some (fr_end f), with_in [] f, s)
  | frame :: ins =>
      match frame with
      | SettingsFrame ack settings =>
          let s := count_settings_frame s in
          if negb ack then
            match fr_write WriteSettingsAck f with
            | (Some e, f) => (Some e, with_in ins f, s)
            | (None, f) => if enables settings then (None, with_in ins f, s)
                           else awaitConnectProtocol ins f s
            end
          else awaitConnectProtocol ins f s
      | WindowUpdateFrame _ _ => awaitConnectProtocol ins f (count_window_frame s)
      | _ => awaitConnectProtocol ins f s
      end
  end.

(** [decodeHeaders], on the fields and the error the HPACK decoder gives. *)
Definition decodeHeaders (hpack_decode : bytes -> list (string * string) * option goerror)
    (block : bytes) : res (gmap string string) :=
  let '(fields, err) := hpack_decode block in
  match err with Some e => Err e | None => Ok (header_map fields) end.

Section operation.
(** A fresh HPACK decoder's [Write]. *)
Variable hpack_decode : bytes -> list (string * string) * option goerror.

Fixpoint readResponseHeaders (ins : list h2frame) (block : bytes) (f : framer) (s : frameSummary)
    : res (gmap string string) * framer * frameSummary :=
  match ins with
  | [] => (Err (fr_end f), with_in [] f, s)
  | frame :: ins =>
      match frame with
      | HeadersFrame id fragment ended =>
          if negb (id =? 1) then readResponseHeaders ins block f s else
          let s := count_headers_frame s in
          if ended then (decodeHeaders hpack_decode (block ++ fragment), with_in ins f, s)
          else readResponseHeaders ins (block ++ fragment) f s
      | ContinuationFrame id fragment ended =>
          if negb (id =? 1) then readResponseHeaders ins block f s else
          if ended then (decodeHeaders hpack_decode (block ++ fragment), with_in ins f, s)
          else readResponseHeaders ins (block ++ fragment) f s
      | SettingsFrame ack _ =>
          let f := if negb ack then (fr_write WriteSettingsAck f).2 else f in
          readResponseHeaders ins block f (count_settings_frame s)
      | WindowUpdateFrame _ _ => readResponseHeaders ins block f (count_window_frame s)
      | _ => readResponseHeaders ins block f s
      end
  end.

(** [readWebSocketFrame]: the buffer lives for one call. *)
Fixpoint readFrame1 (ins : list h2frame) (buffer : bytes) (f : framer) (s : frameSummary)
    : res H2.wsFrame * framer * frameSummary :=
  match ins with
  | [] => (Err (fr_end f), with_in [] f, s)
  | frame :: ins =>
      match frame with
      | DataFrame id data =>
          if negb (id =? 1) then readFrame1 ins buffer f s else
          let s := count_data s in
          let buffer := buffer ++ data in
          match H2.parseFrame buffer with
          | Err e => (Err e, with_in ins f, s)
          | Ok (Some parsed) => (Ok parsed, with_in ins f, s)
          | Ok None => readFrame1 ins buffer f s
          end
      | SettingsFrame ack _ =>
          let f := if negb ack then (fr_write WriteSettingsAck f).2 else f in
          readFrame1 ins buffer f (count_settings_frame s)
      | WindowUpdateFrame _ _ => readFrame1 ins buffer f (count_window_frame s)
      | HeadersFrame _ _ _ => readFrame1 ins buffer f (count_headers_frame s)
      | _ => readFrame1 ins buffer f s
      end
  end.

Record operationResult := OperationResult {
  Proof_ : protocolProof;
  Frames : frameSummary;
  ConnectionLatencyMS : float64; OperationLatencyMS : float64; CloseLatencyMS : float64;
  Bytes : Z
}.

(** Everything an operation gets from outside. *)
Record opEnv := OpEnv {
  oe_dial : res tlsState;
  oe_preface : option goerror;           (* the error of writing the client preface *)
  oe_framer : framer;
  oe_block : res bytes;                  (* the HPACK encoder's output for the request *)
  oe_keys : list (res bytes);            (* rand.Read *)
  oe_times : float64 * float64 * float64 (* connection, operation and close latency *)
}.

(** The messages [index], ..., of the operation. *)
Fixpoint exchange (n : nat) (index : Z) (spec : scenario) (random : list (res bytes)) (f : framer)
    (s : frameSummary) (transferred : Z)
    : option goerror * list (res bytes) * framer * frameSummary * Z :=
  match n with
  | O => (None, random, f, s, transferred)
  | S n =>
      let '(key, random) := match random with k :: r => (k, r) | [] => (Err (EMsg "random source exhausted"), []) end in
      match H2.maskedFrame key (Opcode spec) (Payload spec) with
      | Err e => (Some e, random, f, s, transferred)
      | Ok (key, frameBytes) =>
      let s := count_mask_key (hash key) (count_client_message s) in
      match fr_write (WriteData 1 frameBytes) f with
      | (Some e, f) => (Some e, random, f, s, transferred)
      | (None, f) =>
      match readFrame1 (fr_in f) [] f s with
      | (Err e, f, s) => (Some e, random, f, s, transferred)
      | (Ok received, f, s) =>
      if H2.Masked received || negb (H2.Opcode received =? ResponseOpcode spec)
         || negb (bool_decide (H2.Payload received = Payload spec))
      then (Some (EMsg "WebSocket echo/control response mismatch"), random, f, s, transferred) else
      let s := count_server_message s in
      let s := if H2.Masked received then count_server_masked s else s in
      let s := set_order (ReceivedOrder s ++ [index + 1]) s in
      exchange n (index + 1) spec random f s (transferred + len (Payload spec) * 2)
      end end end
  end.

Definition messageType (spec : scenario) : string :=
  if Opcode spec =? 1 then "text" else if Opcode spec =? 2 then "binary" else "none".

(** The summary's last fields. *)
Definition conclude (strict : bool) (s : frameSummary) : frameSummary :=
  let '(FrameSummary a b c d e f k r _ m n _ _ _) := s in
  let '(unique, duplicates) := maskKeyCounts k in
  FrameSummary a b c d e f k r [1] m n unique duplicates strict.

Definition runOperation (spec : scenario) (env : opEnv) : res operationResult :=
  let? state := oe_dial env in
  let proof := base_proof false state in
  guard tls_gate state proof else EMsg "TLS 1.3 ALPN h2 certificate gate failed" in
  match oe_preface env with Some e => Err e | None =>
  match fr_write (WriteSettings [(SettingEnableConnectProtocol, 1)]) (oe_framer env) with
  | (Some e, _) => Err e | (None, f) =>
  match awaitConnectProtocol (fr_in f) f frameSummary_zero with
  | (Some e, _, _) => Err e | (None, f, frames) =>
  let proof := with_settings proof in
  let? block := oe_block env in
  match fr_write (WriteHeaders 1 block) f with
  | (Some e, _) => Err e | (None, f) =>
  let '(headers, f, frames) := readResponseHeaders (fr_in f) [] f frames in
  let? headers := headers in
  guard String.eqb (header headers ":status") "200"
    else EMsg ("extended CONNECT status " +:+ go_quote (header headers ":status")) in
  let proof := with_response headers proof in
  guard negb (present headers "connection" || present headers "upgrade"
              || SecWebSocketAcceptPresent proof || SubprotocolPresent proof || ExtensionsPresent proof)
    else EMsg "prohibited RFC 6455-over-H1 or negotiated WebSocket response header present" in
  match exchange (Z.to_nat (MessageCount spec)) 0 spec (oe_keys env) f frames 0 with
  | (Some e, _, _, _, _) => Err e
  | (None, random, f, frames, transferred) =>
  let key := match random with k :: _ => k | [] => Err (EMsg "random source exhausted") end in
  let? (key, closeFrame) := H2.maskedFrame key 0x8 closePayload in
  let frames := count_mask_key (hash key) frames in
  match fr_write (WriteData 1 closeFrame) f with
  | (Some e, _) => Err e | (None, f) =>
  let '(closed, f, frames) := readFrame1 (fr_in f) [] f frames in
  let? closed := closed in
  guard negb (H2.Masked closed || negb (H2.Opcode closed =? 0x8)
              || negb (bool_decide (H2.Payload closed = closePayload)))
    else EMsg "clean close response mismatch" in
  let strict := (MessageCount spec <=? 1)
                || ((MessageCount spec =? 100) && strictOrder (ReceivedOrder frames)) in
  let proof := with_exchange (0 <? len (ClientMaskKeys frames)) (messageType spec) spec strict
                 (Opcode spec =? 0x9) (ResponseOpcode spec =? 0xA) proof in
  let '(connection, operation, close) := oe_times env in
  Ok (OperationResult proof (conclude strict frames) connection operation close transferred)
  end end end end end end.

End operation.

(** ** Load profiles and summaries *)

(** Durations are in nanoseconds. *)
Record loadProfile := LoadProfile {
  LID : string; Connections : Z; Concurrency : Z; StreamsPerConnection : Z;
  Duration : Z; Warmup : Z; Cooldown : Z; Repetitions : Z; OperationTimeout : Z
}.
Definition second : Z := 1000000000.
Definition smokeProfile : loadProfile :=
  LoadProfile "websocket-smoke" 1 1 1 (5 * second) second 0 1 (5 * second).
Definition diagnosticProfile : loadProfile :=
  LoadProfile "diagnostic" 1 8 8 (10 * second) second second 1 (10 * second).

Definition multiMessage : string := "http2.websocket.rfc8441.multi-message-text-echo".
Definition profileFor (spec : scenario) : loadProfile :=
  if String.eqb (ID spec) multiMessage then diagnosticProfile else smokeProfile.

Record streamSummary := StreamSummary {
  SStreamID : Z; SCompletedOperations : Z; SCompletedMessages : Z;
  SFailedOperations : Z; STimedOutOperations : Z; STransferredBytes : Z;
  SLatencyMean : float64; SLatencyP95 : float64; SStrictOrdering : bool
}.

Record measuredSummary := MeasuredSummary {
  DurationSeconds : float64;
  CompletedOperations : Z; FailedOperations : Z; TimedOutOperations : Z;
  CompletedMessages : Z; TotalTransferredBytes : Z;
  ConnectionLatencies : list float64; OperationLatencies : list float64; CloseLatencies : list float64;
  Last_ : option operationResult;
  Errors : gmap string Z;
  MConfiguredConnections : Z; MConfiguredConcurrency : Z; MConfiguredStreams : Z;
  ObservedConnections : Z; ObservedStreams : Z; MEffectiveConcurrency : Z;
  PerStream : list streamSummary
}.

Definition emptySummary (p : loadProfile) : measuredSummary :=
  MeasuredSummary f_zero 0 0 0 0 0 [] [] [] None ∅ (Connections p) (Concurrency p)
    (StreamsPerConnection p) (Connections p) (StreamsPerConnection p) (Concurrency p) [].

(** The Go zero value. *)
Definition measuredSummary_zero : measuredSummary :=
  MeasuredSummary f_zero 0 0 0 0 0 [] [] [] None ∅ 0 0 0 0 0 0 [].

Definition f_le_zero (d : float64) : bool := SFleb d f_zero.

Definition summaryFromOperation (op : operationResult) (p : loadProfile) : measuredSummary :=
  let duration := fdiv (OperationLatencyMS op) (f_of_Z 1000) in
  let duration := if f_le_zero duration then f_ratio 1 1000 else duration in
  MeasuredSummary duration 1 0 0 (Z.max 1 (PMessageCount (Proof_ op))) (Bytes op)
    [ConnectionLatencyMS op] [OperationLatencyMS op] [CloseLatencyMS op] (Some op) ∅
    (Connections p) (Concurrency p) (StreamsPerConnection p) 1 1 1 [].

(** [s.Errors[err.Error()]++]. *)
Definition count_error (e : goerror) (m : gmap string Z) : gmap string Z :=
  <[error_string e := default 0 (m !! error_string e) + 1]> m.

(** One turn of [runFor]. *)
Definition record_operation (spec : scenario) (s : measuredSummary) (outcome : res operationResult)
    : measuredSummary :=
  let '(MeasuredSummary d c f t m b cl ol xl last errors cc cn cs oc os ec ps) := s in
  match outcome with
  | Err e =>
      if errors_is EDeadline e || is_net_timeout e
      then MeasuredSummary d c f (t + 1) m b cl ol xl last (count_error e errors) cc cn cs oc os ec ps
      else MeasuredSummary d c (f + 1) t m b cl ol xl last (count_error e errors) cc cn cs oc os ec ps
  | Ok op =>
      MeasuredSummary d (c + 1) f t (m + Z.max 1 (MessageCount spec)) (b + Bytes op)
        (cl ++ [ConnectionLatencyMS op]) (ol ++ [OperationLatencyMS op]) (xl ++ [CloseLatencyMS op])
        (Some op) errors cc cn cs oc os ec ps
  end.

Definition set_duration (d : float64) (s : measuredSummary) : measuredSummary :=
  let '(MeasuredSummary _ c f t m b cl ol xl last errors cc cn cs oc os ec ps) := s in
  MeasuredSummary d c f t m b cl ol xl last errors cc cn cs oc os ec ps.

(** [runFor]: the operations started before the deadline, and the time they took. *)
Definition runFor (hpack_decode : bytes -> list (string * string) * option goerror)
    (spec : scenario) (p : loadProfile) (ops : list opEnv) (elapsed : float64) : measuredSummary :=
  set_duration elapsed
    (fold_left (record_operation spec) (runOperation hpack_decode spec <$> ops) (emptySummary p)).

(** ** The concurrent message phase *)

(** A turn of a worker: whether [time.Now().Before(deadline)], and the latencies measured. *)
Record tick := Tick { t_before : bool; t_took : Z -> float64 }.

Record workerResult := WorkerResult {
  wr_stream : streamSummary;
  wr_latencies : list float64;
  wr_bytes : Z; wr_operations : Z; wr_messages : Z;
  wr_err : option goerror
}.

Definition worker_zero (id : Z) : workerResult :=
  WorkerResult (StreamSummary id 0 0 0 0 0 f_zero f_zero true) [] 0 0 0 None.

Definition worker_failed (e : goerror) (r : workerResult) : workerResult :=
  let '(WorkerResult (StreamSummary id c m f t b mean p95 o) l by_ ops msgs _) := r in
  let f := f + 1 in
  let '(f, t) := if errors_is EDeadline e then (f - 1, t + 1) else (f, t) in
  WorkerResult (StreamSummary id c m f t b mean p95 o) l by_ ops msgs (Some e).

Definition worker_done (spec : scenario) (g : messageGroupResult) (r : workerResult) : workerResult :=
  let '(WorkerResult s l by_ ops msgs err) := r in
  WorkerResult s (l ++ MessageLatencies g) (by_ + TransferredBytes g) (ops + 1)
    (msgs + MessageCount spec) err.

Fixpoint worker_loop (exactlyOne : bool) (clock : list tick) (spec : scenario) (r : workerResult)
    (s : multiplexedWebSocket) : workerResult * multiplexedWebSocket :=
  match clock with
  | [] => (r, s)
  | t :: clock =>
      if exactlyOne || t_before t then
        match runMessageGroup spec (t_took t) s with
        | ((_, Some e), s) => (worker_failed e r, s)
        | ((g, None), s) =>
            let r := worker_done spec g r in
            if exactlyOne then (r, s) else worker_loop exactlyOne clock spec r s
        end
      else (r, s)
  end.

(** The worker's last assignments. *)
Definition worker_finish (r : workerResult) : workerResult :=
  let '(WorkerResult (StreamSummary id _ _ f t _ _ _ o) l by_ ops msgs err) := r in
  WorkerResult (StreamSummary id ops msgs f t by_ (mean l) (percentile l (f_ratio 95 100)) o)
    l by_ ops msgs err.

Definition worker (exactlyOne : bool) (spec : scenario) (clock : list tick) (s : multiplexedWebSocket)
    : workerResult * multiplexedWebSocket :=
  let '(r, s) := worker_loop exactlyOne clock spec (worker_zero (streamID s)) s in
  (worker_finish r, s).

(** The collector, for one result. *)
Definition collect (s : measuredSummary) (r : workerResult) : measuredSummary :=
  let '(MeasuredSummary d c f t m b cl ol xl last errors cc cn cs oc os ec ps) := s in
  MeasuredSummary d (c + wr_operations r) (f + SFailedOperations (wr_stream r))
    (t + STimedOutOperations (wr_stream r)) (m + wr_messages r) (b + wr_bytes r)
    cl (ol ++ wr_latencies r) xl last
    (match wr_err r with Some e => count_error e errors | None => errors end)
    cc cn cs oc os ec (ps ++ [wr_stream r]).

Definition firstError (results : list workerResult) : option goerror := head (omap wr_err results).

(** [sort.Slice] by stream identifier. *)
Fixpoint insert_stream (x : streamSummary) (l : list streamSummary) : list streamSummary :=
  match l with
  | [] => [x]
  | y :: r => if SStreamID x <? SStreamID y then x :: l else y :: insert_stream x r
  end.
Definition sort_streams (l : list streamSummary) : list streamSummary := foldr insert_stream [] l.

Definition close_phase (peak : Z) (s : measuredSummary) : measuredSummary :=
  let '(MeasuredSummary d c f t m b cl ol xl last errors cc cn cs oc os _ ps) := s in
  MeasuredSummary d c f t m b cl ol xl last errors cc cn cs oc os peak (sort_streams ps).

(** The phase, from the workers' results in the order they arrive, the peak the workers
    counted, and the elapsed time. *)
Definition phase_summary (p : loadProfile) (duration : Z) (exactlyOne : bool)
    (arrived : list workerResult) (peak : Z) (elapsed : float64) : measuredSummary * option goerror :=
  let s := set_duration (if exactlyOne then f_zero else seconds duration) (emptySummary p) in
  let s := close_phase peak (fold_left collect arrived s) in
  if negb (MEffectiveConcurrency s =? Concurrency p)
  then (s, Some (EMsg ("effective concurrency mismatch: expected " +:+ pretty (Concurrency p)
                       +:+ " observed " +:+ pretty (MEffectiveConcurrency s))))
  else
    let s := if SFeqb (DurationSeconds s) f_zero then set_duration elapsed s else s in
    (s, firstError arrived).

(** What a phase gets from outside: the clock of each worker, the order of arrival, the
    peak and the elapsed time. *)
Record phaseEnv := PhaseEnv {
  pe_clocks : list (list tick);
  pe_arrival : list nat;
  pe_peak : Z;
  pe_elapsed : float64
}.

Definition runConcurrentMessagePhase (streams : list multiplexedWebSocket) (spec : scenario)
    (p : loadProfile) (duration : Z) (exactlyOne : bool) (env : phaseEnv)
    : measuredSummary * option goerror * list multiplexedWebSocket :=
  let runs := zip_with (worker exactlyOne spec) (pe_clocks env) streams in
  let arrived := omap (fun i => fst <$> runs !! i) (pe_arrival env) in
  (phase_summary p duration exactlyOne arrived (pe_peak env) (pe_elapsed env), snd <$> runs).

(** ** The multi-message diagnostic *)

(** [openH2Session] up to the settings that enable Extended CONNECT; the read loop takes
    over from the framer it returns. *)
Fixpoint awaitSession (ins : list h2frame) (f : framer) : option goerror * framer :=
  match ins with
  | [] => (Some (fr_end f), with_in [] f)
  | SettingsFrame false settings :: ins =>
      match fr_write WriteSettingsAck f with
      | (Some e, f) => (Some e, with_in ins f)
      | (None, f) => if enables settings then (None, with_in ins f) else awaitSession ins f
      end
  | _ :: ins => awaitSession ins f
  end.

Definition openH2Session (dial : res tlsState) (preface : option goerror) (f : framer)
    : res (framer * protocolProof) :=
  let? state := dial in
  let proof := base_proof true state in
  guard tls_gate state proof else EMsg "TLS 1.3 ALPN h2 certificate gate failed" in
  match preface with Some e => Err e | None =>
  match fr_write (WriteSettings [(SettingEnableConnectProtocol, 1)]) f with
  | (Some e, _) => Err e | (None, f) =>
  match awaitSession (fr_in f) f with
  | (Some e, _) => Err e
  | (None, f) => Ok (f, with_settings proof)
  end end end.

Definition streamIDs : list Z := [1; 3; 5; 7; 9; 11; 13; 15].

(** What opening one stream gets from outside. *)
Record streamEnv := StreamEnv {
  se_block : res bytes; se_fault : option goerror; se_feed : feed;
  se_keys : list (res bytes); se_faults : list (option goerror)
}.

Fixpoint openStreams (base : protocolProof) (ids : list Z) (envs : list streamEnv)
    : res (list (multiplexedWebSocket * protocolProof)) :=
  match ids, envs with
  | id :: ids, e :: envs =>
      let? first := openWebSocket id base (se_block e) (se_fault e) (se_feed e) (se_keys e) (se_faults e) in
      let? rest := openStreams base ids envs in
      Ok (first :: rest)
  | _, _ => Ok []
  end.

Definition add_counts (a b : frameSummary) : frameSummary :=
  let '(FrameSummary sa ha da wa ca va ka ra ia ma na ua xa oa) := a in
  FrameSummary sa (ha + HeadersFrames b) (da + DataFrames b) wa (ca + ClientMessageFrames b)
    (va + ServerMessageFrames b) ka ra ia (ma + ClientMaskedFrames b) (na + ServerMaskedFrames b) ua xa oa.

(** One key of the aggregate: the distinct keys so far, the repetitions, and the keys
    reported, of which there are at most 800. *)
Definition aggregate_key (acc : gset string * Z * list string) (keyHash : string)
    : gset string * Z * list string :=
  let '(maskKeys, duplicates, reported) := acc in
  ({[keyHash]} ∪ maskKeys,
   if decide (keyHash ∈ maskKeys) then duplicates + 1 else duplicates,
   if len reported <? 800 then reported ++ [keyHash] else reported).

Definition aggregate (settings window : Z) (streams : list multiplexedWebSocket) : frameSummary :=
  let counts := fold_left (fun acc s => add_counts acc (summary s)) streams
                  (FrameSummary 0 0 0 0 0 0 [] [] streamIDs 0 0 0 0 true) in
  let '(maskKeys, duplicates, reported) :=
    fold_left aggregate_key (concat ((fun s => ClientMaskKeys (summary s)) <$> streams)) (∅, 0, []) in
  let '(FrameSummary _ h d _ c v _ r i m n _ _ o) := counts in
  FrameSummary (settings + 1) h d window c v reported r i m n (Z.of_nat (size maskKeys)) duplicates o.

Definition finish_measured (closes : list float64) (connection : float64) (last : operationResult)
    (s : measuredSummary) : measuredSummary :=
  let '(MeasuredSummary d c f t m b _ ol xl _ errors cc cn cs oc os ec ps) := s in
  MeasuredSummary d c f t m b [connection] ol (xl ++ closes) (Some last) errors cc cn cs oc os ec ps.

Record diagEnv := DiagEnv {
  de_dial : res tlsState; de_preface : option goerror; de_framer : framer;
  de_streams : list streamEnv;
  de_preflight : phaseEnv; de_warmup : phaseEnv; de_measured : phaseEnv;
  de_closes : list float64;               (* how long each close takes *)
  de_close_arrival : list nat;            (* the order in which close errors are sent *)
  de_settings : Z; de_window : Z;         (* the session's counters at the end *)
  de_connection : float64
}.

Record diagResult := DiagResult {
  dr_preflight : operationResult; dr_warmup : measuredSummary; dr_measured : measuredSummary
}.

Definition runMultiMessageDiagnostic (spec : scenario) (p : loadProfile) (validationOnly : bool)
    (env : diagEnv) : res diagResult :=
  let? (_, base) := openH2Session (de_dial env) (de_preface env) (de_framer env) in
  let? opened := openStreams base streamIDs (de_streams env) in
  let streams := fst <$> opened in
  match runConcurrentMessagePhase streams spec p 0 true (de_preflight env) with
  | (_, Some e, _) => Err e
  | (preflight, None, streams) =>
  let? (warmup, measured, streams) :=
    (if validationOnly then Ok (emptySummary p, preflight, streams) else
     match runConcurrentMessagePhase streams spec p (Warmup p) false (de_warmup env) with
     | (_, Some e, _) => Err e
     | (warmup, None, streams) =>
       match runConcurrentMessagePhase streams spec p (Duration p) false (de_measured env) with
       | (_, Some e, _) => Err e
       | (measured, None, streams) => Ok (warmup, measured, streams)
       end
     end) in
  let closed := zip_with close (de_closes env) streams in
  match head (omap (fun i => closed !! i ≫= fun c => c.1.2) (de_close_arrival env)) with
  | Some e => Err e
  | None =>
  let streams := snd <$> closed in
  let closes := (fun c => c.1.1) <$> closed in
  let? proof := match snd <$> opened with p :: _ => Ok p | [] => Err (EMsg "index out of range") end in
  let proof := with_exchange true "text" spec true (PingSent proof) (PongReceived proof) proof in
  let frames := aggregate (de_settings env) (de_window env) streams in
  guard ServerMaskedFrames frames =? 0 else EMsg "multiplexed WebSocket masking gate failed" in
  let last := OperationResult proof frames (de_connection env) (mean (OperationLatencies measured))
                (mean closes) (TotalTransferredBytes measured) in
  Ok (DiagResult last warmup (finish_measured closes (de_connection env) last measured))
  end end.

(** ** [main] *)

(** How the process ends: its exit code and the documents it wrote, with the status they
    carry. *)
Record outcome := Outcome { exit_code : Z; documents : list (string * string) }.

Definition knownUnsupported : list string :=
  ["http1.websocket.rfc6455.cleartext.upgrade"; "http1.websocket.rfc6455.cleartext.control-frames";
   "http1.websocket.rfc6455.cleartext.text-echo"; "http1.websocket.rfc6455.cleartext.binary-echo";
   "http1.websocket.rfc6455.cleartext.close"; "http1.websocket.rfc6455.tls.upgrade";
   "http1.websocket.rfc6455.tls.control-frames"; "http1.websocket.rfc6455.tls.text-echo";
   "http1.websocket.rfc6455.tls.binary-echo"; "http1.websocket.rfc6455.tls.close";
   "http1.websocket.rfc6455.tls.subprotocol-text-echo";
   "http1.websocket.rfc6455.tls.permessage-deflate-binary-echo";
   "http3.websocket.rfc9220.extended-connect"; "http3.websocket.rfc9220.control-frames";
   "http3.websocket.rfc9220.text-echo"; "http3.websocket.rfc9220.binary-echo";
   "http3.websocket.rfc9220.close"; "http3.websocket.rfc9220.fragmented-binary-echo"].

Record mainEnv := MainEnv {
  me_getenv : string -> string;
  me_target : string;
  me_version : bool; me_validationOnly : bool;
  me_mkdir : option goerror;
  me_roots : res unit;
  me_parse : string -> res (string * string);        (* url.Parse: scheme and host *)
  me_split : string -> option goerror;               (* net.SplitHostPort *)
  me_preflight : opEnv; me_warmup : list opEnv; me_measured : list opEnv;
  me_elapsed : float64 * float64;
  me_diag : diagEnv
}.

Definition normalizeTarget (parse : string -> res (string * string)) (split : string -> option goerror)
    (value : string) : res string :=
  let value := trim_space value in
  guard negb (String.eqb value "") else EMsg "target required" in
  if negb (contains_sub value "://") then
    match split value with Some e => Err e | None => Ok value end
  else
    let? (scheme, host) := parse value in
    guard String.eqb scheme "https" && negb (String.eqb host "")
      else EMsg "target must use https://host:port" in
    Ok host.

(** [verifySubstitution] and [verifyOptionalInteger]: false is [fatal(2)]. *)
Definition verifySubstitution (getenv : string -> string) (name expected : string) : bool :=
  let observed := trim_space (getenv name) in
  String.eqb observed "" || String.eqb observed expected.
Definition verifyOptionalInteger (getenv : string -> string) (name : string) (expected : Z) : bool :=
  let observed := trim_space (getenv name) in
  String.eqb observed "" || String.eqb observed (pretty expected).

Definition whole_seconds (d : Z) : Z := Z.quot d second.
Definition verifyProfileEnvironment (getenv : string -> string) (p : loadProfile) : bool :=
  verifyOptionalInteger getenv "PLAB_CONNECTIONS" (Connections p)
  && verifyOptionalInteger getenv "PLAB_CONCURRENCY" (Concurrency p)
  && verifyOptionalInteger getenv "PLAB_STREAMS_PER_CONNECTION" (StreamsPerConnection p)
  && verifyOptionalInteger getenv "PLAB_DURATION_SECONDS" (whole_seconds (Duration p))
  && verifyOptionalInteger getenv "PLAB_WARMUP_SECONDS" (whole_seconds (Warmup p))
  && verifyOptionalInteger getenv "PLAB_COOLDOWN_SECONDS" (whole_seconds (Cooldown p))
  && verifyOptionalInteger getenv "PLAB_REPETITION" (Repetitions p)
  && verifyOptionalInteger getenv "PLAB_REQUEST_TIMEOUT_SECONDS" (whole_seconds (OperationTimeout p)).

Definition verifyIdentity (getenv : string -> string) : bool :=
  verifySubstitution getenv "PLAB_EXECUTOR_ID" "go-http2-websocket-executor"
  && verifySubstitution getenv "PLAB_EXECUTOR_VERSION" "0.2.0"
  && verifySubstitution getenv "PLAB_LOAD_GENERATOR_ID" "go-x-net-http2-websocket-load"
  && verifySubstitution getenv "PLAB_LOAD_GENERATOR_VERSION" "0.2.0"
  && verifySubstitution getenv "PLAB_PROTOCOL" "h2"
  && verifySubstitution getenv "PLAB_PROTOCOL_VARIANT" protocolVariant.

Definition writeIdentity : list (string * string) :=
  [("executor-identity.json", ""); ("load-generator-identity.json", "")].
Definition emitUnsupported : list (string * string) :=
  [("unsupported.json", "unsupported"); ("result.json", "unsupported")] ++ writeIdentity.
Definition writeFailure : list (string * string) :=
  [("validation.json", "failed"); ("result.json", "failed")] ++ writeIdentity.
Definition writeProofArtifacts : list (string * string) :=
  [("validation.json", "passed"); ("protocol-proof.json", ""); ("websocket-summary.json", "");
   ("http2-frame-summary.json", ""); ("frame-summary.json", ""); ("payload-hash.json", "")].
Definition writeResult : list (string * string) :=
  [("websocket-load-summary.json", ""); ("http2-websocket-executor-result.json", "passed");
   ("result.json", "passed")].

(** The final gate. *)
Definition load_clean (s : measuredSummary) : bool :=
  negb ((CompletedOperations s =? 0) || negb (FailedOperations s =? 0) || negb (TimedOutOperations s =? 0)).

(** The preflight and the measured phase. *)
Definition run_scenario (hpack_decode : bytes -> list (string * string) * option goerror)
    (spec : scenario) (p : loadProfile) (env : mainEnv)
    : res (operationResult * measuredSummary * measuredSummary) :=
  if String.eqb (ID spec) multiMessage then
    let? r := runMultiMessageDiagnostic spec p (me_validationOnly env) (me_diag env) in
    Ok (dr_preflight r, dr_warmup r, dr_measured r)
  else
    let? preflight := runOperation hpack_decode spec (me_preflight env) in
    if me_validationOnly env
    then Ok (preflight, measuredSummary_zero, summaryFromOperation preflight p)
    else Ok (preflight, runFor hpack_decode spec p (me_warmup env) (me_elapsed env).1,
             runFor hpack_decode spec p (me_measured env) (me_elapsed env).2).

Definition main (hpack_decode : bytes -> list (string * string) * option goerror) (env : mainEnv) : outcome :=
  if me_version env then Outcome 0 [] else
  if negb (verifyIdentity (me_getenv env)) then Outcome 2 [] else
  match me_mkdir env with Some _ => Outcome 1 [] | None =>
  let id := trim_space (me_getenv env "PLAB_SCENARIO_ID") in
  match find_scenario id with
  | None => if string_in knownUnsupported id then Outcome 3 emitUnsupported else Outcome 2 []
  | Some spec =>
  let p := profileFor spec in
  if negb (verifySubstitution (me_getenv env) "PLAB_LOAD_PROFILE_ID" (LID p)
           && verifyProfileEnvironment (me_getenv env) p) then Outcome 2 [] else
  match normalizeTarget (me_parse env) (me_split env) (me_target env) with
  | Err _ => Outcome 2 []
  | Ok _ =>
  match me_roots env with
  | Err _ => Outcome 2 []
  | Ok _ =>
  let topology := if String.eqb (ID spec) multiMessage then [("http2-websocket-topology.json", "")] else [] in
  match run_scenario hpack_decode spec p env with
  | Err _ => Outcome 1 (writeIdentity ++ writeFailure)
  | Ok (preflight, warmup, measured) =>
  let written := writeIdentity ++ topology ++ writeProofArtifacts
                 ++ [("websocket-warmup-summary.json", "")] ++ writeResult in
  if load_clean measured then Outcome 0 written else Outcome 1 written
  end end end end end.

(** ** The peak-concurrency counter *)

(** A worker of the phase: before its [active.Add(1)], with the count it returned, with
    the peak it then loaded, running, or finished. *)
Inductive pc := Waiting | Added (current : Z) | Loaded (current observed : Z) | Running (current : Z) | Finished (current : Z).

(** The counters, the workers, and the largest value [active] ever had. *)
Record counters := Counters { active : Z; peak : Z; workers : list pc; highest : Z }.

Inductive cstep : counters -> counters -> Prop :=
| cs_add a p ws h i :
    ws !! i = Some Waiting ->
    cstep (Counters a p ws h) (Counters (a + 1) p (<[i := Added (a + 1)]> ws) (Z.max h (a + 1)))
| cs_load a p ws h i c :
    ws !! i = Some (Added c) ->
    cstep (Counters a p ws h) (Counters a p (<[i := Loaded c p]> ws) h)
| cs_enough a p ws h i c o :
    ws !! i = Some (Loaded c o) -> c <= o ->
    cstep (Counters a p ws h) (Counters a p (<[i := Running c]> ws) h)
| cs_swap a p ws h i c o :
    ws !! i = Some (Loaded c o) -> o < c -> p = o ->
    cstep (Counters a p ws h) (Counters a c (<[i := Running c]> ws) h)
| cs_retry a p ws h i c o :
    ws !! i = Some (Loaded c o) -> o < c -> p <> o ->
    cstep (Counters a p ws h) (Counters a p (<[i := Added c]> ws) h)
| cs_finish a p ws h i c :
    ws !! i = Some (Running c) ->
    cstep (Counters a p ws h) (Counters (a - 1) p (<[i := Finished c]> ws) h).

Definition counters_start (n : nat) : counters := Counters 0 0 (replicate n Waiting) 0.

Definition current_of (w : pc) : option Z :=
  match w with Waiting => None | Added c | Loaded c _ | Running c | Finished c => Some c end.
Definition is_active (w : pc) : bool :=
  match w with Added _ | Loaded _ _ | Running _ => true | _ => false end.
Definition past_loop (w : pc) : bool := match w with Running _ | Finished _ => true | _ => false end.
Definition all_finished (c : counters) : Prop :=
  Forall (fun w => match w with Finished _ => True | _ => False end) (workers c).

(** ** Facts: the peak counter *)

Definition weight (w : pc) : Z := if is_active w then 1 else 0.
Definition nactive (ws : list pc) : Z := foldr (fun w a => weight w + a) 0 ws.

Lemma nactive_insert ws i x y :
  ws !! i = Some x -> nactive (<[i := y]> ws) = nactive ws - weight x + weight y.
Proof.
  revert i. induction ws as [|w ws IH]; intros [|i] H; simpl in *; simplify_eq; [lia|].
  rewrite (IH i H). lia.
Qed.

Lemma nactive_bound ws : 0 <= nactive ws <= Z.of_nat (length ws).
Proof.
  induction ws as [|w ws IH]; simpl; [lia|]. unfold weight. destruct (is_active w); lia.
Qed.

Lemma nactive_waiting ws i : ws !! i = Some Waiting -> nactive ws + 1 <= Z.of_nat (length ws).
Proof.
  intros H. pose proof (nactive_bound (<[i := Added 0]> ws)) as Hb.
  rewrite (nactive_insert _ _ _ _ H), length_insert in Hb. unfold weight in Hb; simpl in Hb. lia.
Qed.

Record peak_inv (n : nat) (c : counters) : Prop := {
  pk_len : length (workers c) = n;
  pk_active : active c = nactive (workers c);
  pk_nonneg : 0 <= peak c <= highest c;
  pk_highest : highest c <= Z.of_nat n;
  pk_current : forall i w k, workers c !! i = Some w -> current_of w = Some k -> k <= highest c;
  pk_loaded : forall i k o, workers c !! i = Some (Loaded k o) -> o <= peak c;
  pk_past : forall i w k, workers c !! i = Some w -> past_loop w = true -> current_of w = Some k -> k <= peak c;
  pk_attained : highest c = 0 \/ exists i w, workers c !! i = Some w /\ current_of w = Some (highest c)
}.

Lemma peak_inv_start n : peak_inv n (counters_start n).
Proof.
  assert (Hr : forall i w, replicate n Waiting !! i = Some w -> w = Waiting).
  { intros i w H. by apply lookup_replicate in H as [-> _]. }
  split; simpl; try lia; try (by apply length_replicate); try (by left).
  - induction n; simpl in *; [done|]. unfold weight at 1; simpl. rewrite <-IHn; [done|].
    intros i w H. by apply (Hr (S i) w).
  - intros i w k Hw Hc. by rewrite (Hr i w Hw) in Hc.
  - intros i k o Hw. by apply Hr in Hw.
  - intros i w k Hw Hp. by rewrite (Hr i w Hw) in Hp.
Qed.

(** Worker [i] moves from [x] to [y] and keeps the count it was given. *)
Lemma attained_insert (ws : list pc) (i : nat) x y h :
  ws !! i = Some x -> current_of x = None \/ current_of y = current_of x ->
  (h = 0 \/ exists j w, ws !! j = Some w /\ current_of w = Some h) ->
  h = 0 \/ exists j w, <[i := y]> ws !! j = Some w /\ current_of w = Some h.
Proof.
  intros Hi Hc [->|(j & w & Hj & Hw)]; [by left|right].
  destruct (decide (i = j)) as [->|Hn].
  - simplify_eq. exists j, y. rewrite list_lookup_insert_eq by (by eapply lookup_lt_Some).
    destruct Hc; [congruence|]. split; congruence.
  - exists j, w. by rewrite list_lookup_insert_ne.
Qed.

Lemma forall_insert {A} (P : A -> Prop) (l : list A) (i : nat) y :
  (forall j x, l !! j = Some x -> P x) -> P y -> forall j x, <[i := y]> l !! j = Some x -> P x.
Proof.
  intros Hl Hy j x Hj. apply list_lookup_insert_Some in Hj as [(-> & -> & _)|[_ Hj]]; eauto.
Qed.

Lemma peak_inv_step n c c' : cstep c c' -> peak_inv n c -> peak_inv n c'.
Proof.
  assert (Hgen : forall a p ws h i x y a' p' h',
    ws !! i = Some x -> peak_inv n (Counters a p ws h) ->
    a' = a - weight x + weight y -> p <= p' <= h' -> h <= h' <= Z.of_nat n ->
    (forall k, current_of y = Some k -> k <= h') ->
    (forall k o, y = Loaded k o -> o <= p') ->
    (forall k, past_loop y = true -> current_of y = Some k -> k <= p') ->
    (h' = 0 \/ exists j w, <[i := y]> ws !! j = Some w /\ current_of w = Some h') ->
    peak_inv n (Counters a' p' (<[i := y]> ws) h')).
  { intros a p ws h i x y a' p' h' Hi [Hl Ha Hp Hh Hc Hlo Hpa Hat] Ea Ep Eh Hyc Hyl Hyp Hya.
    simpl in *. split; simpl; [by rewrite length_insert| |lia|lia| | | |done].
    - rewrite (nactive_insert _ _ _ _ Hi). lia.
    - intros j w k. revert j w.
      refine (fun j w Hj => forall_insert (fun w => current_of w = Some k -> k <= h') ws i y _ _ j w Hj); [|by apply Hyc].
      intros j' x' Hx Hk. specialize (Hc j' x' k Hx Hk). lia.
    - intros j k o Hj. apply list_lookup_insert_Some in Hj as [(_ & Hy & _)|[_ Hj]]; [by eapply Hyl|].
      specialize (Hlo j k o Hj). lia.
    - intros j w k Hj Hp' Hk. apply list_lookup_insert_Some in Hj as [(_ & Hy & _)|[_ Hj]]; [subst w; by eapply Hyp|].
      specialize (Hpa j w k Hj Hp' Hk). lia. }
  destruct 1 as [a p ws h i Hi|a p ws h i c Hi|a p ws h i c o Hi Hco|a p ws h i c o Hi Hco ->
                |a p ws h i c o Hi Hco Hne|a p ws h i c Hi]; intros Hinv;
    pose proof Hinv as [Hl Ha Hp Hh Hc Hlo Hpa Hat]; simpl in *;
    refine (Hgen _ _ _ _ _ _ _ _ _ _ Hi Hinv _ _ _ _ _ _ _); unfold weight; simpl;
    try done; try lia; try (intros; simplify_eq; (lia || eauto with lia));
    try (eapply attained_insert; [exact Hi|by right|exact Hat]).
  - apply nactive_waiting in Hi. lia.
  - destruct (Z.max_spec h (nactive ws + 1)) as [[_ ->]|[_ ->]].
    + right. exists i, (Added (nactive ws + 1)). split; [|done].
      apply list_lookup_insert_eq. by eapply lookup_lt_Some.
    + eapply attained_insert; [exact Hi|by left|exact Hat].
  - match goal with H : _ !! i = Some ?x |- ?k <= _ => first [by apply (Hpa i x k)|specialize (Hlo i _ _ Hi); lia] end.
Qed.

Lemma peak_inv_steps n c c' : rtc cstep c c' -> peak_inv n c -> peak_inv n c'.
Proof. induction 1; eauto using peak_inv_step. Qed.

(** C39: the concurrency the phase reports is the concurrency it had. However the workers
    interleave their increments, loads and compare-and-swaps, when all have finished the
    counter holds the largest number of workers that were running at once. *)
Theorem peak_is_exact n c :
  rtc cstep (counters_start n) c -> all_finished c ->
  active c = 0 /\ peak c = highest c /\ 0 <= peak c <= Z.of_nat n.
Proof.
  intros Hc Hf. destruct (peak_inv_steps n _ _ Hc (peak_inv_start n)) as [Hl Ha Hp Hh Hcu Hlo Hpa Hat].
  assert (Hz : nactive (workers c) = 0).
  { clear -Hf. unfold all_finished in Hf. induction Hf as [|w ws Hw _ IH]; simpl; [done|].
    by destruct w. }
  split_and!; [lia| |lia..].
  destruct Hat as [H0|(i & w & Hi & Hw)]; [lia|].
  pose proof (Forall_lookup_1 _ _ _ _ Hf Hi) as Hfin. destruct w; try done.
  specialize (Hpa i _ _ Hi eq_refl Hw). lia.
Qed.

(** Two workers: the second starts while the first is still in its loop, and the first's
    compare-and-swap fails. *)
Lemma peak_is_exact_witness :
  active (Counters 0 2 [Finished 1; Finished 2] 2) = 0 /\
  peak (Counters 0 2 [Finished 1; Finished 2] 2) = highest (Counters 0 2 [Finished 1; Finished 2] 2) /\
  0 <= peak (Counters 0 2 [Finished 1; Finished 2] 2) <= Z.of_nat 2.
Proof.
  apply (peak_is_exact 2); [|repeat constructor].
  eapply rtc_l; [apply (cs_add _ _ _ _ 0); reflexivity|].
  eapply rtc_l; [apply (cs_load _ _ _ _ 0 1); reflexivity|].
  eapply rtc_l; [apply (cs_add _ _ _ _ 1); reflexivity|].
  eapply rtc_l; [apply (cs_load _ _ _ _ 1 2); reflexivity|].
  eapply rtc_l; [apply (cs_swap _ _ _ _ 1 2 0); [reflexivity|lia|reflexivity]|].
  eapply rtc_l; [apply (cs_retry _ _ _ _ 0 1 0); [reflexivity|lia|lia]|].
  eapply rtc_l; [apply (cs_load _ _ _ _ 0 1); reflexivity|].
  eapply rtc_l; [apply (cs_enough _ _ _ _ 0 1 2); [reflexivity|lia]|].
  eapply rtc_l; [apply (cs_finish _ _ _ _ 0 1); reflexivity|].
  eapply rtc_l; [apply (cs_finish _ _ _ _ 1 2); reflexivity|].
  apply rtc_refl.
Defined.

(** ** Facts: collecting the workers *)

Definition sum_of {A} (f : A -> Z) (l : list A) : Z := foldr (fun x a => f x + a) 0 l.

Lemma sum_of_app {A} (f : A -> Z) l k : sum_of f (l ++ k) = sum_of f l + sum_of f k.
Proof. induction l as [|x l IH]; simpl; lia. Qed.

Lemma sum_of_perm {A} (f : A -> Z) l k : l ≡ₚ k -> sum_of f l = sum_of f k.
Proof. induction 1; simpl; lia. Qed.

Lemma sum_of_ext {A} (f g : A -> Z) l : Forall (fun x => f x = g x) l -> sum_of f l = sum_of g l.
Proof. induction 1 as [|x l Hx _ IH]; simpl; lia. Qed.

Definition errors_after (results : list workerResult) (m : gmap string Z) : gmap string Z :=
  fold_left (fun m r => match wr_err r with Some e => count_error e m | None => m end) results m.

Lemma fold_collect rs : forall s,
  let s' := fold_left collect rs s in
  CompletedOperations s' = CompletedOperations s + sum_of wr_operations rs /\
  FailedOperations s' = FailedOperations s + sum_of (fun r => SFailedOperations (wr_stream r)) rs /\
  TimedOutOperations s' = TimedOutOperations s + sum_of (fun r => STimedOutOperations (wr_stream r)) rs /\
  CompletedMessages s' = CompletedMessages s + sum_of wr_messages rs /\
  TotalTransferredBytes s' = TotalTransferredBytes s + sum_of wr_bytes rs /\
  OperationLatencies s' = OperationLatencies s ++ concat (wr_latencies <$> rs) /\
  PerStream s' = PerStream s ++ (wr_stream <$> rs) /\
  Errors s' = errors_after rs (Errors s).
Proof.
  induction rs as [|r rs IH]; intros s; simpl.
  - rewrite !app_nil_r. split_and!; (lia || done).
  - destruct (IH (collect s r)) as (-> & -> & -> & -> & -> & -> & -> & ->).
    destruct s; simpl. rewrite <-!app_assoc. split_and!; (lia || done).
Qed.

Lemma insert_stream_perm x l : insert_stream x l ≡ₚ x :: l.
Proof.
  induction l as [|y l IH]; simpl; [done|]. destruct (_ <? _); [done|]. rewrite IH. constructor.
Qed.

Lemma sort_streams_perm l : sort_streams l ≡ₚ l.
Proof. induction l as [|x l IH]; simpl; [done|]. by rewrite insert_stream_perm, IH. Qed.

Definition by_id (x y : streamSummary) : Prop := SStreamID x <= SStreamID y.

Lemma insert_stream_sorted x l : StronglySorted by_id l -> StronglySorted by_id (insert_stream x l).
Proof.
  induction 1 as [|y l Hl IH Hy]; simpl; [repeat constructor|].
  destruct (Z.ltb_spec (SStreamID x) (SStreamID y)).
  - constructor; [by constructor|]. constructor; [unfold by_id; lia|].
    eapply Forall_impl; [exact Hy|]. unfold by_id. intros. lia.
  - constructor; [done|]. rewrite insert_stream_perm. constructor; [unfold by_id; lia|done].
Qed.

Lemma sort_streams_sorted l : StronglySorted by_id (sort_streams l).
Proof. induction l; simpl; [constructor|]. by apply insert_stream_sorted. Qed.

Lemma count_error_comm e1 e2 m : count_error e1 (count_error e2 m) = count_error e2 (count_error e1 m).
Proof.
  unfold count_error. destruct (decide (error_string e1 = error_string e2)) as [E|E].
  - by rewrite E.
  - rewrite !lookup_insert_ne by done. by apply insert_insert_ne.
Qed.

Lemma errors_after_perm rs ks : rs ≡ₚ ks -> forall m, errors_after rs m = errors_after ks m.
Proof.
  unfold errors_after.
  induction 1 as [|r rs ks _ IH|r r' rs|rs ks ts _ IH1 _ IH2]; intros m; simpl; [done|apply IH| |congruence].
  destruct (wr_err r), (wr_err r'); try done. by rewrite count_error_comm.
Qed.

(** What a worker reports about its stream agrees with what it adds to the totals. *)
Definition consistent (r : workerResult) : Prop :=
  SCompletedOperations (wr_stream r) = wr_operations r /\
  SCompletedMessages (wr_stream r) = wr_messages r /\
  STransferredBytes (wr_stream r) = wr_bytes r /\
  SFailedOperations (wr_stream r) + STimedOutOperations (wr_stream r)
    = match wr_err r with Some _ => 1 | None => 0 end /\
  0 <= SFailedOperations (wr_stream r) /\ 0 <= STimedOutOperations (wr_stream r).

Lemma worker_consistent exactlyOne spec clock s : consistent (worker exactlyOne spec clock s).1.
Proof.
  unfold worker.
  assert (H : forall r s, wr_err r = None -> SFailedOperations (wr_stream r) = 0 ->
    STimedOutOperations (wr_stream r) = 0 ->
    consistent (worker_finish (worker_loop exactlyOne clock spec r s).1)).
  { induction clock as [|t clock IH]; intros r s' He Hf Ht; cbn [worker_loop].
    - destruct r as [[] l b o m []]; simpl in *; simplify_eq. unfold consistent; simpl. lia.
    - destruct (exactlyOne || t_before t).
      + destruct (runMessageGroup spec (t_took t) s') as [[g [e|]] s1].
        * destruct r as [[] l b o m []]; simpl in *; simplify_eq. unfold consistent.
          destruct (errors_is EDeadline e); simpl; lia.
        * assert (Hd : wr_err (worker_done spec g r) = None /\
             SFailedOperations (wr_stream (worker_done spec g r)) = 0 /\
             STimedOutOperations (wr_stream (worker_done spec g r)) = 0) by (by destruct r).
          destruct Hd as (H1 & H2 & H3). destruct exactlyOne; [|by apply IH].
          destruct (worker_done spec g r) as [[] l b o m []]; simpl in *; simplify_eq.
          unfold consistent; simpl. lia.
      + destruct r as [[] l b o m []]; simpl in *; simplify_eq. unfold consistent; simpl. lia. }
  specialize (H (worker_zero (streamID s)) s eq_refl eq_refl eq_refl).
  by destruct (worker_loop _ _ _ _ _).
Qed.

Lemma runs_consistent exactlyOne spec clocks streams i r :
  fst <$> zip_with (worker exactlyOne spec) clocks streams !! i = Some r -> consistent r.
Proof.
  rewrite lookup_zip_with. destruct (clocks !! i) as [c|]; simpl; [|done].
  destruct (streams !! i) as [s|]; simpl; [|done].
  intros. simplify_eq. apply worker_consistent.
Qed.

Lemma close_phase_fields k s : 
  CompletedOperations (close_phase k s) = CompletedOperations s /\
  FailedOperations (close_phase k s) = FailedOperations s /\
  TimedOutOperations (close_phase k s) = TimedOutOperations s /\
  CompletedMessages (close_phase k s) = CompletedMessages s /\
  TotalTransferredBytes (close_phase k s) = TotalTransferredBytes s /\
  PerStream (close_phase k s) = sort_streams (PerStream s) /\
  Errors (close_phase k s) = Errors s.
Proof. by destruct s. Qed.

Lemma phase_summary_fields p duration exactlyOne arrived k elapsed :
  let s := (phase_summary p duration exactlyOne arrived k elapsed).1 in
  CompletedOperations s = sum_of wr_operations arrived /\
  FailedOperations s = sum_of (fun r => SFailedOperations (wr_stream r)) arrived /\
  TimedOutOperations s = sum_of (fun r => STimedOutOperations (wr_stream r)) arrived /\
  CompletedMessages s = sum_of wr_messages arrived /\
  TotalTransferredBytes s = sum_of wr_bytes arrived /\
  PerStream s = sort_streams (wr_stream <$> arrived) /\
  Errors s = errors_after arrived ∅.
Proof.
  unfold phase_summary.
  set (s0 := set_duration _ _).
  pose proof (fold_collect arrived s0) as (E1 & E2 & E3 & E4 & E5 & _ & E6 & E7).
  pose proof (close_phase_fields k (fold_left collect arrived s0)) as (F1 & F2 & F3 & F4 & F5 & F6 & F7).
  assert (Z0 : CompletedOperations s0 = 0 /\ FailedOperations s0 = 0 /\ TimedOutOperations s0 = 0 /\
    CompletedMessages s0 = 0 /\ TotalTransferredBytes s0 = 0 /\ PerStream s0 = [] /\ Errors s0 = ∅)
    by done.
  clearbody s0. destruct Z0 as (Z1 & Z2 & Z3 & Z4 & Z5 & Z6 & Z7).
  rewrite Z1 in E1; rewrite Z2 in E2; rewrite Z3 in E3; rewrite Z4 in E4; rewrite Z5 in E5;
  rewrite Z6 in E6; rewrite Z7 in E7.
  set (s1 := close_phase k _) in *.
  assert (Hs1 : CompletedOperations s1 = sum_of wr_operations arrived /\
    FailedOperations s1 = sum_of (fun r => SFailedOperations (wr_stream r)) arrived /\
    TimedOutOperations s1 = sum_of (fun r => STimedOutOperations (wr_stream r)) arrived /\
    CompletedMessages s1 = sum_of wr_messages arrived /\
    TotalTransferredBytes s1 = sum_of wr_bytes arrived /\
    PerStream s1 = sort_streams (wr_stream <$> arrived) /\
    Errors s1 = errors_after arrived ∅).
  { rewrite F1, F2, F3, F4, F5, F6, F7, E1, E2, E3, E4, E5, E6, E7. split_and!; (lia || done). }
  destruct (negb _); [exact Hs1|]. destruct (SFeqb _ _); [|exact Hs1].
  clear -Hs1. simpl. destruct s1. exact Hs1.
Qed.

(** The phase adds up. The totals of a phase are the sums over the streams it
    lists, which are sorted by identifier, and neither the totals nor the streams listed
    nor the error counts depend on the order in which the workers report. *)
Theorem phase_adds_up streams spec p duration exactlyOne env arrival' :
  pe_arrival env ≡ₚ arrival' ->
  let '((s, _), _) := runConcurrentMessagePhase streams spec p duration exactlyOne env in
  let '((s', _), _) := runConcurrentMessagePhase streams spec p duration exactlyOne
    (PhaseEnv (pe_clocks env) arrival' (pe_peak env) (pe_elapsed env)) in
  CompletedOperations s = sum_of SCompletedOperations (PerStream s) /\
  FailedOperations s = sum_of SFailedOperations (PerStream s) /\
  TimedOutOperations s = sum_of STimedOutOperations (PerStream s) /\
  CompletedMessages s = sum_of SCompletedMessages (PerStream s) /\
  TotalTransferredBytes s = sum_of STransferredBytes (PerStream s) /\
  StronglySorted by_id (PerStream s) /\
  CompletedOperations s' = CompletedOperations s /\ FailedOperations s' = FailedOperations s /\
  TimedOutOperations s' = TimedOutOperations s /\ CompletedMessages s' = CompletedMessages s /\
  TotalTransferredBytes s' = TotalTransferredBytes s /\ Errors s' = Errors s /\
  PerStream s' ≡ₚ PerStream s.
Proof.
  intros Hperm. unfold runConcurrentMessagePhase. simpl.
  set (runs := zip_with _ _ _).
  set (arr := omap (fun i => fst <$> runs !! i) (pe_arrival env)).
  set (arr' := omap (fun i => fst <$> runs !! i) arrival').
  assert (Hp : arr ≡ₚ arr') by (by apply omap_Permutation).
  assert (Hcons : Forall consistent arr).
  { apply Forall_forall. intros r Hr. apply list_elem_of_omap in Hr as (i & _ & Hr).
    by eapply runs_consistent. }
  pose proof (phase_summary_fields p duration exactlyOne arr (pe_peak env) (pe_elapsed env))
    as (E1 & E2 & E3 & E4 & E5 & E6 & E7).
  pose proof (phase_summary_fields p duration exactlyOne arr' (pe_peak env) (pe_elapsed env))
    as (F1 & F2 & F3 & F4 & F5 & F6 & F7).
  destruct (phase_summary _ _ _ arr _ _) as [s e], (phase_summary _ _ _ arr' _ _) as [s' e'].
  simpl in *.
  assert (Hsum : forall f g, (forall r, consistent r -> f r = g (wr_stream r)) ->
     sum_of f arr = sum_of g (PerStream s)).
  { intros f g Hfg. rewrite E6, (sum_of_perm _ _ _ (sort_streams_perm _)).
    clear -Hcons Hfg. induction Hcons as [|r l Hr _ IH]; simpl; [done|]. by rewrite IH, (Hfg r Hr). }
  rewrite F1, F2, F3, F4, F5, F6, F7, E1, E2, E3, E4, E5, E7.
  rewrite !(sum_of_perm _ arr arr' Hp), (errors_after_perm _ _ Hp).
  rewrite <-!(sum_of_perm _ arr arr' Hp).
  split_and!; try done; try (by apply Hsum; intros r (?&?&?&?)).
  - rewrite E6. apply sort_streams_sorted.
  - by rewrite E6, !sort_streams_perm, Hp.
Qed.

(** Two streams, each with its echoes waiting: the second reports first. *)
Definition two_streams : list multiplexedWebSocket := [echo_stream; echo_stream].
Definition two_clocks (l : list nat) : phaseEnv :=
  PhaseEnv [[Tick false durationMS]; [Tick false durationMS]] l 2 f_zero.

Lemma phase_adds_up_witness :
  let '((s, _), _) := runConcurrentMessagePhase two_streams echo_spec diagnosticProfile 0 false (two_clocks [1; 0]%nat) in
  let '((s', _), _) := runConcurrentMessagePhase two_streams echo_spec diagnosticProfile 0 false (two_clocks [0; 1]%nat) in
  CompletedOperations s = sum_of SCompletedOperations (PerStream s) /\
  FailedOperations s = sum_of SFailedOperations (PerStream s) /\
  TimedOutOperations s = sum_of STimedOutOperations (PerStream s) /\
  CompletedMessages s = sum_of SCompletedMessages (PerStream s) /\
  TotalTransferredBytes s = sum_of STransferredBytes (PerStream s) /\
  StronglySorted by_id (PerStream s) /\
  CompletedOperations s' = CompletedOperations s /\ FailedOperations s' = FailedOperations s /\
  TimedOutOperations s' = TimedOutOperations s /\ CompletedMessages s' = CompletedMessages s /\
  TotalTransferredBytes s' = TotalTransferredBytes s /\ Errors s' = Errors s /\
  PerStream s' ≡ₚ PerStream s.
Proof.
  apply (phase_adds_up two_streams echo_spec diagnosticProfile 0 false (two_clocks [1; 0]%nat) [0; 1]%nat).
  constructor.
Defined.

Lemma firstError_none rs : firstError rs = None -> Forall (fun r => wr_err r = None) rs.
Proof.
  unfold firstError. induction rs as [|r rs IH]; intros H; [constructor|].
  simpl in H. destruct (wr_err r) eqn:E; [done|]. constructor; auto.
Qed.

(** A phase fails closed. It returns no error only if the workers reached the
    configured concurrency and none of them failed; the summary then counts no failed and
    no timed-out operation. *)
Theorem phase_fails_closed streams spec p duration exactlyOne env s streams' :
  runConcurrentMessagePhase streams spec p duration exactlyOne env = ((s, None), streams') ->
  pe_peak env = Concurrency p /\ FailedOperations s = 0 /\ TimedOutOperations s = 0 /\
  (forall i r, i ∈ pe_arrival env ->
     (zip_with (worker exactlyOne spec) (pe_clocks env) streams) !! i = Some r -> wr_err r.1 = None).
Proof.
  unfold runConcurrentMessagePhase. intros [= Hp _].
  set (runs := zip_with _ _ _) in *.
  set (arr := omap (fun i => fst <$> runs !! i) (pe_arrival env)) in *.
  assert (Hcons : Forall consistent arr).
  { apply Forall_forall. intros r Hr. apply list_elem_of_omap in Hr as (i & _ & Hr).
    by eapply runs_consistent. }
  pose proof (phase_summary_fields p duration exactlyOne arr (pe_peak env) (pe_elapsed env))
    as (_ & E2 & E3 & _). rewrite Hp in E2, E3. simpl in E2, E3.
  unfold phase_summary in Hp.
  assert (Hpk : forall k u, MEffectiveConcurrency (close_phase k u) = k) by (by intros k []).
  rewrite Hpk in Hp. destruct (Z.eqb_spec (pe_peak env) (Concurrency p)); [|done]. cbn [negb] in Hp.
  assert (Hn : firstError arr = None) by (destruct (SFeqb _ _); by simplify_eq).
  apply firstError_none in Hn.
  assert (Hz : sum_of (fun r => SFailedOperations (wr_stream r)) arr = 0 /\
               sum_of (fun r => STimedOutOperations (wr_stream r)) arr = 0).
  { clear -Hcons Hn. induction Hcons as [|r l Hr _ IH]; [done|].
    inversion_clear Hn as [|?? Hr0 Hn']. destruct (IH Hn') as [IH1 IH2].
    destruct Hr as (_ & _ & _ & Hr & ? & ?). rewrite Hr0 in Hr. simpl. lia. }
  split_and!; [done|lia|lia|]. intros i r Hi Hr.
  rewrite Forall_forall in Hn. apply Hn. apply list_elem_of_omap. exists i. split; [done|].
  fold runs in Hr. by rewrite Hr.
Qed.

Definition one_clock : phaseEnv := PhaseEnv (replicate 8 []) [0; 1; 2; 3; 4; 5; 6; 7]%nat 8 f_zero.

Lemma phase_fails_closed_witness :
  exists s streams',
    runConcurrentMessagePhase (replicate 8 echo_stream) echo_spec diagnosticProfile 0 false one_clock
      = ((s, None), streams') /\
    pe_peak one_clock = 8 /\ FailedOperations s = 0 /\ TimedOutOperations s = 0.
Proof.
  eexists _, _. split; [vm_compute; reflexivity|].
  match goal with |- _ /\ FailedOperations ?s = 0 /\ _ =>
    destruct (phase_fails_closed (replicate 8 echo_stream) echo_spec diagnosticProfile 0 false one_clock
                s (replicate 8 echo_stream)) as (H1 & H2 & H3 & _); [vm_compute; reflexivity|] end.
  split; [exact H1|split; [exact H2|exact H3]].
Defined.

(** ** Facts: the single operation *)

(** What the framer loops leave alone. *)
Record kept (s s' : frameSummary) : Prop := {
  kp_keys : ClientMaskKeys s' = ClientMaskKeys s;
  kp_order : ReceivedOrder s' = ReceivedOrder s;
  kp_masked : ServerMaskedFrames s' = ServerMaskedFrames s
}.

Lemma kept_refl s : kept s s.
Proof. by split. Qed.
Lemma kept_trans a b c : kept a b -> kept b c -> kept a c.
Proof. intros [] []. split; congruence. Qed.
Lemma kept_settings s : kept s (count_settings_frame s). Proof. by destruct s; split. Qed.
Lemma kept_headers s : kept s (count_headers_frame s). Proof. by destruct s; split. Qed.
Lemma kept_window s : kept s (count_window_frame s). Proof. by destruct s; split. Qed.
Lemma kept_data s : kept s (count_data s). Proof. by destruct s; split. Qed.
Lemma kept_client s : kept s (count_client_message s). Proof. by destruct s; split. Qed.
Lemma kept_server s : kept s (count_server_message s). Proof. by destruct s; split. Qed.
#[export] Hint Resolve kept_refl kept_settings kept_headers kept_window kept_data kept_client kept_server : plab.

(** One frame of a loop: the recursive call keeps, and so does the count before it. *)
Ltac kept_by IH H := apply IH in H; eapply kept_trans; [|exact H]; auto with plab.

Lemma await_kept ins : forall f s e f' s', awaitConnectProtocol ins f s = (e, f', s') -> kept s s'.
Proof.
  induction ins as [|x ins IH]; intros f s e f' s' H; cbn [awaitConnectProtocol] in H;
    [by simplify_eq|].
  destruct x as [[] settings| | | | | | |]; cbn [negb] in H; try solve [kept_by IH H].
  destruct (fr_write _ f) as [[e1|] f1]; [simplify_eq; auto with plab|].
  destruct (enables settings); [simplify_eq; auto with plab|kept_by IH H].
Qed.

Lemma headers_kept hd ins : forall block f s r f' s',
  readResponseHeaders hd ins block f s = (r, f', s') -> kept s s'.
Proof.
  induction ins as [|x ins IH]; intros block f s r f' s' H; cbn [readResponseHeaders] in H;
    [by simplify_eq|].
  destruct x as [| | | | |id d []|id d []|]; try solve [kept_by IH H];
    destruct (negb (id =? 1)); try solve [kept_by IH H];
    injection H as _ _ <-; auto with plab.
Qed.

Lemma readFrame1_kept ins : forall buffer f s r f' s', readFrame1 ins buffer f s = (r, f', s') -> kept s s'.
Proof.
  induction ins as [|x ins IH]; intros buffer f s r f' s' H; cbn [readFrame1] in H; [by simplify_eq|].
  destruct x as [| |id d| | | | |]; try solve [kept_by IH H].
  destruct (negb (id =? 1)); [kept_by IH H|].
  destruct (H2.parseFrame _) as [[p|]|]; [|kept_by IH H|]; injection H as _ _ <-; auto with plab.
Qed.

Lemma exchange_sound n i spec random f s b random' f' s' b' :
  exchange n i spec random f s b = (None, random', f', s', b') ->
  exists ks, length ks = n /\ random = (Ok <$> ks) ++ random' /\
    ClientMaskKeys s' = ClientMaskKeys s ++ (hash <$> ks) /\
    ReceivedOrder s' = ReceivedOrder s ++ seqZ (i + 1) (Z.of_nat n) /\
    ServerMaskedFrames s' = ServerMaskedFrames s /\
    b' = b + Z.of_nat n * (len (Payload spec) * 2).
Proof.
  revert i random f s b. induction n as [|n IH]; intros i random f s b H; cbn [exchange] in H.
  - simplify_eq. exists []. rewrite !app_nil_r. split_and!; try done. lia.
  - destruct random as [|k random]; [done|].
    destruct (H2.maskedFrame k _ _) as [[key wire]|] eqn:E2; [|done].
    apply maskedFrame_inv in E2 as [-> ->].
    destruct (fr_write _ f) as [[|] f1]; [done|].
    destruct (readFrame1 _ _ _ _) as [[[fr1|] f2] s2] eqn:E3; [|done].
    apply readFrame1_kept in E3 as [K1 K2 K3].
    destruct (H2.Masked fr1) eqn:Em; [done|]. cbn [orb] in H.
    destruct (_ || _); [done|]. apply IH in H as (ks & <- & -> & Hk & Ho & Hm & ->).
    exists (key :: ks).
    assert (F : forall o u, ClientMaskKeys (set_order o (count_server_message u)) = ClientMaskKeys u /\
      ReceivedOrder (set_order o u) = o /\ ReceivedOrder (count_server_message u) = ReceivedOrder u /\
      ServerMaskedFrames (set_order o (count_server_message u)) = ServerMaskedFrames u) by (by intros ? []).
    assert (G : ClientMaskKeys (count_mask_key (hash key) (count_client_message s)) = ClientMaskKeys s ++ [hash key] /\
      ReceivedOrder (count_mask_key (hash key) (count_client_message s)) = ReceivedOrder s /\
      ServerMaskedFrames (count_mask_key (hash key) (count_client_message s)) = ServerMaskedFrames s) by (by destruct s).
    destruct G as (G1 & G2 & G3). rewrite Hk, Ho, Hm. destruct (F (ReceivedOrder (count_server_message s2) ++ [i + 1]) s2) as (-> & _ & F3 & ->).
    rewrite (proj1 (proj2 (F _ (count_server_message s2)))), F3, K1, K2, K3, G1, G2, G3, <-!app_assoc.
    split_and!; try done; [|lia].
    rewrite Nat2Z.inj_succ, (seqZ_cons (i + 1)), Z.pred_succ by lia. done.
Qed.

(** An operation that succeeds is genuine: the connection passed the TLS gate, the
    peer enabled Extended CONNECT and answered 200 with no prohibited header, every
    message came back unmasked and in order under its own random key, and the counts of
    the summary are those of what was exchanged. *)
Theorem operation_genuine hd spec env r :
  runOperation hd spec env = Ok r ->
  exists state ks closeKey random,
    oe_dial env = Ok state /\ tls_gate state (base_proof false state) = true /\
    SettingsEnableConnectProtocol (Proof_ r) = 1 /\
    header (ResponseHeaders (Proof_ r)) ":status" = "200" /\
    SecWebSocketAcceptPresent (Proof_ r) = false /\ SubprotocolPresent (Proof_ r) = false /\
    ExtensionsPresent (Proof_ r) = false /\
    length ks = Z.to_nat (MessageCount spec) /\
    oe_keys env = (Ok <$> ks) ++ Ok closeKey :: random /\
    ClientMaskKeys (Frames r) = (hash <$> ks) ++ [hash closeKey] /\
    UniqueClientMaskKeys (Frames r) + DuplicateClientMaskKeys (Frames r) = len ks + 1 /\
    ReceivedOrder (Frames r) = seqZ 1 (len ks) /\ ServerMaskedFrames (Frames r) = 0 /\
    Bytes r = len ks * (len (Payload spec) * 2).
Proof.
  intros H. unfold runOperation in H.
  destruct (oe_dial env) as [state|] eqn:Ed; [|done]. cbn [res_bind] in H.
  destruct (tls_gate state _) eqn:Eg; [|done]. cbv zeta in H.
  set (p0 := base_proof false state) in H. clearbody p0.
  destruct (oe_preface env); [done|]. destruct (fr_write _ (oe_framer env)) as [[|] f1]; [done|].
  destruct (awaitConnectProtocol _ _ _) as [[[|] f2] s2] eqn:E2; [done|].
  apply await_kept in E2 as [A1 A2 A3]. cbn in A1, A2, A3.
  destruct (oe_block env) as [block|]; [|done]. cbn [res_bind] in H.
  destruct (fr_write _ f2) as [[|] f3]; [done|].
  destruct (readResponseHeaders _ _ _ _ _) as [[[h|] f4] s4] eqn:E4; [|done].
  apply headers_kept in E4 as [B1 B2 B3]. cbn [res_bind] in H.
  destruct (String.eqb_spec (header h ":status") "200") as [Hst|]; [|done]. cbn [negb] in H.
  destruct (_ || ExtensionsPresent _) eqn:Ep; [done|]. cbn [negb] in H.
  apply orb_false_iff in Ep as [Ep Ep3]. apply orb_false_iff in Ep as [Ep Ep2].
  apply orb_false_iff in Ep as [_ Ep1].
  destruct (exchange _ _ _ _ _ _ _) as [[[[[e|] random] f5] s5] transferred] eqn:E5; [done|].
  apply exchange_sound in E5 as (ks & Hl & Hk & Hmk & Ho & Hm & ->).
  destruct random as [|k random]; [done|]. destruct (H2.maskedFrame k _ _) as [[key wire]|] eqn:E6; [|done].
  apply maskedFrame_inv in E6 as [-> ->]. cbn [res_bind] in H.
  destruct (fr_write _ f5) as [[|] f6]; [done|].
  destruct (readFrame1 _ _ _ _) as [[[closed|] f7] s7] eqn:E7; [|done].
  apply readFrame1_kept in E7 as [C1 C2 C3]. cbn [res_bind] in H.
  destruct (negb _); [|done]. destruct (oe_times env) as [[t1 t2] t3]. injection H as <-.
  exists state, ks, key, random.
  assert (Hlen : Z.of_nat (Z.to_nat (MessageCount spec)) = len ks) by (unfold len; congruence).
  rewrite Hlen in *. cbn [Proof_ Frames Bytes].
  assert (K : ClientMaskKeys s7 = (hash <$> ks) ++ [hash key] /\ ReceivedOrder s7 = seqZ 1 (len ks) /\
              ServerMaskedFrames s7 = 0).
  { rewrite C1, C2, C3. clear -Hmk Ho Hm A1 A2 A3 B1 B2 B3. destruct s5. cbn in *.
    rewrite Hmk, Ho, Hm, B1, B2, B3, A1, A2, A3. done. }
  destruct K as (K1 & K2 & K3).
  assert (F : forall b, ClientMaskKeys (conclude b s7) = ClientMaskKeys s7 /\
     ReceivedOrder (conclude b s7) = ReceivedOrder s7 /\ ServerMaskedFrames (conclude b s7) = ServerMaskedFrames s7 /\
     UniqueClientMaskKeys (conclude b s7) + DuplicateClientMaskKeys (conclude b s7) = len (ClientMaskKeys s7)).
  { intros b. clear. unfold conclude. destruct s7. rewrite maskKeyCounts_spec. cbn. split_and!; (lia || done). }
  match goal with |- context [conclude ?b s7] => destruct (F b) as (-> & -> & -> & ->) end.
  rewrite K1, K2, K3, len_app.
  replace (len (hash <$> ks)) with (len ks) by (unfold len; by rewrite length_fmap).
  split_and!; done.
Qed.

Definition root_state : tlsState := TLSState VersionTLS13 "h2" false [(root_der, root_spki)].

Definition tiny_decode (block : bytes) : list (string * string) * option goerror :=
  (if decide (block = [136]) then [(":status", "200")] else [], None).

(** A text echo: the answer is cut into two DATA frames. *)
Definition text_spec : scenario := default echo_spec (find_scenario "http2.websocket.rfc8441.text-echo").
Definition text_env : opEnv :=
  OpEnv (Ok root_state) None
    (Framer [SettingsFrame false [(8, 1)]; HeadersFrame 1 [136] true; DataFrame 1 [129; 12];
             DataFrame 1 (bytes_of_string textPayload); DataFrame 1 [136; 2; 3; 232]] EEOF [] [])
    (Ok [1]) [Ok [1; 2; 3; 4]; Ok [5; 6; 7; 8]] (f_zero, f_zero, f_zero).

Lemma operation_genuine_witness :
  exists r, runOperation tiny_decode text_spec text_env = Ok r /\
  exists state ks closeKey random,
    oe_dial text_env = Ok state /\ tls_gate state (base_proof false state) = true /\
    SettingsEnableConnectProtocol (Proof_ r) = 1 /\
    header (ResponseHeaders (Proof_ r)) ":status" = "200" /\
    SecWebSocketAcceptPresent (Proof_ r) = false /\ SubprotocolPresent (Proof_ r) = false /\
    ExtensionsPresent (Proof_ r) = false /\
    length ks = Z.to_nat (MessageCount text_spec) /\
    oe_keys text_env = (Ok <$> ks) ++ Ok closeKey :: random /\
    ClientMaskKeys (Frames r) = (hash <$> ks) ++ [hash closeKey] /\
    UniqueClientMaskKeys (Frames r) + DuplicateClientMaskKeys (Frames r) = len ks + 1 /\
    ReceivedOrder (Frames r) = seqZ 1 (len ks) /\ ServerMaskedFrames (Frames r) = 0 /\
    Bytes r = len ks * (len (Payload text_spec) * 2).
Proof.
  assert (E : match runOperation tiny_decode text_spec text_env with Ok _ => true | Err _ => false end = true)
    by (vm_compute; reflexivity).
  destruct (runOperation tiny_decode text_spec text_env) as [r|e] eqn:H; [|discriminate].
  exists r. split; [reflexivity|exact (operation_genuine tiny_decode text_spec text_env r H)].
Defined.

Lemma written_passed topology :
  let docs := writeIdentity ++ topology ++ writeProofArtifacts
              ++ [("websocket-warmup-summary.json", "")] ++ writeResult in
  ("validation.json", "passed") ∈ docs /\ ("result.json", "passed") ∈ docs.
Proof. split; rewrite !elem_of_app; do 2 right; [left|do 2 right]; set_solver. Qed.

(** The process exits 0 for a scenario only if the run completed: the scenario is
    one of the package's, its target is usable, the preflight operation succeeded, and
    the measured phase completed operations with no failure and no timeout. *)
Theorem exit_zero_is_earned hd env docs :
  main hd env = Outcome 0 docs -> me_version env = false ->
  exists spec preflight warmup measured,
    find_scenario (trim_space (me_getenv env "PLAB_SCENARIO_ID")) = Some spec /\
    run_scenario hd spec (profileFor spec) env = Ok (preflight, warmup, measured) /\
    verifyIdentity (me_getenv env) = true /\
    is_ok (normalizeTarget (me_parse env) (me_split env) (me_target env)) = true /\
    CompletedOperations measured <> 0 /\ FailedOperations measured = 0 /\ TimedOutOperations measured = 0 /\
    ("validation.json", "passed") ∈ docs /\ ("result.json", "passed") ∈ docs.
Proof.
  intros H Hv. unfold main in H. rewrite Hv in H.
  destruct (verifyIdentity _) eqn:Ei; [|done]. cbn [negb] in H. destruct (me_mkdir env); [done|].
  cbv zeta in H. destruct (find_scenario _) as [spec|] eqn:Es; [|by destruct (string_in _ _)].
  destruct (negb (_ && _)); [done|]. destruct (normalizeTarget _ _ _) as [t|] eqn:En; [|done].
  destruct (me_roots env); [|done].
  destruct (run_scenario hd spec _ env) as [[[pre warm] meas]|] eqn:Er; [|done].
  destruct (load_clean meas) eqn:Ec; [|done].
  exists spec, pre, warm, meas. unfold load_clean in Ec. reflect_bools.
  assert (Hw := written_passed (if String.eqb (ID spec) multiMessage
                                then [("http2-websocket-topology.json", "")] else [])).
  cbv zeta in Hw. injection H as H. rewrite <-H. by split_and!; try apply Hw.
Qed.

(** The environment of a run: the text-echo scenario in validation mode. *)
Definition text_main : mainEnv :=
  MainEnv (fun name => if String.eqb name "PLAB_SCENARIO_ID" then "http2.websocket.rfc8441.text-echo" else "")
    "127.0.0.1:8443" false true None (Ok tt) (fun _ => Ok ("https", "h")) (fun _ => None)
    text_env [] [] (f_zero, f_zero)
    (DiagEnv (Err EEOF) None (Framer [] EEOF [] []) [] one_clock one_clock one_clock [] [] 0 0 f_zero).

Lemma exit_zero_is_earned_witness :
  exists docs, main tiny_decode text_main = Outcome 0 docs /\
  exists spec preflight warmup measured,
    find_scenario (trim_space (me_getenv text_main "PLAB_SCENARIO_ID")) = Some spec /\
    run_scenario tiny_decode spec (profileFor spec) text_main = Ok (preflight, warmup, measured) /\
    verifyIdentity (me_getenv text_main) = true /\
    is_ok (normalizeTarget (me_parse text_main) (me_split text_main) (me_target text_main)) = true /\
    CompletedOperations measured <> 0 /\ FailedOperations measured = 0 /\ TimedOutOperations measured = 0 /\
    ("validation.json", "passed") ∈ docs /\ ("result.json", "passed") ∈ docs.
Proof.
  eexists. split; [vm_compute; reflexivity|].
  eapply (exit_zero_is_earned tiny_decode text_main); [vm_compute; reflexivity|reflexivity].
Defined.

(** The documents are written before the final gate. A measured phase with a failed
    operation makes the process exit 1, but validation.json and result.json already say
    that it passed. *)
Theorem failed_phase_leaves_passed_documents hd env spec :
  me_version env = false -> verifyIdentity (me_getenv env) = true -> me_mkdir env = None ->
  find_scenario (trim_space (me_getenv env "PLAB_SCENARIO_ID")) = Some spec ->
  verifySubstitution (me_getenv env) "PLAB_LOAD_PROFILE_ID" (LID (profileFor spec)) = true ->
  verifyProfileEnvironment (me_getenv env) (profileFor spec) = true ->
  is_ok (normalizeTarget (me_parse env) (me_split env) (me_target env)) = true ->
  is_ok (me_roots env) = true -> me_validationOnly env = false -> ID spec <> multiMessage ->
  is_ok (runOperation hd spec (me_preflight env)) = true ->
  FailedOperations (runFor hd spec (profileFor spec) (me_measured env) (me_elapsed env).2) <> 0 ->
  exists docs, main hd env = Outcome 1 docs /\
    ("validation.json", "passed") ∈ docs /\ ("result.json", "passed") ∈ docs.
Proof.
  intros Hv Hi Hm Hs Hl Hp Ht Hr Hval Hid Ho Hf. unfold main.
  rewrite Hv, Hi, Hm. cbv zeta. rewrite Hs, Hl, Hp. cbn [negb andb].
  destruct (normalizeTarget _ _ _); [|done]. destruct (me_roots env); [|done].
  unfold run_scenario. destruct (String.eqb_spec (ID spec) multiMessage); [done|].
  rewrite Hval. destruct (runOperation hd spec (me_preflight env)); [|done]. cbn [res_bind].
  destruct (load_clean _) eqn:Ec.
  - unfold load_clean in Ec. reflect_bools. done.
  - eexists. split; [reflexivity|]. apply written_passed.
Qed.

Definition failing_main : mainEnv :=
  MainEnv (me_getenv text_main) "127.0.0.1:8443" false false None (Ok tt) (fun _ => Ok ("https", "h"))
    (fun _ => None) text_env []
    [text_env; OpEnv (Err EEOF) None (Framer [] EEOF [] []) (Ok []) [] (f_zero, f_zero, f_zero)]
    (f_zero, f_zero) (me_diag text_main).

Lemma failed_phase_leaves_passed_documents_witness :
  exists docs, main tiny_decode failing_main = Outcome 1 docs /\
    ("validation.json", "passed") ∈ docs /\ ("result.json", "passed") ∈ docs.
Proof.
  apply (failed_phase_leaves_passed_documents tiny_decode failing_main text_spec);
    try (vm_compute; reflexivity); vm_compute; discriminate.
Defined.
