(* ===== verification/GrpcCodec.v ===== *)
(** gRPC messages: the one-field protobuf of the echo contract and the length-prefixed
    envelope, as go-grpc-h2-executor writes and reads them and go-grpc-h2 reads them back.
    compress/gzip is a parameter. *)
From S2P Require Export Prelude GoText.

(** ** Protobuf: field 1, bytes *)

(** [for n >= 0x80 { out = append(out, byte(n)|0x80); n >>= 7 }; append(out, byte(n))]:
    ten octets hold 64 bits. *)
Fixpoint put_varint (fuel : nat) (n : Z) : bytes :=
  match fuel with
  | O => []
  | S fuel =>
      if 0x80 <=? n then Z.lor (u8 n) 0x80 :: put_varint fuel (Z.shiftr n 7) else [u8 n]
  end.

Definition encodeProtobuf (payload : bytes) : bytes :=
  if len payload =? 0 then []
  else [0x0a] ++ put_varint 10 (u64 (len payload)) ++ payload.

(** The loop of [decodeProtobuf]: the value and the octets after it. *)
Fixpoint get_varint (p : bytes) (n shift : Z) : res (Z * bytes) :=
  match p with
  | [] => Err (EMsg "invalid protobuf length")
  | b :: p =>
      if 63 <? shift then Err (EMsg "invalid protobuf length") else
      let n := Z.lor n (u64 (Z.shiftl (Z.land b 0x7f) shift)) in
      if b <? 0x80 then Ok (n, p) else get_varint p n (shift + 7)
  end.

Definition decodeProtobuf (p : bytes) : res bytes :=
  match p with
  | [] => Ok []
  | tag :: p =>
      guard tag =? 0x0a else EMsg "unexpected protobuf field" in
      let? (n, rest) := get_varint p 0 0 in
      guard int_of n =? len rest else EMsg "protobuf payload length mismatch" in
      Ok rest
  end.

(** ** The envelope *)

Section frames.
(** [gzip.NewWriter], [Write] and [Close]; [gzip.NewReader] and [io.ReadAll]. *)
Variable gzip : bytes -> res bytes.
Variable gunzip : bytes -> res bytes.

Definition encodeFrame (protobuf : bytes) (compression : string) : res bytes :=
  let? (flag, message) :=
    (if String.eqb compression "gzip"
     then let? z := gzip protobuf in Ok (1, z)
     else Ok (0, protobuf)) in
  Ok (flag :: be_encode 4 (u32 (len message)) ++ message).

(** The serialized message and the payload; the executor and the server word the flag
    errors differently. *)
Definition decodeFrame_with (gzipMismatch identityMismatch : string)
    (frame : bytes) (compression : string) : res (bytes * bytes) :=
  guard (5 <=? len frame) && (be_decode (slice 1 5 frame) =? len frame - 5)
    else EMsg "invalid gRPC envelope" in
  let message := drop 5 frame in
  let? message :=
    (if String.eqb compression "gzip" then
       guard byte_at frame 0 =? 1 else EMsg gzipMismatch in gunzip message
     else
       guard byte_at frame 0 =? 0 else EMsg identityMismatch in Ok message) in
  let? payload := decodeProtobuf message in
  Ok (message, payload).

Definition decodeFrame : bytes -> string -> res (bytes * bytes) :=
  decodeFrame_with "gzip compressed flag mismatch" "identity compressed flag mismatch".

End frames.

(** The server's limits, and its blocking reader of one uncompressed frame: the frame, the
    message, the payload. *)
Definition maxFrameBytes : Z := 1048585.

Definition readIdentityFrame (s : stream) : res (bytes * bytes * bytes) * stream :=
  match read_full 5 s with
  | (Err e, s) => (Err e, s)
  | (Ok header, s) =>
      if negb (byte_at header 0 =? 0)
      then (Err (EMsg "streaming compression flag mismatch"), s) else
      let length := be_decode (drop 1 header) in
      if (length <? 0) || (maxFrameBytes - 5 <? length)
      then (Err (EMsg "streaming frame length out of range"), s) else
      match read_full (Z.to_nat length) s with
      | (Err e, s) => (Err e, s)
      | (Ok protobuf, s) =>
          match decodeProtobuf protobuf with
          | Err e => (Err e, s)
          | Ok payload => (Ok (header ++ protobuf, protobuf, payload), s)
          end
      end
  end.

(** ** Facts *)

Lemma lor_disjoint a b s : 0 <= s -> 0 <= a < 2 ^ s -> 0 <= b -> Z.lor a (Z.shiftl b s) = a + b * 2 ^ s.
Proof.
  intros Hs Ha Hb. rewrite Z.shiftl_mul_pow2 by done.
  assert (H0 : Z.land a (b * 2 ^ s) = 0).
  { apply Z.bits_inj_0. intros n. rewrite Z.land_spec. destruct (decide (n < s)) as [Hn|Hn].
    - destruct (decide (n < 0)); [by rewrite !Z.testbit_neg_r by lia|].
      rewrite Z.mul_pow2_bits_low by lia. apply andb_false_r.
    - replace (Z.testbit a n) with false; [done|]. symmetry.
      destruct (decide (a = 0)) as [->|]; [apply Z.bits_0|].
      apply Z.bits_above_log2; [lia|]. apply Z.log2_lt_pow2; [lia|].
      eapply Z.lt_le_trans; [apply Ha|]. apply Z.pow_le_mono_r; lia. }
  rewrite <-Z.lxor_lor by done. symmetry. apply Z.add_nocarry_lxor. done.
Qed.

Lemma land7 b : Z.land b 0x7f = b mod 128.
Proof. change 0x7f with (Z.ones 7). by rewrite Z.land_ones by lia. Qed.

Lemma lor_0x80 n : 0x80 <= n -> Z.lor (u8 n) 0x80 mod 128 = n mod 128 /\ 0x80 <= Z.lor (u8 n) 0x80 < 256.
Proof.
  intros Hn. pose proof (u8_byte n) as Hb.
  assert (H : forall b, is_byte b -> (Z.lor b 0x80 mod 128 =? b mod 128) && (0x80 <=? Z.lor b 0x80) && (Z.lor b 0x80 <? 256) = true).
  { apply (byte_forall (fun b => (Z.lor b 0x80 mod 128 =? b mod 128) && (0x80 <=? Z.lor b 0x80) && (Z.lor b 0x80 <? 256))).
    vm_compute. reflexivity. }
  specialize (H _ Hb). reflect_bools. split; [|lia]. rewrite H. unfold u8.
  rewrite <-(Znumtheory.Zmod_div_mod 128 256) by (lia || by exists 2). done.
Qed.

Lemma get_put_varint fuel : forall n acc s rest,
  0 <= n < 128 ^ Z.of_nat fuel -> 0 <= s -> 0 <= acc < 2 ^ s -> n * 2 ^ s < 2 ^ 63 ->
  (s = 0 \/ 0 < n) -> (0 < fuel)%nat ->
  get_varint (put_varint fuel n ++ rest) acc s = Ok (acc + n * 2 ^ s, rest).
Proof.
  induction fuel as [|fuel IH]; intros n acc s rest Hn Hs Ha Hb H0 Hf; [lia|].
  assert (Hs63 : s <= 63).
  { destruct H0 as [->|H0]; [lia|]. apply Z.nlt_ge. intros Hlt.
    pose proof (Z.pow_lt_mono_r 2 63 s). nia. }
  assert (Hp : 0 < 2 ^ s) by (apply Z.pow_pos_nonneg; lia).
  cbn [put_varint]. destruct (Z.leb_spec 0x80 n) as [Hge|Hlt]; cbn [app get_varint].
  - destruct (lor_0x80 n Hge) as [Hm Hr].
    rewrite (proj2 (Z.ltb_ge 63 s)), (proj2 (Z.ltb_ge (Z.lor _ _) 0x80)) by lia.
    rewrite land7, Hm. assert (Hmod : 0 <= n mod 128 < 128) by (apply Z.mod_pos_bound; lia).
    pose proof (Z.div_mod n 128 ltac:(lia)) as Hdm.
    assert (Hshift : u64 (Z.shiftl (n mod 128) s) = Z.shiftl (n mod 128) s).
    { unfold u64. apply Z.mod_small. rewrite Z.shiftl_mul_pow2 by done. nia. }
    rewrite Hshift, lor_disjoint by lia. rewrite Z.shiftr_div_pow2 by lia. change (2 ^ 7) with 128.
    destruct fuel as [|fuel]; [simpl in Hn; lia|].
    rewrite Nat2Z.inj_succ, Z.pow_succ_r in Hn by lia.
    assert (Hpow : 2 ^ (s + 7) = 2 ^ s * 128) by (rewrite Z.pow_add_r by lia; done).
    rewrite IH; [do 2 f_equal; rewrite Hpow; nia|split; [lia_mod|]|lia|rewrite Hpow; nia|rewrite Hpow; nia|right; lia_mod|lia].
    apply Z.div_lt_upper_bound; lia.
  - rewrite (proj2 (Z.ltb_ge 63 s)) by lia.
    rewrite u8_small by (unfold is_byte; lia). rewrite (proj2 (Z.ltb_lt n 0x80)) by lia.
    rewrite land7, Z.mod_small by lia.
    assert (Hshift : u64 (Z.shiftl n s) = Z.shiftl n s).
    { unfold u64. apply Z.mod_small. rewrite Z.shiftl_mul_pow2 by done. nia. }
    rewrite Hshift, lor_disjoint by lia. done.
Qed.

Lemma protobuf_roundtrip_lemma p : len p < 2 ^ 63 -> decodeProtobuf (encodeProtobuf p) = Ok p.
Proof.
  intros Hp. pose proof (len_nonneg p). unfold encodeProtobuf.
  destruct (Z.eqb_spec (len p) 0) as [E|E].
  - destruct p; [done|]. unfold len in E; simpl in E; lia.
  - cbn [app decodeProtobuf]. change (10 =? 0x0a) with true. cbv iota.
    unfold u64. rewrite Z.mod_small by lia.
    rewrite (get_put_varint 10 (len p) 0 0 p); [|split; [lia|]|lia|lia|lia|by left|lia].
    + cbn [res_bind]. rewrite Z.mul_1_r, Z.add_0_l. unfold int_of. rewrite Z.mod_small by lia.
      by rewrite Z.add_simpl_r, Z.eqb_refl.
    + change (128 ^ Z.of_nat 10) with 1180591620717411303424. lia.
Qed.

Lemma put_varint_bytes fuel n : all_bytes (put_varint fuel n).
Proof.
  revert n. induction fuel as [|fuel IH]; intros n; simpl; [constructor|].
  destruct (Z.leb_spec 128 n); [|repeat constructor; apply u8_byte].
  constructor; [|apply IH]. destruct (lor_0x80 n ltac:(lia)) as [_ ?]. unfold is_byte. lia.
Qed.

Lemma encodeProtobuf_bytes p : all_bytes p -> all_bytes (encodeProtobuf p).
Proof.
  intros. unfold encodeProtobuf. destruct (_ =? _); [constructor|].
  constructor; [unfold is_byte; lia|]. apply all_bytes_app. auto using put_varint_bytes.
Qed.

(** The layout of an uncompressed frame. *)
Definition identity_frame (protobuf : bytes) : bytes := 0 :: be_encode 4 (u32 (len protobuf)) ++ protobuf.

Lemma encodeFrame_identity gz protobuf :
  encodeFrame gz protobuf "identity" = Ok (identity_frame protobuf).
Proof. done. Qed.

Lemma be_decode_length n : 0 <= n < 4294967296 -> be_decode (be_encode 4 (u32 n)) = n.
Proof.
  intros. rewrite be_decode_encode. unfold u32.
  change (256 ^ Z.of_nat 4) with 4294967296. rewrite Z.mod_mod by lia. by apply Z.mod_small.
Qed.

Lemma len_envelope flag x m : len (flag :: be_encode 4 x ++ m) = 5 + len m.
Proof.
  change (flag :: be_encode 4 x ++ m) with ([flag] ++ be_encode 4 x ++ m).
  rewrite !len_app. unfold len at 1 2. rewrite length_be_encode. simpl. lia.
Qed.

Lemma decodeFrame_layout gu e1 e2 flag message compression :
  len message < 4294967296 ->
  decodeFrame_with gu e1 e2 (flag :: be_encode 4 (u32 (len message)) ++ message) compression
  = let? message :=
      (if String.eqb compression "gzip" then
         guard flag =? 1 else EMsg e1 in gu message
       else guard flag =? 0 else EMsg e2 in Ok message) in
    let? payload := decodeProtobuf message in Ok (message, payload).
Proof.
  intros Hm. pose proof (len_nonneg message).
  pose proof (length_be_encode 4 (u32 (len message))) as Hl.
  pose proof (be_decode_length (len message) ltac:(lia)) as Hd.
  destruct (be_encode 4 (u32 (len message))) as [|b1 [|b2 [|b3 [|b4 [|]]]]]; try done.
  unfold decodeFrame_with. cbn [app].
  replace (len (flag :: b1 :: b2 :: b3 :: b4 :: message)) with (5 + len message)
    by (unfold len; simpl length; lia).
  change (slice 1 5 _) with [b1; b2; b3; b4]. change (drop 5 _) with message.
  change (byte_at (flag :: _) 0) with flag. rewrite Hd.
  rewrite (proj2 (Z.leb_le 5 _)) by lia. replace (5 + len message - 5) with (len message) by lia.
  by rewrite Z.eqb_refl.
Qed.

(** A frame in wire form. *)
Definition envelope (flag : Z) (m : bytes) : bytes := flag :: be_encode 4 (u32 (len m)) ++ m.

(** What is encoded is decoded, whatever the wording of the flag errors. *)
Lemma frame_decodes gzip gunzip payload compression frame e1 e2 :
  (forall m z, gzip m = Ok z -> gunzip z = Ok m) ->
  len payload < 2 ^ 63 ->
  encodeFrame gzip (encodeProtobuf payload) compression = Ok frame ->
  len frame < 4294967296 ->
  (exists flag m, frame = envelope flag m /\ len frame = 5 + len m) /\
  decodeFrame_with gunzip e1 e2 frame compression = Ok (encodeProtobuf payload, payload) /\
  (compression = "identity" -> frame = identity_frame (encodeProtobuf payload)).
Proof.
  intros Hz Hp Hf Hlen. unfold encodeFrame in Hf.
  destruct (String.eqb_spec compression "gzip") as [->|Hc].
  - destruct (gzip _) as [z|] eqn:E; [|done]. cbn [res_bind] in Hf.
    assert (frame = envelope 1 z) as -> by (injection Hf as <-; done).
    unfold envelope in *. rewrite len_envelope in *. split_and!; [eauto| |done].
    rewrite decodeFrame_layout by lia. cbn. rewrite (Hz _ _ E). cbn. by rewrite protobuf_roundtrip_lemma.
  - cbn [res_bind] in Hf.
    assert (frame = envelope 0 (encodeProtobuf payload)) as -> by (injection Hf as <-; done).
    unfold envelope in *. rewrite len_envelope in *. split_and!; [eauto| |done].
    rewrite decodeFrame_layout by lia. apply String.eqb_neq in Hc as ->.
    cbn. by rewrite protobuf_roundtrip_lemma.
Qed.

(** A frame the uncompressed reader accepts, at the front of a stream. *)
Lemma readIdentityFrame_layout protobuf payload rest e :
  len protobuf <= maxFrameBytes - 5 -> decodeProtobuf protobuf = Ok payload ->
  readIdentityFrame (Stream (identity_frame protobuf ++ rest) e)
  = (Ok (identity_frame protobuf, protobuf, payload), Stream rest e).
Proof.
  unfold maxFrameBytes. intros Hm Hp. pose proof (len_nonneg protobuf).
  pose proof (length_be_encode 4 (u32 (len protobuf))) as Hl.
  pose proof (be_decode_length (len protobuf) ltac:(lia)) as Hd.
  unfold readIdentityFrame, identity_frame.
  destruct (be_encode 4 (u32 (len protobuf))) as [|b1 [|b2 [|b3 [|b4 [|]]]]]; try done. cbn [app].
  change (0 :: b1 :: b2 :: b3 :: b4 :: protobuf ++ rest) with ([0; b1; b2; b3; b4] ++ protobuf ++ rest).
  rewrite read_full_app' by done. change (negb (byte_at [0; b1; b2; b3; b4] 0 =? 0)) with false. cbv iota.
  change (drop 1 [0; b1; b2; b3; b4]) with [b1; b2; b3; b4]. cbv zeta. rewrite Hd.
  unfold maxFrameBytes. rewrite (proj2 (Z.ltb_ge _ 0)), (proj2 (Z.ltb_ge (1048585 - 5) _)) by lia. cbn [orb].
  rewrite (read_full_app' _ protobuf) by (unfold len; lia). by rewrite Hp.
Qed.

(** ** Properties *)

(** C36: a message survives the wire: what either side encodes, with or without gzip, the
    other decodes to the same serialized message and payload, for every payload a Go slice
    can hold whose frame length fits 32 bits. *)
Theorem grpc_frame_roundtrip gzip gunzip payload compression :
  (forall m z, gzip m = Ok z -> gunzip z = Ok m) ->
  len payload < 2 ^ 63 ->
  forall frame, encodeFrame gzip (encodeProtobuf payload) compression = Ok frame ->
  len frame < 4294967296 ->
  decodeFrame gunzip frame compression = Ok (encodeProtobuf payload, payload).
Proof.
  intros Hz Hp frame Hf Hlen. by destruct (frame_decodes gzip gunzip payload compression frame
    "gzip compressed flag mismatch" "identity compressed flag mismatch" Hz Hp Hf Hlen) as (_ & ? & _).
Qed.

(** A stand-in for compress/gzip that frames its input, so that both directions differ from
    the identity. *)
Definition store (m : bytes) : res bytes := Ok (31 :: 139 :: m).
Definition unstore (z : bytes) : res bytes :=
  match z with 31 :: 139 :: m => Ok m | _ => Err (EMsg "gzip: invalid header") end.

Lemma grpc_frame_roundtrip_witness :
  encodeFrame store (encodeProtobuf (replicate 300 66)) "gzip"
    = Ok (1 :: 0 :: 0 :: 1 :: 49 :: 31 :: 139 :: 10 :: 172 :: 2 :: replicate 300 66) /\
  decodeFrame unstore (1 :: 0 :: 0 :: 1 :: 49 :: 31 :: 139 :: 10 :: 172 :: 2 :: replicate 300 66) "gzip"
    = Ok (encodeProtobuf (replicate 300 66), replicate 300 66).
Proof.
  split; [vm_compute; reflexivity|].
  apply (grpc_frame_roundtrip store unstore (replicate 300 66) "gzip").
  - intros m z H. injection H as <-. reflexivity.
  - vm_compute. reflexivity.
  - vm_compute. reflexivity.
  - vm_compute. reflexivity.
Defined.

(** The envelope is exact: an uncompressed frame that decodes is the envelope of the
    message it yields, no octet missing and none left over, and the payload ends it. *)
Theorem grpc_frame_exact gunzip frame message payload :
  all_bytes frame ->
  decodeFrame gunzip frame "identity" = Ok (message, payload) ->
  frame = identity_frame message /\ len frame = 5 + len message /\ payload `suffix_of` message.
Proof.
  intros Hb H. unfold decodeFrame, decodeFrame_with in H.
  destruct (Z.leb_spec 5 (len frame)) as [H5|]; [|done]. cbn [andb] in H.
  destruct (Z.eqb_spec (be_decode (slice 1 5 frame)) (len frame - 5)) as [Hl|]; [|done].
  change (String.eqb "identity" "gzip") with false in H. cbv iota in H.
  destruct (Z.eqb_spec (byte_at frame 0) 0) as [H0|]; [|done]. cbn [res_bind] in H.
  destruct (decodeProtobuf (drop 5 frame)) as [q|] eqn:Ep; [|done]. simplify_eq/=.
  destruct frame as [|b0 [|b1 [|b2 [|b3 [|b4 m]]]]]; unfold len in H5; simpl length in H5; try lia.
  change (byte_at (b0 :: _) 0) with b0 in H0. subst b0.
  change (drop 5 _) with m in *. change (slice 1 5 _) with [b1; b2; b3; b4] in Hl.
  replace (len (0 :: b1 :: b2 :: b3 :: b4 :: m)) with (5 + len m) in * by (unfold len; simpl length; lia).
  assert (Hq : all_bytes [b1; b2; b3; b4]).
  { inversion_clear Hb as [|?? ? Hb1]. change (b1 :: b2 :: b3 :: b4 :: m) with ([b1; b2; b3; b4] ++ m) in Hb1.
    by apply all_bytes_app in Hb1 as [? _]. }
  pose proof (be_decode_bound _ Hq) as Hbd. pose proof (be_encode_decode _ Hq) as Hed.
  change (256 ^ len [b1; b2; b3; b4]) with 4294967296 in Hbd. change (length [b1; b2; b3; b4]) with 4%nat in Hed.
  split_and!; [|lia|].
  - unfold identity_frame, u32. replace (len m) with (be_decode [b1; b2; b3; b4]) by lia.
    rewrite Z.mod_small by lia. by rewrite Hed.
  - clear -Ep. destruct m as [|tag m]; [cbn in Ep; simplify_eq; reflexivity|]. cbn [decodeProtobuf] in Ep.
    destruct (tag =? 10); [|done].
    assert (Hg : forall l n s k r, get_varint l n s = Ok (k, r) -> r `suffix_of` l).
    { induction l as [|b l IH]; intros n s k r H; [done|]. cbn [get_varint] in H.
      destruct (63 <? s); [done|]. destruct (b <? 128); [simplify_eq; apply suffix_cons_r; reflexivity|].
      apply suffix_cons_r. eauto. }
    destruct (get_varint m 0 0) as [[n r]|] eqn:E; [|done]. cbn [res_bind] in Ep.
    destruct (_ =? _); simplify_eq. apply suffix_cons_r. eauto.
Qed.

Lemma grpc_frame_exact_witness :
  [0; 0; 0; 0; 4; 10; 2; 7; 8] = identity_frame [10; 2; 7; 8] /\ len [0; 0; 0; 0; 4; 10; 2; 7; 8] = 5 + len [10; 2; 7; 8]
  /\ [7; 8] `suffix_of` [10; 2; 7; 8].
Proof.
  apply (grpc_frame_exact unstore [0; 0; 0; 0; 4; 10; 2; 7; 8] [10; 2; 7; 8] [7; 8]).
  - repeat constructor; compute; discriminate.
  - vm_compute. reflexivity.
Defined.
