(* ===== verification/GoHttp.v ===== *)
(** What the packages use of net/http: headers, requests, the response writer of a
    handler, and the response a client gets. *)
From S2P Require Export Prelude GoText.
From Stdlib Require Import Ascii.

(** ** Headers: names are canonicalised, so they are kept in lower case. *)

Abbreviation httpHeader := (list (string * string)).

(** [h.Get(name)], [h.Values(name)], [h.Set(name, value)]. *)
Fixpoint header_get (h : httpHeader) (name : string) : string :=
  match h with
  | [] => ""
  | (k, v) :: h => if String.eqb k name then v else header_get h name
  end.
Definition header_values (h : httpHeader) (name : string) : list string :=
  snd <$> List.filter (fun '(k, _) => String.eqb k name) h.
Definition header_set (h : httpHeader) (name value : string) : httpHeader :=
  List.filter (fun '(k, _) => negb (String.eqb k name)) h ++ [(name, value)].

(** ** Requests *)

Record request := Request {
  ProtoMajor : Z;
  TLS : option (Z * string);             (* version, negotiated protocol *)
  Method : string;
  Path : string;
  RHeader : httpHeader;
  RBody : stream
}.

(** [io.ReadAll(reader)]; [io.LimitReader(reader, n)] first for the bounded one. *)
Definition read_all (s : stream) : bytes * option goerror :=
  (st_data s, match st_end s with EEOF => None | e => Some e end).
Definition read_all_limited (n : Z) (s : stream) : res bytes :=
  if n <=? len (st_data s) then Ok (take (Z.to_nat n) (st_data s))
  else match st_end s with EEOF => Ok (st_data s) | e => Err e end.

(** [reader.Read(extra[:])] with one octet of room. *)
Definition read_one (s : stream) : Z * option goerror :=
  match st_data s with _ :: _ => (1, None) | [] => (0, Some (st_end s)) end.

(** ** The response writer *)

Record writer := Writer {
  w_header : httpHeader;
  w_status : option (Z * httpHeader);    (* once written: the code and the headers sent *)
  w_body : bytes;
  w_faults : list (option goerror)       (* what the next body writes return *)
}.
Definition writer_new (faults : list (option goerror)) : writer := Writer [] None [] faults.

Definition set_header (name value : string) (w : writer) : writer :=
  Writer (header_set (w_header w) name value) (w_status w) (w_body w) (w_faults w).

(** [w.WriteHeader(code)]: only the first call counts. *)
Definition write_header (code : Z) (w : writer) : writer :=
  match w_status w with
  | Some _ => w
  | None => Writer (w_header w) (Some (code, w_header w)) (w_body w) (w_faults w)
  end.

(** [w.Write(p)]: an implicit [WriteHeader(200)] first. *)
Definition write_body (p : bytes) (w : writer) : option goerror * writer :=
  let w := write_header 200 w in
  match w_faults w with
  | Some e :: f => (Some e, Writer (w_header w) (w_status w) (w_body w) f)
  | None :: f => (None, Writer (w_header w) (w_status w) (w_body w ++ p) f)
  | [] => (None, Writer (w_header w) (w_status w) (w_body w ++ p) [])
  end.

(** [http.Error(w, message, code)] and [http.NotFound]. *)
Definition http_error (message : string) (code : Z) (w : writer) : writer :=
  let w := set_header "content-type" "text/plain; charset=utf-8" w in
  let w := set_header "x-content-type-options" "nosniff" w in
  let w := write_header code w in
  (write_body (bytes_of_string message ++ [10]) w).2.
Definition not_found : writer -> writer := http_error "404 page not found" 404.

(** ** The response a client gets over HTTP/2 *)

Record response := Response {
  StatusCode : Z;
  PProtoMajor : Z; PProtoMinor : Z;
  HHeader : httpHeader;
  Trailer : option httpHeader;           (* [None] is the nil map; filled at end of body *)
  Body : stream
}.

Definition trailer_get (r : response) (name : string) : string :=
  match Trailer r with Some t => header_get t name | None => "" end.

(** The trailer names the response headers declare. *)
Definition declared (h : httpHeader) : list string :=
  (fun n => to_lower (trim_space n)) <$> concat (split_on ","%char <$> header_values h "trailer").

(** What the handler's writer becomes once it has returned: the headers as they were at
    [WriteHeader], the body, and the declared trailers as they are at the end. *)
Definition response_of (w : writer) : response :=
  let w := write_header 200 w in
  let '(code, sent) := default (200, []) (w_status w) in
  let names := declared sent in
  Response code 2 0 (List.filter (fun '(k, _) => negb (String.eqb k "trailer")) sent)
    (match names with
     | [] => None
     | _ => Some (List.filter (fun '(k, _) => string_in names k) (w_header w))
     end)
    (Stream (w_body w) EEOF).

(** ** Facts *)

Lemma header_get_app h k n : header_get (h ++ k) n
  = if existsb (fun '(x, _) => String.eqb x n) h then header_get h n else header_get k n.
Proof.
  induction h as [|[x v] h IH]; simpl; [done|]. destruct (String.eqb x n); simpl; done.
Qed.

Lemma header_get_set h n v : header_get (header_set h n v) n = v.
Proof.
  unfold header_set. rewrite header_get_app.
  assert (existsb (fun '(x, _) => String.eqb x n) (List.filter (fun '(x, _) => negb (String.eqb x n)) h) = false) as ->.
  { induction h as [|[x w] h IH]; simpl; [done|]. destruct (String.eqb x n) eqn:E; simpl; [done|].
    by rewrite E. }
  simpl. by rewrite String.eqb_refl.
Qed.

Lemma header_get_set_ne h n m v : String.eqb n m = false -> header_get (header_set h n v) m = header_get h m.
Proof.
  intros Hne. unfold header_set. induction h as [|[k x] h IH]; cbn [List.filter app header_get].
  - by rewrite Hne.
  - destruct (String.eqb k n) eqn:Ek; cbn [negb app header_get].
    + apply String.eqb_eq in Ek as ->. by rewrite Hne.
    + by destruct (String.eqb k m).
Qed.
