(* ===== verification/GrpcServer.v ===== *)
(** The go-grpc-h2 server: request validation, the unary, streaming and terminal handlers
    of the echo service. *)
From S2P Require Export Prelude GoText GoHash GoHttp GrpcCodec.
From Stdlib Require Import Ascii.

Definition VersionTLS13 : Z := 0x0304.
Definition streamMessageCount : Z := 100.

Definition servicePath : string := "/protocollab.performance.v1.EchoService/".
Definition methods : list string :=
  ["UnaryEcho"; "UnaryGzip"; "UnaryFixedMetadata"; "ServerStreamingEcho"; "ClientStreamingEcho";
   "BidirectionalStreamingEcho"; "TrailersOnlyStatus"; "DeadlineExceeded"; "ClientCancellation"].

Definition headerContainsToken (h : httpHeader) (name token : string) : bool :=
  existsb (fun value => existsb (fun item => equal_fold (trim_space item) token) (split_on ","%char value))
    (header_values h name).

(** [base64.RawStdEncoding.DecodeString(strings.TrimRight(value, "="))]. *)
Definition matchesBinaryMetadata (value : string) : bool :=
  match base64_raw_decode (trim_right_char "="%char value) with
  | Some decoded => bool_decide (decoded = [0; 1; 2; 3])
  | None => false
  end.

(** A payload of [n] octets [b], with its serialized length. *)
Definition fixed_payload (n b serialized : Z) (payload protobuf : bytes) : bool :=
  (len payload =? n) && bool_decide (payload = replicate (Z.to_nat n) b) && (len protobuf =? serialized).

Definition validStreamingPayload (payload protobuf : bytes) : bool := fixed_payload 1024 66 1027 payload protobuf.

Definition validScenarioPayload (method : string) (payload protobuf : bytes) : bool :=
  if String.eqb method "UnaryGzip" then fixed_payload 1024 66 1027 payload protobuf
  else if string_in ["UnaryFixedMetadata"; "TrailersOnlyStatus"; "DeadlineExceeded"; "ClientCancellation"] method
  then fixed_payload 128 71 131 payload protobuf
  else if String.eqb method "UnaryEcho" then
    ((len payload =? 0) && (len protobuf =? 0))
    || fixed_payload 128 71 131 payload protobuf
    || fixed_payload 1048576 76 1048580 payload protobuf
  else false.

Definition writeGRPCError (status message : string) (w : writer) : writer :=
  let w := set_header "content-type" "application/grpc+proto" w in
  let w := set_header "trailer" "grpc-status, grpc-message" w in
  let w := write_header 200 w in
  let w := set_header "grpc-status" status w in
  set_header "grpc-message" message w.

Section server.
Variable gzip gunzip : bytes -> res bytes.

Definition decodeFrame : bytes -> string -> res (bytes * bytes) :=
  decodeFrame_with gunzip "gzip flag mismatch" "identity flag mismatch".

(** [http.ResponseWriter] after the handler; it blocks on the request's context at the end,
    which the executor cancels. *)
Definition handleClientCancellation (r : request) (w : writer) : writer :=
  match read_all_limited (maxFrameBytes + 1) (RBody r) with
  | Err _ => writeGRPCError "13" "request read failed" w
  | Ok body =>
      match decodeFrame body "identity" with
      | Ok (protobuf, payload) =>
          if validScenarioPayload "ClientCancellation" payload protobuf then
            let w := set_header "content-type" "application/grpc+proto" w in
            let w := set_header "grpc-encoding" "identity" w in
            let w := set_header "x-plab-ready" "1" w in
            write_header 200 w
          else writeGRPCError "3" "invalid deterministic cancellation request" w
      | Err _ => writeGRPCError "3" "invalid deterministic cancellation request" w
      end
  end.

(** The frames of a request that must number [n]. *)
Fixpoint readRequests (n : nat) (s : stream) : option (list bytes * stream) :=
  match n with
  | O => Some ([], s)
  | S n =>
      match readIdentityFrame s with
      | (Ok (frame, protobuf, payload), s) =>
          if validStreamingPayload payload protobuf then
            match readRequests n s with
            | Some (frames, s) => Some (frame :: frames, s)
            | None => None
            end
          else None
      | (Err _, _) => None
      end
  end.

(** [n, err := Body.Read(extra[:]); n != 0 || (err != nil && !errors.Is(err, io.EOF))]. *)
Definition more_follows (s : stream) : bool :=
  let '(n, err) := read_one s in
  negb (n =? 0) || match err with Some e => negb (errors_is EEOF e) | None => false end.

(** [writeFrame] for each frame, stopping at the first that fails. *)
Fixpoint writeFrames (frames : list bytes) (w : writer) : bool * writer :=
  match frames with
  | [] => (true, w)
  | f :: frames =>
      match write_body f w with
      | (Some _, w) => (false, w)
      | (None, w) => writeFrames frames w
      end
  end.

(** The loop of [handleBidirectionalStreaming]: whether the handler returned early. *)
Fixpoint bidiLoop (n : nat) (started : bool) (s : stream) (w : writer) : bool * stream * writer :=
  match n with
  | O => (false, s, w)
  | S n =>
      let refuse s :=
        let w := if started then w else write_header 200 w in
        let w := set_header "grpc-status" "3" w in
        (true, s, set_header "grpc-message" "invalid deterministic bidirectional request" w) in
      match readIdentityFrame s with
      | (Err _, s) => refuse s
      | (Ok (frame, protobuf, payload), s) =>
          if validStreamingPayload payload protobuf then
            let w := if started then w else write_header 200 w in
            match write_body frame w with
            | (Some _, w) => (true, s, w)
            | (None, w) => bidiLoop n true s w
            end
          else refuse s
      end
  end.

Definition handleBidirectionalStreaming (r : request) (w : writer) : writer :=
  let w := set_header "content-type" "application/grpc+proto" w in
  let w := set_header "grpc-encoding" "identity" w in
  let w := set_header "trailer" "grpc-status, grpc-message" w in
  match bidiLoop (Z.to_nat streamMessageCount) false (RBody r) w with
  | (true, _, w) => w
  | (false, s, w) =>
      if more_follows s then
        let w := set_header "grpc-status" "3" w in
        set_header "grpc-message" "bidirectional request count or half-close mismatch" w
      else
        let w := set_header "grpc-status" "0" w in
        set_header "grpc-message" "" w
  end.

Definition handleStreaming (r : request) (method : string) (w : writer) : writer :=
  if String.eqb method "BidirectionalStreamingEcho" then handleBidirectionalStreaming r w else
  let expectedRequests := if String.eqb method "ClientStreamingEcho" then streamMessageCount else 1 in
  match readRequests (Z.to_nat expectedRequests) (RBody r) with
  | None => writeGRPCError "3" "invalid deterministic streaming request" w
  | Some (requestFrames, s) =>
  if more_follows s then writeGRPCError "3" "stream request count or half-close mismatch" w else
  let w := set_header "content-type" "application/grpc+proto" w in
  let w := set_header "grpc-encoding" "identity" w in
  let w := set_header "trailer" "grpc-status, grpc-message" w in
  let w := write_header 200 w in
  let responses :=
    if String.eqb method "ServerStreamingEcho"
    then replicate (Z.to_nat streamMessageCount) (nth 0 requestFrames [])
    else if String.eqb method "ClientStreamingEcho" then [List.last requestFrames []] else [] in
  match writeFrames responses w with
  | (false, w) => w
  | (true, w) =>
      let w := set_header "grpc-status" "0" w in
      set_header "grpc-message" "" w
  end
  end.

Definition handleRPC (r : request) (w : writer) : writer :=
  if negb (ProtoMajor r =? 2)
     || match TLS r with
        | None => true
        | Some (version, negotiated) => negb (version =? VersionTLS13) || negb (String.eqb negotiated "h2")
        end
  then http_error "exact TLS 1.3 with HTTP/2 ALPN h2 required" 505 w else
  if negb (String.eqb (Method r) "POST") then not_found w else
  let method := trim_prefix (Path r) servicePath in
  if negb (string_in methods method) then not_found w else
  if negb (has_prefix (to_lower (header_get (RHeader r) "content-type")) "application/grpc+proto")
     || negb (headerContainsToken (RHeader r) "te" "trailers")
  then http_error "invalid gRPC request headers" 415 w else
  let compression := if String.eqb method "UnaryGzip" then "gzip" else "identity" in
  if negb (String.eqb (header_get (RHeader r) "grpc-encoding") compression)
     || negb (String.eqb (header_get (RHeader r) "grpc-accept-encoding") compression)
  then writeGRPCError "12" "compression profile mismatch" w else
  if String.eqb method "UnaryFixedMetadata"
     && (negb (String.eqb (header_get (RHeader r) "x-plab-text") "protocol-lab")
         || negb (matchesBinaryMetadata (header_get (RHeader r) "x-plab-bin-bin")))
  then writeGRPCError "3" "fixed request metadata mismatch" w else
  if String.eqb method "ClientCancellation" then handleClientCancellation r w else
  if string_in ["ServerStreamingEcho"; "ClientStreamingEcho"; "BidirectionalStreamingEcho"] method
  then handleStreaming r method w else
  match read_all_limited (maxFrameBytes + 1) (RBody r) with
  | Err _ => writeGRPCError "13" "request read failed" w
  | Ok body =>
  match decodeFrame body compression with
  | Err _ => writeGRPCError "3" "invalid deterministic request" w
  | Ok (protobuf, payload) =>
  if negb (validScenarioPayload method payload protobuf)
  then writeGRPCError "3" "invalid deterministic request" w else
  if String.eqb method "DeadlineExceeded" then
    if negb (String.eqb (header_get (RHeader r) "grpc-timeout") "50m")
    then writeGRPCError "3" "grpc-timeout must be exactly 50m" w
    else w
  else if String.eqb method "TrailersOnlyStatus" then
    let w := set_header "content-type" "application/grpc+proto" w in
    let w := set_header "grpc-encoding" "identity" w in
    let w := set_header "grpc-status" "3" w in
    let w := set_header "grpc-message" "plab invalid fixture" w in
    write_header 200 w
  else
  match encodeFrame gzip protobuf compression with
  | Err _ => writeGRPCError "13" "response compression failed" w
  | Ok responseFrame =>
  let w := set_header "content-type" "application/grpc+proto" w in
  let w := set_header "grpc-encoding" compression w in
  let fixed := String.eqb method "UnaryFixedMetadata" in
  let w := if fixed then set_header "x-plab-text" "protocol-lab" w else w in
  let w := set_header "trailer"
             (if fixed then "grpc-status, grpc-message, x-plab-bin-bin" else "grpc-status, grpc-message") w in
  let w := write_header 200 w in
  let w := (write_body responseFrame w).2 in
  let w := set_header "grpc-status" "0" w in
  let w := set_header "grpc-message" "" w in
  if fixed then set_header "x-plab-bin-bin" "AAECAw==" w else w
  end end end.

End server.
