(* ===== verification/GrpcClient.v ===== *)
(** The go-grpc-h2-executor client: scenarios, the selection gate, one RPC and its
    verdict, the terminal outcomes, and the exit codes of [main]. *)
From S2P Require Export Prelude GoText GoHash Stats GoHttp GrpcCodec GrpcServer.
From Stdlib Require Import Ascii.

Definition sha256Hex (value : bytes) : string := sha256_hex value.
#[global] Arguments sha256Hex : simpl never.

(** Durations are in nanoseconds. *)
Definition millisecond : Z := 1000000.
Definition second : Z := 1000000000.

Record scenarioSpec := Spec {
  id : string; method : string; path : string; rpcType : string;
  compression : string; metadataProfile : string;
  payload : bytes;
  payloadHash : string; protobufHash : string; frameHash : string;
  protobufBytes : Z; frameBytes : Z;
  requestCount : Z; responseCount : Z;
  deadline : Z;
  terminalMode : string; expectedStatus : string; expectedMessage : string; lifecycle : string
}.

Definition fixedMetadata : string := "fixed-ascii-and-binary-metadata-v1".
Definition newChannel : string := "new-channel-per-operation".

(** What [encodeFrame] gives with its error dropped. *)
Definition frame_or_nil (r : res bytes) : bytes := match r with Ok f => f | Err _ => [] end.

Section client.
Variable gzip gunzip : bytes -> res bytes.

Definition makeSpec (id method rpcType compression profile : string) (payload : bytes)
    (requests responses deadline : Z) (status lifecycle : string) : scenarioSpec :=
  let protobuf := encodeProtobuf payload in
  let frame := frame_or_nil (encodeFrame gzip protobuf compression) in
  Spec id method (servicePath +:+ method) rpcType compression profile payload
    (sha256Hex payload) (sha256Hex protobuf) (sha256Hex frame) (len protobuf) (len frame)
    requests responses deadline "" status "" lifecycle.

Definition makeIdentitySpec (id method : string) (payload : bytes) (deadline : Z) : scenarioSpec :=
  makeSpec id method "unary" "identity" "fixed-empty-user-metadata" payload 1 1 deadline
    "0" "pre-established-channel".

Definition makeStreamingSpec (id method rpcType : string) (requests responses : Z) : scenarioSpec :=
  makeSpec id method rpcType "identity" "fixed-empty-user-metadata" (replicate 1024 66)
    requests responses (15 * second) "0" "pre-established-channel".

Definition with_profile (profile : string) (s : scenarioSpec) : scenarioSpec :=
  let '(Spec i m p r c _ pl ph pbh fh pb fb rq rs d t es em l) := s in
  Spec i m p r c profile pl ph pbh fh pb fb rq rs d t es em l.
Definition with_terminal (rpc mode status message : string) (s : scenarioSpec) : scenarioSpec :=
  let '(Spec i m p _ c mp pl ph pbh fh pb fb rq _ d _ _ _ l) := s in
  Spec i m p rpc c mp pl ph pbh fh pb fb rq 0 d mode status message l.
Definition with_lifecycle (lifecycle : string) (s : scenarioSpec) : scenarioSpec :=
  let '(Spec i m p r c mp pl ph pbh fh pb fb rq rs d t es em _) := s in
  Spec i m p r c mp pl ph pbh fh pb fb rq rs d t es em lifecycle.

Definition specFor (id : string) : option scenarioSpec :=
  if String.eqb id "grpc.h2.unary.echo" then
    Some (makeIdentitySpec id "UnaryEcho" (replicate 128 71) (5 * second))
  else if String.eqb id "grpc.h2.unary.empty" then
    Some (makeIdentitySpec id "UnaryEcho" [] (5 * second))
  else if String.eqb id "grpc.h2.unary.fixed-metadata" then
    Some (with_profile fixedMetadata (makeIdentitySpec id "UnaryFixedMetadata" (replicate 128 71) (5 * second)))
  else if String.eqb id "grpc.h2.unary.gzip" then
    Some (makeSpec id "UnaryGzip" "unary" "gzip" "fixed-empty-user-metadata" (replicate 1024 66) 1 1
            (5 * second) "" "")
  else if String.eqb id "grpc.h2.unary.large" then
    Some (makeIdentitySpec id "UnaryEcho" (replicate (Z.to_nat (Z.shiftl 1 20)) 76) (10 * second))
  else if String.eqb id "grpc.h2.server-streaming.echo" then
    Some (makeStreamingSpec id "ServerStreamingEcho" "server-streaming" 1 100)
  else if String.eqb id "grpc.h2.client-streaming.echo" then
    Some (makeStreamingSpec id "ClientStreamingEcho" "client-streaming" 100 1)
  else if String.eqb id "grpc.h2.bidi-streaming.echo" then
    Some (makeStreamingSpec id "BidirectionalStreamingEcho" "bidirectional-streaming" 100 100)
  else if String.eqb id "grpc.h2.trailers-only-status" then
    Some (with_terminal "unary" "trailers-only" "3" "plab invalid fixture"
            (makeIdentitySpec id "TrailersOnlyStatus" (replicate 128 71) (5 * second)))
  else if String.eqb id "grpc.h2.deadline-exceeded" then
    Some (with_terminal "unary" "deadline-exceeded" "4" ""
            (makeIdentitySpec id "DeadlineExceeded" (replicate 128 71) (50 * millisecond)))
  else if String.eqb id "grpc.h2.client-cancellation" then
    Some (with_terminal "server-streaming" "client-cancellation" "1" ""
            (makeIdentitySpec id "ClientCancellation" (replicate 128 71) (5 * second)))
  else if String.eqb id "grpc.h2.unary.echo-new-channel" then
    Some (with_lifecycle newChannel (makeIdentitySpec id "UnaryEcho" (replicate 128 71) (5 * second)))
  else None.

Definition supportedScenarioIDs : list string :=
  ["grpc.h2.unary.echo"; "grpc.h2.unary.empty"; "grpc.h2.unary.fixed-metadata"; "grpc.h2.unary.gzip";
   "grpc.h2.unary.large"; "grpc.h2.server-streaming.echo"; "grpc.h2.client-streaming.echo";
   "grpc.h2.bidi-streaming.echo"; "grpc.h2.trailers-only-status"; "grpc.h2.deadline-exceeded";
   "grpc.h2.client-cancellation"; "grpc.h2.unary.echo-new-channel"].

(** ** Reading the response *)

Definition validateResponseFrame (frame : bytes) (spec : scenarioSpec) : option goerror :=
  match decodeFrame gunzip frame (compression spec) with
  | Err e => Some e
  | Ok (protobuf, observed) =>
      if negb (len observed =? len (payload spec)) || negb (String.eqb (sha256Hex observed) (payloadHash spec))
         || negb (len protobuf =? protobufBytes spec) || negb (String.eqb (sha256Hex protobuf) (protobufHash spec))
      then Some (EMsg "response payload/protobuf byte-scope mismatch")
      else if String.eqb (compression spec) "identity"
              && (negb (len frame =? frameBytes spec) || negb (String.eqb (sha256Hex frame) (frameHash spec)))
      then Some (EMsg "identity response frame mismatch")
      else None
  end.

Definition message_error (index : Z) (what : string) : string :=
  "response message " +:+ pretty index +:+ what.

(** The loop over the expected messages: the octets so far, the arrival times, the number
    of messages, the error, and the stream. *)
Fixpoint responseLoop (n : nat) (index : Z) (spec : scenarioSpec) (arrival : Z -> Z) (s : stream)
    (aggregate : bytes) (arrivals : list Z) : (bytes * list Z * Z * option goerror) * stream :=
  match n with
  | O => ((aggregate, arrivals, index, None), s)
  | S n =>
      match read_full 5 s with
      | (Err e, s) => ((aggregate, arrivals, index, Some (EWrap (message_error index " header") e)), s)
      | (Ok header, s) =>
      let length := be_decode (drop 1 header) in
      if (length <? 0) || (2097152 <? length)
      then ((aggregate, arrivals, index, Some (EMsg (message_error index " length is out of range"))), s) else
      match read_full (Z.to_nat length) s with
      | (Err e, s) => ((aggregate, arrivals, index, Some (EWrap (message_error index " body") e)), s)
      | (Ok message, s) =>
      let frame := header ++ message in
      match validateResponseFrame frame spec with
      | Some e => ((aggregate, arrivals, index, Some (EWrap (message_error index "") e)), s)
      | None => responseLoop n (index + 1) spec arrival s (aggregate ++ frame) (arrivals ++ [arrival index])
      end end end
  end.

Definition readAndValidateResponseFrames (s : stream) (spec : scenarioSpec) (arrival : Z -> Z)
    : bytes * list Z * Z * option goerror :=
  match responseLoop (Z.to_nat (responseCount spec)) 0 spec arrival s [] [] with
  | ((aggregate, arrivals, count, Some e), _) => (aggregate, arrivals, count, Some e)
  | ((aggregate, arrivals, _, None), s) =>
      let '(n, err) := read_one s in
      if negb (n =? 0) || match err with Some e => negb (errors_is EEOF e) | None => false end
      then (aggregate, arrivals, responseCount spec,
            Some (EMsg "response stream contains unexpected data after the canonical message count"))
      else (aggregate, arrivals, responseCount spec, None)
  end.

Definition isGRPCContentType (value : string) : bool :=
  let mediaType := to_lower (trim_space (nth 0 (split_on ";"%char value) "")) in
  String.eqb mediaType "application/grpc" || String.eqb mediaType "application/grpc+proto".

(** ** One RPC *)

Record rpcObservation := Observation {
  HTTPStatus : Z; HTTPVersion : string; ContentType : string; TrailersPresent : bool;
  GRPCStatus : string; GRPCEncoding : string;
  ResponseFrameBytes : Z; ResponseFrameHash : string;
  RequestMessageCount : Z; ResponseMessageCount : Z;
  ClientHalfClosed : bool; OrderedEcho : bool; StreamComplete : bool;
  TimeToFirstMessageNanos : Z; MessageArrivalNanos : list Z;
  ResponseInitialText : string; ResponseTrailingBinary : string; GRPCMessage : string;
  ReadyInitialMetadata : bool; ClientCancelTriggered : bool; DeadlineFired : bool;
  TrailersOnly : bool; NoResponseData : bool; ExpectedTerminalOutcome : bool;
  LatencyNanos : Z; Passed : bool; TimedOut : bool; Error : string; ResponseFrame : bytes
}.

(** [resp.Proto]. *)
Definition http_version (r : response) : string :=
  "HTTP/" +:+ pretty (PProtoMajor r) +:+ "." +:+ pretty (PProtoMinor r).

(** An observation with nothing but a latency, a timeout flag and an error. *)
Definition failed_observation (requests latency : Z) (timedOut : bool) (error : string) : rpcObservation :=
  Observation 0 "" "" false "" "" 0 "" requests 0 false false false 0 [] "" "" "" false false false
    false false false latency false timedOut error [].

(** What the clock and the constructor of the request give. *)
Record rpcEnv := RpcEnv {
  re_request : option goerror;           (* the error of http.NewRequestWithContext *)
  re_header_latency : Z;                 (* when RoundTrip returned *)
  re_arrival : Z -> Z;                   (* when each message had been read *)
  re_latency : Z                         (* when the body had been read *)
}.

Definition rpc_request (spec : scenarioSpec) (requestFrames : bytes) : request :=
  Request 2 (Some (VersionTLS13, "h2")) "POST" (path spec)
    ([("content-type", "application/grpc+proto"); ("te", "trailers");
      ("grpc-encoding", compression spec); ("grpc-accept-encoding", compression spec)]
     ++ if String.eqb (metadataProfile spec) fixedMetadata
        then [("x-plab-text", "protocol-lab"); ("x-plab-bin-bin", "AAECAw==")] else [])
    (Stream requestFrames EEOF).

(** The problems [invoke] lists. *)
Definition problems (spec : scenarioSpec) (resp : response) (count : Z) (readErr : option goerror) : list string :=
  let status := trailer_get resp "grpc-status" in
  (match readErr with Some e => [error_string e] | None => [] end)
  ++ (if negb (PProtoMajor resp =? 2) || negb (PProtoMinor resp =? 0) then ["HTTP/2 fallback detected"] else [])
  ++ (if negb (StatusCode resp =? 200) then ["expected HTTP 200, observed " +:+ pretty (StatusCode resp)] else [])
  ++ (if negb (isGRPCContentType (header_get (HHeader resp) "content-type"))
      then ["unexpected response content type"] else [])
  ++ (if negb (String.eqb status "0") || String.eqb status "" then ["missing successful gRPC trailers"] else [])
  ++ (if negb (count =? responseCount spec)
      then ["expected " +:+ pretty (responseCount spec) +:+ " response messages, observed " +:+ pretty count] else [])
  ++ (if (String.eqb (rpcType spec) "client-streaming" || String.eqb (rpcType spec) "bidirectional-streaming")
         && negb (1 <? requestCount spec) then ["client half-close was not proven"] else [])
  ++ (if String.eqb (compression spec) "gzip"
         && negb (String.eqb (header_get (HHeader resp) "grpc-encoding") "gzip")
      then ["gzip response encoding not proven"] else [])
  ++ (if String.eqb (metadataProfile spec) fixedMetadata
         && (negb (String.eqb (header_get (HHeader resp) "x-plab-text") "protocol-lab")
             || negb (matchesBinaryMetadata (trailer_get resp "x-plab-bin-bin")))
      then ["fixed response metadata mismatch"] else []).

Definition invoke (channel : request -> res response) (requestFrames : bytes) (spec : scenarioSpec)
    (env : rpcEnv) : rpcObservation :=
  match re_request env with
  | Some e => failed_observation 0 0 false (error_string e)
  | None =>
  match channel (rpc_request spec requestFrames) with
  | Err e => failed_observation 0 (re_header_latency env) (errors_is EDeadline e || is_net_timeout e) (error_string e)
  | Ok resp =>
  let '(body, arrivals, count, readErr) := readAndValidateResponseFrames (Body resp) spec (re_arrival env) in
  let status := trailer_get resp "grpc-status" in
  let problems := problems spec resp count readErr in
  Observation (StatusCode resp) (http_version resp) (header_get (HHeader resp) "content-type")
    (negb (String.eqb status "")) status (header_get (HHeader resp) "grpc-encoding")
    (len body) (sha256Hex body) (requestCount spec) count (1 <? requestCount spec)
    (count =? responseCount spec)
    (bool_decide (readErr = None) && (count =? responseCount spec))
    (match arrivals with a :: _ => a | [] => 0 end) arrivals
    (header_get (HHeader resp) "x-plab-text") (trailer_get resp "x-plab-bin-bin") ""
    false false false false false false
    (re_latency env) (bool_decide (problems = [])) false (join "; " problems) body
  end end.

(** ** Terminal outcomes *)

(** The contexts of a terminal RPC: whether their deadline fired, or they were cancelled. *)
Record terminalEnv := TerminalEnv {
  te_request : option goerror;
  te_latency : Z;
  te_deadline : bool;                    (* operationContext.Err() is DeadlineExceeded *)
  te_cancelled : bool                    (* operationContext.Err() is Canceled, after the cancel *)
}.

Definition terminal_request (spec : scenarioSpec) (requestFrame : bytes) : request :=
  Request 2 (Some (VersionTLS13, "h2")) "POST" (path spec)
    ([("content-type", "application/grpc+proto"); ("te", "trailers");
      ("grpc-encoding", "identity"); ("grpc-accept-encoding", "identity")]
     ++ if String.eqb (terminalMode spec) "deadline-exceeded" then [("grpc-timeout", "50m")] else [])
    (Stream requestFrame EEOF).

(** The error of a mismatch is given by its fixed prefix. *)
Definition terminal_observation (resp : option response) (status message : string)
    (ready cancel fired trailersOnly noData expected : bool) (latency : Z) (error : string) : rpcObservation :=
  let get n := match resp with Some r => header_get (HHeader r) n | None => "" end in
  Observation (match resp with Some r => StatusCode r | None => 0 end)
    (match resp with Some r => http_version r | None => "" end)
    (get "content-type") trailersOnly status (get "grpc-encoding") 0 "" 1 0 false false false 0 []
    "" "" message ready cancel fired trailersOnly noData expected latency expected false
    (if expected then "" else error) [].

Definition invokeTerminal (channel : request -> res response) (requestFrame : bytes) (spec : scenarioSpec)
    (env : terminalEnv) : rpcObservation :=
  match te_request env with
  | Some e => failed_observation 1 0 false (error_string e)
  | None =>
  let result := channel (terminal_request spec requestFrame) in
  if String.eqb (terminalMode spec) "deadline-exceeded" then
    let fired := match result with Err e => errors_is EDeadline e | Ok _ => false end || te_deadline env in
    let noData := match result with Err _ => true | Ok _ => false end in
    let expected := fired && noData && (40 * millisecond <=? te_latency env)
                    && (te_latency env <? 250 * millisecond) in
    terminal_observation None "4" "" false false fired false noData expected (te_latency env)
      "deadline outcome mismatch"
  else
  match result with
  | Err e => failed_observation 1 (te_latency env) false (error_string e)
  | Ok resp =>
  let '(body, readErr) := read_all (Body resp) in
  if String.eqb (terminalMode spec) "client-cancellation" then
    let ready := String.eqb (header_get (HHeader resp) "x-plab-ready") "1" in
    let cancel := match readErr with Some e => errors_is ECanceled e | None => false end || te_cancelled env in
    let noData := len body =? 0 in
    let expected := ready && cancel && noData && (PProtoMajor resp =? 2) && (StatusCode resp =? 200) in
    terminal_observation (Some resp) "1" "" ready cancel false false noData expected (te_latency env)
      "cancellation outcome mismatch"
  else
    let status := header_get (HHeader resp) "grpc-status" in
    let message := header_get (HHeader resp) "grpc-message" in
    let trailersOnly := negb (String.eqb status "") && (len body =? 0) in
    let expected := bool_decide (readErr = None) && (PProtoMajor resp =? 2) && (StatusCode resp =? 200)
      && isGRPCContentType (header_get (HHeader resp) "content-type")
      && String.eqb status (expectedStatus spec) && String.eqb message (expectedMessage spec) && trailersOnly in
    terminal_observation (Some resp) status message false false false trailersOnly (len body =? 0) expected
      (te_latency env) "trailers-only outcome mismatch"
  end end.


(** ** The executions *)

(** What [url.Parse], the root file and the certificate pool give: scheme, host, PEM. *)
Record materialEnv := MaterialEnv {
  mt_parse : res (string * string);
  mt_root : res bytes;
  mt_pool : bool                          (* roots.AppendCertsFromPEM *)
}.
Definition expectedRootPEMHash : string := "dda81fe80d268bbd91993339ceef728a7e9e181d1faee88af35d73be2a7b039b".
Definition expectedLeafCertificateHash : string := "4627eed7781247db01e5641e4799e1c71e45543c10e304c99ed74b6e0bc0e254".
Definition expectedLeafSPKIHash : string := "83737e10fac4d3acac8245615dc510b8c12deb8f4756af3eaddf21118f18e4ea".

Definition loadTargetAndRoots (env : materialEnv) : res unit :=
  guard match mt_parse env with Ok (scheme, host) => String.eqb scheme "https" && negb (String.eqb host "") | Err _ => false end
    else EMsg "target URL must be an absolute https URL" in
  let? rootPEM := mt_root env in
  guard String.eqb (sha256Hex rootPEM) expectedRootPEMHash
    else EMsg "trusted root certificate hash mismatch" in
  guard mt_pool env else EMsg "trusted root certificate could not be parsed" in
  Ok tt.

(** The connection state the gates read. *)
Record channelState := ChannelState {
  cs_version : Z; cs_protocol : string; cs_mutual : bool; cs_resumed : bool;
  cs_peer : list (bytes * bytes)          (* Raw, RawSubjectPublicKeyInfo *)
}.

Definition leaf_matches (leaf : bytes * bytes) : bool :=
  String.eqb (sha256Hex (fst leaf)) expectedLeafCertificateHash
  && String.eqb (sha256Hex (snd leaf)) expectedLeafSPKIHash.

(** [openChannel]: the authenticated leaf. *)
Definition openChannel (dial : res channelState) (client : option goerror) : res (bytes * bytes) :=
  let? state := dial in
  match cs_peer state with
  | [leaf] =>
      guard (cs_version state =? VersionTLS13) && String.eqb (cs_protocol state) "h2" && cs_mutual state
            && negb (cs_resumed state)
        else EMsg "exact full TLS 1.3, mutual ALPN h2, and one authenticated leaf certificate are required" in
      guard leaf_matches leaf else EMsg "authenticated leaf certificate identity mismatch" in
      match client with Some e => Err e | None => Ok leaf end
  | _ => Err (EMsg "exact full TLS 1.3, mutual ALPN h2, and one authenticated leaf certificate are required")
  end.

(** The result document, as far as the verdict and the counts go. *)
Record executionResult := ExecutionResult {
  RPassed : bool;
  CompletedOperations : Z; FailedOperations : Z;
  DeadlineExceededOperations : Z; CancelledOperations : Z; TimedOutOperations : Z;
  RLatencies : list Z;
  RObservation : option rpcObservation;
  Checks : list string
}.
Definition baseResult : executionResult := ExecutionResult false 0 1 0 0 0 [] None [].

Definition validationChecks (s : scenarioSpec) : list string :=
  ["tls-version:1.3"; "alpn:h2"; "no-fallback"; "pre-established-channel"; "channel-reused";
   "request-count:" +:+ pretty (requestCount s); "response-count:" +:+ pretty (responseCount s);
   "payload-sha256"; "protobuf-sha256"; "http-status:200"; "content-type:application/grpc";
   "trailers-present"; "grpc-status:0"; "zero-failures"; "zero-deadlines"; "zero-cancellations"; "zero-timeouts"]
  ++ (if String.eqb (compression s) "gzip"
      then ["grpc-encoding:gzip"; "compressed-flag:1"; "decompress-success"; "gzip-encoder-provenance"]
      else ["grpc-frame-sha256"])
  ++ (if String.eqb (metadataProfile s) fixedMetadata
      then ["request-ascii-metadata"; "request-binary-metadata-decoded-bytes";
            "response-initial-ascii-metadata"; "response-trailing-binary-metadata-decoded-bytes"] else [])
  ++ (if 1 <? requestCount s then ["client-half-close"] else [])
  ++ (if 1 <? responseCount s then ["stream-complete"] else [])
  ++ (if String.eqb (rpcType s) "bidirectional-streaming" then ["ordered-one-to-one-echo"] else []).

Definition terminalValidationChecks (s : scenarioSpec) : list string :=
  ["tls-version:1.3"; "alpn:h2"; "no-fallback"; "pre-established-channel"; "retry-disabled";
   "hedging-disabled"; "request-count:1"; "response-count:0"; "zero-unexpected-failures"; "zero-timeouts"]
  ++ (if String.eqb (terminalMode s) "trailers-only" then
        ["http-status:200"; "trailers-only"; "no-response-data"; "grpc-status:3"; "grpc-message:plab-invalid-fixture"]
      else if String.eqb (terminalMode s) "deadline-exceeded" then
        ["grpc-timeout:50m"; "client-deadline-fired"; "grpc-status:4"; "no-response-data"; "expected-terminal-outcome"]
      else if String.eqb (terminalMode s) "client-cancellation" then
        ["ready-initial-metadata"; "client-cancel-after-ready"; "grpc-status:1"; "no-response-data"; "expected-terminal-outcome"]
      else []).

Definition profileSmoke : string := "grpc-h2-smoke".
Definition profileDiagnostic : string := "grpc-h2-diagnostic".
Definition profileChannelChurn : string := "grpc-h2-channel-churn".

(** The frame sent for each request message. *)
Definition request_frame (spec : scenarioSpec) : bytes :=
  frame_or_nil (encodeFrame gzip (encodeProtobuf (payload spec)) (compression spec)).
Definition request_frames (spec : scenarioSpec) : bytes :=
  concat (replicate (Z.to_nat (requestCount spec)) (request_frame spec)).

(** [execute]: the pre-established channel, a warm-up call under the smoke profile, and
    the measured call. The gate of this path does not ask for a full handshake. *)
Definition execute (env : materialEnv) (dial : res channelState) (client : option goerror)
    (channel : request -> res response) (warm measured : rpcEnv) (spec : scenarioSpec) (profile : string)
    : executionResult * option goerror :=
  match loadTargetAndRoots env with
  | Err e => (baseResult, Some e)
  | Ok _ =>
  match dial with
  | Err e => (baseResult, Some e)
  | Ok state =>
  match cs_peer state with
  | [leaf] =>
    if negb ((cs_version state =? VersionTLS13) && String.eqb (cs_protocol state) "h2" && cs_mutual state)
    then (baseResult, Some (EMsg "exact TLS 1.3, mutual ALPN h2, and one authenticated leaf certificate are required")) else
    if negb (leaf_matches leaf) then (baseResult, Some (EMsg "authenticated leaf certificate identity mismatch")) else
    match client with
    | Some e => (baseResult, Some e)
    | None =>
    let warmup := invoke channel (request_frames spec) spec warm in
    if String.eqb profile profileSmoke && negb (Passed warmup)
    then (baseResult, Some (EMsg ("pre-established channel warmup failed: " +:+ Error warmup))) else
    let o := invoke channel (request_frames spec) spec measured in
    let completed := if Passed o then 1 else 0 in
    let failed := if Passed o then 0 else 1 in
    let timedOut := if TimedOut o then 1 else 0 in
    let latencies := match MessageArrivalNanos o with [] => [LatencyNanos o] | l => l end in
    let passed := Passed o && (completed =? 1) && (failed =? 0) && (timedOut =? 0) in
    let result := ExecutionResult passed completed failed 0 0 timedOut latencies (Some o) (validationChecks spec) in
    if negb passed then (result, Some (EMsg (Error o))) else (result, None)
    end
  | _ => (baseResult, Some (EMsg "exact TLS 1.3, mutual ALPN h2, and one authenticated leaf certificate are required"))
  end end end.

Definition executeTerminal (env : materialEnv) (dial : res channelState) (client : option goerror)
    (channel : request -> res response) (t : terminalEnv) (spec : scenarioSpec)
    : executionResult * option goerror :=
  match loadTargetAndRoots env with
  | Err e => (baseResult, Some e)
  | Ok _ =>
  match openChannel dial client with
  | Err e => (baseResult, Some e)
  | Ok _ =>
  let o := invokeTerminal channel (request_frame spec) spec t in
  let completed := if Passed o then 1 else 0 in
  let failed := if Passed o then 0 else 1 in
  let deadlineExceeded := if Passed o && String.eqb (terminalMode spec) "deadline-exceeded" then 1 else 0 in
  let cancelled := if Passed o && String.eqb (terminalMode spec) "client-cancellation" then 1 else 0 in
  let passed := Passed o && (completed =? 1) && (failed =? 0) in
  let result := ExecutionResult passed completed failed deadlineExceeded cancelled 0 [LatencyNanos o] (Some o)
                  (terminalValidationChecks spec) in
  if negb passed then (result, Some (EMsg (Error o))) else (result, None)
  end end.

(** What one of the ten operations of a channel-churn run meets. *)
Record churnEnv := ChurnEnv {
  ch_dial : res channelState; ch_client : option goerror;
  ch_channel : request -> res response; ch_rpc : rpcEnv; ch_total : Z
}.

Definition newChannelChecks : list string :=
  ["tls-version:1.3"; "alpn:h2"; "no-fallback"; "fresh-tls-connection-per-operation";
   "fresh-http2-channel-per-operation"; "settings-observed"; "channel-disposed-after-operation";
   "request-count:1"; "response-count:1"; "payload-sha256"; "grpc-status:0"; "zero-failures";
   "zero-deadlines"; "zero-cancellations"; "zero-timeouts"].

Definition with_latency (n : Z) (o : rpcObservation) : rpcObservation :=
  let '(Observation a b c d e f g h i j k l m p q r s t u v w x y z _ pa ti er fr) := o in
  Observation a b c d e f g h i j k l m p q r s t u v w x y z n pa ti er fr.

(** The loop of [executeNewChannel]: the latencies and the last observation, or the error. *)
Fixpoint churnLoop (operation : Z) (envs : list churnEnv) (spec : scenarioSpec)
    (latencies : list Z) (last : option rpcObservation) : list Z * option rpcObservation * option goerror :=
  match envs with
  | [] => (latencies, last, None)
  | c :: envs =>
      match openChannel (ch_dial c) (ch_client c) with
      | Err e => (latencies, last, Some (EWrap ("new channel operation " +:+ pretty operation) e))
      | Ok _ =>
          let o := with_latency (ch_total c) (invoke (ch_channel c) (request_frame spec) spec (ch_rpc c)) in
          if negb (Passed o)
          then (latencies, last, Some (EMsg ("new channel operation " +:+ pretty operation +:+ ": " +:+ Error o)))
          else churnLoop (operation + 1) envs spec (latencies ++ [LatencyNanos o]) (Some o)
      end
  end.

Definition executeNewChannel (env : materialEnv) (envs : list churnEnv) (spec : scenarioSpec)
    : executionResult * option goerror :=
  match loadTargetAndRoots env with
  | Err e => (baseResult, Some e)
  | Ok _ =>
  match churnLoop 0 (take 10 envs) spec [] None with
  | (_, _, Some e) => (baseResult, Some e)
  | (latencies, last, None) =>
      let completed := len latencies in
      (ExecutionResult (completed =? 10) completed 0 0 0 0 latencies last newChannelChecks, None)
  end end.

(** ** Statistics over nanoseconds *)

Fixpoint insert_Z (x : Z) (l : list Z) : list Z :=
  match l with [] => [x] | y :: r => if x <=? y then x :: l else y :: insert_Z x r end.
Definition sort_Z (l : list Z) : list Z := foldr insert_Z [] l.

Definition meanMilliseconds (values : list Z) : float64 :=
  fdiv (fdiv (f_of_Z (fold_left Z.add values 0)) (f_of_Z (len values))) (f_of_Z millisecond).
Definition percentileMilliseconds (values : list Z) (quantile : float64) : float64 :=
  let index := f_ceil (fmul quantile (f_of_Z (len values))) - 1 in
  let index := if index <? 0 then 0 else index in
  fdiv (f_of_Z (nth (Z.to_nat index) (sort_Z values) 0)) (f_of_Z millisecond).

(** ** Selection and [main] *)

Definition observed (getenv : string -> string) (name : string) : string := trim_space (getenv name).

(** The first variable, in the order Go's map iteration happens to take, whose value
    differs; whether there is one does not depend on the order. *)
Definition all_expected (getenv : string -> string) (expected : list (string * string)) : bool :=
  forallb (fun '(name, required) => String.eqb (observed getenv name) required) expected.

Definition unsupported (name : string) : goerror := EMsg (name +:+ " is unsupported").

Definition validateSelection (getenv : string -> string) (spec : scenarioSpec) : res string :=
  let variant := if String.eqb (lifecycle spec) newChannel then "grpc-over-h2-tls-new-channel" else "grpc-over-h2-tls-alpn" in
  guard all_expected getenv
    [("PLAB_EXECUTOR_ID", "go-grpc-h2-executor"); ("PLAB_EXECUTOR_VERSION", "0.4.2");
     ("PLAB_LOAD_GENERATOR_ID", "go-x-net-http2-grpc-load"); ("PLAB_LOAD_GENERATOR_VERSION", "0.4.2");
     ("PLAB_SCENARIO_ID", id spec); ("PLAB_PROTOCOL", "h2"); ("PLAB_PROTOCOL_VARIANT", variant)]
    else unsupported "selection" in
  let profile := observed getenv "PLAB_LOAD_PROFILE_ID" in
  guard String.eqb profile profileSmoke || String.eqb profile profileDiagnostic || String.eqb profile profileChannelChurn
    else unsupported "PLAB_LOAD_PROFILE_ID" in
  guard negb (String.eqb profile profileSmoke
              && negb (string_in ["grpc.h2.unary.echo"; "grpc.h2.server-streaming.echo";
                                  "grpc.h2.client-streaming.echo"; "grpc.h2.bidi-streaming.echo"] (id spec)))
    else EMsg (profile +:+ " is not bound to " +:+ id spec) in
  guard negb (negb (String.eqb (terminalMode spec) "") && negb (String.eqb profile profileDiagnostic))
    else EMsg (id spec +:+ " requires " +:+ profileDiagnostic) in
  guard negb (String.eqb (lifecycle spec) newChannel && negb (String.eqb profile profileChannelChurn))
    else EMsg (id spec +:+ " requires " +:+ profileChannelChurn) in
  guard negb (String.eqb profile profileDiagnostic && String.eqb (terminalMode spec) ""
              && negb (String.eqb (lifecycle spec) newChannel)
              && negb (string_in ["grpc.h2.unary.empty"; "grpc.h2.unary.fixed-metadata"; "grpc.h2.unary.gzip";
                                  "grpc.h2.unary.large"] (id spec)))
    else EMsg (profile +:+ " is not bound to " +:+ id spec) in
  let '(duration, warmup, repetition) :=
    if String.eqb profile profileChannelChurn then ("30", "0", "3")
    else if String.eqb profile profileDiagnostic then ("10", "0", "1") else ("5", "1", "1") in
  guard all_expected getenv
    [("PLAB_CONNECTIONS", "1"); ("PLAB_CONCURRENCY", "1"); ("PLAB_STREAMS_PER_CONNECTION", "1");
     ("PLAB_DURATION_SECONDS", duration); ("PLAB_WARMUP_SECONDS", warmup); ("PLAB_REPETITION", repetition)]
    else unsupported "load" in
  Ok profile.

Definition durationFromEnvironment (getenv : string -> string) (name : string) (fallback : Z) : Z :=
  let v := observed getenv name in
  if String.eqb v "" then fallback else
  match atoi v with
  | Some n => if n <=? 0 then fallback else int_of (n * second)
  | None => fallback
  end.

Record grpcMainEnv := GrpcMainEnv {
  gm_getenv : string -> string; gm_target : string; gm_material : materialEnv;
  gm_dial : res channelState; gm_client : option goerror; gm_channel : request -> res response;
  gm_warm : rpcEnv; gm_measured : rpcEnv; gm_terminal : terminalEnv; gm_churn : list churnEnv;
  gm_write : bool                          (* writeArtifacts succeeds *)
}.

(** The exit code of [main] and the result it writes, if it writes one. *)
Definition main (env : grpcMainEnv) : Z * option executionResult :=
  match specFor (observed (gm_getenv env) "PLAB_SCENARIO_ID") with
  | None => (2, None)
  | Some spec =>
  if String.eqb (trim_space (gm_target env)) "" then (2, None) else
  match validateSelection (gm_getenv env) spec with
  | Err _ => (2, None)
  | Ok profile =>
  let '(result, err) :=
    if String.eqb (lifecycle spec) newChannel
    then executeNewChannel (gm_material env) (gm_churn env) spec
    else if negb (String.eqb (terminalMode spec) "")
    then executeTerminal (gm_material env) (gm_dial env) (gm_client env) (gm_channel env) (gm_terminal env) spec
    else execute (gm_material env) (gm_dial env) (gm_client env) (gm_channel env) (gm_warm env) (gm_measured env)
           spec profile in
  let result := match err with
                | Some _ => ExecutionResult false (CompletedOperations result) (FailedOperations result)
                    (DeadlineExceededOperations result) (CancelledOperations result) (TimedOutOperations result)
                    (RLatencies result) (RObservation result) (Checks result)
                | None => result
                end in
  if negb (gm_write env) then (1, None) else
  match err with
  | Some _ => (1, Some result)
  | None => if negb (RPassed result) then (1, Some result) else (0, Some result)
  end end end.

End client.
