(* ===== verification/GrpcProps.v ===== *)
(** What go-grpc-h2-executor and go-grpc-h2 promise each other: every scenario passes
    against the server, and a verdict or a status of success is earned. *)
From Stdlib Require Import Ascii.
From S2P Require Export Prelude GoText GoHash Stats GoHttp GrpcCodec GrpcServer GrpcClient.

(** Evaluate the tests of the goal that have no variables in them. *)
Ltac decide_closed :=
  match goal with
  | |- context [if ?b then _ else _] =>
      let v := eval vm_compute in b in
      match v with true => change b with true | false => change b with false end; cbv iota
  end.

Ltac decide_closed_in H :=
  match type of H with
  | context [if ?b then _ else _] =>
      let v := eval vm_compute in b in
      match v with true => change b with true in H | false => change b with false in H end; cbv iota in H
  end.

(** ** Payloads of the scenarios *)

Lemma len_replicate n (b : Z) : 0 <= n -> len (replicate (Z.to_nat n) b) = n.
Proof. intros. unfold len. rewrite length_replicate. lia. Qed.

Lemma encodeProtobuf_replicate n b v :
  0 < n -> put_varint 10 (u64 n) = v ->
  encodeProtobuf (replicate (Z.to_nat n) b) = 10 :: v ++ replicate (Z.to_nat n) b.
Proof.
  intros Hn <-. unfold encodeProtobuf. rewrite len_replicate by lia.
  by rewrite (proj2 (Z.eqb_neq _ _)) by lia.
Qed.

Lemma len_encode_replicate n b v :
  0 < n -> put_varint 10 (u64 n) = v ->
  len (encodeProtobuf (replicate (Z.to_nat n) b)) = 1 + len v + n.
Proof.
  intros Hn Hv. rewrite (encodeProtobuf_replicate n b v) by done.
  change (10 :: v ++ ?r) with ([10] ++ v ++ r). rewrite !len_app, len_replicate by lia.
  change (len [10]) with 1. lia.
Qed.

(** The four payloads the server accepts. *)
Lemma fixed_payload_ok n b k v :
  0 < n -> put_varint 10 (u64 n) = v -> 1 + len v + n = k ->
  fixed_payload n b k (replicate (Z.to_nat n) b) (encodeProtobuf (replicate (Z.to_nat n) b)) = true.
Proof.
  intros Hn Hv Hk. unfold fixed_payload.
  rewrite len_replicate, (len_encode_replicate n b v), Hk by lia || done.
  by rewrite !Z.eqb_refl, bool_decide_true.
Qed.

(** ** The client's reading loop *)

Section props.
Variable gzip gunzip : bytes -> res bytes.

Lemma read_envelope flag m rest e :
  len m < 4294967296 ->
  exists header, length header = 5%nat /\ header ++ m = envelope flag m /\
    read_full 5 (Stream (envelope flag m ++ rest) e) = (Ok header, Stream (m ++ rest) e) /\
    be_decode (drop 1 header) = len m.
Proof.
  intros Hm. exists (flag :: be_encode 4 (u32 (len m))).
  assert (Hl : length (flag :: be_encode 4 (u32 (len m))) = 5%nat)
    by (simpl; by rewrite ?length_be_encode).
  split_and!; [done|done| |].
  - unfold envelope. change (?x :: ?a ++ ?b) with ((x :: a) ++ b).
    rewrite <-app_assoc. by apply read_full_app'.
  - change (drop 1 (flag :: ?l)) with l. apply be_decode_length. pose proof (len_nonneg m). lia.
Qed.

Lemma responseLoop_ok spec arrival flag m n : forall index rest e aggregate arrivals,
  len m <= 2097152 -> validateResponseFrame gunzip (envelope flag m) spec = None ->
  exists arrivals',
  responseLoop gunzip n index spec arrival (Stream (concat (replicate n (envelope flag m)) ++ rest) e) aggregate arrivals
  = ((aggregate ++ concat (replicate n (envelope flag m)), arrivals', index + Z.of_nat n, None), Stream rest e).
Proof.
  induction n as [|n IH]; intros index rest e aggregate arrivals Hm Hv.
  - exists arrivals. cbn. by rewrite app_nil_r, Z.add_0_r.
  - cbn [replicate concat responseLoop]. rewrite <-app_assoc.
    destruct (read_envelope flag m (concat (replicate n (envelope flag m)) ++ rest) e ltac:(lia))
      as (header & _ & Heq & -> & ->).
    pose proof (len_nonneg m).
    rewrite (proj2 (Z.ltb_ge _ 0)), (proj2 (Z.ltb_ge 2097152 _)) by lia. cbn [orb].
    rewrite read_full_app' by (unfold len; lia). rewrite Heq, Hv.
    destruct (IH (index + 1) rest e (aggregate ++ envelope flag m) (arrivals ++ [arrival index]) Hm Hv) as [arr ->].
    exists arr. rewrite <-app_assoc. do 2 f_equal. f_equal. lia.
Qed.

Lemma responses_ok spec arrival flag m :
  0 <= responseCount spec -> len m <= 2097152 -> validateResponseFrame gunzip (envelope flag m) spec = None ->
  exists arrivals,
  readAndValidateResponseFrames gunzip
    (Stream (concat (replicate (Z.to_nat (responseCount spec)) (envelope flag m))) EEOF) spec arrival
  = (concat (replicate (Z.to_nat (responseCount spec)) (envelope flag m)), arrivals, responseCount spec, None).
Proof.
  intros Hc Hm Hv. unfold readAndValidateResponseFrames.
  destruct (responseLoop_ok spec arrival flag m (Z.to_nat (responseCount spec)) 0 [] EEOF [] [] Hm Hv) as [arr E].
  rewrite app_nil_r in E. rewrite E. by exists arr.
Qed.

(** The frames of a scenario validate against its own hashes. *)
Lemma validate_own i m r c prof p rq rs d st lc frame message :
  encodeFrame gzip (encodeProtobuf p) c = Ok frame ->
  decodeFrame gunzip frame c = Ok (encodeProtobuf p, p) ->
  let spec := makeSpec gzip i m r c prof p rq rs d st lc in
  frame = message -> validateResponseFrame gunzip message spec = None.
Proof.
  intros He Hd spec <-. unfold validateResponseFrame. subst spec. cbn [makeSpec compression payload
    payloadHash protobufBytes protobufHash frameBytes frameHash].
  rewrite Hd, He. cbn [frame_or_nil]. rewrite !Z.eqb_refl, !String.eqb_refl. cbn [negb orb].
  by destruct (String.eqb c "identity").
Qed.

(** ** The server's answer to a valid unary call *)

(** The response to a valid unary call. *)
Definition echo_response (fixed : bool) (c : string) (frame : bytes) : response :=
  Response 200 2 0
    ([("content-type", "application/grpc+proto"); ("grpc-encoding", c)]
     ++ if fixed then [("x-plab-text", "protocol-lab")] else [])
    (Some ([("grpc-status", "0"); ("grpc-message", "")]
           ++ if fixed then [("x-plab-bin-bin", "AAECAw==")] else []))
    (Stream frame EEOF).

Definition unary_methods : list string := ["UnaryEcho"; "UnaryGzip"; "UnaryFixedMetadata"].

Lemma handleRPC_unary m prof body protobuf payload frame c :
  c = (if String.eqb m "UnaryGzip" then "gzip" else "identity") ->
  m ∈ unary_methods ->
  prof = (if String.eqb m "UnaryFixedMetadata" then fixedMetadata else "fixed-empty-user-metadata") ->
  len body <= maxFrameBytes ->
  GrpcServer.decodeFrame gunzip body c = Ok (protobuf, payload) ->
  validScenarioPayload m payload protobuf = true ->
  encodeFrame gzip protobuf c = Ok frame ->
  response_of (handleRPC gzip gunzip
    (Request 2 (Some (VersionTLS13, "h2")) "POST" (servicePath +:+ m)
      ([("content-type", "application/grpc+proto"); ("te", "trailers");
        ("grpc-encoding", c); ("grpc-accept-encoding", c)]
       ++ if String.eqb prof fixedMetadata
          then [("x-plab-text", "protocol-lab"); ("x-plab-bin-bin", "AAECAw==")] else [])
      (Stream body EEOF)) (writer_new []))
  = echo_response (String.eqb m "UnaryFixedMetadata") c frame.
Proof.
  intros Hc Hm -> Hlen Hd Hv He. unfold handleRPC. cbn [RBody RHeader Path Method TLS ProtoMajor].
  assert (Hread : read_all_limited (maxFrameBytes + 1) (Stream body EEOF) = Ok body).
  { unfold read_all_limited. cbn [st_data st_end]. by rewrite (proj2 (Z.leb_gt _ _)) by lia. }
  rewrite Hread.
  repeat (apply elem_of_cons in Hm as [->|Hm]); [| | |by apply not_elem_of_nil in Hm];
    vm_compute in Hc; subst c; cbv zeta;
    match goal with |- context [trim_prefix ?p servicePath] =>
      let v := eval vm_compute in (trim_prefix p servicePath) in
      change (trim_prefix p servicePath) with v end;
    repeat decide_closed; rewrite Hd, Hv; cbn [negb]; rewrite He; vm_compute; reflexivity.
Qed.

(** What the verdict asks of a response: [echo_response] has it. *)
Lemma problems_none spec fixed c frames readErr :
  readErr = None ->
  (String.eqb (metadataProfile spec) fixedMetadata = true -> fixed = true) ->
  (String.eqb (compression spec) "gzip" = true -> c = "gzip") ->
  (String.eqb (rpcType spec) "client-streaming" || String.eqb (rpcType spec) "bidirectional-streaming" = true ->
   1 < requestCount spec) ->
  problems spec (echo_response fixed c frames) (responseCount spec) readErr = [].
Proof.
  intros -> Hf Hc Hr. unfold problems. rewrite (Z.eqb_refl (responseCount spec)).
  assert (E1 : forall b : bool, (b = true -> 1 < requestCount spec) ->
     (if b && negb (1 <? requestCount spec) then ["client half-close was not proven"] else []) = []).
  { intros [] H; [|done]. by rewrite (proj2 (Z.ltb_lt _ _) (H eq_refl)). }
  rewrite E1 by done.
  destruct (String.eqb (compression spec) "gzip") eqn:Eg; [rewrite (Hc eq_refl)|];
    (destruct (String.eqb (metadataProfile spec) fixedMetadata) eqn:Em;
     [rewrite (Hf eq_refl)|destruct fixed]); vm_compute; reflexivity.
Qed.

Lemma passed_when channel frames spec env resp body arrivals count :
  re_request env = None -> channel (rpc_request spec frames) = Ok resp ->
  readAndValidateResponseFrames gunzip (Body resp) spec (re_arrival env) = (body, arrivals, count, None) ->
  problems spec resp count None = [] ->
  Passed (invoke gunzip channel frames spec env) = true.
Proof.
  intros He Hc Hr Hp. unfold invoke. rewrite He, Hc, Hr, Hp. done.
Qed.

(** The server as the client reaches it. *)
Definition served (r : request) : res response := Ok (response_of (handleRPC gzip gunzip r (writer_new []))).

Hypothesis gzip_inverse : forall m z, gzip m = Ok z -> gunzip z = Ok m.

Lemma unary_passes i m c prof p d st lc env frame :
  m ∈ unary_methods -> c = (if String.eqb m "UnaryGzip" then "gzip" else "identity") ->
  prof = (if String.eqb m "UnaryFixedMetadata" then fixedMetadata else "fixed-empty-user-metadata") ->
  len p < 2 ^ 63 -> encodeFrame gzip (encodeProtobuf p) c = Ok frame -> len frame <= maxFrameBytes ->
  validScenarioPayload m p (encodeProtobuf p) = true -> re_request env = None ->
  let spec := makeSpec gzip i m "unary" c prof p 1 1 d st lc in
  Passed (invoke gunzip served (request_frames gzip spec) spec env) = true.
Proof.
  intros Hm Hc Hprof Hp He Hl Hv Henv spec. unfold maxFrameBytes in Hl.
  destruct (frame_decodes gzip gunzip p c frame "gzip flag mismatch" "identity flag mismatch" gzip_inverse Hp He ltac:(lia))
    as ((flag & msg & Hfr & Hlm) & Hd & _).
  destruct (frame_decodes gzip gunzip p c frame "gzip compressed flag mismatch" "identity compressed flag mismatch"
              gzip_inverse Hp He ltac:(lia)) as (_ & Hd' & _).
  assert (Hframes : request_frames gzip spec = frame).
  { unfold request_frames, request_frame. subst spec. cbn [makeSpec payload compression requestCount].
    rewrite He. cbn. apply app_nil_r. }
  assert (Hvalid : validateResponseFrame gunzip frame spec = None) by (by eapply validate_own).
  destruct (responses_ok spec (re_arrival env) flag msg) as [arr Hr];
    [done|lia|by rewrite <-Hfr|].
  assert (Hcount : concat (replicate (Z.to_nat (responseCount spec)) (envelope flag msg)) = frame)
    by (rewrite Hfr; apply app_nil_r).
  rewrite Hcount in Hr.
  eapply (passed_when served (request_frames gzip spec) spec env (echo_response (String.eqb m "UnaryFixedMetadata") c frame));
    [done| |exact Hr|].
  - unfold served, rpc_request. rewrite Hframes. f_equal.
    subst spec. cbn [makeSpec path compression metadataProfile].
    eapply handleRPC_unary; try done.
  - apply problems_none; try done.
    + subst spec. cbn [makeSpec metadataProfile]. rewrite Hprof. by destruct (String.eqb m "UnaryFixedMetadata").
    + subst spec. cbn [makeSpec compression]. intros Hgz. by apply String.eqb_eq in Hgz.
Qed.

(** ** The server's answer to a valid stream *)

Definition stream_payload : bytes := replicate (Z.to_nat 1024) 66.
Definition stream_frame : bytes := identity_frame (encodeProtobuf stream_payload).

Lemma stream_protobuf_len : len (encodeProtobuf stream_payload) = 1027.
Proof. unfold stream_payload. by rewrite (len_encode_replicate 1024 66 [128; 8]). Qed.

Lemma stream_valid : validStreamingPayload stream_payload (encodeProtobuf stream_payload) = true.
Proof. unfold validStreamingPayload. by apply (fixed_payload_ok 1024 66 1027 [128; 8]). Qed.

Lemma stream_read rest e :
  readIdentityFrame (Stream (stream_frame ++ rest) e)
  = (Ok (stream_frame, encodeProtobuf stream_payload, stream_payload), Stream rest e).
Proof.
  apply readIdentityFrame_layout; [rewrite stream_protobuf_len; done|].
  apply protobuf_roundtrip_lemma. unfold stream_payload. by rewrite len_replicate.
Qed.

Lemma readRequests_ok n rest e :
  readRequests n (Stream (concat (replicate n stream_frame) ++ rest) e)
  = Some (replicate n stream_frame, Stream rest e).
Proof.
  induction n as [|n IH]; [done|]. cbn [replicate concat readRequests].
  rewrite <-app_assoc, stream_read, stream_valid, IH. done.
Qed.

Lemma writeFrames_ok fs : forall h st b,
  writeFrames fs (Writer h (Some st) b []) = (true, Writer h (Some st) (b ++ concat fs) []).
Proof.
  induction fs as [|f fs IH]; intros h st b; cbn; [by rewrite app_nil_r|].
  rewrite IH. by rewrite <-app_assoc.
Qed.

Lemma bidiLoop_ok n : forall started rest e h st b,
  bidiLoop n started (Stream (concat (replicate n stream_frame) ++ rest) e) (Writer h (Some st) b [])
  = (false, Stream rest e, Writer h (Some st) (b ++ concat (replicate n stream_frame)) []).
Proof.
  induction n as [|n IH]; intros started rest e h st b; [cbn; by rewrite app_nil_r|].
  cbn [replicate concat bidiLoop]. rewrite <-app_assoc, stream_read, stream_valid.
  replace (if started then Writer h (Some st) b [] else write_header 200 (Writer h (Some st) b []))
    with (Writer h (Some st) b []) by (by destruct started).
  cbn [write_body write_header w_status w_faults w_header w_body]. rewrite IH. by rewrite <-app_assoc.
Qed.

Lemma bidiLoop_start n rest e h :
  bidiLoop (S n) false (Stream (concat (replicate (S n) stream_frame) ++ rest) e) (Writer h None [] [])
  = (false, Stream rest e, Writer h (Some (200, h)) (concat (replicate (S n) stream_frame)) []).
Proof.
  cbn [replicate concat bidiLoop]. rewrite <-app_assoc, stream_read, stream_valid.
  cbn [write_body write_header w_status w_faults w_header w_body]. by rewrite bidiLoop_ok.
Qed.

(** The streaming methods, with their request and response counts. *)
Definition streaming_methods : list (string * string * Z * Z) :=
  [("ServerStreamingEcho", "server-streaming", 1, 100);
   ("ClientStreamingEcho", "client-streaming", 100, 1);
   ("BidirectionalStreamingEcho", "bidirectional-streaming", 100, 100)].

Definition streaming_request (m : string) (body : bytes) : request :=
  Request 2 (Some (VersionTLS13, "h2")) "POST" (servicePath +:+ m)
    [("content-type", "application/grpc+proto"); ("te", "trailers");
     ("grpc-encoding", "identity"); ("grpc-accept-encoding", "identity")]
    (Stream body EEOF).

Definition echoed (n : Z) : bytes := concat (replicate (Z.to_nat n) stream_frame).

Lemma last_replicate {A} n (x d : A) : List.last (replicate (S n) x) d = x.
Proof. induction n as [|n IH]; [done|]. exact IH. Qed.

Lemma handleRPC_streaming m r rq rs :
  (m, r, rq, rs) ∈ streaming_methods ->
  response_of (handleRPC gzip gunzip (streaming_request m (echoed rq)) (writer_new []))
  = echo_response false "identity" (echoed rs).
Proof.
  intros Hm. unfold handleRPC, streaming_request. cbn [RBody RHeader Path Method TLS ProtoMajor].
  unfold streaming_methods in Hm.
  repeat (apply elem_of_cons in Hm as [[= -> -> -> ->]|Hm]); [| | |by apply not_elem_of_nil in Hm];
    cbv zeta;
    match goal with |- context [trim_prefix ?p servicePath] =>
      let v := eval vm_compute in (trim_prefix p servicePath) in
      change (trim_prefix p servicePath) with v end;
    repeat decide_closed; unfold handleStreaming, handleBidirectionalStreaming; repeat decide_closed;
    cbn [RBody]; unfold streamMessageCount.
  - pose proof (readRequests_ok (Z.to_nat 1) [] EEOF) as E. rewrite app_nil_r in E. unfold echoed at 1.
    rewrite E. cbn [more_follows]. unfold more_follows, read_one. cbn [st_data st_end]. repeat decide_closed.
    cbn [write_header set_header w_status w_header w_body w_faults writer_new].
    rewrite writeFrames_ok. change (nth 0 (replicate (Z.to_nat 1) stream_frame) []) with stream_frame.
    cbn [app]. unfold echoed. generalize (concat (replicate (Z.to_nat 100) stream_frame)).
    intros l. vm_compute. reflexivity.
  - pose proof (readRequests_ok (Z.to_nat 100) [] EEOF) as E. rewrite app_nil_r in E. unfold echoed at 1.
    rewrite E. unfold more_follows, read_one. cbn [st_data st_end]. repeat decide_closed.
    cbn [write_header set_header w_status w_header w_body w_faults writer_new].
    rewrite writeFrames_ok. change (Z.to_nat 100) with (S 99). rewrite last_replicate.
    unfold echoed. cbn [concat app Z.to_nat Pos.to_nat Pos.iter_op replicate]. rewrite app_nil_r.
    change (replicate (Z.to_nat 1) stream_frame) with [stream_frame]. cbn [concat]. rewrite app_nil_r.
    generalize stream_frame. intros l. vm_compute. reflexivity.
  - pose proof (bidiLoop_start 99 [] EEOF) as E. change (S 99) with (Z.to_nat 100) in E.
    unfold echoed at 1. rewrite <-(app_nil_r (concat (replicate (Z.to_nat 100) stream_frame))).
    unfold set_header, writer_new. cbn [w_header w_status w_body w_faults]. rewrite E.
    unfold more_follows, read_one. cbn [st_data st_end]. repeat decide_closed.
    unfold echoed. generalize (concat (replicate (Z.to_nat 100) stream_frame)).
    intros l. vm_compute. reflexivity.
Qed.

Lemma streaming_passes i m r rq rs env :
  (m, r, rq, rs) ∈ streaming_methods -> re_request env = None ->
  let spec := makeStreamingSpec gzip i m r rq rs in
  Passed (invoke gunzip served (request_frames gzip spec) spec env) = true.
Proof.
  intros Hm Henv spec.
  assert (Hrs : 0 <= rs /\ (String.eqb r "client-streaming" || String.eqb r "bidirectional-streaming" = true -> 1 < rq)).
  { unfold streaming_methods in Hm.
    repeat (apply elem_of_cons in Hm as [[= -> -> -> ->]|Hm]); [| | |by apply not_elem_of_nil in Hm];
      (split; [lia|]); simpl; (done || lia). }
  destruct Hrs as [Hrs Hhalf].
  assert (He : encodeFrame gzip (encodeProtobuf stream_payload) "identity" = Ok stream_frame) by done.
  assert (Hp : len stream_payload < 2 ^ 63) by (unfold stream_payload; by rewrite len_replicate).
  assert (Hlen : len stream_frame = 1032).
  { unfold stream_frame, identity_frame. rewrite len_envelope, stream_protobuf_len. done. }
  destruct (frame_decodes gzip gunzip stream_payload "identity" stream_frame
              "gzip compressed flag mismatch" "identity compressed flag mismatch" gzip_inverse Hp He ltac:(lia))
    as (_ & Hd & _).
  assert (Hframes : request_frames gzip spec = echoed rq).
  { unfold request_frames, request_frame. subst spec. cbn [makeStreamingSpec makeSpec payload compression requestCount].
    change (replicate 1024 66) with stream_payload. by rewrite He. }
  assert (Hvalid : validateResponseFrame gunzip stream_frame spec = None).
  { subst spec. unfold makeStreamingSpec. change (replicate 1024 66) with stream_payload.
    eapply validate_own; [exact He|exact Hd|done]. }
  destruct (responses_ok spec (re_arrival env) 0 (encodeProtobuf stream_payload)) as [arr Hr];
    [done|rewrite stream_protobuf_len; done|exact Hvalid|].
  change (responseCount spec) with rs in Hr.
  change (envelope 0 (encodeProtobuf stream_payload)) with stream_frame in Hr. fold (echoed rs) in Hr.
  assert (Hr' : readAndValidateResponseFrames gunzip (Body (echo_response false "identity" (echoed rs))) spec
                  (re_arrival env) = (echoed rs, arr, rs, None)) by exact Hr.
  assert (Hproblems : problems spec (echo_response false "identity" (echoed rs)) (responseCount spec) None = []).
  { apply problems_none; [reflexivity|intros H; exact H|intros H; discriminate H|exact Hhalf]. }
  refine (passed_when served (request_frames gzip spec) spec env _ _ _ _ Henv _ Hr' Hproblems).
  unfold served, rpc_request. rewrite Hframes. f_equal. subst spec.
  cbn [makeStreamingSpec makeSpec path compression metadataProfile].
  change (String.eqb "fixed-empty-user-metadata" fixedMetadata) with false. cbv iota. rewrite app_nil_r.
  exact (handleRPC_streaming m r rq rs Hm).
Qed.

(** The scenarios whose RPC is expected to succeed. *)
Definition successful_scenarios : list string :=
  ["grpc.h2.unary.echo"; "grpc.h2.unary.empty"; "grpc.h2.unary.fixed-metadata"; "grpc.h2.unary.gzip";
   "grpc.h2.unary.large"; "grpc.h2.server-streaming.echo"; "grpc.h2.client-streaming.echo";
   "grpc.h2.bidi-streaming.echo"; "grpc.h2.unary.echo-new-channel"].

Lemma echo_frame_len n b v :
  0 < n -> put_varint 10 (u64 n) = v ->
  len (identity_frame (encodeProtobuf (replicate (Z.to_nat n) b))) = 6 + len v + n.
Proof. intros. unfold identity_frame. rewrite len_envelope, (len_encode_replicate n b v) by done. lia. Qed.

Lemma identity_passes i m prof n b v d st lc env :
  m ∈ unary_methods -> String.eqb m "UnaryGzip" = false ->
  prof = (if String.eqb m "UnaryFixedMetadata" then fixedMetadata else "fixed-empty-user-metadata") ->
  0 < n -> put_varint 10 (u64 n) = v -> 6 + len v + n <= maxFrameBytes ->
  validScenarioPayload m (replicate (Z.to_nat n) b) (encodeProtobuf (replicate (Z.to_nat n) b)) = true ->
  re_request env = None ->
  let spec := makeSpec gzip i m "unary" "identity" prof (replicate (Z.to_nat n) b) 1 1 d st lc in
  Passed (invoke gunzip served (request_frames gzip spec) spec env) = true.
Proof.
  intros Hm Hg Hprof Hn Hv Hl Hval Henv. pose proof (len_nonneg v). unfold maxFrameBytes in Hl.
  set (p := replicate (Z.to_nat n) b) in *.
  assert (Hp : len p < 2 ^ 63) by (subst p; rewrite len_replicate; lia).
  assert (Hf : len (identity_frame (encodeProtobuf p)) <= maxFrameBytes)
    by (subst p; rewrite (echo_frame_len n b v) by done; unfold maxFrameBytes; lia).
  clearbody p.
  apply (unary_passes i m "identity" prof p d st lc env (identity_frame (encodeProtobuf p)));
    [done|by rewrite Hg|done|done|done|done|done|done].
Qed.

(** C3: every scenario passes. Against the server of this repository, each scenario whose
    RPC should succeed does: unary with 0, 128 and 2^20 octets, fixed metadata, gzip (for
    any inverse pair of compressor and decompressor whose output fits the server's limit),
    and the three streams of a hundred messages. *)
Theorem every_scenario_passes scenario spec env z :
  scenario ∈ successful_scenarios -> specFor gzip scenario = Some spec ->
  gzip (encodeProtobuf (replicate 1024 66)) = Ok z -> len z <= maxFrameBytes - 5 ->
  re_request env = None ->
  Passed (invoke gunzip served (request_frames gzip spec) spec env) = true.
Proof.
  intros Hs Hspec Hz Hlz Henv. unfold successful_scenarios in Hs.
  assert (H1 : "UnaryEcho" ∈ unary_methods) by left.
  assert (H2 : "UnaryGzip" ∈ unary_methods) by (right; left).
  assert (H3 : "UnaryFixedMetadata" ∈ unary_methods) by (do 2 right; left).
  repeat (apply elem_of_cons in Hs as [->|Hs]); [..|by apply not_elem_of_nil in Hs];
    unfold specFor in Hspec; repeat decide_closed_in Hspec;
    change (Z.shiftl 1 20) with 1048576 in Hspec; apply (inj Some) in Hspec as <-.
  - by apply (identity_passes _ "UnaryEcho" _ 128 71 [128; 1]).
  - by apply (unary_passes _ "UnaryEcho" "identity" _ [] _ _ _ _ [0; 0; 0; 0; 0]).
  - by apply (identity_passes _ "UnaryFixedMetadata" _ 128 71 [128; 1]).
  - apply (unary_passes _ "UnaryGzip" "gzip" _ (replicate 1024 66) _ _ _ _ (envelope 1 z)); try done.
    + unfold encodeFrame. cbn [String.eqb Ascii.eqb Bool.eqb]. by rewrite Hz.
    + unfold envelope. rewrite len_envelope. lia.
  - apply (identity_passes _ "UnaryEcho" _ 1048576 76 [128; 128; 64]);
      [exact H1|reflexivity|reflexivity|lia|reflexivity|discriminate| |exact Henv].
    unfold validScenarioPayload. repeat decide_closed.
    rewrite (fixed_payload_ok 1048576 76 1048580 [128; 128; 64]); [|lia|reflexivity|reflexivity].
    apply orb_true_r.
  - apply streaming_passes; [left|exact Henv].
  - apply streaming_passes; [right; left|exact Henv].
  - apply streaming_passes; [do 2 right; left|exact Henv].
  - by apply (identity_passes _ "UnaryEcho" _ 128 71 [128; 1]).
Qed.
End props.

(** A run with no fault of its own. *)
Definition plain_env : rpcEnv := RpcEnv None 0 (fun i => 1000 * (i + 1)) 200000.

Lemma store_inverse : forall m z, store m = Ok z -> unstore z = Ok m.
Proof. intros m z H. injection H as <-. reflexivity. Qed.

Lemma every_scenario_passes_witness :
  exists spec, specFor store "grpc.h2.bidi-streaming.echo" = Some spec /\
    Passed (invoke unstore (served store unstore) (request_frames store spec) spec plain_env) = true.
Proof.
  eexists. split; [reflexivity|].
  apply (every_scenario_passes store unstore store_inverse "grpc.h2.bidi-streaming.echo" _ plain_env
           (31 :: 139 :: encodeProtobuf (replicate 1024 66))).
  - do 7 right. left.
  - reflexivity.
  - reflexivity.
  - vm_compute. discriminate.
  - reflexivity.
Defined.

(** ** A verdict is earned *)

Lemma responseLoop_sound gunzip n : forall index spec arrival s aggregate arrivals agg arr count s',
  responseLoop gunzip n index spec arrival s aggregate arrivals = ((agg, arr, count, None), s') ->
  exists frames, length frames = n /\ agg = aggregate ++ concat frames /\ count = index + Z.of_nat n /\
    st_data s = concat frames ++ st_data s' /\ st_end s' = st_end s /\
    Forall (fun f => validateResponseFrame gunzip f spec = None) frames.
Proof.
  induction n as [|n IH]; intros index spec arrival s aggregate arrivals agg arr count s' H; cbn [responseLoop] in H.
  - simplify_eq. exists []. cbn. rewrite app_nil_r. split_and!; try done. lia.
  - destruct (read_full 5 s) as [[header|] s1] eqn:E1; [|done].
    destruct (_ || _); [done|].
    destruct (read_full _ s1) as [[message|] s2] eqn:E2; [|done].
    destruct (validateResponseFrame gunzip (header ++ message) spec) eqn:Ev; [done|].
    apply read_full_ok in E1 as (_ & D1 & F1). apply read_full_ok in E2 as (_ & D2 & F2).
    apply IH in H as (frames & <- & -> & -> & D3 & F3 & Hall).
    exists ((header ++ message) :: frames). rewrite D1, D2, D3, F3, F2, F1. cbn [concat length].
    rewrite <-!app_assoc. split_and!; try done; [lia|by constructor].
Qed.

Lemma readAndValidate_sound gunzip s spec arrival body arr count :
  readAndValidateResponseFrames gunzip s spec arrival = (body, arr, count, None) ->
  exists frames, length frames = Z.to_nat (responseCount spec) /\ body = concat frames /\
    st_data s = concat frames /\ errors_is EEOF (st_end s) = true /\
    Forall (fun f => validateResponseFrame gunzip f spec = None) frames.
Proof.
  unfold readAndValidateResponseFrames. intros H.
  destruct (responseLoop _ _ _ _ _ _ _ _) as [[[[agg arr'] c] [e|]] s'] eqn:E; [done|].
  apply responseLoop_sound in E as (frames & Hl & -> & _ & Hd & He & Hall).
  exists frames. unfold read_one in H. destruct (st_data s') as [|b l] eqn:Es; [|done].
  rewrite app_nil_r in Hd. cbn [negb Z.eqb orb] in H.
  destruct (errors_is EEOF (st_end s')) eqn:Ee; [|done]. cbn [negb] in H. simplify_eq.
  rewrite He in Ee. by split_and!.
Qed.

(** Each line of [problems] is one condition. *)
Lemma problems_nil spec resp count readErr :
  problems spec resp count readErr = [] ->
  readErr = None /\ PProtoMajor resp = 2 /\ PProtoMinor resp = 0 /\ StatusCode resp = 200 /\
  isGRPCContentType (header_get (HHeader resp) "content-type") = true /\
  trailer_get resp "grpc-status" = "0" /\ count = responseCount spec /\
  (compression spec = "gzip" -> header_get (HHeader resp) "grpc-encoding" = "gzip") /\
  (metadataProfile spec = fixedMetadata ->
   header_get (HHeader resp) "x-plab-text" = "protocol-lab" /\
   matchesBinaryMetadata (trailer_get resp "x-plab-bin-bin") = true).
Proof.
  unfold problems. cbv zeta. intros H.
  assert (Hif : forall (b : bool) (x : string), (if b then [x] else []) = [] -> b = false) by (by intros []).
  repeat (apply app_eq_nil in H as [?H H]).
  destruct readErr; [done|].
  repeat match goal with H : (if _ then _ else _) = [] |- _ => apply Hif in H end.
  reflect_bools.
  repeat match goal with H : String.eqb _ _ = true |- _ => apply String.eqb_eq in H end.
  split_and!; try done.
  - intros Hc. match goal with H : String.eqb (compression spec) _ && _ = false |- _ => rewrite Hc in H; cbn in H end.
    reflect_bools. by apply String.eqb_eq.
  - intros Hm. match goal with H : String.eqb (metadataProfile spec) _ && _ = false |- _ => rewrite Hm in H; cbn in H end.
    reflect_bools. split; [by apply String.eqb_eq|done].
Qed.

(** What a passed call says of the response. *)
Lemma invoke_passed gunzip channel frames spec env :
  Passed (invoke gunzip channel frames spec env) = true ->
  exists resp body arrivals, channel (rpc_request spec frames) = Ok resp /\
    readAndValidateResponseFrames gunzip (Body resp) spec (re_arrival env) = (body, arrivals, responseCount spec, None) /\
    problems spec resp (responseCount spec) None = [].
Proof.
  unfold invoke. destruct (re_request env); [done|].
  destruct (channel _) as [resp|] eqn:Ec; [|done].
  destruct (readAndValidateResponseFrames _ _ _ _) as [[[body arr] count] readErr] eqn:Er.
  cbn [Passed]. intros Hp. apply bool_decide_eq_true in Hp.
  pose proof (problems_nil _ _ _ _ Hp) as (-> & _ & _ & _ & _ & _ & -> & _).
  by exists resp, body, arr.
Qed.

Lemma validateResponseFrame_none gunzip f spec :
  validateResponseFrame gunzip f spec = None ->
  exists protobuf p, decodeFrame gunzip f (compression spec) = Ok (protobuf, p) /\
    len p = len (payload spec) /\ sha256Hex p = payloadHash spec.
Proof.
  unfold validateResponseFrame. destruct (decodeFrame _ _ _) as [[protobuf p]|]; [|done].
  destruct (_ || _) eqn:E; [done|]. intros _. exists protobuf, p. split; [done|].
  reflect_bools. split; [done|by apply String.eqb_eq].
Qed.

(** C4: a passed RPC is earned. It was answered over HTTP/2 with status 200, a gRPC
    content type and the trailer grpc-status 0, and the body is exactly the expected number
    of envelopes, to the last octet, each of which decodes to the payload's length and
    hash; the observation carries that body, its count and its status. *)
Theorem verdict_is_earned gunzip channel frames spec env :
  let o := invoke gunzip channel frames spec env in
  Passed o = true ->
  exists resp messages, channel (rpc_request spec frames) = Ok resp /\
    PProtoMajor resp = 2 /\ StatusCode resp = 200 /\
    isGRPCContentType (header_get (HHeader resp) "content-type") = true /\
    trailer_get resp "grpc-status" = "0" /\
    length messages = Z.to_nat (responseCount spec) /\ st_data (Body resp) = concat messages /\
    Forall (fun f => exists protobuf p, decodeFrame gunzip f (compression spec) = Ok (protobuf, p) /\
      len p = len (payload spec) /\ sha256Hex p = payloadHash spec) messages /\
    ResponseFrame o = concat messages /\ ResponseMessageCount o = responseCount spec /\
    GRPCStatus o = "0" /\ StreamComplete o = true /\ TimedOut o = false /\ Error o = "".
Proof.
  cbv zeta. unfold invoke. destruct (re_request env); [done|].
  destruct (channel _) as [resp|] eqn:Ec; [|done].
  destruct (readAndValidateResponseFrames _ _ _ _) as [[[body arr] count] readErr] eqn:Er.
  cbn [Passed]. intros Hp. apply bool_decide_eq_true in Hp. rewrite Hp.
  apply problems_nil in Hp as (-> & Hmaj & _ & Hst & Hct & Htr & -> & _).
  apply readAndValidate_sound in Er as (ms & Hl & -> & Hd & _ & Hall).
  exists resp, ms. split_and!; try done; [|cbn; by rewrite Z.eqb_refl].
  eapply Forall_impl; [exact Hall|]. intros f. apply validateResponseFrame_none.
Qed.

Lemma verdict_is_earned_witness :
  let spec := default (makeIdentitySpec store "" "" [] 0) (specFor store "grpc.h2.unary.empty") in
  let o := invoke unstore (served store unstore) (request_frames store spec) spec plain_env in
  GRPCStatus o = "0" /\ ResponseFrame o = [0; 0; 0; 0; 0].
Proof.
  intros spec o.
  destruct (verdict_is_earned unstore (served store unstore) (request_frames store spec) spec plain_env
              ltac:(vm_compute; reflexivity))
    as (resp & ms & _ & _ & _ & _ & _ & _ & _ & _ & _ & _ & H & _).
  split; [exact H|vm_compute; reflexivity].
Defined.

(** ** Terminal outcomes *)

(** How the transport ends the three terminal RPCs of this server: the trailers-only call
    is answered; the handler of the other two returns only when the request's context is
    done, so the deadline comes before any response, and the cancellation after the headers. *)
Definition terminal_served (gzip gunzip : bytes -> res bytes) (mode : string) (r : request) : res response :=
  let? resp := served gzip gunzip r in
  if String.eqb mode "deadline-exceeded" then Err (EWrap "Post" EDeadline)
  else if String.eqb mode "client-cancellation"
  then Ok (Response (StatusCode resp) (PProtoMajor resp) (PProtoMinor resp) (HHeader resp) (Trailer resp)
             (Stream (st_data (Body resp)) ECanceled))
  else Ok resp.

Definition terminal_scenarios : list string :=
  ["grpc.h2.trailers-only-status"; "grpc.h2.deadline-exceeded"; "grpc.h2.client-cancellation"].

(** The three terminal scenarios pass against the server, exactly when the deadline one
    ends at 40 to 250 milliseconds, and they report the status their scenario expects with
    no response data. *)
Theorem terminal_scenarios_pass gzip gunzip scenario spec env :
  scenario ∈ terminal_scenarios -> specFor gzip scenario = Some spec -> te_request env = None ->
  let o := invokeTerminal (terminal_served gzip gunzip (terminalMode spec)) (request_frame gzip spec) spec env in
  GRPCStatus o = expectedStatus spec /\ NoResponseData o = true /\ ResponseMessageCount o = 0 /\
  (Passed o = true <->
   (terminalMode spec = "deadline-exceeded" -> 40 * millisecond <= te_latency env < 250 * millisecond)).
Proof.
  intros Hs Hspec He. unfold terminal_scenarios in Hs.
  repeat (apply elem_of_cons in Hs as [->|Hs]); [..|by apply not_elem_of_nil in Hs];
    unfold specFor in Hspec; repeat decide_closed_in Hspec; apply (inj Some) in Hspec as <-;
    destruct env as [req lat dl ca]; cbn [te_request] in He; subst req.
  - cbv zeta. match goal with |- context [invokeTerminal ?c ?f ?s ?e] =>
      assert (Ho : invokeTerminal c f s e = terminal_observation
        (Some (Response 200 2 0 [("content-type", "application/grpc+proto"); ("grpc-encoding", "identity");
                 ("grpc-status", "3"); ("grpc-message", "plab invalid fixture")] None (Stream [] EEOF)))
        "3" "plab invalid fixture" false false false true true true lat "") by (vm_compute; reflexivity) end.
    rewrite Ho. split; [vm_compute; reflexivity|]. split; [reflexivity|]. split; [reflexivity|].
    split; [intros _ H; vm_compute in H; discriminate H|intros _; reflexivity].
  - cbv zeta. match goal with |- context [invokeTerminal ?c ?f ?s ?e] =>
      assert (Hc : c (terminal_request s f) = Err (EWrap "Post" EDeadline)) by (vm_compute; reflexivity);
      assert (Ho : invokeTerminal c f s e = terminal_observation None "4" "" false false true false true
        ((40 * millisecond <=? lat) && (lat <? 250 * millisecond)) lat "deadline outcome mismatch")
        by (unfold invokeTerminal; rewrite Hc; reflexivity); clear Hc end.
    rewrite Ho. split; [vm_compute; reflexivity|]. split; [reflexivity|]. split; [reflexivity|].
    cbn [Passed terminal_observation te_latency].
    rewrite andb_true_iff, Z.leb_le, Z.ltb_lt. split; [intros H _; exact H|].
    intros H. apply H. vm_compute. reflexivity.
  - cbv zeta. match goal with |- context [invokeTerminal ?c ?f ?s ?e] =>
      assert (Ho : invokeTerminal c f s e = terminal_observation
        (Some (Response 200 2 0 [("content-type", "application/grpc+proto"); ("grpc-encoding", "identity");
                 ("x-plab-ready", "1")] None (Stream [] ECanceled)))
        "1" "" true true false false true true lat "") by (vm_compute; reflexivity) end.
    rewrite Ho. split; [vm_compute; reflexivity|]. split; [reflexivity|]. split; [reflexivity|].
    split; [intros _ H; vm_compute in H; discriminate H|intros _; reflexivity].
Qed.

Lemma terminal_scenarios_pass_witness :
  exists spec, specFor store "grpc.h2.deadline-exceeded" = Some spec /\
    let o := invokeTerminal (terminal_served store unstore (terminalMode spec)) (request_frame store spec) spec
               (TerminalEnv None 50000000 true false) in
    Passed o = true.
Proof.
  eexists. split; [reflexivity|]. cbv zeta.
  destruct (terminal_scenarios_pass store unstore "grpc.h2.deadline-exceeded" _
              (TerminalEnv None 50000000 true false) ltac:(right; left) eq_refl eq_refl) as (_ & _ & _ & H).
  apply H. intros _. unfold millisecond. simpl. lia.
Defined.

(** ** The server's success status is earned *)

Lemma w_header_write_header c w : w_header (write_header c w) = w_header w.
Proof. unfold write_header. by destruct (w_status w). Qed.

Lemma w_header_write_body p w : w_header (write_body p w).2 = w_header w.
Proof.
  unfold write_body. destruct (w_faults _) as [|[e|] f]; cbn; apply w_header_write_header.
Qed.

Lemma header_get_filter (P : string -> bool) h n :
  header_get (List.filter (fun '(k, _) => P k) h) n = if P n then header_get h n else "".
Proof.
  induction h as [|[k v] h IH]; cbn [List.filter header_get]; [by destruct (P n)|].
  destruct (String.eqb k n) eqn:E.
  - apply String.eqb_eq in E as ->. destruct (P n) eqn:Ep; cbn; [by rewrite String.eqb_refl|by rewrite IH].
  - destruct (P k); cbn; [by rewrite E|done].
Qed.

(** A trailer the client sees is a header the handler set. *)
Lemma trailer_is_header w n v :
  v <> "" -> trailer_get (response_of w) n = v -> header_get (w_header w) n = v.
Proof.
  intros Hv. unfold response_of, trailer_get. destruct (default _ _) as [code sent]. cbn [Trailer].
  destruct (declared sent) as [|d ds]; [by intros <-|].
  rewrite (header_get_filter (fun k => string_in (d :: ds) k)), w_header_write_header.
  destruct (string_in _ n); [done|by intros <-].
Qed.

Definition status_of (w : writer) : string := header_get (w_header w) "grpc-status".

Lemma status_set_header n v w : status_of (set_header n v w) = if String.eqb n "grpc-status" then v else status_of w.
Proof.
  unfold status_of. cbn [set_header w_header]. destruct (String.eqb n "grpc-status") eqn:E.
  - apply String.eqb_eq in E as ->. apply header_get_set.
  - by apply header_get_set_ne.
Qed.
Lemma status_write_header c w : status_of (write_header c w) = status_of w.
Proof. unfold status_of. by rewrite w_header_write_header. Qed.
Lemma status_write_body p w : status_of (write_body p w).2 = status_of w.
Proof. unfold status_of. by rewrite w_header_write_body. Qed.

Create HintDb grpc_status.
#[export] Hint Rewrite status_set_header status_write_header status_write_body : grpc_status.

Lemma status_error status message w : status_of (writeGRPCError status message w) = status.
Proof. unfold writeGRPCError. by autorewrite with grpc_status. Qed.
Lemma status_http_error message code w : status_of (http_error message code w) = status_of w.
Proof. unfold http_error. by autorewrite with grpc_status. Qed.
Lemma status_not_found w : status_of (not_found w) = status_of w.
Proof. apply status_http_error. Qed.
#[export] Hint Rewrite status_error status_http_error status_not_found : grpc_status.

Lemma status_writeFrames frames w : status_of (writeFrames frames w).2 = status_of w.
Proof.
  revert w. induction frames as [|f frames IH]; intros w; cbn [writeFrames]; [done|].
  pose proof (status_write_body f w) as Hs. destruct (write_body f w) as [[e|] w']; cbn [snd] in Hs; [done|].
  by rewrite IH.
Qed.

(** The serialized form of [n] octets [b], in [serialized] octets: the field's tag first, the
    payload last. *)
Definition holds_payload (n b serialized : Z) (protobuf : bytes) : Prop :=
  len protobuf = serialized /\ decodeProtobuf protobuf = Ok (replicate (Z.to_nat n) b) /\
  (0 < n -> exists varint, protobuf = 10 :: varint ++ replicate (Z.to_nat n) b).

Lemma get_varint_suffix l : forall n s k r, get_varint l n s = Ok (k, r) -> exists v, l = v ++ r.
Proof.
  induction l as [|b l IH]; intros n s k r H; [done|]. cbn [get_varint] in H.
  destruct (63 <? s); [done|]. destruct (b <? 128); [simplify_eq; by exists [b]|].
  apply IH in H as [v ->]. by exists (b :: v).
Qed.

Lemma decodeProtobuf_layout protobuf payload :
  decodeProtobuf protobuf = Ok payload -> payload <> [] -> exists varint, protobuf = 10 :: varint ++ payload.
Proof.
  destruct protobuf as [|tag p]; cbn [decodeProtobuf]; intros H Hne; [by simplify_eq|].
  destruct (Z.eqb_spec tag 10) as [->|]; [|done].
  destruct (get_varint p 0 0) as [[n rest]|] eqn:E; [|done]. cbn [res_bind] in H.
  destruct (_ =? _); [|done]. simplify_eq. apply get_varint_suffix in E as [v ->]. by exists v.
Qed.

Lemma fixed_payload_holds n b k payload protobuf :
  fixed_payload n b k payload protobuf = true -> decodeProtobuf protobuf = Ok payload -> holds_payload n b k protobuf.
Proof.
  unfold fixed_payload. intros H Hd. reflect_bools.
  match goal with X : payload = _ |- _ => rename X into Hp end.
  split; [done|]. split; [by rewrite <-Hp|]. intros Hn. rewrite <-Hp. apply decodeProtobuf_layout; [done|].
  intros ->. match goal with X : len [] = _ |- _ => change (0 = n) in X end. lia.
Qed.

(** A frame of the streaming contract: not compressed, the length of what follows in four
    octets, 1024 octets of 66. *)
Definition valid_frame (f : bytes) : Prop :=
  byte_at f 0 = 0 /\ be_decode (slice 1 5 f) = len (drop 5 f) /\ len f = 1032 /\
  holds_payload 1024 66 1027 (drop 5 f).

Lemma readIdentityFrame_valid s frame protobuf payload s' :
  readIdentityFrame s = (Ok (frame, protobuf, payload), s') ->
  validStreamingPayload payload protobuf = true ->
  st_data s = frame ++ st_data s' /\ st_end s' = st_end s /\ valid_frame frame.
Proof.
  unfold readIdentityFrame. intros H Hv.
  destruct (read_full 5 s) as [[header|e] s1] eqn:E1; [|done]. destruct (Z.eqb_spec (byte_at header 0) 0) as [H0|]; [|done].
  cbn [negb] in H. cbv zeta in H. destruct (_ || _) eqn:Er; [done|]. apply orb_false_iff in Er as [Er _].
  apply Z.ltb_ge in Er.
  destruct (read_full _ s1) as [[m|e] s2] eqn:E2; [|done].
  destruct (decodeProtobuf m) as [p|] eqn:Ed; [|done]. simplify_eq.
  apply read_full_ok in E1 as (L1 & D1 & F1). apply read_full_ok in E2 as (L2 & D2 & F2).
  split; [by rewrite D1, D2, app_assoc|]. split; [by rewrite F2|].
  apply (fixed_payload_holds 1024 66 1027) in Hv; [|done]. destruct Hv as (Hl & Hv).
  unfold valid_frame. rewrite drop_app_length' by done.
  destruct header as [|h0 [|h1 [|h2 [|h3 [|h4 [|]]]]]]; try done.
  split; [done|]. split; [|split; [|done]].
  - change (be_decode [h1; h2; h3; h4] = len protobuf). change (0 <= be_decode [h1; h2; h3; h4]) in Er.
    change (length protobuf = Z.to_nat (be_decode [h1; h2; h3; h4])) in L2. unfold len. lia.
  - rewrite len_app, Hl. done.
Qed.

Lemma more_follows_end s : more_follows s = false -> st_data s = [] /\ errors_is EEOF (st_end s) = true.
Proof.
  unfold more_follows, read_one. destruct (st_data s); [|done]. cbn [negb orb Z.eqb].
  intros H. by apply negb_false_iff in H.
Qed.

Lemma readRequests_valid n : forall s frames s',
  readRequests n s = Some (frames, s') ->
  length frames = n /\ st_data s = concat frames ++ st_data s' /\ st_end s' = st_end s /\ Forall valid_frame frames.
Proof.
  induction n as [|n IH]; intros s frames s' H; cbn [readRequests] in H; [by simplify_eq|].
  destruct (readIdentityFrame s) as [[[[frame protobuf] payload]|] s1] eqn:E; [|done].
  destruct (validStreamingPayload payload protobuf) eqn:Ev; [|done].
  destruct (readRequests n s1) as [[fs s2]|] eqn:Er; [|done]. simplify_eq.
  destruct (readIdentityFrame_valid _ _ _ _ _ E Ev) as (D & F & Hf).
  destruct (IH _ _ _ Er) as (<- & D' & F' & Hall).
  cbn [length concat]. rewrite D, D', F', F, app_assoc. split_and!; try done. by constructor.
Qed.

Lemma bidiLoop_valid n : forall started s w s' w',
  bidiLoop n started s w = (false, s', w') ->
  status_of w' = status_of w /\
  exists frames, length frames = n /\ st_data s = concat frames ++ st_data s' /\ st_end s' = st_end s /\
    Forall valid_frame frames.
Proof.
  induction n as [|n IH]; intros started s w s' w' H; cbn [bidiLoop] in H.
  { simplify_eq. split; [done|]. by exists []. }
  destruct (readIdentityFrame s) as [[[[frame protobuf] payload]|] s1] eqn:E; [|done].
  destruct (validStreamingPayload payload protobuf) eqn:Ev; [|done].
  destruct (readIdentityFrame_valid _ _ _ _ _ E Ev) as (D & F & Hf).
  pose proof (status_write_body frame (if started then w else write_header 200 w)) as Hs.
  destruct (write_body _ _) as [[e|] w1]; [done|]. cbn [snd] in Hs.
  destruct (IH _ _ _ _ _ H) as (-> & frames & <- & D' & F' & Hall). split.
  { rewrite Hs. destruct started; by autorewrite with grpc_status. }
  exists (frame :: frames). cbn [length concat]. rewrite D, D', F', F, app_assoc.
  split_and!; try done. by constructor.
Qed.

Lemma bidiLoop_early n : forall started s w s' w',
  bidiLoop n started s w = (true, s', w') -> status_of w' = status_of w \/ status_of w' = "3".
Proof.
  induction n as [|n IH]; intros started s w s' w' H; cbn [bidiLoop] in H; [done|].
  assert (Hrefuse : forall s1, (true, s1, set_header "grpc-message" "invalid deterministic bidirectional request"
      (set_header "grpc-status" "3" (if started then w else write_header 200 w))) = (true, s', w') -> status_of w' = "3").
  { intros s1 [= _ <-]. by autorewrite with grpc_status. }
  destruct (readIdentityFrame s) as [[[[frame protobuf] payload]|] s1]; [|right; by eapply Hrefuse].
  destruct (validStreamingPayload payload protobuf); [|right; by eapply Hrefuse].
  pose proof (status_write_body frame (if started then w else write_header 200 w)) as Hs.
  assert (Hw : status_of (if started then w else write_header 200 w) = status_of w)
    by (destruct started; by autorewrite with grpc_status).
  destruct (write_body _ _) as [[e|] w1]; cbn [snd] in Hs; [simplify_eq; left; congruence|].
  destruct (IH _ _ _ _ _ H) as [->| ->]; [left; congruence|by right].
Qed.

(** The messages a streaming method asks for. *)
Definition stream_requests (m : string) : nat :=
  if String.eqb m "ServerStreamingEcho" then 1 else Z.to_nat streamMessageCount.
Definition streaming_names : list string := ["ServerStreamingEcho"; "ClientStreamingEcho"; "BidirectionalStreamingEcho"].

Definition valid_requests (n : nat) (s : stream) : Prop :=
  exists frames, length frames = n /\ st_data s = concat frames /\ errors_is EEOF (st_end s) = true /\
    Forall valid_frame frames.

Lemma handleStreaming_earned m r w :
  m ∈ streaming_names -> status_of w = "" -> status_of (handleStreaming r m w) = "0" ->
  valid_requests (stream_requests m) (RBody r).
Proof.
  intros Hm Hw. unfold handleStreaming. destruct (String.eqb m "BidirectionalStreamingEcho") eqn:Eb.
  - apply String.eqb_eq in Eb as ->. unfold handleBidirectionalStreaming.
    set (w0 := set_header "trailer" _ _). assert (Hw0 : status_of w0 = "").
    { subst w0. by autorewrite with grpc_status. }
    clearbody w0. destruct (bidiLoop _ _ _ _) as [[[] s'] w'] eqn:E.
    { apply bidiLoop_early in E as [->| ->]; [by rewrite Hw0|done]. }
    apply bidiLoop_valid in E as (_ & frames & Hl & D & F & Hall).
    destruct (more_follows s') eqn:Em; autorewrite with grpc_status; [done|]. intros _.
    apply more_follows_end in Em as [D' E']. rewrite D', app_nil_r in D. rewrite F in E'. by exists frames.
  - destruct (readRequests _ _) as [[frames s']|] eqn:E; [|by rewrite status_error].
    apply readRequests_valid in E as (Hl & D & F & Hall).
    destruct (more_follows s') eqn:Em; [by rewrite status_error|].
    apply more_follows_end in Em as [D' E']. rewrite D', app_nil_r in D. rewrite F in E'. intros _.
    exists frames. split_and!; try done. rewrite Hl.
    repeat (apply elem_of_cons in Hm as [->|Hm]); [reflexivity|reflexivity|done|by apply not_elem_of_nil in Hm].
Qed.

(** The payloads of the contract, per unary method: how many octets, which one, and the
    length of the serialized message. *)
Definition contract_payloads : list (string * (Z * Z * Z)) :=
  [("UnaryEcho", (0, 0, 0)); ("UnaryEcho", (128, 71, 131)); ("UnaryEcho", (1048576, 76, 1048580));
   ("UnaryGzip", (1024, 66, 1027)); ("UnaryFixedMetadata", (128, 71, 131))].

(** One envelope around one of the method's payloads: the compressed flag, the length of
    the message in four octets, the message, and (uncompressed) the end of the body. *)
Definition unary_body (gunzip : bytes -> res bytes) (m : string) (s : stream) : Prop :=
  exists frame protobuf n b serialized,
    frame = take (Z.to_nat 1048586) (st_data s) /\ 5 <= len frame /\
    be_decode (slice 1 5 frame) = len (drop 5 frame) /\
    (m, (n, b, serialized)) ∈ contract_payloads /\ holds_payload n b serialized protobuf /\
    (m = "UnaryGzip" -> byte_at frame 0 = 1 /\ gunzip (drop 5 frame) = Ok protobuf) /\
    (m <> "UnaryGzip" -> byte_at frame 0 = 0 /\ drop 5 frame = protobuf /\ st_data s = frame /\ st_end s = EEOF).

(** What a call of the method must be for the server to report success. *)
Record success_earned (gunzip : bytes -> res bytes) (m : string) (r : request) : Prop := {
  se_transport : ProtoMajor r = 2 /\ TLS r = Some (0x0304, "h2") /\ Method r = "POST";
  se_path : Path r = "/protocollab.performance.v1.EchoService/" +:+ m \/ Path r = m;
  se_headers : String.prefix "application/grpc+proto" (to_lower (header_get (RHeader r) "content-type")) = true /\
    (exists value item, value ∈ header_values (RHeader r) "te" /\ item ∈ split_on ","%char value /\
       equal_fold (trim_space item) "trailers" = true);
  se_encoding : header_get (RHeader r) "grpc-encoding" = (if String.eqb m "UnaryGzip" then "gzip" else "identity") /\
    header_get (RHeader r) "grpc-accept-encoding" = (if String.eqb m "UnaryGzip" then "gzip" else "identity");
  se_metadata : m = "UnaryFixedMetadata" ->
    header_get (RHeader r) "x-plab-text" = "protocol-lab" /\
    base64_raw_decode (trim_right_char "="%char (header_get (RHeader r) "x-plab-bin-bin")) = Some [0; 1; 2; 3];
  se_body :
    (m ∈ ["UnaryEcho"; "UnaryGzip"; "UnaryFixedMetadata"] /\ unary_body gunzip m (RBody r)) \/
    (m = "ServerStreamingEcho" /\ valid_requests 1 (RBody r)) \/
    (m ∈ ["ClientStreamingEcho"; "BidirectionalStreamingEcho"] /\ valid_requests 100 (RBody r))
}.

Lemma handleClientCancellation_status gunzip r w :
  status_of w = "" -> status_of (handleClientCancellation gunzip r w) <> "0".
Proof.
  intros Hw. unfold handleClientCancellation.
  destruct (read_all_limited _ _); [|by rewrite status_error].
  destruct (GrpcServer.decodeFrame _ _ _) as [[protobuf p]|]; [|by rewrite status_error].
  destruct (validScenarioPayload _ _ _); [|by rewrite status_error].
  cbv zeta. autorewrite with grpc_status. cbn [String.eqb Ascii.eqb Bool.eqb]. by rewrite Hw.
Qed.

Lemma read_all_limited_body n s body : 0 <= n -> read_all_limited n s = Ok body ->
  body = take (Z.to_nat n) (st_data s) /\ (len body < n -> st_data s = body /\ st_end s = EEOF).
Proof.
  intros Hn. unfold read_all_limited. pose proof (len_nonneg (st_data s)). unfold len in *.
  destruct (Z.leb_spec n (Z.of_nat (length (st_data s)))) as [Hl|Hl].
  - intros [= <-]. split; [done|]. rewrite length_take. lia.
  - destruct (st_end s) eqn:Ee; intros; simplify_eq. by rewrite take_ge by lia.
Qed.

Lemma prefix_app p s : String.prefix p s = true ->
  exists r, s = p +:+ r /\ String.substring (String.length p) (String.length s - String.length p) s = r.
Proof.
  revert s. induction p as [|c p IH]; intros s H.
  - exists s. split; [done|]. rewrite Nat.sub_0_r. clear H. induction s as [|d s IHs]; [done|]. simpl. by f_equal.
  - destruct s as [|d s]; [done|]. simpl in H. destruct (ascii_dec c d) as [->|]; [|done].
    destruct (IH _ H) as (r & -> & Hr). exists r. by split.
Qed.

Lemma trim_prefix_cases s p m : trim_prefix s p = m -> s = p +:+ m \/ s = m.
Proof.
  unfold trim_prefix. destruct (String.prefix p s) eqn:E; [|auto].
  apply prefix_app in E as (r & -> & ->). intros ->. by left.
Qed.

Lemma headerContainsToken_true h name token : headerContainsToken h name token = true ->
  exists value item, value ∈ header_values h name /\ item ∈ split_on ","%char value /\
    equal_fold (trim_space item) token = true.
Proof.
  unfold headerContainsToken. intros H. apply existsb_exists in H as (value & Hv & H).
  apply existsb_exists in H as (item & Hi & H). exists value, item. by rewrite !list_elem_of_In.
Qed.

Lemma matchesBinaryMetadata_true value : matchesBinaryMetadata value = true ->
  base64_raw_decode (trim_right_char "="%char value) = Some [0; 1; 2; 3].
Proof.
  unfold matchesBinaryMetadata. destruct (base64_raw_decode _); [|done].
  intros H. by apply bool_decide_eq_true_1 in H as ->.
Qed.

Lemma validScenarioPayload_contract m payload protobuf :
  m ∈ unary_methods -> validScenarioPayload m payload protobuf = true -> decodeProtobuf protobuf = Ok payload ->
  exists n b serialized, (m, (n, b, serialized)) ∈ contract_payloads /\ holds_payload n b serialized protobuf.
Proof.
  intros Hm Hv Hd. unfold unary_methods in Hm.
  assert (Hin : forall n b k, existsb (fun c => bool_decide (c = (m, (n, b, k)))) contract_payloads = true ->
    (m, (n, b, k)) ∈ contract_payloads).
  { intros n b k H. apply existsb_exists in H as (c & Hc & H). apply bool_decide_eq_true_1 in H as <-.
    by apply list_elem_of_In. }
  assert (Hfix : forall n b k, fixed_payload n b k payload protobuf = true ->
    existsb (fun c => bool_decide (c = (m, (n, b, k)))) contract_payloads = true ->
    exists n b serialized, (m, (n, b, serialized)) ∈ contract_payloads /\ holds_payload n b serialized protobuf).
  { intros n b k Hf H. exists n, b, k. split; [by apply Hin|by eapply fixed_payload_holds]. }
  repeat (apply elem_of_cons in Hm as [->|Hm]; [|]); [| | |by apply not_elem_of_nil in Hm].
  - change (((len payload =? 0) && (len protobuf =? 0) || fixed_payload 128 71 131 payload protobuf
      || fixed_payload 1048576 76 1048580 payload protobuf) = true) in Hv.
    apply orb_true_iff in Hv as [Hv|Hv]; [apply orb_true_iff in Hv as [Hv|Hv]|].
    + exists 0, 0, 0. split; [by apply Hin|]. apply andb_true_iff in Hv as [Hp Hs].
      apply Z.eqb_eq in Hp, Hs. split; [done|]. split; [|lia].
      destruct payload; [done|]. unfold len in Hp. simpl in Hp. lia.
    + by apply (Hfix _ _ _ Hv).
    + by apply (Hfix _ _ _ Hv).
  - by apply (Hfix _ _ _ Hv).
  - by apply (Hfix _ _ _ Hv).
Qed.

Lemma unary_body_earned gunzip m s body protobuf payload :
  m ∈ unary_methods -> read_all_limited (maxFrameBytes + 1) s = Ok body ->
  GrpcServer.decodeFrame gunzip body (if String.eqb m "UnaryGzip" then "gzip" else "identity") = Ok (protobuf, payload) ->
  validScenarioPayload m payload protobuf = true -> unary_body gunzip m s.
Proof.
  intros Hm Hr Hd Hv. apply read_all_limited_body in Hr as [Ht Hr]; [|unfold maxFrameBytes; lia].
  unfold GrpcServer.decodeFrame, decodeFrame_with in Hd.
  destruct (Z.leb_spec 5 (len body)) as [H5|]; [|done]. cbn [andb] in Hd.
  destruct (Z.eqb_spec (be_decode (slice 1 5 body)) (len body - 5)) as [Hl|]; [|done].
  assert (Hdl : len (drop 5 body) = len body - 5) by (unfold len in *; rewrite length_drop; lia).
  assert (Hp : decodeProtobuf protobuf = Ok payload /\
    (m = "UnaryGzip" -> byte_at body 0 = 1 /\ gunzip (drop 5 body) = Ok protobuf) /\
    (m <> "UnaryGzip" -> byte_at body 0 = 0 /\ drop 5 body = protobuf)).
  { destruct (String.eqb_spec m "UnaryGzip") as [->|Hg].
    - change (String.eqb "gzip" "gzip") with true in Hd. cbv iota in Hd.
      destruct (Z.eqb_spec (byte_at body 0) 1) as [|]; [|done].
      destruct (gunzip _) as [x|] eqn:Eg; [|done]. cbn [res_bind] in Hd.
      destruct (decodeProtobuf x) eqn:Ep; [|done]. by simplify_eq/=.
    - change (String.eqb "identity" "gzip") with false in Hd. cbv iota in Hd.
      destruct (Z.eqb_spec (byte_at body 0) 0) as [|]; [|done]. cbn [res_bind] in Hd.
      destruct (decodeProtobuf _) eqn:Ep; [|done]. by simplify_eq/=. }
  destruct Hp as (Hp & Hgz & Hid).
  destruct (validScenarioPayload_contract _ _ _ Hm Hv Hp) as (n & b & k & Hc & Hh).
  exists body, protobuf, n, b, k. split; [exact Ht|]. split; [done|]. split; [lia|]. split; [done|]. split; [done|].
  split; [done|]. intros Hg. destruct (Hid Hg) as [H0 Hdrop]. split; [done|]. split; [done|]. apply Hr.
  assert (Hk : len protobuf <= 1048580).
  { destruct Hh as [-> _]. clear -Hc. unfold contract_payloads in Hc.
    repeat (apply elem_of_cons in Hc as [Hc|Hc]; [simplify_eq; lia|]). by apply not_elem_of_nil in Hc. }
  rewrite Hdrop in Hdl. unfold maxFrameBytes. lia.
Qed.

Lemma methods_disjoint m : m ∈ streaming_names -> m ∈ unary_methods -> False.
Proof.
  intros H. unfold streaming_names in H.
  repeat (apply elem_of_cons in H as [->|H]; [by apply (bool_decide_unpack _)|]). by apply not_elem_of_nil in H.
Qed.

Lemma method_cases m :
  string_in methods m = true ->
  m ∈ unary_methods ++ streaming_names \/ m ∈ ["TrailersOnlyStatus"; "DeadlineExceeded"; "ClientCancellation"].
Proof.
  intros H. apply string_in_elem in H. unfold methods in H.
  repeat (apply elem_of_cons in H as [->|H]; [set_solver|]). by apply not_elem_of_nil in H.
Qed.

(** C5: the server reports success only for what its contract names. A grpc-status 0 means
    HTTP/2 over TLS 1.3 with ALPN h2, POST, the path of an echo method, a gRPC content type,
    "trailers" accepted, the method's own encoding named twice, and for fixed metadata the
    two fixed values. The body of a unary call is one envelope, with the flag of that
    encoding and an exact length, around one of the method's fixed payloads: nothing, 128
    octets of 71 or 1 MiB of 76 for UnaryEcho, 1024 octets of 66 for UnaryGzip, 128 octets
    of 71 for UnaryFixedMetadata. That of a streaming call is exactly 1 or 100 such
    envelopes of 1024 octets of 66, then the end. *)
Theorem server_success_earned gzip gunzip r faults :
  trailer_get (response_of (handleRPC gzip gunzip r (writer_new faults))) "grpc-status" = "0" ->
  success_earned gunzip (trim_prefix (Path r) servicePath) r.
Proof.
  intros H. apply trailer_is_header in H; [|done].
  change (status_of (handleRPC gzip gunzip r (writer_new faults)) = "0") in H.
  assert (Hw : status_of (writer_new faults) = "") by done.
  revert H Hw. generalize (writer_new faults). intros w H Hw. unfold handleRPC in H.
  pose proof (trim_prefix_cases (Path r) servicePath _ eq_refl) as Hpath.
  set (m := trim_prefix (Path r) servicePath) in *. clearbody m.
  destruct (negb (ProtoMajor r =? 2) || _) eqn:E1; [by rewrite status_http_error, Hw in H|].
  destruct (negb (String.eqb (Method r) "POST")) eqn:E2; [by rewrite status_not_found, Hw in H|].
  destruct (negb (string_in methods m)) eqn:E3; [by rewrite status_not_found, Hw in H|].
  destruct (negb (has_prefix _ _) || _) eqn:E4; [by rewrite status_http_error, Hw in H|].
  cbv zeta in H. destruct (negb (String.eqb (header_get _ "grpc-encoding") _) || _) eqn:E5; [by rewrite status_error in H|].
  destruct (String.eqb m "UnaryFixedMetadata" && _) eqn:E6; [by rewrite status_error in H|].
  destruct (String.eqb m "ClientCancellation") eqn:Ec; [by apply handleClientCancellation_status in H|].
  apply orb_false_iff in E1 as [P1 P2]. destruct (TLS r) as [[v n]|] eqn:Et; [|done].
  apply orb_false_iff in P2 as [P2 P3], E4 as [P4 P5], E5 as [P6 P7]. apply negb_false_iff in P1, P2, P3, P4, P5, P6, P7, E2, E3.
  apply Z.eqb_eq in P1, P2. apply String.eqb_eq in P3, P6, P7, E2. subst v n.
  apply headerContainsToken_true in P5.
  assert (Hmeta : m = "UnaryFixedMetadata" -> header_get (RHeader r) "x-plab-text" = "protocol-lab" /\
    base64_raw_decode (trim_right_char "="%char (header_get (RHeader r) "x-plab-bin-bin")) = Some [0; 1; 2; 3]).
  { intros ->. apply orb_false_iff in E6 as [M1 M2]. apply negb_false_iff in M1, M2.
    apply String.eqb_eq in M1. by apply matchesBinaryMetadata_true in M2. }
  constructor; [done|exact Hpath|done|done|done|]. clear -H Hw Ec E3.
  destruct (string_in [_; _; _] m) eqn:Es.
  - right. apply string_in_elem in Es. apply handleStreaming_earned in H; [|done|done].
    repeat (apply elem_of_cons in Es as [->|Es]); [by left|right; split; [left|done]|right; split; [right; left|done]|].
    by apply not_elem_of_nil in Es.
  - destruct (read_all_limited _ _) as [body|] eqn:Er; [|by rewrite status_error in H].
    destruct (GrpcServer.decodeFrame _ _ _) as [[protobuf payload]|] eqn:Ed; [|by rewrite status_error in H].
    destruct (negb (validScenarioPayload _ _ _)) eqn:Ev; [by rewrite status_error in H|]. apply negb_false_iff in Ev.
    destruct (String.eqb m "DeadlineExceeded") eqn:E5.
    { destruct (negb (String.eqb _ "50m")); [by rewrite status_error in H|by rewrite Hw in H]. }
    destruct (String.eqb m "TrailersOnlyStatus") eqn:E6; [by autorewrite with grpc_status in H|].
    left. apply method_cases in E3 as [Hm|Hm].
    + apply elem_of_app in Hm as [Hm|Hx]; [split; [done|by eapply unary_body_earned]|].
      apply elem_of_string_in in Hx. unfold streaming_names in Hx. by rewrite Hx in Es.
    + exfalso. clear -Hm Ec E5 E6.
      repeat (apply elem_of_cons in Hm as [->|Hm]; [done|]). by apply not_elem_of_nil in Hm.
Qed.

Lemma server_success_earned_witness :
  let r := Request 2 (Some (VersionTLS13, "h2")) "POST" (servicePath +:+ "UnaryFixedMetadata")
    [("content-type", "application/grpc+proto"); ("te", "trailers"); ("grpc-encoding", "identity");
     ("grpc-accept-encoding", "identity"); ("x-plab-text", "protocol-lab"); ("x-plab-bin-bin", "AAECAw")]
    (Stream (identity_frame (encodeProtobuf (replicate 128 71))) EEOF) in
  success_earned unstore "UnaryFixedMetadata" r.
Proof.
  intros r. exact (server_success_earned store unstore r [] ltac:(vm_compute; reflexivity)).
Defined.
