(* ===== verification/GrpcMain.v ===== *)
(** The exit code of go-grpc-h2-executor: zero is earned, on all three execution paths. *)
From Stdlib Require Import Ascii.
From S2P Require Export Prelude GoText GoHash GoHttp GrpcCodec GrpcServer GrpcClient GrpcProps.

(** ** The contract of a run *)

(** How a scenario ends: an answer on one channel, an answer on each of ten new channels, a
    status without a body, a deadline, a cancellation. *)
Inductive ending := Answered | TenChannels | TrailersOnlyEnd | DeadlineEnd | CancellationEnd.

(** A scenario: its RPC method, the encoding, the payload (how many octets, which one), how
    many messages answer, how it ends, and the load profiles it may be run under. *)
Record scenarioRow := Row {
  r_scenario : string; r_method : string; r_encoding : string; r_octets : Z; r_octet : Z;
  r_responses : Z; r_ending : ending; r_profiles : list string
}.

(** The code binds the churn profile to no scenario of its own: those without a terminal
    mode may all be run under it, on one channel but for the last. *)
Definition smoke : list string := ["grpc-h2-smoke"; "grpc-h2-channel-churn"].
Definition diagnostic : list string := ["grpc-h2-diagnostic"; "grpc-h2-channel-churn"].

Definition contract : list scenarioRow :=
  [Row "grpc.h2.unary.echo" "UnaryEcho" "identity" 128 71 1 Answered smoke;
   Row "grpc.h2.unary.empty" "UnaryEcho" "identity" 0 71 1 Answered diagnostic;
   Row "grpc.h2.unary.fixed-metadata" "UnaryFixedMetadata" "identity" 128 71 1 Answered diagnostic;
   Row "grpc.h2.unary.gzip" "UnaryGzip" "gzip" 1024 66 1 Answered diagnostic;
   Row "grpc.h2.unary.large" "UnaryEcho" "identity" 1048576 76 1 Answered diagnostic;
   Row "grpc.h2.server-streaming.echo" "ServerStreamingEcho" "identity" 1024 66 100 Answered smoke;
   Row "grpc.h2.client-streaming.echo" "ClientStreamingEcho" "identity" 1024 66 1 Answered smoke;
   Row "grpc.h2.bidi-streaming.echo" "BidirectionalStreamingEcho" "identity" 1024 66 100 Answered smoke;
   Row "grpc.h2.trailers-only-status" "TrailersOnlyStatus" "identity" 128 71 0 TrailersOnlyEnd ["grpc-h2-diagnostic"];
   Row "grpc.h2.deadline-exceeded" "DeadlineExceeded" "identity" 128 71 0 DeadlineEnd ["grpc-h2-diagnostic"];
   Row "grpc.h2.client-cancellation" "ClientCancellation" "identity" 128 71 0 CancellationEnd ["grpc-h2-diagnostic"];
   Row "grpc.h2.unary.echo-new-channel" "UnaryEcho" "identity" 128 71 1 TenChannels ["grpc-h2-channel-churn"]].

Definition profile_loads : list (string * (string * string * string)) :=
  [("grpc-h2-smoke", ("5", "1", "1")); ("grpc-h2-diagnostic", ("10", "0", "1"));
   ("grpc-h2-channel-churn", ("30", "0", "3"))].

(** The variables have these values, blanks around them aside. *)
Definition variables (getenv : string -> string) (expected : list (string * string)) : Prop :=
  Forall (fun '(name, value) => trim_space (getenv name) = value) expected.

(** The identities, the scenario, a profile it is bound to, and that profile's load. *)
Definition selected (getenv : string -> string) (row : scenarioRow) : Prop :=
  exists profile duration warmup repetition,
    profile ∈ r_profiles row /\ (profile, (duration, warmup, repetition)) ∈ profile_loads /\
    variables getenv
      [("PLAB_EXECUTOR_ID", "go-grpc-h2-executor"); ("PLAB_EXECUTOR_VERSION", "0.4.2");
       ("PLAB_LOAD_GENERATOR_ID", "go-x-net-http2-grpc-load"); ("PLAB_LOAD_GENERATOR_VERSION", "0.4.2");
       ("PLAB_SCENARIO_ID", r_scenario row); ("PLAB_PROTOCOL", "h2");
       ("PLAB_PROTOCOL_VARIANT", match r_ending row with TenChannels => "grpc-over-h2-tls-new-channel"
                                 | _ => "grpc-over-h2-tls-alpn" end)] /\
    variables getenv
      [("PLAB_LOAD_PROFILE_ID", profile); ("PLAB_CONNECTIONS", "1"); ("PLAB_CONCURRENCY", "1");
       ("PLAB_STREAMS_PER_CONNECTION", "1"); ("PLAB_DURATION_SECONDS", duration);
       ("PLAB_WARMUP_SECONDS", warmup); ("PLAB_REPETITION", repetition)].

(** An https target, and the root certificate of the package. *)
Definition trusted (m : materialEnv) : Prop :=
  (exists host, mt_parse m = Ok ("https", host) /\ host <> "") /\
  (exists pem, mt_root m = Ok pem /\
     sha256_hex pem = "dda81fe80d268bbd91993339ceef728a7e9e181d1faee88af35d73be2a7b039b") /\
  mt_pool m = true.

(** TLS 1.3 with ALPN h2 on both sides and the leaf certificate of the package alone. *)
Definition authenticated (state : channelState) : Prop :=
  cs_version state = 0x0304 /\ cs_protocol state = "h2" /\ cs_mutual state = true /\
  exists der spki, cs_peer state = [(der, spki)] /\
    sha256_hex der = "4627eed7781247db01e5641e4799e1c71e45543c10e304c99ed74b6e0bc0e254" /\
    sha256_hex spki = "83737e10fac4d3acac8245615dc510b8c12deb8f4756af3eaddf21118f18e4ea".

Definition dialled (dial : res channelState) : Prop := exists state, dial = Ok state /\ authenticated state.
(** The same with a full handshake. *)
Definition dialled_anew (dial : res channelState) : Prop :=
  exists state, dial = Ok state /\ authenticated state /\ cs_resumed state = false.

(** The request of a scenario. *)
Definition asks (row : scenarioRow) (r : request) : Prop :=
  ProtoMajor r = 2 /\ Method r = "POST" /\ Path r = "/protocollab.performance.v1.EchoService/" +:+ r_method row /\
  header_get (RHeader r) "content-type" = "application/grpc+proto" /\ header_get (RHeader r) "te" = "trailers" /\
  header_get (RHeader r) "grpc-encoding" = r_encoding row.

(** A response over HTTP/2 with status 200 and a gRPC content type. *)
Definition grpc_response (resp : response) : Prop :=
  PProtoMajor resp = 2 /\ StatusCode resp = 200 /\
  to_lower (trim_space (nth 0 (split_on ";"%char (header_get (HHeader resp) "content-type")) ""))
    ∈ ["application/grpc"; "application/grpc+proto"].

Section main.
Variable gzip gunzip : bytes -> res bytes.

(** The channel answers the scenario's request with grpc-status 0 and exactly its messages,
    each with the length and the hash of the scenario's payload, then the end. *)
Definition answers (row : scenarioRow) (channel : request -> res response) : Prop :=
  exists r resp messages, asks row r /\ channel r = Ok resp /\ grpc_response resp /\
    trailer_get resp "grpc-status" = "0" /\ Z.of_nat (length messages) = r_responses row /\
    st_data (Body resp) = concat messages /\ errors_is EEOF (st_end (Body resp)) = true /\
    Forall (fun f => exists protobuf p, decodeFrame gunzip f (r_encoding row) = Ok (protobuf, p) /\
      len p = r_octets row /\ sha256_hex p = sha256_hex (replicate (Z.to_nat (r_octets row)) (r_octet row))) messages /\
    (r_method row = "UnaryGzip" -> header_get (HHeader resp) "grpc-encoding" = "gzip") /\
    (r_method row = "UnaryFixedMetadata" -> header_get (HHeader resp) "x-plab-text" = "protocol-lab" /\
       base64_raw_decode (trim_right_char "="%char (trailer_get resp "x-plab-bin-bin")) = Some [0; 1; 2; 3]).

(** The endings of the terminal scenarios. *)
Definition trailers_only (row : scenarioRow) (channel : request -> res response) : Prop :=
  exists r resp, asks row r /\ channel r = Ok resp /\ grpc_response resp /\
    header_get (HHeader resp) "grpc-status" = "3" /\ header_get (HHeader resp) "grpc-message" = "plab invalid fixture" /\
    Body resp = Stream [] EEOF.
Definition deadline_fired (row : scenarioRow) (channel : request -> res response) (t : terminalEnv) : Prop :=
  exists r e, asks row r /\ header_get (RHeader r) "grpc-timeout" = "50m" /\ channel r = Err e /\
    (errors_is EDeadline e = true \/ te_deadline t = true) /\ 40000000 <= te_latency t < 250000000.
Definition cancelled_when_ready (row : scenarioRow) (channel : request -> res response) (t : terminalEnv) : Prop :=
  exists r resp, asks row r /\ channel r = Ok resp /\ PProtoMajor resp = 2 /\ StatusCode resp = 200 /\
    header_get (HHeader resp) "x-plab-ready" = "1" /\ st_data (Body resp) = [] /\
    (errors_is ECanceled (st_end (Body resp)) = true \/ te_cancelled t = true).

(** What the run did, by the ending of its scenario. *)
Definition ended (row : scenarioRow) (env : grpcMainEnv) : Prop :=
  match r_ending row with
  | Answered => dialled (gm_dial env) /\ answers row (gm_channel env)
  | TenChannels => length (take 10 (gm_churn env)) = 10%nat /\
      Forall (fun c => dialled_anew (ch_dial c) /\ answers row (ch_channel c)) (take 10 (gm_churn env))
  | TrailersOnlyEnd => dialled_anew (gm_dial env) /\ trailers_only row (gm_channel env)
  | DeadlineEnd => dialled_anew (gm_dial env) /\ deadline_fired row (gm_channel env) (gm_terminal env)
  | CancellationEnd => dialled_anew (gm_dial env) /\ cancelled_when_ready row (gm_channel env) (gm_terminal env)
  end.

(** The counts of the result document. *)
Definition counts (row : scenarioRow) (result : executionResult) : Prop :=
  CompletedOperations result = match r_ending row with TenChannels => 10 | _ => 1 end /\
  FailedOperations result = 0 /\ TimedOutOperations result = 0 /\
  DeadlineExceededOperations result = match r_ending row with DeadlineEnd => 1 | _ => 0 end /\
  CancelledOperations result = match r_ending row with CancellationEnd => 1 | _ => 0 end.

(** ** The scenarios of [specFor] *)

Definition mode_of (e : ending) : string :=
  match e with
  | Answered | TenChannels => "" | TrailersOnlyEnd => "trailers-only"
  | DeadlineEnd => "deadline-exceeded" | CancellationEnd => "client-cancellation"
  end.
Definition churns (e : ending) : bool := match e with TenChannels => true | _ => false end.

Record spec_of (row : scenarioRow) (spec : scenarioSpec) : Prop := SpecOf {
  so_id : id spec = r_scenario row;
  so_path : path spec = "/protocollab.performance.v1.EchoService/" +:+ r_method row;
  so_encoding : compression spec = r_encoding row;
  so_payload : payload spec = replicate (Z.to_nat (r_octets row)) (r_octet row);
  so_hash : payloadHash spec = sha256Hex (payload spec);
  so_responses : responseCount spec = r_responses row;
  so_mode : terminalMode spec = mode_of (r_ending row);
  so_churn : String.eqb (lifecycle spec) newChannel = churns (r_ending row);
  so_metadata : r_method row = "UnaryFixedMetadata" -> metadataProfile spec = fixedMetadata;
  so_gzip : r_method row = "UnaryGzip" -> compression spec = "gzip";
  so_trailers : r_ending row = TrailersOnlyEnd -> expectedStatus spec = "3" /\ expectedMessage spec = "plab invalid fixture"
}.

(** The four ways a specification is built, for a payload of any length. *)
Section built.
Variables (i m : string) (n b rs : Z) (ps : list string).

Lemma built_plain ty c prof rq d st lc :
  (m = "UnaryFixedMetadata" -> prof = fixedMetadata) -> (m = "UnaryGzip" -> c = "gzip") -> String.eqb lc newChannel = false ->
  spec_of (Row i m c n b rs Answered ps) (makeSpec gzip i m ty c prof (replicate (Z.to_nat n) b) rq rs d st lc).
Proof. by constructor. Qed.

Lemma built_identity d :
  m <> "UnaryFixedMetadata" -> m <> "UnaryGzip" ->
  spec_of (Row i m "identity" n b 1 Answered ps) (makeIdentitySpec gzip i m (replicate (Z.to_nat n) b) d).
Proof. by constructor. Qed.

Lemma built_streaming ty rq :
  m <> "UnaryFixedMetadata" -> m <> "UnaryGzip" ->
  spec_of (Row i m "identity" 1024 66 rs Answered ps) (makeStreamingSpec gzip i m ty rq rs).
Proof. by constructor. Qed.

Lemma built_profile d :
  m <> "UnaryGzip" ->
  spec_of (Row i m "identity" n b 1 Answered ps)
    (with_profile fixedMetadata (makeIdentitySpec gzip i m (replicate (Z.to_nat n) b) d)).
Proof. by constructor. Qed.

Lemma built_terminal rpc status message e d :
  m <> "UnaryFixedMetadata" -> m <> "UnaryGzip" ->
  (e = TrailersOnlyEnd -> status = "3" /\ message = "plab invalid fixture") -> churns e = false ->
  spec_of (Row i m "identity" n b 0 e ps)
    (with_terminal rpc (mode_of e) status message (makeIdentitySpec gzip i m (replicate (Z.to_nat n) b) d)).
Proof. by constructor. Qed.

Lemma built_lifecycle d :
  m <> "UnaryFixedMetadata" -> m <> "UnaryGzip" ->
  spec_of (Row i m "identity" n b 1 TenChannels ps)
    (with_lifecycle newChannel (makeIdentitySpec gzip i m (replicate (Z.to_nat n) b) d)).
Proof. by constructor. Qed.
End built.

Lemma spec_for_row row s spec : row ∈ contract -> Some s = Some spec -> spec_of row s ->
  exists row, row ∈ contract /\ spec_of row spec.
Proof. intros ? [= <-] ?. by exists row. Qed.

Ltac built k lemma :=
  let row := eval cbv [contract nth] in (nth k contract (Row "" "" "" 0 0 0 Answered [])) in
  intros H; apply (spec_for_row row _ _ ltac:(unfold contract; repeat (left || right)) H); apply lemma; done.

Lemma specFor_row scenario spec :
  specFor gzip scenario = Some spec -> exists row, row ∈ contract /\ spec_of row spec.
Proof.
  unfold specFor. change (Z.shiftl 1 20) with 1048576.
  change (@nil Z) with (replicate (Z.to_nat 0) 71). change 128%nat with (Z.to_nat 128). change 1024%nat with (Z.to_nat 1024).
  repeat lazymatch goal with |- (if String.eqb scenario ?s then _ else _) = _ -> _ =>
    destruct (String.eqb_spec scenario s) as [->|_] end.
  - built 0%nat built_identity.
  - built 1%nat built_identity.
  - built 2%nat built_profile.
  - built 3%nat built_plain.
  - built 4%nat built_identity.
  - built 5%nat built_streaming.
  - built 6%nat built_streaming.
  - built 7%nat built_streaming.
  - built 8%nat built_terminal.
  - built 9%nat built_terminal.
  - built 10%nat built_terminal.
  - built 11%nat built_lifecycle.
  - done.
Qed.

(** ** The gates *)

Lemma all_expected_true getenv l : all_expected getenv l = true -> variables getenv l.
Proof.
  unfold all_expected, variables. intros H. apply forallb_True, Is_true_true_2 in H || idtac.
  apply Forall_forall. intros [n v] Hin. rewrite forallb_forall in H.
  apply list_elem_of_In in Hin. apply H in Hin. by apply String.eqb_eq in Hin.
Qed.

Lemma openChannel_ok dial client leaf : openChannel dial client = Ok leaf -> dialled_anew dial.
Proof.
  unfold openChannel. destruct dial as [state|]; [|done]. cbn [res_bind].
  destruct (cs_peer state) as [|[der spki] [|? ?]] eqn:Ep; [done| |done].
  destruct (_ && _) eqn:E; [|done]. destruct (leaf_matches _) eqn:El; [|done]. intros _.
  unfold leaf_matches in El. reflect_bools.
  repeat match goal with X : String.eqb _ _ = true |- _ => apply String.eqb_eq in X end.
  exists state. split; [done|]. split; [|done]. split_and!; try done. by exists der, spki.
Qed.

Lemma loadTargetAndRoots_ok m u : loadTargetAndRoots m = Ok u -> trusted m.
Proof.
  unfold loadTargetAndRoots. destruct (mt_parse m) as [[scheme host]|] eqn:Ep; [|done].
  destruct (String.eqb scheme "https" && _) eqn:E; [|done].
  destruct (mt_root m) as [pem|] eqn:Er; [|done]. cbn [res_bind].
  destruct (String.eqb (sha256Hex pem) _) eqn:Eh; [|done]. apply String.eqb_eq in Eh.
  destruct (mt_pool m) eqn:Eo; [|done]. intros _. reflect_bools.
  match goal with X : String.eqb scheme _ = true |- _ => apply String.eqb_eq in X as -> end.
  match goal with X : String.eqb host _ = false |- _ => apply String.eqb_neq in X end.
  split; [by exists host|]. split; [by exists pem|done].
Qed.

(** The three gates between scenario and profile leave the bindings of the contract. *)
Definition binds (row : scenarioRow) (profile : string) : bool :=
  negb (String.eqb profile profileSmoke
        && negb (string_in ["grpc.h2.unary.echo"; "grpc.h2.server-streaming.echo";
                            "grpc.h2.client-streaming.echo"; "grpc.h2.bidi-streaming.echo"] (r_scenario row)))
  && negb (negb (String.eqb (mode_of (r_ending row)) "") && negb (String.eqb profile profileDiagnostic))
  && negb (churns (r_ending row) && negb (String.eqb profile profileChannelChurn))
  && negb (String.eqb profile profileDiagnostic && String.eqb (mode_of (r_ending row)) ""
           && negb (churns (r_ending row))
           && negb (string_in ["grpc.h2.unary.empty"; "grpc.h2.unary.fixed-metadata"; "grpc.h2.unary.gzip";
                               "grpc.h2.unary.large"] (r_scenario row))).

Lemma bindings_exact row profile :
  row ∈ contract -> profile ∈ [profileSmoke; profileDiagnostic; profileChannelChurn] ->
  binds row profile = true -> profile ∈ r_profiles row.
Proof.
  intros Hr Hp Hb.
  assert (H : forallb (fun row => forallb (fun p => negb (binds row p) || string_in (r_profiles row) p)
    [profileSmoke; profileDiagnostic; profileChannelChurn]) contract = true) by (vm_compute; reflexivity).
  rewrite forallb_forall in H. apply list_elem_of_In, H in Hr.
  rewrite forallb_forall in Hr. apply list_elem_of_In, Hr in Hp. rewrite Hb in Hp. by apply string_in_elem in Hp.
Qed.

Lemma validateSelection_selected getenv row spec profile :
  row ∈ contract -> spec_of row spec -> validateSelection getenv spec = Ok profile -> selected getenv row.
Proof.
  intros Hrow Hs. unfold validateSelection. rewrite (so_id _ _ Hs), (so_churn _ _ Hs), (so_mode _ _ Hs).
  destruct (all_expected _ _) eqn:Ev; [|done]. apply all_expected_true in Ev. cbv zeta.
  set (p := observed getenv "PLAB_LOAD_PROFILE_ID").
  destruct (String.eqb p profileSmoke || _ || _) eqn:E1; [|done].
  destruct (negb (String.eqb p profileSmoke && _)) eqn:E2; [|done].
  destruct (negb (negb (String.eqb (mode_of _) "") && _)) eqn:E3; [|done].
  destruct (negb (churns _ && _)) eqn:E4; [|done].
  destruct (negb (String.eqb p profileDiagnostic && _ && _ && _)) eqn:E5; [|done].
  assert (Hb : binds row p = true) by (unfold binds; by rewrite E2, E3, E4, E5).
  assert (Hp : p ∈ [profileSmoke; profileDiagnostic; profileChannelChurn]).
  { apply string_in_elem. unfold string_in. cbn [existsb]. rewrite orb_false_r, orb_assoc. exact E1. }
  pose proof (bindings_exact row p Hrow Hp Hb) as Hin. clear E1 E2 E3 E4 E5 Hb.
  destruct (if String.eqb p profileChannelChurn then _ else _) as [[d w] k] eqn:El.
  destruct (all_expected getenv [_; _; _; _; _; _]) eqn:Ea; [|done]. apply all_expected_true in Ea.
  intros _. exists p, d, w, k. split; [done|]. split.
  { repeat (apply elem_of_cons in Hp as [Hp|Hp]; [rewrite Hp in *; vm_compute in El; simplify_eq;
      unfold profile_loads; repeat (left || right)|]). by apply not_elem_of_nil in Hp. }
  split; [by destruct (r_ending row)|]. constructor; [done|exact Ea].
Qed.

(** ** The executions *)

Lemma isGRPCContentType_true v : isGRPCContentType v = true ->
  to_lower (trim_space (nth 0 (split_on ";"%char v) "")) ∈ ["application/grpc"; "application/grpc+proto"].
Proof.
  unfold isGRPCContentType. intros H. apply orb_true_iff in H as [H|H]; apply String.eqb_eq in H; rewrite H.
  - left.
  - right. left.
Qed.

Lemma rpc_request_asks row spec frames : spec_of row spec -> asks row (rpc_request spec frames).
Proof. intros Hs. split_and!; try done; [exact (so_path _ _ Hs)|exact (so_encoding _ _ Hs)]. Qed.

Lemma passed_answers row spec channel frames env :
  row ∈ contract -> spec_of row spec -> Passed (invoke gunzip channel frames spec env) = true -> answers row channel.
Proof.
  intros Hrow Hs Hp. apply invoke_passed in Hp as (resp & body & arr & Hc & Hr & Hp).
  apply problems_nil in Hp as (_ & Hmaj & _ & Hst & Hct & Htr & _ & Hgz & Hmd).
  apply readAndValidate_sound in Hr as (ms & Hl & _ & Hd & He & Hall).
  exists (rpc_request spec frames), resp, ms. split; [by apply rpc_request_asks|]. split; [done|].
  split; [split_and!; [done|done|by apply isGRPCContentType_true]|]. split; [done|].
  split; [|split; [done|split; [done|split; [|split]]]].
  - rewrite Hl, (so_responses _ _ Hs). apply Z2Nat.id. clear -Hrow.
    assert (H : forallb (fun row => 0 <=? r_responses row) contract = true) by reflexivity.
    rewrite forallb_forall in H. apply list_elem_of_In, H in Hrow. lia.
  - eapply Forall_impl; [exact Hall|]. intros f Hf.
    apply validateResponseFrame_none in Hf as (protobuf & p & Hdec & Hlen & Hh).
    exists protobuf, p. rewrite <-(so_encoding _ _ Hs). split; [exact Hdec|].
    rewrite (so_hash _ _ Hs), (so_payload _ _ Hs) in Hh. rewrite (so_payload _ _ Hs) in Hlen. split; [|exact Hh].
    rewrite Hlen. apply len_replicate. clear -Hrow.
    assert (H : forallb (fun row => 0 <=? r_octets row) contract = true) by reflexivity.
    rewrite forallb_forall in H. apply list_elem_of_In, H in Hrow. lia.
  - intros Hm. by apply Hgz, (so_gzip _ _ Hs).
  - intros Hm. destruct (Hmd (so_metadata _ _ Hs Hm)) as [Ht Hb]. split; [done|by apply matchesBinaryMetadata_true].
Qed.

Lemma len_zero {A} (l : list A) : len l = 0 -> l = [].
Proof. destruct l; [done|]. unfold len. cbn [length]. lia. Qed.

Lemma terminal_request_asks row spec frame :
  spec_of row spec -> r_encoding row = "identity" -> asks row (terminal_request spec frame).
Proof. intros Hs He. split_and!; try done. exact (so_path _ _ Hs). Qed.

Lemma invokeTerminal_ended row spec channel frame t :
  spec_of row spec -> r_encoding row = "identity" -> Passed (invokeTerminal channel frame spec t) = true ->
  match r_ending row with
  | Answered | TenChannels => True
  | TrailersOnlyEnd => trailers_only row channel
  | DeadlineEnd => deadline_fired row channel t
  | CancellationEnd => cancelled_when_ready row channel t
  end.
Proof.
  intros Hs He. pose proof (terminal_request_asks row spec frame Hs He) as Ha.
  unfold invokeTerminal. destruct (te_request t); [done|]. cbv zeta. rewrite (so_mode _ _ Hs).
  destruct (r_ending row) eqn:Ee; [done|done| | |]; cbn [mode_of String.eqb Ascii.eqb Bool.eqb].
  - destruct (channel _) as [resp|] eqn:Ec; [|done]. unfold read_all.
    destruct (so_trailers _ _ Hs Ee) as [-> ->]. cbn [Passed terminal_observation]. intros H. reflect_bools.
    repeat match goal with X : String.eqb _ _ = true |- _ => apply String.eqb_eq in X end.
    exists (terminal_request spec frame), resp. split; [done|]. split; [done|].
    split; [split_and!; [done|done|by apply isGRPCContentType_true]|]. split; [done|]. split; [done|].
    destruct (Body resp) as [d e]. cbn [st_data st_end] in *.
    match goal with X : len d = 0 |- _ => apply len_zero in X as -> end. by destruct e.
  - destruct (channel _) as [resp|e] eqn:Ec; cbn [Passed terminal_observation].
    { rewrite andb_false_r. done. }
    intros H. reflect_bools.
    exists (terminal_request spec frame), e. split; [done|]. split.
    { unfold terminal_request. rewrite (so_mode _ _ Hs), Ee. reflexivity. }
    split; [done|]. unfold millisecond in *. split; [by apply orb_true_iff|lia].
  - destruct (channel _) as [resp|] eqn:Ec; [|done]. unfold read_all.
    cbn [Passed terminal_observation]. intros H. reflect_bools.
    repeat match goal with X : String.eqb _ _ = true |- _ => apply String.eqb_eq in X end.
    exists (terminal_request spec frame), resp. split_and!; try done.
    + match goal with X : len _ = 0 |- _ => by apply len_zero in X end.
    + match goal with X : _ || te_cancelled t = true |- _ => apply orb_true_iff in X as [X|X]; [left|by right] end.
      by destruct (st_end (Body resp)).
Qed.

Lemma execute_ended row m dial client channel w e spec profile result :
  row ∈ contract -> spec_of row spec -> r_ending row = Answered ->
  execute gzip gunzip m dial client channel w e spec profile = (result, None) ->
  trusted m /\ counts row result /\ dialled dial /\ answers row channel.
Proof.
  intros Hrow Hs Hend. unfold execute, counts. rewrite Hend. destruct (loadTargetAndRoots m) eqn:Em; [|done].
  apply loadTargetAndRoots_ok in Em.
  destruct dial as [state|]; [|done]. destruct (cs_peer state) as [|[der spki] [|? ?]] eqn:Ep; [done| |done].
  destruct (negb (_ && _)) eqn:Eg; [done|]. destruct (negb (leaf_matches _)) eqn:El; [done|].
  destruct client; [done|]. cbv zeta. destruct (String.eqb profile _ && _); [done|].
  set (o := invoke _ _ _ _ _). destruct (negb (Passed o && _ && _ && _)) eqn:Ev; [done|]. intros [= <-].
  unfold leaf_matches in El. reflect_bools.
  repeat match goal with X : String.eqb _ _ = true |- _ => apply String.eqb_eq in X end.
  split; [done|]. split; [by split_and!|]. split; [|by eapply passed_answers].
  exists state. split; [done|]. split_and!; try done. by exists der, spki.
Qed.

Lemma executeTerminal_ended row m dial client channel t spec result :
  spec_of row spec -> r_encoding row = "identity" -> r_ending row <> Answered -> r_ending row <> TenChannels ->
  executeTerminal gzip m dial client channel t spec = (result, None) ->
  trusted m /\ counts row result /\ dialled_anew dial /\
  match r_ending row with
  | Answered | TenChannels => True
  | TrailersOnlyEnd => trailers_only row channel
  | DeadlineEnd => deadline_fired row channel t
  | CancellationEnd => cancelled_when_ready row channel t
  end.
Proof.
  intros Hs He Ha Ht. unfold executeTerminal. destruct (loadTargetAndRoots m) eqn:Em; [|done].
  apply loadTargetAndRoots_ok in Em.
  destruct (openChannel dial client) as [leaf|] eqn:Eo; [|done]. apply openChannel_ok in Eo. cbv zeta.
  set (o := invokeTerminal _ _ _ _). destruct (negb (Passed o && _ && _)) eqn:Ev; [done|]. intros [= <-].
  reflect_bools. match goal with X : Passed o = true |- _ => rename X into Hp end.
  split; [done|]. split; [|split; [done|by eapply invokeTerminal_ended]].
  unfold counts. cbn [CompletedOperations FailedOperations TimedOutOperations DeadlineExceededOperations CancelledOperations].
  rewrite Hp, (so_mode _ _ Hs). destruct (r_ending row); by split_and!.
Qed.

Lemma Passed_with_latency n o : Passed (with_latency n o) = Passed o.
Proof. by destruct o. Qed.

Lemma churnLoop_ended row envs spec : row ∈ contract -> spec_of row spec -> forall operation lats last lats' last',
  churnLoop gzip gunzip operation envs spec lats last = (lats', last', None) ->
  length lats' = (length lats + length envs)%nat /\
  Forall (fun c => dialled_anew (ch_dial c) /\ answers row (ch_channel c)) envs.
Proof.
  intros Hrow Hs. induction envs as [|c envs IH]; intros operation lats last lats' last' H; cbn [churnLoop] in H.
  { simplify_eq. split; [simpl; lia|constructor]. }
  destruct (openChannel _ _) eqn:Eo; [|done]. apply openChannel_ok in Eo. cbv zeta in H.
  destruct (negb (Passed (with_latency _ _))) eqn:Ep; [done|]. rewrite Passed_with_latency in Ep. reflect_bools.
  apply IH in H as (-> & Hall). rewrite length_app. cbn [length].
  split; [lia|]. constructor; [|done]. split; [done|by eapply passed_answers].
Qed.

Lemma executeNewChannel_ended row m envs spec result :
  row ∈ contract -> spec_of row spec -> r_ending row = TenChannels ->
  executeNewChannel gzip gunzip m envs spec = (result, None) -> RPassed result = true ->
  trusted m /\ counts row result /\ length (take 10 envs) = 10%nat /\
  Forall (fun c => dialled_anew (ch_dial c) /\ answers row (ch_channel c)) (take 10 envs).
Proof.
  intros Hrow Hs Hend. unfold executeNewChannel, counts. rewrite Hend. destruct (loadTargetAndRoots m) eqn:Em; [|done].
  apply loadTargetAndRoots_ok in Em.
  destruct (churnLoop _ _ _ _ _ _ _) as [[lats last] [e|]] eqn:E; [done|].
  intros [= <-] Hp. cbn [RPassed] in Hp. apply Z.eqb_eq in Hp.
  apply (churnLoop_ended row) in E as (Hl & Hall); [|done|done]. cbn [length Nat.add] in Hl.
  split; [done|]. split; [by split_and!|]. split; [|done]. unfold len in Hp. lia.
Qed.

(** C6: exit code zero is earned. The process exits 0 only when it was given its own
    identities, a scenario of the contract and a load profile it may be run under with that
    profile's load; when the target is https and the root file is the package's, by hash;
    when every connection it opened is TLS 1.3 with ALPN h2 on both sides and shows the
    package's leaf alone, by certificate and key hash; and when the run ended as its
    scenario asks: exactly its messages with its payload and grpc-status 0, on one channel
    or on each of ten new ones; status 3 without a body; the deadline after 40 to 250 ms;
    or the cancellation after the ready header. The document counts that, no failure and
    no timeout, and was written. *)
Theorem grpc_exit_zero_is_earned env r :
  main gzip gunzip env = (0, r) ->
  exists row result, row ∈ contract /\ r = Some result /\ gm_write env = true /\
    trim_space (gm_target env) <> "" /\
    selected (gm_getenv env) row /\ trusted (gm_material env) /\ ended row env /\
    RPassed result = true /\ counts row result.
Proof.
  unfold main. destruct (specFor _ _) as [spec|] eqn:Es; [|done].
  apply specFor_row in Es as (row & Hrow & Hs).
  destruct (String.eqb_spec (trim_space (gm_target env)) "") as [|Htarget]; [done|].
  destruct (validateSelection _ _) as [profile|] eqn:Ev; [|done].
  apply (validateSelection_selected _ row) in Ev; [|done|done].
  rewrite (so_churn _ _ Hs), (so_mode _ _ Hs).
  set (run := if churns _ then _ else _).
  destruct run as [result err] eqn:Er. subst run.
  destruct (negb (gm_write env)) eqn:Ew; [done|]. destruct err as [e|]; [done|].
  destruct (negb (RPassed result)) eqn:Ep; [done|]. intros [= <-]. reflect_bools.
  exists row, result. do 5 (split; [done|]). unfold ended.
  assert (Hid : String.eqb (mode_of (r_ending row)) "" = false -> r_encoding row = "identity").
  { clear -Hrow. assert (H : forallb (fun row => String.eqb (mode_of (r_ending row)) "" || String.eqb (r_encoding row) "identity")
      contract = true) by reflexivity.
    rewrite forallb_forall in H. apply list_elem_of_In, H in Hrow. intros E. rewrite E in Hrow. by apply String.eqb_eq. }
  destruct (r_ending row) eqn:Ee; cbn [churns mode_of String.eqb Ascii.eqb Bool.eqb negb] in Er, Hid.
  - by apply (execute_ended row) in Er as (? & ? & ? & ?).
  - by apply (executeNewChannel_ended row) in Er as (? & ? & ? & ?).
  - apply (executeTerminal_ended row) in Er as (? & ? & ? & Hx); [by rewrite Ee in Hx|done|by apply Hid|by rewrite Ee|by rewrite Ee].
  - apply (executeTerminal_ended row) in Er as (? & ? & ? & Hx); [by rewrite Ee in Hx|done|by apply Hid|by rewrite Ee|by rewrite Ee].
  - apply (executeTerminal_ended row) in Er as (? & ? & ? & Hx); [by rewrite Ee in Hx|done|by apply Hid|by rewrite Ee|by rewrite Ee].
Qed.
End main.

(** The certificates of the package (certs/root.pem and certs/leaf.pem); the leaf's
    SubjectPublicKeyInfo is octets 145 to 236 of its DER encoding. *)
Definition grpc_root_lines : list string :=
  ["-----BEGIN CERTIFICATE-----";
   "MIIBnzCCAUWgAwIBAgIUIOqQpYR50DUhXtRpAnAoVsBmKhkwCgYIKoZIzj0EAwIw";
   "JTEjMCEGA1UEAwwaUHJvdG9jb2xMYWIgZ1JQQyBUZXN0IFJvb3QwHhcNMjYwNzEz";
   "MTcyNTQ0WhcNMzYwNzEwMTcyNTQ0WjAlMSMwIQYDVQQDDBpQcm90b2NvbExhYiBn";
   "UlBDIFRlc3QgUm9vdDBZMBMGByqGSM49AgEGCCqGSM49AwEHA0IABNmAyF+QPhb0";
   "4FOf/Rbbz6JVWX/OPE/xLVTCbQZXHtFMjldONVKmTmYORcnK3PJxjJuB9CLS2o4w";
   "3f31okM7K0mjUzBRMB0GA1UdDgQWBBRqnLlBpaLc9ZsCt7pY90oS0qz5qDAfBgNV";
   "HSMEGDAWgBRqnLlBpaLc9ZsCt7pY90oS0qz5qDAPBgNVHRMBAf8EBTADAQH/MAoG";
   "CCqGSM49BAMCA0gAMEUCIQC9meX27BGcHa50E662mo7w5zTTw1OeTFzOe93IYA2H";
   "KwIgY6Z474u4cA8FokJoW9XLJfap6TFRBGt0ECdhHBR6CO8=";
   "-----END CERTIFICATE-----"].
Definition grpc_root_pem : bytes := concat ((fun l => bytes_of_string l ++ [10]) <$> grpc_root_lines).
Definition grpc_leaf_der : bytes := default [] (base64_std_decode
  ("MIIBzzCCAXWgAwIBAgIUULIcXYNbJEkU1SwLvvkfbMpmAmMwCgYIKoZIzj0EAwIw" +:+
   "JTEjMCEGA1UEAwwaUHJvdG9jb2xMYWIgZ1JQQyBUZXN0IFJvb3QwHhcNMjYwNzEz" +:+
   "MTcyNTQ0WhcNMjgxMDE1MTcyNTQ0WjAZMRcwFQYDVQQDDA5ncnBjLnBsYWIudGVz" +:+
   "dDBZMBMGByqGSM49AgEGCCqGSM49AwEHA0IABMl6wuwcCfSs5he9RFls6yIjilgG" +:+
   "m1bvKKu/M3fPosFC59Bq/VbMGJPN9EG2j9QLJAa+Tf2NSIgCjxbp81qQCAejgY4w" +:+
   "gYswGQYDVR0RBBIwEIIOZ3JwYy5wbGFiLnRlc3QwEwYDVR0lBAwwCgYIKwYBBQUH" +:+
   "AwEwCwYDVR0PBAQDAgeAMAwGA1UdEwEB/wQCMAAwHQYDVR0OBBYEFH9AkvgAJ1QD" +:+
   "+VqtJXft+/kXEjYxMB8GA1UdIwQYMBaAFGqcuUGlotz1mwK3ulj3ShLSrPmoMAoG" +:+
   "CCqGSM49BAMCA0gAMEUCIHJ45nmdfn/TawyQla+bwUl89RNvJYaQ5SGSrTLIpGuT" +:+
   "AiEAkRKQf0+s8pR3dRtZrx2a9XVKxClW4E3dvOaTTAS1lhE=")).
Definition grpc_leaf_spki : bytes := slice 145 236 grpc_leaf_der.

Definition trailers_environment (name : string) : string :=
  default "" (snd <$> List.find (fun '(k, _) => String.eqb k name)
    [("PLAB_EXECUTOR_ID", "go-grpc-h2-executor"); ("PLAB_EXECUTOR_VERSION", "0.4.2");
     ("PLAB_LOAD_GENERATOR_ID", "go-x-net-http2-grpc-load"); ("PLAB_LOAD_GENERATOR_VERSION", "0.4.2");
     ("PLAB_SCENARIO_ID", "grpc.h2.trailers-only-status"); ("PLAB_PROTOCOL", "h2");
     ("PLAB_PROTOCOL_VARIANT", "grpc-over-h2-tls-alpn");
     ("PLAB_LOAD_PROFILE_ID", "grpc-h2-diagnostic"); ("PLAB_CONNECTIONS", "1"); ("PLAB_CONCURRENCY", "1");
     ("PLAB_STREAMS_PER_CONNECTION", "1"); ("PLAB_DURATION_SECONDS", "10"); ("PLAB_WARMUP_SECONDS", "0");
     ("PLAB_REPETITION", "1")]).

Definition grpc_state : channelState := ChannelState VersionTLS13 "h2" true false [(grpc_leaf_der, grpc_leaf_spki)].
Definition trailers_run : grpcMainEnv :=
  GrpcMainEnv trailers_environment "https://127.0.0.1:9443"
    (MaterialEnv (Ok ("https", "127.0.0.1:9443")) (Ok grpc_root_pem) true)
    (Ok grpc_state) None (served store unstore) plain_env plain_env (TerminalEnv None 1000000 false false) [] true.

Lemma grpc_exit_zero_is_earned_witness :
  exists result, main store unstore trailers_run = (0, Some result) /\ CompletedOperations result = 1.
Proof.
  destruct (main store unstore trailers_run) as [code r] eqn:E.
  assert (Hc : code = 0).
  { change code with (fst (code, r)). rewrite <-E. vm_compute. reflexivity. }
  subst code.
  destruct (grpc_exit_zero_is_earned store unstore trailers_run r E)
    as (row & result & Hrow & -> & _ & _ & Hsel & _ & _ & _ & Hcount & _).
  exists result. split; [reflexivity|]. rewrite Hcount. clear -Hrow Hsel.
  destruct Hsel as (profile & d & w & k & _ & _ & Hv & _).
  assert (Hid : r_scenario row = "grpc.h2.trailers-only-status").
  { do 4 apply Forall_cons_1 in Hv as [_ Hv]. apply Forall_cons_1 in Hv as [Hv _]. exact (eq_sym Hv). }
  unfold contract in Hrow.
  repeat (apply elem_of_cons in Hrow as [->|Hrow]; [first [discriminate Hid|reflexivity]|]).
  by apply not_elem_of_nil in Hrow.
Defined.
