(* ===== verification/GoHttp1.v ===== *)
(** HTTP/1.1 heads as net/http reads them: [http.ReadRequest] and [http.ReadResponse] up to
    the blank line. Bodies play no part in the opening handshakes. *)
From S2P Require Export Prelude GoText GoHttp.
From Stdlib Require Import Ascii.

Definition crlf : string := String "013" (String "010" EmptyString).

(** Text lines, each ended by CR LF. *)
Definition text_lines (l : list string) : string := foldr (fun x acc => x +:+ crlf +:+ acc) "" l.

(** ** Lines *)

Fixpoint cut_line (l : bytes) : option (bytes * bytes) :=
  match l with
  | [] => None
  | b :: r =>
      if b =? 10 then Some ([], r)
      else match cut_line r with Some (x, y) => Some (b :: x, y) | None => None end
  end.
Definition trim_cr (l : bytes) : bytes :=
  match last l with Some 13 => take (length l - 1) l | _ => l end.

Definition read_line (s : stream) : res bytes * stream :=
  match cut_line (st_data s) with
  | Some (x, r) => (Ok (trim_cr x), Stream r (st_end s))
  | None => (Err (match st_end s with EEOF => EUnexpectedEOF | e => e end), Stream [] (st_end s))
  end.

(** The lines up to a blank one; every line has an octet, so the length of the stream is
    enough fuel. *)
Fixpoint read_lines (fuel : nat) (s : stream) : res (list bytes) * stream :=
  match fuel with
  | O => (Err EUnexpectedEOF, s)
  | S fuel =>
      match read_line s with
      | (Err e, s) => (Err e, s)
      | (Ok [], s) => (Ok [], s)
      | (Ok l, s) =>
          match read_lines fuel s with
          | (Ok ls, s) => (Ok (l :: ls), s)
          | (Err e, s) => (Err e, s)
          end
      end
  end.

(** ** Header fields *)

(** The octets of a token. *)
Definition is_token_byte (b : Z) : bool :=
  ((48 <=? b) && (b <=? 57)) || ((65 <=? b) && (b <=? 90)) || ((97 <=? b) && (b <=? 122))
  || existsb (Z.eqb b) [33; 35; 36; 37; 38; 39; 42; 43; 45; 46; 94; 95; 96; 124; 126].

Fixpoint cut_byte (sep : Z) (l : bytes) : option (bytes * bytes) :=
  match l with
  | [] => None
  | b :: r =>
      if b =? sep then Some ([], r)
      else match cut_byte sep r with Some (x, y) => Some (b :: x, y) | None => None end
  end.

(** Spaces and tabs at both ends are not part of a value. *)
Definition is_blank (b : Z) : bool := (b =? 32) || (b =? 9).
Fixpoint skip_blanks (l : bytes) : bytes :=
  match l with b :: r => if is_blank b then skip_blanks r else l | [] => [] end.
Definition trim_blanks (l : bytes) : bytes := reverse (skip_blanks (reverse (skip_blanks l))).

Definition parse_field (l : bytes) : res (string * string) :=
  match cut_byte 58 l with
  | None => Err (EMsg "malformed MIME header line")
  | Some (name, value) =>
      guard negb (len name =? 0) && forallb is_token_byte name else EMsg "malformed MIME header line" in
      Ok (to_lower (string_of_bytes name), string_of_bytes (trim_blanks value))
  end.

Fixpoint parse_fields (ls : list bytes) : res httpHeader :=
  match ls with
  | [] => Ok []
  | l :: ls => let? f := parse_field l in let? h := parse_fields ls in Ok (f :: h)
  end.

(** [http.ParseHTTPVersion]: "HTTP/x.y" with one digit each. *)
Definition parse_version (v : string) : option (Z * Z) :=
  match strip_prefix (bytes_of_string "HTTP/") (bytes_of_string v) with
  | Some [a; dot; b] =>
      if (dot =? 46) && ((48 <=? a) && (a <=? 57)) && ((48 <=? b) && (b <=? 57)) then Some (a - 48, b - 48) else None
  | _ => None
  end.

(** ** Requests *)

Record upgradeRequest := UpgradeRequest {
  UMethod : string; UMajor : Z; UMinor : Z; UPath : string; UHost : string; UHeader : httpHeader
}.

(** The path of an origin-form target: before the query, with %XX decoded. *)
Fixpoint unescape (s : string) : res string :=
  match s with
  | EmptyString => Ok EmptyString
  | String "%" (String c (String d r)) =>
      match hex_value c, hex_value d with
      | Some x, Some y => let? r := unescape r in Ok (String (chr (x * 16 + y)) r)
      | _, _ => Err (EMsg "invalid URL escape")
      end
  | String "%" _ => Err (EMsg "invalid URL escape")
  | String c r => let? r := unescape r in Ok (String c r)
  end.
Definition target_path (target : string) : res string :=
  guard has_prefix target "/" else EMsg "invalid URI for request" in
  unescape (nth 0 (split_on "?"%char target) "").

Definition parse_request_line (l : bytes) : res (string * string * (Z * Z)) :=
  match cut_byte 32 l with
  | None => Err (EMsg "malformed HTTP request")
  | Some (method, rest) =>
      match cut_byte 32 rest with
      | None => Err (EMsg "malformed HTTP request")
      | Some (target, proto) =>
          guard negb (len method =? 0) && forallb is_token_byte method else EMsg "invalid method" in
          match parse_version (string_of_bytes proto) with
          | None => Err (EMsg "malformed HTTP version")
          | Some v => Ok (string_of_bytes method, string_of_bytes target, v)
          end
      end
  end.

(** [http.ReadRequest(reader)] for an origin-form request: the request, and what the reader
    still has after the head. *)
Definition ReadRequest (s : stream) : res upgradeRequest * stream :=
  match read_line s with
  | (Err e, s) => (Err e, s)
  | (Ok first, s) =>
      match read_lines (S (length (st_data s))) s with
      | (Err e, s) => (Err e, s)
      | (Ok ls, s) =>
          (let? (method, target, (major, minor)) := parse_request_line first in
           let? path := target_path target in
           let? h := parse_fields ls in
           Ok (UpgradeRequest method major minor path (header_get h "host") h), s)
      end
  end.

(** ** Responses *)

Record upgradeResponse := UpgradeResponse {
  VProto : string; VStatus : Z; VMajor : Z; VMinor : Z; VHeader : httpHeader
}.

(** [http.ReadResponse] on the text of a head. *)
Definition ReadResponse (raw : string) : res upgradeResponse :=
  match read_line (Stream (bytes_of_string raw) EEOF) with
  | (Err e, _) => Err e
  | (Ok first, s) =>
      match cut_byte 32 first with
      | None => Err (EMsg "malformed HTTP response")
      | Some (proto, status) =>
          let status := match cut_byte 32 (skip_blanks status) with Some (x, _) => x | None => skip_blanks status end in
          guard len status =? 3 else EMsg "malformed HTTP status code" in
          match atoi (string_of_bytes status), parse_version (string_of_bytes proto) with
          | Some code, Some (major, minor) =>
              guard 0 <=? code else EMsg "malformed HTTP status code" in
              let? ls := fst (read_lines (S (length (st_data s))) s) in
              let? h := parse_fields ls in
              Ok (UpgradeResponse (string_of_bytes proto) code major minor h)
          | None, _ => Err (EMsg "malformed HTTP status code")
          | _, None => Err (EMsg "malformed HTTP version")
          end
      end
  end.

(** ** Facts *)

(** A line of text: no line feed inside, no carriage return at the end. *)
Definition clean_line (l : bytes) : bool := forallb (fun b => negb (b =? 10)) l && negb (bool_decide (last l = Some 13)).

Lemma cut_line_app l r : forallb (fun b => negb (b =? 10)) l = true -> cut_line (l ++ 10 :: r) = Some (l, r).
Proof.
  induction l as [|b l IH]; cbn [forallb app cut_line]; [done|].
  intros [Hb Hl]%andb_true_iff. apply negb_true_iff in Hb. by rewrite Hb, IH.
Qed.

Lemma read_line_clean l r e :
  clean_line l = true -> read_line (Stream (l ++ 13 :: 10 :: r) e) = (Ok l, Stream r e).
Proof.
  unfold clean_line. intros [Hl Hcr]%andb_true_iff. unfold read_line. cbn [st_data st_end].
  change (l ++ 13 :: 10 :: r) with (l ++ [13] ++ 10 :: r). rewrite app_assoc, cut_line_app.
  - unfold trim_cr. rewrite last_snoc, length_app. cbn [length].
    by rewrite Nat.add_sub, take_app_length.
  - rewrite forallb_app, Hl. done.
Qed.

Lemma text_lines_cons x l : bytes_of_string (text_lines (x :: l)) = bytes_of_string x ++ 13 :: 10 :: bytes_of_string (text_lines l).
Proof. cbn [text_lines foldr]. by rewrite !bytes_of_string_app. Qed.

Lemma read_lines_text ls : forall fuel rest e,
  Forall (fun l => clean_line (bytes_of_string l) = true /\ l <> "") ls -> (length ls < fuel)%nat ->
  read_lines fuel (Stream (bytes_of_string (text_lines (ls ++ [""])) ++ rest) e)
  = (Ok (bytes_of_string <$> ls), Stream rest e).
Proof.
  induction ls as [|l ls IH]; intros fuel rest e Hall Hf; (destruct fuel as [|fuel]; [simpl in Hf; lia|]).
  - reflexivity.
  - apply Forall_cons in Hall as [[Hc Hne] Hall]. cbn [app read_lines].
    rewrite text_lines_cons. rewrite <-app_assoc. cbn [app]. rewrite read_line_clean by done.
    destruct (bytes_of_string l) as [|b bs] eqn:E; [by destruct l|].
    rewrite IH; [|done|simpl in Hf; lia]. cbn [fmap list_fmap]. by rewrite E.
Qed.

Lemma length_text_lines ls : (length ls <= length (bytes_of_string (text_lines ls)))%nat.
Proof.
  induction ls as [|l ls IH]; [simpl; lia|]. rewrite text_lines_cons, length_app. cbn [length]. lia.
Qed.
