(* ===== verification/WsHandshake.v ===== *)
(** The opening handshake over HTTP/1.1: go-http1-websocket-tls-executor's request and the
    gate on the response, and the checks of go-http1-websocket-tls and go-http1-websocket. *)
From S2P Require Export Prelude GoText GoHash GoHttp GoHttp1.
From Stdlib Require Import Ascii.

Definition websocketGUID : string := "258EAFA5-E914-47DA-95CA-C5AB0DC85B11".
Definition textPayload : string := "protocol-lab".
Definition controlPayload : string := "protocol-lab-ping".
Definition serverName : string := "websocket.plab.test".
Definition subprotocol_name : string := "plab.echo.v1".
Definition perMessageDeflateExtension : string :=
  "permessage-deflate; client_no_context_takeover; server_no_context_takeover".
Definition expectedCertificateDERSHA256 : string := "fe996190f39355e3cfc201cbb7e2cba962a701b94ed08ff49e68e830216d0109".
Definition expectedCertificateSPKISHA256 : string := "c2440fbe955033f341ca625c1804e21b50066d952ab24a4b53007dc1cfbf410c".
Definition TLS13 : Z := 0x0304.

Definition websocketAccept (key : string) : string :=
  base64_std_encode (sha1 (bytes_of_string (key +:+ websocketGUID))).
#[global] Arguments websocketAccept : simpl never.

Definition hasToken (value token : string) : bool :=
  existsb (fun candidate => equal_fold (trim_space candidate) token) (split_on ","%char value).

Definition hash (value : bytes) : string := sha256_hex value.
#[global] Arguments hash : simpl never.

(** ** The servers *)

Record connectionProfile := ConnectionProfile { p_subprotocol : string; p_perMessageDeflate : bool }.

(** The failures both servers list; [absent] are the headers that must not be there. *)
Definition upgrade_failures (absent : list string) (request : upgradeRequest) : list string :=
  let get n := header_get (UHeader request) n in
  (if negb (String.eqb (UMethod request) "GET") then ["method is not GET"] else [])
  ++ (if negb (UMajor request =? 1) || negb (UMinor request =? 1) then ["protocol is not exact HTTP/1.1"] else [])
  ++ (if negb (String.eqb (UPath request) "/websocket") then ["path is not /websocket"] else [])
  ++ (if negb (String.eqb (UHost request) serverName) then ["authority is not websocket.plab.test"] else [])
  ++ (if negb (equal_fold (get "upgrade") "websocket") || negb (hasToken (get "connection") "upgrade")
      then ["Upgrade/Connection headers are invalid"] else [])
  ++ (if negb (String.eqb (get "sec-websocket-version") "13") then ["Sec-WebSocket-Version is not 13"] else [])
  ++ (if match base64_std_decode (get "sec-websocket-key") with Some d => negb (len d =? 16) | None => true end
      then ["Sec-WebSocket-Key is not base64 of exactly 16 octets"] else [])
  ++ omap (fun name => if negb (String.eqb (get (to_lower name)) "") then Some (name +:+ " must be absent") else None) absent.

Module Cleartext.
Definition validateUpgradeRequest (request : upgradeRequest) : option goerror :=
  match upgrade_failures ["Origin"; "Sec-WebSocket-Protocol"; "Sec-WebSocket-Extensions"] request with
  | [] => None
  | failures => Some (EMsg (join "; " failures))
  end.

Definition switching_response (key : string) : string :=
  text_lines ["HTTP/1.1 101 Switching Protocols"; "Upgrade: websocket"; "Connection: Upgrade";
              "Sec-WebSocket-Accept: " +:+ websocketAccept key; ""].
End Cleartext.

Module Secure.
Definition validateUpgradeRequest (request : upgradeRequest) : res connectionProfile :=
  match upgrade_failures ["Origin"] request with
  | [] =>
      let offeredSubprotocol := header_get (UHeader request) "sec-websocket-protocol" in
      let offeredExtension := header_get (UHeader request) "sec-websocket-extensions" in
      if String.eqb offeredSubprotocol "" && String.eqb offeredExtension "" then Ok (ConnectionProfile "" false)
      else if String.eqb offeredSubprotocol subprotocol_name && String.eqb offeredExtension ""
      then Ok (ConnectionProfile subprotocol_name false)
      else if String.eqb offeredSubprotocol "" && String.eqb offeredExtension perMessageDeflateExtension
      then Ok (ConnectionProfile "" true)
      else Err (EMsg "opening handshake did not match an exact supported subprotocol or permessage-deflate profile")
  | failures => Err (EMsg (join "; " failures))
  end.

Definition switching_response (key : string) (profile : connectionProfile) : string :=
  text_lines (["HTTP/1.1 101 Switching Protocols"; "Upgrade: websocket"; "Connection: Upgrade";
               "Sec-WebSocket-Accept: " +:+ websocketAccept key]
    ++ (if negb (String.eqb (p_subprotocol profile) "")
        then ["Sec-WebSocket-Protocol: " +:+ p_subprotocol profile] else [])
    ++ (if p_perMessageDeflate profile then ["Sec-WebSocket-Extensions: " +:+ perMessageDeflateExtension] else [])
    ++ [""]).
End Secure.

(** Both servers answer a refused handshake with this. *)
Definition bad_request_response : string :=
  text_lines ["HTTP/1.1 400 Bad Request"; "Connection: close"; "Content-Length: 0"; ""].

(** ** The executor's scenarios *)

Record scenarioExpectation := Expectation {
  e_id : string; e_operation : string; e_messageType : string; e_payload : bytes; e_payloadHash : string;
  e_requestOpcode : Z; e_responseOpcode : Z; e_connectionMetric : bool;
  e_subprotocol : string; e_perMessageDeflate : bool
}.

Definition text_hash : string := "504585b0bb4fd77012ea2575efbcdb58f4c33e6b543e9567a65896d213720c29".
Definition binary_hash : string := "9b6ce55f379e9771551de6939556a7e6b949814ae27c2f5cfd5dbeb378ce7c2a".
Definition control_hash : string := "4848de689e96825e0e05b6c3e96e48f2ad7ec7805fb64ecf824ccc6aa9c58883".

Definition expectations : list scenarioExpectation :=
  [Expectation "http1.websocket.rfc6455.tls.upgrade" "establish" "none" [] (hash []) 0 0 true "" false;
   Expectation "http1.websocket.rfc6455.tls.text-echo" "text-echo" "text" (bytes_of_string textPayload) text_hash
     1 1 false "" false;
   Expectation "http1.websocket.rfc6455.tls.binary-echo" "binary-echo" "binary" (replicate 1024 66) binary_hash
     2 2 false "" false;
   Expectation "http1.websocket.rfc6455.tls.control-frames" "control-frames" "none" (bytes_of_string controlPayload)
     control_hash 9 10 false "" false;
   Expectation "http1.websocket.rfc6455.tls.close" "close" "none" [] (hash []) 0 0 false "" false;
   Expectation "http1.websocket.rfc6455.tls.subprotocol-text-echo" "text-echo" "text" (bytes_of_string textPayload)
     text_hash 1 1 false subprotocol_name false;
   Expectation "http1.websocket.rfc6455.tls.permessage-deflate-binary-echo" "binary-echo" "binary"
     (replicate 1024 66) binary_hash 2 2 false "" true].

Definition find_expectation (scenario : string) : option scenarioExpectation :=
  List.find (fun e => String.eqb (e_id e) scenario) expectations.

Definition expectedExtension (e : scenarioExpectation) : string :=
  if e_perMessageDeflate e then perMessageDeflateExtension else "".

(** The request [openWebSocket] writes. *)
Definition raw_request (e : scenarioExpectation) (key : string) : string :=
  text_lines (["GET /websocket HTTP/1.1"; "Host: websocket.plab.test"; "Upgrade: websocket"; "Connection: Upgrade";
               "Sec-WebSocket-Key: " +:+ key; "Sec-WebSocket-Version: 13"]
    ++ (if negb (String.eqb (e_subprotocol e) "") then ["Sec-WebSocket-Protocol: " +:+ e_subprotocol e] else [])
    ++ (if e_perMessageDeflate e then ["Sec-WebSocket-Extensions: " +:+ perMessageDeflateExtension] else [])
    ++ [""]).

(** [readHTTPHeader]: octet by octet until CR LF CR LF, at most 16384 of them. *)
Definition ends_head (data : bytes) : bool :=
  (4 <=? len data) && bool_decide (drop (length data - 4) data = [13; 10; 13; 10]).
Fixpoint header_loop (fuel : nat) (data : bytes) (s : stream) : res string * stream :=
  match fuel with
  | O => (Err (EMsg "opening handshake response header exceeds 16 KiB"), s)
  | S fuel =>
      match read_byte s with
      | (Err e, s) => (Err e, s)
      | (Ok value, s) =>
          let data := data ++ [value] in
          if ends_head data then (Ok (string_of_bytes data), s) else header_loop fuel data s
      end
  end.
Definition readHTTPHeader (s : stream) : res string * stream := header_loop (Z.to_nat 16384) [] s.

(** ** The proof of the handshake *)

Record handshakeProof := HandshakeProof {
  Binding : string; Scheme : string; TransportSecurity : string; Endpoint : string; Authority : string;
  RequestMethod : string; RequestedHTTPVersion : string; ObservedHTTPVersion : string; ResponseStatus : Z;
  UpgradeHeader : string; ConnectionHeader : string; SecWebSocketVersion : string;
  SecWebSocketKeyPolicy : string; SampleSecWebSocketKey : string;
  ExpectedSecWebSocketAccept : string; ObservedSecWebSocketAccept : string;
  SubprotocolRequested : bool; SubprotocolNegotiated : bool; SubprotocolOffered : string; SubprotocolAccepted : string;
  ExtensionsRequested : bool; ExtensionsNegotiated : bool; ExtensionOffered : string; ExtensionAccepted : string;
  ClientNoContextTakeover : bool; ServerNoContextTakeover : bool; FallbackDetected : bool;
  ConnectionEstablished : bool; TLSVersion : string; ALPN : string; ServerName : string; CipherSuite : string;
  DidResume : bool; EarlyData : bool; VerifiedChainCount : Z;
  CertificateDERSHA256 : string; CertificateSPKISHA256 : string
}.

(** [tls.ConnectionState], as far as it is read. *)
Record wsTlsState := WsTlsState {
  t_version : Z; t_protocol : string; t_cipher : string; t_resume : bool; t_chains : Z;
  t_peer : list (bytes * bytes)            (* Raw, RawSubjectPublicKeyInfo *)
}.

(** [tls.VersionName]. *)
Definition VersionName (v : Z) : string :=
  if v =? 0x0300 then "SSLv3" else if v =? 0x0301 then "TLS 1.0" else if v =? 0x0302 then "TLS 1.1"
  else if v =? 0x0303 then "TLS 1.2" else if v =? TLS13 then "TLS 1.3"
  else "0x" +:+ string_of_bytes ((fun n => if n <? 10 then 48 + n else 55 + n) <$>
                 [u16 v / 4096; u16 v / 256 mod 16; u16 v / 16 mod 16; u16 v mod 16]).

Definition handshake_proof (e : scenarioExpectation) (key : string) (state : wsTlsState) (response : upgradeResponse)
    : handshakeProof :=
  let get n := header_get (VHeader response) n in
  let acceptedSubprotocol := get "sec-websocket-protocol" in
  let acceptedExtension := get "sec-websocket-extensions" in
  let offered := String.eqb acceptedExtension perMessageDeflateExtension in
  HandshakeProof "http1-upgrade" "wss" "tls" "/websocket" "websocket.plab.test" "GET" "HTTP/1.1" (VProto response)
    (VStatus response) (get "upgrade") (get "connection") "13" "fresh-random-16-octets-per-opening-handshake" key
    (websocketAccept key) (get "sec-websocket-accept")
    (negb (String.eqb (e_subprotocol e) "")) (negb (String.eqb acceptedSubprotocol "")) (e_subprotocol e)
    acceptedSubprotocol
    (e_perMessageDeflate e) (negb (String.eqb acceptedExtension "")) (expectedExtension e) acceptedExtension
    offered offered
    (negb (VMajor response =? 1) || negb (VMinor response =? 1) || negb (t_version state =? TLS13)
     || negb (String.eqb (t_protocol state) "http/1.1"))
    false (VersionName (t_version state)) (t_protocol state) serverName (t_cipher state) (t_resume state) false
    (t_chains state)
    (match t_peer state with (raw, _) :: _ => hash raw | [] => "" end)
    (match t_peer state with (_, spki) :: _ => hash spki | [] => "" end).

Definition established (p : handshakeProof) : handshakeProof :=
  let '(HandshakeProof a b c d e f g h i j k l m n o q r s t u v w x y z a1 b1 _ d1 e1 f1 g1 h1 i1 j1 k1 l1) := p in
  HandshakeProof a b c d e f g h i j k l m n o q r s t u v w x y z a1 b1 true d1 e1 f1 g1 h1 i1 j1 k1 l1.

Definition handshake_failures (e : scenarioExpectation) (p : handshakeProof) : list string :=
  let wanted := negb (String.eqb (e_subprotocol e) "") in
  let deflate := e_perMessageDeflate e in
  (if FallbackDetected p then ["observed protocol is not exact HTTP/1.1"] else [])
  ++ (if negb (ResponseStatus p =? 101) then ["opening handshake status is not 101"] else [])
  ++ (if negb (equal_fold (UpgradeHeader p) "websocket") || negb (hasToken (ConnectionHeader p) "upgrade")
      then ["opening handshake Upgrade/Connection response is invalid"] else [])
  ++ (if negb (String.eqb (ObservedSecWebSocketAccept p) (ExpectedSecWebSocketAccept p))
      then ["Sec-WebSocket-Accept mismatch"] else [])
  ++ (if negb (String.eqb (SubprotocolOffered p) (e_subprotocol e)) || negb (Bool.eqb (SubprotocolRequested p) wanted)
         || negb (String.eqb (SubprotocolAccepted p) (e_subprotocol e))
         || negb (Bool.eqb (SubprotocolNegotiated p) wanted)
      then ["exact WebSocket subprotocol negotiation mismatch"] else [])
  ++ (if negb (String.eqb (ExtensionOffered p) (expectedExtension e)) || negb (Bool.eqb (ExtensionsRequested p) deflate)
         || negb (String.eqb (ExtensionAccepted p) (expectedExtension e))
         || negb (Bool.eqb (ExtensionsNegotiated p) deflate)
         || negb (Bool.eqb (ClientNoContextTakeover p) deflate) || negb (Bool.eqb (ServerNoContextTakeover p) deflate)
      then ["exact permessage-deflate no-context-takeover negotiation mismatch"] else [])
  ++ (if negb (String.eqb (TLSVersion p) "TLS 1.3") || negb (String.eqb (ALPN p) "http/1.1")
         || negb (String.eqb (ServerName p) serverName) || DidResume p || EarlyData p
      then ["exact TLS 1.3, http/1.1 ALPN, SNI, full-session, or no-early-data proof mismatch"] else [])
  ++ (if (VerifiedChainCount p <? 1) || negb (String.eqb (CertificateDERSHA256 p) expectedCertificateDERSHA256)
         || negb (String.eqb (CertificateSPKISHA256 p) expectedCertificateSPKISHA256)
      then ["authenticated certificate hash proof mismatch"] else []).

Definition validateHandshakeProof (e : scenarioExpectation) (p : handshakeProof) : option goerror :=
  match handshake_failures e p with
  | [] => None
  | failures => Some (EMsg (join "; " failures))
  end.
