(* ===== verification/WsServer.v ===== *)
(** The echo loops of go-http1-websocket and go-http1-websocket-tls, from the accepted
    connection to its close. compress/flate is a parameter. *)
From S2P Require Export Prelude GoText GoHttp1 WsCodec WsHandshake.

(** [io.ReadAll(io.LimitReader(reader, n))]: the octets and the error. *)
Definition read_limited (n : Z) (s : stream) : bytes * option goerror :=
  if n <=? len (st_data s) then (take (Z.to_nat n) (st_data s), None)
  else (st_data s, match st_end s with EEOF => None | e => Some e end).

(** The connection with what it still has to deliver replaced. *)
Definition with_input (s : stream) (c : conn) : conn := Conn s (c_out c) (c_faults c).

(** [io.WriteString(conn, s)]. *)
Definition write_string (text : string) (c : conn) : option goerror * conn :=
  let '((_, err), c) := conn_write (bytes_of_string text) c in (err, c).

(** A turn of an echo loop: go on, or return an error (or none). *)
Inductive turn := Again | Return (e : option goerror).

(** ** go-http1-websocket *)

Module CleartextServer.

Definition reply (err : option goerror) : turn := match err with Some e => Return (Some e) | None => Again end.

Definition handleFrame (frame : Server.wireFrame) (c : conn) : turn * conn :=
  let payload := Server.payload frame in
  let op := Server.opcode frame in
  if negb (Server.fin frame) || negb (Server.rsv frame =? 0)
  then (Return (Some (EMsg "fragmented or RSV-bearing frames are not supported by this exact target")), c) else
  if op =? 1 then
    if negb (String.eqb (string_of_bytes payload) textPayload)
    then (Return (Some (EMsg "unexpected text payload")), c)
    else let '(err, c) := Server.writeFrame c 1 payload false in (reply err, c)
  else if op =? 2 then
    if negb (len payload =? 1024) then (Return (Some (EMsg "unexpected binary payload length")), c)
    else if negb (forallb (Z.eqb 66) payload) then (Return (Some (EMsg "unexpected binary payload content")), c)
    else let '(err, c) := Server.writeFrame c 2 payload false in (reply err, c)
  else if op =? 9 then
    if negb (String.eqb (string_of_bytes payload) controlPayload)
    then (Return (Some (EMsg "unexpected ping payload")), c)
    else let '(err, c) := Server.writeFrame c 10 payload false in (reply err, c)
  else if op =? 8 then
    if negb (len payload =? 2) || negb (be_decode payload =? 1000)
    then (Return (Some (EMsg "close payload must contain code 1000 with an empty UTF-8 reason")), c)
    else let '(err, c) := Server.writeFrame c 8 payload false in (Return err, c)
  else (Return (Some (EMsg ("unsupported RFC 6455 opcode 0x" +:+ String (hex_digit op) EmptyString))), c).

(** The loop; every turn that goes on has read at least two octets. *)
Fixpoint serve (fuel : nat) (c : conn) : option goerror * conn :=
  match fuel with
  | O => (Some (EMsg "out of fuel"), c)
  | S fuel =>
      match Server.readFrame true (c_in c) with
      | ((_, Some e), s) => (Some e, with_input s c)
      | ((frame, None), s) =>
          match handleFrame frame (with_input s c) with
          | (Again, c) => serve fuel c
          | (Return err, c) => (err, c)
          end
      end
  end.

(** [handleConnection]; the connection is closed on return. *)
Definition handleConnection (c : conn) : option goerror * conn :=
  match ReadRequest (c_in c) with
  | (Err e, s) => (Some (EWrap "HTTP/1.1 opening handshake" e), with_input s c)
  | (Ok request, s) =>
      let c := with_input s c in
      match Cleartext.validateUpgradeRequest request with
      | Some e => (Some e, (write_string bad_request_response c).2)
      | None =>
          match write_string (Cleartext.switching_response (header_get (UHeader request) "sec-websocket-key")) c with
          | (Some e, c) => (Some e, c)
          | (None, c) => serve (S (length (st_data (c_in c)))) c
          end
      end
  end.
End CleartextServer.

(** ** go-http1-websocket-tls *)

Module SecureServer.
Section flate.
(** What [flate.NewWriter], [Write] and [Flush] leave in the buffer, and the octets a
    [flate.NewReader] delivers with the error that ends them. *)
Variable deflate : bytes -> res bytes.
Variable inflate : bytes -> stream.

Definition sync_tail : bytes := [0; 0; 255; 255].

Definition compressMessage (payload : bytes) : res bytes :=
  let? wire := deflate payload in
  guard (len sync_tail <=? len wire) && bool_decide (drop (length wire - 4) wire = sync_tail)
    else EMsg "permessage-deflate sync-flush tail was not produced" in
  Ok (take (length wire - 4) wire).

Definition decompressMessage (wire : bytes) : res bytes :=
  let '(payload, err) := read_limited (1048576 + 1) (inflate (wire ++ sync_tail)) in
  match err with
  | Some e => if errors_is EUnexpectedEOF e
              then if 1048576 <? len payload then Err (EMsg "decompressed message exceeds package limit") else Ok payload
              else Err e
  | None => if 1048576 <? len payload then Err (EMsg "decompressed message exceeds package limit") else Ok payload
  end.

(** [writeFrameWithRSV1]: the octets it writes. *)
Definition secureFrame (opcode : Z) (payload : bytes) (masked rsv1 : bool) : res bytes :=
  guard negb (rsv1 && (negb (opcode =? 1) && negb (opcode =? 2)))
    else EMsg "RSV1 is valid only on compressed data frames" in
  let first := if rsv1 then Z.lor (Z.lor 0x80 opcode) 0x40 else Z.lor 0x80 opcode in
  let maskBit := if masked then 0x80 else 0 in
  let? header :=
    (if len payload <=? 125 then Ok [first; Z.lor maskBit (u8 (len payload))]
     else if len payload <=? 65535 then
       Ok [first; Z.lor maskBit 126; u8 (Z.shiftr (len payload) 8); u8 (len payload)]
     else Err (EMsg "payload exceeds package limit")) in
  if masked then Err (EMsg "target must never mask server-to-client frames")
  else Ok (header ++ payload).

Definition writeFrameWithRSV1 (c : conn) (opcode : Z) (payload : bytes) (masked rsv1 : bool) : option goerror * conn :=
  match secureFrame opcode payload masked rsv1 with
  | Err e => (Some e, c)
  | Ok wire => let '((_, err), c) := conn_write wire c in (err, c)
  end.
Definition writeFrame (c : conn) (opcode : Z) (payload : bytes) (masked : bool) : option goerror * conn :=
  writeFrameWithRSV1 c opcode payload masked false.

(** The payload of a binary frame under the negotiated profile. *)
Definition semantic_payload (profile : connectionProfile) (frame : Server.wireFrame) : res bytes :=
  if p_perMessageDeflate profile then
    guard Server.rsv frame =? 0x40 else EMsg "permessage-deflate binary data frame must set only RSV1" in
    match decompressMessage (Server.payload frame) with
    | Err e => Err (EWrap "decompress client permessage-deflate frame" e)
    | Ok p => Ok p
    end
  else if negb (String.eqb (p_subprotocol profile) "") || negb (Server.rsv frame =? 0)
  then Err (EMsg "binary data frame did not match the exact negotiated profile")
  else Ok (Server.payload frame).

Definition handleFrame (profile : connectionProfile) (frame : Server.wireFrame) (c : conn) : turn * conn :=
  let payload := Server.payload frame in
  let op := Server.opcode frame in
  let refuse message := (Return (Some (EMsg message)), c) in
  if negb (Server.fin frame) then refuse "fragmented frames are not supported by this exact target" else
  if op =? 1 then
    if p_perMessageDeflate profile || negb (Server.rsv frame =? 0)
    then refuse "text data frame did not match the exact negotiated subprotocol profile"
    else if negb (String.eqb (string_of_bytes payload) textPayload) then refuse "unexpected text payload"
    else let '(err, c) := writeFrame c 1 payload false in (CleartextServer.reply err, c)
  else if op =? 2 then
    match semantic_payload profile frame with
    | Err e => (Return (Some e), c)
    | Ok semanticPayload =>
        if negb (len semanticPayload =? 1024) then refuse "unexpected binary payload length"
        else if negb (forallb (Z.eqb 66) semanticPayload) then refuse "unexpected binary payload content"
        else
          match (if p_perMessageDeflate profile then compressMessage semanticPayload else Ok semanticPayload) with
          | Err e => (Return (Some e), c)
          | Ok responsePayload =>
              let '(err, c) := writeFrameWithRSV1 c 2 responsePayload false (p_perMessageDeflate profile) in
              (CleartextServer.reply err, c)
          end
    end
  else if op =? 9 then
    if negb (Server.rsv frame =? 0) || negb (String.eqb (p_subprotocol profile) "") || p_perMessageDeflate profile
    then refuse "ping did not match the unextended base profile"
    else if negb (String.eqb (string_of_bytes payload) controlPayload) then refuse "unexpected ping payload"
    else let '(err, c) := writeFrame c 10 payload false in (CleartextServer.reply err, c)
  else if op =? 8 then
    if negb (Server.rsv frame =? 0) then refuse "close frame must not set RSV bits"
    else if negb (len payload =? 2) || negb (be_decode payload =? 1000)
    then refuse "close payload must contain code 1000 with an empty UTF-8 reason"
    else let '(err, c) := writeFrame c 8 payload false in (Return err, c)
  else refuse ("unsupported RFC 6455 opcode 0x" +:+ String (hex_digit op) EmptyString).

Fixpoint serve (fuel : nat) (profile : connectionProfile) (c : conn) : option goerror * conn :=
  match fuel with
  | O => (Some (EMsg "out of fuel"), c)
  | S fuel =>
      match Server.readFrame true (c_in c) with
      | ((_, Some e), s) => (Some e, with_input s c)
      | ((frame, None), s) =>
          match handleFrame profile frame (with_input s c) with
          | (Again, c) => serve fuel profile c
          | (Return err, c) => (err, c)
          end
      end
  end.

(** [handleConnection] on a TLS connection; [handshake] is what the handshake left. *)
Definition handleConnection (handshake : res wsTlsState) (c : conn) : option goerror * conn :=
  match handshake with
  | Err e => (Some (EWrap "TLS 1.3 handshake" e), c)
  | Ok state =>
  if negb (t_version state =? TLS13) || negb (String.eqb (t_protocol state) "http/1.1") || t_resume state
  then (Some (EMsg ("TLS policy mismatch: version=" +:+ VersionName (t_version state) +:+ " alpn="
          +:+ go_quote (t_protocol state) +:+ " didResume=" +:+ if t_resume state then "true" else "false")), c) else
  match ReadRequest (c_in c) with
  | (Err e, s) => (Some (EWrap "HTTP/1.1 opening handshake" e), with_input s c)
  | (Ok request, s) =>
      let c := with_input s c in
      match Secure.validateUpgradeRequest request with
      | Err e => (Some e, (write_string bad_request_response c).2)
      | Ok profile =>
          match write_string (Secure.switching_response (header_get (UHeader request) "sec-websocket-key") profile) c with
          | (Some e, c) => (Some e, c)
          | (None, c) => serve (S (length (st_data (c_in c)))) profile c
          end
      end
  end end.
End flate.
End SecureServer.
