(* ===== verification/WsClient.v ===== *)
(** go-http1-websocket-tls-executor: one operation over one connection, the phases, and the
    exit code. compress/flate is a parameter. *)
From S2P Require Export Prelude GoText GoHttp1 Stats WsCodec WsHandshake WsServer.

(** ** The proof of an operation *)

Record operationProof := OperationProof {
  ScenarioID : string; Operation : string; MessageType : string; MessageBytes : Z; MessageCount : Z;
  PayloadSHA256 : string; ControlPayloadBytes : Z; ControlPayloadSHA256 : string; Fragmentation : string;
  ClientFrameMasked : bool; ServerFrameMasked : bool; RequestOpcode : string; ResponseOpcode : string;
  RequestRSV1 : bool; ResponseRSV1 : bool; CompressedMessage : bool;
  DecompressedPayloadSHA256 : string; PayloadHashMatched : bool; OrderedEcho : bool;
  PingSent : bool; PongReceived : bool; CloseSentCode : Z; CloseReceivedCode : Z; CloseReasonBytes : Z;
  CleanCompletion : bool; TransportEOFObserved : bool;
  Handshake : option handshakeProof;       (* [None] is the zero value *)
  LatencyMilliseconds : float64; TransferredBytes : Z;
  HandshakeRequest : string; HandshakeResponse : string
}.
Definition operationProof_zero : operationProof :=
  OperationProof "" "" "" 0 0 "" 0 "" "" false false "" "" false false false "" false false false false 0 0 0
    false false None f_zero 0 "" "".

(** The assignments of the sources, grouped as they are made. *)
Definition set_counts (bytes count controlBytes : Z) (control : string) (p : operationProof) : operationProof :=
  let '(OperationProof a b c _ _ f _ _ i j k l m n o q r s t u v w x y z a1 b1 c1 d1 e1 f1) := p in
  OperationProof a b c bytes count f controlBytes control i j k l m n o q r s t u v w x y z a1 b1 c1 d1 e1 f1.
Definition set_request (opcode : string) (deflate : bool) (p : operationProof) : operationProof :=
  let '(OperationProof a b c d e f g h i _ k _ m _ o _ r s t u v w x y z a1 b1 c1 d1 e1 f1) := p in
  OperationProof a b c d e f g h i true k opcode m deflate o deflate r s t u v w x y z a1 b1 c1 d1 e1 f1.
Definition set_response (latency : float64) (masked : bool) (opcode : string) (rsv1 : bool) (p : operationProof) : operationProof :=
  let '(OperationProof a b c d e f g h i j _ l _ n _ q r s t u v w x y z a1 b1 _ d1 e1 f1) := p in
  OperationProof a b c d e f g h i j masked l opcode n rsv1 q r s t u v w x y z a1 b1 latency d1 e1 f1.
Definition set_payload_match (digest : string) (matched : bool) (p : operationProof) : operationProof :=
  let '(OperationProof a b c d e f g h i j k l m n o q _ _ t u v w x y z a1 b1 c1 d1 e1 f1) := p in
  OperationProof a b c d e f g h i j k l m n o q digest matched t u v w x y z a1 b1 c1 d1 e1 f1.
Definition set_echo (ordered control : bool) (bytes : Z) (p : operationProof) : operationProof :=
  let '(OperationProof a b c d e f g h i j k l m n o q r s _ _ _ w x y z a1 b1 c1 _ e1 f1) := p in
  OperationProof a b c d e f g h i j k l m n o q r s ordered control control w x y z a1 b1 c1 bytes e1 f1.
Definition set_close_sent (p : operationProof) : operationProof :=
  let '(OperationProof a b c d e f g h i _ k l m n o q r s t u v _ x y z a1 b1 c1 d1 e1 f1) := p in
  OperationProof a b c d e f g h i true k l m n o q r s t u v 1000 x y z a1 b1 c1 d1 e1 f1.
Definition set_close_received (p : operationProof) : operationProof :=
  let '(OperationProof a b c d e f g h i j _ l m n o q r s t u v w _ y z a1 b1 c1 d1 e1 f1) := p in
  OperationProof a b c d e f g h i j false l m n o q r s t u v w 1000 y z a1 b1 c1 d1 e1 f1.
Definition set_clean (p : operationProof) : operationProof :=
  let '(OperationProof a b c d e f g h i j k l m n o q r s t u v w x y _ _ b1 c1 d1 e1 f1) := p in
  OperationProof a b c d e f g h i j k l m n o q r s t u v w x y true true b1 c1 d1 e1 f1.
Definition set_latency (latency : float64) (p : operationProof) : operationProof :=
  let '(OperationProof a b c d e f g h i j k l m n o q r s t u v w x y z a1 b1 _ d1 e1 f1) := p in
  OperationProof a b c d e f g h i j k l m n o q r s t u v w x y z a1 b1 latency d1 e1 f1.
Definition set_transferred (bytes : Z) (p : operationProof) : operationProof :=
  let '(OperationProof a b c d e f g h i j k l m n o q r s t u v w x y z a1 b1 c1 _ e1 f1) := p in
  OperationProof a b c d e f g h i j k l m n o q r s t u v w x y z a1 b1 c1 bytes e1 f1.

Definition opcodeName (value : Z) : string :=
  if value =? 0x1 then "text" else if value =? 0x2 then "binary" else if value =? 0x8 then "close"
  else if value =? 0x9 then "ping" else if value =? 0xA then "pong"
  else "0x" +:+ (if value <? 16 then String (hex_digit value) EmptyString else hex_encode [value]).

Definition is_echo (e : scenarioExpectation) : bool :=
  String.eqb (e_operation e) "text-echo" || String.eqb (e_operation e) "binary-echo".
Definition is_control (e : scenarioExpectation) : bool := String.eqb (e_operation e) "control-frames".

Definition applySemanticCounts (e : scenarioExpectation) (p : operationProof) : operationProof :=
  if is_control e then set_counts 0 1 (len (e_payload e)) (e_payloadHash e) p
  else if is_echo e then set_counts (len (e_payload e)) 1 (ControlPayloadBytes p) (ControlPayloadSHA256 p) p
  else set_counts 0 0 (ControlPayloadBytes p) (ControlPayloadSHA256 p) p.

(** ** The connection *)

Record wsConnection := WsConnection {
  w_conn : conn; w_handshake : handshakeProof; w_rawRequest : string; w_rawResponse : string;
  w_handshakeMS : float64; w_bytes : Z
}.
Definition with_conn (c : conn) (n : Z) (w : wsConnection) : wsConnection :=
  WsConnection c (w_handshake w) (w_rawRequest w) (w_rawResponse w) (w_handshakeMS w) (w_bytes w + n).

(** What opening a connection meets: the root file, the pool, the dial (a failure, or the
    connection and its TLS state), [rand.Read], the clock. *)
Record openEnv := OpenEnv {
  oe_parse : option goerror; oe_root : option goerror; oe_pool : bool;
  oe_dial : res (wsTlsState * conn); oe_key : res bytes; oe_ms : float64
}.

Definition openWebSocket (env : openEnv) (e : scenarioExpectation) : res wsConnection :=
  match oe_parse env with Some err => Err err | None =>
  match oe_root env with Some err => Err (EWrap "read authenticated root certificate" err) | None =>
  guard oe_pool env else EMsg "authenticated root certificate PEM did not contain a certificate" in
  let? (state, c) := oe_dial env in
  let? keyBytes := oe_key env in
  let key := base64_std_encode keyBytes in
  let rawRequest := raw_request e key in
  match write_string rawRequest c with
  | (Some err, _) => Err err
  | (None, c) =>
  match readHTTPHeader (c_in c) with
  | (Err err, _) => Err err
  | (Ok rawResponse, s) =>
  let? response := ReadResponse rawResponse in
  let proof := handshake_proof e key state response in
  match validateHandshakeProof e proof with
  | Some err => Err err
  | None => Ok (WsConnection (with_input s c) (established proof) rawRequest rawResponse (oe_ms env)
                  (len (bytes_of_string rawRequest) + len (bytes_of_string rawResponse)))
  end end end end end.

(** [closeCleanly]: it changes the connection and the proof even when it fails. *)
Definition closeCleanly (mask : res bytes) (w : wsConnection) (p : operationProof)
    : option goerror * wsConnection * operationProof :=
  match Client.writeClientFrame (w_conn w) mask 0x8 [3; 232] with
  | ((written, Some e), c) => (Some e, with_conn c written w, p)
  | ((written, None), c) =>
  let w := with_conn c written w in
  let p := set_close_sent p in
  match Client.readFrame false (c_in c) with
  | ((frame, Some e), s) => (Some e, with_conn (with_input s c) (Client.nbytes frame) w, p)
  | ((frame, None), s) =>
  let w := with_conn (with_input s c) (Client.nbytes frame) w in
  if negb (Client.fin frame) || negb (Client.rsv frame =? 0) || Client.masked frame
     || negb (Client.opcode frame =? 0x8) || negb (len (Client.payload frame) =? 2)
     || negb (be_decode (Client.payload frame) =? 1000)
  then (Some (EMsg "clean close echo mismatch"), w, p) else
  let p := set_close_received p in
  match read_byte s with
  | (Ok _, s) => (Some (EMsg "unexpected bytes followed the WebSocket closing handshake"),
                  with_conn (with_input s c) 0 w, p)
  | (Err e, s) =>
      if errors_is EEOF e then (None, with_conn (with_input s c) 0 w, set_clean p)
      else (Some (EWrap "waiting for peer transport close after WebSocket closing handshake" e),
            with_conn (with_input s c) 0 w, p)
  end end end.

Section executor.
(** As for the server: [flate.Writer] after [Flush], and [flate.Reader]. *)
Variable deflate : bytes -> res bytes.
Variable inflate : bytes -> stream.

Definition compressMessage : bytes -> res bytes := SecureServer.compressMessage deflate.
Definition decompressMessage : bytes -> res bytes := SecureServer.decompressMessage inflate.

Definition first_proof (w : wsConnection) (e : scenarioExpectation) : operationProof :=
  applySemanticCounts e
    (OperationProof (e_id e) (e_operation e) (e_messageType e) (len (e_payload e)) 0 (e_payloadHash e) 0 "" "none"
       false false "" "" false false false (hash []) (String.eqb (e_payloadHash e) (hash [])) false false false 0 0 0
       false false (Some (w_handshake w)) f_zero 0 (w_rawRequest w) (w_rawResponse w)).

(** The payload of the response, under the negotiated extension. *)
Definition semantic_response (e : scenarioExpectation) (frame : Client.wireFrame) : res bytes :=
  if e_perMessageDeflate e then
    guard Client.rsv frame =? 0x40 else EMsg "permessage-deflate response data frame did not set only RSV1" in
    match decompressMessage (Client.payload frame) with
    | Err err => Err (EWrap "decompress permessage-deflate response" err)
    | Ok p => Ok p
    end
  else guard Client.rsv frame =? 0 else EMsg "unnegotiated RSV bit was set on response frame" in
       Ok (Client.payload frame).

Definition performOnOpenConnection (mask : res bytes) (latency : float64) (w : wsConnection) (e : scenarioExpectation)
    : (operationProof * option goerror) * wsConnection :=
  let startBytes := w_bytes w in
  let p := first_proof w e in
  match (if e_perMessageDeflate e then compressMessage (e_payload e) else Ok (e_payload e)) with
  | Err err => ((p, Some err), w)
  | Ok wirePayload =>
  match Client.writeClientFrameWithRSV1 (w_conn w) mask (e_requestOpcode e) wirePayload (e_perMessageDeflate e) with
  | ((written, Some err), c) => ((p, Some err), with_conn c written w)
  | ((written, None), c) =>
  let w := with_conn c written w in
  let p := set_request (opcodeName (e_requestOpcode e)) (e_perMessageDeflate e) p in
  match Client.readFrame false (c_in c) with
  | ((frame, Some err), s) => ((p, Some err), with_conn (with_input s c) (Client.nbytes frame) w)
  | ((frame, None), s) =>
  let w := with_conn (with_input s c) (Client.nbytes frame) w in
  let p := set_response latency (Client.masked frame) (opcodeName (Client.opcode frame))
             (Client.rsv frame =? 0x40) p in
  match semantic_response e frame with
  | Err err => ((p, Some err), w)
  | Ok semanticPayload =>
  let digest := hash semanticPayload in
  let matched := bool_decide (semanticPayload = e_payload e) && String.eqb digest (e_payloadHash e) in
  let p := set_payload_match digest matched p in
  if negb (Client.fin frame) || negb (Client.opcode frame =? e_responseOpcode e) || negb matched
  then ((p, Some (EMsg "response frame opcode, fragmentation, or deterministic payload mismatch")), w)
  else ((set_echo (is_echo e) (is_control e) (w_bytes w - startBytes) p, None), w)
  end end end end.

(** What one operation meets: the opening, the two masking keys, the clock. *)
Record operationEnv := OperationEnv {
  op_open : openEnv; op_mask : res bytes; op_close_mask : res bytes; op_ms : float64
}.

(** [performOperation]: the proof, the error, and the connection it was made on. *)
Definition performOperation (env : operationEnv) (e : scenarioExpectation)
    : operationProof * option goerror * option wsConnection :=
  match openWebSocket (op_open env) e with
  | Err err => (operationProof_zero, Some err, None)
  | Ok w =>
  let p := first_proof w e in
  if String.eqb (e_operation e) "establish" then
    let p := set_latency (w_handshakeMS w) p in
    match closeCleanly (op_close_mask env) w p with
    | (Some err, w, p) => (p, Some err, Some w)
    | (None, w, p) => (set_transferred (w_bytes w) p, None, Some w)
    end
  else if String.eqb (e_operation e) "close" then
    match closeCleanly (op_close_mask env) w p with
    | (Some err, w, p) => (p, Some err, Some w)
    | (None, w, p) => (set_transferred (w_bytes w) (set_latency (op_ms env) p), None, Some w)
    end
  else
  match performOnOpenConnection (op_mask env) (op_ms env) w e with
  | ((p, Some err), w) => (p, Some err, Some w)
  | ((p, None), w) =>
    match closeCleanly (op_close_mask env) w p with
    | (Some err, w, p) => (p, Some err, Some w)
    | (None, w, p) => (set_transferred (w_bytes w) p, None, Some w)
    end
  end end.
End executor.
