(* ===== verification/WsRun.v ===== *)
(** go-http1-websocket-tls-executor: the phases, their summaries, the normalized result, and
    the exit code of [main]. *)
From S2P Require Export Prelude GoText GoHash Stats WsHandshake WsServer WsClient.

(** ** Phase summaries *)

Record phaseSummary := PhaseSummary {
  Phase : string; DurationSeconds : float64;
  CompletedOperations : Z; FailedOperations : Z; TimedOutOperations : Z; TotalTransferredBytes : Z;
  EffectiveConnections : Z; EffectiveConcurrency : Z; LatenciesMilliseconds : list float64;
  LastProof : operationProof;
  OpeningHandshakes : Z; KeyReuseCount : Z; InvalidDecodedKeyCount : Z; AcceptMismatchCount : Z;
  UpgradeRequestHeadersMatched : bool; UpgradeResponseHeadersMatched : bool;
  Errors : gmap string Z; seenKeys : gset string
}.

Definition newPhaseSummary (name : string) : phaseSummary :=
  PhaseSummary name f_zero 0 0 0 0 1 1 [] operationProof_zero 0 0 0 0 true true ∅ ∅.

Definition request_matched (p : handshakeProof) (e : scenarioExpectation) : bool :=
  String.eqb (Binding p) "http1-upgrade" && String.eqb (Scheme p) "wss" && String.eqb (TransportSecurity p) "tls"
  && String.eqb (Endpoint p) "/websocket" && String.eqb (Authority p) "websocket.plab.test"
  && String.eqb (RequestMethod p) "GET" && String.eqb (RequestedHTTPVersion p) "HTTP/1.1"
  && String.eqb (SecWebSocketVersion p) "13"
  && Bool.eqb (SubprotocolRequested p) (negb (String.eqb (e_subprotocol e) ""))
  && String.eqb (SubprotocolOffered p) (e_subprotocol e)
  && Bool.eqb (ExtensionsRequested p) (e_perMessageDeflate e)
  && String.eqb (ExtensionOffered p) (expectedExtension e).
Definition response_matched (p : handshakeProof) (e : scenarioExpectation) : bool :=
  String.eqb (ObservedHTTPVersion p) "HTTP/1.1" && (ResponseStatus p =? 101)
  && equal_fold (UpgradeHeader p) "websocket" && hasToken (ConnectionHeader p) "upgrade"
  && Bool.eqb (SubprotocolNegotiated p) (negb (String.eqb (e_subprotocol e) ""))
  && String.eqb (SubprotocolAccepted p) (e_subprotocol e)
  && Bool.eqb (ExtensionsNegotiated p) (e_perMessageDeflate e)
  && String.eqb (ExtensionAccepted p) (expectedExtension e)
  && Bool.eqb (ClientNoContextTakeover p) (e_perMessageDeflate e)
  && Bool.eqb (ServerNoContextTakeover p) (e_perMessageDeflate e)
  && String.eqb (ObservedSecWebSocketAccept p) (ExpectedSecWebSocketAccept p).

Definition recordOpeningHandshake (p : handshakeProof) (e : scenarioExpectation) (s : phaseSummary) : phaseSummary :=
  let key := SampleSecWebSocketKey p in
  let invalid := match base64_std_decode key with Some d => negb (len d =? 16) | None => true end in
  let exists_ := bool_decide (key ∈ seenKeys s) in
  let mismatch := negb (String.eqb (websocketAccept key) (ObservedSecWebSocketAccept p)) in
  PhaseSummary (Phase s) (DurationSeconds s) (CompletedOperations s) (FailedOperations s) (TimedOutOperations s)
    (TotalTransferredBytes s) (EffectiveConnections s) (EffectiveConcurrency s) (LatenciesMilliseconds s) (LastProof s)
    (OpeningHandshakes s + 1) (KeyReuseCount s + if exists_ then 1 else 0)
    (InvalidDecodedKeyCount s + if invalid then 1 else 0) (AcceptMismatchCount s + if mismatch then 1 else 0)
    (UpgradeRequestHeadersMatched s && request_matched p e) (UpgradeResponseHeadersMatched s && response_matched p e)
    (Errors s) (if exists_ then seenKeys s else {[key]} ∪ seenKeys s).

(** [summary.Errors[message]++]. *)
Definition bump (message : string) (errors : gmap string Z) : gmap string Z :=
  <[message := default 0 (errors !! message) + 1]> errors.

Definition isTimeout (e : goerror) : bool := errors_is EDeadline e || is_net_timeout e.

(** A failed operation: timed out or failed, and its message. *)
Definition record_failure (timedOut : bool) (e : goerror) (s : phaseSummary) : phaseSummary :=
  let '(PhaseSummary a b c f t g h i j k l m n o q r er sk) := s in
  PhaseSummary a b c (f + if timedOut then 0 else 1) (t + if timedOut then 1 else 0) g h i j k l m n o q r
    (bump (error_string e) er) sk.
Definition record_success (p : operationProof) (s : phaseSummary) : phaseSummary :=
  let '(PhaseSummary a b c f t g h i j _ l m n o q r er sk) := s in
  PhaseSummary a b (c + 1) f t (g + TransferredBytes p) h i (j ++ [LatencyMilliseconds p]) p l m n o q r er sk.
Definition set_last (p : operationProof) (s : phaseSummary) : phaseSummary :=
  let '(PhaseSummary a b c f t g h i j _ l m n o q r er sk) := s in PhaseSummary a b c f t g h i j p l m n o q r er sk.
Definition set_duration (d : float64) (s : phaseSummary) : phaseSummary :=
  let '(PhaseSummary a _ c f t g h i j k l m n o q r er sk) := s in PhaseSummary a d c f t g h i j k l m n o q r er sk.

(** What a phase meets: the operations it has time for, the last close, and its length. *)
Record phaseEnv := PhaseEnv {
  ph_operations : list operationEnv; ph_open : openEnv; ph_close_mask : res bytes; ph_seconds : float64
}.

Section phases.
Variable deflate : bytes -> res bytes.
Variable inflate : bytes -> stream.

(** The loop of [runPhase]: one list element per turn that began before the deadline. *)
Fixpoint phase_loop (envs : list operationEnv) (e : scenarioExpectation) (s : phaseSummary) : phaseSummary :=
  match envs with
  | [] => s
  | env :: envs =>
      match performOperation deflate inflate env e with
      | (_, Some err, _) => record_failure (isTimeout err) err s
      | (p, None, _) =>
          let s := match Handshake p with Some h => recordOpeningHandshake h e s | None => s end in
          phase_loop envs e (record_success p s)
      end
  end.

(** The loop of [runReusablePhase], over one connection. *)
Fixpoint reusable_loop (envs : list operationEnv) (e : scenarioExpectation) (w : wsConnection) (s : phaseSummary)
    : phaseSummary * wsConnection :=
  match envs with
  | [] => (s, w)
  | env :: envs =>
      match performOnOpenConnection deflate inflate (op_mask env) (op_ms env) w e with
      | ((_, Some err), w) => (record_failure (isTimeout err) err s, w)
      | ((p, None), w) => reusable_loop envs e w (record_success p s)
      end
  end.

Definition hasFailures (s : phaseSummary) : bool := negb (FailedOperations s =? 0) || negb (TimedOutOperations s =? 0).

Definition runReusablePhase (env : phaseEnv) (e : scenarioExpectation) (name : string) : phaseSummary :=
  let s := newPhaseSummary name in
  match openWebSocket (ph_open env) e with
  | Err err => record_failure false err s
  | Ok w =>
      let s := recordOpeningHandshake (w_handshake w) e s in
      let '(s, w) := reusable_loop (ph_operations env) e w s in
      let s :=
        if hasFailures s then s else
        match closeCleanly (ph_close_mask env) w (LastProof s) with
        | (Some err, _, p) => record_failure (isTimeout err) err (set_last p s)
        | (None, _, p) => set_last p s
        end in
      set_duration (ph_seconds env) s
  end.

Definition runPhase (env : phaseEnv) (e : scenarioExpectation) (name : string) : phaseSummary :=
  if is_echo e || is_control e then runReusablePhase env e name
  else set_duration (ph_seconds env) (phase_loop (ph_operations env) e (newPhaseSummary name)).

(** ** The normalized result *)

Record metrics := Metrics {
  ConnectionsPerSecond : float64; MessagesPerSecond : float64; BytesPerSecond : float64;
  ConnectionLatency : list float64;        (* mean, P50, P75, P90, P95, P99 *)
  MessageLatency : list float64;
  ControlFrameLatency : list float64;      (* P50, P95, P99 *)
  CloseLatency : list float64;
  MCompletedOperations : Z; MFailedOperations : Z; MTimedOutOperations : Z; MTotalTransferredBytes : Z;
  MEffectiveConnections : Z; MEffectiveConcurrency : Z
}.

Definition quantile (n : Z) : float64 := f_ratio n 100.

(** The metrics of [normalizeResult]. *)
Definition normalize_metrics (e : scenarioExpectation) (s : phaseSummary) : metrics :=
  let l := LatenciesMilliseconds s in
  let rate := fdiv (f_of_Z (CompletedOperations s)) (DurationSeconds s) in
  let six := [mean l; percentile l (quantile 50); percentile l (quantile 75); percentile l (quantile 90);
              percentile l (quantile 95); percentile l (quantile 99)] in
  let three := [percentile l (quantile 50); percentile l (quantile 95); percentile l (quantile 99)] in
  let z6 := replicate 6 f_zero in
  let z3 := replicate 3 f_zero in
  let build connections messages cl ml control close :=
    Metrics connections messages (fdiv (f_of_Z (TotalTransferredBytes s)) (DurationSeconds s)) cl ml control close
      (CompletedOperations s) (FailedOperations s) (TimedOutOperations s) (TotalTransferredBytes s)
      (EffectiveConnections s) (EffectiveConcurrency s) in
  if String.eqb (e_operation e) "establish" then build rate f_zero six z6 z3 z3
  else if String.eqb (e_operation e) "close" then build f_zero f_zero z6 z6 z3 three
  else if is_control e then build f_zero rate z6 z6 three z3
  else build f_zero rate z6 six z3 z3.

(** The normalized result, less its constants; its status is always passed. *)
Record normalizedResult := NormalizedResult {
  NScenarioID : string; NStatus : string; NProof : operationProof; NMetrics : metrics;
  NHandshakes : Z; NKeyReuse : Z; NInvalidKeys : Z; NAcceptMismatch : Z; NRequestMatched : bool; NResponseMatched : bool
}.
Definition normalizeResult (e : scenarioExpectation) (s : phaseSummary) : normalizedResult :=
  NormalizedResult (e_id e) "passed" (LastProof s) (normalize_metrics e s) (OpeningHandshakes s) (KeyReuseCount s)
    (InvalidDecodedKeyCount s) (AcceptMismatchCount s) (UpgradeRequestHeadersMatched s) (UpgradeResponseHeadersMatched s).

(** ** [main] *)

Definition knownUnsupported : list string :=
  ["websocket.echo";
   "http1.websocket.rfc6455.cleartext.upgrade"; "http1.websocket.rfc6455.cleartext.text-echo";
   "http1.websocket.rfc6455.cleartext.binary-echo"; "http1.websocket.rfc6455.cleartext.control-frames";
   "http1.websocket.rfc6455.cleartext.close";
   "http2.websocket.rfc8441.extended-connect"; "http2.websocket.rfc8441.text-echo";
   "http2.websocket.rfc8441.binary-echo"; "http2.websocket.rfc8441.control-frames"; "http2.websocket.rfc8441.close";
   "http2.websocket.rfc8441.multi-message-text-echo";
   "http3.websocket.rfc9220.extended-connect"; "http3.websocket.rfc9220.text-echo";
   "http3.websocket.rfc9220.binary-echo"; "http3.websocket.rfc9220.control-frames"; "http3.websocket.rfc9220.close";
   "http3.websocket.rfc9220.fragmented-binary-echo"].

(** What [url.Parse] gives of the trimmed target. *)
Record parsedURL := ParsedURL { u_scheme : string; u_host : string; u_query : string; u_fragment : string; u_path : string }.

Definition normalizeTarget (parsed : res parsedURL) : res string :=
  let? p := parsed in
  guard String.eqb (u_scheme p) "https" && negb (String.eqb (u_host p) "")
    else EMsg "TLS WebSocket target must use https://host:port" in
  guard String.eqb (u_query p) "" && String.eqb (u_fragment p) ""
    else EMsg "target query and fragment are prohibited" in
  let path := if String.eqb (u_path p) "" || String.eqb (u_path p) "/" then "/websocket" else u_path p in
  guard String.eqb path "/websocket" else EMsg "target endpoint must be /websocket" in
  Ok ("https://" +:+ u_host p +:+ path).

Definition env_value (getenv : string -> string) (name : string) : string := trim_space (getenv name).
Definition envInt (getenv : string -> string) (name : string) : Z := atoi_value (env_value getenv name).
Definition envIntDefault (getenv : string -> string) (name : string) (fallback : Z) : Z :=
  if String.eqb (env_value getenv name) "" then fallback else envInt getenv name.

Definition verifySubstitution (getenv : string -> string) (variable expected : string) : bool :=
  let observed := env_value getenv variable in
  String.eqb observed "" || String.eqb observed expected.

Inductive identity := Known (e : scenarioExpectation) | Exit (code : Z).

Definition checkIdentity (getenv : string -> string) : identity :=
  if negb (forallb (fun '(n, v) => verifySubstitution getenv n v)
       [("PLAB_EXECUTOR_ID", "go-http1-websocket-tls-executor"); ("PLAB_EXECUTOR_VERSION", "0.2.0");
        ("PLAB_LOAD_GENERATOR_ID", "go-http1-websocket-tls-load"); ("PLAB_LOAD_GENERATOR_VERSION", "0.2.0");
        ("PLAB_PROTOCOL", "h1"); ("PLAB_PROTOCOL_VARIANT", "websocket-h1-tls1.3-upgrade")])
  then Exit 2 else
  let scenario := env_value getenv "PLAB_SCENARIO_ID" in
  match find_expectation scenario with
  | Some e => Known e
  | None => if string_in knownUnsupported scenario then Exit 3 else Exit 2
  end.

Definition loadConfigFromEnvironment (getenv : string -> string) : option goerror :=
  if negb (String.eqb (env_value getenv "PLAB_LOAD_PROFILE_ID") "websocket-smoke")
  then Some (EMsg "supports load profile websocket-smoke only")
  else if negb (forallb (fun '(n, v) => envInt getenv n =? v)
            [("PLAB_CONNECTIONS", 1); ("PLAB_CONCURRENCY", 1); ("PLAB_DURATION_SECONDS", 5);
             ("PLAB_WARMUP_SECONDS", 1); ("PLAB_REPETITION", 1)])
          || negb (envIntDefault getenv "PLAB_OPERATION_TIMEOUT_MILLISECONDS" 5000 =? 5000)
  then Some (EMsg "websocket-smoke requires its exact configuration") else None.

(** What a run meets; every artifact is written. *)
Record mainEnv := MainEnv {
  m_getenv : string -> string; m_target : res parsedURL; m_validationOnly : bool;
  m_preflight : operationEnv; m_warmup : phaseEnv; m_measured : phaseEnv
}.

(** The exit code and the final result, if one is written. *)
Definition main (env : mainEnv) : Z * option normalizedResult :=
  match checkIdentity (m_getenv env) with
  | Exit code => (code, None)
  | Known e =>
  match normalizeTarget (m_target env) with
  | Err _ => (2, None)
  | Ok _ =>
  match performOperation deflate inflate (m_preflight env) e with
  | (_, Some _, _) => (1, None)
  | (_, None, _) =>
  if m_validationOnly env then (0, None) else
  match loadConfigFromEnvironment (m_getenv env) with
  | Some _ => (2, None)
  | None =>
  let warmup := runPhase (m_warmup env) e "warmup" in
  if hasFailures warmup || (CompletedOperations warmup =? 0) then (1, None) else
  let measured := runPhase (m_measured env) e "measured" in
  if hasFailures measured || (CompletedOperations measured =? 0) then (1, None) else
  (0, Some (normalizeResult e measured))
  end end end end.

End phases.
