(* ===== verification/WsProps.v ===== *)
(** The HTTP/1.1 WebSocket executor and its servers together: heads read back, the session
    of every scenario, and what a passed operation and a finished phase earned. *)
From S2P Require Export Prelude GoText GoHash Certificates GoHttp1 WsCodec WsHandshake WsServer WsClient WsRun.
From Stdlib Require Import Ascii.

(** ** Heads are read back *)

Definition field_line (f : string * string) : string := f.1 +:+ ": " +:+ f.2.
Definition lower_field (f : string * string) : string * string := (to_lower f.1, f.2).

(** A token for a name; a value without line ends and without blanks at its ends. *)
Definition good_field (f : string * string) : bool :=
  let n := bytes_of_string f.1 in
  let v := bytes_of_string f.2 in
  negb (len n =? 0) && forallb is_token_byte n && forallb (fun b => negb (b =? 10) && negb (b =? 13)) v
  && bool_decide (trim_blanks (32 :: v) = v).

Lemma cut_byte_app sep l r : forallb (fun b => negb (b =? sep)) l = true -> cut_byte sep (l ++ sep :: r) = Some (l, r).
Proof.
  induction l as [|b l IH]; cbn [forallb app cut_byte]; [by rewrite Z.eqb_refl|].
  intros [Hb Hl]%andb_true_iff. apply negb_true_iff in Hb. by rewrite Hb, IH.
Qed.

Lemma forallb_impl {A} (P Q : A -> bool) l : (forall x, P x = true -> Q x = true) -> forallb P l = true -> forallb Q l = true.
Proof. intros H. rewrite !forallb_forall. eauto. Qed.

Lemma token_not (c b : Z) : is_token_byte c = false -> is_token_byte b = true -> negb (b =? c) = true.
Proof. intros Hc Hb. destruct (Z.eqb_spec b c); [congruence|done]. Qed.

Lemma parse_field_line f : good_field f = true -> parse_field (bytes_of_string (field_line f)) = Ok (lower_field f).
Proof.
  destruct f as [n v]. unfold good_field, field_line, lower_field. cbn [fst snd]. intros H. reflect_bools.
  rewrite !bytes_of_string_app. change (bytes_of_string ": ") with [58; 32]. cbn [app].
  unfold parse_field. rewrite cut_byte_app by (eapply forallb_impl; [|done]; intros x; by apply (token_not 58)).
  match goal with H : trim_blanks _ = _ |- _ => rewrite H end. rewrite !string_of_bytes_of_string.
  rewrite (proj2 (Z.eqb_neq _ _)) by done. by match goal with H : forallb is_token_byte _ = true |- _ => rewrite H end.
Qed.

Lemma parse_fields_lines fs :
  forallb good_field fs = true -> parse_fields (bytes_of_string <$> (field_line <$> fs)) = Ok (lower_field <$> fs).
Proof.
  induction fs as [|f fs IH]; cbn [forallb fmap list_fmap parse_fields]; [done|].
  intros [Hf Hfs]%andb_true_iff. by rewrite parse_field_line, IH.
Qed.

Lemma no_line_ends_clean l : forallb (fun b => negb (b =? 10) && negb (b =? 13)) l = true -> clean_line l = true.
Proof.
  intros H. unfold clean_line. apply andb_true_iff. split.
  - eapply forallb_impl; [|done]. by intros x [? _]%andb_true_iff.
  - apply negb_true_iff, bool_decide_eq_false. intros Hl. apply last_Some_elem_of in Hl.
    rewrite forallb_forall in H. apply list_elem_of_In in Hl. by apply H in Hl.
Qed.

Lemma field_line_clean f :
  good_field f = true ->
  forallb (fun b => negb (b =? 10) && negb (b =? 13)) (bytes_of_string (field_line f)) = true /\ field_line f <> "".
Proof.
  destruct f as [n v]. unfold good_field, field_line. cbn [fst snd]. intros H. reflect_bools. split.
  - rewrite !bytes_of_string_app, !forallb_app. change (bytes_of_string ": ") with [58; 32].
    match goal with H : forallb (fun _ => _) _ = true |- _ => rewrite H end. rewrite andb_true_r.
    eapply forallb_impl; [|done]. intros b Hb.
    by rewrite (token_not 10 b), (token_not 13 b).
  - by destruct n.
Qed.

Lemma read_fields fs rest e :
  forallb good_field fs = true ->
  let text := bytes_of_string (text_lines ((field_line <$> fs) ++ [""])) ++ rest in
  read_lines (S (length text)) (Stream text e) = (Ok (bytes_of_string <$> (field_line <$> fs)), Stream rest e).
Proof.
  intros H text. subst text. apply read_lines_text.
  - apply Forall_fmap, Forall_forall. intros f Hf. rewrite forallb_forall in H.
    apply list_elem_of_In in Hf. destruct (field_line_clean f (H _ Hf)) as [Hc Hn].
    split; [by apply no_line_ends_clean|done].
  - rewrite length_app. pose proof (length_text_lines ((field_line <$> fs) ++ [""])) as Hl.
    rewrite length_app in Hl. cbn [length] in Hl. lia.
Qed.

(** A request of the executors is what the servers read. *)
Lemma ReadRequest_head first fs rest e :
  clean_line (bytes_of_string first) = true -> forallb good_field fs = true ->
  ReadRequest (Stream (bytes_of_string (text_lines (first :: (field_line <$> fs) ++ [""])) ++ rest) e)
  = ((let? (method, target, (major, minor)) := parse_request_line (bytes_of_string first) in
      let? path := target_path target in
      Ok (UpgradeRequest method major minor path (header_get (lower_field <$> fs) "host") (lower_field <$> fs))),
     Stream rest e).
Proof.
  intros Hc Hf. unfold ReadRequest. rewrite text_lines_cons, <-app_assoc. cbn [app].
  rewrite read_line_clean by done. cbn [st_data]. rewrite read_fields by done.
  by rewrite parse_fields_lines.
Qed.

(** And likewise for a response. *)
Lemma ReadResponse_head first fs :
  clean_line (bytes_of_string first) = true -> forallb good_field fs = true ->
  ReadResponse (text_lines (first :: (field_line <$> fs) ++ [""]))
  = match cut_byte 32 (bytes_of_string first) with
    | None => Err (EMsg "malformed HTTP response")
    | Some (proto, status) =>
        let status := match cut_byte 32 (skip_blanks status) with Some (x, _) => x | None => skip_blanks status end in
        guard len status =? 3 else EMsg "malformed HTTP status code" in
        match atoi (string_of_bytes status), parse_version (string_of_bytes proto) with
        | Some code, Some (major, minor) =>
            guard 0 <=? code else EMsg "malformed HTTP status code" in
            Ok (UpgradeResponse (string_of_bytes proto) code major minor (lower_field <$> fs))
        | None, _ => Err (EMsg "malformed HTTP status code")
        | _, None => Err (EMsg "malformed HTTP version")
        end
    end.
Proof.
  intros Hc Hf. unfold ReadResponse. rewrite text_lines_cons.
  rewrite read_line_clean by done. cbn [st_data].
  pose proof (read_fields fs [] EEOF Hf) as Hr. cbv zeta in Hr. rewrite app_nil_r in Hr. rewrite Hr.
  cbn [fst res_bind]. by rewrite parse_fields_lines.
Qed.

(** [readHTTPHeader] stops at the end of the head and not before. *)
Lemma ends_head_iff d : ends_head d = true <-> exists x, d = x ++ [13; 10; 13; 10].
Proof.
  unfold ends_head. split.
  - intros [H1 H2]%andb_true_iff. apply bool_decide_eq_true in H2.
    exists (take (length d - 4) d). by rewrite <-H2, take_drop.
  - intros [x ->]. apply andb_true_iff. split.
    + rewrite len_app. pose proof (len_nonneg x). change (len [13; 10; 13; 10]) with 4. apply Z.leb_le. lia.
    + apply bool_decide_eq_true. rewrite length_app. cbn [length]. rewrite Nat.add_sub. apply drop_app_length.
Qed.

Lemma ends_head_not y b : b <> 10 -> ends_head (y ++ [b]) = false.
Proof.
  intros Hb. apply not_true_iff_false. intros [x H]%ends_head_iff.
  change (x ++ [13; 10; 13; 10]) with (x ++ [13; 10; 13] ++ [10]) in H. rewrite app_assoc in H.
  apply app_inj_tail in H as [_ H]. done.
Qed.

Lemma ends_head_line y b : b <> 10 -> ends_head (y ++ [b; 13; 10]) = false.
Proof.
  intros Hb. apply not_true_iff_false. intros [x H]%ends_head_iff.
  change (y ++ [b; 13; 10]) with (y ++ [b] ++ [13; 10]) in H.
  change (x ++ [13; 10; 13; 10]) with (x ++ [13; 10] ++ [13; 10]) in H. rewrite !app_assoc in H.
  apply app_inv_tail in H. change (x ++ [13; 10]) with (x ++ [13] ++ [10]) in H. rewrite app_assoc in H.
  apply app_inj_tail in H as [_ H]. done.
Qed.

Lemma header_loop_body l : forall fuel data rest e,
  forallb (fun b => negb (b =? 10)) l = true -> 
  header_loop (length l + fuel) data (Stream (l ++ rest) e) = header_loop fuel (data ++ l) (Stream rest e).
Proof.
  induction l as [|b l IH]; intros fuel data rest e H.
  - by rewrite app_nil_r.
  - cbn [forallb] in H. apply andb_true_iff in H as [Hb Hl]. apply negb_true_iff, Z.eqb_neq in Hb.
    cbn [length Nat.add header_loop read_byte st_data st_end app].
    rewrite ends_head_not, IH by done. by rewrite <-app_assoc.
Qed.

Lemma header_loop_line l fuel data rest e :
  l <> [] -> forallb (fun b => negb (b =? 10) && negb (b =? 13)) l = true ->
  header_loop (length l + 2 + fuel) data (Stream (l ++ 13 :: 10 :: rest) e)
  = header_loop fuel (data ++ l ++ [13; 10]) (Stream rest e).
Proof.
  intros Hne H.
  assert (Hl : forallb (fun b => negb (b =? 10)) (l ++ [13]) = true).
  { rewrite forallb_app. apply andb_true_iff. split; [|done]. eapply forallb_impl; [|done].
    by intros x [? _]%andb_true_iff. }
  replace (length l + 2 + fuel)%nat with (length (l ++ [13%Z]) + S fuel)%nat by (rewrite length_app; simpl; lia).
  change (l ++ 13 :: 10 :: rest) with (l ++ [13] ++ 10 :: rest). rewrite app_assoc, header_loop_body by done.
  cbn [header_loop read_byte st_data st_end].
  destruct (exists_last Hne) as (l' & b & ->).
  assert (Hb : b <> 10).
  { rewrite forallb_app in H. apply andb_true_iff in H as [_ H]. cbn in H. by destruct (Z.eqb_spec b 10). }
  replace ((data ++ (l' ++ [b]) ++ [13]) ++ [10]) with ((data ++ l') ++ [b; 13; 10]) by (by rewrite <-!app_assoc).
  rewrite ends_head_line by done. f_equal. by rewrite <-!app_assoc.
Qed.

Lemma header_loop_head ls : forall fuel data rest e,
  Forall (fun l => forallb (fun b => negb (b =? 10) && negb (b =? 13)) (bytes_of_string l) = true /\ l <> "") ls ->
  (exists y, data = y ++ [13; 10]) ->
  let text := bytes_of_string (text_lines (ls ++ [""])) in
  (length text <= fuel)%nat ->
  header_loop fuel data (Stream (text ++ rest) e) = (Ok (string_of_bytes (data ++ text)), Stream rest e).
Proof.
  induction ls as [|l ls IH]; intros fuel data rest e Hall [y ->] text Hf; subst text.
  - change (bytes_of_string (text_lines ([] ++ [""]))) with [13; 10] in *.
    destruct fuel as [|[|fuel]]; cbn [length] in Hf; [lia|lia|].
    cbn [header_loop read_byte st_data st_end app]. rewrite ends_head_not by done.
    rewrite (proj2 (ends_head_iff _)); [by rewrite <-!app_assoc|]. exists y. by rewrite <-!app_assoc.
  - apply Forall_cons in Hall as [[Hl Hne] Hall]. cbn [app] in *. rewrite text_lines_cons in *.
    rewrite length_app in Hf. cbn [length] in Hf.
    rewrite <-app_assoc. cbn [app].
    replace fuel with (length (bytes_of_string l) + 2 + (fuel - 2 - length (bytes_of_string l)))%nat by lia.
    rewrite header_loop_line; [|by destruct l|done]. rewrite IH; [|done| |lia].
    + by rewrite <-!app_assoc.
    + exists ((y ++ [13; 10]) ++ bytes_of_string l). by rewrite <-!app_assoc.
Qed.

(** [readHTTPHeader] on a head of at most 16384 octets. *)
Lemma readHTTPHeader_head ls rest e :
  Forall (fun l => forallb (fun b => negb (b =? 10) && negb (b =? 13)) (bytes_of_string l) = true /\ l <> "") ls ->
  ls <> [] -> len (bytes_of_string (text_lines (ls ++ [""]))) <= 16384 ->
  readHTTPHeader (Stream (bytes_of_string (text_lines (ls ++ [""])) ++ rest) e)
  = (Ok (text_lines (ls ++ [""])), Stream rest e).
Proof.
  intros Hall Hne Hlen. destruct ls as [|l ls]; [done|]. apply Forall_cons in Hall as [[Hl Hl0] Hall].
  unfold readHTTPHeader. cbn [app] in *. unfold len in Hlen.
  transitivity (Ok (string_of_bytes (bytes_of_string (text_lines (l :: ls ++ [""])))), Stream rest e);
    [|by rewrite string_of_bytes_of_string].
  rewrite text_lines_cons in *. rewrite length_app in Hlen. cbn [length] in Hlen.
  rewrite <-app_assoc. cbn [app].
  replace (Z.to_nat 16384) with (length (bytes_of_string l) + 2 + (Z.to_nat 16384 - 2 - length (bytes_of_string l)))%nat by lia.
  rewrite header_loop_line; [|by destruct l|done]. rewrite header_loop_head; [|done| |lia].
  - by rewrite app_nil_l, <-app_assoc.
  - by exists (bytes_of_string l).
Qed.

(** ** Keys and accept values *)

Definition plain (s : string) : Prop := Forall (fun b => 33 <= b <= 126) (bytes_of_string s).

Lemma b64_char_plain n : 0 <= n < 64 -> 33 <= ord (b64_char n) <= 126.
Proof.
  intros H. assert (Hn : is_byte n) by (unfold is_byte; lia).
  pose proof (byte_forall (fun n => (64 <=? n) || ((33 <=? ord (b64_char n)) && (ord (b64_char n) <=? 126)))
    ltac:(vm_compute; reflexivity) n Hn) as E; cbv beta in E.
  apply orb_true_iff in E as [E|E]; reflect_bools; lia.
Qed.

Lemma b64_encode_plain p l : all_bytes l -> Forall (fun c => 33 <= ord c <= 126) (b64_encode p l).
Proof.
  induction l as [|x|x y|x y z r IH] using list_ind3; intros H; [constructor| | |];
    repeat match goal with H : all_bytes (_ :: _) |- _ => inversion_clear H end;
    unfold is_byte in *.
  3: { cbn. repeat (constructor; [apply b64_char_plain; lia_mod|]). by apply IH. }
  all: destruct p; cbn;
    repeat (constructor; [first [apply b64_char_plain; lia_mod|vm_compute; split; congruence]|]); constructor.
Qed.

Lemma bytes_of_ascii_list l : bytes_of_string (String.string_of_list_ascii l) = ord <$> l.
Proof. induction l as [|c l IH]; [done|]. cbn. by rewrite IH. Qed.

Lemma base64_plain l : all_bytes l -> plain (base64_std_encode l).
Proof.
  intros H. unfold plain, base64_std_encode. rewrite bytes_of_ascii_list.
  apply Forall_fmap. by apply b64_encode_plain.
Qed.

Lemma sha1_bytes m : all_bytes (sha1 m).
Proof.
  unfold sha1. generalize (fold_left sha1_block (chunks 64 (md_pad m))). intros f.
  match goal with |- all_bytes (concat (_ <$> ?l)) => generalize l end. clear f.
  induction l as [|x l IH]; [constructor|]. cbn [fmap list_fmap concat].
  apply all_bytes_app. split; [apply be_encode_bytes|done].
Qed.

Lemma accept_plain key : plain (websocketAccept key).
Proof. apply base64_plain, sha1_bytes. Qed.

Lemma skip_blanks_plain l : Forall (fun b => 33 <= b <= 126) l -> skip_blanks l = l.
Proof.
  intros H. destruct H as [|b l Hb _]; [done|]. cbn. unfold is_blank.
  rewrite (proj2 (Z.eqb_neq _ _)), (proj2 (Z.eqb_neq b 9)) by lia. done.
Qed.

Lemma plain_field n v :
  negb (len (bytes_of_string n) =? 0) && forallb is_token_byte (bytes_of_string n) = true -> plain v -> good_field (n, v) = true.
Proof.
  intros Hn Hv. unfold good_field. cbn [fst snd]. rewrite Hn, andb_true_l.
  assert (Hl : forallb (fun b => negb (b =? 10) && negb (b =? 13)) (bytes_of_string v) = true).
  { apply forallb_forall. intros b Hb. apply list_elem_of_In in Hb.
    unfold plain in Hv. rewrite Forall_forall in Hv. specialize (Hv _ Hb).
    by rewrite (proj2 (Z.eqb_neq b 10)), (proj2 (Z.eqb_neq b 13)) by lia. }
  rewrite Hl. apply bool_decide_eq_true. unfold trim_blanks.
  change (skip_blanks (32 :: bytes_of_string v)) with (skip_blanks (bytes_of_string v)).
  rewrite !skip_blanks_plain; [apply reverse_involutive| done |].
  rewrite skip_blanks_plain by done. by apply Forall_reverse.
Qed.

(** ** The opening handshake of every profile *)

(** The profiles the executor's scenarios ask for. *)
Definition known_profile (e : scenarioExpectation) : Prop :=
  (e_subprotocol e = "" \/ e_subprotocol e = subprotocol_name /\ e_perMessageDeflate e = false).

Definition profile_of (e : scenarioExpectation) : connectionProfile :=
  ConnectionProfile (e_subprotocol e) (e_perMessageDeflate e).

Definition request_fields (e : scenarioExpectation) (key : string) : list (string * string) :=
  [("Host", "websocket.plab.test"); ("Upgrade", "websocket"); ("Connection", "Upgrade");
   ("Sec-WebSocket-Key", key); ("Sec-WebSocket-Version", "13")]
  ++ (if negb (String.eqb (e_subprotocol e) "") then [("Sec-WebSocket-Protocol", e_subprotocol e)] else [])
  ++ (if e_perMessageDeflate e then [("Sec-WebSocket-Extensions", perMessageDeflateExtension)] else []).

Definition response_fields (profile : connectionProfile) (key : string) : list (string * string) :=
  [("Upgrade", "websocket"); ("Connection", "Upgrade"); ("Sec-WebSocket-Accept", websocketAccept key)]
  ++ (if negb (String.eqb (p_subprotocol profile) "") then [("Sec-WebSocket-Protocol", p_subprotocol profile)] else [])
  ++ (if p_perMessageDeflate profile then [("Sec-WebSocket-Extensions", perMessageDeflateExtension)] else []).

Lemma raw_request_fields e key :
  raw_request e key = text_lines ("GET /websocket HTTP/1.1" :: (field_line <$> request_fields e key) ++ [""]).
Proof.
  unfold raw_request, request_fields. destruct (String.eqb (e_subprotocol e) ""), (e_perMessageDeflate e); reflexivity.
Qed.

Lemma switching_response_fields profile key :
  Secure.switching_response key profile
  = text_lines ("HTTP/1.1 101 Switching Protocols" :: (field_line <$> response_fields profile key) ++ [""]).
Proof.
  unfold Secure.switching_response, response_fields.
  destruct (String.eqb (p_subprotocol profile) ""), (p_perMessageDeflate profile); reflexivity.
Qed.

Ltac profile_cases e Hp :=
  destruct e as [?id ?op ?mt ?pl ?ph ?rq ?rs ?cm sub defl]; unfold known_profile, profile_of in *;
  cbn [e_subprotocol e_perMessageDeflate] in *;
  destruct Hp as [->|[-> ->]]; [destruct defl|].

Lemma request_fields_good e key : known_profile e -> plain key -> forallb good_field (request_fields e key) = true.
Proof.
  intros Hp Hk. assert (Hkey : good_field ("Sec-WebSocket-Key", key) = true) by (by apply plain_field).
  unfold request_fields. profile_cases e Hp; cbn [forallb app negb String.eqb]; rewrite Hkey; vm_compute; reflexivity.
Qed.

Lemma response_fields_good e key : known_profile e -> forallb good_field (response_fields (profile_of e) key) = true.
Proof.
  intros Hp. assert (Hkey : good_field ("Sec-WebSocket-Accept", websocketAccept key) = true)
    by (apply plain_field; [done|apply accept_plain]).
  unfold response_fields.
  profile_cases e Hp; cbn [forallb app negb String.eqb p_subprotocol p_perMessageDeflate]; rewrite Hkey; vm_compute; reflexivity.
Qed.

(** The request as the servers read it. *)
Definition client_request (e : scenarioExpectation) (key : string) : upgradeRequest :=
  UpgradeRequest "GET" 1 1 "/websocket" serverName (lower_field <$> request_fields e key).

Lemma server_reads_request e key rest err :
  known_profile e -> plain key ->
  ReadRequest (Stream (bytes_of_string (raw_request e key) ++ rest) err) = (Ok (client_request e key), Stream rest err).
Proof.
  intros Hp Hk. rewrite raw_request_fields, ReadRequest_head; [|vm_compute; reflexivity|by apply request_fields_good].
  reflexivity.
Qed.

Lemma upgrade_failures_none absent e keyBytes :
  known_profile e -> all_bytes keyBytes -> length keyBytes = 16%nat ->
  forallb (fun name => String.eqb (header_get (UHeader (client_request e (base64_std_encode keyBytes))) (to_lower name)) "") absent = true ->
  upgrade_failures absent (client_request e (base64_std_encode keyBytes)) = [].
Proof.
  intros Hp Hb Hl Habsent. pose proof (base64_std_roundtrip keyBytes Hb) as Hd.
  unfold upgrade_failures. cbn [client_request UMethod UMajor UMinor UPath UHost UHeader] in *.
  set (h := lower_field <$> request_fields e (base64_std_encode keyBytes)) in *.
  assert (Hkey : header_get h "sec-websocket-key" = base64_std_encode keyBytes) by (subst h; reflexivity).
  assert (H1 : header_get h "upgrade" = "websocket") by (subst h; reflexivity).
  assert (H2 : header_get h "connection" = "Upgrade") by (subst h; reflexivity).
  assert (H3 : header_get h "sec-websocket-version" = "13") by (subst h; reflexivity).
  rewrite Hkey, Hd, H1, H2, H3. unfold len. rewrite Hl.
  assert (E : omap (fun name => if negb (String.eqb (header_get h (to_lower name)) "")
                                then Some (name +:+ " must be absent") else None) absent = []).
  { clear -Habsent. induction absent as [|n l IH]; [done|]. cbn [forallb] in Habsent.
    apply andb_true_iff in Habsent as [Hn Hl]. cbn [omap list_omap]. rewrite Hn. cbn [negb]. by apply IH. }
  rewrite E. vm_compute. reflexivity.
Qed.

Lemma secure_accepts e keyBytes :
  known_profile e -> all_bytes keyBytes -> length keyBytes = 16%nat ->
  Secure.validateUpgradeRequest (client_request e (base64_std_encode keyBytes)) = Ok (profile_of e).
Proof.
  intros Hp Hb Hl. unfold Secure.validateUpgradeRequest.
  rewrite upgrade_failures_none; [|done|done|done|profile_cases e Hp; reflexivity].
  profile_cases e Hp; reflexivity.
Qed.

Lemma cleartext_accepts e keyBytes :
  e_subprotocol e = "" -> e_perMessageDeflate e = false -> all_bytes keyBytes -> length keyBytes = 16%nat ->
  Cleartext.validateUpgradeRequest (client_request e (base64_std_encode keyBytes)) = None.
Proof.
  intros Hs Hd Hb Hl. unfold Cleartext.validateUpgradeRequest.
  rewrite upgrade_failures_none; [done|by left|done|done|].
  unfold client_request, request_fields. rewrite Hs, Hd. reflexivity.
Qed.

(** What the executor's gate asks of the TLS session. *)
Record authenticated (state : wsTlsState) : Prop := {
  au_version : t_version state = TLS13;
  au_protocol : t_protocol state = "http/1.1";
  au_resume : t_resume state = false;
  au_chains : 1 <= t_chains state;
  au_peer : exists raw spki rest, t_peer state = (raw, spki) :: rest /\
    hash raw = expectedCertificateDERSHA256 /\ hash spki = expectedCertificateSPKISHA256
}.

Definition server_response (e : scenarioExpectation) (key : string) : upgradeResponse :=
  UpgradeResponse "HTTP/1.1" 101 1 1 (lower_field <$> response_fields (profile_of e) key).

Lemma client_reads_response e key :
  known_profile e -> ReadResponse (Secure.switching_response key (profile_of e)) = Ok (server_response e key).
Proof.
  intros Hp. rewrite switching_response_fields, ReadResponse_head; [|vm_compute; reflexivity|by apply response_fields_good].
  profile_cases e Hp; reflexivity.
Qed.

Lemma client_accepts e key state :
  known_profile e -> authenticated state ->
  validateHandshakeProof e (handshake_proof e key state (server_response e key)) = None.
Proof.
  intros Hp [Hv Ha Hr Hc (raw & spki & rest & Hpeer & Hraw & Hspki)].
  destruct state as [v a c r n peer]. cbn [t_version t_protocol t_resume t_chains t_peer] in *. subst v a r peer.
  unfold validateHandshakeProof, handshake_failures, handshake_proof.
  cbn [t_version t_protocol t_resume t_chains t_peer t_cipher VProto VStatus VMajor VMinor VHeader server_response
       FallbackDetected ResponseStatus UpgradeHeader ConnectionHeader ObservedSecWebSocketAccept
       ExpectedSecWebSocketAccept SubprotocolOffered SubprotocolRequested SubprotocolAccepted SubprotocolNegotiated
       ExtensionOffered ExtensionsRequested ExtensionAccepted ExtensionsNegotiated ClientNoContextTakeover
       ServerNoContextTakeover TLSVersion ALPN ServerName DidResume EarlyData VerifiedChainCount
       CertificateDERSHA256 CertificateSPKISHA256].
  rewrite Hraw, Hspki. rewrite (proj2 (Z.ltb_ge n 1)) by done.
  set (h := lower_field <$> response_fields (profile_of e) key).
  assert (H1 : header_get h "sec-websocket-accept" = websocketAccept key) by (subst h; reflexivity).
  rewrite H1. clear H1. subst h. unfold response_fields.
  generalize (websocketAccept key). intros accept. rewrite (String.eqb_refl accept).
  profile_cases e Hp; vm_compute; reflexivity.
Qed.

(** Every 101 response is short. *)
Lemma length_accept key : (length (bytes_of_string (websocketAccept key)) <= 28)%nat.
Proof.
  unfold websocketAccept, base64_std_encode. rewrite bytes_of_ascii_list, length_fmap, length_b64_encode.
  pose proof (length_sha1 (bytes_of_string (key +:+ websocketGUID))) as H.
  assert ((length (sha1 (bytes_of_string (key +:+ websocketGUID))) + 2) / 3 < 8)%nat; [|lia].
  apply Nat.Div0.div_lt_upper_bound. lia.
Qed.

Lemma length_text_lines_eq ls :
  length (bytes_of_string (text_lines ls)) = sum_list_with (fun l => length (bytes_of_string l) + 2)%nat ls.
Proof.
  induction ls as [|l ls IH]; [done|]. rewrite text_lines_cons, length_app. cbn [length sum_list_with]. rewrite IH. lia.
Qed.

Lemma switching_response_short e key :
  known_profile e -> len (bytes_of_string (Secure.switching_response key (profile_of e))) <= 16384.
Proof.
  intros Hp. unfold len, Secure.switching_response. rewrite length_text_lines_eq.
  pose proof (length_accept key) as H. revert H. generalize (websocketAccept key). intros accept H.
  profile_cases e Hp; cbn [p_subprotocol p_perMessageDeflate];
    try change (String.eqb subprotocol_name "") with false; cbn [String.eqb negb app sum_list_with];
    rewrite bytes_of_string_app, length_app; simpl (length (bytes_of_string _)); lia.
Qed.

(** ** Frames of a session *)

(** A final frame as the executor masks it, and as a server answers. *)
Definition first_octet_of (op : Z) (rsv1 : bool) : Z := if rsv1 then Z.lor (Z.lor 0x80 op) 0x40 else Z.lor 0x80 op.
Definition masked_wire (op : Z) (rsv1 : bool) (m p : bytes) : bytes :=
  first_octet_of op rsv1 :: length_octets 0x80 (len p) ++ m ++ xor_mask m p.
Definition plain_wire (op : Z) (rsv1 : bool) (p : bytes) : bytes :=
  first_octet_of op rsv1 :: length_octets 0 (len p) ++ p.

Lemma first_octet_bits op rsv1 :
  is_opcode op -> Z.land (first_octet_of op rsv1) 0x80 <> 0 /\
  Z.land (first_octet_of op rsv1) 0x70 = (if rsv1 then 0x40 else 0) /\ Z.land (first_octet_of op rsv1) 0x0f = op.
Proof.
  intros Hop. destruct (first_octet op Hop) as (F1 & F2 & F3 & G1 & G2 & G3). by destruct rsv1.
Qed.

Lemma server_reads_wire op rsv1 m p rest e :
  is_opcode op -> length m = 4%nat -> len p <= 65535 -> (8 <= op -> len p <= 125) ->
  Server.readFrame true (Stream (masked_wire op rsv1 m p ++ rest) e)
  = ((Server.WireFrame true (if rsv1 then 0x40 else 0) op true p, None), Stream rest e).
Proof.
  intros Hop Hm Hp Hc. destruct (first_octet_bits op rsv1 Hop) as (H1 & H2 & H3).
  unfold masked_wire. rewrite server_reads by (rewrite ?H3; done). by rewrite H2, H3.
Qed.

Lemma client_reads_wire op rsv1 p rest e :
  is_opcode op -> len p <= 65535 -> (8 <= op -> len p <= 125) ->
  Client.readFrame false (Stream (plain_wire op rsv1 p ++ rest) e)
  = ((Client.WireFrame true (if rsv1 then 0x40 else 0) op false p (len (plain_wire op rsv1 p)), None), Stream rest e).
Proof.
  intros Hop Hp Hc. destruct (first_octet_bits op rsv1 Hop) as (H1 & H2 & H3).
  unfold plain_wire. rewrite client_reads by (rewrite ?H3; done). rewrite H2, H3. do 3 f_equal.
  unfold len. cbn [length]. lia.
Qed.

Lemma conn_write_plain p s out : conn_write p (Conn s out []) = ((len p, None), Conn s (out ++ p) []).
Proof. done. Qed.

Lemma write_client m op rsv1 p s out :
  len p <= 65535 ->
  Client.writeClientFrameWithRSV1 (Conn s out []) (Ok m) op p rsv1
  = ((len (masked_wire op rsv1 m p), None), Conn s (out ++ masked_wire op rsv1 m p) []).
Proof. intros Hp. unfold Client.writeClientFrameWithRSV1. by rewrite clientFrame_layout. Qed.

Lemma write_secure op rsv1 p s out :
  len p <= 65535 -> (rsv1 = true -> op = 1 \/ op = 2) ->
  SecureServer.writeFrameWithRSV1 (Conn s out []) op p false rsv1 = (None, Conn s (out ++ plain_wire op rsv1 p) []).
Proof.
  intros Hp Hr. pose proof (len_nonneg p). unfold SecureServer.writeFrameWithRSV1, SecureServer.secureFrame.
  assert (Hg : negb (rsv1 && (negb (op =? 1) && negb (op =? 2))) = true).
  { destruct rsv1; [|done]. by destruct (Hr eq_refl) as [->| ->]. }
  rewrite Hg. unfold plain_wire, length_octets, first_octet_of.
  destruct (Z.leb_spec (len p) 125); cbn [res_bind].
  - by rewrite u8_small by (unfold is_byte; lia).
  - by rewrite (proj2 (Z.leb_le _ _)) by lia.
Qed.

Lemma write_cleartext op p s out :
  len p <= 65535 -> Server.writeFrame (Conn s out []) op p false = (None, Conn s (out ++ plain_wire op false p) []).
Proof. intros Hp. unfold Server.writeFrame. by rewrite serverFrame_layout. Qed.

(** ** The closing handshake *)

Definition close_payload : bytes := [3; 232].


Lemma closes_cleanly m hs rq rs ms n out p :
  length m = 4%nat ->
  closeCleanly (Ok m) (WsConnection (Conn (Stream (plain_wire 8 false close_payload) EEOF) out []) hs rq rs ms n) p
  = (None, WsConnection (Conn (Stream [] EEOF) (out ++ masked_wire 8 false m close_payload) []) hs rq rs ms
             (n + len (masked_wire 8 false m close_payload) + len (plain_wire 8 false close_payload) + 0),
     set_clean (set_close_received (set_close_sent p))).
Proof.
  intros Hm. unfold closeCleanly, Client.writeClientFrame. cbn [w_conn].
  change [3; 232] with close_payload.
  rewrite write_client by (vm_compute; discriminate). cbn [c_in].
  rewrite <-(app_nil_r (plain_wire 8 false close_payload)) at 1.
  rewrite client_reads_wire by (vm_compute; try split; congruence).
  reflexivity.
Qed.

(** ** One exchange *)

(** What the extension makes of a scenario's payload on the wire. *)
Definition wire_of (deflate : bytes -> res bytes) (inflate : bytes -> stream) (e : scenarioExpectation) (wire : bytes) : Prop :=
  if e_perMessageDeflate e
  then SecureServer.compressMessage deflate (e_payload e) = Ok wire /\
       SecureServer.decompressMessage inflate wire = Ok (e_payload e) /\ len wire <= 65535
  else wire = e_payload e.

(** The scenarios that exchange a message, and the two that do not. *)
Definition exchanging (e : scenarioExpectation) : bool := is_echo e || is_control e.

Lemma expectation_cases e (P : scenarioExpectation -> Prop) :
  e ∈ expectations -> Forall P expectations -> P e.
Proof. intros He H. rewrite Forall_forall in H. by apply H. Qed.

(** The facts the tables of the sources must satisfy. *)
Definition expectation_ok (e : scenarioExpectation) : Prop :=
  known_profile e /\
  (exchanging e = true ->
     is_opcode (e_requestOpcode e) /\ is_opcode (e_responseOpcode e) /\ len (e_payload e) <= 65535 /\
     (8 <= e_requestOpcode e \/ 8 <= e_responseOpcode e -> len (e_payload e) <= 125 /\ e_perMessageDeflate e = false) /\
     hash (e_payload e) = e_payloadHash e) /\
  (exchanging e = false -> (e_operation e = "establish" \/ e_operation e = "close") /\ e_payloadHash e = hash []).

Definition expectation_okb (e : scenarioExpectation) : bool :=
  (String.eqb (e_subprotocol e) ""
   || (String.eqb (e_subprotocol e) subprotocol_name && negb (e_perMessageDeflate e)))
  && (if exchanging e then
        (0 <=? e_requestOpcode e) && (e_requestOpcode e <? 16) && (0 <=? e_responseOpcode e)
        && (e_responseOpcode e <? 16) && (len (e_payload e) <=? 65535)
        && ((e_requestOpcode e <? 8) && (e_responseOpcode e <? 8)
            || (len (e_payload e) <=? 125) && negb (e_perMessageDeflate e))
        && String.eqb (hash (e_payload e)) (e_payloadHash e)
      else (String.eqb (e_operation e) "establish" || String.eqb (e_operation e) "close")
           && String.eqb (e_payloadHash e) (hash [])).

Lemma expectation_okb_ok e : expectation_okb e = true -> expectation_ok e.
Proof.
  unfold expectation_okb, expectation_ok, known_profile, is_opcode. intros [Hp H]%andb_true_iff. split.
  - apply orb_true_iff in Hp as [Hp|Hp]; [left; by apply String.eqb_eq|right].
    reflect_bools. split; [by apply String.eqb_eq|done].
  - destruct (exchanging e); (split; [intros Hx; try discriminate Hx|intros Hx; try discriminate Hx]).
    + apply andb_true_iff in H as [H Hh]. apply String.eqb_eq in Hh.
      apply andb_true_iff in H as [H Hc]. apply orb_true_iff in Hc. reflect_bools.
      split_and!; try lia; [|done]. intros H8.
      destruct Hc as [Hc|Hc]; reflect_bools; [lia|done].
    + apply andb_true_iff in H as [H Hh]. apply String.eqb_eq in Hh. split; [|done].
      apply orb_true_iff in H as [H|H]; [left|right]; by apply String.eqb_eq.
Qed.

(** The hashes the sources hard-code are those of the payloads. *)
Lemma expectations_ok e : e ∈ expectations -> expectation_ok e.
Proof.
  intros He. apply expectation_okb_ok.
  assert (H : forallb expectation_okb expectations = true) by (vm_compute; reflexivity).
  rewrite forallb_forall in H. by apply H, list_elem_of_In.
Qed.

Section session.
Variable deflate : bytes -> res bytes.
Variable inflate : bytes -> stream.

Lemma wire_len e wire : expectation_ok e -> exchanging e = true -> wire_of deflate inflate e wire -> len wire <= 65535.
Proof.
  intros (_ & Hok & _) Hx Hw. destruct (Hok Hx) as (_ & _ & Hl & _). unfold wire_of in Hw.
  destruct (e_perMessageDeflate e); [by destruct Hw as (_ & _ & ?)|by subst].
Qed.

Lemma wire_control e wire op :
  expectation_ok e -> exchanging e = true -> wire_of deflate inflate e wire ->
  op = e_requestOpcode e \/ op = e_responseOpcode e -> 8 <= op -> len wire <= 125.
Proof.
  intros (_ & Hok & _) Hx Hw Hop H8. destruct (Hok Hx) as (_ & _ & _ & Hc & _).
  destruct Hc as [Hl Hd]; [destruct Hop as [->| ->]; lia|]. unfold wire_of in Hw. rewrite Hd in Hw. by subst.
Qed.

(** The executor's side of an exchange. *)
Lemma client_exchanges e wire m latency out hs rq rs ms n rest err :
  expectation_ok e -> exchanging e = true -> wire_of deflate inflate e wire -> length m = 4%nat ->
  let request := masked_wire (e_requestOpcode e) (e_perMessageDeflate e) m wire in
  let reply := plain_wire (e_responseOpcode e) (e_perMessageDeflate e) wire in
  exists p,
    performOnOpenConnection deflate inflate (Ok m) latency
      (WsConnection (Conn (Stream (reply ++ rest) err) out []) hs rq rs ms n) e
    = ((p, None), WsConnection (Conn (Stream rest err) (out ++ request) []) hs rq rs ms (n + len request + len reply)) /\
    Handshake p = Some hs /\ PayloadHashMatched p = true /\ OrderedEcho p = is_echo e /\
    PongReceived p = is_control e /\ TransferredBytes p = len request + len reply /\ LatencyMilliseconds p = latency /\
    MessageCount p = 1.
Proof.
  intros Hok Hx Hw Hm request reply.
  pose proof (wire_len _ _ Hok Hx Hw) as Hl. pose proof (wire_control e wire (e_responseOpcode e) Hok Hx Hw) as Hc.
  destruct Hok as (_ & Hok & _). destruct (Hok Hx) as (_ & Hop & _ & _ & Hhash).
  unfold performOnOpenConnection. cbn [w_conn w_bytes].
  assert (Hcomp : (if e_perMessageDeflate e then compressMessage deflate (e_payload e) else Ok (e_payload e)) = Ok wire).
  { unfold wire_of in Hw. destruct (e_perMessageDeflate e); [by destruct Hw|by subst]. }
  rewrite Hcomp, write_client by done. cbn [with_conn c_in]. subst reply.
  rewrite client_reads_wire; [|done|done|by auto]. cbn [with_conn w_handshake w_rawRequest w_rawResponse w_handshakeMS w_bytes].
  assert (Hsem : semantic_response inflate e
      (Client.WireFrame true (if e_perMessageDeflate e then 0x40 else 0) (e_responseOpcode e) false wire
         (len (plain_wire (e_responseOpcode e) (e_perMessageDeflate e) wire))) = Ok (e_payload e)).
  { unfold semantic_response, wire_of, decompressMessage in *. cbn [Client.rsv Client.payload].
    destruct (e_perMessageDeflate e); [|by subst]. destruct Hw as (_ & -> & _). done. }
  rewrite Hsem. cbn [Client.fin Client.opcode]. rewrite Z.eqb_refl, bool_decide_true, Hhash, String.eqb_refl by done.
  cbn [andb negb orb]. eexists. split; [reflexivity|].
  unfold first_proof, applySemanticCounts. unfold exchanging in Hx.
  destruct (is_control e) eqn:Ec; [|destruct (is_echo e); [|done]];
    cbn [set_counts set_request set_response set_payload_match set_echo Handshake PayloadHashMatched OrderedEcho
         PongReceived TransferredBytes LatencyMilliseconds MessageCount w_bytes w_handshake with_conn];
    split_and!; try reflexivity; subst request; cbn [Client.nbytes]; lia.
Qed.

(** The server's side: the frame is answered with its reply. *)
Lemma server_exchanges e wire c :
  e ∈ expectations -> exchanging e = true -> wire_of deflate inflate e wire -> c_faults c = [] ->
  SecureServer.handleFrame deflate inflate (profile_of e)
    (Server.WireFrame true (if e_perMessageDeflate e then 0x40 else 0) (e_requestOpcode e) true wire) c
  = (Again, Conn (c_in c) (c_out c ++ plain_wire (e_responseOpcode e) (e_perMessageDeflate e) wire) []).
Proof.
  intros He Hx Hw Hf. pose proof (wire_len _ _ (expectations_ok e He) Hx Hw) as Hl.
  destruct c as [s out f]. cbn [c_faults c_in c_out] in *. subst f.
  assert (Hb : forallb (Z.eqb 66) (replicate 1024 66) = true) by (vm_compute; reflexivity).
  assert (Hn : len (replicate 1024 66) = 1024) by (vm_compute; reflexivity).
  apply (expectation_cases e (fun e => exchanging e = true -> wire_of deflate inflate e wire -> _) He); [|done|done].
  clear e He Hx Hw. unfold expectations.
  repeat (apply List.Forall_cons; [intros Hx Hw|]); [..|apply List.Forall_nil]; try (vm_compute in Hx; discriminate Hx);
    unfold wire_of in Hw; cbn [e_perMessageDeflate e_payload] in Hw;
    unfold SecureServer.handleFrame, SecureServer.semantic_payload, profile_of, SecureServer.writeFrame;
    cbn [e_perMessageDeflate e_subprotocol e_requestOpcode e_responseOpcode p_perMessageDeflate p_subprotocol
         Server.fin Server.rsv Server.opcode Server.payload negb orb Z.eqb Pos.eqb].
  - subst wire. rewrite string_of_bytes_of_string. cbn [String.eqb negb orb].
    rewrite String.eqb_refl. cbn [negb]. by rewrite write_secure.
  - subst wire. cbn [String.eqb negb orb]. rewrite Hn, Hb. cbn [Z.eqb Pos.eqb negb]. by rewrite write_secure.
  - subst wire. rewrite string_of_bytes_of_string. cbn [String.eqb negb orb]. rewrite String.eqb_refl. cbn [negb].
    by rewrite write_secure.
  - subst wire. rewrite string_of_bytes_of_string. cbn [String.eqb negb orb]. rewrite String.eqb_refl. cbn [negb].
    by rewrite write_secure.
  - destruct Hw as (Hz & Hd & _). rewrite Hd, Hn, Hb. cbn [Z.eqb Pos.eqb negb]. rewrite Hz, write_secure; [done|done|by right].
Qed.

(** The server's answer to the executor's close, which ends the connection. *)
Lemma server_closes profile c fuel m s :
  length m = 4%nat -> c_in c = Stream (masked_wire 8 false m close_payload) EEOF -> c_faults c = [] ->
  s = Stream [] EEOF ->
  SecureServer.serve deflate inflate (S fuel) profile c = (None, Conn s (c_out c ++ plain_wire 8 false close_payload) []).
Proof.
  intros Hm Hin Hf ->. destruct c as [i out f]. cbn [c_in c_faults c_out] in *. subst i f.
  cbn [SecureServer.serve c_in]. rewrite <-(app_nil_r (masked_wire 8 false m close_payload)).
  rewrite server_reads_wire by (done || (vm_compute; try split; congruence)).
  unfold SecureServer.handleFrame, SecureServer.writeFrame, with_input.
  cbn [Server.fin Server.rsv Server.opcode Server.payload negb orb Z.eqb Pos.eqb c_out c_faults].
  change (negb (len close_payload =? 2) || negb (be_decode close_payload =? 1000)) with false. cbv iota.
  by rewrite write_secure.
Qed.

(** What the executor sends over a whole session, and what it gets. *)
Definition client_octets (e : scenarioExpectation) (key : string) (m1 m2 wire : bytes) : bytes :=
  bytes_of_string (raw_request e key)
  ++ (if exchanging e then masked_wire (e_requestOpcode e) (e_perMessageDeflate e) m1 wire else [])
  ++ masked_wire 8 false m2 close_payload.
Definition server_octets (e : scenarioExpectation) (key : string) (wire : bytes) : bytes :=
  bytes_of_string (Secure.switching_response key (profile_of e))
  ++ (if exchanging e then plain_wire (e_responseOpcode e) (e_perMessageDeflate e) wire else [])
  ++ plain_wire 8 false close_payload.

Lemma len_masked_wire op r m p : len (masked_wire op r m p) = len (plain_wire op r p) + len m.
Proof.
  assert (H : length (length_octets 0x80 (len p)) = length (length_octets 0 (len p)))
    by (unfold length_octets; by destruct (len p <=? 125)).
  unfold masked_wire, plain_wire, len in *. cbn [length]. rewrite !length_app, length_xor_mask. lia.
Qed.

Lemma server_session e keyBytes m1 m2 wire state :
  e ∈ expectations -> wire_of deflate inflate e wire -> all_bytes keyBytes -> length keyBytes = 16%nat ->
  length m1 = 4%nat -> length m2 = 4%nat ->
  t_version state = TLS13 -> t_protocol state = "http/1.1" -> t_resume state = false ->
  let key := base64_std_encode keyBytes in
  SecureServer.handleConnection deflate inflate (Ok state)
    (Conn (Stream (client_octets e key m1 m2 wire) EEOF) [] [])
  = (None, Conn (Stream [] EEOF) (server_octets e key wire) []).
Proof.
  intros He Hw Hk Hkl Hm1 Hm2 Hv Hp Hr key. subst key.
  pose proof (expectations_ok e He) as Hok. assert (Hprof : known_profile e) by apply Hok.
  unfold SecureServer.handleConnection, client_octets. rewrite Hv, Hp, Hr. cbn [negb orb String.eqb Ascii.eqb Bool.eqb Z.eqb Pos.eqb c_in].
  change (negb (TLS13 =? TLS13)) with false. cbv iota. cbn [orb].
  rewrite server_reads_request by (done || by apply base64_plain).
  rewrite secure_accepts by done. 
  change (header_get (UHeader (client_request e (base64_std_encode keyBytes))) "sec-websocket-key")
    with (base64_std_encode keyBytes).
  unfold write_string, with_input. rewrite conn_write_plain. cbn [c_out c_faults c_in st_data].
  unfold server_octets. destruct (exchanging e) eqn:Hx.
  - set (req := masked_wire (e_requestOpcode e) _ m1 wire).
    assert (exists n k, length (req ++ masked_wire 8 false m2 close_payload) = k /\ k = S n) as (n & k & -> & Hk')
      by (rewrite length_app; exists (length req + length (masked_wire 8 false m2 close_payload) - 1)%nat; eexists; split; [done|simpl; lia]).
    cbn [SecureServer.serve c_in]. subst k req.
    destruct Hok as (_ & Hok & _). destruct (Hok Hx) as (Hop & _).
    rewrite server_reads_wire; [|done|done|by eapply wire_len; [apply expectations_ok| |]
      |intros H8; eapply wire_control; [by apply expectations_ok|done|done|by left|done]].
    rewrite server_exchanges by done. unfold with_input. cbn [c_in c_out c_faults].
    rewrite (server_closes _ _ n m2 (Stream [] EEOF)) by done. cbn [c_out]. by rewrite <-app_assoc.
  - rewrite app_nil_l. rewrite (server_closes _ _ _ m2 (Stream [] EEOF)) by done. done.
Qed.

(** The opening, on a connection that answers as the server does. *)
Lemma executor_opens e keyBytes state rest ms :
  e ∈ expectations -> all_bytes keyBytes -> authenticated state ->
  let key := base64_std_encode keyBytes in
  let response := Secure.switching_response key (profile_of e) in
  exists hs,
  openWebSocket (OpenEnv None None true
      (Ok (state, Conn (Stream (bytes_of_string response ++ rest) EEOF) [] [])) (Ok keyBytes) ms) e
  = Ok (WsConnection (Conn (Stream rest EEOF) (bytes_of_string (raw_request e key)) []) hs (raw_request e key) response ms
          (len (bytes_of_string (raw_request e key)) + len (bytes_of_string response))).
Proof.
  intros He Hk Hst key response. subst key response. set (key := base64_std_encode keyBytes).
  assert (Hprof : known_profile e) by apply (expectations_ok e He).
  unfold openWebSocket. cbn [oe_parse oe_root oe_pool oe_dial oe_key oe_ms res_bind].
  fold key. unfold write_string. rewrite conn_write_plain. cbn [c_in].
  pose proof (client_reads_response e key Hprof) as Hread.
  pose proof (response_fields_good e key Hprof) as Hgood.
  rewrite switching_response_fields in *.
  set (ls := "HTTP/1.1 101 Switching Protocols" :: (field_line <$> response_fields (profile_of e) key)) in *.
  change ("HTTP/1.1 101 Switching Protocols" :: (field_line <$> response_fields (profile_of e) key) ++ [""]) with (ls ++ [""]) in *.
  rewrite readHTTPHeader_head; [| |done|].
  - rewrite Hread. cbn [res_bind]. rewrite client_accepts by done. eexists. reflexivity.
  - apply List.Forall_cons; [vm_compute; split; [reflexivity|discriminate]|].
    apply Forall_fmap, Forall_forall. intros f Hf. rewrite forallb_forall in Hgood.
    apply list_elem_of_In in Hf. by apply (field_line_clean f), Hgood.
  - pose proof (switching_response_short e key Hprof) as Hs. by rewrite switching_response_fields in Hs.
Qed.

Lemma first_proof_empty w e : e_payloadHash e = hash [] -> PayloadHashMatched (first_proof w e) = true.
Proof.
  intros H. unfold first_proof, applySemanticCounts. rewrite H, String.eqb_refl.
  by destruct (is_control e), (is_echo e).
Qed.

(** Both sides of a whole session, for the wire payload the extension gives. *)
Lemma executor_session e keyBytes m1 m2 wire state ms hms :
  e ∈ expectations -> wire_of deflate inflate e wire -> all_bytes keyBytes -> authenticated state ->
  length m1 = 4%nat -> length m2 = 4%nat ->
  let key := base64_std_encode keyBytes in
  exists p w,
    performOperation deflate inflate
      (OperationEnv (OpenEnv None None true
          (Ok (state, Conn (Stream (server_octets e key wire) EEOF) [] [])) (Ok keyBytes) hms) (Ok m1) (Ok m2) ms) e
    = (p, None, Some w) /\
    c_out (w_conn w) = client_octets e key m1 m2 wire /\ CleanCompletion p = true /\ PayloadHashMatched p = true /\
    TransferredBytes p = len (client_octets e key m1 m2 wire) + len (server_octets e key wire).
Proof.
  intros He Hw Hk Hst Hm1 Hm2 key. subst key. pose proof (expectations_ok e He) as Hok.
  unfold performOperation, server_octets. cbn [op_open op_mask op_close_mask op_ms].
  destruct (executor_opens e keyBytes state
    ((if exchanging e then plain_wire (e_responseOpcode e) (e_perMessageDeflate e) wire else []) ++ plain_wire 8 false close_payload)
    hms He Hk Hst) as [hs ->]. set (key := base64_std_encode keyBytes).
  destruct (exchanging e) eqn:Hx.
  - assert (Hop : String.eqb (e_operation e) "establish" = false /\ String.eqb (e_operation e) "close" = false).
    { clear -Hx. unfold exchanging, is_echo, is_control in Hx.
      repeat (apply orb_true_iff in Hx as [Hx|Hx]); apply String.eqb_eq in Hx as ->; done. }
    destruct Hop as [-> ->].
    destruct (client_exchanges e wire m1 ms (bytes_of_string (raw_request e key)) hs (raw_request e key)
      (Secure.switching_response key (profile_of e)) hms
      (len (bytes_of_string (raw_request e key)) + len (bytes_of_string (Secure.switching_response key (profile_of e))))
      (plain_wire 8 false close_payload) EEOF Hok Hx Hw Hm1) as (p & -> & _ & Hmatch & _).
    rewrite closes_cleanly by done. do 2 eexists. split; [reflexivity|].
    unfold client_octets. rewrite Hx. cbn [w_conn c_out w_bytes]. rewrite <-app_assoc, !len_app.
    destruct p. cbn in Hmatch. subst. split; [done|]. cbn -[len client_octets masked_wire plain_wire]. split_and!; [done|done|lia].
  - destruct Hok as (_ & _ & Hok). destruct (Hok Hx) as [Hop Hh]. rewrite app_nil_l.
    unfold client_octets. rewrite Hx. rewrite !app_nil_l.
    match goal with |- context [first_proof ?w0 e] =>
      assert (Hq : PayloadHashMatched (first_proof w0 e) = true) by (by apply first_proof_empty);
      revert Hq; generalize (first_proof w0 e) end.
    intros q Hq. destruct q.
    destruct Hop as [-> | ->]; [change (String.eqb "establish" "establish") with true|
      change (String.eqb "close" "establish") with false; change (String.eqb "close" "close") with true]; cbv iota;
      rewrite closes_cleanly by exact Hm2; do 2 eexists; (split; [reflexivity|]);
      cbn [w_conn c_out w_bytes w_handshakeMS]; rewrite !len_app;
      cbn [set_latency set_close_sent set_close_received set_clean set_transferred WsClient.CleanCompletion
           WsClient.PayloadHashMatched WsClient.TransferredBytes] in *;
      (split; [reflexivity|split; [reflexivity|split; [exact Hq|lia]]]).
Qed.
End session.

(** C1: executor and server complete every scenario. For each of the seven scenarios, any
    sixteen-octet key and any masking keys, the octets the executor sends are a session
    the TLS server serves to a normal end, the octets the server sends are a session the
    executor passes, and every octet of both is in the count it reports. The compressor is
    any whose flushed output the decompressor inflates, cut short where the stream was not
    finished. *)
Theorem websocket_session_completes deflate inflate e keyBytes m1 m2 sstate cstate ms hms :
  (forall p w, deflate p = Ok w -> inflate w = Stream p EUnexpectedEOF) ->
  (exists z, deflate (replicate 1024 66) = Ok (z ++ SecureServer.sync_tail) /\ len z <= 65535) ->
  e ∈ expectations -> all_bytes keyBytes -> length keyBytes = 16%nat -> is_key m1 -> is_key m2 ->
  t_version sstate = TLS13 -> t_protocol sstate = "http/1.1" -> t_resume sstate = false -> authenticated cstate ->
  exists sent received,
    SecureServer.handleConnection deflate inflate (Ok sstate) (Conn (Stream sent EEOF) [] [])
      = (None, Conn (Stream [] EEOF) received []) /\
    exists p w,
      performOperation deflate inflate
        (OperationEnv (OpenEnv None None true (Ok (cstate, Conn (Stream received EEOF) [] [])) (Ok keyBytes) hms)
           (Ok m1) (Ok m2) ms) e = (p, None, Some w) /\
      c_out (w_conn w) = sent /\ CleanCompletion p = true /\ PayloadHashMatched p = true /\
      TransferredBytes p = len sent + len received.
Proof.
  intros Hinv (z & Hz & Hzl) He Hk Hkl [Hm1 _] [Hm2 _] Hv Hp Hr Hc.
  assert (exists wire, wire_of deflate inflate e wire) as [wire Hw].
  { apply (expectation_cases e (fun e => exists wire, wire_of deflate inflate e wire) He).
    assert (Hcomp : SecureServer.compressMessage deflate (replicate 1024 66) = Ok z).
    { unfold SecureServer.compressMessage. rewrite Hz. cbn [res_bind]. rewrite length_app.
      change (length SecureServer.sync_tail) with 4%nat. rewrite Nat.add_sub, drop_app_length, take_app_length, len_app.
      rewrite bool_decide_true by done. pose proof (len_nonneg z). by rewrite (proj2 (Z.leb_le _ _)) by lia. }
    assert (Hdec : SecureServer.decompressMessage inflate z = Ok (replicate 1024 66)).
    { unfold SecureServer.decompressMessage. rewrite (Hinv _ _ Hz). reflexivity. }
    unfold expectations. repeat (apply List.Forall_cons; [|]); [..|apply List.Forall_nil]; unfold wire_of;
      cbn [e_perMessageDeflate e_payload]; first [by eexists|exists z; split_and!; done]. }
  exists (client_octets e (base64_std_encode keyBytes) m1 m2 wire), (server_octets e (base64_std_encode keyBytes) wire).
  split; [by apply server_session|by apply executor_session].
Qed.

(** A stand-in for compress/flate: the payload and the tail of a sync flush. *)
Definition stored (p : bytes) : res bytes := Ok (p ++ SecureServer.sync_tail).
Definition unstored (w : bytes) : stream := Stream (take (length w - 4) w) EUnexpectedEOF.

Definition tls_state : wsTlsState :=
  WsTlsState TLS13 "http/1.1" "TLS_AES_128_GCM_SHA256" false 1 [(root_der, root_spki)].

Lemma tls_state_authenticated : authenticated tls_state.
Proof.
  constructor; [reflexivity|reflexivity|reflexivity|simpl; lia|].
  exists root_der, root_spki, []. split; [reflexivity|]. split; vm_compute; reflexivity.
Qed.

Definition deflate_spec : scenarioExpectation :=
  Expectation "http1.websocket.rfc6455.tls.permessage-deflate-binary-echo" "binary-echo" "binary"
    (replicate 1024 66) binary_hash 2 2 false "" true.

Lemma websocket_session_completes_witness :
  exists sent received,
    SecureServer.handleConnection stored unstored (Ok tls_state) (Conn (Stream sent EEOF) [] [])
      = (None, Conn (Stream [] EEOF) received []) /\
    exists p w,
      performOperation stored unstored
        (OperationEnv (OpenEnv None None true (Ok (tls_state, Conn (Stream received EEOF) [] []))
           (Ok (replicate 16 7)) f_zero) (Ok [1; 2; 3; 4]) (Ok [5; 6; 7; 8]) f_zero) deflate_spec = (p, None, Some w) /\
      c_out (w_conn w) = sent /\ CleanCompletion p = true /\ PayloadHashMatched p = true /\
      TransferredBytes p = len sent + len received.
Proof.
  apply websocket_session_completes.
  - intros p w H. injection H as <-. unfold unstored. rewrite length_app, Nat.add_sub. f_equal. apply take_app_length.
  - exists (replicate 1024 66). split; [reflexivity|vm_compute; discriminate].
  - do 6 right. left.
  - repeat constructor; vm_compute; discriminate.
  - reflexivity.
  - split; [reflexivity|repeat constructor; vm_compute; discriminate].
  - split; [reflexivity|repeat constructor; vm_compute; discriminate].
  - reflexivity.
  - reflexivity.
  - reflexivity.
  - apply tls_state_authenticated.
Defined.

(** ** What a passed operation earned *)

Lemma handshake_failures_none e p :
  validateHandshakeProof e p = None ->
  FallbackDetected p = false /\ ResponseStatus p = 101 /\ ObservedSecWebSocketAccept p = ExpectedSecWebSocketAccept p /\
  equal_fold (UpgradeHeader p) "websocket" = true /\ hasToken (ConnectionHeader p) "upgrade" = true /\
  SubprotocolAccepted p = e_subprotocol e /\ ExtensionAccepted p = expectedExtension e /\
  SubprotocolNegotiated p = negb (String.eqb (e_subprotocol e) "") /\ ExtensionsNegotiated p = e_perMessageDeflate e /\
  ClientNoContextTakeover p = e_perMessageDeflate e /\ ServerNoContextTakeover p = e_perMessageDeflate e /\
  TLSVersion p = "TLS 1.3" /\ ALPN p = "http/1.1" /\ DidResume p = false /\ EarlyData p = false /\
  1 <= VerifiedChainCount p /\ CertificateDERSHA256 p = expectedCertificateDERSHA256 /\
  CertificateSPKISHA256 p = expectedCertificateSPKISHA256.
Proof.
  unfold validateHandshakeProof. destruct (handshake_failures e p) eqn:H; [|done]. intros _.
  unfold handshake_failures in H. cbv zeta in H.
  assert (Hif : forall (b : bool) (x : string), (if b then [x] else []) = [] -> b = false) by (by intros []).
  repeat (apply app_eq_nil in H as [?H H]).
  repeat match goal with H : (if _ then _ else _) = [] |- _ => apply Hif in H end.
  reflect_bools.
  repeat match goal with
  | H : String.eqb _ _ = true |- _ => apply String.eqb_eq in H
  | H : Bool.eqb _ _ = true |- _ => apply Bool.eqb_prop in H
  end.
  by split_and!.
Qed.

(** An opened connection carries a proof the gate let through. *)
Lemma openWebSocket_genuine env e w :
  openWebSocket env e = Ok w ->
  exists state c keyBytes response, oe_dial env = Ok (state, c) /\ oe_key env = Ok keyBytes /\
    ReadResponse (w_rawResponse w) = Ok response /\
    w_handshake w = established (handshake_proof e (base64_std_encode keyBytes) state response) /\
    validateHandshakeProof e (handshake_proof e (base64_std_encode keyBytes) state response) = None /\
    w_rawRequest w = raw_request e (base64_std_encode keyBytes) /\
    w_bytes w = len (bytes_of_string (w_rawRequest w)) + len (bytes_of_string (w_rawResponse w)).
Proof.
  unfold openWebSocket. destruct (oe_parse env); [done|]. destruct (oe_root env); [done|].
  destruct (oe_pool env); [|done]. destruct (oe_dial env) as [[state c]|]; [|done]. cbn [res_bind].
  destruct (oe_key env) as [keyBytes|]; [|done]. cbn [res_bind].
  destruct (write_string _ c) as [[err|] c']; [done|].
  destruct (readHTTPHeader _) as [[raw|] s]; [|done].
  destruct (ReadResponse raw) as [response|] eqn:Er; [|done]. cbn [res_bind].
  destruct (validateHandshakeProof _ _) eqn:Ev; [done|]. intros [= <-].
  exists state, c, keyBytes, response. cbn. by split_and!.
Qed.

Lemma closeCleanly_genuine mask w p w' p' :
  closeCleanly mask w p = (None, w', p') ->
  CloseSentCode p' = 1000 /\ CloseReceivedCode p' = 1000 /\ CleanCompletion p' = true /\ TransportEOFObserved p' = true /\
  st_data (c_in (w_conn w')) = [] /\ errors_is EEOF (st_end (c_in (w_conn w'))) = true /\
  PayloadHashMatched p' = PayloadHashMatched p /\ Handshake p' = Handshake p /\
  LatencyMilliseconds p' = LatencyMilliseconds p /\ TransferredBytes p' = TransferredBytes p /\ w_handshake w' = w_handshake w.
Proof.
  unfold closeCleanly. destruct (Client.writeClientFrame _ _ _ _) as [[written [e|]] c]; [done|].
  destruct (Client.readFrame false (c_in c)) as [[frame [e|]] s]; [done|].
  destruct (_ || _); [done|]. unfold read_byte. destruct (st_data s) as [|b r] eqn:Es; [|done].
  destruct (errors_is EEOF (st_end s)) eqn:Ee; [|done]. intros [= <- <-]. destruct p. cbn. by split_and!.
Qed.

(** A frame that was written, whole. *)
Lemma write_ok c mask op p rsv1 n c' :
  Client.writeClientFrameWithRSV1 c mask op p rsv1 = ((n, None), c') ->
  exists m, mask = Ok m /\ c_in c' = c_in c /\ c_out c' = c_out c ++ masked_wire op rsv1 m p.
Proof.
  unfold Client.writeClientFrameWithRSV1. intros H.
  destruct mask as [m|e].
  2: { unfold Client.clientFrame in H. by destruct (if len p <=? 125 then _ else _). }
  exists m. split; [done|]. destruct (Z.leb_spec (len p) 65535) as [Hl|Hl].
  - rewrite clientFrame_layout in H by done. unfold conn_write in H.
    destruct (c_faults c) as [|[[k e]|] f]; [|done|]; injection H as _ <-; by split.
  - unfold Client.clientFrame in H. by rewrite !(proj2 (Z.leb_gt _ _)) in H by lia.
Qed.

(** The closing handshake on the wire: the executor sent one masked final close frame with
    code 1000, read one unmasked final close frame of two octets with code 1000 and no
    reserved bit, and then the end of the stream. *)
Definition close_exchanged (mask : res bytes) (w w' : wsConnection) : Prop :=
  exists m frame s, mask = Ok m /\
    c_out (w_conn w') = c_out (w_conn w) ++ [0x88; 0x82] ++ m ++ xor_mask m [3; 232] /\
    Client.readFrame false (c_in (w_conn w)) = ((frame, None), s) /\
    Client.fin frame = true /\ Client.rsv frame = 0 /\ Client.masked frame = false /\ Client.opcode frame = 8 /\
    len (Client.payload frame) = 2 /\ be_decode (Client.payload frame) = 1000 /\
    st_data s = [] /\ errors_is EEOF (st_end s) = true.

Lemma closeCleanly_exchanged mask w p w' p' :
  closeCleanly mask w p = (None, w', p') -> close_exchanged mask w w'.
Proof.
  unfold closeCleanly, Client.writeClientFrame.
  destruct (Client.writeClientFrameWithRSV1 _ _ _ _ _) as [[written [e|]] c] eqn:Ew; [done|].
  apply write_ok in Ew as (m & -> & Hin & Hout).
  destruct (Client.readFrame false (c_in c)) as [[frame [e|]] s] eqn:Er; [done|]. rewrite Hin in Er.
  destruct (_ || _) eqn:Eg; [done|]. unfold read_byte. destruct (st_data s) as [|b r] eqn:Es; [|done].
  destruct (errors_is EEOF (st_end s)) eqn:Ee; [|done]. intros [= <- _].
  exists m, frame, s. reflect_bools. by split_and!.
Qed.

Section genuine.
Variable deflate : bytes -> res bytes.
Variable inflate : bytes -> stream.

(** The exchange on the wire: the scenario's payload sent masked in one frame with its
    opcode, and read back from one final frame with the answer's opcode; with the
    extension both are compressed and only the first reserved bit is set. *)
Definition payload_exchanged (mask : res bytes) (e : scenarioExpectation) (w w' : wsConnection) : Prop :=
  exists m wire frame, mask = Ok m /\
    c_out (w_conn w') = c_out (w_conn w) ++ masked_wire (e_requestOpcode e) (e_perMessageDeflate e) m wire /\
    Client.readFrame false (c_in (w_conn w)) = ((frame, None), c_in (w_conn w')) /\
    Client.fin frame = true /\ Client.opcode frame = e_responseOpcode e /\
    if e_perMessageDeflate e
    then SecureServer.compressMessage deflate (e_payload e) = Ok wire /\ Client.rsv frame = 0x40 /\
         SecureServer.decompressMessage inflate (Client.payload frame) = Ok (e_payload e)
    else wire = e_payload e /\ Client.rsv frame = 0 /\ Client.payload frame = e_payload e.

Lemma semantic_response_ok e frame p :
  semantic_response inflate e frame = Ok p ->
  if e_perMessageDeflate e
  then Client.rsv frame = 0x40 /\ SecureServer.decompressMessage inflate (Client.payload frame) = Ok p
  else Client.rsv frame = 0 /\ Client.payload frame = p.
Proof.
  unfold semantic_response, decompressMessage. destruct (e_perMessageDeflate e).
  - destruct (Z.eqb_spec (Client.rsv frame) 64); [|done].
    destruct (SecureServer.decompressMessage _ _); [|done]. intros H. by simplify_eq.
  - destruct (Z.eqb_spec (Client.rsv frame) 0); [|done]. intros H. by simplify_eq.
Qed.

Lemma performOnOpenConnection_exchanged mask ms w e p w' :
  performOnOpenConnection deflate inflate mask ms w e = ((p, None), w') -> payload_exchanged mask e w w'.
Proof.
  unfold performOnOpenConnection, payload_exchanged, compressMessage.
  destruct (if e_perMessageDeflate e then SecureServer.compressMessage _ _ else _) as [wire|] eqn:Ec; [|done].
  destruct (Client.writeClientFrameWithRSV1 _ _ _ _ _) as [[written [e0|]] c] eqn:Ew; [done|].
  apply write_ok in Ew as (m & -> & Hin & Hout).
  destruct (Client.readFrame false (c_in c)) as [[frame [e0|]] s] eqn:Er; [done|]. rewrite Hin in Er.
  destruct (semantic_response _ _ _) as [semantic|] eqn:Es; [|done].
  destruct (bool_decide (semantic = e_payload e) && _) eqn:Em; [|by rewrite orb_true_r].
  destruct (negb (Client.fin frame) || _ || _) eqn:Eg; [done|]. intros [= _ <-].
  apply andb_true_iff in Em as [Hs _]. apply bool_decide_eq_true in Hs as ->.
  apply semantic_response_ok in Es. reflect_bools.
  exists m, wire, frame. do 5 (split; [done|]).
  destruct (e_perMessageDeflate e); [by destruct Es|]. destruct Es. by simplify_eq.
Qed.

Lemma performOnOpenConnection_genuine mask ms w e p w' :
  performOnOpenConnection deflate inflate mask ms w e = ((p, None), w') ->
  Handshake p = Some (w_handshake w) /\ PayloadHashMatched p = true /\ LatencyMilliseconds p = ms /\
  TransferredBytes p = w_bytes w' - w_bytes w /\ w_handshake w' = w_handshake w /\ ClientFrameMasked p = true /\
  hash (e_payload e) = e_payloadHash e.
Proof.
  unfold performOnOpenConnection.
  destruct (if e_perMessageDeflate e then _ else _) as [wire|]; [|done].
  destruct (Client.writeClientFrameWithRSV1 _ _ _ _ _) as [[written [e0|]] c]; [done|].
  destruct (Client.readFrame false (c_in c)) as [[frame [e0|]] s]; [done|].
  destruct (semantic_response _ _ _) as [semantic|]; [|done].
  destruct (bool_decide (semantic = e_payload e) && String.eqb (hash semantic) (e_payloadHash e)) eqn:Em;
    [|by rewrite orb_true_r].
  destruct (negb (Client.fin frame) || _ || _); [done|]. intros [= <- <-].
  apply andb_true_iff in Em as [Hs Hh]. apply bool_decide_eq_true in Hs as ->. apply String.eqb_eq in Hh.
  unfold first_proof, applySemanticCounts.
  destruct (is_control e), (is_echo e);
    cbn [set_counts set_request set_response set_payload_match set_echo Handshake PayloadHashMatched LatencyMilliseconds
         TransferredBytes w_bytes w_handshake with_conn ClientFrameMasked]; split_and!; (reflexivity || exact Hh).
Qed.
End genuine.

(** The handshake of a connection the gate let through. *)
Record genuine_handshake (e : scenarioExpectation) (keyBytes : bytes) (h : handshakeProof) : Prop := {
  gh_established : ConnectionEstablished h = true /\ FallbackDetected h = false /\ ResponseStatus h = 101;
  gh_key : SampleSecWebSocketKey h = base64_std_encode keyBytes;
  gh_accept : ObservedSecWebSocketAccept h = websocketAccept (base64_std_encode keyBytes);
  gh_tls : TLSVersion h = "TLS 1.3" /\ ALPN h = "http/1.1" /\ DidResume h = false;
  gh_certificate : CertificateDERSHA256 h = expectedCertificateDERSHA256 /\
                   CertificateSPKISHA256 h = expectedCertificateSPKISHA256;
  gh_negotiated : SubprotocolAccepted h = e_subprotocol e /\ ExtensionAccepted h = expectedExtension e
}.

Lemma openWebSocket_handshake env e w :
  openWebSocket env e = Ok w ->
  exists keyBytes, oe_key env = Ok keyBytes /\ genuine_handshake e keyBytes (w_handshake w).
Proof.
  intros Ho. destruct (openWebSocket_genuine _ _ _ Ho) as (state & c & keyBytes & response & _ & Hkey & _ & Hh & Hv & _).
  apply handshake_failures_none in Hv
    as (F & S & A & _ & _ & Sub & Ext & _ & _ & _ & _ & T & Al & R & _ & _ & D & K).
  exists keyBytes. split; [done|]. rewrite Hh. by constructor.
Qed.

(** The closing handshake, done to the last octet. *)
Definition clean_end (p : operationProof) (w : wsConnection) : Prop :=
  CloseSentCode p = 1000 /\ CloseReceivedCode p = 1000 /\ CleanCompletion p = true /\ TransportEOFObserved p = true /\
  st_data (c_in (w_conn w)) = [].

(** What [performOperation] fills in after a clean close. *)
Lemma clean_end_kept mask w0 p0 w1 q n ms :
  closeCleanly mask w0 p0 = (None, w1, q) ->
  let p := set_transferred n q in
  let p' := set_transferred n (set_latency ms q) in
  (clean_end p w1 /\ Handshake p = Handshake p0 /\ PayloadHashMatched p = PayloadHashMatched p0 /\ TransferredBytes p = n) /\
  (clean_end p' w1 /\ Handshake p' = Handshake p0 /\ TransferredBytes p' = n).
Proof.
  intros Hc. destruct (closeCleanly_genuine _ _ _ _ _ Hc) as (C1 & C2 & C3 & C4 & C5 & _ & C6 & C7 & _).
  unfold clean_end. destruct q. cbn in *. by split_and!.
Qed.

(** C7: a passed operation is genuine. Its connection was opened with a key whose accept
    value the server returned, over full TLS 1.3 and http/1.1 to the pinned certificate,
    with status 101 and exactly the extension and subprotocol of the scenario. An exchange
    sent the scenario's payload in one masked frame with its opcode and read that payload
    back from one final frame with the answer's opcode. The executor then sent a masked
    close frame with code 1000, read one unmasked close frame with code 1000 and nothing
    else, and met the end of the stream; the count is that of the connection. *)
Theorem websocket_operation_genuine deflate inflate env e p w' :
  performOperation deflate inflate env e = (p, None, Some w') ->
  exists w w1 keyBytes, openWebSocket (op_open env) e = Ok w /\ oe_key (op_open env) = Ok keyBytes /\
    Handshake p = Some (w_handshake w) /\ genuine_handshake e keyBytes (w_handshake w) /\
    (if String.eqb (e_operation e) "establish" || String.eqb (e_operation e) "close" then w1 = w
     else payload_exchanged deflate inflate (op_mask env) e w w1 /\
          PayloadHashMatched p = true /\ hash (e_payload e) = e_payloadHash e) /\
    close_exchanged (op_close_mask env) w1 w' /\ clean_end p w' /\ TransferredBytes p = w_bytes w'.
Proof.
  unfold performOperation. destruct (openWebSocket (op_open env) e) as [w|] eqn:Eo; [|done].
  destruct (openWebSocket_handshake _ _ _ Eo) as (keyBytes & Hkey & Hh).
  assert (Hfirst : Handshake (first_proof w e) = Some (w_handshake w)).
  { unfold first_proof, applySemanticCounts. by destruct (is_control e), (is_echo e). }
  assert (Hlat : Handshake (set_latency (w_handshakeMS w) (first_proof w e)) = Some (w_handshake w))
    by (by destruct (first_proof w e)).
  intros H. exists w.
  destruct (String.eqb (e_operation e) "establish") eqn:E1; [|destruct (String.eqb (e_operation e) "close") eqn:E2];
    cbn [orb].
  - exists w, keyBytes. destruct (closeCleanly _ _ _) as [[[err|] w1] q] eqn:Ec; [done|]. injection H as <- <-.
    destruct (clean_end_kept _ _ _ _ _ (w_bytes w1) f_zero Ec) as [(H1 & H2 & _ & H4) _].
    apply closeCleanly_exchanged in Ec. rewrite H2, Hlat. by split_and!.
  - exists w, keyBytes. destruct (closeCleanly _ _ _) as [[[err|] w1] q] eqn:Ec; [done|]. injection H as <- <-.
    destruct (clean_end_kept _ _ _ _ _ (w_bytes w1) (op_ms env) Ec) as [_ (H1 & H2 & H4)].
    apply closeCleanly_exchanged in Ec. rewrite H2, Hfirst. by split_and!.
  - destruct (performOnOpenConnection _ _ _ _ _ _) as [[p0 [err|]] w0] eqn:Ep; [done|].
    pose proof (performOnOpenConnection_exchanged _ _ _ _ _ _ _ _ Ep) as Hx.
    apply performOnOpenConnection_genuine in Ep as (P1 & P2 & _ & _ & _ & _ & P3).
    destruct (closeCleanly _ _ _) as [[[err|] w1] q] eqn:Ec; [done|]. injection H as <- <-.
    destruct (clean_end_kept _ _ _ _ _ (w_bytes w1) f_zero Ec) as [(H1 & H2 & H3 & H4) _].
    apply closeCleanly_exchanged in Ec. exists w0, keyBytes. rewrite H2, H3, P1. by split_and!.
Qed.

(** A run of one scenario against the server, for the witnesses. *)
Definition text_spec : scenarioExpectation :=
  Expectation "http1.websocket.rfc6455.tls.text-echo" "text-echo" "text" (bytes_of_string textPayload) text_hash 1 1 false "" false.
Definition sample_key : bytes := replicate 16 7.
Definition sample_env (e : scenarioExpectation) (wire : bytes) : operationEnv :=
  OperationEnv (OpenEnv None None true
      (Ok (tls_state, Conn (Stream (server_octets e (base64_std_encode sample_key) wire) EEOF) [] [])) (Ok sample_key) f_zero)
    (Ok [1; 2; 3; 4]) (Ok [5; 6; 7; 8]) f_zero.

Lemma sample_session :
  exists p w, performOperation stored unstored (sample_env text_spec (bytes_of_string textPayload)) text_spec = (p, None, Some w).
Proof.
  destruct (executor_session stored unstored text_spec sample_key [1; 2; 3; 4] [5; 6; 7; 8] (bytes_of_string textPayload)
    tls_state f_zero f_zero) as (p & w & H & _); [right; left|done| |apply tls_state_authenticated|done|done|by exists p, w].
  repeat constructor; vm_compute; discriminate.
Qed.

Lemma websocket_operation_genuine_witness :
  exists p w w1, performOperation stored unstored (sample_env text_spec (bytes_of_string textPayload)) text_spec
    = (p, None, Some w) /\ close_exchanged (Ok [5; 6; 7; 8]) w1 w /\ clean_end p w.
Proof.
  destruct sample_session as (p & w & H).
  destruct (websocket_operation_genuine stored unstored _ text_spec p w H)
    as (w0 & w1 & k & _ & _ & _ & _ & _ & Hclose & Hend & _).
  exists p, w, w1. split; [exact H|]. split; [exact Hclose|exact Hend].
Defined.

(** ** Phases add up *)

Lemma parse_version_11 v : parse_version v = Some (1, 1) -> v = "HTTP/1.1".
Proof.
  unfold parse_version, strip_prefix. intros H. apply bytes_of_string_inj.
  case_decide as Ht; [|done]. rewrite <-(take_drop (length (bytes_of_string "HTTP/")) (bytes_of_string v)), Ht.
  destruct (drop _ (bytes_of_string v)) as [|a [|dot [|b [|? ?]]]]; try done.
  destruct (_ && _) eqn:E; [|done]. reflect_bools. simplify_eq.
  replace a with 49 by lia. replace b with 49 by lia. by subst.
Qed.

Lemma ReadResponse_version raw response :
  ReadResponse raw = Ok response -> VMajor response = 1 -> VMinor response = 1 -> VProto response = "HTTP/1.1".
Proof.
  unfold ReadResponse. destruct (read_line _) as [[first|] s]; [|done].
  destruct (cut_byte 32 first) as [[proto status]|]; [|done]. cbv zeta.
  destruct (_ =? 3); [|done]. destruct (atoi _) as [code|]; [|done].
  destruct (parse_version (string_of_bytes proto)) as [[major minor]|] eqn:Ev; [|done].
  destruct (0 <=? code); [|done]. destruct (fst _) as [ls|]; [|done]. cbn [res_bind].
  destruct (parse_fields ls) as [h|]; [|done]. cbn [res_bind]. intros [= <-]. cbn. intros -> ->.
  by apply parse_version_11.
Qed.

(** Every opened connection passes the checks a phase counts. *)
Lemma opened_is_matched env e w :
  openWebSocket env e = Ok w ->
  request_matched (w_handshake w) e = true /\ response_matched (w_handshake w) e = true /\
  websocketAccept (SampleSecWebSocketKey (w_handshake w)) = ObservedSecWebSocketAccept (w_handshake w).
Proof.
  intros Ho. destruct (openWebSocket_genuine _ _ _ Ho) as (state & c & keyBytes & response & _ & _ & Hr & Hh & Hv & _).
  rewrite Hh. apply handshake_failures_none in Hv
    as (F & S & A & U & Cn & Sub & Ext & SubN & ExtN & Ct & Sv & _).
  split; [|split].
  - unfold request_matched, handshake_proof, established.
    cbn -[String.eqb hash websocketAccept]. by rewrite !String.eqb_refl, !Bool.eqb_reflx.
  - assert (Hproto : VProto response = "HTTP/1.1").
    { apply (ReadResponse_version _ _ Hr); unfold handshake_proof in F; cbn [FallbackDetected] in F; reflect_bools; done. }
    unfold response_matched.
    change (SubprotocolAccepted (established ?q)) with (SubprotocolAccepted q).
    change (ExtensionAccepted (established ?q)) with (ExtensionAccepted q).
    change (ObservedHTTPVersion (established ?q)) with (ObservedHTTPVersion q).
    change (ResponseStatus (established ?q)) with (ResponseStatus q).
    change (UpgradeHeader (established ?q)) with (UpgradeHeader q).
    change (ConnectionHeader (established ?q)) with (ConnectionHeader q).
    change (SubprotocolNegotiated (established ?q)) with (SubprotocolNegotiated q).
    change (ExtensionsNegotiated (established ?q)) with (ExtensionsNegotiated q).
    change (ClientNoContextTakeover (established ?q)) with (ClientNoContextTakeover q).
    change (ServerNoContextTakeover (established ?q)) with (ServerNoContextTakeover q).
    change (ObservedSecWebSocketAccept (established ?q)) with (ObservedSecWebSocketAccept q).
    change (ExpectedSecWebSocketAccept (established ?q)) with (ExpectedSecWebSocketAccept q).
    rewrite S, U, Cn, Sub, Ext, SubN, ExtN, Ct, Sv, A, !String.eqb_refl, !Bool.eqb_reflx.
    change (ObservedHTTPVersion _) with (VProto response). by rewrite Hproto.
  - symmetry. exact A.
Qed.

(** What a summary keeps true: latencies and handshakes are counted, every key is seen or
    reused, and no accept value or header differed. *)
Record counted (s : phaseSummary) : Prop := {
  ct_latencies : CompletedOperations s = len (LatenciesMilliseconds s);
  ct_keys : OpeningHandshakes s = KeyReuseCount s + Z.of_nat (size (seenKeys s));
  ct_accept : AcceptMismatchCount s = 0;
  ct_matched : UpgradeRequestHeadersMatched s = true /\ UpgradeResponseHeadersMatched s = true
}.
Definition unfailed (s : phaseSummary) : Prop := FailedOperations s = 0 /\ TimedOutOperations s = 0 /\ Errors s = ∅.
Definition failed_once (s : phaseSummary) : Prop :=
  0 <= FailedOperations s /\ 0 <= TimedOutOperations s /\ FailedOperations s + TimedOutOperations s = 1 /\
  exists message, Errors s = {[message := 1]}.

Lemma new_counted name : counted (newPhaseSummary name) /\ unfailed (newPhaseSummary name).
Proof. split; [constructor; done|done]. Qed.

Lemma record_opening_counted env e w s :
  openWebSocket env e = Ok w -> counted s ->
  counted (recordOpeningHandshake (w_handshake w) e s) /\
  (unfailed s -> unfailed (recordOpeningHandshake (w_handshake w) e s)).
Proof.
  intros Ho [C1 C2 C3 [C4 C5]]. destruct (opened_is_matched _ _ _ Ho) as (M1 & M2 & M3). split; [|done].
  unfold recordOpeningHandshake. rewrite M1, M2, M3, String.eqb_refl, C4, C5. constructor; cbn; [done| |lia|done].
  case_bool_decide as Hin; [lia|].
  rewrite size_union, size_singleton by set_solver. lia.
Qed.

Lemma record_success_counted p s : counted s -> counted (record_success p s) /\ (unfailed s -> unfailed (record_success p s)).
Proof.
  intros [C1 C2 C3 C4]. destruct s. split; [|done]. constructor; cbn in *; [|done|done|done].
  rewrite len_app. change (len [LatencyMilliseconds p]) with 1. lia.
Qed.

Lemma record_failure_counted timedOut err s :
  counted s -> unfailed s -> counted (record_failure timedOut err s) /\ failed_once (record_failure timedOut err s).
Proof.
  intros [C1 C2 C3 C4] (F & T & E). destruct s. cbn in *. subst. split; [by constructor|].
  unfold failed_once. cbn. split_and!; [by destruct timedOut|by destruct timedOut|by destruct timedOut|].
  exists (error_string err). unfold bump. rewrite lookup_empty. done.
Qed.

Section phases.
Variable deflate : bytes -> res bytes.
Variable inflate : bytes -> stream.

Lemma performOperation_opened env e p w' :
  performOperation deflate inflate env e = (p, None, w') ->
  exists w, openWebSocket (op_open env) e = Ok w /\ Handshake p = Some (w_handshake w).
Proof.
  intros H. destruct w' as [w'|].
  - destruct (openWebSocket (op_open env) e) as [w|] eqn:Eo; [|by unfold performOperation in H; rewrite Eo in H].
    exists w. split; [done|].
    unfold performOperation in H. rewrite Eo in H.
    assert (Hfirst : Handshake (first_proof w e) = Some (w_handshake w)).
    { unfold first_proof, applySemanticCounts. by destruct (is_control e), (is_echo e). }
    destruct (String.eqb (e_operation e) "establish"); [|destruct (String.eqb (e_operation e) "close")].
    + destruct (closeCleanly _ _ _) as [[[err|] w1] q] eqn:Ec; [done|]. injection H as <- <-.
      destruct (clean_end_kept _ _ _ _ _ (w_bytes w1) f_zero Ec) as [(_ & -> & _) _]. by destruct (first_proof w e).
    + destruct (closeCleanly _ _ _) as [[[err|] w1] q] eqn:Ec; [done|]. injection H as <- <-.
      destruct (clean_end_kept _ _ _ _ _ (w_bytes w1) (op_ms env) Ec) as [_ (_ & -> & _)]. done.
    + destruct (performOnOpenConnection _ _ _ _ _ _) as [[p0 [err|]] w0] eqn:Ep; [done|].
      apply performOnOpenConnection_genuine in Ep as (P1 & _).
      destruct (closeCleanly _ _ _) as [[[err|] w1] q] eqn:Ec; [done|]. injection H as <- <-.
      destruct (clean_end_kept _ _ _ _ _ (w_bytes w1) f_zero Ec) as [(_ & -> & _) _]. done.
  - exfalso. unfold performOperation in H. destruct (openWebSocket _ _); [|done].
    repeat case_match; simplify_eq.
Qed.

(** One connection for every operation: as many handshakes as operations. *)
Lemma phase_loop_counted envs e : forall s,
  counted s -> unfailed s -> OpeningHandshakes s = CompletedOperations s ->
  let s' := phase_loop deflate inflate envs e s in
  counted s' /\ (unfailed s' \/ failed_once s') /\ OpeningHandshakes s' = CompletedOperations s' /\
  CompletedOperations s <= CompletedOperations s' <= CompletedOperations s + Z.of_nat (length envs).
Proof.
  induction envs as [|env envs IH]; intros s Hc Hu Ho; cbn [phase_loop length].
  { split_and!; [done|by left|done|lia|lia]. }
  destruct (performOperation _ _ env e) as [[p [err|]] w'] eqn:Ep.
  - destruct (record_failure_counted (isTimeout err) err s Hc Hu). destruct s.
    split_and!; [done|by right|done|cbn; lia|cbn; lia].
  - apply performOperation_opened in Ep as (w & Eo & Hh). rewrite Hh.
    destruct (record_opening_counted _ e w s Eo Hc) as [Hc1 Hu1].
    destruct (record_success_counted p _ Hc1) as [Hc2 Hu2].
    destruct (IH _ Hc2 (Hu2 (Hu1 Hu))) as (H1 & H2 & H3 & H4).
    + cbn. lia.
    + split_and!; [done|done|done| |]; revert H4; cbn; lia.
Qed.

Lemma reusable_loop_counted envs e : forall w s,
  counted s -> unfailed s ->
  let '(s', w') := reusable_loop deflate inflate envs e w s in
  counted s' /\ (unfailed s' \/ failed_once s') /\ OpeningHandshakes s' = OpeningHandshakes s /\
  CompletedOperations s <= CompletedOperations s' <= CompletedOperations s + Z.of_nat (length envs).
Proof.
  induction envs as [|env envs IH]; intros w s Hc Hu; cbn [reusable_loop length].
  { split_and!; [done|by left|done|lia|lia]. }
  destruct (performOnOpenConnection _ _ _ _ w e) as [[p [err|]] w'].
  - destruct (record_failure_counted (isTimeout err) err s Hc Hu). destruct s.
    split_and!; [done|by right|done|cbn; lia|cbn; lia].
  - destruct (record_success_counted p s Hc) as [Hc2 Hu2].
    specialize (IH w' (record_success p s) Hc2 (Hu2 Hu)). destruct (reusable_loop _ _ _ _ _ _) as [s' w''].
    destruct IH as (H1 & H2 & H3 & H4). destruct s. cbn in *. split_and!; (done || lia).
Qed.

Lemma unfailed_hasFailures s : unfailed s \/ failed_once s -> hasFailures s = false -> unfailed s.
Proof.
  intros [H|(_ & _ & H & _)] Hf; [done|]. unfold hasFailures in Hf. reflect_bools. lia.
Qed.

Lemma set_last_counted p s : counted s -> counted (set_last p s) /\ (unfailed s -> unfailed (set_last p s)).
Proof. intros [C1 C2 C3 C4]. destruct s. by split; [constructor|]. Qed.

Lemma set_duration_counted d s :
  counted s -> counted (set_duration d s) /\ (unfailed s \/ failed_once s -> unfailed (set_duration d s) \/ failed_once (set_duration d s)).
Proof. intros [C1 C2 C3 C4]. destruct s. by split; [constructor|]. Qed.
End phases.

Lemma runPhase_counted deflate inflate env e name :
  let s := runPhase deflate inflate env e name in
  counted s /\ (unfailed s \/ failed_once s) /\
  0 <= CompletedOperations s <= Z.of_nat (length (ph_operations env)) /\
  OpeningHandshakes s = (if is_echo e || is_control e
                         then if is_ok (openWebSocket (ph_open env) e) then 1 else 0
                         else CompletedOperations s).
Proof.
  cbv zeta. destruct (new_counted name) as [Hc Hu]. unfold runPhase.
  destruct (is_echo e || is_control e).
  - unfold runReusablePhase. destruct (openWebSocket (ph_open env) e) as [w|err] eqn:Eo; cbn [is_ok].
    + destruct (record_opening_counted _ _ _ _ Eo Hc) as [Hc1 Hu1].
      pose proof (reusable_loop_counted deflate inflate (ph_operations env) e w _ Hc1 (Hu1 Hu)) as Hr.
      destruct (reusable_loop _ _ _ _ _ _) as [s w']. destruct Hr as (H1 & H2 & H3 & H4).
      set (final := if hasFailures s then s else _).
      assert (Hf : counted final /\ (unfailed final \/ failed_once final) /\
        OpeningHandshakes final = OpeningHandshakes s /\ CompletedOperations final = CompletedOperations s).
      { subst final. destruct (hasFailures s) eqn:Ef; [done|]. pose proof (unfailed_hasFailures s H2 Ef) as Hus.
        destruct (closeCleanly _ _ _) as [[[err|] w2] p];
          destruct (set_last_counted p s H1) as [Hc2 Hu2].
        - destruct (record_failure_counted (isTimeout err) err _ Hc2 (Hu2 Hus)) as [Hc3 Hf3].
          destruct s. split; [exact Hc3|]. split; [by right|done].
        - destruct s. split; [exact Hc2|]. split; [left; by apply Hu2|done]. }
      clearbody final. destruct Hf as (F1 & F2 & F3 & F4).
      destruct (set_duration_counted (ph_seconds env) final F1) as [G1 G2]. destruct final. cbn in *.
      split; [done|]. split; [by apply G2|]. split; lia.
    + destruct (record_failure_counted false err _ Hc Hu) as [H1 H2]. split; [done|]. split; [by right|]. cbn. lia.
  - destruct (phase_loop_counted deflate inflate (ph_operations env) e _ Hc Hu eq_refl) as (H1 & H2 & H3 & H4).
    destruct (set_duration_counted (ph_seconds env) _ H1) as [G1 G2].
    revert H3 H4 G1 G2. generalize (phase_loop deflate inflate (ph_operations env) e (newPhaseSummary name)) H2.
    intros s Hs H3 H4 G1 G2. destruct s. cbn in *. split; [done|]. split; [by apply G2|]. split; [lia|done].
Qed.

(** ** The keys of a phase *)

(** The keys of the opened connections, in order, against the counters of the summary. *)
Record keys_counted (keys : list string) (s : phaseSummary) : Prop := KeysCounted {
  kc_openings : OpeningHandshakes s = len keys;
  kc_seen : seenKeys s = list_to_set keys;
  kc_reuse : KeyReuseCount s = len keys - Z.of_nat (size (list_to_set keys : gset string));
  kc_invalid : InvalidDecodedKeyCount s
    = len (List.filter (fun k => match base64_std_decode k with Some d => negb (len d =? 16) | None => true end) keys)
}.

(** The key of an opening is the encoding of the octets drawn for it. *)
Definition drawn (env : openEnv) (key : string) : Prop :=
  exists octets, oe_key env = Ok octets /\ key = base64_std_encode octets.

Lemma new_keys name : keys_counted [] (newPhaseSummary name).
Proof. constructor; reflexivity. Qed.

Lemma record_opening_keys h e keys s :
  keys_counted keys s -> keys_counted (keys ++ [SampleSecWebSocketKey h]) (recordOpeningHandshake h e s).
Proof.
  intros [K1 K2 K3 K4]. set (k := SampleSecWebSocketKey h).
  assert (Hset : list_to_set (keys ++ [k]) = ({[k]} ∪ list_to_set keys : gset string)).
  { rewrite list_to_set_app_L. set_solver. }
  unfold recordOpeningHandshake. fold k.
  constructor; cbn [OpeningHandshakes seenKeys KeyReuseCount InvalidDecodedKeyCount]; rewrite ?K1, ?K2, ?K3, ?K4.
  - by rewrite len_app.
  - rewrite Hset. case_bool_decide as Hin; [|done]. set_solver.
  - rewrite Hset, len_app. change (len [k]) with 1. case_bool_decide as Hin.
    + replace ({[k]} ∪ list_to_set keys : gset string) with (list_to_set keys : gset string) by set_solver. lia.
    + rewrite size_union, size_singleton by set_solver. lia.
  - rewrite List.filter_app, len_app. cbn [List.filter]. by destruct (match base64_std_decode k with Some _ => _ | None => _ end).
Qed.

Lemma opened_key env e w : openWebSocket env e = Ok w -> drawn env (SampleSecWebSocketKey (w_handshake w)).
Proof.
  intros Ho. destruct (openWebSocket_handshake _ _ _ Ho) as (octets & Hk & Hh).
  exists octets. split; [done|by apply gh_key in Hh].
Qed.

Lemma record_keys keys s :
  keys_counted keys s ->
  (forall t err, keys_counted keys (record_failure t err s)) /\ (forall p, keys_counted keys (record_success p s)) /\
  (forall p, keys_counted keys (set_last p s)) /\ (forall d, keys_counted keys (set_duration d s)).
Proof. intros [K1 K2 K3 K4]. destruct s. split_and!; intros; by constructor. Qed.

Lemma phase_loop_keys deflate inflate envs e : forall keys s,
  keys_counted keys s ->
  let s' := phase_loop deflate inflate envs e s in
  exists more, keys_counted (keys ++ more) s' /\
    Forall2 (fun env => drawn (op_open env)) (take (length more) envs) more /\
    CompletedOperations s' = CompletedOperations s + len more.
Proof.
  induction envs as [|env envs IH]; intros keys s Hk; cbn [phase_loop].
  { exists []. rewrite app_nil_r. split_and!; [done|constructor|unfold len; cbn; lia]. }
  destruct (performOperation _ _ env e) as [[p [err|]] w'] eqn:Ep.
  - exists []. rewrite app_nil_r. split_and!; [by apply record_keys|constructor|destruct s; unfold len; cbn; lia].
  - apply performOperation_opened in Ep as (w & Eo & Hh). rewrite Hh.
    apply (record_opening_keys (w_handshake w) e) in Hk. apply opened_key in Eo.
    destruct (IH _ _ (proj1 (proj2 (record_keys _ _ Hk)) p)) as (more & H1 & H2 & H3).
    exists (SampleSecWebSocketKey (w_handshake w) :: more). split_and!.
    + by rewrite <-app_assoc in H1.
    + cbn [length take]. by constructor.
    + rewrite H3. unfold len. destruct s. cbn. lia.
Qed.

Lemma reusable_loop_keys deflate inflate envs e keys : forall w s,
  keys_counted keys s -> keys_counted keys (reusable_loop deflate inflate envs e w s).1.
Proof.
  induction envs as [|env envs IH]; intros w s Hk; cbn [reusable_loop]; [done|].
  destruct (performOnOpenConnection _ _ _ _ w e) as [[p [err|]] w']; [by apply record_keys|].
  apply IH. by apply record_keys.
Qed.

Lemma runPhase_keys deflate inflate env e name :
  exists keys, keys_counted keys (runPhase deflate inflate env e name) /\
    (if is_echo e || is_control e
     then (keys = [] /\ is_ok (openWebSocket (ph_open env) e) = false) \/
          (exists key, keys = [key] /\ drawn (ph_open env) key)
     else len keys = CompletedOperations (runPhase deflate inflate env e name) /\
          Forall2 (fun env => drawn (op_open env)) (take (length keys) (ph_operations env)) keys).
Proof.
  pose proof (new_keys name) as Hk. unfold runPhase. destruct (is_echo e || is_control e).
  - unfold runReusablePhase. destruct (openWebSocket (ph_open env) e) as [w|err] eqn:Eo.
    + exists [SampleSecWebSocketKey (w_handshake w)]. split; [|right; eexists; split; [done|by eapply opened_key]].
      apply (record_opening_keys (w_handshake w) e) in Hk.
      pose proof (reusable_loop_keys deflate inflate (ph_operations env) e _ w _ Hk) as Hr.
      destruct (reusable_loop _ _ _ _ _ _) as [s w']. cbn [fst] in Hr. apply record_keys.
      destruct (hasFailures s); [done|].
      destruct (closeCleanly _ _ _) as [[[err|] w2] p]; [|by apply record_keys].
      apply record_keys. by apply record_keys.
    + exists []. split; [by apply record_keys|by left].
  - destruct (phase_loop_keys deflate inflate (ph_operations env) e [] _ Hk) as (keys & H1 & H2 & H3).
    exists keys. split; [by apply record_keys|]. split; [|done].
    revert H3. generalize (phase_loop deflate inflate (ph_operations env) e (newPhaseSummary name)).
    intros s H3. destruct s. cbn in *. lia.
Qed.

(** C8: a phase's summary accounts for what happened. Whatever the operations met, each
    completed one has a latency, at most one failure ended the phase and it is the one
    error in the summary, no accept value or header of an opened connection mismatched; a
    phase of establish or close operations opened one connection for each, the others at
    most one in all. The openings are those of a list of keys, each the encoding of the
    octets drawn for its connection, in order: the summary has seen exactly these keys, it
    counts as reused every opening beyond the number of distinct ones, and as invalid
    every key that is not sixteen octets. *)
Theorem websocket_phase_accounts deflate inflate env e name :
  let s := runPhase deflate inflate env e name in
  counted s /\ (unfailed s \/ failed_once s) /\
  0 <= CompletedOperations s <= Z.of_nat (length (ph_operations env)) /\
  OpeningHandshakes s = (if is_echo e || is_control e
                         then if is_ok (openWebSocket (ph_open env) e) then 1 else 0
                         else CompletedOperations s) /\
  exists keys, keys_counted keys s /\
    (if is_echo e || is_control e
     then (keys = [] /\ is_ok (openWebSocket (ph_open env) e) = false) \/
          (exists key, keys = [key] /\ drawn (ph_open env) key)
     else len keys = CompletedOperations s /\
          Forall2 (fun env => drawn (op_open env)) (take (length keys) (ph_operations env)) keys).
Proof.
  destruct (runPhase_counted deflate inflate env e name) as (H1 & H2 & H3 & H4).
  pose proof (runPhase_keys deflate inflate env e name) as H5. exact (conj H1 (conj H2 (conj H3 (conj H4 H5)))).
Qed.

(** Exit code zero is earned. The process exits 0 only for a scenario of its own under
    its own identity, a well-formed target, and a preflight operation that passed; with a
    result only when both phases completed operations and none failed or timed out, and
    the result carries the measured counts. *)
Theorem websocket_exit_zero_is_earned deflate inflate env r :
  main deflate inflate env = (0, r) ->
  exists e p w, checkIdentity (m_getenv env) = Known e /\ e ∈ expectations /\ is_ok (normalizeTarget (m_target env)) = true /\
    performOperation deflate inflate (m_preflight env) e = (p, None, w) /\
    match r with
    | None => m_validationOnly env = true
    | Some result =>
        let measured := runPhase deflate inflate (m_measured env) e "measured" in
        m_validationOnly env = false /\ loadConfigFromEnvironment (m_getenv env) = None /\
        result = normalizeResult e measured /\ unfailed measured /\ 0 < MCompletedOperations (NMetrics result) /\
        MFailedOperations (NMetrics result) = 0 /\ MTimedOutOperations (NMetrics result) = 0 /\
        NAcceptMismatch result = 0 /\ NRequestMatched result = true /\ NResponseMatched result = true
    end.
Proof.
  unfold main. destruct (checkIdentity (m_getenv env)) as [e|code] eqn:Ei.
  2: { intros [= -> <-]. unfold checkIdentity in Ei. exfalso. repeat case_match; simplify_eq. }
  destruct (normalizeTarget (m_target env)) as [t|]; [|done].
  destruct (performOperation _ _ _ e) as [[p [err|]] w] eqn:Ep; [done|]. intros H.
  exists e, p, w. split; [done|].
  assert (He : e ∈ expectations).
  { unfold checkIdentity, find_expectation in Ei. destruct (negb _); [done|].
    destruct (List.find _ _) eqn:Ef; [|by destruct (string_in _ _)]. injection Ei as <-.
    apply find_some in Ef as [Ef _]. by apply list_elem_of_In. }
  do 3 (split; [done|]).
  destruct (m_validationOnly env); [by injection H as <-|].
  destruct (loadConfigFromEnvironment _); [done|]. cbv zeta in H.
  destruct (hasFailures (runPhase _ _ (m_warmup env) e _) || _); [done|].
  destruct (hasFailures (runPhase _ _ (m_measured env) e _) || _) eqn:Em; [done|]. injection H as <-.
  assert (Hp : forall s, counted s -> unfailed s \/ failed_once s -> 0 <= CompletedOperations s ->
      hasFailures s || (CompletedOperations s =? 0) = false ->
      unfailed s /\ 0 < CompletedOperations s /\ FailedOperations s = 0 /\ TimedOutOperations s = 0 /\
      AcceptMismatchCount s = 0 /\ UpgradeRequestHeadersMatched s = true /\ UpgradeResponseHeadersMatched s = true).
  { intros s [_ _ C3 [C4 C5]] Hs Hn [Hf Hz]%orb_false_iff. apply Z.eqb_neq in Hz.
    pose proof (unfailed_hasFailures s Hs Hf) as Hu. split; [done|]. destruct Hu as (F & T & _). split_and!; (done || lia). }
  destruct (runPhase_counted deflate inflate (m_measured env) e "measured") as (M1 & M2 & M3 & _).
  destruct (Hp _ M1 M2 (proj1 M3) Em) as (U & P1 & P2 & P3 & P4 & P5 & P6).
  revert U P1 P2 P3 P4 P5 P6. generalize (runPhase deflate inflate (m_measured env) e "measured"). intros s U P1 P2 P3 P4 P5 P6.
  assert (Hmet : MCompletedOperations (normalize_metrics e s) = CompletedOperations s /\
    MFailedOperations (normalize_metrics e s) = FailedOperations s /\
    MTimedOutOperations (normalize_metrics e s) = TimedOutOperations s)
    by (unfold normalize_metrics; repeat case_match; done).
  destruct Hmet as (H1 & H2 & H3). unfold normalizeResult.
  cbn [NMetrics NAcceptMismatch NRequestMatched NResponseMatched]. rewrite H1, H2, H3. by split_and!.
Qed.

Definition is_Some_bool {A} (x : option A) : bool := match x with Some _ => true | None => false end.

Definition ws_environment (name : string) : string :=
  default "" (snd <$> List.find (fun '(k, _) => String.eqb k name)
    [("PLAB_SCENARIO_ID", "http1.websocket.rfc6455.tls.close"); ("PLAB_LOAD_PROFILE_ID", "websocket-smoke");
     ("PLAB_CONNECTIONS", "1"); ("PLAB_CONCURRENCY", "1"); ("PLAB_DURATION_SECONDS", "5");
     ("PLAB_WARMUP_SECONDS", "1"); ("PLAB_REPETITION", "1")]).
Definition close_spec : scenarioExpectation :=
  Expectation "http1.websocket.rfc6455.tls.close" "close" "none" [] (hash []) 0 0 false "" false.
Definition close_phase (n : nat) : phaseEnv :=
  PhaseEnv (replicate n (sample_env close_spec [])) (op_open (sample_env close_spec [])) (Ok [5; 6; 7; 8]) (f_of_Z 5).
Definition ws_run : mainEnv :=
  MainEnv ws_environment (Ok (ParsedURL "https" "127.0.0.1:18443" "" "" "")) false (sample_env close_spec [])
    (close_phase 1) (close_phase 2).

(** Two measured closes with one key: both counted, one of them as reuse. *)
Lemma websocket_exit_zero_is_earned_witness :
  exists result, main stored unstored ws_run = (0, Some result) /\ 0 < MCompletedOperations (NMetrics result).
Proof.
  destruct (main stored unstored ws_run) as [code r] eqn:E.
  assert (Hc : (code, is_Some_bool r) = (0, true)).
  { change (code, is_Some_bool r) with ((fun x => (fst x, is_Some_bool (snd x))) (code, r)). rewrite <-E. vm_compute. reflexivity. }
  injection Hc as -> Hr. destruct r as [result|]; [|discriminate Hr].
  destruct (websocket_exit_zero_is_earned stored unstored ws_run (Some result) E)
    as (e & p & w & _ & _ & _ & _ & _ & _ & _ & _ & H & _).
  exists result. split; [reflexivity|exact H].
Defined.
