(* ===== verification/WsServerProps.v ===== *)
(** The echo loops end, and say only what their contract allows. *)
From S2P Require Export Prelude GoText GoHttp1 WsCodec WsHandshake WsServer.

(** ** Reading makes progress *)




(** ** The TLS server *)

Section secure.
Variable deflate : bytes -> res bytes.
Variable inflate : bytes -> stream.









End secure.


