(* ===== verification/WsClear.v ===== *)
(** go-http1-websocket-executor: the cleartext variant of the HTTP/1.1 WebSocket executor.
    What is verbatim the same in both executors is that of the TLS one. *)
From S2P Require Export Prelude GoText GoHash GoHttp1 Stats WsCodec WsHandshake WsServer WsClient WsRun.

Module Clear.

(** ** What both executors repeat *)

Definition readFrame : bool -> stream -> (Client.wireFrame * option goerror) * stream := Client.readFrame.
Definition readPayloadLength : stream -> Z -> (Z * Z * option goerror) * stream := Client.readPayloadLength.
Definition readHTTPHeader : stream -> res string * stream := WsHandshake.readHTTPHeader.
Definition websocketAccept : string -> string := WsHandshake.websocketAccept.
Definition hasToken : string -> string -> bool := WsHandshake.hasToken.
Definition opcodeName : Z -> string := WsClient.opcodeName.
Definition hash : bytes -> string := WsHandshake.hash.
Definition isTimeout : goerror -> bool := WsRun.isTimeout.
Definition envInt : (string -> string) -> string -> Z := WsRun.envInt.
Definition envIntDefault : (string -> string) -> string -> Z -> Z := WsRun.envIntDefault.
Definition verifySubstitution : (string -> string) -> string -> string -> bool := WsRun.verifySubstitution.
Definition loadConfigFromEnvironment : (string -> string) -> option goerror := WsRun.loadConfigFromEnvironment.

(** ** Scenarios *)

Record scenarioExpectation := Expectation {
  e_id : string; e_operation : string; e_messageType : string; e_payload : bytes; e_payloadHash : string;
  e_requestOpcode : Z; e_responseOpcode : Z; e_connectionMetric : bool
}.
Definition expectations : list scenarioExpectation :=
  [Expectation "http1.websocket.rfc6455.cleartext.upgrade" "establish" "none" [] (hash []) 0 0 true;
   Expectation "http1.websocket.rfc6455.cleartext.text-echo" "text-echo" "text" (bytes_of_string textPayload) text_hash 1 1 false;
   Expectation "http1.websocket.rfc6455.cleartext.binary-echo" "binary-echo" "binary" (replicate 1024 66) binary_hash 2 2 false;
   Expectation "http1.websocket.rfc6455.cleartext.control-frames" "control-frames" "none" (bytes_of_string controlPayload)
     control_hash 9 10 false;
   Expectation "http1.websocket.rfc6455.cleartext.close" "close" "none" [] (hash []) 0 0 false].
Definition find_expectation (scenario : string) : option scenarioExpectation :=
  List.find (fun e => String.eqb (e_id e) scenario) expectations.
Definition is_echo (e : scenarioExpectation) : bool :=
  String.eqb (e_operation e) "text-echo" || String.eqb (e_operation e) "binary-echo".
Definition is_control (e : scenarioExpectation) : bool := String.eqb (e_operation e) "control-frames".

Definition knownUnsupported : list string :=
  ["websocket.echo"; "http1.websocket.rfc6455.tls.upgrade"; "http1.websocket.rfc6455.tls.text-echo";
   "http1.websocket.rfc6455.tls.binary-echo"; "http1.websocket.rfc6455.tls.control-frames";
   "http1.websocket.rfc6455.tls.close"; "http1.websocket.rfc6455.tls.subprotocol-text-echo";
   "http1.websocket.rfc6455.tls.permessage-deflate-binary-echo"; "http2.websocket.rfc8441.extended-connect";
   "http2.websocket.rfc8441.text-echo"; "http2.websocket.rfc8441.binary-echo"; "http2.websocket.rfc8441.control-frames";
   "http2.websocket.rfc8441.close"; "http2.websocket.rfc8441.multi-message-text-echo";
   "http3.websocket.rfc9220.extended-connect"; "http3.websocket.rfc9220.text-echo"; "http3.websocket.rfc9220.binary-echo";
   "http3.websocket.rfc9220.control-frames"; "http3.websocket.rfc9220.close"; "http3.websocket.rfc9220.fragmented-binary-echo"].

(** ** The opening handshake *)

(** The fields of the proof that depend on the handshake; the others are constants. *)
Record handshakeProof := HandshakeProof {
  Binding : string; Scheme : string; TransportSecurity : string; Endpoint : string; Authority : string;
  RequestMethod : string; RequestedHTTPVersion : string; ObservedHTTPVersion : string; ResponseStatus : Z;
  UpgradeHeader : string; ConnectionHeader : string; SecWebSocketVersion : string; SampleSecWebSocketKey : string;
  ExpectedSecWebSocketAccept : string; ObservedSecWebSocketAccept : string; SubprotocolRequested : bool;
  SubprotocolNegotiated : bool; ExtensionsRequested : bool; ExtensionsNegotiated : bool; FallbackDetected : bool;
  ConnectionEstablished : bool
}.
Definition handshake_proof (key : string) (response : upgradeResponse) : handshakeProof :=
  let get n := header_get (VHeader response) n in
  HandshakeProof "http1-upgrade" "ws" "cleartext" "/websocket" "websocket.plab.test" "GET" "HTTP/1.1" (VProto response)
    (VStatus response) (get "upgrade") (get "connection") "13" key (websocketAccept key) (get "sec-websocket-accept")
    false (negb (String.eqb (get "sec-websocket-protocol") "")) false (negb (String.eqb (get "sec-websocket-extensions") ""))
    (negb (VMajor response =? 1) || negb (VMinor response =? 1)) false.
Definition established (p : handshakeProof) : handshakeProof :=
  let '(HandshakeProof a b c d e f g h i j k l m n o q r s t u _) := p in
  HandshakeProof a b c d e f g h i j k l m n o q r s t u true.

Definition raw_request (key : string) : string :=
  text_lines ["GET /websocket HTTP/1.1"; "Host: websocket.plab.test"; "Upgrade: websocket"; "Connection: Upgrade";
              "Sec-WebSocket-Key: " +:+ key; "Sec-WebSocket-Version: 13"; ""].
Definition handshake_failures (p : handshakeProof) : list string :=
  (if FallbackDetected p then ["observed protocol is not exact HTTP/1.1"] else [])
  ++ (if negb (ResponseStatus p =? 101) then ["opening handshake status is not 101"] else [])
  ++ (if negb (equal_fold (UpgradeHeader p) "websocket") || negb (hasToken (ConnectionHeader p) "upgrade")
      then ["opening handshake Upgrade/Connection response is invalid"] else [])
  ++ (if negb (String.eqb (ObservedSecWebSocketAccept p) (ExpectedSecWebSocketAccept p))
      then ["Sec-WebSocket-Accept mismatch"] else [])
  ++ (if SubprotocolNegotiated p || ExtensionsNegotiated p
      then ["unrequested subprotocol or extension was negotiated"] else []).

Record wsConnection := WsConnection {
  w_conn : conn; w_handshake : handshakeProof; w_rawRequest : string; w_rawResponse : string;
  w_handshakeMS : float64; w_bytes : Z
}.
Definition with_conn (c : conn) (n : Z) (w : wsConnection) : wsConnection :=
  WsConnection c (w_handshake w) (w_rawRequest w) (w_rawResponse w) (w_handshakeMS w) (w_bytes w + n).

(** What opening a connection meets: [url.Parse], the dial, [rand.Read], the clock. *)
Record openEnv := OpenEnv { oe_parse : option goerror; oe_dial : res conn; oe_key : res bytes; oe_ms : float64 }.

Definition openWebSocket (env : openEnv) : res wsConnection :=
  match oe_parse env with Some err => Err err | None =>
  let? c := oe_dial env in
  let? keyBytes := oe_key env in
  let key := base64_std_encode keyBytes in
  let rawRequest := raw_request key in
  match write_string rawRequest c with
  | (Some err, _) => Err err
  | (None, c) =>
  match readHTTPHeader (c_in c) with
  | (Err err, _) => Err err
  | (Ok rawResponse, s) =>
  let? response := ReadResponse rawResponse in
  let proof := handshake_proof key response in
  match handshake_failures proof with
  | [] => Ok (WsConnection (with_input s c) (established proof) rawRequest rawResponse (oe_ms env)
                (len (bytes_of_string rawRequest) + len (bytes_of_string rawResponse)))
  | failures => Err (EMsg (join "; " failures))
  end end end end.

(** ** Frames *)

(** The octets [writeClientFrame] sends; [mask] is what [rand.Read] returns. *)
Definition clientFrame (mask : res bytes) (opcode : Z) (payload : bytes) : res bytes :=
  let? header :=
    (if len payload <=? 125 then Ok [Z.lor 0x80 opcode; Z.lor 0x80 (u8 (len payload))]
     else if len payload <=? 65535 then
       Ok [Z.lor 0x80 opcode; Z.lor 0x80 126; u8 (Z.shiftr (len payload) 8); u8 (len payload)]
     else Err (EMsg "payload exceeds package limit")) in
  let? mask := mask in
  Ok (header ++ mask ++ xor_mask mask payload).
Definition writeClientFrame (c : conn) (mask : res bytes) (opcode : Z) (payload : bytes) : (Z * option goerror) * conn :=
  match clientFrame mask opcode payload with
  | Err e => ((0, Some e), c)
  | Ok wire => conn_write wire c
  end.

(** ** Operations *)

Record operationProof := OperationProof {
  ScenarioID : string; Operation : string; MessageType : string; MessageBytes : Z; MessageCount : Z;
  PayloadSHA256 : string; ControlPayloadBytes : Z; ControlPayloadSHA256 : string; ClientFrameMasked : bool;
  ServerFrameMasked : bool; RequestOpcode : string; ResponseOpcode : string; OrderedEcho : bool; PingSent : bool;
  PongReceived : bool; CloseSentCode : Z; CloseReceivedCode : Z; CleanCompletion : bool; TransportEOFObserved : bool;
  Handshake : option handshakeProof;       (* [None] is the zero value *)
  LatencyMilliseconds : float64; TransferredBytes : Z; HandshakeRequest : string; HandshakeResponse : string
}.
Definition operationProof_zero : operationProof :=
  OperationProof "" "" "" 0 0 "" 0 "" false false "" "" false false false 0 0 false false None f_zero 0 "" "".

(** The assignments of the sources, grouped as they are made. *)
Definition set_counts (bytes count controlBytes : Z) (control : string) (p : operationProof) : operationProof :=
  let '(OperationProof a b c _ _ f _ _ i j k l m n o q r s t u v w x y) := p in
  OperationProof a b c bytes count f controlBytes control i j k l m n o q r s t u v w x y.
Definition set_request (opcode : string) (p : operationProof) : operationProof :=
  let '(OperationProof a b c d e f g h _ j _ l m n o q r s t u v w x y) := p in
  OperationProof a b c d e f g h true j opcode l m n o q r s t u v w x y.
Definition set_response (latency : float64) (masked : bool) (opcode : string) (p : operationProof) : operationProof :=
  let '(OperationProof a b c d e f g h i _ k _ m n o q r s t u _ w x y) := p in
  OperationProof a b c d e f g h i masked k opcode m n o q r s t u latency w x y.
Definition set_echo (ordered control : bool) (bytes : Z) (p : operationProof) : operationProof :=
  let '(OperationProof a b c d e f g h i j k l _ _ _ q r s t u v _ x y) := p in
  OperationProof a b c d e f g h i j k l ordered control control q r s t u v bytes x y.
Definition set_close_sent (p : operationProof) : operationProof :=
  let '(OperationProof a b c d e f g h _ j k l m n o _ r s t u v w x y) := p in
  OperationProof a b c d e f g h true j k l m n o 1000 r s t u v w x y.
Definition set_close_received (p : operationProof) : operationProof :=
  let '(OperationProof a b c d e f g h i _ k l m n o q _ s t u v w x y) := p in
  OperationProof a b c d e f g h i false k l m n o q 1000 s t u v w x y.
Definition set_clean (p : operationProof) : operationProof :=
  let '(OperationProof a b c d e f g h i j k l m n o q r _ _ u v w x y) := p in
  OperationProof a b c d e f g h i j k l m n o q r true true u v w x y.
Definition set_latency (latency : float64) (p : operationProof) : operationProof :=
  let '(OperationProof a b c d e f g h i j k l m n o q r s t u _ w x y) := p in
  OperationProof a b c d e f g h i j k l m n o q r s t u latency w x y.
Definition set_transferred (bytes : Z) (p : operationProof) : operationProof :=
  let '(OperationProof a b c d e f g h i j k l m n o q r s t u v _ x y) := p in
  OperationProof a b c d e f g h i j k l m n o q r s t u v bytes x y.

Definition applySemanticCounts (e : scenarioExpectation) (p : operationProof) : operationProof :=
  if is_control e then set_counts 0 1 (len (e_payload e)) (e_payloadHash e) p
  else if is_echo e then set_counts (len (e_payload e)) 1 (ControlPayloadBytes p) (ControlPayloadSHA256 p) p
  else set_counts 0 0 (ControlPayloadBytes p) (ControlPayloadSHA256 p) p.
Definition first_proof (w : wsConnection) (e : scenarioExpectation) : operationProof :=
  applySemanticCounts e
    (OperationProof (e_id e) (e_operation e) (e_messageType e) (len (e_payload e)) 0 (e_payloadHash e) 0 "" false false "" ""
       false false false 0 0 false false (Some (w_handshake w)) f_zero 0 (w_rawRequest w) (w_rawResponse w)).

Definition closeCleanly (mask : res bytes) (w : wsConnection) (p : operationProof)
    : option goerror * wsConnection * operationProof :=
  match writeClientFrame (w_conn w) mask 0x8 [3; 232] with
  | ((written, Some e), c) => (Some e, with_conn c written w, p)
  | ((written, None), c) =>
  let w := with_conn c written w in
  let p := set_close_sent p in
  match readFrame false (c_in c) with
  | ((frame, Some e), s) => (Some e, with_conn (with_input s c) (Client.nbytes frame) w, p)
  | ((frame, None), s) =>
  let w := with_conn (with_input s c) (Client.nbytes frame) w in
  if negb (Client.fin frame) || negb (Client.rsv frame =? 0) || Client.masked frame
     || negb (Client.opcode frame =? 0x8) || negb (len (Client.payload frame) =? 2)
     || negb (be_decode (Client.payload frame) =? 1000)
  then (Some (EMsg "clean close echo mismatch"), w, p) else
  let p := set_close_received p in
  match read_byte s with
  | (Ok _, s) => (Some (EMsg "unexpected bytes followed the WebSocket closing handshake"), with_conn (with_input s c) 0 w, p)
  | (Err e, s) =>
      if errors_is EEOF e then (None, with_conn (with_input s c) 0 w, set_clean p)
      else (Some (EWrap "waiting for peer transport close after WebSocket closing handshake" e), with_conn (with_input s c) 0 w, p)
  end end end.

Definition performOnOpenConnection (mask : res bytes) (latency : float64) (w : wsConnection) (e : scenarioExpectation)
    : (operationProof * option goerror) * wsConnection :=
  let startBytes := w_bytes w in
  let p := first_proof w e in
  match writeClientFrame (w_conn w) mask (e_requestOpcode e) (e_payload e) with
  | ((written, Some err), c) => ((p, Some err), with_conn c written w)
  | ((written, None), c) =>
  let w := with_conn c written w in
  let p := set_request (opcodeName (e_requestOpcode e)) p in
  match readFrame false (c_in c) with
  | ((frame, Some err), s) => ((p, Some err), with_conn (with_input s c) (Client.nbytes frame) w)
  | ((frame, None), s) =>
  let w := with_conn (with_input s c) (Client.nbytes frame) w in
  let p := set_response latency (Client.masked frame) (opcodeName (Client.opcode frame)) p in
  if negb (Client.fin frame) || negb (Client.rsv frame =? 0) || negb (Client.opcode frame =? e_responseOpcode e)
     || negb (bool_decide (Client.payload frame = e_payload e))
  then ((p, Some (EMsg "response frame opcode, fragmentation, or deterministic payload mismatch")), w)
  else ((set_echo (is_echo e) (is_control e) (w_bytes w - startBytes) p, None), w)
  end end.

(** What one operation meets: the opening, the two masking keys, the clock. *)
Record operationEnv := OperationEnv { op_open : openEnv; op_mask : res bytes; op_close_mask : res bytes; op_ms : float64 }.

Definition performOperation (env : operationEnv) (e : scenarioExpectation) : operationProof * option goerror * option wsConnection :=
  match openWebSocket (op_open env) with
  | Err err => (operationProof_zero, Some err, None)
  | Ok w =>
  let p := first_proof w e in
  if String.eqb (e_operation e) "establish" then
    let p := set_latency (w_handshakeMS w) p in
    match closeCleanly (op_close_mask env) w p with
    | (Some err, w, p) => (p, Some err, Some w)
    | (None, w, p) => (set_transferred (w_bytes w) p, None, Some w)
    end
  else if String.eqb (e_operation e) "close" then
    match closeCleanly (op_close_mask env) w p with
    | (Some err, w, p) => (p, Some err, Some w)
    | (None, w, p) => (set_transferred (w_bytes w) (set_latency (op_ms env) p), None, Some w)
    end
  else
  match performOnOpenConnection (op_mask env) (op_ms env) w e with
  | ((p, Some err), w) => (p, Some err, Some w)
  | ((p, None), w) =>
    match closeCleanly (op_close_mask env) w p with
    | (Some err, w, p) => (p, Some err, Some w)
    | (None, w, p) => (set_transferred (w_bytes w) p, None, Some w)
    end
  end end.

(** ** Phases *)

Record phaseSummary := PhaseSummary {
  Phase : string; DurationSeconds : float64;
  CompletedOperations : Z; FailedOperations : Z; TimedOutOperations : Z; TotalTransferredBytes : Z;
  EffectiveConnections : Z; EffectiveConcurrency : Z; LatenciesMilliseconds : list float64;
  LastProof : operationProof;
  OpeningHandshakes : Z; KeyReuseCount : Z; InvalidDecodedKeyCount : Z; AcceptMismatchCount : Z;
  UpgradeRequestHeadersMatched : bool; UpgradeResponseHeadersMatched : bool;
  Errors : gmap string Z; seenKeys : gset string
}.
Definition newPhaseSummary (name : string) : phaseSummary :=
  PhaseSummary name f_zero 0 0 0 0 1 1 [] operationProof_zero 0 0 0 0 true true ∅ ∅.

Definition request_matched (p : handshakeProof) : bool :=
  String.eqb (Binding p) "http1-upgrade" && String.eqb (Scheme p) "ws" && String.eqb (TransportSecurity p) "cleartext"
  && String.eqb (Endpoint p) "/websocket" && String.eqb (Authority p) "websocket.plab.test"
  && String.eqb (RequestMethod p) "GET" && String.eqb (RequestedHTTPVersion p) "HTTP/1.1"
  && String.eqb (SecWebSocketVersion p) "13" && negb (SubprotocolRequested p) && negb (ExtensionsRequested p).
Definition response_matched (p : handshakeProof) : bool :=
  String.eqb (ObservedHTTPVersion p) "HTTP/1.1" && (ResponseStatus p =? 101)
  && equal_fold (UpgradeHeader p) "websocket" && hasToken (ConnectionHeader p) "upgrade"
  && negb (SubprotocolNegotiated p) && negb (ExtensionsNegotiated p)
  && String.eqb (ObservedSecWebSocketAccept p) (ExpectedSecWebSocketAccept p).

Definition recordOpeningHandshake (p : handshakeProof) (s : phaseSummary) : phaseSummary :=
  let key := SampleSecWebSocketKey p in
  let invalid := match base64_std_decode key with Some d => negb (len d =? 16) | None => true end in
  let exists_ := bool_decide (key ∈ seenKeys s) in
  let mismatch := negb (String.eqb (websocketAccept key) (ObservedSecWebSocketAccept p)) in
  PhaseSummary (Phase s) (DurationSeconds s) (CompletedOperations s) (FailedOperations s) (TimedOutOperations s)
    (TotalTransferredBytes s) (EffectiveConnections s) (EffectiveConcurrency s) (LatenciesMilliseconds s) (LastProof s)
    (OpeningHandshakes s + 1) (KeyReuseCount s + if exists_ then 1 else 0)
    (InvalidDecodedKeyCount s + if invalid then 1 else 0) (AcceptMismatchCount s + if mismatch then 1 else 0)
    (UpgradeRequestHeadersMatched s && request_matched p) (UpgradeResponseHeadersMatched s && response_matched p)
    (Errors s) (if exists_ then seenKeys s else {[key]} ∪ seenKeys s).
Definition record_failure (timedOut : bool) (e : goerror) (s : phaseSummary) : phaseSummary :=
  let '(PhaseSummary a b c f t g h i j k l m n o q r er sk) := s in
  PhaseSummary a b c (f + if timedOut then 0 else 1) (t + if timedOut then 1 else 0) g h i j k l m n o q r
    (bump (error_string e) er) sk.
Definition record_success (p : operationProof) (s : phaseSummary) : phaseSummary :=
  let '(PhaseSummary a b c f t g h i j _ l m n o q r er sk) := s in
  PhaseSummary a b (c + 1) f t (g + TransferredBytes p) h i (j ++ [LatencyMilliseconds p]) p l m n o q r er sk.
Definition set_last (p : operationProof) (s : phaseSummary) : phaseSummary :=
  let '(PhaseSummary a b c f t g h i j _ l m n o q r er sk) := s in PhaseSummary a b c f t g h i j p l m n o q r er sk.
Definition set_duration (d : float64) (s : phaseSummary) : phaseSummary :=
  let '(PhaseSummary a _ c f t g h i j k l m n o q r er sk) := s in PhaseSummary a d c f t g h i j k l m n o q r er sk.

(** What a phase meets: the operations it has time for, the opening and the last close of a
    connection it keeps, and its length. *)
Record phaseEnv := PhaseEnv {
  ph_operations : list operationEnv; ph_open : openEnv; ph_close_mask : res bytes; ph_seconds : float64
}.

(** The loop of [runPhase]: one list element per turn that began before the deadline. *)
Fixpoint phase_loop (envs : list operationEnv) (e : scenarioExpectation) (s : phaseSummary) : phaseSummary :=
  match envs with
  | [] => s
  | env :: envs =>
      match performOperation env e with
      | (_, Some err, _) => record_failure (isTimeout err) err s
      | (p, None, _) =>
          let s := match Handshake p with Some h => recordOpeningHandshake h s | None => s end in
          phase_loop envs e (record_success p s)
      end
  end.
(** The loop of [runReusablePhase], over one connection. *)
Fixpoint reusable_loop (envs : list operationEnv) (e : scenarioExpectation) (w : wsConnection) (s : phaseSummary)
    : phaseSummary * wsConnection :=
  match envs with
  | [] => (s, w)
  | env :: envs =>
      match performOnOpenConnection (op_mask env) (op_ms env) w e with
      | ((_, Some err), w) => (record_failure (isTimeout err) err s, w)
      | ((p, None), w) => reusable_loop envs e w (record_success p s)
      end
  end.
Definition hasFailures (s : phaseSummary) : bool := negb (FailedOperations s =? 0) || negb (TimedOutOperations s =? 0).
Definition runReusablePhase (env : phaseEnv) (e : scenarioExpectation) (name : string) : phaseSummary :=
  let s := newPhaseSummary name in
  match openWebSocket (ph_open env) with
  | Err err => record_failure false err s
  | Ok w =>
      let s := recordOpeningHandshake (w_handshake w) s in
      let '(s, w) := reusable_loop (ph_operations env) e w s in
      let s :=
        if hasFailures s then s else
        match closeCleanly (ph_close_mask env) w (LastProof s) with
        | (Some err, _, p) => record_failure (isTimeout err) err (set_last p s)
        | (None, _, p) => set_last p s
        end in
      set_duration (ph_seconds env) s
  end.
Definition runPhase (env : phaseEnv) (e : scenarioExpectation) (name : string) : phaseSummary :=
  if is_echo e || is_control e then runReusablePhase env e name
  else set_duration (ph_seconds env) (phase_loop (ph_operations env) e (newPhaseSummary name)).

(** ** The normalized result *)

Definition normalize_metrics (e : scenarioExpectation) (s : phaseSummary) : metrics :=
  let l := LatenciesMilliseconds s in
  let rate := fdiv (f_of_Z (CompletedOperations s)) (DurationSeconds s) in
  let six := [mean l; percentile l (quantile 50); percentile l (quantile 75); percentile l (quantile 90);
              percentile l (quantile 95); percentile l (quantile 99)] in
  let three := [percentile l (quantile 50); percentile l (quantile 95); percentile l (quantile 99)] in
  let z6 := replicate 6 f_zero in
  let z3 := replicate 3 f_zero in
  let build connections messages cl ml control close :=
    Metrics connections messages (fdiv (f_of_Z (TotalTransferredBytes s)) (DurationSeconds s)) cl ml control close
      (CompletedOperations s) (FailedOperations s) (TimedOutOperations s) (TotalTransferredBytes s)
      (EffectiveConnections s) (EffectiveConcurrency s) in
  if String.eqb (e_operation e) "establish" then build rate f_zero six z6 z3 z3
  else if String.eqb (e_operation e) "close" then build f_zero f_zero z6 z6 z3 three
  else if is_control e then build f_zero rate z6 z6 three z3
  else build f_zero rate z6 six z3 z3.

(** The result, less its constants. *)
Record normalizedResult := NormalizedResult {
  NScenarioID : string; NStatus : string; NProof : operationProof; NMetrics : metrics;
  NHandshakes : Z; NKeyReuse : Z; NInvalidKeys : Z; NAcceptMismatch : Z; NRequestMatched : bool; NResponseMatched : bool
}.
Definition normalizeResult (e : scenarioExpectation) (s : phaseSummary) : normalizedResult :=
  NormalizedResult (e_id e) "passed" (LastProof s) (normalize_metrics e s) (OpeningHandshakes s) (KeyReuseCount s)
    (InvalidDecodedKeyCount s) (AcceptMismatchCount s) (UpgradeRequestHeadersMatched s) (UpgradeResponseHeadersMatched s).

(** The validation and the payload document of [writePreflightArtifacts]. *)
Record preflightArtifacts := PreflightArtifacts {
  PPassed : bool; PObserved : string; PFallback : bool; PCompleted : Z; PFailed : Z; PTimedOut : Z; PError : string;
  PObservedSHA256 : string; PMatched : bool
}.
Definition boolInt (b : bool) : Z := if b then 1 else 0.
Definition writePreflightArtifacts (e : scenarioExpectation) (proof : operationProof) (err : option goerror) : preflightArtifacts :=
  let established := match Handshake proof with Some h => ConnectionEstablished h | None => false end in
  let fallback := match Handshake proof with Some h => FallbackDetected h | None => false end in
  let timedOut := match err with Some err => isTimeout err | None => false end in
  PreflightArtifacts (bool_decide (err = None) && established && negb fallback && CleanCompletion proof)
    (if established then "websocket-over-h1-cleartext" else "") fallback (boolInt (bool_decide (err = None)))
    (boolInt (bool_decide (err <> None) && negb timedOut)) (boolInt timedOut)
    (match err with Some err => error_string err | None => "" end)
    (hash (e_payload e)) (String.eqb (e_payloadHash e) (hash (e_payload e))).

(** ** [main] *)

Definition normalizeTarget (parsed : res parsedURL) : res string :=
  let? p := parsed in
  guard String.eqb (u_scheme p) "http" && negb (String.eqb (u_host p) "")
    else EMsg "cleartext WebSocket target must use http://host:port" in
  guard String.eqb (u_query p) "" && String.eqb (u_fragment p) "" else EMsg "target query and fragment are prohibited" in
  let path := if String.eqb (u_path p) "" || String.eqb (u_path p) "/" then "/websocket" else u_path p in
  guard String.eqb path "/websocket" else EMsg "target endpoint must be /websocket" in
  Ok ("http://" +:+ u_host p +:+ path).

Inductive identity := Known (e : scenarioExpectation) | Exit (code : Z).
Definition checkIdentity (getenv : string -> string) : identity :=
  if negb (forallb (fun '(n, v) => verifySubstitution getenv n v)
       [("PLAB_EXECUTOR_ID", "go-http1-websocket-executor"); ("PLAB_EXECUTOR_VERSION", "0.1.0");
        ("PLAB_LOAD_GENERATOR_ID", "go-http1-websocket-load"); ("PLAB_LOAD_GENERATOR_VERSION", "0.1.0");
        ("PLAB_PROTOCOL", "h1"); ("PLAB_PROTOCOL_VARIANT", "websocket-h1-cleartext-upgrade")])
  then Exit 2 else
  let scenario := env_value getenv "PLAB_SCENARIO_ID" in
  match find_expectation scenario with
  | Some e => Known e
  | None => if string_in knownUnsupported scenario then Exit 3 else Exit 2
  end.

(** What a run meets; every artifact is written. *)
Record mainEnv := MainEnv {
  m_getenv : string -> string; m_target : res parsedURL; m_validationOnly : bool; m_showVersion : bool;
  m_mkdir : option goerror; m_preflight : operationEnv; m_warmup : phaseEnv; m_measured : phaseEnv
}.
(** The exit code, the artifacts of the preflight and the final result, if they are written. *)
Definition main (env : mainEnv) : Z * option preflightArtifacts * option normalizedResult :=
  if m_showVersion env then (0, None, None) else
  if bool_decide (m_mkdir env <> None) then (1, None, None) else
  match checkIdentity (m_getenv env) with
  | Exit code => (code, None, None)
  | Known e =>
  match normalizeTarget (m_target env) with
  | Err _ => (2, None, None)
  | Ok _ =>
  let '(preflight, err, _) := performOperation (m_preflight env) e in
  let artifacts := Some (writePreflightArtifacts e preflight err) in
  if bool_decide (err <> None) then (1, artifacts, None) else
  if m_validationOnly env then (0, artifacts, None) else
  match loadConfigFromEnvironment (m_getenv env) with
  | Some _ => (2, artifacts, None)
  | None =>
  let warmup := runPhase (m_warmup env) e "warmup" in
  if hasFailures warmup || (CompletedOperations warmup =? 0) then (1, artifacts, None) else
  let measured := runPhase (m_measured env) e "measured" in
  if hasFailures measured || (CompletedOperations measured =? 0) then (1, artifacts, None) else
  (0, artifacts, Some (normalizeResult e measured))
  end end end.

End Clear.
