(* ===== verification/WsClearProps.v ===== *)
(** The cleartext WebSocket executor against the cleartext server: every scenario completes,
    and what a passed operation, a phase and a successful run have earned. *)
From S2P Require Export Prelude GoText GoHash GoHttp1 Stats WsCodec WsHandshake WsServer WsClient WsRun WsProps WsClear.

Section clear.
Import Clear.

(** The cleartext handshake is that of the TLS packages with no extension. *)
Definition bare : WsHandshake.scenarioExpectation := WsHandshake.Expectation "" "" "" [] "" 0 0 false "" false.
Lemma bare_known : known_profile bare.
Proof. by left. Qed.

Lemma raw_request_bare key : raw_request key = WsHandshake.raw_request bare key.
Proof. reflexivity. Qed.
Lemma response_bare key : Cleartext.switching_response key = Secure.switching_response key (profile_of bare).
Proof. reflexivity. Qed.

Lemma clear_accepts key : handshake_failures (handshake_proof key (server_response bare key)) = [].
Proof.
  unfold handshake_failures, handshake_proof.
  cbn [VProto VStatus VMajor VMinor VHeader server_response FallbackDetected ResponseStatus UpgradeHeader ConnectionHeader
       ObservedSecWebSocketAccept ExpectedSecWebSocketAccept SubprotocolNegotiated ExtensionsNegotiated].
  unfold response_fields, websocketAccept. cbn [bare profile_of e_subprotocol e_perMessageDeflate p_subprotocol p_perMessageDeflate].
  match goal with |- context [header_get ?h "sec-websocket-accept"] =>
    assert (H1 : header_get h "sec-websocket-accept" = WsHandshake.websocketAccept key) by reflexivity; rewrite H1 end.
  clear H1. generalize (WsHandshake.websocketAccept key). intros accept. rewrite (String.eqb_refl accept).
  vm_compute. reflexivity.
Qed.

(** ** The scenarios *)

Definition exchanging (e : scenarioExpectation) : bool := is_echo e || is_control e.

(** The facts the table of the source must satisfy. *)
Definition expectation_okb (e : scenarioExpectation) : bool :=
  if exchanging e then
    (0 <=? e_requestOpcode e) && (e_requestOpcode e <? 16) && (0 <=? e_responseOpcode e) && (e_responseOpcode e <? 16)
    && (len (e_payload e) <=? 65535)
    && ((e_requestOpcode e <? 8) && (e_responseOpcode e <? 8) || (len (e_payload e) <=? 125))
    && String.eqb (hash (e_payload e)) (e_payloadHash e)
  else (String.eqb (e_operation e) "establish" || String.eqb (e_operation e) "close") && String.eqb (e_payloadHash e) (hash []).

Record exchange_ok (e : scenarioExpectation) : Prop := {
  xo_request : is_opcode (e_requestOpcode e); xo_response : is_opcode (e_responseOpcode e);
  xo_size : len (e_payload e) <= 65535;
  xo_control : 8 <= e_requestOpcode e \/ 8 <= e_responseOpcode e -> len (e_payload e) <= 125;
  xo_hash : hash (e_payload e) = e_payloadHash e
}.

Lemma clear_expectations_ok e : e ∈ expectations -> expectation_okb e = true.
Proof.
  intros He. assert (H : forallb expectation_okb expectations = true) by (vm_compute; reflexivity).
  rewrite forallb_forall in H. by apply H, list_elem_of_In.
Qed.

Lemma expectation_exchange e : e ∈ expectations -> exchanging e = true -> exchange_ok e.
Proof.
  intros He Hx. apply clear_expectations_ok in He. unfold expectation_okb in He. rewrite Hx in He.
  apply andb_true_iff in He as [He Hh]. apply String.eqb_eq in Hh.
  apply andb_true_iff in He as [He Hc]. apply orb_true_iff in Hc. reflect_bools.
  constructor; unfold is_opcode; try lia; exact Hh.
Qed.

Lemma expectation_silent e :
  e ∈ expectations -> exchanging e = false -> e_operation e = "establish" \/ e_operation e = "close".
Proof.
  intros He Hx. apply clear_expectations_ok in He. unfold expectation_okb in He. rewrite Hx in He.
  apply andb_true_iff in He as [He _]. apply orb_true_iff in He as [He|He]; [left|right]; by apply String.eqb_eq.
Qed.

(** ** Both sides of an exchange and of the close *)

Lemma clientFrame_same mask op p : clientFrame mask op p = Client.clientFrame mask op p false.
Proof. reflexivity. Qed.
Lemma writeClientFrame_same c mask op p : writeClientFrame c mask op p = Client.writeClientFrame c mask op p.
Proof. reflexivity. Qed.

Lemma clear_closes m hs rq rs ms n out p :
  length m = 4%nat ->
  closeCleanly (Ok m) (WsConnection (Conn (Stream (plain_wire 8 false close_payload) EEOF) out []) hs rq rs ms n) p
  = (None, WsConnection (Conn (Stream [] EEOF) (out ++ masked_wire 8 false m close_payload) []) hs rq rs ms
             (n + len (masked_wire 8 false m close_payload) + len (plain_wire 8 false close_payload) + 0),
     set_clean (set_close_received (set_close_sent p))).
Proof.
  intros Hm. unfold closeCleanly. rewrite writeClientFrame_same. unfold Client.writeClientFrame. cbn [w_conn].
  change [3; 232] with close_payload. rewrite write_client by (vm_compute; discriminate). cbn [c_in]. unfold readFrame.
  rewrite <-(app_nil_r (plain_wire 8 false close_payload)) at 1.
  rewrite client_reads_wire by (vm_compute; try split; congruence). reflexivity.
Qed.

Lemma clear_exchanges e m latency out hs rq rs ms n rest err :
  e ∈ expectations -> exchanging e = true -> length m = 4%nat ->
  let request := masked_wire (e_requestOpcode e) false m (e_payload e) in
  let reply := plain_wire (e_responseOpcode e) false (e_payload e) in
  exists p,
    performOnOpenConnection (Ok m) latency (WsConnection (Conn (Stream (reply ++ rest) err) out []) hs rq rs ms n) e
    = ((p, None), WsConnection (Conn (Stream rest err) (out ++ request) []) hs rq rs ms (n + len request + len reply)) /\
    Handshake p = Some hs /\ OrderedEcho p = is_echo e /\ PongReceived p = is_control e /\
    TransferredBytes p = len request + len reply /\ LatencyMilliseconds p = latency /\ MessageCount p = 1.
Proof.
  intros He Hx Hm request reply. destruct (expectation_exchange e He Hx) as [_ Hop Hl Hc _].
  unfold performOnOpenConnection. cbn [w_conn w_bytes]. rewrite writeClientFrame_same. unfold Client.writeClientFrame.
  rewrite write_client by exact Hl. cbn [with_conn c_in]. subst reply. unfold readFrame.
  rewrite client_reads_wire; [|exact Hop|exact Hl|by auto].
  cbn [with_conn w_handshake w_rawRequest w_rawResponse w_handshakeMS w_bytes Client.fin Client.rsv Client.opcode Client.payload
       Client.masked Client.nbytes].
  rewrite !Z.eqb_refl, bool_decide_true by reflexivity. cbn [negb orb Z.eqb]. eexists. split; [reflexivity|].
  unfold first_proof, applySemanticCounts. unfold exchanging in Hx.
  destruct (is_control e) eqn:Ec; [|destruct (is_echo e); [|done]];
    cbn [set_counts set_request set_response set_echo Handshake OrderedEcho PongReceived TransferredBytes
         LatencyMilliseconds MessageCount w_handshake with_conn];
    split_and!; try reflexivity; subst request; lia.
Qed.

Lemma cleartext_server_exchanges e m c rest fuel err :
  e ∈ expectations -> exchanging e = true -> length m = 4%nat ->
  c_in c = Stream (masked_wire (e_requestOpcode e) false m (e_payload e) ++ rest) err -> c_faults c = [] ->
  CleartextServer.serve (S fuel) c
  = CleartextServer.serve fuel (Conn (Stream rest err) (c_out c ++ plain_wire (e_responseOpcode e) false (e_payload e)) []).
Proof.
  intros He Hx Hm Hin Hf. destruct (expectation_exchange e He Hx) as [Hop _ Hl Hc _].
  destruct c as [i out f]. cbn [c_in c_faults c_out] in *. subst i f. cbn [CleartextServer.serve c_in].
  rewrite server_reads_wire by (auto || exact Hl).
  enough (H : CleartextServer.handleFrame (Server.WireFrame true 0 (e_requestOpcode e) true (e_payload e))
      (Conn (Stream rest err) out []) = (Again, Conn (Stream rest err) (out ++ plain_wire (e_responseOpcode e) false (e_payload e)) []))
    by (unfold with_input; cbn [c_out c_faults]; by rewrite H).
  clear Hop Hl Hc. revert Hx.
  assert (Hb : forallb (Z.eqb 66) (replicate 1024 66) = true) by (vm_compute; reflexivity).
  assert (Hn : len (replicate 1024 66) = 1024) by (vm_compute; reflexivity).
  assert (Hall : Forall (fun e => exchanging e = true ->
    CleartextServer.handleFrame (Server.WireFrame true 0 (e_requestOpcode e) true (e_payload e)) (Conn (Stream rest err) out [])
    = (Again, Conn (Stream rest err) (out ++ plain_wire (e_responseOpcode e) false (e_payload e)) [])) expectations).
  { unfold expectations, CleartextServer.handleFrame.
    repeat (apply List.Forall_cons; [intros Hx|]); [..|apply List.Forall_nil]; try (vm_compute in Hx; discriminate Hx);
      cbn [e_requestOpcode e_responseOpcode e_payload Server.fin Server.rsv Server.opcode Server.payload negb orb Z.eqb Pos.eqb].
    - rewrite string_of_bytes_of_string, String.eqb_refl. cbn [negb]. by rewrite write_cleartext by (vm_compute; discriminate).
    - rewrite Hn, Hb. cbn [negb Z.eqb Pos.eqb]. by rewrite write_cleartext by (rewrite Hn; lia).
    - rewrite string_of_bytes_of_string, String.eqb_refl. cbn [negb]. by rewrite write_cleartext by (vm_compute; discriminate). }
  rewrite Forall_forall in Hall. by apply Hall.
Qed.

Lemma cleartext_server_closes c fuel m :
  length m = 4%nat -> c_in c = Stream (masked_wire 8 false m close_payload) EEOF -> c_faults c = [] ->
  CleartextServer.serve (S fuel) c = (None, Conn (Stream [] EEOF) (c_out c ++ plain_wire 8 false close_payload) []).
Proof.
  intros Hm Hin Hf. destruct c as [i out f]. cbn [c_in c_faults c_out] in *. subst i f.
  cbn [CleartextServer.serve c_in]. rewrite <-(app_nil_r (masked_wire 8 false m close_payload)).
  rewrite server_reads_wire by (done || (vm_compute; try split; congruence)).
  unfold CleartextServer.handleFrame, with_input.
  cbn [Server.fin Server.rsv Server.opcode Server.payload negb orb Z.eqb Pos.eqb c_out c_faults].
  change (negb (len close_payload =? 2) || negb (be_decode close_payload =? 1000)) with false. cbv iota.
  by rewrite write_cleartext by (vm_compute; discriminate).
Qed.

(** ** Sessions *)

(** What the executor sends over a whole session, and what it gets. *)
Definition client_octets (e : scenarioExpectation) (key : string) (m1 m2 : bytes) : bytes :=
  bytes_of_string (raw_request key)
  ++ (if exchanging e then masked_wire (e_requestOpcode e) false m1 (e_payload e) else [])
  ++ masked_wire 8 false m2 close_payload.
Definition server_octets (e : scenarioExpectation) (key : string) : bytes :=
  bytes_of_string (Cleartext.switching_response key)
  ++ (if exchanging e then plain_wire (e_responseOpcode e) false (e_payload e) else [])
  ++ plain_wire 8 false close_payload.

Lemma clear_server_session e keyBytes m1 m2 :
  e ∈ expectations -> all_bytes keyBytes -> length keyBytes = 16%nat -> length m1 = 4%nat -> length m2 = 4%nat ->
  let key := base64_std_encode keyBytes in
  CleartextServer.handleConnection (Conn (Stream (client_octets e key m1 m2) EEOF) [] [])
  = (None, Conn (Stream [] EEOF) (server_octets e key) []).
Proof.
  intros He Hk Hkl Hm1 Hm2 key. subst key. unfold CleartextServer.handleConnection, client_octets. cbn [c_in].
  rewrite raw_request_bare, server_reads_request by (apply bare_known || by apply base64_plain).
  rewrite cleartext_accepts by done.
  change (header_get (UHeader (client_request bare (base64_std_encode keyBytes))) "sec-websocket-key")
    with (base64_std_encode keyBytes).
  unfold write_string, with_input. rewrite conn_write_plain. cbn [c_out c_faults c_in st_data].
  unfold server_octets. destruct (exchanging e) eqn:Hx.
  - set (req := masked_wire (e_requestOpcode e) _ m1 _).
    assert (exists n, length (req ++ masked_wire 8 false m2 close_payload) = S n) as (n & ->).
    { rewrite length_app. exists (length req + length (masked_wire 8 false m2 close_payload) - 1)%nat. simpl. lia. }
    rewrite (cleartext_server_exchanges e m1 _ (masked_wire 8 false m2 close_payload) (S n) EEOF) by done. cbn [c_out].
    rewrite (cleartext_server_closes _ n m2) by done. cbn [c_out]. by rewrite <-app_assoc.
  - rewrite app_nil_l. by rewrite (cleartext_server_closes _ _ m2) by done.
Qed.

(** The opening, on a connection that answers as the server does. *)
Lemma clear_opens keyBytes rest ms :
  all_bytes keyBytes ->
  let key := base64_std_encode keyBytes in
  exists hs,
  openWebSocket (OpenEnv None (Ok (Conn (Stream (bytes_of_string (Cleartext.switching_response key) ++ rest) EEOF) [] []))
                   (Ok keyBytes) ms)
  = Ok (WsConnection (Conn (Stream rest EEOF) (bytes_of_string (raw_request key)) []) hs (raw_request key)
          (Cleartext.switching_response key) ms
          (len (bytes_of_string (raw_request key)) + len (bytes_of_string (Cleartext.switching_response key)))).
Proof.
  intros Hk key. subst key. set (key := base64_std_encode keyBytes). rewrite response_bare.
  unfold openWebSocket. cbn [oe_parse oe_dial oe_key oe_ms res_bind]. fold key. unfold write_string. rewrite conn_write_plain.
  cbn [c_in]. unfold readHTTPHeader.
  pose proof (client_reads_response bare key bare_known) as Hread.
  pose proof (response_fields_good bare key bare_known) as Hgood.
  pose proof (switching_response_short bare key bare_known) as Hshort.
  rewrite switching_response_fields in *.
  set (ls := "HTTP/1.1 101 Switching Protocols" :: (field_line <$> response_fields (profile_of bare) key)) in *.
  change ("HTTP/1.1 101 Switching Protocols" :: (field_line <$> response_fields (profile_of bare) key) ++ [""])
    with (ls ++ [""]) in *.
  rewrite readHTTPHeader_head; [| |done|exact Hshort].
  - rewrite Hread. cbn [res_bind]. rewrite clear_accepts. eexists. reflexivity.
  - apply List.Forall_cons; [vm_compute; split; [reflexivity|discriminate]|].
    apply Forall_fmap, Forall_forall. intros f Hf. rewrite forallb_forall in Hgood.
    apply list_elem_of_In in Hf. by apply (field_line_clean f), Hgood.
Qed.

Lemma clear_executor_session e keyBytes m1 m2 ms hms :
  e ∈ expectations -> all_bytes keyBytes -> length m1 = 4%nat -> length m2 = 4%nat ->
  let key := base64_std_encode keyBytes in
  exists p w,
    performOperation
      (OperationEnv (OpenEnv None (Ok (Conn (Stream (server_octets e key) EEOF) [] [])) (Ok keyBytes) hms) (Ok m1) (Ok m2) ms) e
    = (p, None, Some w) /\
    c_out (w_conn w) = client_octets e key m1 m2 /\ CleanCompletion p = true /\
    TransferredBytes p = len (client_octets e key m1 m2) + len (server_octets e key).
Proof.
  intros He Hk Hm1 Hm2 key. subst key. unfold performOperation, server_octets. cbn [op_open op_mask op_close_mask op_ms].
  destruct (clear_opens keyBytes
    ((if exchanging e then plain_wire (e_responseOpcode e) false (e_payload e) else []) ++ plain_wire 8 false close_payload)
    hms Hk) as [hs ->]. set (key := base64_std_encode keyBytes).
  destruct (exchanging e) eqn:Hx.
  - assert (Hop : String.eqb (e_operation e) "establish" = false /\ String.eqb (e_operation e) "close" = false).
    { clear -Hx. unfold exchanging, is_echo, is_control in Hx.
      repeat (apply orb_true_iff in Hx as [Hx|Hx]); apply String.eqb_eq in Hx as ->; done. }
    destruct Hop as [-> ->].
    destruct (clear_exchanges e m1 ms (bytes_of_string (raw_request key)) hs (raw_request key)
      (Cleartext.switching_response key) hms
      (len (bytes_of_string (raw_request key)) + len (bytes_of_string (Cleartext.switching_response key)))
      (plain_wire 8 false close_payload) EEOF He Hx Hm1) as (p & -> & _).
    rewrite clear_closes by done. do 2 eexists. split; [reflexivity|].
    unfold client_octets. rewrite Hx. cbn [w_conn c_out w_bytes]. rewrite <-app_assoc, !len_app.
    destruct p. split; [done|]. cbn -[len client_octets masked_wire plain_wire]. split; [done|lia].
  - rewrite app_nil_l. unfold client_octets. rewrite Hx, app_nil_l.
    match goal with |- context [first_proof ?w0 e] => generalize (first_proof w0 e) end. intros q. destruct q.
    destruct (expectation_silent e He Hx) as [-> | ->]; [change (String.eqb "establish" "establish") with true|
      change (String.eqb "close" "establish") with false; change (String.eqb "close" "close") with true]; cbv iota;
      rewrite clear_closes by exact Hm2; do 2 eexists; (split; [reflexivity|]);
      cbn [w_conn c_out w_bytes w_handshakeMS]; rewrite !len_app;
      cbn [set_latency set_close_sent set_close_received set_clean set_transferred CleanCompletion TransferredBytes] in *;
      (split; [reflexivity|split; [reflexivity|lia]]).
Qed.
End clear.

(** C2: the cleartext executor and the cleartext server complete every scenario. For each of
    the five scenarios, any sixteen-octet key and any masking keys, the octets the executor
    sends are a session the server serves to a normal end, the octets the server sends are a
    session the executor passes, and every octet of both is in the count it reports. *)
Theorem clear_session_completes e keyBytes m1 m2 ms hms :
  e ∈ Clear.expectations -> all_bytes keyBytes -> length keyBytes = 16%nat -> is_key m1 -> is_key m2 ->
  exists sent received,
    CleartextServer.handleConnection (Conn (Stream sent EEOF) [] []) = (None, Conn (Stream [] EEOF) received []) /\
    exists p w,
      Clear.performOperation
        (Clear.OperationEnv (Clear.OpenEnv None (Ok (Conn (Stream received EEOF) [] [])) (Ok keyBytes) hms) (Ok m1) (Ok m2) ms) e
      = (p, None, Some w) /\
      c_out (Clear.w_conn w) = sent /\ Clear.CleanCompletion p = true /\
      Clear.TransferredBytes p = len sent + len received.
Proof.
  intros He Hk Hkl [Hm1 _] [Hm2 _].
  exists (client_octets e (base64_std_encode keyBytes) m1 m2), (server_octets e (base64_std_encode keyBytes)).
  split; [by apply clear_server_session|by apply clear_executor_session].
Qed.

Definition clear_text : Clear.scenarioExpectation :=
  Clear.Expectation "http1.websocket.rfc6455.cleartext.text-echo" "text-echo" "text" (bytes_of_string textPayload) text_hash 1 1 false.

Lemma clear_session_completes_witness :
  exists sent received,
    CleartextServer.handleConnection (Conn (Stream sent EEOF) [] []) = (None, Conn (Stream [] EEOF) received []) /\
    exists p w,
      Clear.performOperation
        (Clear.OperationEnv (Clear.OpenEnv None (Ok (Conn (Stream received EEOF) [] [])) (Ok sample_key) f_zero)
           (Ok [1; 2; 3; 4]) (Ok [5; 6; 7; 8]) f_zero) clear_text = (p, None, Some w) /\
      c_out (Clear.w_conn w) = sent /\ Clear.CleanCompletion p = true /\
      Clear.TransferredBytes p = len sent + len received.
Proof.
  apply clear_session_completes.
  - right. left.
  - repeat constructor; vm_compute; discriminate.
  - reflexivity.
  - split; [reflexivity|repeat constructor; vm_compute; discriminate].
  - split; [reflexivity|repeat constructor; vm_compute; discriminate].
Defined.

(** ** What a passed run has earned *)

Section earned.
Import Clear.

(** The handshake of a connection the gate let through. *)
Record clear_handshake (keyBytes : bytes) (h : handshakeProof) : Prop := {
  ch_established : ConnectionEstablished h = true /\ FallbackDetected h = false /\ ResponseStatus h = 101;
  ch_key : SampleSecWebSocketKey h = base64_std_encode keyBytes;
  ch_accept : ObservedSecWebSocketAccept h = websocketAccept (base64_std_encode keyBytes);
  ch_matched : request_matched h = true /\ response_matched h = true
}.

Lemma handshake_failures_nil p :
  handshake_failures p = [] ->
  FallbackDetected p = false /\ ResponseStatus p = 101 /\ equal_fold (UpgradeHeader p) "websocket" = true /\
  hasToken (ConnectionHeader p) "upgrade" = true /\ ObservedSecWebSocketAccept p = ExpectedSecWebSocketAccept p /\
  SubprotocolNegotiated p = false /\ ExtensionsNegotiated p = false.
Proof.
  intros H. unfold handshake_failures in H.
  assert (Hif : forall (b : bool) (x : string), (if b then [x] else []) = [] -> b = false) by (by intros []).
  repeat (apply app_eq_nil in H as [?H H]).
  repeat match goal with H : (if _ then _ else _) = [] |- _ => apply Hif in H end.
  reflect_bools.
  repeat match goal with H : String.eqb _ _ = true |- _ => apply String.eqb_eq in H end. by split_and!.
Qed.

Lemma response_matched_established p :
  ObservedHTTPVersion p = "HTTP/1.1" -> ResponseStatus p = 101 -> equal_fold (UpgradeHeader p) "websocket" = true ->
  hasToken (ConnectionHeader p) "upgrade" = true -> SubprotocolNegotiated p = false -> ExtensionsNegotiated p = false ->
  ObservedSecWebSocketAccept p = ExpectedSecWebSocketAccept p -> response_matched (established p) = true.
Proof.
  unfold response_matched. destruct p.
  cbn [established ObservedHTTPVersion ResponseStatus UpgradeHeader ConnectionHeader SubprotocolNegotiated
       ExtensionsNegotiated ObservedSecWebSocketAccept ExpectedSecWebSocketAccept].
  intros -> -> -> -> -> -> ->. by rewrite !String.eqb_refl.
Qed.

Lemma openWebSocket_clear env w :
  openWebSocket env = Ok w -> exists keyBytes, oe_key env = Ok keyBytes /\ clear_handshake keyBytes (w_handshake w).
Proof.
  unfold openWebSocket. destruct (oe_parse env); [done|]. destruct (oe_dial env) as [c|]; [|done]. cbn [res_bind].
  destruct (oe_key env) as [keyBytes|]; [|done]. cbn [res_bind].
  destruct (write_string _ c) as [[err|] c']; [done|]. destruct (readHTTPHeader _) as [[raw|] s]; [|done].
  destruct (ReadResponse raw) as [response|] eqn:Er; [|done]. cbn [res_bind].
  set (p := handshake_proof (base64_std_encode keyBytes) response).
  destruct (handshake_failures p) eqn:Ef; [|done]. intros [= <-]. exists keyBytes. split; [reflexivity|].
  apply handshake_failures_nil in Ef as (F & S & U & C & A & N1 & N2). cbn [w_handshake].
  assert (Hproto : VProto response = "HTTP/1.1").
  { apply (ReadResponse_version _ _ Er); subst p; cbn [handshake_proof FallbackDetected] in F; reflect_bools; done. }
  constructor.
  - split; [reflexivity|]. split; [exact F|exact S].
  - reflexivity.
  - exact A.
  - split; [reflexivity|]. exact (response_matched_established p Hproto S U C N1 N2 A).
Qed.

Lemma first_proof_handshake w e : Handshake (first_proof w e) = Some (w_handshake w).
Proof. unfold first_proof, applySemanticCounts. by destruct (is_control e), (is_echo e). Qed.

Lemma closeCleanly_clear mask w p w' p' :
  closeCleanly mask w p = (None, w', p') ->
  CleanCompletion p' = true /\ CloseReceivedCode p' = 1000 /\ st_data (c_in (w_conn w')) = [] /\ Handshake p' = Handshake p.
Proof.
  unfold closeCleanly. destruct (writeClientFrame _ _ _ _) as [[written [e|]] c]; [done|].
  destruct (readFrame false (c_in c)) as [[frame [e|]] s]; [done|]. destruct (_ || _); [done|].
  unfold read_byte. destruct (st_data s) as [|b r] eqn:Es; [|done].
  destruct (errors_is EEOF (st_end s)); [|done]. intros [= <- <-]. destruct p. by split_and!.
Qed.

Lemma performOnOpenConnection_clear mask ms w e p w' :
  performOnOpenConnection mask ms w e = ((p, None), w') ->
  Handshake p = Some (w_handshake w) /\ TransferredBytes p = w_bytes w' - w_bytes w.
Proof.
  unfold performOnOpenConnection. destruct (writeClientFrame _ _ _ _) as [[written [e0|]] c]; [done|].
  destruct (readFrame false (c_in c)) as [[frame [e0|]] s]; [done|]. destruct (_ || _); [done|]. intros [= <- <-].
  pose proof (first_proof_handshake w e) as H. destruct (first_proof w e). by split.
Qed.

(** A passed operation: its handshake, its close, and its count. *)
Lemma performOperation_clear env e p w' :
  performOperation env e = (p, None, w') ->
  exists w w1 keyBytes, openWebSocket (op_open env) = Ok w /\ w' = Some w1 /\ oe_key (op_open env) = Ok keyBytes /\
    Handshake p = Some (w_handshake w) /\ clear_handshake keyBytes (w_handshake w) /\
    CleanCompletion p = true /\ CloseReceivedCode p = 1000 /\ st_data (c_in (w_conn w1)) = [] /\ TransferredBytes p = w_bytes w1.
Proof.
  unfold performOperation. destruct (openWebSocket (op_open env)) as [w|] eqn:Eo; [|done].
  destruct (openWebSocket_clear _ _ Eo) as (keyBytes & Hkey & Hh). pose proof (first_proof_handshake w e) as Hfirst.
  assert (Hend : forall mask w0 p0 w1 q (f : operationProof -> operationProof), closeCleanly mask w0 p0 = (None, w1, q) ->
    Handshake p0 = Some (w_handshake w) -> (f = id \/ exists ms, f = set_latency ms) ->
    let p := set_transferred (w_bytes w1) (f q) in
    Handshake p = Some (w_handshake w) /\ CleanCompletion p = true /\ CloseReceivedCode p = 1000 /\
    st_data (c_in (w_conn w1)) = [] /\ TransferredBytes p = w_bytes w1).
  { intros mask w0 p0 w1 q f Hc Hp Hf. destruct (closeCleanly_clear _ _ _ _ _ Hc) as (C1 & C2 & C3 & C4).
    rewrite Hp in C4. destruct q. destruct Hf as [-> |[ms ->]]; cbn in *; by split_and!. }
  assert (Hdone : forall w1, Handshake p = Some (w_handshake w) /\ CleanCompletion p = true /\ CloseReceivedCode p = 1000 /\
    st_data (c_in (w_conn w1)) = [] /\ TransferredBytes p = w_bytes w1 -> w' = Some w1 ->
    exists w2 w1' keyBytes', Ok w = Ok w2 /\ w' = Some w1' /\ oe_key (op_open env) = Ok keyBytes' /\
    Handshake p = Some (w_handshake w2) /\ clear_handshake keyBytes' (w_handshake w2) /\ CleanCompletion p = true /\
    CloseReceivedCode p = 1000 /\ st_data (c_in (w_conn w1')) = [] /\ TransferredBytes p = w_bytes w1').
  { intros w1 (D1 & D2 & D3 & D4 & D5) ->. exists w, w1, keyBytes. by split_and!. }
  destruct (String.eqb (e_operation e) "establish"); [|destruct (String.eqb (e_operation e) "close")].
  - destruct (closeCleanly _ _ _) as [[[err|] w1] q] eqn:Ec; [done|]. intros [= <- <-]. apply (Hdone w1); [|reflexivity].
    eapply (Hend _ _ _ _ _ id Ec); [by destruct (first_proof w e)|by left].
  - destruct (closeCleanly _ _ _) as [[[err|] w1] q] eqn:Ec; [done|]. intros [= <- <-]. apply (Hdone w1); [|reflexivity].
    eapply (Hend _ _ _ _ _ (set_latency (op_ms env)) Ec Hfirst); eauto.
  - destruct (performOnOpenConnection _ _ _ _) as [[p0 [err|]] w0] eqn:Ep; [done|].
    apply performOnOpenConnection_clear in Ep as (P1 & _).
    destruct (closeCleanly _ _ _) as [[[err|] w1] q] eqn:Ec; [done|]. intros [= <- <-]. apply (Hdone w1); [|reflexivity].
    eapply (Hend _ _ _ _ _ id Ec P1); by left.
Qed.

(** ** Phases *)

(** What a summary keeps true. *)
Record accounted (s : phaseSummary) : Prop := {
  ac_latencies : CompletedOperations s = len (LatenciesMilliseconds s);
  ac_keys : OpeningHandshakes s = KeyReuseCount s + Z.of_nat (size (seenKeys s));
  ac_accept : AcceptMismatchCount s = 0;
  ac_matched : UpgradeRequestHeadersMatched s = true /\ UpgradeResponseHeadersMatched s = true;
  ac_failures : 0 <= FailedOperations s /\ 0 <= TimedOutOperations s /\ FailedOperations s + TimedOutOperations s <= 1
}.

Lemma accounted_new name : accounted (newPhaseSummary name).
Proof. constructor; done. Qed.

Lemma accounted_opening keyBytes h s : clear_handshake keyBytes h -> accounted s -> accounted (recordOpeningHandshake h s).
Proof.
  intros [_ Hk Ha [M1 M2]] [C1 C2 C3 [C4 C5] C6]. unfold recordOpeningHandshake.
  rewrite M1, M2, Hk, Ha, String.eqb_refl, C4, C5. constructor; cbn; [exact C1| |lia|done|exact C6].
  case_bool_decide as Hin; [lia|]. rewrite size_union, size_singleton by set_solver. lia.
Qed.

Lemma accounted_success p s : accounted s -> accounted (record_success p s).
Proof.
  intros [C1 C2 C3 C4 C5]. destruct s. constructor; cbn in *; [|done|done|done|done].
  rewrite len_app. change (len [LatencyMilliseconds p]) with 1. lia.
Qed.

Lemma accounted_failure timedOut err s : accounted s -> hasFailures s = false -> accounted (record_failure timedOut err s).
Proof.
  intros [C1 C2 C3 C4 C5] Hf. unfold hasFailures in Hf. destruct s. cbn in *. reflect_bools.
  constructor; cbn; try done. destruct timedOut; lia.
Qed.

Lemma accounted_last p s : accounted s -> accounted (set_last p s) /\ hasFailures (set_last p s) = hasFailures s.
Proof. intros [C1 C2 C3 C4 C5]. destruct s. by split; [constructor|]. Qed.

Lemma accounted_duration d s : accounted s -> accounted (set_duration d s).
Proof. intros [C1 C2 C3 C4 C5]. destruct s. by constructor. Qed.

Lemma hasFailures_success p s : hasFailures (record_success p s) = hasFailures s.
Proof. by destruct s. Qed.

Lemma phase_loop_accounted envs e s : accounted s -> hasFailures s = false -> accounted (phase_loop envs e s).
Proof.
  revert s; induction envs as [|env envs IH]; intros s Hs Hf; [exact Hs|]. cbn [phase_loop].
  destruct (performOperation env e) as [[p [err|]] w'] eqn:Ep; [by apply accounted_failure|].
  apply performOperation_clear in Ep as (w & w1 & keyBytes & _ & _ & _ & -> & Hh & _).
  apply IH; [|rewrite hasFailures_success; exact Hf]. apply accounted_success. by eapply accounted_opening.
Qed.

Lemma reusable_loop_accounted envs e w s :
  accounted s -> hasFailures s = false -> accounted (reusable_loop envs e w s).1.
Proof.
  revert w s; induction envs as [|env envs IH]; intros w s Hs Hf; [exact Hs|]. cbn [reusable_loop].
  destruct (performOnOpenConnection _ _ w e) as [[p [err|]] w']; [by apply accounted_failure|].
  apply IH; [by apply accounted_success|rewrite hasFailures_success; exact Hf].
Qed.

Lemma runPhase_accounted env e name : accounted (runPhase env e name).
Proof.
  pose proof (accounted_new name) as Hn. unfold runPhase.
  destruct (is_echo e || is_control e); [|apply accounted_duration, phase_loop_accounted; done].
  unfold runReusablePhase. destruct (openWebSocket (ph_open env)) as [w|err] eqn:Eo; [|by apply accounted_failure].
  destruct (openWebSocket_clear _ _ Eo) as (keyBytes & _ & Hh).
  pose proof (reusable_loop_accounted (ph_operations env) e w _ (accounted_opening _ _ _ Hh Hn) eq_refl) as Hr.
  destruct (reusable_loop _ _ _ _) as [s w']. cbn [fst] in Hr. apply accounted_duration.
  destruct (hasFailures s) eqn:Ef; [exact Hr|]. destruct (closeCleanly _ _ _) as [[[err|] w2] p];
    destruct (accounted_last p s Hr) as [Hl Hlf]; [|exact Hl]. apply accounted_failure; [exact Hl|by rewrite Hlf].
Qed.

End earned.

(** Exit code zero of the cleartext executor is earned. A run exits 0 with a result only
    for a scenario of its own under its own identity, after a preflight operation that
    passed the gate on the handshake with the accept value of its key and closed cleanly to
    the last octet, and after two phases that completed operations with none failed or
    timed out; the result reports the latencies and handshakes it counted, every key as new
    or as reused, and no mismatch. *)
Theorem clear_exit_zero_is_earned env :
  match Clear.main env with
  | (code, _, Some result) =>
      code = 0 /\
      exists e p w w1 keyBytes, Clear.checkIdentity (Clear.m_getenv env) = Clear.Known e /\ e ∈ Clear.expectations /\
        Clear.performOperation (Clear.m_preflight env) e = (p, None, Some w1) /\
        Clear.openWebSocket (Clear.op_open (Clear.m_preflight env)) = Ok w /\
        Clear.oe_key (Clear.op_open (Clear.m_preflight env)) = Ok keyBytes /\
        clear_handshake keyBytes (Clear.w_handshake w) /\
        Clear.CleanCompletion p = true /\ st_data (c_in (Clear.w_conn w1)) = [] /\ Clear.TransferredBytes p = Clear.w_bytes w1 /\
        Clear.hasFailures (Clear.runPhase (Clear.m_warmup env) e "warmup") = false /\
        let measured := Clear.runPhase (Clear.m_measured env) e "measured" in
        accounted measured /\ result = Clear.normalizeResult e measured /\
        0 < MCompletedOperations (Clear.NMetrics result) /\
        MFailedOperations (Clear.NMetrics result) = 0 /\ MTimedOutOperations (Clear.NMetrics result) = 0 /\
        Clear.NAcceptMismatch result = 0 /\ Clear.NRequestMatched result = true /\ Clear.NResponseMatched result = true
  | _ => True
  end.
Proof.
  unfold Clear.main. destruct (Clear.m_showVersion env); [exact I|]. destruct (bool_decide _); [exact I|].
  destruct (Clear.checkIdentity (Clear.m_getenv env)) as [e|code] eqn:Ei; [|exact I].
  assert (He : e ∈ Clear.expectations).
  { unfold Clear.checkIdentity, Clear.find_expectation in Ei. destruct (negb _); [done|].
    destruct (List.find _ _) eqn:Ef; [|by destruct (string_in _ _)]. injection Ei as <-.
    apply find_some in Ef as [Ef _]. by apply list_elem_of_In. }
  destruct (Clear.normalizeTarget (Clear.m_target env)); [|exact I].
  destruct (Clear.performOperation (Clear.m_preflight env) e) as [[p [err|]] w'] eqn:Ep;
    [rewrite bool_decide_true by discriminate; exact I|].
  rewrite bool_decide_false by (intros H; by apply H). destruct (Clear.m_validationOnly env); [exact I|].
  destruct (Clear.loadConfigFromEnvironment _); [exact I|]. cbv zeta.
  destruct (Clear.hasFailures (Clear.runPhase (Clear.m_warmup env) e "warmup")) eqn:Ew; [exact I|]. cbn [orb].
  destruct (_ =? 0); [exact I|].
  pose proof (runPhase_accounted (Clear.m_measured env) e "measured") as Hm.
  remember (Clear.runPhase (Clear.m_measured env) e "measured") as s eqn:Es.
  destruct (Clear.hasFailures s) eqn:Ef; [exact I|]. cbn [orb]. destruct (Clear.CompletedOperations s =? 0) eqn:Ez; [exact I|].
  apply Z.eqb_neq in Ez. split; [reflexivity|].
  pose proof (performOperation_clear _ _ _ _ Ep) as (w & w1 & keyBytes & H1 & -> & H2 & _ & H4 & H5 & _ & H6 & H7).
  exists e, p, w, w1, keyBytes. rewrite <-Es. do 10 (split; [done|]). split; [exact Hm|]. split; [reflexivity|].
  destruct Hm as [C1 _ C3 [C4 C5] C6]. pose proof (len_nonneg (Clear.LatenciesMilliseconds s)).
  unfold Clear.hasFailures in Ef. apply orb_false_iff in Ef as [F1 F2]. apply negb_false_iff, Z.eqb_eq in F1, F2.
  assert (Hmet : MCompletedOperations (Clear.normalize_metrics e s) = Clear.CompletedOperations s /\
    MFailedOperations (Clear.normalize_metrics e s) = Clear.FailedOperations s /\
    MTimedOutOperations (Clear.normalize_metrics e s) = Clear.TimedOutOperations s)
    by (unfold Clear.normalize_metrics; repeat case_match; done).
  destruct Hmet as (M1 & M2 & M3). unfold Clear.normalizeResult.
  cbn [Clear.NMetrics Clear.NAcceptMismatch Clear.NRequestMatched Clear.NResponseMatched]. rewrite M1, M2, M3.
  split; [lia|]. by split_and!.
Qed.
