(* ===== verification/H2Load.v ===== *)
(** go-http2-executor: one checked request, the validation summary, the committed load
    profiles, the connection scheduler, the phase recorder and the topology proof. *)
From stdpp Require Import sorting.
From Stdlib Require Import Ascii.
From S2P Require Export Prelude Stats GoText GoHash.

(** ** Expectations and checks (main.go) *)

Definition executorID : string := "go-http2-executor".
Definition executorVersion : string := "0.3.0".
Definition requestedFamily : string := "h2".
Definition requestedVersion : string := "HTTP/2.0".
Definition requestedExecutionVariant : string := "http2-h2c-prior-knowledge".

Record scenarioExpectation := Expectation {
  e_id : string; e_path : string; e_status : Z; e_contentType : string; e_body : bytes
}.

Definition dq (s : string) : string := dquote +:+ s +:+ dquote.
Definition json_body : string := "{" +:+ dq "message" +:+ ":" +:+ dq "Hello, World!" +:+ "}".

Definition defaultExpectations : list scenarioExpectation :=
  [Expectation "http2.core.plaintext" "/plaintext" 200 "text/plain" (bytes_of_string "Hello, World!");
   Expectation "http2.core.json" "/json" 200 "application/json" (bytes_of_string json_body)].

Definition findExpectation (scenarioID : string) : res scenarioExpectation :=
  match find (fun e => String.eqb (e_id e) scenarioID) defaultExpectations with
  | Some e => Ok e
  | None => Err (EMsg ("scenario " +:+ go_quote scenarioID +:+ " is unsupported by " +:+ executorID))
  end.

Definition selectedExpectations (scenarioID : string) : res (list scenarioExpectation) :=
  if String.eqb scenarioID "" then Ok defaultExpectations
  else let? e := findExpectation scenarioID in Ok [e].

Definition sha256Hex (body : bytes) : string := sha256_hex body.
Definition isExactHTTP2 (major minor : Z) : bool := (major =? 2) && (minor =? 0).
Definition isTimeout (e : goerror) : bool := is_net_timeout e.
Definition mediaTypeMatches (observed expected : string) : bool :=
  equal_fold (trim_space (default "" (head (split_on ";"%char observed)))) expected.

(** What [url.Parse] gives of the target; [u_userinfo] is as [String] renders it. *)
Record parsedURL := ParsedURL {
  u_scheme : string; u_userinfo : string; u_host : string; u_hostname : string; u_port : string
}.

Definition joinURL (parsed : res parsedURL) (requestPath : string) : res string :=
  let? p := parsed in
  guard negb (String.eqb (u_scheme p) "" || String.eqb (u_host p) "")
    else EMsg "target-url must include scheme and host" in
  guard equal_fold (u_scheme p) "http"
    else EMsg "go-http2-executor 0.3.0 supports cleartext HTTP/2 h2c targets only" in
  Ok (u_scheme p +:+ "://" +:+ u_userinfo p +:+ u_host p +:+ requestPath).

Record checkResult := CheckResult {
  ScenarioID : string; CPath : string; CPassed : bool;
  ExpectedStatus : Z; ObservedStatus : Z; ExpectedContentType : string; ObservedContentType : string;
  ExpectedPayloadLength : Z; ObservedPayloadLength : Z;
  ExpectedPayloadSHA256 : string; ObservedPayloadSHA256 : string;
  ObservedVersion : string; CFallbackDetected : bool; TimedOut : bool; CError : string
}.

Definition baseCheck (e : scenarioExpectation) (timedOut : bool) (error : string) : checkResult :=
  CheckResult (e_id e) (e_path e) false (e_status e) 0 (e_contentType e) ""
    (len (e_body e)) 0 (sha256Hex (e_body e)) "" "" false timedOut error.

Definition failedDialCheck (e : scenarioExpectation) (err : goerror) : checkResult :=
  baseCheck e (isTimeout err) (error_string err).

(** The response [RoundTrip] returns, as far as the check reads it. *)
Record httpResponse := HttpResponse {
  r_status : Z; r_contentType : string; r_proto : string; r_major : Z; r_minor : Z; r_body : stream
}.
(** What one check meets: the request object, then the round trip. *)
Record checkEnv := CheckEnv { ce_request : option goerror; ce_response : res httpResponse }.

Definition checkProblems (e : scenarioExpectation) (r : httpResponse) (body : bytes) : list string :=
  (if negb (isExactHTTP2 (r_major r) (r_minor r))
   then ["expected exact HTTP/2, observed " +:+ r_proto r] else [])
  ++ (if negb (r_status r =? e_status e)
      then ["expected status " +:+ pretty (e_status e) +:+ ", observed " +:+ pretty (r_status r)] else [])
  ++ (if negb (mediaTypeMatches (r_contentType r) (e_contentType e))
      then ["expected content type " +:+ go_quote (e_contentType e) +:+ ", observed "
            +:+ go_quote (r_contentType r)] else [])
  ++ (if negb (len body =? len (e_body e))
      then ["expected payload length " +:+ pretty (len (e_body e)) +:+ ", observed "
            +:+ pretty (len body)] else [])
  ++ (if negb (bool_decide (body = e_body e))
      then ["expected payload SHA-256 " +:+ sha256Hex (e_body e) +:+ ", observed " +:+ sha256Hex body] else []).

Definition runCheck (target : res parsedURL) (env : checkEnv) (e : scenarioExpectation) : checkResult :=
  match joinURL target (e_path e), ce_request env, ce_response env with
  | Err err, _, _ | Ok _, Some err, _ => baseCheck e false (error_string err)
  | Ok _, None, Err err => baseCheck e (isTimeout err || errors_is EDeadline err) (error_string err)
  | Ok _, None, Ok r =>
      let fallback := negb (isExactHTTP2 (r_major r) (r_minor r)) in
      let build passed length digest error :=
        CheckResult (e_id e) (e_path e) passed (e_status e) (r_status r) (e_contentType e) (r_contentType r)
          (len (e_body e)) length (sha256Hex (e_body e)) digest (r_proto r) fallback false error in
      match st_end (r_body r) with
      | EEOF =>
          let body := st_data (r_body r) in
          let problems := checkProblems e r body in
          build (bool_decide (problems = [])) (len body) (sha256Hex body) (join "; " problems)
      | err => build false 0 "" (error_string err)
      end
  end.

(** The versions a summary lists: sorted, without duplicates or the empty string. *)
Record checkSummary := CheckSummary {
  s_passed : bool; s_fallback : bool; s_failures : Z; s_timeouts : Z; s_versions : list string
}.
Definition summarizeChecks (checks : list checkResult) : checkSummary :=
  CheckSummary (negb (bool_decide (checks = [])) && forallb CPassed checks) (existsb CFallbackDetected checks)
    (len (List.filter (fun c => negb (CPassed c)) checks)) (len (List.filter TimedOut checks))
    (merge_sort String.le (elements (list_to_set
       (List.filter (fun v => negb (String.eqb v "")) (ObservedVersion <$> checks)) : gset string))).

(** ** Dialling *)

(** [dialH2C]: [dial] is the network, [newClient] what [NewClientConn] returns. *)
Definition dialH2C (target : res parsedURL) (dial : string -> option goerror) (newClient : option goerror)
    : res unit :=
  let? p := target in
  guard equal_fold (u_scheme p) "http" && negb (String.eqb (u_hostname p) "")
    else EMsg "h2c prior-knowledge targets must use an http URL with a host" in
  let address := joinHostPort (u_hostname p) (if String.eqb (u_port p) "" then "80" else u_port p) in
  match dial address, newClient with
  | Some err, _ => Err (EWrap ("dial h2c target " +:+ address) err)
  | None, Some err => Err (EWrap "create HTTP/2 prior-knowledge client connection" err)
  | None, None => Ok tt
  end.

(** ** The load configuration *)

Definition second : Z := 1000000000.

Record loadConfig := LoadConfig {
  LScenarioID : string; LoadProfileID : string;
  Connections : Z; Concurrency : Z; StreamsPerConnection : Z; OperationDistribution : string;
  Duration : Z; Warmup : Z; Repetition : Z; RequestTimeout : Z; ExecutionTimeout : Z
}.
Record committedLoadProfile := CommittedProfile {
  PConnections : Z; PConcurrency : Z; PStreams : Z;
  PDurationSeconds : Z; PWarmupSeconds : Z; PRequestTimeoutSeconds : Z;
  PDistribution : string; PMaximumRepetition : Z
}.

Definition expectedProfiles (id : string) : option committedLoadProfile :=
  if String.eqb id "http2-smoke" then Some (CommittedProfile 1 1 1 5 1 5 "balanced-round-robin" 1)
  else if String.eqb id "http2-diagnostic" then Some (CommittedProfile 1 8 8 10 1 10 "balanced-round-robin" 1)
  else if String.eqb id "http2-comparison" then Some (CommittedProfile 16 128 8 30 10 10 "balanced-round-robin" 3)
  else None.

Definition envInt (getenv : string -> string) (name : string) (fallback : Z) : Z :=
  let value := trim_space (getenv name) in
  if String.eqb value "" then fallback else default fallback (atoi value).
(** [time.Duration(envInt(name, 0)) * time.Second], wrapped to 64 bits. *)
Definition envSeconds (getenv : string -> string) (name : string) : Z := int_of (envInt getenv name 0 * second).

Definition environmentConfig (getenv : string -> string) : loadConfig :=
  LoadConfig (trim_space (getenv "PLAB_SCENARIO_ID")) (trim_space (getenv "PLAB_LOAD_PROFILE_ID"))
    (envInt getenv "PLAB_CONNECTIONS" 0) (envInt getenv "PLAB_CONCURRENCY" 0)
    (envInt getenv "PLAB_STREAMS_PER_CONNECTION" 0) (trim_space (getenv "PLAB_OPERATION_DISTRIBUTION"))
    (envSeconds getenv "PLAB_DURATION_SECONDS") (envSeconds getenv "PLAB_WARMUP_SECONDS")
    (envInt getenv "PLAB_REPETITION" 1) (envSeconds getenv "PLAB_REQUEST_TIMEOUT_SECONDS")
    (envSeconds getenv "PLAB_TIMEOUT_SECONDS").

(** The rejections of [loadConfigFromEnvironment], less their wording. *)
Definition profileError (id what : string) : goerror :=
  EMsg ("HTTP/2 profile " +:+ go_quote id +:+ " requires " +:+ what).

Definition loadConfigFromEnvironment (getenv : string -> string) : res loadConfig :=
  let c := environmentConfig getenv in
  let id := LoadProfileID c in
  guard negb (String.eqb (LScenarioID c) "")
    else EMsg "PLAB_SCENARIO_ID is required for performance execution" in
  match expectedProfiles id with
  | None => Err (EMsg ("load profile " +:+ go_quote id +:+ " is unsupported"))
  | Some p =>
      guard (Connections c =? PConnections p) && (Concurrency c =? PConcurrency p)
            && (StreamsPerConnection c =? PStreams p)
        else profileError id "its connections, concurrency and streamsPerConnection" in
      guard (Duration c =? PDurationSeconds p * second) && (Warmup c =? PWarmupSeconds p * second)
            && (RequestTimeout c =? PRequestTimeoutSeconds p * second)
        else profileError id "its duration, warmup and requestTimeout" in
      let distribution :=
        if String.eqb (OperationDistribution c) "" && negb (String.eqb id "http2-comparison")
        then PDistribution p else OperationDistribution c in
      guard String.eqb distribution (PDistribution p)
        else profileError id ("operationDistribution=" +:+ PDistribution p) in
      guard (1 <=? Repetition c) && (Repetition c <=? PMaximumRepetition p)
        else profileError id ("repetition in [1," +:+ pretty (PMaximumRepetition p) +:+ "]") in
      let timeout := if ExecutionTimeout c <=? 0 then Duration c + Warmup c + 30 * second else ExecutionTimeout c in
      Ok (LoadConfig (LScenarioID c) id (Connections c) (Concurrency c) (StreamsPerConnection c) distribution
            (Duration c) (Warmup c) (Repetition c) (RequestTimeout c) timeout)
  end.

(** ** The connection scheduler *)

(** The buffered channels hold no values, so a channel is its number of elements:
    [slots] those of the connections, each of capacity [cap], [notify] the one-slot
    signal of a release. *)
Record connectionScheduler := Scheduler { next : nat; cap : nat; slots : list nat; notify : bool }.

Definition newConnectionScheduler (connectionCount streamsPerConnection : nat) : connectionScheduler :=
  Scheduler 0 streamsPerConnection (replicate connectionCount 0%nat) false.

(** The scan of [acquire] under its lock: the first connection at or after [next],
    cyclically, whose channel accepts a send; [n] offsets are left. *)
Fixpoint scan (n offset : nat) (s : connectionScheduler) : option nat :=
  match n with
  | O => None
  | S n =>
      let index := ((next s + offset) mod length (slots s))%nat in
      match slots s !! index with
      | Some used => if (used <? cap s)%nat then Some index else scan n (S offset) s
      | None => None
      end
  end.
Definition tryAcquire (s : connectionScheduler) : option (nat * connectionScheduler) :=
  match scan (length (slots s)) 0 s with
  | Some index =>
      Some (index, Scheduler (S index mod length (slots s))%nat (cap s) (alter S index (slots s)) (notify s))
  | None => None
  end.

(** [release]: the receive, which blocks on an empty channel, then the signal. *)
Definition releaseSlot (index : nat) (s : connectionScheduler) : option connectionScheduler :=
  match slots s !! index with
  | Some (S used) => Some (Scheduler (next s) (cap s) (<[index := used]> (slots s)) (notify s))
  | _ => None
  end.
Definition setNotify (b : bool) (s : connectionScheduler) : connectionScheduler :=
  Scheduler (next s) (cap s) (slots s) b.

(** ** The phase recorder *)

Record phaseSummary := PhaseSummary {
  DurationSeconds : float64; ObservedDials : Z;
  MaximumActiveOperations : Z; MaximumActiveOperationsByDial : list Z;
  MaximumObservedActiveStreamsByDial : list Z; MaximumObservedPendingStreamsByDial : list Z;
  PeerAdvertisedMaxConcurrentStreamsByDial : list Z;
  TotalRequests : Z; SuccessfulRequests : Z; FailedRequests : Z; TimeoutRequests : Z; BytesReceived : Z;
  StatusCodeCounts : gmap string Z;
  LatencySamplesMilliseconds : list float64; FirstByteSamplesMilliseconds : list float64;
  Errors : gmap string Z
}.
Record phaseRecorder := Recorder {
  summary : phaseSummary; activeOperations : Z; activeOperationsByDial : list Z
}.

Definition newRecorder (connections : nat) : phaseRecorder :=
  let zeros := replicate connections 0 in
  Recorder (PhaseSummary f_zero 0 0 zeros zeros zeros zeros 0 0 0 0 0 ∅ [] [] ∅) 0 zeros.

(** [counts[key]++]. *)
Definition bump (key : string) (counts : gmap string Z) : gmap string Z :=
  <[key := default 0 (counts !! key) + 1]> counts.
Definition raise (value old : Z) : Z := if old <? value then value else old.

Definition with_dials (dials : Z) (s : phaseSummary) : phaseSummary :=
  let '(PhaseSummary d _ m md oa op pl t ok f tm b st la fb er) := s in
  PhaseSummary d dials m md oa op pl t ok f tm b st la fb er.
Definition with_duration (d : float64) (s : phaseSummary) : phaseSummary :=
  let '(PhaseSummary _ od m md oa op pl t ok f tm b st la fb er) := s in
  PhaseSummary d od m md oa op pl t ok f tm b st la fb er.

Definition begin (connectionIndex : nat) (r : phaseRecorder) : phaseRecorder :=
  let active := activeOperations r + 1 in
  let byDial := alter (fun n => n + 1) connectionIndex (activeOperationsByDial r) in
  let here := nth connectionIndex byDial 0 in
  let '(PhaseSummary d od m md oa op pl t ok f tm b st la fb er) := summary r in
  Recorder (PhaseSummary d od (raise active m) (alter (raise here) connectionIndex md) oa op pl
              t ok f tm b st la fb er) active byDial.

Definition finish (connectionIndex : nat) (latency firstByte : Z) (check : checkResult) (r : phaseRecorder)
    : phaseRecorder :=
  let '(PhaseSummary d od m md oa op pl t ok f tm b st la fb er) := summary r in
  let la := la ++ [durationMS latency] in
  let fb := if 0 <? firstByte then fb ++ [durationMS firstByte] else fb in
  let st := if 0 <? ObservedStatus check then bump (pretty (ObservedStatus check)) st else st in
  let build ok f tm b er := PhaseSummary d od m md oa op pl (t + 1) ok f tm b st la fb er in
  Recorder
    (if TimedOut check then build ok f (tm + 1) b (bump (CError check) er)
     else if negb (CPassed check) then build ok (f + 1) tm b (bump (CError check) er)
     else build (ok + 1) f tm (b + ObservedPayloadLength check) er)
    (activeOperations r - 1) (alter (fun n => n - 1) connectionIndex (activeOperationsByDial r)).

(** What [ClientConn.State()] reports of one connection. *)
Record clientConnState := ClientConnState {
  StreamsActive : Z; StreamsPending : Z; MaxConcurrentStreams : Z
}.
(** A maximum per connection, raised by what the connections report. *)
Fixpoint raiseAll (values olds : list Z) : list Z :=
  match values, olds with
  | v :: values, o :: olds => raise v o :: raiseAll values olds
  | _, _ => olds
  end.
Definition captureConnectionStates (states : list clientConnState) (r : phaseRecorder) : phaseRecorder :=
  let '(PhaseSummary d od m md oa op pl t ok f tm b st la fb er) := summary r in
  Recorder (PhaseSummary d od m md (raiseAll (StreamsActive <$> states) oa)
              (raiseAll (StreamsPending <$> states) op) (raiseAll (MaxConcurrentStreams <$> states) pl)
              t ok f tm b st la fb er) (activeOperations r) (activeOperationsByDial r).

(** ** The topology proof and the metrics *)

(** The [%v] of a slice of integers. *)
Definition go_ints (l : list Z) : string := "[" +:+ join " " (pretty <$> l) +:+ "]".
Definition topologyError (what : string) : goerror := EMsg ("HTTP/2 topology proof rejected: " +:+ what).

(** The loop over the connections: their measured concurrency and their peer's limit. *)
Fixpoint validateConnections (index : Z) (active peers : list Z) (c : loadConfig) : option goerror :=
  match active, peers with
  | a :: active, peerLimit :: peers =>
      if StreamsPerConnection c <? a
      then Some (topologyError ("connection " +:+ pretty index +:+ " used " +:+ pretty a
                                +:+ " concurrent operations above configured streamsPerConnection="
                                +:+ pretty (StreamsPerConnection c)))
      else if (peerLimit =? 0) || (peerLimit <? u32 (StreamsPerConnection c))
      then Some (topologyError ("connection " +:+ pretty index +:+ " peer advertised maxConcurrentStreams="
                                +:+ pretty peerLimit +:+ " below requested="
                                +:+ pretty (StreamsPerConnection c)))
      else validateConnections (index + 1) active peers c
  | _, _ => None
  end.
Definition validateMeasuredTopology (s : phaseSummary) (c : loadConfig) : option goerror :=
  if negb (ObservedDials s =? Connections c) || negb (MaximumActiveOperations s =? Concurrency c)
     || negb (len (MaximumActiveOperationsByDial s) =? Connections c)
     || negb (len (PeerAdvertisedMaxConcurrentStreamsByDial s) =? Connections c)
  then Some (topologyError ("requested=" +:+ pretty (Connections c) +:+ "/" +:+ pretty (Concurrency c) +:+ "/"
         +:+ pretty (StreamsPerConnection c) +:+ " observedDials=" +:+ pretty (ObservedDials s)
         +:+ " maxActiveOperations=" +:+ pretty (MaximumActiveOperations s)
         +:+ " perDial=" +:+ go_ints (MaximumActiveOperationsByDial s)
         +:+ " peerLimits=" +:+ go_ints (PeerAdvertisedMaxConcurrentStreamsByDial s)))
  else validateConnections 0 (MaximumActiveOperationsByDial s) (PeerAdvertisedMaxConcurrentStreamsByDial s) c.

Definition maxInt (values : list Z) : Z := fold_left (fun m v => if m <? v then v else m) values 0.
Definition minPositiveUint32 (values : list Z) : Z :=
  fold_left (fun m v => if (0 <? v) && ((m =? 0) || (v <? m)) then v else m) values 0.

Record httpMetrics := HttpMetrics {
  MTotal : Z; MSuccessful : Z; MFailed : Z; MTimeout : Z;
  RequestsPerSecond : float64; MBytesSent : Z; MBytesReceived : Z; ThroughputBytesPerSecond : float64;
  LatencyStatistics : list float64;      (* mean, P50, P75, P90, P95, P99 *)
  TimeToFirstByteMeanMS : float64; MStatusCodeCounts : gmap string Z
}.
Definition normalizePhaseMetrics (s : phaseSummary) : httpMetrics :=
  let duration := if SFleb (DurationSeconds s) f_zero then f_of_Z 1 else DurationSeconds s in
  let l := LatencySamplesMilliseconds s in
  HttpMetrics (TotalRequests s) (SuccessfulRequests s) (FailedRequests s) (TimeoutRequests s)
    (fdiv (f_of_Z (TotalRequests s)) duration) 0 (BytesReceived s) (fdiv (f_of_Z (BytesReceived s)) duration)
    (mean l :: ((fun q => percentile l (f_ratio q 100)) <$> [50; 75; 90; 95; 99]))
    (mean (FirstByteSamplesMilliseconds s)) (StatusCodeCounts s).
