(* ===== verification/H2LoadPhase.v ===== *)
(** [runLoadPhase] of go-http2-executor as a transition system: the workers, the
    scheduler they share, the start barrier, the sampler and the main goroutine. *)
From S2P Require Export Prelude H2Load.

(** The program counter of a worker. [first] is its local [firstOperation]; an index is
    the connection it holds a slot of. *)
Inductive worker :=
| WLoop (first : bool)                 (* about to test the loop's condition *)
| WScan (first : bool)                 (* in [acquire], about to lock and scan *)
| WWait (first : bool)                 (* in [acquire], blocked on ctx.Done and notify *)
| WBegin (first : bool) (index : nat)  (* about to call [begin] *)
| WReady (index : nat)                 (* first operation: about to call Done *)
| WGate (index : nat)                  (* first operation: blocked on the barrier *)
| WOperate (index : nat)               (* in [executeLoadOperation] and [finish] *)
| WRelease (index : nat)               (* in [release], before the receive *)
| WNotify                              (* in [release], before the signal *)
| WDone (first : bool).                (* returned *)

#[export] Instance worker_eq_dec : EqDecision worker.
Proof. solve_decision. Defined.

(** The main goroutine, in the order of its statements. *)
Inductive mainpc :=
| MWaitReady      (* initialOperationsReady.Wait() *)
| MClose          (* close(releaseInitialOperations) *)
| MWaitWorkers    (* workers.Wait() *)
| MStop           (* stopSampler(); sampler.Wait() *)
| MCapture        (* the last capture, the duration *)
| MDone.
#[export] Instance mainpc_eq_dec : EqDecision mainpc.
Proof. solve_decision. Defined.

Record phaseState := PhaseState {
  workers : list worker; main : mainpc;
  ready : nat;                           (* what initialOperationsReady still waits for *)
  gate : bool;                           (* releaseInitialOperations is closed *)
  sched : connectionScheduler; recorder : phaseRecorder; sampling : bool;
  expired : bool;                        (* time.Now() is not before the deadline *)
  cancelled : option goerror             (* ctx.Err() *)
}.

(** What a worker's turn may meet: the operation's measurements and responses, and
    which ready case its [select] takes. *)
Record outcome := Outcome {
  o_latency : Z; o_firstByte : Z; o_check : checkEnv; o_cancel : bool
}.

Inductive label :=
| LWorker (k : nat) (o : outcome)
| LMain (states : list clientConnState) (seconds : float64)
| LSample (states : list clientConnState)
| LDeadline
| LCancel (e : goerror).

Section phase.
Variable connections concurrency streams : nat.
Variable target : res parsedURL.
Variable e : scenarioExpectation.

Definition initialState : phaseState :=
  let r := newRecorder connections in
  PhaseState (replicate concurrency (WLoop true)) MWaitReady concurrency false
    (newConnectionScheduler connections streams)
    (Recorder (with_dials (Z.of_nat connections) (summary r)) (activeOperations r) (activeOperationsByDial r))
    true false None.

Definition with_worker (k : nat) (w : worker) (s : phaseState) : phaseState :=
  PhaseState (<[k := w]> (workers s)) (main s) (ready s) (gate s) (sched s) (recorder s) (sampling s)
    (expired s) (cancelled s).
Definition with_ready (n : nat) (s : phaseState) : phaseState :=
  PhaseState (workers s) (main s) n (gate s) (sched s) (recorder s) (sampling s) (expired s) (cancelled s).
Definition with_sched (c : connectionScheduler) (s : phaseState) : phaseState :=
  PhaseState (workers s) (main s) (ready s) (gate s) c (recorder s) (sampling s) (expired s) (cancelled s).
Definition with_recorder (r : phaseRecorder) (s : phaseState) : phaseState :=
  PhaseState (workers s) (main s) (ready s) (gate s) (sched s) r (sampling s) (expired s) (cancelled s).
Definition with_main (pc : mainpc) (g sm : bool) (s : phaseState) : phaseState :=
  PhaseState (workers s) pc (ready s) g (sched s) (recorder s) sm (expired s) (cancelled s).

(** The loop's condition: [time.Now().Before(deadline) && ctx.Err() == nil]. *)
Definition continuing (s : phaseState) : bool := negb (expired s) && bool_decide (cancelled s = None).

(** One atomic step of worker [k], at [w]; [None] when it is blocked. *)
Definition workerStep (k : nat) (o : outcome) (w : worker) (s : phaseState) : option phaseState :=
  match w with
  | WLoop first => Some (with_worker k (if continuing s then WScan first else WDone first) s)
  | WScan first =>
      match tryAcquire (sched s) with
      | Some (index, c) => Some (with_worker k (WBegin first index) (with_sched c s))
      | None => Some (with_worker k (WWait first) s)
      end
  | WWait first =>
      if o_cancel o && bool_decide (is_Some (cancelled s)) then Some (with_worker k (WDone first) s)
      else if notify (sched s)
      then Some (with_worker k (WScan first) (with_sched (setNotify false (sched s)) s))
      else None
  | WBegin first index =>
      Some (with_worker k (if first then WReady index else WOperate index)
              (with_recorder (begin index (recorder s)) s))
  | WReady index =>
      match ready s with
      | S n => Some (with_worker k (WGate index) (with_ready n s))
      | O => None
      end
  | WGate index => if gate s then Some (with_worker k (WOperate index) s) else None
  | WOperate index =>
      Some (with_worker k (WRelease index)
              (with_recorder (finish index (o_latency o) (o_firstByte o) (runCheck target (o_check o) e)
                                (recorder s)) s))
  | WRelease index =>
      match releaseSlot index (sched s) with
      | Some c => Some (with_worker k WNotify (with_sched c s))
      | None => None
      end
  | WNotify => Some (with_worker k (WLoop false) (with_sched (setNotify true (sched s)) s))
  | WDone _ => None
  end.

Definition returned (w : worker) : bool := match w with WDone _ => true | _ => false end.

(** One step of the main goroutine after the workers have been started. *)
Definition mainStep (states : list clientConnState) (seconds : float64) (s : phaseState) : option phaseState :=
  match main s with
  | MWaitReady =>
      match ready s with O => Some (with_main MClose (gate s) (sampling s) s) | S _ => None end
  | MClose => Some (with_main MWaitWorkers true (sampling s) s)
  | MWaitWorkers =>
      if forallb returned (workers s) then Some (with_main MStop (gate s) (sampling s) s) else None
  | MStop => Some (with_main MCapture (gate s) false s)
  | MCapture =>
      let r := captureConnectionStates states (recorder s) in
      let r := Recorder (with_duration seconds (summary r)) (activeOperations r) (activeOperationsByDial r) in
      Some (with_main MDone (gate s) (sampling s) (with_recorder r s))
  | MDone => None
  end.

(** A step of the phase, of a goroutine or of its surroundings (the clock, the context). *)
Definition fire (l : label) (s : phaseState) : option phaseState :=
  match l with
  | LWorker k o =>
      match workers s !! k with Some w => workerStep k o w s | None => None end
  | LMain states seconds => mainStep states seconds s
  | LSample states =>
      if sampling s then Some (with_recorder (captureConnectionStates states (recorder s)) s) else None
  | LDeadline =>
      Some (PhaseState (workers s) (main s) (ready s) (gate s) (sched s) (recorder s) (sampling s) true (cancelled s))
  | LCancel err =>
      match cancelled s with
      | Some _ => None
      | None => Some (PhaseState (workers s) (main s) (ready s) (gate s) (sched s) (recorder s) (sampling s)
                        (expired s) (Some err))
      end
  end.

Inductive reachable : phaseState -> Prop :=
| reachable_init : reachable initialState
| reachable_step l s s' : reachable s -> fire l s = Some s' -> reachable s'.

(** A step that takes the phase forward: not the sampler's, the clock's or the context's. *)
Definition progresses (l : label) : bool :=
  match l with LWorker _ _ | LMain _ _ => true | _ => false end.

(** [n] of those, among any number of the others. *)
Inductive run : nat -> phaseState -> phaseState -> Prop :=
| run_refl s : run 0 s s
| run_step n l s s' s'' :
    fire l s = Some s' -> run n s' s'' -> run (if progresses l then S n else n) s s''.

(** A run given by its labels. *)
Fixpoint play (ls : list label) (s : phaseState) : option phaseState :=
  match ls with
  | [] => Some s
  | l :: ls => match fire l s with Some s' => play ls s' | None => None end
  end.

Lemma play_reachable ls s s' : reachable s -> play ls s = Some s' -> reachable s'.
Proof.
  revert s; induction ls as [|l ls IH]; intros s Hs; simpl; [by intros [= <-]|].
  destruct (fire l s) as [s1|] eqn:E; [|done]. apply IH. by eapply reachable_step.
Qed.
End phase.
