(* ===== verification/H2LoadProps.v ===== *)
(** The load phase of go-http2-executor: its invariant, the topology a finished phase
    has measured, its termination, and the one way its start barrier can hang. *)
From S2P Require Export Prelude H2Load H2LoadPhase.

(** ** Counting workers *)

Definition countb (p : worker -> bool) (ws : list worker) : nat := length (List.filter p ws).

Lemma countb_cons p w ws : countb p (w :: ws) = (Nat.b2n (p w) + countb p ws)%nat.
Proof. unfold countb. simpl. by destruct (p w). Qed.

Lemma countb_insert p k w w' ws :
  ws !! k = Some w ->
  (countb p (<[k := w']> ws) + Nat.b2n (p w) = countb p ws + Nat.b2n (p w'))%nat.
Proof.
  revert k; induction ws as [|v ws IH]; intros [|k] E; simpl in E; simplify_eq; simpl;
    rewrite !countb_cons; [lia|]. specialize (IH k E). lia.
Qed.

Lemma countb_replicate p n w : countb p (replicate n w) = (n * Nat.b2n (p w))%nat.
Proof. induction n as [|n IH]; simpl; [done|]. rewrite countb_cons, IH. lia. Qed.

Lemma countb_le p ws : (countb p ws <= length ws)%nat.
Proof. induction ws as [|w ws IH]; [done|]. rewrite countb_cons. simpl. destruct (p w); simpl; lia. Qed.

Lemma countb_all p ws : countb p ws = length ws -> Forall (fun w => p w = true) ws.
Proof.
  induction ws as [|w ws IH]; [done|]. rewrite countb_cons. simpl. pose proof (countb_le p ws).
  destruct (p w) eqn:E; simpl; [|lia]. intros. constructor; [done|]. apply IH. lia.
Qed.

Lemma countb_zero p ws : countb p ws = 0%nat -> Forall (fun w => p w = false) ws.
Proof.
  induction ws as [|w ws IH]; [done|]. rewrite countb_cons.
  destruct (p w) eqn:E; simpl; [lia|]. intros. constructor; [done|]. by apply IH.
Qed.

Lemma countb_weaken p q ws :
  Forall (fun w => p w = true -> q w = true) ws -> (countb p ws <= countb q ws)%nat.
Proof.
  induction 1 as [|w ws H _ IH]; [done|]. rewrite !countb_cons.
  destruct (p w), (q w); simpl; try specialize (H eq_refl); lia || done.
Qed.

Lemma countb_pos p ws w : w ∈ ws -> p w = true -> (0 < countb p ws)%nat.
Proof.
  induction 1 as [|? v ? ? IH]; intros Hp; rewrite countb_cons; [rewrite Hp; simpl; lia|].
  specialize (IH Hp). lia.
Qed.

(** A count split by a key below [n]. *)
Lemma countb_partition (key : worker -> option nat) n ws :
  Forall (fun w => forall i, key w = Some i -> (i < n)%nat) ws ->
  list_sum (map (fun i => countb (fun w => bool_decide (key w = Some i)) ws) (seq 0 n))
  = countb (fun w => bool_decide (is_Some (key w))) ws.
Proof.
  induction 1 as [|w ws H _ IH].
  - induction (seq 0 n) as [|i l IHl]; [done|]. exact IHl.
  - rewrite countb_cons, <-IH.
    assert (Hsum : forall l, list_sum (map (fun i => countb (fun w => bool_decide (key w = Some i)) (w :: ws)) l)
      = (list_sum (map (fun i => Nat.b2n (bool_decide (key w = Some i))) l)
         + list_sum (map (fun i => countb (fun w => bool_decide (key w = Some i)) ws) l))%nat).
    { induction l as [|i l IHl]; [done|]. cbn [map list_sum foldr]. rewrite countb_cons.
      change (list_sum ?l) with (foldr Nat.add 0%nat l) in *. rewrite IHl. lia. }
    rewrite Hsum. f_equal. clear - H. destruct (key w) as [i|] eqn:E.
    + rewrite (bool_decide_true (is_Some _)) by eauto. specialize (H i eq_refl).
      replace (seq 0 n) with (seq 0 i ++ i :: seq (S i) (n - S i)).
      2: { change (i :: seq (S i) (n - S i)) with (seq i (S (n - S i))).
           pose proof (seq_app i (S (n - S i)) 0) as Hs. cbn [Nat.add] in Hs. rewrite <-Hs. f_equal. lia. }
      assert (Hz : forall l, Forall (fun j => j <> i) l ->
        list_sum (map (fun j => Nat.b2n (bool_decide (Some i = Some j))) l) = 0%nat).
      { induction 1 as [|j l Hj _ IHl]; [done|]. cbn [map list_sum foldr].
        rewrite bool_decide_false by congruence. exact IHl. }
      rewrite map_app, list_sum_app. cbn [map list_sum foldr].
      change (foldr Nat.add 0%nat ?l) with (list_sum l).
      rewrite !Hz; [by rewrite bool_decide_true|apply Forall_seq; lia|apply Forall_seq; lia].
    + rewrite bool_decide_false by (intros [? [=]]).
      induction (seq 0 n) as [|j l IHl]; [done|]. cbn [map list_sum foldr].
      by rewrite bool_decide_false.
Qed.

(** ** The scheduler *)

Definition slot_free (s : connectionScheduler) (i : nat) : Prop :=
  exists used, slots s !! i = Some used /\ (used < cap s)%nat.
Definition slot_full (s : connectionScheduler) (i : nat) : Prop :=
  exists used, slots s !! i = Some used /\ (cap s <= used)%nat.
(** The connection [k] places after [next]. *)
Definition turn (s : connectionScheduler) (k : nat) : nat := ((next s + k) mod length (slots s))%nat.

Lemma scan_spec s n offset :
  slots s <> [] ->
  match scan n offset s with
  | Some i => exists k, (offset <= k < offset + n)%nat /\ i = turn s k /\ slot_free s i /\
                (forall j, (offset <= j < k)%nat -> slot_full s (turn s j))
  | None => forall j, (offset <= j < offset + n)%nat -> slot_full s (turn s j)
  end.
Proof.
  intros Hs. revert offset; induction n as [|n IH]; intros offset; simpl; [lia|].
  assert (Hlen : length (slots s) <> 0%nat) by (by destruct (slots s)).
  fold (turn s offset).
  destruct (lookup_lt_is_Some_2 (slots s) (turn s offset)) as [used E].
  { unfold turn. by apply Nat.mod_upper_bound. }
  rewrite E. destruct (used <? cap s)%nat eqn:Eu.
  - apply Nat.ltb_lt in Eu. exists offset. split_and!; [lia|lia|done|by exists used|lia].
  - apply Nat.ltb_ge in Eu. specialize (IH (S offset)).
    assert (Hfull : slot_full s (turn s offset)) by (by exists used).
    destruct (scan n (S offset) s) as [i|].
    + destruct IH as (k & Hk & -> & Hfree & Hb). exists k. split_and!; [lia|lia|done|done|].
      intros j Hj. destruct (decide (j = offset)) as [->|]; [done|]. apply Hb. lia.
    + intros j Hj. destruct (decide (j = offset)) as [->|]; [done|]. apply IH. lia.
Qed.

(** Every connection has its turn. *)
Lemma turn_onto s i :
  (i < length (slots s))%nat -> exists k, (k < length (slots s))%nat /\ turn s k = i.
Proof.
  intros Hi. set (l := length (slots s)) in *. unfold turn. fold l.
  exists ((i + (l - next s mod l)) mod l)%nat. split; [apply Nat.mod_upper_bound; lia|].
  rewrite Nat.Div0.add_mod_idemp_r.
  pose proof (Nat.div_mod (next s) l ltac:(lia)). pose proof (Nat.mod_upper_bound (next s) l ltac:(lia)).
  replace (next s + (i + (l - next s mod l)))%nat with (i + (1 + next s / l) * l)%nat by nia.
  rewrite Nat.Div0.mod_add. by apply Nat.mod_small.
Qed.

Lemma tryAcquire_some s i s' :
  tryAcquire s = Some (i, s') ->
  slot_free s i /\
  s' = Scheduler (S i mod length (slots s))%nat (cap s) (alter S i (slots s)) (notify s).
Proof.
  unfold tryAcquire. destruct (slots s) eqn:Es; [done|]. rewrite <-Es.
  assert (Hs : slots s <> []) by congruence.
  pose proof (scan_spec s (length (slots s)) 0 Hs) as H.
  destruct (scan _ _ s) as [j|]; [|done]. intros [= -> <-].
  destruct H as (k & _ & _ & Hfree & _). done.
Qed.

Lemma tryAcquire_none s i : tryAcquire s = None -> (i < length (slots s))%nat -> slot_full s i.
Proof.
  unfold tryAcquire. intros H Hi. assert (Hs : slots s <> []) by (by destruct (slots s); simpl in *; [lia|]).
  pose proof (scan_spec s (length (slots s)) 0 Hs) as Hspec.
  destruct (scan _ _ s); [done|]. destruct (turn_onto s i Hi) as (k & Hk & <-). apply Hspec. lia.
Qed.

Lemma releaseSlot_some s i s' :
  releaseSlot i s = Some s' ->
  exists used, slots s !! i = Some (S used) /\
    s' = Scheduler (next s) (cap s) (<[i := used]> (slots s)) (notify s).
Proof.
  unfold releaseSlot. destruct (slots s !! i) as [[|used]|]; [done| |done].
  intros [= <-]. by exists used.
Qed.

Lemma alter_S_insert (l : list nat) i used : l !! i = Some used -> alter S i l = <[i := S used]> l.
Proof.
  intros E. apply list_eq. intros j. destruct (decide (i = j)) as [<-|].
  - rewrite list_lookup_alter_eq, E. simpl. symmetry. apply list_lookup_insert_eq. by eapply lookup_lt_Some.
  - by rewrite list_lookup_alter_ne, list_lookup_insert_ne.
Qed.

(** ** The invariant *)

(** The connection a worker holds a slot of, and the one its operation is counted on. *)
Definition holds (w : worker) : option nat :=
  match w with WBegin _ i | WReady i | WGate i | WOperate i | WRelease i => Some i | _ => None end.
Definition operating (w : worker) : option nat :=
  match w with WReady i | WGate i | WOperate i => Some i | _ => None end.
(** It has not called [initialOperationsReady.Done()]. *)
Definition unarrived (w : worker) : bool :=
  match w with
  | WLoop f | WScan f | WWait f | WBegin f _ | WDone f => f
  | WReady _ => true
  | _ => false
  end.
(** It has not passed the barrier. *)
Definition at_start (w : worker) : bool := unarrived w || match w with WGate _ => true | _ => false end.

Definition holders (i : nat) : list worker -> nat := countb (fun w => bool_decide (holds w = Some i)).
Definition operators (i : nat) : list worker -> nat := countb (fun w => bool_decide (operating w = Some i)).
Definition active : list worker -> nat := countb (fun w => bool_decide (is_Some (operating w))).

Lemma operators_le_holders i ws : (operators i ws <= holders i ws)%nat.
Proof.
  apply countb_weaken, Forall_true. intros w. rewrite !bool_decide_eq_true. by destruct w.
Qed.

Section phase.
Variable connections concurrency streams : nat.
Variable target : res parsedURL.
Variable e : scenarioExpectation.

(** The channels hold one element per worker that holds a slot. *)
Record slots_ok (ws : list worker) (c : connectionScheduler) : Prop := {
  so_len : length (slots c) = connections;
  so_cap : cap c = streams;
  so_count : forall i used, slots c !! i = Some used -> used = holders i ws /\ (used <= streams)%nat;
  so_range : Forall (fun w => forall i, holds w = Some i -> (i < connections)%nat) ws
}.

Lemma slots_ok_same ws c k w w' n b :
  slots_ok ws c -> ws !! k = Some w -> holds w' = holds w ->
  slots_ok (<[k := w']> ws) (Scheduler n (cap c) (slots c) b).
Proof.
  intros [Hl Hc Hn Hr] E Hw. split; simpl; try done.
  - intros i used Hi. destruct (Hn i used Hi) as [-> Hle]. split; [|done].
    pose proof (countb_insert (fun w => bool_decide (holds w = Some i)) k w w' ws E) as H.
    cbn beta in H. rewrite Hw in H. unfold holders. lia.
  - apply Forall_insert; [done|]. rewrite Hw. rewrite Forall_lookup in Hr. by eapply Hr.
Qed.

Lemma slots_ok_take ws c k w w' i c' :
  slots_ok ws c -> ws !! k = Some w -> holds w = None -> holds w' = Some i ->
  tryAcquire c = Some (i, c') -> slots_ok (<[k := w']> ws) c'.
Proof.
  intros [Hl Hc Hn Hr] E Hw Hw' Ht. apply tryAcquire_some in Ht as [(used & Hu & Hlt) ->].
  rewrite (alter_S_insert _ _ _ Hu). pose proof (lookup_lt_Some _ _ _ Hu).
  split; simpl; [by rewrite length_insert|done| |].
  - intros j v Hj. pose proof (countb_insert (fun w => bool_decide (holds w = Some j)) k w w' ws E) as H'.
    cbn beta in H'. rewrite Hw, Hw' in H'. rewrite bool_decide_false in H' by done.
    apply list_lookup_insert_Some in Hj as [(-> & <- & _)|(Hne & Hj)].
    + destruct (Hn _ _ Hu) as [-> _]. rewrite bool_decide_true in H' by done. simpl in H'.
      fold (holders j) in *. unfold holders in *. lia.
    + destruct (Hn _ _ Hj) as [-> ?]. rewrite bool_decide_false in H' by congruence. simpl in H'.
      unfold holders in *. lia.
  - apply Forall_insert; [done|]. rewrite Hw'. intros j [= <-]. lia.
Qed.

Lemma slots_ok_drop ws c k w w' i c' :
  slots_ok ws c -> ws !! k = Some w -> holds w = Some i -> holds w' = None ->
  releaseSlot i c = Some c' -> slots_ok (<[k := w']> ws) c'.
Proof.
  intros [Hl Hc Hn Hr] E Hw Hw' Ht. apply releaseSlot_some in Ht as (used & Hu & ->).
  split; simpl; [by rewrite length_insert|done| |].
  - intros j v Hj. pose proof (countb_insert (fun w => bool_decide (holds w = Some j)) k w w' ws E) as H'.
    cbn beta in H'. rewrite Hw, Hw' in H'. rewrite (bool_decide_false (None = _)) in H' by done.
    apply list_lookup_insert_Some in Hj as [(-> & <- & _)|(Hne & Hj)].
    + destruct (Hn _ _ Hu) as [? ?]. rewrite bool_decide_true in H' by done. simpl in H'.
      unfold holders in *. lia.
    + destruct (Hn _ _ Hj) as [-> ?]. rewrite bool_decide_false in H' by congruence. simpl in H'.
      unfold holders in *. lia.
  - apply Forall_insert; [done|]. by rewrite Hw'.
Qed.

(** The recorder counts the operations under way, and its maxima bound them. *)
Record active_ok (ws : list worker) (r : phaseRecorder) : Prop := {
  ao_active : activeOperations r = Z.of_nat (active ws);
  ao_len : length (activeOperationsByDial r) = connections;
  ao_dial : forall i z, activeOperationsByDial r !! i = Some z -> z = Z.of_nat (operators i ws);
  ao_max : Z.of_nat (active ws) <= MaximumActiveOperations (summary r) <= Z.of_nat concurrency;
  ao_mlen : length (MaximumActiveOperationsByDial (summary r)) = connections;
  ao_mdial : forall i m, MaximumActiveOperationsByDial (summary r) !! i = Some m ->
    Z.of_nat (operators i ws) <= m <= Z.of_nat streams
}.

Lemma alter_lookup_Some {A} (f : A -> A) (i : nat) (l : list A) (j : nat) (y : A) :
  alter f i l !! j = Some y ->
  (i = j /\ exists x, l !! j = Some x /\ y = f x) \/ (i <> j /\ l !! j = Some y).
Proof.
  destruct (decide (i = j)) as [<-|]; [|rewrite list_lookup_alter_ne by done; auto].
  rewrite list_lookup_alter_eq. destruct (l !! i); [|done]. intros [= <-]. left. eauto.
Qed.

Lemma raise_max v o : raise v o = Z.max o v.
Proof. unfold raise. destruct (o <? v) eqn:E; reflect_bools; lia. Qed.

Lemma active_ok_same ws r r' k w w' :
  active_ok ws r -> ws !! k = Some w -> operating w' = operating w ->
  activeOperations r' = activeOperations r -> activeOperationsByDial r' = activeOperationsByDial r ->
  MaximumActiveOperations (summary r') = MaximumActiveOperations (summary r) ->
  MaximumActiveOperationsByDial (summary r') = MaximumActiveOperationsByDial (summary r) ->
  active_ok (<[k := w']> ws) r'.
Proof.
  intros [Ha Hl Hd Hm Hml Hmd] E Hw E1 E2 E3 E4.
  assert (Hact : active (<[k := w']> ws) = active ws).
  { pose proof (countb_insert (fun w => bool_decide (is_Some (operating w))) k w w' ws E) as H.
    cbn beta in H. rewrite Hw in H. unfold active. lia. }
  assert (Hop : forall i, operators i (<[k := w']> ws) = operators i ws).
  { intros i. pose proof (countb_insert (fun w => bool_decide (operating w = Some i)) k w w' ws E) as H.
    cbn beta in H. rewrite Hw in H. unfold operators. lia. }
  split; rewrite ?E1, ?E2, ?E3, ?E4, ?Hact; try done; intros i z Hi; rewrite Hop; by eauto.
Qed.

(** How the counts move when a worker starts or ends an operation on [i]. *)
Lemma counts_start ws k w w' i :
  ws !! k = Some w -> operating w = None -> operating w' = Some i ->
  active (<[k := w']> ws) = S (active ws) /\
  forall j, operators j (<[k := w']> ws) = (Nat.b2n (bool_decide (i = j)) + operators j ws)%nat.
Proof.
  intros E Hw Hw'. split.
  - pose proof (countb_insert (fun w => bool_decide (is_Some (operating w))) k w w' ws E) as H.
    cbn beta in H. rewrite Hw, Hw', bool_decide_false, bool_decide_true in H
      by (done || by intros [? [=]]). simpl in H. unfold active. lia.
  - intros j. pose proof (countb_insert (fun w => bool_decide (operating w = Some j)) k w w' ws E) as H.
    cbn beta in H. rewrite Hw, Hw', (bool_decide_false (None = _)) in H by done.
    rewrite (bool_decide_ext (Some i = Some j) (i = j)) in H by (split; congruence).
    simpl in H. unfold operators. lia.
Qed.

Lemma counts_end ws k w w' i :
  ws !! k = Some w -> operating w = Some i -> operating w' = None ->
  S (active (<[k := w']> ws)) = active ws /\
  forall j, (Nat.b2n (bool_decide (i = j)) + operators j (<[k := w']> ws))%nat = operators j ws.
Proof.
  intros E Hw Hw'. pose proof (lookup_lt_Some _ _ _ E).
  destruct (counts_start (<[k := w']> ws) k w' w i) as [H1 H2]; try done.
  { by apply list_lookup_insert_eq. }
  rewrite list_insert_insert_eq, list_insert_id in H1, H2 by done. split; [by rewrite H1|].
  intros j. by rewrite H2.
Qed.

Lemma active_ok_begin ws r k w w' i c :
  active_ok ws r -> ws !! k = Some w -> operating w = None -> operating w' = Some i ->
  length ws = concurrency -> slots_ok (<[k := w']> ws) c -> active_ok (<[k := w']> ws) (begin i r).
Proof.
  intros [Ha Hl Hd Hm Hml Hmd] E Hw Hw' Hlen Hs. pose proof (lookup_lt_Some _ _ _ E) as Hk.
  assert (Hi : (i < connections)%nat).
  { pose proof (so_range _ _ Hs) as Hr. rewrite Forall_lookup in Hr.
    apply (Hr k w'); [by apply list_lookup_insert_eq|by destruct w'; simplify_eq/=]. }
  destruct (counts_start ws k w w' i E Hw Hw') as [Hact Hop].
  assert (Hbound : forall j, (j < connections)%nat -> (operators j (<[k := w']> ws) <= streams)%nat).
  { intros j Hj. rewrite <-(so_len _ _ Hs) in Hj. apply lookup_lt_is_Some_2 in Hj as [used Hu].
    destruct (so_count _ _ Hs j used Hu) as [-> ?]. pose proof (operators_le_holders j (<[k := w']> ws)). lia. }
  pose proof (countb_le (fun w => bool_decide (is_Some (operating w))) (<[k := w']> ws)) as Hle.
  fold active in Hle. rewrite length_insert in Hle.
  destruct (lookup_lt_is_Some_2 (activeOperationsByDial r) i) as [z Hz]; [lia|].
  assert (Hnth : nth i (alter (fun n => n + 1) i (activeOperationsByDial r)) 0 = z + 1).
  { apply nth_lookup_Some. by rewrite list_lookup_alter_eq, Hz. }
  pose proof (Hd _ _ Hz) as ->. unfold begin. rewrite Hnth.
  destruct (summary r) as [d od m md oa op pl t ok f tm b st la fb er]. simpl in *.
  split; simpl; rewrite ?length_alter, ?raise_max; try done; try lia.
  - intros j v Hj. rewrite Hop. apply alter_lookup_Some in Hj as [(-> & y & Hy & ->)|[? Hj]].
    + rewrite bool_decide_true by done. rewrite (Hd _ _ Hy). simpl. lia.
    + rewrite bool_decide_false by done. by apply Hd.
  - intros j v Hj. rewrite Hop.
    apply alter_lookup_Some in Hj as [(-> & y & Hy & ->)|[Hne Hj]];
      [|rewrite bool_decide_false by done; by apply Hmd].
    specialize (Hbound j Hi). rewrite Hop in Hbound. rewrite bool_decide_true in Hbound |- * by done. simpl in *.
    destruct (Hmd _ _ Hy). rewrite raise_max. lia.
Qed.

Lemma active_ok_finish ws r k w w' i lat fb check :
  active_ok ws r -> ws !! k = Some w -> operating w = Some i -> operating w' = None ->
  active_ok (<[k := w']> ws) (finish i lat fb check r).
Proof.
  intros [Ha Hl Hd Hm Hml Hmd] E Hw Hw'. destruct (counts_end ws k w w' i E Hw Hw') as [Hact Hop].
  assert (Hmax : MaximumActiveOperations (summary (finish i lat fb check r)) = MaximumActiveOperations (summary r)
    /\ MaximumActiveOperationsByDial (summary (finish i lat fb check r)) = MaximumActiveOperationsByDial (summary r)
    /\ activeOperations (finish i lat fb check r) = activeOperations r - 1
    /\ activeOperationsByDial (finish i lat fb check r) = alter (fun n => n - 1) i (activeOperationsByDial r)).
  { unfold finish. destruct (summary r). by destruct (TimedOut check), (negb (CPassed check)). }
  destruct Hmax as (Hmx & Hmd' & Hac & Hb).
  split; rewrite ?Hmx, ?Hmd', ?Hac, ?Hb, ?length_alter; try done; try lia.
  - intros j v Hj. specialize (Hop j).
    apply alter_lookup_Some in Hj as [(-> & y & Hy & ->)|[? Hj]].
    + rewrite bool_decide_true in Hop by done. rewrite (Hd _ _ Hy). simpl in Hop. lia.
    + rewrite bool_decide_false in Hop by done. rewrite (Hd _ _ Hj). simpl in Hop. lia.
  - intros j v Hj. specialize (Hop j). destruct (Hmd _ _ Hj). lia.
Qed.

(** The barrier: [initialOperationsReady] counts the workers that have not arrived, and
    nobody passes before it is opened. *)
Definition before_gate (pc : mainpc) : bool := match pc with MWaitReady | MClose => true | _ => false end.
Definition after_join (pc : mainpc) : bool := match pc with MStop | MCapture | MDone => true | _ => false end.

Record barrier_ok (s : phaseState) : Prop := {
  bo_ready : ready s = countb unarrived (workers s);
  bo_gate : gate s = negb (before_gate (main s));
  bo_start : gate s = false -> Forall (fun w => at_start w = true) (workers s);
  bo_main : main s <> MWaitReady -> ready s = 0%nat;
  bo_join : after_join (main s) = true -> Forall (fun w => returned w = true) (workers s)
}.

(** The verdicts: every request counted once, with its latency, and the octets of the
    successes are those of the expected body. *)
Record counts_ok (r : phaseSummary) : Prop := {
  co_total : TotalRequests r = SuccessfulRequests r + FailedRequests r + TimeoutRequests r;
  co_nonneg : 0 <= SuccessfulRequests r /\ 0 <= FailedRequests r /\ 0 <= TimeoutRequests r;
  co_latencies : len (LatencySamplesMilliseconds r) = TotalRequests r;
  co_bytes : BytesReceived r = SuccessfulRequests r * len (e_body e)
}.

(** A passed check has seen exactly the expectation, over exactly HTTP/2. *)
Lemma runCheck_passed env :
  CPassed (runCheck target env e) = true ->
  exists r, ce_response env = Ok r /\ r_major r = 2 /\ r_minor r = 0 /\ r_status r = e_status e /\
    mediaTypeMatches (r_contentType r) (e_contentType e) = true /\ r_body r = Stream (e_body e) EEOF /\
    ObservedPayloadLength (runCheck target env e) = len (e_body e).
Proof.
  unfold runCheck. destruct (joinURL _ _); [|done]. destruct (ce_request env); [done|].
  destruct (ce_response env) as [r|]; [|done]. destruct (r_body r) as [data err] eqn:Eb. cbn [st_end st_data].
  destruct err; try done. cbn [CPassed ObservedPayloadLength]. rewrite bool_decide_eq_true. intros H.
  unfold checkProblems in H. repeat apply app_nil in H as [? H].
  repeat match goal with
  | H : (if negb ?b then _ else _) = [] |- _ => destruct b eqn:?; [|done]; clear H
  end.
  unfold isExactHTTP2 in *. reflect_bools. exists r. subst. by split_and!.
Qed.

Lemma counts_ok_finish i lat fb env r :
  counts_ok (summary r) -> counts_ok (summary (finish i lat fb (runCheck target env e) r)).
Proof.
  intros [Ht Hn Hl Hb]. unfold finish.
  destruct (summary r) as [d od m md oa op pl t ok f tm b st la fbs er]. simpl in *.
  destruct (TimedOut _); [|destruct (CPassed _) eqn:Ep; simpl]; split; simpl; rewrite ?len_app; try lia;
    try (unfold len at 2; simpl; lia).
  apply runCheck_passed in Ep as (? & _ & _ & _ & _ & _ & _ & ->). lia.
Qed.

(** *** Every step preserves it *)

(** The cases of a step: one goal per branch of [workerStep], [mainStep] and [fire]. *)
Ltac fire_cases H :=
  match type of H with fire _ _ ?l ?s = Some _ =>
    destruct l as [k o|states secs|states| |err]; simpl in H;
    [ destruct (workers s !! k) as [w|] eqn:Ew; [|discriminate H]; destruct w; simpl in H
    | unfold mainStep in H; destruct (main s) eqn:Em | | | ];
    repeat match type of H with
    | context [match ?x with _ => _ end] => destruct x eqn:?; try discriminate H
    | context [if ?x then _ else _] => destruct x eqn:?; try discriminate H
    end;
    try discriminate H; injection H as <-
  end.

Lemma slots_ok_fire l s s' :
  slots_ok (workers s) (sched s) -> fire target e l s = Some s' -> slots_ok (workers s') (sched s').
Proof.
  intros Hs H.
  assert (Hsame : forall k w w' b, workers s !! k = Some w -> holds w' = holds w ->
    slots_ok (<[k := w']> (workers s)) (setNotify b (sched s))).
  { intros k w w' b. by apply slots_ok_same. }
  assert (Hsame' : forall k w w', workers s !! k = Some w -> holds w' = holds w ->
    slots_ok (<[k := w']> (workers s)) (sched s)).
  { intros k w w' Ew Hw. specialize (Hsame k w w' (notify (sched s)) Ew Hw). by destruct (sched s). }
  fire_cases H; simpl; try done; eauto;
    try (eapply slots_ok_take; done); try (eapply slots_ok_drop; done).
Qed.

Lemma active_ok_fire l s s' :
  length (workers s) = concurrency -> slots_ok (workers s') (sched s') ->
  active_ok (workers s) (recorder s) -> fire target e l s = Some s' ->
  active_ok (workers s') (recorder s').
Proof.
  intros Hlen Hs Ha H.
  assert (Hcap : forall states d, active_ok (workers s)
    (let r := captureConnectionStates states (recorder s) in Recorder (with_duration d (summary r)) (activeOperations r) (activeOperationsByDial r))
    /\ active_ok (workers s) (captureConnectionStates states (recorder s))).
  { intros states d. unfold captureConnectionStates. destruct Ha.
    destruct (summary (recorder s)). by split; split. }
  fire_cases H; simpl in *; try done; try (by apply Hcap); try (by apply (Hcap _ f_zero));
    try (by eapply active_ok_same);
    try (by eapply active_ok_begin); try (by eapply active_ok_finish).
Qed.

Lemma counts_ok_fire l s s' :
  counts_ok (summary (recorder s)) -> fire target e l s = Some s' -> counts_ok (summary (recorder s')).
Proof.
  intros Hc H.
  assert (Hcap : forall states d, counts_ok (summary (captureConnectionStates states (recorder s)))
    /\ counts_ok (with_duration d (summary (captureConnectionStates states (recorder s))))).
  { intros states d. unfold captureConnectionStates. destruct Hc.
    destruct (summary (recorder s)). by split; split. }
  assert (Hbegin : forall i, counts_ok (summary (begin i (recorder s)))).
  { intros i. unfold begin. destruct Hc. destruct (summary (recorder s)). by split. }
  fire_cases H; simpl in *; try done; try (by apply Hcap); try (by apply (Hcap _ f_zero)).
  by apply counts_ok_finish.
Qed.

Lemma barrier_ok_fire l s s' :
  barrier_ok s -> fire target e l s = Some s' -> barrier_ok s'.
Proof.
  intros [Hr Hg Hst Hm Hj] H.
  assert (Hready : forall k w w', workers s !! k = Some w ->
    (countb unarrived (<[k := w']> (workers s)) + Nat.b2n (unarrived w)
     = countb unarrived (workers s) + Nat.b2n (unarrived w'))%nat) by (intros; by apply countb_insert).
  assert (Hat : forall k w w', workers s !! k = Some w ->
    (gate s = false -> at_start w = true -> at_start w' = true) ->
    gate s = false -> Forall (fun w => at_start w = true) (<[k := w']> (workers s))).
  { intros k w w' Ew Hw Hgf. pose proof (Hst Hgf) as Hall. apply Forall_insert; [done|].
    apply Hw; [done|]. rewrite Forall_lookup in Hall. by apply (Hall k). }
  assert (Hret : forall k w w', workers s !! k = Some w -> returned w = false ->
    after_join (main s) = true -> Forall (fun w => returned w = true) (<[k := w']> (workers s))).
  { intros k w w' Ew Hw Ha. specialize (Hj Ha). rewrite Forall_lookup in Hj.
    by rewrite (Hj k w Ew) in Hw. }
  fire_cases H; simpl in *; (split; simpl; try done; try congruence;
    try (intros; by eapply Hret); try (eapply Hat; [done|]; try done; try congruence);
    try (by match goal with E : workers s !! ?k = Some ?w |- _ = countb _ (<[_ := ?w']> _) =>
           specialize (Hready k w w' E); simpl in *; lia end)).
  all: try (by intros _; apply Hm; congruence).
  - intros Hne. pose proof (Hm Hne). congruence.
  - intros _. by apply List.Forall_forall, forallb_forall.
Qed.

Record inv (s : phaseState) : Prop := {
  inv_len : length (workers s) = concurrency;
  inv_slots : slots_ok (workers s) (sched s);
  inv_active : active_ok (workers s) (recorder s);
  inv_barrier : barrier_ok s;
  inv_counts : counts_ok (summary (recorder s));
  inv_dials : ObservedDials (summary (recorder s)) = Z.of_nat connections;
  inv_peers : length (PeerAdvertisedMaxConcurrentStreamsByDial (summary (recorder s))) = connections
}.

Lemma length_raiseAll values olds : length (raiseAll values olds) = length olds.
Proof. revert values; induction olds as [|o olds IH]; intros [|v values]; simpl; auto. Qed.

(** What the recorder's operations leave alone. *)
Lemma dials_fire l s s' :
  fire target e l s = Some s' ->
  length (workers s') = length (workers s) /\
  ObservedDials (summary (recorder s')) = ObservedDials (summary (recorder s)) /\
  length (PeerAdvertisedMaxConcurrentStreamsByDial (summary (recorder s')))
  = length (PeerAdvertisedMaxConcurrentStreamsByDial (summary (recorder s))).
Proof.
  intros H. fire_cases H; simpl; rewrite ?length_insert; try done;
    unfold begin, finish, captureConnectionStates; destruct (summary (recorder s)); simpl;
    repeat case_match; simpl; by rewrite ?length_raiseAll.
Qed.

Lemma inv_fire l s s' : inv s -> fire target e l s = Some s' -> inv s'.
Proof.
  intros [Hl Hs Ha Hb Hc Hd Hp] H. destruct (dials_fire _ _ _ H) as (H1 & H2 & H3).
  pose proof (slots_ok_fire _ _ _ Hs H) as Hs'.
  split; [congruence|done|by eapply active_ok_fire|by eapply barrier_ok_fire|by eapply counts_ok_fire
         |congruence|congruence].
Qed.

Lemma load_inv_init : inv (initialState connections concurrency streams).
Proof.
  assert (Hz : forall i (x y : Z), replicate connections x !! i = Some y -> y = x).
  { intros i x y H. by apply lookup_replicate_1 in H as [-> _]. }
  assert (Hzn : forall i (x y : nat), replicate connections x !! i = Some y -> y = x).
  { intros i x y H. by apply lookup_replicate_1 in H as [-> _]. }
  split; simpl; rewrite ?length_replicate; try done.
  - split; simpl; rewrite ?length_replicate; try done.
    + intros i used H. apply Hzn in H as ->. unfold holders. rewrite countb_replicate. simpl. lia.
    + apply Forall_replicate. done.
  - split; simpl; rewrite ?length_replicate; try done; unfold active, operators; try rewrite countb_replicate; simpl; try lia.
    + intros i z H. apply Hz in H as ->. rewrite countb_replicate. simpl. lia.
    + intros i z H. apply Hz in H as ->. rewrite countb_replicate. simpl. lia.
  - split; simpl; try done. { rewrite countb_replicate. simpl. lia. }
    intros _. by apply Forall_replicate.
Qed.

Lemma reachable_inv s : reachable connections concurrency streams target e s -> inv s.
Proof. induction 1; [apply load_inv_init|by eapply inv_fire]. Qed.

(** *** With as many slots as workers nobody waits, and the barrier measures them all *)

Lemma list_sum_bounded (f : nat -> nat) c l :
  Forall (fun i => (f i <= c)%nat) l ->
  (list_sum (map f l) <= length l * c)%nat /\
  (list_sum (map f l) = (length l * c)%nat -> Forall (fun i => f i = c) l).
Proof.
  induction 1 as [|i l Hi _ [IH1 IH2]]; [split; [done|constructor]|]. cbn [map list_sum foldr length].
  change (foldr Nat.add 0%nat ?l) with (list_sum l). split; [lia|]. intros Heq.
  constructor; [lia|]. apply IH2. lia.
Qed.

Lemma holders_sum s :
  inv s -> list_sum (map (fun i => holders i (workers s)) (seq 0 connections))
           = countb (fun w => bool_decide (is_Some (holds w))) (workers s).
Proof. intros Hi. apply (countb_partition holds), (so_range _ _ (inv_slots _ Hi)). Qed.

Lemma holders_le s i : inv s -> (i < connections)%nat -> (holders i (workers s) <= streams)%nat.
Proof.
  intros Hi Hlt. destruct (inv_slots _ Hi) as [Hl _ Hn _]. rewrite <-Hl in Hlt.
  apply lookup_lt_is_Some_2 in Hlt as [used Hu]. destruct (Hn _ _ Hu). lia.
Qed.

Section capacity.
Hypothesis capacity : concurrency = (connections * streams)%nat.

(** A worker that scans always finds a free slot. *)
Lemma acquire_succeeds s k first :
  inv s -> workers s !! k = Some (WScan first) -> tryAcquire (sched s) <> None.
Proof.
  intros Hi E Hnone. destruct (inv_slots _ Hi) as [Hl Hc Hn _].
  assert (Hfull : Forall (fun i => holders i (workers s) = streams) (seq 0 connections)).
  { apply Forall_seq. intros i Hlt. assert (Hlt' : (i < length (slots (sched s)))%nat) by lia.
    destruct (tryAcquire_none _ _ Hnone Hlt') as (used & Hu & Hle). destruct (Hn _ _ Hu). lia. }
  pose proof (holders_sum s Hi) as Hsum.
  assert (Hall : list_sum (map (fun i => holders i (workers s)) (seq 0 connections)) = (connections * streams)%nat).
  { assert (Hgen : forall l, Forall (fun i => holders i (workers s) = streams) l ->
      list_sum (map (fun i => holders i (workers s)) l) = (length l * streams)%nat).
    { induction 1 as [|i l Hx _ IHl]; [done|]. cbn [map list_sum foldr length].
      change (foldr Nat.add 0%nat ?l) with (list_sum l). lia. }
    rewrite (Hgen _ Hfull), length_seq. done. }
  rewrite Hsum, <-capacity, <-(inv_len _ Hi) in Hall. apply countb_all in Hall.
  rewrite Forall_lookup in Hall. apply Hall in E. by rewrite bool_decide_eq_true in E; destruct E.
Qed.

(** At the barrier every worker is counted, on a connection that is then full. *)
Lemma barrier_full s :
  inv s -> gate s = false -> ready s = 0%nat ->
  active (workers s) = concurrency /\
  forall i, (i < connections)%nat -> operators i (workers s) = streams.
Proof.
  intros Hi Hg Hr. destruct (inv_barrier _ Hi) as [Hb _ Hs _ _].
  assert (Hgate : Forall (fun w => exists i, w = WGate i) (workers s)).
  { rewrite Hr in Hb. symmetry in Hb. apply countb_zero in Hb. specialize (Hs Hg).
    rewrite Forall_lookup in *. intros k w Ew. specialize (Hb k w Ew). specialize (Hs k w Ew).
    unfold at_start in Hs. cbn beta in Hb. rewrite Hb in Hs. destruct w; try done. eauto. }
  assert (Hcount : forall p, (forall i, p (WGate i) = true) -> countb p (workers s) = concurrency).
  { intros p Hp. rewrite <-(inv_len _ Hi). clear - Hgate Hp.
    induction Hgate as [|w ws [i ->] _ IH]; [done|]. rewrite countb_cons, Hp. simpl. lia. }
  assert (Hact : active (workers s) = concurrency) by (by apply Hcount).
  split; [done|]. intros i Hlt.
  assert (Hop : operators i (workers s) = holders i (workers s)).
  { clear - Hgate. unfold operators, holders. induction Hgate as [|w ws [j ->] _ IH]; [done|].
    rewrite !countb_cons, IH. done. }
  rewrite Hop. pose proof (holders_sum s Hi) as Hsum.
  rewrite (Hcount (fun w => bool_decide (is_Some (holds w)))) in Hsum by done. rewrite capacity in Hsum.
  destruct (list_sum_bounded (fun i => holders i (workers s)) streams (seq 0 connections)) as [_ Heq].
  { apply Forall_seq. intros j Hj. apply holders_le; [done|lia]. }
  rewrite length_seq in Heq. specialize (Heq Hsum). rewrite Forall_seq in Heq. apply Heq. lia.
Qed.

(** No worker waits in [acquire], and past the barrier the maxima are the configuration's. *)
Definition waiting (w : worker) : bool := match w with WWait _ => true | _ => false end.
Record full_ok (s : phaseState) : Prop := {
  fo_wait : Forall (fun w => waiting w = false) (workers s);
  fo_max : ready s = 0%nat -> MaximumActiveOperations (summary (recorder s)) = Z.of_nat concurrency;
  fo_dial : ready s = 0%nat -> forall i m,
    MaximumActiveOperationsByDial (summary (recorder s)) !! i = Some m -> m = Z.of_nat streams
}.

(** The maxima only grow. *)
Lemma maxima_fire l s s' :
  fire target e l s = Some s' ->
  MaximumActiveOperations (summary (recorder s)) <= MaximumActiveOperations (summary (recorder s')) /\
  forall i m', MaximumActiveOperationsByDial (summary (recorder s')) !! i = Some m' ->
    exists m, MaximumActiveOperationsByDial (summary (recorder s)) !! i = Some m /\ m <= m'.
Proof.
  intros H.
  assert (Hrefl : forall (l : list Z) i m', l !! i = Some m' -> exists m, l !! i = Some m /\ m <= m') by eauto with lia.
  fire_cases H; simpl; try (split; [lia|by apply Hrefl]);
    unfold begin, finish, captureConnectionStates;
    destruct (summary (recorder s)) as [d od m md oa op pl t ok f tm b st la fb er]; simpl;
    repeat case_match; simpl; try (split; [lia|by apply Hrefl]).
  all: rewrite raise_max; split; [lia|]; intros i v Hv;
    apply alter_lookup_Some in Hv as [(-> & y & Hy & ->)|[_ Hv]]; rewrite ?raise_max; eauto with lia.
Qed.

Lemma ready_drops l s s' :
  inv s -> fire target e l s = Some s' -> ready s' = 0%nat -> ready s = 0%nat \/ gate s' = false.
Proof.
  intros Hi H. destruct (inv_barrier _ Hi) as [_ Hg _ Hm _].
  fire_cases H; simpl; auto; intros ->; right; rewrite Hg;
    destruct (main s); try done; by specialize (Hm ltac:(done)).
Qed.

Lemma full_ok_fire l s s' : inv s -> full_ok s -> fire target e l s = Some s' -> full_ok s'.
Proof.
  intros Hi [Hw Hmx Hdl] H. pose proof (inv_fire _ _ _ Hi H) as Hi'.
  pose proof (inv_active _ Hi') as Ha'. destruct (maxima_fire _ _ _ H) as [Hup Hupd].
  split.
  - pose proof (acquire_succeeds s) as Hacq. clear - Hw Hi H Hacq.
    fire_cases H; simpl; try done; try (by apply Forall_insert).
    by destruct (Hacq k first Hi Ew).
  - intros Hr'. destruct (ready_drops _ _ _ Hi H Hr') as [Hr|Hg].
    + rewrite (Hmx Hr) in Hup. pose proof (ao_max _ _ Ha'). lia.
    + destruct (barrier_full s' Hi' Hg Hr') as [Hact _]. pose proof (ao_max _ _ Ha'). lia.
  - intros Hr' i m' Hm'. pose proof (ao_mdial _ _ Ha' _ _ Hm') as Hb.
    destruct (ready_drops _ _ _ Hi H Hr') as [Hr|Hg].
    + destruct (Hupd _ _ Hm') as (m & Hm & Hle). rewrite (Hdl Hr _ _ Hm) in Hle. lia.
    + pose proof (lookup_lt_Some _ _ _ Hm') as Hlt. rewrite (ao_mlen _ _ Ha') in Hlt.
      destruct (barrier_full s' Hi' Hg Hr') as [_ Hop]. rewrite (Hop i Hlt) in Hb. lia.
Qed.

Lemma reachable_full s : reachable connections concurrency streams target e s -> full_ok s.
Proof.
  induction 1 as [|l s s' Hr IH H].
  - assert (H0 : concurrency = 0%nat -> connections = 0%nat \/ streams = 0%nat) by lia.
    split; simpl; [by apply Forall_replicate|intros ->; done|].
    intros Hc i m Hm. apply lookup_replicate_1 in Hm as [-> Hlt]. destruct (H0 Hc); lia.
  - eapply full_ok_fire; [|done|done]. by apply reachable_inv.
Qed.

(** ** Termination *)

Definition weight (w : worker) : nat :=
  match w with
  | WDone _ => 0 | WLoop _ => 1 | WNotify => 2 | WRelease _ => 3 | WOperate _ => 4 | WGate _ => 5
  | WReady _ => 6 | WBegin _ _ => 7 | WScan _ => 8 | WWait _ => 9
  end.
Definition main_weight (pc : mainpc) : nat :=
  match pc with
  | MWaitReady => 5 | MClose => 4 | MWaitWorkers => 3 | MStop => 2 | MCapture => 1 | MDone => 0
  end.
(** What is left to do once the phase is stopping. *)
Definition work (s : phaseState) : nat := (list_sum (map weight (workers s)) + main_weight (main s))%nat.

Definition stopping (s : phaseState) : Prop := continuing s = false.

Lemma sum_insert k w w' ws :
  ws !! k = Some w ->
  (list_sum (map weight (<[k := w']> ws)) + weight w = list_sum (map weight ws) + weight w')%nat.
Proof.
  unfold list_sum. revert k; induction ws as [|v ws IH]; intros [|k] E; simpl in E; simplify_eq; simpl; [lia|].
  specialize (IH k E). lia.
Qed.

Lemma stopping_fire l s s' : stopping s -> fire target e l s = Some s' -> stopping s'.
Proof.
  unfold stopping, continuing. intros Hs H.
  fire_cases H; simpl in *; try done.
  by rewrite andb_comm.
Qed.

(** Every step of a goroutine of a stopping phase brings its end nearer. *)
Lemma work_fire l s s' :
  inv s -> stopping s -> fire target e l s = Some s' ->
  (work s' + (if progresses l then 1 else 0) <= work s)%nat.
Proof.
  intros Hi Hs H. unfold work. pose proof (acquire_succeeds s) as Hacq.
  assert (Hsum : forall k w w', workers s !! k = Some w ->
    (list_sum (map weight (<[k := w']> (workers s))) + weight w
     = list_sum (map weight (workers s)) + weight w')%nat) by (intros; by apply sum_insert).
  fire_cases H; simpl; try lia; try (rewrite Hs in *; try done);
    try (match goal with E : workers s !! ?k = Some ?w |- context [<[_ := ?w']> _] =>
           specialize (Hsum k w w' E); simpl in Hsum end);
    try lia.
  all: try (unfold stopping in Hs; congruence).
  all: try by destruct (Hacq k first Hi Ew).
Qed.

(** Past the barrier the phase is never stuck before it is done. *)
Lemma progress s :
  inv s -> full_ok s -> ready s = 0%nat -> main s <> MDone ->
  exists l s', progresses l = true /\ fire target e l s = Some s'.
Proof.
  intros Hi Hf Hr Hd.
  assert (Hmain : forall s', mainStep [] f_zero s = Some s' ->
    exists l s', progresses l = true /\ fire target e l s = Some s') by (intros s' E; by exists (LMain [] f_zero), s').
  destruct (main s) eqn:Em; try done; unfold mainStep in Hmain; rewrite Em in Hmain; try by eapply Hmain.
  { rewrite Hr in Hmain. by eapply Hmain. }
  destruct (forallb returned (workers s)) eqn:Eall; [by eapply Hmain|]. clear Hmain.
  destruct (inv_barrier _ Hi) as [Hb Hg _ _ _]. rewrite Em in Hg. rewrite Hr in Hb. symmetry in Hb.
  apply countb_zero in Hb.
  assert (Hex : exists k w, workers s !! k = Some w /\ returned w = false).
  { clear - Eall. induction (workers s) as [|w ws IH]; [done|]. simpl in Eall.
    destruct (returned w) eqn:Ew; [|by exists 0%nat, w]. destruct (IH Eall) as (k & v & ? & ?).
    by exists (S k), v. }
  destruct Hex as (k & w & Ew & Hret). pose proof (fo_wait _ Hf) as Hwait.
  rewrite Forall_lookup in Hb, Hwait. specialize (Hb k w Ew). specialize (Hwait k w Ew).
  set (o := Outcome 0 0 (CheckEnv None (Err EDeadline)) false).
  assert (Hstep : workerStep target e k o w s <> None).
  { destruct w; simpl in *; try done; try congruence.
    - by destruct (tryAcquire (sched s)) as [[? ?]|].
    - by rewrite Hg.
    - destruct (inv_slots _ Hi) as [Hl _ Hn Hrange]. rewrite Forall_lookup in Hrange.
      specialize (Hrange k _ Ew index eq_refl). rewrite <-Hl in Hrange.
      apply lookup_lt_is_Some_2 in Hrange as [used Hu]. unfold releaseSlot. rewrite Hu.
      destruct (Hn _ _ Hu) as [-> _]. destruct (holders index (workers s)) eqn:Eh; [|done].
      apply countb_zero in Eh. rewrite Forall_lookup in Eh. specialize (Eh k _ Ew).
      simpl in Eh. by rewrite bool_decide_true in Eh. }
  destruct (workerStep target e k o w s) as [s'|] eqn:Es; [|done].
  exists (LWorker k o), s'. simpl. by rewrite Ew.
Qed.

Lemma ready_fire l s s' : fire target e l s = Some s' -> ready s = 0%nat -> ready s' = 0%nat.
Proof. intros H Hr. fire_cases H; simpl; congruence. Qed.

Lemma run_terminates n s s' :
  inv s -> full_ok s -> stopping s -> ready s = 0%nat -> run target e n s s' ->
  (n + work s' <= work s)%nat /\ inv s' /\ full_ok s' /\ ready s' = 0%nat.
Proof.
  intros Hi Hf Hs Hr H. induction H as [s|n l s s1 s' Hl _ IH]; [done|].
  pose proof (work_fire _ _ _ Hi Hs Hl) as Hw.
  destruct (IH (inv_fire _ _ _ Hi Hl) (full_ok_fire _ _ _ Hi Hf Hl) (stopping_fire _ _ _ Hs Hl)
              (ready_fire _ _ _ Hl Hr)) as (Hle & ?). split; [|done].
  destruct (progresses l); lia.
Qed.
End capacity.

(** A worker that returned without its first operation is never counted. *)
Lemma returned_fire j first l s s' :
  workers s !! j = Some (WDone first) -> fire target e l s = Some s' -> workers s' !! j = Some (WDone first).
Proof.
  intros E H. assert (Hne : forall k' w w', workers s !! k' = Some w -> returned w = false ->
    <[k' := w']> (workers s) !! j = Some (WDone first)).
  { intros k' w w' Ew Hw. rewrite list_lookup_insert_ne; [done|]. intros ->. by simplify_eq. }
  fire_cases H; simpl; try done; by eapply Hne.
Qed.

Lemma run_inv n s s' : inv s -> run target e n s s' -> inv s'.
Proof. intros Hi H. induction H; [done|]. eauto using inv_fire. Qed.
End phase.
