(* ===== verification/H2LoadMain.v ===== *)
(** go-http2-executor: a load run, [main] and its exit code, and the theorems of the
    load executor. *)
From S2P Require Export Prelude Stats GoText GoHash H2Load H2LoadPhase H2LoadProps.

(** ** A phase and a run *)

(** [runLoadPhase]: the connections are dialled in order, the first failure ends the
    phase; otherwise the phase runs to [finished]. *)
Definition runLoadPhase (dials : list (res unit)) (seconds : float64) (connections : nat) (finished : phaseState)
    : phaseSummary * option goerror :=
  match omap (fun d => match d with Err err => Some err | Ok _ => None end) dials with
  | err :: _ => (with_duration seconds (summary (newRecorder connections)), Some err)
  | [] => (summary (recorder finished), cancelled finished)
  end.

Record normalizedLoadShape := LoadShape {
  NConnections : Z; NConcurrency : Z; NStreamsPerConnection : Z;
  NDurationSeconds : float64; NWarmupSeconds : float64; NRequestTimeoutSeconds : float64;
  NRepetition : Z; NDistribution : string;
  MaximumActiveStreamsByConnection : list Z; NPeerLimits : list Z; Clamped : bool; Redistributed : bool
}.
Record normalizedProtocolProof := ProtocolProof {
  RequestedProtocol : string; ObservedProtocol : string; ExecutionVariant : string;
  ExactProtocolMatched : bool; NFallbackDetected : bool; NObservedDials : Z;
  ConfiguredStreamsPerConnection : Z; NMaximumActiveOperations : Z;
  MaximumObservedActiveStreams : Z; MinimumPeerAdvertisedMaxConcurrentStreams : Z
}.
Record executorResult := ExecutorResult {
  Validation : string; ExecutableHash : string; Proof_ : normalizedProtocolProof;
  RequestedLoad : normalizedLoadShape; EffectiveLoad : normalizedLoadShape;
  Metrics : httpMetrics; Warnings : list string
}.

Definition requestedShape (c : loadConfig) : normalizedLoadShape :=
  LoadShape (Connections c) (Concurrency c) (StreamsPerConnection c) (seconds (Duration c)) (seconds (Warmup c))
    (seconds (RequestTimeout c)) (Repetition c) (OperationDistribution c) [] [] false false.
Definition effectiveShape (c : loadConfig) (measured : phaseSummary) : normalizedLoadShape :=
  LoadShape (ObservedDials measured) (MaximumActiveOperations measured) (StreamsPerConnection c)
    (seconds (Duration c)) (seconds (Warmup c)) (seconds (RequestTimeout c)) (Repetition c) (OperationDistribution c)
    (MaximumActiveOperationsByDial measured) (PeerAdvertisedMaxConcurrentStreamsByDial measured) false false.

Definition localWarning : string :=
  "HTTP/2 h2c execution is local smoke or diagnostic evidence only; TLS/ALPN and ranking use are unsupported.".
Definition comparisonWarning : string :=
  "HTTP/2 h2c execution satisfies the comparison load contract, but same-host or single-implementation evidence is not publishable or ranking eligible.".

(** What a run meets besides its phases: the artifact writes and its own executable. *)
Definition runH2CLoad (warmup measured : phaseSummary * option goerror) (write : string -> option goerror)
    (executableHash : res string) (c : loadConfig) : res executorResult :=
  let? _ := (if 0 <? Warmup c then
               match warmup.2 with Some err => Err (EWrap "HTTP/2 warmup failed" err) | None => Ok tt end
             else Ok tt) in
  let '(m, err) := measured in
  match write "http2-load-summary.json", err with
  | Some err, _ => Err err
  | None, Some err => Err (EWrap "HTTP/2 measured phase failed" err)
  | None, None =>
      guard (FailedRequests m =? 0) && (TimeoutRequests m =? 0) && negb (SuccessfulRequests m =? 0)
        else EMsg ("HTTP/2 measured phase rejected: successful=" +:+ pretty (SuccessfulRequests m)
                   +:+ " failed=" +:+ pretty (FailedRequests m) +:+ " timedOut=" +:+ pretty (TimeoutRequests m)) in
      match validateMeasuredTopology m c with
      | Some err => Err err
      | None =>
          let? hash := executableHash in
          match write "http2-topology.json" with
          | Some err => Err err
          | None =>
              Ok (ExecutorResult "passed" hash
                    (ProtocolProof requestedFamily requestedFamily requestedExecutionVariant true false
                       (ObservedDials m) (StreamsPerConnection c) (MaximumActiveOperations m)
                       (maxInt (MaximumObservedActiveStreamsByDial m))
                       (minPositiveUint32 (PeerAdvertisedMaxConcurrentStreamsByDial m)))
                    (requestedShape c) (effectiveShape c m) (normalizePhaseMetrics m)
                    [if String.eqb (LoadProfileID c) "http2-comparison" then comparisonWarning else localWarning])
          end
      end
  end.

(** ** [main] *)

Record mainEnv := MainEnv {
  m_getenv : string -> string;
  m_targetURL : string; m_parsed : res parsedURL;      (* the flag, and what url.Parse makes of it *)
  m_timeout : Z; m_validationOnly : bool; m_showVersion : bool;
  m_mkdir : option goerror; m_write : string -> option goerror; m_stdout : option goerror;
  m_dial : string -> option goerror; m_newClient : option goerror;
  m_checks : nat -> checkEnv;                          (* what the n-th validation check meets *)
  m_warmup : phaseSummary * option goerror; m_measured : phaseSummary * option goerror;
  m_hash : res string
}.

Definition substitution (getenv : string -> string) (name expected : string) : bool :=
  let observed := trim_space (getenv name) in
  negb (String.eqb observed "") && negb (String.eqb observed expected).

(** The validation: its checks and the number of connections. *)
Definition validate (env : mainEnv) (expectations : list scenarioExpectation) : list checkResult * Z :=
  match dialH2C (m_parsed env) (m_dial env) (m_newClient env) with
  | Err err => ((fun e => failedDialCheck e err) <$> expectations, 0)
  | Ok _ => (imap (fun i e => runCheck (m_parsed env) (m_checks env i) e) expectations, 1)
  end.

(** The first artifact that cannot be written. *)
Definition firstWriteError (write : string -> option goerror) (names : list string) : option goerror :=
  head (omap write names).

Definition runLoad (env : mainEnv) : Z * option executorResult :=
  match loadConfigFromEnvironment (m_getenv env) with
  | Err _ => (2, None)
  | Ok c =>
      match findExpectation (LScenarioID c) with
      | Err _ => (2, None)
      | Ok _ =>
          match runH2CLoad (m_warmup env) (m_measured env) (m_write env) (m_hash env) c with
          | Err _ => (1, None)
          | Ok result =>
              match firstWriteError (m_write env) ["load-generator-identity.json"; "http-executor-result.json"],
                    m_stdout env with
              | None, None => (0, Some result)
              | _, _ => (1, None)
              end
          end
      end
  end.

(** The exit code, and the result written to standard output. *)
Definition main (env : mainEnv) : Z * option executorResult :=
  if m_showVersion env then (0, None)
  else if String.eqb (trim_space (m_targetURL env)) "" || (m_timeout env <=? 0)
     || existsb (fun '(n, v) => substitution (m_getenv env) n v)
          [("PLAB_EXECUTOR_ID", executorID); ("PLAB_EXECUTOR_VERSION", executorVersion);
           ("PLAB_PROTOCOL", requestedFamily); ("PLAB_PROTOCOL_VARIANT", requestedExecutionVariant)]
  then (2, None) else
  match m_mkdir env, selectedExpectations (trim_space (m_getenv env "PLAB_SCENARIO_ID")) with
  | Some _, _ => (1, None)
  | None, Err _ => (2, None)
  | None, Ok expectations =>
      let '(checks, observedConnections) := validate env expectations in
      let passed := s_passed (summarizeChecks checks) && (observedConnections =? 1) in
      match firstWriteError (m_write env)
              ["validation.json"; "result.json"; "protocol-proof.json"; "executor-identity.json"] with
      | Some _ => (1, None)
      | None =>
          if negb passed then (1, None)
          else if m_validationOnly env then (0, None)
          else runLoad env
      end
  end.

(** ** Facts *)

(** The configurations the executor accepts: one slot per worker, all of them in range. *)
Lemma config_shape getenv c :
  loadConfigFromEnvironment getenv = Ok c ->
  0 < Connections c <= 16 /\ 0 < StreamsPerConnection c <= 8 /\
  Concurrency c = Connections c * StreamsPerConnection c /\ 0 < ExecutionTimeout c.
Proof.
  unfold loadConfigFromEnvironment. cbn zeta. generalize (environmentConfig getenv) as c0. intros c0 H.
  pass_guard H. destruct (expectedProfiles _) as [p|] eqn:Ep; [|done].
  assert (Hp : 0 < PConnections p <= 16 /\ 0 < PStreams p <= 8 /\ PConcurrency p = PConnections p * PStreams p
               /\ 0 < PDurationSeconds p /\ 0 < PWarmupSeconds p).
  { unfold expectedProfiles in Ep. repeat case_match; simplify_eq/=; lia. }
  repeat pass_guard H. injection H as <-. reflect_bools. unfold second in *.
  cbn [Connections Concurrency StreamsPerConnection ExecutionTimeout].
  destruct Hp as (? & ? & ? & ? & ?). split_and!; [lia|lia|lia|lia|congruence|].
  destruct (ExecutionTimeout c0 <=? 0) eqn:?; reflect_bools; lia.
Qed.

Lemma capacity_of_config getenv c :
  loadConfigFromEnvironment getenv = Ok c ->
  Z.to_nat (Concurrency c) = (Z.to_nat (Connections c) * Z.to_nat (StreamsPerConnection c))%nat.
Proof. intros H. apply config_shape in H. nia. Qed.

(** A phase of configuration [c] that ran to its end. *)
Definition phaseRan (target : res parsedURL) (e : scenarioExpectation) (c : loadConfig) (s : phaseState) : Prop :=
  reachable (Z.to_nat (Connections c)) (Z.to_nat (Concurrency c)) (Z.to_nat (StreamsPerConnection c)) target e s
  /\ H2LoadPhase.main s = MDone.

Lemma ran_inv target e c s :
  phaseRan target e c s ->
  inv (Z.to_nat (Connections c)) (Z.to_nat (Concurrency c)) (Z.to_nat (StreamsPerConnection c)) e s.
Proof. intros [H _]. by eapply reachable_inv. Qed.

Lemma validateConnections_spec c index active peers :
  0 <= StreamsPerConnection c < 4294967296 -> 0 < StreamsPerConnection c ->
  length active = length peers -> Forall (fun a => a <= StreamsPerConnection c) active ->
  validateConnections index active peers c = None <-> Forall (fun p => StreamsPerConnection c <= p) peers.
Proof.
  intros Hr Hp. revert index active; induction peers as [|p peers IH]; intros index [|a active] Hl Ha; simpl in *; try lia.
  { split; auto. }
  inversion_clear Ha. unfold u32. rewrite (Z.mod_small _ 4294967296) by lia.
  rewrite (proj2 (Z.ltb_ge _ _)) by lia. rewrite Forall_cons.
  destruct (_ || _) eqn:E.
  - split; [done|]. intros [Hle _]. apply orb_true_iff in E as [E|E]; reflect_bools; lia.
  - reflect_bools. rewrite IH by (done || lia). split; [|tauto]. intros. split; [lia|done].
Qed.

(** What a finished phase of an accepted configuration has measured. *)
Lemma ran_topology getenv c target e s :
  loadConfigFromEnvironment getenv = Ok c -> phaseRan target e c s ->
  let m := summary (recorder s) in
  ObservedDials m = Connections c /\ MaximumActiveOperations m = Concurrency c /\
  MaximumActiveOperationsByDial m = replicate (Z.to_nat (Connections c)) (StreamsPerConnection c) /\
  len (PeerAdvertisedMaxConcurrentStreamsByDial m) = Connections c.
Proof.
  intros Hc Hran. pose proof (capacity_of_config _ _ Hc) as Hcap. apply config_shape in Hc as (Hconn & Hs & Hconc & _).
  pose proof (ran_inv _ _ _ _ Hran) as Hi. destruct Hran as [Hreach Hmain].
  pose proof (reachable_full _ _ _ _ _ Hcap _ Hreach) as Hf.
  assert (Hready : ready s = 0%nat) by (apply (bo_main _ (inv_barrier _ _ _ _ _ Hi)); congruence).
  cbn zeta. split_and!.
  - rewrite (inv_dials _ _ _ _ _ Hi). lia.
  - rewrite (fo_max _ _ _ Hf Hready). lia.
  - apply list_eq. intros i. pose proof (ao_mlen _ _ _ _ _ (inv_active _ _ _ _ _ Hi)) as Hlen.
    destruct (decide (i < Z.to_nat (Connections c))%nat) as [Hlt|Hge].
    + rewrite lookup_replicate_2 by done. rewrite <-Hlen in Hlt.
      apply lookup_lt_is_Some_2 in Hlt as [v Hv]. rewrite Hv, (fo_dial _ _ _ Hf Hready _ _ Hv). f_equal. lia.
    + rewrite lookup_ge_None_2 by lia. symmetry. apply lookup_ge_None_2. rewrite length_replicate. lia.
  - unfold len. rewrite (inv_peers _ _ _ _ _ Hi). lia.
Qed.

(** ** Theorems *)

(** The scheduler is a round robin that never overbooks: [acquire]'s scan takes the
    first connection at or after [next], cyclically, that has fewer operations than its
    streams, books one slot there and moves [next] past it; it finds none exactly when
    every connection is full. *)
Lemma acquire_round_robin s :
  slots s <> [] ->
  match tryAcquire s with
  | Some (i, s') =>
      exists k used, i = turn s k /\ (k < length (slots s))%nat /\
        slots s !! i = Some used /\ (used < cap s)%nat /\
        (forall j, (j < k)%nat -> slot_full s (turn s j)) /\
        s' = Scheduler (S i mod length (slots s))%nat (cap s) (<[i := S used]> (slots s)) (notify s)
  | None => forall i, (i < length (slots s))%nat -> slot_full s i
  end.
Proof.
  intros Hs. destruct (tryAcquire s) as [[i s']|] eqn:E; [|by intros; apply tryAcquire_none].
  pose proof (tryAcquire_some _ _ _ E) as [_ ->]. unfold tryAcquire in E.
  pose proof (scan_spec s (length (slots s)) 0 Hs) as H. destruct (scan _ _ s) as [i'|]; [|done].
  injection E as ->. destruct H as (k & Hk & -> & (used & Hu & Hlt) & Hfull).
  exists k, used. split_and!; try done; [lia| |by rewrite (alter_S_insert _ _ _ Hu)].
  intros j Hj. apply Hfull. lia.
Qed.

(** C12: at every moment of a load phase, whatever the interleaving of its workers: a
    connection's channel holds exactly one element per worker that has a slot there, at
    most [streams]; the recorder's count of active operations is the number of workers in
    an operation, and its maxima never exceed the configuration; every finished request
    is counted once, as a success, a failure or a timeout, with its latency; and the
    octets received are those of the expected body, once per success. *)
Theorem load_phase_bounds connections concurrency streams target e s :
  reachable connections concurrency streams target e s ->
  let m := summary (recorder s) in
  (forall i used, slots (sched s) !! i = Some used ->
     used = holders i (workers s) /\ (used <= streams)%nat) /\
  activeOperations (recorder s) = Z.of_nat (active (workers s)) /\
  activeOperations (recorder s) <= MaximumActiveOperations m <= Z.of_nat concurrency /\
  Forall (fun n => 0 <= n <= Z.of_nat streams) (MaximumActiveOperationsByDial m) /\
  TotalRequests m = SuccessfulRequests m + FailedRequests m + TimeoutRequests m /\
  len (LatencySamplesMilliseconds m) = TotalRequests m /\
  BytesReceived m = SuccessfulRequests m * len (e_body e).
Proof.
  intros H. apply reachable_inv in H as [_ Hs Ha _ [Ht _ Hl Hb] _ _].
  pose proof (ao_active _ _ _ _ _ Ha) as Hact. pose proof (ao_max _ _ _ _ _ Ha) as Hmax. cbn zeta.
  split; [apply Hs|]. split_and!; try done; try lia.
  apply Forall_lookup. intros i n Hn. pose proof (ao_mdial _ _ _ _ _ Ha i n Hn). lia.
Qed.

(** The measured phase of the smoke profile, with one operation. *)
Definition plaintext : scenarioExpectation :=
  Expectation "http2.core.plaintext" "/plaintext" 200 "text/plain" (bytes_of_string "Hello, World!").
Definition smoke_target : res parsedURL := Ok (ParsedURL "http" "" "127.0.0.1:8080" "127.0.0.1" "8080").
Definition smoke_check : checkEnv :=
  CheckEnv None (Ok (HttpResponse 200 "text/plain; charset=utf-8" "HTTP/2.0" 2 0
                       (Stream (e_body plaintext) EEOF))).
Definition smoke_turn : label := LWorker 0 (Outcome 1500000 700000 smoke_check false).
Definition smoke_advance : label := LMain [ClientConnState 0 0 250] (f_of_Z 5).
Definition smoke_start : list label :=
  replicate 4 smoke_turn ++ [smoke_advance; LSample [ClientConnState 1 0 250]; smoke_advance]
  ++ replicate 4 smoke_turn.
Definition smoke_end : list label := LDeadline :: smoke_turn :: replicate 3 smoke_advance.
Definition after (ls : list label) : phaseState :=
  default (initialState 1 1 1) (play smoke_target plaintext ls (initialState 1 1 1)).

Lemma after_reachable ls :
  is_Some (play smoke_target plaintext ls (initialState 1 1 1)) ->
  reachable 1 1 1 smoke_target plaintext (after ls).
Proof.
  intros [s E]. unfold after. rewrite E. eapply play_reachable; [constructor|exact E].
Qed.

Lemma load_phase_bounds_witness :
  reachable 1 1 1 smoke_target plaintext (after (take 9 smoke_start)) /\
  slots (sched (after (take 9 smoke_start))) = [1%nat] /\
  (forall i used, slots (sched (after (take 9 smoke_start))) !! i = Some used ->
     used = holders i (workers (after (take 9 smoke_start))) /\ (used <= 1)%nat).
Proof.
  assert (H : reachable 1 1 1 smoke_target plaintext (after (take 9 smoke_start))).
  { apply after_reachable. vm_compute. eauto. }
  split; [exact H|]. split; [vm_compute; reflexivity|].
  apply (load_phase_bounds 1 1 1 smoke_target plaintext _ H).
Defined.

(** C10: the start barrier makes the topology proof exact. For every configuration the
    executor accepts, however the workers interleave and whatever the target answers, a
    phase that ran to its end has measured the configured number of connections, the
    configured concurrency and, on every connection, exactly the configured streams; so
    [validateMeasuredTopology] accepts it precisely when every peer advertised room for
    the configured streams. *)
Theorem finished_phase_proves_topology getenv c target e s :
  loadConfigFromEnvironment getenv = Ok c -> phaseRan target e c s ->
  let m := summary (recorder s) in
  ObservedDials m = Connections c /\ MaximumActiveOperations m = Concurrency c /\
  MaximumActiveOperationsByDial m = replicate (Z.to_nat (Connections c)) (StreamsPerConnection c) /\
  (validateMeasuredTopology m c = None
   <-> Forall (fun p => StreamsPerConnection c <= p) (PeerAdvertisedMaxConcurrentStreamsByDial m)).
Proof.
  intros Hc Hran. destruct (ran_topology _ _ _ _ _ Hc Hran) as (Hd & Hm & Hdial & Hp).
  apply config_shape in Hc as (Hconn & Hs & Hconc & _). cbn zeta in *. split_and!; try done.
  unfold validateMeasuredTopology. rewrite Hd, Hm, Hp, Hdial. unfold len at 1. rewrite length_replicate.
  rewrite Z2Nat.id, !Z.eqb_refl by lia. cbn [negb orb]. apply validateConnections_spec; [lia|lia| |].
  - rewrite length_replicate. unfold len in Hp. lia.
  - apply Forall_replicate. lia.
Qed.

Definition smoke_environment (name : string) : string :=
  if String.eqb name "PLAB_SCENARIO_ID" then "http2.core.plaintext"
  else if String.eqb name "PLAB_LOAD_PROFILE_ID" then "http2-smoke"
  else if string_in ["PLAB_CONNECTIONS"; "PLAB_CONCURRENCY"; "PLAB_STREAMS_PER_CONNECTION";
                     "PLAB_WARMUP_SECONDS"] name then "1"
  else if string_in ["PLAB_DURATION_SECONDS"; "PLAB_REQUEST_TIMEOUT_SECONDS"] name then "5" else "".
Definition smoke_config : loadConfig :=
  LoadConfig "http2.core.plaintext" "http2-smoke" 1 1 1 "balanced-round-robin" (5 * second) (1 * second) 1
    (5 * second) (36 * second).
Definition smoke_finished : phaseState := after (smoke_start ++ smoke_end).

Lemma smoke_accepted : loadConfigFromEnvironment smoke_environment = Ok smoke_config.
Proof. vm_compute. reflexivity. Qed.

Lemma smoke_ran : phaseRan smoke_target plaintext smoke_config smoke_finished.
Proof. split; [apply after_reachable; vm_compute; eauto|vm_compute; reflexivity]. Qed.

Lemma finished_phase_proves_topology_witness :
  loadConfigFromEnvironment smoke_environment = Ok smoke_config /\
  phaseRan smoke_target plaintext smoke_config smoke_finished /\
  validateMeasuredTopology (summary (recorder smoke_finished)) smoke_config = None.
Proof.
  split; [exact smoke_accepted|]. split; [exact smoke_ran|].
  apply (finished_phase_proves_topology smoke_environment smoke_config smoke_target plaintext _
           smoke_accepted smoke_ran).
  vm_compute. repeat constructor; discriminate.
Defined.

(** C11: a load phase ends. Once the deadline has passed or the context is done, and
    every worker has started its first operation, the goroutines can take only [work s]
    more steps however they are scheduled and however often the sampler runs between
    them, and at no moment before the end are they all blocked: no worker sleeps in
    [acquire] and every slot is given back. *)
Theorem load_phase_terminates connections concurrency streams target e s :
  concurrency = (connections * streams)%nat ->
  reachable connections concurrency streams target e s -> stopping s -> ready s = 0%nat ->
  forall n s', run target e n s s' ->
    (n <= work s)%nat /\
    (H2LoadPhase.main s' = MDone \/ exists l s'', progresses l = true /\ fire target e l s' = Some s'').
Proof.
  intros Hcap Hr Hs Hready n s' Hrun. pose proof (reachable_inv _ _ _ _ _ _ Hr) as Hi.
  pose proof (reachable_full _ _ _ _ _ Hcap _ Hr) as Hf.
  destruct (run_terminates _ _ _ _ _ Hcap _ _ _ Hi Hf Hs Hready Hrun) as (Hle & Hi' & Hf' & Hr').
  split; [lia|]. destruct (decide (H2LoadPhase.main s' = MDone)) as [|Hne]; [by left|right].
  by eapply progress.
Qed.

Lemma load_phase_terminates_witness :
  let s := after (smoke_start ++ [LDeadline]) in
  reachable 1 1 1 smoke_target plaintext s /\ work s = 4%nat /\
  (H2LoadPhase.main s = MDone \/
   exists l s'', progresses l = true /\ fire smoke_target plaintext l s = Some s'').
Proof.
  assert (H : reachable 1 1 1 smoke_target plaintext (after (smoke_start ++ [LDeadline]))).
  { apply after_reachable. vm_compute. eauto. }
  split; [exact H|]. split; [vm_compute; reflexivity|].
  apply (load_phase_terminates 1 1 1 smoke_target plaintext (after (smoke_start ++ [LDeadline]))
           eq_refl H ltac:(vm_compute; reflexivity) ltac:(vm_compute; reflexivity) 0).
  apply run_refl.
Defined.

(** C37: the start barrier has one way to hang. A worker that returns before its first
    operation (the context was done, or the deadline passed, before it could begin) never
    calls [initialOperationsReady.Done]; from then on, whatever happens, the main
    goroutine stays in [initialOperationsReady.Wait], and [runLoadPhase] never returns. *)
Theorem early_return_blocks_the_phase connections concurrency streams target e s k :
  reachable connections concurrency streams target e s -> workers s !! k = Some (WDone true) ->
  forall n s', run target e n s s' -> H2LoadPhase.main s' = MWaitReady /\ gate s' = false.
Proof.
  intros Hr Hk n s' Hrun. apply reachable_inv in Hr.
  assert (Hk' : workers s' !! k = Some (WDone true)).
  { clear Hr. induction Hrun as [|n l s s1 s' Hl _ IH]; [done|]. apply IH. by eapply returned_fire. }
  destruct (inv_barrier _ _ _ _ _ (run_inv _ _ _ _ _ _ _ _ Hr Hrun)) as [Hb Hg _ Hm _].
  pose proof (countb_pos unarrived (workers s') _ (list_elem_of_lookup_2 _ _ _ Hk') eq_refl).
  assert (Hmain : H2LoadPhase.main s' = MWaitReady).
  { destruct (decide (H2LoadPhase.main s' = MWaitReady)) as [|Hne]; [done|]. specialize (Hm Hne). lia. }
  by rewrite Hg, Hmain.
Qed.

Lemma early_return_blocks_the_phase_witness :
  let s := after [LCancel EDeadline; smoke_turn] in
  reachable 1 1 1 smoke_target plaintext s /\ workers s = [WDone true] /\
  forall n s', run smoke_target plaintext n s s' -> H2LoadPhase.main s' = MWaitReady /\ gate s' = false.
Proof.
  assert (H : reachable 1 1 1 smoke_target plaintext (after [LCancel EDeadline; smoke_turn])).
  { apply after_reachable. vm_compute. eauto. }
  split; [exact H|]. split; [vm_compute; reflexivity|].
  apply (early_return_blocks_the_phase 1 1 1 smoke_target plaintext _ 0 H). vm_compute. reflexivity.
Defined.

Lemma runH2CLoad_ok warmup m err write hash c result :
  runH2CLoad warmup (m, err) write hash c = Ok result ->
  err = None /\ FailedRequests m = 0 /\ TimeoutRequests m = 0 /\ SuccessfulRequests m <> 0 /\
  validateMeasuredTopology m c = None /\ Metrics result = normalizePhaseMetrics m /\
  RequestedLoad result = requestedShape c /\ EffectiveLoad result = effectiveShape c m.
Proof.
  unfold runH2CLoad. destruct (if 0 <? Warmup c then _ else _); [|done]. cbn [res_bind].
  destruct (write "http2-load-summary.json"), err; try done. intros H. pass_guard H. reflect_bools.
  destruct (validateMeasuredTopology m c); [done|]. destruct hash; [|done]. cbn [res_bind] in H.
  destruct (write "http2-topology.json"); [done|]. by injection H as <-.
Qed.

Lemma findExpectation_ok id e : findExpectation id = Ok e -> e ∈ defaultExpectations /\ e_id e = id.
Proof.
  unfold findExpectation. destruct (find _ _) as [x|] eqn:E; [|done]. intros [= <-].
  apply find_some in E as [Hin Heq]. apply String.eqb_eq in Heq. split; [by apply list_elem_of_In|done].
Qed.

(** A main that printed a result has run both gates. *)
Lemma main_printed env result :
  main env = (0, Some result) ->
  exists expectations c e,
    selectedExpectations (trim_space (m_getenv env "PLAB_SCENARIO_ID")) = Ok expectations /\
    Forall (fun check => CPassed check = true) (validate env expectations).1 /\
    (validate env expectations).2 = 1 /\
    loadConfigFromEnvironment (m_getenv env) = Ok c /\ findExpectation (LScenarioID c) = Ok e /\
    runH2CLoad (m_warmup env) (m_measured env) (m_write env) (m_hash env) c = Ok result.
Proof.
  unfold main. destruct (m_showVersion env); [done|]. destruct (_ || _ || _); [done|].
  destruct (m_mkdir env); [done|]. destruct (selectedExpectations _) as [es|]; [|done].
  destruct (validate env es) as [checks n] eqn:Ev. destruct (firstWriteError _ _); [done|].
  destruct (s_passed _ && (n =? 1)) eqn:Ep; [|done]. cbn [negb]. destruct (m_validationOnly env); [done|].
  unfold runLoad. destruct (loadConfigFromEnvironment _) as [c|] eqn:Ec; [|done].
  destruct (findExpectation _) as [e|] eqn:Ee; [|done].
  destruct (runH2CLoad _ _ _ _ c) as [r|] eqn:Er; [|done].
  destruct (firstWriteError _ _), (m_stdout env); try done. intros [= <-].
  cbn [s_passed summarizeChecks] in Ep. reflect_bools. exists es, c, e. rewrite Ev. split_and!; try done.
  by apply List.Forall_forall, forallb_forall.
Qed.

(** C13: a result on standard output is earned. If go-http2-executor prints a result and
    exits 0, then the environment held a committed profile, every validation check saw
    its exact response over exactly HTTP/2 on the one connection, and, the measured phase
    being a run of [runLoadPhase], some request succeeded, none failed or timed out, the
    octets received are the expected body times the successes, the effective connections
    and concurrency are the requested ones, every connection reached exactly the
    configured streams and every peer advertised room for them. *)
Theorem h2c_load_result_is_earned env result :
  main env = (0, Some result) ->
  (forall c e, loadConfigFromEnvironment (m_getenv env) = Ok c -> findExpectation (LScenarioID c) = Ok e ->
     exists s dials d, phaseRan (m_parsed env) e c s /\
       m_measured env = runLoadPhase dials d (Z.to_nat (Connections c)) s) ->
  exists expectations c e,
    selectedExpectations (trim_space (m_getenv env "PLAB_SCENARIO_ID")) = Ok expectations /\
    Forall (fun check => CPassed check = true) (validate env expectations).1 /\
    (validate env expectations).2 = 1 /\
    loadConfigFromEnvironment (m_getenv env) = Ok c /\ findExpectation (LScenarioID c) = Ok e /\
    0 < MSuccessful (Metrics result) /\ MFailed (Metrics result) = 0 /\ MTimeout (Metrics result) = 0 /\
    MTotal (Metrics result) = MSuccessful (Metrics result) /\
    MBytesReceived (Metrics result) = MSuccessful (Metrics result) * len (e_body e) /\
    NConnections (EffectiveLoad result) = NConnections (RequestedLoad result) /\
    NConcurrency (EffectiveLoad result) = NConcurrency (RequestedLoad result) /\
    MaximumActiveStreamsByConnection (EffectiveLoad result)
    = replicate (Z.to_nat (Connections c)) (StreamsPerConnection c) /\
    Forall (fun p => StreamsPerConnection c <= p) (NPeerLimits (EffectiveLoad result)).
Proof.
  intros Hmain Hphase. apply main_printed in Hmain as (es & c & e & Hes & Hall & Hone & Hc & He & Hrun).
  destruct (Hphase c e Hc He) as (s & dials & d & Hran & Hm).
  destruct (m_measured env) as [m err] eqn:Em. apply runH2CLoad_ok in Hrun as (-> & Hf & Ht & Hok & Htop & HM & HR & HE).
  unfold runLoadPhase in Hm. destruct (omap _ dials); [|done]. injection Hm as -> Hctx.
  destruct (inv_counts _ _ _ _ _ (ran_inv _ _ _ _ Hran)) as [Htot Hnn _ Hbytes].
  destruct (ran_topology _ _ _ _ _ Hc Hran) as (Hd & Hmax & Hdial & Hpeer).
  exists es, c, e. rewrite HM, HE, HR. unfold normalizePhaseMetrics, effectiveShape, requestedShape.
  cbn [MSuccessful MFailed MTimeout MTotal MBytesReceived NConnections NConcurrency
       MaximumActiveStreamsByConnection NPeerLimits].
  split_and!; try done; try lia.
  unfold validateMeasuredTopology in Htop. destruct (_ || _ || _ || _); [done|].
  pose proof (config_shape _ _ Hc) as (Hcb & Hsb & _ & _). revert Htop. rewrite Hdial.
  apply validateConnections_spec; [lia|lia| |].
  - rewrite length_replicate. unfold len in Hpeer. lia.
  - apply Forall_replicate. lia.
Qed.

Definition smoke_phase : phaseSummary * option goerror := runLoadPhase [Ok tt] (f_of_Z 5) 1 smoke_finished.
Definition smoke_main : mainEnv :=
  MainEnv smoke_environment "http://127.0.0.1:8080" smoke_target (10 * second) false false None
    (fun _ => None) None (fun _ => None) None (fun _ => smoke_check) smoke_phase smoke_phase (Ok "00").
Definition smoke_result : executorResult :=
  match (main smoke_main).2 with
  | Some r => r
  | None => ExecutorResult "" "" (ProtocolProof "" "" "" false false 0 0 0 0 0) (requestedShape smoke_config)
              (requestedShape smoke_config) (normalizePhaseMetrics smoke_phase.1) []
  end.

Lemma h2c_load_result_is_earned_witness :
  main smoke_main = (0, Some smoke_result) /\ MSuccessful (Metrics smoke_result) = 1 /\
  exists c, loadConfigFromEnvironment smoke_environment = Ok c /\
    NConnections (EffectiveLoad smoke_result) = NConnections (RequestedLoad smoke_result).
Proof.
  assert (H : main smoke_main = (0, Some smoke_result)) by (vm_compute; reflexivity).
  split; [exact H|]. split; [vm_compute; reflexivity|].
  destruct (h2c_load_result_is_earned smoke_main smoke_result H) as (_ & c & _ & _ & _ & _ & Hc & _ & _ & _ & _ & _ & _ & Hn & _).
  - intros c e Hc He. change (m_getenv smoke_main) with smoke_environment in Hc. rewrite smoke_accepted in Hc.
    injection Hc as <-. exists smoke_finished, [Ok tt], (f_of_Z 5).
    assert (He' : e = plaintext) by (vm_compute in He; injection He as <-; vm_compute; reflexivity).
    rewrite He'. split; [exact smoke_ran|reflexivity].
  - exists c. split; [exact Hc|exact Hn].
Defined.
