(* ===== verification/DnsWire.v ===== *)
(** What the DNS packages share: the fixtures of a query for plab.test, message IDs,
    the two-octet framing, and the phase loop their executors repeat. *)
From S2P Require Export Prelude Stats GoText GoHash.

(** ** Messages *)

(** [mustHex] of a constant. *)
Definition mustHex (value : string) : bytes := default [] (hex_decode value).
Definition hash (value : bytes) : string := sha256_hex value.

(** [binary.BigEndian.PutUint16(b[:2], id)] on a copy of the message. *)
Definition withID (m : bytes) (id : Z) : bytes := be_encode 2 id ++ drop 2 m.
(** [binary.BigEndian.Uint16(b[:2])]. *)
Definition messageID (m : bytes) : Z := be_decode (take 2 m).
(** The length prefix, [uint16(len(m))], and the message. *)
Definition frame (m : bytes) : bytes := be_encode 2 (u16 (len m)) ++ m.

Definition aQuery : bytes := mustHex "00000000000100000000000004706c616204746573740000010001".
Definition aResponse : bytes :=
  mustHex "00008400000100010000000004706c616204746573740000010001c00c00010001000000000004c0000201".
Definition aQueryHash : string := "c46b9fb76019b5a644d0884b17e816cb7c3076275d9468c27d180f70488eb8ec".
Definition aResponseHash : string := "9d488461675ad5ab9f74c7b203861e1ad17521e413a407a25e6611012a595620".

(** The fixture of the resolver scenarios: recursion is asked for. *)
Definition resolverQuery : bytes := mustHex "00000100000100000000000004706c616204746573740000010001".
Definition resolverResponse : bytes :=
  mustHex "00008180000100010000000004706c616204746573740000010001c00c00010001000000000004c0000201".
Definition resolverQueryHash : string := "423b6325f73f2f72a948fe3b5593e99201b0cb24f0dcdcffe897e784da3106c6".
Definition resolverResponseHash : string := "c63893fec8b20373c3233d3c4884b9f84e3d15a01218ccb144422f074b778931".

(** ** The environment and the resolver's control endpoint *)

Definition env_value (getenv : string -> string) (name : string) : string := trim_space (getenv name).
Definition envInt (getenv : string -> string) (name : string) : Z := atoi_value (env_value getenv name).

(** [flushResolverCache]: the target's host and port ([net.SplitHostPort]) and the reply to
    the POST of the control URL, its status and body. *)
Definition flushResolverCache (getenv : string -> string) (address : res (string * string))
    (post : string -> res (Z * bytes)) : option goerror :=
  match address with
  | Err err => Some (EWrap "resolver control address" err)
  | Ok (host, portText) =>
      match atoi portText with
      | None => Some (EMsg "resolver control port: invalid syntax")
      | Some port =>
          let joined := joinHostPort host (pretty (port + 1)) in
          let configured := env_value getenv "PLAB_RESOLVER_CONTROL_URL" in
          let controlURL := if String.eqb configured "" then "http://" +:+ joined +:+ "/flush" else configured in
          match post controlURL with
          | Err err => Some (EWrap "resolver cache flush failed" err)
          | Ok (status, body) =>
              if status =? 204 then None
              else Some (EMsg ("resolver cache flush returned " +:+ pretty status +:+ ": "
                               +:+ trim_space (string_of_bytes (take 1024 body))))
          end
      end
  end.

(** ** Phases *)

(** The summary of a phase, with proofs of type [P]. *)
Record phaseSummary (P : Type) := PhaseSummary {
  DurationSeconds : float64; ConnectionLatency : float64;
  CompletedOperations : Z; MalformedOperations : Z; RetryCount : Z; FailedOperations : Z; TimedOutOperations : Z;
  TotalTransferredBytes : Z; Latencies : list float64; LastProof : option P; Errors : gmap string Z
}.
Arguments PhaseSummary {P}.
Arguments DurationSeconds {P}.
Arguments ConnectionLatency {P}.
Arguments CompletedOperations {P}.
Arguments MalformedOperations {P}.
Arguments RetryCount {P}.
Arguments FailedOperations {P}.
Arguments TimedOutOperations {P}.
Arguments TotalTransferredBytes {P}.
Arguments Latencies {P}.
Arguments LastProof {P}.
Arguments Errors {P}.

Section phase.
Context {P : Type}.

Definition emptySummary (connectionLatency : float64) : phaseSummary P :=
  PhaseSummary f_zero connectionLatency 0 0 0 0 0 0 [] None ∅.

Definition bump (key : string) (counts : gmap string Z) : gmap string Z :=
  <[key := default 0 (counts !! key) + 1]> counts.

(** A failed operation is malformed, timed out or failed. *)
Definition classify (err : goerror) (s : phaseSummary P) : phaseSummary P :=
  let '(PhaseSummary d c ok m r f t b l p e) := s in
  let e := bump (error_string err) e in
  if is_malformed err then PhaseSummary d c ok (m + 1) r f t b l p e
  else if is_net_timeout err then PhaseSummary d c ok m r f (t + 1) b l p e
  else PhaseSummary d c ok m r (f + 1) t b l p e.
Definition add_transfer (bytes retries : Z) (s : phaseSummary P) : phaseSummary P :=
  let '(PhaseSummary d c ok m r f t b l p e) := s in
  PhaseSummary d c ok m (r + retries) f t (b + bytes) l p e.
Definition record_success (proof : P) (latency : float64) (s : phaseSummary P) : phaseSummary P :=
  let '(PhaseSummary d c ok m r f t b l _ e) := s in
  PhaseSummary d c (ok + 1) m r f t b (l ++ [latency]) (Some proof) e.
Definition set_duration (seconds : float64) (s : phaseSummary P) : phaseSummary P :=
  let '(PhaseSummary _ c ok m r f t b l p e) := s in PhaseSummary seconds c ok m r f t b l p e.
Definition failed_only (s : phaseSummary P) : phaseSummary P :=
  let '(PhaseSummary d c ok m r f t b l p e) := s in PhaseSummary d c ok m r (f + 1) t b l p e.

(** The result of an exchange: its proof or error, the octets and the retries it adds. *)
Definition outcome : Type := res P * Z * Z.

(** The loop of the phases: an exchange per turn that began in time, the ID of the next
    one, and the connection they go through; the first failure ends it. *)
Fixpoint phaseLoop {E C} (exchange : Z -> E -> C -> outcome * C) (advance : Z -> Z)
    (turns : list (E * float64)) (id : Z) (c : C) (s : phaseSummary P) : phaseSummary P * option goerror * C :=
  match turns with
  | [] => (s, None, c)
  | (env, latency) :: turns =>
      let '((result, bytes, retries), c) := exchange id env c in
      let s := add_transfer bytes retries s in
      match result with
      | Err err => (classify err s, Some err, c)
      | Ok proof => phaseLoop exchange advance turns (advance id) c (record_success proof latency s)
      end
  end.
End phase.

(** ** TLS sessions *)

(** What the executors read of a TLS session: version, cipher suite, protocol, state, the
    number of verified chains, and for each certificate its encoding and its key's. *)
Record tlsState := TlsState {
  ts_version : Z; ts_cipher : string; ts_protocol : string; ts_complete : bool; ts_resumed : bool;
  ts_chains : Z; ts_peer : list (bytes * bytes)
}.
(** The QUIC state of a connection, as quic-go reports it. *)
Record quicState := QuicState {
  qs_version : Z; qs_versionName : string; qs_used0RTT : bool; qs_datagrams : bool; qs_tls : tlsState
}.
Definition quicVersion1 : Z := 1.

Definition VersionTLS13 : Z := 0x0304.
Definition requiredCipher : string := "TLS_AES_128_GCM_SHA256".
Definition leafDERHash : string := "b57bdd3eb90b36455900c17de9ff9a02c623e1f6b27626ad7821a40e35e8251c".
Definition leafSPKIHash : string := "cfa6d5d08ee2071e28fd96205b088156fa71b460262470e5b994624b0537cf25".
(** The digests of the first certificate, empty when there is none. *)
Definition leafDigests (peer : list (bytes * bytes)) : string * string :=
  match peer with (raw, spki) :: _ => (hash raw, hash spki) | [] => ("", "") end.
Definition failure (b : bool) (message : string) : list string := if b then [message] else [].

(** ** Facts on messages *)

Definition is_id (id : Z) : Prop := 1 <= id < 65536.

Lemma length_withID m id : (2 <= length m)%nat -> length (withID m id) = length m.
Proof. intros. unfold withID. rewrite length_app, length_be_encode, length_drop. lia. Qed.

Lemma len_withID m id : 2 <= len m -> len (withID m id) = len m.
Proof. intros. unfold len in *. rewrite length_withID by lia. done. Qed.

Lemma withID_withID m id id' : withID (withID m id) id' = withID m id'.
Proof. reflexivity. Qed.

Lemma messageID_withID m id : is_id id -> messageID (withID m id) = id.
Proof.
  intros H. unfold messageID, withID. rewrite <-(length_be_encode 2 id) at 1.
  rewrite take_app_length, be_decode_encode. apply Z.mod_small. unfold is_id in H. simpl. lia.
Qed.

Lemma byte_at_withID m id i : (2 <= i)%nat -> byte_at (withID m id) i = byte_at m i.
Proof.
  intros Hi. destruct i as [|[|i]]; [lia|lia|]. unfold byte_at, withID. simpl.
  destruct m as [|a [|b m]]; by rewrite ?nth_nil, ?drop_0; destruct i.
Qed.

(** Reading back a framed message. *)
Lemma read_frame m rest e :
  len m < 65536 ->
  read_full 2 (Stream (frame m ++ rest) e) = (Ok (be_encode 2 (len m)), Stream (m ++ rest) e) /\
  be_decode (be_encode 2 (len m)) = len m /\
  read_full (Z.to_nat (len m)) (Stream (m ++ rest) e) = (Ok m, Stream rest e).
Proof.
  intros Hm. pose proof (len_nonneg m). unfold frame, u16. rewrite (Z.mod_small (len m)) by lia.
  split_and!.
  - rewrite <-app_assoc. apply read_full_app'. by rewrite length_be_encode.
  - rewrite be_decode_encode. apply Z.mod_small. simpl. lia.
  - unfold len. rewrite Nat2Z.id. apply read_full_app.
Qed.

Lemma len_frame m : len (frame m) = len m + 2.
Proof. unfold frame. rewrite len_app. unfold len. rewrite length_be_encode. lia. Qed.

Lemma length_concat_frames (f : Z -> bytes) ids :
  (length ids <= length (concat ((fun id => frame (f id)) <$> ids)))%nat.
Proof.
  induction ids as [|id ids IH]; [done|]. rewrite fmap_cons. cbn [concat length].
  rewrite length_app. unfold frame at 1. rewrite length_app, length_be_encode. lia.
Qed.

(** ** Facts on phases *)

(** The IDs of the first [n] turns. *)
Fixpoint turnIDs (adv : Z -> Z) (n : nat) (id : Z) : list Z :=
  match n with O => [] | S n => id :: turnIDs adv n (adv id) end.

Lemma turnIDs_ids adv n id :
  (forall id, is_id id -> is_id (adv id)) -> is_id id -> Forall is_id (turnIDs adv n id).
Proof. intros Hadv. revert id; induction n; intros id H; simpl; constructor; auto. Qed.

(** What [n] completed turns add to a summary. *)
Record completed {P} (n bytes retries : Z) (latencies : list float64) (s s' : phaseSummary P) : Prop := {
  cp_ok : CompletedOperations s' = CompletedOperations s + n;
  cp_bytes : TotalTransferredBytes s' = TotalTransferredBytes s + n * bytes;
  cp_retries : RetryCount s' = RetryCount s + n * retries;
  cp_malformed : MalformedOperations s' = MalformedOperations s;
  cp_failed : FailedOperations s' = FailedOperations s;
  cp_timedout : TimedOutOperations s' = TimedOutOperations s;
  cp_latencies : Latencies s' = Latencies s ++ latencies
}.

Lemma completed_turn {P} n bytes retries l ls (p : P) s s' :
  completed n bytes retries ls (record_success p l (add_transfer bytes retries s)) s' ->
  completed (n + 1) bytes retries (l :: ls) s s'.
Proof.
  intros [H1 H2 H3 H4 H5 H6 H7]. destruct s; simpl in *.
  split; simpl; try lia. by rewrite H7, <-app_assoc.
Qed.

(** A phase whose every turn succeeds. *)
Lemma phaseLoop_completes {P E} (exchange : Z -> E -> conn -> outcome (P := P) * conn) (adv : Z -> Z)
    (env : E) (query reply : Z -> bytes) bytes retries :
  (forall id, is_id id -> is_id (adv id)) ->
  (forall id rest out, is_id id ->
     exists p, exchange id env (Conn (Stream (reply id ++ rest) EEOF) out [])
       = ((Ok p, bytes, retries), Conn (Stream rest EEOF) (out ++ query id) [])) ->
  forall latencies id out s, is_id id ->
  let ids := turnIDs adv (length latencies) id in
  exists s', phaseLoop exchange adv (pair env <$> latencies) id (Conn (Stream (concat (reply <$> ids)) EEOF) out []) s
      = (s', None, Conn (Stream [] EEOF) (out ++ concat (query <$> ids)) [])
    /\ completed (len latencies) bytes retries latencies s s'.
Proof.
  intros Hadv Hturn latencies. induction latencies as [|l latencies IH]; intros id out s Hid.
  - exists s. simpl. rewrite app_nil_r. split; [done|]. split; unfold len; simpl; rewrite ?app_nil_r; lia || done.
  - cbn [length turnIDs]. cbn zeta. rewrite !fmap_cons. cbn [concat].
    destruct (Hturn id (concat (reply <$> turnIDs adv (length latencies) (adv id))) out Hid) as [p Hp].
    cbn [phaseLoop]. rewrite Hp.
    destruct (IH (adv id) (out ++ query id) (record_success p l (add_transfer bytes retries s)) (Hadv _ Hid))
      as (s' & Hs' & Hc).
    exists s'. rewrite Hs'. split; [by rewrite <-app_assoc|].
    replace (len (l :: latencies)) with (len latencies + 1) by (unfold len; simpl; lia).
    by eapply completed_turn.
Qed.
