(* ===== verification/DnsClassic.v ===== *)
(** Classic DNS over UDP and TCP: the authority go-dns-classic-authority and the executor
    dns-classic-fixture (the go-dns-udp and go-dns-tcp executors). *)
From S2P Require Export Prelude Stats GoText GoHash DnsWire.

(** ** The fixture of the large answer *)

Definition largeQuery : bytes := mustHex
    ("00000000000100000000000106646e736b657904706c6162047465737400003000010000290200000080000000").
Definition truncatedResponse : bytes := mustHex
    ("00008600000100000000000106646e736b657904706c6162047465737400003000010000290200000080000000").
Definition largeResponse : bytes := mustHex
    ("00008400000100070000000106646e736b657904706c616204746573740000300001c00c003000010000000000440101" +:+
    "030d01010101010101010101010101010101010101010101010101010101010101010101010101010101010101010101" +:+
    "010101010101010101010101010101010101c00c003000010000000000440101030d0202020202020202020202020202" +:+
    "020202020202020202020202020202020202020202020202020202020202020202020202020202020202020202020202" +:+
    "0202c00c003000010000000000440101030d030303030303030303030303030303030303030303030303030303030303" +:+
    "03030303030303030303030303030303030303030303030303030303030303030303c00c003000010000000000440101" +:+
    "030d04040404040404040404040404040404040404040404040404040404040404040404040404040404040404040404" +:+
    "040404040404040404040404040404040404c00c003000010000000000440101030d0505050505050505050505050505" +:+
    "050505050505050505050505050505050505050505050505050505050505050505050505050505050505050505050505" +:+
    "0505c00c003000010000000000440101030d060606060606060606060606060606060606060606060606060606060606" +:+
    "06060606060606060606060606060606060606060606060606060606060606060606c00c002e000100000000005d0030" +:+
    "0d030000000077359400713fb300303904706c6162047465737400a5a5a5a5a5a5a5a5a5a5a5a5a5a5a5a5a5a5a5a5a5" +:+
    "a5a5a5a5a5a5a5a5a5a5a5a5a5a5a5a5a5a5a5a5a5a5a5a5a5a5a5a5a5a5a5a5a5a5a5a5a5a5a5a5a5a5a50000290200" +:+
    "000080000000").
Definition largeQueryHash : string := "7445dfa148164c2ee02186b962f735847e9d62f46414287ebf5cf6a3dfce9e4f".
Definition truncatedHash : string := "753eff72120531d638e839e088ca22875e550b89f554a11af50d4423a512710d".
Definition largeResponseHash : string := "1cc5bafd114a4f34d824c01a685b04e82cae6110c648046c461d3688782e8665".
Definition aFixtureID : string := "dns.plab-test-a-v2.canonical".
Definition largeFixtureID : string := "dns.dnskey-plab-test-large-edns-dnssec-shaped.canonical".

(** ** The authority *)

Module Authority.

Definition responseFor (query : bytes) (udp : bool) : res bytes :=
  guard 12 <=? len query else EMsg "short DNS message" in
  let id := messageID query in
  guard negb (id =? 0) else EMsg "zero runtime message ID" in
  let digest := hash (withID query 0) in
  let? template :=
    (if String.eqb digest aQueryHash then Ok aResponse
     else if String.eqb digest largeQueryHash then Ok (if udp then truncatedResponse else largeResponse)
     else Err (EMsg "query outside package fixtures")) in
  Ok (withID template id).

(** [serveUDP], one datagram: what it answers, if anything. *)
Definition serveDatagram (query : bytes) : option bytes :=
  match responseFor query true with Ok response => Some response | Err _ => None end.

(** [handleTCP]: the turns until the connection ends or a query is refused; every turn
    takes at least 29 octets, so the length of the input is enough fuel. The flag says
    that it ended at the end of the input, between messages. *)
Fixpoint tcpLoop (fuel : nat) (c : conn) : bool * conn :=
  match fuel with
  | O => (false, c)
  | S fuel =>
      let with_input s := Conn s (c_out c) (c_faults c) in
      match read_full 2 (c_in c) with
      | (Err e, s) => (errors_is EEOF e, with_input s)
      | (Ok prefix, s) =>
          let length := be_decode prefix in
          if negb (length =? 27) && negb (length =? 45) then (false, with_input s) else
          match read_full (Z.to_nat length) s with
          | (Err _, s) => (false, with_input s)
          | (Ok query, s) =>
              match responseFor query false with
              | Err _ => (false, with_input s)
              | Ok response =>
                  match conn_write (frame response) (with_input s) with
                  | ((_, Some _), c) => (false, c)
                  | ((_, None), c) => tcpLoop fuel c
                  end
              end
          end
      end
  end.
Definition handleTCP (c : conn) : bool * conn := tcpLoop (S (length (st_data (c_in c)))) c.

End Authority.

(** ** The executor *)

(** The proof of an exchange, less its constants. *)
Record proof := Proof {
  FixtureID : string; Transport : string; QuestionName : string; QuestionType : string; Answer : string;
  Framing : string; AuthoritativeAnswer : bool; RecursionAvailable : bool;
  RuntimeMessageID : Z; ResponseMessageID : Z; MessageIDCorrelated : bool;
  QueryLengthBytes : Z; ResponseLengthBytes : Z;
  QueryNormalizedSHA256 : string; ResponseNormalizedSHA256 : string;
  RequestWireHex : string; ResponseWireHex : string;
  UDPAdvertisedPayloadBytes : Z; UDPTruncatedResponseLength : Z; PRetryCount : Z; TCPResponseLength : Z;
  UDPTruncated : bool; RetryQuestionIdentical : bool; RetryMessageIDNew : bool; TCPResponsePrefixHex : string
}.

Definition questionName (f : string) : string := if String.eqb f aFixtureID then "plab.test." else "dnskey.plab.test.".
Definition questionType (f : string) : string := if String.eqb f aFixtureID then "A" else "DNSKEY".
Definition answer (f : string) : string :=
  if String.eqb f aFixtureID then "192.0.2.1" else "DNSKEY-and-RRSIG-shaped-record-set".

Definition validate (query response : bytes) (fixtureID transport framing queryDigest responseDigest : string) (id : Z)
    : res proof :=
  guard 12 <=? len response else EMalformed "short DNS response" in
  let responseID := messageID response in
  let p := Proof fixtureID transport (questionName fixtureID) (questionType fixtureID) (answer fixtureID) framing
    (negb (Z.land (byte_at response 2) 0x04 =? 0)) (negb (Z.land (byte_at response 3) 0x80 =? 0))
    id responseID (responseID =? id) (len query) (len response) (hash (withID query 0)) (hash (withID response 0))
    (hex_encode query) (hex_encode response) 0 0 0 0 false false false "" in
  guard String.eqb (QueryNormalizedSHA256 p) queryDigest else EMalformed "query hash mismatch" in
  guard MessageIDCorrelated p else EMalformed "message ID mismatch" in
  guard String.eqb (ResponseNormalizedSHA256 p) responseDigest else EMalformed "response hash mismatch" in
  guard AuthoritativeAnswer p && negb (RecursionAvailable p) else EMalformed "authority flags mismatch" in
  Ok p.

Definition set_truncated (tc : bool) (p : proof) : proof :=
  let '(Proof a b c d e f g h i j k l m n o q r s t u v _ x y z) := p in
  Proof a b c d e f g h i j k l m n o q r s t u v tc x y z.
Definition set_wire (request response : string) (p : proof) : proof :=
  let '(Proof a b c d e f g h i j k l m n o _ _ s t u v w x y z) := p in
  Proof a b c d e f g h i j k l m n o request response s t u v w x y z.
(** What the retried exchange adds to the proof of the truncated one. *)
Definition set_retry (id newID : Z) (tcp p : proof) : proof :=
  let '(Proof a _ c d e f g h i j k l _ n _ q _ _ _ _ _ _ _ _ _) := p in
  Proof a "udp-tcp" c d e f g h i j k l (ResponseLengthBytes tcp) n (ResponseNormalizedSHA256 tcp) q
    (ResponseWireHex tcp) 512 45 1 (ResponseLengthBytes tcp) true true (negb (newID =? id)) "0276".

(** The datagram side of a turn: the error of the write, then what is read for the
    datagram sent. *)
Record udpEnv := UdpEnv { udp_write : option goerror; udp_read : bytes -> res bytes }.

Definition exchangeUDP (env : udpEnv) (queryTemplate responseTemplate : bytes)
    (fixtureID queryDigest responseDigest : string) (id : Z) (expectTC : bool) : outcome (P := proof) :=
  let query := withID queryTemplate id in
  match udp_write env, udp_read env query with
  | Some err, _ => (Err err, 0, 0)
  | None, Err err => (Err err, len query, 0)
  | None, Ok response =>
      let transferred := len query + len response in
      let result :=
        guard len response =? len responseTemplate
          else EMalformed ("UDP response length " +:+ pretty (len response)) in
        let? p := validate query response fixtureID "udp" "bare-dns-message-datagram" queryDigest responseDigest id in
        let tc := negb (Z.land (byte_at response 2) 0x02 =? 0) in
        guard Bool.eqb tc expectTC else EMalformed "UDP TC flag mismatch" in
        Ok (set_truncated tc p) in
      (result, transferred, 0)
  end.

Definition exchangeTCP (queryTemplate responseTemplate : bytes) (fixtureID queryDigest responseDigest : string)
    (id : Z) (c : conn) : outcome (P := proof) * conn :=
  let query := withID queryTemplate id in
  let framed := frame query in
  match conn_write framed c with
  | ((_, Some err), c) => ((Err err, 0, 0), c)
  | ((_, None), c) =>
      let with_input s := Conn s (c_out c) (c_faults c) in
      match read_full 2 (c_in c) with
      | (Err err, s) => ((Err err, len framed, 0), with_input s)
      | (Ok prefix, s) =>
          match read_full (Z.to_nat (be_decode prefix)) s with
          | (Err err, s) => ((Err err, len framed + 2, 0), with_input s)
          | (Ok response, s) =>
              let result :=
                guard len response =? len responseTemplate
                  else EMalformed ("TCP response length " +:+ pretty (len response)) in
                let? p := validate query response fixtureID "tcp" "two-octet-network-order-length-prefix"
                            queryDigest responseDigest id in
                Ok (set_wire (hex_encode framed) (hex_encode (prefix ++ response)) p) in
              ((result, len framed + 2 + len response, 0), with_input s)
          end
      end
  end.

Definition udpScenario : string := "dns.classic.udp.query.a".
Definition tcpScenario : string := "dns.classic.tcp.query.a".
Definition retryScenario : string := "dns.classic.udp-truncated-tcp-retry".

(** [phaseClient.exchange]. *)
Definition exchange (scenario : string) (id : Z) (env : udpEnv) (c : conn) : outcome (P := proof) * conn :=
  if String.eqb scenario udpScenario
  then (exchangeUDP env aQuery aResponse aFixtureID aQueryHash aResponseHash id false, c)
  else if String.eqb scenario tcpScenario
  then exchangeTCP aQuery aResponse aFixtureID aQueryHash aResponseHash id c
  else if String.eqb scenario retryScenario then
    match exchangeUDP env largeQuery truncatedResponse largeFixtureID largeQueryHash truncatedHash id true with
    | (Err err, n, _) => ((Err err, n, 0), c)
    | (Ok p, n, _) =>
        let newID := u16 (id + 1) in
        let newID := if newID =? 0 then 1 else newID in
        let '((tcp, m, _), c) :=
          exchangeTCP largeQuery largeResponse largeFixtureID largeQueryHash largeResponseHash newID c in
        match tcp with
        | Err err => ((Err err, n + m, 1), c)
        | Ok t => ((Ok (set_retry id newID t p), n + m, 1), c)
        end
    end
  else ((Err (EMsg "unsupported scenario dispatch"), 0, 0), c).

(** The ID of the next turn: [next += 2; if next == 0 { next = 1 }]. *)
Definition advance (next : Z) : Z := let next := u16 (next + 2) in if next =? 0 then 1 else next.

(** What a phase meets: the errors of opening its connections and how long that took, the
    stream of its TCP connection, and its turns. *)
Record phaseEnv := PhaseEnv {
  ph_udp : option goerror; ph_tcp : option goerror; ph_opened : float64;
  ph_conn : conn; ph_turns : list (udpEnv * float64); ph_seconds : float64
}.
Definition openPhaseClient (env : phaseEnv) (scenario : string) : option goerror * float64 :=
  match (if negb (String.eqb scenario tcpScenario) then ph_udp env else None),
        (if negb (String.eqb scenario udpScenario) then ph_tcp env else None) with
  | Some err, _ | None, Some err => (Some err, f_zero)
  | None, None => (None, ph_opened env)
  end.

Definition runPhase (env : phaseEnv) (scenario : string) (once : bool)
    : phaseSummary proof * option goerror * conn :=
  match openPhaseClient env scenario with
  | (Some err, latency) => (failed_only (emptySummary latency), Some err, ph_conn env)
  | (None, latency) =>
      let turns := if once then take 1 (ph_turns env) else ph_turns env in
      match phaseLoop (exchange scenario) advance turns 1 (ph_conn env) (emptySummary latency) with
      | (s, None, c) => (set_duration (ph_seconds env) s, None, c)
      | (s, Some err, c) => (s, Some err, c)
      end
  end.

Definition hasFailures (s : phaseSummary proof) : bool :=
  (CompletedOperations s =? 0) || negb (MalformedOperations s =? 0) || negb (FailedOperations s =? 0)
  || negb (TimedOutOperations s =? 0).

(** ** Selection, documents and [Run] *)

Record config := Config { ExecutorID : string; LoadGeneratorID : string; Mode : string; Supported : list string }.
Definition udpConfig : config :=
  Config "go-dns-udp-executor" "go-dns-udp-load" "udp" [udpScenario; retryScenario].
Definition tcpConfig : config := Config "go-dns-tcp-executor" "go-dns-tcp-load" "tcp" [tcpScenario].
Definition Version : string := "0.1.0".
Definition ProfileID : string := "dns-classic-diagnostic".

Definition allDNS : list string :=
  ["dns.dot.query.a"; "dns.doh2.query.a"; "dns.doh3.get.a"; "dns.doh3.query.a"; "dns.doh3.query.aaaa";
   "dns.doh3.query.cname-chain"; "dns.doh3.query.large-dnssec-shaped"; "dns.doh3.query.nodata";
   "dns.doh3.query.nxdomain"; "dns.doq.query.a"; udpScenario; tcpScenario; retryScenario].

Definition verify (getenv : string -> string) (name expected : string) : bool :=
  let actual := env_value getenv name in String.eqb actual "" || String.eqb actual expected.

(** [checkIdentity]: the scenario, or the exit code. *)
Definition checkIdentity (cfg : config) (getenv : string -> string) : string + Z :=
  if negb (verify getenv "PLAB_EXECUTOR_ID" (ExecutorID cfg) && verify getenv "PLAB_EXECUTOR_VERSION" Version
           && verify getenv "PLAB_LOAD_GENERATOR_ID" (LoadGeneratorID cfg)
           && verify getenv "PLAB_LOAD_GENERATOR_VERSION" Version)
  then inr 2 else
  let scenario := env_value getenv "PLAB_SCENARIO_ID" in
  if string_in (Supported cfg) scenario then inl scenario
  else if string_in allDNS scenario then inr 3 else inr 2.

(** [loadConfig] accepts one profile and its exact values. *)
Definition loadConfig (getenv : string -> string) : option goerror :=
  if negb (String.eqb (env_value getenv "PLAB_LOAD_PROFILE_ID") ProfileID)
  then Some (EMsg ("supports load profile " +:+ go_quote ProfileID +:+ " only"))
  else if forallb (fun '(n, v) => envInt getenv n =? v)
            [("PLAB_CONNECTIONS", 1); ("PLAB_CONCURRENCY", 1); ("PLAB_DURATION_SECONDS", 5);
             ("PLAB_WARMUP_SECONDS", 1); ("PLAB_REPETITION", 1)]
  then None else Some (EMsg "dns-classic-diagnostic requires 1/1/5/1/1").

(** [parse] is [url.Parse] (the scheme and the host), [split] the error of
    [net.SplitHostPort]. *)
Definition normalizeTarget (parse : string -> res (string * string)) (split : string -> option goerror)
    (value mode : string) : res string :=
  let value := trim_space value in
  guard negb (String.eqb value "") else EMsg "target address required" in
  let? value :=
    (if contains_sub value "://" then
       let? u := parse value in
       let expected := if String.eqb mode "tcp" then "tcp" else "udp" in
       guard String.eqb u.1 expected
         else EMsg (mode +:+ " executor rejects target scheme " +:+ go_quote u.1) in
       Ok u.2
     else Ok value) in
  match split value with Some err => Err err | None => Ok value end.

Definition protocolVariant (s : string) : string :=
  if String.eqb s udpScenario then "dns-udp" else if String.eqb s tcpScenario then "dns-tcp" else "dns-udp-tcp-retry".

Record metricSet := MetricSet {
  QueriesPerSecond : float64; QueryLatency : list float64;      (* mean, P50, P75, P90, P95, P99 *)
  MConnectionLatency : float64; MCompleted : Z; MMalformed : Z; MRetry : Z; MFailed : Z; MTimedOut : Z;
  MBytes : Z; MConcurrency : Z
}.
Record result := Result {
  RScenarioID : string; RStatus : string; RVariant : string; RProof : option proof; RMetrics : metricSet;
  RDurationSeconds : float64
}.
Definition normalize (scenario : string) (s : phaseSummary proof) : result :=
  let duration := if SFleb (DurationSeconds s) f_zero then f_of_Z 1 else DurationSeconds s in
  let l := Latencies s in
  Result scenario "passed" (protocolVariant scenario) (LastProof s)
    (MetricSet (fdiv (f_of_Z (CompletedOperations s)) duration)
       (mean l :: ((fun q => percentile l (f_ratio q 100)) <$> [50; 75; 90; 95; 99]))
       (ConnectionLatency s) (CompletedOperations s) (MalformedOperations s) (RetryCount s) (FailedOperations s)
       (TimedOutOperations s) (TotalTransferredBytes s) 1) duration.

(** The status of [validationDoc]. *)
Definition validationPassed (s : phaseSummary proof) (err : option goerror) : bool :=
  bool_decide (err = None) && (CompletedOperations s =? 1) && negb (hasFailures s).

(** What [Run] meets; the artifacts are written. *)
Record runEnv := RunEnv {
  r_getenv : string -> string; r_target : string; r_parse : string -> res (string * string);
  r_split : string -> option goerror; r_validationOnly : bool; r_showVersion : bool; r_mkdir : option goerror;
  r_preflight : phaseEnv; r_warmup : phaseEnv; r_measured : phaseEnv
}.

(** A phase that is rejected: it ended with an error or with failures. *)
Definition rejected (phase : phaseSummary proof * option goerror * conn) : bool :=
  match phase with (s, err, _) => bool_decide (err <> None) || hasFailures s end.

(** The exit code, and the result printed. *)
Definition Run (cfg : config) (env : runEnv) : Z * option result :=
  if r_showVersion env then (0, None) else
  if bool_decide (r_mkdir env <> None) then (1, None) else
  match checkIdentity cfg (r_getenv env) with
  | inr code => (code, None)
  | inl scenario =>
      match normalizeTarget (r_parse env) (r_split env) (r_target env) (Mode cfg) with
      | Err _ => (2, None)
      | Ok _ =>
          let '(_, err, _) := runPhase (r_preflight env) scenario true in
          if bool_decide (err <> None) then (1, None)
          else if r_validationOnly env then (0, None)
          else if bool_decide (loadConfig (r_getenv env) <> None) then (2, None)
          else if rejected (runPhase (r_warmup env) scenario false) then (1, None)
          else
            let measured := runPhase (r_measured env) scenario false in
            if rejected measured then (1, None) else (0, Some (normalize scenario measured.1.1))
      end
  end.
