(* ===== verification/DnsClassicProps.v ===== *)
(** Classic DNS: sessions between the executor and the authority, and what a successful
    run has earned. *)
From S2P Require Export Prelude Stats GoText GoHash DnsWire DnsClassic.

(** ** The authority *)

(** The fixtures: the query and answer of a scenario over TCP, their digests. *)
Lemma fixtures :
  hash (withID aQuery 0) = aQueryHash /\ hash (withID aResponse 0) = aResponseHash /\
  hash (withID largeQuery 0) = largeQueryHash /\ hash (withID truncatedResponse 0) = truncatedHash /\
  hash (withID largeResponse 0) = largeResponseHash.
Proof. vm_compute. repeat split. Qed.

Lemma fixture_lengths :
  len aQuery = 27 /\ len aResponse = 43 /\ len largeQuery = 45 /\ len truncatedResponse = 45 /\ len largeResponse = 630.
Proof. vm_compute. repeat split. Qed.

Lemma responseFor_a id udp :
  is_id id -> Authority.responseFor (withID aQuery id) udp = Ok (withID aResponse id).
Proof.
  intros H. destruct fixtures as (Ha & _). destruct fixture_lengths as (Hl & _).
  unfold Authority.responseFor. rewrite len_withID, Hl, messageID_withID, withID_withID, Ha by (done || lia).
  rewrite (proj2 (Z.leb_le 12 27)), (proj2 (Z.eqb_neq id 0)) by (unfold is_id in H; lia). done.
Qed.

Lemma responseFor_large id (udp : bool) :
  is_id id ->
  Authority.responseFor (withID largeQuery id) udp
  = Ok (withID (if udp then truncatedResponse else largeResponse) id).
Proof.
  intros H. destruct fixtures as (_ & _ & Hd & _). destruct fixture_lengths as (_ & _ & Hl & _).
  unfold Authority.responseFor. rewrite len_withID, Hl, messageID_withID, withID_withID, Hd by (done || lia).
  rewrite (proj2 (Z.leb_le 12 45)), (proj2 (Z.eqb_neq id 0)) by (unfold is_id in H; lia).
  replace (String.eqb largeQueryHash aQueryHash) with false by reflexivity. by destruct udp.
Qed.

(** ** One turn *)

Lemma validate_fixture q r fixtureID transport framing qd rd id :
  is_id id -> 12 <= len r -> hash (withID q 0) = qd -> hash (withID r 0) = rd ->
  negb (Z.land (byte_at r 2) 0x04 =? 0) = true -> negb (Z.land (byte_at r 3) 0x80 =? 0) = false ->
  exists p, validate (withID q id) (withID r id) fixtureID transport framing qd rd id = Ok p.
Proof.
  intros Hid Hl Hq Hr Haa Hra. unfold validate.
  rewrite len_withID, messageID_withID, !byte_at_withID, !withID_withID, Hq, Hr, Haa, Hra by (done || lia).
  rewrite (proj2 (Z.leb_le 12 (len r))) by lia.
  cbn [QueryNormalizedSHA256 MessageIDCorrelated ResponseNormalizedSHA256 AuthoritativeAnswer RecursionAvailable negb andb].
  rewrite !String.eqb_refl, Z.eqb_refl. eauto.
Qed.

(** The network between the executor and the authority delivers every datagram. *)
Definition authorityUDP : udpEnv :=
  UdpEnv None (fun query => match Authority.serveDatagram query with
                            | Some response => Ok response
                            | None => Err (ENet true "i/o timeout")
                            end).

Lemma exchangeUDP_ok q r fixtureID qd rd id tc :
  is_id id -> 12 <= len r -> 2 <= len q -> hash (withID q 0) = qd -> hash (withID r 0) = rd ->
  negb (Z.land (byte_at r 2) 0x04 =? 0) = true -> negb (Z.land (byte_at r 3) 0x80 =? 0) = false ->
  negb (Z.land (byte_at r 2) 0x02 =? 0) = tc ->
  Authority.responseFor (withID q id) true = Ok (withID r id) ->
  exists p, exchangeUDP authorityUDP q r fixtureID qd rd id tc = (Ok p, len q + len r, 0).
Proof.
  intros Hid Hl Hlq Hq Hr Haa Hra Htc Hresp. unfold exchangeUDP, authorityUDP. cbn [udp_write udp_read].
  unfold Authority.serveDatagram. rewrite Hresp. rewrite !len_withID by lia. rewrite Z.eqb_refl.
  destruct (validate_fixture q r fixtureID "udp" "bare-dns-message-datagram" qd rd id) as [p ->]; try done.
  cbn [res_bind]. rewrite byte_at_withID by lia. rewrite Htc, Bool.eqb_reflx. eauto.
Qed.

Lemma exchangeTCP_ok q r fixtureID qd rd id rest out :
  is_id id -> 12 <= len r < 65536 -> 2 <= len q -> hash (withID q 0) = qd -> hash (withID r 0) = rd ->
  negb (Z.land (byte_at r 2) 0x04 =? 0) = true -> negb (Z.land (byte_at r 3) 0x80 =? 0) = false ->
  exists p, exchangeTCP q r fixtureID qd rd id
              (Conn (Stream (frame (withID r id) ++ rest) EEOF) out [])
            = ((Ok p, len q + 2 + 2 + len r, 0), Conn (Stream rest EEOF) (out ++ frame (withID q id)) []).
Proof.
  intros Hid Hl Hlq Hq Hr Haa Hra. unfold exchangeTCP, conn_write. cbn [c_faults c_in c_out].
  destruct (read_frame (withID r id) rest EEOF) as (H1 & H2 & H3); [rewrite len_withID; lia|].
  rewrite H1. rewrite H2, H3. rewrite len_frame, !len_withID by lia. rewrite Z.eqb_refl.
  destruct (validate_fixture q r fixtureID "tcp" "two-octet-network-order-length-prefix" qd rd id) as [p ->];
    try done; try lia.
  cbn [res_bind]. eauto.
Qed.

(** The new ID of a retry. *)
Definition retryID (id : Z) : Z := let newID := u16 (id + 1) in if newID =? 0 then 1 else newID.

Lemma retryID_id id : is_id id -> is_id (retryID id) /\ (id mod 2 = 1 -> retryID id <> id).
Proof.
  unfold is_id, retryID, u16. intros H. destruct (_ =? 0) eqn:E; reflect_bools; [split; [lia|]|split].
  - intros Hm He. subst. done.
  - pose proof (Z.mod_pos_bound (id + 1) 65536). lia.
  - intros _ He. destruct (decide (id = 65535)) as [->|]; [done|]. rewrite Z.mod_small in He by lia. lia.
Qed.

Lemma advance_id id : is_id id -> is_id (advance id).
Proof.
  unfold is_id, advance, u16. intros H. destruct (_ =? 0) eqn:E; reflect_bools; [lia|].
  pose proof (Z.mod_pos_bound (id + 2) 65536). lia.
Qed.

(** What a turn of a scenario sends and receives over TCP, and what it costs. *)
Definition tcpQuery (scenario : string) (id : Z) : bytes :=
  if String.eqb scenario udpScenario then [] else
  if String.eqb scenario tcpScenario then frame (withID aQuery id) else frame (withID largeQuery (retryID id)).
Definition tcpAnswer (scenario : string) (id : Z) : bytes :=
  if String.eqb scenario udpScenario then [] else
  if String.eqb scenario tcpScenario then frame (withID aResponse id) else frame (withID largeResponse (retryID id)).
Definition turnBytes (scenario : string) : Z :=
  if String.eqb scenario udpScenario then 70 else if String.eqb scenario tcpScenario then 74 else 769.
Definition turnRetries (scenario : string) : Z := if String.eqb scenario retryScenario then 1 else 0.
Definition is_scenario (s : string) : Prop := s = udpScenario \/ s = tcpScenario \/ s = retryScenario.

Lemma turn_completes scenario id rest out :
  is_scenario scenario -> is_id id ->
  exists p, exchange scenario id authorityUDP (Conn (Stream (tcpAnswer scenario id ++ rest) EEOF) out [])
    = ((Ok p, turnBytes scenario, turnRetries scenario),
       Conn (Stream rest EEOF) (out ++ tcpQuery scenario id) []).
Proof.
  intros Hs Hid. destruct fixtures as (Haq & Har & Hlq & Htr & Hlr).
  destruct fixture_lengths as (L1 & L2 & L3 & L4 & L5).
  destruct Hs as [->|[->| ->]]; unfold exchange, tcpAnswer, tcpQuery, turnBytes, turnRetries.
  - change (String.eqb udpScenario udpScenario) with true. cbn match.
    destruct (exchangeUDP_ok aQuery aResponse aFixtureID aQueryHash aResponseHash id false) as [p ->];
      [done|lia|lia|exact Haq|exact Har|reflexivity|reflexivity|reflexivity|by apply responseFor_a|].
    rewrite L1, L2, app_nil_r. by exists p.
  - change (String.eqb tcpScenario udpScenario) with false. change (String.eqb tcpScenario tcpScenario) with true.
    cbn match.
    destruct (exchangeTCP_ok aQuery aResponse aFixtureID aQueryHash aResponseHash id rest out) as [p ->];
      [done|lia|lia|exact Haq|exact Har|reflexivity|reflexivity|]. rewrite L1, L2. by exists p.
  - change (String.eqb retryScenario udpScenario) with false.
    change (String.eqb retryScenario tcpScenario) with false.
    change (String.eqb retryScenario retryScenario) with true. cbn match.
    destruct (exchangeUDP_ok largeQuery truncatedResponse largeFixtureID largeQueryHash truncatedHash id true)
      as [p ->]; [done|lia|lia|exact Hlq|exact Htr|reflexivity|reflexivity|reflexivity
                 |by apply (responseFor_large id true)|].
    cbn zeta. fold (retryID id). destruct (retryID_id id Hid) as [Hid' _].
    destruct (exchangeTCP_ok largeQuery largeResponse largeFixtureID largeQueryHash largeResponseHash
                (retryID id) rest out) as [t ->]; [done|lia|lia|exact Hlq|exact Hlr|reflexivity|reflexivity|].
    rewrite L3, L4, L5. by eexists.
Qed.

(** ** Sessions *)

(** The authority answers a sequence of framed queries in order and ends cleanly. *)
Lemma tcpLoop_answers q r :
  len q = 27 \/ len q = 45 -> 12 <= len r < 65536 ->
  (forall id, is_id id -> Authority.responseFor (withID q id) false = Ok (withID r id)) ->
  forall ids fuel out, Forall is_id ids -> (length ids < fuel)%nat ->
  Authority.tcpLoop fuel (Conn (Stream (concat ((fun id => frame (withID q id)) <$> ids)) EEOF) out [])
  = (true, Conn (Stream [] EEOF) (out ++ concat ((fun id => frame (withID r id)) <$> ids)) []).
Proof.
  intros Hq Hr Hresp ids. induction ids as [|id ids IH]; intros fuel out Hids Hfuel.
  - destruct fuel; simpl in Hfuel; [lia|]. simpl. by rewrite app_nil_r.
  - inversion_clear Hids as [|?? Hid Hids']. destruct fuel as [|fuel]; simpl in Hfuel; [lia|].
    rewrite !fmap_cons. cbn [concat Authority.tcpLoop c_in c_out c_faults].
    destruct (read_frame (withID q id) (concat ((fun id => frame (withID q id)) <$> ids)) EEOF) as (H1 & H2 & H3);
      [rewrite len_withID; lia|].
    rewrite H1, H2, H3. rewrite len_withID by lia.
    replace (negb (len q =? 27) && negb (len q =? 45)) with false by (destruct Hq as [-> | ->]; done).
    rewrite Hresp by done. unfold conn_write. cbn [c_in c_out c_faults].
    rewrite IH by (done || lia). by rewrite <-app_assoc.
Qed.

Lemma authority_session scenario ids :
  is_scenario scenario -> Forall is_id ids ->
  Authority.handleTCP (Conn (Stream (concat (tcpQuery scenario <$> ids)) EEOF) [] [])
  = (true, Conn (Stream [] EEOF) (concat (tcpAnswer scenario <$> ids)) []).
Proof.
  intros Hs Hids. destruct fixture_lengths as (L1 & L2 & L3 & L4 & L5). unfold Authority.handleTCP.
  cbn [c_in st_data]. destruct Hs as [->|[->| ->]].
  - replace (concat (tcpQuery udpScenario <$> ids)) with (@nil Z) by (by induction ids; inversion_clear Hids; auto).
    replace (concat (tcpAnswer udpScenario <$> ids)) with (@nil Z) by (by induction ids; inversion_clear Hids; auto).
    reflexivity.
  - change (tcpQuery tcpScenario) with (fun id => frame (withID aQuery id)).
    change (tcpAnswer tcpScenario) with (fun id => frame (withID aResponse id)).
    rewrite (tcpLoop_answers aQuery aResponse); [done|by left|lia|by intros; apply responseFor_a|done|].
    pose proof (length_concat_frames (withID aQuery) ids). lia.
  - assert (Hmap : forall m, concat ((fun id => frame (withID m (retryID id))) <$> ids)
      = concat ((fun id => frame (withID m id)) <$> (retryID <$> ids))).
    { intros m. by rewrite <-list_fmap_compose. }
    change (tcpQuery retryScenario) with (fun id => frame (withID largeQuery (retryID id))).
    change (tcpAnswer retryScenario) with (fun id => frame (withID largeResponse (retryID id))).
    rewrite !Hmap, (tcpLoop_answers largeQuery largeResponse); [done|by right|lia| | |].
    + intros id Hid. by apply (responseFor_large id false).
    + apply Forall_fmap. eapply Forall_impl; [exact Hids|]. intros id Hid. by apply retryID_id.
    + pose proof (length_concat_frames (withID largeQuery) (retryID <$> ids)). lia.
Qed.

(** The classic executor and the classic authority of this repository agree. For every
    scenario and any number of turns, message IDs wrapping around included: the framed
    queries the executor writes are a session the authority serves to a clean end, and
    with what it answers over TCP and in datagrams the phase completes every turn, with
    no failure, no timeout, nothing malformed, one retry per turn of the truncation
    scenario and the exact number of octets. *)
Theorem classic_session_completes scenario latencies opened seconds :
  is_scenario scenario ->
  let queries := concat (tcpQuery scenario <$> turnIDs advance (length latencies) 1) in
  let '(clean, served) := Authority.handleTCP (Conn (Stream queries EEOF) [] []) in
  clean = true /\
  exists s, runPhase (PhaseEnv None None opened (Conn (Stream (c_out served) EEOF) [] [])
                        (pair authorityUDP <$> latencies) seconds) scenario false
            = (s, None, Conn (Stream [] EEOF) queries []) /\
    CompletedOperations s = len latencies /\ MalformedOperations s = 0 /\ FailedOperations s = 0 /\
    TimedOutOperations s = 0 /\ RetryCount s = len latencies * turnRetries scenario /\
    TotalTransferredBytes s = len latencies * turnBytes scenario /\ Latencies s = latencies.
Proof.
  intros Hs. cbn zeta. assert (Hone : is_id 1) by (unfold is_id; lia).
  rewrite (authority_session scenario) by (done || apply turnIDs_ids; auto using advance_id).
  split; [done|]. cbn [c_out].
  destruct (phaseLoop_completes (exchange scenario) advance authorityUDP (tcpQuery scenario) (tcpAnswer scenario)
              (turnBytes scenario) (turnRetries scenario) advance_id
              (fun id rest out => turn_completes scenario id rest out Hs) latencies 1 [] (emptySummary opened) Hone)
    as (s & Hloop & [H1 H2 H3 H4 H5 H6 H7]).
  exists (set_duration seconds s). unfold runPhase, openPhaseClient. cbn [ph_udp ph_tcp ph_opened ph_conn ph_turns ph_seconds].
  replace (if negb (String.eqb scenario tcpScenario) then None else None) with (@None goerror) by (by case_match).
  replace (if negb (String.eqb scenario udpScenario) then None else None) with (@None goerror) by (by case_match).
  cbn zeta in Hloop. rewrite Hloop. destruct s; simpl in *. split_and!; congruence || lia || done.
Qed.

Lemma classic_session_completes_witness :
  is_scenario retryScenario /\
  exists s, runPhase (PhaseEnv None None f_zero
       (Conn (Stream (c_out (Authority.handleTCP
          (Conn (Stream (concat (tcpQuery retryScenario <$> [1; 3])) EEOF) [] [])).2) EEOF) [] [])
       (pair authorityUDP <$> [f_of_Z 1; f_of_Z 2]) (f_of_Z 5)) retryScenario false
     = (s, None, Conn (Stream [] EEOF) (concat (tcpQuery retryScenario <$> [1; 3])) []) /\
    CompletedOperations s = 2 /\ RetryCount s = 2 /\ TotalTransferredBytes s = 1538.
Proof.
  split; [by right; right|].
  pose proof (classic_session_completes retryScenario [f_of_Z 1; f_of_Z 2] f_zero (f_of_Z 5)
                ltac:(by right; right)) as H.
  cbn zeta in H. change (turnIDs advance (length [f_of_Z 1; f_of_Z 2]) 1) with [1; 3] in H.
  destruct (Authority.handleTCP _) as [clean served]. destruct H as (_ & s & Hrun & H1 & _ & _ & _ & H2 & H3 & _).
  exists s. split; [exact Hrun|]. split; [exact H1|]. split; [exact H2|exact H3].
Defined.

(** ** What a result has earned *)

(** The proof a completed turn of a scenario leaves. *)
Record genuine (scenario : string) (p : proof) : Prop := {
  ge_id : MessageIDCorrelated p = true /\ ResponseMessageID p = RuntimeMessageID p /\ is_id (RuntimeMessageID p);
  ge_query : QueryNormalizedSHA256 p = if String.eqb scenario retryScenario then largeQueryHash else aQueryHash;
  ge_response : ResponseNormalizedSHA256 p =
    if String.eqb scenario retryScenario then largeResponseHash else aResponseHash;
  ge_flags : AuthoritativeAnswer p = true /\ RecursionAvailable p = false;
  ge_length : ResponseLengthBytes p = if String.eqb scenario retryScenario then 630 else 43;
  ge_retry : scenario = retryScenario -> UDPTruncated p = true /\ PRetryCount p = 1
}.

Lemma validate_ok query response fixtureID transport framing qd rd id p :
  validate query response fixtureID transport framing qd rd id = Ok p ->
  MessageIDCorrelated p = true /\ ResponseMessageID p = id /\ RuntimeMessageID p = id /\
  QueryNormalizedSHA256 p = qd /\ ResponseNormalizedSHA256 p = rd /\ AuthoritativeAnswer p = true /\
  RecursionAvailable p = false /\ ResponseLengthBytes p = len response.
Proof.
  unfold validate. intros H.
  repeat match type of H with (if ?b then _ else Err _) = Ok _ => destruct b eqn:?; [|discriminate H] end.
  injection H as <-.
  cbn [QueryNormalizedSHA256 MessageIDCorrelated ResponseNormalizedSHA256 AuthoritativeAnswer RecursionAvailable
       ResponseMessageID RuntimeMessageID ResponseLengthBytes] in *.
  match goal with E : _ && negb _ = true |- _ => apply andb_true_iff in E as [Haa Hra%negb_true_iff] end.
  split_and!; [assumption|by apply Z.eqb_eq|reflexivity|by apply String.eqb_eq|by apply String.eqb_eq
              |exact Haa|exact Hra|reflexivity].
Qed.

Lemma exchangeUDP_genuine env q r fixtureID qd rd id tc p n k :
  exchangeUDP env q r fixtureID qd rd id tc = (Ok p, n, k) ->
  MessageIDCorrelated p = true /\ ResponseMessageID p = id /\ RuntimeMessageID p = id /\
  QueryNormalizedSHA256 p = qd /\ ResponseNormalizedSHA256 p = rd /\ AuthoritativeAnswer p = true /\
  RecursionAvailable p = false /\ ResponseLengthBytes p = len r /\ k = 0.
Proof.
  unfold exchangeUDP. destruct (udp_write env); [done|]. destruct (udp_read env _) as [response|]; [|done].
  intros [= H _ <-].
  destruct (len response =? len r) eqn:El; [|done]. apply Z.eqb_eq in El.
  destruct (validate _ _ _ _ _ _ _ _) as [p'|] eqn:Ev; [|done]. cbn [res_bind] in H.
  destruct (Bool.eqb _ _); [|done]. injection H as <-. apply validate_ok in Ev. rewrite El in Ev.
  destruct p'; simpl in *. tauto.
Qed.

Lemma exchangeTCP_genuine q r fixtureID qd rd id c p n k c' :
  exchangeTCP q r fixtureID qd rd id c = ((Ok p, n, k), c') ->
  MessageIDCorrelated p = true /\ ResponseMessageID p = id /\ RuntimeMessageID p = id /\
  QueryNormalizedSHA256 p = qd /\ ResponseNormalizedSHA256 p = rd /\ AuthoritativeAnswer p = true /\
  RecursionAvailable p = false /\ ResponseLengthBytes p = len r /\ k = 0.
Proof.
  unfold exchangeTCP. destruct (conn_write _ c) as [[? [err|]] c1]; [done|].
  destruct (read_full 2 _) as [[prefix|] s1]; [|done].
  destruct (read_full (Z.to_nat _) s1) as [[response|] s2]; [|done]. intros [= H _ <- _].
  destruct (len response =? len r) eqn:El; [|done]. apply Z.eqb_eq in El.
  destruct (validate _ _ _ _ _ _ _ _) as [p'|] eqn:Ev; [|done]. cbn [res_bind] in H.
  injection H as <-. apply validate_ok in Ev. rewrite El in Ev. destruct p'; simpl in *. tauto.
Qed.

Lemma set_retry_fields id newID t p :
  let r := set_retry id newID t p in
  MessageIDCorrelated r = MessageIDCorrelated p /\ ResponseMessageID r = ResponseMessageID p /\
  RuntimeMessageID r = RuntimeMessageID p /\ QueryNormalizedSHA256 r = QueryNormalizedSHA256 p /\
  ResponseNormalizedSHA256 r = ResponseNormalizedSHA256 t /\ AuthoritativeAnswer r = AuthoritativeAnswer p /\
  RecursionAvailable r = RecursionAvailable p /\ ResponseLengthBytes r = ResponseLengthBytes t /\
  UDPTruncated r = true /\ PRetryCount r = 1.
Proof. by destruct p. Qed.

Lemma exchange_genuine scenario id env c p n k c' :
  is_scenario scenario -> is_id id -> exchange scenario id env c = ((Ok p, n, k), c') ->
  genuine scenario p /\ k = turnRetries scenario.
Proof.
  intros Hs Hid. destruct fixture_lengths as (L1 & L2 & L3 & L4 & L5).
  destruct Hs as [->|[->| ->]]; unfold exchange, turnRetries.
  - change (String.eqb udpScenario udpScenario) with true. cbn match. intros [= H _].
    apply exchangeUDP_genuine in H as (H1 & H2 & H3 & H4 & H5 & H6 & H7 & H8 & ->). rewrite L2 in H8.
    split; [|reflexivity]. split; try (split_and!; congruence); try assumption; try done.
  - change (String.eqb tcpScenario udpScenario) with false. change (String.eqb tcpScenario tcpScenario) with true.
    cbn match. intros H.
    apply exchangeTCP_genuine in H as (H1 & H2 & H3 & H4 & H5 & H6 & H7 & H8 & ->). rewrite L2 in H8.
    split; [|reflexivity]. split; try (split_and!; congruence); try assumption; try done.
  - change (String.eqb retryScenario udpScenario) with false.
    change (String.eqb retryScenario tcpScenario) with false.
    change (String.eqb retryScenario retryScenario) with true. cbn match.
    destruct (exchangeUDP _ _ _ _ _ _ _ _) as [[[pu|] nu] ku] eqn:Eu; [|done]. cbn zeta. fold (retryID id).
    destruct (exchangeTCP _ _ _ _ _ (retryID id) c) as [[[[pt|] nt] kt] ct] eqn:Et; [|done].
    intros [= <- _ <- _]. split; [|reflexivity].
    apply exchangeUDP_genuine in Eu as (H1 & H2 & H3 & H4 & H5 & H6 & H7 & _ & _).
    apply exchangeTCP_genuine in Et as (_ & _ & _ & _ & G5 & _ & _ & G8 & _). rewrite L5 in G8.
    destruct (set_retry_fields id (retryID id) pt pu) as (F1 & F2 & F3 & F4 & F5 & F6 & F7 & F8 & F9 & F10).
    split; rewrite ?F1, ?F2, ?F3, ?F4, ?F5, ?F6, ?F7, ?F8, ?F9, ?F10; try done; try assumption.
    split_and!; [done|congruence|by rewrite H3].
Qed.

(** A phase loop that ended without an error completed every turn. *)
Lemma phaseLoop_ok scenario turns id c s s' c' :
  is_scenario scenario -> is_id id ->
  phaseLoop (exchange scenario) advance turns id c s = (s', None, c') ->
  CompletedOperations s' = CompletedOperations s + len turns /\
  RetryCount s' = RetryCount s + len turns * turnRetries scenario /\
  MalformedOperations s' = MalformedOperations s /\ FailedOperations s' = FailedOperations s /\
  TimedOutOperations s' = TimedOutOperations s /\
  (turns <> [] -> exists p, LastProof s' = Some p /\ genuine scenario p).
Proof.
  intros Hs. revert id c s; induction turns as [|[env l] turns IH]; intros id c s Hid.
  - intros [= <- _]. unfold len. simpl. split_and!; lia || done.
  - cbn [phaseLoop]. destruct (exchange scenario id env c) as [[[[p|] n] k] c1] eqn:E; [|done]. intros H.
    apply exchange_genuine in E as [Hp ->]; [|done|done].
    pose proof (advance_id id Hid) as Hid'.
    assert (Hlast : turns = [] -> exists p, LastProof s' = Some p /\ genuine scenario p).
    { intros ->. injection H as <- _. exists p. split; [by destruct s|done]. }
    apply IH in H as (H1 & H2 & H3 & H4 & H5 & H6); [|done].
    replace (len ((env, l) :: turns)) with (len turns + 1) by (unfold len; simpl; lia).
    destruct s; simpl in *. split_and!; try lia.
    intros _. destruct turns; [by apply Hlast|by apply H6].
Qed.

Lemma runPhase_ok scenario env once s c :
  is_scenario scenario -> runPhase env scenario once = (s, None, c) ->
  0 <= CompletedOperations s /\ RetryCount s = CompletedOperations s * turnRetries scenario /\
  (CompletedOperations s <> 0 -> exists p, LastProof s = Some p /\ genuine scenario p).
Proof.
  intros Hs. unfold runPhase. destruct (openPhaseClient env scenario) as [[err|] latency]; [done|].
  destruct (phaseLoop _ _ _ _ _ _) as [[s1 [err|]] c1] eqn:E; [done|]. intros [= <- _].
  apply phaseLoop_ok in E as (H1 & H2 & _ & _ & _ & H6); [|done|unfold is_id; lia].
  simpl in H1, H2. pose proof (len_nonneg (if once then take 1 (ph_turns env) else ph_turns env)).
  destruct s1; simpl in *. split_and!; [lia|lia|]. intros Hne. apply H6. intros Ht. rewrite Ht in H1. done.
Qed.

Lemma rejected_false phase :
  rejected phase = false ->
  exists s c, phase = (s, None, c) /\ CompletedOperations s <> 0 /\ MalformedOperations s = 0 /\
    FailedOperations s = 0 /\ TimedOutOperations s = 0.
Proof.
  destruct phase as [[s [err|]] c]; unfold rejected, hasFailures; [done|].
  intros H. reflect_bools. exists s, c. by split_and!.
Qed.

(** A result of a classic DNS executor is earned. If the UDP or the TCP executor prints
    a result and exits 0, then its scenario is one of its own, the environment held the
    exact profile, and the measured phase completed operations, none of them malformed,
    failed or timed out, with exactly one retry each in the truncation scenario; and the
    proof it reports is that of a correlated answer whose normalized digest is the
    fixture's, authoritative and without recursion, of the fixture's length. *)
Theorem classic_exit_zero_is_earned cfg env r :
  cfg = udpConfig \/ cfg = tcpConfig -> Run cfg env = (0, Some r) ->
  RScenarioID r ∈ Supported cfg /\ RScenarioID r = env_value (r_getenv env) "PLAB_SCENARIO_ID" /\
  loadConfig (r_getenv env) = None /\
  (runPhase (r_preflight env) (RScenarioID r) true).1.2 = None /\
  0 < MCompleted (RMetrics r) /\ MMalformed (RMetrics r) = 0 /\ MFailed (RMetrics r) = 0 /\
  MTimedOut (RMetrics r) = 0 /\
  MRetry (RMetrics r) = MCompleted (RMetrics r) * turnRetries (RScenarioID r) /\
  exists p, RProof r = Some p /\ genuine (RScenarioID r) p.
Proof.
  intros Hcfg. unfold Run. destruct (r_showVersion env); [done|].
  destruct (bool_decide (r_mkdir env <> None)); [done|].
  destruct (checkIdentity cfg (r_getenv env)) as [scenario|code] eqn:Ei; [|by intros [= _ ?]].
  destruct (normalizeTarget _ _ _ _); [|done].
  destruct (runPhase (r_preflight env) scenario true) as [[spf epf] cpf] eqn:Epf.
  destruct (bool_decide (epf <> None)) eqn:Eerr; [done|]. destruct (r_validationOnly env); [done|].
  destruct (bool_decide (loadConfig _ <> None)) eqn:Ec; [done|].
  destruct (rejected (runPhase (r_warmup env) scenario false)); [done|].
  destruct (rejected (runPhase (r_measured env) scenario false)) eqn:Em; [done|]. intros [= <-].
  apply rejected_false in Em as (s & c & Em & Hok & Hm & Hf & Ht). rewrite Em.
  unfold checkIdentity in Ei. destruct (negb _); [done|].
  destruct (string_in (Supported cfg) _) eqn:Hin; [|by destruct (string_in allDNS _)]. injection Ei as <-.
  unfold string_in in Hin. apply existsb_exists in Hin as (x & Hx & Heq). apply String.eqb_eq in Heq. subst x.
  apply list_elem_of_In in Hx.
  assert (Hs : is_scenario (env_value (r_getenv env) "PLAB_SCENARIO_ID")).
  { unfold is_scenario. destruct Hcfg as [-> | ->]; simpl in Hx; set_solver. }
  destruct (runPhase_ok _ _ _ _ _ Hs Em) as (H0 & Hr & Hp).
  cbn [normalize RScenarioID RMetrics RProof MCompleted MMalformed MFailed MTimedOut MRetry fst snd].
  apply bool_decide_eq_false, dec_stable in Ec. apply bool_decide_eq_false, dec_stable in Eerr.
  rewrite Epf. split_and!; try done; [lia|]. by apply Hp.
Qed.

Definition classic_environment (name : string) : string :=
  if String.eqb name "PLAB_SCENARIO_ID" then udpScenario
  else if String.eqb name "PLAB_LOAD_PROFILE_ID" then ProfileID
  else if String.eqb name "PLAB_DURATION_SECONDS" then "5"
  else if string_in ["PLAB_CONNECTIONS"; "PLAB_CONCURRENCY"; "PLAB_WARMUP_SECONDS"; "PLAB_REPETITION"] name
  then "1" else "".
Definition classic_phase : phaseEnv :=
  PhaseEnv None None (f_of_Z 1) (Conn (Stream [] EEOF) [] [])
    (pair authorityUDP <$> [f_of_Z 1; f_of_Z 2]) (f_of_Z 5).
Definition classic_run : runEnv :=
  RunEnv classic_environment "127.0.0.1:15353" (fun _ => Err (EMsg "no scheme")) (fun _ => None) false false None
    classic_phase classic_phase classic_phase.
Definition classic_result : result :=
  default (normalize "" (emptySummary f_zero)) (Run udpConfig classic_run).2.

Lemma classic_exit_zero_is_earned_witness :
  Run udpConfig classic_run = (0, Some classic_result) /\
  RScenarioID classic_result ∈ Supported udpConfig /\ MCompleted (RMetrics classic_result) = 2.
Proof.
  assert (H : Run udpConfig classic_run = (0, Some classic_result)) by (vm_compute; reflexivity).
  split; [exact H|]. split; [|vm_compute; reflexivity].
  apply (classic_exit_zero_is_earned udpConfig classic_run classic_result (or_introl eq_refl) H).
Defined.
