(* ===== verification/DnsDot.v ===== *)
(** DNS over TLS: the server go-dns-dot and the executor go-dns-dot-executor. *)
From S2P Require Export Prelude Stats GoText GoHash DnsWire.

(** ** The server *)

Module Server.

(** The loop of [handle] over the decrypted stream; [outstanding] holds the IDs being
    answered. The flag says that it ended at the end of the input, between messages. *)
Fixpoint serveLoop (fuel : nat) (outstanding : gset Z) (c : conn) : bool * conn :=
  match fuel with
  | O => (false, c)
  | S fuel =>
      let with_input s := Conn s (c_out c) (c_faults c) in
      match read_full 2 (c_in c) with
      | (Err e, s) => (errors_is EEOF e, with_input s)
      | (Ok prefix, s) =>
          if negb (be_decode prefix =? 27) then (false, with_input s) else
          match read_full 27 s with
          | (Err _, s) => (false, with_input s)
          | (Ok query, s) =>
              let id := messageID query in
              if id =? 0 then (false, with_input s)
              else if bool_decide (id ∈ outstanding) then (false, with_input s)
              else
                let outstanding := {[id]} ∪ outstanding in
                if negb (String.eqb (hash (withID query 0)) aQueryHash) then (false, with_input s) else
                match conn_write (frame (withID aResponse id)) (with_input s) with
                | ((_, Some _), c) => (false, c)
                | ((_, None), c) => serveLoop fuel (outstanding ∖ {[id]}) c
                end
          end
      end
  end.

(** [handle]: [tls] is what the handshake gives. *)
Definition handle (tls : res tlsState) (c : conn) : bool * conn :=
  match tls with
  | Err _ => (false, c)
  | Ok state =>
      if negb (ts_version state =? VersionTLS13) || negb (String.eqb (ts_protocol state) "dot") || ts_resumed state
      then (false, c)
      else serveLoop (S (length (st_data (c_in c)))) ∅ c
  end.

End Server.

(** ** The executor *)

Definition strictScenario : string := "dns.dot.query.a".
Definition interopScenario : string := "dns.dot.interoperability.query.a".
Definition resolverScenario : string := "dns.dot.resolver.interoperability.query.a".
Definition supportedScenarios : list string := [strictScenario; interopScenario; resolverScenario].
Definition fixtureID : string := "dns.plab-test-a.canonical".
Definition resolverFixtureID : string := "dns.resolver-plab-test-a-v2.canonical".
Definition selectedScenario (getenv : string -> string) : string :=
  let id := env_value getenv "PLAB_SCENARIO_ID" in if String.eqb id "" then strictScenario else id.
Definition selectedFixtureID (scenario : string) : string :=
  if String.eqb scenario resolverScenario then resolverFixtureID else fixtureID.
(** The query, the answer and their digests. *)
Definition canonicalFixture (scenario : string) : bytes * bytes * string * string :=
  if String.eqb scenario resolverScenario
  then (resolverQuery, resolverResponse, resolverQueryHash, resolverResponseHash)
  else (aQuery, aResponse, aQueryHash, aResponseHash).
Definition protocolVariant (scenario : string) : string :=
  if String.eqb scenario resolverScenario then "dot-rfc7858-recursive-resolver"
  else if String.eqb scenario interopScenario then "dot-rfc7858-interoperability" else "dot-tls1.3-tcp".

(** The problems of [validateTLS]. *)
Definition validateTLS (scenario : string) (state : tlsState) : option goerror :=
  let '(der, spki) := leafDigests (ts_peer state) in
  match failure (negb (ts_version state =? VersionTLS13)) "exact TLS 1.3 was not negotiated"
        ++ failure (negb (ts_complete state)) "TLS handshake incomplete"
        ++ failure (ts_resumed state) "session resumption detected"
        ++ failure (negb (String.eqb (ts_protocol state) "dot")) "ALPN mismatch"
        ++ failure (String.eqb scenario strictScenario && negb (String.eqb (ts_cipher state) requiredCipher))
             "cipher-suite mismatch"
        ++ failure (ts_chains state =? 0) "certificate chain not authenticated"
        ++ failure (negb (String.eqb der leafDERHash)) "leaf DER hash mismatch"
        ++ failure (negb (String.eqb spki leafSPKIHash)) "leaf SPKI hash mismatch" with
  | [] => None
  | failures => Some (EMsg (join "; " failures))
  end.

(** The proof of an exchange, less its constants. *)
Record dnsProof := DnsProof {
  FixtureID : string; AuthoritativeAnswer : bool; RecursionDesired : bool; RecursionAvailable : bool;
  RuntimeMessageID : Z; ResponseMessageID : Z; QueryLengthBytes : Z; QueryNormalizedSHA256 : string;
  ResponseLengthBytes : Z; ResponseNormalizedSHA256 : string; RequestFramedHex : string; ResponseFramedHex : string
}.

(** One exchange; [deadline] is the error of [SetDeadline]. *)
Definition exchange (scenario : string) (id : Z) (deadline : option goerror) (c : conn)
    : outcome (P := dnsProof) * conn :=
  match deadline with
  | Some err => ((Err err, 0, 0), c)
  | None =>
  let '(queryTemplate, responseTemplate, expectedQueryHash, expectedResponseHash) := canonicalFixture scenario in
  let query := withID queryTemplate id in
  let framed := frame query in
  match conn_write framed c with
  | ((_, Some err), c) => ((Err err, 0, 0), c)
  | ((_, None), c) =>
  let with_input s := Conn s (c_out c) (c_faults c) in
  match read_full 2 (c_in c) with
  | (Err err, s) => ((Err err, len framed, 0), with_input s)
  | (Ok prefix, s) =>
  let length := be_decode prefix in
  if (length <=? 0) || (65535 <? length)
  then ((Err (EMalformed "malformed DoT response length"), len framed + 2, 0), with_input s) else
  match read_full (Z.to_nat length) s with
  | (Err err, s) => ((Err err, len framed + 2, 0), with_input s)
  | (Ok response, s) =>
  let normalized := withID response 0 in
  let responseID := messageID response in
  let resolver := String.eqb scenario resolverScenario in
  let result :=
    guard len response =? len responseTemplate
      else EMalformed ("response length mismatch: " +:+ pretty (len response)) in
    guard responseID =? id else EMalformed "response message ID did not correlate" in
    guard String.eqb (hash normalized) expectedResponseHash && bool_decide (normalized = responseTemplate)
      else EMalformed "canonical response content/hash mismatch" in
    guard String.eqb (hash (withID query 0)) expectedQueryHash
      else EMsg "canonical query content/hash mismatch" in
    Ok (DnsProof (selectedFixtureID scenario) (negb resolver) resolver resolver id responseID (len query)
          (hash (withID query 0)) (len response) (hash normalized) (hex_encode framed)
          (hex_encode (prefix ++ response))) in
  ((result, len framed + 2 + len response, 0), with_input s)
  end end end end.

(** What a turn meets: the control endpoint and the deadline of the connection. *)
Record turnEnv := TurnEnv { t_post : string -> res (Z * bytes); t_deadline : option goerror }.

(** A failed flush counts as a failed operation, whatever its error. *)
Definition flushFailed (err : goerror) (s : phaseSummary dnsProof) : phaseSummary dnsProof :=
  let '(PhaseSummary d c ok m r f t b l p e) := s in
  PhaseSummary d c ok m r (f + 1) t b l p (bump (error_string err) e).

(** The loop of [runPhase]. *)
Fixpoint dotLoop (getenv : string -> string) (address : res (string * string)) (turns : list (turnEnv * float64))
    (nextID : Z) (c : conn) (s : phaseSummary dnsProof) : phaseSummary dnsProof * option goerror * conn :=
  match turns with
  | [] => (s, None, c)
  | (env, latency) :: turns =>
      let nextID := if nextID =? 0 then 1 else nextID in
      let scenario := selectedScenario getenv in
      match (if String.eqb scenario resolverScenario then flushResolverCache getenv address (t_post env) else None) with
      | Some err => (flushFailed err s, Some err, c)
      | None =>
          let '((result, bytes, retries), c) := exchange scenario nextID (t_deadline env) c in
          let s := add_transfer bytes retries s in
          match result with
          | Err err => (classify err s, Some err, c)
          | Ok proof => dotLoop getenv address turns (u16 (nextID + 1)) c (record_success proof latency s)
          end
      end
  end.

(** What a phase meets: the session [connect] gets and how long that took (zero when there
    is none), its stream, and its turns. *)
Record phaseEnv := PhaseEnv {
  ph_tls : res tlsState; ph_connected : float64; ph_conn : conn; ph_turns : list (turnEnv * float64);
  ph_seconds : float64
}.
Definition connect (scenario : string) (env : phaseEnv) : option goerror :=
  match ph_tls env with Err err => Some err | Ok state => validateTLS scenario state end.

Definition runPhase (getenv : string -> string) (address : res (string * string)) (env : phaseEnv) (once : bool)
    : phaseSummary dnsProof * option goerror * conn :=
  let s := emptySummary (ph_connected env) in
  match connect (selectedScenario getenv) env with
  | Some err => (failed_only s, Some err, ph_conn env)
  | None =>
      let turns := if once then take 1 (ph_turns env) else ph_turns env in
      match dotLoop getenv address turns 1 (ph_conn env) s with
      | (s, None, c) => (set_duration (ph_seconds env) s, None, c)
      | (s, Some err, c) => (s, Some err, c)
      end
  end.

Definition hasFailures (s : phaseSummary dnsProof) : bool :=
  negb (MalformedOperations s =? 0) || negb (RetryCount s =? 0) || negb (FailedOperations s =? 0)
  || negb (TimedOutOperations s =? 0).

(** ** Selection, documents and [main] *)

Definition knownUnsupported : list string :=
  ["dns.classic.tcp.query.a"; "dns.classic.udp-truncated-tcp-retry"; "dns.classic.udp.query.a";
   "dns.doh2.query.a"; "dns.doh2.interoperability.query.a"; "dns.doh3.get.a"; "dns.doh3.query.a";
   "dns.doh3.query.aaaa"; "dns.doh3.query.cname-chain"; "dns.doh3.query.large-dnssec-shaped";
   "dns.doh3.query.nodata"; "dns.doh3.query.nxdomain"; "dns.doh3.interoperability.query.a";
   "dns.doq.query.a"; "dns.doq.interoperability.query.a"].

Definition verifySubstitution (getenv : string -> string) (variable expected : string) : bool :=
  let observed := env_value getenv variable in String.eqb observed "" || String.eqb observed expected.

(** [checkIdentityOrExit]: the exit code, if it exits. *)
Definition checkIdentityOrExit (getenv : string -> string) : option Z :=
  if negb (forallb (fun '(n, v) => verifySubstitution getenv n v)
       [("PLAB_EXECUTOR_ID", "go-dns-dot-executor"); ("PLAB_EXECUTOR_VERSION", "0.3.0");
        ("PLAB_LOAD_GENERATOR_ID", "go-dns-dot-load"); ("PLAB_LOAD_GENERATOR_VERSION", "0.3.0");
        ("PLAB_PROTOCOL", "dot"); ("PLAB_PROTOCOL_VARIANT", protocolVariant (selectedScenario getenv))])
  then Some 2
  else if string_in supportedScenarios (selectedScenario getenv) then None
  else if string_in knownUnsupported (selectedScenario getenv) then Some 3 else Some 2.

Definition loadConfig (getenv : string -> string) : option goerror :=
  if negb (string_in supportedScenarios (selectedScenario getenv))
  then Some (EMsg "exact supported scenario identity is required")
  else if negb (String.eqb (env_value getenv "PLAB_LOAD_PROFILE_ID") "secure-dns-smoke")
  then Some (EMsg ("supports load profile " +:+ go_quote "secure-dns-smoke" +:+ " only"))
  else if forallb (fun '(n, v) => envInt getenv n =? v)
            [("PLAB_CONNECTIONS", 1); ("PLAB_CONCURRENCY", 1); ("PLAB_DURATION_SECONDS", 5);
             ("PLAB_WARMUP_SECONDS", 1); ("PLAB_REPETITION", 1)]
  then None
  else Some (EMsg "secure-dns-smoke requires connections=1 concurrency=1 duration=5 warmup=1 repetition=1").

(** [parse] is [url.Parse] (the scheme and the host), [split] the error of
    [net.SplitHostPort]. *)
Definition normalizeTarget (parse : string -> res (string * string)) (split : string -> option goerror)
    (value : string) : res string :=
  let value := trim_space value in
  guard negb (String.eqb value "") else EMsg "target address required" in
  if negb (contains_sub value "://")
  then match split value with Some err => Err err | None => Ok value end
  else
    let? u := parse value in
    guard String.eqb u.1 "tls" && negb (String.eqb u.2 "") else EMsg "DoT target must use tls://host:port" in
    Ok u.2.

Record metrics := Metrics {
  QueriesPerSecond : float64; QueryLatency : list float64;      (* mean, P50, P75, P90, P95, P99 *)
  MConnectionLatency : float64; MCompleted : Z; MMalformed : Z; MRetry : Z; MFailed : Z; MTimedOut : Z; MBytes : Z
}.
Record result := Result {
  RScenarioID : string; RStatus : string; RVariant : string; RProof : option dnsProof; RMetrics : metrics
}.
Definition normalizeResult (scenario : string) (s : phaseSummary dnsProof) : result :=
  let l := Latencies s in
  Result scenario "passed" (protocolVariant scenario) (LastProof s)
    (Metrics (fdiv (f_of_Z (CompletedOperations s)) (DurationSeconds s))
       (mean l :: ((fun q => percentile l (f_ratio q 100)) <$> [50; 75; 90; 95; 99]))
       (ConnectionLatency s) (CompletedOperations s) (MalformedOperations s) (RetryCount s) (FailedOperations s)
       (TimedOutOperations s) (TotalTransferredBytes s)).

(** What [main] meets; the artifacts are written. [m_split] is [net.SplitHostPort]. *)
Record mainEnv := MainEnv {
  m_getenv : string -> string; m_target : string; m_parse : string -> res (string * string);
  m_split : string -> res (string * string); m_roots : res unit;
  m_validationOnly : bool; m_showVersion : bool; m_mkdir : option goerror;
  m_preflight : phaseEnv; m_warmup : phaseEnv; m_measured : phaseEnv
}.

(** A phase that is rejected: an error, no operation or failures. *)
Definition rejected (phase : phaseSummary dnsProof * option goerror * conn) : bool :=
  match phase with (s, err, _) => bool_decide (err <> None) || (CompletedOperations s =? 0) || hasFailures s end.

(** The exit code, and the result printed. *)
Definition main (env : mainEnv) : Z * option result :=
  let getenv := m_getenv env in
  if m_showVersion env then (0, None) else
  if bool_decide (m_mkdir env <> None) then (1, None) else
  match checkIdentityOrExit getenv with
  | Some code => (code, None)
  | None =>
      match normalizeTarget (m_parse env) (fun v => match m_split env v with Err e => Some e | Ok _ => None end)
              (m_target env), m_roots env with
      | Err _, _ | Ok _, Err _ => (2, None)
      | Ok target, Ok _ =>
          let address := m_split env target in
          let '(_, err, _) := runPhase getenv address (m_preflight env) true in
          if bool_decide (err <> None) then (1, None)
          else if m_validationOnly env then (0, None)
          else if bool_decide (loadConfig getenv <> None) then (2, None)
          else if rejected (runPhase getenv address (m_warmup env) false) then (1, None)
          else
            let measured := runPhase getenv address (m_measured env) false in
            if rejected measured then (1, None)
            else (0, Some (normalizeResult (selectedScenario getenv) measured.1.1))
      end
  end.
