(* ===== verification/DnsDotProps.v ===== *)
(** DNS over TLS: sessions between the executor and the server, and what a successful run
    has earned. *)
From S2P Require Export Prelude Stats GoText GoHash Certificates DnsWire DnsDot.

Lemma dot_fixtures :
  hash (withID aQuery 0) = aQueryHash /\ hash (withID aResponse 0) = aResponseHash /\
  hash (withID resolverQuery 0) = resolverQueryHash /\ hash (withID resolverResponse 0) = resolverResponseHash /\
  len aQuery = 27 /\ len aResponse = 43 /\ len resolverQuery = 27 /\ len resolverResponse = 43 /\
  withID aResponse 0 = aResponse.
Proof. vm_compute. repeat split. Qed.

(** ** The loop as the shared phase loop *)

Definition nonzero (id : Z) : Z := if id =? 0 then 1 else id.
Definition dotAdvance (id : Z) : Z := nonzero (u16 (id + 1)).

Lemma dotAdvance_id id : is_id id -> is_id (dotAdvance id).
Proof.
  unfold is_id, dotAdvance, nonzero, u16. intros H. destruct (_ =? 0) eqn:E; reflect_bools; [lia|].
  pose proof (Z.mod_pos_bound (id + 1) 65536). lia.
Qed.

(** One turn: the flush of the resolver scenario, then the exchange; a refused flush ends
    the phase before anything is sent. *)
Definition flushOf (getenv : string -> string) (address : res (string * string)) (env : turnEnv) : option goerror :=
  if String.eqb (selectedScenario getenv) resolverScenario then flushResolverCache getenv address (t_post env)
  else None.

Lemma dotLoop_phaseLoop getenv address turns id c s :
  Forall (fun turn : turnEnv * float64 => flushOf getenv address turn.1 = None) turns ->
  dotLoop getenv address turns id c s
  = phaseLoop (fun id env => exchange (selectedScenario getenv) id (t_deadline env)) dotAdvance turns (nonzero id) c s.
Proof.
  intros H. revert id c s; induction H as [|[env l] turns Hf _ IH]; intros id c s; [done|].
  cbn [dotLoop phaseLoop]. fold (nonzero id). unfold flushOf in Hf. cbn [fst] in Hf. rewrite Hf.
  destruct (exchange _ _ _ _) as [[[[p|] n] k] c']; [|done]. apply IH.
Qed.

(** ** Sessions *)

Lemma dot_turn_completes scenario id rest out :
  scenario <> resolverScenario -> is_id id ->
  exists p, exchange scenario id None (Conn (Stream (frame (withID aResponse id) ++ rest) EEOF) out [])
    = ((Ok p, 74, 0), Conn (Stream rest EEOF) (out ++ frame (withID aQuery id)) []).
Proof.
  intros Hs Hid. destruct dot_fixtures as (Hq & Hr & _ & _ & L1 & L2 & _ & _ & Hz). unfold exchange, canonicalFixture.
  rewrite (proj2 (String.eqb_neq _ _) Hs). unfold conn_write. cbn [c_faults c_in c_out].
  destruct (read_frame (withID aResponse id) rest EEOF) as (H1 & H2 & H3); [rewrite len_withID; lia|].
  rewrite H1, H2, len_withID, L2 by lia. change ((43 <=? 0) || (65535 <? 43)) with false. cbn match.
  rewrite len_withID, L2 in H3 by lia. rewrite H3.
  rewrite len_frame, !len_withID, L1, L2 by lia. rewrite !withID_withID, Hq, Hr, Hz, messageID_withID by done.
  rewrite !Z.eqb_refl, !String.eqb_refl, bool_decide_true by done. eauto.
Qed.

Lemma answered_id (id : Z) : ({[id]} ∪ ∅) ∖ {[id]} = (∅ : gset Z).
Proof. set_solver. Qed.

(** The server answers a sequence of queries in order and ends cleanly; no ID is
    outstanding between two of them. *)
Lemma serveLoop_answers ids fuel out :
  Forall is_id ids -> (length ids < fuel)%nat ->
  Server.serveLoop fuel ∅ (Conn (Stream (concat ((fun id => frame (withID aQuery id)) <$> ids)) EEOF) out [])
  = (true, Conn (Stream [] EEOF) (out ++ concat ((fun id => frame (withID aResponse id)) <$> ids)) []).
Proof.
  destruct dot_fixtures as (Hq & _ & _ & _ & L1 & L2 & _).
  revert fuel out; induction ids as [|id ids IH]; intros fuel out Hids Hfuel.
  - destruct fuel; simpl in Hfuel; [lia|]. simpl. by rewrite app_nil_r.
  - inversion_clear Hids as [|?? Hid Hids']. destruct fuel as [|fuel]; simpl in Hfuel; [lia|].
    rewrite !fmap_cons. cbn [concat Server.serveLoop c_in c_out c_faults].
    destruct (read_frame (withID aQuery id) (concat ((fun id => frame (withID aQuery id)) <$> ids)) EEOF)
      as (H1 & H2 & H3); [rewrite len_withID; lia|].
    rewrite H1, H2. rewrite len_withID, L1 in H3 |- * by lia. change (negb (27 =? 27)) with false. cbn match.
    change (Z.to_nat 27) with 27%nat in H3. rewrite H3, messageID_withID, withID_withID, Hq by done.
    rewrite (proj2 (Z.eqb_neq id 0)) by (unfold is_id in Hid; lia).
    rewrite (bool_decide_false (id ∈ (∅ : gset Z))) by apply not_elem_of_empty. rewrite String.eqb_refl. cbn [negb].
    unfold conn_write. cbn [c_in c_out c_faults].
    rewrite answered_id.
    rewrite (IH fuel _ Hids') by lia. rewrite <-app_assoc. reflexivity.
Qed.

(** A session the server accepts and the executor authenticates. *)
Definition dot_session (scenario : string) (state : tlsState) : Prop :=
  ts_version state = VersionTLS13 /\ ts_protocol state = "dot" /\ ts_resumed state = false /\
  validateTLS scenario state = None.

(** The DoT executor and the DoT server of this repository agree. Over a TLS session
    both accept, for any number of turns, message IDs wrapping around included: the framed
    queries of the executor are a session the server serves to a clean end, never finding
    an ID outstanding, and with its answers the phase completes every turn with no
    failure, no retry, nothing malformed and 74 octets each. *)
Theorem dot_session_completes getenv address state latencies connected seconds :
  selectedScenario getenv = strictScenario \/ selectedScenario getenv = interopScenario ->
  dot_session (selectedScenario getenv) state ->
  let ids := turnIDs dotAdvance (length latencies) 1 in
  let queries := concat ((fun id => frame (withID aQuery id)) <$> ids) in
  let '(clean, served) := Server.handle (Ok state) (Conn (Stream queries EEOF) [] []) in
  clean = true /\
  exists s, runPhase getenv address
      (PhaseEnv (Ok state) connected (Conn (Stream (c_out served) EEOF) [] [])
         (pair (TurnEnv (fun _ => Err EDeadline) None) <$> latencies) seconds) false
      = (s, None, Conn (Stream [] EEOF) queries []) /\
    CompletedOperations s = len latencies /\ MalformedOperations s = 0 /\ FailedOperations s = 0 /\
    TimedOutOperations s = 0 /\ RetryCount s = 0 /\ TotalTransferredBytes s = len latencies * 74.
Proof.
  intros Hs (Hv & Hp & Hr & Htls). cbn zeta. assert (Hone : is_id 1) by (unfold is_id; lia).
  assert (Hne : selectedScenario getenv <> resolverScenario) by (by destruct Hs as [-> | ->]).
  pose proof (turnIDs_ids dotAdvance (length latencies) 1 dotAdvance_id Hone) as Hids.
  unfold Server.handle. rewrite Hv, Hp, Hr, Z.eqb_refl, String.eqb_refl. cbn [negb orb c_in st_data].
  rewrite serveLoop_answers; [|done|].
  2: { pose proof (length_concat_frames (withID aQuery) (turnIDs dotAdvance (length latencies) 1)). lia. }
  split; [done|]. cbn [c_out].
  destruct (phaseLoop_completes (fun id env => exchange (selectedScenario getenv) id (t_deadline env)) dotAdvance
              (TurnEnv (fun _ => Err EDeadline) None) (fun id => frame (withID aQuery id))
              (fun id => frame (withID aResponse id)) 74 0 dotAdvance_id
              (fun id rest out => dot_turn_completes (selectedScenario getenv) id rest out Hne)
              latencies 1 [] (emptySummary connected) Hone) as (s & Hloop & [H1 H2 H3 H4 H5 H6 H7]).
  exists (set_duration seconds s). unfold runPhase, connect.
  cbn [ph_tls ph_connected ph_conn ph_turns ph_seconds]. rewrite Htls, dotLoop_phaseLoop.
  - change (nonzero 1) with 1. cbn zeta in Hloop. rewrite app_nil_l in Hloop |- *. rewrite Hloop.
    destruct s; simpl in *. split_and!; congruence || lia || done.
  - apply Forall_fmap, Forall_true. intros l. unfold flushOf. by rewrite (proj2 (String.eqb_neq _ _) Hne).
Qed.

Definition dns_state : tlsState :=
  TlsState VersionTLS13 requiredCipher "dot" true false 1 [(dns_leaf_der, dns_leaf_spki)].

Lemma dns_state_accepted : dot_session (selectedScenario (fun _ => "")) dns_state.
Proof. vm_compute. repeat split. Qed.

Lemma dot_session_completes_witness :
  dot_session (selectedScenario (fun _ => "")) dns_state /\
  exists s c, runPhase (fun _ => "") (Err EEOF)
      (PhaseEnv (Ok dns_state) f_zero
         (Conn (Stream (c_out (Server.handle (Ok dns_state)
            (Conn (Stream (concat ((fun id => frame (withID aQuery id)) <$> [1; 2])) EEOF) [] [])).2) EEOF) [] [])
         (pair (TurnEnv (fun _ => Err EDeadline) None) <$> [f_of_Z 1; f_of_Z 2]) (f_of_Z 5)) false = (s, None, c) /\
    CompletedOperations s = 2 /\ TotalTransferredBytes s = 148.
Proof.
  split; [exact dns_state_accepted|].
  pose proof (dot_session_completes (fun _ => "") (Err EEOF) dns_state [f_of_Z 1; f_of_Z 2] f_zero (f_of_Z 5)
                (or_introl eq_refl) dns_state_accepted) as H.
  cbn zeta in H. change (turnIDs dotAdvance (length [f_of_Z 1; f_of_Z 2]) 1) with [1; 2] in H.
  destruct (Server.handle _ _) as [clean served]. destruct H as (_ & s & Hrun & H1 & _ & _ & _ & _ & H2).
  exists s. eexists. split; [exact Hrun|]. split; [exact H1|exact H2].
Defined.

(** ** What a result has earned *)

(** The proof a completed turn leaves: the query and the answer on the wire are the
    fixture's, octet for octet, under one ID. *)
Definition dot_genuine (scenario : string) (p : dnsProof) : Prop :=
  let '(query, response, queryHash, responseHash) := canonicalFixture scenario in
  ResponseMessageID p = RuntimeMessageID p /\
  QueryNormalizedSHA256 p = queryHash /\ ResponseNormalizedSHA256 p = responseHash /\
  RequestFramedHex p = hex_encode (frame (withID query (RuntimeMessageID p))) /\
  exists prefix answer, ResponseFramedHex p = hex_encode (prefix ++ answer) /\
    be_decode prefix = ResponseLengthBytes p /\ len answer = len response /\
    withID answer 0 = response /\ messageID answer = RuntimeMessageID p.

Lemma exchange_dot_genuine scenario id deadline c p n k c' :
  exchange scenario id deadline c = ((Ok p, n, k), c') -> dot_genuine scenario p /\ k = 0.
Proof.
  unfold exchange, dot_genuine. destruct deadline; [done|].
  destruct (canonicalFixture scenario) as [[[q r] qh] rh].
  destruct (conn_write _ c) as [[? [err|]] c1]; [done|].
  destruct (read_full 2 _) as [[prefix|] s1]; [|done].
  destruct (_ || _) eqn:El; [done|]. apply orb_false_iff in El as [El _]. apply Z.leb_gt in El.
  destruct (read_full (Z.to_nat _) s1) as [[response|] s2] eqn:Er; [|done].
  apply read_full_ok in Er as (Hlen & _ & _). intros [= H _ <- _]. split; [|done].
  repeat match type of H with (if ?b then _ else Err _) = Ok _ => destruct b eqn:?; [|discriminate H] end.
  injection H as <-.
  repeat match goal with
  | E : _ && _ = true |- _ => apply andb_true_iff in E as [? ?]
  | E : String.eqb _ _ = true |- _ => apply String.eqb_eq in E
  | E : Z.eqb _ _ = true |- _ => apply Z.eqb_eq in E
  | E : bool_decide _ = true |- _ => apply bool_decide_eq_true in E
  end.
  cbn [ResponseMessageID RuntimeMessageID QueryNormalizedSHA256 ResponseNormalizedSHA256 RequestFramedHex
       ResponseFramedHex ResponseLengthBytes].
  split_and!; [assumption|assumption|assumption|reflexivity|].
  exists prefix, response. split_and!; [reflexivity| |assumption|assumption|assumption].
  unfold len. rewrite Hlen. lia.
Qed.

(** A phase loop that ended without an error completed every turn, and flushed the cache
    before each in the resolver scenario. *)
Lemma dotLoop_ok getenv address turns id c s s' c' :
  dotLoop getenv address turns id c s = (s', None, c') ->
  CompletedOperations s' = CompletedOperations s + len turns /\ RetryCount s' = RetryCount s /\
  Forall (fun turn : turnEnv * float64 => flushOf getenv address turn.1 = None) turns /\
  (turns <> [] -> exists p, LastProof s' = Some p /\ dot_genuine (selectedScenario getenv) p).
Proof.
  revert id c s; induction turns as [|[env l] turns IH]; intros id c s.
  - intros [= <- _]. unfold len. simpl. split_and!; lia || constructor || done.
  - cbn [dotLoop]. fold (flushOf getenv address env). destruct (flushOf getenv address env) eqn:Ef; [done|].
    destruct (exchange _ _ _ c) as [[[[p|] n] k] c1] eqn:E; [|done]. intros H.
    apply exchange_dot_genuine in E as [Hp ->].
    assert (Hlast : turns = [] -> exists p, LastProof s' = Some p /\ dot_genuine (selectedScenario getenv) p).
    { intros ->. injection H as <- _. exists p. split; [by destruct s|done]. }
    apply IH in H as (H1 & H2 & H3 & H4).
    replace (len ((env, l) :: turns)) with (len turns + 1) by (unfold len; simpl; lia).
    destruct s; simpl in *. split_and!; [lia|lia|by constructor|].
    intros _. destruct turns; [by apply Hlast|by apply H4].
Qed.

Lemma runPhase_dot_ok getenv address env once s c :
  runPhase getenv address env once = (s, None, c) ->
  (exists state, ph_tls env = Ok state /\ validateTLS (selectedScenario getenv) state = None) /\
  0 <= CompletedOperations s /\ RetryCount s = 0 /\
  Forall (fun turn : turnEnv * float64 => flushOf getenv address turn.1 = None)
    (if once then take 1 (ph_turns env) else ph_turns env) /\
  (CompletedOperations s <> 0 -> exists p, LastProof s = Some p /\ dot_genuine (selectedScenario getenv) p).
Proof.
  unfold runPhase, connect. destruct (ph_tls env) as [state|]; [|done].
  destruct (validateTLS _ state) eqn:Ev; [done|].
  destruct (dotLoop _ _ _ _ _ _) as [[s1 [err|]] c1] eqn:E; [done|]. intros [= <- _].
  apply dotLoop_ok in E as (H1 & H2 & H3 & H4). simpl in H1, H2.
  pose proof (len_nonneg (if once then take 1 (ph_turns env) else ph_turns env)).
  destruct s1; simpl in *. split_and!; [by exists state|lia|lia|done|].
  intros Hne. apply H4. intros Ht. rewrite Ht in H1. done.
Qed.

(** The problems of a session that passed. *)
Lemma validateTLS_none scenario state :
  validateTLS scenario state = None ->
  ts_version state = VersionTLS13 /\ ts_complete state = true /\ ts_resumed state = false /\
  ts_protocol state = "dot" /\ (scenario = strictScenario -> ts_cipher state = requiredCipher) /\
  leafDigests (ts_peer state) = (leafDERHash, leafSPKIHash).
Proof.
  unfold validateTLS. destruct (leafDigests (ts_peer state)) as [der spki].
  destruct (_ ++ _) eqn:E; [|done]. intros _. unfold failure in E.
  repeat (apply app_nil in E as [? E]).
  repeat match goal with H : (if ?b then [_] else []) = [] |- _ => destruct b eqn:?; [discriminate H|clear H] end.
  repeat match goal with
  | H : negb _ = false |- _ => apply negb_false_iff in H
  | H : String.eqb _ _ = true |- _ => apply String.eqb_eq in H
  | H : Z.eqb _ _ = true |- _ => apply Z.eqb_eq in H
  end.
  split_and!; [assumption|assumption|reflexivity|assumption| |congruence]. intros ->.
  match goal with H : String.eqb _ _ && _ = false |- _ =>
    rewrite String.eqb_refl in H; apply negb_false_iff, String.eqb_eq in H; exact H end.
Qed.

(** A result of the DoT executor is earned. If it prints a result and exits 0, its
    scenario is a supported one and the environment held the exact profile; the measured
    phase ran over a fresh, authenticated TLS 1.3 session with the exact protocol and leaf
    certificate (and, in the strict scenario, cipher suite), completed operations with
    nothing retried, malformed, failed or timed out, flushed the resolver's cache before
    each operation of the resolver scenario; and its proof is of a query and an answer
    that are the fixture's octet for octet under one message ID. *)
Theorem dot_exit_zero_is_earned env r :
  main env = (0, Some r) ->
  let getenv := m_getenv env in
  RScenarioID r = selectedScenario getenv /\ RScenarioID r ∈ supportedScenarios /\ loadConfig getenv = None /\
  (exists state, ph_tls (m_measured env) = Ok state /\
     ts_version state = VersionTLS13 /\ ts_complete state = true /\ ts_resumed state = false /\
     ts_protocol state = "dot" /\ (RScenarioID r = strictScenario -> ts_cipher state = requiredCipher) /\
     leafDigests (ts_peer state) = (leafDERHash, leafSPKIHash)) /\
  0 < MCompleted (RMetrics r) /\ MMalformed (RMetrics r) = 0 /\ MFailed (RMetrics r) = 0 /\
  MTimedOut (RMetrics r) = 0 /\ MRetry (RMetrics r) = 0 /\
  (exists target, Forall (fun turn : turnEnv * float64 =>
     flushOf getenv (m_split env target) turn.1 = None) (ph_turns (m_measured env))) /\
  exists p, RProof r = Some p /\ dot_genuine (RScenarioID r) p.
Proof.
  unfold main. destruct (m_showVersion env); [done|]. destruct (bool_decide (m_mkdir env <> None)); [done|].
  destruct (checkIdentityOrExit _) eqn:Ei; [by intros [= _ ?]|].
  destruct (normalizeTarget _ _ _) as [target|]; [|done]. destruct (m_roots env); [|done].
  destruct (runPhase _ _ (m_preflight env) true) as [[spf epf] cpf].
  destruct (bool_decide (epf <> None)); [done|]. destruct (m_validationOnly env); [done|].
  destruct (bool_decide (loadConfig _ <> None)) eqn:Ec; [done|].
  destruct (rejected (runPhase _ _ (m_warmup env) false)); [done|].
  destruct (runPhase _ _ (m_measured env) false) as [[s [err|]] c] eqn:Em; [done|].
  destruct (rejected (s, None, c)) eqn:Hr; [done|]. intros [= <-].
  unfold rejected, hasFailures in Hr. reflect_bools.
  apply runPhase_dot_ok in Em as ((state & Hst & Hv) & Hnn & Hret & Hfl & Hp).
  apply validateTLS_none in Hv. apply dec_stable in Ec.
  unfold checkIdentityOrExit in Ei. destruct (negb _); [done|].
  destruct (string_in supportedScenarios _) eqn:Hin; [|by destruct (string_in knownUnsupported _)].
  unfold string_in in Hin. apply existsb_exists in Hin as (x & Hx & Heq). apply String.eqb_eq in Heq. subst x.
  apply list_elem_of_In in Hx. cbn zeta.
  cbn [normalizeResult RScenarioID RMetrics RProof MCompleted MMalformed MFailed MTimedOut MRetry fst snd].
  split_and!; try done; [by exists state|lia|by exists target|by apply Hp].
Qed.

Definition dot_environment (name : string) : string :=
  if String.eqb name "PLAB_LOAD_PROFILE_ID" then "secure-dns-smoke"
  else if String.eqb name "PLAB_DURATION_SECONDS" then "5"
  else if string_in ["PLAB_CONNECTIONS"; "PLAB_CONCURRENCY"; "PLAB_WARMUP_SECONDS"; "PLAB_REPETITION"] name
  then "1" else "".
Definition dot_phase : phaseEnv :=
  PhaseEnv (Ok dns_state) (f_of_Z 1)
    (Conn (Stream (frame (withID aResponse 1) ++ frame (withID aResponse 2)) EEOF) [] [])
    (pair (TurnEnv (fun _ => Err EDeadline) None) <$> [f_of_Z 1; f_of_Z 2]) (f_of_Z 5).
Definition dot_main : mainEnv :=
  MainEnv dot_environment "127.0.0.1:18530" (fun _ => Err EEOF) (fun _ => Ok ("127.0.0.1", "18530")) (Ok tt)
    false false None dot_phase dot_phase dot_phase.
Definition dot_result : result := default (normalizeResult "" (emptySummary f_zero)) (main dot_main).2.

Lemma dot_exit_zero_is_earned_witness :
  main dot_main = (0, Some dot_result) /\ MCompleted (RMetrics dot_result) = 2 /\
  exists p, RProof dot_result = Some p /\ dot_genuine (RScenarioID dot_result) p.
Proof.
  assert (H : main dot_main = (0, Some dot_result)) by (vm_compute; reflexivity).
  split; [exact H|]. split; [vm_compute; reflexivity|].
  apply (dot_exit_zero_is_earned dot_main dot_result H).
Defined.
