(* ===== verification/DnsDoq.v ===== *)
(** DNS over QUIC: the server go-dns-doq and the executor go-dns-doq-executor. *)
From S2P Require Export Prelude Stats GoText GoHash DnsWire.

(** ** DNS names *)

(** The loop of [readName]: [fuel] of its 32 steps are left; [seen] holds the offsets it
    has visited, [next] the end of the name where it started. *)
Fixpoint nameLoop (fuel : nat) (message : bytes) (offset next : Z) (jumped : bool) (seen : gset Z)
    (labels : list string) : res (string * Z) :=
  match fuel with
  | O => Err (EMsg "DNS name exceeded parser bound")
  | S fuel =>
      if (len message <=? offset) || bool_decide (offset ∈ seen) then Err (EMsg "invalid DNS name") else
      let seen := {[offset]} ∪ seen in
      let value := byte_at message (Z.to_nat offset) in
      if value =? 0 then Ok (join "." labels +:+ ".", if jumped then next else offset + 1)
      else if Z.land value 0xc0 =? 0xc0 then
        if len message <=? offset + 1 then Err (EMsg "truncated DNS pointer") else
        let target := Z.lor (Z.shiftl (Z.land value 0x3f) 8) (byte_at message (Z.to_nat (offset + 1))) in
        nameLoop fuel message target (if jumped then next else offset + 2) true seen labels
      else if negb (Z.land value 0xc0 =? 0) || (63 <? value) || (len message <? offset + 1 + value)
      then Err (EMsg "invalid DNS label")
      else
        let label := string_of_bytes (slice (Z.to_nat (offset + 1)) (Z.to_nat (offset + 1 + value)) message) in
        let offset := offset + 1 + value in
        nameLoop fuel message offset (if jumped then next else offset) jumped seen (labels ++ [label])
  end.
Definition readName (message : bytes) (offset : Z) : res (string * Z) :=
  nameLoop 32 message offset offset false ∅ [].

(** ** The executor's check of an answer *)

(** [binary.BigEndian.UintN(b[i:j])]. *)
Definition uint (b : bytes) (i j : Z) : Z := be_decode (slice (Z.to_nat i) (Z.to_nat j) b).

(** The proof of an answer, less its constants. *)
Record dnsProof := DnsProof {
  ResponseRawLengthBytes : Z; ResponseFramedLengthBytes : Z; ResponseNormalizedSHA256 : string;
  ResponseCompressionDiffered : bool
}.

Definition validateDNSFrame (raw : bytes) : res dnsProof :=
  guard (len raw =? 45) && (uint raw 0 2 =? 43) else EMalformed "DoQ response framing mismatch" in
  let message := drop 2 raw in
  guard (12 <=? len message) && (uint message 0 2 =? 0) else EMalformed "response message ID must be zero" in
  guard uint message 2 4 =? 0x8400 else EMalformed "response flags or rcode mismatch" in
  guard (uint message 4 6 =? 1) && (uint message 6 8 =? 1) && (uint message 8 10 =? 0) && (uint message 10 12 =? 0)
    else EMalformed "response section counts mismatch" in
  match readName message 12 with
  | Err _ => Err (EMalformed "response question name mismatch")
  | Ok (name, next) =>
      guard String.eqb name "plab.test." else EMalformed "response question name mismatch" in
      guard (next + 4 <=? len message) && (uint message next (next + 2) =? 1)
            && (uint message (next + 2) (next + 4) =? 1)
        else EMalformed "response question type or class mismatch" in
      match readName message (next + 4) with
      | Err _ => Err (EMalformed "answer owner or header mismatch")
      | Ok (owner, next) =>
          guard String.eqb owner "plab.test." && (next + 10 <=? len message)
            else EMalformed "answer owner or header mismatch" in
          let typeCode := uint message next (next + 2) in
          let classCode := uint message (next + 2) (next + 4) in
          let ttl := uint message (next + 4) (next + 8) in
          let length := uint message (next + 8) (next + 10) in
          let next := next + 10 in
          guard (typeCode =? 1) && (classCode =? 1) && (ttl =? 0) && (length =? 4) && (next + 4 =? len message)
                && bool_decide (slice (Z.to_nat next) (Z.to_nat (next + 4)) message = [192; 0; 2; 1])
            else EMalformed "A answer semantics mismatch" in
          let normalizedHash := hash aResponse in
          guard (len aQuery =? 27) && String.eqb (hash aQuery) aQueryHash && (len aResponse =? 43)
                && String.eqb normalizedHash aResponseHash
            else EMsg "internal canonical DNS fixture mismatch" in
          Ok (DnsProof (len message) (len raw) normalizedHash (negb (bool_decide (message = aResponse))))
      end
  end.

(** ** The server *)

Module Server.

Definition validateRequestFrame (value : bytes) : option goerror :=
  if negb (len value =? 29) || negb (uint value 0 2 =? 27) then Some (EMsg "DoQ request framing mismatch") else
  let message := drop 2 value in
  if negb (len message =? 27) || negb (uint message 0 2 =? 0) || negb (String.eqb (hash message) aQueryHash)
     || negb (bool_decide (message = aQuery))
  then Some (EMsg "DoQ request semantic identity mismatch") else None.

(** What [handleStream] does with a request stream: the octets it answers with and closes,
    or the error code it closes the connection with. *)
Inductive reply := Answer (response : bytes) | CloseWith (code : Z).
Definition handleStream (deadline : option goerror) (request : stream) (write close : option goerror) : reply :=
  match deadline with
  | Some _ => CloseWith 0x1
  | None =>
      let read := if 30 <=? len (st_data request) then Ok (take 30 (st_data request))
                  else match st_end request with EEOF => Ok (st_data request) | e => Err e end in
      match read with
      | Err _ => CloseWith 0x2
      | Ok value =>
          match validateRequestFrame value, write, close with
          | Some _, _, _ => CloseWith 0x2
          | None, Some _, _ | None, None, Some _ => CloseWith 0x1
          | None, None, None => Answer (frame aResponse)
          end
      end
  end.

(** The state of a QUIC connection and the test of [serveConnection]: whether it serves. *)
Definition servesConnection (version1 used0RTT : bool) (state : tlsState) : bool :=
  version1 && (ts_version state =? VersionTLS13) && String.eqb (ts_protocol state) "doq"
  && negb (ts_resumed state) && negb used0RTT.

End Server.

(** ** The executor's connection and exchanges *)

Definition strictScenario : string := "dns.doq.query.a".
Definition interopScenario : string := "dns.doq.interoperability.query.a".

Definition validateConnection (q : quicState) : option goerror :=
  let tls := qs_tls q in
  let '(der, spki) := leafDigests (ts_peer tls) in
  match failure (negb (qs_version q =? quicVersion1) || negb (String.eqb (qs_versionName q) "v1"))
          "exact QUIC v1 was not negotiated"
        ++ failure (negb (ts_version tls =? VersionTLS13) || negb (ts_complete tls) || ts_resumed tls || qs_used0RTT q)
             "exact fresh TLS 1.3 state mismatch"
        ++ failure (negb (String.eqb (ts_protocol tls) "doq")) "DoQ ALPN mismatch"
        ++ failure (negb (String.eqb (ts_cipher tls) requiredCipher) || (ts_chains tls =? 0))
             "cipher suite or certificate authentication mismatch"
        ++ failure (negb (String.eqb der leafDERHash) || negb (String.eqb spki leafSPKIHash))
             "certificate identity mismatch" with
  | [] => None
  | failures => Some (EMsg (join "; " failures))
  end.

(** What an exchange meets: the stream it opens, the write, the end of its own side, and
    the reads (the octets, the error, and whether the exchange's context is done); the
    connection's state when the answer has been read. *)
Record exchangeEnv := ExchangeEnv {
  x_open : option goerror; x_deadline : option goerror; x_written : Z; x_write : option goerror;
  x_close : option goerror; x_reads : list (bytes * option goerror * bool); x_state : quicState;
  x_streamID : Z; x_latency : float64; x_firstByte : float64
}.

(** The read loop; a stream that delivers nothing more meets its deadline. *)
Fixpoint readResponse (reads : list (bytes * option goerror * bool)) (response : bytes) : res bytes :=
  match reads with
  | [] => Err EDeadline
  | (chunk, err, ctxDone) :: reads =>
      let response := response ++ chunk in
      match err with
      | None => if 45 <? len response then Err (EMalformed "DoQ response exceeded canonical bound")
                else readResponse reads response
      | Some err => if errors_is EEOF err then Ok response
                    else if errors_is EDeadline err || ctxDone then Err EDeadline else Err err
      end
  end.

Record exchangeProof := ExchangeProof {
  DNS : dnsProof; PState : quicState; ConnectionReused : bool; StreamID : Z;
  QueryLatencyMilliseconds : float64; TimeToFirstByte : float64; TransferredBytes : Z
}.

Definition exchange (env : exchangeEnv) (reused : bool) : res exchangeProof :=
  let query := frame aQuery in
  match x_open env, x_deadline env with
  | Some err, _ | None, Some err => Err err
  | None, None =>
      if bool_decide (x_write env <> None) || negb (x_written env =? len query)
      then Err (default EShortWrite (x_write env))
      else match x_close env with
      | Some err => Err err
      | None =>
          let? response := readResponse (x_reads env) [] in
          let? dns := validateDNSFrame response in
          match validateConnection (x_state env) with
          | Some err => Err err
          | None => Ok (ExchangeProof dns (x_state env) reused (x_streamID env) (x_latency env) (x_firstByte env)
                          (len query + len response))
          end
      end
  end.

(** ** Phases *)

(** The time-to-first-byte samples are kept beside the shared summary. *)
Record doqSummary := DoqSummary { base : phaseSummary exchangeProof; FirstBytes : list float64 }.

Definition record (p : exchangeProof) (s : doqSummary) : doqSummary :=
  DoqSummary (record_success p (QueryLatencyMilliseconds p) (add_transfer (TransferredBytes p) 0 (base s)))
    (FirstBytes s ++ [TimeToFirstByte p]).
Definition classified (err : goerror) (s : doqSummary) : doqSummary := DoqSummary (classify err (base s)) (FirstBytes s).

(** What a phase meets: the dial, the connection's first state, the first exchange (of
    which only a preflight keeps the proof), and those that began before the deadline. *)
Record phaseEnv := PhaseEnv {
  ph_dial : res quicState; ph_connected : float64; ph_first : exchangeEnv; ph_turns : list exchangeEnv;
  ph_seconds : float64
}.

Fixpoint exchangeLoop (turns : list exchangeEnv) (s : doqSummary) : doqSummary * option goerror :=
  match turns with
  | [] => (s, None)
  | env :: turns =>
      match exchange env true with
      | Err err => (classified err s, Some err)
      | Ok p => exchangeLoop turns (record p s)
      end
  end.

Definition with_duration (seconds : float64) (s : doqSummary) : doqSummary :=
  DoqSummary (set_duration seconds (base s)) (FirstBytes s).

Definition runPhase (env : phaseEnv) (once : bool) : doqSummary * option goerror :=
  match ph_dial env with
  | Err err => (classified err (DoqSummary (emptySummary f_zero) []), Some err)
  | Ok state =>
      let s := DoqSummary (emptySummary (ph_connected env)) [] in
      match validateConnection state with
      | Some err => (classified err s, Some err)
      | None =>
          match exchange (ph_first env) false with
          | Err err => (classified err s, Some err)
          | Ok first =>
              if once
              then (with_duration (fdiv (QueryLatencyMilliseconds first) (f_of_Z 1000)) (record first s), None)
              else match exchangeLoop (ph_turns env) s with
                   | (s, Some err) => (s, Some err)
                   | (s, None) => (with_duration (ph_seconds env) s, None)
                   end
          end
      end
  end.

Definition hasFailures (s : doqSummary) : bool :=
  negb (MalformedOperations (base s) =? 0) || negb (RetryCount (base s) =? 0)
  || negb (FailedOperations (base s) =? 0) || negb (TimedOutOperations (base s) =? 0).

(** ** Selection, documents and [main] *)

Definition selectedScenario (getenv : string -> string) : string :=
  let id := env_value getenv "PLAB_SCENARIO_ID" in if String.eqb id "" then strictScenario else id.
Definition protocolVariant (scenario : string) : string :=
  if String.eqb scenario interopScenario then "doq-rfc9250-interoperability" else "dns-over-quic-v1".
Definition supportedScenarios : list string := [strictScenario; interopScenario].
Definition knownUnsupported : list string :=
  ["dns.classic.tcp.query.a"; "dns.classic.udp-truncated-tcp-retry"; "dns.classic.udp.query.a";
   "dns.doh2.query.a"; "dns.doh2.interoperability.query.a"; "dns.doh3.get.a"; "dns.doh3.query.a";
   "dns.doh3.interoperability.query.a"; "dns.doh3.query.aaaa"; "dns.doh3.query.cname-chain";
   "dns.doh3.query.large-dnssec-shaped"; "dns.doh3.query.nodata"; "dns.doh3.query.nxdomain";
   "dns.dot.query.a"; "dns.dot.interoperability.query.a"].

(** [checkIdentityOrExit]: every identity is required; the exit code, if it exits. *)
Definition checkIdentityOrExit (getenv : string -> string) : option Z :=
  if negb (forallb (fun '(n, v) => String.eqb (env_value getenv n) v)
       [("PLAB_EXECUTOR_ID", "go-dns-doq-executor"); ("PLAB_EXECUTOR_VERSION", "0.2.2");
        ("PLAB_LOAD_GENERATOR_ID", "go-quic-dns-load"); ("PLAB_LOAD_GENERATOR_VERSION", "0.2.2");
        ("PLAB_PROTOCOL", "doq"); ("PLAB_PROTOCOL_VARIANT", protocolVariant (selectedScenario getenv))])
  then Some 2
  else
    let scenario := env_value getenv "PLAB_SCENARIO_ID" in
    if string_in supportedScenarios scenario then None
    else if string_in knownUnsupported scenario then Some 3 else Some 2.

Definition loadConfig (getenv : string -> string) : option goerror :=
  if negb (String.eqb (env_value getenv "PLAB_LOAD_PROFILE_ID") "secure-dns-smoke")
  then Some (EMsg ("supports load profile " +:+ go_quote "secure-dns-smoke" +:+ " only"))
  else if forallb (fun '(n, v) => envInt getenv n =? v)
            [("PLAB_CONNECTIONS", 1); ("PLAB_CONCURRENCY", 1); ("PLAB_STREAMS_PER_CONNECTION", 1);
             ("PLAB_DURATION_SECONDS", 5); ("PLAB_WARMUP_SECONDS", 1); ("PLAB_REPETITION", 1)]
  then None
  else Some (EMsg "secure-dns-smoke requires connections=1 concurrency=1 streams=1 duration=5 warmup=1 repetition=1").

(** What [url.Parse] gives of the trimmed target. *)
Record parsedURL := ParsedURL { u_scheme : string; u_host : string; u_path : string; u_query : string; u_fragment : string }.
Definition normalizeTarget (parsed : res parsedURL) (split : string -> option goerror) : res string :=
  let? p := parsed in
  guard String.eqb (u_scheme p) "doq" && negb (String.eqb (u_host p) "") && String.eqb (u_path p) ""
        && String.eqb (u_query p) "" && String.eqb (u_fragment p) ""
    else EMsg "DoQ target must be an exact doq://host:port URL without path, query, or fragment" in
  match split (u_host p) with
  | Some _ => Err (EMsg "DoQ target must include an explicit port")
  | None => Ok (u_host p)
  end.

(** The protocol a summary has observed. *)
Definition observedProtocol (s : doqSummary) : string :=
  match LastProof (base s) with
  | Some p => if String.eqb (qs_versionName (PState p)) "v1" && String.eqb (ts_protocol (qs_tls (PState p))) "doq"
              then "doq" else ""
  | None => ""
  end.

Record metrics := Metrics {
  QueriesPerSecond : float64; QueryLatency : list float64;      (* mean, P50, P75, P90, P95, P99 *)
  MTimeToFirstByte : float64; MConnectionLatency : float64;
  MCompleted : Z; MMalformed : Z; MRetry : Z; MFailed : Z; MTimedOut : Z; MBytes : Z
}.
Record result := Result {
  RScenarioID : string; RStatus : string; RVariant : string; RProof : option exchangeProof; RMetrics : metrics
}.
Definition normalizeResult (scenario : string) (summary : doqSummary) : result :=
  let s := base summary in
  let l := Latencies s in
  Result scenario "passed" (protocolVariant scenario) (LastProof s)
    (Metrics (fdiv (f_of_Z (CompletedOperations s)) (DurationSeconds s))
       (mean l :: ((fun q => percentile l (f_ratio q 100)) <$> [50; 75; 90; 95; 99]))
       (mean (FirstBytes summary)) (ConnectionLatency s) (CompletedOperations s) (MalformedOperations s)
       (RetryCount s) (FailedOperations s) (TimedOutOperations s) (TotalTransferredBytes s)).

(** What [main] meets; the artifacts are written. *)
Record mainEnv := MainEnv {
  m_getenv : string -> string; m_target : res parsedURL; m_split : string -> option goerror; m_roots : res unit;
  m_validationOnly : bool; m_showVersion : bool; m_mkdir : option goerror;
  m_preflight : phaseEnv; m_warmup : phaseEnv; m_measured : phaseEnv
}.

Definition rejected (phase : doqSummary * option goerror) : bool :=
  let '(s, err) := phase in
  bool_decide (err <> None) || (CompletedOperations (base s) =? 0) || hasFailures s.

(** The exit code, and the result printed. *)
Definition main (env : mainEnv) : Z * option result :=
  let getenv := m_getenv env in
  if m_showVersion env then (0, None) else
  if bool_decide (m_mkdir env <> None) then (1, None) else
  match checkIdentityOrExit getenv with
  | Some code => (code, None)
  | None =>
      match normalizeTarget (m_target env) (m_split env), m_roots env with
      | Err _, _ | Ok _, Err _ => (2, None)
      | Ok _, Ok _ =>
          let '(_, err) := runPhase (m_preflight env) true in
          if bool_decide (err <> None) then (1, None)
          else if m_validationOnly env then (0, None)
          else if bool_decide (loadConfig getenv <> None) then (2, None)
          else if rejected (runPhase (m_warmup env) false) then (1, None)
          else
            let measured := runPhase (m_measured env) false in
            if rejected measured then (1, None)
            else (0, Some (normalizeResult (selectedScenario getenv) measured.1))
      end
  end.
