(* ===== verification/DnsDoqProps.v ===== *)
(** DNS over QUIC: what an accepted answer is, and sessions between the executor and the
    server. *)
From S2P Require Export Prelude Stats GoText GoHash Certificates DnsWire DnsDoq.

(** ** Names *)

(** What one step of the loop that succeeds has met: the end of the name, a pointer, or a
    label. *)
Lemma nameLoop_step fuel message offset next jumped seen labels name stop :
  nameLoop (S fuel) message offset next jumped seen labels = Ok (name, stop) ->
  let value := byte_at message (Z.to_nat offset) in
  offset < len message /\
  ((value = 0 /\ stop = if jumped then next else offset + 1) \/
   (offset + 1 < len message /\ exists target,
      nameLoop fuel message target (if jumped then next else offset + 2) true ({[offset]} ∪ seen) labels
      = Ok (name, stop)) \/
   (offset + 1 + value <= len message /\ exists label,
      nameLoop fuel message (offset + 1 + value) (if jumped then next else offset + 1 + value) jumped
        ({[offset]} ∪ seen) (labels ++ [label]) = Ok (name, stop))).
Proof.
  intros H value. subst value. cbn [nameLoop] in H.
  destruct ((len message <=? offset) || _) eqn:E1; [discriminate H|]. apply orb_false_iff in E1 as [E1 _].
  apply Z.leb_gt in E1. split; [exact E1|]. clear E1. revert H. generalize (byte_at message (Z.to_nat offset)); intros value H.
  destruct (value =? 0) eqn:E0.
  { left. apply Z.eqb_eq in E0. injection H as _ <-. split; [exact E0|reflexivity]. }
  right. clear E0. destruct (Z.land value 0xc0 =? 0xc0).
  - left. destruct (len message <=? offset + 1) eqn:E; [discriminate H|]. apply Z.leb_gt in E.
    split; [exact E|]. eexists. exact H.
  - right. destruct (negb _ || _ || _) eqn:E; [discriminate H|]. apply orb_false_iff in E as [_ E].
    apply Z.ltb_ge in E. split; [exact E|]. eexists. exact H.
Qed.

(** A name that was read ends inside the message, after where it started. *)
Lemma nameLoop_bounds fuel message offset next jumped seen labels name stop :
  all_bytes message -> nameLoop fuel message offset next jumped seen labels = Ok (name, stop) ->
  (jumped = true -> next <= len message) ->
  stop <= len message /\ (jumped = true -> stop = next) /\ (jumped = false -> offset < stop).
Proof.
  intros Hbytes. revert offset next jumped seen labels.
  induction fuel as [|fuel IH]; intros offset next jumped seen labels H Hj; [discriminate H|].
  apply nameLoop_step in H as (E1 & H). cbv zeta in H.
  pose proof (byte_at_byte message (Z.to_nat offset) Hbytes) as Hv. unfold is_byte in Hv.
  destruct H as [[_ ->] | [[E (target & H)] | [E (label & H)]]].
  - destruct jumped; [specialize (Hj eq_refl)|]; split; [lia|split; [reflexivity|discriminate]|lia|split; [discriminate|lia]].
  - apply IH in H as (H1 & H2 & _); [|intros _; destruct jumped; [auto|lia]].
    specialize (H2 eq_refl). destruct jumped; split; [exact H1|split; [auto|discriminate]|exact H1|split; [discriminate|lia]].
  - apply IH in H as (H1 & H2 & H3); [|intros ->; by apply Hj].
    split; [exact H1|]. destruct jumped; split; [auto|discriminate|discriminate|].
    intros _. specialize (H3 eq_refl). clear - H3 Hv. lia.
Qed.

#[local] Strategy expand [readName].

Lemma readName_bounds message offset name stop :
  all_bytes message -> readName message offset = Ok (name, stop) -> offset < stop <= len message.
Proof.
  intros Hb H. unfold readName in H. revert H. generalize 32%nat; intros fuel H.
  apply nameLoop_bounds in H as (H1 & _ & H3); [|exact Hb|discriminate]. specialize (H3 eq_refl). lia.
Qed.

(** ** Integers in a message *)

Lemma slice_glue (a b c : nat) (l : bytes) :
  (a <= b <= c)%nat -> (c <= length l)%nat -> slice a b l ++ slice b c l = slice a c l.
Proof.
  intros H Hc. unfold slice. replace (drop b l) with (drop (b - a) (drop a l)) by (rewrite drop_drop; f_equal; lia).
  replace (c - a)%nat with ((b - a) + (c - b))%nat by lia. by rewrite take_take_drop.
Qed.

Lemma uint_slice b i j v :
  all_bytes b -> 0 <= i <= j -> j <= len b -> uint b i j = v ->
  slice (Z.to_nat i) (Z.to_nat j) b = be_encode (Z.to_nat (j - i)) v.
Proof.
  intros Hb Hij Hj <-. unfold uint.
  assert (Hl : length (slice (Z.to_nat i) (Z.to_nat j) b) = Z.to_nat (j - i)).
  { unfold slice, len in *. rewrite length_take, length_drop. lia. }
  rewrite <-Hl. symmetry. apply be_encode_decode. unfold slice. auto with plab.
Qed.

Lemma uint_bytes b i j v bs :
  all_bytes b -> 0 <= i <= j -> j <= len b -> uint b i j = v -> be_encode (Z.to_nat (j - i)) v = bs ->
  slice (Z.to_nat i) (Z.to_nat j) b = bs.
Proof. intros Hb H1 H2 H3 <-. by apply uint_slice. Qed.

Lemma slice_to_end (i : nat) (b : bytes) : slice i (length b) b = drop i b.
Proof. unfold slice. apply take_ge. rewrite length_drop. lia. Qed.

(** ** What an accepted answer is *)

(** The twelve octets of the header, whatever the flags. *)
Lemma header_octets m flags :
  all_bytes m -> 12 <= len m -> uint m 0 2 = 0 -> uint m 2 4 = flags -> uint m 4 6 = 1 -> uint m 6 8 = 1 ->
  uint m 8 10 = 0 -> uint m 10 12 = 0 ->
  take 12 m = [0; 0] ++ be_encode 2 flags ++ [0; 1; 0; 1; 0; 0; 0; 0].
Proof.
  intros Hb Hl U0 U2 U4 U6 U8 U10.
  assert (S0 := uint_bytes m 0 2 _ [0; 0] Hb ltac:(lia) ltac:(lia) U0 eq_refl).
  assert (S2 := uint_bytes m 2 4 _ (be_encode 2 flags) Hb ltac:(lia) ltac:(lia) U2 eq_refl).
  assert (S4 := uint_bytes m 4 6 _ [0; 1] Hb ltac:(lia) ltac:(lia) U4 eq_refl).
  assert (S6 := uint_bytes m 6 8 _ [0; 1] Hb ltac:(lia) ltac:(lia) U6 eq_refl).
  assert (S8 := uint_bytes m 8 10 _ [0; 0] Hb ltac:(lia) ltac:(lia) U8 eq_refl).
  assert (S10 := uint_bytes m 10 12 _ [0; 0] Hb ltac:(lia) ltac:(lia) U10 eq_refl).
  assert (12 <= length m)%nat by (unfold len in Hl; lia).
  transitivity (slice 0 12 m); [reflexivity|].
  rewrite <-(slice_glue 0 2 12), <-(slice_glue 2 4 12), <-(slice_glue 4 6 12), <-(slice_glue 6 8 12),
    <-(slice_glue 8 10 12) by lia.
  change (Z.to_nat 0) with 0%nat in *. change (Z.to_nat 2) with 2%nat in *. change (Z.to_nat 4) with 4%nat in *.
  change (Z.to_nat 6) with 6%nat in *. change (Z.to_nat 8) with 8%nat in *. change (Z.to_nat 10) with 10%nat in *.
  change (Z.to_nat 12) with 12%nat in *.
  rewrite S0, S2, S4, S6, S8, S10. reflexivity.
Qed.

(** An answer's type, class, TTL, length and address are the fixture's last octets. *)
Lemma answer_tail m e :
  all_bytes m -> 0 <= e -> len m = e + 14 ->
  uint m e (e + 2) = 1 -> uint m (e + 2) (e + 4) = 1 -> uint m (e + 4) (e + 8) = 0 -> uint m (e + 8) (e + 10) = 4 ->
  slice (Z.to_nat (e + 10)) (Z.to_nat (e + 14)) m = [192; 0; 2; 1] ->
  drop (Z.to_nat e) m = drop 29 aResponse.
Proof.
  intros Hb He Hl U0 U2 U4 U8 U10.
  apply (uint_bytes m e (e + 2) _ [0; 1]) in U0; [|exact Hb|lia|lia|by replace (e + 2 - e) with 2 by lia].
  apply (uint_bytes m (e + 2) (e + 4) _ [0; 1]) in U2; [|exact Hb|lia|lia|by replace (e + 4 - (e + 2)) with 2 by lia].
  apply (uint_bytes m (e + 4) (e + 8) _ [0; 0; 0; 0]) in U4;
    [|exact Hb|lia|lia|by replace (e + 8 - (e + 4)) with 4 by lia].
  apply (uint_bytes m (e + 8) (e + 10) _ [0; 4]) in U8; [|exact Hb|lia|lia|by replace (e + 10 - (e + 8)) with 2 by lia].
  assert (Hn : length m = Z.to_nat (e + 14)) by (unfold len in Hl; lia).
  rewrite <-(slice_to_end (Z.to_nat e) m), Hn.
  rewrite <-(slice_glue _ (Z.to_nat (e + 2))), <-(slice_glue (Z.to_nat (e + 2)) (Z.to_nat (e + 4))),
    <-(slice_glue (Z.to_nat (e + 4)) (Z.to_nat (e + 8))), <-(slice_glue (Z.to_nat (e + 8)) (Z.to_nat (e + 10))) by lia.
  rewrite U0, U2, U4, U8, U10. vm_compute. reflexivity.
Qed.

(** C14: an answer the DoQ executor accepts is the canonical one, up to how its two names
    are written. It is 45 octets long; its length prefix and the twelve octets of its
    header are the fixture's, and so is everything from the answer's type on: type, class,
    TTL, length and address. Between them are a name read as plab.test., the type and the
    class of the question, and another name read as plab.test., which ends exactly where
    the answer's type begins. The compression flag is set exactly when the message is not
    the fixture; the hash reported is the fixture's either way. *)
Theorem doq_frame_sound raw p :
  all_bytes raw -> validateDNSFrame raw = Ok p ->
  let message := drop 2 raw in
  len raw = 45 /\ take 14 raw = take 14 (frame aResponse) /\ drop 31 raw = drop 31 (frame aResponse) /\
  (exists questionEnd, 12 < questionEnd < 25 /\
     readName message 12 = Ok ("plab.test.", questionEnd) /\
     slice (Z.to_nat questionEnd) (Z.to_nat (questionEnd + 4)) message = [0; 1; 0; 1] /\
     readName message (questionEnd + 4) = Ok ("plab.test.", 29)) /\
  ResponseNormalizedSHA256 p = aResponseHash /\
  (ResponseCompressionDiffered p = true <-> message <> aResponse).
Proof.
  intros Hraw H. unfold validateDNSFrame in H. cbv zeta in H |- *.
  assert (Hm : all_bytes (drop 2 raw)) by auto with plab.
  pass_guard_as H G1. apply andb_true_iff in G1 as [L1 U1]. apply Z.eqb_eq in L1, U1.
  assert (Hl : len (drop 2 raw) = 43) by (unfold len in *; rewrite length_drop; lia).
  pass_guard_as H G2. pass_guard_as H G3. pass_guard_as H G4.
  destruct (readName (drop 2 raw) 12) as [[name n1]|] eqn:N1; [|discriminate H].
  pass_guard_as H G5. pass_guard_as H G6.
  destruct (readName (drop 2 raw) (n1 + 4)) as [[owner n2]|] eqn:N2; [|discriminate H].
  pass_guard_as H G7. pass_guard_as H G8. pass_guard_as H G9. clear G9. injection H as <-.
  assert (B1 := readName_bounds _ _ _ _ Hm N1). assert (B2 := readName_bounds _ _ _ _ Hm N2).
  revert G2 G3 G4 G5 G6 G7 G8. rewrite !andb_true_iff, !Z.eqb_eq, !Z.leb_le, !String.eqb_eq, bool_decide_eq_true.
  rewrite Hl. intros [_ U0] U2 [[[U4 U6] U8] U10] -> [[_ T1] C1] [-> _] [[[[[T2 C2] TT] LL] NN] AA].
  assert (n2 = 29) as -> by lia. assert (Hn : length raw = 45%nat) by (unfold len in L1; lia).
  assert (Hn1 : 12 < n1 < 25) by lia.
  assert (A : drop 29 (drop 2 raw) = drop 29 aResponse) by (by apply (answer_tail (drop 2 raw) 29)).
  assert (Hd : take 12 (drop 2 raw) = take 12 aResponse) by (rewrite (header_octets _ 0x8400) by (assumption || lia); vm_compute; reflexivity).
  assert (P : slice 0 2 raw = [0; 43]).
  { apply (uint_bytes raw 0 2 43); [exact Hraw|lia|lia|exact U1|reflexivity]. }
  assert (Q1 := uint_bytes _ n1 (n1 + 2) _ [0; 1] Hm ltac:(lia) ltac:(lia) T1).
  assert (Q2 := uint_bytes _ (n1 + 2) (n1 + 4) _ [0; 1] Hm ltac:(lia) ltac:(lia) C1).
  replace (n1 + 2 - n1) with 2 in Q1 by lia. replace (n1 + 4 - (n1 + 2)) with 2 in Q2 by lia.
  specialize (Q1 eq_refl). specialize (Q2 eq_refl).
  split; [exact L1|]. split; [|split; [|split; [|split]]].
  - transitivity (slice 0 2 raw ++ take 12 (drop 2 raw)); [by destruct raw as [|? [|? ?]]|].
    rewrite P, Hd. vm_compute. reflexivity.
  - transitivity (drop 29 (drop 2 raw)); [by destruct raw as [|? [|? ?]]|]. rewrite A. vm_compute. reflexivity.
  - exists n1. split; [exact Hn1|]. split; [reflexivity|]. split; [|exact N2].
    rewrite <-(slice_glue _ (Z.to_nat (n1 + 2))), Q1, Q2; [reflexivity|lia|]. unfold len in Hl. lia.
  - cbn [ResponseNormalizedSHA256]. vm_compute. reflexivity.
  - cbn [ResponseCompressionDiffered]. rewrite negb_true_iff. apply bool_decide_eq_false.
Qed.

(** A name of one label with a dot in it is read as the two labels of the fixture: labels
    are joined without escaping. *)
Definition dottedAnswer : bytes :=
  mustHex "000084000001000100000000" ++ [9] ++ bytes_of_string "plab.test" ++ [0]
  ++ mustHex "00010001c00c00010001000000000004c0000201".

Lemma dotted_name_accepted :
  readName dottedAnswer 12 = readName aResponse 12 /\ slice 12 13 dottedAnswer <> slice 12 13 aResponse /\
  validateDNSFrame (frame dottedAnswer) = Ok (DnsProof 43 45 aResponseHash true) /\
  hash dottedAnswer <> aResponseHash.
Proof. vm_compute. split; [reflexivity|]. split; [discriminate|]. split; [reflexivity|discriminate]. Qed.

Lemma doq_frame_sound_witness :
  validateDNSFrame (frame dottedAnswer) = Ok (DnsProof 43 45 aResponseHash true) /\
  take 14 (frame dottedAnswer) = take 14 (frame aResponse) /\ dottedAnswer <> aResponse.
Proof.
  assert (H : validateDNSFrame (frame dottedAnswer) = Ok (DnsProof 43 45 aResponseHash true)) by (vm_compute; reflexivity).
  assert (Hb : all_bytes (frame dottedAnswer)) by (apply (bool_decide_unpack _); vm_compute; exact I).
  destruct (doq_frame_sound _ _ Hb H) as (_ & H1 & _ & _ & _ & H2).
  split; [exact H|]. split; [exact H1|]. apply H2. reflexivity.
Defined.

(** ** Sessions *)

(** The reads of an exchange deliver [answer] and end cleanly. *)
Fixpoint delivers (answer : bytes) (reads : list (bytes * option goerror * bool)) : Prop :=
  match reads with
  | [] => False
  | (chunk, None, _) :: reads => exists rest, answer = chunk ++ rest /\ delivers rest reads
  | (chunk, Some EEOF, _) :: _ => answer = chunk
  | _ => False
  end.

Lemma readResponse_delivers reads done rest :
  len (done ++ rest) <= 45 -> delivers rest reads -> readResponse reads done = Ok (done ++ rest).
Proof.
  revert done rest; induction reads as [|[[chunk [err|]] ctx] reads IH]; intros acc rest Hl H; [destruct H| |].
  - simpl in H. destruct err; try destruct H. reflexivity.
  - destruct H as (rest' & -> & H). cbn [readResponse].
    assert (Hle : len (acc ++ chunk) <= 45) by (rewrite !len_app in *; pose proof (len_nonneg rest'); lia).
    rewrite (proj2 (Z.ltb_ge 45 _)) by exact Hle. rewrite (IH (acc ++ chunk) rest'), <-app_assoc; [done| |done].
    by rewrite <-app_assoc.
Qed.

(** A turn both ends are well for: every call of the client succeeds, the state the turn
    sees validates, and the reads deliver what the server answers with. *)
Definition good_turn (answer : bytes) (env : exchangeEnv) : Prop :=
  x_open env = None /\ x_deadline env = None /\ x_written env = len (frame aQuery) /\ x_write env = None /\
  x_close env = None /\ delivers answer (x_reads env) /\ validateConnection (x_state env) = None.

Lemma doq_turn_completes env reused :
  good_turn (frame aResponse) env ->
  exchange env reused = Ok (ExchangeProof (DnsProof 43 45 aResponseHash false) (x_state env) reused (x_streamID env)
                              (x_latency env) (x_firstByte env) 74).
Proof.
  intros (H1 & H2 & H3 & H4 & H5 & H6 & H7). unfold exchange. rewrite H1, H2, H3, H4, H5, Z.eqb_refl.
  rewrite bool_decide_false by (intros []; reflexivity). cbn [negb orb].
  rewrite (readResponse_delivers _ [] (frame aResponse)); [|vm_compute; discriminate|exact H6]. cbn [res_bind app].
  assert (E : validateDNSFrame (frame aResponse) = Ok (DnsProof 43 45 aResponseHash false)) by (vm_compute; reflexivity).
  rewrite E. cbn [res_bind]. rewrite H7. reflexivity.
Qed.

Lemma exchangeLoop_completes turns s :
  Forall (good_turn (frame aResponse)) turns ->
  exists s', exchangeLoop turns s = (s', None) /\
    completed (len turns) 74 0 (x_latency <$> turns) (base s) (base s') /\
    FirstBytes s' = FirstBytes s ++ (x_firstByte <$> turns).
Proof.
  intros H. revert s; induction H as [|env turns Ht _ IH]; intros s.
  - exists s. simpl. rewrite app_nil_r. split; [done|]. split; [|done].
    split; unfold len; simpl; rewrite ?app_nil_r; lia || done.
  - cbn [exchangeLoop]. rewrite (doq_turn_completes env true Ht).
    match goal with |- context [record ?p s] => destruct (IH (record p s)) as (s' & H1 & H2 & H3) end.
    exists s'. rewrite H1. split; [done|]. split.
    + replace (len (env :: turns)) with (len turns + 1) by (unfold len; simpl; lia).
      rewrite fmap_cons. eapply completed_turn. exact H2.
    + rewrite H3. simpl. by rewrite <-app_assoc.
Qed.

(** C15: the DoQ executor and the DoQ server of this repository agree. On a connection the
    executor validates and the server serves, a request stream that carries the framed
    query and ends is answered; and a phase whose streams deliver that answer, however the
    transport cuts it into reads, completes every turn with no failure, no retry, nothing
    malformed and 74 octets each. The exchange the phase opens the connection with is not
    counted. *)
Theorem doq_session_completes state connected first turns seconds :
  validateConnection state = None ->
  match Server.handleStream None (Stream (frame aQuery) EEOF) None None with
  | Server.CloseWith _ => False
  | Server.Answer answer =>
      Forall (good_turn answer) (first :: turns) ->
      exists s, runPhase (PhaseEnv (Ok state) connected first turns seconds) false = (s, None) /\
        CompletedOperations (base s) = len turns /\ MalformedOperations (base s) = 0 /\
        FailedOperations (base s) = 0 /\ TimedOutOperations (base s) = 0 /\ RetryCount (base s) = 0 /\
        TotalTransferredBytes (base s) = len turns * 74 /\
        Latencies (base s) = x_latency <$> turns /\ FirstBytes s = x_firstByte <$> turns
  end /\
  Server.servesConnection (qs_version state =? quicVersion1) (qs_used0RTT state) (qs_tls state) = true.
Proof.
  intros Hv. split.
  - assert (E : Server.handleStream None (Stream (frame aQuery) EEOF) None None = Server.Answer (frame aResponse))
      by (vm_compute; reflexivity).
    rewrite E. intros H. inversion_clear H as [|?? H1 H2].
    destruct (exchangeLoop_completes turns (DoqSummary (emptySummary connected) []) H2) as (s & Hl & [] & Hf).
    exists (with_duration seconds s). unfold runPhase. cbn [ph_dial ph_connected ph_first ph_turns ph_seconds].
    rewrite Hv, (doq_turn_completes _ false H1), Hl.
    clear H1 H2 Hl E. destruct s as [[] ?]; simpl in *. split_and!; first [reflexivity|assumption|lia].
  - unfold validateConnection in Hv. destruct (leafDigests _) as [der spki]. unfold Server.servesConnection, failure in *.
    destruct (qs_version state =? quicVersion1); [|by destruct (String.eqb (qs_versionName state) "v1")].
    destruct (ts_version (qs_tls state) =? VersionTLS13); [|by destruct (String.eqb (qs_versionName state) "v1")].
    destruct (String.eqb (qs_versionName state) "v1"); [|done].
    destruct (ts_complete (qs_tls state)), (ts_resumed (qs_tls state)), (qs_used0RTT state); try done.
    by destruct (String.eqb (ts_protocol (qs_tls state)) "doq").
Qed.

Definition doq_state : quicState :=
  QuicState quicVersion1 "v1" false false
    (TlsState VersionTLS13 requiredCipher "doq" true false 1 [(dns_leaf_der, dns_leaf_spki)]).
(** A turn whose answer arrives in three reads. *)
Definition doq_turn (latency : float64) : exchangeEnv :=
  ExchangeEnv None None 29 None None
    [(take 2 (frame aResponse), None, false); (slice 2 20 (frame aResponse), None, false);
     (drop 20 (frame aResponse), Some EEOF, false)] doq_state 4 latency f_zero.

Lemma doq_turn_good latency : good_turn (frame aResponse) (doq_turn latency).
Proof.
  unfold good_turn, doq_turn. cbn [x_open x_deadline x_written x_write x_close x_reads x_state delivers].
  split_and!; try reflexivity.
  exists (drop 2 (frame aResponse)). split; [reflexivity|]. exists (drop 20 (frame aResponse)). split; reflexivity.
Qed.

Lemma doq_session_completes_witness :
  validateConnection doq_state = None /\
  exists s, runPhase (PhaseEnv (Ok doq_state) f_zero (doq_turn (f_of_Z 3)) [doq_turn (f_of_Z 1); doq_turn (f_of_Z 2)]
                        (f_of_Z 5)) false = (s, None) /\
    CompletedOperations (base s) = 2 /\ TotalTransferredBytes (base s) = 148.
Proof.
  assert (Hv : validateConnection doq_state = None) by (vm_compute; reflexivity). split; [exact Hv|].
  pose proof (doq_session_completes doq_state f_zero (doq_turn (f_of_Z 3)) [doq_turn (f_of_Z 1); doq_turn (f_of_Z 2)]
                (f_of_Z 5) Hv) as [H _].
  assert (E : Server.handleStream None (Stream (frame aQuery) EEOF) None None = Server.Answer (frame aResponse))
    by (vm_compute; reflexivity).
  rewrite E in H. destruct H as (s & Hr & H1 & _ & _ & _ & _ & H2 & _).
  - repeat (constructor; [apply doq_turn_good|]). constructor.
  - exists s. split; [exact Hr|]. split; [exact H1|exact H2].
Defined.
