(* ===== verification/DnsDoh.v ===== *)
(** What the DNS-over-HTTPS packages share: requests and responses as net/http presents
    them, resolver control, and the phase loop, results and gates their executors repeat. *)
From Stdlib Require Import Ascii.
From S2P Require Export Prelude Stats GoText GoHash GoHttp DnsWire.

Definition mediaType : string := "application/dns-message".
Definition serverName : string := "dns.plab.test".

(** [%t]. *)
Definition format_bool (b : bool) : string := if b then "true" else "false".

(** ** net/url *)

(** What [url.Parse] gives, with [u.Hostname()] and [u.Port()]. *)
Record url := Url {
  u_scheme : string; u_host : string; u_hostname : string; u_port : string; u_path : string;
  u_query : string; u_fragment : string
}.
Definition with_path (path : string) (u : url) : url :=
  Url (u_scheme u) (u_host u) (u_hostname u) (u_port u) path (u_query u) (u_fragment u).
Definition with_query (query : string) (u : url) : url :=
  Url (u_scheme u) (u_host u) (u_hostname u) (u_port u) (u_path u) query (u_fragment u).

(** [url.Parse] and [u.String()]. *)
Class UrlLib := { parse : string -> res url; render : url -> string }.

(** ** Requests and responses *)

(** A request as the client builds it. *)
Record dohRequest := DohRequest {
  q_method : string; q_url : url; q_host : string; q_header : httpHeader; q_body : bytes
}.
(** [http.NewRequestWithContext]. *)
Definition newRequest `{UrlLib} (method target : string) (body : bytes) : res dohRequest :=
  let? u := parse target in Ok (DohRequest method u (u_host u) [] body).
Definition set_host (host : string) (r : dohRequest) : dohRequest :=
  DohRequest (q_method r) (q_url r) host (q_header r) (q_body r).
Definition set_request_header (name value : string) (r : dohRequest) : dohRequest :=
  DohRequest (q_method r) (q_url r) (q_host r) (header_set (q_header r) name value) (q_body r).

(** A request as a handler sees it; [s_params] is [len(r.URL.Query())]. *)
Record served := Served {
  s_protoMajor : Z; s_proto : string; s_tls : option tlsState; s_method : string; s_host : string;
  s_path : string; s_rawQuery : string; s_params : Z; s_header : httpHeader; s_contentLength : Z; s_body : stream
}.

(** A response as the client gets it. *)
Record dohResponse := DohResponse {
  r_protoMajor : Z; r_proto : string; r_status : Z; r_header : httpHeader; r_tls : option tlsState; r_body : stream
}.

(** What HTTP carries of a request to the handler: its method, authority and target, the
    headers the handlers read, and its body. *)
Record carried (r : dohRequest) (s : served) : Prop := {
  ca_method : s_method s = q_method r;
  ca_host : s_host s = q_host r;
  ca_path : s_path s = u_path (q_url r);
  ca_query : s_rawQuery s = u_query (q_url r);
  ca_header name : name ∈ ["accept"; "content-type"; "cache-control"] ->
    header_get (s_header s) name = header_get (q_header r) name;
  ca_length : s_contentLength s = len (q_body r);
  ca_body : s_body s = Stream (q_body r) EEOF
}.
(** What it carries of the response a handler wrote. *)
Record answered (w : writer) (r : dohResponse) : Prop := {
  an_status : exists sent, w_status w = Some (r_status r, sent) /\
    forall name, name ∈ ["content-type"; "cache-control"] -> header_get (r_header r) name = header_get sent name;
  an_body : r_body r = Stream (w_body w) EEOF
}.

(** A transport that changes nothing, for concrete runs: the handler's response to a request
    that arrives over the session [tls] of HTTP version [major]. *)
Definition arrives (tls : tlsState) (major : Z) (proto : string) (r : dohRequest) : served :=
  Served major proto (Some tls) (q_method r) (q_host r) (u_path (q_url r)) (u_query (q_url r))
    (if String.eqb (u_query (q_url r)) "" then 0 else 1) (q_header r) (len (q_body r)) (Stream (q_body r) EEOF).
Definition wire (tls : tlsState) (major : Z) (proto : string) (handler : served -> writer -> writer) (r : dohRequest)
    : dohResponse :=
  let w := write_header 200 (handler (arrives tls major proto r) (writer_new [])) in
  let '(code, sent) := default (200, []) (w_status w) in
  DohResponse major proto code sent (Some tls) (Stream (w_body w) EEOF).

Lemma arrives_carried tls major proto r : carried r (arrives tls major proto r).
Proof. by split. Qed.

Lemma wire_answered tls major proto handler r :
  is_Some (w_status (handler (arrives tls major proto r) (writer_new []))) ->
  answered (handler (arrives tls major proto r) (writer_new [])) (wire tls major proto handler r).
Proof.
  unfold wire. set (w := handler _ _). intros [[code sent] Hs]. unfold write_header. rewrite Hs. cbn [default].
  rewrite Hs. split; [exists sent; split; [exact Hs|done]|reflexivity].
Qed.

(** A reader of URLs of the form https://host/path?query, for concrete runs. *)
Definition simple_parse (value : string) : res url :=
  match split_on "?"%char value with
  | before :: queries =>
      match split_on "/"%char before with
      | scheme :: _ :: host :: segments =>
          let parts := split_on ":"%char host in
          Ok (Url (if String.eqb scheme "https:" then "https" else scheme) host (nth 0 parts "") (nth 1 parts "")
                (match segments with [] => "" | _ => "/" +:+ join "/" segments end) (join "?" queries) "")
      | _ => Err (EMsg "parse")
      end
  | [] => Err (EMsg "parse")
  end.
Definition simple_urls : UrlLib :=
  {| parse := simple_parse;
     render u := u_scheme u +:+ "://" +:+ u_host u +:+ u_path u
                 +:+ (if String.eqb (u_query u) "" then "" else "?" +:+ u_query u) |}.

(** Membership in a list that is written out. *)
Ltac in_list := repeat first [apply list_elem_of_here | apply list_elem_of_further].

(** ** Targets *)

(** The checks of [normalizeTarget] on a parsed target, and the endpoint it gives. *)
Definition endpointOf `{UrlLib} (bad badPath : string) (u : url) : res string :=
  guard String.eqb (u_scheme u) "https" && negb (String.eqb (u_host u) "") && String.eqb (u_query u) ""
        && String.eqb (u_fragment u) ""
    else EMsg bad in
  guard String.eqb (u_path u) "" || String.eqb (u_path u) "/" || String.eqb (u_path u) "/dns-query"
    else EMsg badPath in
  Ok (render (with_path "/dns-query" u)).

(** ** Phases *)

(** What a phase counts of a completed exchange. *)
Class Sample (P : Type) := {
  sampleLatency : P -> float64; sampleFirstByte : P -> float64; sampleBytes : P -> Z
}.

Section phase.
Context {P : Type} `{Sample P}.

(** The time-to-first-byte samples are kept beside the shared summary. *)
Record dohSummary := DohSummary { base : phaseSummary P; FirstBytes : list float64 }.

Definition record (p : P) (s : dohSummary) : dohSummary :=
  DohSummary (record_success p (sampleLatency p) (add_transfer (sampleBytes p) 0 (base s)))
    (FirstBytes s ++ [sampleFirstByte p]).
Definition classified (err : goerror) (s : dohSummary) : dohSummary := DohSummary (classify err (base s)) (FirstBytes s).
Definition with_duration (seconds : float64) (s : dohSummary) : dohSummary :=
  DohSummary (set_duration seconds (base s)) (FirstBytes s).

(** The loop over the turns that began before the deadline; the first error ends it. *)
Fixpoint exchangeLoop {E C} (exchange : E -> C -> res P * C) (turns : list E) (c : C) (s : dohSummary)
    : dohSummary * option goerror * C :=
  match turns with
  | [] => (s, None, c)
  | env :: turns =>
      match exchange env c with
      | (Err err, c) => (classified err s, Some err, c)
      | (Ok p, c) => exchangeLoop exchange turns c (record p s)
      end
  end.

Definition hasFailures (s : dohSummary) : bool :=
  negb (MalformedOperations (base s) =? 0) || negb (RetryCount (base s) =? 0)
  || negb (FailedOperations (base s) =? 0) || negb (TimedOutOperations (base s) =? 0).
(** A phase that [main] rejects: an error, no operation or failures. *)
Definition rejected (phase : dohSummary * option goerror) : bool :=
  bool_decide (phase.2 <> None) || (CompletedOperations (base phase.1) =? 0) || hasFailures phase.1.

Record metrics := Metrics {
  QueriesPerSecond : float64; QueryLatency : list float64;      (* mean, P50, P75, P90, P95, P99 *)
  MTimeToFirstByte : float64; MConnectionLatency : float64;
  MCompleted : Z; MMalformed : Z; MRetry : Z; MFailed : Z; MTimedOut : Z; MBytes : Z
}.
Record result := Result {
  RScenarioID : string; RStatus : string; RVariant : string; RProof : option P; RMetrics : metrics
}.
Definition normalizeResult (scenario variant : string) (summary : dohSummary) : result :=
  let s := base summary in
  let l := Latencies s in
  Result scenario "passed" variant (LastProof s)
    (Metrics (fdiv (f_of_Z (CompletedOperations s)) (DurationSeconds s))
       (mean l :: ((fun q => percentile l (f_ratio q 100)) <$> [50; 75; 90; 95; 99]))
       (mean (FirstBytes summary)) (ConnectionLatency s) (CompletedOperations s) (MalformedOperations s)
       (RetryCount s) (FailedOperations s) (TimedOutOperations s) (TotalTransferredBytes s)).

(** ** Facts *)

(** A loop that ended without an error completed every turn. *)
Lemma dohLoop_ok {E C} (exchange : E -> C -> res P * C) (good : C -> Prop) (accepted : E -> Prop) (genuine : P -> Prop) :
  (forall env c p c', good c -> exchange env c = (Ok p, c') -> accepted env /\ genuine p /\ good c') ->
  forall turns c s s' c', good c ->
  exchangeLoop exchange turns c s = (s', None, c') ->
  CompletedOperations (base s') = CompletedOperations (base s) + len turns /\
  RetryCount (base s') = RetryCount (base s) /\ good c' /\ Forall accepted turns /\
  (turns <> [] -> exists p, LastProof (base s') = Some p /\ genuine p).
Proof.
  intros Hok turns; induction turns as [|env turns IH]; intros c s s' c' Hc.
  - intros [= <- <-]. unfold len. simpl. split; [lia|]. split; [reflexivity|]. split; [exact Hc|]. done.
  - cbn [exchangeLoop]. destruct (exchange env c) as [[p|] c1] eqn:E1; [|done].
    destruct (Hok _ _ _ _ Hc E1) as (Ha & Hp & Hc1). intros Hl.
    destruct (IH _ _ _ _ Hc1 Hl) as (H1 & H2 & H3 & H4 & H5).
    replace (len (env :: turns)) with (len turns + 1) by (unfold len; simpl; lia).
    assert (Hr : CompletedOperations (base (record p s)) = CompletedOperations (base s) + 1 /\
                 RetryCount (base (record p s)) = RetryCount (base s)).
    { destruct s as [[] ?]. simpl. lia. }
    split; [lia|]. split; [lia|]. split; [exact H3|]. split; [by constructor|]. intros _.
    destruct turns as [|t turns]; [|by apply H5]. injection Hl as <- _. exists p. split; [by destruct s as [[] ?]|exact Hp].
Qed.

(** The connection latency is set before the loop. *)
Lemma dohLoop_latency {E C} (exchange : E -> C -> res P * C) turns c s s' err c' :
  exchangeLoop exchange turns c s = (s', err, c') -> ConnectionLatency (base s') = ConnectionLatency (base s).
Proof.
  revert c s; induction turns as [|env turns IH]; intros c s; [by intros [= <- _ _]|].
  cbn [exchangeLoop]. destruct (exchange env c) as [[p|e] c1].
  - intros H'. apply IH in H'. rewrite H'. by destruct s as [[] ?].
  - intros [= <- _ _]. destruct s as [[] ?]. simpl. by destruct (is_malformed e), (is_net_timeout e).
Qed.

(** A loop whose every turn succeeds with [bytes] octets. *)
Lemma dohLoop_completes {E C} (exchange : E -> C -> res P * C) (good : C -> Prop) (fits : E -> Prop)
    (latency firstByte : E -> float64) bytes :
  (forall env c, good c -> fits env -> exists p c', exchange env c = (Ok p, c') /\ good c' /\
     sampleLatency p = latency env /\ sampleFirstByte p = firstByte env /\ sampleBytes p = bytes) ->
  forall turns c s, good c -> Forall fits turns ->
  exists s' c', exchangeLoop exchange turns c s = (s', None, c') /\ good c' /\
    completed (len turns) bytes 0 (latency <$> turns) (base s) (base s') /\
    FirstBytes s' = FirstBytes s ++ (firstByte <$> turns).
Proof.
  intros Hok turns; induction turns as [|env turns IH]; intros c s Hc Ht.
  - exists s, c. split; [reflexivity|]. split; [exact Hc|]. simpl. rewrite app_nil_r. split; [|reflexivity].
    split; unfold len; simpl; rewrite ?app_nil_r; lia || done.
  - inversion_clear Ht as [|?? Hf Ht']. destruct (Hok env c Hc Hf) as (p & c1 & E1 & Hc1 & L & F & B).
    cbn [exchangeLoop]. rewrite E1. destruct (IH c1 (record p s) Hc1 Ht') as (s' & c' & H1 & H2 & H3 & H4).
    exists s', c'. split; [exact H1|]. split; [exact H2|]. rewrite !fmap_cons. split.
    + replace (len (env :: turns)) with (len turns + 1) by (unfold len; simpl; lia).
      unfold record in H3. cbn [base] in H3. rewrite L, B in H3. eapply completed_turn. exact H3.
    + rewrite H4. unfold record. cbn [FirstBytes]. by rewrite F, <-app_assoc.
Qed.
End phase.
Arguments dohSummary P : clear implicits.
Arguments result P : clear implicits.
