(* ===== verification/DnsDoh2.v ===== *)
(** DNS over HTTPS on HTTP/2: the server go-dns-doh2 and the executor
    go-dns-doh2-executor. *)
From S2P Require Export Prelude Stats GoText GoHash GoHttp DnsWire DnsDoh.

(** ** The server *)

Module Server.

Definition handle (request : served) (response : writer) : writer :=
  if negb (s_protoMajor request =? 2)
     || match s_tls request with
        | None => true
        | Some tls => negb (ts_version tls =? VersionTLS13) || negb (String.eqb (ts_protocol tls) "h2") || ts_resumed tls
        end
  then http_error "exact HTTP/2 over fresh TLS 1.3 with h2 ALPN required" 505 response
  else if negb (String.eqb (s_method request) "POST") || negb (String.eqb (s_path request) "/dns-query")
          || negb (String.eqb (s_host request) "dns.plab.test")
  then http_error "exact POST /dns-query authority required" 404 response
  else
    let get := header_get (s_header request) in
    if negb (String.eqb (get "content-type") mediaType) || negb (String.eqb (get "accept") mediaType)
       || negb (String.eqb (get "cache-control") "no-cache")
    then http_error "exact DoH request headers required" 415 response
    else
      match read_all_limited 28 (s_body request) with
      | Err _ => http_error "request is not dns.plab-test-a.canonical" 400 response
      | Ok body =>
          if negb (len body =? 27) || negb (String.eqb (hash body) aQueryHash)
             || negb (byte_at body 0 =? 0) || negb (byte_at body 1 =? 0)
          then http_error "request is not dns.plab-test-a.canonical" 400 response
          else
            let response := set_header "content-type" mediaType response in
            let response := set_header "cache-control" "no-store" response in
            (write_body aResponse (write_header 200 response)).2
      end.

End Server.

(** ** Scenarios *)

Definition strictScenario : string := "dns.doh2.query.a".
Definition interopScenario : string := "dns.doh2.interoperability.query.a".
Definition resolverScenario : string := "dns.doh2.resolver.interoperability.query.a".
Definition supportedScenarios : list string := [strictScenario; interopScenario; resolverScenario].
Definition knownUnsupported : list string :=
  ["dns.classic.tcp.query.a"; "dns.classic.udp-truncated-tcp-retry"; "dns.classic.udp.query.a";
   "dns.doh3.get.a"; "dns.doh3.query.a"; "dns.doh3.query.aaaa"; "dns.doh3.query.cname-chain";
   "dns.doh3.query.large-dnssec-shaped"; "dns.doh3.query.nodata"; "dns.doh3.query.nxdomain";
   "dns.doh3.interoperability.query.a"; "dns.doq.query.a"; "dns.doq.interoperability.query.a";
   "dns.dot.query.a"; "dns.dot.interoperability.query.a"].

Definition selectedScenario (getenv : string -> string) : string :=
  let id := env_value getenv "PLAB_SCENARIO_ID" in if String.eqb id "" then strictScenario else id.
Definition selectedFixtureID (scenario : string) : string :=
  if String.eqb scenario resolverScenario then "dns.resolver-plab-test-a-v2.canonical" else "dns.plab-test-a.canonical".
(** The query, the answer and their digests. *)
Definition canonicalFixture (scenario : string) : bytes * bytes * string * string :=
  if String.eqb scenario resolverScenario
  then (resolverQuery, resolverResponse, resolverQueryHash, resolverResponseHash)
  else (aQuery, aResponse, aQueryHash, aResponseHash).
Definition protocolVariant (scenario : string) : string :=
  if String.eqb scenario resolverScenario then "doh-h2-rfc8484-recursive-resolver"
  else if String.eqb scenario interopScenario then "doh-h2-rfc8484-interoperability" else "doh-h2-tls-alpn".
Definition tlsProfileID (scenario : string) : string :=
  if String.eqb scenario interopScenario || String.eqb scenario resolverScenario
  then "plab-secure-dns-interoperability-v2" else "plab-secure-dns-tls13-v1".
Definition selectedCertificateProfile (scenario : string) : string :=
  if String.eqb scenario interopScenario || String.eqb scenario resolverScenario
  then "plab-secure-dns-interoperability-leaf-v2" else "plab-secure-dns-single-leaf-p256-v1".

(** ** The check of a TLS session *)

(** The proof of a session, less what it copies of the session. *)
Record tlsProof := TlsProof {
  TLSProfileID : string; CertificateProfile : string; TState : tlsState;
  CertificateDERSHA256 : string; CertificateSPKISHA256 : string
}.
Definition validateTLS (scenario : string) (state : option tlsState) : res tlsProof :=
  match state with
  | None => Err (EMsg "missing TLS state")
  | Some state =>
      let '(der, spki) := leafDigests (ts_peer state) in
      match failure (negb (ts_version state =? VersionTLS13)) "exact TLS 1.3 was not negotiated"
            ++ failure (negb (ts_complete state)) "TLS handshake incomplete"
            ++ failure (ts_resumed state) "session resumption detected"
            ++ failure (negb (String.eqb (ts_protocol state) "h2")) "ALPN mismatch"
            ++ failure (String.eqb scenario strictScenario && negb (String.eqb (ts_cipher state) requiredCipher))
                 "cipher-suite mismatch"
            ++ failure (ts_chains state =? 0) "certificate chain not authenticated"
            ++ failure (negb (String.eqb der leafDERHash)) "leaf DER hash mismatch"
            ++ failure (negb (String.eqb spki leafSPKIHash)) "leaf SPKI hash mismatch" with
      | [] => Ok (TlsProof (tlsProfileID scenario) (selectedCertificateProfile scenario) state der spki)
      | failures => Err (EMsg (join "; " failures))
      end
  end.

(** ** The check of an answer *)

(** The loop of [readName]: [fuel] of its 32 steps are left. *)
Fixpoint nameLoop (fuel : nat) (message : bytes) (offset next : Z) (jumped : bool) (seen : gset Z)
    (labels : list string) : res (string * Z) :=
  match fuel with
  | O => Err (EMsg "DNS name exceeded parser bound")
  | S fuel =>
      if len message <=? offset then Err (EMsg "truncated DNS name") else
      if bool_decide (offset ∈ seen) then Err (EMsg "DNS compression loop") else
      let seen := {[offset]} ∪ seen in
      let b := byte_at message (Z.to_nat offset) in
      if b =? 0 then Ok (join "." labels +:+ ".", if jumped then next else offset + 1)
      else if Z.land b 0xc0 =? 0xc0 then
        if len message <=? offset + 1 then Err (EMsg "truncated DNS pointer") else
        let target := Z.lor (Z.shiftl (Z.land b 0x3f) 8) (byte_at message (Z.to_nat (offset + 1))) in
        nameLoop fuel message target (if jumped then next else offset + 2) true seen labels
      else if negb (Z.land b 0xc0 =? 0) || (63 <? b) || (len message <? offset + 1 + b)
      then Err (EMsg "invalid DNS label")
      else
        let label := string_of_bytes (slice (Z.to_nat (offset + 1)) (Z.to_nat (offset + 1 + b)) message) in
        let offset := offset + 1 + b in
        nameLoop fuel message offset (if jumped then next else offset) jumped seen (labels ++ [label])
  end.
Definition readName (message : bytes) (offset : Z) : res (string * Z) :=
  nameLoop 32 message offset offset false ∅ [].

(** [binary.BigEndian.UintN(b[i:j])]. *)
Definition uint (b : bytes) (i j : Z) : Z := be_decode (slice (Z.to_nat i) (Z.to_nat j) b).

(** The proof of an answer, less its constants. *)
Record dnsProof := DnsProof {
  FixtureID : string; AuthoritativeAnswer : bool; RecursionDesired : bool; RecursionAvailable : bool;
  QueryLengthBytes : Z; QueryNormalizedSHA256 : string; ResponseRawLengthBytes : Z;
  ResponseCanonicalLengthBytes : Z; ResponseNormalizedSHA256 : string; ResponseCompressionDiffered : bool
}.

Definition expectedFlags (scenario : string) : Z := if String.eqb scenario resolverScenario then 0x8180 else 0x8400.

Definition validateDNS (scenario : string) (raw : bytes) : res dnsProof :=
  guard (12 <=? len raw) && (uint raw 0 2 =? 0) else EMalformed "response message ID must be zero" in
  let flags := uint raw 2 4 in
  guard flags =? expectedFlags scenario
    else EMalformed ("response flags/rcode mismatch: expected 0x" +:+ hex_encode (be_encode 2 (expectedFlags scenario))
                     +:+ ", observed 0x" +:+ hex_encode (be_encode 2 flags)) in
  guard (uint raw 4 6 =? 1) && (uint raw 6 8 =? 1) && (uint raw 8 10 =? 0) && (uint raw 10 12 =? 0)
    else EMalformed "response section counts mismatch" in
  match readName raw 12 with
  | Err _ => Err (EMalformed "response question name mismatch")
  | Ok (name, next) =>
      guard String.eqb name "plab.test." else EMalformed "response question name mismatch" in
      guard (next + 4 <=? len raw) && (uint raw next (next + 2) =? 1) && (uint raw (next + 2) (next + 4) =? 1)
        else EMalformed "response question type/class mismatch" in
      match readName raw (next + 4) with
      | Err _ => Err (EMalformed "answer owner mismatch")
      | Ok (owner, next) =>
          guard String.eqb owner "plab.test." else EMalformed "answer owner mismatch" in
          guard next + 10 <=? len raw else EMalformed "truncated answer" in
          let typ := uint raw next (next + 2) in
          let class := uint raw (next + 2) (next + 4) in
          let ttl := uint raw (next + 4) (next + 8) in
          let length := uint raw (next + 8) (next + 10) in
          let next := next + 10 in
          guard (typ =? 1) && (class =? 1) && (ttl =? 0) && (length =? 4) && (next + 4 =? len raw)
                && bool_decide (slice (Z.to_nat next) (Z.to_nat (next + 4)) raw = [192; 0; 2; 1])
            else EMalformed "A answer semantics mismatch" in
          let '(query, canonical, expectedQueryHash, expectedResponseHash) := canonicalFixture scenario in
          let normalizedHash := hash canonical in
          guard (len canonical =? 43) && String.eqb normalizedHash expectedResponseHash
            else EMsg "internal canonical response fixture mismatch" in
          let resolver := String.eqb scenario resolverScenario in
          Ok (DnsProof (selectedFixtureID scenario) (negb resolver) resolver resolver (len query) expectedQueryHash
                (len raw) (len canonical) normalizedHash (negb (bool_decide (raw = canonical))))
      end
  end.

(** ** Exchanges *)

(** The proof of the HTTP exchange, less its constants. *)
Record httpProof := HttpProof {
  Version : string; StatusCode : Z; ResponseContentType : string; ResponseCacheControl : string;
  ConnectionReused : bool; HTTP1FallbackDetected : bool
}.
Record exchangeProof := ExchangeProof {
  DNS : dnsProof; HTTP : httpProof; TLS : tlsProof; QueryLatencyMilliseconds : float64;
  TimeToFirstByteMilliseconds : float64; TransferredBytes : Z; ConnectionLatencyMilliseconds : float64
}.
#[export] Instance exchange_sample : Sample exchangeProof :=
  { sampleLatency := QueryLatencyMilliseconds; sampleFirstByte := TimeToFirstByteMilliseconds;
    sampleBytes := TransferredBytes }.

(** What an exchange meets: the control endpoint, the connection the trace reports (whether
    it is reused, and the time it took), the first octet's time, the response and the time
    of the whole. *)
Record exchangeEnv := ExchangeEnv {
  x_post : string -> res (Z * bytes); x_do : dohRequest -> res dohResponse;
  x_gotConn : option (bool * float64); x_firstByte : float64; x_latency : float64
}.

Section executor.
Context `{UrlLib}.

(** The resolver's control endpoint is next to the port of the target, 443 if it has none. *)
Definition controlAddress (endpoint : string) : res (string * string) :=
  let? parsed := parse endpoint in
  Ok (u_hostname parsed, if String.eqb (u_port parsed) "" then "443" else u_port parsed).

(** The request of an exchange. *)
Definition buildRequest (scenario endpoint : string) : res dohRequest :=
  let '(query, _, _, _) := canonicalFixture scenario in
  let? request := newRequest "POST" endpoint query in
  let request := set_host serverName request in
  let request := set_request_header "accept" mediaType request in
  let request := set_request_header "content-type" mediaType request in
  Ok (set_request_header "cache-control" "no-cache" request).

Definition exchange (getenv : string -> string) (endpoint : string) (reused : bool) (env : exchangeEnv)
    : res exchangeProof :=
  let scenario := selectedScenario getenv in
  match (if String.eqb scenario resolverScenario
         then flushResolverCache getenv (controlAddress endpoint) (x_post env) else None) with
  | Some err => Err err
  | None =>
  let '(query, _, _, _) := canonicalFixture scenario in
  let? request := buildRequest scenario endpoint in
  let? response := x_do env request in
  let? body := read_all_limited 65536 (r_body response) in
  let? tlsValue := validateTLS scenario (r_tls response) in
  let observedReused := match x_gotConn env with Some (reused, _) => reused | None => false end in
  let connectionLatency := match x_gotConn env with Some (false, latency) => latency | _ => f_zero end in
  let httpValue := HttpProof (r_proto response) (r_status response) (header_get (r_header response) "content-type")
                     (header_get (r_header response) "cache-control") observedReused (r_protoMajor response =? 1) in
  guard Bool.eqb observedReused reused else EMalformed ("HTTP/2 connection reuse mismatch: expected "
    +:+ format_bool reused +:+ ", observed " +:+ format_bool observedReused) in
  guard (r_protoMajor response =? 2) && String.eqb (r_proto response) "HTTP/2.0"
    else EMalformed "HTTP/2 protocol proof mismatch or fallback" in
  guard (r_status response =? 200) && String.eqb (ResponseContentType httpValue) mediaType
    else EMalformed "DoH2 response status/header mismatch" in
  guard negb (String.eqb scenario strictScenario && negb (String.eqb (ResponseCacheControl httpValue) "no-store"))
    else EMalformed "strict DoH2 response requires Cache-Control: no-store" in
  let? dnsValue := validateDNS scenario body in
  Ok (ExchangeProof dnsValue httpValue tlsValue (x_latency env) (x_firstByte env) (len query + len body)
        connectionLatency)
  end.

(** ** Phases *)

(** What a phase meets: the exchange that opens its connection and those of its turns. *)
Record phaseEnv := PhaseEnv { ph_first : exchangeEnv; ph_turns : list exchangeEnv; ph_seconds : float64 }.

Definition runPhase (getenv : string -> string) (endpoint : string) (env : phaseEnv) (once : bool)
    : dohSummary exchangeProof * option goerror :=
  match exchange getenv endpoint false (ph_first env) with
  | Err err => (classified err (DohSummary (emptySummary f_zero) []), Some err)
  | Ok first =>
      let s := DohSummary (emptySummary (ConnectionLatencyMilliseconds first)) [] in
      if once then (with_duration (fdiv (QueryLatencyMilliseconds first) (f_of_Z 1000)) (record first s), None)
      else match exchangeLoop (fun env (_ : unit) => (exchange getenv endpoint true env, tt)) (ph_turns env) tt s with
           | (s, Some err, _) => (s, Some err)
           | (s, None, _) => (with_duration (ph_seconds env) s, None)
           end
  end.

(** ** Selection and [main] *)

Definition verifySubstitution (getenv : string -> string) (variable expected : string) : bool :=
  let observed := env_value getenv variable in String.eqb observed "" || String.eqb observed expected.

(** [checkIdentityOrExit]: the exit code, if it exits. *)
Definition checkIdentityOrExit (getenv : string -> string) : option Z :=
  if negb (forallb (fun '(n, v) => verifySubstitution getenv n v)
       [("PLAB_EXECUTOR_ID", "go-dns-doh2-executor"); ("PLAB_EXECUTOR_VERSION", "0.3.0");
        ("PLAB_LOAD_GENERATOR_ID", "go-dns-doh2-load"); ("PLAB_LOAD_GENERATOR_VERSION", "0.3.0");
        ("PLAB_PROTOCOL", "doh2"); ("PLAB_PROTOCOL_VARIANT", protocolVariant (selectedScenario getenv))])
  then Some 2
  else
    let scenario := selectedScenario getenv in
    if string_in supportedScenarios scenario then None
    else if string_in knownUnsupported scenario then Some 3 else Some 2.

Definition loadConfig (getenv : string -> string) : option goerror :=
  if negb (string_in supportedScenarios (selectedScenario getenv))
  then Some (EMsg "exact supported scenario identity is required")
  else if negb (String.eqb (env_value getenv "PLAB_LOAD_PROFILE_ID") "secure-dns-smoke")
  then Some (EMsg ("supports load profile " +:+ go_quote "secure-dns-smoke" +:+ " only"))
  else if forallb (fun '(n, v) => envInt getenv n =? v)
            [("PLAB_CONNECTIONS", 1); ("PLAB_CONCURRENCY", 1); ("PLAB_STREAMS_PER_CONNECTION", 1);
             ("PLAB_DURATION_SECONDS", 5); ("PLAB_WARMUP_SECONDS", 1); ("PLAB_REPETITION", 1)]
  then None
  else Some (EMsg "secure-dns-smoke requires connections=1 concurrency=1 duration=5 warmup=1 repetition=1").

Definition normalizeTarget (value : string) : res string :=
  let value := trim_space value in
  guard negb (String.eqb value "") else EMsg "target address required" in
  let? parsed := parse value in
  endpointOf "DoH2 target must be an https URL without query or fragment" "DoH2 target path must be /dns-query" parsed.

(** The protocol a summary has observed. *)
Definition observedProtocol (s : dohSummary exchangeProof) : string :=
  match LastProof (base s) with
  | Some p => if String.eqb (Version (HTTP p)) "HTTP/2.0" && String.eqb (ts_protocol (TState (TLS p))) "h2"
              then "doh2" else ""
  | None => ""
  end.

(** What [main] meets; the artifacts are written. *)
Record mainEnv := MainEnv {
  m_getenv : string -> string; m_target : string; m_roots : res unit;
  m_validationOnly : bool; m_showVersion : bool; m_mkdir : option goerror;
  m_preflight : phaseEnv; m_warmup : phaseEnv; m_measured : phaseEnv
}.

(** The exit code, and the result printed. *)
Definition main (env : mainEnv) : Z * option (result exchangeProof) :=
  let getenv := m_getenv env in
  if m_showVersion env then (0, None) else
  if bool_decide (m_mkdir env <> None) then (1, None) else
  match checkIdentityOrExit getenv with
  | Some code => (code, None)
  | None =>
      match normalizeTarget (m_target env), m_roots env with
      | Err _, _ | Ok _, Err _ => (2, None)
      | Ok endpoint, Ok _ =>
          let '(_, err) := runPhase getenv endpoint (m_preflight env) true in
          if bool_decide (err <> None) then (1, None)
          else if m_validationOnly env then (0, None)
          else if bool_decide (loadConfig getenv <> None) then (2, None)
          else if rejected (runPhase getenv endpoint (m_warmup env) false) then (1, None)
          else
            let measured := runPhase getenv endpoint (m_measured env) false in
            if rejected measured then (1, None)
            else
              let scenario := selectedScenario getenv in
              (0, Some (normalizeResult scenario (protocolVariant scenario) measured.1))
      end
  end.
End executor.
