(* ===== verification/DnsDoh2Props.v ===== *)
(** DNS over HTTPS on HTTP/2: what an accepted answer is, sessions between the executor and
    the server, and what a successful run has earned. *)
From S2P Require Export Prelude Stats GoText GoHash GoHttp Certificates DnsWire DnsDoq DnsDoqProps DnsDoh DnsDoh2.

(** ** Names *)

(** This package's copy of [readName] reads the same names as the DoQ executor's: only the
    errors differ. *)
Lemma nameLoop_agrees fuel m offset next jumped seen labels r :
  DnsDoh2.nameLoop fuel m offset next jumped seen labels = Ok r <->
  DnsDoq.nameLoop fuel m offset next jumped seen labels = Ok r.
Proof.
  revert offset next jumped seen labels; induction fuel as [|fuel IH]; intros offset next jumped seen labels;
    [split; discriminate|].
  cbn [DnsDoh2.nameLoop DnsDoq.nameLoop]. cbv zeta.
  destruct (len m <=? offset); cbn [orb]; [split; discriminate|].
  destruct (bool_decide (offset ∈ seen)); [split; discriminate|].
  destruct (_ =? 0); [reflexivity|]. destruct (_ =? 0xc0).
  - destruct (len m <=? offset + 1); [split; discriminate|]. apply IH.
  - destruct (_ || _ || _); [split; discriminate|]. apply IH.
Qed.

Lemma readName_agrees m offset r : DnsDoh2.readName m offset = Ok r <-> DnsDoq.readName m offset = Ok r.
Proof. unfold DnsDoh2.readName, DnsDoq.readName. generalize 32%nat. intros fuel. apply nameLoop_agrees. Qed.

Lemma length_string_of_bytes l : String.length (string_of_bytes l) = length l.
Proof. induction l; simpl; congruence. Qed.

(** The octets the text of a name stands for, less the final zero. *)
Definition text_len (labels : list string) : Z := foldr (fun l n => Z.of_nat (String.length l) + 1 + n) 0 labels.

Lemma length_string_app s t : String.length (s +:+ t) = (String.length s + String.length t)%nat.
Proof.
  induction s as [|c s IH]; [done|]. change (String c s +:+ t) with (String c (s +:+ t)). cbn [String.length]. by rewrite IH.
Qed.

Lemma text_len_join labels : text_len labels <= Z.of_nat (String.length (join "." labels +:+ ".")).
Proof.
  induction labels as [|l [|l' labels] IH]; [done| |].
  - rewrite length_string_app. simpl. lia.
  - change (join "." (l :: l' :: labels)) with (l +:+ "." +:+ join "." (l' :: labels)).
    rewrite !length_string_app in *. change (String.length ".") with 1%nat in *.
    change (text_len (l :: l' :: labels)) with (Z.of_nat (String.length l) + 1 + text_len (l' :: labels)). lia.
Qed.

Lemma text_len_snoc labels l : text_len (labels ++ [l]) = text_len labels + Z.of_nat (String.length l) + 1.
Proof. induction labels as [|x labels IH]; cbn [text_len foldr app] in *; [lia|]. fold (text_len (labels ++ [l])). unfold text_len in *. lia. Qed.

(** A name takes no more room where it starts than its text and two octets: it is all
    there, or ends in one pointer. *)
Lemma nameLoop_extent fuel m offset next jumped seen labels name stop :
  all_bytes m -> 0 <= offset -> DnsDoq.nameLoop fuel m offset next jumped seen labels = Ok (name, stop) ->
  text_len labels <= Z.of_nat (String.length name) /\
  (jumped = false -> stop - offset + text_len labels <= Z.of_nat (String.length name) + 2).
Proof.
  intros Hm. revert offset next jumped seen labels.
  induction fuel as [|fuel IH]; intros offset next jumped seen labels Ho; [discriminate|].
  cbn [DnsDoq.nameLoop]. cbv zeta. destruct (_ || _); [discriminate|].
  pose proof (byte_at_byte m (Z.to_nat offset) Hm) as Hb. unfold is_byte in Hb.
  pose proof (byte_at_byte m (Z.to_nat (offset + 1)) Hm) as Hb1. unfold is_byte in Hb1.
  destruct (_ =? 0).
  { intros [= <- <-]. pose proof (text_len_join labels). split; [done|]. intros ->. lia. }
  destruct (_ =? 0xc0).
  - destruct (_ <=? _) eqn:E; [discriminate|]. apply Z.leb_gt in E. intros H.
    assert (Hs : jumped = false -> stop = offset + 2).
    { intros ->. apply nameLoop_bounds in H as (_ & H & _); [by apply H|exact Hm|intros _; lia]. }
    apply IH in H as [H _]; [|apply Z.lor_nonneg; split; [apply Z.shiftl_nonneg, Z.land_nonneg; lia|lia]].
    split; [exact H|]. intros Hj. specialize (Hs Hj). lia.
  - destruct (_ || _ || _) eqn:E; [discriminate|]. intros H.
    apply orb_false_iff in E as [_ E]. apply Z.ltb_ge in E.
    apply IH in H as [H1 H2]; [|lia]. rewrite text_len_snoc in H1, H2.
    assert (Hl : Z.of_nat (String.length (string_of_bytes (slice (Z.to_nat (offset + 1))
                  (Z.to_nat (offset + 1 + byte_at m (Z.to_nat offset))) m))) = byte_at m (Z.to_nat offset)).
    { rewrite length_string_of_bytes. unfold slice. rewrite length_take, length_drop. unfold len in E. lia. }
    rewrite Hl in H1, H2. split; [lia|]. intros ->. specialize (H2 eq_refl). lia.
Qed.

#[local] Strategy expand [DnsDoq.readName].

Lemma readName_extent m offset name stop :
  all_bytes m -> 0 <= offset -> DnsDoq.readName m offset = Ok (name, stop) ->
  offset < stop <= len m /\ stop <= offset + Z.of_nat (String.length name) + 2.
Proof.
  intros Hm Ho H. split; [by eapply readName_bounds|]. unfold DnsDoq.readName in H.
  revert H. generalize 32%nat; intros fuel H. apply nameLoop_extent in H as [_ H]; [|exact Hm|exact Ho].
  specialize (H eq_refl). cbn [text_len foldr] in H. lia.
Qed.

(** ** What an accepted answer is *)

(** The fixtures differ in their flags and in nothing else that matters here. *)
Lemma canonical_shape scenario :
  let '(_, canonical, _, _) := canonicalFixture scenario in
  take 12 canonical = [0; 0] ++ be_encode 2 (expectedFlags scenario) ++ [0; 1; 0; 1; 0; 0; 0; 0] /\
  drop 29 canonical = drop 29 aResponse.
Proof.
  unfold canonicalFixture, expectedFlags. destruct (String.eqb scenario resolverScenario); split; vm_compute; reflexivity.
Qed.

(** An answer the DoH2 executor accepts is the canonical one, up to how its two names
    are written. The twelve octets of its header are the fixture's, with the flags of the
    scenario; a name read as plab.test. and taking at most twelve octets follows, then the
    type and the class of the question, another such name, and after it exactly the
    fixture's last fourteen octets: type, class, TTL, length and address, and nothing more.
    So a message of more than 54 octets is refused. The compression flag is set exactly when
    the message is not the fixture; the digest reported is the fixture's either way. *)
Theorem doh2_answer_sound scenario raw p :
  all_bytes raw -> validateDNS scenario raw = Ok p ->
  let '(query, canonical, queryHash, responseHash) := canonicalFixture scenario in
  take 12 raw = take 12 canonical /\
  (exists questionEnd answer, 12 < questionEnd <= 24 /\ questionEnd + 4 < answer <= questionEnd + 16 /\
     DnsDoq.readName raw 12 = Ok ("plab.test.", questionEnd) /\
     slice (Z.to_nat questionEnd) (Z.to_nat (questionEnd + 4)) raw = [0; 1; 0; 1] /\
     DnsDoq.readName raw (questionEnd + 4) = Ok ("plab.test.", answer) /\
     drop (Z.to_nat answer) raw = drop 29 canonical /\ len raw = answer + 14) /\
  ResponseRawLengthBytes p = len raw /\ QueryNormalizedSHA256 p = queryHash /\
  ResponseNormalizedSHA256 p = responseHash /\
  (ResponseCompressionDiffered p = true <-> raw <> canonical).
Proof.
  intros Hm H. unfold validateDNS in H.
  destruct (canonicalFixture scenario) as [[[query canonical] queryHash] responseHash] eqn:Ef.
  pass_guard_as H G2. cbv zeta in H. pass_guard_as H G3. pass_guard_as H G4.
  destruct (DnsDoh2.readName raw 12) as [[name n1]|] eqn:N1; [|discriminate H].
  pass_guard_as H G5. pass_guard_as H G6.
  destruct (DnsDoh2.readName raw (n1 + 4)) as [[owner n2]|] eqn:N2; [|discriminate H].
  pass_guard_as H G7. pass_guard_as H G8. pass_guard_as H G9. pass_guard_as H G10. injection H as <-.
  apply readName_agrees in N1, N2.
  apply String.eqb_eq in G5, G7. subst name owner.
  assert (B1 := readName_extent raw 12 _ _ Hm ltac:(lia) N1).
  assert (B2 := readName_extent raw (n1 + 4) _ _ Hm ltac:(lia) N2).
  change (Z.of_nat (String.length "plab.test.")) with 10 in B1, B2.
  revert G2 G3 G4 G6 G8 G9 G10. rewrite !andb_true_iff, !Z.eqb_eq, !Z.leb_le, String.eqb_eq, bool_decide_eq_true.
  intros [_ U0] U2 [[[U4 U6] U8] U10] [[_ T1] C1] _ [[[[[T2 C2] TT] LL] NN] AA] [_ HH].
  assert (S := canonical_shape scenario). rewrite Ef in S. destruct S as [S1 S2].
  assert (Hd := header_octets raw _ Hm ltac:(lia) U0 U2 U4 U6 U8 U10).
  assert (Q1 := uint_bytes raw n1 (n1 + 2) _ [0; 1] Hm ltac:(lia) ltac:(lia) T1).
  assert (Q2 := uint_bytes raw (n1 + 2) (n1 + 4) _ [0; 1] Hm ltac:(lia) ltac:(lia) C1).
  replace (n1 + 2 - n1) with 2 in Q1 by lia. replace (n1 + 4 - (n1 + 2)) with 2 in Q2 by lia.
  split; [by rewrite Hd, S1|]. split.
  - exists n1, n2. split; [lia|]. split; [lia|]. split; [exact N1|]. split; [|split; [exact N2|split; [|lia]]].
    + rewrite <-(slice_glue _ (Z.to_nat (n1 + 2))), (Q1 eq_refl), (Q2 eq_refl); [reflexivity|lia|unfold len in *; lia].
    + rewrite S2. apply (answer_tail raw n2 Hm); [lia|lia|exact T2|exact C2|exact TT|exact LL|].
      replace (n2 + 14) with (n2 + 10 + 4) by lia. exact AA.
  - cbn [ResponseRawLengthBytes QueryNormalizedSHA256 ResponseNormalizedSHA256 ResponseCompressionDiffered].
    split; [reflexivity|]. split; [reflexivity|]. split; [exact HH|]. rewrite negb_true_iff. apply bool_decide_eq_false.
Qed.

(** An answer whose second name is written out in full: nine octets longer, and accepted
    under the digest of the fixture. *)
Definition longAnswer : bytes := take 27 aResponse ++ slice 12 23 aResponse ++ drop 29 aResponse.

Lemma doh2_answer_sound_witness :
  (exists p, validateDNS strictScenario longAnswer = Ok p /\ ResponseRawLengthBytes p = 52 /\
     ResponseCompressionDiffered p = true) /\
  take 12 longAnswer = take 12 aResponse.
Proof.
  assert (Hb : all_bytes longAnswer) by (apply (bool_decide_unpack _); vm_compute; exact I).
  destruct (validateDNS strictScenario longAnswer) as [p|] eqn:H; [|vm_compute in H; discriminate H].
  pose proof (doh2_answer_sound strictScenario longAnswer p Hb H) as S.
  change (canonicalFixture strictScenario) with (aQuery, aResponse, aQueryHash, aResponseHash) in S.
  destruct S as (H1 & _ & L & _ & _ & H2). split; [|exact H1].
  exists p. split; [reflexivity|]. split; [exact L|]. apply H2. vm_compute. discriminate.
Defined.

(** The name of one label with a dot in it is accepted here too. *)
Lemma doh2_dotted_accepted :
  exists p, validateDNS strictScenario dottedAnswer = Ok p /\ ResponseNormalizedSHA256 p = aResponseHash /\
    hash dottedAnswer <> aResponseHash.
Proof. eexists. vm_compute. split; [reflexivity|]. split; [reflexivity|discriminate]. Qed.

(** ** Sessions *)

Lemma doh2_fixtures :
  hash aQuery = aQueryHash /\ len aQuery = 27 /\ byte_at aQuery 0 = 0 /\ byte_at aQuery 1 = 0 /\ len aResponse = 43 /\
  validateDNS strictScenario aResponse
  = Ok (DnsProof "dns.plab-test-a.canonical" true false false 27 aQueryHash 43 43 aResponseHash false) /\
  validateDNS interopScenario aResponse
  = Ok (DnsProof "dns.plab-test-a.canonical" true false false 27 aQueryHash 43 43 aResponseHash false).
Proof. vm_compute. repeat split. Qed.

(** The server answers a request for its fixture. *)
Lemma doh2_handles s tls h :
  s_protoMajor s = 2 -> s_tls s = Some tls -> ts_version tls = VersionTLS13 -> ts_protocol tls = "h2" ->
  ts_resumed tls = false -> s_method s = "POST" -> s_path s = "/dns-query" -> s_host s = "dns.plab.test" ->
  s_header s = h -> header_get h "content-type" = mediaType -> header_get h "accept" = mediaType ->
  header_get h "cache-control" = "no-cache" -> s_body s = Stream aQuery EEOF ->
  let w := Server.handle s (writer_new []) in
  exists sent, w_status w = Some (200, sent) /\ w_body w = aResponse /\
    header_get sent "content-type" = mediaType /\ header_get sent "cache-control" = "no-store".
Proof.
  destruct doh2_fixtures as (Hh & Hl & H0 & H1 & _). intros P1 P2 P3 P4 P5 P6 P7 P8 <- P9 P10 P11 P12.
  unfold Server.handle. rewrite P1, P2, P3, P4, P5, P6, P7, P8, P9, P10, P11, P12, Z.eqb_refl, !String.eqb_refl. cbn [negb orb].
  unfold read_all_limited. cbn [st_data st_end]. rewrite Hl. cbn [Z.leb Z.compare Pos.compare Pos.compare_cont].
  rewrite Hl, Hh, H0, H1, String.eqb_refl. cbn [negb orb Z.eqb Pos.eqb].
  eexists. split; [reflexivity|]. split; [reflexivity|]. split; reflexivity.
Qed.

Section session.
Context `{UrlLib}.

(** A turn the server of this repository answers, over the session the executor sees: the
    request reaches the handler on a fresh TLS 1.3 session with the protocol h2, and the
    response arrives. *)
Definition served_turn (scenario endpoint : string) (reused : bool) (env : exchangeEnv) : Prop :=
  (exists latency, x_gotConn env = Some (reused, latency)) /\
  forall request, buildRequest scenario endpoint = Ok request ->
  exists s tls response, carried request s /\ s_protoMajor s = 2 /\ s_tls s = Some tls /\
    ts_version tls = VersionTLS13 /\ ts_protocol tls = "h2" /\ ts_resumed tls = false /\
    x_do env request = Ok response /\ answered (Server.handle s (writer_new [])) response /\
    r_protoMajor response = 2 /\ r_proto response = "HTTP/2.0" /\ is_ok (validateTLS scenario (r_tls response)) = true.

Lemma buildRequest_ok scenario endpoint u :
  parse endpoint = Ok u ->
  exists request, buildRequest scenario endpoint = Ok request /\ q_method request = "POST" /\ q_url request = u /\
    q_host request = serverName /\ header_get (q_header request) "accept" = mediaType /\
    header_get (q_header request) "content-type" = mediaType /\
    header_get (q_header request) "cache-control" = "no-cache" /\ q_body request = (canonicalFixture scenario).1.1.1.
Proof.
  intros Hu. unfold buildRequest, newRequest. destruct (canonicalFixture scenario) as [[[query ?] ?] ?].
  rewrite Hu. cbn [res_bind]. eexists. split; [reflexivity|]. repeat split.
Qed.

Lemma doh2_turn_completes getenv endpoint u reused env :
  selectedScenario getenv = strictScenario \/ selectedScenario getenv = interopScenario ->
  parse endpoint = Ok u -> u_path u = "/dns-query" ->
  served_turn (selectedScenario getenv) endpoint reused env ->
  exists p, exchange getenv endpoint reused env = Ok p /\ QueryLatencyMilliseconds p = x_latency env /\
    TimeToFirstByteMilliseconds p = x_firstByte env /\ TransferredBytes p = 70 /\
    (reused = false -> exists latency, x_gotConn env = Some (false, latency) /\ ConnectionLatencyMilliseconds p = latency).
Proof.
  intros Hs Hu Hpath ((latency & Hc) & Hturn).
  assert (Hne : String.eqb (selectedScenario getenv) resolverScenario = false) by (by destruct Hs as [-> | ->]).
  assert (Hf : canonicalFixture (selectedScenario getenv) = (aQuery, aResponse, aQueryHash, aResponseHash)).
  { unfold canonicalFixture. by rewrite Hne. }
  destruct (buildRequest_ok (selectedScenario getenv) endpoint u Hu)
    as (request & Hb & Q1 & Q2 & Q3 & Q4 & Q5 & Q6 & Q7).
  destruct (Hturn request Hb) as (s & tls & response & C & S1 & S2 & S3 & S4 & S5 & Hdo & [(sent & A1 & A2) A3] & R1 & R2 & Htls).
  destruct (validateTLS (selectedScenario getenv) (r_tls response)) as [proof|] eqn:Et; [|discriminate Htls].
  destruct (doh2_handles s tls (s_header s)) as (sent' & W1 & W2 & W3 & W4); try assumption; try reflexivity.
  { rewrite (ca_method _ _ C). exact Q1. }
  { rewrite (ca_path _ _ C), Q2. exact Hpath. }
  { rewrite (ca_host _ _ C). exact Q3. }
  { rewrite (ca_header _ _ C) by in_list. exact Q5. }
  { rewrite (ca_header _ _ C) by in_list. exact Q4. }
  { rewrite (ca_header _ _ C) by in_list. exact Q6. }
  { rewrite (ca_body _ _ C), Q7, Hf. reflexivity. }
  rewrite W1 in A1. injection A1 as A0 <-. rewrite W2 in A3.
  destruct doh2_fixtures as (_ & L1 & _ & _ & L2 & V1 & V2).
  unfold exchange. rewrite Hne, Hf, Hb. cbn [res_bind]. rewrite Hdo. cbn [res_bind].
  unfold read_all_limited. rewrite A3. cbn [st_data st_end]. rewrite L2. cbn [Z.leb Z.compare Pos.compare Pos.compare_cont].
  cbn [res_bind]. rewrite Et. cbn [res_bind]. rewrite Hc. cbn [ResponseContentType ResponseCacheControl].
  rewrite (A2 "content-type"), W3, (A2 "cache-control"), W4, R1, R2, <-A0 by in_list.
  rewrite eqb_reflx, !String.eqb_refl, !Z.eqb_refl, andb_false_r. cbn [andb negb].
  destruct Hs as [Hs|Hs]; rewrite Hs; rewrite ?V1, ?V2; cbn [res_bind];
    (eexists; split; [reflexivity|]; split; [reflexivity|]; split; [reflexivity|]; split;
       [cbn [TransferredBytes]; rewrite L1, L2; reflexivity|]; intros ->; exists latency; split; reflexivity).
Qed.

(** C16: the DoH2 executor and the DoH2 server of this repository agree. When HTTP/2
    carries the executor's requests to the handler and its responses back, over a fresh
    TLS 1.3 session the executor authenticates, with the connection opened by the first
    exchange and reused by the others, a phase of the strict or the interoperability
    scenario completes every turn with no failure, no retry, nothing malformed and 70
    octets each. The exchange that opens the connection is not counted; its connection
    latency is the one reported. *)
Theorem doh2_session_completes getenv endpoint u first turns seconds :
  selectedScenario getenv = strictScenario \/ selectedScenario getenv = interopScenario ->
  parse endpoint = Ok u -> u_path u = "/dns-query" ->
  served_turn (selectedScenario getenv) endpoint false first ->
  Forall (served_turn (selectedScenario getenv) endpoint true) turns ->
  exists s latency, runPhase getenv endpoint (PhaseEnv first turns seconds) false = (s, None) /\
    CompletedOperations (base s) = len turns /\ MalformedOperations (base s) = 0 /\
    FailedOperations (base s) = 0 /\ TimedOutOperations (base s) = 0 /\ RetryCount (base s) = 0 /\
    TotalTransferredBytes (base s) = len turns * 70 /\
    Latencies (base s) = x_latency <$> turns /\ FirstBytes s = x_firstByte <$> turns /\
    x_gotConn first = Some (false, latency) /\ ConnectionLatency (base s) = latency.
Proof.
  intros Hs Hu Hpath Hfirst Hturns.
  destruct (doh2_turn_completes _ _ _ _ _ Hs Hu Hpath Hfirst) as (p & Hp & _ & _ & _ & Hc).
  destruct (Hc eq_refl) as (latency & Hgot & Hlat).
  destruct (dohLoop_completes (fun env (_ : unit) => (exchange getenv endpoint true env, tt)) (fun _ => True)
              (served_turn (selectedScenario getenv) endpoint true) x_latency x_firstByte 70) with
    (turns := turns) (c := tt) (s := DohSummary (emptySummary (P := exchangeProof) latency) [])
    as (s & [] & Hl & _ & [C1 C2 C3 C4 C5 C6 C7] & Hf); [|exact I|exact Hturns|].
  { intros env [] _ He. destruct (doh2_turn_completes _ _ _ _ _ Hs Hu Hpath He) as (q & Hq & Q1 & Q2 & Q3 & _).
    exists q, tt. rewrite Hq. split; [reflexivity|]. split; [exact I|]. split; [exact Q1|]. split; [exact Q2|exact Q3]. }
  exists (with_duration seconds s), latency. unfold runPhase. cbn [ph_first ph_turns ph_seconds].
  rewrite Hp, Hlat, Hl. apply dohLoop_latency in Hl as Hcl.
  clear Hfirst Hturns Hp Hl Hc. destruct s as [[] ?]. simpl in *.
  split; [reflexivity|]. split_and!; assumption || lia.
Qed.
End session.

(** ** Concrete runs *)

#[local] Existing Instance simple_urls.

Definition doh_state : tlsState :=
  TlsState VersionTLS13 requiredCipher "h2" true false 1 [(dns_leaf_der, dns_leaf_spki)].
Definition doh2_turn (reused : bool) (latency : float64) : exchangeEnv :=
  ExchangeEnv (fun _ => Err EDeadline) (fun r => Ok (wire doh_state 2 "HTTP/2.0" Server.handle r))
    (Some (reused, f_of_Z 9)) f_zero latency.

(** Such a turn is served: the handler is run on the request. *)
Lemma doh2_turn_served reused latency :
  served_turn strictScenario "https://127.0.0.1:18531/dns-query" reused (doh2_turn reused latency).
Proof.
  split; [eexists; reflexivity|]. intros request Hr.
  exists (arrives doh_state 2 "HTTP/2.0" request), doh_state, (wire doh_state 2 "HTTP/2.0" Server.handle request).
  split; [apply arrives_carried|]. do 5 (split; [reflexivity|]). split; [reflexivity|].
  vm_compute in Hr. injection Hr as <-. split; [|vm_compute; repeat split].
  apply wire_answered. vm_compute. eexists. reflexivity.
Qed.

Lemma doh2_session_completes_witness :
  parse "https://127.0.0.1:18531/dns-query" = Ok (Url "https" "127.0.0.1:18531" "127.0.0.1" "18531" "/dns-query" "" "") /\
  exists s, runPhase (fun _ => "") "https://127.0.0.1:18531/dns-query"
      (PhaseEnv (doh2_turn false (f_of_Z 3)) [doh2_turn true (f_of_Z 1); doh2_turn true (f_of_Z 2)] (f_of_Z 5)) false
      = (s, None) /\ CompletedOperations (base s) = 2 /\ TotalTransferredBytes (base s) = 140.
Proof.
  assert (Hu : parse "https://127.0.0.1:18531/dns-query"
               = Ok (Url "https" "127.0.0.1:18531" "127.0.0.1" "18531" "/dns-query" "" "")) by (vm_compute; reflexivity).
  split; [exact Hu|].
  destruct (doh2_session_completes (fun _ => "") "https://127.0.0.1:18531/dns-query" _ (doh2_turn false (f_of_Z 3))
              [doh2_turn true (f_of_Z 1); doh2_turn true (f_of_Z 2)] (f_of_Z 5) (or_introl eq_refl) Hu eq_refl)
    as (s & latency & Hr & H1 & _ & _ & _ & _ & H2 & _).
  - apply doh2_turn_served.
  - repeat (constructor; [apply doh2_turn_served|]). constructor.
  - exists s. split; [exact Hr|]. split; [exact H1|exact H2].
Defined.

(** ** What a result has earned *)

(** The problems of a session that passed. *)
Lemma validateTLS_ok scenario state proof :
  DnsDoh2.validateTLS scenario state = Ok proof ->
  state = Some (TState proof) /\ ts_version (TState proof) = VersionTLS13 /\ ts_complete (TState proof) = true /\
  ts_resumed (TState proof) = false /\ ts_protocol (TState proof) = "h2" /\
  (scenario = strictScenario -> ts_cipher (TState proof) = requiredCipher) /\
  leafDigests (ts_peer (TState proof)) = (leafDERHash, leafSPKIHash).
Proof.
  unfold DnsDoh2.validateTLS. destruct state as [state|]; [|done].
  destruct (leafDigests (ts_peer state)) as [der spki] eqn:Ep.
  destruct (_ ++ _) eqn:E; [|done]. intros [= <-]. cbn [TState]. unfold failure in E.
  repeat (apply app_nil in E as [? E]).
  repeat match goal with H : (if ?b then [_] else []) = [] |- _ => destruct b eqn:?; [discriminate H|clear H] end.
  reflect_bools. repeat match goal with H : String.eqb _ _ = true |- _ => apply String.eqb_eq in H end.
  split_and!; try assumption; try reflexivity; [|congruence]. intros ->.
  match goal with H : String.eqb _ _ && _ = false |- _ =>
    rewrite String.eqb_refl in H; apply negb_false_iff, String.eqb_eq in H; exact H end.
Qed.

(** The proof of an exchange: HTTP/2 with status 200, the media type and, in the strict
    scenario, no-store, over an authenticated session on a connection that is [reused],
    with an answer that is accepted. *)
Definition doh2_genuine (scenario : string) (reused : bool) (p : exchangeProof) : Prop :=
  Version (HTTP p) = "HTTP/2.0" /\ StatusCode (HTTP p) = 200 /\ ResponseContentType (HTTP p) = mediaType /\
  (scenario = strictScenario -> ResponseCacheControl (HTTP p) = "no-store") /\
  ConnectionReused (HTTP p) = reused /\ DnsDoh2.validateTLS scenario (Some (TState (TLS p))) = Ok (TLS p) /\
  exists raw, validateDNS scenario raw = Ok (DNS p).

Section earned.
Context `{UrlLib}.

(** What an exchange that succeeds has met. *)
Definition doh2_met (getenv : string -> string) (endpoint : string) (reused : bool) (env : exchangeEnv) : Prop :=
  (selectedScenario getenv = resolverScenario -> flushResolverCache getenv (controlAddress endpoint) (x_post env) = None) /\
  (reused = true -> exists latency, x_gotConn env = Some (true, latency)).

Lemma exchange_doh2_ok getenv endpoint reused env p :
  exchange getenv endpoint reused env = Ok p ->
  doh2_met getenv endpoint reused env /\ doh2_genuine (selectedScenario getenv) reused p.
Proof.
  unfold exchange, doh2_met, doh2_genuine. set (scenario := selectedScenario getenv).
  destruct (if String.eqb scenario resolverScenario then _ else None) eqn:Ef; [done|].
  destruct (canonicalFixture scenario) as [[[query canonical] queryHash] responseHash].
  intros G. apply res_bind_ok in G as (request & _ & G). apply res_bind_ok in G as (response & _ & G).
  apply res_bind_ok in G as (body & _ & G). apply res_bind_ok in G as (tls & Ht & G). cbv zeta in G.
  pass_guard_as G G1. pass_guard_as G G2. pass_guard_as G G3. pass_guard_as G G4.
  apply res_bind_ok in G as (dns & Hd & G). injection G as <-.
  cbn [HTTP DNS TLS Version StatusCode ResponseContentType ResponseCacheControl ConnectionReused] in *.
  apply eqb_prop in G1. apply andb_true_iff in G2 as [_ G2]. apply andb_true_iff in G3 as [G3 G3'].
  apply String.eqb_eq in G2, G3'. apply Z.eqb_eq in G3. apply negb_true_iff in G4.
  split; [split|].
  - intros E. rewrite E, String.eqb_refl in Ef. exact Ef.
  - intros ->. destruct (x_gotConn env) as [[b latency]|]; [|discriminate G1]. subst b. by exists latency.
  - split; [exact G2|]. split; [exact G3|]. split; [exact G3'|]. split; [|split; [exact G1|split; [|by exists body]]].
    + intros E. rewrite E, String.eqb_refl in G4. by apply negb_false_iff, String.eqb_eq in G4.
    + destruct (validateTLS_ok _ _ _ Ht) as [<- _]. exact Ht.
Qed.

Lemma runPhase_doh2_ok getenv endpoint env s :
  runPhase getenv endpoint env false = (s, None) ->
  doh2_met getenv endpoint false (ph_first env) /\ Forall (doh2_met getenv endpoint true) (ph_turns env) /\
  CompletedOperations (base s) = len (ph_turns env) /\
  (ph_turns env <> [] -> exists p, LastProof (base s) = Some p /\ doh2_genuine (selectedScenario getenv) true p).
Proof.
  unfold runPhase. destruct (exchange getenv endpoint false (ph_first env)) as [first|] eqn:E1; [|done].
  apply exchange_doh2_ok in E1 as [M1 _]. cbv zeta. cbn match.
  destruct (exchangeLoop _ _ _ _) as [[s1 [err|]] u] eqn:El; [done|]. intros [= <-].
  apply (dohLoop_ok _ (fun _ => True) (doh2_met getenv endpoint true) (doh2_genuine (selectedScenario getenv) true)) in El
    as (H1 & _ & _ & H2 & H3); [| |exact I].
  - split; [exact M1|]. split; [exact H2|]. destruct s1 as [[] ?]. simpl in *. split; [lia|exact H3].
  - intros e [] p [] _ [= Hx]. apply exchange_doh2_ok in Hx as [Ha Hb]. split; [exact Ha|]. split; [exact Hb|exact I].
Qed.

(** A result of the DoH2 executor is earned. If it prints a result and exits 0, its
    scenario is a supported one and the environment held the exact profile; the count it
    reports is that of the turns of the measured phase, at least one, with nothing retried,
    malformed, failed or timed out; every one of those turns reused the connection, the
    resolver's cache was flushed before each operation of the resolver scenario, and the
    proof is of an HTTP/2 exchange with status 200, the media type and, in the strict
    scenario, no-store, over an authenticated TLS 1.3 session with the exact protocol and
    leaf certificate, whose answer was accepted. *)
Theorem doh2_exit_zero_is_earned env r :
  main env = (0, Some r) ->
  let getenv := m_getenv env in
  RScenarioID r = selectedScenario getenv /\ RScenarioID r ∈ supportedScenarios /\ loadConfig getenv = None /\
  MCompleted (RMetrics r) = len (ph_turns (m_measured env)) /\ 0 < MCompleted (RMetrics r) /\
  MMalformed (RMetrics r) = 0 /\ MFailed (RMetrics r) = 0 /\ MTimedOut (RMetrics r) = 0 /\ MRetry (RMetrics r) = 0 /\
  (exists endpoint, normalizeTarget (m_target env) = Ok endpoint /\
     Forall (doh2_met getenv endpoint true) (ph_turns (m_measured env))) /\
  exists p, RProof r = Some p /\ doh2_genuine (RScenarioID r) true p.
Proof.
  unfold main. destruct (m_showVersion env); [done|]. destruct (bool_decide (m_mkdir env <> None)); [done|].
  destruct (checkIdentityOrExit _) eqn:Ei; [by intros [= _ ?]|].
  destruct (normalizeTarget _) as [endpoint|] eqn:En; [|done]. destruct (m_roots env); [|done].
  destruct (runPhase _ _ (m_preflight env) true) as [spf epf].
  destruct (bool_decide (epf <> None)); [done|]. destruct (m_validationOnly env); [done|].
  destruct (bool_decide (loadConfig _ <> None)) eqn:Ec; [done|].
  destruct (rejected (runPhase _ _ (m_warmup env) false)); [done|].
  destruct (runPhase _ _ (m_measured env) false) as [s [err|]] eqn:Em; [done|].
  destruct (rejected (s, None)) eqn:Hr; [done|]. intros [= <-].
  unfold rejected, hasFailures in Hr. cbn [fst snd] in Hr. reflect_bools.
  apply runPhase_doh2_ok in Em as (_ & Hmet & Hn & Hp). apply dec_stable in Ec.
  unfold checkIdentityOrExit in Ei. destruct (negb _); [done|]. cbv zeta in Ei |- *.
  destruct (string_in supportedScenarios _) eqn:Hin; [|by destruct (string_in knownUnsupported _)].
  unfold string_in in Hin. apply existsb_exists in Hin as (x & Hx & Heq). apply String.eqb_eq in Heq. subst x.
  apply list_elem_of_In in Hx. pose proof (len_nonneg (ph_turns (m_measured env))).
  cbn [normalizeResult RScenarioID RMetrics RProof MCompleted MMalformed MFailed MTimedOut MRetry fst snd].
  split_and!; try assumption; [reflexivity|lia|by exists endpoint|].
  apply Hp. intros E. rewrite E in Hn. done.
Qed.
End earned.

Definition doh2_environment (name : string) : string :=
  if String.eqb name "PLAB_LOAD_PROFILE_ID" then "secure-dns-smoke"
  else if String.eqb name "PLAB_DURATION_SECONDS" then "5"
  else if string_in ["PLAB_CONNECTIONS"; "PLAB_CONCURRENCY"; "PLAB_STREAMS_PER_CONNECTION"; "PLAB_WARMUP_SECONDS";
                     "PLAB_REPETITION"] name then "1" else "".
Definition doh2_phase : phaseEnv :=
  PhaseEnv (doh2_turn false (f_of_Z 3)) [doh2_turn true (f_of_Z 1); doh2_turn true (f_of_Z 2)] (f_of_Z 5).
Definition doh2_main : mainEnv :=
  MainEnv doh2_environment "https://127.0.0.1:18531" (Ok tt) false false None doh2_phase doh2_phase doh2_phase.
Definition doh2_result : result exchangeProof :=
  default (normalizeResult "" "" (DohSummary (emptySummary f_zero) [])) (main doh2_main).2.

Lemma doh2_exit_zero_is_earned_witness :
  main doh2_main = (0, Some doh2_result) /\ MCompleted (RMetrics doh2_result) = 2 /\
  exists p, RProof doh2_result = Some p /\ doh2_genuine (RScenarioID doh2_result) true p.
Proof.
  assert (H : main doh2_main = (0, Some doh2_result)) by (vm_compute; reflexivity).
  split; [exact H|]. destruct (doh2_exit_zero_is_earned doh2_main doh2_result H)
    as (_ & _ & _ & H1 & _ & _ & _ & _ & _ & _ & H2).
  split; [exact H1|exact H2].
Defined.
