(* ===== verification/DnsDoh3.v ===== *)
(** DNS over HTTPS on HTTP/3: the server go-dns-doh3 and the executor
    go-dns-doh3-executor. *)
From S2P Require Export Prelude Stats GoText GoHash GoHttp DnsWire DnsDoh.

(** ** github.com/miekg/dns *)

(** What the packages use of it: messages compared by [reflect.DeepEqual], [Msg.Unpack],
    the header and questions of a message, and the names of types and of codes. *)
Class DnsLib := {
  Msg : Type;
  Msg_eq_dec :: EqDecision Msg;
  unpack : bytes -> res Msg;
  msgId : Msg -> Z;
  msgQuestions : Msg -> list (string * Z);
  msgRcode : Msg -> Z;
  typeToString : Z -> string;
  rcodeToString : Z -> string
}.

(** ** Fixtures *)

Record fixture := Fixture {
  ScenarioID : string; FixtureID : string; FMethod : string; QueryHex : string; ResponseHex : string;
  QueryHash : string; ResponseHash : string; QuestionName : string; QuestionType : string; RCode : string;
  Answer : string
}.
Definition fixtures : list fixture :=
  [
   Fixture "dns.doh3.query.a" "dns.plab-test-a.canonical" "POST"
     "00000000000100000000000004706c616204746573740000010001"
     "00008400000100010000000004706c616204746573740000010001c00c00010001000000000004c0000201"
     "c46b9fb76019b5a644d0884b17e816cb7c3076275d9468c27d180f70488eb8ec"
     "9d488461675ad5ab9f74c7b203861e1ad17521e413a407a25e6611012a595620"
     "plab.test." "A" "NOERROR"
     "192.0.2.1";
   Fixture "dns.doh3.interoperability.query.a" "dns.plab-test-a.canonical" "POST"
     "00000000000100000000000004706c616204746573740000010001"
     "00008400000100010000000004706c616204746573740000010001c00c00010001000000000004c0000201"
     "c46b9fb76019b5a644d0884b17e816cb7c3076275d9468c27d180f70488eb8ec"
     "9d488461675ad5ab9f74c7b203861e1ad17521e413a407a25e6611012a595620"
     "plab.test." "A" "NOERROR"
     "192.0.2.1";
   Fixture "dns.doh3.get.a" "dns.plab-test-a-v2.canonical" "GET"
     "00000000000100000000000004706c616204746573740000010001"
     "00008400000100010000000004706c616204746573740000010001c00c00010001000000000004c0000201"
     "c46b9fb76019b5a644d0884b17e816cb7c3076275d9468c27d180f70488eb8ec"
     "9d488461675ad5ab9f74c7b203861e1ad17521e413a407a25e6611012a595620"
     "plab.test." "A" "NOERROR"
     "192.0.2.1";
   Fixture "dns.doh3.query.aaaa" "dns.plab-test-aaaa.canonical" "POST"
     "00000000000100000000000004706c6162047465737400001c0001"
     ("00008400000100010000000004706c6162047465737400001c0001c00c001c000100000000001020010db80000000000" +:+
     "00000000000001")
     "71a4f6add06b9f00589f84add45f19dc12b91699436287f8dbefb73f01931b69"
     "6ab207b08c4dd2c1a902d8d15276e79f6ec6916b043f25a3df851b146d7b072c"
     "plab.test." "AAAA" "NOERROR"
     "2001:db8::1";
   Fixture "dns.doh3.query.cname-chain" "dns.alias-plab-test-cname-chain.canonical" "POST"
     "00000000000100000000000005616c69617304706c616204746573740000010001"
     ("00008400000100020000000005616c69617304706c616204746573740000010001c00c00050001000000000012067461" +:+
     "7267657404706c61620474657374000674617267657404706c616204746573740000010001000000000004c0000201")
     "381c93525a301b3f5a9af24a453840cdd6d58695ba91556f6b9bb2e9da7e4a3a"
     "2b785cc8e748778dc0187d876f2829ac36e3e8fd1ce5d338053966522922648b"
     "alias.plab.test." "A" "NOERROR"
     "alias.plab.test. CNAME target.plab.test.; target.plab.test. A 192.0.2.1";
   Fixture "dns.doh3.query.large-dnssec-shaped" "dns.dnskey-plab-test-large-edns-dnssec-shaped.canonical" "POST"
     "00000000000100000000000106646e736b657904706c6162047465737400003000010000290200000080000000"
     ("00008400000100070000000106646e736b657904706c616204746573740000300001c00c003000010000000000440101" +:+
     "030d01010101010101010101010101010101010101010101010101010101010101010101010101010101010101010101" +:+
     "010101010101010101010101010101010101c00c003000010000000000440101030d0202020202020202020202020202" +:+
     "020202020202020202020202020202020202020202020202020202020202020202020202020202020202020202020202" +:+
     "0202c00c003000010000000000440101030d030303030303030303030303030303030303030303030303030303030303" +:+
     "03030303030303030303030303030303030303030303030303030303030303030303c00c003000010000000000440101" +:+
     "030d04040404040404040404040404040404040404040404040404040404040404040404040404040404040404040404" +:+
     "040404040404040404040404040404040404c00c003000010000000000440101030d0505050505050505050505050505" +:+
     "050505050505050505050505050505050505050505050505050505050505050505050505050505050505050505050505" +:+
     "0505c00c003000010000000000440101030d060606060606060606060606060606060606060606060606060606060606" +:+
     "06060606060606060606060606060606060606060606060606060606060606060606c00c002e000100000000005d0030" +:+
     "0d030000000077359400713fb300303904706c6162047465737400a5a5a5a5a5a5a5a5a5a5a5a5a5a5a5a5a5a5a5a5a5" +:+
     "a5a5a5a5a5a5a5a5a5a5a5a5a5a5a5a5a5a5a5a5a5a5a5a5a5a5a5a5a5a5a5a5a5a5a5a5a5a5a5a5a5a5a50000290200" +:+
     "000080000000")
     "7445dfa148164c2ee02186b962f735847e9d62f46414287ebf5cf6a3dfce9e4f"
     "1cc5bafd114a4f34d824c01a685b04e82cae6110c648046c461d3688782e8665"
     "dnskey.plab.test." "DNSKEY" "NOERROR"
     "DNSKEY-and-RRSIG-shaped-record-set";
   Fixture "dns.doh3.query.nodata" "dns.plab-test-txt-nodata.canonical" "POST"
     "00000000000100000000000004706c616204746573740000100001"
     ("00008400000100000001000004706c61620474657374000010000104706c616204746573740000060001000000000038" +:+
     "026e7304706c61620474657374000a686f73746d617374657204706c61620474657374000000000100000e1000000258" +:+
     "0001518000000000")
     "81902ef4d65703055001add4228c06b683f93f3506bc896963d7334d6fcedeef"
     "dcd160b39184623116b119ef1e83470d3ced747e4e9a4d488316a57e08847c7c"
     "plab.test." "TXT" "NOERROR"
     "NOERROR/NODATA";
   Fixture "dns.doh3.query.nxdomain" "dns.missing-plab-test-nxdomain.canonical" "POST"
     "000000000001000000000000076d697373696e6704706c616204746573740000010001"
     ("000084030001000000010000076d697373696e6704706c61620474657374000001000104706c61620474657374000006" +:+
     "0001000000000038026e7304706c61620474657374000a686f73746d617374657204706c616204746573740000000001" +:+
     "00000e10000002580001518000000000")
     "c3631fbb40f06d7230de8cd5f22f5950e2fb728b02bd8724cdcaaee8fb33b5c4"
     "587769ddca87bf6e758044ecfe73e847e635eace1ce1ea8a5cd38b1c225d8d23"
     "missing.plab.test." "A" "NXDOMAIN"
     "NXDOMAIN"
  ].

(** [fixtures[id]]. *)
Definition lookup_fixture (id : string) : option fixture := List.find (fun f => String.eqb (ScenarioID f) id) fixtures.

Definition bytesOf (value : string) : bytes := mustHex value.
Definition getValue (f : fixture) : string := base64_rawurl_encode (bytesOf (QueryHex f)).
Definition hashOf (value : bytes) : string := sha256_hex value.

Section library.
Context `{DnsLib}.

Definition validateFixture (f : fixture) : option goerror :=
  let query := bytesOf (QueryHex f) in
  let response := bytesOf (ResponseHex f) in
  if negb (String.eqb (hashOf query) (QueryHash f)) || negb (String.eqb (hashOf response) (ResponseHash f))
  then Some (EMsg (ScenarioID f +:+ " canonical hash mismatch")) else
  match unpack query, unpack response with
  | Err err, _ => Some err
  | Ok _, Err err => Some err
  | Ok q, Ok r =>
      match msgQuestions q with
      | [(name, qtype)] =>
          if negb (msgId q =? 0) || negb (msgId r =? 0) || negb (String.eqb name (QuestionName f))
             || negb (String.eqb (typeToString qtype) (QuestionType f))
             || negb (String.eqb (rcodeToString (msgRcode r)) (RCode f))
          then Some (EMsg (ScenarioID f +:+ " semantic mismatch")) else None
      | _ => Some (EMsg (ScenarioID f +:+ " semantic mismatch"))
      end
  end.

Definition semanticEqual (actual : bytes) (f : fixture) : bool :=
  match unpack actual, unpack (bytesOf (ResponseHex f)) with
  | Ok a, Ok e => bool_decide (a = e)
  | _, _ => false
  end.
End library.

(** ** The server *)

Module Server.

(** Whether the server starts: [order] is the order in which the range over the map meets
    the fixtures. *)
Definition starts `{DnsLib} (order : list fixture) : bool :=
  forallb (fun f => bool_decide (validateFixture f = None)) order.

(** The query of a request, or the refusal. *)
Definition queryOf (r : served) : bytes + (string * Z) :=
  if String.eqb (s_method r) "GET" then
    if negb (String.eqb (header_get (s_header r) "content-type") "") || (0 <? s_contentLength r)
    then inr ("GET body/content-type prohibited", 400)
    else if negb (s_params r =? 1) then inr ("exact dns parameter required", 400)
    else
      let f := default (Fixture "" "" "" "" "" "" "" "" "" "" "") (lookup_fixture "dns.doh3.get.a") in
      if negb (String.eqb (s_rawQuery r) ("dns=" +:+ getValue f))
      then inr ("canonical unpadded base64url dns parameter required", 400)
      else inl (bytesOf (QueryHex f))
  else if String.eqb (s_method r) "POST" then
    if negb (String.eqb (s_rawQuery r) "") || negb (String.eqb (header_get (s_header r) "content-type") mediaType)
    then inr ("exact POST media binding required", 415)
    else match read_all_limited 1024 (s_body r) with
         | Err _ => inr ("query read failed", 400)
         | Ok query => inl query
         end
  else inr ("GET or POST required", 405).

(** The first fixture, in the order of the range over the map, that matches. *)
Definition selects (r : served) (query : bytes) (f : fixture) : bool :=
  String.eqb (FMethod f) (s_method r) && String.eqb (hashOf query) (QueryHash f)
  && bool_decide (query = bytesOf (QueryHex f)).

Definition handle (order : list fixture) (r : served) (w : writer) : writer :=
  if negb (s_protoMajor r =? 3) || negb (String.eqb (s_proto r) "HTTP/3.0")
     || match s_tls r with
        | None => true
        | Some tls => negb (ts_version tls =? VersionTLS13) || negb (String.eqb (ts_protocol tls) "h3") || ts_resumed tls
        end
  then http_error "exact HTTP/3 over fresh TLS 1.3 required" 505 w
  else if negb (String.eqb (s_host r) "dns.plab.test") || negb (String.eqb (s_path r) "/dns-query")
          || negb (String.eqb (header_get (s_header r) "accept") mediaType)
          || negb (String.eqb (header_get (s_header r) "cache-control") "no-cache")
  then http_error "exact DoH3 authority/path/headers required" 400 w
  else
    match queryOf r with
    | inr (message, code) => http_error message code w
    | inl query =>
        match List.find (selects r query) order with
        | None => http_error "unknown deterministic DNS fixture" 400 w
        | Some selected =>
            let w := set_header "content-type" mediaType w in
            let w := set_header "cache-control" "no-store" w in
            (write_body (bytesOf (ResponseHex selected)) (write_header 200 w)).2
        end
    end.

End Server.

(** ** The executor's checks *)

Definition interopScenario : string := "dns.doh3.interoperability.query.a".
Definition protocolVariant (scenarioID : string) : string :=
  if String.eqb scenarioID interopScenario then "doh-h3-rfc8484-interoperability" else "doh-h3-quic-v1".
Definition tlsProfileID (scenarioID : string) : string :=
  if String.eqb scenarioID interopScenario then "plab-secure-dns-interoperability-v2" else "plab-secure-dns-tls13-v1".
Definition selectedCertificateProfile (scenarioID : string) : string :=
  if String.eqb scenarioID interopScenario
  then "plab-secure-dns-interoperability-leaf-v2" else "plab-secure-dns-single-leaf-p256-v1".

(** The proof of a session, less what it copies of the session. *)
Record tlsProof := TlsProof {
  TLSProfileID : string; CertificateProfile : string; TState : tlsState;
  CertificateDERSHA256 : string; CertificateSPKISHA256 : string; TConnectionLatency : float64
}.
Definition validateTLS (state : option tlsState) (latency : float64) (scenarioID : string) : res tlsProof :=
  match state with
  | None => Err (EMsg "missing TLS state")
  | Some state =>
      let '(der, spki) := leafDigests (ts_peer state) in
      guard (ts_version state =? VersionTLS13) && ts_complete state && negb (ts_resumed state)
            && String.eqb (ts_protocol state) "h3" && String.eqb (ts_cipher state) requiredCipher
            && negb (ts_chains state =? 0) && String.eqb der leafDERHash && String.eqb spki leafSPKIHash
        else EMsg "TLS 1.3 / h3 / certificate identity gate failed" in
      Ok (TlsProof (tlsProfileID scenarioID) (selectedCertificateProfile scenarioID) state der spki latency)
  end.

Record quicProof := QuicProof { QState : quicState; QConnectionReused : bool }.
Definition validateQUIC (conn : option quicState) (reused : bool) : res quicProof :=
  match conn with
  | None => Err (EMsg "missing QUIC connection")
  | Some s =>
      guard (qs_version s =? quicVersion1) && negb (qs_used0RTT s) && String.eqb (ts_protocol (qs_tls s)) "h3"
        else EMsg "exact QUIC v1 HTTP/3 binding gate failed" in
      Ok (QuicProof s reused)
  end.

(** The proof of an answer, less its constants. *)
Record dnsProof := DnsProof {
  DFixture : fixture; QueryLengthBytes : Z; QueryNormalizedSHA256 : string; ResponseRawLengthBytes : Z;
  ResponseCanonicalLengthBytes : Z; ResponseNormalizedSHA256 : string; ResponseCompressionDiffered : bool;
  DNSSECSignatureValidity : string
}.
Definition validateDNS `{DnsLib} (raw : bytes) (f : fixture) : res dnsProof :=
  guard semanticEqual raw f else EMalformed "DNS response semantic fixture mismatch" in
  let canonical := bytesOf (ResponseHex f) in
  let query := bytesOf (QueryHex f) in
  guard String.eqb (hashOf query) (QueryHash f) && String.eqb (hashOf canonical) (ResponseHash f)
    else EMsg "canonical DNS hash mismatch" in
  Ok (DnsProof f (len query) (hashOf query) (len raw) (len canonical) (hashOf canonical)
        (negb (bool_decide (raw = canonical)))
        (if String.eqb (ScenarioID f) "dns.doh3.query.large-dnssec-shaped" then "not-claimed" else "")).

(** ** Exchanges *)

(** The transport of a phase: the last connection it dialled, how many it has, and how long
    the last one took; the count is an [atomic.Int32]. *)
Record phaseClient := PhaseClient { connection : option quicState; dialCount : Z; connectionLatency : float64 }.
Definition newPhaseClient : phaseClient := PhaseClient None 0 f_zero.
Definition i32 (z : Z) : Z := (z + 2147483648) mod 4294967296 - 2147483648.
(** A dial that succeeded. *)
Definition dialed (p : phaseClient) (d : quicState * float64) : phaseClient :=
  PhaseClient (Some d.1) (i32 (dialCount p + 1)) d.2.

(** The proof of the HTTP exchange, less its constants. *)
Record httpProof := HttpProof {
  Version : string; HMethod : string; RequestTarget : string; RequestContentType : string; HStatusCode : Z;
  ResponseContentType : string; ResponseCacheControl : string; ConnectionReused : bool; FallbackDetected : bool
}.
Record exchangeProof := ExchangeProof {
  DNS : dnsProof; HTTP : httpProof; TLS : tlsProof; QUIC : quicProof; QueryLatencyMilliseconds : float64;
  TimeToFirstByteMilliseconds : float64; TransferredBytes : Z
}.
#[export] Instance exchange_sample : Sample exchangeProof :=
  { sampleLatency := QueryLatencyMilliseconds; sampleFirstByte := TimeToFirstByteMilliseconds;
    sampleBytes := TransferredBytes }.

(** What an exchange meets: the dials that succeed while the request is made, the response,
    and the times. *)
Record exchangeEnv := ExchangeEnv {
  x_dials : list (quicState * float64); x_do : dohRequest -> res dohResponse; x_firstByte : float64; x_latency : float64
}.

Section executor.
Context `{UrlLib} `{DnsLib}.

(** The request of an exchange. *)
Definition buildRequest (endpoint : string) (f : fixture) : res dohRequest :=
  let get := String.eqb (FMethod f) "GET" in
  let target := if get then endpoint +:+ "?dns=" +:+ getValue f else endpoint in
  let? request := newRequest (FMethod f) target (if get then [] else bytesOf (QueryHex f)) in
  let request := set_host serverName request in
  let request := set_request_header "accept" mediaType request in
  let request := set_request_header "cache-control" "no-cache" request in
  Ok (if String.eqb (FMethod f) "POST" then set_request_header "content-type" mediaType request else request).

Definition exchange (endpoint : string) (f : fixture) (expectReused : bool) (env : exchangeEnv) (p : phaseClient)
    : res exchangeProof * phaseClient :=
  match buildRequest endpoint f with
  | Err err => (Err err, p)
  | Ok request =>
      let before := dialCount p in
      let p := fold_left dialed (x_dials env) p in
      (let? response := x_do env request in
       let? raw := read_all_limited 65536 (r_body response) in
       let reused := 0 <? before in
       guard Bool.eqb reused expectReused
         else EMalformed ("HTTP/3 connection reuse mismatch expected=" +:+ format_bool expectReused
                          +:+ " observed=" +:+ format_bool reused) in
       let? tlsValue := validateTLS (r_tls response) (connectionLatency p) (ScenarioID f) in
       let? quicValue := validateQUIC (connection p) reused in
       let requestTarget := if String.eqb (FMethod f) "GET" then "/dns-query?dns=" +:+ getValue f else "/dns-query" in
       let httpValue := HttpProof (r_proto response) (FMethod f) requestTarget
                          (header_get (q_header request) "content-type") (r_status response)
                          (header_get (r_header response) "content-type")
                          (header_get (r_header response) "cache-control") reused (negb (r_protoMajor response =? 3)) in
       guard (r_protoMajor response =? 3) && String.eqb (r_proto response) "HTTP/3.0" && (r_status response =? 200)
             && String.eqb (ResponseContentType httpValue) mediaType
             && String.eqb (ResponseCacheControl httpValue) "no-store"
         else EMalformed "DoH3 protocol/status/header proof mismatch or fallback" in
       let? dnsValue := validateDNS raw f in
       Ok (ExchangeProof dnsValue httpValue tlsValue quicValue (x_latency env) (x_firstByte env)
             (len (bytesOf (QueryHex f)) + len raw)), p)
  end.

(** ** Phases *)

(** What a phase meets: the exchange that opens its connection and those of its turns. *)
Record phaseEnv := PhaseEnv { ph_first : exchangeEnv; ph_turns : list exchangeEnv; ph_seconds : float64 }.

Definition runPhase (endpoint : string) (f : fixture) (env : phaseEnv) (once : bool)
    : dohSummary exchangeProof * option goerror :=
  let '(opened, p) := exchange endpoint f false (ph_first env) newPhaseClient in
  let s := DohSummary (emptySummary (connectionLatency p)) [] in
  match opened with
  | Err err => (classified err s, Some err)
  | Ok first =>
      if once then (with_duration (fdiv (QueryLatencyMilliseconds first) (f_of_Z 1000)) (record first s), None)
      else match exchangeLoop (exchange endpoint f true) (ph_turns env) p s with
           | (s, Some err, _) => (s, Some err)
           | (s, None, _) => (with_duration (ph_seconds env) s, None)
           end
  end.

(** ** Selection and [main] *)

Definition knownUnsupported : list string :=
  ["dns.classic.tcp.query.a"; "dns.classic.udp-truncated-tcp-retry"; "dns.classic.udp.query.a";
   "dns.doh2.query.a"; "dns.doh2.interoperability.query.a"; "dns.doq.query.a"; "dns.doq.interoperability.query.a";
   "dns.dot.query.a"; "dns.dot.interoperability.query.a"].

(** [checkIdentityOrExit]: the fixture of the scenario, or the exit code. *)
Definition checkIdentityOrExit (getenv : string -> string) : fixture + Z :=
  let id := env_value getenv "PLAB_SCENARIO_ID" in
  if negb (forallb (fun '(n, v) => String.eqb (env_value getenv n) v)
       [("PLAB_EXECUTOR_ID", "go-dns-doh3-executor"); ("PLAB_EXECUTOR_VERSION", "0.2.2");
        ("PLAB_LOAD_GENERATOR_ID", "go-dns-doh3-load"); ("PLAB_LOAD_GENERATOR_VERSION", "0.2.2");
        ("PLAB_PROTOCOL", "doh3"); ("PLAB_PROTOCOL_VARIANT", protocolVariant id)])
  then inr 2
  else match lookup_fixture id with
       | Some f => inl f
       | None => if string_in knownUnsupported id then inr 3 else inr 2
       end.

Definition loadConfig (getenv : string -> string) : option goerror :=
  if negb (String.eqb (env_value getenv "PLAB_LOAD_PROFILE_ID") "secure-dns-smoke")
  then Some (EMsg ("supports load profile " +:+ go_quote "secure-dns-smoke" +:+ " only"))
  else if forallb (fun '(n, v) => envInt getenv n =? v)
            [("PLAB_CONNECTIONS", 1); ("PLAB_CONCURRENCY", 1); ("PLAB_DURATION_SECONDS", 5);
             ("PLAB_WARMUP_SECONDS", 1); ("PLAB_REPETITION", 1)]
  then None else Some (EMsg "secure-dns-smoke mismatch").

Definition normalizeTarget (value : string) : res string :=
  let? u := parse (trim_space value) in
  endpointOf "DoH3 target must be https without query or fragment" "DoH3 target path must be /dns-query" u.

(** The protocol a summary has observed. *)
Definition observedProtocol (s : dohSummary exchangeProof) : string :=
  match LastProof (base s) with
  | Some p => if String.eqb (Version (HTTP p)) "HTTP/3.0" && String.eqb (ts_protocol (TState (TLS p))) "h3"
                 && String.eqb (qs_versionName (QState (QUIC p))) "v1"
              then "doh3" else ""
  | None => ""
  end.

(** What [main] meets; the artifacts are written. *)
Record mainEnv := MainEnv {
  m_getenv : string -> string; m_target : string; m_roots : res unit;
  m_validationOnly : bool; m_showVersion : bool; m_mkdir : option goerror;
  m_preflight : phaseEnv; m_warmup : phaseEnv; m_measured : phaseEnv
}.

(** The exit code, and the result printed. *)
Definition main (env : mainEnv) : Z * option (result exchangeProof) :=
  let getenv := m_getenv env in
  if m_showVersion env then (0, None) else
  if bool_decide (m_mkdir env <> None) then (1, None) else
  match checkIdentityOrExit getenv with
  | inr code => (code, None)
  | inl f =>
      match normalizeTarget (m_target env), m_roots env with
      | Err _, _ | Ok _, Err _ => (2, None)
      | Ok endpoint, Ok _ =>
          let '(_, err) := runPhase endpoint f (m_preflight env) true in
          if bool_decide (err <> None) then (1, None)
          else if m_validationOnly env then (0, None)
          else if bool_decide (loadConfig getenv <> None) then (2, None)
          else if rejected (runPhase endpoint f (m_warmup env) false) then (1, None)
          else
            let measured := runPhase endpoint f (m_measured env) false in
            if rejected measured then (1, None)
            else (0, Some (normalizeResult (ScenarioID f) (protocolVariant (ScenarioID f)) measured.1))
      end
  end.
End executor.
