(* ===== verification/DnsDoh3Props.v ===== *)
(** DNS over HTTPS on HTTP/3: the server whatever the order of its fixtures, sessions
    between the executor and the server, what the executor does not notice, and what a
    successful run has earned. *)
From stdpp Require Import sorting.
From S2P Require Export Prelude Stats GoText GoHash GoHttp Certificates DnsWire DnsDoh DnsDoh3.

(** ** Fixtures *)

#[export] Instance fixture_eq_dec : EqDecision fixture.
Proof. solve_decision. Defined.

Definition fixture_ok (f : fixture) : bool :=
  String.eqb (hashOf (bytesOf (QueryHex f))) (QueryHash f)
  && String.eqb (hashOf (bytesOf (ResponseHex f))) (ResponseHash f)
  && (len (bytesOf (QueryHex f)) <? 1024) && (0 <? len (bytesOf (QueryHex f))) && (len (bytesOf (ResponseHex f)) <? 65536)
  && (String.eqb (FMethod f) "POST"
      || String.eqb (FMethod f) "GET" && String.eqb (ScenarioID f) "dns.doh3.get.a")
  && bool_decide (lookup_fixture (ScenarioID f) = Some f).

Lemma fixtures_ok f : f ∈ fixtures -> fixture_ok f = true.
Proof.
  intros H. apply list_elem_of_In in H. revert f H. apply forallb_forall. vm_compute. reflexivity.
Qed.

(** Two fixtures with the same method and query have the same answer. *)
Lemma fixtures_unambiguous f g :
  f ∈ fixtures -> g ∈ fixtures -> FMethod f = FMethod g -> bytesOf (QueryHex f) = bytesOf (QueryHex g) ->
  bytesOf (ResponseHex f) = bytesOf (ResponseHex g).
Proof.
  intros Hf Hg Hm Hq.
  assert (A : forallb (fun f => forallb (fun g =>
    negb (String.eqb (FMethod f) (FMethod g)) || negb (bool_decide (bytesOf (QueryHex f) = bytesOf (QueryHex g)))
    || bool_decide (bytesOf (ResponseHex f) = bytesOf (ResponseHex g))) fixtures) fixtures = true) by (vm_compute; reflexivity).
  apply list_elem_of_In in Hf, Hg. rewrite forallb_forall in A. specialize (A f Hf). rewrite forallb_forall in A.
  specialize (A g Hg). rewrite Hm, Hq, String.eqb_refl, bool_decide_true in A by reflexivity. cbn [negb orb] in A.
  by apply bool_decide_eq_true in A.
Qed.

(** ** The server *)

Lemma selects_spec r query f :
  Server.selects r query f = true <->
  FMethod f = s_method r /\ hashOf query = QueryHash f /\ query = bytesOf (QueryHex f).
Proof.
  unfold Server.selects. rewrite !andb_true_iff, !String.eqb_eq, bool_decide_eq_true. tauto.
Qed.

(** What the DoH3 server answers does not depend on the order in which Go ranges over
    its map of fixtures, although two of them have the same method, query and digest: for
    every request and every order the response is the same. *)
Theorem doh3_order_irrelevant order r w :
  order ≡ₚ fixtures -> Server.handle order r w = Server.handle fixtures r w.
Proof.
  intros Hp. unfold Server.handle. destruct (_ || _); [reflexivity|]. destruct (_ || _); [reflexivity|].
  destruct (Server.queryOf r) as [query|[? ?]]; [|reflexivity].
  destruct (List.find _ order) as [f|] eqn:E1, (List.find _ fixtures) as [g|] eqn:E2.
  - apply find_some in E1 as [F1 S1], E2 as [F2 S2]. apply list_elem_of_In in F1, F2. rewrite Hp in F1.
    apply selects_spec in S1 as (M1 & _ & Q1), S2 as (M2 & _ & Q2).
    rewrite (fixtures_unambiguous f g F1 F2); [reflexivity|congruence|congruence].
  - apply find_some in E1 as [F1 S1]. apply list_elem_of_In in F1. rewrite Hp in F1. apply list_elem_of_In in F1.
    rewrite (find_none _ _ E2 f F1) in S1. discriminate S1.
  - apply find_some in E2 as [F2 S2]. apply list_elem_of_In in F2. rewrite <-Hp in F2. apply list_elem_of_In in F2.
    rewrite (find_none _ _ E1 g F2) in S2. discriminate S2.
  - reflexivity.
Qed.

Lemma doh3_order_irrelevant_witness :
  reverse fixtures ≡ₚ fixtures /\
  forall r w, Server.handle (reverse fixtures) r w = Server.handle fixtures r w.
Proof.
  assert (H : reverse fixtures ≡ₚ fixtures) by apply reverse_Permutation. split; [exact H|].
  intros r w. apply (doh3_order_irrelevant (reverse fixtures) r w H).
Defined.

(** A request for a fixture, over the session the server requires. *)
Record asks (f : fixture) (s : served) : Prop := {
  as_version : s_protoMajor s = 3 /\ s_proto s = "HTTP/3.0";
  as_tls : exists tls, s_tls s = Some tls /\ ts_version tls = VersionTLS13 /\ ts_protocol tls = "h3" /\ ts_resumed tls = false;
  as_target : s_method s = FMethod f /\ s_path s = "/dns-query" /\ s_host s = "dns.plab.test";
  as_headers : header_get (s_header s) "accept" = mediaType /\ header_get (s_header s) "cache-control" = "no-cache" /\
    header_get (s_header s) "content-type" = (if String.eqb (FMethod f) "GET" then "" else mediaType);
  as_query : if String.eqb (FMethod f) "GET"
             then s_rawQuery s = "dns=" +:+ getValue f /\ s_params s = 1 /\ s_contentLength s = 0
             else s_rawQuery s = "" /\ s_body s = Stream (bytesOf (QueryHex f)) EEOF
}.

Lemma queryOf_asks f s : f ∈ fixtures -> asks f s -> Server.queryOf s = inl (bytesOf (QueryHex f)).
Proof.
  intros Hf [_ _ (M & _) (_ & _ & H3) Hq]. pose proof (fixtures_ok f Hf) as Ok1. unfold fixture_ok in Ok1.
  rewrite !andb_true_iff, !Z.ltb_lt, !String.eqb_eq in Ok1. destruct Ok1 as [[[[[[_ _] L1] _] _] Hm] Hl].
  unfold Server.queryOf. rewrite M.
  destruct (String.eqb (FMethod f) "GET") eqn:Eg.
  - destruct Hq as (Q1 & Q2 & Q3). apply String.eqb_eq in Eg. rewrite Eg in Hm. cbn in Hm. apply String.eqb_eq in Hm.
    apply bool_decide_eq_true in Hl. rewrite Hm in Hl. rewrite Hl. cbn [default from_option].
    rewrite H3, Q1, Q2, Q3, !String.eqb_refl. reflexivity.
  - destruct Hq as (Q1 & Q2). apply orb_true_iff in Hm as [Hm|Hm]; [|discriminate Hm].
    rewrite Hm, Q1, H3, Q2, !String.eqb_refl. cbn [negb orb]. unfold read_all_limited. cbn [st_data st_end].
    rewrite (proj2 (Z.leb_gt _ _)) by lia. reflexivity.
Qed.

(** The server answers it, whatever the order of its fixtures. *)
Lemma doh3_handles order f s :
  order ≡ₚ fixtures -> f ∈ fixtures -> asks f s ->
  let w := Server.handle order s (writer_new []) in
  exists sent, w_status w = Some (200, sent) /\ w_body w = bytesOf (ResponseHex f) /\
    header_get sent "content-type" = mediaType /\ header_get sent "cache-control" = "no-store".
Proof.
  intros Hp Hf Ha. pose proof (queryOf_asks f s Hf Ha) as Hq. pose proof (fixtures_ok f Hf) as Ok1.
  destruct Ha as [[V1 V2] (tls & T1 & T2 & T3 & T4) (M1 & M2 & M3) (H1 & H2 & _) _].
  unfold Server.handle. rewrite V1, V2, T1, T2, T3, T4, M2, M3, H1, H2, Hq, Z.eqb_refl, !String.eqb_refl. cbn [negb orb].
  assert (Hsel : Server.selects s (bytesOf (QueryHex f)) f = true).
  { unfold fixture_ok in Ok1. rewrite !andb_true_iff, !String.eqb_eq in Ok1. destruct Ok1 as [[[[[[K _] _] _] _] _] _].
    apply selects_spec. split; [by symmetry|]. split; [exact K|reflexivity]. }
  destruct (List.find _ order) as [g|] eqn:E.
  - apply find_some in E as [F1 S1]. apply list_elem_of_In in F1. rewrite Hp in F1.
    apply selects_spec in S1 as (G1 & _ & G2). rewrite (fixtures_unambiguous g f F1 Hf); [|congruence|congruence].
    eexists. split; [reflexivity|]. split; [reflexivity|]. split; reflexivity.
  - assert (Hin : In f order) by (apply list_elem_of_In; by rewrite Hp). rewrite (find_none _ _ E f Hin) in Hsel.
    discriminate Hsel.
Qed.

(** ** Sessions *)

Section session.
Context `{UrlLib} `{DnsLib}.

(** A turn the server of this repository answers, over the connection the executor sees:
    [dials] are made for it. *)
Definition served_turn (order : list fixture) (endpoint : string) (f : fixture) (dials : list (quicState * float64))
    (env : exchangeEnv) : Prop :=
  x_dials env = dials /\
  forall request, buildRequest endpoint f = Ok request ->
  exists s tls response, carried request s /\ s_protoMajor s = 3 /\ s_proto s = "HTTP/3.0" /\ s_tls s = Some tls /\
    ts_version tls = VersionTLS13 /\ ts_protocol tls = "h3" /\ ts_resumed tls = false /\
    (u_query (q_url request) = "" \/ s_params s = 1) /\
    x_do env request = Ok response /\ answered (Server.handle order s (writer_new [])) response /\
    r_protoMajor response = 3 /\ r_proto response = "HTTP/3.0" /\
    forall latency, is_ok (validateTLS (r_tls response) latency (ScenarioID f)) = true.

(** The endpoint is read as a URL of the DoH path, with and without the query of a GET. *)
Definition endpoint_read (endpoint : string) (f : fixture) : Prop :=
  exists u, parse endpoint = Ok u /\ u_path u = "/dns-query" /\ u_query u = "" /\
    parse (endpoint +:+ "?dns=" +:+ getValue f) = Ok (with_query ("dns=" +:+ getValue f) u).

Lemma buildRequest_asks endpoint f :
  f ∈ fixtures -> endpoint_read endpoint f ->
  exists request, buildRequest endpoint f = Ok request /\
  forall s tls, carried request s -> s_protoMajor s = 3 -> s_proto s = "HTTP/3.0" -> s_tls s = Some tls ->
    ts_version tls = VersionTLS13 -> ts_protocol tls = "h3" -> ts_resumed tls = false ->
    (u_query (q_url request) = "" \/ s_params s = 1) -> asks f s.
Proof.
  intros Hf (u & P1 & P2 & P3 & P4). pose proof (fixtures_ok f Hf) as Ok1. unfold fixture_ok in Ok1.
  apply andb_true_iff in Ok1 as [Ok1 _]. apply andb_true_iff in Ok1 as [_ Hm].
  unfold buildRequest, newRequest. destruct (String.eqb (FMethod f) "GET") eqn:Eg.
  - apply String.eqb_eq in Eg. rewrite P4, Eg. cbn [res_bind].
    eexists. split; [reflexivity|]. intros s tls C V1 V2 T1 T2 T3 T4 Hq.
    destruct C as [C1 C2 C3 C4 C5 C6 C7]. cbn [q_method q_host q_url q_body set_host set_request_header] in *.
    split; [by split|by exists tls| | |].
    + rewrite C1, C2, C3, Eg. split; [reflexivity|]. split; [exact P2|reflexivity].
    + rewrite (C5 "accept"), (C5 "cache-control"), (C5 "content-type"), Eg by in_list. repeat split.
    + rewrite Eg, C4, C6. cbn [String.eqb Ascii.eqb Bool.eqb]. split; [reflexivity|]. split; [|reflexivity].
      destruct Hq as [Hq|Hq]; [discriminate Hq|exact Hq].
  - apply orb_true_iff in Hm as [Hm|Hm]; [|discriminate Hm]. rewrite P1, Hm. apply String.eqb_eq in Hm. cbn [res_bind].
    eexists. split; [reflexivity|]. intros s tls C V1 V2 T1 T2 T3 T4 Hq.
    destruct C as [C1 C2 C3 C4 C5 C6 C7]. cbn [q_method q_host q_url q_body set_host set_request_header] in *.
    split; [by split|by exists tls| | |].
    + rewrite C1, C2, C3. split; [reflexivity|]. split; [exact P2|reflexivity].
    + rewrite (C5 "accept"), (C5 "cache-control"), (C5 "content-type"), Eg by in_list. repeat split.
    + rewrite Eg, C4, C7. split; [exact P3|reflexivity].
Qed.

(** The canonical answer is accepted as soon as the library can read it. *)
Lemma validateDNS_canonical f :
  f ∈ fixtures -> is_ok (unpack (bytesOf (ResponseHex f))) = true ->
  is_ok (validateDNS (bytesOf (ResponseHex f)) f) = true.
Proof.
  intros Hf Hu. pose proof (fixtures_ok f Hf) as Ok1. unfold fixture_ok in Ok1. rewrite !andb_true_iff in Ok1.
  destruct Ok1 as [[[[[[K1 K2] _] _] _] _] _]. unfold validateDNS, semanticEqual.
  destruct (unpack _) as [m|]; [|discriminate Hu]. rewrite bool_decide_true by reflexivity. by rewrite K1, K2.
Qed.

Lemma doh3_turn_completes order endpoint f dials env p :
  order ≡ₚ fixtures -> f ∈ fixtures -> endpoint_read endpoint f ->
  is_ok (unpack (bytesOf (ResponseHex f))) = true -> served_turn order endpoint f dials env ->
  let p' := fold_left dialed dials p in
  let reused := 0 <? dialCount p in
  is_ok (validateQUIC (connection p') reused) = true ->
  exists proof, exchange endpoint f reused env p = (Ok proof, p') /\
    QueryLatencyMilliseconds proof = x_latency env /\ TimeToFirstByteMilliseconds proof = x_firstByte env /\
    TransferredBytes proof = len (bytesOf (QueryHex f)) + len (bytesOf (ResponseHex f)).
Proof.
  intros Hp Hf He Hu (Hd & Hturn) p' reused Hq.
  destruct (buildRequest_asks endpoint f Hf He) as (request & Hb & Hasks).
  destruct (Hturn request Hb) as (s & tls & response & C & V1 & V2 & T1 & T2 & T3 & T4 & N & Hdo &
                                  [(sent & A1 & A2) A3] & R1 & R2 & Htls).
  destruct (doh3_handles order f s Hp Hf (Hasks s tls C V1 V2 T1 T2 T3 T4 N)) as (sent' & W1 & W2 & W3 & W4).
  rewrite W1 in A1. injection A1 as A0 <-. rewrite W2 in A3.
  pose proof (validateDNS_canonical f Hf Hu) as Hv. specialize (Htls (connectionLatency p')).
  pose proof (fixtures_ok f Hf) as Ok1. unfold fixture_ok in Ok1. rewrite !andb_true_iff, !Z.ltb_lt in Ok1.
  destruct Ok1 as [[[_ L] _] _].
  unfold exchange. rewrite Hb, Hd, Hdo. fold p'. fold reused. cbn [res_bind]. cbv zeta.
  unfold read_all_limited. rewrite A3. cbn [st_data st_end]. rewrite (proj2 (Z.leb_gt _ _)) by exact L.
  cbn [res_bind]. rewrite eqb_reflx.
  destruct (validateTLS _ _ _) as [tlsValue|]; [|discriminate Htls]. cbn [res_bind].
  destruct (validateQUIC _ _) as [quicValue|]; [|discriminate Hq]. cbn [res_bind].
  cbn [ResponseContentType ResponseCacheControl].
  rewrite (A2 "content-type"), W3, (A2 "cache-control"), W4, R1, R2, <-A0, !String.eqb_refl, !Z.eqb_refl by in_list.
  cbn [andb].
  destruct (validateDNS _ _) as [dnsValue|]; [|discriminate Hv]. cbn [res_bind].
  eexists. split; [reflexivity|]. split; [reflexivity|]. split; reflexivity.
Qed.

(** C17: the DoH3 executor and the DoH3 server of this repository agree on every fixture:
    the POSTs and the GET, answers with aliases, a large answer and negative ones. When
    HTTP/3 carries requests and responses over the connection the first exchange dials,
    and the DNS library can read the canonical answer, a phase completes every turn with
    no failure, no retry and nothing malformed, counting the octets of the query and of
    the answer each time, whatever order the server meets its fixtures in. *)
Theorem doh3_session_completes order endpoint f q latency first turns seconds :
  order ≡ₚ fixtures -> f ∈ fixtures -> endpoint_read endpoint f ->
  is_ok (unpack (bytesOf (ResponseHex f))) = true -> (forall reused, is_ok (validateQUIC (Some q) reused) = true) ->
  served_turn order endpoint f [(q, latency)] first -> Forall (served_turn order endpoint f []) turns ->
  exists s, runPhase endpoint f (PhaseEnv first turns seconds) false = (s, None) /\
    CompletedOperations (base s) = len turns /\ MalformedOperations (base s) = 0 /\
    FailedOperations (base s) = 0 /\ TimedOutOperations (base s) = 0 /\ RetryCount (base s) = 0 /\
    TotalTransferredBytes (base s) = len turns * (len (bytesOf (QueryHex f)) + len (bytesOf (ResponseHex f))) /\
    Latencies (base s) = x_latency <$> turns /\ FirstBytes s = x_firstByte <$> turns /\
    ConnectionLatency (base s) = latency.
Proof.
  intros Hp Hf He Hu Hq Hfirst Hturns.
  destruct (doh3_turn_completes order endpoint f _ first newPhaseClient Hp Hf He Hu Hfirst (Hq _)) as (p & E1 & _).
  change (0 <? dialCount newPhaseClient) with false in E1. cbn [fold_left] in E1.
  set (c := dialed newPhaseClient (q, latency)) in *.
  destruct (dohLoop_completes (exchange endpoint f true) (fun p => p = c) (served_turn order endpoint f [])
              x_latency x_firstByte (len (bytesOf (QueryHex f)) + len (bytesOf (ResponseHex f))))
    with (turns := turns) (c := c) (s := DohSummary (emptySummary (P := exchangeProof) latency) [])
    as (s & c' & Hl & _ & [C1 C2 C3 C4 C5 C6 C7] & Hb); [|reflexivity|exact Hturns|].
  { intros env c0 -> Ht. destruct (doh3_turn_completes order endpoint f [] env c Hp Hf He Hu Ht (Hq _)) as (proof & X & Y).
    exists proof, c. split; [exact X|]. split; [reflexivity|exact Y]. }
  exists (with_duration seconds s). unfold runPhase. cbn [ph_first ph_turns ph_seconds].
  rewrite E1. change (connectionLatency c) with latency. rewrite Hl. apply dohLoop_latency in Hl as Hcl.
  clear Hfirst Hturns Hl E1 He Hu. destruct s as [[] ?]. simpl in *.
  split; [reflexivity|]. split_and!; assumption || lia.
Qed.

(** ** What is not noticed *)

Definition with_dials (dials : list (quicState * float64)) (env : exchangeEnv) : exchangeEnv :=
  ExchangeEnv dials (x_do env) (x_firstByte env) (x_latency env).

(** The DoH3 executor does not notice a reconnection. It calls a connection reused
    when one had been dialled before the request was made; so a turn that succeeds on the
    phase's connection also succeeds when the transport dials others for it, as long as the
    last of them is an HTTP/3 connection of QUIC v1: its proof says that the connection was
    reused, and the answer, the status and the octets are the same. *)
Theorem doh3_reconnection_unnoticed endpoint f env p proof p' dials q latency :
  x_dials env = [] -> exchange endpoint f true env p = (Ok proof, p') ->
  is_ok (validateQUIC (Some q) true) = true ->
  exists proof', exchange endpoint f true (with_dials (dials ++ [(q, latency)]) env) p
      = (Ok proof', fold_left dialed (dials ++ [(q, latency)]) p) /\
    ConnectionReused (HTTP proof') = true /\ QConnectionReused (QUIC proof') = true /\ QState (QUIC proof') = q /\
    DNS proof' = DNS proof /\ HTTP proof' = HTTP proof /\ TransferredBytes proof' = TransferredBytes proof.
Proof.
  intros Hd E Hq. assert (Hq' : validateQUIC (Some q) true = Ok (QuicProof q true)).
  { unfold validateQUIC in Hq |- *. destruct (_ && _); [reflexivity|discriminate Hq]. }
  unfold exchange in *. destruct (buildRequest endpoint f) as [request|]; [|discriminate E].
  cbn [x_dials x_do x_firstByte x_latency with_dials]. rewrite Hd in E. cbn [fold_left] in E. cbv zeta in E |- *.
  injection E as G _. apply res_bind_ok in G as (response & -> & G). apply res_bind_ok in G as (raw & Hr & G).
  cbn [res_bind]. rewrite Hr. cbn [res_bind]. pass_guard_as G G1. apply eqb_prop in G1. rewrite G1 in G |- *.
  apply res_bind_ok in G as (tls & Ht & G). apply res_bind_ok in G as (quic & _ & G). pass_guard_as G G2.
  apply res_bind_ok in G as (dns & Hv & G). injection G as <-.
  rewrite fold_left_app. cbn [fold_left dialed connection connectionLatency fst snd Bool.eqb].
  unfold validateTLS in Ht |- *. destruct (r_tls response) as [state|]; [|discriminate Ht].
  destruct (leafDigests (ts_peer state)) as [der spki]. pass_guard_as Ht G3. cbn [res_bind].
  rewrite Hq'. cbn [res_bind ResponseContentType ResponseCacheControl]. rewrite G2, Hv. cbn [res_bind].
  eexists. split; [reflexivity|]. cbn [HTTP QUIC DNS ConnectionReused QConnectionReused QState TransferredBytes].
  repeat split.
Qed.
End session.

(** ** Concrete runs *)

#[local] Existing Instance simple_urls.

(** A library whose messages are their octets. *)
Definition octet_messages : DnsLib :=
  {| Msg := bytes; unpack := @Ok bytes; msgId := messageID; msgQuestions _ := []; msgRcode _ := 0;
     typeToString _ := ""; rcodeToString _ := "" |}.
#[local] Existing Instance octet_messages.

Definition doh3_state : tlsState :=
  TlsState VersionTLS13 requiredCipher "h3" true false 1 [(dns_leaf_der, dns_leaf_spki)].
Definition doh3_quic : quicState := QuicState quicVersion1 "v1" false false doh3_state.
Definition doh3_turn (dials : list (quicState * float64)) (latency : float64) : exchangeEnv :=
  ExchangeEnv dials (fun r => Ok (wire doh3_state 3 "HTTP/3.0" (Server.handle fixtures) r)) f_zero latency.
Definition doh3_get : fixture := default (Fixture "" "" "" "" "" "" "" "" "" "" "") (lookup_fixture "dns.doh3.get.a").
Definition doh3_endpoint : string := "https://127.0.0.1:18541/dns-query".

Lemma doh3_get_fixture : doh3_get ∈ fixtures.
Proof. apply list_elem_of_In. vm_compute. tauto. Qed.

Lemma doh3_turn_served dials latency : served_turn fixtures doh3_endpoint doh3_get dials (doh3_turn dials latency).
Proof.
  split; [reflexivity|]. intros request Hr.
  exists (arrives doh3_state 3 "HTTP/3.0" request), doh3_state, (wire doh3_state 3 "HTTP/3.0" (Server.handle fixtures) request).
  split; [apply arrives_carried|]. do 6 (split; [reflexivity|]).
  vm_compute in Hr. injection Hr as <-. split; [right; vm_compute; reflexivity|]. split; [reflexivity|].
  split; [|split; [reflexivity|]; split; [reflexivity|]; intros l; vm_compute; reflexivity].
  apply wire_answered. vm_compute. eexists. reflexivity.
Qed.

Lemma doh3_endpoint_read : endpoint_read doh3_endpoint doh3_get.
Proof. eexists. split; [vm_compute; reflexivity|]. split; [reflexivity|]. split; [reflexivity|vm_compute; reflexivity]. Qed.

Lemma doh3_session_completes_witness :
  doh3_get ∈ fixtures /\
  exists s, runPhase doh3_endpoint doh3_get
      (PhaseEnv (doh3_turn [(doh3_quic, f_of_Z 9)] (f_of_Z 3)) [doh3_turn [] (f_of_Z 1); doh3_turn [] (f_of_Z 2)]
         (f_of_Z 5)) false = (s, None) /\
    CompletedOperations (base s) = 2 /\ TotalTransferredBytes (base s) = 140.
Proof.
  split; [exact doh3_get_fixture|].
  destruct (doh3_session_completes fixtures doh3_endpoint doh3_get doh3_quic (f_of_Z 9)
              (doh3_turn [(doh3_quic, f_of_Z 9)] (f_of_Z 3)) [doh3_turn [] (f_of_Z 1); doh3_turn [] (f_of_Z 2)] (f_of_Z 5))
    as (s & Hr & H1 & _ & _ & _ & _ & H2 & _).
  - reflexivity.
  - exact doh3_get_fixture.
  - exact doh3_endpoint_read.
  - reflexivity.
  - intros []; reflexivity.
  - apply doh3_turn_served.
  - repeat (constructor; [apply doh3_turn_served|]). constructor.
  - exists s. split; [exact Hr|]. split; [exact H1|exact H2].
Defined.

(** Another connection of the same kind, and the client of a phase that is on its way. *)
Definition doh3_other : quicState := QuicState quicVersion1 "v1" false true doh3_state.
Definition doh3_client : phaseClient := dialed newPhaseClient (doh3_quic, f_of_Z 9).

Lemma doh3_reconnection_unnoticed_witness :
  exists p, exchange doh3_endpoint doh3_get true (with_dials [(doh3_other, f_of_Z 7)] (doh3_turn [] (f_of_Z 1))) doh3_client
      = (Ok p, dialed doh3_client (doh3_other, f_of_Z 7)) /\
    ConnectionReused (HTTP p) = true /\ QState (QUIC p) = doh3_other /\ dialCount (dialed doh3_client (doh3_other, f_of_Z 7)) = 2.
Proof.
  destruct (exchange doh3_endpoint doh3_get true (doh3_turn [] (f_of_Z 1)) doh3_client) as [[proof|] p'] eqn:E;
    [|vm_compute in E; discriminate E].
  destruct (doh3_reconnection_unnoticed doh3_endpoint doh3_get (doh3_turn [] (f_of_Z 1)) doh3_client proof p' []
              doh3_other (f_of_Z 7) eq_refl E eq_refl) as (q & H1 & H2 & _ & H3 & _).
  exists q. split; [exact H1|]. split; [exact H2|]. split; [exact H3|reflexivity].
Defined.

(** ** What a result has earned *)

(** The proof of an exchange: HTTP/3 with status 200, the media type and no-store, over an
    authenticated session and QUIC v1, with an answer that is the fixture's message. *)
Definition doh3_genuine `{DnsLib} (f : fixture) (p : exchangeProof) : Prop :=
  Version (HTTP p) = "HTTP/3.0" /\ HStatusCode (HTTP p) = 200 /\ ResponseContentType (HTTP p) = mediaType /\
  ResponseCacheControl (HTTP p) = "no-store" /\ HMethod (HTTP p) = FMethod f /\
  validateTLS (Some (TState (TLS p))) (TConnectionLatency (TLS p)) (ScenarioID f) = Ok (TLS p) /\
  (exists reused, validateQUIC (Some (QState (QUIC p))) reused = Ok (QUIC p)) /\
  exists raw, semanticEqual raw f = true /\ DFixture (DNS p) = f /\ ResponseRawLengthBytes (DNS p) = len raw.

Section earned.
Context `{UrlLib} `{DnsLib}.

Lemma exchange_doh3_ok endpoint f reused env p proof p' :
  exchange endpoint f reused env p = (Ok proof, p') -> doh3_genuine f proof.
Proof.
  unfold exchange, doh3_genuine. destruct (buildRequest endpoint f) as [request|]; [|discriminate]. cbv zeta.
  intros [= G _]. apply res_bind_ok in G as (response & _ & G). apply res_bind_ok in G as (raw & _ & G).
  pass_guard_as G G1. apply res_bind_ok in G as (tls & Ht & G). apply res_bind_ok in G as (quic & Hq & G).
  pass_guard_as G G2. apply res_bind_ok in G as (dns & Hv & G). injection G as <-.
  cbn [HTTP DNS TLS QUIC Version HStatusCode ResponseContentType ResponseCacheControl HMethod] in *.
  rewrite !andb_true_iff, !String.eqb_eq, !Z.eqb_eq in G2. destruct G2 as [[[[_ G2] G3] G4] G5].
  split; [exact G2|]. split; [exact G3|]. split; [exact G4|]. split; [exact G5|]. split; [reflexivity|].
  split; [|split].
  - unfold validateTLS in Ht |- *. destruct (r_tls response) as [state|]; [|discriminate Ht].
    destruct (leafDigests (ts_peer state)) as [der spki] eqn:El. pass_guard_as Ht G6. injection Ht as <-.
    cbn [TState TConnectionLatency]. by rewrite El, G6.
  - unfold validateQUIC in Hq |- *. destruct (connection _) as [q|]; [|discriminate Hq]. pass_guard_as Hq G7.
    injection Hq as <-. eexists. cbn [QState]. rewrite G7. reflexivity.
  - exists raw. unfold validateDNS in Hv. pass_guard_as Hv G8. pass_guard_as Hv G9. injection Hv as <-.
    split; [first [exact G8|reflexivity]|]. split; reflexivity.
Qed.

Lemma runPhase_doh3_ok endpoint f env s :
  runPhase endpoint f env false = (s, None) ->
  CompletedOperations (base s) = len (ph_turns env) /\
  (ph_turns env <> [] -> exists p, LastProof (base s) = Some p /\ doh3_genuine f p).
Proof.
  unfold runPhase. destruct (exchange endpoint f false (ph_first env) newPhaseClient) as [[first|] p]; [|done].
  cbv zeta. cbn match. destruct (exchangeLoop _ _ _ _) as [[s1 [err|]] p'] eqn:El; [done|]. intros [= <-].
  apply (dohLoop_ok _ (fun _ => True) (fun _ => True) (doh3_genuine f)) in El as (H1 & _ & _ & _ & H3); [| |exact I].
  - destruct s1 as [[] ?]. simpl in *. split; [lia|exact H3].
  - intros e c q c' _ Hx. apply exchange_doh3_ok in Hx. done.
Qed.

(** A result of the DoH3 executor is earned. If it prints a result and exits 0, its
    scenario is one of the fixtures and the environment named exactly this package, its
    variant of the protocol and the profile; the count it reports is that of the turns of
    the measured phase, at least one, with nothing retried, malformed, failed or timed
    out; and its proof is of an HTTP/3 exchange with status 200, the media type and
    no-store over an authenticated TLS 1.3 session and QUIC v1, whose answer the DNS
    library reads as the fixture's message. *)
Theorem doh3_exit_zero_is_earned env r :
  main env = (0, Some r) ->
  let getenv := m_getenv env in
  RScenarioID r = env_value getenv "PLAB_SCENARIO_ID" /\ loadConfig getenv = None /\
  env_value getenv "PLAB_EXECUTOR_ID" = "go-dns-doh3-executor" /\
  env_value getenv "PLAB_PROTOCOL_VARIANT" = protocolVariant (RScenarioID r) /\
  MCompleted (RMetrics r) = len (ph_turns (m_measured env)) /\ 0 < MCompleted (RMetrics r) /\
  MMalformed (RMetrics r) = 0 /\ MFailed (RMetrics r) = 0 /\ MTimedOut (RMetrics r) = 0 /\ MRetry (RMetrics r) = 0 /\
  exists f p, f ∈ fixtures /\ ScenarioID f = RScenarioID r /\ RProof r = Some p /\ doh3_genuine f p.
Proof.
  unfold main. destruct (m_showVersion env); [done|]. destruct (bool_decide (m_mkdir env <> None)); [done|].
  destruct (checkIdentityOrExit _) as [f|] eqn:Ei; [|by intros [= _ ?]].
  destruct (normalizeTarget _) as [endpoint|]; [|done]. destruct (m_roots env); [|done].
  destruct (runPhase _ _ (m_preflight env) true) as [spf epf].
  destruct (bool_decide (epf <> None)); [done|]. destruct (m_validationOnly env); [done|].
  destruct (bool_decide (loadConfig _ <> None)) eqn:Ec; [done|].
  destruct (rejected (runPhase _ _ (m_warmup env) false)); [done|].
  destruct (runPhase _ _ (m_measured env) false) as [s [err|]] eqn:Em; [done|].
  destruct (rejected (s, None)) eqn:Hr; [done|]. intros [= <-].
  unfold rejected, hasFailures in Hr. cbn [fst snd] in Hr. reflect_bools.
  apply runPhase_doh3_ok in Em as (Hn & Hp). apply dec_stable in Ec. cbv zeta.
  unfold checkIdentityOrExit in Ei. destruct (forallb _ _) eqn:Hid; [|discriminate Ei]. cbn [negb forallb] in Ei, Hid.
  rewrite !andb_true_iff, !String.eqb_eq in Hid. destruct Hid as (I1 & _ & _ & _ & _ & I2 & _).
  destruct (lookup_fixture _) as [f'|] eqn:Hl; [|by destruct (string_in knownUnsupported _)]. injection Ei as ->.
  apply find_some in Hl as [Hin Heq]. apply String.eqb_eq in Heq. apply list_elem_of_In in Hin.
  pose proof (len_nonneg (ph_turns (m_measured env))).
  cbn [normalizeResult RScenarioID RMetrics RProof MCompleted MMalformed MFailed MTimedOut MRetry fst snd].
  assert (Hne : ph_turns (m_measured env) <> []) by (intros E; rewrite E in Hn; done).
  destruct (Hp Hne) as (p & Hlast & Hg). rewrite Heq.
  split_and!; try assumption; [reflexivity|lia|]. by exists f, p.
Qed.
End earned.

Definition doh3_environment (name : string) : string :=
  match List.find (fun kv => String.eqb kv.1 name)
    [("PLAB_EXECUTOR_ID", "go-dns-doh3-executor"); ("PLAB_EXECUTOR_VERSION", "0.2.2");
     ("PLAB_LOAD_GENERATOR_ID", "go-dns-doh3-load"); ("PLAB_LOAD_GENERATOR_VERSION", "0.2.2");
     ("PLAB_PROTOCOL", "doh3"); ("PLAB_PROTOCOL_VARIANT", "doh-h3-quic-v1"); ("PLAB_SCENARIO_ID", "dns.doh3.get.a");
     ("PLAB_LOAD_PROFILE_ID", "secure-dns-smoke"); ("PLAB_CONNECTIONS", "1"); ("PLAB_CONCURRENCY", "1");
     ("PLAB_DURATION_SECONDS", "5"); ("PLAB_WARMUP_SECONDS", "1"); ("PLAB_REPETITION", "1")] with
  | Some kv => kv.2
  | None => ""
  end.
Definition doh3_phase : phaseEnv :=
  PhaseEnv (doh3_turn [(doh3_quic, f_of_Z 9)] (f_of_Z 3)) [doh3_turn [] (f_of_Z 1); doh3_turn [] (f_of_Z 2)] (f_of_Z 5).
Definition doh3_main : mainEnv :=
  MainEnv doh3_environment "https://127.0.0.1:18541" (Ok tt) false false None doh3_phase doh3_phase doh3_phase.
Definition doh3_result : result exchangeProof :=
  default (normalizeResult "" "" (DohSummary (emptySummary f_zero) [])) (main doh3_main).2.

Lemma doh3_exit_zero_is_earned_witness :
  main doh3_main = (0, Some doh3_result) /\ MCompleted (RMetrics doh3_result) = 2 /\
  exists f p, RProof doh3_result = Some p /\ doh3_genuine f p.
Proof.
  assert (H : main doh3_main = (0, Some doh3_result)) by (vm_compute; reflexivity).
  split; [exact H|]. destruct (doh3_exit_zero_is_earned doh3_main doh3_result H)
    as (_ & _ & _ & _ & H1 & _ & _ & _ & _ & _ & f & p & _ & _ & H2 & H3).
  split; [exact H1|]. exists f, p. split; [exact H2|exact H3].
Defined.
