(* ===== verification/QuicRaw.v ===== *)
(** Raw QUIC transport: the load executor quic-go-raw-load and the server quic-go-raw. *)
From S2P Require Export Prelude Stats GoText GoHttp.

(** ** Payloads and download requests *)

Definition downloadRequestMagic : string := "PLAB-DL1".
Definition downloadRequestLength : Z := 16.
Definition maximumDownloadPayloadLength : Z := 67108864.
Definition sustainedStreamChunkSize : Z := 65536.
Definition slowReaderResponseDelay : Z := 100000000.

(** [payload[i] = byte(i % 251)] for the [n] indices from [from] on. *)
Definition deterministic (from n : Z) : bytes := (fun i => i mod 251) <$> seqZ from n.

Definition buildDownloadRequest (payloadLength : Z) : bytes :=
  bytes_of_string downloadRequestMagic ++ be_encode 8 (u64 payloadLength).
Definition parseDownloadRequest (request : bytes) (maximumPayloadLength : Z) : option Z :=
  if negb (len request =? downloadRequestLength)
     || negb (String.eqb (string_of_bytes (take 8 request)) downloadRequestMagic)
  then None
  else
    let payloadLength := be_decode (drop 8 request) in
    if (payloadLength =? 0) || (u64 maximumPayloadLength <? payloadLength) then None
    else Some (int_of payloadLength).

(** The first octet of a chunk that is not the expected one. *)
Fixpoint chunkMismatch (expected : bytes) (at_ : Z) (chunk : bytes) : option goerror :=
  match chunk with
  | [] => None
  | actual :: chunk =>
      let wanted := byte_at expected (Z.to_nat at_) in
      if actual =? wanted then chunkMismatch expected (at_ + 1) chunk
      else Some (EMsg ("byte at offset " +:+ pretty at_ +:+ " was " +:+ pretty actual
                       +:+ ", expected " +:+ pretty wanted))
  end.
Definition validateDeterministicPayloadChunk (expected : bytes) (offset : Z) (chunk : bytes) : option goerror :=
  if (offset <? 0) || (len expected <? offset + len chunk)
  then Some (EMsg ("response exceeded expected " +:+ pretty (len expected) +:+ "-byte payload at offset " +:+ pretty offset))
  else chunkMismatch expected offset chunk.

Definition responseReadDelay (behavior : string) : Z :=
  if equal_fold behavior "flow-control-slow-reader-100ms" then slowReaderResponseDelay else 0.

(** [os.ErrDeadlineExceeded] is a [net.Error]. *)
Definition isTimeoutError (err : option goerror) : bool :=
  match err with Some e => errors_is EDeadline e || is_net_timeout e | None => false end.

(** ** Options *)

Record options := Options {
  sni : string; alpn : string; behavior : string; streamType : string; payloadSizeBytes : Z;
  payloadDirection : string; openPattern : string; connections : Z; streamsPerConnection : Z;
  duration : Z; warmup : Z; target : string; failOnErrors : bool
}.
Definition second : Z := 1000000000.
Definition defaultOptions : options :=
  Options "localhost" "plab-raw-quic" "multiplex-streams" "bidirectional" 65536 "bidirectional" "concurrent"
    1 1 second 0 "" false.

Definition sequentialBehaviors : list string :=
  ["stream-throughput"; "latency-echo"; "large-payload"; "sustained-stream-256x64kb"; "sustained-download-256x64kb"].
Definition concurrentBehaviors : list string :=
  ["multiplex-streams"; "duplex-streams"; "stream-limit-pressure"; "flow-control-slow-reader-100ms"].

Definition validateOptions (opts : options) : option goerror :=
  let behavior_ := to_lower (behavior opts) in
  let openPattern_ := to_lower (openPattern opts) in
  let payloadDirection_ := to_lower (payloadDirection opts) in
  let requires pattern :=
    EMsg ("behavior " +:+ go_quote (behavior opts) +:+ " requires open-pattern " +:+ go_quote pattern) in
  if negb (string_in [""; "none"; "client-to-server"; "server-to-client"; "bidirectional"] payloadDirection_)
  then Some (EMsg ("unsupported payload direction " +:+ go_quote (payloadDirection opts)))
  else if String.eqb payloadDirection_ "server-to-client" && (maximumDownloadPayloadLength <? payloadSizeBytes opts)
  then Some (EMsg ("server-to-client payload size exceeds " +:+ pretty maximumDownloadPayloadLength +:+ "-byte limit"))
  else if string_in sequentialBehaviors behavior_ then
    if negb (String.eqb openPattern_ "sequential") then Some (requires "sequential")
    else if streamsPerConnection opts <? 1 then Some (EMsg "streams-per-connection must be greater than zero")
    else None
  else if string_in concurrentBehaviors behavior_ then
    if negb (String.eqb openPattern_ "concurrent") then Some (requires "concurrent")
    else if streamsPerConnection opts <? 1 then Some (EMsg "streams-per-connection must be greater than zero")
    else None
  else if String.eqb behavior_ "handshake-cold" then
    if negb (String.eqb openPattern_ "sequential") then Some (requires "sequential")
    else if negb (streamsPerConnection opts =? 0)
    then Some (EMsg "handshake-cold requires streams-per-connection to be zero")
    else None
  else if string_in ["connection-churn"; "stream-churn"] behavior_ then
    if negb (String.eqb openPattern_ "churn") then Some (requires "churn")
    else if streamsPerConnection opts <? 1
    then Some (EMsg (behavior_ +:+ " requires streams-per-connection to be greater than zero"))
    else None
  else Some (EMsg ("unsupported behavior " +:+ go_quote (behavior opts))).

(** What [url.Parse] gives. *)
Record parsedURL := ParsedURL { u_scheme : string; u_host : string }.

Definition with_target (t : string) (o : options) : options :=
  let '(Options a b c d e f g h i j k _ l) := o in Options a b c d e f g h i j k t l.

(** [parseOptions]: [parse] is what the flag set makes of the arguments and the defaults:
    the options and the positional arguments. *)
Definition parseOptions (parse : options -> res (options * list string)) (urlParse : string -> res parsedURL)
    : res options :=
  let? (opts, positional) := parse defaultOptions in
  match positional with
  | [arg] =>
      let opts := with_target arg opts in
      match urlParse (target opts) with
      | Err err => Err (EWrap "invalid target URL" err)
      | Ok u =>
          guard equal_fold (u_scheme u) "quic" else EMsg ("unsupported target URL scheme " +:+ go_quote (u_scheme u)) in
          guard negb (String.eqb (u_host u) "") else EMsg "target URL must include host and port" in
          guard negb (connections opts <? 1) else EMsg "connections must be greater than zero" in
          guard negb (payloadSizeBytes opts <? 0) else EMsg "payload-size-bytes cannot be negative" in
          guard negb (duration opts <=? 0) else EMsg "duration must be greater than zero" in
          guard negb (warmup opts <? 0) else EMsg "warmup cannot be negative" in
          match validateOptions opts with Some err => Err err | None => Ok opts end
      end
  | _ => Err (EMsg "expected exactly one quic:// target URL")
  end.

(** ** Streams *)

(** What a stream meets: opening it, its deadline, the writes (the faults of its
    connection), the end of its own side, the wait before the reads, and the reads. *)
Record streamEnv := StreamEnv {
  x_open : option goerror; x_deadline : option goerror; x_faults : list (option (nat * goerror));
  x_close : option goerror; x_delay : option goerror; x_reads : list (bytes * option goerror); x_latency : float64
}.

(** Latency, accounted octets sent and received, error; and what was written. *)
Record streamResult := StreamResult {
  sr_latency : float64; sr_sent : Z; sr_received : Z; sr_err : option goerror; sr_written : bytes
}.

(** The loop of [writePayloadInChunks]; every turn writes an octet at least. *)
Fixpoint writeChunks (fuel : nat) (payload : bytes) (chunkSize totalWritten : Z) (c : conn)
    : (Z * option goerror) * conn :=
  match fuel with
  | O => ((totalWritten, None), c)
  | S fuel =>
      if len payload <=? totalWritten then ((totalWritten, None), c) else
      let chunkEnd := Z.min (totalWritten + chunkSize) (len payload) in
      let chunk := slice (Z.to_nat totalWritten) (Z.to_nat chunkEnd) payload in
      match conn_write chunk c with
      | ((written, Some err), c) => ((totalWritten + written, Some err), c)
      | ((written, None), c) =>
          if written =? len chunk then writeChunks fuel payload chunkSize (totalWritten + written) c
          else ((totalWritten + written, Some EShortWrite), c)
      end
  end.
Definition writePayloadInChunks (payload : bytes) (chunkSize : Z) (c : conn) : (Z * option goerror) * conn :=
  if chunkSize <=? 0 then ((0, Some (EMsg "chunk size must be greater than zero")), c)
  else writeChunks (S (length payload)) payload chunkSize 0 c.

(** A stream that delivers nothing more meets its deadline. *)
Definition streamDeadline : goerror := ENet true "deadline exceeded".

(** The read loop of [runRequestResponseStream]. *)
Fixpoint readResponse (validate : bool) (payload : bytes) (reads : list (bytes * option goerror)) (received : Z)
    : Z * option goerror :=
  match reads with
  | [] => (received, Some (EWrap "read response payload or EOF" streamDeadline))
  | (chunk, readErr) :: reads =>
      let mismatch := if (0 <? len chunk) && validate
                      then validateDeterministicPayloadChunk payload received chunk else None in
      match mismatch, readErr with
      | Some err, _ => (received + len chunk, Some (EWrap "validate response payload" err))
      | None, None => readResponse validate payload reads (received + len chunk)
      | None, Some err =>
          if errors_is EEOF err then (received + len chunk, None)
          else (received + len chunk, Some (EWrap "read response payload or EOF" err))
      end
  end.

Definition received_error (received : Z) (expected : string) : goerror :=
  EMsg ("received " +:+ pretty received +:+ " response bytes, expected " +:+ expected).

Definition runRequestResponseStream (env : streamEnv) (payload : bytes) (opts : options) : streamResult :=
  match x_open env, x_deadline env with
  | Some err, _ => StreamResult f_zero 0 0 (Some (EWrap "open stream" err)) []
  | None, Some err => StreamResult f_zero 0 0 (Some (EWrap "set stream deadline" err)) []
  | None, None =>
      let download := equal_fold (payloadDirection opts) "server-to-client" in
      let upload := equal_fold (payloadDirection opts) "client-to-server" in
      let requestPayload := if download then buildDownloadRequest (len payload) else payload in
      let sent := if download then 0 else len payload in
      let c := Conn (Stream [] EEOF) [] (x_faults env) in
      let '((written, err), c) :=
        if equal_fold (behavior opts) "sustained-stream-256x64kb"
        then writePayloadInChunks requestPayload sustainedStreamChunkSize c else conn_write requestPayload c in
      let stop received err := StreamResult f_zero sent received (Some err) (c_out c) in
      match err with
      | Some err => stop 0 (EWrap "write request payload" err)
      | None =>
          if negb (written =? len requestPayload) then stop 0 EShortWrite else
          match x_close env with
          | Some err => stop 0 (EWrap "close request writes" err)
          | None =>
              match (if 0 <? responseReadDelay (behavior opts) then x_delay env else None) with
              | Some err => stop 0 (EWrap "wait before reading response" err)
              | None =>
                  match readResponse (negb upload) payload (x_reads env) 0 with
                  | (received, Some err) => stop received err
                  | (received, None) =>
                      if upload && negb (received =? 0) then stop received (received_error received "0")
                      else if negb upload && negb (received =? len payload)
                      then stop received (received_error received (pretty (len payload)))
                      else StreamResult (x_latency env) sent received None (c_out c)
                  end
              end
          end
      end
  end.

Definition validateDuplexResponse (direction : string) (expectedBytes received : Z) (readErr : option goerror)
    : option goerror :=
  let upload := equal_fold direction "client-to-server" in
  let expected := if upload then 0 else expectedBytes in
  if negb (received =? expected) then
    let mismatch := if upload then received_error received "0"
                    else EMsg ("received " +:+ pretty received +:+ " echoed bytes, expected " +:+ pretty expectedBytes) in
    match readErr with
    | Some err => Some (EWrap (error_string mismatch +:+ "; response read failed") err)
    | None => Some mismatch
    end
  else match readErr with Some err => Some (EWrap "read response payload or EOF" err) | None => None end.

(** What the reading goroutine of [runDuplexStream] sends: the octets it counted. *)
Fixpoint countResponse (reads : list (bytes * option goerror)) (received : Z) : Z * option goerror :=
  match reads with
  | [] => (received, Some streamDeadline)
  | (chunk, None) :: reads => countResponse reads (received + len chunk)
  | (chunk, Some err) :: _ => (received + len chunk, if errors_is EEOF err then None else Some err)
  end.

Definition runDuplexStream (env : streamEnv) (payload : bytes) (opts : options) : streamResult :=
  match x_open env, x_deadline env with
  | Some err, _ | None, Some err => StreamResult f_zero 0 0 (Some err) []
  | None, None =>
      let '((written, err), c) := conn_write payload (Conn (Stream [] EEOF) [] (x_faults env)) in
      let '(received, readErr) := countResponse (x_reads env) 0 in
      let stop err := StreamResult f_zero written received (Some err) (c_out c) in
      match err with
      | Some err => stop err
      | None =>
          if negb (written =? len payload) then stop EShortWrite else
          match x_close env with
          | Some err => stop err
          | None =>
              match validateDuplexResponse (payloadDirection opts) (len payload) received readErr with
              | Some err => stop err
              | None => StreamResult (x_latency env) written received None (c_out c)
              end
          end
      end
  end.

Definition runStream (env : streamEnv) (payload : bytes) (opts : options) : streamResult :=
  if equal_fold (behavior opts) "duplex-streams" then runDuplexStream env payload opts
  else runRequestResponseStream env payload opts.

(** ** Statistics and the goroutines that share them *)

Record runStats := RunStats {
  totalRequests : Z; successfulRequests : Z; failedRequests : Z; timeoutRequests : Z;
  bytesSent : Z; bytesReceived : Z; latencies : list float64; connectLatencies : list float64; errors : list string
}.
Definition noStats : runStats := RunStats 0 0 0 0 0 0 [] [] [].
Definition merge (s other : runStats) : runStats :=
  RunStats (totalRequests s + totalRequests other) (successfulRequests s + successfulRequests other)
    (failedRequests s + failedRequests other) (timeoutRequests s + timeoutRequests other)
    (bytesSent s + bytesSent other) (bytesReceived s + bytesReceived other)
    (latencies s ++ latencies other) (connectLatencies s ++ connectLatencies other) (errors s ++ errors other).

(** What a goroutine does to the statistics it shares, one atomic addition or one critical
    section at a time. *)
Inductive action :=
| AddTotal | AddSent (n : Z) | AddReceived (n : Z) | AddFailed | AddTimeout | AddSuccessful
| AppendError (e : string) | AppendLatency (latency : float64)
| Locked (batch : runStats).
Definition apply (s : runStats) (a : action) : runStats :=
  let '(RunStats total ok failed timeouts sent received ls cs es) := s in
  match a with
  | AddTotal => RunStats (total + 1) ok failed timeouts sent received ls cs es
  | AddSent n => RunStats total ok failed timeouts (sent + n) received ls cs es
  | AddReceived n => RunStats total ok failed timeouts sent (received + n) ls cs es
  | AddFailed => RunStats total ok (failed + 1) timeouts sent received ls cs es
  | AddTimeout => RunStats total ok failed (timeouts + 1) sent received ls cs es
  | AddSuccessful => RunStats total (ok + 1) failed timeouts sent received ls cs es
  | AppendError e => RunStats total ok failed timeouts sent received ls cs (es ++ [e])
  | AppendLatency l => RunStats total ok failed timeouts sent received (ls ++ [l]) cs es
  | Locked batch => merge s batch
  end.

(** An interleaving: [schedule] names the goroutine that goes next; what is left when it
    ends runs goroutine by goroutine, which [wg.Wait] awaits. *)
Fixpoint interleave (schedule : list nat) (goroutines : list (list action)) : list action :=
  match schedule with
  | [] => concat goroutines
  | i :: schedule =>
      match goroutines !! i with
      | Some (a :: rest) => a :: interleave schedule (<[i := rest]> goroutines)
      | _ => interleave schedule goroutines
      end
  end.
Definition runGoroutines (schedule : list nat) (goroutines : list (list action)) : runStats :=
  fold_left apply (interleave schedule goroutines) noStats.

(** The updates of a stream's goroutine, and of a turn of [runSequentialStreams]. *)
Definition streamActions (r : streamResult) : list action :=
  [AddTotal; AddSent (sr_sent r); AddReceived (sr_received r)]
  ++ match sr_err r with
     | Some err => [AddFailed] ++ (if isTimeoutError (Some err) then [AddTimeout] else [])
                   ++ [AppendError (error_string err)]
     | None => [AddSuccessful; AppendLatency (sr_latency r)]
     end.

Section load.
Context (payload : bytes) (opts : options).

Definition runSequentialStreams (streams : list streamEnv) : runStats :=
  fold_left (fun s env => fold_left apply (streamActions (runStream env payload opts)) s) streams noStats.

Definition runConcurrentStreamBatch (schedule : list nat) (conns : list (list streamEnv)) : runStats :=
  runGoroutines schedule ((fun env => streamActions (runStream env payload opts)) <$> concat conns).
Definition runSequentialStreamBatch (schedule : list nat) (conns : list (list streamEnv)) : runStats :=
  runGoroutines schedule ((fun streams => [Locked (runSequentialStreams streams)]) <$> conns).

Definition boolToInt64 (v : bool) : Z := if v then 1 else 0.

(** A dial gives the connection time. *)
Definition dialStats (dial : res float64) : runStats :=
  match dial with
  | Err err => RunStats 1 0 1 (boolToInt64 (isTimeoutError (Some err))) 0 0 [] [] [error_string err]
  | Ok connectTimeMs => RunStats 1 1 0 0 0 0 [] [connectTimeMs] []
  end.
Definition runHandshakeColdBatch (schedule : list nat) (dials : list (res float64)) : runStats :=
  runGoroutines schedule ((fun dial => [Locked (dialStats dial)]) <$> dials).

Definition add_connect (ms : float64) (s : runStats) : runStats :=
  let '(RunStats total ok failed timeouts sent received ls cs es) := s in
  RunStats total ok failed timeouts sent received ls (cs ++ [ms]) es.
Definition churnStats (conn : res float64 * list streamEnv) : runStats :=
  match conn.1 with
  | Err err =>
      let failed := if streamsPerConnection opts <? 1 then 1 else streamsPerConnection opts in
      RunStats failed 0 failed (boolToInt64 (isTimeoutError (Some err)) * failed) 0 0 [] [] [error_string err]
  | Ok connectTimeMs => add_connect connectTimeMs (runSequentialStreams conn.2)
  end.
Definition runConnectionChurnBatch (schedule : list nat) (conns : list (res float64 * list streamEnv)) : runStats :=
  runGoroutines schedule ((fun conn => [Locked (churnStats conn)]) <$> conns).

(** The loop over the batches that began before the deadline, the first of them always;
    a batch with errors ends it, if it is [fatal]. *)
Fixpoint batchLoop (discard fatal : bool) (batches : list runStats) (stats : runStats) : runStats * option goerror :=
  match batches with
  | [] => (stats, None)
  | batch :: batches =>
      let stats := if discard then stats else merge stats batch in
      match errors batch with
      | err :: _ => if fatal then (stats, Some (EMsg err)) else batchLoop discard fatal batches stats
      | [] => batchLoop discard fatal batches stats
      end
  end.
End load.

(** What a phase meets: the dials that come before the batches of a stream load, and per
    batch the schedule and what its connections meet. *)
Record batchEnv := BatchEnv { b_schedule : list nat; b_conns : list (res float64 * list streamEnv) }.
Record phaseEnv := PhaseEnv { ph_dials : list (option goerror); ph_first : batchEnv; ph_more : list batchEnv }.

(** The batches a phase runs: the first one only when its duration is not positive. *)
Definition phaseBatches (env : phaseEnv) (duration_ : Z) : list batchEnv :=
  ph_first env :: (if duration_ <=? 0 then [] else ph_more env).
Definition firstError (errs : list (option goerror)) : option goerror := head (omap id errs).

Definition runStreamLoad (urlParse : string -> res parsedURL) (env : phaseEnv) (opts : options) (duration_ : Z)
    (discard concurrent : bool) : runStats * option goerror :=
  match urlParse (target opts) with
  | Err err => (noStats, Some err)
  | Ok _ =>
      let payload := deterministic 0 (payloadSizeBytes opts) in
      match firstError (ph_dials env) with
      | Some err => (RunStats 0 0 (int_of (connections opts * streamsPerConnection opts)) 0 0 0 [] [] [error_string err],
                     Some err)
      | None =>
          batchLoop discard true
            ((fun b => if concurrent then runConcurrentStreamBatch payload opts (b_schedule b) (snd <$> b_conns b)
                       else runSequentialStreamBatch payload opts (b_schedule b) (snd <$> b_conns b))
             <$> phaseBatches env duration_) noStats
      end
  end.
Definition runHandshakeColdLoad (urlParse : string -> res parsedURL) (env : phaseEnv) (opts : options) (duration_ : Z)
    (discard : bool) : runStats * option goerror :=
  match urlParse (target opts) with
  | Err err => (noStats, Some err)
  | Ok _ => batchLoop discard (negb discard)
              ((fun b => runHandshakeColdBatch (b_schedule b) (fst <$> b_conns b)) <$> phaseBatches env duration_) noStats
  end.
Definition runConnectionChurnLoad (urlParse : string -> res parsedURL) (env : phaseEnv) (opts : options) (duration_ : Z)
    (discard : bool) : runStats * option goerror :=
  match urlParse (target opts) with
  | Err err => (noStats, Some err)
  | Ok _ =>
      let payload := deterministic 0 (payloadSizeBytes opts) in
      batchLoop discard (negb discard)
        ((fun b => runConnectionChurnBatch payload opts (b_schedule b) (b_conns b)) <$> phaseBatches env duration_) noStats
  end.

Definition runLoad (urlParse : string -> res parsedURL) (env : phaseEnv) (opts : options) (duration_ : Z)
    (discard : bool) : runStats * option goerror :=
  let behavior_ := to_lower (behavior opts) in
  if string_in sequentialBehaviors behavior_ then runStreamLoad urlParse env opts duration_ discard false
  else if string_in concurrentBehaviors behavior_ then runStreamLoad urlParse env opts duration_ discard true
  else if String.eqb behavior_ "handshake-cold" then runHandshakeColdLoad urlParse env opts duration_ discard
  else if String.eqb behavior_ "connection-churn" then runConnectionChurnLoad urlParse env opts duration_ discard
  else if String.eqb behavior_ "stream-churn" then runStreamLoad urlParse env opts duration_ discard false
  else (noStats, Some (EMsg ("unsupported behavior " +:+ go_quote (behavior opts)))).

(** ** Metrics, the document and [main] *)

Record metricsOutput := MetricsOutput {
  RequestsPerSecond : float64; TotalRequests : Z; SuccessfulRequests : Z; FailedRequests : Z; TimeoutRequests : Z;
  BytesSent : Z; BytesReceived : Z; ThroughputBytesPerSecond : float64;
  LatencyMean : float64; LatencyPercentiles : list float64;    (* min, P50, P75, P90, P95, P99, max *)
  ConnectTimeMean : float64; ErrorRate : float64
}.
Definition buildMetrics (s : runStats) (elapsed : Z) : metricsOutput :=
  let elapsedSeconds := seconds elapsed in
  let elapsedSeconds := if SFleb elapsedSeconds f_zero then f_of_Z 1 else elapsedSeconds in
  let errorRate := if 0 <? totalRequests s then fdiv (f_of_Z (failedRequests s)) (f_of_Z (totalRequests s)) else f_zero in
  let sorted := sort_floats (latencies s) in
  let throughputBytes := if bytesReceived s <? bytesSent s then bytesSent s else bytesReceived s in
  MetricsOutput (fdiv (f_of_Z (successfulRequests s)) elapsedSeconds) (totalRequests s) (successfulRequests s)
    (failedRequests s) (timeoutRequests s) (bytesSent s) (bytesReceived s)
    (fdiv (f_of_Z throughputBytes) elapsedSeconds) (mean sorted)
    ((fun p => percentile_interpolated sorted (f_of_Z p)) <$> [0; 50; 75; 90; 95; 99; 100])
    (mean (connectLatencies s)) errorRate.

Definition environmentOrDefault (getenv : string -> string) (name fallback : string) : string :=
  let value := trim_space (getenv name) in if String.eqb value "" then fallback else value.
Definition toolName : string := "quic-go-raw-load".
Definition executorIdentity (getenv : string -> string) : string * string :=
  (environmentOrDefault getenv "PLAB_EXECUTOR_ID" toolName,
   environmentOrDefault getenv "PLAB_EXECUTOR_VERSION" "development").
Definition loadGeneratorIdentity (getenv : string -> string) : string * string :=
  (environmentOrDefault getenv "PLAB_LOAD_GENERATOR_ID" toolName,
   environmentOrDefault getenv "PLAB_LOAD_GENERATOR_VERSION" (executorIdentity getenv).2).

Record loadShapeOutput := LoadShape {
  SConnections : Z; SConcurrency : Z; SStreamsPerConnection : Z; SDurationSeconds : Z; SWarmupSeconds : Z
}.
Definition requestedLoadShape (getenv : string -> string) (opts : options) : loadShapeOutput :=
  let concurrency := int_of (connections opts * Z.max 1 (streamsPerConnection opts)) in
  let concurrency := match atoi (getenv "PLAB_CONCURRENCY") with
                     | Some value => if 0 <? value then value else concurrency
                     | None => concurrency
                     end in
  LoadShape (connections opts) concurrency (streamsPerConnection opts)
    (Z.quot (duration opts) second) (Z.quot (warmup opts) second).

Record outputDocument := OutputDocument {
  OExecutor : string * string; OLoadGenerator : string * string; ORequestedLoad : loadShapeOutput;
  OEffectiveLoad : loadShapeOutput; OTarget : string; OBehavior : string; OMetrics : metricsOutput;
  OErrors : list string
}.
Definition newOutputDocument (getenv : string -> string) (opts : options) (metrics : metricsOutput)
    (errors : list string) : outputDocument :=
  let shape := requestedLoadShape getenv opts in
  OutputDocument (executorIdentity getenv) (loadGeneratorIdentity getenv) shape shape (target opts) (behavior opts)
    metrics errors.

(** What [main] meets; [m_elapsed] is the measured time in nanoseconds. *)
Record mainEnv := MainEnv {
  m_getenv : string -> string; m_version : bool; m_parse : options -> res (options * list string);
  m_urlParse : string -> res parsedURL; m_warmup : phaseEnv; m_measured : phaseEnv; m_elapsed : Z;
  m_encode : option goerror
}.

(** The exit code, and the document if one was encoded. *)
Definition main (env : mainEnv) : Z * option outputDocument :=
  if m_version env then (0, None) else
  match parseOptions (m_parse env) (m_urlParse env) with
  | Err _ => (2, None)
  | Ok opts =>
      let encoded d := match m_encode env with Some _ => None | None => Some d end in
      match (if 0 <? warmup opts then (runLoad (m_urlParse env) (m_warmup env) opts (warmup opts) true).2 else None) with
      | Some warmupErr =>
          (1, encoded (newOutputDocument (m_getenv env) opts (buildMetrics noStats 1)
                         ["warmup failed: " +:+ error_string warmupErr]))
      | None =>
          let '(stats, err) := runLoad (m_urlParse env) (m_measured env) opts (duration opts) false in
          let elapsed := if m_elapsed env <=? 0 then 1 else m_elapsed env in
          let document := newOutputDocument (m_getenv env) opts (buildMetrics stats elapsed)
            (errors stats ++ match err with Some e => [error_string e] | None => [] end) in
          match m_encode env with
          | Some _ => (1, None)
          | None =>
              if (successfulRequests stats =? 0)
                 || (failOnErrors opts && (bool_decide (err <> None) || (0 <? failedRequests stats)
                                           || (0 <? timeoutRequests stats)))
              then (1, Some document) else (0, Some document)
          end
      end
  end.

(** ** The server *)

Module Server.

Definition defaultEchoMaxSize : Z := 65536.
Definition maxReadBytes : Z := 67108864.

Definition defaultEchoMaxSizeForScenario (scenarioID : string) : Z :=
  if string_in ["quic.transport.stream-throughput.64kb"; "quic.transport.stream-throughput.1mb";
                "quic.transport.stream-throughput.16mb"; "quic.transport.sustained-stream.256x64kb";
                "quic.transport.stream-download.1mb"; "quic.transport.sustained-download.256x64kb";
                "quic.transport.handshake-cold"] scenarioID then 0
  else if string_in ["quic.transport.latency.echo-1kb"; "quic.transport.multiplex.100x1kb"] scenarioID then 1024
  else if string_in ["quic.transport.multiplex.16x1mb"; "quic.transport.duplex-streams.16x1mb"] scenarioID
  then 1048576
  else defaultEchoMaxSize.

(** [split] is [net.SplitHostPort]'s verdict. *)
Definition defaultListenAddress (getenv : string -> string) (split : string -> option goerror) : string :=
  let port := trim_space (getenv "PLAB_QUIC_PORT") in
  let port := if String.eqb port "" then "5447" else port in
  let bind := trim_space (getenv "PROTOCOL_LAB_TARGET_BIND_ADDRESS") in
  let bind := if String.eqb bind "" then "127.0.0.1" else bind in
  match split bind with None => bind | Some _ => joinHostPort bind port end.

Record options := Options { listen : string; advertiseHost : string; alpn : string; echoMaxBytes : Z }.
Definition parseOptions (getenv : string -> string) (split : string -> option goerror)
    (parse : options -> res (options * list string)) (resolve : string -> option goerror) : res options :=
  let opts := Options (defaultListenAddress getenv split)
    (trim_space (getenv "PROTOCOL_LAB_TARGET_ADVERTISE_HOST")) "plab-raw-quic"
    (defaultEchoMaxSizeForScenario (trim_space (getenv "PLAB_SCENARIO_ID"))) in
  let? (opts, positional) := parse opts in
  guard bool_decide (positional = []) else EMsg ("unexpected positional arguments: " +:+ join " " positional) in
  guard negb (echoMaxBytes opts <? 0) else EMsg "echo-max-bytes cannot be negative" in
  guard negb (String.eqb (alpn opts) "") else EMsg "alpn cannot be empty" in
  match resolve (listen opts) with
  | Some err => Err (EWrap ("invalid listen address " +:+ go_quote (listen opts)) err)
  | None => Ok opts
  end.

Definition parseDownloadRequest (request : bytes) (maximumPayloadLength : Z) : option Z :=
  if negb (len request =? 16) || negb (String.eqb (string_of_bytes (take 8 request)) "PLAB-DL1") then None
  else
    let payloadLength := be_decode (drop 8 request) in
    if (payloadLength =? 0) || (u64 maximumPayloadLength <? payloadLength) then None
    else Some (int_of payloadLength).

(** The loop of [writeDeterministicPayload], with its buffer of [size] octets. *)
Fixpoint writeLoop (fuel : nat) (size payloadLength offset : Z) (c : conn) : option goerror * conn :=
  match fuel with
  | O => (None, c)
  | S fuel =>
      if payloadLength <=? offset then (None, c) else
      let chunkLength := Z.min size (payloadLength - offset) in
      match conn_write (deterministic offset chunkLength) c with
      | ((_, Some err), c) => (Some err, c)
      | ((written, None), c) =>
          if written =? chunkLength then writeLoop fuel size payloadLength (offset + written) c
          else (Some EShortWrite, c)
      end
  end.
Definition writeDeterministicPayload (payloadLength : Z) (c : conn) : option goerror * conn :=
  writeLoop (S (Z.to_nat payloadLength)) (Z.min payloadLength 65536) payloadLength 0 c.

(** [handleStream] over a stream's two directions; the stream is closed after it. *)
Definition handleStream (c : conn) (opts : options) : conn :=
  match read_all_limited (maxReadBytes + 1) (c_in c) with
  | Err _ => c
  | Ok payload =>
      if maxReadBytes <? len payload then c else
      match parseDownloadRequest payload maxReadBytes with
      | Some payloadLength => (writeDeterministicPayload payloadLength c).2
      | None =>
          if echoMaxBytes opts <? len payload then c
          else if len payload =? 0 then c
          else (conn_write payload c).2
      end
  end.

End Server.
