(* ===== verification/QuicRawProps.v ===== *)
(** Raw QUIC transport: download requests, sessions between the executor and the server,
    batches under every schedule, and what an exit code means. *)
From stdpp Require Import base list.
From Stdlib Require Import Ascii.
From S2P Require Export Prelude Stats GoText GoHttp QuicRaw.

(** ** Payloads *)

Lemma len_deterministic from n : 0 <= n -> len (deterministic from n) = n.
Proof. intros. unfold len, deterministic. rewrite length_fmap, length_seqZ. lia. Qed.

Lemma deterministic_split from n m :
  0 <= n -> 0 <= m -> deterministic from (n + m) = deterministic from n ++ deterministic (from + n) m.
Proof. intros. unfold deterministic. by rewrite seqZ_app, fmap_app by lia. Qed.

Lemma deterministic_head n : 0 < n -> exists l, deterministic 0 n = 0 :: l.
Proof. intros. unfold deterministic. rewrite seqZ_cons by lia. eexists. reflexivity. Qed.

Lemma deterministic_bytes from n : all_bytes (deterministic from n).
Proof. apply Forall_fmap, Forall_true. intros i. unfold is_byte. simpl. lia_mod. Qed.

(** ** Download requests *)

Lemma len_buildDownloadRequest n : len (buildDownloadRequest n) = 16.
Proof. unfold buildDownloadRequest. rewrite len_app. unfold len at 2. by rewrite length_be_encode. Qed.

Lemma parse_build n max :
  0 <= n < 2 ^ 63 -> 0 <= max < 2 ^ 63 ->
  Server.parseDownloadRequest (buildDownloadRequest n) max = if (0 <? n) && (n <=? max) then Some n else None.
Proof.
  intros Hn Hm. unfold Server.parseDownloadRequest. rewrite len_buildDownloadRequest. unfold buildDownloadRequest.
  change (take 8 _) with (bytes_of_string downloadRequestMagic).
  change (drop 8 _) with (be_encode 8 (u64 n)).
  rewrite string_of_bytes_of_string. cbn [negb orb Z.eqb Pos.eqb]. change (String.eqb _ _) with true. cbn [negb].
  assert (E : be_decode (be_encode 8 (u64 n)) = n).
  { rewrite be_decode_encode. unfold u64. change (256 ^ Z.of_nat 8) with 18446744073709551616.
    rewrite Zmod_mod. apply Z.mod_small. lia. }
  rewrite E. unfold u64, int_of. rewrite (Z.mod_small max) by lia.
  destruct (Z.eqb_spec n 0), (Z.ltb_spec max n), (Z.ltb_spec 0 n), (Z.leb_spec n max); simpl; try lia; try reflexivity.
  f_equal. rewrite Z.mod_small; lia.
Qed.

(** A download request is read back as the length it was made of when that is positive
    and within the server's limit, and refused otherwise; and any sixteen octets the
    server takes for a download request are the request the executor makes for that
    length. The executor's own parser is the server's. *)
Theorem raw_download_roundtrip n max request :
  0 <= n < 2 ^ 63 -> 0 <= max < 2 ^ 63 -> all_bytes request ->
  Server.parseDownloadRequest (buildDownloadRequest n) max = (if (0 <? n) && (n <=? max) then Some n else None) /\
  parseDownloadRequest request max = Server.parseDownloadRequest request max /\
  (forall m, Server.parseDownloadRequest request max = Some m -> request = buildDownloadRequest m /\ 0 < m <= max).
Proof.
  intros Hn Hm Hb. split; [by apply parse_build|]. split; [reflexivity|]. intros m.
  unfold Server.parseDownloadRequest. destruct (negb (len request =? 16)) eqn:El; [done|].
  destruct (negb (String.eqb _ _)) eqn:Es; [done|]. cbn [orb]. destruct (_ || _) eqn:Ez; [done|]. intros [= <-].
  reflect_bools. apply String.eqb_eq in Es. pose proof (be_decode_bound (drop 8 request) (all_bytes_drop _ _ Hb)) as Hd.
  assert (L : length (drop 8 request) = 8%nat) by (unfold len in El; rewrite length_drop; lia).
  unfold len in Hd. rewrite L in Hd. change (256 ^ Z.of_nat 8) with 18446744073709551616 in Hd.
  unfold u64, int_of in *. rewrite (Z.mod_small max) in * by lia.
  rewrite (Z.mod_small (_ + _)) by lia. replace (_ + _ - _) with (be_decode (drop 8 request)) by lia.
  split; [|lia]. unfold buildDownloadRequest, u64. rewrite Z.mod_small by lia.
  rewrite <-L at 1. rewrite be_encode_decode by auto with plab. unfold downloadRequestMagic. rewrite <-Es.
  rewrite bytes_of_string_of_bytes by auto with plab. by rewrite take_drop.
Qed.

Lemma raw_download_roundtrip_witness :
  Server.parseDownloadRequest (buildDownloadRequest 1048576) 67108864 = Some 1048576.
Proof.
  assert (Hb : all_bytes (buildDownloadRequest 7)) by (apply (bool_decide_unpack _); vm_compute; exact I).
  destruct (raw_download_roundtrip 1048576 67108864 (buildDownloadRequest 7) ltac:(lia) ltac:(lia) Hb) as [H _].
  exact H.
Defined.

(** ** What is written *)

Lemma conn_write_all p s out : conn_write p (Conn s out []) = ((len p, None), Conn s (out ++ p) []).
Proof. reflexivity. Qed.

Lemma slice_cut (a b : nat) (p : bytes) : (a <= b)%nat -> take a p ++ slice a b p = take b p.
Proof. intros H. unfold slice. rewrite take_take_drop. f_equal. lia. Qed.

Lemma writeChunks_all fuel p k total s out :
  0 < k -> 0 <= total <= len p -> len p - total < Z.of_nat fuel ->
  writeChunks fuel p k total (Conn s (out ++ take (Z.to_nat total) p) []) = ((len p, None), Conn s (out ++ p) []).
Proof.
  revert total; induction fuel as [|fuel IH]; intros total Hk Ht Hf; [lia|]. cbn [writeChunks].
  destruct (Z.leb_spec (len p) total) as [H|H].
  - assert (total = len p) as -> by lia. unfold len. rewrite Nat2Z.id, take_ge by lia. reflexivity.
  - rewrite conn_write_all. set (e := Z.min (total + k) (len p)).
    assert (Hs : len (slice (Z.to_nat total) (Z.to_nat e) p) = e - total).
    { unfold len, slice. rewrite length_take, length_drop. unfold len in *. lia. }
    rewrite Z.eqb_refl, Hs. replace (total + (e - total)) with e by lia.
    rewrite <-app_assoc, slice_cut by lia. apply IH; lia.
Qed.

Lemma writePayloadInChunks_all p k s out :
  0 < k -> writePayloadInChunks p k (Conn s out []) = ((len p, None), Conn s (out ++ p) []).
Proof.
  intros Hk. unfold writePayloadInChunks. rewrite (proj2 (Z.leb_gt k 0) Hk).
  rewrite <-(writeChunks_all (S (length p)) p k 0 s out Hk) by (unfold len; lia).
  change (take (Z.to_nat 0) p) with (@nil Z). by rewrite app_nil_r.
Qed.

Lemma writeLoop_all fuel size n offset s out :
  0 < size -> 0 <= offset <= n -> n - offset < Z.of_nat fuel ->
  Server.writeLoop fuel size n offset (Conn s out [])
  = (None, Conn s (out ++ deterministic offset (n - offset)) []).
Proof.
  revert offset out; induction fuel as [|fuel IH]; intros offset out Hs Ho Hf; [lia|]. cbn [Server.writeLoop].
  destruct (Z.leb_spec n offset) as [H|H].
  - assert (offset = n) as -> by lia. rewrite Z.sub_diag. change (deterministic n 0) with (@nil Z). by rewrite app_nil_r.
  - rewrite conn_write_all, len_deterministic, Z.eqb_refl by lia.
    rewrite (IH _ _ Hs) by lia. rewrite <-app_assoc, <-deterministic_split by lia.
    do 4 f_equal. lia.
Qed.

(** ** What the server answers *)

Definition reply (echo : Z) (request : bytes) : bytes :=
  c_out (Server.handleStream (Conn (Stream request EEOF) [] []) (Server.Options "" "" "" echo)).

Lemma read_request request :
  len request <= Server.maxReadBytes ->
  read_all_limited (Server.maxReadBytes + 1) (Stream request EEOF) = Ok request /\
  (Server.maxReadBytes <? len request) = false.
Proof.
  intros H. unfold read_all_limited. cbn [st_data st_end]. rewrite (proj2 (Z.leb_gt _ _)) by lia.
  split; [reflexivity|]. apply Z.ltb_ge. lia.
Qed.

Lemma reply_echo echo p :
  len p <= Server.maxReadBytes -> Server.parseDownloadRequest p Server.maxReadBytes = None ->
  reply echo p = if len p <=? echo then p else [].
Proof.
  intros Hl Hp. unfold reply, Server.handleStream. cbn [c_in].
  destruct (read_request p Hl) as [-> ->]. rewrite Hp. cbn [Server.echoMaxBytes].
  destruct (Z.ltb_spec echo (len p)), (Z.leb_spec (len p) echo); try lia; [reflexivity|].
  destruct (Z.eqb_spec (len p) 0) as [E|E]; [|reflexivity]. by destruct p.
Qed.

Lemma payload_no_request n : Server.parseDownloadRequest (deterministic 0 n) Server.maxReadBytes = None.
Proof.
  unfold Server.parseDownloadRequest. destruct (decide (0 < n)) as [H|H].
  - destruct (deterministic_head n H) as [l ->]. destruct (len (0 :: l) =? 16); [|reflexivity].
    reflexivity.
  - replace (deterministic 0 n) with (@nil Z); [reflexivity|]. unfold deterministic, seqZ.
    replace (Z.to_nat n) with 0%nat by lia. reflexivity.
Qed.

Lemma reply_payload echo n :
  0 <= n <= Server.maxReadBytes ->
  reply echo (deterministic 0 n) = if n <=? echo then deterministic 0 n else [].
Proof.
  intros H. rewrite reply_echo; rewrite ?len_deterministic by lia; [reflexivity|lia|apply payload_no_request].
Qed.

Lemma reply_download echo n :
  0 <= n <= Server.maxReadBytes ->
  reply echo (buildDownloadRequest n)
  = if 0 <? n then deterministic 0 n else if 16 <=? echo then buildDownloadRequest n else [].
Proof.
  intros H. pose proof (len_buildDownloadRequest n) as Hl.
  assert (Hm : 0 <= Server.maxReadBytes < 2 ^ 63) by (unfold Server.maxReadBytes; lia).
  assert (Hp := parse_build n Server.maxReadBytes ltac:(unfold Server.maxReadBytes in *; lia) Hm).
  revert Hp. destruct (Z.ltb_spec 0 n) as [H0|H0]; intros Hp.
  - rewrite (proj2 (Z.leb_le n _)) in Hp by lia. cbn [andb] in Hp. unfold reply, Server.handleStream. cbn [c_in].
    destruct (read_request (buildDownloadRequest n)) as [-> ->]; [unfold Server.maxReadBytes; lia|]. rewrite Hp.
    unfold Server.writeDeterministicPayload. rewrite writeLoop_all by lia. cbn [snd c_out].
    by rewrite Z.sub_0_r.
  - rewrite reply_echo; [by rewrite Hl|unfold Server.maxReadBytes; lia|exact Hp].
Qed.

(** ** What is read *)

(** The reads deliver [answer] and end cleanly. *)
Fixpoint delivers (answer : bytes) (reads : list (bytes * option goerror)) : Prop :=
  match reads with
  | [] => False
  | (chunk, None) :: reads => exists rest, answer = chunk ++ rest /\ delivers rest reads
  | (chunk, Some EEOF) :: _ => answer = chunk
  | _ => False
  end.

Lemma chunkMismatch_prefix p chunk q : chunkMismatch (p ++ chunk ++ q) (len p) chunk = None.
Proof.
  revert p; induction chunk as [|b chunk IH]; intros p; [reflexivity|]. cbn [chunkMismatch].
  assert (E : byte_at (p ++ (b :: chunk) ++ q) (Z.to_nat (len p)) = b).
  { unfold byte_at, len. rewrite Nat2Z.id, app_nth2, Nat.sub_diag by lia. reflexivity. }
  rewrite E, Z.eqb_refl. replace (len p + 1) with (len (p ++ [b])) by (rewrite len_app; reflexivity).
  replace (p ++ (b :: chunk) ++ q) with ((p ++ [b]) ++ chunk ++ q) by (by rewrite <-app_assoc). apply IH.
Qed.

Lemma validate_prefix p chunk q : validateDeterministicPayloadChunk (p ++ chunk ++ q) (len p) chunk = None.
Proof.
  unfold validateDeterministicPayloadChunk. pose proof (len_nonneg p). rewrite (proj2 (Z.ltb_ge (len p) 0)) by lia.
  rewrite (proj2 (Z.ltb_ge _ _)); [apply chunkMismatch_prefix|].
  rewrite !len_app. pose proof (len_nonneg q). lia.
Qed.

(** Reads that deliver a part of the expected payload pass, and count it. *)
Lemma readResponse_part v p answer q reads :
  delivers answer reads -> readResponse v (p ++ answer ++ q) reads (len p) = (len p + len answer, None).
Proof.
  revert p answer; induction reads as [|[chunk [err|]] reads IH]; intros p answer H; [destruct H| |]; cbn [readResponse].
  - destruct err; try destruct H. rewrite validate_prefix. by destruct (_ && _).
  - destruct H as (rest & -> & H). rewrite <-app_assoc, validate_prefix.
    replace (if _ && v then None else None) with (@None goerror) by (by destruct (_ && v)).
    specialize (IH (p ++ chunk) rest H). rewrite !len_app, <-app_assoc in IH. rewrite IH, len_app.
    f_equal. lia.
Qed.

Lemma readResponse_counts v p answer reads received received' :
  delivers answer reads -> readResponse v p reads received = (received', None) ->
  received' = received + len answer.
Proof.
  revert received answer; induction reads as [|[chunk [err|]] reads IH]; intros received answer H; [destruct H| |];
    cbn [readResponse]; destruct (if _ && v then _ else None); try done.
  - destruct err; try destruct H. intros E. injection E as <-. reflexivity.
  - destruct H as (rest & -> & H). intros E. rewrite (IH _ _ H E), len_app. lia.
Qed.

Lemma readResponse_unchecked p answer reads received :
  delivers answer reads -> readResponse false p reads received = (received + len answer, None).
Proof.
  revert received answer; induction reads as [|[chunk [err|]] reads IH]; intros received answer H; [destruct H| |];
    cbn [readResponse]; rewrite andb_false_r.
  - destruct err; try destruct H. reflexivity.
  - destruct H as (rest & -> & H). rewrite (IH _ _ H), len_app. f_equal. lia.
Qed.

Lemma countResponse_counts answer reads received :
  delivers answer reads -> countResponse reads received = (received + len answer, None).
Proof.
  revert received answer; induction reads as [|[chunk [err|]] reads IH]; intros received answer H; [destruct H| |];
    cbn [countResponse].
  - destruct err; try destruct H. reflexivity.
  - destruct H as (rest & -> & H). rewrite (IH _ _ H), len_app. f_equal. lia.
Qed.

(** ** Sessions *)

(** A stream on which nothing but the server decides. *)
Definition well (env : streamEnv) : Prop :=
  x_open env = None /\ x_deadline env = None /\ x_faults env = [] /\ x_close env = None /\ x_delay env = None.

(** When a stream of [n] octets should succeed against a server that echoes up to [echo]
    octets: a download of at least one octet, an upload that is not echoed, an exchange
    that is. *)
Definition should_succeed (opts : options) (n echo : Z) : bool :=
  if equal_fold (payloadDirection opts) "client-to-server" then (n =? 0) || (echo <? n)
  else if equal_fold (payloadDirection opts) "server-to-client"
          && negb (equal_fold (behavior opts) "duplex-streams")
  then (0 <? n) || (echo <? 16)
  else n <=? echo.

Lemma request_written (env : streamEnv) (opts : options) p :
  x_faults env = [] ->
  (if equal_fold (behavior opts) "sustained-stream-256x64kb"
   then writePayloadInChunks p sustainedStreamChunkSize (Conn (Stream [] EEOF) [] (x_faults env))
   else conn_write p (Conn (Stream [] EEOF) [] (x_faults env)))
  = ((len p, None), Conn (Stream [] EEOF) p []).
Proof.
  intros ->. destruct (equal_fold _ _); [|reflexivity].
  rewrite writePayloadInChunks_all by (unfold sustainedStreamChunkSize; lia). reflexivity.
Qed.

(** A string folds to one constant only, when their first letters differ. *)
Lemma equal_fold_c s t : equal_fold s (String "c"%char t) = true ->
  exists r, s = String "c"%char r \/ s = String "C"%char r.
Proof.
  destruct s as [|[[] [] [] [] [] [] [] []] r]; intros H; try discriminate H; eauto;
    repeat (destruct r as [|[[] [] [] [] [] [] [] []] r]; try discriminate H).
Qed.

Lemma directions_differ d :
  equal_fold d "client-to-server" = true -> equal_fold d "server-to-client" = false.
Proof. intros H. apply equal_fold_c in H as [r [-> | ->]]; reflexivity. Qed.

Definition request_of (opts : options) (payload : bytes) : bytes :=
  if equal_fold (payloadDirection opts) "server-to-client" then buildDownloadRequest (len payload) else payload.

(** On such a stream the reads decide. *)
Lemma request_response env payload opts :
  well env ->
  runRequestResponseStream env payload opts =
  let upload := equal_fold (payloadDirection opts) "client-to-server" in
  let sent := if equal_fold (payloadDirection opts) "server-to-client" then 0 else len payload in
  let '(received, err) := readResponse (negb upload) payload (x_reads env) 0 in
  let expected := if upload then 0 else len payload in
  let err := match err with
             | Some err => Some err
             | None => if received =? expected then None
                       else Some (received_error received (if upload then "0" else pretty (len payload)))
             end in
  StreamResult (match err with None => x_latency env | Some _ => f_zero end) sent received err (request_of opts payload).
Proof.
  intros (H1 & H2 & H3 & H4 & H5). unfold runRequestResponseStream. rewrite H1, H2, H4, H5. cbv zeta.
  rewrite request_written by exact H3. cbn [c_out]. fold (request_of opts payload). rewrite Z.eqb_refl. cbn [negb].
  replace (if 0 <? _ then None else None) with (@None goerror) by (by destruct (0 <? _)).
  destruct (readResponse _ _ _ _) as [received [err|]]; [reflexivity|].
  destruct (equal_fold (payloadDirection opts) "client-to-server"); cbn [andb negb].
  - destruct (received =? 0); reflexivity.
  - destruct (received =? len payload); reflexivity.
Qed.

(** Reads that deliver the whole expected payload pass; any other answer fails. *)
Lemma download_decided p answer reads :
  delivers answer reads -> (len answer = len p -> answer = p) ->
  let '(received, err) := readResponse true p reads 0 in
  (match err with Some _ => False | None => received = len p end <-> len answer = len p) /\
  (err = None -> received = len answer).
Proof.
  intros Hd Heq. destruct (readResponse true p reads 0) as [received [err|]] eqn:E.
  - split; [split; [done|]|done]. intros Hl. specialize (Heq Hl). subst answer.
    pose proof (readResponse_part true [] p [] reads Hd) as H. rewrite app_nil_r in H. cbn [app len length] in H.
    change (len []) with 0 in H. rewrite E in H. discriminate H.
  - assert (received = len answer) as -> by (by apply (readResponse_counts _ _ _ _ _ _ Hd) in E). split; [split|]; lia.
Qed.

(** The answer to a request of the executor, and when its length is the payload's. *)
Lemma reply_length opts echo n :
  0 <= n <= Server.maxReadBytes -> 0 <= echo ->
  let answer := reply echo (request_of opts (deterministic 0 n)) in
  (len answer = n -> answer = deterministic 0 n) /\
  (len answer = n <-> (if equal_fold (payloadDirection opts) "server-to-client" then (0 <? n) || (echo <? 16)
                       else n <=? echo) = true).
Proof.
  intros Hn He. cbv zeta. unfold request_of. rewrite len_deterministic by lia.
  assert (E0 : deterministic 0 0 = []) by reflexivity. assert (L0 : len (@nil Z) = 0) by reflexivity.
  destruct (equal_fold (payloadDirection opts) "server-to-client").
  - rewrite reply_download by lia.
    destruct (Z.ltb_spec 0 n) as [Hp|Hz]; [|destruct (Z.leb_spec 16 echo)]; cbn [orb].
    + rewrite len_deterministic by lia. done.
    + rewrite len_buildDownloadRequest, Z.ltb_lt. split; [lia|]. lia.
    + assert (n = 0) as -> by lia. rewrite Z.ltb_lt. split; [done|]. rewrite L0. lia.
  - rewrite reply_payload by lia. destruct (Z.leb_spec n echo).
    + rewrite len_deterministic by lia. done.
    + rewrite L0. split; [|split; [lia|done]]. intros <-. by rewrite E0.
Qed.

Lemma reads_verdict (err : option goerror) received n e :
  match err with Some err => Some err | None => if received =? n then None else Some e end = None <->
  match err with Some _ => False | None => received = n end.
Proof. destruct err; [done|]. by destruct (Z.eqb_spec received n). Qed.

(** C35: a stream of the raw QUIC executor against the server of this repository succeeds
    exactly when it should. Whatever the behavior, the direction, the payload up to the
    server's limit of 64 MiB, the server's echo limit and the way the transport cuts the
    answer into reads: with no fault on the way, the stream ends without an error if and
    only if it is a download of at least one octet, an upload that the server does not
    echo, or an exchange within the echo limit; it then counts exactly the octets sent and
    answered. (A download of no octet is not a request to the server, which echoes it when
    its limit allows sixteen octets.) *)
Theorem raw_session_decided env opts n echo :
  0 <= n <= Server.maxReadBytes -> 0 <= echo -> well env ->
  let r := runStream env (deterministic 0 n) opts in
  let answer := reply echo (sr_written r) in
  delivers answer (x_reads env) ->
  (sr_err r = None <-> should_succeed opts n echo = true) /\
  (sr_err r = None -> sr_latency r = x_latency env /\ sr_received r = len answer /\
     sr_sent r = (if equal_fold (payloadDirection opts) "server-to-client"
                     && negb (equal_fold (behavior opts) "duplex-streams") then 0 else n)).
Proof.
  intros Hn He Hw. cbv zeta. assert (Hlen : len (deterministic 0 n) = n) by (apply len_deterministic; lia).
  unfold runStream, should_succeed. destruct (equal_fold (behavior opts) "duplex-streams").
  - rewrite andb_false_r. destruct Hw as (H1 & H2 & H3 & H4 & H5). unfold runDuplexStream. rewrite H1, H2, H3, H4.
    rewrite conn_write_all. destruct (countResponse (x_reads env) 0) as [received readErr] eqn:Ec.
    rewrite Z.eqb_refl. cbn [negb c_out app]. rewrite !Hlen.
    assert (W : forall e, sr_written (match e with
       | Some err => StreamResult f_zero n received (Some err) (deterministic 0 n)
       | None => StreamResult (x_latency env) n received None (deterministic 0 n) end) = deterministic 0 n) by (by intros []).
    rewrite W, reply_payload by lia. intros Hd. rewrite (countResponse_counts _ _ _ Hd) in Ec. injection Ec as <- <-.
    unfold validateDuplexResponse. rewrite Z.add_0_l.
    destruct (equal_fold (payloadDirection opts) "client-to-server"), (Z.leb_spec n echo) as [Hle|Hgt];
      rewrite ?Hlen; change (len []) with 0;
      match goal with |- context [?a =? ?b] => destruct (Z.eqb_spec a b) end; cbn [negb orb sr_err sr_latency sr_sent sr_received];
      rewrite ?orb_true_iff, ?Z.eqb_eq, ?Z.ltb_lt; split; try done; try lia; split; (done || lia).
  - rewrite andb_true_r, request_response by exact Hw. cbv zeta. rewrite !Hlen.
    destruct (readResponse _ _ _ _) as [received err] eqn:E. cbn [sr_written sr_err sr_latency sr_sent sr_received].
    unfold request_of. rewrite Hlen.
    destruct (equal_fold (payloadDirection opts) "client-to-server") eqn:Hup.
    + rewrite (directions_differ _ Hup), reply_payload by lia. intros Hd. cbn [negb] in E.
      rewrite (readResponse_unchecked _ _ _ _ Hd) in E. injection E as <- <-. rewrite Z.add_0_l.
      destruct (Z.leb_spec n echo); rewrite ?Hlen; change (len []) with 0;
        match goal with |- context [?a =? 0] => destruct (Z.eqb_spec a 0) end; cbn [orb];
        rewrite ?orb_true_iff, ?Z.eqb_eq, ?Z.ltb_lt; repeat split; try done; try lia.
    + cbn [negb] in E. intros Hd.
      destruct (reply_length opts echo n Hn He) as [Hfull Hok]. unfold request_of in Hfull, Hok. rewrite Hlen in Hfull, Hok.
      pose proof (download_decided (deterministic 0 n) _ _ Hd) as H. rewrite E, Hlen in H.
      destruct (H Hfull) as [H1 H2]. rewrite reads_verdict, H1. split; [exact Hok|].
      intros Hv. apply H1 in Hv. destruct err; [destruct Hv|]. specialize (H2 eq_refl).
      rewrite (proj2 (Z.eqb_eq _ _) Hv). split; [reflexivity|]. split; [exact H2|reflexivity].
Qed.

Definition raw_options (behavior direction : string) : options :=
  Options "localhost" "plab-raw-quic" behavior "bidirectional" 20 direction "sequential" 1 1 second 0 "quic://h:1/" true.
Definition raw_stream (reads : list (bytes * option goerror)) : streamEnv :=
  StreamEnv None None [] None None reads (f_of_Z 3).

(** A download in three reads succeeds; an upload the server echoes fails. *)
Lemma raw_session_decided_witness :
  sr_err (runStream (raw_stream [(deterministic 0 7, None); (deterministic 7 13, None); ([], Some EEOF)])
            (deterministic 0 20) (raw_options "large-payload" "server-to-client")) = None /\
  sr_err (runStream (raw_stream [(deterministic 0 20, Some EEOF)]) (deterministic 0 20)
            (raw_options "large-payload" "client-to-server")) <> None.
Proof.
  assert (Hn : 0 <= 20 <= Server.maxReadBytes) by (unfold Server.maxReadBytes; lia).
  split.
  - apply (raw_session_decided (raw_stream [(deterministic 0 7, None); (deterministic 7 13, None); ([], Some EEOF)])
             (raw_options "large-payload" "server-to-client") 20 65536 Hn); [lia|repeat split| |reflexivity].
    exists (deterministic 7 13). split; [reflexivity|]. exists []. split; reflexivity.
  - assert (Hd : delivers (reply 65536 (sr_written (runStream (raw_stream [(deterministic 0 20, Some EEOF)])
                                                    (deterministic 0 20) (raw_options "large-payload" "client-to-server"))))
                   [(deterministic 0 20, Some EEOF)]) by (vm_compute; reflexivity).
    destruct (raw_session_decided (raw_stream [(deterministic 0 20, Some EEOF)])
                (raw_options "large-payload" "client-to-server") 20 65536 Hn ltac:(lia) ltac:(repeat split) Hd) as [Hiff _].
    intros H. apply Hiff in H. vm_compute in H. discriminate H.
Defined.

(** ** Statistics up to the order of their samples *)

(** Goroutines append their samples in the order in which they finish; everything else is
    a sum. *)
Record stats_equiv (s t : runStats) : Prop := {
  se_total : totalRequests s = totalRequests t; se_ok : successfulRequests s = successfulRequests t;
  se_failed : failedRequests s = failedRequests t; se_timeouts : timeoutRequests s = timeoutRequests t;
  se_sent : bytesSent s = bytesSent t; se_received : bytesReceived s = bytesReceived t;
  se_latencies : latencies s ≡ₚ latencies t; se_connects : connectLatencies s ≡ₚ connectLatencies t;
  se_errors : errors s ≡ₚ errors t
}.
#[export] Instance stats_equivalence : Equivalence stats_equiv.
Proof.
  split.
  - intros s. by split.
  - intros s t []. by split.
  - intros s t u [] []. split; congruence || (etrans; eassumption).
Qed.
#[export] Instance merge_proper : Proper (stats_equiv ==> stats_equiv ==> stats_equiv) merge.
Proof. intros s s' [] t t' []. split; simpl; try lia; by apply Permutation_app. Qed.

(** Every update is the merge of statistics of its own. *)
Definition delta (a : action) : runStats :=
  match a with
  | AddTotal => RunStats 1 0 0 0 0 0 [] [] []
  | AddSent n => RunStats 0 0 0 0 n 0 [] [] []
  | AddReceived n => RunStats 0 0 0 0 0 n [] [] []
  | AddFailed => RunStats 0 0 1 0 0 0 [] [] []
  | AddTimeout => RunStats 0 0 0 1 0 0 [] [] []
  | AddSuccessful => RunStats 0 1 0 0 0 0 [] [] []
  | AppendError e => RunStats 0 0 0 0 0 0 [] [] [e]
  | AppendLatency l => RunStats 0 0 0 0 0 0 [l] [] []
  | Locked batch => batch
  end.
Lemma apply_merge s a : apply s a = merge s (delta a).
Proof. destruct s, a; unfold merge; simpl; f_equal; try lia; by rewrite app_nil_r. Qed.

Lemma merge_no_l s : merge noStats s = s.
Proof. by destruct s. Qed.
Lemma merge_no_r s : merge s noStats = s.
Proof. destruct s. unfold merge. simpl. rewrite !Z.add_0_r, !app_nil_r. reflexivity. Qed.
Lemma merge_assoc s t u : merge s (merge t u) = merge (merge s t) u.
Proof. destruct s, t, u. unfold merge. simpl. rewrite !app_assoc. f_equal; lia. Qed.
Lemma merge_comm s t : stats_equiv (merge s t) (merge t s).
Proof. destruct s, t. split; simpl; try lia; apply Permutation_app_comm. Qed.

(** The sum of a list of updates. *)
Definition summed (actions : list action) : runStats := foldr (fun a s => merge (delta a) s) noStats actions.

Lemma fold_apply actions s : fold_left apply actions s = merge s (summed actions).
Proof.
  revert s; induction actions as [|a actions IH]; intros s; simpl; [by rewrite merge_no_r|].
  by rewrite IH, apply_merge, merge_assoc.
Qed.

Lemma summed_app l k : summed (l ++ k) = merge (summed l) (summed k).
Proof. induction l as [|a l IH]; simpl; [by rewrite merge_no_l|]. by rewrite IH, merge_assoc. Qed.

#[export] Instance summed_proper : Proper ((≡ₚ) ==> stats_equiv) summed.
Proof.
  intros l k H. induction H as [|a l k H IH|a b l|l k m H1 IH1 H2 IH2]; simpl.
  - reflexivity.
  - by rewrite IH.
  - rewrite !merge_assoc. by rewrite (merge_comm (delta b) (delta a)).
  - by etrans.
Qed.

Lemma interleave_perm schedule goroutines : interleave schedule goroutines ≡ₚ concat goroutines.
Proof.
  revert goroutines; induction schedule as [|i schedule IH]; intros gs; simpl; [reflexivity|].
  destruct (gs !! i) as [[|a rest]|] eqn:E; [apply IH| |apply IH].
  rewrite IH. pose proof (take_drop_middle gs i _ E) as Hg.
  rewrite insert_take_drop by (by eapply lookup_lt_Some). rewrite <-Hg at 3.
  rewrite !concat_app. simpl. rewrite Permutation_middle. reflexivity.
Qed.

(** However the goroutines interleave, their updates add up. *)
Lemma runGoroutines_sum schedule goroutines :
  stats_equiv (runGoroutines schedule goroutines) (summed (concat goroutines)).
Proof. unfold runGoroutines. rewrite fold_apply, merge_no_l. by rewrite interleave_perm. Qed.

(** ** Batches *)

Lemma runSequentialStreams_sum payload opts streams :
  runSequentialStreams payload opts streams
  = summed (concat ((fun env => streamActions (runStream env payload opts)) <$> streams)).
Proof.
  unfold runSequentialStreams.
  enough (forall s, fold_left (fun s env => fold_left apply (streamActions (runStream env payload opts)) s) streams s
                    = merge s (summed (concat ((fun env => streamActions (runStream env payload opts)) <$> streams))))
    as -> by apply merge_no_l.
  induction streams as [|env streams IH]; intros s; [simpl; by rewrite merge_no_r|].
  rewrite fmap_cons. cbn [fold_left concat]. rewrite IH, fold_apply, summed_app, merge_assoc. reflexivity.
Qed.

Lemma summed_locked batches : summed (Locked <$> batches) = foldr merge noStats batches.
Proof. induction batches as [|b batches IH]; [reflexivity|]. rewrite fmap_cons. simpl. by rewrite <-IH. Qed.

Lemma concat_singletons {A B} (f : A -> B) l : concat ((fun x => [f x]) <$> l) = f <$> l.
Proof. induction l as [|x l IH]; [reflexivity|]. rewrite !fmap_cons. simpl. by rewrite <-IH. Qed.

(** What holds of every batch: a request either succeeded or failed; of the failed ones
    some timed out, and there is an error exactly when one failed. *)
Record accounted (s : runStats) : Prop := {
  ac_total : totalRequests s = successfulRequests s + failedRequests s;
  ac_ok : 0 <= successfulRequests s;
  ac_timeouts : 0 <= timeoutRequests s <= failedRequests s;
  ac_errors : len (errors s) <= failedRequests s;
  ac_failed : errors s = [] -> failedRequests s = 0
}.
Lemma accounted_none : accounted noStats.
Proof. split; simpl; try done; unfold len; simpl; lia. Qed.
Lemma accounted_merge s t : accounted s -> accounted t -> accounted (merge s t).
Proof.
  intros [] []. split; simpl; [lia|lia|lia|rewrite len_app; lia|].
  intros H. apply app_nil in H as [H1 H2]. rewrite ac_failed0, ac_failed1 by done. lia.
Qed.
Lemma accounted_merges batches : Forall accounted batches -> accounted (foldr merge noStats batches).
Proof. induction 1; [apply accounted_none|by apply accounted_merge]. Qed.
#[export] Instance accounted_proper : Proper (stats_equiv ==> impl) accounted.
Proof.
  intros s t [] []. split; try lia.
  - unfold len. rewrite <-se_errors0. unfold len in ac_errors0. lia.
  - intros H. rewrite H in se_errors0. rewrite <-se_failed0. apply ac_failed0. by apply Permutation_nil_r.
Qed.

(** One stream adds one request, with a latency or an error. *)
Lemma stream_counts r :
  let s := summed (streamActions r) in
  accounted s /\ totalRequests s = 1 /\ len (errors s) = failedRequests s /\
  len (latencies s) = successfulRequests s /\ bytesSent s = sr_sent r /\ bytesReceived s = sr_received r.
Proof.
  destruct r as [l sent received [err|] w]; unfold streamActions; cbn [sr_err sr_sent sr_received sr_latency].
  - destruct (isTimeoutError (Some err)); unfold summed; simpl; split_and!; (split; simpl; unfold len; simpl; lia || done) || (unfold len; simpl; lia).
  - unfold summed; simpl; split_and!; (split; simpl; unfold len; simpl; lia || done) || (unfold len; simpl; lia).
Qed.

Lemma runSequentialStreams_app payload opts l k :
  runSequentialStreams payload opts (l ++ k)
  = merge (runSequentialStreams payload opts l) (runSequentialStreams payload opts k).
Proof. by rewrite !runSequentialStreams_sum, fmap_app, concat_app, summed_app. Qed.

Lemma runSequentialStreams_concat payload opts conns :
  foldr merge noStats (runSequentialStreams payload opts <$> conns)
  = runSequentialStreams payload opts (concat conns).
Proof.
  induction conns as [|streams conns IH]; [reflexivity|]. rewrite fmap_cons. cbn [foldr concat].
  by rewrite IH, runSequentialStreams_app.
Qed.

Lemma concat_fmap {A B} (f : A -> list B) l k : concat (f <$> (l ++ k)) = concat (f <$> l) ++ concat (f <$> k).
Proof. by rewrite fmap_app, concat_app. Qed.

Definition total_received (results : list streamResult) : Z := foldr Z.add 0 (sr_received <$> results).

Lemma sequential_counts payload opts streams :
  let s := runSequentialStreams payload opts streams in
  accounted s /\ totalRequests s = len streams /\ len (errors s) = failedRequests s /\
  len (latencies s) = successfulRequests s /\
  bytesReceived s = total_received ((fun env => runStream env payload opts) <$> streams).
Proof.
  cbv zeta. induction streams as [|env streams IH].
  - split; [apply accounted_none|]. repeat split.
  - change (env :: streams) with ([env] ++ streams). rewrite runSequentialStreams_app.
    rewrite (runSequentialStreams_sum _ _ [env]). rewrite fmap_cons, fmap_nil. cbn [concat]. rewrite app_nil_r.
    destruct (stream_counts (runStream env payload opts)) as (A & B & C & D & _ & F).
    destruct IH as (A' & B' & C' & D' & F'). split; [by apply accounted_merge|].
    cbn [merge totalRequests errors failedRequests latencies successfulRequests bytesReceived].
    rewrite fmap_app, fmap_cons. unfold total_received in *. cbn [foldr app]. rewrite fmap_cons. cbn [foldr].
    rewrite !len_app, B, B', C, C', D, D', F, F'. unfold len. simpl length. repeat split; lia.
Qed.

(** Both kinds of batch count the same as running every stream of every connection one
    after the other, whatever the schedule of their goroutines: all totals are equal, and
    the samples and the errors are the same up to their order. In them every stream is one
    request, a success with a latency or a failure with an error, of which some are
    timeouts; and the octets received are the sum over the streams. *)
Theorem raw_batches_equivalent payload opts schedule conns :
  let s := runSequentialStreams payload opts (concat conns) in
  stats_equiv (runConcurrentStreamBatch payload opts schedule conns) s /\
  stats_equiv (runSequentialStreamBatch payload opts schedule conns) s /\
  totalRequests s = len (concat conns) /\ totalRequests s = successfulRequests s + failedRequests s /\
  len (latencies s) = successfulRequests s /\ len (errors s) = failedRequests s /\
  0 <= timeoutRequests s <= failedRequests s /\
  bytesReceived s = total_received ((fun env => runStream env payload opts) <$> concat conns).
Proof.
  cbv zeta. split; [|split].
  - unfold runConcurrentStreamBatch. rewrite runGoroutines_sum, runSequentialStreams_sum. reflexivity.
  - unfold runSequentialStreamBatch. rewrite runGoroutines_sum.
    rewrite (concat_singletons (fun streams => Locked (runSequentialStreams payload opts streams))).
    change (fun streams => Locked (runSequentialStreams payload opts streams))
      with (Locked ∘ runSequentialStreams payload opts).
    rewrite list_fmap_compose, summed_locked, runSequentialStreams_concat. reflexivity.
  - destruct (sequential_counts payload opts (concat conns)) as ([] & ? & ? & ? & ?). auto with lia.
Qed.

(** ** Loads *)

Lemma accounted_equiv s t : stats_equiv s t -> accounted t -> accounted s.
Proof. intros H. apply accounted_proper. by symmetry. Qed.

Lemma stream_batch_accounted payload opts (concurrent : bool) b :
  accounted (if concurrent then runConcurrentStreamBatch payload opts (b_schedule b) (snd <$> b_conns b)
             else runSequentialStreamBatch payload opts (b_schedule b) (snd <$> b_conns b)).
Proof.
  assert (H : accounted (runSequentialStreams payload opts (concat (snd <$> b_conns b)))) by apply sequential_counts.
  destruct concurrent; (eapply accounted_equiv; [|exact H]).
  - unfold runConcurrentStreamBatch. rewrite runGoroutines_sum, runSequentialStreams_sum. reflexivity.
  - unfold runSequentialStreamBatch. rewrite runGoroutines_sum.
    rewrite (concat_singletons (fun streams => Locked (runSequentialStreams payload opts streams))).
    change (fun streams => Locked (runSequentialStreams payload opts streams))
      with (Locked ∘ runSequentialStreams payload opts).
    rewrite list_fmap_compose, summed_locked, runSequentialStreams_concat. reflexivity.
Qed.

Lemma locked_accounted {A} (f : A -> runStats) schedule (l : list A) :
  (forall x, accounted (f x)) -> accounted (runGoroutines schedule ((fun x => [Locked (f x)]) <$> l)).
Proof.
  intros H. eapply accounted_equiv; [apply runGoroutines_sum|].
  rewrite (concat_singletons (fun x => Locked (f x))). change (fun x => Locked (f x)) with (Locked ∘ f).
  rewrite list_fmap_compose, summed_locked. apply accounted_merges, Forall_fmap, Forall_true. exact H.
Qed.

Lemma dialStats_accounted dial : accounted (dialStats dial).
Proof.
  destruct dial as [ms|err]; simpl; [|destruct (errors_is EDeadline err || is_net_timeout err)];
    split; simpl; unfold len; simpl; lia || done.
Qed.

Lemma churnStats_accounted payload opts conn : accounted (churnStats payload opts conn).
Proof.
  destruct conn as [[ms|err] streams]; unfold churnStats; cbn [fst snd].
  - destruct (sequential_counts payload opts streams) as ([] & _).
    destruct (runSequentialStreams payload opts streams). by split.
  - destruct (Z.ltb_spec (streamsPerConnection opts) 1), (isTimeoutError (Some err)); cbn [boolToInt64];
      split; simpl; unfold len; simpl length; lia || done.
Qed.

(** A measured loop: its statistics are accounted, and it returns an error exactly when
    one was recorded. *)
Lemma batchLoop_measured batches s s' err :
  Forall accounted batches -> accounted s -> batchLoop false true batches s = (s', err) ->
  accounted s' /\ (err = None -> errors s' = errors s) /\ (err <> None -> errors s' <> []).
Proof.
  intros Hb. revert s. induction Hb as [|b batches Hb _ IH]; intros s Hs; cbn [batchLoop].
  - intros [= <- <-]. split; [exact Hs|]. done.
  - assert (Hm : accounted (merge s b)) by (by apply accounted_merge). destruct (errors b) as [|e es] eqn:E.
    + intros H. destruct (IH _ Hm H) as (H1 & H2 & H3). split; [exact H1|]. split; [|exact H3].
      intros Hn. rewrite H2 by exact Hn. simpl. rewrite E. apply app_nil_r.
    + intros [= <- <-]. split; [exact Hm|]. split; [done|]. intros _. simpl. rewrite E. by destruct (errors s).
Qed.

(** A measured load that succeeded at anything is accounted, and failed exactly when it
    returned an error. *)
Lemma runLoad_measured urlParse env opts duration_ s err :
  runLoad urlParse env opts duration_ false = (s, err) -> successfulRequests s <> 0 ->
  accounted s /\ (err = None <-> errors s = []).
Proof.
  intros H Hs.
  assert (Hloop : forall batches, Forall accounted batches -> batchLoop false true batches noStats = (s, err) ->
            accounted s /\ (err = None <-> errors s = [])).
  { intros batches Hb Hl. destruct (batchLoop_measured _ _ _ _ Hb accounted_none Hl) as (H1 & H2 & H3).
    split; [exact H1|]. split; [exact H2|]. intros He. destruct err; [|done]. by destruct (H3 ltac:(done)). }
  assert (Hstream : forall concurrent, runStreamLoad urlParse env opts duration_ false concurrent = (s, err) ->
            accounted s /\ (err = None <-> errors s = [])).
  { intros concurrent. unfold runStreamLoad. destruct (urlParse (target opts)); [|intros E; injection E as <- _; destruct (Hs eq_refl)].
    destruct (firstError (ph_dials env)); [intros E; injection E as <- _; destruct (Hs eq_refl)|].
    apply Hloop. apply Forall_fmap, Forall_true. intros b. apply stream_batch_accounted. }
  unfold runLoad in H. destruct (string_in sequentialBehaviors _); [by apply (Hstream false)|].
  destruct (string_in concurrentBehaviors _); [by apply (Hstream true)|].
  destruct (String.eqb _ "handshake-cold").
  { unfold runHandshakeColdLoad in H. destruct (urlParse _); [|injection H as <- _; destruct (Hs eq_refl)].
    eapply Hloop; [|exact H]. apply Forall_fmap, Forall_true. intros b. apply locked_accounted, dialStats_accounted. }
  destruct (String.eqb _ "connection-churn").
  { unfold runConnectionChurnLoad in H. destruct (urlParse _); [|injection H as <- _; destruct (Hs eq_refl)].
    eapply Hloop; [|exact H]. apply Forall_fmap, Forall_true. intros b. apply locked_accounted, churnStats_accounted. }
  destruct (String.eqb _ "stream-churn"); [by apply (Hstream false)|]. injection H as <- _. destruct (Hs eq_refl).
Qed.

(** ** Exit codes *)

(** A result of the raw QUIC executor with exit code 0. The options were accepted and
    are the document's; some request succeeded; every request either succeeded or failed,
    with some of the failures timeouts; no error is listed exactly when nothing failed; and
    with -fail-on-errors nothing failed. (Without it failures do not change the exit
    code.) *)
Theorem raw_exit_zero_is_earned env d :
  main env = (0, Some d) ->
  exists opts, parseOptions (m_parse env) (m_urlParse env) = Ok opts /\
  OTarget d = target opts /\ OBehavior d = behavior opts /\
  ORequestedLoad d = requestedLoadShape (m_getenv env) opts /\ OEffectiveLoad d = ORequestedLoad d /\
  0 < SuccessfulRequests (OMetrics d) /\
  TotalRequests (OMetrics d) = SuccessfulRequests (OMetrics d) + FailedRequests (OMetrics d) /\
  0 <= TimeoutRequests (OMetrics d) <= FailedRequests (OMetrics d) /\
  (FailedRequests (OMetrics d) = 0 <-> OErrors d = []) /\
  (failOnErrors opts = true -> FailedRequests (OMetrics d) = 0).
Proof.
  unfold main. destruct (m_version env); [done|].
  destruct (parseOptions _ _) as [opts|] eqn:Hp; [|done]. destruct (if 0 <? warmup opts then _ else _); [done|].
  destruct (runLoad _ (m_measured env) _ _ _) as [s err] eqn:Hl. destruct (m_encode env); [done|].
  destruct (_ || _) eqn:Hx; [done|]. intros E. injection E as <-. apply orb_false_iff in Hx as [H0 Hf].
  apply Z.eqb_neq in H0. destruct (runLoad_measured _ _ _ _ _ _ Hl H0) as [[] Herr].
  exists opts. cbn [newOutputDocument OTarget OBehavior ORequestedLoad OEffectiveLoad OMetrics OErrors].
  unfold buildMetrics. cbn [SuccessfulRequests TotalRequests FailedRequests TimeoutRequests].
  do 5 (split; [done|]). split; [lia|]. split; [lia|]. split; [lia|]. split.
  - split; [|intros H; apply app_nil in H as [H _]; by apply ac_failed0].
    intros Hz. assert (errors s = []) as He.
    { destruct (errors s) as [|e es]; [done|]. unfold len in ac_errors0. simpl in ac_errors0. lia. }
    rewrite He. apply Herr in He. by subst err.
  - intros Hfail. rewrite Hfail in Hf. cbn [andb] in Hf. apply orb_false_iff in Hf as [Hf _].
    apply orb_false_iff in Hf as [_ Hf]. apply Z.ltb_ge in Hf. lia.
Qed.

Definition raw_phase : phaseEnv :=
  PhaseEnv [None] (BatchEnv [0%nat] [(Ok f_zero, [raw_stream [(deterministic 0 20, Some EEOF)]])]) [].
Definition raw_main (opts : options) (measured : phaseEnv) : mainEnv :=
  MainEnv (fun _ => "") false (fun _ => Ok (opts, ["quic://h:1/"])) (fun _ => Ok (ParsedURL "quic" "h:1"))
    raw_phase measured second None.
Definition raw_document : outputDocument :=
  newOutputDocument (fun _ => "") (raw_options "large-payload" "bidirectional")
    (buildMetrics (RunStats 1 1 0 0 20 20 [f_of_Z 3] [] []) second) [].

Lemma raw_exit_zero_is_earned_witness :
  main (raw_main (raw_options "large-payload" "bidirectional") raw_phase) = (0, Some raw_document) /\
  FailedRequests (OMetrics raw_document) = 0.
Proof.
  assert (H : main (raw_main (raw_options "large-payload" "bidirectional") raw_phase) = (0, Some raw_document))
    by (vm_compute; reflexivity).
  split; [exact H|]. destruct (raw_exit_zero_is_earned _ _ H) as (opts & _ & _ & _ & _ & _ & _ & _ & _ & [_ H1] & _).
  apply H1. reflexivity.
Defined.

(** ** Failures that are not accounted *)

(** The behaviors of [runStreamLoad]. *)
Definition stream_behavior (b : string) : bool :=
  string_in sequentialBehaviors (to_lower b) || string_in concurrentBehaviors (to_lower b)
  || String.eqb (to_lower b) "stream-churn".

Lemma runLoad_stream urlParse env opts duration_ discard :
  stream_behavior (behavior opts) = true ->
  exists concurrent, runLoad urlParse env opts duration_ discard
                     = runStreamLoad urlParse env opts duration_ discard concurrent.
Proof.
  unfold stream_behavior, runLoad. intros H. destruct (string_in sequentialBehaviors _); [eauto|].
  destruct (string_in concurrentBehaviors _); [eauto|]. cbn [orb] in H. apply String.eqb_eq in H. rewrite H. eauto.
Qed.

(** A stream load whose connections cannot be dialled reports no request at all. In the
    measured phase, whichever connection fails, the process exits 1 with a document whose
    failed requests are connections times streams, all at once, while its total requests
    and its timeouts are 0 and its error rate is 0; the dial error is listed twice. *)
Theorem raw_dial_failure_unaccounted env opts err :
  m_version env = false -> m_encode env = None -> parseOptions (m_parse env) (m_urlParse env) = Ok opts ->
  warmup opts = 0 -> stream_behavior (behavior opts) = true -> is_ok (m_urlParse env (target opts)) = true ->
  connections opts * streamsPerConnection opts < 2 ^ 63 -> 0 <= connections opts * streamsPerConnection opts ->
  firstError (ph_dials (m_measured env)) = Some err ->
  exists d, main env = (1, Some d) /\
    FailedRequests (OMetrics d) = connections opts * streamsPerConnection opts /\
    TotalRequests (OMetrics d) = 0 /\ TimeoutRequests (OMetrics d) = 0 /\ ErrorRate (OMetrics d) = f_zero /\
    OErrors d = [error_string err; error_string err].
Proof.
  intros Hv He Hp Hw Hb Hu Hlt Hge Hd. unfold main. rewrite Hv, Hp, He, Hw, Z.ltb_irrefl.
  destruct (runLoad_stream (m_urlParse env) (m_measured env) opts (duration opts) false Hb) as [concurrent ->].
  unfold runStreamLoad. destruct (m_urlParse env (target opts)); [|discriminate Hu]. rewrite Hd.
  assert (Hi : int_of (connections opts * streamsPerConnection opts) = connections opts * streamsPerConnection opts).
  { unfold int_of. rewrite Z.mod_small by lia. lia. }
  rewrite Hi. eexists. split; [reflexivity|]. repeat split.
Qed.

Definition refused_phase : phaseEnv :=
  PhaseEnv [None; Some (ENet true "timeout: no recent network activity")] (BatchEnv [] []) [].

Lemma raw_dial_failure_unaccounted_witness :
  exists d, main (raw_main (raw_options "large-payload" "bidirectional") refused_phase) = (1, Some d) /\
    FailedRequests (OMetrics d) = 1 /\ TotalRequests (OMetrics d) = 0 /\ ErrorRate (OMetrics d) = f_zero.
Proof.
  destruct (raw_dial_failure_unaccounted (raw_main (raw_options "large-payload" "bidirectional") refused_phase)
              (raw_options "large-payload" "bidirectional") (ENet true "timeout: no recent network activity")
              eq_refl eq_refl eq_refl eq_refl eq_refl eq_refl ltac:(reflexivity) ltac:(discriminate) eq_refl)
    as (d & H1 & H2 & H3 & _ & H4 & _).
  exists d. split; [exact H1|]. split; [exact H2|]. split; [exact H3|exact H4].
Defined.

(** A warm-up of the behaviors that dial in every batch never fails. *)
Lemma batchLoop_warmup batches s : batchLoop true false batches s = (s, None).
Proof. induction batches as [|b batches IH]; [reflexivity|]. cbn [batchLoop]. by destruct (errors b). Qed.

Lemma warmup_ignores_dial_failures urlParse env opts duration_ :
  to_lower (behavior opts) = "handshake-cold" \/ to_lower (behavior opts) = "connection-churn" ->
  is_ok (urlParse (target opts)) = true -> runLoad urlParse env opts duration_ true = (noStats, None).
Proof.
  intros H Hu. unfold runLoad, runHandshakeColdLoad, runConnectionChurnLoad.
  destruct (urlParse (target opts)); [|discriminate Hu]. destruct H as [-> | ->]; apply batchLoop_warmup.
Qed.
