(* ===== verification/Http1Load.v ===== *)
(** go-http1-executor: the exact HTTP/1.1 checks, the load run through the pinned oha
    binary, the normalization of its report, and the exit code. What the two HTTP load
    executors write in the same way is taken from [H2Load]. *)
From stdpp Require Import sorting fin_maps.
From Stdlib Require Import Ascii.
From S2P Require Export Prelude Stats GoText GoHash H2Load.

(** ** Checks (main.go) *)

Definition executorID : string := "go-http1-executor".
Definition executorVersion : string := "0.3.1".
Definition requestedVersion : string := "HTTP/1.1".

Definition defaultExpectations : list scenarioExpectation :=
  [Expectation "http1.core.plaintext" "/plaintext" 200 "text/plain" (bytes_of_string "Hello, World!");
   Expectation "http1.core.json" "/json" 200 "application/json" (bytes_of_string json_body)].
Definition findExpectation (scenarioID : string) : res scenarioExpectation :=
  match find (fun e => String.eqb (e_id e) scenarioID) defaultExpectations with
  | Some e => Ok e
  | None => Err (EMsg ("scenario " +:+ go_quote scenarioID +:+ " is unsupported by " +:+ executorID))
  end.

Definition isExactHTTP11 (major minor : Z) : bool := (major =? 1) && (minor =? 1).

Definition joinURL (parsed : res parsedURL) (requestPath : string) : res string :=
  let? p := parsed in
  guard negb (String.eqb (u_scheme p) "" || String.eqb (u_host p) "")
    else EMsg "target-url must include scheme and host" in
  guard equal_fold (u_scheme p) "http"
    else EMsg "go-http1-executor 0.3.1 supports cleartext HTTP/1.1 targets only" in
  Ok (u_scheme p +:+ "://" +:+ u_userinfo p +:+ u_host p +:+ requestPath).

Definition checkProblems (e : scenarioExpectation) (r : httpResponse) (body : bytes) : list string :=
  (if negb (isExactHTTP11 (r_major r) (r_minor r))
   then ["expected exact HTTP/1.1, observed " +:+ r_proto r] else [])
  ++ (if negb (r_status r =? e_status e)
      then ["expected status " +:+ pretty (e_status e) +:+ ", observed " +:+ pretty (r_status r)] else [])
  ++ (if negb (mediaTypeMatches (r_contentType r) (e_contentType e))
      then ["expected content type " +:+ go_quote (e_contentType e) +:+ ", observed "
            +:+ go_quote (r_contentType r)] else [])
  ++ (if negb (len body =? len (e_body e))
      then ["expected payload length " +:+ pretty (len (e_body e)) +:+ ", observed "
            +:+ pretty (len body)] else [])
  ++ (if negb (bool_decide (body = e_body e))
      then ["expected payload SHA-256 " +:+ sha256Hex (e_body e) +:+ ", observed " +:+ sha256Hex body] else []).

(** [runCheck]: [env] holds what making the request and [client.Do] give; a redirect is an
    error of the latter. *)
Definition runCheck (target : res parsedURL) (env : checkEnv) (e : scenarioExpectation) : checkResult :=
  match joinURL target (e_path e), ce_request env, ce_response env with
  | Err err, _, _ | Ok _, Some err, _ => baseCheck e false (error_string err)
  | Ok _, None, Err err => baseCheck e (isTimeout err) (error_string err)
  | Ok _, None, Ok r =>
      let fallback := negb (isExactHTTP11 (r_major r) (r_minor r)) in
      let build passed length digest error :=
        CheckResult (e_id e) (e_path e) passed (e_status e) (r_status r) (e_contentType e) (r_contentType r)
          (len (e_body e)) length (sha256Hex (e_body e)) digest (r_proto r) fallback false error in
      match st_end (r_body r) with
      | EEOF =>
          let body := st_data (r_body r) in
          let problems := checkProblems e r body in
          build (bool_decide (problems = [])) (len body) (sha256Hex body) (join "; " problems)
      | err => build false 0 "" (error_string err)
      end
  end.

(** The summary [main] makes of its checks, of which there are always two. *)
Definition summarize (checks : list checkResult) : checkSummary :=
  CheckSummary (forallb CPassed checks) (existsb CFallbackDetected checks)
    (len (List.filter (fun c => negb (CPassed c)) checks)) (len (List.filter TimedOut checks))
    (merge_sort String.le (elements (list_to_set
       (List.filter (fun v => negb (String.eqb v "")) (ObservedVersion <$> checks)) : gset string))).

(** ** The load configuration (load.go) *)

Record loadConfig := LoadConfig {
  ScenarioID : string; Connections : Z; StreamsPerConnection : Z; Duration : Z; Warmup : Z;
  Repetition : Z; RequestTimeout : Z; ExecutionTimeout : Z; OhaPath : string
}.

(** [packaged] is what [resolvePackagedOhaPath] finds beside the executable. *)
Definition loadConfigFromEnvironment (getenv : string -> string) (packaged : res string) : res loadConfig :=
  let streams := envInt getenv "PLAB_STREAMS_PER_CONNECTION" 1 in
  let duration := envSeconds getenv "PLAB_DURATION_SECONDS" in
  let warmup := envSeconds getenv "PLAB_WARMUP_SECONDS" in
  let timeout := envSeconds getenv "PLAB_TIMEOUT_SECONDS" in
  let build path := LoadConfig (trim_space (getenv "PLAB_SCENARIO_ID")) (envInt getenv "PLAB_CONNECTIONS" 0) streams
    duration warmup (envInt getenv "PLAB_REPETITION" 1) (10 * second)
    (if timeout <=? 0 then int_of (duration + warmup + 30 * second) else timeout) path in
  guard negb (String.eqb (trim_space (getenv "PLAB_SCENARIO_ID")) "")
    else EMsg "PLAB_SCENARIO_ID is required for performance execution" in
  guard negb (envInt getenv "PLAB_CONNECTIONS" 0 <=? 0) else EMsg "PLAB_CONNECTIONS must be greater than zero" in
  guard streams =? 1
    else EMsg ("HTTP/1.1 requires PLAB_STREAMS_PER_CONNECTION=1, observed " +:+ pretty streams) in
  guard negb (duration <=? 0) else EMsg "PLAB_DURATION_SECONDS must be greater than zero" in
  guard negb ((warmup <? 0) || (envInt getenv "PLAB_REPETITION" 1 <=? 0))
    else EMsg "warmup must be non-negative and repetition must be greater than zero" in
  let path := trim_space (getenv "PLAB_OHA_PATH") in
  if String.eqb path "" then let? path := packaged in Ok (build path) else Ok (build path).

(** ** oha *)

Definition ohaVersion : string := "1.15.0".
Definition ohaWindowsAMD64PGOSHA256 : string := "b1dac6c1272abbb4b2c52723d869f0bfdd7807e742955e46e5cb515a15114f6f".
Definition ohaLinuxAMD64PGOSHA256 : string := "54008b400a990998824c4f91952c18565433452b3b71c2f4b47d9aebfaa34d9c".

(** [runtime.GOOS] and [runtime.GOARCH]. *)
Definition expectedOhaSHA256 (goos goarch : string) : res string :=
  let unavailable := EMsg ("oha " +:+ ohaVersion +:+ " is not packaged for " +:+ goos +:+ "/" +:+ goarch) in
  guard String.eqb goarch "amd64" else unavailable in
  if String.eqb goos "windows" then Ok ohaWindowsAMD64PGOSHA256
  else if String.eqb goos "linux" then Ok ohaLinuxAMD64PGOSHA256
  else Err unavailable.
(** [fileSHA256] of what [os.ReadFile] gives. *)
Definition fileSHA256 (file : res bytes) : res string := let? data := file in Ok (sha256_hex data).
Definition verifyOha (goos goarch : string) (file : res bytes) : option goerror :=
  match expectedOhaSHA256 goos goarch with
  | Err err => Some err
  | Ok expected =>
      match fileSHA256 file with
      | Err err => Some err
      | Ok actual =>
          if String.eqb actual expected then None
          else Some (EMsg ("oha SHA-256 mismatch: expected " +:+ expected +:+ ", observed " +:+ actual))
      end
  end.

Section oha.
(** [time.Duration.String], for durations that are not whole seconds. *)
Variable durationString : Z -> string.

Definition formatDuration (value : Z) : string :=
  if Z.rem value second =? 0 then pretty (Z.quot value second) +:+ "s" else durationString value.

Definition buildOhaArguments (targetURL : string) (connections duration requestTimeout : Z) : list string :=
  ["--no-tui"; "--no-color"; "--output-format"; "json"; "--http-version"; "1.1"; "--redirect"; "0";
   "--disable-compression"; "--wait-ongoing-requests-after-deadline";
   "-z"; formatDuration duration; "-c"; pretty connections; "-t"; formatDuration requestTimeout;
   "-H"; "Accept-Encoding: identity"; targetURL].

(** Blanks, tabs and quotes make an argument quoted. *)
Fixpoint containsAny (s : string) : bool :=
  match s with
  | EmptyString => false
  | String c s => bool_decide (c = " "%char \/ c = "009"%char \/ c = "034"%char) || containsAny s
  end.
Definition formatCommand (executable : string) (arguments : list string) : string :=
  join " " (executable :: ((fun a => if containsAny a then go_quote a else a) <$> arguments)).

(** The report, as far as it is read; a JSON object with numbers is a map. *)
Record ohaJSON := OhaJSON {
  Average : float64; RequestsPerSec : float64; TotalData : Z; SizePerSec : float64;
  LatencyPercentiles : gmap string float64; FirstByteAverage : float64;
  StatusCodeDistribution : gmap string Z; ErrorDistribution : gmap string Z
}.
Definition requiredPercentiles : list string := ["p50"; "p75"; "p90"; "p95"; "p99"].

(** [parsed] is what [json.Unmarshal] makes of the output. *)
Definition parseOhaJSON (parsed : res ohaJSON) (expectedStatus : Z) : res ohaJSON :=
  match parsed with
  | Err err => Err (EWrap "parse oha JSON" err)
  | Ok p =>
      match find (fun name => bool_decide (LatencyPercentiles p !! name = None)) requiredPercentiles with
      | Some name => Err (EMsg ("oha JSON did not contain latency percentile " +:+ name))
      | None =>
          guard negb (SFltb (RequestsPerSec p) f_zero || (TotalData p <? 0) || SFltb (SizePerSec p) f_zero)
            else EMsg "oha JSON contained negative metrics" in
          guard bool_decide (is_Some (StatusCodeDistribution p !! pretty expectedStatus))
            else EMsg ("oha JSON did not contain expected status " +:+ pretty expectedStatus) in
          Ok p
      end
  end.

(** The four counters, and the additions of [int64]s to them. *)
Record counts := Counts { c_total : Z; c_successful : Z; c_failed : Z; c_timedOut : Z }.
Definition add64 (a b : Z) : Z := int_of (a + b).
Definition countStatus (expected status : string) (count : Z) (c : counts) : counts :=
  let '(Counts total ok failed timedOut) := c in
  if String.eqb status expected then Counts (add64 total count) (add64 ok count) failed timedOut
  else Counts (add64 total count) ok (add64 failed count) timedOut.
Definition timeoutName (name : string) : bool :=
  contains_sub (to_lower name) "timeout" || contains_sub (to_lower name) "deadline".
Definition countError (name : string) (count : Z) (c : counts) : counts :=
  let '(Counts total ok failed timedOut) := c in
  if timeoutName name then Counts (add64 total count) ok failed (add64 timedOut count)
  else Counts (add64 total count) ok (add64 failed count) timedOut.

Definition milliseconds (x : float64) : float64 := fmul x (f_of_Z 1000).
(** The metrics: the ranges over the maps meet their keys in some order. *)
Record httpMetrics := HttpMetrics {
  TotalRequests : Z; SuccessfulRequests : Z; FailedRequests : Z; TimeoutRequests : Z;
  MRequestsPerSecond : float64; BytesReceived : Z; ThroughputBytesPerSecond : float64;
  LatencyMeanMS : float64; LatencyPercentilesMS : list float64; TimeToFirstByteMeanMS : float64;
  StatusCodeCounts : gmap string Z
}.
Definition normalizeOhaMetrics (p : ohaJSON) (expectedStatus : Z) : httpMetrics :=
  let c := map_fold (countStatus (pretty expectedStatus)) (Counts 0 0 0 0) (StatusCodeDistribution p) in
  let c := map_fold countError c (ErrorDistribution p) in
  HttpMetrics (c_total c) (c_successful c) (c_failed c) (c_timedOut c) (RequestsPerSec p) (TotalData p) (SizePerSec p)
    (milliseconds (Average p))
    ((fun name => milliseconds (default f_zero (LatencyPercentiles p !! name))) <$> requiredPercentiles)
    (milliseconds (FirstByteAverage p)) (StatusCodeDistribution p).

(** ** A load run *)

Record loadShape := LoadShape {
  SConnections : Z; SConcurrency : Z; SStreams : Z; SDurationSeconds : float64; SWarmupSeconds : float64; SRepetition : Z
}.
Record executorResult := ExecutorResult {
  GeneratorSHA256 : string; GeneratorCommand : string; RequestedLoad : loadShape; EffectiveLoad : loadShape;
  Metrics : httpMetrics
}.

(** What a run meets: the platform, the file at the oha path when it is verified and when
    it is hashed again, the outputs of the commands, what [json.Unmarshal] makes of the
    measured one, and the artifact writes. *)
Record ohaEnv := OhaEnv {
  o_goos : string; o_goarch : string; o_file : res bytes; o_fileAfter : res bytes;
  o_version : bytes * option goerror; o_warmup : bytes * option goerror; o_measured : bytes * option goerror;
  o_unmarshal : bytes -> res ohaJSON; o_write : string -> option goerror
}.

Definition measuredArtifacts : list string :=
  ["oha.stdout.json"; "oha.stderr.txt"; "oha.command.txt"; "oha.version.txt"].
Definition firstWriteError (write : string -> option goerror) (names : list string) : option goerror :=
  head (omap write names).

Definition shape (c : loadConfig) : loadShape :=
  LoadShape (Connections c) (Connections c) 1 (seconds (Duration c)) (seconds (Warmup c)) (Repetition c).

Definition runOhaLoad (env : ohaEnv) (target : res parsedURL) (e : scenarioExpectation) (c : loadConfig)
    : res executorResult :=
  match verifyOha (o_goos env) (o_goarch env) (o_file env), (o_version env).2 with
  | Some err, _ => Err err
  | None, Some err => Err (EWrap "capture oha version" err)
  | None, None =>
      let observedVersion := trim_space (string_of_bytes (o_version env).1) in
      guard String.eqb observedVersion ("oha " +:+ ohaVersion)
        else EMsg ("oha version mismatch: expected " +:+ go_quote ("oha " +:+ ohaVersion) +:+ ", observed "
                   +:+ go_quote observedVersion) in
      let? targetURL := joinURL target (e_path e) in
      match (if 0 <? Warmup c then (o_warmup env).2 else None) with
      | Some err => Err (EWrap "oha warmup failed" err)
      | None =>
          let args := buildOhaArguments targetURL (Connections c) (Duration c) (RequestTimeout c) in
          match firstWriteError (o_write env) measuredArtifacts, (o_measured env).2 with
          | Some err, _ => Err err
          | None, Some err => Err (EWrap "oha measured run failed" err)
          | None, None =>
              let? parsed := parseOhaJSON (o_unmarshal env (o_measured env).1) (e_status e) in
              let? hash := fileSHA256 (o_fileAfter env) in
              let metrics := normalizeOhaMetrics parsed (e_status e) in
              guard (FailedRequests metrics =? 0) && (TimeoutRequests metrics =? 0)
                else EMsg ("oha recorded failed or timed-out requests (failed=" +:+ pretty (FailedRequests metrics)
                           +:+ " timeout=" +:+ pretty (TimeoutRequests metrics) +:+ ")") in
              Ok (ExecutorResult hash (formatCommand (OhaPath c) args) (shape c) (shape c) metrics)
          end
      end
  end.

(** ** [main] *)

Record mainEnv := MainEnv {
  m_getenv : string -> string; m_targetURL : string; m_parsed : res parsedURL; m_timeout : Z;
  m_validationOnly : bool; m_showVersion : bool; m_mkdir : option goerror; m_write : string -> option goerror;
  m_stdout : option goerror; m_checks : nat -> checkEnv; m_packaged : res string; m_oha : ohaEnv
}.
Definition substitution (getenv : string -> string) (name expected : string) : bool :=
  let observed := trim_space (getenv name) in
  negb (String.eqb observed "") && negb (String.eqb observed expected).

Definition runLoad (env : mainEnv) : Z * option executorResult :=
  match loadConfigFromEnvironment (m_getenv env) (m_packaged env) with
  | Err _ => (2, None)
  | Ok c =>
      match findExpectation (ScenarioID c) with
      | Err _ => (2, None)
      | Ok e =>
          match runOhaLoad (m_oha env) (m_parsed env) e c with
          | Err _ => (1, None)
          | Ok result =>
              match firstWriteError (m_write env) ["load-generator-identity.json"; "http-executor-result.json"],
                    m_stdout env with
              | None, None => (0, Some result)
              | _, _ => (1, None)
              end
          end
      end
  end.

(** The exit code, and the result written to standard output. *)
Definition main (env : mainEnv) : Z * option executorResult :=
  if m_showVersion env then (0, None)
  else if String.eqb (trim_space (m_targetURL env)) "" || (m_timeout env <=? 0)
     || existsb (fun '(n, v) => substitution (m_getenv env) n v)
          [("PLAB_EXECUTOR_ID", executorID); ("PLAB_EXECUTOR_VERSION", executorVersion)]
  then (2, None) else
  let checks := imap (fun i e => runCheck (m_parsed env) (m_checks env i) e) defaultExpectations in
  match m_mkdir env, firstWriteError (m_write env)
          ["validation.json"; "result.json"; "protocol-proof.json"; "executor-identity.json"] with
  | Some _, _ | None, Some _ => (1, None)
  | None, None =>
      if negb (s_passed (summarize checks)) then (1, None)
      else if m_validationOnly env then (0, None)
      else runLoad env
  end.
End oha.
