(* ===== verification/Http1LoadProps.v ===== *)
(** go-http1-executor: what the normalized metrics count, and what a result has earned. *)
From stdpp Require Import fin_maps.
From S2P Require Export Prelude Stats GoText GoHash H2Load Http1Load.

(** ** The metrics *)

Lemma int_of_range z : -9223372036854775808 <= int_of z < 9223372036854775808.
Proof. unfold int_of. pose proof (Z.mod_pos_bound (z + 9223372036854775808) 18446744073709551616). lia. Qed.

Lemma int_of_add a b : int_of (int_of a + b) = int_of (a + b).
Proof.
  unfold int_of. f_equal.
  replace ((a + 9223372036854775808) mod 18446744073709551616 - 9223372036854775808 + b + 9223372036854775808)
    with ((a + 9223372036854775808) mod 18446744073709551616 + b) by lia.
  rewrite Zplus_mod_idemp_l. f_equal. lia.
Qed.

Lemma int_of_sum a b c : int_of (int_of a + int_of b + int_of c) = int_of (a + b + c).
Proof.
  rewrite <-Z.add_assoc, int_of_add, (Z.add_comm a), <-Z.add_assoc, int_of_add, (Z.add_comm b), <-Z.add_assoc, int_of_add.
  f_equal. lia.
Qed.

(** The sum of the numbers of a JSON object. *)
Definition map_sum (m : gmap string Z) : Z := map_fold (fun _ n acc => n + acc) 0 m.

Lemma map_sum_insert i x m : m !! i = None -> map_sum (<[i:=x]> m) = x + map_sum m.
Proof. intros H. unfold map_sum. rewrite map_fold_insert_L; [reflexivity| |exact H]. intros. lia. Qed.

(** The counters are sums modulo 2^64: [total] of everything that was counted, the others
    of their share of it. *)
Record counted (total ok failed timedOut : Z) (c : counts) : Prop := {
  ct_total : c_total c = int_of total; ct_ok : c_successful c = int_of ok;
  ct_failed : c_failed c = int_of failed; ct_timedOut : c_timedOut c = int_of timedOut;
  ct_split : total = ok + failed + timedOut
}.

Lemma count_statuses expected m :
  let c := map_fold (countStatus expected) (Counts 0 0 0 0) m in
  counted (map_sum m) (default 0 (m !! expected)) (map_sum m - default 0 (m !! expected)) 0 c.
Proof.
  apply (map_fold_weak_ind (fun c m => counted (map_sum m) (default 0 (m !! expected))
           (map_sum m - default 0 (m !! expected)) 0 c)); [by split|].
  intros i x m' [total ok failed timedOut] Hi [H1 H2 H3 H4 H5]. cbn [c_total c_successful c_failed c_timedOut] in *.
  rewrite map_sum_insert by exact Hi. unfold countStatus, add64. destruct (String.eqb_spec i expected) as [->|Hne].
  - rewrite lookup_insert_eq. rewrite Hi in *. cbn [from_option id] in *.
    split; cbn [c_total c_successful c_failed c_timedOut]; [rewrite H1|rewrite H2|rewrite H3| |]; rewrite ?int_of_add;
      try (f_equal; lia); try assumption; lia.
  - rewrite lookup_insert_ne by exact Hne.
    split; cbn [c_total c_successful c_failed c_timedOut]; [rewrite H1|exact H2|rewrite H3|exact H4|]; rewrite ?int_of_add;
      try (f_equal; lia); lia.
Qed.

(** The errors that [timeoutName] takes for timeouts, and their number. *)
Definition timeouts_of (m : gmap string Z) : Z :=
  map_fold (fun name n acc => if timeoutName name then n + acc else acc) 0 m.

Lemma timeouts_of_insert i x m :
  m !! i = None -> timeouts_of (<[i:=x]> m) = (if timeoutName i then x else 0) + timeouts_of m.
Proof.
  intros H. unfold timeouts_of. rewrite map_fold_insert_L; [by destruct (timeoutName i)| |exact H].
  intros j1 j2 z1 z2 y _ _ _. destruct (timeoutName j1), (timeoutName j2); lia.
Qed.

Lemma count_errors total ok failed m c :
  counted total ok failed 0 c ->
  counted (total + map_sum m) ok (failed + (map_sum m - timeouts_of m)) (timeouts_of m) (map_fold countError c m).
Proof.
  intros H0. apply (map_fold_weak_ind (fun c m => counted (total + map_sum m) ok
                      (failed + (map_sum m - timeouts_of m)) (timeouts_of m) c)).
  - destruct H0 as [H1 H2 H3 H4 H5]. change (map_sum ∅) with 0. change (timeouts_of ∅) with 0.
    split; rewrite ?Z.add_0_r; try assumption; lia.
  - intros i x m' [t o f d] Hi [H1 H2 H3 H4 H5]. cbn [c_total c_successful c_failed c_timedOut] in *.
    rewrite map_sum_insert, timeouts_of_insert by exact Hi. unfold countError, add64. destruct (timeoutName i).
    + split; cbn [c_total c_successful c_failed c_timedOut]; [rewrite H1|exact H2|rewrite H3|rewrite H4|]; rewrite ?int_of_add;
        try (f_equal; lia); lia.
    + split; cbn [c_total c_successful c_failed c_timedOut]; [rewrite H1|exact H2|rewrite H3|rewrite H4|]; rewrite ?int_of_add;
        try (f_equal; lia); lia.
Qed.

(** The normalized counters of an oha report do not depend on the order in which its
    maps are ranged over. The total is the sum of all status and error counts; the
    successes are the count of the expected status; the timeouts are the errors whose name
    says timeout or deadline; the failures are the rest, and the total is the sum of the
    three: all as the 64-bit integers of the report wrap. *)
Theorem oha_metrics_conserve p expectedStatus :
  let m := normalizeOhaMetrics p expectedStatus in
  let statuses := StatusCodeDistribution p in
  let errors := ErrorDistribution p in
  TotalRequests m = int_of (map_sum statuses + map_sum errors) /\
  SuccessfulRequests m = int_of (default 0 (statuses !! pretty expectedStatus)) /\
  TimeoutRequests m = int_of (timeouts_of errors) /\
  FailedRequests m = int_of (map_sum statuses - default 0 (statuses !! pretty expectedStatus)
                             + (map_sum errors - timeouts_of errors)) /\
  TotalRequests m = int_of (SuccessfulRequests m + FailedRequests m + TimeoutRequests m).
Proof.
  cbv zeta. unfold normalizeOhaMetrics.
  pose proof (count_errors _ _ _ (ErrorDistribution p) _ (count_statuses (pretty expectedStatus) (StatusCodeDistribution p)))
    as [H1 H2 H3 H4 H5].
  cbn [TotalRequests SuccessfulRequests FailedRequests TimeoutRequests].
  split; [exact H1|]. split; [exact H2|]. split; [exact H4|]. split; [exact H3|].
  rewrite H1, H2, H3, H4, int_of_sum. f_equal. lia.
Qed.

(** ** What a result has earned *)

(** A response that passes the checks of an expectation. *)
Definition exact_response (e : scenarioExpectation) (r : httpResponse) : Prop :=
  r_major r = 1 /\ r_minor r = 1 /\ r_status r = e_status e /\
  mediaTypeMatches (r_contentType r) (e_contentType e) = true /\ r_body r = Stream (e_body e) EEOF.

Lemma runCheck_exact target env e :
  CPassed (runCheck target env e) = true -> exists r, ce_response env = Ok r /\ exact_response e r.
Proof.
  unfold runCheck. destruct (joinURL target (e_path e)); [|done]. destruct (ce_request env); [done|].
  destruct (ce_response env) as [r|]; [|done]. destruct (r_body r) as [body end_] eqn:Eb. cbn [st_end st_data].
  destruct end_; cbn [CPassed]; try done. rewrite bool_decide_eq_true. unfold checkProblems. intros H.
  exists r. split; [reflexivity|].
  apply app_nil in H as [Hp H]. apply app_nil in H as [Hs H]. apply app_nil in H as [Hm H].
  apply app_nil in H as [_ Hbody].
  destruct (negb (isExactHTTP11 _ _)) eqn:Ep; [discriminate Hp|]. destruct (negb (_ =? _)) eqn:Es; [discriminate Hs|].
  destruct (negb (mediaTypeMatches _ _)) eqn:Em; [discriminate Hm|]. destruct (negb (bool_decide _)) eqn:Ec; [discriminate Hbody|].
  unfold isExactHTTP11 in Ep. clear Hp Hs Hm Hbody. reflect_bools.
  unfold exact_response. rewrite Eb. split_and!; try assumption. congruence.
Qed.

Lemma runOhaLoad_ok dur env target e c r :
  runOhaLoad dur env target e c = Ok r ->
  verifyOha (o_goos env) (o_goarch env) (o_file env) = None /\
  trim_space (string_of_bytes (o_version env).1) = "oha " +:+ ohaVersion /\ (o_measured env).2 = None /\
  FailedRequests (Metrics r) = 0 /\ TimeoutRequests (Metrics r) = 0 /\
  TotalRequests (Metrics r) = SuccessfulRequests (Metrics r) /\
  RequestedLoad r = shape c /\ EffectiveLoad r = shape c.
Proof.
  unfold runOhaLoad. destruct (verifyOha _ _ _); [done|]. destruct (o_version env).2; [done|]. cbv zeta.
  intros H. pass_guard_as H Gv. apply String.eqb_eq in Gv. destruct (joinURL _ _); [|discriminate H]. cbn [res_bind] in H.
  destruct (if 0 <? Warmup c then _ else _); [discriminate H|].
  destruct (firstWriteError _ _); [discriminate H|]. destruct (o_measured env).2; [discriminate H|].
  destruct (parseOhaJSON _ _) as [p|]; [|discriminate H]. cbn [res_bind] in H.
  destruct (fileSHA256 _) as [hash|]; [|discriminate H]. cbn [res_bind] in H.
  pass_guard_as H Gf. injection H as <-. apply andb_true_iff in Gf as [F T]. apply Z.eqb_eq in F, T. cbn [Metrics RequestedLoad EffectiveLoad].
  pose proof (count_errors _ _ _ (ErrorDistribution p) _
                (count_statuses (pretty (e_status e)) (StatusCodeDistribution p))) as Hc.
  set (m := normalizeOhaMetrics p (e_status e)) in *.
  assert (Ht : TotalRequests m = int_of (SuccessfulRequests m + FailedRequests m + TimeoutRequests m) /\
               exists n, SuccessfulRequests m = int_of n).
  { destruct Hc as [H1 H2 H3 H4 H5]. subst m. unfold normalizeOhaMetrics.
    cbn [TotalRequests SuccessfulRequests FailedRequests TimeoutRequests].
    rewrite H1, H2, H3, H4, int_of_sum. split; [f_equal; lia|]. eexists. reflexivity. }
  destruct Ht as [Ht [n Hn]]. rewrite F, T, Hn, !Z.add_0_r in Ht.
  assert (Hi : int_of (int_of n) = int_of n) by (pose proof (int_of_sum n 0 0) as Hi; by rewrite !Z.add_0_r in Hi).
  rewrite Hi, <-Hn in Ht. split_and!; try done.
Qed.

Lemma http1_main_printed dur env r :
  main dur env = (0, Some r) ->
  (forall i e, defaultExpectations !! i = Some e -> CPassed (runCheck (m_parsed env) (m_checks env i) e) = true) /\
  exists c e, loadConfigFromEnvironment (m_getenv env) (m_packaged env) = Ok c /\ findExpectation (ScenarioID c) = Ok e /\
    runOhaLoad dur (m_oha env) (m_parsed env) e c = Ok r.
Proof.
  unfold main. destruct (m_showVersion env); [done|]. destruct (_ || _); [done|].
  destruct (m_mkdir env); [done|]. destruct (firstWriteError _ _); [done|].
  destruct (s_passed _) eqn:Ep; [|done]. cbn [negb]. destruct (m_validationOnly env); [done|]. intros H. split.
  - intros i e Hi. unfold summarize in Ep. cbn [s_passed] in Ep. rewrite forallb_forall in Ep. apply Ep.
    apply list_elem_of_In, list_elem_of_lookup. exists i. rewrite list_lookup_imap, Hi. reflexivity.
  - unfold runLoad in H. destruct (loadConfigFromEnvironment _ _) as [c|]; [|done].
    destruct (findExpectation _) as [e|] eqn:Ef; [|done]. destruct (runOhaLoad _ _ _ _ _) as [result|] eqn:Er; [|done].
    destruct (firstWriteError _ _), (m_stdout env); try done. injection H as <-. by exists c, e.
Qed.

(** The digest of the oha file is the pinned one of the platform. *)
Definition pinned (o : ohaEnv) : Prop :=
  exists file, o_file o = Ok file /\ expectedOhaSHA256 (o_goos o) (o_goarch o) = Ok (sha256_hex file).

(** The HTTP/1.1 executor prints no result that is unproven. If a validation response
    is not exactly the expected one (protocol version, status, media type, body to its
    end), or the oha file has not the pinned digest of its platform, or oha reports another
    version, or its measured run fails, or the environment configures no load, then main
    does not exit 0 with a result; and a result it does print has no failed and no
    timed-out request, as many successes as requests, and the configured shape as both its
    requested and its effective load. *)
Theorem http1_refuses_unproven dur env :
  let o := m_oha env in
  ((exists i e, defaultExpectations !! i = Some e /\
      forall r, ce_response (m_checks env i) = Ok r -> ~ exact_response e r) \/
   ~ pinned o \/ trim_space (string_of_bytes (o_version o).1) <> "oha " +:+ ohaVersion \/
   (o_measured o).2 <> None \/
   (forall c, loadConfigFromEnvironment (m_getenv env) (m_packaged env) <> Ok c) ->
   forall r, main dur env <> (0, Some r)) /\
  (forall r, main dur env = (0, Some r) ->
     FailedRequests (Metrics r) = 0 /\ TimeoutRequests (Metrics r) = 0 /\
     TotalRequests (Metrics r) = SuccessfulRequests (Metrics r) /\ EffectiveLoad r = RequestedLoad r).
Proof.
  cbv zeta. split.
  - intros Hgate r Hr. apply http1_main_printed in Hr as (Hchecks & c & e & Hc & _ & Hrun).
    apply runOhaLoad_ok in Hrun as (Hv & Hver & Hm & _).
    destruct Hgate as [(i & e' & Hi & Hno) | [Hp | [Hw | [Hm' | Hc']]]].
    + destruct (runCheck_exact _ _ _ (Hchecks i e' Hi)) as (resp & Hresp & Hex). by apply (Hno resp).
    + apply Hp. unfold verifyOha in Hv. destruct (expectedOhaSHA256 _ _) as [expected|] eqn:Ee; [|done].
      unfold fileSHA256 in Hv. destruct (o_file (m_oha env)) as [file|] eqn:Ef; [|done]. cbn [res_bind] in Hv.
      destruct (String.eqb_spec (sha256_hex file) expected) as [<-|]; [|done]. by exists file.
    + by apply Hw.
    + by apply Hm'.
    + by apply (Hc' c).
  - intros r Hr. apply http1_main_printed in Hr as (_ & c & e & _ & _ & Hrun).
    apply runOhaLoad_ok in Hrun as (_ & _ & _ & H1 & H2 & H3 & H4 & H5). split_and!; congruence.
Qed.

(** A run in which everything is in order but the oha file. *)
Definition http1_getenv (name : string) : string :=
  if String.eqb name "PLAB_SCENARIO_ID" then "http1.core.json"
  else if string_in ["PLAB_CONNECTIONS"; "PLAB_DURATION_SECONDS"] name then "4"
  else if String.eqb name "PLAB_OHA_PATH" then "/tools/oha" else "".
Definition http1_response (e : scenarioExpectation) : httpResponse :=
  HttpResponse 200 (e_contentType e) "HTTP/1.1" 1 1 (Stream (e_body e) EEOF).
Definition http1_report : ohaJSON :=
  OhaJSON f_zero (f_of_Z 25) 1300 (f_of_Z 325)
    (list_to_map ((fun name => (name, f_of_Z 1)) <$> requiredPercentiles)) f_zero {["200" := 100]} ∅.
Definition tampered_oha : ohaEnv :=
  OhaEnv "linux" "amd64" (Ok [77; 90]) (Ok [77; 90]) (bytes_of_string "oha 1.15.0", None) ([], None) ([], None)
    (fun _ => Ok http1_report) (fun _ => None).
Definition tampered_main : mainEnv :=
  MainEnv http1_getenv "http://h:8080" (Ok (ParsedURL "http" "" "h:8080" "h" "8080")) second false false None
    (fun _ => None) None
    (fun i => CheckEnv None (match defaultExpectations !! i with Some e => Ok (http1_response e) | None => Err EEOF end))
    (Err EEOF) tampered_oha.

Lemma http1_refuses_unproven_witness :
  ~ pinned (m_oha tampered_main) /\ (forall r, main (fun _ => "") tampered_main <> (0, Some r)) /\
  main (fun _ => "") tampered_main = (1, None).
Proof.
  assert (Hp : ~ pinned (m_oha tampered_main)).
  { intros (file & Hf & He). injection Hf as <-. vm_compute in He. discriminate He. }
  split; [exact Hp|]. split; [|vm_compute; reflexivity].
  apply (http1_refuses_unproven (fun _ => "") tampered_main). right. left. exact Hp.
Defined.
