(* ===== verification/TlsBase.v ===== *)
(** What the TLS packages share: the state of a session as crypto/tls reports it, its names,
    targets, identities and the digests of certificates. *)
From S2P Require Export Prelude Stats GoText GoHash.

(** ** crypto/tls *)

Definition VersionTLS12 : Z := 0x0303.
Definition VersionTLS13 : Z := 0x0304.
Definition TLS_AES_128_GCM_SHA256 : Z := 0x1301.
Definition TLS_CHACHA20_POLY1305_SHA256 : Z := 0x1303.
Definition TLS_ECDHE_ECDSA_WITH_AES_128_GCM_SHA256 : Z := 0xc02b.
Definition X25519 : Z := 29.

Definition upper_hex (c : Ascii.ascii) : Ascii.ascii :=
  if (97 <=? ord c) && (ord c <=? 102) then chr (ord c - 32) else c.

(** [tls.CipherSuiteName]. *)
Definition cipherSuites : list (Z * string) :=
  [(0x1301, "TLS_AES_128_GCM_SHA256"); (0x1302, "TLS_AES_256_GCM_SHA384"); (0x1303, "TLS_CHACHA20_POLY1305_SHA256");
   (0xc009, "TLS_ECDHE_ECDSA_WITH_AES_128_CBC_SHA"); (0xc00a, "TLS_ECDHE_ECDSA_WITH_AES_256_CBC_SHA");
   (0xc013, "TLS_ECDHE_RSA_WITH_AES_128_CBC_SHA"); (0xc014, "TLS_ECDHE_RSA_WITH_AES_256_CBC_SHA");
   (0xc02b, "TLS_ECDHE_ECDSA_WITH_AES_128_GCM_SHA256"); (0xc02c, "TLS_ECDHE_ECDSA_WITH_AES_256_GCM_SHA384");
   (0xc02f, "TLS_ECDHE_RSA_WITH_AES_128_GCM_SHA256"); (0xc030, "TLS_ECDHE_RSA_WITH_AES_256_GCM_SHA384");
   (0xcca8, "TLS_ECDHE_RSA_WITH_CHACHA20_POLY1305_SHA256"); (0xcca9, "TLS_ECDHE_ECDSA_WITH_CHACHA20_POLY1305_SHA256");
   (0x0005, "TLS_RSA_WITH_RC4_128_SHA"); (0x000a, "TLS_RSA_WITH_3DES_EDE_CBC_SHA");
   (0x002f, "TLS_RSA_WITH_AES_128_CBC_SHA"); (0x0035, "TLS_RSA_WITH_AES_256_CBC_SHA");
   (0x003c, "TLS_RSA_WITH_AES_128_CBC_SHA256"); (0x009c, "TLS_RSA_WITH_AES_128_GCM_SHA256");
   (0x009d, "TLS_RSA_WITH_AES_256_GCM_SHA384"); (0xc007, "TLS_ECDHE_ECDSA_WITH_RC4_128_SHA");
   (0xc011, "TLS_ECDHE_RSA_WITH_RC4_128_SHA"); (0xc012, "TLS_ECDHE_RSA_WITH_3DES_EDE_CBC_SHA");
   (0xc023, "TLS_ECDHE_ECDSA_WITH_AES_128_CBC_SHA256"); (0xc027, "TLS_ECDHE_RSA_WITH_AES_128_CBC_SHA256")].
Definition cipherSuiteName (id : Z) : string :=
  match List.find (fun s => s.1 =? id) cipherSuites with
  | Some s => s.2
  | None => "0x" +:+ String.string_of_list_ascii (upper_hex <$> String.list_ascii_of_string (hex_encode (be_encode 2 id)))
  end.

(** [tls.CurveID.String]. *)
Definition curveName (id : Z) : string :=
  if id =? 23 then "CurveP256" else if id =? 24 then "CurveP384" else if id =? 25 then "CurveP521"
  else if id =? 29 then "X25519" else if id =? 4588 then "X25519MLKEM768" else "CurveID(" +:+ pretty id +:+ ")".

(** A certificate: its encoding and its key's, its algorithms, and the curve of an ECDSA key
    (empty for another key). *)
Record certificate := Certificate {
  cert_raw : bytes; cert_spki : bytes; cert_signature : string; cert_key : string; cert_curve : string
}.
(** [tls.ConnectionState], less what no package reads. *)
Record connState := ConnState {
  cs_version : Z; cs_cipher : Z; cs_curve : Z; cs_protocol : string; cs_complete : bool; cs_resumed : bool;
  cs_chains : Z; cs_peer : list certificate
}.

(** ** What the packages repeat *)

Definition alpn : string := "protocol-lab-tls".
Definition leafDERHash : string := "cf99a110e63d11b14d6a526d132b11b0363058f8eac30dd79a62f27fcbc38b5e".
Definition leafSPKIHash : string := "407e0f88780f510da95d16cbf92243a3879c6c676be5b3c5779f11d31e646fc0".
Definition hash (value : bytes) : string := sha256_hex value.
(** The digests and the algorithms of the first certificate, empty when there is none. *)
Definition leafDigests (peer : list certificate) : string * string :=
  match peer with c :: _ => (hash (cert_raw c), hash (cert_spki c)) | [] => ("", "") end.
Definition leafAlgorithms (peer : list certificate) : string * string * string :=
  match peer with c :: _ => (cert_signature c, cert_key c, cert_curve c) | [] => ("", "", "") end.

(** [failures = append(failures, message)]. *)
Definition failure (b : bool) (message : string) : list string := if b then [message] else [].
(** The error of the failures that were collected. *)
Definition failures_error (failures : list string) : option goerror :=
  match failures with [] => None | _ => Some (EMsg (join "; " failures)) end.

Definition env_value (getenv : string -> string) (name : string) : string := trim_space (getenv name).
Definition envInt (getenv : string -> string) (name : string) : Z := atoi_value (env_value getenv name).
Definition verifySubstitution (getenv : string -> string) (variable expected : string) : bool :=
  let observed := env_value getenv variable in String.eqb observed "" || String.eqb observed expected.

(** [errors[message]++]. *)
Definition bump (key : string) (counts : gmap string Z) : gmap string Z := <[key := default 0 (counts !! key) + 1]> counts.

(** [split] is the error of [net.SplitHostPort], [parse] the scheme and host of
    [url.Parse]. *)
Definition normalizeTarget (parse : string -> res (string * string)) (split : string -> option goerror)
    (value : string) : res string :=
  let value := trim_space value in
  guard negb (String.eqb value "") else EMsg "target required" in
  if negb (contains_sub value "://")
  then match split value with Some err => Err err | None => Ok value end
  else
    let? u := parse value in
    guard String.eqb u.1 "tls" && negb (String.eqb u.2 "") else EMsg "TLS target must use tls://host:port" in
    Ok u.2.

(** ** A handshake *)

(** What a handshake meets: the dial, the handshake's state or error, the close, and the
    two times. *)
Record handshakeEnv := HandshakeEnv {
  h_dial : option goerror; h_state : res connState; h_close : option goerror;
  h_latency : float64; h_total : float64
}.

(** ** Facts on names *)

(** Only the suite itself has its name. *)
Lemma cipherSuiteName_aes128 id : cipherSuiteName id = "TLS_AES_128_GCM_SHA256" -> id = TLS_AES_128_GCM_SHA256.
Proof.
  unfold cipherSuiteName. destruct (List.find _ cipherSuites) as [[i n]|] eqn:E.
  - apply find_some in E as [Hin Hi]. apply Z.eqb_eq in Hi. cbn [fst snd] in *. subst i. intros ->.
    assert (A : forallb (fun s => negb (String.eqb s.2 "TLS_AES_128_GCM_SHA256") || (s.1 =? TLS_AES_128_GCM_SHA256))
                  cipherSuites = true) by (vm_compute; reflexivity).
    rewrite forallb_forall in A. specialize (A _ Hin). cbn [fst snd] in A. rewrite String.eqb_refl in A.
    by apply Z.eqb_eq in A.
  - intros H. discriminate H.
Qed.

Lemma curveName_x25519 id : curveName id = "X25519" -> id = X25519.
Proof.
  unfold curveName. destruct (id =? 23); [discriminate|]. destruct (id =? 24); [discriminate|].
  destruct (id =? 25); [discriminate|]. destruct (id =? 29) eqn:E; [by apply Z.eqb_eq in E|].
  destruct (id =? 4588); [discriminate|]. intros H. discriminate H.
Qed.

Lemma bump_lookup key m counts : default 0 (bump key counts !! m) = default 0 (counts !! m) + (if String.eqb key m then 1 else 0).
Proof.
  unfold bump. destruct (String.eqb_spec key m) as [->|Hne].
  - by rewrite lookup_insert_eq.
  - rewrite lookup_insert_ne by done. lia.
Qed.
