(* ===== verification/TlsLoad.v ===== *)
(** The load and the run of the executors of a single handshake, which are the same but for
    their identity and for the handshake: go-tls12-executor, go-tls13-mtls-executor and
    go-utls-tls13-chacha20-executor. *)
From S2P Require Export Prelude Stats GoText GoHash TlsBase.

(** ** The load of the single-handshake executors *)

Record summary (O : Type) := Summary {
  DurationSeconds : float64; CompletedOperations : Z; FailedOperations : Z; TimedOutOperations : Z;
  LatencyMS : list float64; LastObservation : option O; Errors : gmap string Z
}.
Arguments Summary {O}.
Arguments DurationSeconds {O}.
Arguments CompletedOperations {O}.
Arguments FailedOperations {O}.
Arguments TimedOutOperations {O}.
Arguments LatencyMS {O}.
Arguments LastObservation {O}.
Arguments Errors {O}.

Section runFor.
Context {O E : Type} (runHandshake : E -> res O) (latency : O -> float64).

Definition emptySummary : summary O := Summary f_zero 0 0 0 [] None ∅.
(** One turn of [runFor]: a failed handshake does not end the loop. *)
Definition runTurn (s : summary O) (env : E) : summary O :=
  let '(Summary d ok f t l p e) := s in
  match runHandshake env with
  | Err err => if is_net_timeout err then Summary d ok f (t + 1) l p (bump (error_string err) e)
               else Summary d ok (f + 1) t l p (bump (error_string err) e)
  | Ok o => Summary d (ok + 1) f t (l ++ [latency o]) (Some o) e
  end.
(** [runFor] over the turns that began in time. *)
Definition runFor (turns : list E) (seconds : float64) : summary O :=
  let '(Summary _ ok f t l p e) := fold_left runTurn turns emptySummary in Summary seconds ok f t l p e.

(** The counts of a load add up, its samples are those of the completed handshakes, and its
    observation is that of the last of them. *)
Lemma runFor_counts turns seconds :
  let s := runFor turns seconds in
  let good := List.filter (fun env => is_ok (runHandshake env)) turns in
  CompletedOperations s = len good /\
  CompletedOperations s + FailedOperations s + TimedOutOperations s = len turns /\
  0 <= FailedOperations s /\ 0 <= TimedOutOperations s /\
  Ok <$> (LastObservation s) = last (runHandshake <$> good) /\
  Ok <$> LatencyMS s = (fun env => let? o := runHandshake env in Ok (latency o)) <$> good.
Proof.
  cbv zeta. unfold runFor. 
  assert (H : forall turns, let s := fold_left runTurn turns emptySummary in
    let good := List.filter (fun env => is_ok (runHandshake env)) turns in
    CompletedOperations s = len good /\ CompletedOperations s + FailedOperations s + TimedOutOperations s = len turns /\
    0 <= FailedOperations s /\ 0 <= TimedOutOperations s /\
    Ok <$> (LastObservation s) = last (runHandshake <$> good) /\
    Ok <$> LatencyMS s = (fun env => let? o := runHandshake env in Ok (latency o)) <$> good).
  { clear. intros turns. induction turns as [|env turns IH] using rev_ind; [by vm_compute|].
    rewrite fold_left_app, List.filter_app. cbn [fold_left List.filter]. cbv zeta in IH |- *.
    destruct (fold_left runTurn turns emptySummary) as [d ok f t l p e].
    set (good := List.filter _ turns) in *. destruct IH as (H1 & H2 & H3 & H4 & H5 & H6).
    cbn [CompletedOperations FailedOperations TimedOutOperations LastObservation LatencyMS runTurn] in *.
    rewrite !len_app. change (len [env]) with 1.
    destruct (runHandshake env) as [o|err] eqn:Er; cbn [is_ok].
    - cbn [CompletedOperations FailedOperations TimedOutOperations LastObservation LatencyMS].
      rewrite !fmap_app. change (len [env]) with 1. cbn [fmap list_fmap]. rewrite last_snoc, Er, H6.
      split_and!; try lia; reflexivity.
    - rewrite app_nil_r. change (len (@nil E)) with 0. destruct (is_net_timeout err);
        cbn [CompletedOperations FailedOperations TimedOutOperations LastObservation LatencyMS]; split_and!; lia || assumption. }
  specialize (H turns). cbv zeta in H. destruct (fold_left runTurn turns emptySummary). exact H.
Qed.
End runFor.

(** ** The run of a single-handshake executor *)

(** The identity of such an executor: what it refuses to be taken for something else in. *)
Record identity := Identity {
  executorID : string; executorVersion : string; loadGeneratorID : string; loadGeneratorVersion : string;
  scenarioID : string; protocolVariant : string; knownUnsupported : list string
}.

(** The metrics of a result, and the result with the summary that is written beside it; its
    status is a constant of the packages. *)
Record loadMetrics := LoadMetrics {
  HandshakesPerSecond : float64; HandshakeLatencyMean : float64; HandshakeLatencyP50 : float64;
  HandshakeLatencyP95 : float64; HandshakeLatencyP99 : float64; MCompleted : Z; MFailed : Z; MTimedOut : Z
}.
Record loadResult (O : Type) := LoadResult { RStatus : string; RProof : option O; RMetrics : loadMetrics; RSummary : summary O }.
Arguments LoadResult {O}.
Arguments RStatus {O}.
Arguments RProof {O}.
Arguments RMetrics {O}.
Arguments RSummary {O}.
(** What a run leaves in its directory. *)
Inductive artifact (O : Type) :=
| UnsupportedArtifacts (scenario : string)
| FailureArtifacts (message : string)
| ProofArtifacts (o : O)
| ResultArtifacts (r : loadResult O).
Arguments UnsupportedArtifacts {O}.
Arguments FailureArtifacts {O}.
Arguments ProofArtifacts {O}.
Arguments ResultArtifacts {O}.

Definition resultArtifacts {O} (measured : summary O) : loadResult O :=
  let d := if f_less f_zero (DurationSeconds measured) then DurationSeconds measured else f_of_Z 1 in
  let q n := percentile (LatencyMS measured) (f_ratio n 100) in
  LoadResult "passed" (LastObservation measured)
    (LoadMetrics (fdiv (f_of_Z (CompletedOperations measured)) d) (mean (LatencyMS measured)) (q 50) (q 95) (q 99)
       (CompletedOperations measured) (FailedOperations measured) (TimedOutOperations measured)) measured.

(** What a run meets; [m_identity] is the loading of the trust anchors, and of the client's
    certificate where there is one; the turns of the two loads are those that began in time. *)
Record mainEnv (E : Type) := MainEnv {
  m_getenv : string -> string; m_target : string; m_parse : string -> res (string * string);
  m_split : string -> option goerror; m_identity : res unit; m_validationOnly : bool; m_showVersion : bool;
  m_mkdir : option goerror; m_preflight : E; m_warmup : list E * float64; m_measured : list E * float64
}.
Arguments MainEnv {E}.
Arguments m_getenv {E}.
Arguments m_target {E}.
Arguments m_parse {E}.
Arguments m_split {E}.
Arguments m_identity {E}.
Arguments m_validationOnly {E}.
Arguments m_showVersion {E}.
Arguments m_mkdir {E}.
Arguments m_preflight {E}.
Arguments m_warmup {E}.
Arguments m_measured {E}.

Definition unclean {O} (measured : summary O) : bool :=
  (CompletedOperations measured =? 0) || negb (FailedOperations measured =? 0) || negb (TimedOutOperations measured =? 0).

Section runMain.
Context {O E : Type} (ids : identity) (runHandshake : E -> res O) (latency : O -> float64).

(** [main]: the exit code and the artifacts; the warm-up's summary is dropped. *)
Definition runMain (env : mainEnv E) : Z * list (artifact O) :=
  let getenv := m_getenv env in
  if m_showVersion env then (0, []) else
  if negb (forallb (fun '(n, v) => verifySubstitution getenv n v)
       [("PLAB_EXECUTOR_ID", executorID ids); ("PLAB_EXECUTOR_VERSION", executorVersion ids);
        ("PLAB_LOAD_GENERATOR_ID", loadGeneratorID ids); ("PLAB_LOAD_GENERATOR_VERSION", loadGeneratorVersion ids);
        ("PLAB_PROTOCOL", "tls")]) then (2, []) else
  if bool_decide (m_mkdir env <> None) then (1, []) else
  let requested := env_value getenv "PLAB_SCENARIO_ID" in
  if string_in (knownUnsupported ids) requested then (3, [UnsupportedArtifacts requested]) else
  if negb (String.eqb requested (scenarioID ids)) then (2, []) else
  if negb (verifySubstitution getenv "PLAB_LOAD_PROFILE_ID" "tls-smoke")
     || negb (verifySubstitution getenv "PLAB_PROTOCOL_VARIANT" (protocolVariant ids)) then (2, []) else
  match normalizeTarget (m_parse env) (m_split env) (m_target env), m_identity env with
  | Err _, _ | Ok _, Err _ => (2, [])
  | Ok _, Ok _ =>
      match runHandshake (m_preflight env) with
      | Err err => (1, [FailureArtifacts (error_string err)])
      | Ok preflight =>
          if m_validationOnly env then
            let measured := Summary (fdiv (latency preflight) (f_of_Z 1000)) 1 0 0 [latency preflight] (Some preflight) ∅ in
            (0, [ProofArtifacts preflight; ResultArtifacts (resultArtifacts measured)])
          else
            let _ := runFor runHandshake latency (m_warmup env).1 (m_warmup env).2 in
            let measured := runFor runHandshake latency (m_measured env).1 (m_measured env).2 in
            (if unclean measured then 1 else 0, [ProofArtifacts preflight; ResultArtifacts (resultArtifacts measured)])
      end
  end.

(** A run that leaves a result: its preflight succeeded; and either it was for that alone,
    or the result is that of its measured load, with the exit code 0 exactly when every
    handshake of the load succeeded and there was one. In each case the result says that the
    validation passed. *)
Lemma runMain_result env code artifacts r :
  runMain env = (code, artifacts) -> ResultArtifacts r ∈ artifacts ->
  RStatus r = "passed" /\
  exists preflight, runHandshake (m_preflight env) = Ok preflight /\
  if m_validationOnly env then code = 0 /\ RProof r = Some preflight /\ MCompleted (RMetrics r) = 1 /\
                               MFailed (RMetrics r) = 0 /\ MTimedOut (RMetrics r) = 0
  else
    let turns := (m_measured env).1 in
    let good := List.filter (fun e => is_ok (runHandshake e)) turns in
    MCompleted (RMetrics r) = len good /\
    MCompleted (RMetrics r) + MFailed (RMetrics r) + MTimedOut (RMetrics r) = len turns /\
    Ok <$> RProof r = last (runHandshake <$> good) /\
    (code = 0 \/ code = 1) /\ (code = 0 <-> turns <> [] /\ good = turns).
Proof.
  unfold runMain. destruct (m_showVersion env); [intros [= <- <-] H; by apply not_elem_of_nil in H|].
  match goal with |- context [forallb ?f ?l] => destruct (forallb f l) end; cbn [negb];
    [|intros [= <- <-] H; by apply not_elem_of_nil in H].
  destruct (bool_decide (m_mkdir env <> None)); [intros [= <- <-] H; by apply not_elem_of_nil in H|].
  destruct (string_in _ _); [intros [= <- <-] H; apply list_elem_of_singleton in H; discriminate H|].
  destruct (negb (String.eqb _ (scenarioID ids))); [intros [= <- <-] H; by apply not_elem_of_nil in H|].
  destruct (_ || _); [intros [= <- <-] H; by apply not_elem_of_nil in H|].
  destruct (normalizeTarget _ _ _); [|intros [= <- <-] H; by apply not_elem_of_nil in H].
  destruct (m_identity env); [|intros [= <- <-] H; by apply not_elem_of_nil in H].
  destruct (runHandshake (m_preflight env)) as [preflight|err]; [|intros [= <- <-] H; apply list_elem_of_singleton in H; discriminate H].
  destruct (m_validationOnly env).
  - intros [= <- <-] H. apply elem_of_cons in H as [H|H]; [discriminate H|]. apply list_elem_of_singleton in H as [= ->].
    split; [reflexivity|]. exists preflight. repeat split.
  - set (m := runFor runHandshake latency (m_measured env).1 (m_measured env).2). cbv zeta.
    intros [= <- <-] H. apply elem_of_cons in H as [H|H]; [discriminate H|]. apply list_elem_of_singleton in H as [= ->].
    split; [reflexivity|]. exists preflight. split; [reflexivity|]. unfold resultArtifacts.
    cbn [RProof RMetrics MCompleted MFailed MTimedOut].
    destruct (runFor_counts runHandshake latency (m_measured env).1 (m_measured env).2) as (H1 & H2 & H3 & H4 & H5 & _).
    fold m in H1, H2, H3, H4, H5. split; [exact H1|]. split; [exact H2|]. split; [exact H5|].
    split; [destruct (unclean m); auto|]. revert H1. set (good := List.filter _ _). intros H1.
    assert (Hg : good = (m_measured env).1 <-> len good = len (m_measured env).1).
    { split; [by intros ->|]. apply filter_full. }
    assert (Hn : (m_measured env).1 <> [] <-> len (m_measured env).1 <> 0).
    { split; [intros H0 H6; apply H0; apply length_zero_iff_nil; unfold len in H6; lia|intros H0 H6; apply H0; by rewrite H6]. }
    rewrite Hg, Hn, <-H1. unfold unclean.
    destruct (CompletedOperations m =? 0) eqn:E1; cbn [orb]; [apply Z.eqb_eq in E1; split; [discriminate|lia]|].
    destruct (FailedOperations m =? 0) eqn:E2; cbn [orb negb]; [|apply Z.eqb_neq in E2; split; [discriminate|lia]].
    destruct (TimedOutOperations m =? 0) eqn:E3; cbn [orb negb]; [|apply Z.eqb_neq in E3; split; [discriminate|lia]].
    apply Z.eqb_eq in E2, E3. apply Z.eqb_neq in E1. split; [intros _; lia|reflexivity].
Qed.
End runMain.
