(* ===== verification/Tls13.v ===== *)
(** TLS 1.3: the server go-tls13 and the executor go-tls13-executor: full and resumed
    handshakes, and deterministic transfers with the records they take on the wire. *)
From S2P Require Export Prelude Stats GoText GoHash TlsBase.

(** ** Transfers *)

Definition commandMagic : string := "PLABTLS1".
Definition payloadOctet : Z := 0x5a.
Definition payloadOf (size : Z) : bytes := repeat payloadOctet (Z.to_nat size).

(** [writeAll]: a writer returns an error when it writes less than it was given, so its loop
    runs once, and not at all for nothing. *)
Definition writeAll (value : bytes) (c : conn) : option goerror * conn :=
  match value with
  | [] => (None, c)
  | _ => let '((_, err), c) := conn_write value c in (err, c)
  end.

(** ** The server *)

Module Server.

(** [serveRecordOperation] over the decrypted stream. *)
Definition serveRecordOperation (c : conn) : option goerror * conn :=
  let with_input s := Conn s (c_out c) (c_faults c) in
  match read_full 13 (c_in c) with
  | (Err err, s) => (Some (EWrap "read record command" err), with_input s)
  | (Ok header, s) =>
      if negb (String.eqb (string_of_bytes (take 8 header)) commandMagic)
      then (Some (EMsg "record command magic mismatch"), with_input s) else
      let direction := byte_at header 8 in
      let size := be_decode (slice 9 13 header) in
      if negb (size =? 1024) && negb (size =? 65536) && negb (size =? 1048576)
      then (Some (EMsg ("unsupported record payload size " +:+ pretty size)), with_input s) else
      let payload := payloadOf size in
      let expected := sha256 payload in
      if direction =? 83 then
        match writeAll payload (with_input s) with
        | (Some err, c) => (Some (EWrap "send deterministic payload" err), c)
        | (None, c) => (None, c)
        end
      else if direction =? 67 then
        match read_full (Z.to_nat size) s with
        | (Err err, s) => (Some (EWrap "receive deterministic payload" err), with_input s)
        | (Ok received, s) =>
            let actual := sha256 received in
            if negb (bool_decide (actual = expected)) then (Some (EMsg "received payload hash mismatch"), with_input s) else
            match writeAll (bytes_of_string "OK" ++ actual) (with_input s) with
            | (Some err, c) => (Some (EWrap "send payload acknowledgement" err), c)
            | (None, c) => (None, c)
            end
        end
      else (Some (EMsg "unsupported record direction"), with_input s)
  end.

(** [handle]: [tls] is what the handshake gives; the first component says whether the
    connection was served as its scenario asks. *)
Definition handle (getenv : string -> string) (tls : res connState) (c : conn) : bool * conn :=
  match tls with
  | Err _ => (false, c)
  | Ok state =>
      if negb (cs_version state =? VersionTLS13) || negb (String.eqb (cs_protocol state) alpn)
         || negb (cs_cipher state =? TLS_AES_128_GCM_SHA256) || negb (cs_curve state =? X25519)
      then (false, c)
      else
        let requested := env_value getenv "PLAB_SCENARIO_ID" in
        if String.eqb requested "tls.handshake.full" || String.eqb requested "tls.handshake.resumed"
           || String.eqb requested ""
        then (true, c)
        else if negb (String.eqb requested "tls.record.throughput") && negb (String.eqb requested "tls.record.coverage")
        then (false, c)
        else let '(err, c) := serveRecordOperation c in (bool_decide (err = None), c)
  end.

End Server.

(** ** The records on the wire *)

Record tlsRecordParser := TlsRecordParser { pending : bytes; count : Z; octets : Z }.
Definition parser_new : tlsRecordParser := TlsRecordParser [] 0 0.

(** The loop of [feed]: a record takes at least its five octets of header. *)
Fixpoint feedLoop (fuel : nat) (p : tlsRecordParser) : tlsRecordParser :=
  match fuel with
  | O => p
  | S fuel =>
      if len (pending p) <? 5 then p else
      let length := be_decode (slice 3 5 (pending p)) in
      if 18432 <? length then TlsRecordParser [] (count p) (octets p) else
      if len (pending p) <? 5 + length then p else
      feedLoop fuel (TlsRecordParser (drop (Z.to_nat (5 + length)) (pending p)) (count p + 1) (octets p + (5 + length)))
  end.
Definition feed (p : tlsRecordParser) (value : bytes) : tlsRecordParser :=
  let pending := pending p ++ value in
  feedLoop (S (length pending)) (TlsRecordParser pending (count p) (octets p)).

(** The two directions of a [recordObservingConn], fed with what each write and each read
    of the raw connection moved. *)
Record recordCounter := RecordCounter { Records : Z; CiphertextBytes : Z }.
Record recordSnapshot := RecordSnapshot { Sent : recordCounter; Received : recordCounter }.
Record observing := Observing { o_sent : tlsRecordParser; o_received : tlsRecordParser }.
Definition newRecordObservingConn : observing := Observing parser_new parser_new.
Inductive wireEvent := Wrote (moved : bytes) | Read (moved : bytes).
Definition observe (o : observing) (e : wireEvent) : observing :=
  match e with
  | Wrote moved => Observing (feed (o_sent o) moved) (o_received o)
  | Read moved => Observing (o_sent o) (feed (o_received o) moved)
  end.
Definition snapshot (o : observing) : recordSnapshot :=
  RecordSnapshot (RecordCounter (count (o_sent o)) (octets (o_sent o)))
    (RecordCounter (count (o_received o)) (octets (o_received o))).
Definition subtractSnapshot (a b : recordSnapshot) : recordSnapshot :=
  let sub x y := RecordCounter (Records x - Records y) (CiphertextBytes x - CiphertextBytes y) in
  RecordSnapshot (sub (Sent a) (Sent b)) (sub (Received a) (Received b)).

(** ** The check of a session *)

Record handshakeObservation := HandshakeObservation {
  TLSProfileID : string; TLSVersion : string; CipherSuite : string; KeyExchangeGroup : string; ALPN : string;
  HandshakeComplete : bool; DidResume : bool; ApplicationDataBytesSent : Z; ApplicationDataBytesReceived : Z;
  CertificateProfile : string; CertificateDERSHA256 : string; CertificateSPKISHA256 : string;
  VerifiedChainCount : Z; TLSHandshakeLatencyMS : float64; ConnectionAndHandshakeLatencyMS : float64
}.
Definition noObservation : handshakeObservation :=
  HandshakeObservation "" "" "" "" "" false false 0 0 "" "" "" 0 f_zero f_zero.

Definition tlsVersionName (v : Z) : string :=
  if v =? VersionTLS13 then "TLS1.3" else "0x" +:+ hex_encode (be_encode 2 v).

Definition validateState (state : connState) (expectResume : bool) : handshakeObservation * option goerror :=
  let '(der, spki) := leafDigests (cs_peer state) in
  let cipher := cipherSuiteName (cs_cipher state) in
  let group := curveName (cs_curve state) in
  let o := HandshakeObservation "plab-tls13-p256-v1" (tlsVersionName (cs_version state)) cipher group (cs_protocol state)
             (cs_complete state) (cs_resumed state) 0 0 "plab-single-leaf-p256-v1" der spki (cs_chains state) f_zero f_zero in
  (o, failures_error
        (failure (negb (cs_version state =? VersionTLS13)) "exact TLS 1.3 was not negotiated"
         ++ failure (negb (cs_complete state)) "handshake incomplete"
         ++ failure (negb (Bool.eqb (cs_resumed state) expectResume)) "session state mismatch"
         ++ failure (negb (String.eqb (cs_protocol state) alpn)) "ALPN mismatch"
         ++ failure (negb (String.eqb cipher "TLS_AES_128_GCM_SHA256")) "cipher mismatch"
         ++ failure (negb (String.eqb group "X25519")) "key exchange mismatch"
         ++ failure (cs_chains state =? 0) "certificate not verified"
         ++ failure (negb (String.eqb der leafDERHash) || negb (String.eqb spki leafSPKIHash)) "certificate hash mismatch")).

Definition with_latencies (handshake total : float64) (o : handshakeObservation) : handshakeObservation :=
  let '(HandshakeObservation a b c d e f g h i j k l m _ _) := o in HandshakeObservation a b c d e f g h i j k l m handshake total.
Definition with_profiles (tlsProfile certProfile : string) (o : handshakeObservation) : handshakeObservation :=
  let '(HandshakeObservation _ b c d e f g h i _ k l m x y) := o in
  HandshakeObservation tlsProfile b c d e f g h i certProfile k l m x y.
Definition with_application_data (sent received : Z) (o : handshakeObservation) : handshakeObservation :=
  let '(HandshakeObservation a b c d e f g _ _ j k l m x y) := o in
  HandshakeObservation a b c d e f g sent received j k l m x y.

(** ** Handshakes *)

(** [drainSessionTicket]: the reads' counts and errors, under a deadline. *)
Fixpoint drainReads (reads : list (Z * option goerror)) : option goerror :=
  match reads with
  | [] => Some (EWrap "session ticket was not received" (ENet true "i/o timeout"))
  | (n, err) :: reads =>
      if negb (n =? 0) then Some (EMsg "unexpected application data while awaiting ticket") else
      match err with
      | None => drainReads reads
      | Some err => if errors_is EEOF err then None else Some (EWrap "session ticket was not received" err)
      end
  end.
Definition drainSessionTicket (deadline : option goerror) (reads : list (Z * option goerror)) : option goerror :=
  match deadline with Some err => Some err | None => drainReads reads end.

(** What [runHandshake] meets; [hs_reads] after a source handshake only. *)
Record handshakeRun := HandshakeRun {
  hs_env : handshakeEnv; hs_deadline : option goerror; hs_reads : list (Z * option goerror)
}.
Definition runHandshake (env : handshakeRun) (expectResume drainTicket : bool) : handshakeObservation * option goerror :=
  match h_dial (hs_env env), h_state (hs_env env) with
  | Some err, _ => (noObservation, Some err)
  | None, Err err => (noObservation, Some err)
  | None, Ok state =>
      let '(o, err) := validateState state expectResume in
      let o := with_latencies (h_latency (hs_env env)) (h_total (hs_env env)) o in
      match err with
      | None => (o, if drainTicket then drainSessionTicket (hs_deadline env) (hs_reads env) else None)
      | Some err => (o, Some err)
      end
  end.

(** ** The single-use session cache *)

Section cache.
Context {Session : Type}.

Record singleUseSessionCache := SingleUseSessionCache {
  key : string; session : option Session; puts : Z; gets : Z; hits : Z
}.
Definition cache_new : singleUseSessionCache := SingleUseSessionCache "" None 0 0 0.
Definition Put (k : string) (s : option Session) (c : singleUseSessionCache) : singleUseSessionCache :=
  SingleUseSessionCache k s (puts c + 1) (gets c) (hits c).
Definition Get (k : string) (c : singleUseSessionCache) : option Session * singleUseSessionCache :=
  match session c with
  | Some s =>
      if String.eqb (key c) k
      then (Some s, SingleUseSessionCache (key c) None (puts c) (gets c + 1) (hits c + 1))
      else (None, SingleUseSessionCache (key c) (session c) (puts c) (gets c + 1) (hits c))
  | None => (None, SingleUseSessionCache (key c) None (puts c) (gets c + 1) (hits c))
  end.
Definition counts (c : singleUseSessionCache) : Z * Z * Z * bool :=
  (puts c, gets c, hits c, bool_decide (is_Some (session c))).

(** The calls crypto/tls makes on the cache, one at a time under its mutex, and the sessions
    they return; it puts no session to discard one. *)
Inductive cacheCall := CPut (k : string) (s : option Session) | CGet (k : string).
Definition call (st : list Session * singleUseSessionCache) (op : cacheCall) : list Session * singleUseSessionCache :=
  match op with
  | CPut k s => (st.1, Put k s st.2)
  | CGet k => let '(r, c) := Get k st.2 in (st.1 ++ match r with Some s => [s] | None => [] end, c)
  end.
Definition calls (ops : list cacheCall) (c : singleUseSessionCache) : list Session * singleUseSessionCache :=
  fold_left call ops ([], c).

(** ** Resumption *)

Record resumptionProof := ResumptionProof {
  SourceSession : handshakeObservation; MeasuredSession : handshakeObservation;
  SessionTicketConsumedExactlyOnce : bool; CachePutCountAfterSource : Z;
  CacheGetCountForMeasuredHandshake : Z; CacheHitCountForMeasuredHandshake : Z
}.

(** What [runResumed] meets: two handshakes, and the calls each makes on the cache. *)
Record resumedEnv := ResumedEnv {
  rs_source : handshakeRun; rs_sourceCalls : list cacheCall; rs_measured : handshakeRun; rs_measuredCalls : list cacheCall
}.
Definition runResumed (env : resumedEnv) : handshakeObservation * option resumptionProof * option goerror :=
  let '(source, err) := runHandshake (rs_source env) false true in
  let cache := (calls (rs_sourceCalls env) cache_new).2 in
  match err with
  | Some err => (source, None, Some (EWrap "unmeasured source handshake failed" err))
  | None =>
      let '(puts, sourceGets, sourceHits, available) := counts cache in
      if negb available || (puts <? 1)
      then (source, None, Some (EMsg "source handshake did not yield a resumable TLS 1.3 ticket"))
      else
        let '(measured, err) := runHandshake (rs_measured env) true false in
        let cache := (calls (rs_measuredCalls env) cache).2 in
        let '(_, totalGets, totalHits, availableAfter) := counts cache in
        let mg := totalGets - sourceGets in
        let mh := totalHits - sourceHits in
        let once := (mg =? 1) && (mh =? 1) && negb availableAfter in
        let p := ResumptionProof source measured once puts mg mh in
        match err with
        | Some err => (measured, Some p, Some err)
        | None => (measured, Some p, if once then None else Some (EMsg "session ticket was not consumed exactly once"))
        end
  end.
End cache.
Arguments singleUseSessionCache Session : clear implicits.
Arguments cacheCall Session : clear implicits.
Arguments resumedEnv Session : clear implicits.

(** ** Deterministic transfers *)

Record recordCaseObservation := RecordCaseObservation {
  CaseID : string; Direction : string; CaseBytes : Z; PayloadSHA256 : string; TransferLatencyMS : float64;
  BytesPerSecond : float64; WireRecordDelta : recordSnapshot; Negotiation : handshakeObservation
}.
Definition payloadHash (size : Z) : string := hash (payloadOf size).

(** What a transfer meets: the handshake, the decrypted connection, what the raw connection
    moves until the command is written and then during the transfer, and the time of the
    latter. *)
Record recordEnv := RecordEnv {
  rc_hs : handshakeEnv; rc_conn : conn; rc_before : list wireEvent; rc_transfer : list wireEvent; rc_elapsed : Z
}.

(** The command: the magic, the direction and the size. *)
Definition command (dir size : Z) : bytes := bytes_of_string commandMagic ++ [dir] ++ be_encode 4 (u32 size).

(** The payload in one direction or the other: what was sent and received of it. *)
Definition transfer (dir size : Z) (expected : string) (c : conn) : option goerror * Z * Z * conn :=
  let with_input s c := Conn s (c_out c) (c_faults c) in
  if dir =? 83 then
    match read_full (Z.to_nat size) (c_in c) with
    | (Err err, s) => (Some err, 0, 0, with_input s c)
    | (Ok received, s) =>
        if negb (String.eqb (hash received) expected)
        then (Some (EMsg "server-to-client payload hash mismatch"), 0, 0, with_input s c)
        else (None, 0, size, with_input s c)
    end
  else
    match writeAll (payloadOf size) c with
    | (Some err, c) => (Some err, 0, 0, c)
    | (None, c) =>
        match read_full 34 (c_in c) with
        | (Err err, s) => (Some err, 0, 0, with_input s c)
        | (Ok ack, s) =>
            if negb (String.eqb (string_of_bytes (take 2 ack)) "OK") || negb (String.eqb (hex_encode (drop 2 ack)) expected)
            then (Some (EMsg "client-to-server acknowledgement hash mismatch"), 0, 0, with_input s c)
            else (None, size, 0, with_input s c)
        end
    end.

Definition runRecordCase (getenv : string -> string) (env : recordEnv) (caseID direction : string) (size : Z)
    : recordCaseObservation * option goerror * conn :=
  let expected := payloadHash size in
  let zero := RecordSnapshot (RecordCounter 0 0) (RecordCounter 0 0) in
  let case := RecordCaseObservation caseID direction size expected f_zero f_zero zero in
  match h_dial (rc_hs env), h_state (rc_hs env) with
  | Some err, _ => (case noObservation, Some err, rc_conn env)
  | None, Err err => (case noObservation, Some err, rc_conn env)
  | None, Ok state =>
      let '(neg, err) := validateState state false in
      let neg := if String.eqb (env_value getenv "PLAB_SCENARIO_ID") "tls.record.coverage"
                 then with_profiles "plab-tls13-aes128gcm-p256-server-auth-v2" "plab-single-leaf-p256-server-v2" neg
                 else neg in
      let neg := with_latencies (h_latency (rc_hs env)) (h_latency (rc_hs env)) neg in
      match err with
      | Some err => (case noObservation, Some err, rc_conn env)
      | None =>
          let dir := if String.eqb direction "client-to-server" then 67 else 83 in
          match writeAll (command dir size) (rc_conn env) with
          | (Some err, c) => (case neg, Some err, c)
          | (None, c) =>
              let observed := fold_left observe (rc_before env) newRecordObservingConn in
              let before := snapshot observed in
              match transfer dir size expected c with
              | (Some err, _, _, c) => (case neg, Some err, c)
              | (None, sent, received, c) =>
                  let after := snapshot (fold_left observe (rc_transfer env) observed) in
                  let rate := if 0 <? rc_elapsed env then fdiv (f_of_Z size) (seconds (rc_elapsed env)) else f_zero in
                  let delta := subtractSnapshot after before in
                  let done := RecordCaseObservation caseID direction size expected (durationMS (rc_elapsed env)) rate delta in
                  if String.eqb direction "server-to-client" && (Records (Received delta) <? 1)
                  then (done neg, Some (EMsg "no encrypted server-to-client TLS records were observed in the measured transfer window"), c)
                  else if String.eqb direction "client-to-server" && (Records (Sent delta) <? 1)
                  then (done neg, Some (EMsg "no encrypted client-to-server TLS records were observed in the measured transfer window"), c)
                  else (done (with_application_data sent received neg), None, c)
              end
          end
      end
  end.

(** ** Operations *)

Definition fullScenarioID : string := "tls.handshake.full".
Definition resumedScenarioID : string := "tls.handshake.resumed".
Definition recordThroughputScenarioID : string := "tls.record.throughput".
Definition recordCoverageScenarioID : string := "tls.record.coverage".

Section executor.
Context {Session : Type}.

(** What an operation meets, by scenario; [op_case i] is the i-th transfer. *)
Record operationEnv := OperationEnv {
  op_handshake : handshakeRun; op_resumed : resumedEnv Session; op_case : nat -> recordEnv
}.

(** The cases of record coverage. *)
Definition definitions : list (string * string * Z) :=
  [("client-to-server-1kib", "client-to-server", 1024); ("server-to-client-1kib", "server-to-client", 1024);
   ("client-to-server-64kib", "client-to-server", 65536); ("server-to-client-64kib", "server-to-client", 65536);
   ("client-to-server-1mib", "client-to-server", 1048576); ("server-to-client-1mib", "server-to-client", 1048576)].

Definition operationResult : Type :=
  handshakeObservation * option resumptionProof * list recordCaseObservation * option goerror.

Fixpoint coverageLoop (getenv : string -> string) (env : nat -> recordEnv) (i : nat)
    (defs : list (string * string * Z)) (cases : list recordCaseObservation) (last : handshakeObservation) : operationResult :=
  match defs with
  | [] => (last, None, cases, None)
  | (id, direction, size) :: defs =>
      let '(c, err, _) := runRecordCase getenv (env i) id direction size in
      match err with
      | Some err => (Negotiation c, None, cases, Some (EWrap ("record coverage case " +:+ id +:+ " failed") err))
      | None => coverageLoop getenv env (S i) defs (cases ++ [c]) (Negotiation c)
      end
  end.

Definition runOperation (getenv : string -> string) (scenario : string) (env : operationEnv) : operationResult :=
  if String.eqb scenario fullScenarioID then
    let '(o, err) := runHandshake (op_handshake env) false false in (o, None, [], err)
  else if String.eqb scenario resumedScenarioID then
    let '(o, p, err) := runResumed (op_resumed env) in (o, p, [], err)
  else if String.eqb scenario recordThroughputScenarioID then
    let '(c, err, _) := runRecordCase getenv (op_case env 0) "server-to-client-1mib" "server-to-client" 1048576 in
    (Negotiation c, None, [c], err)
  else if String.eqb scenario recordCoverageScenarioID then
    coverageLoop getenv (op_case env) 0 definitions [] noObservation
  else (noObservation, None, [], Some (EMsg "unsupported operation")).

(** ** Configuration *)

(** [requestedScenario]: the scenario and its protocol variant. *)
Definition requestedScenario (getenv : string -> string) : res (string * string) :=
  let s := env_value getenv "PLAB_SCENARIO_ID" in
  if String.eqb s fullScenarioID then Ok (s, "tls1.3-full")
  else if String.eqb s resumedScenarioID then Ok (s, "tls1.3-psk-resumed")
  else if String.eqb s recordThroughputScenarioID then Ok (s, "tls1.3-record")
  else if String.eqb s recordCoverageScenarioID then Ok (s, "tls1.3-record-coverage")
  else Err (EMsg ("unknown or invalid TLS scenario " +:+ go_quote s)).
Definition isKnownUnsupportedScenario (s : string) : bool :=
  string_in ["tls.handshake.full.tls12"; "tls.handshake.full.chacha20"; "tls.handshake.mutual-auth";
             "tls.early-data.accepted"; "tls.early-data.rejected"; "tls.key-update.diagnostic"] s.
Definition scenarioMode (s : string) : string :=
  if String.eqb s fullScenarioID then "full-handshake"
  else if String.eqb s resumedScenarioID then "resumed-handshake"
  else if String.eqb s recordThroughputScenarioID then "record-throughput"
  else if String.eqb s recordCoverageScenarioID then "record-coverage" else "".

(** Durations are in nanoseconds. *)
Record loadConfig := LoadConfig {
  ScenarioID : string; LoadProfileID : string; Connections : Z; Concurrency : Z; HandshakesPerConnection : Z;
  ApplicationDataBytes : Z; TotalOperations : Z; Duration : Z; Warmup : Z; Repetition : Z; ConnectionTimeout : Z
}.
Definition seconds_ns (n : Z) : Z := int_of (n * 1000000000).
Definition operationTimeout (getenv : string -> string) : Z :=
  let seconds := envInt getenv "PLAB_REQUEST_TIMEOUT_SECONDS" in seconds_ns (if seconds =? 0 then 5 else seconds).

Definition loadConfigFromEnvironment (getenv : string -> string) : res loadConfig :=
  let? selected := requestedScenario getenv in
  let scenario := selected.1 in
  let profile := env_value getenv "PLAB_LOAD_PROFILE_ID" in
  let c := LoadConfig scenario profile (envInt getenv "PLAB_CONNECTIONS") (envInt getenv "PLAB_CONCURRENCY") 1
             (if String.eqb scenario recordThroughputScenarioID then 1048576 else 0)
             (envInt getenv "PLAB_TOTAL_OPERATIONS") (seconds_ns (envInt getenv "PLAB_DURATION_SECONDS"))
             (seconds_ns (envInt getenv "PLAB_WARMUP_SECONDS")) (envInt getenv "PLAB_REPETITION") (operationTimeout getenv) in
  let smoke := (Connections c =? 1) && (Concurrency c =? 1) && (Duration c =? seconds_ns 5) && (Warmup c =? seconds_ns 1)
               && (1 <=? Repetition c) && (ConnectionTimeout c =? seconds_ns 5) in
  if String.eqb scenario recordCoverageScenarioID then
    if String.eqb profile "tls-smoke"
    then guard smoke else EMsg "tls-smoke record coverage requires connections=1 concurrency=1 duration=5s warmup=1s repetition>=1 operationTimeout=5s" in Ok c
    else
      guard String.eqb profile "tls-diagnostic" && (Connections c =? 1) && (Concurrency c =? 1) && (TotalOperations c =? 1)
            && (Duration c =? seconds_ns 10) && (Warmup c =? 0) && (1 <=? Repetition c) && (ConnectionTimeout c =? seconds_ns 15)
        else EMsg "record coverage requires the exact tls-smoke or tls-diagnostic shape" in Ok c
  else guard String.eqb profile "tls-smoke" && smoke
         else EMsg ("tls-smoke with " +:+ scenario +:+ " requires connections=1 concurrency=1 duration=5s warmup=1s repetition>=1 operationTimeout=5s") in
       Ok c.

(** ** Phases *)

Record phaseSummary := PhaseSummary {
  PDurationSeconds : float64; PCompleted : Z; PFailed : Z; PTimedOut : Z; HandshakeLatencies : list float64;
  ConnectionLatencies : list float64; TransferLatencies : list float64; TotalTransferredBytes : Z;
  LastNegotiation : option handshakeObservation; LastResumptionProof : option resumptionProof;
  LastRecordCases : list recordCaseObservation; PErrors : gmap string Z
}.
Definition emptyPhase : phaseSummary := PhaseSummary f_zero 0 0 0 [] [] [] 0 None None [] ∅.

(** What an operation adds to the summary. *)
Definition addOperation (r : operationResult) (s : phaseSummary) : phaseSummary :=
  let '(PhaseSummary d ok f t hl cl tl n lp rp rc e) := s in
  match r with
  | (_, _, _, Some err) =>
      let e := bump (error_string err) e in
      if is_net_timeout err then PhaseSummary d ok f (t + 1) hl cl tl n lp rp rc e
      else PhaseSummary d ok (f + 1) t hl cl tl n lp rp rc e
  | (o, p, cases, None) =>
      PhaseSummary d (ok + 1) f t (hl ++ [TLSHandshakeLatencyMS o]) (cl ++ [ConnectionAndHandshakeLatencyMS o])
        (tl ++ (TransferLatencyMS <$> cases)) (fold_left (fun n c => n + CaseBytes c) cases n) (Some o) p cases e
  end.

(** The loop of [runPhase]: the time since the start at each test of its conditions, and
    what the operation after it meets; it has no result while neither condition holds. *)
Fixpoint phaseLoop (getenv : string -> string) (c : loadConfig) (limit : Z) (turns : list (Z * operationEnv))
    (s : phaseSummary) : option phaseSummary :=
  match turns with
  | [] => None
  | (elapsed, env) :: turns =>
      if (0 <? TotalOperations c) && (TotalOperations c <=? PCompleted s + PFailed s + PTimedOut s) then Some s
      else if (TotalOperations c =? 0) && (limit <=? elapsed) then Some s
      else phaseLoop getenv c limit turns (addOperation (runOperation getenv (ScenarioID c) env) s)
  end.
Record phaseEnv := PhaseEnv { ph_turns : list (Z * operationEnv); ph_seconds : float64 }.
Definition runPhase (getenv : string -> string) (c : loadConfig) (env : phaseEnv) (warmup : bool) : option phaseSummary :=
  s ← phaseLoop getenv c (if warmup then Warmup c else Duration c) (ph_turns env) emptyPhase;
  let '(PhaseSummary _ ok f t hl cl tl n lp rp rc e) := s in
  Some (PhaseSummary (ph_seconds env) ok f t hl cl tl n lp rp rc e).

(** ** Results *)

Record normalizedMetrics := NormalizedMetrics {
  HandshakesPerSecond : float64; HandshakeLatency : list float64;   (* mean, P50, P75, P90, P95, P99 *)
  ConnectionLatencyMean : float64; MBytesPerSecond : float64; TransferLatency : list float64;
  MTransferredBytes : Z; MCompleted : Z; MFailed : Z; MTimedOut : Z
}.
Definition latencySummary (l : list float64) : list float64 :=
  mean l :: ((fun q => percentile l (f_ratio q 100)) <$> [50; 75; 90; 95; 99]).
Definition normalizeMetrics (s : phaseSummary) : normalizedMetrics :=
  let d := if f_less f_zero (PDurationSeconds s) then PDurationSeconds s else f_of_Z 1 in
  NormalizedMetrics (fdiv (f_of_Z (PCompleted s)) d) (latencySummary (HandshakeLatencies s)) (mean (ConnectionLatencies s))
    (fdiv (f_of_Z (TotalTransferredBytes s)) d) (latencySummary (TransferLatencies s)) (TotalTransferredBytes s)
    (PCompleted s) (PFailed s) (PTimedOut s).

Record loadShape := LoadShape {
  SConnections : Z; SConcurrency : Z; SHandshakesPerConnection : Z; SApplicationDataBytes : Z; STotalOperations : option Z;
  SDurationSeconds : float64; SWarmupSeconds : float64; SRepetition : Z
}.
Definition shapeFrom (c : loadConfig) : loadShape :=
  LoadShape (Connections c) (Concurrency c) (HandshakesPerConnection c) (ApplicationDataBytes c)
    (if 0 <? TotalOperations c then Some (TotalOperations c) else None) (seconds (Duration c)) (seconds (Warmup c)) (Repetition c).
Definition with_concurrency (n : Z) (s : loadShape) : loadShape :=
  let '(LoadShape a _ b c d e f g) := s in LoadShape a n b c d e f g.
(** [writeRecordArtifacts]: what it writes of each case, and whether all six are complete. *)
Definition recordArtifacts (scenario : string) (cases : list recordCaseObservation)
    : list (string * string * Z * string) * option bool :=
  ((fun c => (CaseID c, Direction c, CaseBytes c, PayloadSHA256 c)) <$> cases,
   if String.eqb scenario recordCoverageScenarioID then Some (len cases =? 6) else None).
Definition isRecordScenario (s : string) : bool := String.eqb s recordThroughputScenarioID || String.eqb s recordCoverageScenarioID.

(** The result, with the artifacts written beside it for resumption and for records. *)
Record executorResult := ExecutorResult {
  RScenarioID : string; RMode : string; RProtocolProof : option handshakeObservation; RRequestedLoad : loadShape;
  REffectiveLoad : loadShape; RMetrics : normalizedMetrics; RResumption : option resumptionProof;
  RRecords : option (list (string * string * Z * string) * option bool)
}.

(** ** [main] *)

(** What [main] meets; the artifacts are written. *)
Record mainEnv := MainEnv {
  m_getenv : string -> string; m_target : string; m_parse : string -> res (string * string);
  m_split : string -> option goerror; m_roots : res unit; m_validationOnly : bool; m_showVersion : bool;
  m_mkdir : option goerror; m_preflight : operationEnv; m_warmup : phaseEnv; m_measured : phaseEnv
}.

Definition rejected (s : phaseSummary) : bool :=
  negb (PFailed s =? 0) || negb (PTimedOut s =? 0) || (PCompleted s =? 0).

(** The exit code and the result printed, unless a phase does not end. *)
Definition main (env : mainEnv) : option (Z * option executorResult) :=
  let getenv := m_getenv env in
  if m_showVersion env then Some (0, None) else
  if negb (forallb (fun '(n, v) => verifySubstitution getenv n v)
       [("PLAB_EXECUTOR_ID", "go-tls13-executor"); ("PLAB_EXECUTOR_VERSION", "0.3.2");
        ("PLAB_LOAD_GENERATOR_ID", "go-crypto-tls13-load"); ("PLAB_LOAD_GENERATOR_VERSION", "0.3.2");
        ("PLAB_PROTOCOL", "tls")]) then Some (2, None) else
  if bool_decide (m_mkdir env <> None) then Some (1, None) else
  if isKnownUnsupportedScenario (env_value getenv "PLAB_SCENARIO_ID") then Some (3, None) else
  match requestedScenario getenv with
  | Err _ => Some (2, None)
  | Ok (scenario, variant) =>
      if negb (verifySubstitution getenv "PLAB_PROTOCOL_VARIANT" variant) then Some (2, None) else
      match normalizeTarget (m_parse env) (m_split env) (m_target env), m_roots env with
      | Err _, _ | Ok _, Err _ => Some (2, None)
      | Ok _, Ok _ =>
          let '(_, _, _, err) := runOperation getenv scenario (m_preflight env) in
          if bool_decide (err <> None) then Some (1, None) else
          if m_validationOnly env then Some (0, None) else
          match loadConfigFromEnvironment getenv with
          | Err _ => Some (2, None)
          | Ok config =>
              warm ← (if 0 <? Warmup config then rejected <$> runPhase getenv config (m_warmup env) true else Some false);
              if (warm : bool) then Some (1, None) else
              measured ← runPhase getenv config (m_measured env) false;
              if rejected measured || bool_decide (LastNegotiation measured = None) then Some (1, None)
              else
                let shape := shapeFrom config in
                Some (0, Some (ExecutorResult scenario (scenarioMode scenario) (LastNegotiation measured) shape
                                 (with_concurrency 1 shape) (normalizeMetrics measured)
                                 (if String.eqb scenario resumedScenarioID then LastResumptionProof measured else None)
                                 (if isRecordScenario scenario then Some (recordArtifacts scenario (LastRecordCases measured)) else None)))
          end
      end
  end.
End executor.
Arguments operationEnv Session : clear implicits.
Arguments phaseEnv Session : clear implicits.
Arguments mainEnv Session : clear implicits.
