(* ===== verification/Tls13Props.v ===== *)
(** TLS 1.3: the record parser against any division into reads, the single-use of session
    tickets, transfers between the executor and the server, which loads end, and what a
    successful run has earned. *)
From S2P Require Export Prelude Stats GoText GoHash TlsBase Tls13.

(** ** The record parser *)

(** A record: three octets of type and version, a length the parser accepts, the body. *)
Definition is_record (r : bytes) : Prop :=
  exists head body, length head = 3%nat /\ len body <= 18432 /\ r = head ++ be_encode 2 (len body) ++ body.
(** Octets in which no record is complete yet, and whose header is acceptable if it is there. *)
Definition incomplete (b : bytes) : Prop :=
  len b < 5 \/ (5 <= len b /\ be_decode (slice 3 5 b) <= 18432 /\ len b < 5 + be_decode (slice 3 5 b)).

Lemma record_length r rest :
  is_record r -> 5 <= len r /\ be_decode (slice 3 5 (r ++ rest)) = len r - 5 /\ len r - 5 <= 18432.
Proof.
  intros (head & body & Hh & Hb & ->). pose proof (len_nonneg body).
  assert (Hl : len (head ++ be_encode 2 (len body) ++ body) = 5 + len body).
  { rewrite !len_app. unfold len at 1 2. rewrite Hh, length_be_encode. lia. }
  rewrite Hl. split; [lia|]. split; [|lia].
  assert (Hs : slice 3 5 ((head ++ be_encode 2 (len body) ++ body) ++ rest) = be_encode 2 (len body)).
  { unfold slice. rewrite <-!app_assoc. rewrite (drop_app_length' head) by (symmetry; exact Hh).
    apply take_app_length'. by rewrite length_be_encode. }
  rewrite Hs, be_decode_encode. rewrite Z.mod_small; [lia|]. simpl. lia.
Qed.

Lemma feedLoop_incomplete fuel p : incomplete (pending p) -> feedLoop fuel p = p.
Proof.
  intros H. destruct fuel as [|fuel]; [reflexivity|]. cbn [feedLoop].
  destruct (len (pending p) <? 5) eqn:E; [reflexivity|]. apply Z.ltb_ge in E.
  destruct H as [H|(_ & H1 & H2)]; [lia|].
  rewrite (proj2 (Z.ltb_ge _ _)) by exact H1. rewrite (proj2 (Z.ltb_lt _ _)) by exact H2. reflexivity.
Qed.

(** Complete records are counted and removed. *)
Lemma feedLoop_records rs rest fuel c o :
  Forall is_record rs -> incomplete rest -> (length (concat rs ++ rest) < fuel)%nat ->
  feedLoop fuel (TlsRecordParser (concat rs ++ rest) c o)
  = TlsRecordParser rest (c + len rs) (o + len (concat rs)).
Proof.
  intros Hrs Hrest. revert fuel c o; induction Hrs as [|r rs Hr _ IH]; intros fuel c o Hf.
  - cbn [concat app]. rewrite feedLoop_incomplete by exact Hrest. f_equal; unfold len; simpl; lia.
  - cbn [concat]. rewrite <-app_assoc. destruct fuel as [|fuel]; [lia|]. cbn [feedLoop pending count octets].
    destruct (record_length r (concat rs ++ rest) Hr) as (H1 & H2 & H3). rewrite H2.
    pose proof (len_nonneg (concat rs ++ rest)).
    rewrite (proj2 (Z.ltb_ge _ 5)) by (rewrite len_app; lia). rewrite (proj2 (Z.ltb_ge 18432 _)) by lia.
    rewrite (proj2 (Z.ltb_ge (len (r ++ _)) _)) by (rewrite len_app; lia).
    replace (Z.to_nat (5 + (len r - 5))) with (length r) by (unfold len; lia). rewrite drop_app_length.
    rewrite IH; [|cbn [concat] in Hf; rewrite <-app_assoc, length_app in Hf; unfold len in H1; lia].
    rewrite len_app. f_equal; unfold len; simpl; lia.
Qed.

(** A prefix of octets with complete records followed by an incomplete one divides in the
    same way. *)
Lemma incomplete_prefix x y : incomplete (x ++ y) -> incomplete x.
Proof.
  intros H. unfold incomplete in *. rewrite len_app in H. pose proof (len_nonneg y).
  destruct (Z_lt_ge_dec (len x) 5) as [Hx|Hx]; [by left|]. right. destruct H as [H|(_ & H1 & H2)]; [lia|].
  assert (Hs : slice 3 5 (x ++ y) = slice 3 5 x).
  { unfold slice. rewrite drop_app_le, take_app_le; [reflexivity| |]; rewrite ?length_drop; unfold len in Hx; lia. }
  rewrite Hs in H1, H2. split; [lia|]. split; lia.
Qed.

Lemma record_prefix_incomplete x y : is_record (x ++ y) -> y <> [] -> incomplete x.
Proof.
  intros Hr Hy. destruct (record_length (x ++ y) [] Hr) as (H1 & H2 & H3). rewrite app_nil_r in H2.
  unfold incomplete. destruct (Z_lt_ge_dec (len x) 5) as [Hx|Hx]; [by left|]. right.
  assert (Hs : slice 3 5 (x ++ y) = slice 3 5 x).
  { unfold slice. rewrite drop_app_le, take_app_le; [reflexivity| |]; rewrite ?length_drop; unfold len in Hx; lia. }
  rewrite Hs in H2. rewrite H2. rewrite len_app in *. assert (0 < len y) by (destruct y; [done|unfold len; simpl; lia]). lia.
Qed.

Lemma records_divide rs rest x y :
  Forall is_record rs -> incomplete rest -> x ++ y = concat rs ++ rest ->
  exists rs1 rs2 mid, rs = rs1 ++ rs2 /\ x = concat rs1 ++ mid /\ incomplete mid /\ mid ++ y = concat rs2 ++ rest.
Proof.
  intros Hrs Hrest. revert x; induction Hrs as [|r rs Hr Hrs IH]; intros x Hx.
  - exists [], [], x. cbn [concat app] in *. split; [reflexivity|]. split; [reflexivity|]. split; [|exact Hx].
    apply (incomplete_prefix x y). by rewrite Hx.
  - cbn [concat] in Hx. rewrite <-app_assoc in Hx. destruct (decide (length r <= length x)%nat) as [Hl|Hl].
    + assert (Hp : x = r ++ drop (length r) x).
      { rewrite <-(take_drop (length r) x) at 1. f_equal.
        transitivity (take (length r) (x ++ y)); [by rewrite take_app_le|]. rewrite Hx. apply take_app_length. }
      rewrite Hp, <-app_assoc in Hx. apply app_inv_head in Hx.
      destruct (IH _ Hx) as (rs1 & rs2 & mid & -> & H1 & H2 & H3).
      exists (r :: rs1), rs2, mid. split; [reflexivity|]. split; [|split; [exact H2|exact H3]].
      rewrite Hp, H1. cbn [concat]. by rewrite <-app_assoc.
    + exists [], (r :: rs), x. split; [reflexivity|]. split; [reflexivity|]. split.
      * apply (record_prefix_incomplete x (drop (length x) r)).
        -- replace (x ++ drop (length x) r) with r; [exact Hr|]. rewrite <-(take_drop (length x) r) at 1. f_equal.
           transitivity (take (length x) (r ++ concat rs ++ rest)); [rewrite take_app_le by lia; reflexivity|].
           rewrite <-Hx. apply take_app_length.
        -- intros H. apply (f_equal length) in H. rewrite length_drop in H. simpl in H. lia.
      * cbn [concat]. by rewrite <-app_assoc.
Qed.

(** C20: however the raw connection divides the octets into writes or reads, the observing
    connection counts exactly the TLS records that are complete, and their octets, and keeps
    exactly what follows them: for records of at most 18432 octets of body, the limit of the
    parser, which is above what TLS allows. *)
Theorem records_counted_exactly rs rest chunks :
  Forall is_record rs -> incomplete rest -> concat chunks = concat rs ++ rest ->
  fold_left feed chunks parser_new = TlsRecordParser rest (len rs) (len (concat rs)).
Proof.
  intros Hrs Hrest.
  assert (H : forall chunks rs rest mid c o, Forall is_record rs -> incomplete rest -> incomplete mid ->
    mid ++ concat chunks = concat rs ++ rest ->
    fold_left feed chunks (TlsRecordParser mid c o) = TlsRecordParser rest (c + len rs) (o + len (concat rs))).
  { clear. intros chunks; induction chunks as [|chunk chunks IH]; intros rs rest mid c o Hrs Hrest Hmid Hc.
    - cbn [concat fold_left] in *. rewrite app_nil_r in Hc. subst mid.
      destruct rs as [|r rs]; [cbn [concat app]; f_equal; unfold len; simpl; lia|].
      exfalso. inversion_clear Hrs as [|?? Hr _]. destruct (record_length r (concat rs ++ rest) Hr) as (H1 & H2 & H3).
      cbn [concat] in Hmid. rewrite <-app_assoc in Hmid. pose proof (len_nonneg (concat rs ++ rest)).
      destruct Hmid as [Hm|(_ & _ & Hm)]; [rewrite len_app in Hm; lia|]. rewrite H2, len_app in Hm. lia.
    - cbn [concat fold_left] in *. rewrite app_assoc in Hc.
      destruct (records_divide rs rest (mid ++ chunk) (concat chunks) Hrs Hrest Hc) as (rs1 & rs2 & mid' & -> & H1 & H2 & H3).
      apply Forall_app in Hrs as [Hrs1 Hrs2]. unfold feed at 2. cbn [pending count octets]. rewrite H1.
      rewrite feedLoop_records by (assumption || lia). rewrite (IH rs2 rest mid' _ _ Hrs2 Hrest H2 H3).
      rewrite concat_app, !len_app. f_equal; lia. }
  intros Hc. unfold parser_new. rewrite (H chunks rs rest [] 0 0 Hrs Hrest); [f_equal; lia|by left|exact Hc].
Qed.

(** A header that is too long ends the count of the chunk it is in, and only of that. *)
Lemma oversize_depends_on_chunks :
  let header := [23; 3; 3; 255; 255] in
  let record := [23; 3; 3; 0; 1; 7] in
  count (fold_left feed [header ++ record] parser_new) = 0 /\ count (fold_left feed [header; record] parser_new) = 1.
Proof. split; vm_compute; reflexivity. Qed.

Definition record_bytes (n : Z) : bytes := [23; 3; 3] ++ be_encode 2 n ++ repeat 7 (Z.to_nat n).

Lemma record_bytes_ok n : 0 <= n <= 18432 -> is_record (record_bytes n).
Proof.
  intros Hn. exists [23; 3; 3], (repeat 7 (Z.to_nat n)). unfold record_bytes.
  assert (Hl : len (repeat 7 (Z.to_nat n)) = n) by (unfold len; rewrite repeat_length; lia). rewrite Hl.
  split; [reflexivity|]. split; [lia|reflexivity].
Qed.

Lemma records_counted_exactly_witness :
  let wire := record_bytes 3 ++ record_bytes 0 ++ [23; 3; 3; 0] in
  fold_left feed [take 2 wire; slice 2 9 wire; []; drop 9 wire] parser_new = TlsRecordParser [23; 3; 3; 0] 2 13.
Proof.
  refine (records_counted_exactly [record_bytes 3; record_bytes 0] [23; 3; 3; 0] _ _ _ _).
  - repeat (constructor; [apply record_bytes_ok; lia|]). constructor.
  - left. vm_compute. reflexivity.
  - vm_compute. reflexivity.
Defined.

(** ** The single-use cache *)

Section cache.
Context {Session : Type}.
Implicit Types (c : singleUseSessionCache Session) (ops : list (cacheCall Session)).

(** The sessions a sequence of calls stores, in order; the number of its gets. *)
Definition stored ops : list Session :=
  omap (fun op => match op with CPut _ s => s | CGet _ => None end) ops.
Definition is_get (op : cacheCall Session) : bool := match op with CGet _ => true | CPut _ _ => false end.
Definition held c : list Session := option_list (session c).

Lemma calls_snoc ops op c : calls (ops ++ [op]) c = call (calls ops c) op.
Proof. unfold calls. by rewrite fold_left_app. Qed.

Lemma calls_account ops c :
  let '(out, c') := calls ops c in
  (out ++ held c') `sublist_of` (held c ++ stored ops) /\
  hits c' = hits c + len out /\
  gets c' = gets c + len (List.filter is_get ops) /\
  puts c' = puts c + (len ops - len (List.filter is_get ops)) /\
  (stored ops = [] -> Forall (fun op => is_get op = true) ops -> len out + len (held c') = len (held c)).
Proof.
  induction ops as [|op ops IH] using rev_ind.
  { cbn [calls fold_left app]. unfold calls. cbn [fold_left app stored omap list_omap List.filter].
    change (len (@nil Session)) with 0. change (len (@nil (cacheCall Session))) with 0. rewrite app_nil_r.
    split; [reflexivity|]. repeat split; lia. }
  rewrite calls_snoc. destruct (calls ops c) as [out c'] eqn:E. destruct IH as (H1 & H2 & H3 & H4 & H5).
  unfold stored. rewrite omap_app. fold (stored ops).
  rewrite !List.filter_app, !len_app. change (len [op]) with 1.
  destruct op as [k s|k]; cbn [call fst snd List.filter is_get omap list_omap option_list].
  - unfold Put. cbn [hits gets puts]. unfold held at 1. cbn [session].
    rewrite ?app_nil_r. change (len (@nil (cacheCall Session))) with 0. split.
    + rewrite app_assoc. apply (sublist_app _ _ (option_list s)).
      * transitivity (out ++ held c'); [apply sublist_inserts_r; reflexivity|exact H1].
      * destruct s; reflexivity.
    + split; [lia|]. split; [lia|]. split; [lia|]. intros _ H. apply Forall_app in H as [_ H].
      inversion_clear H as [|?? H' _]. discriminate H'.
  - rewrite app_nil_r. change (len [CGet k]) with 1.
    assert (Hg : forall out c1, Get k c' = (out, c1) ->
      held c' = option_list out ++ held c1 /\ puts c1 = puts c' /\ gets c1 = gets c' + 1 /\ hits c1 = hits c' + len (option_list out)).
    { clear. intros out c1. unfold Get, held. destruct c' as [k' [s|] p g h]; cbn [session key puts gets hits].
      - destruct (String.eqb k' k); intros [= <- <-]; cbn [session puts gets hits option_list app].
        + change (len (option_list (Some s))) with 1. split_and!; first [reflexivity | lia].
        + change (len (option_list (@None Session))) with 0. split_and!; first [reflexivity | lia].
      - intros [= <- <-]. cbn [session puts gets hits option_list app]. change (len (option_list (@None Session))) with 0. split_and!; first [reflexivity | lia]. }
    destruct (Get k c') as [r c1]. destruct (Hg _ _ eq_refl) as (G1 & G2 & G3 & G4). cbn [fst snd].
    replace (match r with Some s => [s] | None => [] end) with (option_list r) by (by destruct r).
    rewrite <-app_assoc, <-G1, G2, G3, G4, len_app. split; [exact H1|]. split; [lia|]. split; [lia|]. split; [lia|].
    intros Hs Hf. apply Forall_app in Hf as [Hf _]. specialize (H5 Hs Hf).
    rewrite G1, len_app in H5. lia.
Qed.

(** Whatever calls crypto/tls makes on the session cache, under whatever keys and in
    whatever order, the sessions it hands out, and the one it still holds, are among those
    that were stored, in the order they were, each at most as often as it was: a ticket is
    never offered twice. The counters are those of the calls. *)
Theorem ticket_never_offered_twice (ops : list (cacheCall Session)) :
  let '(out, c) := calls ops (@cache_new Session) in
  (out ++ held c) `sublist_of` stored ops /\
  (NoDup (stored ops) -> NoDup out) /\
  counts c = (len ops - len (List.filter is_get ops), len (List.filter is_get ops), len out,
              bool_decide (is_Some (session c))).
Proof.
  pose proof (calls_account ops cache_new) as H. destruct (calls ops cache_new) as [out c].
  destruct H as (H1 & H2 & H3 & H4 & _). change (held (@cache_new Session) ++ stored ops) with (stored ops) in H1.
  cbn [cache_new hits gets puts] in *. split; [exact H1|]. split.
  - intros Hn. eapply sublist_NoDup; [exact Hn|]. transitivity (out ++ held c); [apply sublist_inserts_r; reflexivity|exact H1].
  - unfold counts. rewrite H2, H3, H4. repeat f_equal; lia.
Qed.
End cache.

(** ** What an operation has checked *)

(** The session of a result: TLS 1.3 with the one suite, group, protocol and certificate. *)
Definition session_ok (resumed : bool) (o : handshakeObservation) : Prop :=
  TLSVersion o = "TLS1.3" /\ CipherSuite o = "TLS_AES_128_GCM_SHA256" /\ KeyExchangeGroup o = "X25519" /\
  ALPN o = alpn /\ HandshakeComplete o = true /\ DidResume o = resumed /\ VerifiedChainCount o <> 0 /\
  CertificateDERSHA256 o = leafDERHash /\ CertificateSPKISHA256 o = leafSPKIHash.

Lemma failures_none l : failures_error l = None -> l = [].
Proof. by destruct l. Qed.

Lemma failure_none b m rest : failure b m ++ rest = [] -> b = false /\ rest = [].
Proof. destruct b; [done|]. by intros H. Qed.

Lemma failure_alone b m : failure b m = [] -> b = false.
Proof. by destruct b. Qed.

Lemma validateState_ok state resumed o : validateState state resumed = (o, None) -> session_ok resumed o.
Proof.
  unfold validateState. destruct (leafDigests (cs_peer state)) as [der spki]. intros [= <- H].
  apply failures_none in H. repeat (apply failure_none in H; destruct H as [? H]).
  apply failure_alone in H.
  unfold session_ok. cbn. reflect_bools.
  repeat match goal with
  | X : String.eqb _ _ = true |- _ => apply String.eqb_eq in X
  | X : Bool.eqb _ _ = true |- _ => apply Bool.eqb_prop in X
  end.
  unfold tlsVersionName. destruct (cs_version state =? VersionTLS13) eqn:E; [|apply Z.eqb_neq in E; congruence].
  split_and!; congruence.
Qed.

Lemma session_ok_latencies resumed x y o : session_ok resumed o -> session_ok resumed (with_latencies x y o).
Proof. by destruct o. Qed.
Lemma session_ok_profiles resumed x y o : session_ok resumed o -> session_ok resumed (with_profiles x y o).
Proof. by destruct o. Qed.
Lemma session_ok_application_data resumed x y o :
  session_ok resumed o -> session_ok resumed (with_application_data x y o).
Proof. by destruct o. Qed.

Lemma runHandshake_ok env resumed drain o : runHandshake env resumed drain = (o, None) -> session_ok resumed o.
Proof.
  unfold runHandshake. destruct (h_dial (hs_env env)); [done|]. destruct (h_state (hs_env env)) as [state|]; [|done].
  destruct (validateState state resumed) as [o' [err|]] eqn:E; [done|]. intros [= <- _].
  by eapply session_ok_latencies, validateState_ok.
Qed.

(** A transfer that succeeded: the session, and the records of its direction. *)
Definition case_ok (id direction : string) (size : Z) (c : recordCaseObservation) : Prop :=
  CaseID c = id /\ Direction c = direction /\ CaseBytes c = size /\ PayloadSHA256 c = payloadHash size /\
  session_ok false (Negotiation c) /\
  (if String.eqb direction "server-to-client" then 1 <= Records (Received (WireRecordDelta c))
   else if String.eqb direction "client-to-server" then 1 <= Records (Sent (WireRecordDelta c)) else True).

Lemma runRecordCase_ok getenv env id direction size c c' :
  runRecordCase getenv env id direction size = (c, None, c') -> case_ok id direction size c.
Proof.
  unfold runRecordCase. destruct (h_dial (rc_hs env)); [done|]. destruct (h_state (rc_hs env)) as [state|]; [|done].
  destruct (validateState state false) as [neg [err|]] eqn:E; [done|]. apply validateState_ok in E. cbv zeta.
  match goal with |- context [with_latencies ?x ?y ?n] => set (neg' := with_latencies x y n) end.
  assert (Hn : session_ok false neg').
  { apply session_ok_latencies. case_match; [by apply session_ok_profiles|exact E]. }
  generalize dependent neg'; intros neg' Hn. clear E neg.
  destruct (writeAll _ _) as [[err|] c1]; [done|].
  destruct (transfer _ _ _ c1) as [[[[err|] sent] received] c2]; [done|].
  match goal with |- context [subtractSnapshot ?a ?b] => generalize (subtractSnapshot a b) end. intros delta.
  destruct (String.eqb direction "server-to-client") eqn:Es; cbn [andb].
  - destruct (Records (Received delta) <? 1) eqn:Er; [done|]. apply Z.ltb_ge in Er.
    rewrite (proj1 (String.eqb_eq _ _) Es). change (String.eqb "server-to-client" "client-to-server") with false. cbn [andb].
    intros [= <- _]. unfold case_ok. cbn. split_and!; try reflexivity; [by apply session_ok_application_data|exact Er].
  - destruct (String.eqb direction "client-to-server") eqn:Ec; cbn [andb].
    + destruct (Records (Sent delta) <? 1) eqn:Er; [done|]. apply Z.ltb_ge in Er. intros [= <- _].
      unfold case_ok. cbn -[String.eqb]. rewrite Es, Ec.
      split_and!; try reflexivity; [by apply session_ok_application_data|exact Er].
    + intros [= <- _]. unfold case_ok. cbn -[String.eqb]. rewrite Es, Ec.
      split_and!; try reflexivity; by apply session_ok_application_data.
Qed.

(** ** Resumption *)

Section operations.
Context {Session : Type}.
(** C18: a resumed handshake that the executor accepts resumed the session of a ticket that
    its own source handshake, complete and not resumed, left in the cache: the measured
    handshake asked for a session once, was handed exactly one, and left none behind; and
    when it stored none itself, that one is the session the source handshake stored last. *)
Theorem resumption_spends_its_ticket (env : resumedEnv Session) :
  match runResumed env with
  | (o, Some p, None) =>
  let before := (calls (rs_sourceCalls env) cache_new).2 in
  let '(used, after) := calls (rs_measuredCalls env) before in
  session_ok false (SourceSession p) /\ MeasuredSession p = o /\ session_ok true o /\
  SessionTicketConsumedExactlyOnce p = true /\
  1 <= CachePutCountAfterSource p /\ len (List.filter is_get (rs_measuredCalls env)) = 1 /\
  held after = [] /\
  exists s, used = [s] /\ (stored (rs_measuredCalls env) = [] -> session before = Some s)
  | _ => True
  end.
Proof.
  unfold runResumed. destruct (runHandshake (rs_source env) false true) as [source [err|]] eqn:Es; [done|].
  apply runHandshake_ok in Es. set (before := (calls (rs_sourceCalls env) cache_new).2).
  unfold counts at 1. destruct (negb (bool_decide (is_Some (session before))) || (puts before <? 1)) eqn:Ea; [done|].
  destruct (runHandshake (rs_measured env) true false) as [measured [err|]] eqn:Em; [done|]. apply runHandshake_ok in Em.
  pose proof (calls_account (rs_measuredCalls env) before) as Hc.
  destruct (calls (rs_measuredCalls env) before) as [used after]. cbn [snd]. unfold counts.
  destruct Hc as (H1 & H2 & H3 & _ & _).
  destruct ((gets after - gets before =? 1) && (hits after - hits before =? 1) && negb (bool_decide (is_Some (session after))))
    eqn:Eo; [|done].
  cbn [SourceSession MeasuredSession SessionTicketConsumedExactlyOnce CachePutCountAfterSource].
  assert (Hh : held after = []).
  { unfold held. destruct (session after); [|reflexivity]. rewrite bool_decide_true in Eo by eauto. by rewrite andb_false_r in Eo. }
  assert (Hu : len used = 1) by (reflect_bools; lia).
  destruct used as [|s [|? ?]]; [done| |unfold len in Hu; cbn [length] in Hu; lia].
  cbv zeta. split; [exact Es|]. split; [reflexivity|]. split; [exact Em|]. split; [reflexivity|].
  split; [reflect_bools; lia|]. split; [reflect_bools; lia|]. split; [exact Hh|].
  exists s. split; [reflexivity|]. intros Hs. rewrite Hs, Hh, !app_nil_r in H1. unfold held in H1.
  destruct (session before) as [s'|]; [|by inversion H1]. cbn [option_list] in H1.
  assert (Hin : s ∈ [s']) by (eapply elem_of_sublist; [|exact H1]; left).
  by apply list_elem_of_singleton in Hin as ->.
Qed.

(** ** Operations *)

Definition case_of (d : string * string * Z) : recordCaseObservation -> Prop := case_ok d.1.1 d.1.2 d.2.

Lemma coverageLoop_ok getenv env i defs cases final o cases' p :
  coverageLoop getenv env i defs cases final = (o, p, cases', None) ->
  p = None /\ exists new, cases' = cases ++ new /\ Forall2 case_of defs new /\
  o = default final (Negotiation <$> last new).
Proof.
  revert i cases final; induction defs as [|[[id direction] size] defs IH]; intros i cases final; cbn [coverageLoop].
  - intros [= <- <- <-]. split; [reflexivity|]. exists []. by rewrite app_nil_r.
  - destruct (runRecordCase getenv (env i) id direction size) as [[c [err|]] c'] eqn:E; [done|]. intros H.
    apply IH in H as (-> & new & -> & Hf & ->). split; [reflexivity|]. exists (c :: new). rewrite <-app_assoc.
    split; [reflexivity|]. split; [constructor; [exact (runRecordCase_ok _ _ _ _ _ _ _ E)|exact Hf]|].
    destruct new as [|c2 new]; [reflexivity|]. rewrite last_cons_cons. destruct (last_is_Some (c2 :: new)) as [_ Hl].
    destruct Hl as [x Hx]; [done|]. by rewrite Hx.
Qed.

(** An operation that succeeded. *)
Definition operation_ok (scenario : string) (r : handshakeObservation * option resumptionProof * list recordCaseObservation) : Prop :=
  session_ok (String.eqb scenario resumedScenarioID) r.1.1 /\
  (scenario = resumedScenarioID -> SessionTicketConsumedExactlyOnce <$> r.1.2 = Some true) /\
  Forall2 case_of (if String.eqb scenario recordThroughputScenarioID then [("server-to-client-1mib", "server-to-client", 1048576)]
                   else if String.eqb scenario recordCoverageScenarioID then definitions else []) r.2.

Lemma runOperation_ok getenv scenario (env : operationEnv Session) o p cases :
  runOperation getenv scenario env = (o, p, cases, None) -> operation_ok scenario (o, p, cases).
Proof.
  unfold runOperation, operation_ok. cbn [fst snd].
  destruct (String.eqb scenario fullScenarioID) eqn:E1.
  { apply String.eqb_eq in E1 as ->. destruct (runHandshake _ _ _) as [o' err] eqn:E. intros [= <- <- <- ->].
    apply runHandshake_ok in E. split; [exact E|]. split; [intros H; discriminate H|constructor]. }
  destruct (String.eqb scenario resumedScenarioID) eqn:E2.
  { apply String.eqb_eq in E2 as ->. destruct (runResumed (op_resumed env)) as [[o' p'] err] eqn:E.
    intros [= <- <- <- ->]. split; [|split; [|constructor]].
    all: revert E; unfold runResumed;
      destruct (runHandshake (rs_source _) _ _) as [? [?|]]; [done|]; destruct (counts _) as [[[? ?] ?] ?]; case_match; [done|];
      destruct (runHandshake (rs_measured _) _ _) as [? [?|]] eqn:Em; destruct (counts _) as [[[? ?] ?] ?]; [done|].
    - apply runHandshake_ok in Em. case_match; [|done]. by intros [= <- _].
    - case_match eqn:Eo; [|done]. intros [= _ <-] _. cbn. by rewrite ?Eo. }
  destruct (String.eqb scenario recordThroughputScenarioID) eqn:E3.
  { apply String.eqb_eq in E3 as ->. destruct (runRecordCase _ _ _ _ _) as [[c err] c'] eqn:E. intros [= <- <- <- ->].
    apply runRecordCase_ok in E. split; [apply E|]. split; [intros H; discriminate H|].
    constructor; [exact E|constructor]. }
  destruct (String.eqb scenario recordCoverageScenarioID) eqn:E4; [|done].
  intros H. apply coverageLoop_ok in H as (-> & new & -> & Hf & ->). cbn [app].
  split; [|split; [intros ->; discriminate E2|exact Hf]].
  destruct (last new) as [c|] eqn:El.
  - apply last_Some in El as [l ->]. apply Forall2_app_inv_r in Hf as (d1 & d2 & _ & Hf & _).
    inversion Hf as [|d c' d3 l3 Hd _]. apply Hd.
  - apply last_None in El as ->. inversion Hf.
Qed.
End operations.

(** ** Transfers between the executor and the server *)

Definition record_size (size : Z) : Prop := size = 1024 \/ size = 65536 \/ size = 1048576.

Lemma length_payloadOf size : 0 <= size -> len (payloadOf size) = size.
Proof. intros H. unfold len, payloadOf. rewrite repeat_length. lia. Qed.

Lemma command_parts dir size :
  record_size size -> let header := command dir size in
  length header = 13%nat /\ string_of_bytes (take 8 header) = commandMagic /\ byte_at header 8 = dir /\
  be_decode (slice 9 13 header) = size.
Proof. intros [-> | [-> | ->]]; repeat split; reflexivity. Qed.

Lemma record_size_accepted size :
  record_size size -> negb (size =? 1024) && negb (size =? 65536) && negb (size =? 1048576) = false.
Proof. by intros [-> | [-> | ->]]. Qed.

Lemma writeAll_ok value s out : writeAll value (Conn s out []) = (None, Conn s (out ++ value) []).
Proof. destruct value; [by rewrite app_nil_r|reflexivity]. Qed.

(** What a direction sends after the command, and what it is answered. *)
Definition upload (dir size : Z) : bytes := if dir =? 83 then [] else payloadOf size.
Definition answer (dir size : Z) : bytes :=
  if dir =? 83 then payloadOf size else bytes_of_string "OK" ++ sha256 (payloadOf size).

Lemma server_answers dir size e out :
  record_size size -> dir = 67 \/ dir = 83 ->
  Server.serveRecordOperation (Conn (Stream (command dir size ++ upload dir size) e) out [])
  = (None, Conn (Stream [] e) (out ++ answer dir size) []).
Proof.
  intros Hs Hd. destruct (command_parts dir size Hs) as (H1 & H2 & H3 & H4).
  unfold Server.serveRecordOperation. cbn [c_in c_out c_faults]. rewrite (read_full_app' 13) by (symmetry; exact H1).
  rewrite H2, H3, H4, String.eqb_refl, record_size_accepted by exact Hs. cbn [negb].
  unfold upload, answer. destruct Hd as [-> | ->].
  - change (67 =? 83) with false. change (67 =? 67) with true. cbv iota.
    rewrite <-(app_nil_r (payloadOf size)) at 1.
    rewrite read_full_app' by (unfold payloadOf; by rewrite repeat_length).
    rewrite bool_decide_true by reflexivity. cbn [negb]. by rewrite writeAll_ok.
  - change (83 =? 83) with true. cbv iota. by rewrite writeAll_ok.
Qed.

Lemma executor_completes dir size e out :
  record_size size -> dir = 67 \/ dir = 83 ->
  transfer dir size (payloadHash size) (Conn (Stream (answer dir size) e) out [])
  = (None, if dir =? 83 then 0 else size, if dir =? 83 then size else 0, Conn (Stream [] e) (out ++ upload dir size) []).
Proof.
  intros Hs Hd. unfold transfer, answer, upload, payloadHash, hash. cbn [c_in c_out c_faults].
  destruct Hd as [-> | ->].
  - change (67 =? 83) with false. cbv iota. rewrite writeAll_ok. cbn [c_in c_out c_faults].
    rewrite <-(app_nil_r (bytes_of_string "OK" ++ _)).
    rewrite read_full_app' by (rewrite length_app, length_sha256; reflexivity).
    change (bytes_of_string "OK" ++ sha256 (payloadOf size)) with (79 :: 75 :: sha256 (payloadOf size)).
    cbn [take drop firstn skipn]. rewrite take_0, drop_0. change (string_of_bytes [79; 75]) with "OK". unfold sha256_hex.
    by rewrite !String.eqb_refl.
  - change (83 =? 83) with true. cbv iota. rewrite <-(app_nil_r (payloadOf size)).
    rewrite read_full_app' by (unfold payloadOf; by rewrite repeat_length). rewrite app_nil_r, String.eqb_refl. cbn [negb].
    by rewrite app_nil_r.
Qed.

(** C19: the executor and the server agree on a transfer, for each of the three sizes and in
    both directions: what the executor writes is a command and a payload the server serves
    to the end with no error and nothing unread; and with what the server writes, the
    executor's transfer succeeds, with the whole payload counted in its direction, and
    nothing unread either. *)
Theorem record_transfer_agrees dir size e e' :
  record_size size -> dir = 67 \/ dir = 83 ->
  exists sent answered,
    Server.serveRecordOperation (Conn (Stream sent e) [] []) = (None, Conn (Stream [] e) answered []) /\
    (let '(err, c) := writeAll (command dir size) (Conn (Stream answered e') [] []) in
     err = None /\
     transfer dir size (payloadHash size) c
     = (None, if dir =? 67 then size else 0, if dir =? 83 then size else 0, Conn (Stream [] e') sent [])) /\
    len sent + len answered = 13 + size + (if dir =? 67 then 34 else 0).
Proof.
  intros Hs Hd. exists (command dir size ++ upload dir size), (answer dir size).
  split; [exact (server_answers dir size e [] Hs Hd)|]. rewrite writeAll_ok. split; [split; [reflexivity|]|].
  - rewrite (executor_completes dir size e' ([] ++ command dir size) Hs Hd). by destruct Hd as [-> | ->].
  - assert (Hz : 0 <= size) by (destruct Hs as [-> | [-> | ->]]; lia).
    destruct (command_parts dir size Hs) as (H1 & _). rewrite len_app. unfold len at 1. rewrite H1.
    unfold upload, answer. destruct Hd as [-> | ->]; cbn [Z.eqb Pos.eqb].
    + rewrite len_app, length_payloadOf by exact Hz. unfold len at 2. rewrite length_sha256. change (len (bytes_of_string "OK")) with 2. lia.
    + rewrite length_payloadOf by exact Hz. change (len []) with 0. lia.
Qed.

Lemma record_transfer_agrees_witness :
  exists sent answered,
    Server.serveRecordOperation (Conn (Stream sent EEOF) [] []) = (None, Conn (Stream [] EEOF) answered []) /\
    (let '(err, c) := writeAll (command 67 1024) (Conn (Stream answered EEOF) [] []) in
     err = None /\
     transfer 67 1024 (payloadHash 1024) c = (None, 1024, 0, Conn (Stream [] EEOF) sent [])) /\
    len sent + len answered = 13 + 1024 + 34.
Proof. exact (record_transfer_agrees 67 1024 EEOF EEOF (or_introl eq_refl) (or_introl eq_refl)). Defined.

(** ** Phases *)

Section phases.
Context {Session : Type} (getenv : string -> string).
Implicit Types (c : loadConfig) (turns : list (Z * operationEnv Session)) (s : phaseSummary).

Definition attempted s : Z := PCompleted s + PFailed s + PTimedOut s.
(** The test of a turn, at [n] operations and a time. *)
Definition ends c (limit n elapsed : Z) : bool :=
  ((0 <? TotalOperations c) && (TotalOperations c <=? n)) || ((TotalOperations c =? 0) && (limit <=? elapsed)).
Definition outcome c (turn : Z * operationEnv Session) : operationResult := runOperation getenv (ScenarioID c) turn.2.
Definition succeeded (r : operationResult) : bool := bool_decide (r.2 = None).

Lemma addOperation_attempted r s : attempted (addOperation r s) = attempted s + 1.
Proof.
  unfold attempted. destruct s. destruct r as [[[o p] cases] [err|]]; cbn; [destruct (is_net_timeout err)|]; cbn; lia.
Qed.

(** A phase is the operations of the turns before the first whose test ends it. *)
Lemma phaseLoop_spec c limit turns s s' :
  phaseLoop getenv c limit turns s = Some s' <->
  exists done turn rest, turns = done ++ turn :: rest /\ s' = fold_left (fun s t => addOperation (outcome c t) s) done s /\
    ends c limit (attempted s + len done) turn.1 = true /\
    (forall i t, done !! i = Some t -> ends c limit (attempted s + Z.of_nat i) t.1 = false).
Proof.
  revert s; induction turns as [|[elapsed env] turns IH]; intros s; cbn [phaseLoop].
  { split; [done|]. intros (done & turn & rest & H & _). destruct done; discriminate H. }
  assert (E : forall A (x y : A), (if (0 <? TotalOperations c) && (TotalOperations c <=? PCompleted s + PFailed s + PTimedOut s)
      then x else if (TotalOperations c =? 0) && (limit <=? elapsed) then x else y)
    = if ends c limit (attempted s) elapsed then x else y).
  { intros A x y. unfold ends, attempted. by destruct (_ && _). }
  rewrite E. clear E. destruct (ends c limit (attempted s) elapsed) eqn:He.
  - split.
    + intros [= <-]. exists [], (elapsed, env), turns. split; [reflexivity|]. split; [reflexivity|].
      change (len []) with 0. rewrite Z.add_0_r. split; [exact He|]. intros i t Ht. discriminate Ht.
    + intros (done & turn & rest & H & -> & _ & Hb). destruct done as [|t done]; [reflexivity|].
      exfalso. specialize (Hb 0%nat t eq_refl). injection H as <- _. rewrite Z.add_0_r in Hb. cbn [fst] in Hb. congruence.
  - rewrite IH, addOperation_attempted. split.
    + intros (done & turn & rest & -> & -> & H1 & H2). exists ((elapsed, env) :: done), turn, rest.
      split; [reflexivity|]. split; [reflexivity|]. split.
      * rewrite <-H1. f_equal. unfold len. cbn [length]. lia.
      * intros [|i] t Ht; cbn in Ht; [injection Ht as <-; by rewrite Z.add_0_r|].
        specialize (H2 i t Ht). rewrite <-H2. f_equal. lia.
    + intros (done & turn & rest & H & -> & H1 & H2). destruct done as [|t done].
      { injection H as <- <-. change (len []) with 0 in H1. rewrite Z.add_0_r in H1. cbn [fst] in H1. congruence. }
      injection H as <- ->. exists done, turn, rest. split; [reflexivity|]. split; [reflexivity|]. split.
      * rewrite <-H1. f_equal. unfold len. cbn [length]. lia.
      * intros i t Ht. specialize (H2 (S i) t Ht). rewrite <-H2. f_equal. lia.
Qed.

(** C24: which phases end. With a positive number of operations a phase runs exactly that
    many, whatever the time; with none it ends at the first test at which its time is up,
    and not before; with a negative number, which the configuration accepts, it never ends. *)
Theorem phase_termination c limit turns :
  (0 < TotalOperations c -> TotalOperations c < len turns ->
   exists s, phaseLoop getenv c limit turns emptyPhase = Some s /\ attempted s = TotalOperations c) /\
  (TotalOperations c = 0 -> forall before elapsed env after,
   turns = before ++ (elapsed, env) :: after -> Forall (fun t => t.1 < limit) before -> limit <= elapsed ->
   exists s, phaseLoop getenv c limit turns emptyPhase = Some s /\ attempted s = len before) /\
  (TotalOperations c < 0 -> phaseLoop getenv c limit turns emptyPhase = None).
Proof.
  assert (Ha : forall l s, attempted (fold_left (fun s t => addOperation (outcome c t) s) l s) = attempted s + len l).
  { induction l as [|t l IH]; intros s; cbn [fold_left]; [unfold len; simpl; lia|].
    rewrite IH, addOperation_attempted. unfold len. cbn [length]. lia. }
  split; [|split].
  - intros Hp Hl. set (n := Z.to_nat (TotalOperations c)).
    destruct (lookup_lt_is_Some_2 turns n) as [turn Ht]; [unfold len in Hl; lia|].
    eexists. split; [apply phaseLoop_spec; exists (take n turns), turn, (drop (S n) turns)|].
    + split; [by rewrite take_drop_middle|]. split; [reflexivity|]. apply lookup_lt_Some in Ht as Hn.
      assert (Hk : len (take n turns) = TotalOperations c) by (unfold len; rewrite length_take; lia).
      unfold ends. rewrite Hk. change (attempted emptyPhase) with 0. split.
      * rewrite (proj2 (Z.ltb_lt _ _)) by exact Hp. rewrite (proj2 (Z.leb_le _ _)) by lia. reflexivity.
      * intros i t Hi. apply lookup_lt_Some in Hi. rewrite length_take in Hi.
        rewrite (proj2 (Z.leb_gt _ _)) by lia. rewrite (proj2 (Z.eqb_neq _ _)) by lia. by rewrite andb_false_r.
    + rewrite Ha. change (attempted emptyPhase) with 0. unfold len. rewrite length_take.
      apply lookup_lt_Some in Ht. lia.
  - intros Hz before elapsed env after -> Hb Hl. eexists. split; [apply phaseLoop_spec; exists before, (elapsed, env), after|].
    + split; [reflexivity|]. split; [reflexivity|]. unfold ends. rewrite Hz. cbn [Z.ltb Z.compare Z.eqb andb orb fst].
      split; [by apply Z.leb_le|]. intros i t Hi. apply Z.leb_gt. exact (proj1 (Forall_lookup _ _) Hb i t Hi).
    + rewrite Ha. change (attempted emptyPhase) with 0. lia.
  - intros Hn. destruct (phaseLoop getenv c limit turns emptyPhase) as [s|] eqn:E; [|reflexivity].
    apply phaseLoop_spec in E as (done & turn & rest & _ & _ & He & _). unfold ends in He.
    rewrite (proj2 (Z.ltb_ge _ _)) in He by lia. rewrite (proj2 (Z.eqb_neq _ _)) in He by lia. discriminate He.
Qed.
End phases.

(** ** What a successful run has earned *)

Section runs.
Context {Session : Type} (getenv : string -> string).

(** The octets one operation of a scenario transfers. *)
Definition operation_bytes (scenario : string) : Z :=
  if String.eqb scenario recordThroughputScenarioID then 1048576
  else if String.eqb scenario recordCoverageScenarioID then 2 * (1024 + 65536 + 1048576) else 0.

Lemma case_bytes defs cases n :
  Forall2 case_of defs cases -> fold_left (fun n c => n + CaseBytes c) cases n = fold_left (fun n (d : string * string * Z) => n + d.2) defs n.
Proof.
  intros H. revert n; induction H as [|d c defs cases Hd _ IH]; intros n; [reflexivity|]. cbn [fold_left].
  destruct Hd as (_ & _ & -> & _). apply IH.
Qed.

Lemma operation_ok_bytes scenario o p cases n :
  operation_ok scenario (o, p, cases) -> fold_left (fun n c => n + CaseBytes c) cases n = n + operation_bytes scenario.
Proof.
  intros (_ & _ & H). cbn [snd] in H. rewrite (case_bytes _ _ n H). unfold operation_bytes. 
  destruct (String.eqb scenario recordThroughputScenarioID); [reflexivity|].
  destruct (String.eqb scenario recordCoverageScenarioID); cbn [fold_left definitions snd]; lia.
Qed.

Lemma phase_account c (turns : list (Z * operationEnv Session)) :
  let s := fold_left (fun s t => addOperation (outcome getenv c t) s) turns emptyPhase in
  0 <= PFailed s /\ 0 <= PTimedOut s /\
  PCompleted s = len (List.filter (fun t => succeeded (outcome getenv c t)) turns) /\
  PFailed s + PTimedOut s = len (List.filter (fun t => negb (succeeded (outcome getenv c t))) turns) /\
  TotalTransferredBytes s = PCompleted s * operation_bytes (ScenarioID c) /\
  (forall o, LastNegotiation s = Some o -> operation_ok (ScenarioID c) (o, LastResumptionProof s, LastRecordCases s)).
Proof.
  induction turns as [|t turns IH] using rev_ind; [split_and!; try reflexivity; cbn; lia || (intros o H; discriminate H)|].
  cbv zeta in IH |- *. rewrite fold_left_app, !List.filter_app, !len_app. cbn [fold_left List.filter].
  destruct (fold_left _ turns emptyPhase) as [d ok f ti hl cl tl n lp rp rc e].
  cbn [PCompleted PFailed PTimedOut TotalTransferredBytes LastNegotiation LastResumptionProof LastRecordCases] in IH.
  destruct IH as (H1 & H2 & H3 & H4 & H5 & H6).
  assert (Hok : forall o p cases, outcome getenv c t = (o, p, cases, None) -> operation_ok (ScenarioID c) (o, p, cases)).
  { intros o p cases. apply runOperation_ok. }
  destruct (outcome getenv c t) as [[[o p] cases] [err|]]; unfold succeeded at 2 4; cbn [snd].
  - rewrite bool_decide_false by discriminate. cbn [negb].
    change (len [t]) with 1. change (len (@nil (Z * operationEnv Session))) with 0.
    cbn [addOperation]. destruct (is_net_timeout err); 
      cbn [PCompleted PFailed PTimedOut TotalTransferredBytes LastNegotiation LastResumptionProof LastRecordCases];
      split_and!; first [exact H6 | lia].
  - rewrite bool_decide_true by reflexivity. cbn [negb].
    change (len [t]) with 1. change (len (@nil (Z * operationEnv Session))) with 0. specialize (Hok o p cases eq_refl).
    cbn [addOperation PCompleted PFailed PTimedOut TotalTransferredBytes LastNegotiation LastResumptionProof LastRecordCases].
    rewrite (operation_ok_bytes _ _ _ _ n Hok). split_and!; try lia.
    intros o' [= <-]. exact Hok.
Qed.

Lemma filter_negb_none {A} (f : A -> bool) l : len (List.filter (fun x => negb (f x)) l) = 0 -> Forall (fun x => f x = true) l.
Proof.
  induction l as [|x l IH]; [constructor|]. cbn [List.filter]. destruct (f x) eqn:E; cbn [negb].
  - intros H. constructor; [exact E|exact (IH H)].
  - unfold len. cbn [length]. lia.
Qed.
Lemma filter_all {A} (f : A -> bool) l : Forall (fun x => f x = true) l -> List.filter f l = l.
Proof. induction 1 as [|x l E _ IH]; [reflexivity|]. cbn [List.filter]. by rewrite E, IH. Qed.

(** A phase that is not rejected: its turns all succeeded. *)
Lemma phase_accepted c (env : phaseEnv Session) warmup s :
  runPhase getenv c env warmup = Some s -> rejected s = false ->
  exists turns, turns `prefix_of` ph_turns env /\ Forall (fun t => succeeded (outcome getenv c t) = true) turns /\
    PCompleted s = len turns /\ 1 <= PCompleted s /\ PFailed s = 0 /\ PTimedOut s = 0 /\
    (TotalOperations c = 0 \/ TotalOperations c = len turns) /\
    TotalTransferredBytes s = len turns * operation_bytes (ScenarioID c) /\
    (forall o, LastNegotiation s = Some o -> operation_ok (ScenarioID c) (o, LastResumptionProof s, LastRecordCases s)).
Proof.
  unfold runPhase. destruct (phaseLoop _ _ _ _ _) as [s0|] eqn:E; [|done]. cbn [mbind option_bind].
  intros Hs Hr. apply phaseLoop_spec in E as (turns & turn & rest & Ht & Hf & He & Hb).
  pose proof (phase_account c turns) as H. cbv zeta in H. rewrite <-Hf in H. clear Hf.
  assert (Ha : attempted emptyPhase = 0) by reflexivity. rewrite Ha in He, Hb. clear Ha.
  destruct s0 as [d ok f ti hl cl tl n lp rp rc e]. injection Hs as <-.
  cbn [PCompleted PFailed PTimedOut TotalTransferredBytes LastNegotiation LastResumptionProof LastRecordCases] in *.
  unfold rejected in Hr. cbn [PCompleted PFailed PTimedOut] in Hr. destruct H as (H1 & H2 & H3 & H4 & H5 & H6).
  apply orb_false_iff in Hr as [Hr Hr3]. apply orb_false_iff in Hr as [Hr1 Hr2].
  apply negb_false_iff, Z.eqb_eq in Hr1, Hr2. apply Z.eqb_neq in Hr3. rewrite Hr1, Hr2 in H4.
  symmetry in H4. apply filter_negb_none in H4. rewrite (filter_all _ _ H4) in H3.
  pose proof (len_nonneg turns) as Hl.
  exists turns. split; [exists (turn :: rest); exact Ht|]. split; [exact H4|]. split; [exact H3|]. split; [lia|].
  split; [exact Hr1|]. split; [exact Hr2|]. split; [|split; [rewrite <-H3; exact H5|exact H6]].
  unfold ends in He. destruct (TotalOperations c =? 0) eqn:Ez; [left; by apply Z.eqb_eq|]. right.
  rewrite andb_false_l, orb_false_r in He. apply andb_true_iff in He as [He1 He2].
  apply Z.ltb_lt in He1. apply Z.leb_le in He2.
  destruct (decide (TotalOperations c < len turns)) as [Hx|Hx]; [|lia]. exfalso.
  destruct (lookup_lt_is_Some_2 turns (Z.to_nat (TotalOperations c))) as [t Hi]; [unfold len in Hx; lia|].
  specialize (Hb _ _ Hi). unfold ends in Hb. rewrite (proj2 (Z.ltb_lt _ _)) in Hb by exact He1.
  rewrite (proj2 (Z.leb_le _ _)) in Hb by lia. discriminate Hb.
Qed.
End runs.

Lemma loadConfig_scenario getenv c scenario variant :
  loadConfigFromEnvironment getenv = Ok c -> requestedScenario getenv = Ok (scenario, variant) -> ScenarioID c = scenario.
Proof.
  unfold loadConfigFromEnvironment. intros H Hs. rewrite Hs in H. cbn [res_bind fst] in H. revert H.
  repeat case_match; intros [= <-]; reflexivity.
Qed.

Lemma loadConfig_concurrency getenv c : loadConfigFromEnvironment getenv = Ok c -> Concurrency c = 1.
Proof.
  unfold loadConfigFromEnvironment. destruct (requestedScenario getenv) as [[scenario variant]|]; [|done].
  cbn [res_bind fst ScenarioID Concurrency]. intros H. revert H. repeat case_match; intros [= <-]; cbn [Concurrency];
    cbn [ScenarioID LoadProfileID Connections Concurrency TotalOperations Duration Warmup Repetition ConnectionTimeout] in *;
    reflect_bools; assumption.
Qed.

(** The records of a coverage run: its six cases, in order. *)
Lemma coverage_artifacts r :
  operation_ok recordCoverageScenarioID r ->
  recordArtifacts recordCoverageScenarioID r.2
  = ((fun d => (d.1.1, d.1.2, d.2, payloadHash d.2)) <$> definitions, Some true).
Proof.
  intros (_ & _ & H). change (Forall2 case_of definitions r.2) in H. unfold recordArtifacts. rewrite String.eqb_refl.
  assert (Hl := Forall2_length _ _ _ H). f_equal; [|unfold len; rewrite <-Hl; reflexivity].
  clear Hl. induction H as [|[[id dir] size] c defs cases (H1 & H2 & H3 & H4 & _) _ IH]; [reflexivity|].
  rewrite !fmap_cons, IH. cbn [fst snd] in *. by rewrite H1, H2, H3, H4.
Qed.

(** A run of the TLS 1.3 executor that prints a result and exits with 0 has earned it.
    Its preflight operation succeeded; so did every operation of its warm-up, when it has
    one, and every operation of its measured phase, of which there was at least one, and
    exactly the number configured when one is. It reports those operations and no failure,
    for transfers the octets of each of them, and a session that is TLS 1.3 with the suite,
    the group, the protocol and the certificate of the profile, resumed exactly in the
    resumption scenario, there with a ticket spent exactly once. The load it had is the one
    requested; and record coverage reports its six cases with the hash of their payloads. *)
Theorem tls13_exit_zero_is_earned {Session} (env : mainEnv Session) :
  match main env with
  | Some (code, Some r) =>
      code = 0 /\
      exists c turns, loadConfigFromEnvironment (m_getenv env) = Ok c /\ RScenarioID r = ScenarioID c /\
        succeeded (runOperation (m_getenv env) (ScenarioID c) (m_preflight env)) = true /\
        (0 < Warmup c -> exists warm, warm `prefix_of` ph_turns (m_warmup env) /\ 1 <= len warm /\
           Forall (fun t => succeeded (outcome (m_getenv env) c t) = true) warm) /\
        turns `prefix_of` ph_turns (m_measured env) /\
        Forall (fun t => succeeded (outcome (m_getenv env) c t) = true) turns /\
        1 <= len turns /\ (TotalOperations c = 0 \/ TotalOperations c = len turns) /\
        MCompleted (RMetrics r) = len turns /\ MFailed (RMetrics r) = 0 /\ MTimedOut (RMetrics r) = 0 /\
        MTransferredBytes (RMetrics r) = len turns * operation_bytes (ScenarioID c) /\
        REffectiveLoad r = RRequestedLoad r /\
        (exists o, RProtocolProof r = Some o /\ session_ok (String.eqb (ScenarioID c) resumedScenarioID) o) /\
        (ScenarioID c = resumedScenarioID -> SessionTicketConsumedExactlyOnce <$> RResumption r = Some true) /\
        (ScenarioID c = recordCoverageScenarioID ->
         RRecords r = Some ((fun d => (d.1.1, d.1.2, d.2, payloadHash d.2)) <$> definitions, Some true))
  | _ => True
  end.
Proof.
  unfold main. set (getenv := m_getenv env). destruct (m_showVersion env); [exact I|].
  match goal with |- context [forallb ?f ?l] => destruct (forallb f l) end; cbn [negb]; [|exact I].
  destruct (bool_decide (m_mkdir env <> None)); [exact I|]. destruct (isKnownUnsupportedScenario _); [exact I|].
  destruct (requestedScenario getenv) as [[scenario variant]|] eqn:Es; [|exact I].
  destruct (verifySubstitution _ _ _); cbn [negb]; [|exact I].
  destruct (normalizeTarget _ _ _) as [?|]; [|exact I]. destruct (m_roots env); [|exact I].
  destruct (runOperation getenv scenario (m_preflight env)) as [[[po pp] pc] perr] eqn:Ep.
  destruct (bool_decide (perr <> None)) eqn:Eperr; [exact I|]. destruct (m_validationOnly env); [exact I|].
  destruct (loadConfigFromEnvironment getenv) as [c|] eqn:Ec; [|exact I].
  assert (Hs := loadConfig_scenario _ _ _ _ Ec Es). subst scenario.
  set (warm := if 0 <? Warmup c then _ else Some false).
  assert (Hw : warm = Some false -> 0 < Warmup c -> exists l, l `prefix_of` ph_turns (m_warmup env) /\ 1 <= len l /\
    Forall (fun t => succeeded (outcome getenv c t) = true) l).
  { unfold warm. intros H Hpos. rewrite (proj2 (Z.ltb_lt _ _)) in H by exact Hpos.
    destruct (runPhase getenv c (m_warmup env) true) as [s|] eqn:E; [|discriminate H]. injection H as Hr.
    destruct (phase_accepted _ _ _ _ _ E Hr) as (l & H1 & H2 & H3 & H4 & _). exists l. split; [exact H1|]. split; [lia|exact H2]. }
  destruct warm as [[]|]; [exact I| |exact I]. cbn [mbind option_bind].
  destruct (runPhase getenv c (m_measured env) false) as [s|] eqn:E; [|exact I]. cbn [mbind option_bind].
  destruct (rejected s) eqn:Hr; [exact I|]. cbn [orb]. destruct (LastNegotiation s) as [o|] eqn:El.
  2: { rewrite bool_decide_true by reflexivity. exact I. }
  rewrite bool_decide_false by discriminate.
  destruct (phase_accepted _ _ _ _ _ E Hr) as (l & H1 & H2 & H3 & H4 & H5 & H6 & H7 & H8 & H9).
  split; [reflexivity|]. exists c, l. unfold normalizeMetrics.
  cbn [RScenarioID RMetrics RProtocolProof MCompleted MFailed MTimedOut MTransferredBytes].
  split; [reflexivity|]. split; [reflexivity|].
  split. { rewrite Ep. unfold succeeded. cbn [snd]. apply bool_decide_eq_false in Eperr. apply bool_decide_eq_true. by destruct perr; [exfalso; apply Eperr|]. }
  split; [exact (Hw eq_refl)|]. split; [exact H1|]. split; [exact H2|]. split; [lia|]. split; [exact H7|].
  split; [exact H3|]. split; [exact H5|]. split; [exact H6|]. split; [exact H8|].
  specialize (H9 o El). split.
  { unfold shapeFrom. cbn [REffectiveLoad RRequestedLoad with_concurrency]. by rewrite (loadConfig_concurrency _ _ Ec). }
  split; [exists o; split; [reflexivity|apply H9]|]. cbn [RResumption RRecords]. split.
  - intros Hs. rewrite Hs, String.eqb_refl. apply H9. exact Hs.
  - intros Hs. rewrite Hs in H9 |- *. cbn [isRecordScenario]. change (isRecordScenario recordCoverageScenarioID) with true.
    f_equal. exact (coverage_artifacts _ H9).
Qed.

(** A negative number of operations is configured like any other, and its phases never end. *)
Definition negative_env (name : string) : string :=
  if String.eqb name "PLAB_SCENARIO_ID" then "tls.handshake.full" else if String.eqb name "PLAB_LOAD_PROFILE_ID" then "tls-smoke"
  else if string_in ["PLAB_CONNECTIONS"; "PLAB_CONCURRENCY"; "PLAB_WARMUP_SECONDS"; "PLAB_REPETITION"] name then "1"
  else if String.eqb name "PLAB_DURATION_SECONDS" then "5"
  else if String.eqb name "PLAB_TOTAL_OPERATIONS" then "-1" else "".

Lemma negative_total_never_ends {Session} :
  exists c, loadConfigFromEnvironment negative_env = Ok c /\ TotalOperations c = -1 /\ 0 < Warmup c /\
    forall (env : phaseEnv Session) warmup, runPhase negative_env c env warmup = None.
Proof.
  destruct (loadConfigFromEnvironment negative_env) as [c|] eqn:E; [|vm_compute in E; discriminate E].
  exists c. assert (Ht : TotalOperations c = -1 /\ 0 < Warmup c) by (vm_compute in E; injection E as <-; done).
  split; [reflexivity|]. split; [apply Ht|]. split; [apply Ht|]. intros env warmup. unfold runPhase.
  destruct (phaseLoop _ _ _ _ _) as [s|] eqn:Ep; [|reflexivity].
  apply phaseLoop_spec in Ep as (done & turn & rest & _ & _ & He & _). unfold ends in He.
  destruct Ht as [Ht _]. rewrite Ht in He. discriminate He.
Qed.
