(* ===== verification/TlsHandshakes.v ===== *)
(** The packages of one handshake scenario each: TLS 1.2 (go-tls12, go-tls12-executor),
    TLS 1.3 with ChaCha20 (go-tls13-chacha20, go-utls-tls13-chacha20-executor) and mutual
    authentication (go-tls13-mtls, go-tls13-mtls-executor). *)
From S2P Require Export Prelude Stats GoText GoHash TlsBase TlsLoad.

Definition known (omitted : string) : list string :=
  List.filter (fun s => negb (String.eqb s omitted))
    ["tls.handshake.full"; "tls.handshake.resumed"; "tls.handshake.full.tls12"; "tls.handshake.full.chacha20";
     "tls.handshake.mutual-auth"; "tls.early-data.accepted"; "tls.early-data.rejected"; "tls.key-update.diagnostic";
     "tls.record.throughput"; "tls.record.coverage"].

(** The observation of the two executors that do not authenticate themselves, less its
    constants. *)
Record observation := Observation {
  TLSVersion : string; CipherSuite : string; KeyExchangeGroup : string; ALPN : string; HandshakeComplete : bool;
  DidResume : bool; CertificateDERSHA256 : string; CertificateSPKISHA256 : string;
  CertificateSignatureAlgorithm : string; CertificatePublicKeyAlgorithm : string; CertificateNamedCurve : string;
  SentCertificateCount : Z; TrustAnchorSent : bool; VerifiedChainCount : Z;
  HandshakeLatencyMS : float64; ConnectionAndHandshakeMS : float64
}.
Definition with_latencies (handshake total : float64) (o : observation) : observation :=
  let '(Observation a b c d e f g h i j k l m n _ _) := o in Observation a b c d e f g h i j k l m n handshake total.

Definition tlsVersionName (v : Z) : string :=
  if v =? VersionTLS12 then "TLS1.2" else if v =? VersionTLS13 then "TLS1.3" else "0x" +:+ hex_encode (be_encode 2 v).

(** The observation of a state, with the group it is given. *)
Definition observe (state : connState) (group : Z) : observation :=
  let '(der, spki) := leafDigests (cs_peer state) in
  let '(sig, key, curve) := leafAlgorithms (cs_peer state) in
  let sent := len (cs_peer state) in
  Observation (tlsVersionName (cs_version state)) (cipherSuiteName (cs_cipher state)) (curveName group) (cs_protocol state)
    (cs_complete state) (cs_resumed state) der spki sig key curve sent (negb (sent =? 1)) (cs_chains state) f_zero f_zero.

(** The failures the two executors collect about the certificate. *)
Definition certificateFailures (state : connState) (o : observation) : list string :=
  failure (negb (cs_chains state =? 1)) "server certificate chain was not uniquely verified"
  ++ failure (negb (String.eqb (CertificateDERSHA256 o) leafDERHash) || negb (String.eqb (CertificateSPKISHA256 o) leafSPKIHash))
       "server certificate identity mismatch"
  ++ failure (negb (SentCertificateCount o =? 1)) "server must send exactly one leaf and no trust anchor"
  ++ failure (negb (String.eqb (CertificateSignatureAlgorithm o) "ECDSA-SHA256")
              || negb (String.eqb (CertificatePublicKeyAlgorithm o) "ECDSA") || negb (String.eqb (CertificateNamedCurve o) "P-256"))
       "server certificate algorithm mismatch".

(** The end of a handshake-only connection on a server: its one read. *)
Definition awaitClose (read : Z * option goerror) : option goerror :=
  if negb (read.1 =? 0) then Some (EMsg "application data is forbidden for the handshake-only scenario") else
  match read.2 with Some err => if errors_is EEOF err then None else Some err | None => None end.

(** The certificate a server starts with: its chain, its digest and its algorithms; [parse]
    is [x509.ParseCertificate] of the leaf. *)
Definition loadServerIdentity (pair : res (list bytes)) (parse : bytes -> res certificate) : res unit :=
  let? chain := pair in
  guard (len chain =? 1) && String.eqb (hash (default [] (head chain))) leafDERHash
    else EMsg "server certificate substitution or chain expansion detected" in
  let? leaf := parse (default [] (head chain)) in
  guard String.eqb (cert_signature leaf) "ECDSA-SHA256" && String.eqb (cert_key leaf) "ECDSA" && String.eqb (cert_curve leaf) "P-256"
    else EMsg "server certificate algorithm or curve mismatch" in
  Ok tt.

(** [runHandshake]: what [validate] makes of the state, with the latencies, and the close. *)
Definition handshakeWith {O} (validate : connState -> O * option goerror) (latencies : float64 -> float64 -> O -> O)
    (env : handshakeEnv) : res O :=
  match h_dial env, h_state env with
  | Some err, _ | None, Err err => Err err
  | None, Ok state =>
      let '(o, err) := validate state in
      match err, h_close env with
      | Some err, _ | None, Some err => Err err
      | None, None => Ok (latencies (h_latency env) (h_total env) o)
      end
  end.

(** ** TLS 1.2 *)

Module Tls12.

Definition ids : identity :=
  Identity "go-tls12-executor" "0.1.0" "go-crypto-tls12-load" "0.1.0" "tls.handshake.full.tls12"
    "tls1.2-full-compatibility" (known "tls.handshake.full.tls12").

Definition validateState (state : connState) : observation * option goerror :=
  let o := observe state (cs_curve state) in
  (o, failures_error
        (failure (negb (cs_version state =? VersionTLS12) || negb (cs_complete state)) "exact TLS 1.2 handshake not complete"
         ++ failure (negb (cs_cipher state =? TLS_ECDHE_ECDSA_WITH_AES_128_GCM_SHA256)) "cipher suite mismatch"
         ++ failure (negb (cs_curve state =? X25519)) "key exchange group mismatch"
         ++ failure (negb (String.eqb (cs_protocol state) alpn)) "ALPN mismatch"
         ++ failure (cs_resumed state) "session resumption detected"
         ++ certificateFailures state o)).
Definition runHandshake (env : handshakeEnv) : res observation := handshakeWith validateState with_latencies env.
Definition runFor (turns : list handshakeEnv) (seconds : float64) : summary observation :=
  TlsLoad.runFor runHandshake HandshakeLatencyMS turns seconds.
Definition main (env : mainEnv handshakeEnv) : Z * list (artifact observation) := runMain ids runHandshake HandshakeLatencyMS env.

(** [handle] of the server: the error it prints. *)
Definition handle (tls : res connState) (read : Z * option goerror) : option goerror :=
  match tls with
  | Err err => Some err
  | Ok state =>
      if negb (cs_version state =? VersionTLS12) || negb (cs_cipher state =? TLS_ECDHE_ECDSA_WITH_AES_128_GCM_SHA256)
         || negb (cs_curve state =? X25519) || negb (String.eqb (cs_protocol state) alpn) || cs_resumed state
      then Some (EMsg "negotiated TLS state did not match the exact TLS 1.2 profile")
      else awaitClose read
  end.

End Tls12.

(** ** TLS 1.3 with ChaCha20 *)

Module ChaCha20.

Definition serverName : string := "tls.plab.test".
Definition ECDSAWithP256AndSHA256 : Z := 0x0403.

(** [utls.PubClientHelloMsg], less what the package does not read; the key shares by their
    group. *)
Record clientHello := ClientHello {
  CipherSuites : list Z; SupportedVersions : list Z; SupportedCurves : list Z; KeyShares : list Z;
  SupportedSignatureAlgorithms : list Z; AlpnProtocols : list string; ServerName : string; TicketSupported : bool;
  SessionTicket : bytes; PskIdentities : Z; PskBinders : Z; PskModes : bytes; EarlyData : bool
}.
Record clientHelloProof := ClientHelloProof {
  PCipherSuites : list string; PSupportedVersions : list string; PSupportedCurves : list string;
  PKeyShareGroups : list string; PSignatureAlgorithms : list string; PALPNProtocols : list string; PServerName : string;
  SessionTicketOffered : bool; PSKOffered : bool; EarlyDataOffered : bool
}.
(** [utls.SignatureScheme.String], for the scheme of the package; another is numbered. *)
Definition signatureName (v : Z) : string :=
  if v =? ECDSAWithP256AndSHA256 then "ECDSAWithP256AndSHA256" else "SignatureScheme(" +:+ pretty v +:+ ")".
Definition cipherNames (values : list Z) : list string := cipherSuiteName <$> values.
Definition versionNames (values : list Z) : list string := tlsVersionName <$> values.
Definition curveNames (values : list Z) : list string := curveName <$> values.
Definition keyShareNames (values : list Z) : list string := curveName <$> values.
Fixpoint equalUint16 (xs ys : list Z) : bool :=
  match xs, ys with
  | [], [] => true
  | x :: xs, y :: ys => (x =? y) && equalUint16 xs ys
  | _, _ => false
  end.

Definition validateClientHello (signatures : Z -> string) (hello : option clientHello) : clientHelloProof * option goerror :=
  match hello with
  | None => (ClientHelloProof [] [] [] [] [] [] "" false false false, Some (EMsg "uTLS client hello proof unavailable"))
  | Some h =>
      let ticket := TicketSupported h || negb (bool_decide (SessionTicket h = [])) in
      let psk := negb (PskIdentities h =? 0) || negb (PskBinders h =? 0) || negb (bool_decide (PskModes h = [])) in
      let p := ClientHelloProof (cipherNames (CipherSuites h)) (versionNames (SupportedVersions h)) (curveNames (SupportedCurves h))
                 (keyShareNames (KeyShares h)) (signatures <$> SupportedSignatureAlgorithms h) (AlpnProtocols h) (ServerName h)
                 ticket psk (EarlyData h) in
      (p, failures_error
            (failure (negb (equalUint16 (CipherSuites h) [TLS_CHACHA20_POLY1305_SHA256]))
               "client hello cipher suites are not exact ChaCha20 only"
             ++ failure (negb (equalUint16 (SupportedVersions h) [VersionTLS13]))
                  "client hello supported versions are not exact TLS 1.3 only"
             ++ failure (negb (equalUint16 (SupportedCurves h) [X25519]) || negb (len (KeyShares h) =? 1)
                         || negb (default 0 (head (KeyShares h)) =? X25519))
                  "client hello key exchange is not exact X25519 only"
             ++ failure (negb (len (SupportedSignatureAlgorithms h) =? 1)
                         || negb (default 0 (head (SupportedSignatureAlgorithms h)) =? ECDSAWithP256AndSHA256))
                  "client hello signature algorithm is not exact ECDSA P-256 SHA-256"
             ++ failure (negb (len (AlpnProtocols h) =? 1) || negb (String.eqb (default "" (head (AlpnProtocols h))) alpn))
                  "client hello ALPN mismatch"
             ++ failure (negb (String.eqb (ServerName h) serverName)) "client hello SNI mismatch"
             ++ failure (ticket || psk) "client hello offered session resumption state"
             ++ failure (EarlyData h) "client hello offered early data"))
  end.

Definition ids : identity :=
  Identity "go-utls-tls13-chacha20-executor" "0.1.0" "go-utls-tls13-chacha20-load" "0.1.0" "tls.handshake.full.chacha20"
    "tls1.3-full-chacha20" (known "tls.handshake.full.chacha20").

Definition validateState (state : connState) (group : Z) (usingPSK : bool) : observation * option goerror :=
  let o := observe state group in
  (o, failures_error
        (failure (negb (cs_version state =? VersionTLS13) || negb (cs_complete state)) "exact TLS 1.3 handshake not complete"
         ++ failure (negb (cs_cipher state =? TLS_CHACHA20_POLY1305_SHA256)) "ChaCha20 cipher suite mismatch"
         ++ failure (negb (group =? X25519)) "key exchange group mismatch"
         ++ failure (negb (String.eqb (cs_protocol state) alpn)) "ALPN mismatch"
         ++ failure (cs_resumed state || usingPSK) "session resumption detected"
         ++ certificateFailures state o)).

(** What the handshake meets besides: the preset and the handshake state it builds, the
    hello, the group of the server's hello when there is one, and whether a PSK is used. *)
Record utlsEnv := UtlsEnv {
  u_env : handshakeEnv; u_preset : option goerror; u_build : option goerror; u_hello : option clientHello;
  u_group : option Z; u_psk : bool; u_signatures : Z -> string
}.
Definition runHandshake (env : utlsEnv) : res (observation * clientHelloProof) :=
  match h_dial (u_env env), u_preset env, u_build env with
  | Some err, _, _ | None, Some err, _ | None, None, Some err => Err err
  | None, None, None =>
      let '(hello, err) := validateClientHello (u_signatures env) (u_hello env) in
      match err with
      | Some err => Err err
      | None =>
          match h_state (u_env env), u_group env with
          | Err err, _ => Err err
          | Ok _, None => Err (EMsg "uTLS server hello proof unavailable")
          | Ok state, Some group =>
              let '(o, err) := validateState state group (u_psk env) in
              match err, h_close (u_env env) with
              | Some err, _ | None, Some err => Err err
              | None, None => Ok (with_latencies (h_latency (u_env env)) (h_total (u_env env)) o, hello)
              end
          end
      end
  end.
Definition runFor (turns : list utlsEnv) (seconds : float64) : summary (observation * clientHelloProof) :=
  TlsLoad.runFor runHandshake (fun o => HandshakeLatencyMS o.1) turns seconds.
Definition main (env : mainEnv utlsEnv) : Z * list (artifact (observation * clientHelloProof)) :=
  runMain ids runHandshake (fun o => HandshakeLatencyMS o.1) env.

(** The server go-tls13-chacha20. *)
Definition validateServerState (state : connState) : option goerror :=
  failures_error
    (failure (negb (cs_version state =? VersionTLS13) || negb (cs_complete state)) "exact TLS 1.3 handshake not complete"
     ++ failure (negb (cs_cipher state =? TLS_CHACHA20_POLY1305_SHA256)) "ChaCha20 cipher suite mismatch"
     ++ failure (negb (cs_curve state =? X25519)) "key exchange group mismatch"
     ++ failure (negb (String.eqb (cs_protocol state) alpn)) "ALPN mismatch"
     ++ failure (cs_resumed state) "session resumption detected").
Definition handle (tls : res connState) (read : Z * option goerror) : option goerror :=
  match tls with
  | Err err => Some err
  | Ok state => match validateServerState state with Some err => Some err | None => awaitClose read end
  end.

End ChaCha20.

(** ** Mutual authentication *)

Module Mtls.

Definition clientLeafDERHash : string := "ca2e4f661e7b29cfc516c48f53c05be0ef59fb6cc410cb205f5759e07a5deb20".
Definition clientLeafSPKIHash : string := "4b3a176400147e50a4efc3a7a26f66a9dec74a11042b7565eadd85b1ee27c0fb".

Record mutualObservation := MutualObservation {
  MTLSVersion : string; MCipherSuite : string; MKeyExchangeGroup : string; MALPN : string; MHandshakeComplete : bool;
  MDidResume : bool; ServerCertificateDERSHA256 : string; ServerCertificateSPKISHA256 : string;
  ClientCertificateDERSHA256 : string; ClientCertificateSPKISHA256 : string; ClientCertificateChainSentCount : Z;
  ClientTrustAnchorSent : bool; ServerCertificateVerified : bool; ClientCertificateVerified : bool;
  MutualAuthenticated : bool; VerifiedServerChainCount : Z; MHandshakeLatencyMS : float64; MConnectionAndHandshakeMS : float64
}.
Definition with_mutual_latencies (handshake total : float64) (o : mutualObservation) : mutualObservation :=
  let '(MutualObservation a b c d e f g h i j k l m n p q _ _) := o in
  MutualObservation a b c d e f g h i j k l m n p q handshake total.

Definition mutualVersionName (v : Z) : string := if v =? VersionTLS13 then "TLS1.3" else "0x" +:+ hex_encode (be_encode 2 v).

Definition ids : identity :=
  Identity "go-tls13-mtls-executor" "0.1.0" "go-crypto-tls13-mtls-load" "0.1.0" "tls.handshake.mutual-auth"
    "tls1.3-full-mutual-auth" (known "tls.handshake.mutual-auth").

(** [chain] is the certificates of the client's identity; [parse] is [x509.ParseCertificate]. *)
Definition validateState (parse : bytes -> res certificate) (state : connState) (chain : list bytes)
    : mutualObservation * option goerror :=
  let '(cder, cspki) := match chain with
                        | leaf :: _ => match parse leaf with Ok c => (hash (cert_raw c), hash (cert_spki c)) | Err _ => ("", "") end
                        | [] => ("", "") end in
  let '(sder, sspki) := leafDigests (cs_peer state) in
  let o := MutualObservation (mutualVersionName (cs_version state)) (cipherSuiteName (cs_cipher state)) (curveName (cs_curve state))
             (cs_protocol state) (cs_complete state) (cs_resumed state) sder sspki cder cspki (len chain)
             (negb (len chain =? 1)) (cs_chains state =? 1) true (cs_complete state && (cs_chains state =? 1))
             (cs_chains state) f_zero f_zero in
  (o, failures_error
        (failure (negb (cs_version state =? VersionTLS13) || negb (cs_complete state)) "exact TLS 1.3 handshake not complete"
         ++ failure (negb (cs_cipher state =? TLS_AES_128_GCM_SHA256)) "cipher suite mismatch"
         ++ failure (negb (cs_curve state =? X25519)) "key exchange group mismatch"
         ++ failure (negb (String.eqb (cs_protocol state) alpn)) "ALPN mismatch"
         ++ failure (cs_resumed state) "session resumption detected"
         ++ failure (negb (cs_chains state =? 1)) "server certificate chain was not uniquely verified"
         ++ failure (negb (String.eqb sder leafDERHash) || negb (String.eqb sspki leafSPKIHash)) "server certificate identity mismatch"
         ++ failure (negb (len chain =? 1)) "client must send exactly one leaf and no trust anchor"
         ++ failure (negb (String.eqb cder clientLeafDERHash) || negb (String.eqb cspki clientLeafSPKIHash))
              "client certificate identity mismatch")).

Definition loadClientIdentity (pair : res (list bytes)) (parse : bytes -> res certificate) : res (list bytes) :=
  let? chain := pair in
  guard len chain =? 1 else EMsg "client PEM must contain exactly one leaf and no trust anchor" in
  let? leaf := parse (default [] (head chain)) in
  guard String.eqb (hash (cert_raw leaf)) clientLeafDERHash && String.eqb (hash (cert_spki leaf)) clientLeafSPKIHash
    else EMsg "client certificate substitution detected" in
  guard String.eqb (cert_signature leaf) "ECDSA-SHA256" && String.eqb (cert_key leaf) "ECDSA"
    else EMsg "client certificate algorithm mismatch" in
  guard String.eqb (cert_curve leaf) "P-256" else EMsg "client certificate curve mismatch" in
  Ok chain.

Section executor.
Context (parse : bytes -> res certificate) (pair : res (list bytes)).
Definition runHandshake (chain : list bytes) (env : handshakeEnv) : res mutualObservation :=
  handshakeWith (fun state => validateState parse state chain) with_mutual_latencies env.
Definition runFor (chain : list bytes) (turns : list handshakeEnv) (seconds : float64) : summary mutualObservation :=
  TlsLoad.runFor (runHandshake chain) MHandshakeLatencyMS turns seconds.
(** The client's identity is loaded after the trust anchors, and used only if it was. *)
Definition main (env : mainEnv handshakeEnv) : Z * list (artifact mutualObservation) :=
  let identity := let? _ := m_identity env in loadClientIdentity pair parse in
  let env := MainEnv (m_getenv env) (m_target env) (m_parse env) (m_split env) (let? _ := identity in Ok tt) (m_validationOnly env)
               (m_showVersion env) (m_mkdir env) (m_preflight env) (m_warmup env) (m_measured env) in
  runMain ids (runHandshake match identity with Ok chain => chain | Err _ => [] end) MHandshakeLatencyMS env.
End executor.

(** The server go-tls13-mtls. The state of a connection as it sees it: the lengths of the
    verified chains, and the extended usages of the client's first certificate. *)
Record peerState := PeerState { ps_state : connState; ps_chains : list Z; ps_usages : list Z }.
Definition ExtKeyUsageClientAuth : Z := 2.
Definition hasClientAuthEKU (usages : list Z) : bool := existsb (fun usage => usage =? ExtKeyUsageClientAuth) usages.
Definition peerValidator (expectedDER expectedSPKI : string) (peer : peerState) : option goerror :=
  let state := ps_state peer in
  failures_error
    (failure (negb (cs_version state =? VersionTLS13)) "exact TLS 1.3 was not negotiated"
     ++ failure (negb (cs_cipher state =? TLS_AES_128_GCM_SHA256)) "cipher suite mismatch"
     ++ failure (negb (cs_curve state =? X25519)) "key exchange group mismatch"
     ++ failure (negb (String.eqb (cs_protocol state) alpn)) "ALPN mismatch"
     ++ failure (cs_resumed state) "session resumption is forbidden"
     ++ failure (negb (len (cs_peer state) =? 1)) "exactly one client leaf certificate must be sent"
     ++ failure (negb (len (ps_chains peer) =? 1) || negb (default 0 (head (ps_chains peer)) =? 2))
          "client chain must verify to exactly one out-of-band trust anchor"
     ++ match cs_peer state with
        | [] => []
        | leaf :: _ =>
            failure (negb (String.eqb (hash (cert_raw leaf)) expectedDER) || negb (String.eqb (hash (cert_spki leaf)) expectedSPKI))
              "client certificate identity mismatch"
            ++ failure (negb (String.eqb (cert_signature leaf) "ECDSA-SHA256") || negb (String.eqb (cert_key leaf) "ECDSA"))
                 "client certificate algorithm mismatch"
            ++ failure (negb (String.eqb (cert_curve leaf) "P-256")) "client certificate curve mismatch"
            ++ failure (negb (hasClientAuthEKU (ps_usages peer))) "client certificate lacks client-auth EKU"
        end).
(** [handle]: crypto/tls fails the handshake when the validator of the configuration does. *)
Definition handle (tls : res peerState) (read : Z * option goerror) : option goerror :=
  match tls with
  | Err err => Some err
  | Ok peer => match peerValidator clientLeafDERHash clientLeafSPKIHash peer with Some err => Some err | None => awaitClose read end
  end.

End Mtls.
