(* ===== verification/TlsHandshakesProps.v ===== *)
(** The single-handshake packages: exactly which sessions each executor accepts, what its
    own server and the check of the TLS 1.3 executor say of them, which client hellos are
    accepted, and what the results of the runs are worth. *)
From S2P Require Export Prelude Stats GoText GoHash TlsBase TlsLoad Tls13 TlsHandshakes.

(** ** Failures *)

Lemma failures_error_none l : failures_error l = None <-> l = [].
Proof. destruct l; split; done. Qed.

Lemma failure_nil b m : failure b m = [] <-> b = false.
Proof. destruct b; split; done. Qed.

Lemma failure_app_nil b m rest : failure b m ++ rest = [] <-> b = false /\ rest = [].
Proof. destruct b; cbn; split; [done|intros [? _]; done|done|by intros [_ ->]]. Qed.

Lemma string_neqb_false a b : negb (String.eqb a b) = false <-> a = b.
Proof. rewrite negb_false_iff. apply String.eqb_eq. Qed.
Lemma Z_neqb_false a b : negb (a =? b) = false <-> a = b.
Proof. rewrite negb_false_iff. apply Z.eqb_eq. Qed.

(** The conditions of a check from the failures it collects. *)
Ltac failures_to_conditions :=
  rewrite ?failures_error_none, ?failure_app_nil, ?failure_nil, ?orb_false_iff, ?string_neqb_false, ?Z_neqb_false,
    ?negb_false_iff.

(** ** The certificate *)

(** A peer that sent one certificate only, with the leaf's digests and algorithms. *)
Definition leaf_ok (peer : list certificate) : Prop :=
  exists leaf, peer = [leaf] /\ hash (cert_raw leaf) = leafDERHash /\ hash (cert_spki leaf) = leafSPKIHash /\
    cert_signature leaf = "ECDSA-SHA256" /\ cert_key leaf = "ECDSA" /\ cert_curve leaf = "P-256".

Lemma certificateFailures_none state group :
  certificateFailures state (observe state group) = [] <-> cs_chains state = 1 /\ leaf_ok (cs_peer state).
Proof.
  unfold certificateFailures, observe, leaf_ok. failures_to_conditions.
  destruct (cs_peer state) as [|leaf [|c peer]]; cbn [leafDigests leafAlgorithms].
  - split; [intros (_ & [H _] & _); discriminate H|intros (_ & leaf & H & _); discriminate H].
  - cbn [CertificateDERSHA256 CertificateSPKISHA256 SentCertificateCount CertificateSignatureAlgorithm
         CertificatePublicKeyAlgorithm CertificateNamedCurve]. change (len [leaf]) with 1. split.
    + intros (H1 & [H2 H3] & _ & [[H4 H5] H6]). split; [exact H1|]. exists leaf. repeat split; assumption.
    + intros (H1 & leaf' & [= <-] & H2 & H3 & H4 & H5 & H6). repeat split; assumption.
  - cbn [SentCertificateCount]. split.
    + intros (_ & _ & H & _). unfold len in H. cbn [length] in H. lia.
    + intros (_ & leaf' & H & _). discriminate H.
Qed.

(** ** Executors against their servers *)

(** The TLS 1.2 executor accepts exactly the complete sessions its server accepts, closed
    without application data, in which the server sent its one certificate. *)
Lemma tls12_agreement state :
  (Tls12.validateState state).2 = None <->
  cs_complete state = true /\ Tls12.handle (Ok state) (0, Some EEOF) = None /\ cs_chains state = 1 /\ leaf_ok (cs_peer state).
Proof.
  unfold Tls12.validateState, Tls12.handle. cbn [snd]. failures_to_conditions. rewrite certificateFailures_none.
  change (awaitClose (0, Some EEOF)) with (@None goerror).
  match goal with |- context [if ?b then _ else _] => destruct b eqn:E end.
  - split; [|intros (_ & H & _); discriminate H]. intros ([H1 H2] & H3 & H4 & H5 & H6 & _). exfalso.
    rewrite H1, H3, H4, H5, H6, !Z.eqb_refl, String.eqb_refl in E. discriminate E.
  - revert E. failures_to_conditions. tauto.
Qed.

Lemma chacha20_agreement state :
  (ChaCha20.validateState state (cs_curve state) false).2 = None <->
  ChaCha20.handle (Ok state) (0, Some EEOF) = None /\ cs_chains state = 1 /\ leaf_ok (cs_peer state).
Proof.
  unfold ChaCha20.validateState, ChaCha20.handle. cbn [snd]. failures_to_conditions. rewrite certificateFailures_none.
  change (awaitClose (0, Some EEOF)) with (@None goerror).
  destruct (ChaCha20.validateServerState state) as [err|] eqn:E.
  - split; [|intros (H & _); discriminate H]. intros (H1 & H2 & H3 & H4 & H5 & _). exfalso.
    enough (ChaCha20.validateServerState state = None) by congruence.
    unfold ChaCha20.validateServerState. failures_to_conditions. tauto.
  - revert E. unfold ChaCha20.validateServerState. failures_to_conditions. intuition.
Qed.

(** ** Client hellos *)

Lemma equalUint16_eq xs ys : ChaCha20.equalUint16 xs ys = true <-> xs = ys.
Proof.
  revert ys; induction xs as [|x xs IH]; intros [|y ys]; cbn [ChaCha20.equalUint16]; try done.
  rewrite andb_true_iff, Z.eqb_eq, IH. split; [by intros [-> ->]|by intros [= -> ->]].
Qed.

Lemma single_head {A} (l : list A) d x : len l = 1 /\ default d (head l) = x <-> l = [x].
Proof.
  split; [|by intros ->]. intros [Hl Hx]. destruct l as [|y [|z l]]; unfold len in Hl; cbn [length] in Hl; [lia| |lia].
  cbn in Hx. by subst.
Qed.

(** The client hellos the ChaCha20 executor goes on with are exactly those that offer one
    cipher suite, one version, one group with one key share of it, one signature algorithm,
    one protocol and one name, and no ticket, no pre-shared key of any kind and no early
    data: nothing a server could fall back to. *)
Theorem client_hello_exact signatures h :
  (ChaCha20.validateClientHello signatures (Some h)).2 = None <->
  ChaCha20.CipherSuites h = [TLS_CHACHA20_POLY1305_SHA256] /\ ChaCha20.SupportedVersions h = [VersionTLS13] /\
  ChaCha20.SupportedCurves h = [X25519] /\ ChaCha20.KeyShares h = [X25519] /\
  ChaCha20.SupportedSignatureAlgorithms h = [ChaCha20.ECDSAWithP256AndSHA256] /\ ChaCha20.AlpnProtocols h = [alpn] /\
  ChaCha20.ServerName h = ChaCha20.serverName /\
  ChaCha20.TicketSupported h = false /\ ChaCha20.SessionTicket h = [] /\
  ChaCha20.PskIdentities h = 0 /\ ChaCha20.PskBinders h = 0 /\ ChaCha20.PskModes h = [] /\ ChaCha20.EarlyData h = false.
Proof.
  unfold ChaCha20.validateClientHello. cbn [snd]. failures_to_conditions.
  rewrite !equalUint16_eq, !bool_decide_eq_true.
  pose proof (single_head (ChaCha20.KeyShares h) 0 X25519) as K.
  pose proof (single_head (ChaCha20.SupportedSignatureAlgorithms h) 0 ChaCha20.ECDSAWithP256AndSHA256) as S.
  pose proof (single_head (ChaCha20.AlpnProtocols h) "" alpn) as P. tauto.
Qed.

(** ** Mutual authentication *)

(** The client's own identity, as the executor reads it. *)
Definition client_identity (parse : bytes -> res certificate) (chain : list bytes) : Prop :=
  exists leaf c, chain = [leaf] /\ parse leaf = Ok c /\
    hash (cert_raw c) = Mtls.clientLeafDERHash /\ hash (cert_spki c) = Mtls.clientLeafSPKIHash.

(** What the mutual-authentication executor checks of a session is exactly what the
    server-authentication executor of TLS 1.3 checks of a full handshake, and that one chain
    was verified; the rest is about the identity it loaded itself. The state of a session
    does not say whether the server asked for a client certificate: a session with a server
    that never does is accepted, and reported as mutually authenticated, with the client's
    certificate verified. *)
Theorem mutual_check_is_server_only parse state chain :
  let '(o, err) := Mtls.validateState parse state chain in
  (err = None <->
   (Tls13.validateState state false).2 = None /\ cs_chains state = 1 /\ client_identity parse chain) /\
  (err = None -> Mtls.MutualAuthenticated o = true /\ Mtls.ClientCertificateVerified o = true).
Proof.
  destruct (Mtls.validateState parse state chain) as [o err] eqn:E. unfold Mtls.validateState in E.
  assert (Hc : (cs_cipher state = TLS_AES_128_GCM_SHA256 <-> cipherSuiteName (cs_cipher state) = "TLS_AES_128_GCM_SHA256")).
  { split; [intros ->; reflexivity|apply cipherSuiteName_aes128]. }
  assert (Hk : (cs_curve state = X25519 <-> curveName (cs_curve state) = "X25519")).
  { split; [intros ->; reflexivity|apply curveName_x25519]. }
  assert (Hi : forall cder cspki, match chain with
    | leaf :: _ => match parse leaf with Ok c => (hash (cert_raw c), hash (cert_spki c)) | Err _ => ("", "") end
    | [] => ("", "") end = (cder, cspki) ->
    (len chain = 1 /\ cder = Mtls.clientLeafDERHash /\ cspki = Mtls.clientLeafSPKIHash <-> client_identity parse chain)).
  { clear. intros cder cspki H. unfold client_identity. destruct chain as [|leaf [|x chain]].
    - split; [intros [Hl _]; discriminate Hl|intros (? & ? & Hx & _); discriminate Hx].
    - destruct (parse leaf) as [c|e] eqn:Ep; injection H as <- <-; split.
      + intros (_ & H1 & H2). exists leaf, c. repeat split; assumption.
      + intros (? & ? & [= <-] & Hp & H1 & H2). rewrite Ep in Hp. injection Hp as <-. repeat split; assumption.
      + intros (_ & H1 & _). discriminate H1.
      + intros (? & ? & [= <-] & Hp & _). congruence.
    - split; [intros [Hl _]; unfold len in Hl; cbn [length] in Hl; lia|intros (? & ? & Hx & _); discriminate Hx]. }
  destruct (match chain with leaf :: _ => _ | [] => _ end) as [cder cspki] eqn:Ec. specialize (Hi _ _ eq_refl).
  unfold Tls13.validateState. destruct (leafDigests (cs_peer state)) as [sder sspki]. injection E as <- <-.
  cbn [snd Mtls.MutualAuthenticated Mtls.ClientCertificateVerified].
  assert (Hr : Bool.eqb (cs_resumed state) false = true <-> cs_resumed state = false) by (by destruct (cs_resumed state)).
  failures_to_conditions. rewrite Hr, Z.eqb_neq. split.
  - rewrite <-Hi, Hc, Hk. intuition (congruence || lia).
  - intros H. destruct H as ([_ H1] & _ & _ & _ & _ & H2 & _). by rewrite H1, H2.
Qed.

(** Nor does its server's own check say anything of what the executor was told: the two
    certificates are different ones. *)
Lemma mutual_identities_differ : Mtls.clientLeafDERHash <> leafDERHash /\ Mtls.clientLeafSPKIHash <> leafSPKIHash.
Proof. split; discriminate. Qed.

(** ** Runs *)

(** A run of a single-handshake executor, of any of the three identities, that leaves a
    result: its preflight succeeded; the result counts the handshakes of the measured load,
    each once, and proves the session of the last that succeeded; the exit code is 0 exactly
    when there was a handshake and none failed. But the result says that the validation
    passed in every case, with exit code 1 as well, and the warm-up counts for nothing. *)
Theorem handshake_run_result {O E} ids (handshake : E -> res O) latency (env : mainEnv E) code artifacts r :
  runMain ids handshake latency env = (code, artifacts) -> ResultArtifacts r ∈ artifacts -> m_validationOnly env = false ->
  let turns := (m_measured env).1 in
  let good := List.filter (fun e => is_ok (handshake e)) turns in
  is_ok (handshake (m_preflight env)) = true /\
  RStatus r = "passed" /\ (code = 0 \/ code = 1) /\ (code = 0 <-> turns <> [] /\ good = turns) /\
  MCompleted (RMetrics r) = len good /\
  MCompleted (RMetrics r) + MFailed (RMetrics r) + MTimedOut (RMetrics r) = len turns /\
  Ok <$> RProof r = last (handshake <$> good).
Proof.
  intros Hm Hr Hv. destruct (runMain_result ids handshake latency env code artifacts r Hm Hr) as (H1 & preflight & H2 & H3).
  rewrite Hv in H3. cbv zeta in H3 |- *. destruct H3 as (H3 & H4 & H5 & H6 & H7). rewrite H2. cbn [is_ok].
  split; [reflexivity|]. split; [exact H1|]. split; [exact H6|]. split; [exact H7|]. split; [exact H3|]. split; [exact H4|exact H5].
Qed.

(** A load in which a handshake failed: its result passed, and its exit code is 1. *)
Definition flaky_run : mainEnv (res Z) :=
  MainEnv (fun name => if String.eqb name "PLAB_SCENARIO_ID" then "tls.handshake.full.tls12" else "") "127.0.0.1:18443"
    (fun _ => Err EEOF) (fun _ => None) (Ok tt) false false None (Ok 1) ([], f_zero) ([Ok 2; Err EDeadline; Ok 3], f_of_Z 5).

Lemma handshake_run_result_witness :
  exists artifacts r,
    runMain Tls12.ids (fun e => e) (fun _ => f_zero) flaky_run = (1, artifacts) /\ ResultArtifacts r ∈ artifacts /\
    RStatus r = "passed" /\ MCompleted (RMetrics r) = 2 /\ Ok <$> RProof r = Some (Ok 3).
Proof.
  destruct (runMain Tls12.ids (fun e => e) (fun _ => f_zero) flaky_run) as [code artifacts] eqn:E.
  assert (Hr : exists r, ResultArtifacts r ∈ artifacts).
  { vm_compute in E. injection E as _ <-. eexists. right. left. }
  destruct Hr as [r Hr].
  destruct (handshake_run_result Tls12.ids (fun e => e) (fun _ => f_zero) flaky_run code artifacts r E Hr eq_refl)
    as (_ & H1 & _ & _ & H2 & _ & H3).
  assert (Hc : code = 1) by (vm_compute in E; injection E as <- _; reflexivity). subst code.
  exists artifacts, r. split; [reflexivity|]. split; [exact Hr|]. split; [exact H1|]. split; [exact H2|exact H3].
Defined.
