(* ===== verification/DatagramBase.v ===== *)
(** What the WebTransport and the CONNECT-UDP packages share: the fixed set of datagrams and
    its digest, targets, the loop that sends every datagram and waits for its echo, and the
    documents a run leaves. *)
From S2P Require Export Prelude Stats GoText GoHash TlsBase.

(** ** The set of datagrams *)

Definition datagramCount : Z := 32.
Definition payloadBytesPerDatagram : Z := 256.
Definition payloadSetSHA256 : string := "2e975a37b4bff0a8022c0f89ab19e9a8e2599300e557e9b8ce3eff364cd33e8b".

(** [byte((from + i) % 251)] for the first [n] indices. *)
Fixpoint octets (n : nat) (from : Z) : bytes :=
  match n with O => [] | S n => u8 (from mod 251) :: octets n (from + 1) end.
Definition makeDatagramPayload (datagramIndex : Z) : bytes :=
  octets (Z.to_nat payloadBytesPerDatagram) datagramIndex.
Definition makePayloadSet : list bytes := makeDatagramPayload <$> seqZ 0 datagramCount.
(** Writing the datagrams one after the other to a hash is hashing their concatenation. *)
Definition hashPayloadSet (payloads : list bytes) : string := sha256_hex (concat payloads).

(** ** Targets *)

(** What [url.Parse] gives. *)
Record targetURL := TargetURL { u_scheme : string; u_host : string; u_hostname : string; u_port : string }.
(** The address to dial and the logical URL, which has the fixed authority. *)
Definition normalizeTarget (authority path : string) (parse : string -> res targetURL) (value : string)
    : res (string * string) :=
  let value := trim_space value in
  guard negb (String.eqb value "") else EMsg "target required" in
  let value := if contains_sub value "://" then value else "https://" +:+ value in
  match parse value with
  | Err _ => Err (EMsg "target must be https://host:port")
  | Ok parsed =>
      guard negb (String.eqb (u_host parsed) "") else EMsg "target must be https://host:port" in
      guard String.eqb (u_scheme parsed) "https" else EMsg "target must use https" in
      let port := if String.eqb (u_port parsed) "" then "443" else u_port parsed in
      Ok (joinHostPort (u_hostname parsed) port, "https://" +:+ joinHostPort authority port +:+ path)
  end.

(** [%x] of a 16-bit integer. *)
Fixpoint trim_zeros (s : string) : string :=
  match s with
  | String c r => if (ord c =? 48) && negb (String.eqb r "") then trim_zeros r else s
  | EmptyString => s
  end.
Definition hex_uint16 (z : Z) : string := trim_zeros (hex_encode (be_encode 2 z)).

Definition protocolSubstitution (s : connState) : goerror :=
  EMsg ("protocol substitution: tls=" +:+ hex_uint16 (cs_version s) +:+ " alpn=" +:+ go_quote (cs_protocol s)).

(** ** Datagrams sent and awaited in turn *)

Definition datagramError (index : Z) (what : string) : string := "datagram " +:+ pretty index +:+ " " +:+ what.

Section exchange.
Context {T : Type} (exchangeDatagram : Z -> bytes -> T -> res (float64 * bytes)) (silence : goerror).

(** The loop over the payloads; when nothing more arrives, the read ends with [silence]. *)
Fixpoint exchangeDatagrams (index : Z) (payloads : list bytes) (turns : list T)
    (latencies : list float64) (received : list bytes) : res (list float64 * list bytes) :=
  match payloads, turns with
  | [], _ => Ok (latencies, received)
  | _ :: _, [] => Err (EWrap (datagramError index "read failed") silence)
  | payload :: payloads, t :: turns =>
      let? turn := exchangeDatagram index payload t in
      exchangeDatagrams (index + 1) payloads turns (latencies ++ [turn.1]) (received ++ [turn.2])
  end.

(** When a turn that succeeds has received what it sent, so has the loop, with one latency
    for each datagram. *)
Lemma exchangeDatagrams_sound :
  (forall i p t l d, exchangeDatagram i p t = Ok (l, d) -> d = p) ->
  forall payloads index turns ls rs ls' rs',
  exchangeDatagrams index payloads turns ls rs = Ok (ls', rs') ->
  rs' = rs ++ payloads /\ length ls' = (length ls + length payloads)%nat.
Proof.
  intros Hturn payloads. induction payloads as [|p payloads IH]; intros index turns ls rs ls' rs'; cbn [exchangeDatagrams].
  - intros [= <- <-]. rewrite app_nil_r. split; [reflexivity|]. cbn [length]. lia.
  - destruct turns as [|t turns]; [discriminate|]. destruct (exchangeDatagram index p t) as [[l d]|err] eqn:E; [|discriminate].
    cbn [res_bind fst snd]. intros H. apply Hturn in E as ->. apply IH in H as [-> H]. rewrite <-app_assoc.
    split; [reflexivity|]. rewrite H, length_app. cbn [length]. lia.
Qed.

(** Each datagram had a turn of its own, which succeeded. *)
Lemma exchangeDatagrams_turns payloads : forall index turns ls rs out,
  exchangeDatagrams index payloads turns ls rs = Ok out ->
  forall i p, payloads !! i = Some p ->
  exists t turn, turns !! i = Some t /\ exchangeDatagram (index + Z.of_nat i) p t = Ok turn.
Proof.
  induction payloads as [|p payloads IH]; intros index turns ls rs out H i q Hq; [discriminate|].
  destruct turns as [|t turns]; [discriminate|]. cbn [exchangeDatagrams] in H.
  destruct (exchangeDatagram index p t) as [turn|err] eqn:E; [|discriminate]. cbn [res_bind] in H. destruct i as [|i].
  - injection Hq as <-. exists t, turn. rewrite Z.add_0_r. by split.
  - destruct (IH _ _ _ _ _ H i q Hq) as (t' & turn' & Ht & Hx). exists t', turn'.
    by replace (index + Z.of_nat (S i)) with (index + 1 + Z.of_nat i) by lia.
Qed.

(** The first turn that fails decides: those before it have succeeded. *)
Lemma exchangeDatagrams_fails k err : forall payloads turns index ls rs,
  (forall i p t, (i < k)%nat -> payloads !! i = Some p -> turns !! i = Some t ->
     is_ok (exchangeDatagram (index + Z.of_nat i) p t) = true) ->
  (exists p t, payloads !! k = Some p /\ turns !! k = Some t /\ exchangeDatagram (index + Z.of_nat k) p t = Err err) ->
  exchangeDatagrams index payloads turns ls rs = Err err.
Proof.
  induction k as [|k IH]; intros [|p payloads] [|t turns] index ls rs Hb (q & u & Hq & Hu & Hx); try discriminate; cbn [exchangeDatagrams].
  - injection Hq as <-. injection Hu as <-. rewrite Z.add_0_r in Hx. by rewrite Hx.
  - pose proof (Hb 0%nat p t ltac:(lia) eq_refl eq_refl) as H0. rewrite Z.add_0_r in H0.
    destruct (exchangeDatagram index p t) as [turn|e]; [|discriminate]. cbn [res_bind]. apply IH.
    + intros i p' t' Hi Hp Ht. replace (index + 1 + Z.of_nat i) with (index + Z.of_nat (S i)) by lia. apply Hb; [lia|done|done].
    + exists q, u. by replace (index + 1 + Z.of_nat k) with (index + Z.of_nat (S k)) by lia.
Qed.

(** When every turn succeeds, the loop does. *)
Lemma exchangeDatagrams_complete payloads turns latencies : length latencies = length payloads ->
  forall index ls rs,
  (forall i p t l, payloads !! i = Some p -> turns !! i = Some t -> latencies !! i = Some l ->
     exchangeDatagram (index + Z.of_nat i) p t = Ok (l, p)) ->
  length turns = length payloads ->
  exchangeDatagrams index payloads turns ls rs = Ok (ls ++ latencies, rs ++ payloads).
Proof.
  revert turns latencies. induction payloads as [|p payloads IH]; intros [|t turns] [|l latencies] Hl index ls rs Hturn Ht;
    try discriminate; cbn [exchangeDatagrams].
  - by rewrite !app_nil_r.
  - pose proof (Hturn 0%nat p t l eq_refl eq_refl eq_refl) as H0. rewrite Z.add_0_r in H0. rewrite H0.
    cbn [res_bind fst snd]. rewrite (IH turns latencies); [by rewrite <-!app_assoc|by injection Hl| |by injection Ht].
    intros i p' t' l' H1 H2 H3. specialize (Hturn (S i) p' t' l' H1 H2 H3). by replace (index + 1 + Z.of_nat i) with (index + Z.of_nat (S i)) by lia.
Qed.
End exchange.

(** ** The documents of a run *)

(** How a program ends: with an exit code, or by a nil dereference. *)
Inductive ending := Exited (code : Z) | Panicked.
#[export] Instance ending_eq_dec : EqDecision ending.
Proof. solve_decision. Defined.

(** The calls of [writeJSON] in order: the first that fails ends the program with code 1.
    The values the packages write are encodable. *)
Fixpoint commit {D} (disk : string -> option goerror) (documents : list (string * D)) (e : ending)
    : ending * list (string * D) :=
  match documents with
  | [] => (e, [])
  | (name, document) :: documents =>
      match disk name with
      | Some _ => (Exited 1, [])
      | None => let '(e, written) := commit disk documents e in (e, (name, document) :: written)
      end
  end.

Lemma commit_writable {D} (disk : string -> option goerror) (documents : list (string * D)) e :
  (forall name, disk name = None) -> commit disk documents e = (e, documents).
Proof. intros H. induction documents as [|[n d] ds IH]; [reflexivity|]. cbn [commit]. by rewrite H, IH. Qed.

(** A run that does not end with code 1 has written everything. *)
Lemma commit_all {D} (disk : string -> option goerror) (documents : list (string * D)) e e' written :
  commit disk documents e = (e', written) -> e' = Exited 1 \/ e' = e /\ written = documents.
Proof.
  revert e' written. induction documents as [|[n d] ds IH]; intros e' written; cbn [commit].
  - intros [= <- <-]. by right.
  - destruct (disk n); [intros [= <- <-]; by left|]. destruct (commit disk ds e) as [e1 w1] eqn:E. intros [= <- <-].
    destruct (IH _ _ eq_refl) as [H|[H1 H2]]; [by left|right; by subst].
Qed.

Lemma commit_incl {D} (disk : string -> option goerror) (documents : list (string * D)) e d :
  d ∈ (commit disk documents e).2 -> d ∈ documents.
Proof.
  induction documents as [|[n x] ds IH]; cbn [commit]; [done|]. destruct (disk n).
  - intros H. by apply not_elem_of_nil in H.
  - destruct (commit disk ds e) as [e1 w1]. cbn [snd] in *. rewrite !elem_of_cons. intros [H|H]; auto.
Qed.

(** A run, as its documents and its end, is safe when it fails without a result, or ends
    well with one; [result] tells the documents that are results, [earned] what stands
    behind them. *)
Section runs.
Context {D R : Type} (result : D -> option R) (earned : R -> Prop).

Definition safeRun (run : list (string * D) * ending) : Prop :=
  (exists code, run.2 = Exited code /\ code <> 0 /\ forall name d, (name, d) ∈ run.1 -> result d = None) \/
  (run.2 = Exited 0 /\ (exists d r, ("result.json", d) ∈ run.1 /\ result d = Some r) /\
   forall name d r, (name, d) ∈ run.1 -> result d = Some r -> earned r).
Definition safeEnd (out : ending * list (string * D)) : Prop :=
  out.1 <> Panicked /\ (forall name d r, (name, d) ∈ out.2 -> result d = Some r -> earned r) /\
  (out.1 = Exited 0 -> exists d r, ("result.json", d) ∈ out.2 /\ result d = Some r).

Lemma safeEnd_nothing code : code <> 0 -> safeEnd (Exited code, []).
Proof.
  intros H. split; [discriminate|]. split.
  - intros name d r Hin. by apply not_elem_of_nil in Hin.
  - intros [= ->]. done.
Qed.

(** Documents that cannot be written do not make it unsafe. *)
Lemma commit_safe disk documents e : safeRun (documents, e) -> safeEnd (commit disk documents e).
Proof.
  intros H. pose proof (commit_incl disk documents e) as Hi. destruct (commit disk documents e) as [e' written] eqn:Ec.
  apply commit_all in Ec. cbn [snd] in Hi. destruct H as [(code & He & Hc & Hn)|(He & Hr & Hd)]; cbn [fst snd] in *; subst e.
  - split; [destruct Ec as [->|[-> _]]; discriminate|]. split; cbn [fst snd].
    + intros name d r Hin Hr. apply Hi, Hn in Hin. congruence.
    + intros ->. destruct Ec as [H|[H _]]; [discriminate H|congruence].
  - split; [destruct Ec as [->|[-> _]]; discriminate|]. split; cbn [fst snd].
    + intros name d r Hin. intros Hr2. by apply (Hd name d r (Hi _ Hin)) in Hr2.
    + intros ->. destruct Ec as [H|[_ ->]]; [discriminate H|exact Hr].
Qed.
End runs.

(** ** Facts on the set *)

Lemma length_octets n from : length (octets n from) = n.
Proof. revert from. induction n as [|n IH]; intros from; [reflexivity|]. cbn [octets length]. by rewrite IH. Qed.

Lemma octets_lookup n from i : (i < n)%nat -> octets n from !! i = Some (u8 ((from + Z.of_nat i) mod 251)).
Proof.
  revert from i. induction n as [|n IH]; intros from [|i] H; try lia; cbn [octets].
  - by rewrite Z.add_0_r.
  - cbn [lookup list_lookup]. rewrite IH by lia. by replace (from + 1 + Z.of_nat i) with (from + Z.of_nat (S i)) by lia.
Qed.

Lemma octets_bytes n from : all_bytes (octets n from).
Proof. revert from. induction n as [|n IH]; intros from; constructor; [apply u8_byte|apply IH]. Qed.

Lemma length_payload index : len (makeDatagramPayload index) = payloadBytesPerDatagram.
Proof. unfold makeDatagramPayload, len. by rewrite length_octets. Qed.

Lemma length_payloadSet : length makePayloadSet = 32%nat.
Proof. reflexivity. Qed.

Lemma payloadSet_lookup i p : makePayloadSet !! i = Some p -> p = makeDatagramPayload (Z.of_nat i) /\ 0 <= Z.of_nat i < datagramCount.
Proof.
  unfold makePayloadSet. rewrite list_lookup_fmap. intros H. apply fmap_Some in H as (z & Hz & ->).
  apply lookup_seqZ in Hz as [-> Hz]. split; [f_equal; lia|lia].
Qed.

Lemma payloadSet_at i : 0 <= i < datagramCount -> makePayloadSet !! Z.to_nat i = Some (makeDatagramPayload i).
Proof.
  unfold datagramCount, makePayloadSet. intros Hi. rewrite list_lookup_fmap, lookup_seqZ_lt by (unfold datagramCount; lia).
  cbn [fmap option_fmap option_map]. do 2 f_equal. lia.
Qed.

Lemma take_indices {A} (f : Z -> A) k : (k <= 32)%nat -> take k (f <$> seqZ 0 datagramCount) = f <$> seqZ 0 (Z.of_nat k).
Proof.
  intros Hk. rewrite <-fmap_take. f_equal. unfold datagramCount.
  replace 32 with (Z.of_nat k + (32 - Z.of_nat k)) by lia. rewrite seqZ_app by lia.
  rewrite take_app_le by (rewrite length_seqZ; lia). apply take_ge. rewrite length_seqZ. lia.
Qed.

(** Each datagram begins with its index: no two are the same, and none is another's echo. *)
Lemma payload_inj i j : 0 <= i < datagramCount -> 0 <= j < datagramCount ->
  makeDatagramPayload i = makeDatagramPayload j -> i = j.
Proof.
  unfold datagramCount. intros Hi Hj H. apply (f_equal (fun l => l !! 0%nat)) in H. unfold makeDatagramPayload in H.
  rewrite !octets_lookup in H by (vm_compute; lia). injection H as H. rewrite !Z.add_0_r in H.
  rewrite !Z.mod_small in H by lia. unfold u8 in H. rewrite !Z.mod_small in H by lia. exact H.
Qed.

(** The digest the packages hard-code is that of the set they generate. *)
Lemma payloadSet_digest : hashPayloadSet makePayloadSet = payloadSetSHA256.
Proof. vm_compute. reflexivity. Qed.
