(* ===== verification/Masque.v ===== *)
(** CONNECT-UDP over HTTP/3: the executor go-masque-connect-udp-executor, the proxy
    masque-go-connect-udp, and the UDP echo target both it and envoy-connect-udp run. *)
From S2P Require Export Prelude Stats GoText GoHash GoHttp TlsBase DatagramBase.

(** ** The proxy and its target *)

Definition proxyAuthority : string := "masque-proxy.plab.test".
Definition targetAuthority : string := "masque-echo.plab.test:4433".
Definition pathTemplate : string := "/.well-known/masque/udp/{target_host}/{target_port}/".

Module Server.

(** What [masque.ParseProxyRequest] refuses a request with: its own error carries a status. *)
Inductive parseError := ProxyRequestParseError (status : Z) (message : string) | OtherError (message : string).

(** The handler: [parsed] is the target of the request. The headers it sets and the target
    it forwards to, or the status it refuses the request with. *)
Inductive handled :=
| Refused (status : Z)
| Forwarded (headers : httpHeader) (target : string).
Definition handler (parsed : parseError + string) : handled :=
  match parsed with
  | inl (ProxyRequestParseError status _) => Refused status
  | inl (OtherError _) => Refused 400
  | inr target =>
      if negb (equal_fold target targetAuthority) then Refused 403 else
      let headers := header_set [] "x-protocollab-proxy-role" "masque-go-connect-udp" in
      let headers := header_set headers "x-protocollab-target-role" targetAuthority in
      Forwarded headers "127.0.0.1:4433"
  end.

(** [serveEcho] over what the socket delivers: a datagram and its sender, or an error. What
    the loop did with each datagram; a failed write is logged like a rejected datagram, and
    the error of a read ends the loop. The buffer keeps the first 1500 octets. *)
Inductive echoed := Echoed (peer : string) (data : bytes) | Dropped (peer : string).
Fixpoint serveEcho (input : list (res (string * bytes) * option goerror)) : list echoed :=
  match input with
  | [] | (Err _, _) :: _ => []
  | (Ok (peer, datagram), fault) :: input =>
      let data := take 1500 datagram in
      if negb (len data =? 256) then Dropped peer :: serveEcho input
      else match fault with
           | Some _ => Dropped peer :: serveEcho input
           | None => Echoed peer data :: serveEcho input
           end
  end.

(** The target of envoy-connect-udp: the same loop in its [main], where the error of a read
    ends the program. *)
Definition udpEcho (listen : option goerror) (input : list (res (string * bytes) * option goerror)) : list echoed :=
  match listen with Some _ => [] | None => serveEcho input end.

Definition envOr (getenv : string -> string) (name fallback : string) : string :=
  let value := trim_space (getenv name) in if String.eqb value "" then fallback else value.
Definition uriTemplate (getenv : string -> string) : string :=
  "https://" +:+ joinHostPort proxyAuthority (envOr getenv "PLAB_PUBLIC_PORT" "4443") +:+ pathTemplate.

End Server.

(** ** One operation of the executor *)

Definition scenarioID : string := "masque.connect-udp-tunnel".
Definition certificateDERSHA256 : string := "f23269776cd1dc06fe36e68ab130de491a427a8596e5683e8aa4019091d97a83".
Definition certificateSPKISHA256 : string := "02fb58a89ebf6e7d63fd86cb668e67c31dd832c317795e2c04de13d6c01b85f2".
Definition httpStatusOK : Z := 200.
Definition repetitionCount : nat := 3.

(** The proof of an operation, less the constants that only name the protocol. *)
Record protocolProof := ProtocolProof {
  DidResume : bool; ResponseStatus : Z; CapsuleProtocol : string; DatagramsEnabled : bool;
  TunnelEstablished : bool; ProxyRole : string; TargetRole : string; ObservedRemoteAddress : string;
  DatagramCount : Z; PayloadBytesPerDatagram : Z; PayloadSetSHA256 : string; EchoedDatagramCount : Z;
  EchoedPayloadSetSHA256 : string; OrderedEcho : bool; LostDatagrams : Z; CleanCompletion : bool
}.
Record operationResult := OperationResult {
  Proof : protocolProof; TunnelLatencyMS : float64; DatagramLatenciesMS : list float64; TransferredBytes : Z
}.

(** What an exchange of a datagram meets: its deadline, the write, what the read puts into
    the buffer, and the time from the write to the read. *)
Record datagramTurn := DatagramTurn {
  g_deadline : option goerror; g_write : option goerror; g_read : res bytes; g_latency : float64
}.
(** The state of the QUIC connection: TLS, and the two sides of the datagram extension. *)
Record quicState := QuicState { q_tls : connState; q_local : bool; q_remote : bool }.
(** What a dialled tunnel is known by; [d_state] is what the closure kept of the connection. *)
Record tunnel := Tunnel {
  d_status : Z; d_headers : httpHeader; d_state : option quicState; d_remote : string
}.
(** What an operation meets: the URI template, the request, the dial and its time, and the
    exchanges of the datagrams. *)
Record operationEnv := OperationEnv {
  o_template : option goerror; o_request : option goerror; o_dial : res tunnel; o_tunnelLatency : float64;
  o_turns : list datagramTurn
}.

(** The gates on a dialled tunnel. *)
Definition checkTunnel (t : tunnel) : res quicState :=
  guard d_status t =? httpStatusOK else EMsg ("unexpected CONNECT-UDP status " +:+ pretty (d_status t)) in
  match d_state t with
  | None => Err (EMsg "QUIC connection proof unavailable")
  | Some state =>
      let tls := q_tls state in
      guard (cs_version tls =? VersionTLS13) && String.eqb (cs_protocol tls) "h3" else protocolSubstitution tls in
      guard q_local state && q_remote state else EMsg "HTTP/3 datagram support not negotiated" in
      match cs_peer tls with
      | [leaf] =>
          guard String.eqb (hash (cert_raw leaf)) certificateDERSHA256
                && String.eqb (hash (cert_spki leaf)) certificateSPKISHA256
            else EMsg "certificate identity mismatch" in
          let proxyRole := header_get (d_headers t) "x-protocollab-proxy-role" in
          let targetRole := header_get (d_headers t) "x-protocollab-target-role" in
          guard negb (String.eqb proxyRole "") && String.eqb targetRole targetAuthority
            else EMsg ("role proof mismatch: proxy=" +:+ go_quote proxyRole +:+ " target=" +:+ go_quote targetRole) in
          Ok state
      | peers => Err (EMsg ("expected one peer certificate, observed " +:+ pretty (len peers)))
      end
  end.

Definition exchangeDatagram (index : Z) (payload : bytes) (t : datagramTurn) : res (float64 * bytes) :=
  match g_deadline t, g_write t, g_read t with
  | Some err, _, _ => Err err
  | None, Some err, _ => Err (EWrap (datagramError index "write failed") err)
  | None, None, Err err => Err (EWrap (datagramError index "read failed") err)
  | None, None, Ok data =>
      guard (len data =? len payload) && bool_decide (payload = data)
        else EMsg (datagramError index "exact echo mismatch") in
      Ok (g_latency t, data)
  end.

(** The deadline of the tunnel, [os.ErrDeadlineExceeded]. *)
Definition tunnelDeadline : goerror := ENet true "i/o timeout".

Definition runOperation (env : operationEnv) (payloads : list bytes) : res operationResult :=
  match o_template env, o_request env with
  | Some err, _ | None, Some err => Err err
  | None, None =>
      let? t := o_dial env in
      let? state := checkTunnel t in
      let? exchanged := exchangeDatagrams exchangeDatagram tunnelDeadline 0 payloads (o_turns env) [] [] in
      let '(latencies, receivedPayloads) := exchanged in
      let observedHash := hashPayloadSet receivedPayloads in
      guard String.eqb observedHash payloadSetSHA256 else EMsg "echoed datagram payload-set hash mismatch" in
      Ok (OperationResult
            (ProtocolProof (cs_resumed (q_tls state)) (d_status t) (header_get (d_headers t) "capsule-protocol") true
               true (header_get (d_headers t) "x-protocollab-proxy-role") (header_get (d_headers t) "x-protocollab-target-role")
               (d_remote t) (len payloads) payloadBytesPerDatagram payloadSetSHA256 (len receivedPayloads)
               observedHash true 0 true)
            (o_tunnelLatency env) latencies (len payloads * payloadBytesPerDatagram * 2))
  end.

(** ** Loads *)

Record summary := Summary {
  DurationSeconds : float64; CompletedOperations : Z; FailedOperations : Z; TimedOutOperations : Z;
  SentDatagrams : Z; ReceivedDatagrams : Z; TotalTransferredBytes : Z;
  TunnelLatencies : list float64; DatagramLatencies : list float64; Last : option operationResult;
  Errors : gmap string Z
}.
Definition newSummary : summary := Summary f_zero 0 0 0 0 0 0 [] [] None ∅.

Definition isTimeout (err : goerror) : bool := errors_is EDeadline err || is_net_timeout err.

(** One turn of [runFor]. *)
Definition runTurn (payloads : list bytes) (s : summary) (env : operationEnv) : summary :=
  let '(Summary d ok f t sent received b tl dl p e) := s in
  match runOperation env payloads with
  | Err err =>
      let e := bump (error_string err) e in
      if isTimeout err then Summary d ok f (t + 1) sent received b tl dl p e
      else Summary d ok (f + 1) t sent received b tl dl p e
  | Ok op =>
      Summary d (ok + 1) f t (sent + datagramCount) (received + EchoedDatagramCount (Proof op))
        (b + TransferredBytes op) (tl ++ [TunnelLatencyMS op]) (dl ++ DatagramLatenciesMS op) (Some op) e
  end.
Definition set_duration (seconds : float64) (s : summary) : summary :=
  let '(Summary _ ok f t sent received b tl dl p e) := s in Summary seconds ok f t sent received b tl dl p e.
(** [runFor] over the operations that began in time, and how long it took. *)
Definition runFor (payloads : list bytes) (phase : list operationEnv * float64) : summary :=
  set_duration phase.2 (fold_left (runTurn payloads) phase.1 newSummary).

Definition sum (values : list float64) : float64 := fold_left fadd values f_zero.
Definition summaryFromOperation (op : operationResult) : summary :=
  let duration := fdiv (fadd (TunnelLatencyMS op) (sum (DatagramLatenciesMS op))) (f_of_Z 1000) in
  let duration := if SFleb duration f_zero then f_ratio 1 1000 else duration in
  Summary duration 1 0 0 datagramCount datagramCount (TransferredBytes op) [TunnelLatencyMS op]
    (DatagramLatenciesMS op) (Some op) ∅.

Definition mergeSummary (target source : summary) : summary :=
  Summary (fadd (DurationSeconds target) (DurationSeconds source))
    (CompletedOperations target + CompletedOperations source) (FailedOperations target + FailedOperations source)
    (TimedOutOperations target + TimedOutOperations source) (SentDatagrams target + SentDatagrams source)
    (ReceivedDatagrams target + ReceivedDatagrams source) (TotalTransferredBytes target + TotalTransferredBytes source)
    (TunnelLatencies target ++ TunnelLatencies source) (DatagramLatencies target ++ DatagramLatencies source)
    (match Last source with Some op => Some op | None => Last target end)
    (union_with (fun x y => Some (x + y)) (Errors target) (Errors source)).

(** ** Metrics and the result *)

Record metrics := Metrics {
  tunnelsPerSecond : float64; datagramsPerSecond : float64; bytesPerSecond : float64;
  tunnelLatency : list float64;        (* mean, 50th, 95th and 99th percentile *)
  datagramLatency : list float64;      (* mean, 50th, 75th, 90th, 95th and 99th percentile *)
  completedOperations : Z; failedOperations : Z; timedOutOperations : Z;
  sentDatagrams : Z; receivedDatagrams : Z; lostDatagrams : Z; totalTransferredBytes : Z
}.
Definition metricsForSummary (s : summary) : metrics :=
  let duration := if SFleb (DurationSeconds s) f_zero then f_of_Z 1 else DurationSeconds s in
  let quantiles l qs := mean l :: ((fun q => percentile l (f_ratio q 100)) <$> qs) in
  Metrics (fdiv (f_of_Z (CompletedOperations s)) duration) (fdiv (f_of_Z (ReceivedDatagrams s)) duration)
    (fdiv (f_of_Z (TotalTransferredBytes s)) duration)
    (quantiles (TunnelLatencies s) [50; 95; 99]) (quantiles (DatagramLatencies s) [50; 75; 90; 95; 99])
    (CompletedOperations s) (FailedOperations s) (TimedOutOperations s)
    (SentDatagrams s) (ReceivedDatagrams s) (SentDatagrams s - ReceivedDatagrams s) (TotalTransferredBytes s).

(** The result, less its constants. *)
Record loadResult := LoadResult {
  RProof : protocolProof; RRepetitions : list (Z * summary * metrics); RMetrics : metrics
}.

Inductive document :=
| Identity | LoadGenerator
| Unsupported (scenario : string)
| Failed (message : string)
| Validation | ProofDocument (p : protocolProof) | OperationDocument (op : operationResult)
| DatagramHash (observed : string)
| WarmupSummary (s : summary) | RepetitionSummaries (l : list summary) | LoadSummary (s : summary)
| ResultDocument (r : loadResult).

Definition writeIdentity : list (string * document) :=
  [("executor-identity.json", Identity); ("load-generator-identity.json", LoadGenerator)].
Definition writeFailure (err : goerror) : list (string * document) :=
  [("validation.json", Failed (error_string err)); ("result.json", Failed (error_string err))] ++ writeIdentity.
Definition emitUnsupported (id : string) : list (string * document) :=
  [("unsupported.json", Unsupported id); ("result.json", Unsupported id)] ++ writeIdentity.
Definition writeProofArtifacts (op : operationResult) : list (string * document) :=
  [("validation.json", Validation); ("protocol-proof.json", ProofDocument (Proof op));
   ("masque-summary.json", OperationDocument op);
   ("datagram-hash.json", DatagramHash (EchoedPayloadSetSHA256 (Proof op)))].
(** The summary's last operation is dereferenced: [None] when there is none. *)
Definition writeResult (repetitions : list summary) (combined : summary) : option (list (string * document)) :=
  let metrics := metricsForSummary combined in
  let repetitionResults := imap (fun i r => (Z.of_nat i + 1, r, metricsForSummary r)) repetitions in
  match Last combined with
  | None => None
  | Some op =>
      let result := LoadResult (Proof op) repetitionResults metrics in
      Some [("masque-load-summary.json", LoadSummary combined); ("masque-executor-result.json", ResultDocument result);
            ("result.json", ResultDocument result)]
  end.

(** ** [main] *)

(** What a run meets; the operations of a phase are those that began in time. *)
Record mainEnv := MainEnv {
  m_getenv : string -> string; m_target : string; m_parse : string -> res targetURL; m_roots : option goerror;
  m_validationOnly : bool; m_showVersion : bool; m_mkdir : option goerror; m_disk : string -> option goerror;
  m_preflight : operationEnv; m_warmup : list operationEnv * float64;
  m_repetitions : nat -> list operationEnv * float64
}.

Definition unclean (s : summary) : bool :=
  (CompletedOperations s =? 0) || negb (FailedOperations s =? 0) || negb (TimedOutOperations s =? 0).

(** The loop over the repetitions: [n] more from [repetition] on. *)
Fixpoint repetitionLoop (env : mainEnv) (payloads : list bytes) (n repetition : nat)
    (repetitions : list summary) (combined : summary) : res (list summary * summary) :=
  match n with
  | O => Ok (repetitions, combined)
  | S n =>
      let measured := runFor payloads (m_repetitions env repetition) in
      if unclean measured || negb (SentDatagrams measured =? ReceivedDatagrams measured)
      then Err (EMsg ("repetition " +:+ pretty (Z.of_nat repetition + 1) +:+ " did not complete cleanly"))
      else repetitionLoop env payloads n (S repetition) (repetitions ++ [measured]) (mergeSummary combined measured)
  end.

(** The end of a run that has a result to write. *)
Definition finish (documents : list (string * document)) (repetitions : list summary) (combined : summary)
    : list (string * document) * ending :=
  match writeResult repetitions combined with
  | Some result => (documents ++ result, Exited 0)
  | None => (documents, Panicked)
  end.

(** What [main] does once its options are accepted: the documents in order, and its end. *)
Definition execute (env : mainEnv) : list (string * document) * ending :=
  let payloads := makePayloadSet in
  let fail documents err := (documents ++ writeFailure err, Exited 1) in
  match runOperation (m_preflight env) payloads with
  | Err err => fail writeIdentity err
  | Ok preflight =>
      if m_validationOnly env then
        let measured := summaryFromOperation preflight in
        finish (writeIdentity ++ writeProofArtifacts preflight) [measured] measured
      else
        let warmup := runFor payloads (m_warmup env) in
        let documents := writeIdentity ++ [("masque-warmup-summary.json", WarmupSummary warmup)] in
        let run := if unclean warmup then Err (EMsg "warmup did not complete cleanly")
                   else repetitionLoop env payloads repetitionCount 0 [] newSummary in
        match run with
        | Err err => fail documents err
        | Ok (repetitions, combined) =>
            finish (documents ++ writeProofArtifacts preflight
                      ++ [("masque-repetitions.json", RepetitionSummaries repetitions)]) repetitions combined
        end
  end.

(** How the program ends, and the documents it has written. *)
Definition main (env : mainEnv) : ending * list (string * document) :=
  let getenv := m_getenv env in
  if m_showVersion env then (Exited 0, []) else
  if negb (forallb (fun '(n, v) => verifySubstitution getenv n v)
       [("PLAB_EXECUTOR_ID", "go-masque-connect-udp-executor"); ("PLAB_EXECUTOR_VERSION", "0.1.1");
        ("PLAB_LOAD_GENERATOR_ID", "masque-go-load"); ("PLAB_LOAD_GENERATOR_VERSION", "0.1.0");
        ("PLAB_PROTOCOL", "masque"); ("PLAB_PROTOCOL_VARIANT", "masque-connect-udp-over-h3");
        ("PLAB_LOAD_PROFILE_ID", "masque-connect-udp-comparison")]) then (Exited 2, []) else
  let id := env_value getenv "PLAB_SCENARIO_ID" in
  if negb (String.eqb id "") && negb (String.eqb id scenarioID) then
    commit (m_disk env) (emitUnsupported id) (Exited 3)
  else if bool_decide (m_mkdir env <> None) then (Exited 1, []) else
  match normalizeTarget proxyAuthority pathTemplate (m_parse env) (m_target env), m_roots env with
  | Err _, _ | Ok _, Some _ => (Exited 2, [])
  | Ok _, None => let '(documents, e) := execute env in commit (m_disk env) documents e
  end.
