(* ===== verification/MasqueProps.v ===== *)
(** Theorems on the CONNECT-UDP packages: the tunnel of the executor through the proxy to its
    target, what an accepted operation and an exit code 0 imply, and what loads count. *)
From S2P Require Export Masque.
From S2P Require Import Certificates.

(** ** Operations *)

Lemma exchangeDatagram_ok i p t l d : exchangeDatagram i p t = Ok (l, d) ->
  d = p /\ g_deadline t = None /\ g_write t = None /\ g_read t = Ok p /\ l = g_latency t.
Proof.
  unfold exchangeDatagram. destruct (g_deadline t); [discriminate|]. destruct (g_write t); [discriminate|].
  destruct (g_read t) as [data|]; [|discriminate]. destruct (len data =? len p); [|discriminate].
  cbn [andb]. case_bool_decide as H; [|discriminate]. intros [= <- <-]. by subst.
Qed.

(** What the gates on a tunnel let pass. *)
Definition proven (t : tunnel) (state : quicState) : Prop :=
  d_status t = 200 /\ d_state t = Some state /\
  cs_version (q_tls state) = VersionTLS13 /\ cs_protocol (q_tls state) = "h3" /\
  q_local state = true /\ q_remote state = true /\
  (exists leaf, cs_peer (q_tls state) = [leaf] /\ hash (cert_raw leaf) = certificateDERSHA256 /\
                hash (cert_spki leaf) = certificateSPKISHA256) /\
  header_get (d_headers t) "x-protocollab-proxy-role" <> "" /\
  header_get (d_headers t) "x-protocollab-target-role" = targetAuthority.

Lemma checkTunnel_ok t state : checkTunnel t = Ok state <-> proven t state.
Proof.
  unfold checkTunnel, proven. split.
  - destruct (d_status t =? httpStatusOK) eqn:E1; [|discriminate]. apply Z.eqb_eq in E1.
    destruct (d_state t) as [s|]; [|discriminate].
    destruct (cs_version (q_tls s) =? VersionTLS13) eqn:E2; [|discriminate]. apply Z.eqb_eq in E2.
    destruct (String.eqb_spec (cs_protocol (q_tls s)) "h3") as [E3|]; [|discriminate]. cbn [andb].
    destruct (q_local s) eqn:E4, (q_remote s) eqn:E5; try discriminate. cbn [andb].
    destruct (cs_peer (q_tls s)) as [|leaf [|]] eqn:E6; try discriminate.
    destruct (String.eqb_spec (hash (cert_raw leaf)) certificateDERSHA256) as [E7|]; [|discriminate].
    destruct (String.eqb_spec (hash (cert_spki leaf)) certificateSPKISHA256) as [E8|]; [|discriminate]. cbn [andb].
    destruct (String.eqb_spec (header_get (d_headers t) "x-protocollab-proxy-role") "") as [|E9]; [discriminate|].
    destruct (String.eqb_spec (header_get (d_headers t) "x-protocollab-target-role") targetAuthority) as [E10|]; [|discriminate].
    cbn [andb negb]. intros [= <-]. repeat (split; [done|]). split; [by exists leaf|]. by split.
  - intros (-> & -> & E2 & E3 & E4 & E5 & (leaf & E6 & E7 & E8) & E9 & E10).
    rewrite E2, E3, E4, E5, E6, E7, E8, E10, !String.eqb_refl. apply String.eqb_neq in E9. by rewrite E9.
Qed.

(** What an accepted operation met: a proven tunnel, on which every datagram was written and
    read back in its turn. *)
Record genuine (env : operationEnv) (op : operationResult) : Prop := {
  ge_tunnel : exists t state, o_dial env = Ok t /\ proven t state /\
    ResponseStatus (Proof op) = 200 /\ DidResume (Proof op) = cs_resumed (q_tls state) /\
    ProxyRole (Proof op) = header_get (d_headers t) "x-protocollab-proxy-role" /\
    TargetRole (Proof op) = targetAuthority;
  ge_turns : forall i, 0 <= i < datagramCount -> exists t, o_turns env !! Z.to_nat i = Some t /\
    g_deadline t = None /\ g_write t = None /\ g_read t = Ok (makeDatagramPayload i);
  ge_echoed : EchoedDatagramCount (Proof op) = datagramCount;
  ge_digest : EchoedPayloadSetSHA256 (Proof op) = payloadSetSHA256;
  ge_latencies : len (DatagramLatenciesMS op) = datagramCount;
  ge_bytes : TransferredBytes op = 16384
}.

Lemma runOperation_genuine env op : runOperation env makePayloadSet = Ok op -> genuine env op.
Proof.
  unfold runOperation. destruct (o_template env); [discriminate|]. destruct (o_request env); [discriminate|].
  destruct (o_dial env) as [t|] eqn:Ed; [|discriminate]. cbn [res_bind].
  destruct (checkTunnel t) as [state|] eqn:Ec; [|discriminate]. cbn [res_bind]. apply checkTunnel_ok in Ec.
  destruct (exchangeDatagrams _ _ _ _ _ _ _) as [[ls rs]|] eqn:Ex; [|discriminate]. cbn [res_bind].
  pose proof (exchangeDatagrams_turns _ _ _ _ _ _ _ _ Ex) as Ht.
  apply exchangeDatagrams_sound in Ex as [-> Hl]; [|intros i p t' l d H; by apply exchangeDatagram_ok in H as [-> _]].
  cbn [app] in *. destruct (String.eqb (hashPayloadSet makePayloadSet) payloadSetSHA256) eqn:Eh; [|discriminate].
  apply String.eqb_eq in Eh. intros [= <-]. destruct Ec as (Hs & Hrest). split; cbn [Proof EchoedDatagramCount
    EchoedPayloadSetSHA256 DatagramLatenciesMS TransferredBytes ResponseStatus DidResume ProxyRole TargetRole].
  - exists t, state. split; [exact Ed|]. split; [by split|]. split; [exact Hs|]. split; [reflexivity|].
    split; [reflexivity|]. apply Hrest.
  - intros i Hi. destruct (Ht (Z.to_nat i) (makeDatagramPayload i)) as (t' & [l d] & H1 & H2).
    { by apply payloadSet_at. }
    apply exchangeDatagram_ok in H2 as (_ & H2 & H3 & H4 & _).
    exists t'. split; [exact H1|]. split; [exact H2|]. split; [exact H3|exact H4].
  - reflexivity.
  - exact Eh.
  - unfold len. rewrite Hl. reflexivity.
  - reflexivity.
Qed.

(** ** The target and the proxy *)

(** The target answers each datagram on its own. *)
Lemma serveEcho_app input more :
  Forall (fun x => exists d, x.1 = Ok d) input ->
  Server.serveEcho (input ++ more) = Server.serveEcho input ++ Server.serveEcho more.
Proof.
  induction 1 as [|[[[peer d]|err] fault] input [d' Hd] _ IH]; [reflexivity| |discriminate Hd].
  cbn [app Server.serveEcho]. destruct (negb _); [by rewrite IH|]. destruct fault; by rewrite IH.
Qed.

Lemma serveEcho_exact peer payloads :
  Forall (fun p => len p = 256) payloads ->
  Server.serveEcho ((fun p => (Ok (peer, p), None)) <$> payloads) = (fun p => Server.Echoed peer p) <$> payloads.
Proof.
  induction 1 as [|p payloads Hp _ IH]; [reflexivity|]. cbn [fmap list_fmap]. cbn [Server.serveEcho].
  rewrite take_ge by (unfold len in Hp; lia). rewrite Hp. cbn [Z.eqb negb Pos.eqb]. by rewrite IH.
Qed.

(** What the target echoes it received, octet for octet, and it is a datagram of 256 octets. *)
Lemma serveEcho_sound input peer d : Server.Echoed peer d ∈ Server.serveEcho input ->
  len d = 256 /\ exists fault, (Ok (peer, d), fault) ∈ input.
Proof.
  induction input as [|[[[q x]|err] fault] input IH]; cbn [Server.serveEcho]; intros H; try by apply not_elem_of_nil in H.
  assert (Hin : Server.Echoed peer d ∈ Server.serveEcho input -> len d = 256 /\ exists fault', (Ok (peer, d), fault') ∈ (Ok (q, x), fault) :: input).
  { intros H'. destruct (IH H') as [H1 [f H2]]. split; [exact H1|]. exists f. by apply list_elem_of_further. }
  destruct (len (take 1500 x) =? 256) eqn:E; cbn [negb] in H.
  - apply Z.eqb_eq in E. destruct fault as [e|].
    + apply elem_of_cons in H as [H|H]; [discriminate H|auto].
    + apply elem_of_cons in H as [H|H]; [|auto]. injection H as -> ->.
      assert (Hx : take 1500 x = x) by (apply take_ge; unfold len in E; rewrite length_take in E; lia).
      rewrite Hx in E. rewrite Hx. split; [exact E|]. exists None. apply list_elem_of_here.
  - apply elem_of_cons in H as [H|H]; [discriminate H|auto].
Qed.

(** What the executor reads after each datagram when the target's answers reach it in
    order: a rejected datagram is never answered. *)
Definition answerTurn (answer : Server.echoed) (latency : float64) : datagramTurn :=
  DatagramTurn None None (match answer with Server.Echoed _ d => Ok d | Server.Dropped _ => Err tunnelDeadline end) latency.
Definition answers (peer : string) (payloads : list bytes) (latencies : list float64) : list datagramTurn :=
  zip_with answerTurn (Server.serveEcho ((fun p => (Ok (peer, p), None)) <$> payloads)) latencies.

(** The tunnel the proxy opens on a connection for a request that names the target. *)
Definition opened (h : Server.handled) (q : quicState) (remote : string) : tunnel :=
  match h with
  | Server.Refused status => Tunnel status [] (Some q) remote
  | Server.Forwarded headers _ => Tunnel 200 headers (Some q) remote
  end.

Lemma opened_proven target q remote leaf :
  equal_fold target targetAuthority = true ->
  cs_version (q_tls q) = VersionTLS13 -> cs_protocol (q_tls q) = "h3" -> q_local q = true -> q_remote q = true ->
  cs_peer (q_tls q) = [leaf] -> hash (cert_raw leaf) = certificateDERSHA256 -> hash (cert_spki leaf) = certificateSPKISHA256 ->
  proven (opened (Server.handler (inr target)) q remote) q.
Proof.
  intros Ht H1 H2 H3 H4 H5 H6 H7. unfold Server.handler. rewrite Ht. cbn [negb opened].
  repeat (split; [first [reflexivity | assumption]|]). split; [by exists leaf|]. by split.
Qed.

Lemma payloadSet_lengths : Forall (fun p => len p = 256) makePayloadSet.
Proof. apply Forall_lookup. intros i p H. apply payloadSet_lookup in H as [-> _]. apply length_payload. Qed.

Lemma exchange_answered peer latencies : length latencies = 32%nat ->
  exchangeDatagrams exchangeDatagram tunnelDeadline 0 makePayloadSet (answers peer makePayloadSet latencies) [] []
  = Ok (latencies, makePayloadSet).
Proof.
  intros Hl. unfold answers. rewrite serveEcho_exact by apply payloadSet_lengths.
  rewrite (exchangeDatagrams_complete _ _ _ _ latencies); [reflexivity|by rewrite Hl| |].
  - intros i p t l Hp Ht Hlat. rewrite lookup_zip_with, list_lookup_fmap, Hp, Hlat in Ht. cbn in Ht.
    injection Ht as <-. unfold exchangeDatagram. cbn [g_deadline g_write g_read answerTurn g_latency].
    rewrite Z.eqb_refl, bool_decide_eq_true_2 by reflexivity. reflexivity.
  - rewrite length_zip_with, length_fmap, Hl. reflexivity.
Qed.

Lemma runOperation_answered env t state latencies :
  o_template env = None -> o_request env = None -> o_dial env = Ok t -> proven t state ->
  exchangeDatagrams exchangeDatagram tunnelDeadline 0 makePayloadSet (o_turns env) [] [] = Ok (latencies, makePayloadSet) ->
  exists op, runOperation env makePayloadSet = Ok op /\ DatagramLatenciesMS op = latencies.
Proof.
  intros H1 H2 H3 H4 H5. apply checkTunnel_ok in H4. unfold runOperation. rewrite H1, H2, H3. cbn [res_bind].
  rewrite H4. cbn [res_bind]. rewrite H5. cbn [res_bind]. rewrite payloadSet_digest, String.eqb_refl.
  eexists. split; reflexivity.
Qed.

(** C28: Through the proxy of masque-go-connect-udp to its echo target, over TLS 1.3 with the
    proxy's certificate and with the target's answers read in order, the executor's operation
    succeeds: it is genuine, reports the proxy's role, and times every datagram. *)
Theorem masque_tunnel_completes target q remote leaf peer latencies env :
  equal_fold target targetAuthority = true ->
  cs_version (q_tls q) = VersionTLS13 -> cs_protocol (q_tls q) = "h3" -> q_local q = true -> q_remote q = true ->
  cs_peer (q_tls q) = [leaf] -> hash (cert_raw leaf) = certificateDERSHA256 -> hash (cert_spki leaf) = certificateSPKISHA256 ->
  o_template env = None -> o_request env = None ->
  o_dial env = Ok (opened (Server.handler (inr target)) q remote) ->
  length latencies = 32%nat -> o_turns env = answers peer makePayloadSet latencies ->
  exists op, runOperation env makePayloadSet = Ok op /\ genuine env op /\ DatagramLatenciesMS op = latencies /\
    ProxyRole (Proof op) = "masque-go-connect-udp".
Proof.
  intros Ht H1 H2 H3 H4 H5 H6 H7 H8 H9 Hd Hl Hturns.
  pose proof (opened_proven target q remote leaf Ht H1 H2 H3 H4 H5 H6 H7) as Hp.
  destruct (runOperation_answered env _ _ latencies H8 H9 Hd Hp) as (op & Hop & Hls).
  { rewrite Hturns. by apply exchange_answered. }
  exists op. split; [exact Hop|]. apply runOperation_genuine in Hop. split; [exact Hop|]. split; [exact Hls|].
  destruct (ge_tunnel _ _ Hop) as (t & s & Hdial & _ & _ & _ & -> & _). rewrite Hd in Hdial. injection Hdial as <-.
  unfold Server.handler. rewrite Ht. reflexivity.
Qed.

Definition exampleLeaf : certificate := Certificate masque_server_der masque_server_spki "ECDSA-SHA256" "ECDSA" "P-256".
Definition exampleQuic : quicState := QuicState (ConnState VersionTLS13 0x1301 29 "h3" true false 1 [exampleLeaf]) true true.
Definition exampleTunnel : tunnel :=
  opened (Server.handler (inr "MASQUE-echo.plab.test:4433")) exampleQuic "127.0.0.1:4433".
Definition exampleOperation : operationEnv :=
  OperationEnv None None (Ok exampleTunnel)
    f_zero (answers "127.0.0.1:50000" makePayloadSet (replicate 32 f_zero)).

Lemma masque_tunnel_completes_witness : exists op, runOperation exampleOperation makePayloadSet = Ok op.
Proof.
  destruct (masque_tunnel_completes "MASQUE-echo.plab.test:4433" exampleQuic "127.0.0.1:4433" exampleLeaf "127.0.0.1:50000"
              (replicate 32 f_zero) exampleOperation) as [op [H _]];
    [vm_compute; reflexivity..|]. exists op. exact H.
Defined.

(** When the answers read are datagrams of the set, in whatever order and number of
    repetitions the network delivers them, the operation succeeds exactly when they come in
    the order in which the datagrams were sent: a late, repeated or swapped echo is an error. *)
Theorem echo_order_decides env t state latency js :
  o_template env = None -> o_request env = None -> o_dial env = Ok t -> proven t state ->
  length js = 32%nat -> Forall (fun j => 0 <= j < datagramCount) js ->
  o_turns env = (fun j => DatagramTurn None None (Ok (makeDatagramPayload j)) latency) <$> js ->
  is_ok (runOperation env makePayloadSet) = true <-> js = seqZ 0 datagramCount.
Proof.
  intros H1 H2 H3 H4 Hl Hjs Ht. split.
  - destruct (runOperation env makePayloadSet) as [op|] eqn:E; [|discriminate]. intros _. apply runOperation_genuine in E.
    apply list_eq_same_length with 32%nat; [by rewrite length_seqZ|exact Hl|]. intros i x y Hi Hx Hy.
    rewrite lookup_seqZ in Hy. destruct Hy as [-> Hy]. destruct (ge_turns _ _ E (Z.of_nat i)) as (u & Hu & _ & _ & Hr).
    { unfold datagramCount. lia. }
    rewrite Nat2Z.id, Ht, list_lookup_fmap, Hx in Hu. injection Hu as <-. cbn [g_read] in Hr. apply (inj Ok) in Hr.
    apply payload_inj in Hr; [lia| |unfold datagramCount; lia]. exact (proj1 (Forall_lookup _ _) Hjs i x Hx).
  - intros ->. destruct (runOperation_answered env t state (replicate 32 latency) H1 H2 H3 H4) as (op & -> & _); [|reflexivity].
    rewrite Ht. rewrite (exchangeDatagrams_complete _ _ _ _ (replicate 32 latency)); [reflexivity|reflexivity| |reflexivity].
    intros i p u l Hp Hu Hlat. rewrite list_lookup_fmap in Hu. apply fmap_Some in Hu as (j & Hj & ->).
    apply lookup_seqZ in Hj as [-> _]. apply lookup_replicate in Hlat as [-> _]. apply payloadSet_lookup in Hp as [-> _].
    unfold exchangeDatagram. cbn [g_deadline g_write g_read g_latency]. rewrite Z.eqb_refl, bool_decide_eq_true_2 by reflexivity.
    reflexivity.
Qed.

Lemma echo_order_decides_witness :
  exists env, is_ok (runOperation env makePayloadSet) = false /\ length (o_turns env) = 32%nat.
Proof.
  pose (js := [1; 0] ++ seqZ 2 30).
  exists (OperationEnv None None (Ok exampleTunnel) f_zero
            ((fun j => DatagramTurn None None (Ok (makeDatagramPayload j)) f_zero) <$> js)).
  split; [|reflexivity].
  destruct (is_ok _) eqn:E; [|reflexivity]. exfalso.
  apply (echo_order_decides _ exampleTunnel exampleQuic f_zero js) in E;
    [|reflexivity|reflexivity|reflexivity| |reflexivity| |reflexivity].
  - discriminate E.
  - apply checkTunnel_ok. vm_compute. reflexivity.
  - apply (bool_decide_unpack _). vm_compute. exact I.
Defined.

(** ** Loads *)

Definition succeeds (env : operationEnv) : bool := is_ok (runOperation env makePayloadSet).
Definition failsWith (message : string) (env : operationEnv) : bool :=
  match runOperation env makePayloadSet with Ok _ => false | Err err => String.eqb (error_string err) message end.

(** A summary that accounts for the operations [envs], each once. *)
Record accounts (envs : list operationEnv) (s : summary) : Prop := {
  ac_completed : CompletedOperations s = len (List.filter succeeds envs);
  ac_operations : CompletedOperations s + FailedOperations s + TimedOutOperations s = len envs;
  ac_failed : 0 <= FailedOperations s /\ 0 <= TimedOutOperations s;
  ac_sent : SentDatagrams s = datagramCount * CompletedOperations s;
  ac_received : ReceivedDatagrams s = datagramCount * CompletedOperations s;
  ac_bytes : TotalTransferredBytes s = 16384 * CompletedOperations s;
  ac_tunnels : len (TunnelLatencies s) = CompletedOperations s;
  ac_datagrams : len (DatagramLatencies s) = datagramCount * CompletedOperations s;
  ac_last : Ok <$> Last s = last ((fun env => runOperation env makePayloadSet) <$> List.filter succeeds envs);
  ac_errors : forall message, default 0 (Errors s !! message) = len (List.filter (failsWith message) envs)
}.

Lemma accounts_new : accounts [] newSummary.
Proof. split; reflexivity || (split; cbn; lia) || (intros m; cbn; by rewrite lookup_empty). Qed.

Lemma accounts_turn envs s env : accounts envs s -> accounts (envs ++ [env]) (runTurn makePayloadSet s env).
Proof.
  intros [H1 H2 H3 H4 H5 H6 H7 H8 H9 H10]. destruct s as [d ok f t sent received b tl dl p e]. unfold runTurn.
  cbn [CompletedOperations FailedOperations TimedOutOperations SentDatagrams ReceivedDatagrams TotalTransferredBytes
    TunnelLatencies DatagramLatencies Last Errors] in *.
  assert (Hs : List.filter succeeds (envs ++ [env]) = List.filter succeeds envs ++ (if succeeds env then [env] else []))
    by apply filter_snoc.
  assert (Hf : forall m, len (List.filter (failsWith m) (envs ++ [env]))
                 = len (List.filter (failsWith m) envs) + (if failsWith m env then 1 else 0)).
  { intros m. rewrite filter_snoc, len_app. destruct (failsWith m env); reflexivity. }
  unfold succeeds at 3 in Hs. unfold failsWith at 3 in Hf.
  destruct (runOperation env makePayloadSet) as [op|err] eqn:E; cbn [is_ok] in Hs.
  - apply runOperation_genuine in E as G. destruct G as [_ _ G1 _ G2 G3].
    split; cbn [CompletedOperations FailedOperations TimedOutOperations SentDatagrams ReceivedDatagrams TotalTransferredBytes
      TunnelLatencies DatagramLatencies Last Errors]; rewrite ?Hs, ?len_app, ?G1, ?G2, ?G3; change (len [env]) with 1;
      change (len [TunnelLatencyMS op]) with 1; unfold datagramCount in *; try lia.
    + rewrite fmap_app, last_app. cbn [fmap list_fmap last]. by rewrite E.
    + intros m. rewrite Hf, H10. lia.
  - rewrite app_nil_r in Hs.
    assert (He : forall m, default 0 (bump (error_string err) e !! m) = len (List.filter (failsWith m) (envs ++ [env])))
      by (intros m; by rewrite bump_lookup, Hf, H10).
    destruct (isTimeout err); split; cbn [CompletedOperations FailedOperations TimedOutOperations SentDatagrams
      ReceivedDatagrams TotalTransferredBytes TunnelLatencies DatagramLatencies Last Errors]; rewrite ?Hs, ?len_app;
      change (len [env]) with 1; first [exact He | exact H9 | lia].
Qed.

Lemma runFor_accounts phase : accounts phase.1 (runFor makePayloadSet phase).
Proof.
  unfold runFor. assert (H : accounts phase.1 (fold_left (runTurn makePayloadSet) phase.1 newSummary)).
  { generalize phase.1. intros envs. induction envs as [|env envs IH] using rev_ind; [apply accounts_new|].
    rewrite fold_left_app. by apply accounts_turn. }
  destruct (fold_left _ _ _). destruct H. by split.
Qed.

Lemma accounts_merge envs1 envs2 s1 s2 : accounts envs1 s1 -> accounts envs2 s2 -> accounts (envs1 ++ envs2) (mergeSummary s1 s2).
Proof.
  intros [H1 H2 H3 H4 H5 H6 H7 H8 H9 H10] [K1 K2 K3 K4 K5 K6 K7 K8 K9 K10].
  split; cbn [mergeSummary CompletedOperations FailedOperations TimedOutOperations SentDatagrams ReceivedDatagrams
    TotalTransferredBytes TunnelLatencies DatagramLatencies Last Errors]; rewrite ?List.filter_app, ?len_app; try lia.
  - rewrite fmap_app, last_app. destruct (Last s2) as [op|]; cbn in K9.
    + rewrite <-K9. reflexivity.
    + rewrite <-K9. exact H9.
  - intros m. rewrite List.filter_app, len_app, <-H10, <-K10, lookup_union_with.
    destruct (Errors s1 !! m), (Errors s2 !! m); cbn; lia.
Qed.

(** Of a clean load there is an operation, and they all succeeded. *)
Lemma accounts_clean envs s : accounts envs s -> unclean s = false ->
  envs <> [] /\ List.filter succeeds envs = envs /\ exists op, Last s = Some op /\ Some (Ok op) = last ((fun env => runOperation env makePayloadSet) <$> envs).
Proof.
  intros H Hc. unfold unclean in Hc. apply orb_false_iff in Hc as [Hc H3]. apply orb_false_iff in Hc as [H1 H2].
  apply negb_false_iff, Z.eqb_eq in H2, H3. apply Z.eqb_neq in H1.
  assert (Hf : List.filter succeeds envs = envs).
  { pose proof (ac_completed _ _ H) as A. pose proof (ac_operations _ _ H) as B. rewrite H2, H3 in B.
    apply filter_full. lia. }
  pose proof (ac_operations _ _ H) as B. pose proof (ac_last _ _ H) as L. rewrite Hf in L.
  destruct envs as [|env envs]; [unfold len in B; cbn [length] in B; lia|]. split; [discriminate|]. split; [exact Hf|].
  destruct (Last s) as [op|]; [|symmetry in L; apply last_None in L; discriminate L]. exists op. by split.
Qed.

(** ** Runs *)

(** Operations there are, and they all succeeded. *)
Definition clean (envs : list operationEnv) : Prop := envs <> [] /\ List.filter succeeds envs = envs.

Lemma accounts_all envs s : accounts envs s -> clean envs ->
  CompletedOperations s = len envs /\ FailedOperations s = 0 /\ TimedOutOperations s = 0 /\
  exists op, Last s = Some op /\ Some (Ok op) = last ((fun env => runOperation env makePayloadSet) <$> envs).
Proof.
  intros H [Hn Hf]. pose proof (ac_completed _ _ H) as A. pose proof (ac_operations _ _ H) as B.
  pose proof (ac_failed _ _ H) as C. pose proof (ac_last _ _ H) as L. rewrite Hf in A, L.
  split; [exact A|]. split; [lia|]. split; [lia|].
  destruct (Last s) as [op|]; [exists op; by split|]. symmetry in L. apply last_None in L. by destruct envs.
Qed.

Lemma runFor_clean phase : unclean (runFor makePayloadSet phase) = false -> clean phase.1.
Proof. intros H. destruct (accounts_clean _ _ (runFor_accounts phase) H) as (H1 & H2 & _). by split. Qed.

Lemma clean_app envs1 envs2 : clean envs1 -> clean envs2 -> clean (envs1 ++ envs2).
Proof.
  intros [H1 H2] [K1 K2]. split; [by destruct envs1|]. by rewrite List.filter_app, H2, K2.
Qed.

(** The operations of [n] repetitions from the [k]th on. *)
Definition repetitionOperations (env : mainEnv) (k n : nat) : list operationEnv :=
  concat ((fun i => (m_repetitions env i).1) <$> seq k n).

Lemma repetitionLoop_ok env n : forall k reps comb before reps' comb',
  repetitionLoop env makePayloadSet n k reps comb = Ok (reps', comb') -> accounts before comb ->
  accounts (before ++ repetitionOperations env k n) comb' /\
  (forall i, (k <= i < k + n)%nat -> clean (m_repetitions env i).1) /\
  reps' = reps ++ ((fun i => runFor makePayloadSet (m_repetitions env i)) <$> seq k n).
Proof.
  induction n as [|n IH]; intros k reps comb before reps' comb'; cbn [repetitionLoop].
  - intros [= <- <-] H. unfold repetitionOperations. cbn [seq fmap list_fmap concat]. rewrite !app_nil_r.
    split; [exact H|]. split; [lia|reflexivity].
  - destruct (unclean _) eqn:Eu; [discriminate|]. destruct (negb _); [discriminate|]. cbn [orb]. intros H Ha.
    destruct (IH _ _ _ (before ++ (m_repetitions env k).1) _ _ H (accounts_merge _ _ _ _ Ha (runFor_accounts _))) as (K1 & K2 & K3).
    unfold repetitionOperations in *. cbn [seq fmap list_fmap concat]. rewrite <-app_assoc in K1, K3. split; [exact K1|]. split; [|exact K3].
    intros i Hi. destruct (decide (i = k)) as [->|]; [by apply runFor_clean|apply K2; lia].
Qed.

(** What stands behind a result that was written. *)
Record resultEarned (env : mainEnv) (r : loadResult) : Prop := {
  re_preflight : exists preflight, runOperation (m_preflight env) makePayloadSet = Ok preflight /\
    genuine (m_preflight env) preflight /\
    (m_validationOnly env = true -> RProof r = Proof preflight /\ completedOperations (RMetrics r) = 1);
  re_load : m_validationOnly env = false ->
    clean (m_warmup env).1 /\ (forall i, (i < 3)%nat -> clean (m_repetitions env i).1) /\
    (RRepetitions r).*1.*2 = (fun i => runFor makePayloadSet (m_repetitions env i)) <$> [0; 1; 2]%nat /\
    completedOperations (RMetrics r) = len (repetitionOperations env 0 3) /\
    exists op, Some (Ok op) = last ((fun e => runOperation e makePayloadSet) <$> repetitionOperations env 0 3) /\
               RProof r = Proof op;
  re_failures : failedOperations (RMetrics r) = 0 /\ timedOutOperations (RMetrics r) = 0;
  re_datagrams : sentDatagrams (RMetrics r) = datagramCount * completedOperations (RMetrics r) /\
    receivedDatagrams (RMetrics r) = sentDatagrams (RMetrics r) /\ lostDatagrams (RMetrics r) = 0;
  re_bytes : totalTransferredBytes (RMetrics r) = 16384 * completedOperations (RMetrics r)
}.

Lemma finish_ok documents reps comb op : Last comb = Some op ->
  finish documents reps comb =
    (documents ++ [("masque-load-summary.json", LoadSummary comb);
       ("masque-executor-result.json", ResultDocument (LoadResult (Proof op) (imap (fun i r => (Z.of_nat i + 1, r, metricsForSummary r)) reps) (metricsForSummary comb)));
       ("result.json", ResultDocument (LoadResult (Proof op) (imap (fun i r => (Z.of_nat i + 1, r, metricsForSummary r)) reps) (metricsForSummary comb)))],
     Exited 0).
Proof. intros H. unfold finish, writeResult. by rewrite H. Qed.

Definition resultOf (d : document) : option loadResult := match d with ResultDocument r => Some r | _ => None end.
(** No document of the list is a result. *)
Definition noResult (documents : list (string * document)) : bool :=
  forallb (fun d => match resultOf d.2 with Some _ => false | None => true end) documents.
Lemma noResult_none documents : noResult documents = true -> forall name d, (name, d) ∈ documents -> resultOf d = None.
Proof.
  intros H name d Hin. apply list_elem_of_In in Hin. unfold noResult in H. rewrite forallb_forall in H.
  specialize (H _ Hin). cbn [snd] in H. by destruct (resultOf d).
Qed.

(** A result that is written is safe when it is earned. *)
Lemma finish_safe earned documents reps comb op :
  noResult documents = true -> Last comb = Some op ->
  (forall r, RProof r = Proof op -> RMetrics r = metricsForSummary comb -> (RRepetitions r).*1.*2 = reps -> earned r) ->
  safeRun resultOf earned (finish documents reps comb).
Proof.
  intros Hn Hop He. rewrite (finish_ok _ _ _ _ Hop). right. cbn [fst snd]. split; [reflexivity|]. split.
  { do 2 eexists. split; [apply elem_of_app; right; do 2 apply list_elem_of_further; apply list_elem_of_here|reflexivity]. }
  intros name d r Hin Hr. apply elem_of_app in Hin as [Hin|Hin]; [by rewrite (noResult_none _ Hn _ _ Hin) in Hr|].
  assert (Hd : d = LoadSummary comb \/ d = ResultDocument (LoadResult (Proof op)
            (imap (fun i r => (Z.of_nat i + 1, r, metricsForSummary r)) reps) (metricsForSummary comb))).
  { repeat (apply elem_of_cons in Hin as [[= -> ->]|Hin]; [auto|]). by apply not_elem_of_nil in Hin. }
  destruct Hd as [->| ->]; [discriminate Hr|]. injection Hr as <-. apply He; [reflexivity|reflexivity|].
  cbn [RRepetitions]. rewrite <-list_fmap_compose. apply list_eq. intros i. rewrite list_lookup_fmap, list_lookup_imap.
  by destruct (reps !! i).
Qed.

Lemma metrics_accounts envs s : accounts envs s ->
  let m := metricsForSummary s in
  (completedOperations m = CompletedOperations s /\ failedOperations m = FailedOperations s /\ timedOutOperations m = TimedOutOperations s) /\
  (sentDatagrams m = datagramCount * completedOperations m /\ receivedDatagrams m = sentDatagrams m /\ lostDatagrams m = 0) /\
  totalTransferredBytes m = 16384 * completedOperations m.
Proof.
  intros H. cbv zeta. unfold metricsForSummary. cbn [completedOperations failedOperations timedOutOperations sentDatagrams
    receivedDatagrams lostDatagrams totalTransferredBytes].
  rewrite (ac_sent _ _ H), (ac_received _ _ H), (ac_bytes _ _ H). repeat split; lia.
Qed.

Lemma summaryFromOperation_accounts env op : runOperation env makePayloadSet = Ok op -> accounts [env] (summaryFromOperation op).
Proof.
  intros H. assert (Hs : List.filter succeeds [env] = [env]) by (cbn [List.filter]; unfold succeeds; by rewrite H).
  pose proof (runOperation_genuine _ _ H) as G. unfold summaryFromOperation.
  split; cbn [CompletedOperations FailedOperations TimedOutOperations SentDatagrams ReceivedDatagrams TotalTransferredBytes
    TunnelLatencies DatagramLatencies Last Errors]; rewrite ?Hs; try reflexivity; try (split; lia).
  - by rewrite (ge_bytes _ _ G).
  - by rewrite (ge_latencies _ _ G).
  - cbn [fmap list_fmap last option_fmap option_map]. by rewrite H.
  - intros m. cbn [List.filter]. unfold failsWith. rewrite H, lookup_empty. reflexivity.
Qed.

Lemma execute_fails earned documents err : noResult documents = true ->
  safeRun resultOf earned (documents ++ writeFailure err, Exited 1).
Proof.
  intros H. left. exists 1. split; [reflexivity|]. split; [discriminate|]. cbn [fst]. apply noResult_none.
  unfold noResult in *. rewrite forallb_app, H. reflexivity.
Qed.

Lemma execute_validation env preflight :
  m_validationOnly env = true -> runOperation (m_preflight env) makePayloadSet = Ok preflight ->
  safeRun resultOf (resultEarned env) (execute env).
Proof.
  intros Hv Hp. unfold execute. rewrite Hp, Hv.
  pose proof (summaryFromOperation_accounts _ _ Hp) as A. destruct (metrics_accounts _ _ A) as ((M1 & M2 & M3) & M4 & M5).
  apply (finish_safe _ _ _ _ preflight); [reflexivity|reflexivity|]. intros r H2 H3 H4. rewrite <-H3 in *.
  split; [|by rewrite Hv|by split|exact M4|exact M5].
  exists preflight. split; [exact Hp|]. split; [by apply runOperation_genuine|]. intros _. by split.
Qed.

Lemma execute_load env preflight :
  m_validationOnly env = false -> runOperation (m_preflight env) makePayloadSet = Ok preflight ->
  safeRun resultOf (resultEarned env) (execute env).
Proof.
  intros Hv Hp. unfold execute. rewrite Hp, Hv.
  destruct (unclean (runFor makePayloadSet (m_warmup env))) eqn:Ew; [by apply execute_fails|].
  destruct (repetitionLoop _ _ _ _ _ _) as [[reps comb]|err] eqn:Er; [|by apply execute_fails].
  destruct (repetitionLoop_ok _ _ _ _ _ _ _ _ Er accounts_new) as (A & Hc & Hr). cbn [app] in A, Hr.
  assert (Hall : clean (repetitionOperations env 0 3)).
  { unfold repetitionOperations. cbn [seq fmap list_fmap concat]. rewrite app_nil_r.
    repeat (apply clean_app; [apply Hc; unfold repetitionCount; lia|]). apply Hc. unfold repetitionCount. lia. }
  destruct (accounts_all _ _ A Hall) as (C1 & C2 & C3 & op & C4 & C5).
  destruct (metrics_accounts _ _ A) as ((M1 & M2 & M3) & M4 & M5).
  apply (finish_safe _ _ _ _ op); [reflexivity|exact C4|]. intros r H2 H3 H4. rewrite <-H3 in *.
  split; [| |rewrite M2, M3; by split|exact M4|exact M5].
  - exists preflight. split; [exact Hp|]. split; [by apply runOperation_genuine|]. by rewrite Hv.
  - intros _. split; [by apply runFor_clean|]. split; [intros i Hi; apply Hc; unfold repetitionCount; lia|].
    split; [by rewrite H4, Hr|]. split; [by rewrite M1, C1|]. exists op. by split.
Qed.

Lemma masque_execute_earned env : safeRun resultOf (resultEarned env) (execute env).
Proof.
  destruct (runOperation (m_preflight env) makePayloadSet) as [preflight|err] eqn:Hp.
  - destruct (m_validationOnly env) eqn:Hv; [by eapply execute_validation|by eapply execute_load].
  - unfold execute. rewrite Hp. by apply execute_fails.
Qed.

Lemma main_safe env : m_showVersion env = false -> safeEnd resultOf (resultEarned env) (main env).
Proof.
  intros Hv. unfold main. rewrite Hv.
  destruct (negb (forallb _ _)); [by apply safeEnd_nothing|]. destruct (_ && _).
  { apply commit_safe. left. exists 3. split; [reflexivity|]. split; [discriminate|]. by apply noResult_none. }
  destruct (bool_decide _); [by apply safeEnd_nothing|].
  destruct (normalizeTarget _ _ _ _); [|by apply safeEnd_nothing].
  destruct (m_roots env); [by apply safeEnd_nothing|].
  pose proof (masque_execute_earned env) as H. destruct (execute env) as [docs e]. by apply commit_safe.
Qed.

(** C30: However it ends, the executor never dereferences a missing last operation; every
    result it has written is earned; and it ends with the exit code 0 only after printing its
    version or with a result on disk. *)
Theorem masque_run_earned env :
  let '(e, documents) := main env in
  e <> Panicked /\
  (forall name r, (name, ResultDocument r) ∈ documents -> resultEarned env r) /\
  (e = Exited 0 -> m_showVersion env = true \/ exists r, ("result.json", ResultDocument r) ∈ documents).
Proof.
  destruct (m_showVersion env) eqn:Ev.
  - unfold main. rewrite Ev. split; [discriminate|]. split; [intros name r H; by apply not_elem_of_nil in H|by left].
  - pose proof (main_safe env Ev) as (H1 & H2 & H3). destruct (main env) as [e documents]. cbn [fst snd] in *.
    split; [exact H1|]. split; [intros name r H; by apply (H2 _ _ r H)|].
    intros He. right. destruct (H3 He) as (d & r & H & Hr). exists r. destruct d; try discriminate Hr. by injection Hr as ->.
Qed.

Definition exampleMain : mainEnv :=
  MainEnv (fun _ => "") "proxy.test:4443" (fun v => Ok (TargetURL "https" "proxy.test:4443" "proxy.test" "4443")) None
    true false None (fun _ => None) exampleOperation ([], f_zero) (fun _ => ([], f_zero)).
Example validation_run_succeeds : (main exampleMain).1 = Exited 0.
Proof. vm_compute. reflexivity. Qed.

(** The proxy forwards nothing but requests for its target, whatever the case of the name. *)
Lemma proxy_forwards_to_its_target parsed headers address :
  Server.handler parsed = Server.Forwarded headers address ->
  address = "127.0.0.1:4433" /\ exists target, parsed = inr target /\ equal_fold target targetAuthority = true.
Proof.
  unfold Server.handler. destruct parsed as [[status m|m]|target]; try discriminate.
  destruct (equal_fold target targetAuthority) eqn:E; [|discriminate]. cbn [negb]. intros [= _ <-].
  split; [reflexivity|]. by exists target.
Qed.
