(* ===== verification/WebTransport.v ===== *)
(** WebTransport over HTTP/3: the executor go-webtransport-executor and the server
    webtransport-go. *)
From S2P Require Export Prelude Stats GoText GoHash GoHttp TlsBase DatagramBase.

Definition authority : string := "webtransport.plab.test".
Definition pathValue : string := "/webtransport/echo".
Definition payloadBytes : Z := 65536.
Definition payloadSHA256 : string := "4b640d85ab3ba30fd02c9fc9db4a8928f416322ad27022ea58a65aaee68a4df2".
Definition makePayload : bytes := octets (Z.to_nat payloadBytes) 0.

(** ** The server *)

Module Server.

(** [split] is [net.SplitHostPort]: the host, if the value has a port. *)
Definition authorityMatches (split : string -> option string) (value : string) : bool :=
  equal_fold (match split value with Some parsed => parsed | None => value end) authority.

(** The handler of the path: a request for another authority is refused, and a session is
    handled once the upgrade has succeeded. *)
Inductive handled := Misdirected | Rejected (err : goerror) | Accepted.
Definition handler (split : string -> option string) (host : string) (upgrade : option goerror) : handled :=
  if negb (authorityMatches split host) then Misdirected
  else match upgrade with Some err => Rejected err | None => Accepted end.

(** What a goroutine of a session does to it: it resets the stream, ends the session with a
    code, or writes octets or a datagram; and what it logs. *)
Inductive effect :=
| CancelStream (code : Z) | CloseSession (code : Z) (reason : string)
| WriteStream (data : bytes) | CloseStream | SendDatagram (data : bytes) | Log (event : string).

(** How a wait ends: [w_session] and [w_ctx] say whether the session's context and the
    deadline of 15 s were done when it failed. *)
Record failure := Failure { w_err : goerror; w_session : bool; w_ctx : bool }.

(** [handleStream]: the stream that was accepted, or why none was, the fault of the write
    and that of the close. *)
Definition handleStream (accepted : stream + failure) (writeFault closeFault : option goerror) : list effect :=
  match accepted with
  | inr f => if negb (w_session f) && negb (w_ctx f) then [Log "webtransport-stream-rejected"] else []
  | inl s =>
      match read_all_limited (payloadBytes + 1) s with
      | Ok data =>
          if negb (len data =? payloadBytes) || negb (String.eqb (hash data) payloadSHA256)
          then [Log "webtransport-stream-invalid"; CancelStream 1; CloseSession 2 "payload mismatch"]
          else match writeFault with
               | Some _ => [Log "webtransport-stream-write-failed"; CloseSession 3 "echo failed"]
               | None =>
                   WriteStream data ::
                   match closeFault with
                   | Some _ => [Log "webtransport-stream-close-failed"]
                   | None => [CloseStream; Log "webtransport-stream-echoed"]
                   end
               end
      | Err _ => [Log "webtransport-stream-invalid"; CancelStream 1; CloseSession 2 "payload mismatch"]
      end
  end.

(** The loop of [handleDatagrams] from [index] on, [n] datagrams before its end: what the
    waits give and the fault of each answer. When nothing more arrives the wait is still
    under way. [hashed] is what the digest has taken. *)
Fixpoint datagramLoop (n : nat) (index : Z) (input : list ((bytes + failure) * option goerror)) (hashed : bytes) : list effect :=
  match n with
  | O =>
      if negb (String.eqb (sha256_hex hashed) payloadSetSHA256)
      then [Log "webtransport-datagram-set-invalid"; CloseSession 7 "datagram payload set mismatch"]
      else [Log "webtransport-datagrams-echoed"]
  | S n =>
      match input with
      | [] => []
      | (inr f, _) :: _ =>
          if (0 <? index) && negb (w_session f) && negb (w_ctx f)
          then [Log "webtransport-datagram-receive-failed"; CloseSession 4 "datagram receive failed"] else []
      | (inl data, fault) :: input =>
          let expected := makeDatagramPayload index in
          if negb (len data =? payloadBytesPerDatagram) || negb (bool_decide (data = expected))
          then [Log "webtransport-datagram-invalid"; CloseSession 5 "datagram payload mismatch"]
          else match fault with
               | Some _ => [Log "webtransport-datagram-send-failed"; CloseSession 6 "datagram echo failed"]
               | None => SendDatagram data :: datagramLoop n (index + 1) input (hashed ++ data)
               end
      end
  end.
Definition handleDatagrams (input : list ((bytes + failure) * option goerror)) : list effect :=
  datagramLoop (Z.to_nat datagramCount) 0 input [].

End Server.

(** ** Scenarios *)

Definition streamScenarioID : string := "webtransport.session-bidi-echo".
Definition datagramScenarioID : string := "webtransport.session-datagram-echo".
Record scenarioSpec := ScenarioSpec { ID : string; ProfileID : string; Datagram : bool }.
Definition selectedScenario (getenv : string -> string) : res scenarioSpec :=
  let id := env_value getenv "PLAB_SCENARIO_ID" in
  if String.eqb id "" || String.eqb id streamScenarioID
  then Ok (ScenarioSpec streamScenarioID "webtransport-smoke" false)
  else if String.eqb id datagramScenarioID then Ok (ScenarioSpec datagramScenarioID "webtransport-datagram-smoke" true)
  else Err (EMsg ("unsupported WebTransport scenario " +:+ go_quote id)).

(** ** One operation *)

Definition certificateDERSHA256 : string := "de0f805e043ced1ca4742ad65ada6eb23d2338180f6129a3a72bfd367f932b9c".
Definition certificateSPKISHA256 : string := "431113d9234c136aad960a67d7a9788b7c95ae7fa53d482dd3b48a0bc5aa69cc".

(** The proof of an operation, less the constants that only name the protocol; a field of
    the other scenario keeps its zero value. *)
Record protocolProof := ProtocolProof {
  DidResume : bool; ResponseStatus : Z; DatagramsEnabled : bool; SessionEstablished : bool;
  SessionCloseCode : Z; CleanCompletion : bool;
  ClientInitiatedBidirectional : bool; BidirectionalStreamCount : Z; PayloadBytes : Z; PayloadSHA256 : string;
  EchoedBytes : Z; EchoedSHA256 : string; ConfiguredStreamsPerSession : Z; ObservedActiveStreams : Z;
  DatagramCount : Z; PayloadBytesPerDatagram : Z; PayloadSetSHA256 : string; EchoedDatagramCount : Z;
  EchoedPayloadSetSHA256 : string; OrderedDatagramEcho : bool; LostDatagrams : Z
}.
Record operationResult := OperationResult {
  Proof : protocolProof; SessionLatencyMS : float64; StreamLatencyMS : float64;
  DatagramLatenciesMS : list float64; TransferredBytes : Z
}.

(** What a stream meets: opening it, the write, the close of its own side, the octets that
    come back and how they end, and the time. *)
Record streamEnv := StreamEnv {
  x_open : option goerror; x_write : option goerror; x_close : option goerror; x_echo : stream; x_latency : float64
}.
(** What an exchange of a datagram meets. *)
Record datagramTurn := DatagramTurn { g_send : option goerror; g_receive : res bytes; g_latency : float64 }.
(** What an operation meets: the dial (the status and the connection's TLS state), its time,
    the stream, the exchanges of the datagrams, and the close of the session. *)
Record operationEnv := OperationEnv {
  o_dial : res (Z * connState); o_sessionLatency : float64; o_stream : streamEnv; o_turns : list datagramTurn;
  o_close : option goerror
}.

Definition checkSession (status : Z) (tls : connState) : res unit :=
  guard status =? 200 else EMsg ("unexpected CONNECT status " +:+ pretty status) in
  guard (cs_version tls =? VersionTLS13) && String.eqb (cs_protocol tls) "h3" else protocolSubstitution tls in
  match cs_peer tls with
  | [leaf] =>
      guard String.eqb (hash (cert_raw leaf)) certificateDERSHA256
            && String.eqb (hash (cert_spki leaf)) certificateSPKISHA256
        else EMsg "certificate identity mismatch" in
      Ok tt
  | peers => Err (EMsg ("expected one peer certificate, observed " +:+ pretty (len peers)))
  end.

Definition exchangeDatagram (index : Z) (datagram : bytes) (t : datagramTurn) : res (float64 * bytes) :=
  match g_send t, g_receive t with
  | Some err, _ => Err (EWrap (datagramError index "write failed") err)
  | None, Err err => Err (EWrap (datagramError index "read failed") err)
  | None, Ok echoed =>
      guard bool_decide (datagram = echoed) else EMsg (datagramError index "exact echo mismatch") in
      Ok (g_latency t, echoed)
  end.

(** The stream of an operation: what was echoed, and how long it took. *)
Definition exchangeStream (env : streamEnv) (payload : bytes) : res (bytes * float64) :=
  match x_open env, x_write env, x_close env with
  | Some err, _, _ | None, Some err, _ | None, None, Some err => Err err
  | None, None, None =>
      let? echoed := read_all_limited (payloadBytes + 1) (x_echo env) in
      guard (len echoed =? payloadBytes) && bool_decide (payload = echoed) && String.eqb (hash echoed) payloadSHA256
        else EMsg "echoed payload identity mismatch" in
      Ok (echoed, x_latency env)
  end.

Definition runOperation (spec : scenarioSpec) (env : operationEnv) (payload : bytes) (payloads : list bytes)
    : res operationResult :=
  let? dialed := o_dial env in
  let '(status, tls) := dialed in
  let? _ := checkSession status tls in
  if negb (Datagram spec) then
    let? exchanged := exchangeStream (o_stream env) payload in
    let '(echoed, streamLatency) := exchanged in
    match o_close env with
    | Some err => Err err
    | None =>
        Ok (OperationResult
              (ProtocolProof (cs_resumed tls) 200 true true 0 true true 1 payloadBytes payloadSHA256 (len echoed) (hash echoed)
                 1 1 0 0 "" 0 "" false 0)
              (o_sessionLatency env) streamLatency [] (payloadBytes * 2))
    end
  else
    let? exchanged := exchangeDatagrams exchangeDatagram EDeadline 0 payloads (o_turns env) [] [] in
    let '(latencies, receivedPayloads) := exchanged in
    let observedHash := hashPayloadSet receivedPayloads in
    guard String.eqb observedHash payloadSetSHA256 else EMsg "echoed datagram payload-set hash mismatch" in
    match o_close env with
    | Some err => Err err
    | None =>
        Ok (OperationResult
              (ProtocolProof (cs_resumed tls) 200 true true 0 true false 0 0 "" 0 "" 0 0
                 (len payloads) payloadBytesPerDatagram payloadSetSHA256 (len receivedPayloads) observedHash true 0)
              (o_sessionLatency env) f_zero latencies (len payloads * payloadBytesPerDatagram * 2))
    end.

(** ** Loads *)

Record summary := Summary {
  DurationSeconds : float64; CompletedOperations : Z; FailedOperations : Z; TimedOutOperations : Z;
  TotalTransferredBytes : Z; SessionLatencies : list float64; StreamLatencies : list float64;
  DatagramLatencies : list float64; SentDatagrams : Z; ReceivedDatagrams : Z; Last : option operationResult;
  Errors : gmap string Z
}.
Definition emptySummary : summary := Summary f_zero 0 0 0 0 [] [] [] 0 0 None ∅.

Definition isTimeout (err : goerror) : bool := errors_is EDeadline err || is_net_timeout err.

(** One turn of [runFor]. *)
Definition runTurn (spec : scenarioSpec) (payload : bytes) (payloads : list bytes) (s : summary) (env : operationEnv) : summary :=
  let '(Summary d ok f t b sl tl dl sent received p e) := s in
  match runOperation spec env payload payloads with
  | Err err =>
      let e := bump (error_string err) e in
      if isTimeout err then Summary d ok f (t + 1) b sl tl dl sent received p e
      else Summary d ok (f + 1) t b sl tl dl sent received p e
  | Ok op =>
      let '(sent, received) :=
        if Datagram spec then (sent + datagramCount, received + EchoedDatagramCount (Proof op)) else (sent, received) in
      Summary d (ok + 1) f t (b + TransferredBytes op) (sl ++ [SessionLatencyMS op]) (tl ++ [StreamLatencyMS op])
        (dl ++ DatagramLatenciesMS op) sent received (Some op) e
  end.
Definition set_duration (seconds : float64) (s : summary) : summary :=
  let '(Summary _ ok f t b sl tl dl sent received p e) := s in Summary seconds ok f t b sl tl dl sent received p e.
(** [runFor] over the operations that began in time, and how long it took. *)
Definition runFor (spec : scenarioSpec) (payload : bytes) (payloads : list bytes) (phase : list operationEnv * float64) : summary :=
  set_duration phase.2 (fold_left (runTurn spec payload payloads) phase.1 emptySummary).

Definition sum (values : list float64) : float64 := fold_left fadd values f_zero.
Definition summaryFromOperation (op : operationResult) : summary :=
  let duration := fdiv (fadd (StreamLatencyMS op) (sum (DatagramLatenciesMS op))) (f_of_Z 1000) in
  let duration := if SFleb duration f_zero then f_ratio 1 1000 else duration in
  let '(sent, received) :=
    if 0 <? DatagramCount (Proof op) then (DatagramCount (Proof op), EchoedDatagramCount (Proof op)) else (0, 0) in
  Summary duration 1 0 0 (TransferredBytes op) [SessionLatencyMS op] [StreamLatencyMS op] (DatagramLatenciesMS op)
    sent received (Some op) ∅.

(** ** Metrics and the result *)

(** The metrics of both scenarios, and those of the datagrams or of the streams. *)
Record datagramMetrics := DatagramMetrics {
  datagramsPerSecond : float64; datagramLatency : list float64; (* mean, 50th, 75th, 90th, 95th, 99th percentile *)
  sentDatagrams : Z; receivedDatagrams : Z; lostDatagrams : Z; configuredDatagramsPerSession : Z
}.
Record metrics := Metrics {
  sessionsPerSecond : float64; bytesPerSecond : float64;
  sessionLatency : list float64;       (* mean, 50th, 95th and 99th percentile *)
  completedOperations : Z; failedOperations : Z; timedOutOperations : Z; totalTransferredBytes : Z;
  scenarioMetrics : datagramMetrics + list float64
}.
Definition metricsForSummary (spec : scenarioSpec) (s : summary) : metrics :=
  let d := if SFleb (DurationSeconds s) f_zero then f_of_Z 1 else DurationSeconds s in
  let quantiles l qs := mean l :: ((fun q => percentile l (f_ratio q 100)) <$> qs) in
  Metrics (fdiv (f_of_Z (CompletedOperations s)) d) (fdiv (f_of_Z (TotalTransferredBytes s)) d)
    (quantiles (SessionLatencies s) [50; 95; 99])
    (CompletedOperations s) (FailedOperations s) (TimedOutOperations s) (TotalTransferredBytes s)
    (if Datagram spec
     then inl (DatagramMetrics (fdiv (f_of_Z (ReceivedDatagrams s)) d) (quantiles (DatagramLatencies s) [50; 75; 90; 95; 99])
                 (SentDatagrams s) (ReceivedDatagrams s) (SentDatagrams s - ReceivedDatagrams s) datagramCount)
     else inr (quantiles (StreamLatencies s) [50; 75; 90; 95; 99])).

(** The result, less its constants. *)
Record loadResult := LoadResult { RScenario : string; RProof : protocolProof; RMetrics : metrics }.

Inductive document :=
| Identity | LoadGenerator
| Unsupported (scenario : string)
| Failed (scenario message : string)
| Validation (scenario : string) (checks : list string)
| ProofDocument (p : protocolProof) | OperationDocument (op : operationResult)
| PayloadHash (expected observed : string)
| WarmupSummary (s : summary) | LoadSummary (s : summary)
| ResultDocument (r : loadResult).

Definition writeIdentity : list (string * document) :=
  [("executor-identity.json", Identity); ("load-generator-identity.json", LoadGenerator)].
Definition writeFailure (getenv : string -> string) (err : goerror) : list (string * document) :=
  let scenario := env_value getenv "PLAB_SCENARIO_ID" in
  let scenario := if String.eqb scenario "" then streamScenarioID else scenario in
  [("validation.json", Failed scenario (error_string err)); ("result.json", Failed scenario (error_string err))] ++ writeIdentity.
Definition emitUnsupported (id : string) : list (string * document) :=
  [("unsupported.json", Unsupported id); ("result.json", Unsupported id)] ++ writeIdentity.
Definition checks (spec : scenarioSpec) : list string :=
  ["protocol:webtransport-over-h3"; "tls:1.3"; "alpn:h3"; "no-fallback"; "extended-connect"; "pseudo-protocol:webtransport";
   "response-status:200"; "session-established"]
  ++ if Datagram spec
     then ["webtransport-datagrams-negotiated"; "datagram-count:32"; "datagram-bytes:256"; "datagram-payload-set-sha256";
           "ordered-datagram-echo"; "session-close-code:0"; "zero-lost-datagrams"; "zero-unexpected-failures"; "zero-timeouts"]
     else ["client-initiated-bidirectional-stream"; "stream-count:1"; "payload-bytes:65536"; "payload-sha256"; "ordered-echo";
           "session-close-code:0"; "zero-unexpected-failures"; "zero-timeouts"].
Definition writeProofArtifacts (spec : scenarioSpec) (op : operationResult) : list (string * document) :=
  [("validation.json", Validation (ID spec) (checks spec)); ("protocol-proof.json", ProofDocument (Proof op));
   ("webtransport-summary.json", OperationDocument op);
   ("payload-hash.json", if Datagram spec then PayloadHash payloadSetSHA256 (EchoedPayloadSetSHA256 (Proof op))
                         else PayloadHash payloadSHA256 (EchoedSHA256 (Proof op)))].
(** The summary's last operation is dereferenced: [None] when there is none. *)
Definition writeResult (spec : scenarioSpec) (s : summary) : option (list (string * document)) :=
  let metrics := metricsForSummary spec s in
  match Last s with
  | None => None
  | Some op =>
      let result := LoadResult (ID spec) (Proof op) metrics in
      Some [("webtransport-load-summary.json", LoadSummary s); ("webtransport-executor-result.json", ResultDocument result);
            ("result.json", ResultDocument result)]
  end.

(** ** [main] *)

(** What a run meets; the operations of a phase are those that began in time. *)
Record mainEnv := MainEnv {
  m_getenv : string -> string; m_target : string; m_parse : string -> res targetURL; m_roots : option goerror;
  m_validationOnly : bool; m_showVersion : bool; m_mkdir : option goerror; m_disk : string -> option goerror;
  m_preflight : operationEnv; m_warmup : list operationEnv * float64; m_measured : list operationEnv * float64
}.

(** The end of a run that has a result to write. *)
Definition finish (spec : scenarioSpec) (documents : list (string * document)) (measured : summary)
    : list (string * document) * ending :=
  match writeResult spec measured with
  | Some result => (documents ++ result, Exited 0)
  | None => (documents, Panicked)
  end.

(** What [main] does once its options are accepted: the documents in order, and its end. *)
Definition execute (spec : scenarioSpec) (env : mainEnv) : list (string * document) * ending :=
  let payload := makePayload in
  let payloads := makePayloadSet in
  let fail documents err := (documents ++ writeFailure (m_getenv env) err, Exited 1) in
  match runOperation spec (m_preflight env) payload payloads with
  | Err err => fail writeIdentity err
  | Ok preflight =>
      if m_validationOnly env then
        finish spec (writeIdentity ++ writeProofArtifacts spec preflight) (summaryFromOperation preflight)
      else
        let warmup := runFor spec payload payloads (m_warmup env) in
        let documents := writeIdentity ++ [("webtransport-warmup-summary.json", WarmupSummary warmup)] in
        if negb (FailedOperations warmup =? 0) || negb (TimedOutOperations warmup =? 0)
        then fail documents (EMsg "warmup contained failed or timed-out operations")
        else
          let measured := runFor spec payload payloads (m_measured env) in
          if (CompletedOperations measured =? 0) || negb (FailedOperations measured =? 0) || negb (TimedOutOperations measured =? 0)
          then fail documents (EMsg "measured window did not complete cleanly")
          else finish spec (documents ++ writeProofArtifacts spec preflight) measured
  end.

(** How the program ends, and the documents it has written. *)
Definition main (env : mainEnv) : ending * list (string * document) :=
  let getenv := m_getenv env in
  if m_showVersion env then (Exited 0, []) else
  if negb (forallb (fun '(n, v) => verifySubstitution getenv n v)
       [("PLAB_EXECUTOR_ID", "go-webtransport-executor"); ("PLAB_EXECUTOR_VERSION", "0.2.1");
        ("PLAB_LOAD_GENERATOR_ID", "webtransport-go-load"); ("PLAB_LOAD_GENERATOR_VERSION", "0.2.1");
        ("PLAB_PROTOCOL", "webtransport"); ("PLAB_PROTOCOL_VARIANT", "webtransport-over-h3")]) then (Exited 2, []) else
  match selectedScenario getenv with
  | Err _ => commit (m_disk env) (emitUnsupported (env_value getenv "PLAB_SCENARIO_ID")) (Exited 3)
  | Ok spec =>
      if negb (verifySubstitution getenv "PLAB_LOAD_PROFILE_ID" (ProfileID spec)) then (Exited 2, []) else
      if bool_decide (m_mkdir env <> None) then (Exited 1, []) else
      match normalizeTarget authority pathValue (m_parse env) (m_target env), m_roots env with
      | Err _, _ | Ok _, Some _ => (Exited 2, [])
      | Ok _, None => let '(documents, e) := execute spec env in commit (m_disk env) documents e
      end
  end.
