(* ===== verification/WebTransportProps.v ===== *)
(** Theorems on the WebTransport packages: the sessions of the executor with the server, what
    the server answers, and what an accepted operation and an exit code 0 imply. *)
From S2P Require Export WebTransport.
From S2P Require Import Certificates.

(** The digest of the stream's payload is that of the octets the executor generates. *)
Lemma payload_digest : hash makePayload = payloadSHA256.
Proof. vm_compute. reflexivity. Qed.

Lemma length_makePayload : length makePayload = Z.to_nat payloadBytes.
Proof. apply length_octets. Qed.

(** ** The server *)

(** The datagrams and the stream octets among what a goroutine does. *)
Definition sentDatagram (e : Server.effect) : option bytes := match e with Server.SendDatagram d => Some d | _ => None end.
Definition writtenOctets (e : Server.effect) : option bytes := match e with Server.WriteStream d => Some d | _ => None end.
Definition closes (e : Server.effect) : bool := match e with Server.CloseSession _ _ => true | _ => false end.

#[local] Opaque makeDatagramPayload sha256_hex seqZ.

(** Right datagrams are answered one by one, whatever follows them. *)
Lemma datagramLoop_prefix k : forall n index hashed more,
  Server.datagramLoop (k + n) index (((fun i => (inl (makeDatagramPayload i), None)) <$> seqZ index (Z.of_nat k)) ++ more) hashed
  = (Server.SendDatagram <$> (makeDatagramPayload <$> seqZ index (Z.of_nat k)))
    ++ Server.datagramLoop n (index + Z.of_nat k) more (hashed ++ concat (makeDatagramPayload <$> seqZ index (Z.of_nat k))).
Proof.
  induction k as [|k IH]; intros n index hashed more.
  - cbn [Nat.add seqZ fmap list_fmap concat app]. change (seqZ index (Z.of_nat 0)) with (@nil Z).
    cbn [fmap list_fmap concat app]. by rewrite app_nil_r, Z.add_0_r.
  - rewrite seqZ_cons by lia. rewrite !fmap_cons. cbn [app Nat.add Server.datagramLoop concat].
    rewrite length_payload, Z.eqb_refl, bool_decide_eq_true_2 by reflexivity. cbn [negb orb].
    replace (Z.pred (Z.of_nat (S k))) with (Z.of_nat k) by lia. replace (Z.succ index) with (index + 1) by lia.
    rewrite IH, app_assoc. replace (index + 1 + Z.of_nat k) with (index + Z.of_nat (S k)) by lia. reflexivity.
Qed.

Lemma datagramLoop_end index input hashed : sha256_hex hashed = payloadSetSHA256 ->
  Server.datagramLoop 0 index input hashed = [Server.Log "webtransport-datagrams-echoed"].
Proof. intros H. cbn [Server.datagramLoop]. by rewrite H, String.eqb_refl. Qed.

(** The whole set is echoed, in order, and found complete. *)
Lemma handleDatagrams_complete :
  Server.handleDatagrams ((fun p => (inl p, None)) <$> makePayloadSet)
  = (Server.SendDatagram <$> makePayloadSet) ++ [Server.Log "webtransport-datagrams-echoed"].
Proof.
  assert (H : Server.datagramLoop 32 0 (((fun i => (inl (makeDatagramPayload i), None)) <$> seqZ 0 datagramCount) ++ []) []
    = (Server.SendDatagram <$> makePayloadSet) ++ [Server.Log "webtransport-datagrams-echoed"]).
  { rewrite <-(datagramLoop_end (0 + Z.of_nat 32) [] ([] ++ concat makePayloadSet) payloadSet_digest).
    exact (datagramLoop_prefix 32 0 0 [] []). }
  rewrite app_nil_r in H. rewrite <-H. unfold Server.handleDatagrams, makePayloadSet.
  change (Z.to_nat datagramCount) with 32%nat. rewrite <-list_fmap_compose. reflexivity.
Qed.

(** The server answers the first datagrams before it has the others: its answers to the whole
    set are those it gave in turn. *)
Lemma datagrams_answered_in_turn k : (k <= 32)%nat ->
  omap sentDatagram (Server.handleDatagrams (take k ((fun p => (inl p, None)) <$> makePayloadSet))) = take k makePayloadSet.
Proof.
  intros Hk. pose proof (datagramLoop_prefix k (32 - k) 0 [] []) as H. rewrite app_nil_r in H. cbn [app] in H.
  unfold makePayloadSet. rewrite <-list_fmap_compose, !take_indices by exact Hk. unfold compose, Server.handleDatagrams.
  change (Z.to_nat datagramCount) with 32%nat. replace 32%nat with (k + (32 - k))%nat by lia. rewrite H, omap_app.
  assert (Ht : forall n i h, omap sentDatagram (Server.datagramLoop n i [] h) = []).
  { intros [|n] i h; cbn [Server.datagramLoop]; [|reflexivity]. by destruct (negb _). }
  rewrite Ht, app_nil_r. clear. induction (makeDatagramPayload <$> seqZ 0 (Z.of_nat k)) as [|x l IH]; [reflexivity|].
  cbn. by rewrite IH.
Qed.

(** How the datagram goroutine can end, after [k] datagrams. *)
Definition datagramEnding (k : Z) (effects : list Server.effect) : Prop :=
  effects = [] \/ (k = datagramCount /\ effects = [Server.Log "webtransport-datagrams-echoed"]) \/
  (exists event code reason, effects = [Server.Log event; Server.CloseSession code reason] /\ 4 <= code <= 7).

Lemma datagramLoop_shape n : forall index input hashed, 0 <= index -> exists k, (k <= n)%nat /\
  exists tail, datagramEnding (index + Z.of_nat k - index + (datagramCount - Z.of_nat n)) tail /\
  Server.datagramLoop n index input hashed
  = (Server.SendDatagram <$> (makeDatagramPayload <$> seqZ index (Z.of_nat k))) ++ tail /\
  take k input = (fun i => (inl (makeDatagramPayload i), None)) <$> seqZ index (Z.of_nat k).
Proof.
  assert (Hstop : forall (m : nat) (index : Z) (input : list ((bytes + Server.failure) * option goerror)) (tail : list Server.effect), (forall z, datagramEnding z tail) ->
    exists k, (k <= m)%nat /\ exists t, datagramEnding (index + Z.of_nat k - index + (datagramCount - Z.of_nat m)) t /\
      tail = (Server.SendDatagram <$> (makeDatagramPayload <$> seqZ index (Z.of_nat k))) ++ t /\
      take k input = (fun i => (inl (makeDatagramPayload i), None)) <$> seqZ index (Z.of_nat k)).
  { intros m index input tail H. exists 0%nat. split; [lia|]. exists tail. split; [apply H|]. by split. }
  induction n as [|n IH]; intros index input hashed Hi; cbn [Server.datagramLoop].
  - exists 0%nat. split; [lia|]. eexists. split; [|by split].
    destruct (negb _); [right; right; do 3 eexists; split; [reflexivity|lia]|right; left; split; [lia|reflexivity]].
  - destruct input as [|[[data|f] fault] input]; [apply Hstop; by left| |].
    + destruct (negb (len data =? payloadBytesPerDatagram) || negb (bool_decide (data = makeDatagramPayload index))) eqn:E.
      { apply Hstop. intros z. right; right. do 3 eexists. split; [reflexivity|lia]. }
      apply orb_false_iff in E as [_ E]. apply negb_false_iff, bool_decide_eq_true in E. destruct fault as [err|].
      { apply Hstop. intros z. right; right. do 3 eexists. split; [reflexivity|lia]. }
      destruct (IH (index + 1) input (hashed ++ data) ltac:(lia)) as (k & Hk & tail & Ht & Heq & Hin).
      exists (S k). split; [lia|]. exists tail. rewrite seqZ_cons by lia.
      replace (Z.pred (Z.of_nat (S k))) with (Z.of_nat k) by lia. replace (Z.succ index) with (index + 1) by lia.
      rewrite !fmap_cons. cbn [app take]. rewrite Heq, Hin. split; [|split; [by rewrite E|by rewrite E]].
      replace (index + Z.of_nat (S k) - index + (datagramCount - Z.of_nat (S n)))
        with (index + 1 + Z.of_nat k - (index + 1) + (datagramCount - Z.of_nat n)) by lia. exact Ht.
    + apply Hstop. intros z. destruct (_ && _); [right; right; do 3 eexists; split; [reflexivity|lia]|by left].
Qed.

(** Whatever a client sends and whichever answers fail, the datagrams the server answers
    with are the first of the set, in order, each the echo of the datagram received in its
    place; it reports the set as echoed only after all of them, and it ends a session at most
    once, as the last thing it does. *)
Theorem datagram_server_echoes_prefix input :
  exists k tail, 0 <= k <= datagramCount /\
  Server.handleDatagrams input = (Server.SendDatagram <$> take (Z.to_nat k) makePayloadSet) ++ tail /\
  take (Z.to_nat k) input = (fun p => (inl p, None)) <$> take (Z.to_nat k) makePayloadSet /\
  datagramEnding k tail.
Proof.
  destruct (datagramLoop_shape (Z.to_nat datagramCount) 0 input [] ltac:(lia)) as (k & Hk & tail & Ht & Heq & Hin).
  assert (Hset : take k makePayloadSet = makeDatagramPayload <$> seqZ 0 (Z.of_nat k)) by (apply take_indices; exact Hk).
  exists (Z.of_nat k), tail. rewrite Nat2Z.id, Hset. split; [split; [lia|]|].
  { change (Z.to_nat datagramCount) with 32%nat in Hk. unfold datagramCount. lia. }
  split; [exact Heq|]. split; [by rewrite <-list_fmap_compose|].
  replace (Z.of_nat k) with (0 + Z.of_nat k - 0 + (datagramCount - Z.of_nat (Z.to_nat datagramCount))); [exact Ht|].
  unfold datagramCount. lia.
Qed.

Lemma read_all_limited_ok n s data : read_all_limited n s = Ok data -> len data < n -> s = Stream data EEOF.
Proof.
  unfold read_all_limited. destruct s as [d e]. cbn [st_data st_end]. destruct (Z.leb_spec n (len d)) as [H|H].
  - intros [= <-]. unfold len in *. rewrite length_take. lia.
  - destruct e; try discriminate. by intros [= ->].
Qed.

Lemma read_all_limited_exact n data : len data < n -> read_all_limited n (Stream data EEOF) = Ok data.
Proof. intros H. unfold read_all_limited. cbn [st_data st_end]. destruct (Z.leb_spec n (len data)); [lia|reflexivity]. Qed.

Lemma handleStream_payload payload : len payload = payloadBytes -> hash payload = payloadSHA256 ->
  Server.handleStream (inl (Stream payload EEOF)) None None
  = [Server.WriteStream payload; Server.CloseStream; Server.Log "webtransport-stream-echoed"].
Proof.
  intros Hl Hh. unfold Server.handleStream. rewrite read_all_limited_exact by (rewrite Hl; unfold payloadBytes; lia).
  by rewrite Hl, Hh, Z.eqb_refl, String.eqb_refl.
Qed.

(** The stream goroutine writes nothing but an echo of the expected length and digest, which
    the client ended its stream with; otherwise it ends the session, unless there was no
    stream. *)
Lemma handleStream_sound accepted writeFault closeFault data :
  Server.WriteStream data ∈ Server.handleStream accepted writeFault closeFault ->
  accepted = inl (Stream data EEOF) /\ len data = payloadBytes /\ hash data = payloadSHA256 /\ writeFault = None.
Proof.
  assert (Hin : forall (l : list Server.effect), forallb (fun e => match e with Server.WriteStream _ => false | _ => true end) l = true ->
    Server.WriteStream data ∉ l).
  { intros l Hl H. apply list_elem_of_In in H. rewrite forallb_forall in Hl. by specialize (Hl _ H). }
  unfold Server.handleStream. destruct accepted as [s|f]; [|intros H; exfalso; revert H; apply Hin; by destruct (_ && _)].
  destruct (read_all_limited (payloadBytes + 1) s) as [d|err] eqn:E; [|intros H; exfalso; revert H; by apply Hin].
  destruct (Z.eqb_spec (len d) payloadBytes) as [Hl|]; [|intros H; exfalso; revert H; by apply Hin].
  destruct (String.eqb_spec (hash d) payloadSHA256) as [Hh|]; [|intros H; exfalso; revert H; by apply Hin]. cbn [negb orb].
  destruct writeFault; [intros H; exfalso; revert H; by apply Hin|]. intros H. apply elem_of_cons in H as [[= ->]|H].
  - apply read_all_limited_ok in E; [|lia]. by subst s.
  - exfalso. revert H. apply Hin. by destruct closeFault.
Qed.

(** While a client uses the other scenario, a goroutine that waits ends without a trace once
    the session is over. *)
Lemma idle_stream f : Server.w_session f = true -> Server.handleStream (inr f) None None = [].
Proof. intros H. unfold Server.handleStream. by rewrite H. Qed.
Lemma idle_datagrams f fault input : Server.handleDatagrams ((inr f, fault) :: input) = [].
Proof. reflexivity. Qed.

(** ** Operations *)

(** What the gates on a session let pass. *)
Definition proven (tls : connState) : Prop :=
  cs_version tls = VersionTLS13 /\ cs_protocol tls = "h3" /\
  exists leaf, cs_peer tls = [leaf] /\ hash (cert_raw leaf) = certificateDERSHA256 /\
               hash (cert_spki leaf) = certificateSPKISHA256.

Lemma checkSession_ok status tls u : checkSession status tls = Ok u <-> status = 200 /\ proven tls.
Proof.
  unfold checkSession, proven. destruct u. split.
  - destruct (status =? 200) eqn:E1; [|discriminate]. apply Z.eqb_eq in E1.
    destruct (cs_version tls =? VersionTLS13) eqn:E2; [|discriminate]. apply Z.eqb_eq in E2.
    destruct (String.eqb_spec (cs_protocol tls) "h3") as [E3|]; [|discriminate]. cbn [andb].
    destruct (cs_peer tls) as [|leaf [|]] eqn:E6; try discriminate.
    destruct (String.eqb_spec (hash (cert_raw leaf)) certificateDERSHA256) as [E7|]; [|discriminate].
    destruct (String.eqb_spec (hash (cert_spki leaf)) certificateSPKISHA256) as [E8|]; [|discriminate]. cbn [andb].
    intros _. split; [exact E1|]. split; [exact E2|]. split; [exact E3|]. by exists leaf.
  - intros (-> & E2 & E3 & leaf & E6 & E7 & E8). by rewrite E2, E3, E6, E7, E8, !String.eqb_refl.
Qed.

Lemma wt_exchangeDatagram_ok i p t l d : exchangeDatagram i p t = Ok (l, d) ->
  d = p /\ g_send t = None /\ g_receive t = Ok p /\ l = g_latency t.
Proof.
  unfold exchangeDatagram. destruct (g_send t); [discriminate|]. destruct (g_receive t) as [data|]; [|discriminate].
  case_bool_decide as H; [|discriminate]. intros [= <- <-]. by subst.
Qed.

(** What the scenarios exchange. *)
Definition streamExchanged (env : operationEnv) (p : protocolProof) : Prop :=
  x_open (o_stream env) = None /\ x_write (o_stream env) = None /\ x_close (o_stream env) = None /\
  x_echo (o_stream env) = Stream makePayload EEOF /\
  EchoedBytes p = payloadBytes /\ EchoedSHA256 p = payloadSHA256 /\ DatagramCount p = 0.
Definition datagramsExchanged (env : operationEnv) (p : protocolProof) : Prop :=
  (forall i, 0 <= i < datagramCount -> exists t, o_turns env !! Z.to_nat i = Some t /\
     g_send t = None /\ g_receive t = Ok (makeDatagramPayload i)) /\
  DatagramCount p = datagramCount /\ EchoedDatagramCount p = datagramCount /\ EchoedPayloadSetSHA256 p = payloadSetSHA256.

(** The octets and the latencies of the datagrams of an operation. *)
Definition operationBytes (spec : scenarioSpec) : Z := if Datagram spec then 16384 else 131072.
Definition operationDatagrams (spec : scenarioSpec) : Z := if Datagram spec then datagramCount else 0.

(** What an accepted operation met: a proven session, the exchange of its scenario, and a
    close without error. *)
Record genuine (spec : scenarioSpec) (env : operationEnv) (op : operationResult) : Prop := {
  ge_session : exists tls, o_dial env = Ok (200, tls) /\ proven tls /\ DidResume (Proof op) = cs_resumed tls;
  ge_closed : o_close env = None;
  ge_exchanged : (if Datagram spec then datagramsExchanged else streamExchanged) env (Proof op);
  ge_bytes : TransferredBytes op = operationBytes spec;
  ge_latencies : len (DatagramLatenciesMS op) = operationDatagrams spec
}.

Lemma exchangeStream_ok env payload echoed l : exchangeStream env payload = Ok (echoed, l) ->
  x_open env = None /\ x_write env = None /\ x_close env = None /\ echoed = payload /\ l = x_latency env /\
  len payload = payloadBytes /\ hash payload = payloadSHA256 /\ x_echo env = Stream payload EEOF.
Proof.
  unfold exchangeStream. destruct (x_open env); [discriminate|]. destruct (x_write env); [discriminate|].
  destruct (x_close env); [discriminate|]. destruct (read_all_limited _ _) as [data|] eqn:E; [|discriminate]. cbn [res_bind].
  destruct (Z.eqb_spec (len data) payloadBytes) as [Hl|]; [|discriminate]. cbn [andb].
  case_bool_decide as Hd; [|discriminate]. cbn [andb].
  destruct (String.eqb_spec (hash data) payloadSHA256) as [Hh|]; [|discriminate]. intros [= <- <-]. subst data.
  apply read_all_limited_ok in E; [|lia]. repeat (split; [done|]). exact E.
Qed.

#[local] Opaque makePayload makePayloadSet hash.

Lemma wt_runOperation_genuine spec env op : runOperation spec env makePayload makePayloadSet = Ok op -> genuine spec env op.
Proof.
  unfold runOperation. destruct (o_dial env) as [[status tls]|] eqn:Ed; [|discriminate]. cbn [res_bind].
  destruct (checkSession status tls) as [u|] eqn:Ec; [|discriminate]. cbn [res_bind]. apply checkSession_ok in Ec as [-> Hp].
  destruct (Datagram spec) eqn:Es; cbn [negb].
  - destruct (exchangeDatagrams _ _ _ _ _ _ _) as [[ls rs]|] eqn:Ex; [|discriminate]. cbn [res_bind].
    pose proof (exchangeDatagrams_turns _ _ _ _ _ _ _ _ Ex) as Ht.
    apply exchangeDatagrams_sound in Ex as [-> Hl]; [|intros i p t' l d H; by apply wt_exchangeDatagram_ok in H as [-> _]].
    cbn [app] in *. rewrite payloadSet_digest, String.eqb_refl. destruct (o_close env) eqn:Eo; [discriminate|]. intros [= <-].
    assert (Hn : len makePayloadSet = datagramCount) by (unfold len; by rewrite length_payloadSet).
    split; cbn [Proof DidResume TransferredBytes DatagramLatenciesMS].
    + exists tls. split; [exact Ed|]. by split.
    + exact Eo.
    + rewrite Es. split; [|cbn [DatagramCount EchoedDatagramCount EchoedPayloadSetSHA256]; by rewrite Hn].
      intros i Hi. destruct (Ht (Z.to_nat i) (makeDatagramPayload i) (payloadSet_at i Hi)) as (t' & [l d] & H1 & H2).
      apply wt_exchangeDatagram_ok in H2 as (_ & H2 & H3 & _). exists t'. split; [exact H1|]. split; [exact H2|exact H3].
    + unfold operationBytes. by rewrite Es, Hn.
    + unfold operationDatagrams, len. rewrite Es, Hl, length_payloadSet. reflexivity.
  - destruct (exchangeStream (o_stream env) makePayload) as [[echoed l]|] eqn:Ex; [|discriminate]. cbn [res_bind].
    apply exchangeStream_ok in Ex as (H1 & H2 & H3 & -> & -> & H4 & H5 & H6).
    destruct (o_close env) eqn:Eo; [discriminate|]. intros [= <-].
    split; cbn [Proof DidResume TransferredBytes DatagramLatenciesMS].
    + exists tls. split; [exact Ed|]. by split.
    + exact Eo.
    + rewrite Es. unfold streamExchanged. cbn [EchoedBytes EchoedSHA256 DatagramCount].
      split; [exact H1|]. split; [exact H2|]. split; [exact H3|]. split; [exact H6|].
      split; [exact H4|]. split; [exact H5|reflexivity].
    + unfold operationBytes. by rewrite Es.
    + unfold operationDatagrams. by rewrite Es.
Qed.

(** ** The session *)

(** What the client reads of the stream goroutine's effects, and what it receives of the
    datagram goroutine's. *)
Definition echoedStream (effects : list Server.effect) : stream :=
  Stream (concat (omap writtenOctets effects))
    (if existsb (fun e => match e with Server.CloseStream => true | _ => false end) effects then EEOF
     else EMsg "stream reset").
Definition echoedTurns (effects : list Server.effect) (latencies : list float64) : list datagramTurn :=
  zip_with (fun d l => DatagramTurn None (Ok d) l) (omap sentDatagram effects) latencies.

Lemma omap_sent l event : omap sentDatagram ((Server.SendDatagram <$> l) ++ [Server.Log event]) = l.
Proof.
  rewrite omap_app. cbn. rewrite app_nil_r. induction l as [|x l IH]; [reflexivity|]. cbn. by rewrite IH.
Qed.

Lemma exchange_echoed latencies : length latencies = 32%nat ->
  exchangeDatagrams exchangeDatagram EDeadline 0 makePayloadSet
    (echoedTurns (Server.handleDatagrams ((fun p => (inl p, None)) <$> makePayloadSet)) latencies) [] []
  = Ok (latencies, makePayloadSet).
Proof.
  intros Hl. unfold echoedTurns. rewrite handleDatagrams_complete, omap_sent.
  rewrite (exchangeDatagrams_complete _ _ _ _ latencies); [reflexivity|by rewrite Hl, length_payloadSet| |].
  - intros i p t l Hp Ht Hlat. rewrite lookup_zip_with, Hp, Hlat in Ht. cbn in Ht. injection Ht as <-.
    unfold exchangeDatagram. cbn [g_send g_receive g_latency]. by rewrite bool_decide_eq_true_2 by reflexivity.
  - rewrite length_zip_with, Hl, length_payloadSet. reflexivity.
Qed.

Lemma echoedStream_complete :
  echoedStream (Server.handleStream (inl (Stream makePayload EEOF)) None None) = Stream makePayload EEOF.
Proof.
  rewrite handleStream_payload; [|unfold len; rewrite length_makePayload; reflexivity|exact payload_digest].
  unfold echoedStream. cbn [omap list_omap writtenOctets concat existsb orb]. by rewrite app_nil_r.
Qed.

(** C29: The server accepts a session for the authority of the executor's URL, and on one with
    its certificate its answers, to the payload of the stream or to the set of datagrams,
    complete the operation of either scenario, which is genuine. *)
Theorem webtransport_session_completes spec split port tls env latencies :
  split (joinHostPort authority port) = Some authority ->
  proven tls -> o_dial env = Ok (200, tls) -> o_close env = None ->
  x_open (o_stream env) = None -> x_write (o_stream env) = None -> x_close (o_stream env) = None ->
  x_echo (o_stream env) = echoedStream (Server.handleStream (inl (Stream makePayload EEOF)) None None) ->
  length latencies = 32%nat ->
  o_turns env = echoedTurns (Server.handleDatagrams ((fun p => (inl p, None)) <$> makePayloadSet)) latencies ->
  Server.handler split (joinHostPort authority port) None = Server.Accepted /\
  exists op, runOperation spec env makePayload makePayloadSet = Ok op /\ genuine spec env op.
Proof.
  intros Hs Hp Hd Hc H1 H2 H3 H4 Hl Ht. split.
  { unfold Server.handler, Server.authorityMatches. by rewrite Hs. }
  assert (H : exists op, runOperation spec env makePayload makePayloadSet = Ok op).
  { unfold runOperation. rewrite Hd. cbn [res_bind].
    assert (Hg : checkSession 200 tls = Ok tt) by (apply checkSession_ok; split; [reflexivity|exact Hp]). rewrite Hg. cbn [res_bind].
    destruct (Datagram spec); cbn [negb].
    - rewrite Ht, exchange_echoed by exact Hl. cbn [res_bind]. rewrite payloadSet_digest, String.eqb_refl, Hc. by eexists.
    - unfold exchangeStream. rewrite H1, H2, H3, H4, echoedStream_complete.
      assert (Hlen : len makePayload = payloadBytes) by (unfold len; by rewrite length_makePayload).
      rewrite read_all_limited_exact by (rewrite Hlen; unfold payloadBytes; lia). cbn [res_bind].
      rewrite Hlen, Z.eqb_refl, bool_decide_eq_true_2, payload_digest, String.eqb_refl by reflexivity.
      cbn [andb res_bind]. rewrite Hc. by eexists. }
  destruct H as [op H]. exists op. split; [exact H|]. by apply wt_runOperation_genuine.
Qed.

#[local] Transparent hash.
Definition exampleLeaf : certificate := Certificate webtransport_leaf_der webtransport_leaf_spki "ECDSA-SHA256" "ECDSA" "P-256".
Definition exampleState : connState := ConnState VersionTLS13 0x1301 29 "h3" true false 1 [exampleLeaf].
Definition exampleOperation : operationEnv :=
  OperationEnv (Ok (200, exampleState)) f_zero
    (StreamEnv None None None (echoedStream (Server.handleStream (inl (Stream makePayload EEOF)) None None)) f_zero)
    (echoedTurns (Server.handleDatagrams ((fun p => (inl p, None)) <$> makePayloadSet)) (replicate 32 f_zero)) None.
Definition exampleSpec (datagram : bool) : scenarioSpec := ScenarioSpec "" "" datagram.

Lemma exampleState_proven : proven exampleState.
Proof. split; [reflexivity|]. split; [reflexivity|]. exists exampleLeaf. split; [reflexivity|]. vm_compute. by split. Qed.

Lemma webtransport_session_completes_witness :
  exists op, runOperation (exampleSpec false) exampleOperation makePayload makePayloadSet = Ok op.
Proof.
  destruct (webtransport_session_completes (exampleSpec false) (fun _ => Some authority) "4433" exampleState exampleOperation
              (replicate 32 f_zero)) as [_ [op [H _]]];
    [reflexivity|exact exampleState_proven|reflexivity..|]. by exists op.
Defined.

#[local] Opaque hash.

(** ** Loads *)

Section loads.
Context (spec : scenarioSpec).

Definition operate (env : operationEnv) : res operationResult := runOperation spec env makePayload makePayloadSet.
Definition succeeds (env : operationEnv) : bool := is_ok (operate env).
Definition failsWith (message : string) (env : operationEnv) : bool :=
  match operate env with Ok _ => false | Err err => String.eqb (error_string err) message end.

(** A summary that accounts for the operations [envs], each once. *)
Record accounts (envs : list operationEnv) (s : summary) : Prop := {
  ac_completed : CompletedOperations s = len (List.filter succeeds envs);
  ac_operations : CompletedOperations s + FailedOperations s + TimedOutOperations s = len envs;
  ac_failed : 0 <= FailedOperations s /\ 0 <= TimedOutOperations s;
  ac_sent : SentDatagrams s = operationDatagrams spec * CompletedOperations s;
  ac_received : ReceivedDatagrams s = operationDatagrams spec * CompletedOperations s;
  ac_bytes : TotalTransferredBytes s = operationBytes spec * CompletedOperations s;
  ac_sessions : len (SessionLatencies s) = CompletedOperations s;
  ac_streams : len (StreamLatencies s) = CompletedOperations s;
  ac_datagrams : len (DatagramLatencies s) = operationDatagrams spec * CompletedOperations s;
  ac_last : Ok <$> Last s = last (operate <$> List.filter succeeds envs);
  ac_errors : forall message, default 0 (Errors s !! message) = len (List.filter (failsWith message) envs)
}.

Lemma wt_accounts_new : accounts [] emptySummary.
Proof. split; cbn; rewrite ?Z.mul_0_r; reflexivity || (split; lia) || (intros m; by rewrite lookup_empty). Qed.

Lemma wt_accounts_turn envs s env : accounts envs s -> accounts (envs ++ [env]) (runTurn spec makePayload makePayloadSet s env).
Proof.
  intros [H1 H2 H3 H4 H5 H6 H7 H8 H9 H10 H11]. destruct s as [d ok f t b sl tl dl sent received p e]. unfold runTurn.
  cbn [CompletedOperations FailedOperations TimedOutOperations SentDatagrams ReceivedDatagrams TotalTransferredBytes
    SessionLatencies StreamLatencies DatagramLatencies Last Errors] in *.
  assert (Hs : List.filter succeeds (envs ++ [env]) = List.filter succeeds envs ++ (if succeeds env then [env] else []))
    by apply filter_snoc.
  assert (Hf : forall m, len (List.filter (failsWith m) (envs ++ [env]))
                 = len (List.filter (failsWith m) envs) + (if failsWith m env then 1 else 0)).
  { intros m. rewrite filter_snoc, len_app. destruct (failsWith m env); reflexivity. }
  unfold succeeds at 3 in Hs. unfold failsWith at 3 in Hf. fold (operate env).
  destruct (operate env) as [op|err] eqn:E; cbn [is_ok] in Hs.
  - apply wt_runOperation_genuine in E as G. destruct G as [_ _ G1 G2 G3].
    assert (Hd : (if Datagram spec then (sent + datagramCount, received + EchoedDatagramCount (Proof op)) else (sent, received))
                 = (sent + operationDatagrams spec, received + operationDatagrams spec)).
    { unfold operationDatagrams. destruct (Datagram spec); [|by rewrite !Z.add_0_r]. destruct G1 as (_ & _ & -> & _). reflexivity. }
    rewrite Hd.
    split; cbn [CompletedOperations FailedOperations TimedOutOperations SentDatagrams ReceivedDatagrams TotalTransferredBytes
      SessionLatencies StreamLatencies DatagramLatencies Last Errors]; rewrite ?Hs, ?len_app, ?G2, ?G3; change (len [env]) with 1;
      change (len [SessionLatencyMS op]) with 1; change (len [StreamLatencyMS op]) with 1; try lia.
    + rewrite fmap_app, last_app. cbn [fmap list_fmap last]. by rewrite E.
    + intros m. rewrite Hf, H11. lia.
  - rewrite app_nil_r in Hs.
    assert (He : forall m, default 0 (bump (error_string err) e !! m) = len (List.filter (failsWith m) (envs ++ [env])))
      by (intros m; by rewrite bump_lookup, Hf, H11).
    destruct (isTimeout err); split; cbn [CompletedOperations FailedOperations TimedOutOperations SentDatagrams
      ReceivedDatagrams TotalTransferredBytes SessionLatencies StreamLatencies DatagramLatencies Last Errors];
      rewrite ?Hs, ?len_app; change (len [env]) with 1; first [exact He | exact H10 | lia].
Qed.

Lemma wt_runFor_accounts phase : accounts phase.1 (runFor spec makePayload makePayloadSet phase).
Proof.
  unfold runFor. assert (H : accounts phase.1 (fold_left (runTurn spec makePayload makePayloadSet) phase.1 emptySummary)).
  { generalize phase.1. intros envs. induction envs as [|env envs IH] using rev_ind; [apply wt_accounts_new|].
    rewrite fold_left_app. by apply wt_accounts_turn. }
  destruct (fold_left _ _ _). destruct H. by split.
Qed.

Lemma wt_summaryFromOperation_accounts env op : operate env = Ok op -> accounts [env] (summaryFromOperation op).
Proof.
  intros H. assert (Hs : List.filter succeeds [env] = [env]) by (cbn [List.filter]; unfold succeeds; by rewrite H).
  pose proof (wt_runOperation_genuine _ _ _ H) as G. unfold summaryFromOperation.
  assert (Hd : (if 0 <? DatagramCount (Proof op) then (DatagramCount (Proof op), EchoedDatagramCount (Proof op)) else (0, 0))
               = (operationDatagrams spec, operationDatagrams spec)).
  { pose proof (ge_exchanged _ _ _ G) as X. unfold operationDatagrams. destruct (Datagram spec).
    - destruct X as (_ & -> & -> & _). reflexivity.
    - destruct X as (_ & _ & _ & _ & _ & _ & ->). reflexivity. }
  rewrite Hd. split; cbn [CompletedOperations FailedOperations TimedOutOperations SentDatagrams ReceivedDatagrams
    TotalTransferredBytes SessionLatencies StreamLatencies DatagramLatencies Last Errors]; rewrite ?Hs, ?Z.mul_1_r;
    try reflexivity; try (split; lia).
  - exact (ge_bytes _ _ _ G).
  - exact (ge_latencies _ _ _ G).
  - cbn [fmap list_fmap last option_fmap option_map]. by rewrite H.
  - intros m. cbn [List.filter]. unfold failsWith. rewrite H, lookup_empty. reflexivity.
Qed.

(** Operations that all succeeded. *)
Lemma wt_accounts_all envs s : accounts envs s -> FailedOperations s = 0 -> TimedOutOperations s = 0 ->
  CompletedOperations s = len envs /\ List.filter succeeds envs = envs /\ Ok <$> Last s = last (operate <$> envs).
Proof.
  intros H H1 H2. pose proof (ac_completed _ _ H) as A. pose proof (ac_operations _ _ H) as B. pose proof (ac_last _ _ H) as L.
  assert (Hf : List.filter succeeds envs = envs) by (apply filter_full; lia). rewrite Hf in A, L. by split.
Qed.

(** What the metrics of a summary say of its operations. *)
Lemma wt_metrics_accounts envs s : accounts envs s ->
  let m := metricsForSummary spec s in
  (completedOperations m = CompletedOperations s /\ failedOperations m = FailedOperations s /\ timedOutOperations m = TimedOutOperations s) /\
  totalTransferredBytes m = operationBytes spec * completedOperations m /\
  match scenarioMetrics m with
  | inl d => Datagram spec = true /\ sentDatagrams d = datagramCount * completedOperations m /\
             receivedDatagrams d = sentDatagrams d /\ lostDatagrams d = 0
  | inr _ => Datagram spec = false
  end.
Proof.
  intros H. cbv zeta. unfold metricsForSummary. cbn [completedOperations failedOperations timedOutOperations totalTransferredBytes scenarioMetrics].
  rewrite (ac_bytes _ _ H). split; [by split|]. split; [reflexivity|].
  pose proof (ac_sent _ _ H) as S. pose proof (ac_received _ _ H) as R. unfold operationDatagrams in S, R.
  destruct (Datagram spec); [|reflexivity]. cbn [sentDatagrams receivedDatagrams lostDatagrams]. rewrite S, R.
  repeat split; lia.
Qed.
End loads.

(** ** Runs *)

(** What stands behind a result that was written: the selected scenario, a genuine preflight,
    and, unless the run was for that alone, loads in which every operation succeeded. *)
Record resultEarned (env : mainEnv) (r : loadResult) : Prop := {
  re_spec : exists spec, selectedScenario (m_getenv env) = Ok spec /\ RScenario r = ID spec /\
    (exists preflight, operate spec (m_preflight env) = Ok preflight /\ genuine spec (m_preflight env) preflight /\
       (m_validationOnly env = true -> RProof r = Proof preflight /\ completedOperations (RMetrics r) = 1)) /\
    (m_validationOnly env = false ->
       List.filter (succeeds spec) (m_warmup env).1 = (m_warmup env).1 /\
       (m_measured env).1 <> [] /\ List.filter (succeeds spec) (m_measured env).1 = (m_measured env).1 /\
       completedOperations (RMetrics r) = len (m_measured env).1 /\
       exists op, Some (Ok op) = last (operate spec <$> (m_measured env).1) /\ RProof r = Proof op) /\
    totalTransferredBytes (RMetrics r) = operationBytes spec * completedOperations (RMetrics r) /\
    match scenarioMetrics (RMetrics r) with
    | inl d => Datagram spec = true /\ sentDatagrams d = datagramCount * completedOperations (RMetrics r) /\
               receivedDatagrams d = sentDatagrams d /\ lostDatagrams d = 0
    | inr _ => Datagram spec = false
    end;
  re_failures : failedOperations (RMetrics r) = 0 /\ timedOutOperations (RMetrics r) = 0
}.

Definition resultOf (d : document) : option loadResult := match d with ResultDocument r => Some r | _ => None end.
(** No document of the list is a result. *)
Definition noResult (documents : list (string * document)) : bool :=
  forallb (fun d => match resultOf d.2 with Some _ => false | None => true end) documents.
Lemma wt_noResult_none documents : noResult documents = true -> forall name d, (name, d) ∈ documents -> resultOf d = None.
Proof.
  intros H name d Hin. apply list_elem_of_In in Hin. unfold noResult in H. rewrite forallb_forall in H.
  specialize (H _ Hin). cbn [snd] in H. by destruct (resultOf d).
Qed.

(** A result that is written is safe when it is earned. *)
Lemma wt_finish_safe (earned : loadResult -> Prop) spec documents s op :
  noResult documents = true -> Last s = Some op ->
  earned (LoadResult (ID spec) (Proof op) (metricsForSummary spec s)) ->
  safeRun resultOf earned (finish spec documents s).
Proof.
  intros Hn Hop He. unfold finish, writeResult. rewrite Hop. right. cbn [fst snd]. split; [reflexivity|]. split.
  { do 2 eexists. split; [apply elem_of_app; right; do 2 apply list_elem_of_further; apply list_elem_of_here|reflexivity]. }
  intros name d r Hin Hr. apply elem_of_app in Hin as [Hin|Hin]; [by rewrite (wt_noResult_none _ Hn _ _ Hin) in Hr|].
  assert (Hd : d = LoadSummary s \/ d = ResultDocument (LoadResult (ID spec) (Proof op) (metricsForSummary spec s))).
  { repeat (apply elem_of_cons in Hin as [[= -> ->]|Hin]; [auto|]). by apply not_elem_of_nil in Hin. }
  destruct Hd as [->| ->]; [discriminate Hr|]. by injection Hr as <-.
Qed.

Lemma wt_execute_fails earned documents getenv err : noResult documents = true ->
  safeRun resultOf earned (documents ++ writeFailure getenv err, Exited 1).
Proof.
  intros H. left. exists 1. split; [reflexivity|]. split; [discriminate|]. cbn [fst]. apply wt_noResult_none.
  unfold noResult in *. rewrite forallb_app, H. reflexivity.
Qed.

Lemma wt_execute_earned spec env : selectedScenario (m_getenv env) = Ok spec -> safeRun resultOf (resultEarned env) (execute spec env).
Proof.
  intros Hs. unfold execute. destruct (runOperation spec (m_preflight env) makePayload makePayloadSet) as [preflight|err] eqn:Hp;
    [|by apply wt_execute_fails].
  pose proof (wt_runOperation_genuine _ _ _ Hp) as G. destruct (m_validationOnly env) eqn:Hv.
  - pose proof (wt_summaryFromOperation_accounts _ _ _ Hp) as A. destruct (wt_metrics_accounts _ _ _ A) as ((M1 & M2 & M3) & M4 & M5).
    assert (HL : CompletedOperations (summaryFromOperation preflight) = 1 /\ FailedOperations (summaryFromOperation preflight) = 0 /\
                 TimedOutOperations (summaryFromOperation preflight) = 0 /\ Last (summaryFromOperation preflight) = Some preflight).
    { unfold summaryFromOperation. destruct (0 <? DatagramCount (Proof preflight)); by split_and!. }
    destruct HL as (L1 & L2 & L3 & L4). apply (wt_finish_safe _ _ _ _ preflight); [unfold writeProofArtifacts; destruct (Datagram spec); reflexivity|exact L4|].
    split; cbn [RScenario RProof RMetrics]; [|by rewrite M2, M3].
    exists spec. split; [exact Hs|]. split; [reflexivity|]. split; [|split; [by rewrite Hv|split; [exact M4|exact M5]]].
    exists preflight. split; [exact Hp|]. split; [exact G|]. intros _. split; [reflexivity|]. by rewrite M1.
  - pose proof (wt_runFor_accounts spec (m_warmup env)) as W. pose proof (wt_runFor_accounts spec (m_measured env)) as A.
    set (warmup := runFor spec makePayload makePayloadSet (m_warmup env)) in *. clearbody warmup.
    set (measured := runFor spec makePayload makePayloadSet (m_measured env)) in *. clearbody measured.
    destruct (FailedOperations warmup =? 0) eqn:W1; [|by apply wt_execute_fails].
    destruct (TimedOutOperations warmup =? 0) eqn:W2; [|by apply wt_execute_fails]. cbn [negb orb].
    destruct (CompletedOperations measured =? 0) eqn:E0; [by apply wt_execute_fails|].
    destruct (FailedOperations measured =? 0) eqn:E1; [|by apply wt_execute_fails].
    destruct (TimedOutOperations measured =? 0) eqn:E2; [|by apply wt_execute_fails]. cbn [negb orb].
    apply Z.eqb_eq in W1, W2, E1, E2. apply Z.eqb_neq in E0.
    destruct (wt_accounts_all _ _ _ W W1 W2) as (_ & W3 & _). destruct (wt_accounts_all _ _ _ A E1 E2) as (A1 & A2 & A3).
    destruct (wt_metrics_accounts _ _ _ A) as ((M1 & M2 & M3) & M4 & M5).
    destruct (Last measured) as [op|] eqn:EL.
    2: { exfalso. cbn in A3. symmetry in A3. apply last_None in A3. destruct (m_measured env).1; [|discriminate].
         rewrite A1 in E0. by apply E0. }
    apply (wt_finish_safe _ _ _ _ op); [unfold writeProofArtifacts; destruct (Datagram spec); reflexivity|exact EL|].
    split; cbn [RScenario RProof RMetrics]; [|by rewrite M2, M3].
    exists spec. split; [exact Hs|]. split; [reflexivity|]. split.
    { exists preflight. split; [exact Hp|]. split; [exact G|]. by rewrite Hv. }
    split; [|split; [exact M4|exact M5]]. intros _. split; [exact W3|]. split.
    { intros Hn. rewrite Hn in A1. by apply E0. }
    split; [exact A2|]. split; [by rewrite M1|]. exists op. by split.
Qed.

Lemma wt_main_safe env : m_showVersion env = false -> safeEnd resultOf (resultEarned env) (main env).
Proof.
  intros Hv. unfold main. rewrite Hv.
  destruct (negb (forallb _ _)); [by apply safeEnd_nothing|].
  destruct (selectedScenario (m_getenv env)) as [spec|err] eqn:Hs.
  2: { apply commit_safe. left. exists 3. split; [reflexivity|]. split; [discriminate|]. by apply wt_noResult_none. }
  destruct (negb _); [by apply safeEnd_nothing|]. destruct (bool_decide _); [by apply safeEnd_nothing|].
  destruct (normalizeTarget _ _ _ _); [|by apply safeEnd_nothing].
  destruct (m_roots env); [by apply safeEnd_nothing|].
  pose proof (wt_execute_earned spec env Hs) as H. destruct (execute spec env) as [docs e]. by apply commit_safe.
Qed.

(** C31: However it ends, the executor never dereferences a missing last operation; every
    result it has written is earned, in the scenario that was asked for; and it ends with the
    exit code 0 only after printing its version or with a result on disk. *)
Theorem webtransport_run_earned env :
  let '(e, documents) := main env in
  e <> Panicked /\
  (forall name r, (name, ResultDocument r) ∈ documents -> resultEarned env r) /\
  (e = Exited 0 -> m_showVersion env = true \/ exists r, ("result.json", ResultDocument r) ∈ documents).
Proof.
  destruct (m_showVersion env) eqn:Ev.
  - unfold main. rewrite Ev. split; [discriminate|]. split; [intros name r H; by apply not_elem_of_nil in H|by left].
  - pose proof (wt_main_safe env Ev) as (H1 & H2 & H3). destruct (main env) as [e documents]. cbn [fst snd] in *.
    split; [exact H1|]. split; [intros name r H; by apply (H2 _ _ r H)|].
    intros He. right. destruct (H3 He) as (d & r & H & Hr). exists r. destruct d; try discriminate Hr. by injection Hr as ->.
Qed.

(** A warm-up without a single operation is accepted: the executor asks only that none of
    them failed. *)
Lemma empty_warmup_accepted spec payload payloads seconds :
  let warmup := runFor spec payload payloads ([], seconds) in
  negb (FailedOperations warmup =? 0) || negb (TimedOutOperations warmup =? 0) = false /\ CompletedOperations warmup = 0.
Proof. by split. Qed.

Definition exampleMain (scenario : string) : mainEnv :=
  MainEnv (fun name => if String.eqb name "PLAB_SCENARIO_ID" then scenario else "") "server.test:4433"
    (fun v => Ok (TargetURL "https" "server.test:4433" "server.test" "4433")) None
    true false None (fun _ => None) exampleOperation ([], f_zero) ([], f_zero).
#[local] Transparent makePayload makePayloadSet hash seqZ makeDatagramPayload sha256_hex.
Example datagram_run_succeeds : (main (exampleMain datagramScenarioID)).1 = Exited 0.
Proof. vm_compute. reflexivity. Qed.
