(* ===== verification/Resolvers.v ===== *)
(** The helpers beside the packaged resolvers: the fixture authority that unbound and the Knot
    resolver forward to, and the control endpoint that flushes a resolver's cache
    (implementations/unbound-doh2-resolver, knot-resolver-secure-dns-resolver and
    bind9-dot-resolver, docker/helper). *)
From S2P Require Export Prelude GoText GoHttp DnsWire.

(** ** The fixture authority *)

(** plab.test, type A, class IN. *)
Definition canonicalQuestion : bytes := [4; 112; 108; 97; 98; 4; 116; 101; 115; 116; 0; 0; 1; 0; 1].
Definition answerRecord : bytes := [192; 12; 0; 1; 0; 1; 0; 0; 0; 0; 0; 4; 192; 0; 2; 1].

Definition lower_octet (b : Z) : Z := if (65 <=? b) && (b <=? 90) then u8 (b + 32) else b.
(** The loop over the question: the octets of the request from the twelfth on. *)
Fixpoint sameQuestion (observed expected : bytes) : bool :=
  match expected, observed with
  | [], _ => true
  | e :: expected, o :: observed => (lower_octet o =? e) && sameQuestion observed expected
  | _ :: _, [] => false
  end.
Definition uint16_at (m : bytes) (i : nat) : Z := be_decode (slice i (i + 2) m).

Definition fixtureResponse (request : bytes) : option bytes :=
  if (len request <? 12 + len canonicalQuestion) || negb (uint16_at request 4 =? 1) then None
  else if negb (sameQuestion (drop 12 request) canonicalQuestion) then None
  else
    let flags := Z.lor 33792 (Z.land (uint16_at request 2) 256) in
    Some (slice 0 2 request ++ be_encode 2 flags ++ be_encode 2 1 ++ be_encode 2 1 ++ [0; 0; 0; 0]
            ++ slice 12 27 request ++ answerRecord).

(** [serveAuthority]: what the socket delivers, an error or a datagram, its sender and the
    fault of its answer; the answers that were sent. The buffer keeps the first 512 octets,
    and no error ends the loop. *)
Fixpoint serveAuthority (input : list (res (string * bytes) * option goerror)) : list (string * bytes) :=
  match input with
  | [] => []
  | (Err _, _) :: input => serveAuthority input
  | (Ok (peer, datagram), fault) :: input =>
      match fixtureResponse (take 512 datagram), fault with
      | Some response, None => (peer, response) :: serveAuthority input
      | _, _ => serveAuthority input
      end
  end.

Module Knot.

(** The copy of the authority in this helper, the same but for what it logs. *)
Definition fixtureResponse : bytes -> option bytes := fixtureResponse.

(** The loop of [questionType] from [offset] on: every turn moves past an octet. *)
Fixpoint typeLoop (fuel : nat) (message : bytes) (offset : Z) : Z :=
  match fuel with
  | O => 0
  | S fuel =>
      if len message <=? offset then 0 else
      let length := byte_at message (Z.to_nat offset) in
      let offset := offset + 1 in
      if length =? 0 then if offset + 2 <=? len message then uint16_at message (Z.to_nat offset) else 0
      else if (63 <? length) || (len message <? offset + length) then 0
      else typeLoop fuel message (offset + length)
  end.
Definition questionType (message : bytes) : Z := typeLoop (S (length message)) message 12.

End Knot.

(** ** The control endpoint *)

(** The command that flushes the cache of each resolver, given its configuration. *)
Definition unboundCommand (config : string) : list string :=
  ["/opt/unbound/sbin/unbound-control"; "-c"; config; "flush_zone"; "plab.test."].
Definition knotCommand (config : string) : list string :=
  ["/usr/bin/kresctl"; "--config"; config; "cache"; "clear"; "plab.test."].
Definition bindCommand (config : string) : list string := ["rndc"; "-c"; config; "flush"].

Section control.
(** [run] is [exec.Command(...).CombinedOutput()]. *)
Context (command : list string) (run : list string -> bytes * option goerror).

Definition healthHandler (w : writer) : writer := write_header 204 w.
Definition flushHandler (r : request) (w : writer) : writer :=
  if negb (String.eqb (Method r) "POST") then http_error "POST required" 405 w
  else match run command with
       | (output, Some err) => http_error ("flush failed: " +:+ error_string err +:+ ": " +:+ string_of_bytes output) 503 w
       | (_, None) => write_header 204 w
       end.
(** The mux, for a clean path. *)
Definition controlMux (r : request) (w : writer) : writer :=
  if String.eqb (Path r) "/health" then healthHandler w
  else if String.eqb (Path r) "/flush" then flushHandler r w
  else not_found w.
End control.

(** ** Facts on the authority *)

Lemma sameQuestion_spec observed expected :
  sameQuestion observed expected = true <-> lower_octet <$> take (length expected) observed = expected.
Proof.
  revert observed. induction expected as [|e expected IH]; intros observed; [by destruct observed|].
  destruct observed as [|o observed]; [by split|]. cbn [sameQuestion length take fmap list_fmap].
  rewrite andb_true_iff, Z.eqb_eq, IH. split; [by intros [-> ->]|by intros [= -> ->]].
Qed.
