(* ===== verification/ResolversProps.v ===== *)
(** Theorems on the resolver helpers: their authority answers like go-dns-classic-authority,
    and a flush succeeds for an executor exactly when the resolver's command did. *)
From S2P Require Export Resolvers.
From S2P Require Import DnsClassic DnsClassicProps.

(** ** The authority *)

(** The fixture authority of the unbound and Knot helpers answers a query exactly when it
    has one question, and that is for the address of plab.test in any mix of cases; the
    answer keeps the ID, the wish for recursion and the case of the question. *)
Theorem fixture_answers_exactly request response :
  fixtureResponse request = Some response <->
  27 <= len request /\ uint16_at request 4 = 1 /\ lower_octet <$> slice 12 27 request = canonicalQuestion /\
  response = take 2 request ++ be_encode 2 (Z.lor 33792 (Z.land (uint16_at request 2) 256)) ++ [0; 1; 0; 1; 0; 0; 0; 0]
             ++ slice 12 27 request ++ answerRecord.
Proof.
  unfold fixtureResponse. change (12 + len canonicalQuestion) with 27.
  assert (Hq : sameQuestion (drop 12 request) canonicalQuestion = true <-> lower_octet <$> slice 12 27 request = canonicalQuestion)
    by apply sameQuestion_spec.
  assert (H0 : slice 0 2 request = take 2 request) by reflexivity.
  destruct (Z.ltb_spec (len request) 27) as [Hl|Hl]; [split; [discriminate|lia]|].
  destruct (Z.eqb_spec (uint16_at request 4) 1) as [H1|H1]; cbn [negb orb]; [|split; [discriminate|tauto]].
  destruct (sameQuestion _ _); cbn [negb].
  - rewrite H0. split; [intros [= <-]; by split_and!; [lia|done|apply Hq|]|by intros (_ & _ & _ & ->)].
  - split; [discriminate|]. intros (_ & _ & H & _). by apply Hq in H.
Qed.

(** To the address query of the DNS executors, with any message ID, the helpers'
    authority gives the answer those executors expect, which is also that of
    go-dns-classic-authority; what that one answers otherwise, the helpers refuse. *)
Theorem fixture_authorities_agree id :
  is_id id ->
  fixtureResponse (withID aQuery id) = Some (withID aResponse id) /\
  Authority.serveDatagram (withID aQuery id) = Some (withID aResponse id) /\
  fixtureResponse (withID largeQuery id) = None.
Proof.
  intros Hid. assert (Hs : forall m, length (be_encode 2 id ++ drop 2 m) = length (be_encode 2 id ++ drop 2 m)) by reflexivity.
  split; [|split].
  - apply fixture_answers_exactly. unfold withID.
    destruct (be_encode 2 id) as [|a [|b [|]]] eqn:E; try (pose proof (length_be_encode 2 id) as H; rewrite E in H; discriminate H).
    split; [vm_compute; discriminate|]. split; [reflexivity|]. split; reflexivity.
  - unfold Authority.serveDatagram. by rewrite responseFor_a.
  - unfold fixtureResponse, withID.
    destruct (be_encode 2 id) as [|a [|b [|]]] eqn:E; try (pose proof (length_be_encode 2 id) as H; rewrite E in H; discriminate H).
    reflexivity.
Qed.

Lemma fixture_authorities_agree_witness : fixtureResponse (withID aQuery 4660) = Some (withID aResponse 4660).
Proof. apply (fixture_authorities_agree 4660). unfold is_id. lia. Defined.

(** However a client spells the name, it gets its own spelling back. *)
Example mixed_case_is_kept :
  (fun r => slice 12 22 r) <$> fixtureResponse (mustHex "12340100000100000000000004504c616204744573740000010001")
  = Some (mustHex "04504c61620474457374").
Proof. vm_compute. reflexivity. Qed.

(** [serveAuthority] answers every datagram on its own and in turn, errors included. *)
Lemma serveAuthority_app input more : serveAuthority (input ++ more) = serveAuthority input ++ serveAuthority more.
Proof.
  induction input as [|[[[peer d]|err] fault] input IH]; [reflexivity| |exact IH]. cbn [app serveAuthority].
  destruct (fixtureResponse _); [|exact IH]. destruct fault; [exact IH|]. cbn [app]. by rewrite IH.
Qed.

(** The walk over the labels ends: past the fuel the offset is past the message. *)
Lemma typeLoop_fuel message fuel more : forall offset, 0 <= offset -> all_bytes message -> len message - offset < Z.of_nat fuel ->
  Knot.typeLoop (fuel + more) message offset = Knot.typeLoop fuel message offset.
Proof.
  induction fuel as [|fuel IH]; intros offset Ho Hb Hf.
  - destruct more; [reflexivity|]. cbn [Nat.add Knot.typeLoop]. destruct (Z.leb_spec (len message) offset); [reflexivity|lia].
  - cbn [Nat.add Knot.typeLoop]. destruct (Z.leb_spec (len message) offset) as [|Hlt]; [reflexivity|].
    destruct (_ =? 0); [reflexivity|]. destruct (_ || _); [reflexivity|].
    pose proof (byte_at_byte message (Z.to_nat offset) Hb) as Hx. unfold is_byte in Hx. apply IH; [lia|exact Hb|lia].
Qed.
Lemma questionType_total message more : all_bytes message ->
  Knot.typeLoop (S (length message) + more) message 12 = Knot.questionType message.
Proof. intros H. apply typeLoop_fuel; [lia|exact H|unfold len; lia]. Qed.

(** ** The control endpoint *)

(** The reply of a helper to the POST of an executor. *)
Definition controlReply (command : list string) (run : list string -> bytes * option goerror) (path : string) : res (Z * bytes) :=
  let r := response_of (controlMux command run (Request 1 None "POST" path [] (Stream [] EEOF)) (writer_new [])) in
  Ok (StatusCode r, st_data (Body r)).

Lemma controlReply_flush command run :
  controlReply command run "/flush" =
    Ok (match run command with
        | (_, None) => (204, [])
        | (output, Some err) =>
            (503, bytes_of_string ("flush failed: " +:+ error_string err +:+ ": " +:+ string_of_bytes output) ++ [10])
        end).
Proof.
  unfold controlReply, controlMux, flushHandler. destruct (run command) as [output [err|]]; [|reflexivity].
  generalize ("flush failed: " +:+ error_string err +:+ ": " +:+ string_of_bytes output). intros message. reflexivity.
Qed.

(** The cache flush of a DNS executor, posted to a helper's control endpoint, is a success
    exactly when the resolver's command was; otherwise the error carries the reply. *)
Theorem flush_decided getenv host portText port command run :
  atoi portText = Some port -> env_value getenv "PLAB_RESOLVER_CONTROL_URL" = "" ->
  let control url := controlReply command run
    (if String.eqb url ("http://" +:+ joinHostPort host (pretty (port + 1)) +:+ "/flush") then "/flush" else "/") in
  match run command with
  | (_, None) => flushResolverCache getenv (Ok (host, portText)) control = None
  | (output, Some err) => exists reply, flushResolverCache getenv (Ok (host, portText)) control
      = Some (EMsg ("resolver cache flush returned " +:+ pretty 503 +:+ ": " +:+ trim_space (string_of_bytes (take 1024 reply)))) /\
      reply = bytes_of_string ("flush failed: " +:+ error_string err +:+ ": " +:+ string_of_bytes output) ++ [10]
  end.
Proof.
  intros Hport Henv control. unfold flushResolverCache. rewrite Hport, Henv. cbn [String.eqb].
  unfold control. rewrite String.eqb_refl, controlReply_flush.
  destruct (run command) as [output [err|]]; [|reflexivity].
  generalize ("flush failed: " +:+ error_string err +:+ ": " +:+ string_of_bytes output). intros message.
  eexists. split; reflexivity.
Qed.

Lemma flush_decided_witness :
  flushResolverCache (fun _ => "") (Ok ("127.0.0.1", "853"))
    (fun url => controlReply (bindCommand "rndc.conf") (fun _ => ([], None))
       (if String.eqb url ("http://" +:+ joinHostPort "127.0.0.1" (pretty (853 + 1)) +:+ "/flush") then "/flush" else "/")) = None.
Proof.
  exact (flush_decided (fun _ => "") "127.0.0.1" "853" 853 (bindCommand "rndc.conf") (fun _ => ([], None)) eq_refl eq_refl).
Defined.
