(* ===== verification/Origins.v ===== *)
(** The HTTP origins written in Go: go-nethttp-http1, go-nethttp-http2 and quic-go-http3. *)
From Stdlib Require Import Ascii.
From S2P Require Export Prelude GoText GoHttp.

(** ** http.ServeMux *)

(** Handlers by path; the path of a request is clean, or the mux would redirect it. The
    pattern of the root, if there is one, takes the rest. *)
Abbreviation handler := (writer -> writer).
Fixpoint serveMux (routes : list (string * handler)) (fallback : handler) (path : string) : handler :=
  match routes with
  | [] => fallback
  | (pattern, h) :: routes => if String.eqb pattern path then h else serveMux routes fallback path
  end.

Definition dq (s : string) : string := dquote +:+ s +:+ dquote.
(** A JSON object of strings, fields in the order given. *)
Definition json_fields (fields : list (string * string)) : string :=
  "{" +:+ join "," ((fun '(k, v) => dq k +:+ ":" +:+ v) <$> fields) +:+ "}".
Definition json_strings (l : list string) : string := "[" +:+ join "," (dq <$> l) +:+ "]".

(** [fmt.Fprint] of a string to the writer, its error ignored. *)
Definition print (body : string) (w : writer) : writer := (write_body (bytes_of_string body) w).2.
Definition fixed (contentType body : string) : handler := fun w => print body (set_header "content-type" contentType w).

(** ** go-nethttp-http1 and go-nethttp-http2 *)

Module Http1.
Definition newHandler : string -> handler :=
  serveMux
    [("/health", fixed "application/json"
        (json_fields [("status", dq "ok"); ("implementationId", dq "go-nethttp-http1"); ("protocol", dq "h1")]));
     ("/protocol-lab/metadata", fixed "application/json"
        (json_fields [("implementationId", dq "go-nethttp-http1");
           ("packageId", dq "org.protocol-lab.components.implementation.go-nethttp-http1"); ("protocol", dq "h1");
           ("protocolVersion", dq "http/1.1"); ("supportedScenarios", json_strings ["http1.core.plaintext"; "http1.core.json"])]));
     ("/plaintext", fixed "text/plain" "Hello, World!");
     ("/json", fixed "application/json" (json_fields [("message", dq "Hello, World!")]))] not_found.
End Http1.

(** Its h2c wrapper passes the requests of HTTP/2 on as they are. *)
Module Http2.
Definition newHandler : string -> handler :=
  serveMux
    [("/health", fixed "application/json"
        (json_fields [("status", dq "ok"); ("implementationId", dq "go-nethttp-http2"); ("protocol", dq "h2")]));
     ("/protocol-lab/metadata", fixed "application/json"
        (json_fields [("implementationId", dq "go-nethttp-http2");
           ("packageId", dq "org.protocol-lab.components.implementation.go-nethttp-http2"); ("protocol", dq "h2");
           ("protocolVersion", dq "h2c"); ("supportedScenarios", json_strings ["http2.core.plaintext"; "http2.core.json"])]));
     ("/plaintext", fixed "text/plain" "Hello, World!");
     ("/json", fixed "application/json" (json_fields [("message", dq "Hello, World!")]))] not_found.
End Http2.

(** ** quic-go-http3 *)

Module Http3.

Definition implementationID : string := "quic-go-http3".
Definition packageID : string := "org.protocol-lab.components.implementation.quic-go-http3".
Definition quicGoVersion : string := "v0.60.0".
Definition streamBytesCanonicalURL : string := "chunks=100&size=16384&delayMs=0".
Definition streamBytesCanonicalRows : Z := 100.
Definition streamBytesChunkSize : Z := 16 * 1024.

(** [url.Values] and its [Get]. *)
Abbreviation values := (list (string * string)).
Definition Get (query : values) (key : string) : string :=
  match List.find (fun kv => String.eqb kv.1 key) query with Some kv => kv.2 | None => "" end.

Definition repeated (c : ascii) (n : Z) : bytes := replicate (Z.to_nat n) (ord c).

(** A handler that serves [body]; [Write] may fail. *)
Definition textHandler (body : bytes) (contentType : string) : handler := fun w =>
  let w := set_header "content-type" contentType w in
  let w := set_header "content-length" (pretty (len body)) w in
  (write_body body w).2.

(** [%02d]. *)
Definition two_digits (n : Z) : string := if n <? 10 then "0" +:+ pretty n else pretty n.

Definition responseHeadersHandler (query : values) : handler := fun w =>
  if negb (String.eqb (Get query "count") "50") || negb (String.eqb (Get query "size") "32")
  then http_error "expected count=50 and size=32" 400 w
  else
    let value := string_of_bytes (repeated "h" 32) in
    let w := fold_left (fun w index => set_header ("x-protocol-bench-header-" +:+ two_digits index) value w) (seqZ 0 50) w in
    let w := set_header "content-type" "text/plain" w in
    let w := set_header "content-length" "7" w in
    (write_body (bytes_of_string "headers") w).2.

Record streamBytesParams := StreamBytesParams { chunks : Z; size : Z; delayMs : Z }.

(** One of the three parameters: absent, or an integer in range. *)
Definition intParam (query : values) (key : string) (default lowest : Z) : res Z :=
  let value := Get query key in
  if String.eqb value "" then Ok default
  else match atoi value with
       | Some parsed => if parsed <? lowest then Err (EMsg ("invalid " +:+ key +:+ " query parameter")) else Ok parsed
       | None => Err (EMsg ("invalid " +:+ key +:+ " query parameter"))
       end.
Definition parseStreamBytesParams (query : values) : res streamBytesParams :=
  let? chunks := intParam query "chunks" streamBytesCanonicalRows 1 in
  let? size := intParam query "size" streamBytesChunkSize 1 in
  let? delayMs := intParam query "delayMs" 0 0 in
  guard (chunks =? streamBytesCanonicalRows) && (size =? streamBytesChunkSize) && (delayMs =? 0)
    else EMsg ("unsupported stream query; expected " +:+ streamBytesCanonicalURL) in
  Ok (StreamBytesParams chunks size delayMs).

(** [chunk[i] = byte(i % 251)]. *)
Fixpoint chunkFrom (n : nat) (i : Z) : bytes :=
  match n with O => [] | S n => u8 (i mod 251) :: chunkFrom n (i + 1) end.
Definition deterministicChunk (size : Z) : bytes := chunkFrom (Z.to_nat size) 0.

(** [streamBytes], [n] chunks before its end; [ctx] is what the context's error is before
    each of the writes, [None] when the list has ended. *)
Fixpoint streamChunks (chunk : bytes) (n : nat) (ctx : list (option goerror)) (w : writer) : option goerror * writer :=
  match n with
  | O => (None, w)
  | S n =>
      match default None (head ctx) with
      | Some err => (Some err, w)
      | None =>
          match write_body chunk w with
          | (Some err, w) => (Some err, w)
          | (None, w) => streamChunks chunk n (tail ctx) w
          end
      end
  end.
Definition streamBytes (ctx : list (option goerror)) (params : streamBytesParams) (w : writer) : option goerror * writer :=
  streamChunks (deterministicChunk (size params)) (Z.to_nat (chunks params)) ctx w.

(** An error of the stream is at most logged. *)
Definition streamBytesHandler (query : values) (ctx : list (option goerror)) : handler := fun w =>
  match parseStreamBytesParams query with
  | Err err => http_error (error_string err) 400 w
  | Ok params =>
      let w := write_header 200 (set_header "content-type" "application/octet-stream" w) in
      (streamBytes ctx params w).2
  end.

(** [writeJSON]: the encoder sorts the keys and ends the value with a newline. *)
Definition writeJSON (status : Z) (value : string) : handler := fun w =>
  let w := write_header status (set_header "content-type" "application/json" w) in
  (write_body (bytes_of_string value ++ [10]) w).2.

Definition supportedScenarios : list string :=
  ["http3.core.plaintext"; "http3.core.json"; "http3.core.status"; "http3.payload.bytes.1kb"; "http3.payload.bytes.64kb";
   "http3.payload.bytes.1mb"; "http3.payload.stream.100x16kb"; "http3.headers.response-headers-50x32";
   "http3.protocol.qpack-repeated-headers"].
Definition unsupportedKnownCases : list string := ["h1"; "h2"; "h2c"; "raw-quic"; "websocket"; "server-sent-events"].

(** [routes]: the query of the request, the errors of its context, the time and the process. *)
Definition routes (query : values) (ctx : list (option goerror)) (utc : string) (processId : Z) : string -> handler :=
  let octets n := textHandler (repeated "x" n) "application/octet-stream" in
  serveMux
    [("/health", writeJSON 200 (json_fields [("implementationId", dq implementationID); ("protocol", dq "h3"); ("status", dq "ok")]));
     ("/status", writeJSON 200
        (json_fields [("implementation", dq implementationID); ("processId", pretty processId); ("protocol", dq "h3");
                      ("server", dq "quic-go"); ("utc", dq utc)]));
     ("/protocol-lab/metadata", writeJSON 200
        (json_fields [("implementationId", dq implementationID); ("packageId", dq packageID); ("protocol", dq "h3");
                      ("protocolVersion", dq "http/3"); ("quicGoVersion", dq quicGoVersion);
                      ("supportedScenarios", json_strings supportedScenarios);
                      ("unsupportedKnownCases", json_strings unsupportedKnownCases)]));
     ("/plaintext", textHandler (bytes_of_string "Hello, World!") "text/plain");
     ("/json", textHandler (bytes_of_string (json_fields [("message", dq "Hello, World!")])) "application/json");
     ("/bytes/1024", octets 1024); ("/bytes/1kb", octets 1024);
     ("/bytes/65536", octets 65536); ("/bytes/64kb", octets 65536);
     ("/bytes/1048576", octets 1048576); ("/bytes/1mb", octets 1048576);
     ("/headers/response", responseHeadersHandler query);
     ("/stream/bytes", streamBytesHandler query ctx)]
    (http_error "not found" 404).

End Http3.
