(* ===== verification/OriginsProps.v ===== *)
(** Theorems on the HTTP origins: from the URL a check of the HTTP load executors requests to
    the handler of go-nethttp-http1 or go-nethttp-http2 that answers it, which answers pass,
    and the byte stream of quic-go-http3. *)
From Stdlib Require Import Ascii.
From S2P Require Export Origins.
From S2P Require H2Load H2LoadMain Http1Load.

(** ** From the URL of a request to its handler *)

(** The path of a URL, as net/http sends it in a request and reads it in one: what is left
    of the scheme and the authority, up to the query or the fragment. *)
Definition ends_authority (c : ascii) : bool := bool_decide (c ∈ ["/"; "?"; "#"]%char).
Fixpoint after_scheme (url : string) : string :=
  match url with
  | String ":" (String "/" (String "/" rest)) => rest
  | String _ rest => after_scheme rest
  | EmptyString => EmptyString
  end.
Fixpoint after_authority (s : string) : string :=
  match s with
  | String c rest => if ends_authority c then s else after_authority rest
  | EmptyString => EmptyString
  end.
Fixpoint before_query (s : string) : string :=
  match s with
  | String c rest => if bool_decide (c ∈ ["?"; "#"]%char) then EmptyString else String c (before_query rest)
  | EmptyString => EmptyString
  end.
Definition urlPath (url : string) : string :=
  let path := before_query (after_authority (after_scheme url)) in if String.eqb path "" then "/" else path.

(** A part of an authority, as url.Parse leaves it and String renders it. *)
Fixpoint plain (s : string) : bool :=
  match s with String c rest => negb (ends_authority c) && plain rest | EmptyString => true end.

Lemma after_authority_plain s rest : plain s = true -> after_authority (s +:+ rest) = after_authority rest.
Proof.
  induction s as [|c s IH]; [done|]. cbn [plain]. intros [Hc Hs]%andb_true_iff. apply negb_true_iff in Hc.
  change (String c s +:+ rest) with (String c (s +:+ rest)). cbn [after_authority]. rewrite Hc. by apply IH.
Qed.

(** The URL that the executors build from a target and a path. *)
Lemma urlPath_joined userinfo host path :
  plain userinfo = true -> plain host = true ->
  urlPath ("http" +:+ "://" +:+ userinfo +:+ host +:+ path) = urlPath ("http" +:+ "://" +:+ path).
Proof.
  intros Hu Hh. unfold urlPath. change (after_scheme ("http" +:+ "://" +:+ ?r)) with r.
  by rewrite !after_authority_plain.
Qed.

(** ** The checks of the executors *)

(** What a client gets of an origin for a URL, over HTTP/1.1 or HTTP/2. *)
Definition received (proto : string) (major minor : Z) (h : string -> handler) (url : string) : H2Load.httpResponse :=
  let r := response_of (h (urlPath url) (writer_new [])) in
  H2Load.HttpResponse (StatusCode r) (header_get (HHeader r) "content-type") proto major minor (Body r).
Definition checkOf (response : H2Load.httpResponse) : H2Load.checkEnv := H2Load.CheckEnv None (Ok response).

(** The answers of the contract: 200 with the media type and the body. *)
Definition canonical (contentType body : string) (major minor : Z) (r : H2Load.httpResponse) : Prop :=
  H2Load.r_major r = major /\ H2Load.r_minor r = minor /\ H2Load.r_status r = 200 /\
  equal_fold (trim_space (default "" (head (split_on ";"%char (H2Load.r_contentType r))))) contentType = true /\
  H2Load.r_body r = Stream (bytes_of_string body) EEOF.
Definition fixtures : list (string * string * string) :=
  [("/plaintext", "text/plain", "Hello, World!");
   ("/json", "application/json", "{" +:+ dq "message" +:+ ":" +:+ dq "Hello, World!" +:+ "}")].

(** What an executor and the origin of its protocol promise each other: one check for each
    path of the contract; the request for the URL it builds gets the origin's answer, which
    passes; and an answer passes exactly when it is the canonical one. *)
Definition agree (joinURL : string -> res string) (runCheck : H2Load.checkEnv -> H2Load.scenarioExpectation -> H2Load.checkResult)
    (expectations : list H2Load.scenarioExpectation) (proto : string) (major minor : Z) (h : string -> handler) : Prop :=
  Forall2 (fun e '(path, contentType, body) => H2Load.e_path e = path /\
    (exists url, joinURL (H2Load.e_path e) = Ok url /\
       H2Load.CPassed (runCheck (checkOf (received proto major minor h url)) e) = true) /\
    forall r, H2Load.CPassed (runCheck (checkOf r) e) = true <-> canonical contentType body major minor r)
    expectations fixtures.

Lemma join_h1 p path : H2Load.u_scheme p = "http" -> H2Load.u_host p <> "" ->
  Http1Load.joinURL (Ok p) path = Ok ("http" +:+ "://" +:+ H2Load.u_userinfo p +:+ H2Load.u_host p +:+ path).
Proof. intros Hs Hh. unfold Http1Load.joinURL. cbn [res_bind]. apply String.eqb_neq in Hh. by rewrite Hs, Hh. Qed.
Lemma join_h2 p path : H2Load.u_scheme p = "http" -> H2Load.u_host p <> "" ->
  H2Load.joinURL (Ok p) path = Ok ("http" +:+ "://" +:+ H2Load.u_userinfo p +:+ H2Load.u_host p +:+ path).
Proof. intros Hs Hh. unfold H2Load.joinURL. cbn [res_bind]. apply String.eqb_neq in Hh. by rewrite Hs, Hh. Qed.

(** The problems of a check are none exactly for the answer it expects. *)
Lemma no_problem (b : bool) (x : string) : (if b then [x] else []) = [] <-> b = false.
Proof. by destruct b. Qed.

Lemma check_h1 target contentType body e r url :
  Http1Load.joinURL target (H2Load.e_path e) = Ok url -> H2Load.e_status e = 200 -> H2Load.e_contentType e = contentType ->
  H2Load.e_body e = bytes_of_string body ->
  H2Load.CPassed (Http1Load.runCheck target (checkOf r) e) = true <-> canonical contentType body 1 1 r.
Proof.
  intros Hu H1 H2 H3. unfold Http1Load.runCheck, canonical. rewrite Hu. cbn [checkOf H2Load.ce_request H2Load.ce_response].
  unfold Http1Load.checkProblems, Http1Load.isExactHTTP11, H2Load.mediaTypeMatches. rewrite H1, H2, H3.
  destruct (H2Load.r_body r) as [d e0]. cbn [st_end st_data]. split.
  - destruct e0; try discriminate. cbn [H2Load.CPassed]. intros H. apply bool_decide_eq_true in H.
    rewrite !app_nil, !no_problem, !negb_false_iff in H. destruct H as (E1 & E2 & E3 & _ & E5). reflect_bools.
    by split_and!; [..|f_equal].
  - intros (-> & -> & -> & E & [= -> ->]). cbn [H2Load.CPassed]. apply bool_decide_eq_true.
    rewrite E, !Z.eqb_refl. cbn [negb andb app]. by rewrite bool_decide_true.
Qed.
Lemma check_h2 target contentType body e r url :
  H2Load.joinURL target (H2Load.e_path e) = Ok url -> H2Load.e_status e = 200 -> H2Load.e_contentType e = contentType ->
  H2Load.e_body e = bytes_of_string body ->
  H2Load.CPassed (H2Load.runCheck target (checkOf r) e) = true <-> canonical contentType body 2 0 r.
Proof.
  intros Hu H1 H2 H3. unfold H2Load.runCheck, canonical. rewrite Hu. cbn [checkOf H2Load.ce_request H2Load.ce_response].
  unfold H2Load.checkProblems, H2Load.isExactHTTP2, H2Load.mediaTypeMatches. rewrite H1, H2, H3.
  destruct (H2Load.r_body r) as [d e0]. cbn [st_end st_data]. split.
  - destruct e0; try discriminate. cbn [H2Load.CPassed]. intros H. apply bool_decide_eq_true in H.
    rewrite !app_nil, !no_problem, !negb_false_iff in H. destruct H as (E1 & E2 & E3 & _ & E5). reflect_bools.
    by split_and!; [..|f_equal].
  - intros (-> & -> & -> & E & [= -> ->]). cbn [H2Load.CPassed]. apply bool_decide_eq_true.
    rewrite E, !Z.eqb_refl. cbn [negb andb app]. by rewrite bool_decide_true.
Qed.

(** C32: both net/http origins and the load executors of their protocols agree, for any http
    target with a host. The URL the executor builds for each check reaches, at the origin,
    the handler of the check's path; what that answers passes the check; and no other answer
    does: it has to be 200, of the exact protocol version and media type, with exactly the
    body of the contract and its end. *)
Theorem origins_pass_checks p :
  H2Load.u_scheme p = "http" -> H2Load.u_host p <> "" -> plain (H2Load.u_userinfo p) = true -> plain (H2Load.u_host p) = true ->
  agree (Http1Load.joinURL (Ok p)) (Http1Load.runCheck (Ok p)) Http1Load.defaultExpectations "HTTP/1.1" 1 1 Http1.newHandler /\
  agree (H2Load.joinURL (Ok p)) (H2Load.runCheck (Ok p)) H2Load.defaultExpectations "HTTP/2.0" 2 0 Http2.newHandler.
Proof.
  intros Hs Hh Hpu Hph. unfold agree, fixtures. split.
  - repeat (apply Forall2_cons; split); [..|apply Forall2_nil; exact I];
      (split; [reflexivity|]; split; [eexists; split; [by apply join_h1|]; eapply check_h1; [by apply join_h1|done..|];
               unfold received; rewrite urlPath_joined by done; vm_compute; by split_and!
              |intros r; eapply check_h1; [by apply join_h1|done..]]).
  - repeat (apply Forall2_cons; split); [..|apply Forall2_nil; exact I];
      (split; [reflexivity|]; split; [eexists; split; [by apply join_h2|]; eapply check_h2; [by apply join_h2|done..|];
               unfold received; rewrite urlPath_joined by done; vm_compute; by split_and!
              |intros r; eapply check_h2; [by apply join_h2|done..]]).
Qed.

Lemma origins_pass_checks_witness :
  let p := H2Load.ParsedURL "http" "" "127.0.0.1:8080" "127.0.0.1" "8080" in
  agree (H2Load.joinURL (Ok p)) (H2Load.runCheck (Ok p)) H2Load.defaultExpectations "HTTP/2.0" 2 0 Http2.newHandler.
Proof.
  intros p. refine (proj2 (origins_pass_checks p _ _ _ _)); [reflexivity|discriminate|reflexivity|reflexivity].
Defined.

(** ** The byte stream of quic-go-http3 *)











(** The fifty headers are sent exactly for the query that asks for them. *)
Example response_headers_sent :
  (fun r => (StatusCode r, length (HHeader r), header_get (HHeader r) "x-protocol-bench-header-07", string_of_bytes (st_data (Body r))))
    (response_of (Http3.responseHeadersHandler [("count", "50"); ("size", "32")] (writer_new [])))
  = (200, 52%nat, "hhhhhhhhhhhhhhhhhhhhhhhhhhhhhhhh", "headers").
Proof. vm_compute. reflexivity. Qed.
Example response_headers_refused :
  StatusCode (response_of (Http3.responseHeadersHandler [("count", "50")] (writer_new []))) = 400.
Proof. vm_compute. reflexivity. Qed.
