(* ===== verification/Serving.v ===== *)
(** What the servers written in Go share: the files and variables they start from, the
    document they announce themselves with, the TLS configuration they listen with, the
    loops that accept their connections, and what becomes of these when the process exits. *)
From Stdlib Require Import Ascii.
From S2P Require Export Prelude GoText GoHash TlsBase.

(** ** path/filepath, on Unix *)

Definition slash : ascii := "/"%char.

(** [filepath.Clean] over the elements of a path; [stack] holds, in reverse, those kept. *)
Fixpoint cleanElements (rooted : bool) (stack elements : list string) : list string :=
  match elements with
  | [] => stack
  | e :: elements =>
      if String.eqb e "" || String.eqb e "." then cleanElements rooted stack elements
      else if String.eqb e ".." then
        match stack with
        | top :: rest => if String.eqb top ".." then cleanElements rooted (".." :: stack) elements
                         else cleanElements rooted rest elements
        | [] => cleanElements rooted (if rooted then [] else [".."]) elements
        end
      else cleanElements rooted (e :: stack) elements
  end.
Definition Clean (path : string) : string :=
  let rooted := has_prefix path "/" in
  let out := join "/" (reverse (cleanElements rooted [] (split_on slash path))) in
  if rooted then "/" +:+ out else if String.eqb out "" then "." else out.
(** [filepath.Join] drops the empty elements that come first. *)
Fixpoint Join (elements : list string) : string :=
  match elements with
  | [] => ""
  | e :: rest => if String.eqb e "" then Join rest else Clean (join "/" elements)
  end.
(** [filepath.Dir]: the path up to its last slash. *)
Definition Dir (path : string) : string :=
  match removelast (split_on slash path) with
  | [] => Clean ""
  | parents => Clean (join "/" parents +:+ "/")
  end.

(** ** The process *)

(** What a server starts from: its environment and flags, its executable and files, what
    [tls.LoadX509KeyPair] makes of two of them (the chain), [x509.ParseCertificate], whether
    [AppendCertsFromPEM] found a certificate, the address [net.Listen] or its like binds,
    and the host and port of an address, empty when [net.SplitHostPort] fails. *)
Record process := Process {
  p_getenv : string -> string; p_flag : string -> option string; p_executable : res string; p_stat : string -> bool;
  p_readFile : string -> res bytes; p_keyPair : string -> string -> res (list bytes);
  p_parse : bytes -> res certificate; p_pem : bytes -> bool;
  p_listen : string -> string -> res string; p_split : string -> string * string
}.

Definition envOr (p : process) (name fallback : string) : string :=
  let value := env_value (p_getenv p) name in if String.eqb value "" then fallback else value.
(** [flag.String]: what the command line gives, or the default. *)
Definition flagOr (p : process) (name value : string) : string := default value (p_flag p name).

(** A file of the package: beside the executable if it is there, or in the parent. *)
Definition materialPath (p : process) (relative : string) : string :=
  match p_executable p with
  | Ok executable =>
      let candidate := Join [Dir executable; ".."; ".."; relative] in
      if p_stat p candidate then candidate else Join [".."; relative]
  | Err _ => Join [".."; relative]
  end.
Definition packagedRoot (p : process) : string :=
  match p_executable p with
  | Err _ => "."
  | Ok executable => Clean (Join [Dir executable; ".."; ".."])
  end.
Definition loadRoots (p : process) (path : string) : res unit :=
  let? data := p_readFile p path in
  guard p_pem p data else EMsg "client root PEM contained no certificate" in Ok tt.

(** The address of a server that listens where PLAB_LISTEN_ADDRESS says, or on a port. *)
Definition listenAddress (fallback : string) (p : process) : string :=
  let explicit := env_value (p_getenv p) "PLAB_LISTEN_ADDRESS" in
  if negb (String.eqb explicit "") then explicit else
  let port := env_value (p_getenv p) "PLAB_TARGET_PORT" in
  if negb (String.eqb port "") then "127.0.0.1:" +:+ port else fallback.

(** ** The announcement *)

Inductive json := JString (s : string) | JBool (b : bool) | JNumber (n : Z) | JStrings (l : list string).
Abbreviation document := (list (string * json)).
Definition field (d : document) (name : string) : option json :=
  snd <$> List.find (fun kv => String.eqb kv.1 name) d.

(** ** crypto/tls: configurations *)

Record tlsConfig := TlsConfig {
  MinVersion : Z; MaxVersion : Z; CipherSuites : list Z; CurvePreferences : list Z; NextProtos : list string;
  SessionTicketsDisabled : bool; RequireAndVerifyClientCert : bool
}.
(** The suites that exchange the key by RSA, where no group is used. *)
Definition legacyRSA (cipher : Z) : bool :=
  existsb (Z.eqb cipher) [0x0005; 0x000a; 0x002f; 0x0035; 0x003c; 0x009c; 0x009d].

(** What crypto/tls documents of the sessions of a server with a configuration: the version
    is within its bounds (a maximum of 0 is none), the suite of a session before TLS 1.3 and
    the group are among those configured, the protocol is one of its own or, when the client
    asks for none, empty, and nothing is resumed when session tickets are disabled. *)
Record negotiated (config : tlsConfig) (version cipher curve : Z) (protocol : string) (resumed : bool) : Prop := {
  ng_version : MinVersion config <= version /\ (MaxVersion config = 0 \/ version <= MaxVersion config);
  ng_cipher : version < VersionTLS13 -> CipherSuites config = [] \/ cipher ∈ CipherSuites config;
  ng_curve : CurvePreferences config = [] \/ curve ∈ CurvePreferences config
             \/ (version < VersionTLS13 /\ legacyRSA cipher = true);
  ng_protocol : protocol = "" \/ protocol ∈ NextProtos config;
  ng_resumed : SessionTicketsDisabled config = true -> resumed = false
}.

(** ** Accepting connections *)

(** How a server ends: it still waits, it has returned from [main], or it has printed an
    error and exited. *)
Inductive ending := Waiting | Stopped | Died (err : goerror).
Definition exitCode (e : ending) : option Z :=
  match e with Waiting => None | Stopped => Some 0 | Died _ => Some 1 end.

(** What a wait for a connection gives: one, or an error, with whether the context of the
    signals was done by then. *)
Inductive arrival (A : Type) := Arrived (a : A) | AcceptFailed (err : goerror) (cancelled : bool).
Arguments Arrived {A}. Arguments AcceptFailed {A}.
(** What a loop does with an error: it ends, prints it and goes on, or just goes on. *)
Inductive reaction := End (e : ending) | Print | Ignore.

Record serving (A : Type) := Serving { s_served : list A; s_printed : list goerror; s_end : ending }.
Arguments Serving {A}. Arguments s_served {A}. Arguments s_printed {A}. Arguments s_end {A}.

(** The loop over the arrivals: every connection is handed to a goroutine of its own. *)
Fixpoint acceptLoop {A} (react : goerror -> bool -> reaction) (arrivals : list (arrival A)) : serving A :=
  match arrivals with
  | [] => Serving [] [] Waiting
  | Arrived a :: arrivals =>
      let s := acceptLoop react arrivals in Serving (a :: s_served s) (s_printed s) (s_end s)
  | AcceptFailed err cancelled :: arrivals =>
      match react err cancelled with
      | End e => Serving [] [] e
      | Print => let s := acceptLoop react arrivals in Serving (s_served s) (err :: s_printed s) (s_end s)
      | Ignore => acceptLoop react arrivals
      end
  end.

(** The error ends the server: [fatal(err)]. *)
Definition dies (err : goerror) (cancelled : bool) : reaction := End (Died err).
(** The server ends when it was told to, and with the error otherwise. *)
Definition fails (err : goerror) (cancelled : bool) : reaction := End (if cancelled then Stopped else Died err).
(** The server ends when it was told to, and goes on otherwise. *)
Definition survives (err : goerror) (cancelled : bool) : reaction := if cancelled then End Stopped else Print.

(** The goroutine that is given a connection: what it works on, and whether it returns before
    the process exits, should the process exit. One that does not is killed with the process,
    wherever it is: [os.Exit], which [fatal] calls, and the return of [main] wait for nobody. *)
Record goroutine (A : Type) := Go { given : A; returnsInTime : bool }.
Arguments Go {A}. Arguments given {A}. Arguments returnsInTime {A}.
Inductive settled (B : Type) := Returned (b : B) | Killed.
Arguments Returned {B}. Arguments Killed {B}.
(** What becomes of a goroutine when the server ends as it does: while the server waits,
    nothing ends it early. *)
Definition unawaited {A B} (handle : A -> B) (e : ending) (g : goroutine A) : settled B :=
  match e with
  | Waiting => Returned (handle (given g))
  | Stopped | Died _ => if returnsInTime g then Returned (handle (given g)) else Killed
  end.
(** The same where [main] returns after [wait.Wait()]: only [fatal] kills it. *)
Definition awaited {A B} (handle : A -> B) (e : ending) (g : goroutine A) : settled B :=
  match e with Stopped => Returned (handle (given g)) | Waiting | Died _ => unawaited handle e g end.

(** The run of a server: what it announced, what became of each connection it accepted (in
    the order of the arrivals), what it printed of the accepts that failed, and its end. *)
Record run (B : Type) := Run { r_ready : option document; r_handled : list B; r_printed : list goerror; r_end : ending }.
Arguments Run {B}. Arguments r_ready {B}. Arguments r_handled {B}. Arguments r_printed {B}. Arguments r_end {B}.
(** [fatal(err)] before the announcement. *)
Definition failed {B} (err : goerror) : run B := Run None [] [] (Died err).
(** [settle] says what becomes of a connection at the end of the server. *)
Definition serve {A B} (ready : document) (react : goerror -> bool -> reaction) (settle : ending -> A -> B)
    (arrivals : list (arrival A)) : run B :=
  let s := acceptLoop react arrivals in Run (Some ready) (settle (s_end s) <$> s_served s) (s_printed s) (s_end s).

(** ** A server of net/http or http3 *)

(** It announces itself before the call that serves: [start] is what that call needs, and
    [e] how it ends otherwise. Every request has a goroutine, and none is waited for: the call
    returns as soon as the server is shut down, and [main] after it. *)
Definition serveHTTP {A B} (ready : document) (start : res unit) (handle : A -> B) (requests : list (goroutine A))
    (e : ending) : run (settled B) :=
  match start with
  | Err err => Run (Some ready) [] [] (Died err)
  | Ok _ => Run (Some ready) (unawaited handle e <$> requests) [] e
  end.

(** ** Facts *)

Lemma acceptLoop_all {A} react (l : list A) : acceptLoop react (Arrived <$> l) = Serving l [] Waiting.
Proof. induction l as [|a l IH]; [done|]. cbn [fmap list_fmap acceptLoop]. by rewrite IH. Qed.
(** Connections that come before anything else are served, and change nothing else. *)
Lemma acceptLoop_prefix {A} react (l : list A) rest :
  acceptLoop react ((Arrived <$> l) ++ rest) =
  let s := acceptLoop react rest in Serving (l ++ s_served s) (s_printed s) (s_end s).
Proof.
  induction l as [|a l IH]; [simpl; by destruct (acceptLoop react rest)|].
  rewrite fmap_cons, <- app_comm_cons. cbn [acceptLoop]. by rewrite IH.
Qed.
