(* ===== verification/TlsServers.v ===== *)
(** The programs of the TLS servers, from their start to the end of their accept loop:
    go-tls12, go-tls13-chacha20, go-tls13-mtls and go-tls13. *)
From S2P Require Export Serving.
From S2P Require Import TlsLoad TlsHandshakes Tls13.

Definition configuredListenAddress : process -> string := listenAddress "127.0.0.1:18443".

(** The scenario a server is started for: none, or its own. *)
Definition unsupportedScenario (p : process) (scenarioID implementationID : string) : option goerror :=
  let requested := env_value (p_getenv p) "PLAB_SCENARIO_ID" in
  if negb (String.eqb requested "") && negb (String.eqb requested scenarioID)
  then Some (EMsg ("scenario " +:+ go_quote requested +:+ " is explicitly unsupported by " +:+ implementationID)) else None.

(** A connection of the servers of one handshake: what the handshake gives, and the read
    that follows it. *)
Abbreviation handshakeArrival S := (res S * (Z * option goerror))%type.

(** ** go-tls12 *)

Module GoTls12.

Definition implementationID : string := "go-tls12".
Definition scenarioID : string := "tls.handshake.full.tls12".
Definition serverConfig : tlsConfig :=
  TlsConfig VersionTLS12 VersionTLS12 [TLS_ECDHE_ECDSA_WITH_AES_128_GCM_SHA256] [X25519] [alpn] true false.
Definition writeReady (listen : string) : document :=
  [("eventName", JString "ready"); ("implementationId", JString implementationID); ("implementationVersion", JString "0.1.0");
   ("listenAddress", JString listen); ("protocol", JString "tls"); ("tlsVersion", JString "TLS1.2"); ("alpn", JString alpn);
   ("cipherSuite", JString (cipherSuiteName TLS_ECDHE_ECDSA_WITH_AES_128_GCM_SHA256)); ("keyExchangeGroup", JString "X25519");
   ("tlsProfileId", JString "plab-tls12-aes128gcm-p256-server-auth-v2");
   ("certificateProfileId", JString "plab-single-leaf-p256-server-v2"); ("certificateDerSha256", JString leafDERHash);
   ("sessionTicketsEnabled", JBool false); ("supportedScenarios", JStrings [scenarioID])].
Definition main (p : process) (arrivals : list (arrival (goroutine (handshakeArrival connState)))) : run (settled (option goerror)) :=
  let listen := flagOr p "listen" (configuredListenAddress p) in
  let certPath := flagOr p "cert" (envOr p "PLAB_TLS_CERT_FILE" (materialPath p "certs/leaf.pem")) in
  let keyPath := flagOr p "key" (envOr p "PLAB_TLS_KEY_FILE" (materialPath p "certs/leaf-key.pem")) in
  match unsupportedScenario p scenarioID implementationID with
  | Some err => failed err
  | None =>
      match loadServerIdentity (p_keyPair p certPath keyPath) (p_parse p), p_listen p "tcp" listen with
      | Err err, _ | Ok _, Err err => failed err
      | Ok _, Ok _ => serve (writeReady listen) dies (unawaited (fun c => Tls12.handle c.1 c.2)) arrivals
      end
  end.

End GoTls12.

(** ** go-tls13-chacha20 *)

Module GoTls13ChaCha20.

Definition implementationID : string := "go-tls13-chacha20".
Definition scenarioID : string := "tls.handshake.full.chacha20".
Definition configuredListenAddress : process -> string := listenAddress "127.0.0.1:18443".
Definition serverConfig : tlsConfig := TlsConfig VersionTLS13 VersionTLS13 [] [X25519] [alpn] true false.
(** The same function as that of go-tls12. *)
Definition loadServerIdentity : res (list bytes) -> (bytes -> res certificate) -> res unit := TlsHandshakes.loadServerIdentity.
Definition writeReady (listen : string) : document :=
  [("eventName", JString "ready"); ("implementationId", JString implementationID); ("implementationVersion", JString "0.1.0");
   ("listenAddress", JString listen); ("protocol", JString "tls"); ("tlsVersion", JString "TLS1.3"); ("alpn", JString alpn);
   ("cipherSuite", JString (cipherSuiteName TLS_CHACHA20_POLY1305_SHA256)); ("keyExchangeGroup", JString "X25519");
   ("tlsProfileId", JString "plab-tls13-chacha20-p256-server-auth-v2");
   ("certificateProfileId", JString "plab-single-leaf-p256-server-v2"); ("certificateDerSha256", JString leafDERHash);
   ("sessionTicketsEnabled", JBool false); ("supportedScenarios", JStrings [scenarioID])].
Definition main (p : process) (arrivals : list (arrival (goroutine (handshakeArrival connState)))) : run (settled (option goerror)) :=
  let listen := flagOr p "listen" (configuredListenAddress p) in
  let certPath := flagOr p "cert" (envOr p "PLAB_TLS_CERT_FILE" (materialPath p "certs/leaf.pem")) in
  let keyPath := flagOr p "key" (envOr p "PLAB_TLS_KEY_FILE" (materialPath p "certs/leaf-key.pem")) in
  match unsupportedScenario p scenarioID implementationID with
  | Some err => failed err
  | None =>
      match loadServerIdentity (p_keyPair p certPath keyPath) (p_parse p), p_listen p "tcp" listen with
      | Err err, _ | Ok _, Err err => failed err
      | Ok _, Ok _ => serve (writeReady listen) dies (unawaited (fun c => ChaCha20.handle c.1 c.2)) arrivals
      end
  end.

End GoTls13ChaCha20.

(** ** go-tls13-mtls *)

Module GoTls13Mtls.

Definition implementationID : string := "go-tls13-mtls".
Definition scenarioID : string := "tls.handshake.mutual-auth".
Definition configuredListenAddress : process -> string := listenAddress "127.0.0.1:18443".
Definition serverConfig : tlsConfig := TlsConfig VersionTLS13 VersionTLS13 [] [X25519] [alpn] true true.
(** The check of the certificate in [main]. *)
Definition checkIdentity (pair : res (list bytes)) : res unit :=
  let? chain := pair in
  guard (len chain =? 1) && String.eqb (hash (default [] (head chain))) leafDERHash
    else EMsg "server certificate substitution or chain expansion detected" in
  Ok tt.
Definition writeReady (listen : string) : document :=
  [("eventName", JString "ready"); ("implementationId", JString implementationID); ("implementationVersion", JString "0.1.0");
   ("listenAddress", JString listen); ("protocol", JString "tls"); ("tlsVersion", JString "TLS1.3"); ("alpn", JString alpn);
   ("cipherSuite", JString (cipherSuiteName TLS_AES_128_GCM_SHA256)); ("keyExchangeGroup", JString "X25519");
   ("tlsProfileId", JString "plab-tls13-aes128gcm-p256-mutual-auth-v2");
   ("certificateProfileId", JString "plab-single-leaf-p256-server-v2");
   ("clientCertificateProfileId", JString "plab-single-leaf-p256-client-v2"); ("certificateDerSha256", JString leafDERHash);
   ("clientCertificateDerSha256", JString Mtls.clientLeafDERHash);
   ("clientCertificateSpkiSha256", JString Mtls.clientLeafSPKIHash); ("clientCertificateRequired", JBool true);
   ("sessionTicketsEnabled", JBool false); ("supportedScenarios", JStrings [scenarioID])].
Definition main (p : process) (arrivals : list (arrival (goroutine (handshakeArrival Mtls.peerState)))) : run (settled (option goerror)) :=
  let listen := flagOr p "listen" (configuredListenAddress p) in
  let certPath := flagOr p "cert" (envOr p "PLAB_TLS_CERT_FILE" (materialPath p "certs/leaf.pem")) in
  let keyPath := flagOr p "key" (envOr p "PLAB_TLS_KEY_FILE" (materialPath p "certs/leaf-key.pem")) in
  let clientRootPath := flagOr p "client-root"
    (envOr p "PLAB_TLS_CLIENT_ROOT_CERTIFICATE_PATH" (materialPath p "certs/client-root.pem")) in
  match unsupportedScenario p scenarioID implementationID with
  | Some err => failed err
  | None =>
      match checkIdentity (p_keyPair p certPath keyPath), loadRoots p clientRootPath, p_listen p "tcp" listen with
      | Err err, _, _ | Ok _, Err err, _ | Ok _, Ok _, Err err => failed err
      | Ok _, Ok _, Ok _ => serve (writeReady listen) dies (unawaited (fun c => Mtls.handle c.1 c.2)) arrivals
      end
  end.

End GoTls13Mtls.

(** ** go-tls13 *)

Module GoTls13.

Definition implementationID : string := "go-tls13".
Definition supportedScenarios : list string :=
  ["tls.handshake.full"; "tls.handshake.resumed"; "tls.record.throughput"; "tls.record.coverage"].
Definition configuredListenAddress : process -> string := listenAddress "127.0.0.1:18443".
Definition serverConfig : tlsConfig := TlsConfig VersionTLS13 VersionTLS13 [] [X25519] [alpn] false false.
(** The check of the certificate in [main]: only the first of the chain is looked at. *)
Definition checkIdentity (pair : res (list bytes)) : res unit :=
  let? chain := pair in
  guard negb (len chain =? 0) && String.eqb (hash (default [] (head chain))) leafDERHash
    else EMsg "TLS certificate substitution detected" in
  Ok tt.
Definition writeReady (p : process) (listen : string) : document :=
  let '(profileID, certificateProfileID) :=
    if String.eqb (env_value (p_getenv p) "PLAB_SCENARIO_ID") "tls.record.coverage"
    then ("plab-tls13-aes128gcm-p256-server-auth-v2", "plab-single-leaf-p256-server-v2")
    else ("plab-tls13-p256-v1", "plab-single-leaf-p256-v1") in
  [("eventName", JString "ready"); ("implementationId", JString implementationID); ("implementationVersion", JString "0.2.0");
   ("listenAddress", JString listen); ("protocol", JString "tls"); ("tlsVersion", JString "TLS1.3"); ("alpn", JString alpn);
   ("cipherSuite", JString (cipherSuiteName TLS_AES_128_GCM_SHA256)); ("keyExchangeGroup", JString "X25519");
   ("tlsProfileId", JString profileID); ("certificateProfileId", JString certificateProfileID);
   ("certificateDerSha256", JString leafDERHash); ("sessionTicketsEnabled", JBool true);
   ("supportedScenarios", JStrings supportedScenarios)].
(** Every scenario is accepted at the start; one that is not supported is refused on each
    connection. *)
Definition main (p : process) (arrivals : list (arrival (goroutine (res connState * conn)))) : run (settled (bool * conn)) :=
  let listen := flagOr p "listen" (configuredListenAddress p) in
  let certPath := flagOr p "cert" (envOr p "PLAB_TLS_CERT_FILE" (materialPath p "certs/leaf.pem")) in
  let keyPath := flagOr p "key" (envOr p "PLAB_TLS_KEY_FILE" (materialPath p "certs/leaf-key.pem")) in
  match checkIdentity (p_keyPair p certPath keyPath), p_listen p "tcp" listen with
  | Err err, _ | Ok _, Err err => failed err
  | Ok _, Ok _ => serve (writeReady p listen) dies (unawaited (fun c => Tls13.Server.handle (p_getenv p) c.1 c.2)) arrivals
  end.

End GoTls13.
