(* ===== verification/DnsServers.v ===== *)
(** The programs of the DNS servers, from their start to the end of their loops:
    go-dns-classic-authority, go-dns-dot, go-dns-doq, go-dns-doh2 and go-dns-doh3. *)
From S2P Require Import GoHttp DnsWire DnsClassic DnsDot DnsDoq DnsDoh DnsDoh2 DnsDoh3.
From S2P Require Export Serving.

(** The address of a server with variables of its own for it and for its port. *)
Definition dnsListen (listen port fallback : string) (p : process) : string :=
  let value := env_value (p_getenv p) listen in
  if negb (String.eqb value "") then value else joinHostPort "127.0.0.1" (envOr p port fallback).

(** What the documents of the servers over TLS have in common. *)
Definition fixtureMode : document :=
  [("authorityMode", JString "local-fixture-authoritative"); ("externalUpstream", JString "prohibited");
   ("cacheState", JString "disabled")].
Definition dnsReady (implementationID version : string) (address : string * string) (rest : document) : document :=
  [("status", JString "ready"); ("implementationId", JString implementationID); ("version", JString version);
   ("host", JString address.1); ("port", JString address.2)] ++ rest ++ fixtureMode.

(** ** go-dns-classic-authority *)

Module GoDnsClassic.

(** The error of [strconv.Atoi], less its reason. *)
Definition defaultListen (p : process) : res string :=
  let port := env_value (p_getenv p) "PLAB_DNS_CLASSIC_PORT" in
  let port := if String.eqb port "" then "15353" else port in
  match atoi port with
  | Some _ => Ok (joinHostPort "127.0.0.1" port)
  | None => Err (EMsg ("strconv.Atoi: parsing " +:+ go_quote port))
  end.

(** [err.(net.Error)] and its [Timeout]. *)
Definition timedOut (err : goerror) : bool := match err with ENet timeout _ => timeout | EDeadline => true | _ => false end.

(** A read of the UDP socket: a datagram, with the fault its answer meets, or an error, with
    whether the server was told to end or the socket closed. *)
Inductive udpEvent := Datagram (query : bytes) (fault : option goerror) | ReadFailed (err : goerror) (closed : bool).
Inductive udpEffect := Sent (response : bytes) | Logged (prefix : string) (err : goerror).
Fixpoint serveUDP (events : list udpEvent) : list udpEffect * ending :=
  match events with
  | [] => ([], Waiting)
  | ReadFailed err closed :: events =>
      if closed then ([], Stopped)
      else let '(effects, e) := serveUDP events in
           ((if timedOut err then effects else Logged "UDP read failed:" err :: effects), e)
  | Datagram query fault :: events =>
      let '(effects, e) := serveUDP events in
      match Authority.responseFor (take (Z.to_nat 65535) query) true, fault with
      | Err err, _ => (Logged "UDP query rejected:" err :: effects, e)
      | Ok _, Some err => (Logged "UDP response failed:" err :: effects, e)
      | Ok response, None => (Sent response :: effects, e)
      end
  end.

(** What [serveTCP] does with the error of an accept; [closed] as above. *)
Definition tcpReaction (err : goerror) (closed : bool) : reaction :=
  if closed then End Stopped else if timedOut err then Ignore else Print.
Definition serveTCP (arrivals : list (arrival (goroutine conn))) : serving (goroutine conn) :=
  acceptLoop tcpReaction arrivals.

Definition ready (port : string) : document :=
  [("status", JString "ready"); ("implementationId", JString "go-dns-classic-authority"); ("version", JString "0.1.0");
   ("host", JString "127.0.0.1"); ("port", JString port); ("protocols", JStrings ["dns-udp"; "dns-tcp"; "dns-udp-tcp-retry"]);
   ("fixtureIds", JStrings [aFixtureID; largeFixtureID])] ++ fixtureMode ++ [("recursionAvailable", JBool false)].

(** The two loops run side by side; the server returns when it is told to end and both have
    returned, which does not wait for the connections: [o_tcp] is what becomes of each, and
    [o_printed] the accepts that failed. *)
Record outcome := Outcome {
  o_ready : option document; o_udp : list udpEffect; o_tcp : list (settled (bool * conn)); o_printed : list goerror; o_end : ending
}.
Definition dead (err : goerror) : outcome := Outcome None [] [] [] (Died err).
Definition main (p : process) (events : list udpEvent) (arrivals : list (arrival (goroutine conn))) : outcome :=
  match defaultListen p with
  | Err err => dead err
  | Ok address =>
      let listen := flagOr p "listen" address in
      match p_listen p "udp" listen, p_listen p "tcp" listen with
      | Err err, _ | Ok _, Err err => dead err
      | Ok _, Ok bound =>
          let udp := serveUDP events in
          let tcp := serveTCP arrivals in
          let e := match udp.2, s_end tcp with Stopped, Stopped => Stopped | _, _ => Waiting end in
          Outcome (Some (ready (p_split p bound).2)) udp.1 (unawaited Authority.handleTCP e <$> s_served tcp) (s_printed tcp) e
      end
  end.

End GoDnsClassic.

(** ** go-dns-dot *)

Module GoDnsDot.

Definition defaultListen : process -> string := dnsListen "PLAB_DOT_LISTEN" "PLAB_DOT_PORT" "18530".
Definition config : tlsConfig := TlsConfig VersionTLS13 VersionTLS13 [] [X25519] ["dot"] true false.
Definition ready (address : string * string) : document :=
  dnsReady "go-dns-dot" "0.2.0" address
    [("protocol", JString "dot"); ("protocolVariant", JString "dot-tls1.3-tcp"); ("tlsVersion", JString "TLS1.3");
     ("alpn", JString "dot"); ("fixtureId", JString "dns.plab-test-a.canonical")].
Definition main (p : process) (arrivals : list (arrival (goroutine (res tlsState * conn)))) : run (settled (bool * conn)) :=
  let listen := flagOr p "listen" (defaultListen p) in
  let certPath := flagOr p "certificate" (envOr p "PLAB_DOT_CERTIFICATE_PATH" (Join ["certs"; "leaf.pem"])) in
  let keyPath := flagOr p "private-key" (envOr p "PLAB_DOT_PRIVATE_KEY_PATH" (Join ["certs"; "leaf-key.pem"])) in
  match p_keyPair p certPath keyPath, p_listen p "tcp" listen with
  | Err err, _ | Ok _, Err err => failed err
  | Ok _, Ok bound => serve (ready (p_split p bound)) survives (awaited (fun c => DnsDot.Server.handle c.1 c.2)) arrivals
  end.

End GoDnsDot.

(** ** go-dns-doq *)

Module GoDnsDoq.

Definition defaultListen : process -> string := dnsListen "PLAB_DOQ_LISTEN" "PLAB_DOQ_PORT" "18532".
Definition tlsConfig_ : tlsConfig := TlsConfig VersionTLS13 VersionTLS13 [] [X25519] ["doq"] true false.
Definition ready (address : string * string) : document :=
  dnsReady "go-dns-doq" "0.2.0" address
    [("protocol", JString "doq"); ("protocolVariant", JString "dns-over-quic-v1"); ("quicVersion", JString "v1");
     ("tlsVersion", JString "TLS1.3"); ("alpn", JString "doq"); ("fixtureId", JString "dns.plab-test-a.canonical")].

(** A request stream with what its handler meets: the deadline, the write and the close. *)
Record requestStream := RequestStream {
  rs_deadline : option goerror; rs_request : stream; rs_write : option goerror; rs_close : option goerror
}.
(** A connection, with the streams that come before the process exits. *)
Record connection := Connection {
  dc_version1 : bool; dc_used0RTT : bool; dc_state : tlsState; dc_streams : list (arrival (goroutine requestStream))
}.
Definition handleRequestStream (s : requestStream) : DnsDoq.Server.reply :=
  DnsDoq.Server.handleStream (rs_deadline s) (rs_request s) (rs_write s) (rs_close s).
(** [serveConnection]: every stream has a goroutine, which nobody waits for; any error of an
    accept ends the loop. Without the binding the connection's own goroutine closes it. *)
Definition serveConnection (e : ending) (g : goroutine connection) : list (settled DnsDoq.Server.reply) :=
  let c := given g in
  if DnsDoq.Server.servesConnection (dc_version1 c) (dc_used0RTT c) (dc_state c)
  then unawaited handleRequestStream e <$> s_served (acceptLoop (fun _ _ => End Stopped) (dc_streams c))
  else [unawaited (fun _ => DnsDoq.Server.CloseWith 0x2) e g].
Definition main (p : process) (arrivals : list (arrival (goroutine connection))) : run (list (settled DnsDoq.Server.reply)) :=
  let listen := flagOr p "listen" (defaultListen p) in
  let certPath := flagOr p "certificate" (envOr p "PLAB_DOQ_CERTIFICATE_PATH" (Join ["certs"; "leaf.pem"])) in
  let keyPath := flagOr p "private-key" (envOr p "PLAB_DOQ_PRIVATE_KEY_PATH" (Join ["certs"; "leaf-key.pem"])) in
  match p_keyPair p certPath keyPath, p_listen p "udp" listen with
  | Err err, _ | Ok _, Err err => failed err
  | Ok _, Ok bound => serve (ready (p_split p bound)) fails serveConnection arrivals
  end.

End GoDnsDoq.

(** ** go-dns-doh2 *)

Module GoDnsDoh2.

Definition defaultListen : process -> string := dnsListen "PLAB_DOH2_LISTEN" "PLAB_DOH2_PORT" "18531".
Definition config : tlsConfig := TlsConfig VersionTLS13 VersionTLS13 [] [X25519] ["h2"] true false.
Definition ready (address : string * string) : document :=
  dnsReady "go-dns-doh2" "0.2.0" address
    [("protocol", JString "doh2"); ("protocolVariant", JString "doh-h2-tls-alpn"); ("tlsVersion", JString "TLS1.3");
     ("alpn", JString "h2"); ("fixtureId", JString "dns.plab-test-a.canonical")].
(** [ServeTLS] is the one to load the certificate; it ends with [http.ErrServerClosed] when
    the server was shut down. *)
Definition main (p : process) (requests : list (goroutine served)) (e : ending) : run (settled writer) :=
  let listen := flagOr p "listen" (defaultListen p) in
  let certPath := flagOr p "certificate" (envOr p "PLAB_DOH2_CERTIFICATE_PATH" (Join ["certs"; "leaf.pem"])) in
  let keyPath := flagOr p "private-key" (envOr p "PLAB_DOH2_PRIVATE_KEY_PATH" (Join ["certs"; "leaf-key.pem"])) in
  match p_listen p "tcp" listen with
  | Err err => failed err
  | Ok bound =>
      serveHTTP (ready (p_split p bound)) (let? _ := p_keyPair p certPath keyPath in Ok tt)
        (fun r => DnsDoh2.Server.handle r (writer_new [])) requests e
  end.

End GoDnsDoh2.

(** ** go-dns-doh3 *)

Module GoDnsDoh3.

Definition config : tlsConfig := TlsConfig VersionTLS13 VersionTLS13 [] [X25519] ["h3"] true false.
Definition ready : document :=
  [("status", JString "ready"); ("implementationId", JString "go-dns-doh3"); ("version", JString "0.2.0");
   ("protocol", JString "doh3"); ("protocolVariant", JString "doh-h3-quic-v1"); ("quicVersion", JString "v1");
   ("tlsVersion", JString "TLS1.3"); ("alpn", JString "h3")] ++ fixtureMode
  ++ [("scenarioCount", JNumber (len DnsDoh3.fixtures))].
(** The first error of the range over the fixtures. *)
Definition validateFixtures `{DnsLib} (order : list DnsDoh3.fixture) : option goerror := head (omap validateFixture order).
(** [ListenAndServeTLS] loads the certificate and binds the socket; its error is fatal
    unless the server was told to end. *)
Definition main `{DnsLib} (p : process) (order : list DnsDoh3.fixture) (requests : list (goroutine served)) (cancelled : bool)
    (ended : option goerror) : run (settled writer) :=
  let listen := flagOr p "listen" (envOr p "PLAB_DOH3_LISTEN" "127.0.0.1:18533") in
  let cert := flagOr p "certificate" (envOr p "PLAB_DOH3_CERTIFICATE_PATH" (Join ["certs"; "leaf.pem"])) in
  let key := flagOr p "private-key" (envOr p "PLAB_DOH3_PRIVATE_KEY_PATH" (Join ["certs"; "leaf-key.pem"])) in
  match validateFixtures order with
  | Some err => failed err
  | None =>
      let fatalUnlessDone err := if cancelled then Stopped else Died err in
      match (let? _ := p_keyPair p cert key in p_listen p "udp" listen) with
      | Err err => Run (Some ready) [] [] (fatalUnlessDone err)
      | Ok _ =>
          let e := match ended with None => if cancelled then Stopped else Waiting | Some err => fatalUnlessDone err end in
          Run (Some ready) (unawaited (fun r => DnsDoh3.Server.handle order r (writer_new [])) e <$> requests) [] e
      end
  end.

End GoDnsDoh3.
