(* ===== verification/HttpServers.v ===== *)
(** The programs of the other servers written in Go, from their start on: the WebSocket
    servers, gRPC, raw QUIC, WebTransport, CONNECT-UDP and the HTTP origins. *)
From S2P Require Import GoHttp WsHandshake WsServer GrpcServer QuicRaw Masque WebTransport Origins.
From S2P Require Export Serving.

(** ** go-http1-websocket and go-http1-websocket-tls *)

Definition websocketReady (implementationID version : string) (address : string * string) (rest : document) : document :=
  [("status", JString "ready"); ("implementationId", JString implementationID); ("version", JString version);
   ("host", JString address.1); ("port", JString address.2); ("protocol", JString "h1"); ("protocolVersion", JString "HTTP/1.1")]
  ++ rest.
(** What is printed of a connection: its error, unless it is the end of the input. *)
Definition rejection (result : option goerror * conn) : option goerror * conn :=
  (match result.1 with Some err => if errors_is EEOF err then None else Some err | None => None end, result.2).

Module GoWebSocket.

Definition ready (address : string * string) : document :=
  websocketReady "go-http1-websocket" "0.1.0" address
    [("protocolVariant", JString "websocket-h1-cleartext-upgrade"); ("binding", JString "rfc6455-http1-upgrade");
     ("transportSecurity", JString "cleartext"); ("path", JString "/websocket")].
Definition main (p : process) (arrivals : list (arrival (goroutine conn))) : run (settled (option goerror * conn)) :=
  let listenAddress := envOr p "PLAB_HTTP1_WEBSOCKET_LISTEN" (joinHostPort "127.0.0.1" (envOr p "PLAB_TARGET_PORT" "18081")) in
  match p_listen p "tcp" listenAddress with
  | Err err => failed err
  | Ok bound => serve (ready (p_split p bound)) survives (awaited (fun c => rejection (CleartextServer.handleConnection c))) arrivals
  end.

End GoWebSocket.

Module GoWebSocketTls.

Definition config : tlsConfig := TlsConfig VersionTLS13 VersionTLS13 [] [] ["http/1.1"] true false.
Definition ready (address : string * string) (leaf : certificate) : document :=
  websocketReady "go-http1-websocket-tls" "0.2.1" address
    [("protocolVariant", JString "websocket-h1-tls1.3-upgrade"); ("binding", JString "rfc6455-http1-upgrade");
     ("transportSecurity", JString "tls"); ("tlsVersion", JString "TLS1.3"); ("alpn", JString "http/1.1");
     ("serverName", JString "websocket.plab.test"); ("certificateDerSha256", JString (hash (cert_raw leaf)));
     ("certificateSpkiSha256", JString (hash (cert_spki leaf))); ("path", JString "/websocket")].
(** The leaf the server starts with: any certificate, if it is alone. *)
Definition loadLeaf (p : process) (certificatePath privateKeyPath : string) : res certificate :=
  match p_keyPair p certificatePath privateKeyPath with
  | Err err => Err (EWrap "load TLS certificate" err)
  | Ok chain =>
      guard len chain =? 1 else EMsg ("expected one leaf certificate, observed " +:+ pretty (len chain)) in
      match p_parse p (default [] (head chain)) with
      | Err err => Err (EWrap "parse TLS leaf certificate" err)
      | Ok leaf => Ok leaf
      end
  end.
(** [deflate] and [inflate] are compress/flate. *)
Definition main (deflate : bytes -> res bytes) (inflate : bytes -> stream) (p : process)
    (arrivals : list (arrival (goroutine (res wsTlsState * conn)))) : run (settled (option goerror * conn)) :=
  let listenAddress :=
    envOr p "PLAB_HTTP1_WEBSOCKET_TLS_LISTEN" (joinHostPort "127.0.0.1" (envOr p "PLAB_TARGET_PORT" "18443")) in
  let certificatePath := envOr p "PLAB_TLS_CERTIFICATE_PATH" (Join [packagedRoot p; "certs"; "leaf.pem"]) in
  let privateKeyPath := envOr p "PLAB_TLS_PRIVATE_KEY_PATH" (Join [packagedRoot p; "certs"; "leaf-key.pem"]) in
  match loadLeaf p certificatePath privateKeyPath, p_listen p "tcp" listenAddress with
  | Err err, _ | Ok _, Err err => failed err
  | Ok leaf, Ok bound =>
      serve (ready (p_split p bound) leaf) survives
        (awaited (fun c => rejection (SecureServer.handleConnection deflate inflate c.1 c.2))) arrivals
  end.

End GoWebSocketTls.

(** ** go-grpc-h2 *)

Module GoGrpc.

Definition configuredListenAddress : process -> string := listenAddress "127.0.0.1:18444".
Definition tlsConfig_ : tlsConfig := TlsConfig VersionTLS13 VersionTLS13 [] [] ["h2"] false false.
Definition scenarioIds : list string :=
  ["grpc.h2.unary.echo"; "grpc.h2.unary.empty"; "grpc.h2.unary.fixed-metadata"; "grpc.h2.unary.gzip"; "grpc.h2.unary.large";
   "grpc.h2.server-streaming.echo"; "grpc.h2.client-streaming.echo"; "grpc.h2.bidi-streaming.echo";
   "grpc.h2.trailers-only-status"; "grpc.h2.deadline-exceeded"; "grpc.h2.client-cancellation";
   "grpc.h2.unary.echo-new-channel"].
Definition ready (listen : string) : document :=
  [("implementationId", JString "go-grpc-h2"); ("implementationVersion", JString "0.4.0"); ("listenAddress", JString listen);
   ("protocol", JString "grpc-over-h2"); ("tlsVersion", JString "TLS1.3"); ("alpn", JString "h2");
   ("scenarioIds", JStrings scenarioIds)].
(** [configure] is the error of [http2.ConfigureServer]; [ListenAndServeTLS] binds the
    socket, the certificate is in the configuration already. *)
Definition main (gzip gunzip : bytes -> res bytes) (p : process) (configure : option goerror)
    (requests : list (goroutine GoHttp.request)) (e : ending) : run (settled writer) :=
  let listen := flagOr p "listen" (configuredListenAddress p) in
  let certPath := flagOr p "cert" (envOr p "PLAB_TLS_CERT_FILE" (materialPath p "certs/leaf.pem")) in
  let keyPath := flagOr p "key" (envOr p "PLAB_TLS_KEY_FILE" (materialPath p "certs/leaf-key.pem")) in
  match p_keyPair p certPath keyPath, configure with
  | Err err, _ | Ok _, Some err => failed err
  | Ok _, None =>
      serveHTTP (ready listen) (let? _ := p_listen p "tcp" listen in Ok tt)
        (fun r => handleRPC gzip gunzip r (writer_new [])) requests e
  end.

End GoGrpc.

(** ** A certificate made at the start: quic-go-raw and quic-go-http3 *)

(** The template of the certificate, less its constants. *)
Record certificateTemplate := CertificateTemplate {
  SerialNumber : Z; CommonName : string; NotBefore : Z; NotAfter : Z; DNSNames : list string; IPAddresses : list string
}.
Definition hour : Z := 3600 * 1000000000.

Section selfsigned.
(** crypto/ecdsa, crypto/rand, crypto/x509 and [tls.X509KeyPair]; a PEM block is its type
    and its octets. *)
Context {Key : Type} (generateKey : res Key) (randInt : Z -> res Z).
Context (createCertificate : certificateTemplate -> Key -> res bytes) (marshalKey : Key -> res bytes).
Context (keyPair : string * bytes -> string * bytes -> res (list bytes)).
Definition generateCertificate (commonName : string) (now : Z) : res (list bytes) :=
  let? privateKey := generateKey in
  let? serialNumber := randInt (Z.shiftl 1 128) in
  let template := CertificateTemplate serialNumber commonName (now - hour) (now + 24 * hour)
                    ["localhost"; "host.docker.internal"] ["127.0.0.1"; "::1"] in
  let? certDER := createCertificate template privateKey in
  let? keyDER := marshalKey privateKey in
  keyPair ("CERTIFICATE", certDER) ("EC PRIVATE KEY", keyDER).
End selfsigned.

(** ** quic-go-raw *)

Module QuicGoRaw.

Definition commonName : string := "ProtocolLab quic-go raw QUIC local certificate".
Definition supportedScenarios : list string :=
  ["quic.transport.stream-throughput.64kb"; "quic.transport.stream-throughput.1mb"; "quic.transport.stream-download.1mb";
   "quic.transport.stream-throughput.16mb"; "quic.transport.sustained-stream.256x64kb";
   "quic.transport.sustained-download.256x64kb"; "quic.transport.latency.echo-1kb"; "quic.transport.multiplex.100x1kb";
   "quic.transport.multiplex.100x64kb"; "quic.transport.multiplex.16x1mb"; "quic.transport.stream-limits.100x64kb";
   "quic.transport.flow-control.slow-reader-16x64kb"; "quic.transport.connection-churn"; "quic.transport.stream-churn";
   "quic.transport.duplex-streams"; "quic.transport.duplex-streams.16x1mb"; "quic.transport.duplex-streams-peer-matrix";
   "quic.transport.handshake-cold"].
Definition mustTLSConfig (certificate : res (list bytes)) (alpn : string) : res tlsConfig :=
  match certificate with
  | Err err => Err (EMsg ("failed to generate TLS certificate: " +:+ error_string err))
  | Ok _ => Ok (TlsConfig VersionTLS13 0 [] [] [alpn] false false)
  end.
(** The [metadata] it prints; an empty host is omitted. *)
Definition writeMetadata (processID : Z) (opts : QuicRaw.Server.options) (listen : string) : document :=
  [("status", JString "ready"); ("implementationId", JString "quic-go-raw");
   ("packageId", JString "org.protocol-lab.components.implementation.quic-go-raw"); ("protocol", JString "quic");
   ("alpn", JString (QuicRaw.Server.alpn opts)); ("listen", JString listen)]
  ++ (if String.eqb (QuicRaw.Server.advertiseHost opts) "" then [] else [("advertiseHost", JString (QuicRaw.Server.advertiseHost opts))])
  ++ [("quicGoVersion", JString "v0.60.0"); ("processId", JNumber processID); ("supportedScenarios", JStrings supportedScenarios)].
(** The streams of a connection until none is accepted any more, a goroutine for each; the
    connection is then closed. Nobody waits for a stream when the process exits. *)
Definition handleConnection (opts : QuicRaw.Server.options) (e : ending) (streams : list (arrival (goroutine conn)))
    : list (settled conn) :=
  unawaited (fun c => QuicRaw.Server.handleStream c opts) e <$> s_served (acceptLoop (fun _ _ => End Stopped) streams).
(** The error it returns is that of the context when that is done. A connection is the
    streams that come on it before the process exits. *)
Definition serveListener (arrivals : list (arrival (list (arrival (goroutine conn))))) : serving (list (arrival (goroutine conn))) :=
  acceptLoop (fun err cancelled => End (Died (if cancelled then ECanceled else err))) arrivals.
Definition runServer (p : process) (certificate : res (list bytes)) (processID : Z) (opts : QuicRaw.Server.options)
    (arrivals : list (arrival (list (arrival (goroutine conn))))) : run (list (settled conn)) :=
  match mustTLSConfig certificate (QuicRaw.Server.alpn opts), p_listen p "udp" (QuicRaw.Server.listen opts) with
  | Err err, _ | Ok _, Err err => failed err
  | Ok _, Ok bound =>
      let s := serveListener arrivals in
      Run (Some (writeMetadata processID opts bound)) (handleConnection opts (s_end s) <$> s_served s) (s_printed s) (s_end s)
  end.
(** Its exit code, if it exits: 2 for bad options, 0 once it was told to end. *)
Definition main (p : process) (split : string -> option goerror)
    (parse : QuicRaw.Server.options -> res (QuicRaw.Server.options * list string)) (resolve : string -> option goerror)
    (certificate : res (list bytes)) (processID : Z)
    (arrivals : list (arrival (list (arrival (goroutine conn))))) : option Z * run (list (settled conn)) :=
  match QuicRaw.Server.parseOptions (p_getenv p) split parse resolve with
  | Err err => (Some 2, failed err)
  | Ok opts =>
      let r := runServer p certificate processID opts arrivals in
      (match r_end r with
       | Died err => Some (if errors_is ECanceled err then 0 else 1)
       | e => exitCode e
       end, r)
  end.

End QuicGoRaw.

(** ** webtransport-go *)

Module WebTransportGo.

(** [logJSON]. *)
Definition logJSON (event : string) (values : document) : document := values ++ [("eventName", JString event)].
Definition ready (listen : string) : document :=
  logJSON "ready"
    [("implementationId", JString "webtransport-go"); ("implementationVersion", JString "0.1.2");
     ("upstreamVersion", JString "v0.11.1"); ("listenAddress", JString listen); ("protocol", JString "webtransport-over-h3");
     ("alpn", JString "h3"); ("tlsVersion", JString "TLS 1.3"); ("path", JString WebTransport.pathValue);
     ("payloadBytes", JNumber WebTransport.payloadBytes); ("payloadSha256", JString WebTransport.payloadSHA256);
     ("datagramCount", JNumber 32); ("payloadBytesPerDatagram", JNumber 256);
     ("payloadSetSha256", JString payloadSetSHA256)].
(** A request for a session: its host, the error of the upgrade, and what the two goroutines
    of [handleSession] then meet. *)
Record sessionRequest := SessionRequest {
  sr_host : string; sr_upgrade : option goerror;
  sr_stream : goroutine ((stream + WebTransport.Server.failure) * option goerror * option goerror);
  sr_datagrams : goroutine (list ((bytes + WebTransport.Server.failure) * option goerror))
}.
Definition handleSession (e : ending) (r : sessionRequest)
    : settled (list WebTransport.Server.effect) * settled (list WebTransport.Server.effect) :=
  (unawaited (fun '(accepted, writeFault, closeFault) => WebTransport.Server.handleStream accepted writeFault closeFault) e (sr_stream r),
   unawaited WebTransport.Server.handleDatagrams e (sr_datagrams r)).
(** What becomes of the goroutine of a request and, once it has accepted a session, of those
    of the session. *)
Abbreviation sessionOutcome := (settled WebTransport.Server.handled
  * option (settled (list WebTransport.Server.effect) * settled (list WebTransport.Server.effect)))%type.
Definition handleRequest (split : string -> option string) (e : ending) (g : goroutine sessionRequest) : sessionOutcome :=
  match unawaited (fun r => WebTransport.Server.handler split (sr_host r) (sr_upgrade r)) e g with
  | Returned WebTransport.Server.Accepted => (Returned WebTransport.Server.Accepted, Some (handleSession e (given g)))
  | refused => (refused, None)
  end.
(** [showVersion] is the flag that only prints the version; [ended] the error the server
    ends with, where one that says closed is not fatal. *)
Definition main (p : process) (showVersion : bool) (split : string -> option string)
    (requests : list (goroutine sessionRequest)) (ended : option goerror) : string + run sessionOutcome :=
  let listen := flagOr p "listen" ":4433" in
  let cert := flagOr p "cert" "/certs/leaf.pem" in
  let key := flagOr p "key" "/certs/leaf-key.pem" in
  if showVersion then inl "webtransport-go 0.1.2 webtransport-go v0.11.1" else
  let fatalUnlessClosed err := if contains_sub (error_string err) "closed" then Stopped else Died err in
  inr match p_keyPair p cert key with
      | Err err => failed err
      | Ok _ =>
          match p_listen p "udp" listen with
          | Err err => Run (Some (ready listen)) [] [] (fatalUnlessClosed err)
          | Ok _ =>
              let e := match ended with None => Waiting | Some err => fatalUnlessClosed err end in
              Run (Some (ready listen)) (handleRequest split e <$> requests) [] e
          end
      end.

End WebTransportGo.

(** ** masque-go-connect-udp *)

Module MasqueGo.

(** What it logs of its roles, what the target and the proxy do, and its end. *)
Record outcome := Outcome {
  o_logged : list string; o_echoed : list Masque.Server.echoed; o_proxied : list (settled Masque.Server.handled); o_end : ending
}.
Definition targetReady : string :=
  "role=udp-target authority=" +:+ targetAuthority +:+ " bind=:4433 behavior=exact-echo ready=true".
Definition proxyReady : string :=
  "role=proxy implementation=masque-go version=v0.4.0 authority=" +:+ proxyAuthority
  +:+ " bind=:4443 protocol=connect-udp ready=true".
(** The target listens first; [template] is the error of [uritemplate.New], [ended] the
    error of the proxy, which is fatal. *)
Definition main (p : process) (showVersion : bool) (template : string -> option goerror)
    (input : list (res (string * bytes) * option goerror)) (requests : list (goroutine (Masque.Server.parseError + string)))
    (ended : option goerror) : string + outcome :=
  if showVersion then inl "masque-go-connect-udp 0.1.2 masque-go v0.4.0" else
  inr match p_listen p "udp" "0.0.0.0:4433" with
      | Err err => Outcome [] [] [] (Died (EMsg ("udp-target listen failed: " +:+ error_string err)))
      | Ok _ =>
          let echoed := Masque.Server.serveEcho input in
          match template (Masque.Server.uriTemplate (p_getenv p)), p_keyPair p "/certs/server.pem" "/certs/server-key.pem" with
          | Some err, _ => Outcome [targetReady] echoed [] (Died (EMsg ("invalid URI template: " +:+ error_string err)))
          | None, Err err => Outcome [targetReady] echoed [] (Died (EMsg ("certificate load failed: " +:+ error_string err)))
          | None, Ok _ =>
              let e := match ended with None => Waiting | Some err => Died (EMsg ("proxy server failed: " +:+ error_string err)) end in
              Outcome [targetReady; proxyReady] echoed (unawaited Masque.Server.handler e <$> requests) e
          end
      end.

End MasqueGo.

(** ** The HTTP origins *)

Module HttpOrigins.

(** The address and the routes of each; [ended] is the error of [ListenAndServe], which is
    always fatal. *)
Definition portOr (p : process) (fallback : string) : string :=
  let port := p_getenv p "PLAB_HTTP_PORT" in if String.eqb port "" then fallback else port.
Record outcome := Outcome { o_address : string; o_answers : list (settled writer); o_end : ending }.
Definition serveOrigin {A} (address : string) (handle : A -> Origins.handler) (requests : list (goroutine A))
    (ended : option goerror) : outcome :=
  let e := match ended with None => Waiting | Some err => Died err end in
  Outcome address (unawaited (fun r => handle r (writer_new [])) e <$> requests) e.

Definition http1 (p : process) : list (goroutine string) -> option goerror -> outcome :=
  serveOrigin (":" +:+ portOr p "8080") Http1.newHandler.
Definition http2 (p : process) : list (goroutine string) -> option goerror -> outcome :=
  serveOrigin (":" +:+ portOr p "8082") Http2.newHandler.

(** A request of quic-go-http3: its query, the errors of its context, the time, its path. *)
Definition commonName : string := "ProtocolLab quic-go HTTP/3 local certificate".
Definition envOrDefault (p : process) (name fallback : string) : string :=
  let value := p_getenv p name in if String.eqb value "" then fallback else value.
Definition mustTLSConfig (certificate : res (list bytes)) : res tlsConfig :=
  match certificate with
  | Err err => Err (EMsg ("failed to generate TLS certificate: " +:+ error_string err))
  | Ok _ => Ok (TlsConfig VersionTLS13 0 [] [] ["h3"] false false)
  end.
Definition http3 (p : process) (certificate : res (list bytes)) (processID : Z)
    (requests : list (goroutine (Http3.values * list (option goerror) * string * string))) (ended : option goerror) : outcome :=
  let listen := flagOr p "listen" (envOrDefault p "PLAB_LISTEN" ":4433") in
  match mustTLSConfig certificate with
  | Err err => Outcome listen [] (Died err)
  | Ok _ => serveOrigin listen (fun '(query, ctx, utc, path) => Http3.routes query ctx utc processID path) requests ended
  end.

End HttpOrigins.
