(* ===== verification/TlsServersProps.v ===== *)
(** Theorems on the programs of the TLS servers: when they start and what they then
    announce, which sessions their handlers let through, and what becomes of their
    connections. *)
From S2P Require Import Certificates TlsLoad TlsHandshakes Tls13.
From S2P Require Export TlsServers.

(** ** Starting *)

(** The four servers, what each announces when started and what it must have found. *)
Inductive tlsServer := Tls12Server | ChaCha20Server | MtlsServer | Tls13Server.
Definition announces (s : tlsServer) (p : process) : option document :=
  match s with
  | Tls12Server => r_ready (GoTls12.main p [])
  | ChaCha20Server => r_ready (GoTls13ChaCha20.main p [])
  | MtlsServer => r_ready (GoTls13Mtls.main p [])
  | Tls13Server => r_ready (GoTls13.main p [])
  end.
(** The only scenario it may be started for, if it has one. *)
Definition ownScenario (s : tlsServer) : option string :=
  match s with
  | Tls12Server => Some "tls.handshake.full.tls12"
  | ChaCha20Server => Some "tls.handshake.full.chacha20"
  | MtlsServer => Some "tls.handshake.mutual-auth"
  | Tls13Server => None
  end.
Definition listenOf (p : process) : string := flagOr p "listen" (configuredListenAddress p).
Definition certOf (p : process) : string :=
  flagOr p "cert" (envOr p "PLAB_TLS_CERT_FILE" (materialPath p "certs/leaf.pem")).
Definition keyOf (p : process) : string :=
  flagOr p "key" (envOr p "PLAB_TLS_KEY_FILE" (materialPath p "certs/leaf-key.pem")).
Definition rootsOf (p : process) : string :=
  flagOr p "client-root" (envOr p "PLAB_TLS_CLIENT_ROOT_CERTIFICATE_PATH" (materialPath p "certs/client-root.pem")).
Definition documentOf (s : tlsServer) (p : process) : document :=
  match s with
  | Tls12Server => GoTls12.writeReady (listenOf p)
  | ChaCha20Server => GoTls13ChaCha20.writeReady (listenOf p)
  | MtlsServer => GoTls13Mtls.writeReady (listenOf p)
  | Tls13Server => GoTls13.writeReady p (listenOf p)
  end.

(** What a server must have found to start: no scenario or its own (but go-tls13 asks for
    none), a key pair whose first
    certificate is the one pinned (and, but for go-tls13, the only one), algorithms that fit
    where they are read, the trust anchors of clients, and an address to listen on. *)
Definition started (s : tlsServer) (p : process) : Prop :=
  (forall own, ownScenario s = Some own ->
     env_value (p_getenv p) "PLAB_SCENARIO_ID" = "" \/ env_value (p_getenv p) "PLAB_SCENARIO_ID" = own)
  /\ (exists leaf more, p_keyPair p (certOf p) (keyOf p) = Ok (leaf :: more)
        /\ hash leaf = leafDERHash
        /\ (s <> Tls13Server -> more = [])
        /\ (s = Tls12Server \/ s = ChaCha20Server ->
            exists c, p_parse p leaf = Ok c /\ cert_signature c = "ECDSA-SHA256" /\ cert_key c = "ECDSA" /\ cert_curve c = "P-256"))
  /\ (s = MtlsServer -> exists pem, p_readFile p (rootsOf p) = Ok pem /\ p_pem p pem = true)
  /\ is_Some (match p_listen p "tcp" (listenOf p) with Ok bound => Some bound | Err _ => None end).

#[local] Opaque hash.

Lemma unsupportedScenario_none p own id :
  unsupportedScenario p own id = None <->
  env_value (p_getenv p) "PLAB_SCENARIO_ID" = "" \/ env_value (p_getenv p) "PLAB_SCENARIO_ID" = own.
Proof.
  unfold unsupportedScenario. destruct (String.eqb_spec (env_value (p_getenv p) "PLAB_SCENARIO_ID") "") as [->|H1]; simpl.
  { split; auto. }
  destruct (String.eqb_spec (env_value (p_getenv p) "PLAB_SCENARIO_ID") own) as [->|H2]; simpl; [split; auto|].
  split; [discriminate|intros [?|?]; contradiction].
Qed.

Lemma singleton_len {A} (x : A) l : (len (x :: l) =? 1) = bool_decide (l = []).
Proof.
  apply Bool.eq_iff_eq_true. rewrite Z.eqb_eq, bool_decide_eq_true. unfold len. destruct l; simpl; split; intros; done || lia.
Qed.

(** The identity of go-tls12 and of go-tls13-chacha20. *)
Lemma loadServerIdentity_ok pair parse :
  loadServerIdentity pair parse = Ok tt <->
  exists leaf, pair = Ok [leaf] /\ hash leaf = leafDERHash /\
    exists c, parse leaf = Ok c /\ cert_signature c = "ECDSA-SHA256" /\ cert_key c = "ECDSA" /\ cert_curve c = "P-256".
Proof.
  unfold loadServerIdentity. split.
  - intros H. apply res_bind_ok in H as ([|leaf more] & -> & H); pass_guard_as H G; [discriminate G|].
    rewrite singleton_len in G. reflect_bools. subst more. apply res_bind_ok in H as (c & Hc & H). pass_guard_as H G'.
    reflect_bools. repeat match goal with H : String.eqb _ _ = true |- _ => apply String.eqb_eq in H end.
    exists leaf. simpl in *. eauto 10.
  - intros (leaf & -> & Hh & c & Hc & Hs & Hk & Hv). simpl. rewrite Hh, String.eqb_refl, Hc. simpl.
    rewrite Hs, Hk, Hv. reflexivity.
Qed.

(** The checks of the other two. *)
Lemma mtls_identity_ok pair :
  GoTls13Mtls.checkIdentity pair = Ok tt <-> exists leaf, pair = Ok [leaf] /\ hash leaf = leafDERHash.
Proof.
  unfold GoTls13Mtls.checkIdentity. split.
  - intros H. apply res_bind_ok in H as ([|leaf more] & -> & H); pass_guard_as H G; [discriminate G|].
    rewrite singleton_len in G. reflect_bools. subst more. apply String.eqb_eq in H1. simpl in *. eauto.
  - intros (leaf & -> & Hh). simpl. rewrite Hh, String.eqb_refl. reflexivity.
Qed.
Lemma tls13_identity_ok pair :
  GoTls13.checkIdentity pair = Ok tt <-> exists leaf more, pair = Ok (leaf :: more) /\ hash leaf = leafDERHash.
Proof.
  unfold GoTls13.checkIdentity. split.
  - intros H. apply res_bind_ok in H as ([|leaf more] & -> & H); pass_guard_as H G; [discriminate G|].
    reflect_bools. apply String.eqb_eq in H1. simpl in *. eauto.
  - intros (leaf & more & -> & Hh). simpl. rewrite Hh, String.eqb_refl.
    replace (len (leaf :: more) =? 0) with false by (symmetry; apply Z.eqb_neq; unfold len; simpl; lia). reflexivity.
Qed.
Lemma loadRoots_ok p path : loadRoots p path = Ok tt <-> exists pem, p_readFile p path = Ok pem /\ p_pem p pem = true.
Proof.
  unfold loadRoots. split.
  - intros H. apply res_bind_ok in H as (pem & Hp & H). pass_guard_as H G. eauto.
  - intros (pem & -> & Hp). simpl. rewrite Hp. reflexivity.
Qed.

Lemma res_unit (r : res unit) : is_ok r = true <-> r = Ok tt.
Proof. destruct r as [[]|]; simpl; split; congruence. Qed.

(** Starting as [main] tests it. *)
Definition identityOf (s : tlsServer) (p : process) : res unit :=
  let pair := p_keyPair p (certOf p) (keyOf p) in
  match s with
  | Tls12Server => loadServerIdentity pair (p_parse p)
  | ChaCha20Server => GoTls13ChaCha20.loadServerIdentity pair (p_parse p)
  | MtlsServer => GoTls13Mtls.checkIdentity pair
  | Tls13Server => GoTls13.checkIdentity pair
  end.
Definition startsBool (s : tlsServer) (p : process) : bool :=
  match ownScenario s with
  | Some own => let requested := env_value (p_getenv p) "PLAB_SCENARIO_ID" in String.eqb requested "" || String.eqb requested own
  | None => true
  end
  && is_ok (identityOf s p) && match s with MtlsServer => is_ok (loadRoots p (rootsOf p)) | _ => true end
  && is_ok (p_listen p "tcp" (listenOf p)).

Lemma announces_bool s p : announces s p = if startsBool s p then Some (documentOf s p) else None.
Proof.
  unfold startsBool, identityOf. destruct s; unfold announces; cbn [ownScenario documentOf andb].
  - unfold GoTls12.main, unsupportedScenario. fold (listenOf p) (certOf p) (keyOf p).
    destruct (String.eqb _ ""), (String.eqb _ _); cbn [negb andb orb r_ready failed]; try reflexivity;
      destruct (loadServerIdentity _ _); cbn [is_ok andb failed r_ready]; try reflexivity; destruct (p_listen _ _ _); reflexivity.
  - unfold GoTls13ChaCha20.main, unsupportedScenario. fold (listenOf p) (certOf p) (keyOf p).
    destruct (String.eqb _ ""), (String.eqb _ _); cbn [negb andb orb r_ready failed]; try reflexivity;
      unfold GoTls13ChaCha20.loadServerIdentity;
      destruct (loadServerIdentity _ _); cbn [is_ok andb failed r_ready]; try reflexivity; destruct (p_listen _ _ _); reflexivity.
  - unfold GoTls13Mtls.main, unsupportedScenario. fold (listenOf p) (certOf p) (keyOf p) (rootsOf p).
    destruct (String.eqb _ ""), (String.eqb _ _); cbn [negb andb orb r_ready failed]; try reflexivity;
      destruct (GoTls13Mtls.checkIdentity _); cbn [is_ok andb failed r_ready]; try reflexivity;
      destruct (loadRoots _ _); cbn [is_ok andb failed r_ready]; try reflexivity; destruct (p_listen _ _ _); reflexivity.
  - unfold GoTls13.main. fold (listenOf p) (certOf p) (keyOf p).
    destruct (GoTls13.checkIdentity _); cbn [is_ok andb failed r_ready]; try reflexivity; destruct (p_listen _ _ _); reflexivity.
Qed.

Lemma identityOf_spec s p :
  identityOf s p = Ok tt <->
  exists leaf more, p_keyPair p (certOf p) (keyOf p) = Ok (leaf :: more)
    /\ hash leaf = leafDERHash
    /\ (s <> Tls13Server -> more = [])
    /\ (s = Tls12Server \/ s = ChaCha20Server ->
        exists c, p_parse p leaf = Ok c /\ cert_signature c = "ECDSA-SHA256" /\ cert_key c = "ECDSA" /\ cert_curve c = "P-256").
Proof.
  destruct s; unfold identityOf, GoTls13ChaCha20.loadServerIdentity;
    rewrite ?loadServerIdentity_ok, ?mtls_identity_ok, ?tls13_identity_ok; split;
    try (intros (leaf & ? & ? & ?); exists leaf, []; by eauto 10);
    try (intros (leaf & more & Hp & Hh & Hm & Hc); rewrite Hm in Hp by done; exists leaf; by eauto 10).
  - intros (leaf & Hp & Hh). exists leaf, []. split_and!; [done|done|done|intros [?|?]; discriminate].
  - intros (leaf & more & Hp & Hh). exists leaf, more. split_and!; [done|done|done|intros [?|?]; discriminate].
  - intros (leaf & more & Hp & Hh & _). eauto.
Qed.

Lemma startsBool_spec s p : startsBool s p = true <-> started s p.
Proof.
  unfold startsBool, started. rewrite !andb_true_iff, <- identityOf_spec, res_unit.
  assert (S : match ownScenario s with
              | Some own => let requested := env_value (p_getenv p) "PLAB_SCENARIO_ID" in
                            String.eqb requested "" || String.eqb requested own
              | None => true end = true <->
              (forall own, ownScenario s = Some own ->
                 env_value (p_getenv p) "PLAB_SCENARIO_ID" = "" \/ env_value (p_getenv p) "PLAB_SCENARIO_ID" = own)).
  { destruct (ownScenario s) as [own|]; simpl.
    - rewrite orb_true_iff, !String.eqb_eq. split; [by intros H ? [= <-]|by intros H; apply H].
    - split; [by intros|done]. }
  assert (R : match s with MtlsServer => is_ok (loadRoots p (rootsOf p)) | _ => true end = true <->
              (s = MtlsServer -> exists pem, p_readFile p (rootsOf p) = Ok pem /\ p_pem p pem = true)).
  { destruct s; rewrite <- ?loadRoots_ok, ?res_unit; split; try done; intros H; exact (H eq_refl). }
  assert (L : is_ok (p_listen p "tcp" (listenOf p)) = true <->
              is_Some (match p_listen p "tcp" (listenOf p) with Ok bound => Some bound | Err _ => None end)).
  { destruct (p_listen _ _ _); simpl; split; eauto; [discriminate|intros [? ?]; discriminate]. }
  rewrite S, R, L. tauto.
Qed.

(** go-tls13 announces itself for any scenario. *)
Lemma go_tls13_ignores_scenario p p' :
  p_flag p = p_flag p' -> p_executable p = p_executable p' -> p_stat p = p_stat p' -> p_keyPair p = p_keyPair p' ->
  p_listen p = p_listen p' ->
  (forall name, name <> "PLAB_SCENARIO_ID" -> p_getenv p name = p_getenv p' name) ->
  is_Some (announces Tls13Server p) <-> is_Some (announces Tls13Server p').
Proof.
  intros E1 E2 E3 E4 E5 E6. rewrite !announces_bool. unfold startsBool. simpl.
  unfold certOf, keyOf, listenOf, envOr, configuredListenAddress, listenAddress, flagOr, materialPath, env_value.
  rewrite E1, E2, E3, E4, E5.
  rewrite (E6 "PLAB_LISTEN_ADDRESS"), (E6 "PLAB_TARGET_PORT"), (E6 "PLAB_TLS_CERT_FILE"), (E6 "PLAB_TLS_KEY_FILE") by done.
  destruct (is_ok _ && _ && _); split; intros [? H]; try discriminate H; eexists; reflexivity.
Qed.

(** The process started for another scenario. *)
Definition forScenario (id : string) (p : process) : process :=
  Process (fun name => if String.eqb name "PLAB_SCENARIO_ID" then id else p_getenv p name) (p_flag p) (p_executable p)
    (p_stat p) (p_readFile p) (p_keyPair p) (p_parse p) (p_pem p) (p_listen p) (p_split p).

(** C21: each of the four TLS servers announces itself exactly when it found the pinned
    certificate (alone, but for go-tls13), the algorithms and the trust anchors it checks,
    could listen, and, go-tls13 excepted, was started for no scenario or its own; and the
    announcement is the document of the address it was given. go-tls13 checks no scenario:
    started for any other, it announces itself just the same. *)
Theorem tls_server_announces s p :
  (forall d, announces s p = Some d <-> started s p /\ d = documentOf s p) /\
  (forall id, is_Some (announces Tls13Server (forScenario id p)) <-> is_Some (announces Tls13Server p)).
Proof.
  split.
  - intros d. rewrite announces_bool, <- startsBool_spec.
    destruct (startsBool s p); split; intros; simplify_eq; intuition congruence.
  - intros id. apply go_tls13_ignores_scenario; [done..|]. intros name Hn. cbn.
    by apply String.eqb_neq in Hn as ->.
Qed.

(** ** Sessions *)

(** The announced parameters of a session are its own. *)
Definition announced (d : document) (state : connState) : Prop :=
  field d "tlsVersion" = Some (JString (TlsHandshakes.tlsVersionName (cs_version state)))
  /\ field d "cipherSuite" = Some (JString (cipherSuiteName (cs_cipher state)))
  /\ field d "keyExchangeGroup" = Some (JString (curveName (cs_curve state)))
  /\ field d "alpn" = Some (JString (cs_protocol state))
  /\ (field d "sessionTicketsEnabled" = Some (JBool false) -> cs_resumed state = false).

(** Whether a server serves a connection to a normal end. *)
Definition servesSession (s : tlsServer) (p : process) (peer : Mtls.peerState) (read : Z * option goerror) (c : conn) : bool :=
  match s with
  | Tls12Server => bool_decide (Tls12.handle (Ok (Mtls.ps_state peer)) read = None)
  | ChaCha20Server => bool_decide (ChaCha20.handle (Ok (Mtls.ps_state peer)) read = None)
  | MtlsServer => bool_decide (Mtls.handle (Ok peer) read = None)
  | Tls13Server => (Tls13.Server.handle (p_getenv p) (Ok (Mtls.ps_state peer)) c).1
  end.

Lemma no_failures_nil fs : failures_error fs = None -> fs = [].
Proof. destruct fs; [done|discriminate]. Qed.
Lemma failure_false b m : failure b m = [] -> b = false.
Proof. destruct b; [discriminate|done]. Qed.

(** The tests of a gate that was passed, as equations. *)
Ltac passed := reflect_bools; repeat match goal with H : String.eqb _ _ = true |- _ => apply String.eqb_eq in H end.
(** What collected no failure passed every test. *)
Ltac no_failures H :=
  apply no_failures_nil in H;
  repeat match goal with H : _ ++ _ = [] |- _ => apply app_nil in H as [? ?] end;
  repeat match goal with H : failure _ _ = [] |- _ => apply failure_false in H end;
  passed.

Lemma announced_intro d state version cipher protocol :
  field d "tlsVersion" = Some (JString (TlsHandshakes.tlsVersionName version)) ->
  field d "cipherSuite" = Some (JString (cipherSuiteName cipher)) ->
  field d "keyExchangeGroup" = Some (JString (curveName X25519)) ->
  field d "alpn" = Some (JString protocol) ->
  (field d "sessionTicketsEnabled" = Some (JBool false) -> cs_resumed state = false) ->
  cs_version state = version -> cs_cipher state = cipher -> cs_curve state = X25519 -> cs_protocol state = protocol ->
  announced d state.
Proof. intros H1 H2 H3 H4 H5 <- <- E <-. unfold announced. rewrite E. auto. Qed.
Ltac as_announced version cipher :=
  apply (announced_intro _ _ version cipher alpn); [reflexivity|reflexivity|reflexivity|reflexivity|auto|assumption..].

(** C22: a connection that one of the TLS servers serves has the version, suite, group and
    protocol the server announced, and is not resumed when it announced no tickets; and the
    mutual-authentication server has seen one client certificate, the one it announced. *)
Theorem tls_served_as_announced s p peer read c :
  servesSession s p peer read c = true ->
  announced (documentOf s p) (Mtls.ps_state peer)
  /\ (s = MtlsServer -> exists leaf, cs_peer (Mtls.ps_state peer) = [leaf]
        /\ field (documentOf s p) "clientCertificateDerSha256" = Some (JString (hash (cert_raw leaf)))
        /\ field (documentOf s p) "clientCertificateSpkiSha256" = Some (JString (hash (cert_spki leaf)))).
Proof.
  unfold servesSession. destruct s; intros H; (split; [|intros Hs; try discriminate Hs]).
  - apply bool_decide_eq_true in H. unfold Tls12.handle in H. destruct (_ || cs_resumed _) eqn:G in H; [discriminate|].
    passed. as_announced VersionTLS12 TLS_ECDHE_ECDSA_WITH_AES_128_GCM_SHA256.
  - apply bool_decide_eq_true in H. unfold ChaCha20.handle in H.
    destruct (ChaCha20.validateServerState _) eqn:G in H; [discriminate|]. no_failures G. as_announced VersionTLS13 TLS_CHACHA20_POLY1305_SHA256.
  - apply bool_decide_eq_true in H. unfold Mtls.handle in H. destruct (Mtls.peerValidator _ _ _) eqn:G in H; [discriminate|].
    no_failures G. as_announced VersionTLS13 TLS_AES_128_GCM_SHA256.
  - apply bool_decide_eq_true in H. unfold Mtls.handle in H. destruct (Mtls.peerValidator _ _ _) eqn:G in H; [discriminate|].
    unfold Mtls.peerValidator in G. destruct (cs_peer (Mtls.ps_state peer)) as [|leaf more]; [no_failures G; unfold len in *; simpl in *; lia|].
    rewrite singleton_len in G. no_failures G. subst more. exists leaf. repeat split; cbn -[hash]; congruence.
  - unfold Tls13.Server.handle in H. destruct (_ || negb (cs_curve _ =? X25519)) eqn:G in H; [discriminate|]. passed.
    unfold documentOf, GoTls13.writeReady. destruct (String.eqb _ "tls.record.coverage").
    all: as_announced VersionTLS13 TLS_AES_128_GCM_SHA256; discriminate.
Qed.

(** ** What the configuration leaves to the handlers *)

Definition configOf (s : tlsServer) : tlsConfig :=
  match s with
  | Tls12Server => GoTls12.serverConfig
  | ChaCha20Server => GoTls13ChaCha20.serverConfig
  | MtlsServer => GoTls13Mtls.serverConfig
  | Tls13Server => GoTls13.serverConfig
  end.
Definition suiteOf (s : tlsServer) : Z :=
  match s with
  | Tls12Server => TLS_ECDHE_ECDSA_WITH_AES_128_GCM_SHA256
  | ChaCha20Server => TLS_CHACHA20_POLY1305_SHA256
  | _ => TLS_AES_128_GCM_SHA256
  end.
(** A session with its parameters replaced by those of the server's profile. *)
Definition exactSession (s : tlsServer) (peer : Mtls.peerState) : Mtls.peerState :=
  let state := Mtls.ps_state peer in
  Mtls.PeerState (ConnState (MinVersion (configOf s)) (suiteOf s) X25519 alpn (cs_complete state) (cs_resumed state)
                    (cs_chains state) (cs_peer state)) (Mtls.ps_chains peer) (Mtls.ps_usages peer).

Lemma negotiated_tls13 config version cipher curve protocol resumed :
  MinVersion config = VersionTLS13 -> MaxVersion config = VersionTLS13 -> CurvePreferences config = [X25519] ->
  negotiated config version cipher curve protocol resumed -> version = VersionTLS13 /\ curve = X25519.
Proof.
  intros E1 E2 E3 [[H1 H2] _ H3 _ _]. rewrite E1, E2, E3 in *.
  assert (version = VersionTLS13) as -> by (unfold VersionTLS13 in *; lia). split; [done|].
  destruct H3 as [?|[?|[? _]]]; [discriminate|by apply list_elem_of_singleton|lia].
Qed.
Lemma negotiated_tls12 version cipher curve protocol resumed :
  negotiated GoTls12.serverConfig version cipher curve protocol resumed ->
  version = VersionTLS12 /\ cipher = TLS_ECDHE_ECDSA_WITH_AES_128_GCM_SHA256 /\ curve = X25519 /\ resumed = false.
Proof.
  intros [[H1 H2] H3 H4 _ H5]. cbn [GoTls12.serverConfig MinVersion MaxVersion CipherSuites CurvePreferences SessionTicketsDisabled] in *.
  assert (version = VersionTLS12) as -> by (unfold VersionTLS12 in *; lia).
  destruct H3 as [?|H3]; [unfold VersionTLS12, VersionTLS13; lia|discriminate|]. apply list_elem_of_singleton in H3. subst cipher.
  destruct H4 as [?|[H4|[_ H4]]]; [discriminate|apply list_elem_of_singleton in H4|discriminate H4]. auto.
Qed.

(** C23: a session that crypto/tls negotiates under the configuration of one of the TLS
    servers is served exactly when it has the protocol and the suite of the profile and a
    session with all of the profile's parameters would be: nothing else a client negotiates
    can be refused, and of TLS 1.2 only the protocol is left to check. *)
Theorem tls_config_leaves_suite_and_protocol s p peer read c :
  let state := Mtls.ps_state peer in
  negotiated (configOf s) (cs_version state) (cs_cipher state) (cs_curve state) (cs_protocol state) (cs_resumed state) ->
  servesSession s p peer read c =
    String.eqb (cs_protocol state) alpn && (cs_cipher state =? suiteOf s) && servesSession s p (exactSession s peer) read c
  /\ (s = Tls12Server -> cs_cipher state = suiteOf s).
Proof.
  destruct peer as [[version cipher curve protocol complete resumed chains certs] lens usages]. simpl. intros N.
  destruct s; simpl in N.
  - apply negotiated_tls12 in N as (-> & -> & -> & ->). split; [|done].
    unfold servesSession, Tls12.handle. simpl. destruct (String.eqb_spec protocol alpn) as [->|Hp]; simpl; [reflexivity|].
    reflexivity.
  - pose proof (ng_resumed _ _ _ _ _ _ N eq_refl) as ->. apply negotiated_tls13 in N as [-> ->]; try reflexivity. split; [|done].
    unfold servesSession, ChaCha20.handle, ChaCha20.validateServerState. simpl.
    destruct complete, (cipher =? TLS_CHACHA20_POLY1305_SHA256), (String.eqb_spec protocol alpn); reflexivity.
  - pose proof (ng_resumed _ _ _ _ _ _ N eq_refl) as ->. apply negotiated_tls13 in N as [-> ->]; try reflexivity. split; [|done].
    unfold servesSession, Mtls.handle, Mtls.peerValidator. simpl.
    destruct (cipher =? TLS_AES_128_GCM_SHA256), (String.eqb_spec protocol alpn); reflexivity.
  - apply negotiated_tls13 in N as [-> ->]; try reflexivity. split; [|done].
    unfold servesSession, Tls13.Server.handle. simpl.
    destruct (cipher =? TLS_AES_128_GCM_SHA256), (String.eqb_spec protocol alpn) as [->|?]; simpl; rewrite ?String.eqb_refl; reflexivity.
Qed.

(** ** Scenarios go-tls13 does not support *)

(** A connection of go-tls13 that is started for an unsupported scenario leaves the octets
    that one started for a full handshake leaves: its client cannot tell them apart. *)
Lemma unsupported_scenario_unnoticed getenv fullenv tls c :
  let requested := env_value getenv "PLAB_SCENARIO_ID" in
  requested <> "tls.record.throughput" -> requested <> "tls.record.coverage" ->
  env_value fullenv "PLAB_SCENARIO_ID" = "tls.handshake.full" ->
  (Tls13.Server.handle getenv tls c).2 = (Tls13.Server.handle fullenv tls c).2.
Proof.
  simpl. intros H1 H2 H3. unfold Tls13.Server.handle. destruct tls as [state|err]; [|reflexivity].
  destruct (_ || _); [reflexivity|]. rewrite H3. apply String.eqb_neq in H1, H2. rewrite H1, H2. simpl.
  destruct (_ || _); reflexivity.
Qed.
(** ** Witnesses *)

(** A process of the package, with its certificate. *)
Definition packagedProcess : process :=
  Process (fun _ => "") (fun _ => None) (Ok "/opt/pkg/bin/linux/go-tls12") (fun _ => true) (fun _ => Ok [])
    (fun cert key => if String.eqb cert "/opt/pkg/certs/leaf.pem" && String.eqb key "/opt/pkg/certs/leaf-key.pem"
                     then Ok [tls_leaf_der] else Err (EMsg "no such file"))
    (fun der => Ok (Certificate der tls_leaf_spki "ECDSA-SHA256" "ECDSA" "P-256")) (fun _ => true)
    (fun _ address => Ok address) (fun _ => ("127.0.0.1", "18443")).
Definition tls12Session : Mtls.peerState :=
  Mtls.PeerState (ConnState VersionTLS12 TLS_ECDHE_ECDSA_WITH_AES_128_GCM_SHA256 X25519 alpn true false 0 []) [] [].

Example packaged_servers_start :
  forallb (fun s => match announces s packagedProcess with Some _ => true | None => false end)
    [Tls12Server; ChaCha20Server; MtlsServer; Tls13Server] = true.
Proof. vm_compute. reflexivity. Qed.
Example chain_expansion_refused :
  let p := Process (p_getenv packagedProcess) (p_flag packagedProcess) (p_executable packagedProcess) (p_stat packagedProcess)
             (p_readFile packagedProcess) (fun _ _ => Ok [tls_leaf_der; [0]]) (p_parse packagedProcess) (p_pem packagedProcess)
             (p_listen packagedProcess) (p_split packagedProcess) in
  ((fun s => bool_decide (is_Some (announces s p))) <$> [Tls12Server; ChaCha20Server; MtlsServer; Tls13Server])
  = [false; false; false; true].
Proof. vm_compute. reflexivity. Qed.

Lemma tls_served_as_announced_witness :
  servesSession Tls12Server packagedProcess tls12Session (0, Some EEOF) (Conn (Stream [] EEOF) [] []) = true /\
  announced (documentOf Tls12Server packagedProcess) (Mtls.ps_state tls12Session).
Proof.
  split; [vm_compute; reflexivity|].
  apply (tls_served_as_announced Tls12Server packagedProcess tls12Session (0, Some EEOF) (Conn (Stream [] EEOF) [] [])).
  vm_compute; reflexivity.
Defined.
Lemma tls_config_leaves_suite_and_protocol_witness :
  negotiated (configOf Tls12Server) VersionTLS12 TLS_ECDHE_ECDSA_WITH_AES_128_GCM_SHA256 X25519 alpn false /\
  servesSession Tls12Server packagedProcess tls12Session (0, Some EEOF) (Conn (Stream [] EEOF) [] []) =
    String.eqb alpn alpn && (TLS_ECDHE_ECDSA_WITH_AES_128_GCM_SHA256 =? suiteOf Tls12Server)
    && servesSession Tls12Server packagedProcess (exactSession Tls12Server tls12Session) (0, Some EEOF) (Conn (Stream [] EEOF) [] []).
Proof.
  assert (N : negotiated (configOf Tls12Server) VersionTLS12 TLS_ECDHE_ECDSA_WITH_AES_128_GCM_SHA256 X25519 alpn false).
  { split; simpl; [lia|intros _; right; apply list_elem_of_singleton; reflexivity|
      right; left; apply list_elem_of_singleton; reflexivity|right; apply list_elem_of_singleton; reflexivity|reflexivity]. }
  split; [exact N|].
  apply (tls_config_leaves_suite_and_protocol Tls12Server packagedProcess tls12Session (0, Some EEOF) (Conn (Stream [] EEOF) [] []) N).
Defined.
