(* ===== verification/ServersProps.v ===== *)
(** Theorems on the programs of all the servers: what a failed accept does to them, what
    their announcement promises, which sessions the DNS servers over TLS can meet, and where
    a package's files are found. *)
From S2P Require Import GoHttp Tls13 TlsHandshakes DnsWire DnsDot DnsDoq DnsDoh DnsDoh2 DnsDoh3 WsHandshake WsServer QuicRaw.
From S2P Require Export TlsServers DnsServers HttpServers.

(** ** Accepting *)

(** A program that either fails to start or hands its connections to a loop. *)
Definition loops {A B} (react : goerror -> bool -> reaction) (settle : ending -> A -> B) (main : list (arrival A) -> run B) : Prop :=
  (exists err, forall arrivals, main arrivals = failed err)
  \/ (exists d, forall arrivals, main arrivals = serve d react settle arrivals).

(** The fates of a goroutine: it is waited for, or it has returned or is killed. *)
Definition completed {A B} (handle : A -> B) (g : goroutine A) : settled B := Returned (handle (given g)).
Definition cutShort {A B} (handle : A -> B) (g : goroutine A) : settled B :=
  if returnsInTime g then Returned (handle (given g)) else Killed.
(** The same of a connection of DNS over QUIC: each of its streams has a fate of its own. *)
Fixpoint untilFailure {A} (arrivals : list (arrival A)) : list A :=
  match arrivals with Arrived a :: rest => a :: untilFailure rest | _ => [] end.
Definition cutStreams (g : goroutine GoDnsDoq.connection) : list (settled DnsDoq.Server.reply) :=
  let c := given g in
  if DnsDoq.Server.servesConnection (GoDnsDoq.dc_version1 c) (GoDnsDoq.dc_used0RTT c) (GoDnsDoq.dc_state c)
  then cutShort GoDnsDoq.handleRequestStream <$> untilFailure (GoDnsDoq.dc_streams c)
  else [cutShort (fun _ => DnsDoq.Server.CloseWith 0x2) g].

(** Two contracts of a server that has started. The one: when an accept fails before anybody
    told it to end, it prints the error, and every connection before and after is served to
    the end; when it was told to end, it accepts no more, still serves to the end those it
    has, however long they take, and exits with code 0. *)
Definition survivesFailures {A B} (handle : A -> B) (main : list (arrival (goroutine A)) -> run (settled B)) : Prop :=
  forall (before after : list (goroutine A)) err, r_ready (main []) <> None ->
    (let r := main ((Arrived <$> before) ++ AcceptFailed err false :: (Arrived <$> after)) in
     r_handled r = completed handle <$> (before ++ after) /\ r_printed r = [err] /\ exitCode (r_end r) = None)
    /\ (let r := main ((Arrived <$> before) ++ AcceptFailed err true :: (Arrived <$> after)) in
        r_handled r = completed handle <$> before /\ r_printed r = [] /\ exitCode (r_end r) = Some 0).
(** The other: at the first accept that fails it exits, with code 1, or [told] if it was told
    to end; of the connections before, those whose goroutine had returned were served and the
    others are killed, and nothing after is accepted. *)
Definition stopsAtFailure {A B} (told : Z) (fate : A -> B) (main : list (arrival A) -> run B) : Prop :=
  forall (before : list A) err cancelled after, r_ready (main []) <> None ->
    let r := main ((Arrived <$> before) ++ AcceptFailed err cancelled :: after) in
    r_handled r = fate <$> before /\ r_printed r = [] /\ exitCode (r_end r) = Some (if cancelled then told else 1).

Lemma loops_survive {A B} (handle : A -> B) main : loops survives (awaited handle) main -> survivesFailures handle main.
Proof.
  intros [[e H]|(d & H)] before after err R; rewrite !H in *; [destruct (R eq_refl)|]. unfold serve.
  rewrite !acceptLoop_prefix. cbn [acceptLoop survives]. rewrite acceptLoop_all. cbn. by rewrite app_nil_r.
Qed.
Lemma loops_stop {A B} (react : goerror -> bool -> reaction) told (settle : ending -> A -> B) fate main :
  (forall err cancelled, exists e, react err cancelled = End e /\ exitCode e = Some (if cancelled then told else 1)) ->
  (forall e g, e <> Waiting -> settle e g = fate g) ->
  loops react settle main -> stopsAtFailure told fate main.
Proof.
  intros Hr Hs [[e H]|(d & H)] before err cancelled after R; rewrite !H in *; [destruct (R eq_refl)|]. unfold serve.
  rewrite acceptLoop_prefix. cbn [acceptLoop]. destruct (Hr err cancelled) as (e & -> & He). cbn. rewrite app_nil_r.
  split_and!; [|done|exact He]. apply list_fmap_ext. intros _ g _. apply Hs. by intros ->.
Qed.
Lemma dies_ends err cancelled : exists e, dies err cancelled = End e /\ exitCode e = Some (if cancelled then 1 else 1).
Proof. by exists (Died err); destruct cancelled. Qed.
Lemma fails_ends err cancelled : exists e, fails err cancelled = End e /\ exitCode e = Some (if cancelled then 0 else 1).
Proof. unfold fails. eexists. split; [done|]. by destruct cancelled. Qed.
Lemma unawaited_cut {A B} (handle : A -> B) e g : e <> Waiting -> unawaited handle e g = cutShort handle g.
Proof. by destruct e. Qed.
Lemma served_untilFailure {A} e (l : list (arrival A)) : s_served (acceptLoop (fun _ _ => End e) l) = untilFailure l.
Proof. induction l as [|[a|err c] l IH]; [done| |done]. simpl. by rewrite IH. Qed.
Lemma serveConnection_cut e g : e <> Waiting -> GoDnsDoq.serveConnection e g = cutStreams g.
Proof.
  intros He. unfold GoDnsDoq.serveConnection, cutStreams. destruct (DnsDoq.Server.servesConnection _ _ _).
  - rewrite served_untilFailure. apply list_fmap_ext. intros _ s _. by apply unawaited_cut.
  - by rewrite unawaited_cut.
Qed.

(** Find out which of the two a program does. *)
Ltac which_loop :=
  repeat match goal with
  | |- loops _ _ (fun arrivals => match ?x with _ => _ end) => destruct x
  | |- loops _ _ (fun arrivals => failed ?e) => left; exists e; reflexivity
  | |- loops _ _ (fun arrivals => serve _ _ _ arrivals) => right; eexists; reflexivity
  end.
Ltac stops_dead := apply (loops_stop dies 1 _ _ _ dies_ends (unawaited_cut _)).

(** C34: of the servers with an accept loop of their own, those of DNS over TLS and of the
    WebSockets survive an accept that fails, and complete what they have when they are told
    to end. The TLS servers exit at it with code 1, always, and that of DNS over QUIC with
    code 1, or 0 when it was told to end; the connections and streams they are serving at
    that time are killed. *)
Theorem accept_failures p deflate inflate :
  survivesFailures (fun c => DnsDot.Server.handle c.1 c.2) (GoDnsDot.main p)
  /\ survivesFailures (fun c => rejection (WsServer.CleartextServer.handleConnection c)) (GoWebSocket.main p)
  /\ survivesFailures (fun c => rejection (WsServer.SecureServer.handleConnection deflate inflate c.1 c.2))
       (GoWebSocketTls.main deflate inflate p)
  /\ stopsAtFailure 1 (cutShort (fun c => Tls12.handle c.1 c.2)) (GoTls12.main p)
  /\ stopsAtFailure 1 (cutShort (fun c => ChaCha20.handle c.1 c.2)) (GoTls13ChaCha20.main p)
  /\ stopsAtFailure 1 (cutShort (fun c => Mtls.handle c.1 c.2)) (GoTls13Mtls.main p)
  /\ stopsAtFailure 1 (cutShort (fun c => Tls13.Server.handle (p_getenv p) c.1 c.2)) (GoTls13.main p)
  /\ stopsAtFailure 0 cutStreams (GoDnsDoq.main p).
Proof.
  split_and!;
    [apply loops_survive|apply loops_survive|apply loops_survive|stops_dead|stops_dead|stops_dead|stops_dead
    |apply (loops_stop fails 0 _ _ _ fails_ends serveConnection_cut)].
  - unfold GoDnsDot.main. which_loop.
  - unfold GoWebSocket.main. which_loop.
  - unfold GoWebSocketTls.main. which_loop.
  - unfold GoTls12.main. which_loop.
  - unfold GoTls13ChaCha20.main. which_loop.
  - unfold GoTls13Mtls.main. which_loop.
  - unfold GoTls13.main. which_loop.
  - unfold GoDnsDoq.main. which_loop.
Qed.

(** ** Announcing *)

(** A program announces itself only once it has bound the address it is given. *)
Definition announcesWhenListening {B} (network : string) (address : process -> string) (main : process -> run B) : Prop :=
  forall p, is_Some (r_ready (main p)) -> exists bound, p_listen p network (address p) = Ok bound.
(** A program can announce itself and then exit with code 1, nothing ever served. *)
Definition announcesTooEarly {B} (main : process -> run B) : Prop :=
  exists p, is_Some (r_ready (main p)) /\ r_handled (main p) = [] /\ exitCode (r_end (main p)) = Some 1.

(** A process without files, and one that can listen nowhere. *)
Definition bareProcess (pair : res (list bytes)) (bound : res string) : process :=
  Process (fun _ => "") (fun _ => None) (Err (EMsg "no executable")) (fun _ => false) (fun _ => Err (EMsg "no such file"))
    (fun _ _ => pair) (fun _ => Err (EMsg "no certificate")) (fun _ => false) (fun _ _ => bound) (fun _ => ("", "")).
Definition noCertificate : process := bareProcess (Err (EMsg "no such file")) (Ok "127.0.0.1:1").
Definition portTaken : process := bareProcess (Ok [[]]) (Err (EMsg "address already in use")).


(** Follow the tests of a program down to its announcement. *)
Ltac was_listening :=
  repeat match goal with
  | H : is_Some (r_ready (failed _)) |- _ => destruct H as [? H]; discriminate H
  | H : is_Some (r_ready match ?x with _ => _ end) |- _ => destruct x eqn:?
  end; eauto.

(** The servers with an accept loop of their own announce themselves only when they
    listen; those of DNS over HTTPS and of gRPC, which leave it to net/http, can announce
    themselves and exit with code 1: the one when there is no certificate, the other when
    the address is taken. *)
Theorem announcements gzip gunzip deflate inflate :
  let dns listen port fallback p := flagOr p "listen" (dnsListen listen port fallback p) in
  let websocket listen fallback p := envOr p listen (joinHostPort "127.0.0.1" (envOr p "PLAB_TARGET_PORT" fallback)) in
  let tls p := flagOr p "listen" (configuredListenAddress p) in
  (forall a, announcesWhenListening "tcp" (dns "PLAB_DOT_LISTEN" "PLAB_DOT_PORT" "18530") (fun p => GoDnsDot.main p a))
  /\ (forall a, announcesWhenListening "udp" (dns "PLAB_DOQ_LISTEN" "PLAB_DOQ_PORT" "18532") (fun p => GoDnsDoq.main p a))
  /\ (forall a, announcesWhenListening "tcp" (websocket "PLAB_HTTP1_WEBSOCKET_LISTEN" "18081") (fun p => GoWebSocket.main p a))
  /\ (forall a, announcesWhenListening "tcp" (websocket "PLAB_HTTP1_WEBSOCKET_TLS_LISTEN" "18443")
        (fun p => GoWebSocketTls.main deflate inflate p a))
  /\ (forall a, announcesWhenListening "tcp" tls (fun p => GoTls12.main p a))
  /\ (forall a, announcesWhenListening "tcp" tls (fun p => GoTls13ChaCha20.main p a))
  /\ (forall a, announcesWhenListening "tcp" tls (fun p => GoTls13Mtls.main p a))
  /\ (forall a, announcesWhenListening "tcp" tls (fun p => GoTls13.main p a))
  /\ (forall requests e, announcesTooEarly (fun p => GoDnsDoh2.main p requests e))
  /\ (forall requests e, announcesTooEarly (fun p => GoGrpc.main gzip gunzip p None requests e)).
Proof.
  intros dns websocket tls. split_and!; try (intros a p H).
  - unfold GoDnsDot.main in H. was_listening.
  - unfold GoDnsDoq.main in H. was_listening.
  - unfold GoWebSocket.main in H. was_listening.
  - unfold GoWebSocketTls.main in H. was_listening.
  - unfold GoTls12.main in H. was_listening.
  - unfold GoTls13ChaCha20.main in H. was_listening.
  - unfold GoTls13Mtls.main in H. was_listening.
  - unfold GoTls13.main in H. was_listening.
  - intros requests e. exists noCertificate. by repeat split; eexists.
  - intros requests e. exists portTaken. by repeat split; eexists.
Qed.

(** The same of the server of DNS over HTTP/3, once its fixtures are sound, and of
    WebTransport. *)
Lemma doh3_announces_too_early `{DnsLib} order requests ended :
  GoDnsDoh3.validateFixtures order = None -> announcesTooEarly (fun p => GoDnsDoh3.main p order requests false ended).
Proof. intros E. exists portTaken. unfold GoDnsDoh3.main. rewrite E. by repeat split; eexists. Qed.
Lemma webtransport_announces_too_early split requests ended :
  exists p r, WebTransportGo.main p false split requests ended = inr r /\ is_Some (r_ready r) /\ r_handled r = []
    /\ exitCode (r_end r) = Some 1.
Proof. exists portTaken. eexists. split; [reflexivity|]. by repeat split; eexists. Qed.

(** ** Sessions of the DNS servers over TLS *)

(** A session negotiated under the configuration of the server of DNS over TLS, or of DNS
    over QUIC (version 1, no early data), is served exactly when it has the protocol. *)
Lemma dns_config_leaves_protocol cipher curve st c :
  (negotiated GoDnsDot.config (ts_version st) cipher curve (ts_protocol st) (ts_resumed st) ->
   DnsDot.Server.handle (Ok st) c =
     if String.eqb (ts_protocol st) "dot" then DnsDot.Server.serveLoop (S (length (st_data (c_in c)))) ∅ c else (false, c))
  /\ (negotiated GoDnsDoq.tlsConfig_ (ts_version st) cipher curve (ts_protocol st) (ts_resumed st) ->
   DnsDoq.Server.servesConnection true false st = String.eqb (ts_protocol st) "doq").
Proof.
  assert (T : forall config, MinVersion config = VersionTLS13 -> MaxVersion config = VersionTLS13 -> SessionTicketsDisabled config = true ->
    negotiated config (ts_version st) cipher curve (ts_protocol st) (ts_resumed st) ->
    ts_version st = VersionTLS13 /\ ts_resumed st = false).
  { intros config E1 E2 E3 [[H1 H2] _ _ _ H5]. rewrite E1, E2 in *. split; [unfold VersionTLS13 in *; lia|auto]. }
  split; intros N; apply T in N as [V R]; try reflexivity.
  - unfold DnsDot.Server.handle. rewrite V, R. simpl. by destruct (String.eqb _ _).
  - unfold DnsDoq.Server.servesConnection. rewrite V, R. simpl. by rewrite !andb_true_r.
Qed.

(** ** The end of quic-go-raw *)

(** It exits with 2 for options it refuses, with 0 when it was told to end, with 1 when an
    accept failed otherwise; the streams it is serving by then are killed. *)
Lemma raw_exit_codes p split parse resolve certificate pid before err cancelled after opts bound :
  QuicRaw.Server.parseOptions (p_getenv p) split parse resolve = Ok opts -> is_ok certificate = true ->
  p_listen p "udp" (QuicRaw.Server.listen opts) = Ok bound -> errors_is ECanceled err = false ->
  let '(code, r) := QuicGoRaw.main p split parse resolve certificate pid ((Arrived <$> before) ++ AcceptFailed err cancelled :: after) in
  code = Some (if cancelled then 0 else 1)
  /\ r_handled r = (fun streams => cutShort (fun c => QuicRaw.Server.handleStream c opts) <$> untilFailure streams) <$> before
  /\ r_ready r = Some (QuicGoRaw.writeMetadata pid opts bound).
Proof.
  intros E1 E2 E3 E4. unfold QuicGoRaw.main, QuicGoRaw.runServer, QuicGoRaw.serveListener. rewrite E1.
  destruct certificate as [chain|]; [|discriminate E2]. cbn [QuicGoRaw.mustTLSConfig]. rewrite E3, acceptLoop_prefix.
  cbn [acceptLoop s_served s_end r_end r_handled r_ready]. rewrite app_nil_r. split_and!; [by destruct cancelled; [|rewrite E4]| |done].
  apply list_fmap_ext. intros _ streams _. unfold QuicGoRaw.handleConnection. rewrite served_untilFailure.
  apply list_fmap_ext. intros _ c _. by apply unawaited_cut.
Qed.

(** ** The files of a package *)

(** The elements of an absolute path, as [Clean] leaves them. *)
Definition plainElement (e : string) : Prop := e <> "" /\ e <> "." /\ e <> ".." /\ ~ slash ∈ String.list_ascii_of_string e.
Definition absolute (elements : list string) : string := "/" +:+ join "/" elements.

Lemma split_plain e : ~ slash ∈ String.list_ascii_of_string e -> split_on slash e = [e].
Proof.
  induction e as [|c e IH]; intros H; [done|]. simpl. rewrite decide_False by (intros ->; apply H; simpl; left).
  rewrite IH; [done|]. intros H'. apply H. simpl. by right.
Qed.
Lemma split_on_app e rest : ~ slash ∈ String.list_ascii_of_string e -> split_on slash (e +:+ "/" +:+ rest) = e :: split_on slash rest.
Proof.
  induction e as [|c e IH]; intros H; [done|]. simpl. rewrite decide_False by (intros ->; apply H; simpl; left).
  rewrite IH; [done|]. intros H'. apply H. simpl. by right.
Qed.
Lemma split_join l : l <> [] -> Forall (fun e => ~ slash ∈ String.list_ascii_of_string e) l -> split_on slash (join "/" l) = l.
Proof.
  intros Hn H. induction H as [|e l He Hl IH]; [done|]. destruct l as [|e' l]; [by apply split_plain|].
  change (join "/" (e :: e' :: l)) with (e +:+ "/" +:+ join "/" (e' :: l)). rewrite split_on_app by done. by rewrite IH.
Qed.
Lemma clean_plain rooted l stack more : Forall plainElement l ->
  cleanElements rooted stack (l ++ more) = cleanElements rooted (reverse l ++ stack) more.
Proof.
  intros H. revert stack. induction H as [|e l (H1 & H2 & H3 & _) _ IH]; intros stack; [done|]. simpl.
  apply String.eqb_neq in H1, H2, H3. rewrite H1, H2, H3. simpl. rewrite IH, reverse_cons, <- app_assoc. done.
Qed.

Lemma append_assoc (a b c : string) : (a +:+ b) +:+ c = a +:+ (b +:+ c).
Proof. induction a as [|x a IH]; [done|]. change (String x ((a +:+ b) +:+ c) = String x (a +:+ (b +:+ c))). by rewrite IH. Qed.
Lemma join_app l m : l <> [] -> m <> [] -> join "/" (l ++ m) = join "/" l +:+ "/" +:+ join "/" m.
Proof.
  intros Hl Hm. induction l as [|e l IH]; [done|]. destruct l as [|e' l]; [by destruct m|].
  change (join "/" ((e :: e' :: l) ++ m)) with (e +:+ "/" +:+ join "/" ((e' :: l) ++ m)). rewrite IH by done.
  change (join "/" (e :: e' :: l)) with (e +:+ "/" +:+ join "/" (e' :: l)). by rewrite !append_assoc.
Qed.

Lemma Clean_absolute es : es <> [] -> Forall (fun e => ~ slash ∈ String.list_ascii_of_string e) es ->
  Clean (absolute es) = absolute (reverse (cleanElements true [] es)).
Proof.
  intros Hn H. unfold Clean, absolute. change (split_on slash ("/" +:+ join "/" es)) with ("" :: split_on slash (join "/" es)).
  rewrite split_join by done. replace (has_prefix ("/" +:+ join "/" es) "/") with true by (by destruct (join "/" es)). reflexivity.
Qed.
Lemma plain_noslash es : Forall plainElement es -> Forall (fun e => ~ slash ∈ String.list_ascii_of_string e) es.
Proof. intros H. eapply Forall_impl; [exact H|]. intros e P. apply P. Qed.
Lemma noslash_literal e : forallb (fun c => negb (bool_decide (c = slash))) (String.list_ascii_of_string e) = true ->
  ~ slash ∈ String.list_ascii_of_string e.
Proof. intros H E. rewrite forallb_forall in H. apply list_elem_of_In, H in E. by rewrite bool_decide_true in E. Qed.

Lemma absolute_clean es : es <> [] -> Forall plainElement es -> Clean (absolute es) = absolute es.
Proof.
  intros Hn H. rewrite Clean_absolute by (done || by apply plain_noslash).
  rewrite <- (app_nil_r es) at 1. rewrite clean_plain by done. simpl. by rewrite app_nil_r, reverse_involutive.
Qed.
Lemma Dir_absolute es name : es <> [] -> Forall plainElement es -> plainElement name -> Dir (absolute (es ++ [name])) = absolute es.
Proof.
  intros Hn He Hp. unfold Dir, absolute at 1.
  change (split_on slash ("/" +:+ join "/" (es ++ [name]))) with ("" :: split_on slash (join "/" (es ++ [name]))).
  rewrite split_join; [|by destruct es|apply plain_noslash, Forall_app; by repeat constructor; try apply Hp].
  rewrite app_comm_cons, removelast_last.
  change (join "/" ("" :: es)) with (match es with [] => "" | _ => "/" +:+ join "/" es end).
  replace (match es with [] => "" | _ => "/" +:+ join "/" es end +:+ "/") with (absolute (es ++ [""])).
  2:{ unfold absolute. rewrite join_app by done. destruct es; [done|]. by rewrite append_assoc. }
  rewrite Clean_absolute.
  - rewrite clean_plain by done. simpl. by rewrite app_nil_r, reverse_involutive.
  - by destruct es.
  - apply Forall_app. split; [by apply plain_noslash|]. repeat constructor. by apply noslash_literal.
Qed.

(** Two directories up. *)
Lemma clean_parents root a b rest : Forall plainElement (root ++ [a; b]) -> Forall plainElement rest ->
  Clean (absolute ((root ++ [a; b]) ++ [".."; ".."] ++ rest)) = absolute (root ++ rest).
Proof.
  intros Hd Hr. rewrite Clean_absolute.
  - rewrite clean_plain by done. apply Forall_app in Hd as [_ Hab]. inversion_clear Hab as [|?? Ha Hb']. inversion_clear Hb' as [|?? Hb _].
    rewrite reverse_app, app_nil_r. change (reverse [a; b]) with [b; a]. simpl.
    destruct Ha as (_ & _ & Ha & _), Hb as (_ & _ & Hb & _). apply String.eqb_neq in Ha, Hb. rewrite Hb. simpl. rewrite Ha.
    rewrite <- (app_nil_r rest) at 1. rewrite clean_plain by done. simpl. by rewrite reverse_app, !reverse_involutive.
  - by destruct root.
  - apply Forall_app. split; [by apply plain_noslash|]. repeat (constructor; [by apply noslash_literal|]). by apply plain_noslash.
Qed.
Lemma Join_parents root a b rest : rest <> [] ->
  Join [absolute (root ++ [a; b]); ".."; ".."; join "/" rest] = Clean (absolute ((root ++ [a; b]) ++ [".."; ".."] ++ rest)).
Proof.
  intros Hr. unfold Join. simpl String.eqb. cbv iota. f_equal. unfold absolute.
  rewrite (join_app (root ++ [a; b])), (join_app [".."; ".."]) by (done || by destruct root).
  change (join "/" ["/" +:+ join "/" (root ++ [a; b]); ".."; ".."; join "/" rest])
    with (("/" +:+ join "/" (root ++ [a; b])) +:+ "/" +:+ join "/" [".."; ".."; join "/" rest]).
  rewrite append_assoc. reflexivity.
Qed.

(** The files of a package are found two directories above the executable of a server:
    from root/a/b/name, the material "x/y" is root/x/y when it is there, and ../x/y when it
    is not. *)
Theorem material_beside p root a b name relative :
  Forall plainElement (root ++ [a; b]) -> plainElement name -> Forall plainElement relative -> relative <> [] ->
  p_executable p = Ok (absolute (root ++ [a; b] ++ [name])) ->
  materialPath p (join "/" relative) =
    if p_stat p (absolute (root ++ relative)) then absolute (root ++ relative) else Join [".."; join "/" relative].
Proof.
  intros Hd Hname Hr Hn E. unfold materialPath. rewrite E, app_assoc, Dir_absolute by (done || by destruct root).
  rewrite Join_parents, clean_parents by done. reflexivity.
Qed.
Lemma material_beside_witness :
  let p := Process (fun _ => "") (fun _ => None) (Ok "/opt/pkg/bin/linux/go-tls12") (fun f => String.eqb f "/opt/pkg/certs/leaf.pem")
             (fun _ => Ok []) (fun _ _ => Ok []) (fun _ => Err EEOF) (fun _ => true) (fun _ a => Ok a) (fun _ => ("", "")) in
  Forall plainElement ["opt"; "pkg"; "bin"; "linux"] /\ materialPath p "certs/leaf.pem" = "/opt/pkg/certs/leaf.pem".
Proof.
  intros p.
  assert (P : forall e, forallb (fun x => negb (String.eqb e x)) [""; "."; ".."]
                && forallb (fun c => negb (bool_decide (c = slash))) (String.list_ascii_of_string e) = true -> plainElement e).
  { intros e H. apply andb_true_iff in H as [H1 H2]. apply noslash_literal in H2. simpl in H1. rewrite andb_true_r in H1.
    reflect_bools. repeat match goal with H : String.eqb _ _ = false |- _ => apply String.eqb_neq in H end. by repeat split. }
  assert (D : Forall plainElement ["opt"; "pkg"; "bin"; "linux"]) by (repeat constructor; by apply P).
  split; [exact D|].
  apply (material_beside p ["opt"; "pkg"] "bin" "linux" "go-tls12" ["certs"; "leaf.pem"] D); [by apply P|repeat constructor; by apply P|done|reflexivity].
Defined.
