(* ===== verification/TlsDocuments.v ===== *)
(** The directory a run of the executors of a single handshake leaves: every document they
    write, in full, and what becomes of the run when one cannot be written or only in part. *)
From S2P Require Export TlsLoad TlsHandshakes.

(** ** Documents *)

(** What encoding/json is given: nil, numbers, strings, slices, and maps and structs, whose
    fields are in the order of the source (the keys of a map are sorted when it is encoded). *)
Inductive value :=
| VNull | VBool (b : bool) | VInt (z : Z) | VFloat (f : float64) | VString (s : string)
| VArray (l : list value) | VObject (fields : list (string * value)).
Definition strings (l : list string) : value := VArray (VString <$> l).
(** The field of an object. *)
Definition member (name : string) (v : value) : option value :=
  match v with VObject fields => snd <$> List.find (fun f => String.eqb f.1 name) fields | _ => None end.

(** A file of a directory: a document, or what a write that failed has left of one, its
    first [n] octets (there may be none of them, and there may be all). *)
Inductive content (D : Type) := Whole (v : D) | Cut (v : D) (n : Z).
Arguments Whole {D}.
Arguments Cut {D}.
Abbreviation directory := (gmap string (content value)).

(** How [writeRequired] fails: the document cannot be encoded or the file not be created or
    truncated, so that the directory stays as it was; or, the file created or truncated, it
    cannot be written or closed, and [n] octets of the document are in it. *)
Inductive fault := Unopened (e : goerror) | Short (n : Z) (e : goerror).

(** [writeRequired] of the files in their order: each meets its fault, and the first that
    cannot be written ends the process. *)
Fixpoint writeFiles {D} (faults : list (option fault)) (files : list (string * D)) (dir : gmap string (content D))
    : gmap string (content D) * option goerror :=
  match files with
  | [] => (dir, None)
  | (name, v) :: files =>
      match faults with
      | Some (Unopened err) :: _ => (dir, Some err)
      | Some (Short n err) :: _ => (<[name := Cut v n]> dir, Some err)
      | None :: faults => writeFiles faults files (<[name := Whole v]> dir)
      | [] => writeFiles [] files (<[name := Whole v]> dir)
      end
  end.

(** ** What the three packages write *)

Definition authorityCommit : string := "8c4bbe8b7ee94b0e53427dd5ac15e7ede7b77574".
Definition loadProfileID : string := "tls-smoke".

(** Where the packages differ: the mode, the checks and the warning of their documents, what
    they say of their load generator, and how they show what they observed: as the proof
    itself, in files of their own, in the result and in the summary of a load. *)
Record package (O : Type) := Package {
  k_ids : identity; k_mode : string; k_checks : list string; k_warning : string; k_engine : list (string * value);
  k_proof : O -> value; k_before : O -> list (string * value); k_after : O -> list (string * value);
  k_result : option O -> list (string * value); k_summary : option O -> list (string * value)
}.
Arguments Package {O}.
Arguments k_ids {O}.
Arguments k_mode {O}.
Arguments k_checks {O}.
Arguments k_warning {O}.
Arguments k_engine {O}.
Arguments k_proof {O}.
Arguments k_before {O}.
Arguments k_after {O}.
Arguments k_result {O}.
Arguments k_summary {O}.

Section documents.
Context {O : Type} (k : package O).

Definition executorDocument : value :=
  VObject [("id", VString (executorID (k_ids k))); ("version", VString (executorVersion (k_ids k)))].
Definition loadGeneratorFields : list (string * value) :=
  [("id", VString (loadGeneratorID (k_ids k))); ("version", VString (loadGeneratorVersion (k_ids k)))].

Definition writeIdentity : list (string * value) :=
  [("executor-identity.json", VObject
      [("id", VString (executorID (k_ids k))); ("version", VString (executorVersion (k_ids k)));
       ("role", VString "client-test-executor"); ("supportedProtocols", strings ["tls"]);
       ("supportedScenarios", strings [scenarioID (k_ids k)]); ("supportedLoadProfiles", strings [loadProfileID])]);
   ("load-generator-identity.json", VObject (loadGeneratorFields ++ k_engine k))].

Definition writeProofArtifacts (o : O) : list (string * value) :=
  [("validation.json", VObject
      [("schemaVersion", VString "protocol-lab.validation.v1"); ("scenarioId", VString (scenarioID (k_ids k)));
       ("status", VString "passed"); ("checks", strings (k_checks k))])]
  ++ k_before k o ++ [("protocol-proof.json", k_proof k o); ("tls-negotiation.json", k_proof k o)] ++ k_after k o.

(** A nil slice is encoded as null. *)
Definition latencies (l : list float64) : value := match l with [] => VNull | _ => VArray (VFloat <$> l) end.
Definition observed (o : option O) : value := match o with Some o => k_proof k o | None => VNull end.
Definition summaryDocument (measured : summary O) : value :=
  VObject
    ([("durationSeconds", VFloat (DurationSeconds measured)); ("completedOperations", VInt (CompletedOperations measured));
      ("failedOperations", VInt (FailedOperations measured)); ("timedOutOperations", VInt (TimedOutOperations measured));
      ("handshakeLatencyMilliseconds", latencies (LatencyMS measured))]
     ++ match LastObservation measured with Some o => [("lastObservation", k_proof k o)] | None => [] end
     ++ k_summary k (LastObservation measured)
     ++ [("errors", VObject (prod_map id VInt <$> map_to_list (Errors measured)))]).
Definition metricsDocument (m : loadMetrics) : value :=
  VObject
    [("handshakesPerSecond", VFloat (HandshakesPerSecond m)); ("handshakeLatencyMean", VFloat (HandshakeLatencyMean m));
     ("handshakeLatencyP50", VFloat (HandshakeLatencyP50 m)); ("handshakeLatencyP95", VFloat (HandshakeLatencyP95 m));
     ("handshakeLatencyP99", VFloat (HandshakeLatencyP99 m)); ("completedOperations", VInt (MCompleted m));
     ("failedOperations", VInt (MFailed m)); ("timedOutOperations", VInt (MTimedOut m)); ("totalTransferredBytes", VInt 0)].
Definition resultDocument (measured : summary O) : value :=
  let r := resultArtifacts measured in
  VObject
    ([("schemaVersion", VString "protocol-lab.tls-executor-result.v1"); ("scenarioId", VString (scenarioID (k_ids k)));
      ("mode", VString (k_mode k)); ("authorityCommit", VString authorityCommit); ("executor", executorDocument);
      ("loadGenerator", VObject (loadGeneratorFields ++ k_engine k))]
     ++ k_result k (RProof r)
     ++ [("validation", VObject [("status", VString (RStatus r))]); ("protocolProof", observed (RProof r));
         ("requestedLoad", VObject
            [("profileId", VString loadProfileID); ("connections", VInt 1); ("concurrency", VInt 1); ("durationSeconds", VInt 5);
             ("warmupSeconds", VInt 1); ("repetitions", VInt 1); ("applicationDataBytes", VInt 0)]);
         ("effectiveLoad", VObject [("connections", VInt 1); ("concurrency", VInt 1); ("applicationDataBytes", VInt 0)]);
         ("metrics", metricsDocument (RMetrics r)); ("warnings", strings [k_warning k])]).
Definition writeResultArtifacts (measured : summary O) : list (string * value) :=
  [("tls-load-summary.json", summaryDocument measured); ("tls-executor-result.json", resultDocument measured);
   ("result.json", resultDocument measured)].

Definition writeFailureArtifacts (message : string) : list (string * value) :=
  let failure := VObject
    [("schemaVersion", VString "protocol-lab.validation.v1"); ("scenarioId", VString (scenarioID (k_ids k)));
     ("status", VString "failed"); ("message", VString message); ("executor", executorDocument)] in
  [("validation.json", failure); ("result.json", failure)] ++ writeIdentity.

Definition unsupportedDocument (requested : string) : value :=
  VObject
    [("schemaVersion", VString "protocol-lab.unsupported.v1"); ("status", VString "unsupported"); ("scenarioId", VString requested);
     ("reasonCode", VString "scenario-not-implemented");
     ("message", VString (executorID (k_ids k) +:+ "@" +:+ executorVersion (k_ids k) +:+ " recognizes " +:+ requested
                          +:+ " but does not implement its exact semantics"));
     ("authorityCommit", VString authorityCommit); ("executor", executorDocument);
     ("loadGenerator", VObject loadGeneratorFields); ("supportedScenarios", strings [scenarioID (k_ids k)])].
Definition emitUnsupported (requested : string) : list (string * value) :=
  let u := unsupportedDocument requested in [("unsupported.json", u); ("result.json", u)] ++ writeIdentity.

(** The files of what a run leaves. *)
Definition files (a : artifact O) : list (string * value) :=
  match a with
  | UnsupportedArtifacts requested => emitUnsupported requested
  | FailureArtifacts message => writeFailureArtifacts message
  | ProofArtifacts o => writeProofArtifacts o ++ writeIdentity
  | ResultArtifacts r => writeResultArtifacts (RSummary r)
  end.
(** A run on a directory: its exit code and what it leaves. A file that cannot be written
    ends it with code 1, whatever was to come. *)
Definition onDirectory (faults : list (option fault)) (run : Z * list (artifact O)) : Z * directory :=
  let '(dir, err) := writeFiles faults (concat (files <$> run.2)) ∅ in
  (match err with Some _ => 1 | None => run.1 end, dir).
End documents.

(** ** go-tls12-executor *)

Module Tls12Documents.

Definition proof (o : observation) : value :=
  VObject
    [("tlsProfileId", VString "plab-tls12-aes128gcm-p256-server-auth-v2"); ("tlsVersion", VString (TLSVersion o));
     ("cipherSuite", VString (CipherSuite o)); ("keyExchangeGroup", VString (KeyExchangeGroup o));
     ("signatureScheme", VString "ecdsa_secp256r1_sha256"); ("alpn", VString (ALPN o)); ("serverName", VString "tls.plab.test");
     ("handshakeComplete", VBool (HandshakeComplete o)); ("didResume", VBool (DidResume o));
     ("sessionStateOffered", VBool false); ("earlyDataAttempted", VBool false); ("applicationDataBytesSent", VInt 0);
     ("applicationDataBytesReceived", VInt 0); ("certificateProfile", VString "plab-single-leaf-p256-server-v2");
     ("certificateDerSha256", VString (CertificateDERSHA256 o)); ("certificateSpkiSha256", VString (CertificateSPKISHA256 o));
     ("certificateSignatureAlgorithm", VString (CertificateSignatureAlgorithm o));
     ("certificatePublicKeyAlgorithm", VString (CertificatePublicKeyAlgorithm o));
     ("certificateNamedCurve", VString (CertificateNamedCurve o)); ("sentCertificateCount", VInt (SentCertificateCount o));
     ("trustAnchorSent", VBool (TrustAnchorSent o)); ("verifiedChainCount", VInt (VerifiedChainCount o));
     ("handshakeLatencyMs", VFloat (HandshakeLatencyMS o)); ("connectionAndHandshakeLatencyMs", VFloat (ConnectionAndHandshakeMS o))].
Definition package : package observation :=
  Package Tls12.ids "full-tls12-handshake"
    ["protocol:tls1.2"; "no-fallback"; "handshake-complete"; "authenticated-peer"; "fresh-session"; "zero-unexpected-failures";
     "zero-timeouts"]
    "TLS 1.2 is a compatibility lane; local package smoke evidence is diagnostic and non-publishable." []
    proof (fun _ => []) (fun _ => []) (fun _ => []) (fun _ => []).
Definition writeProofArtifacts := TlsDocuments.writeProofArtifacts package.
Definition writeResultArtifacts := TlsDocuments.writeResultArtifacts package.
Definition writeFailureArtifacts := TlsDocuments.writeFailureArtifacts package.
Definition emitUnsupported := TlsDocuments.emitUnsupported package.
Definition writeIdentity := TlsDocuments.writeIdentity package.
Definition main (faults : list (option fault)) (env : mainEnv handshakeEnv) : Z * directory :=
  onDirectory package faults (Tls12.main env).

End Tls12Documents.

(** ** go-utls-tls13-chacha20-executor *)

Module ChaCha20Documents.

Definition loadEngineModule : string := "github.com/refraction-networking/utls".
Definition loadEngineVersion : string := "v1.8.2".
Definition clientHelloProfile : string := "utls-custom-tls13-chacha20-x25519-v1".
Definition executionMetadata : value :=
  VObject
    [("loadEngineModule", VString loadEngineModule); ("loadEngineModuleVersion", VString loadEngineVersion);
     ("clientHelloProfile", VString clientHelloProfile); ("clientHelloConstruction", VString "pinned ClientHelloSpec");
     ("license", VString "BSD-3-Clause")].
Definition hello (p : ChaCha20.clientHelloProof) : value :=
  VObject
    [("schemaVersion", VString "protocol-lab.tls-client-hello-proof.v1"); ("engineModule", VString loadEngineModule);
     ("engineModuleVersion", VString loadEngineVersion); ("clientHelloProfile", VString clientHelloProfile);
     ("cipherSuites", strings (ChaCha20.PCipherSuites p)); ("supportedVersions", strings (ChaCha20.PSupportedVersions p));
     ("supportedCurves", strings (ChaCha20.PSupportedCurves p)); ("keyShareGroups", strings (ChaCha20.PKeyShareGroups p));
     ("signatureAlgorithms", strings (ChaCha20.PSignatureAlgorithms p)); ("alpnProtocols", strings (ChaCha20.PALPNProtocols p));
     ("serverName", VString (ChaCha20.PServerName p)); ("sessionTicketOffered", VBool (ChaCha20.SessionTicketOffered p));
     ("pskOffered", VBool (ChaCha20.PSKOffered p)); ("earlyDataOffered", VBool (ChaCha20.EarlyDataOffered p))].
Definition proof (o : observation) : value :=
  VObject
    [("tlsProfileId", VString "plab-tls13-chacha20-p256-server-auth-v2"); ("tlsVersion", VString (TLSVersion o));
     ("cipherSuite", VString (CipherSuite o)); ("keyExchangeGroup", VString (KeyExchangeGroup o));
     ("signatureScheme", VString "ecdsa_secp256r1_sha256"); ("alpn", VString (ALPN o)); ("serverName", VString ChaCha20.serverName);
     ("handshakeComplete", VBool (HandshakeComplete o)); ("didResume", VBool (DidResume o));
     ("sessionStateOffered", VBool false); ("earlyDataAttempted", VBool false); ("applicationDataBytesSent", VInt 0);
     ("applicationDataBytesReceived", VInt 0); ("certificateProfile", VString "plab-single-leaf-p256-server-v2");
     ("certificateDerSha256", VString (CertificateDERSHA256 o)); ("certificateSpkiSha256", VString (CertificateSPKISHA256 o));
     ("certificateSignatureAlgorithm", VString (CertificateSignatureAlgorithm o));
     ("certificatePublicKeyAlgorithm", VString (CertificatePublicKeyAlgorithm o));
     ("certificateNamedCurve", VString (CertificateNamedCurve o)); ("sentCertificateCount", VInt (SentCertificateCount o));
     ("trustAnchorSent", VBool (TrustAnchorSent o)); ("verifiedChainCount", VInt (VerifiedChainCount o));
     ("handshakeLatencyMs", VFloat (HandshakeLatencyMS o)); ("connectionAndHandshakeLatencyMs", VFloat (ConnectionAndHandshakeMS o))].
Definition package : package (observation * ChaCha20.clientHelloProof) :=
  Package ChaCha20.ids "full-tls13-chacha20-handshake"
    ["protocol:tls1.3"; "cipher:TLS_CHACHA20_POLY1305_SHA256"; "client-hello:exact-single-suite"; "key-exchange:X25519"; "no-fallback";
     "handshake-complete"; "authenticated-peer"; "no-session-state"; "no-early-data"; "zero-application-bytes";
     "zero-unexpected-failures"; "zero-timeouts"]
    "Local evidence is diagnostic and non-publishable."
    [("engineModule", VString loadEngineModule); ("engineModuleVersion", VString loadEngineVersion)]
    (fun o => proof o.1) (fun o => [("client-hello-proof.json", hello o.2)]) (fun _ => [])
    (fun o => [("executionMetadata", executionMetadata); ("clientHelloProof", match o with Some o => hello o.2 | None => VNull end)])
    (fun o => match o with Some o => [("lastClientHello", hello o.2)] | None => [] end).
Definition writeProofArtifacts := TlsDocuments.writeProofArtifacts package.
Definition writeResultArtifacts := TlsDocuments.writeResultArtifacts package.
Definition writeFailureArtifacts := TlsDocuments.writeFailureArtifacts package.
Definition emitUnsupported := TlsDocuments.emitUnsupported package.
Definition writeIdentity := TlsDocuments.writeIdentity package.
Definition main (faults : list (option fault)) (env : mainEnv ChaCha20.utlsEnv) : Z * directory :=
  onDirectory package faults (ChaCha20.main env).

(** The hello the executor prescribes: the extensions of a [utls.ClientHelloSpec]. *)
Inductive extension :=
| SNIExtension | SupportedCurvesExtension (curves : list Z) | SupportedPointsExtension (points : bytes)
| ALPNExtension (protocols : list string) | SignatureAlgorithmsExtension (algorithms : list Z)
| KeyShareExtension (groups : list Z) | SupportedVersionsExtension (versions : list Z).
Record clientHelloSpec := ClientHelloSpec {
  TLSVersMin : Z; TLSVersMax : Z; SpecCipherSuites : list Z; CompressionMethods : bytes; Extensions : list extension
}.
Definition exactClientHelloSpec : clientHelloSpec :=
  ClientHelloSpec VersionTLS13 VersionTLS13 [TLS_CHACHA20_POLY1305_SHA256] [0]
    [SNIExtension; SupportedCurvesExtension [X25519]; SupportedPointsExtension [0]; ALPNExtension [alpn];
     SignatureAlgorithmsExtension [ChaCha20.ECDSAWithP256AndSHA256]; KeyShareExtension [X25519];
     SupportedVersionsExtension [VersionTLS13]].

End ChaCha20Documents.

(** ** go-tls13-mtls-executor *)

Module MtlsDocuments.

Definition serverCertProfileID : string := "plab-single-leaf-p256-server-v2".
Definition clientCertProfileID : string := "plab-single-leaf-p256-client-v2".
Definition proof (o : Mtls.mutualObservation) : value :=
  VObject
    [("tlsProfileId", VString "plab-tls13-aes128gcm-p256-mutual-auth-v2"); ("tlsVersion", VString (Mtls.MTLSVersion o));
     ("cipherSuite", VString (Mtls.MCipherSuite o)); ("keyExchangeGroup", VString (Mtls.MKeyExchangeGroup o));
     ("alpn", VString (Mtls.MALPN o)); ("serverName", VString "tls.plab.test");
     ("handshakeComplete", VBool (Mtls.MHandshakeComplete o)); ("didResume", VBool (Mtls.MDidResume o));
     ("earlyDataAttempted", VBool false); ("applicationDataBytesSent", VInt 0); ("applicationDataBytesReceived", VInt 0);
     ("serverCertificateProfile", VString serverCertProfileID);
     ("serverCertificateDerSha256", VString (Mtls.ServerCertificateDERSHA256 o));
     ("serverCertificateSpkiSha256", VString (Mtls.ServerCertificateSPKISHA256 o));
     ("clientCertificateProfile", VString clientCertProfileID);
     ("clientCertificateDerSha256", VString (Mtls.ClientCertificateDERSHA256 o));
     ("clientCertificateSpkiSha256", VString (Mtls.ClientCertificateSPKISHA256 o));
     ("clientCertificateChainSentCount", VInt (Mtls.ClientCertificateChainSentCount o));
     ("clientTrustAnchorSent", VBool (Mtls.ClientTrustAnchorSent o));
     ("serverCertificateVerified", VBool (Mtls.ServerCertificateVerified o));
     ("clientCertificateVerified", VBool (Mtls.ClientCertificateVerified o));
     ("mutualAuthenticated", VBool (Mtls.MutualAuthenticated o));
     ("verifiedServerChainCount", VInt (Mtls.VerifiedServerChainCount o));
     ("handshakeLatencyMs", VFloat (Mtls.MHandshakeLatencyMS o));
     ("connectionAndHandshakeLatencyMs", VFloat (Mtls.MConnectionAndHandshakeMS o))].
Definition peerAuthProof (o : Mtls.mutualObservation) : value :=
  VObject
    [("schemaVersion", VString "protocol-lab.tls-peer-auth-proof.v1"); ("scenarioId", VString (scenarioID Mtls.ids));
     ("serverCertificateProfile", VString serverCertProfileID);
     ("serverCertificateDerSha256", VString (Mtls.ServerCertificateDERSHA256 o));
     ("serverCertificateSpkiSha256", VString (Mtls.ServerCertificateSPKISHA256 o));
     ("clientCertificateProfile", VString clientCertProfileID);
     ("clientCertificateDerSha256", VString (Mtls.ClientCertificateDERSHA256 o));
     ("clientCertificateSpkiSha256", VString (Mtls.ClientCertificateSPKISHA256 o));
     ("clientCertificateChainSentCount", VInt (Mtls.ClientCertificateChainSentCount o));
     ("clientTrustAnchorSent", VBool (Mtls.ClientTrustAnchorSent o));
     ("serverCertificateVerified", VBool (Mtls.ServerCertificateVerified o));
     ("clientCertificateVerified", VBool (Mtls.ClientCertificateVerified o));
     ("mutualAuthenticated", VBool (Mtls.MutualAuthenticated o))].
Definition package : package Mtls.mutualObservation :=
  Package Mtls.ids "full-mutual-auth-handshake"
    ["protocol:tls1.3"; "no-fallback"; "handshake-complete"; "server-certificate-valid"; "client-certificate-valid";
     "mutual-authenticated"; "zero-unexpected-failures"; "zero-timeouts"]
    "Local package smoke evidence is diagnostic and non-publishable." []
    proof (fun _ => []) (fun o => [("peer-auth-proof.json", peerAuthProof o)]) (fun _ => []) (fun _ => []).
Definition writeProofArtifacts := TlsDocuments.writeProofArtifacts package.
Definition writeResultArtifacts := TlsDocuments.writeResultArtifacts package.
Definition writeFailureArtifacts := TlsDocuments.writeFailureArtifacts package.
Definition emitUnsupported := TlsDocuments.emitUnsupported package.
Definition writeIdentity := TlsDocuments.writeIdentity package.
Definition main (parse : bytes -> res certificate) (pair : res (list bytes)) (faults : list (option fault))
    (env : mainEnv handshakeEnv) : Z * directory := onDirectory package faults (Mtls.main parse pair env).

End MtlsDocuments.
