(* ===== verification/TlsDocumentsProps.v ===== *)
(** Theorems on the documents of the single-handshake executors: what their exit code says
    of the directory they leave, whatever could not be written, and that the proof of an
    accepted handshake repeats what the server announced. *)
From S2P Require Import Certificates TlsHandshakesProps TlsServers.
From S2P Require Export TlsDocuments.

#[local] Opaque hash.

(** ** Writing files *)

(** The files that were written, in their order, on a directory. *)
Abbreviation writeAll := (fold_left (fun d f => <[f.1 := Whole f.2]> d)).

(** What is in a directory after a write that failed: the same files, or also a part of
    the one it was writing. *)
Definition leaves {D} (rest : list (string * D)) (err : option goerror) (before after : gmap string (content D)) : Prop :=
  match err with
  | None => rest = [] /\ after = before
  | Some _ => exists name v more, rest = (name, v) :: more /\ (after = before \/ exists n, after = <[name := Cut v n]> before)
  end.

Lemma writeFiles_split {D} faults (files : list (string * D)) : forall dir dir' err, writeFiles faults files dir = (dir', err) ->
  exists done rest, files = done ++ rest /\ leaves rest err (writeAll done dir) dir'.
Proof.
  revert faults; induction files as [|[name v] files IH]; intros faults dir dir' err H; simpl in H.
  - injection H as <- <-. by exists [], [].
  - destruct faults as [|[[e|n e]|] faults].
    + apply IH in H as (done & rest & -> & L). by exists ((name, v) :: done), rest.
    + injection H as <- <-. exists [], ((name, v) :: files). split; [done|]. exists name, v, files. auto.
    + injection H as <- <-. exists [], ((name, v) :: files). split; [done|]. exists name, v, files. eauto.
    + apply IH in H as (done & rest & -> & L). by exists ((name, v) :: done), rest.
Qed.

(** Complete documents are among the files that were written, and a part of one is there
    only after a failure. *)
Lemma leaves_whole {D} (rest : list (string * D)) err before after name v :
  leaves rest err before after -> after !! name = Some (Whole v) -> before !! name = Some (Whole v).
Proof.
  unfold leaves. destruct err; [|by intros [_ ->]]. intros (x & w & more & _ & [-> | (n & ->)]) H; [done|].
  apply lookup_insert_Some in H as [[_ H]|[_ H]]; [discriminate H|exact H].
Qed.
Lemma leaves_cut {D} (rest : list (string * D)) err before after name v n :
  leaves rest err before after -> (forall name v n, before !! name <> Some (Cut v n)) -> after !! name = Some (Cut v n) ->
  err <> None /\ exists more, rest = (name, v) :: more.
Proof.
  unfold leaves. destruct err; [|intros [_ ->] Hb H; by apply Hb in H].
  intros (x & w & more & -> & [-> | (k & ->)]) Hb H; [by apply Hb in H|].
  apply lookup_insert_Some in H as [[<- [= <- _]]|[_ H]]; [|by apply Hb in H]. split; [done|by exists more].
Qed.
Lemma writeAll_whole {D} (files : list (string * D)) : forall dir : gmap string (content D),
  (forall name v n, dir !! name <> Some (Cut v n)) -> forall name v n, writeAll files dir !! name <> Some (Cut v n).
Proof.
  induction files as [|[x w] files IH]; intros dir Hd name v n; [apply Hd|]. cbn [fold_left fst snd]. apply IH.
  intros name' v' n' H. apply lookup_insert_Some in H as [[_ H]|[_ H]]; [discriminate H|by apply Hd in H].
Qed.

Lemma fold_inserts {D} (files : list (string * D)) : forall dir : gmap string (content D), NoDup files.*1 ->
  writeAll files dir = (Whole <$> list_to_map files) ∪ dir.
Proof.
  induction files as [|[name v] files IH]; intros dir H; [by rewrite list_to_map_nil, fmap_empty, (left_id_L ∅ (∪))|].
  apply NoDup_cons in H as [Hn H]. cbn [fold_left fst snd]. rewrite IH, list_to_map_cons, fmap_insert, <- insert_union_l by done.
  symmetry. apply insert_union_r. rewrite lookup_fmap. by rewrite not_elem_of_list_to_map_1.
Qed.

(** A directory that was written without a fault holds its files and nothing else; in any
    case the complete files in it are all that were to be written before some point, but
    for what is cut, and what is cut was to be written next. *)
Lemma written {D} faults (files : list (string * D)) dir err : NoDup files.*1 -> writeFiles faults files ∅ = (dir, err) ->
  exists done rest, files = done ++ rest /\ (err = None -> rest = []) /\ (rest = [] -> dir = Whole <$> list_to_map done) /\
    (forall name v, dir !! name = Some (Whole v) <-> (list_to_map done : gmap string D) !! name = Some v) /\
    (forall name v n, dir !! name = Some (Cut v n) -> err <> None /\ exists more, rest = (name, v) :: more).
Proof.
  intros Hn H. apply writeFiles_split in H as (done & rest & -> & L). exists done, rest.
  assert (Hd : NoDup done.*1) by (rewrite fmap_app in Hn; by apply NoDup_app in Hn as [? _]).
  assert (Hf : writeAll done ∅ = Whole <$> (list_to_map done : gmap string D)).
  { rewrite fold_inserts by done. apply (right_id_L ∅ (∪)). }
  assert (Hc : forall name v n, writeAll done (∅ : gmap string (content D)) !! name <> Some (Cut v n)).
  { apply writeAll_whole. intros name v n. by rewrite lookup_empty. }
  rewrite Hf in L, Hc. assert (Hw : forall name v, (Whole <$> (list_to_map done : gmap string D)) !! name = Some (Whole v)
    <-> (list_to_map done : gmap string D) !! name = Some v).
  { intros name v. rewrite lookup_fmap. destruct (_ !! name); simpl; split; congruence. }
  split; [done|]. split; [intros ->; by destruct L|]. split; [|split].
  - intros ->. destruct err; [|by destruct L]. by destruct L as (? & ? & ? & ? & _).
  - intros name v. split; [intros H; by apply Hw, (leaves_whole _ _ _ _ _ _ L)|]. intros H.
    unfold leaves in L. destruct err; [|destruct L as [_ ->]; by apply Hw].
    destruct L as (x & w & more & -> & [-> | (n & ->)]); [by apply Hw|]. rewrite lookup_insert_ne; [by apply Hw|].
    intros ->. rewrite fmap_app in Hn. apply NoDup_app in Hn as (_ & Hn & _). apply (Hn name); [|left].
    apply elem_of_list_to_map_2 in H. by apply (list_elem_of_fmap_2 fst) in H.
  - intros name v n. by apply (leaves_cut _ _ _ _ _ _ _ L).
Qed.

(** ** The runs *)

Section runs.
Context {O E : Type} (k : package O) (runHandshake : E -> res O) (latency : O -> float64).

(** The load whose result a run writes. *)
Definition measuredLoad (env : mainEnv E) (preflight : O) : summary O :=
  if m_validationOnly env
  then Summary (fdiv (latency preflight) (f_of_Z 1000)) 1 0 0 [latency preflight] (Some preflight) ∅
  else runFor runHandshake latency (m_measured env).1 (m_measured env).2.

Inductive runShape (env : mainEnv E) : Z -> list (artifact O) -> Prop :=
| Version : m_showVersion env = true -> runShape env 0 []
| Refused code : code = 1 \/ code = 2 -> runShape env code []
| Unsupported requested : requested ∈ knownUnsupported (k_ids k) -> runShape env 3 [UnsupportedArtifacts requested]
| Failed err : runHandshake (m_preflight env) = Err err -> runShape env 1 [FailureArtifacts (error_string err)]
| Loaded preflight : runHandshake (m_preflight env) = Ok preflight ->
    runShape env (if unclean (measuredLoad env preflight) then 1 else 0)
      [ProofArtifacts preflight; ResultArtifacts (resultArtifacts (measuredLoad env preflight))].

Lemma runMain_shape env : runShape env (runMain (k_ids k) runHandshake latency env).1 (runMain (k_ids k) runHandshake latency env).2.
Proof.
  unfold runMain. destruct (m_showVersion env) eqn:V; [by apply Version|].
  match goal with |- context [forallb ?f ?l] => destruct (forallb f l) end; cbn [negb]; [|apply Refused; auto].
  destruct (bool_decide (m_mkdir env <> None)); [apply Refused; auto|].
  destruct (string_in _ _) eqn:U; [apply Unsupported; by apply string_in_elem in U|].
  destruct (negb _); [apply Refused; auto|]. destruct (_ || _); [apply Refused; auto|].
  destruct (normalizeTarget _ _ _); [|apply Refused; auto]. destruct (m_identity env); [|apply Refused; auto].
  destruct (runHandshake (m_preflight env)) as [preflight|err] eqn:H; [|by apply Failed].
  pose proof (Loaded env preflight H) as L. revert L. unfold measuredLoad. destruct (m_validationOnly env); exact id.
Qed.
End runs.
Arguments runMain_shape {O E} k.

Section told.
Context {O E : Type} (k : package O) (runHandshake : E -> res O) (latency : O -> float64).

(** The files of a whole run. *)
Definition everything (preflight : O) (measured : summary O) : list (string * value) :=
  writeProofArtifacts k preflight ++ writeIdentity k ++ writeResultArtifacts k measured.

(** What the exit code says of the directory, and the other way round: 0, that the version
    was asked for or that it holds every document of a clean load; 2, that nothing was
    written; 3, that it holds the documents of a scenario known as unsupported. A file that
    is cut says 1. And a complete result in it is the failure of the preflight, which is also the validation; or that of
    an unsupported scenario; or that of a load, with every other document beside it. *)
Definition told (env : mainEnv E) (outcome : Z * directory) : Prop :=
  let '(code, dir) := outcome in
  code ∈ [0; 1; 2; 3] /\
  (code = 0 -> m_showVersion env = true /\ dir = ∅ \/
     exists preflight, runHandshake (m_preflight env) = Ok preflight /\
       let measured := measuredLoad runHandshake latency env preflight in
       dir = Whole <$> list_to_map (everything preflight measured) /\
       0 < CompletedOperations measured /\ FailedOperations measured = 0 /\ TimedOutOperations measured = 0) /\
  (code = 2 -> dir = ∅) /\
  (code = 3 -> exists requested, requested ∈ knownUnsupported (k_ids k) /\ dir = Whole <$> list_to_map (emitUnsupported k requested)) /\
  (forall name v n, dir !! name = Some (Cut v n) -> code = 1) /\
  (forall v, dir !! "result.json" = Some (Whole v) ->
     (exists err, runHandshake (m_preflight env) = Err err /\ code = 1 /\ dir !! "validation.json" = Some (Whole v)
        /\ member "status" v = Some (VString "failed") /\ member "message" v = Some (VString (error_string err)))
     \/ (exists requested, requested ∈ knownUnsupported (k_ids k) /\ (code = 1 \/ code = 3) /\ v = unsupportedDocument k requested
           /\ dir !! "unsupported.json" = Some (Whole v))
     \/ (exists preflight, runHandshake (m_preflight env) = Ok preflight /\ (code = 0 \/ code = 1) /\
           let measured := measuredLoad runHandshake latency env preflight in
           v = resultDocument k measured /\ dir = Whole <$> list_to_map (everything preflight measured))).

Context (distinct : forall preflight measured, NoDup (everything preflight measured).*1).

Lemma clean_load env preflight : unclean (measuredLoad runHandshake latency env preflight) = false ->
  let measured := measuredLoad runHandshake latency env preflight in
  0 < CompletedOperations measured /\ FailedOperations measured = 0 /\ TimedOutOperations measured = 0.
Proof.
  unfold measuredLoad. destruct (m_validationOnly env); [intros _; simpl; lia|]. unfold unclean. intros H. reflect_bools.
  pose proof (runFor_counts runHandshake latency (m_measured env).1 (m_measured env).2) as (C & _). unfold len in C. simpl. lia.
Qed.

(** When the last of the files is there, all are. *)
Lemma last_written (done rest init : list (string * value)) name v w : NoDup (init ++ [(name, w)]).*1 ->
  init ++ [(name, w)] = done ++ rest -> (list_to_map done : gmap string value) !! name = Some v -> rest = [] /\ v = w.
Proof.
  intros Hn Eq H. apply elem_of_list_to_map_2 in H. pose proof Hn as Hn'. rewrite Eq in Hn. rewrite fmap_app in Hn. apply NoDup_app in Hn as (_ & Hd & _).
  assert (R : rest = []).
  { destruct rest as [|f rest _] using rev_ind; [done|]. rewrite app_assoc in Eq. apply app_inj_tail in Eq as [_ <-].
    exfalso. apply (Hd name); [by apply (list_elem_of_fmap_2 fst) in H|]. rewrite fmap_app. apply elem_of_app. right. by apply list_elem_of_singleton. }
  split; [exact R|]. subst rest. rewrite app_nil_r in Eq. rewrite <- Eq in H.
  apply (elem_of_list_to_map_1 (M := gmap string)) in H; [|exact Hn'].
  assert (L : (list_to_map (init ++ [(name, w)]) : gmap string value) !! name = Some w).
  { apply elem_of_list_to_map_1; [exact Hn'|]. apply elem_of_app. right. by apply list_elem_of_singleton. }
  rewrite L in H. by injection H.
Qed.

(** When the second of the files is there, so is the first. *)
Lemma second_written (done rest more : list (string * value)) a x b y v : (a, x) :: (b, y) :: more = done ++ rest -> a <> b ->
  (list_to_map done : gmap string value) !! b = Some v -> v = y /\ (list_to_map done : gmap string value) !! a = Some x.
Proof.
  intros Eq Hab H. destruct done as [|f1 [|f2 done]].
  - by rewrite list_to_map_nil, lookup_empty in H.
  - injection Eq as <- _. rewrite list_to_map_cons, list_to_map_nil, lookup_insert_ne, lookup_empty in H by done. done.
  - injection Eq as <- <- _. rewrite !list_to_map_cons, ?lookup_insert_eq in *. simpl in H |- *.
    rewrite lookup_insert_ne, lookup_insert_eq in H by done. by injection H.
Qed.

Lemma onDirectory_told env faults : told env (onDirectory k faults (runMain (k_ids k) runHandshake latency env)).
Proof.
  pose proof (runMain_shape k runHandshake latency env) as S. unfold onDirectory.
  destruct (runMain (k_ids k) runHandshake latency env) as [code artifacts]. simpl in S |- *.
  destruct (writeFiles faults (concat (files k <$> artifacts)) ∅) as [dir err] eqn:W.
  destruct S as [V|code C|requested U|failure F|preflight P]; cbn [fmap list_fmap concat files] in W.
  - injection W as <- <-. unfold told. split_and!; try done; [set_solver|auto].
  - injection W as <- <-. unfold told. split_and!; try done; destruct C as [-> | ->]; try done; set_solver.
  - apply written in W as (done & rest & E1 & R & D & Hw & Hc); [|apply (bool_decide_unpack _); vm_compute; reflexivity].
    unfold told. split_and!.
    + destruct err; set_solver.
    + by destruct err.
    + by destruct err.
    + destruct err; [done|]. intros _. rewrite (R eq_refl), !app_nil_r in E1. rewrite (D (R eq_refl)), <- E1. by exists requested.
    + intros name v n H. apply Hc in H as [H _]. by destruct err.
    + intros v H. right; left. exists requested. split; [exact U|]. split; [destruct err; auto|]. apply Hw in H.
      apply (second_written _ _ _ _ _ _ _ _ E1) in H as [-> L]; [|done]. split; [done|by apply Hw].
  - apply written in W as (done & rest & E1 & R & D & Hw & Hc); [|apply (bool_decide_unpack _); vm_compute; reflexivity].
    unfold told. split_and!.
    + destruct err; set_solver.
    + by destruct err.
    + by destruct err.
    + by destruct err.
    + intros name v n H. by destruct err.
    + intros v H. left. exists failure. split; [exact F|]. split; [by destruct err|]. apply Hw in H.
      apply (second_written _ _ _ _ _ _ _ _ E1) in H as [-> L]; [|done]. apply Hw in L. by split_and!.
  - pose proof (distinct preflight (measuredLoad runHandshake latency env preflight)) as Nd. unfold everything in Nd.
    rewrite app_nil_r, <- app_assoc in W. change (RSummary (resultArtifacts ?m)) with m in W.
    apply written in W as (done & rest & E1 & R & D & Hw & Hc); [|exact Nd]. unfold told. split_and!.
    + destruct err; [|destruct (unclean _)]; set_solver.
    + destruct err; [done|]. destruct (unclean _) eqn:U; [done|]. intros _. right. exists preflight. split; [exact P|].
      rewrite (D (R eq_refl)). rewrite (R eq_refl), app_nil_r in E1. rewrite <- E1. split; [done|]. by apply clean_load.
    + destruct err; [|destruct (unclean _)]; done.
    + destruct err; [|destruct (unclean _)]; done.
    + intros name v n H. apply Hc in H as [H _]. by destruct err.
    + intros v H. right; right. exists preflight. split; [exact P|]. split; [destruct err; [|destruct (unclean _)]; auto|].
      apply Hw in H. unfold writeResultArtifacts in E1, Nd.
      change [?a; ?b; ?c] with ([a; b] ++ [c]) in E1, Nd. rewrite !app_assoc in E1, Nd.
      destruct (last_written _ _ _ _ _ _ Nd E1 H) as [Hr ->]. rewrite (D Hr). rewrite Hr, app_nil_r in E1. split; [done|].
      rewrite <- E1. unfold everything, writeResultArtifacts. by rewrite <- !app_assoc.
Qed.
End told.

(** C25: what the exit code of a single-handshake executor says of the directory it leaves,
    whatever could not be created or only be written in part: 0, the version was asked for
    or every document of a clean load is there, complete; 2, nothing is; 3, those of a
    scenario known as unsupported are. A file that is cut is there only with exit code 1. A
    complete result is the failed preflight, with exit code 1, or an unsupported scenario,
    or that of the load, with every other document of the run complete beside it. *)
Theorem directories_tell_the_exit parse pair faults :
  (forall env, told Tls12Documents.package Tls12.runHandshake HandshakeLatencyMS env (Tls12Documents.main faults env)) /\
  (forall env, told ChaCha20Documents.package ChaCha20.runHandshake (fun o => HandshakeLatencyMS o.1) env
     (ChaCha20Documents.main faults env)) /\
  (forall env, exists chain, told MtlsDocuments.package (Mtls.runHandshake parse chain) Mtls.MHandshakeLatencyMS env
     (MtlsDocuments.main parse pair faults env)).
Proof.
  split_and!; intros env.
  - apply (onDirectory_told Tls12Documents.package). intros; apply (bool_decide_unpack _); vm_compute; reflexivity.
  - apply (onDirectory_told ChaCha20Documents.package). intros; apply (bool_decide_unpack _); vm_compute; reflexivity.
  - eexists. unfold MtlsDocuments.main, Mtls.main.
    match goal with |- told _ _ _ env (onDirectory _ _ (runMain _ _ _ ?env')) =>
      apply (onDirectory_told MtlsDocuments.package _ _ ltac:(intros; apply (bool_decide_unpack _); vm_compute; reflexivity) env') end.
Qed.

(** ** Executor and server documents *)

(** The fields of an announcement and of a proof that say the same. *)
Definition repeats (d : document) (v : value) (names : list (string * string)) : Prop :=
  Forall (fun n => exists s, field d n.1 = Some (JString s) /\ member n.2 v = Some (VString s)) names.
Definition sharedFields : list (string * string) :=
  [("tlsVersion", "tlsVersion"); ("cipherSuite", "cipherSuite"); ("keyExchangeGroup", "keyExchangeGroup"); ("alpn", "alpn");
   ("tlsProfileId", "tlsProfileId"); ("certificateProfileId", "certificateProfile"); ("certificateDerSha256", "certificateDerSha256")].
Definition sharedMutualFields : list (string * string) :=
  [("tlsVersion", "tlsVersion"); ("cipherSuite", "cipherSuite"); ("keyExchangeGroup", "keyExchangeGroup"); ("alpn", "alpn");
   ("tlsProfileId", "tlsProfileId"); ("certificateProfileId", "serverCertificateProfile");
   ("certificateDerSha256", "serverCertificateDerSha256"); ("clientCertificateProfileId", "clientCertificateProfile");
   ("clientCertificateDerSha256", "clientCertificateDerSha256"); ("clientCertificateSpkiSha256", "clientCertificateSpkiSha256")].

Lemma handshakeWith_ok {O} (validate : connState -> O * option goerror) lat env o :
  handshakeWith validate lat env = Ok o -> exists state, h_state env = Ok state /\ (validate state).2 = None /\
    o = lat (h_latency env) (h_total env) (validate state).1.
Proof.
  unfold handshakeWith. destruct (h_dial env); [discriminate|]. destruct (h_state env) as [state|]; [|discriminate].
  destruct (validate state) as [o' [err|]] eqn:V; [discriminate|]. destruct (h_close env); [discriminate|].
  intros [= <-]. exists state. by rewrite V.
Qed.

(** The shared fields of an observation of the two executors without a certificate. *)
Lemma observed_fields state group lat total :
  let o := with_latencies lat total (observe state group) in
  TLSVersion o = TlsHandshakes.tlsVersionName (cs_version state) /\ CipherSuite o = cipherSuiteName (cs_cipher state)
  /\ KeyExchangeGroup o = curveName group /\ ALPN o = cs_protocol state
  /\ CertificateDERSHA256 o = (leafDigests (cs_peer state)).1.
Proof. unfold observe, with_latencies. destruct (leafDigests _), (leafAlgorithms _) as [[? ?] ?]. done. Qed.
Lemma leaf_digest state : leaf_ok (cs_peer state) -> (leafDigests (cs_peer state)).1 = leafDERHash.
Proof. by intros (leaf & -> & H & _). Qed.

Lemma chacha20_accepted env o : ChaCha20.runHandshake env = Ok o -> exists state group,
  (ChaCha20.validateState state group (ChaCha20.u_psk env)).2 = None /\
  o.1 = with_latencies (h_latency (ChaCha20.u_env env)) (h_total (ChaCha20.u_env env)) (observe state group).
Proof.
  unfold ChaCha20.runHandshake. destruct (h_dial _); [discriminate|]. destruct (ChaCha20.u_preset env); [discriminate|].
  destruct (ChaCha20.u_build env); [discriminate|]. destruct (ChaCha20.validateClientHello _ _) as [hello [e|]]; [discriminate|].
  destruct (h_state _) as [state|]; [|discriminate]. destruct (ChaCha20.u_group env) as [group|]; [|discriminate].
  destruct (ChaCha20.validateState state group (ChaCha20.u_psk env)) as [o' [e|]] eqn:V; [discriminate|].
  destruct (h_close _); [discriminate|]. intros [= <-]. exists state, group. rewrite V. split; [reflexivity|].
  unfold ChaCha20.validateState in V. by injection V as <- _.
Qed.

Ltac repeats_all := repeat (apply Forall_cons; split; [eexists; split; reflexivity|]); apply Forall_nil; exact I.

(** What a proof has to observe to repeat the announcement of its server. *)
Lemma tls12_repeats o listen :
  TLSVersion o = "TLS1.2" -> CipherSuite o = cipherSuiteName TLS_ECDHE_ECDSA_WITH_AES_128_GCM_SHA256 ->
  KeyExchangeGroup o = "X25519" -> ALPN o = alpn -> CertificateDERSHA256 o = leafDERHash ->
  repeats (GoTls12.writeReady listen) (Tls12Documents.proof o) sharedFields.
Proof. intros H1 H2 H3 H4 H5. unfold Tls12Documents.proof. rewrite H1, H2, H3, H4, H5. repeats_all. Qed.
Lemma chacha20_repeats o listen :
  TLSVersion o = "TLS1.3" -> CipherSuite o = cipherSuiteName TLS_CHACHA20_POLY1305_SHA256 ->
  KeyExchangeGroup o = "X25519" -> ALPN o = alpn -> CertificateDERSHA256 o = leafDERHash ->
  repeats (GoTls13ChaCha20.writeReady listen) (ChaCha20Documents.proof o) sharedFields.
Proof. intros H1 H2 H3 H4 H5. unfold ChaCha20Documents.proof. rewrite H1, H2, H3, H4, H5. repeats_all. Qed.
Lemma mtls_repeats o listen :
  Mtls.MTLSVersion o = "TLS1.3" -> Mtls.MCipherSuite o = cipherSuiteName TLS_AES_128_GCM_SHA256 ->
  Mtls.MKeyExchangeGroup o = "X25519" -> Mtls.MALPN o = alpn -> Mtls.ServerCertificateDERSHA256 o = leafDERHash ->
  Mtls.ClientCertificateDERSHA256 o = Mtls.clientLeafDERHash -> Mtls.ClientCertificateSPKISHA256 o = Mtls.clientLeafSPKIHash ->
  repeats (GoTls13Mtls.writeReady listen) (MtlsDocuments.proof o) sharedMutualFields.
Proof. intros H1 H2 H3 H4 H5 H6 H7. unfold MtlsDocuments.proof. rewrite H1, H2, H3, H4, H5, H6, H7. repeats_all. Qed.

(** C27: when an executor accepts a handshake, the proof it writes repeats what the server
    of its scenario announced: the version, the suite, the group, the protocol, the
    profiles and the digests of the certificates. *)
Theorem proof_repeats_announcement :
  (forall env o listen, Tls12.runHandshake env = Ok o ->
     repeats (GoTls12.writeReady listen) (Tls12Documents.proof o) sharedFields) /\
  (forall env o listen, ChaCha20.runHandshake env = Ok o ->
     repeats (GoTls13ChaCha20.writeReady listen) (ChaCha20Documents.proof o.1) sharedFields) /\
  (forall parse chain env o listen, Mtls.runHandshake parse chain env = Ok o ->
     repeats (GoTls13Mtls.writeReady listen) (MtlsDocuments.proof o) sharedMutualFields).
Proof.
  split_and!.
  - intros env o listen H. apply handshakeWith_ok in H as (state & _ & V & ->). revert V.
    unfold Tls12.validateState. cbn [fst snd]. failures_to_conditions. rewrite certificateFailures_none.
    intros ([H1 _] & H2 & H3 & H4 & _ & _ & L). apply leaf_digest in L.
    destruct (observed_fields state (cs_curve state) (h_latency env) (h_total env)) as (F1 & F2 & F3 & F4 & F5).
    apply tls12_repeats; rewrite ?F1, ?F2, ?F3, ?F4, ?F5, ?H1, ?H2, ?H3, ?H4, ?L; reflexivity.
  - intros env o listen H. apply chacha20_accepted in H as (state & group & V & ->). revert V.
    unfold ChaCha20.validateState. cbn [fst snd]. failures_to_conditions. rewrite certificateFailures_none.
    intros ([H1 _] & H2 & H3 & H4 & _ & _ & L). apply leaf_digest in L.
    destruct (observed_fields state group (h_latency (ChaCha20.u_env env)) (h_total (ChaCha20.u_env env))) as (F1 & F2 & F3 & F4 & F5).
    apply chacha20_repeats; rewrite ?F1, ?F2, ?F3, ?F4, ?F5, ?H1, ?H2, ?H3, ?H4, ?L; reflexivity.
  - intros parse chain env o listen H. apply handshakeWith_ok in H as (state & _ & V & ->). revert V.
    unfold Mtls.validateState. destruct (match chain with [] => _ | _ => _ end) as [cder cspki].
    destruct (leafDigests (cs_peer state)) as [sder sspki]. cbn [fst snd Mtls.with_mutual_latencies]. failures_to_conditions.
    intros ([H1 _] & H2 & H3 & H4 & _ & _ & [H5 _] & _ & H6 & H7).
    rewrite H1, H2, H3, H4, H5, H6, H7. apply mtls_repeats; reflexivity.
Qed.

(** ** The prescribed hello *)

(** What utls documents of the hello it builds from a specification and a server name: the
    suites of the specification, the values of its extensions, and nothing of the
    extensions it does not have. *)
Record builtFrom (spec : ChaCha20Documents.clientHelloSpec) (name : string) (h : ChaCha20.clientHello) : Prop := {
  bf_suites : ChaCha20.CipherSuites h = ChaCha20Documents.SpecCipherSuites spec;
  bf_each : Forall (fun e => match e with
    | ChaCha20Documents.SNIExtension => ChaCha20.ServerName h = name
    | ChaCha20Documents.SupportedCurvesExtension curves => ChaCha20.SupportedCurves h = curves
    | ChaCha20Documents.SupportedPointsExtension _ => True
    | ChaCha20Documents.ALPNExtension protocols => ChaCha20.AlpnProtocols h = protocols
    | ChaCha20Documents.SignatureAlgorithmsExtension algorithms => ChaCha20.SupportedSignatureAlgorithms h = algorithms
    | ChaCha20Documents.KeyShareExtension groups => ChaCha20.KeyShares h = groups
    | ChaCha20Documents.SupportedVersionsExtension versions => ChaCha20.SupportedVersions h = versions
    end) (ChaCha20Documents.Extensions spec);
  bf_session : ChaCha20.TicketSupported h = false /\ ChaCha20.SessionTicket h = [] /\ ChaCha20.PskIdentities h = 0
    /\ ChaCha20.PskBinders h = 0 /\ ChaCha20.PskModes h = [] /\ ChaCha20.EarlyData h = false
}.
(** The prescribed hello passes the check of the executor that prescribes it. *)
Lemma prescribed_hello_passes signatures h : builtFrom ChaCha20Documents.exactClientHelloSpec ChaCha20.serverName h ->
  (ChaCha20.validateClientHello signatures (Some h)).2 = None.
Proof.
  intros [H1 H2 (S1 & S2 & S3 & S4 & S5 & S6)]. simpl in H1, H2. repeat (apply Forall_cons in H2 as [? H2]).
  unfold ChaCha20.validateClientHello. cbn [snd].
  repeat match goal with H : ?f h = _ |- _ => rewrite H; clear H end. reflexivity.
Qed.

(** A handshake with go-tls12 and its certificate. *)
Definition tls12Handshake : handshakeEnv :=
  HandshakeEnv None
    (Ok (ConnState VersionTLS12 TLS_ECDHE_ECDSA_WITH_AES_128_GCM_SHA256 X25519 alpn true false 1
           [Certificate tls_leaf_der tls_leaf_spki "ECDSA-SHA256" "ECDSA" "P-256"])) None f_zero f_zero.
Lemma proof_repeats_announcement_witness :
  exists o, Tls12.runHandshake tls12Handshake = Ok o /\
    repeats (GoTls12.writeReady "127.0.0.1:18443") (Tls12Documents.proof o) sharedFields.
Proof.
  destruct (Tls12.runHandshake tls12Handshake) as [o|err] eqn:H; [|vm_compute in H; discriminate H].
  exists o. split; [reflexivity|]. exact (proj1 proof_repeats_announcement tls12Handshake o "127.0.0.1:18443" H).
Defined.
(** A run whose result cannot be written, the disk full after 100 octets of it: everything
    before it is there, the result is cut, and the exit code is 1. *)
Example unwritable_result :
  let env := MainEnv (fun name => if String.eqb name "PLAB_SCENARIO_ID" then "tls.handshake.full.tls12" else "") "tls.plab.test:18443"
               (fun _ => Err EEOF) (fun _ => None) (Ok tt) true false None tls12Handshake ([], f_zero) ([], f_zero) in
  let '(code, dir) := Tls12Documents.main (replicate 7 None ++ [Some (Short 100 (EMsg "no space left on device"))]) env in
  code = 1 /\ bool_decide (dir !! "tls-executor-result.json" = None) = false
  /\ match dir !! "result.json" with Some (Cut _ 100) => True | _ => False end.
Proof. vm_compute. repeat split. Qed.
