(* ===== verification/Copies.v ===== *)
(** The helpers of the Go packages. Every package is a program of its own and carries its
    own copy of what it shares with others, the same up to the names of variables: this file
    says, package by package, which definition its copies are. Where a copy is written in
    another way, or words an error differently, it is written out, with a lemma that it is
    the same function when it is. *)
From Stdlib Require Import Floats.SpecFloat.
From stdpp Require Import sorting.
From S2P Require Import Stats WsCodec WsHandshake GrpcCodec GrpcClient H2Load H2Stream DnsWire DnsDoh DnsDoh3 DatagramBase.
From S2P Require Import Tls13 TlsHandshakes DnsDot DnsDoq DnsDoh2 WsRun WsClear HttpServers Resolvers.
From S2P Require Export Serving.

(** ** What has copies *)

(** [errorString] of an error or nil. *)
Definition errorString (err : option goerror) : string := match err with Some err => error_string err | None => "" end.
(** [isTimeout] of an error or nil. *)
Definition isTimeout (err : option goerror) : bool :=
  match err with Some err => errors_is EDeadline err || is_net_timeout err | None => false end.
Definition boolInt (value : bool) : Z := if value then 1 else 0.
Definition outputOrDefault (value : string) : string := if String.eqb (trim_space value) "" then "artifacts" else value.

(** [equal]: the lengths, and then every octet. *)
Definition equal (a b : bytes) : bool :=
  (len a =? len b) && forallb (fun i => byte_at a (Z.to_nat i) =? byte_at b (Z.to_nat i)) (seqZ 0 (len a)).
Lemma equal_spec a b : equal a b = true <-> a = b.
Proof.
  unfold equal. rewrite andb_true_iff, Z.eqb_eq, forallb_forall. split.
  - intros [Hl H]. apply list_eq_same_length with (length a); [unfold len in Hl; lia|done|]. intros i x y Hi Hx Hy.
    specialize (H (Z.of_nat i)). rewrite Nat2Z.id in H. unfold byte_at in H.
    rewrite (nth_lookup_Some _ _ _ _ Hx), (nth_lookup_Some _ _ _ _ Hy) in H. apply Z.eqb_eq, H, list_elem_of_In, elem_of_seqZ.
    unfold len. lia.
  - intros ->. split; [done|]. intros i _. apply Z.eqb_refl.
Qed.

(** [loadRoots], with the error of a file without a certificate. *)
Definition rootsOr (message : string) (p : process) (path : string) : res unit :=
  let? data := p_readFile p path in
  guard p_pem p data else EMsg message in Ok tt.

(** The keys of a map, sorted, whatever the order in which it is ranged over. *)
Definition sortedIDs (ids : list string) : list string := merge_sort String.le ids.
Lemma sortedIDs_order ids ids' : Permutation ids ids' -> sortedIDs ids = sortedIDs ids'.
Proof.
  intros H. unfold sortedIDs. apply (Sorted_unique String.le); [apply Sorted_merge_sort, _|apply Sorted_merge_sort, _|].
  by rewrite !merge_sort_Permutation.
Qed.

(** [contains] and [isKnownUnsupported]. *)
Definition contains (values : list string) (value : string) : bool := existsb (fun v => String.eqb v value) values.
Lemma contains_spec values value : contains values value = true <-> value ∈ values.
Proof.
  unfold contains. rewrite existsb_exists. split.
  - intros (v & Hv & E). apply String.eqb_eq in E as ->. by apply list_elem_of_In.
  - intros H. exists value. split; [by apply list_elem_of_In|apply String.eqb_refl].
Qed.

Definition payloadGenerator (operation : string) : string :=
  if String.eqb operation "text-echo" || String.eqb operation "control-frames" then "exact-utf8"
  else if String.eqb operation "binary-echo" then "repeated-octet" else "none".
Definition repeatedByte (value : Z) (count : nat) : bytes := replicate count value.

(** [requireIdentity]: whether the identity is the one expected. *)
Definition requireIdentity (getenv : string -> string) (name expected : string) : bool :=
  String.eqb (TlsBase.env_value getenv name) expected.

(** What a package says of where it ran: the target of the compiler and its version. *)
Definition runtimeProvenance (goos goarch version : string) : list (string * string) :=
  [("goos", goos); ("goarch", goarch); ("goVersion", version)].
Definition accelerationProvenance : list (string * string) := [("mode", "not-reported")].

(** The means that are written in another way. *)
Definition meanOfTotal (v : list float64) : float64 :=
  let t := fold_left fadd v f_zero in if len v =? 0 then f_zero else fdiv t (f_of_Z (len v)).
Definition sum (v : list float64) : float64 := fold_left fadd v f_zero.
Definition meanOfSum (v : list float64) : float64 := if len v =? 0 then f_zero else fdiv (sum v) (f_of_Z (len v)).
Lemma means_agree v : meanOfTotal v = mean v /\ meanOfSum v = mean v.
Proof.
  unfold meanOfTotal, meanOfSum, sum, mean. destruct v as [|x v]; [done|].
  replace (len (x :: v) =? 0) with false; [done|]. symmetry. apply Z.eqb_neq. unfold len. simpl. lia.
Qed.

(** The names of versions, TLS 1.3 first. *)
Definition tls13VersionFirst (value : Z) : string :=
  if value =? VersionTLS13 then "TLS1.3" else if value =? VersionTLS12 then "TLS1.2" else "0x" +:+ hex_encode (be_encode 2 value).
Lemma version_names_agree value : tls13VersionFirst value = TlsHandshakes.tlsVersionName value.
Proof.
  unfold tls13VersionFirst, TlsHandshakes.tlsVersionName.
  destruct (Z.eqb_spec value VersionTLS13) as [->|]; [reflexivity|]. by destruct (value =? VersionTLS12).
Qed.

(** The load tool of a package, and the digest of the program itself. *)
Definition resolvePackagedOhaPath (windows : bool) (stat : string -> option goerror) (p : process) : res string :=
  let? executable := p_executable p in
  let '(rid, name) := if windows then ("win-x64", "oha.exe") else ("linux-x64", "oha") in
  let path := Clean (Join [Dir executable; ".."; ".."; "tools"; rid; name]) in
  match stat path with Some err => Err (EWrap ("packaged oha was unavailable at " +:+ path) err) | None => Ok path end.
Definition currentExecutableSHA256 (p : process) : res string :=
  let? path := p_executable p in let? data := p_readFile p path in Ok (sha256_hex data).

(** Writing a document: [encoded] is what [json.MarshalIndent] gives, and [writeFile] is
    [os.WriteFile]. *)
Section files.
Context (writeFile : string -> bytes -> option goerror).
Definition writeDocument (path : string) (encoded : res bytes) : option goerror :=
  match encoded with Err err => Some err | Ok data => writeFile path (data ++ [10]) end.
(** The exit code, if it cannot be written. *)
Definition writeOrExit (code : Z) (dir name : string) (encoded : res bytes) : option Z :=
  match writeDocument (Join [dir; name]) encoded with Some _ => Some code | None => None end.
(** [writeExecutorResult]: the document is written and then printed; [print] is the write
    to the standard output. *)
Definition writeAndPrint (print : bytes -> option goerror) (outputDir : string) (encoded : res bytes) : option goerror :=
  match encoded with
  | Err err => Some err
  | Ok data =>
      let data := data ++ [10] in
      match writeFile (Join [outputDir; "http-executor-result.json"]) data with Some err => Some err | None => print data end
  end.
End files.

(** ** executors/dns-classic-fixture *)

Module ClassicExecutor.
Definition mean : list float64 -> float64 := meanOfTotal.
Definition percentile : list float64 -> float64 -> float64 := Stats.percentile.
Definition write : (string -> bytes -> option goerror) -> string -> string -> res bytes -> option Z :=
  fun writeFile => writeOrExit writeFile 2.
End ClassicExecutor.

(** ** executors/go-dns-dot-executor *)

Module DotExecutor.
Definition frame : bytes -> bytes := DnsWire.frame.
Definition loadRoots : process -> string -> res unit := rootsOr "root PEM contained no certificate".
Definition mean : list float64 -> float64 := Stats.mean.
Definition percentile : list float64 -> float64 -> float64 := Stats.percentile.
Definition envInt : (string -> string) -> string -> Z := TlsBase.envInt.
Definition tlsVersionName : Z -> string := Tls13.tlsVersionName.
Definition hash : bytes -> string := TlsBase.hash.
Definition mustHex : string -> bytes := DnsWire.mustHex.
Definition equal : bytes -> bytes -> bool := equal.
Definition durationMS : Z -> float64 := Stats.durationMS.
Definition isTimeout : option goerror -> bool := isTimeout.
Definition errorString : option goerror -> string := errorString.
Definition writeRequired : (string -> bytes -> option goerror) -> string -> string -> res bytes -> option Z :=
  fun writeFile => writeOrExit writeFile 1.
Definition tlsProfileID : string -> string :=
  fun scenario => if String.eqb scenario DnsDot.interopScenario || String.eqb scenario DnsDot.resolverScenario then "plab-secure-dns-interoperability-v2" else "plab-secure-dns-tls13-v1".
Definition selectedCertificateProfile : string -> string :=
  fun scenario => if String.eqb scenario DnsDot.interopScenario || String.eqb scenario DnsDot.resolverScenario then "plab-secure-dns-interoperability-leaf-v2" else "plab-secure-dns-single-leaf-p256-v1".
Definition runtimeProvenance : string -> string -> string -> list (string * string) := runtimeProvenance.
End DotExecutor.

(** ** executors/go-dns-doq-executor *)

Module DoqExecutor.
Definition loadRoots : process -> string -> res unit := rootsOr "root PEM contained no certificate".
Definition mean : list float64 -> float64 := Stats.mean.
Definition percentile : list float64 -> float64 -> float64 := Stats.percentile.
Definition requireIdentity : (string -> string) -> string -> string -> bool := requireIdentity.
Definition envInt : (string -> string) -> string -> Z := TlsBase.envInt.
Definition tlsVersionName : Z -> string := Tls13.tlsVersionName.
Definition durationMS : Z -> float64 := Stats.durationMS.
Definition isTimeout : option goerror -> bool := isTimeout.
Definition errorString : option goerror -> string := errorString.
Definition firstError : option goerror -> goerror -> goerror := fun err fallback => default fallback err.
Definition writeRequired : (string -> bytes -> option goerror) -> string -> string -> res bytes -> option Z :=
  fun writeFile => writeOrExit writeFile 1.
Definition tlsProfileID : string -> string :=
  fun scenario => if String.eqb scenario DnsDoq.interopScenario then "plab-secure-dns-interoperability-v2" else "plab-secure-dns-tls13-v1".
Definition selectedCertificateProfile : string -> string :=
  fun scenario => if String.eqb scenario DnsDoq.interopScenario then "plab-secure-dns-interoperability-leaf-v2" else "plab-secure-dns-single-leaf-p256-v1".
Definition runtimeProvenance : string -> string -> string -> list (string * string) := runtimeProvenance.
Definition frame : bytes -> bytes := DnsWire.frame.
Definition hash : bytes -> string := TlsBase.hash.
Definition mustHex : string -> bytes := DnsWire.mustHex.
End DoqExecutor.

(** ** executors/go-dns-doh2-executor *)

Module Doh2Executor.
Definition loadRoots : process -> string -> res unit := rootsOr "root PEM contained no certificate".
Definition mean : list float64 -> float64 := Stats.mean.
Definition percentile : list float64 -> float64 -> float64 := Stats.percentile.
Definition envInt : (string -> string) -> string -> Z := TlsBase.envInt.
Definition tlsVersionName : Z -> string := Tls13.tlsVersionName.
Definition hash : bytes -> string := TlsBase.hash.
Definition mustHex : string -> bytes := DnsWire.mustHex.
Definition durationMS : Z -> float64 := Stats.durationMS.
Definition isTimeout : option goerror -> bool := isTimeout.
Definition errorString : option goerror -> string := errorString.
Definition writeRequired : (string -> bytes -> option goerror) -> string -> string -> res bytes -> option Z :=
  fun writeFile => writeOrExit writeFile 1.
Definition runtimeProvenance : string -> string -> string -> list (string * string) := runtimeProvenance.
Definition flushResolverCache : forall `{UrlLib}, (string -> string) -> string -> (string -> res (Z * bytes)) -> option goerror :=
  fun _ getenv endpoint => DnsWire.flushResolverCache getenv (DnsDoh2.controlAddress endpoint).
End Doh2Executor.

(** ** executors/go-dns-doh3-executor *)

Module Doh3Executor.
Definition validateFixture : forall `{DnsLib}, fixture -> option goerror := fun _ => DnsDoh3.validateFixture.
Definition record : DnsDoh3.exchangeProof -> dohSummary DnsDoh3.exchangeProof -> dohSummary DnsDoh3.exchangeProof := DnsDoh.record.
Definition classify : goerror -> dohSummary DnsDoh3.exchangeProof -> dohSummary DnsDoh3.exchangeProof := DnsDoh.classified.
Definition loadRoots : process -> string -> res unit := rootsOr "root PEM contained no certificate".
Definition sortedScenarioIDs : list fixture -> list string := fun fixtures => sortedIDs (DnsDoh3.ScenarioID <$> fixtures).
Definition mean : list float64 -> float64 := Stats.mean.
Definition percentile : list float64 -> float64 -> float64 := Stats.percentile.
Definition requireIdentity : (string -> string) -> string -> string -> bool := requireIdentity.
Definition tlsVersionName : Z -> string := Tls13.tlsVersionName.
Definition durationMS : Z -> float64 := Stats.durationMS.
Definition isTimeout : option goerror -> bool := isTimeout.
Definition errorString : option goerror -> string := errorString.
Definition writeRequired : (string -> bytes -> option goerror) -> string -> string -> res bytes -> option Z :=
  fun writeFile => writeOrExit writeFile 1.
Definition runtimeProvenance : string -> string -> string -> list (string * string) := runtimeProvenance.
End Doh3Executor.

(** ** executors/go-http1-websocket-executor *)

Module WsExecutor.
Definition sortedSupportedIDs : list string := sortedIDs (WsClear.Clear.e_id <$> WsClear.Clear.expectations).
Definition repeatedByte : Z -> nat -> bytes := repeatedByte.
Definition equal : bytes -> bytes -> bool := equal.
Definition payloadGenerator : string -> string := payloadGenerator.
Definition mean : list float64 -> float64 := Stats.mean.
Definition percentile : list float64 -> float64 -> float64 := Stats.percentile.
Definition durationMS : Z -> float64 := Stats.durationMS.
Definition errorString : option goerror -> string := errorString.
Definition writeRequired : (string -> bytes -> option goerror) -> string -> string -> res bytes -> option Z :=
  fun writeFile => writeOrExit writeFile 1.
End WsExecutor.

(** ** executors/go-http1-websocket-tls-executor *)

Module WsTlsExecutor.
Definition packagedRoot : process -> string := Serving.packagedRoot.
Definition sortedSupportedIDs : list string := sortedIDs (WsHandshake.e_id <$> WsHandshake.expectations).
Definition repeatedByte : Z -> nat -> bytes := repeatedByte.
Definition equal : bytes -> bytes -> bool := equal.
Definition payloadGenerator : string -> string := payloadGenerator.
Definition mean : list float64 -> float64 := Stats.mean.
Definition percentile : list float64 -> float64 -> float64 := Stats.percentile.
Definition durationMS : Z -> float64 := Stats.durationMS.
Definition errorString : option goerror -> string := errorString.
Definition boolInt : bool -> Z := boolInt.
Definition writeRequired : (string -> bytes -> option goerror) -> string -> string -> res bytes -> option Z :=
  fun writeFile => writeOrExit writeFile 1.
End WsTlsExecutor.

(** ** executors/go-http2-executor *)

Module H2Executor.
Definition writeJSON : (string -> bytes -> option goerror) -> string -> res bytes -> option goerror := writeDocument.
Definition mean : list float64 -> float64 := Stats.mean.
Definition percentile : list float64 -> float64 -> float64 := Stats.percentile.
Definition currentExecutableSHA256 : process -> res string := currentExecutableSHA256.
Definition writeExecutorResult : (string -> bytes -> option goerror) -> (bytes -> option goerror) -> string -> res bytes -> option goerror :=
  writeAndPrint.
End H2Executor.

(** ** executors/go-http1-executor *)

Module Http1Executor.
Definition mediaTypeMatches : string -> string -> bool := H2Load.mediaTypeMatches.
Definition isTimeout : goerror -> bool := H2Load.isTimeout.
Definition sha256Hex : bytes -> string := H2Load.sha256Hex.
Definition writeJSON : (string -> bytes -> option goerror) -> string -> res bytes -> option goerror := writeDocument.
Definition resolvePackagedOhaPath : bool -> (string -> option goerror) -> process -> res string := resolvePackagedOhaPath.
Definition envInt : (string -> string) -> string -> Z -> Z := H2Load.envInt.
Definition writeExecutorResult : (string -> bytes -> option goerror) -> (bytes -> option goerror) -> string -> res bytes -> option goerror :=
  writeAndPrint.
Definition sortedKeys : list string -> list string := sortedIDs.
End Http1Executor.

(** ** executors/go-http2-websocket-executor *)

Module H2WsExecutor.
Definition sortedScenarioIDs : list string := sortedIDs (H2Stream.ID <$> H2Stream.scenarios).
Definition contains : list string -> string -> bool := contains.
Definition loadRoots : process -> string -> res unit := rootsOr "root certificate invalid".
Definition materialPath : process -> string -> string := Serving.materialPath.
Definition envOr : process -> string -> string -> string := Serving.envOr.
Definition writeJSON : (string -> bytes -> option goerror) -> string -> string -> res bytes -> option Z :=
  fun writeFile => writeOrExit writeFile 1.
End H2WsExecutor.

(** ** executors/go-masque-connect-udp-executor *)

Module MasqueExecutor.
Definition loadRoots : process -> string -> res unit := rootsOr "root certificate invalid".
Definition materialPath : process -> string -> string := Serving.materialPath.
Definition outputOrDefault : string -> string := outputOrDefault.
Definition envOr : process -> string -> string -> string := Serving.envOr.
Definition verifyOptional : (string -> string) -> string -> string -> bool := TlsBase.verifySubstitution.
Definition hash : bytes -> string := TlsBase.hash.
Definition durationMS : Z -> float64 := Stats.durationMS.
Definition mean : list float64 -> float64 := meanOfSum.
Definition percentile : list float64 -> float64 -> float64 := Stats.percentile.
End MasqueExecutor.

(** ** executors/go-webtransport-executor *)

Module WebTransportExecutor.
Definition makeDatagramPayloadSet : list bytes := DatagramBase.makePayloadSet.
Definition hashPayloadSet : list bytes -> string := DatagramBase.hashPayloadSet.
Definition normalizeTarget : string -> string -> (string -> res targetURL) -> string -> res (string * string) :=
  DatagramBase.normalizeTarget.
Definition loadRoots : process -> string -> res unit := rootsOr "root certificate invalid".
Definition materialPath : process -> string -> string := Serving.materialPath.
Definition outputOrDefault : string -> string := outputOrDefault.
Definition envOr : process -> string -> string -> string := Serving.envOr.
Definition verifyOptional : (string -> string) -> string -> string -> bool := TlsBase.verifySubstitution.
Definition hash : bytes -> string := TlsBase.hash.
Definition durationMS : Z -> float64 := Stats.durationMS.
Definition mean : list float64 -> float64 := Stats.mean.
Definition percentile : list float64 -> float64 -> float64 := Stats.percentile.
Definition writeJSON : (string -> bytes -> option goerror) -> string -> string -> res bytes -> option Z :=
  fun writeFile => writeOrExit writeFile 1.
End WebTransportExecutor.

(** ** executors/go-tls12-executor *)

Module Tls12Executor.
Definition isKnownUnsupported : string -> bool := contains (TlsLoad.knownUnsupported TlsHandshakes.Tls12.ids).
Definition loadRoots : process -> string -> res unit := rootsOr "server root PEM contained no certificate".
Definition normalizeTarget : (string -> res (string * string)) -> (string -> option goerror) -> string -> res string :=
  TlsBase.normalizeTarget.
Definition materialPath : process -> string -> string := Serving.materialPath.
Definition envOrDefault : process -> string -> string -> string := Serving.envOr.
Definition verifySubstitution : (string -> string) -> string -> string -> bool := TlsBase.verifySubstitution.
Definition durationMS : Z -> float64 := Stats.durationMS.
Definition hash : bytes -> string := TlsBase.hash.
Definition mean : list float64 -> float64 := Stats.mean.
Definition percentile : list float64 -> float64 -> float64 := Stats.percentile.
Definition writeRequired : (string -> bytes -> option goerror) -> string -> string -> res bytes -> option Z :=
  fun writeFile => writeOrExit writeFile 1.
End Tls12Executor.

(** ** executors/go-tls13-mtls-executor *)

Module MtlsExecutor.
Definition isKnownUnsupported : string -> bool := contains (TlsLoad.knownUnsupported TlsHandshakes.Mtls.ids).
Definition loadRoots : process -> string -> res unit := rootsOr "server root PEM contained no certificate".
Definition normalizeTarget : (string -> res (string * string)) -> (string -> option goerror) -> string -> res string :=
  TlsBase.normalizeTarget.
Definition materialPath : process -> string -> string := Serving.materialPath.
Definition envOrDefault : process -> string -> string -> string := Serving.envOr.
Definition verifySubstitution : (string -> string) -> string -> string -> bool := TlsBase.verifySubstitution.
Definition durationMS : Z -> float64 := Stats.durationMS.
Definition hash : bytes -> string := TlsBase.hash.
Definition mean : list float64 -> float64 := Stats.mean.
Definition percentile : list float64 -> float64 -> float64 := Stats.percentile.
Definition writeRequired : (string -> bytes -> option goerror) -> string -> string -> res bytes -> option Z :=
  fun writeFile => writeOrExit writeFile 1.
End MtlsExecutor.

(** ** executors/go-utls-tls13-chacha20-executor *)

Module ChaCha20Executor.
Definition isKnownUnsupported : string -> bool := contains (TlsLoad.knownUnsupported TlsHandshakes.ChaCha20.ids).
Definition loadRoots : process -> string -> res unit := rootsOr "server root PEM contained no certificate".
Definition normalizeTarget : (string -> res (string * string)) -> (string -> option goerror) -> string -> res string :=
  TlsBase.normalizeTarget.
Definition materialPath : process -> string -> string := Serving.materialPath.
Definition envOrDefault : process -> string -> string -> string := Serving.envOr.
Definition verifySubstitution : (string -> string) -> string -> string -> bool := TlsBase.verifySubstitution.
Definition tlsVersionName : Z -> string := tls13VersionFirst.
Definition equalCurves : list Z -> list Z -> bool := TlsHandshakes.ChaCha20.equalUint16.
Definition durationMS : Z -> float64 := Stats.durationMS.
Definition hash : bytes -> string := TlsBase.hash.
Definition mean : list float64 -> float64 := Stats.mean.
Definition percentile : list float64 -> float64 -> float64 := Stats.percentile.
Definition writeRequired : (string -> bytes -> option goerror) -> string -> string -> res bytes -> option Z :=
  fun writeFile => writeOrExit writeFile 1.
End ChaCha20Executor.

(** ** executors/go-tls13-executor *)

Module Tls13Executor.
Definition mean : list float64 -> float64 := meanOfTotal.
Definition percentile : list float64 -> float64 -> float64 := Stats.percentile.
Definition durationMS : Z -> float64 := Stats.durationMS.
Definition loadRoots : process -> string -> res unit := rootsOr "root certificate PEM contained no certificate".
Definition boolInt : bool -> Z := boolInt.
Definition isTimeout : option goerror -> bool := isTimeout.
Definition errorString : option goerror -> string := errorString.
Definition writeRequired : (string -> bytes -> option goerror) -> string -> string -> res bytes -> option Z :=
  fun writeFile => writeOrExit writeFile 1.
End Tls13Executor.

(** ** executors/go-grpc-h2-executor *)

Module GrpcExecutor.
Definition contains : list string -> string -> bool := contains.
Definition defaultMaterialPath : process -> string -> string := Serving.materialPath.
Definition envOrDefault : process -> string -> string -> string := Serving.envOr.
Definition isTimeout : goerror -> bool := H2Load.isTimeout.
Definition writeJSON : (string -> bytes -> option goerror) -> string -> res bytes -> option goerror := writeDocument.
End GrpcExecutor.

(** ** executors/quic-go-raw-load *)

Module RawExecutor.
Definition maxDuration : Z -> Z -> Z := fun a b => if b <? a then a else b.
End RawExecutor.

(** ** implementations/go-dns-classic-authority *)

Module ClassicAuthority.
Definition frame : bytes -> bytes := DnsWire.frame.
Definition mustHex : string -> bytes := DnsWire.mustHex.
End ClassicAuthority.

(** ** implementations/go-dns-dot *)

Module DotServer.
Definition mustHex : string -> bytes := DnsWire.mustHex.
Definition envOr : process -> string -> string -> string := Serving.envOr.
End DotServer.

(** ** implementations/go-dns-doq *)

Module DoqServer.
Definition frame : bytes -> bytes := DnsWire.frame.
Definition equal : bytes -> bytes -> bool := equal.
Definition hash : bytes -> string := TlsBase.hash.
Definition mustHex : string -> bytes := DnsWire.mustHex.
Definition envOr : process -> string -> string -> string := Serving.envOr.
End DoqServer.

(** ** implementations/go-dns-doh2 *)

Module Doh2Server.
Definition mustHex : string -> bytes := DnsWire.mustHex.
Definition envOr : process -> string -> string -> string := Serving.envOr.
End Doh2Server.

(** ** implementations/go-dns-doh3 *)

Module Doh3Server.
Definition bytesOf : string -> bytes := DnsDoh3.bytesOf.
Definition semanticEqual : forall `{DnsLib}, bytes -> fixture -> bool := fun _ => DnsDoh3.semanticEqual.
Definition envOr : process -> string -> string -> string := Serving.envOr.
End Doh3Server.

(** ** implementations/go-http1-websocket *)

Module WsPlainServer.
Definition websocketAccept : string -> string := WsHandshake.websocketAccept.
Definition hasToken : string -> string -> bool := WsHandshake.hasToken.
Definition envOr : process -> string -> string -> string := Serving.envOr.
End WsPlainServer.

(** ** implementations/go-http1-websocket-tls *)

Module WsTlsServer.
Definition wireFrame : Type := WsCodec.Server.wireFrame.
Definition readFrame : bool -> stream -> (WsCodec.Server.wireFrame * option goerror) * stream := WsCodec.Server.readFrame.
Definition readPayloadLength : stream -> Z -> res Z * stream := WsCodec.Server.readPayloadLength.
Definition websocketAccept : string -> string := WsHandshake.websocketAccept.
Definition hasToken : string -> string -> bool := WsHandshake.hasToken.
Definition envOr : process -> string -> string -> string := Serving.envOr.
End WsTlsServer.

(** ** implementations/go-grpc-h2 *)

Module GrpcServerPackage.
Definition encodeFrame : (bytes -> res bytes) -> bytes -> string -> res bytes := GrpcCodec.encodeFrame.
Definition decodeProtobuf : bytes -> res bytes := GrpcCodec.decodeProtobuf.
Definition defaultMaterialPath : process -> string -> string := Serving.materialPath.
Definition envOrDefault : process -> string -> string -> string := Serving.envOr.
End GrpcServerPackage.

(** ** implementations/go-tls13-chacha20 *)

Module ChaCha20Server.
Definition materialPath : process -> string -> string := Serving.materialPath.
Definition envOrDefault : process -> string -> string -> string := Serving.envOr.
Definition hash : bytes -> string := TlsBase.hash.
End ChaCha20Server.

(** ** implementations/go-tls13-mtls *)

Module MtlsServer.
Definition materialPath : process -> string -> string := Serving.materialPath.
Definition envOrDefault : process -> string -> string -> string := Serving.envOr.
Definition hash : bytes -> string := TlsBase.hash.
End MtlsServer.

(** ** implementations/go-tls13 *)

Module Tls13Server.
Definition writeAll : bytes -> conn -> option goerror * conn := Tls13.writeAll.
Definition materialPath : process -> string -> string := Serving.materialPath.
Definition envOrDefault : process -> string -> string -> string := Serving.envOr.
Definition hash : bytes -> string := TlsBase.hash.
End Tls13Server.

(** ** implementations/webtransport-go *)

Module WebTransportServer.
Definition hash : bytes -> string := TlsBase.hash.
Definition errorText : option goerror -> string := errorString.
End WebTransportServer.

(** ** implementations/quic-go-http3 *)

Module QuicGoHttp3.
Definition generateCertificate : forall {Key}, res Key -> (Z -> res Z) -> (certificateTemplate -> Key -> res bytes) -> (Key -> res bytes) ->
    (string * bytes -> string * bytes -> res (list bytes)) -> Z -> res (list bytes) :=
  fun _ generateKey randInt createCertificate marshalKey keyPair =>
  HttpServers.generateCertificate generateKey randInt createCertificate marshalKey keyPair HttpOrigins.commonName.
End QuicGoHttp3.

(** ** implementations/knot-resolver-secure-dns-resolver *)

Module KnotHelper.
Definition serveAuthority : list (res (string * bytes) * option goerror) -> list (string * bytes) := Resolvers.serveAuthority.
End KnotHelper.
