(* ===== verification/RunDocuments.v ===== *)
(** The directory a run of an executor leaves that validates, warms up and measures: which
    documents it writes, in which order and when, and what becomes of the run when one cannot
    be written. [DnsDocuments] and [WsDocuments] say what each package writes. *)
From S2P Require Export TlsDocuments.

(** ** Documents *)

(** A value; a file of plain text; a part of a proof; an object with values and, by name,
    parts of a proof that are null when there is none; the summary of a phase, under the name
    it gives itself; the normalized result. *)
Inductive document (P S R : Type) :=
| Value (v : value) | Text (s : string) | Part (p : P) | Combined (fields : list (string * value)) (parts : list (string * option P))
| Summary (phase : string) (s : S) | Normalized (r : R).
Arguments Value {P S R}.
Arguments Text {P S R}.
Arguments Part {P S R}.
Arguments Combined {P S R}.
Arguments Summary {P S R}.
Arguments Normalized {P S R}.

(** What the packages write of themselves. *)
Definition identityDocument (executorID executorVersion : string) (supported : list string) : value :=
  VObject [("id", VString executorID); ("version", VString executorVersion); ("role", VString "client-test-executor");
           ("supportedScenarios", strings supported)].
Definition unsupportedDocument (scenario executorID reason : string) : value :=
  VObject [("schemaVersion", VString "protocol-lab.unsupported.v1"); ("status", VString "unsupported");
           ("scenarioId", VString scenario); ("executorId", VString executorID); ("reason", VString reason)].
Definition generatorDocument (id version : string) : value := VObject [("id", VString id); ("version", VString version)].
(** [errorString(err)]. *)
Definition errorValue (err : option goerror) : value :=
  VString (match err with Some err => error_string err | None => "" end).

(** ** A run *)

(** What a run meets once it has a target: the error of its preflight with the validation and
    the files of it, the configuration, the two phases, and the result with the documents
    after it. *)
Record phases (P S R : Type) := Phases {
  p_error : option goerror; p_passed : bool; p_validation : value; p_evidence : list (string * document P S R);
  p_validationOnly : bool; p_config : option goerror; p_warmup : S * option goerror; p_measured : S * option goerror;
  p_rejected : S * option goerror -> bool; p_normalized : S -> R; p_after : S -> list (string * document P S R)
}.
Arguments Phases {P S R}.
Arguments p_error {P S R}.
Arguments p_passed {P S R}.
Arguments p_validation {P S R}.
Arguments p_evidence {P S R}.
Arguments p_validationOnly {P S R}.
Arguments p_config {P S R}.
Arguments p_warmup {P S R}.
Arguments p_measured {P S R}.
Arguments p_rejected {P S R}.
Arguments p_normalized {P S R}.
Arguments p_after {P S R}.

(** A run: the exit code for a file that cannot be written, the names of the files of the
    warm-up, the load and the result, the name the warm-up gives itself, what the package
    says of its load generator, and what the run meets before it has a target. *)
Record program (P S R : Type) := Program {
  g_fault : Z; g_warmupFile : string; g_loadFile : string; g_resultFile : string; g_warmupPhase : string; g_generator : value;
  g_showVersion : bool; g_mkdir : option goerror;
  g_identity : option Z; g_unsupported : value; g_phases : option (phases P S R)
}.
Arguments Program {P S R}.
Arguments g_fault {P S R}.
Arguments g_warmupFile {P S R}.
Arguments g_loadFile {P S R}.
Arguments g_resultFile {P S R}.
Arguments g_warmupPhase {P S R}.
Arguments g_generator {P S R}.
Arguments g_showVersion {P S R}.
Arguments g_mkdir {P S R}.
Arguments g_identity {P S R}.
Arguments g_unsupported {P S R}.
Arguments g_phases {P S R}.

Section program.
Context {P S R : Type}.

(** The exit code, the files in the order of the writes, and the document printed. *)
Definition execute (g : program P S R) : Z * list (string * document P S R) * option (document P S R) :=
  if g_showVersion g then (0, [], None) else
  if bool_decide (g_mkdir g <> None) then (1, [], None) else
  match g_identity g, g_phases g with
  | Some code, _ =>
      let doc := Value (g_unsupported g) in
      if code =? 3 then (3, [("unsupported.json", doc); ("result.json", doc)], Some doc) else (code, [], None)
  | None, None => (2, [], None)
  | None, Some p =>
      let files := p_evidence p in
      if bool_decide (p_error p <> None) then (1, files, None)
      else if p_validationOnly p then (0, files, None)
      else if bool_decide (p_config p <> None) then (2, files, None)
      else
        let files := files ++ [(g_warmupFile g, Summary (g_warmupPhase g) (p_warmup p).1)] in
        if p_rejected p (p_warmup p) then (1, files, None)
        else
          let measured := (p_measured p).1 in
          let files := files ++ [(g_loadFile g, Summary "measured" measured)] in
          if p_rejected p (p_measured p) then (1, files, None)
          else
            let normalized := Normalized (p_normalized p measured) in
            (0, files ++ [("load-generator-identity.json", Value (g_generator g)); (g_resultFile g, normalized);
                          ("result.json", normalized)] ++ p_after p measured, Some normalized)
  end.

(** The run on a directory: a file that cannot be written ends it, and nothing is printed. *)
Definition onDirectory (faults : list (option fault)) (g : program P S R)
    : Z * gmap string (content (document P S R)) * option (document P S R) :=
  let '(code, files, printed) := execute g in
  match writeFiles faults files ∅ with
  | (dir, Some _) => (g_fault g, dir, None)
  | (dir, None) => (code, dir, printed)
  end.

(** The exit code and the result of a run whose documents are written. *)
Definition outcomeOf (g : program P S R) : Z * option R :=
  ((execute g).1.1, match (execute g).2 with Some (Normalized x) => Some x | _ => None end).
End program.

