(* ===== verification/DnsDocuments.v ===== *)
(** The documents of the DNS executors. The parts of a proof, the summaries of phases and the
    normalized result are those of the models of the packages; every other document is here
    in full. *)
From S2P Require Import Copies.
From S2P Require Export RunDocuments.
From S2P Require Import DnsClassic DnsDot DnsDoq DnsDoh DnsDoh2 DnsDoh3.

(** ** What the packages share *)

(** The counts of a summary. *)
Definition counts {P} (s : phaseSummary P) : list (string * value) :=
  [("completedOperations", VInt (DnsWire.CompletedOperations s)); ("malformedOperations", VInt (DnsWire.MalformedOperations s));
   ("retryCount", VInt (DnsWire.RetryCount s)); ("failedOperations", VInt (DnsWire.FailedOperations s));
   ("timedOutOperations", VInt (DnsWire.TimedOutOperations s))].

(** The validation is written first, also as the result. *)
Definition writeValidation {P S R} (validation : value) : list (string * document P S R) :=
  [("validation.json", Value validation); ("result.json", Value validation)].
(** A run whose summaries have the names of the DNS packages: the warm-up calls itself
    measured, as the measured phase does. *)
Definition dnsProgram {P S R} (fault : Z) := @Program P S R fault "dns-warmup-summary.json" "dns-load-summary.json".

(** ** dns-classic-fixture *)

Module ClassicDocuments.
Import DnsClassic.

Definition executorDocument (cfg : config) : value := VObject [("id", VString (ExecutorID cfg)); ("version", VString Version)].
Definition validationDoc (cfg : config) (scenario : string) (s : phaseSummary proof) (err : option goerror) : value :=
  let passed := validationPassed s err in
  let check id := VObject [("id", VString id); ("passed", VBool passed)] in
  VObject
    ([("schemaVersion", VString "protocol-lab.validation.v1"); ("scenarioId", VString scenario);
      ("status", VString (if passed then "passed" else "failed")); ("executor", executorDocument cfg);
      ("checks", VArray (check <$>
         ["exact-binding"; "canonical-fixture"; "message-id-correlation-and-normalization";
          "local-authority-no-recursion-cache-upstream"; "zero-unexpected-outcomes"]
         ++ if String.eqb scenario retryScenario then ["udp-tc-single-identical-question-tcp-retry"] else []))]
     ++ counts s).
Definition writeEvidence (cfg : config) (scenario : string) (s : phaseSummary proof)
    : list (string * document proof (phaseSummary proof) result) :=
  match LastProof s with Some p => [("dns-wire-summary.json", Part p)] | None => [] end
  ++ [("protocol-proof.json", Combined
         [("requestedProtocol", VString (protocolVariant scenario)); ("observedProtocol", VString (protocolVariant scenario));
          ("fallbackDetected", VBool false)] [("dns", LastProof s)]);
      ("executor-identity.json", Value (identityDocument (ExecutorID cfg) Version (Supported cfg)))].
Definition unsupported (cfg : config) (scenario : string) : value :=
  unsupportedDocument scenario (ExecutorID cfg) "exact DNS scenario semantics are not implemented by this binding-specific executor".
Definition run (cfg : config) (env : runEnv) : program proof (phaseSummary proof) result :=
  let getenv := r_getenv env in
  let phase e once scenario := (runPhase e scenario once).1 in
  let identity := checkIdentity cfg getenv in
  dnsProgram 2 "dns-classic-executor-result.json" "measured" (generatorDocument (LoadGeneratorID cfg) Version) (r_showVersion env) (r_mkdir env)
    (match identity with inr code => Some code | inl _ => None end) (unsupported cfg (env_value getenv "PLAB_SCENARIO_ID"))
    match identity, normalizeTarget (r_parse env) (r_split env) (r_target env) (Mode cfg) with
    | inl scenario, Ok _ =>
        let preflight := phase (r_preflight env) true scenario in
        let validation := validationDoc cfg scenario preflight.1 preflight.2 in
        Some (Phases preflight.2 (validationPassed preflight.1 preflight.2) validation
          (writeValidation validation ++ writeEvidence cfg scenario preflight.1) (r_validationOnly env) (loadConfig getenv)
          (phase (r_warmup env) false scenario) (phase (r_measured env) false scenario)
          (fun p => bool_decide (p.2 <> None) || hasFailures p.1) (normalize scenario) (fun _ => []))
    | _, _ => None
    end.
Definition main (faults : list (option fault)) (cfg : config) (env : runEnv) := onDirectory faults (run cfg env).

End ClassicDocuments.

(** ** go-dns-dot-executor *)

Module DotDocuments.
Import DnsDot.

Inductive part := DNSPart (p : dnsProof) | TLSPart (session : option tlsState).
(** A summary with the session its proof of TLS is made of: none before the handshake. *)
Abbreviation summary := (phaseSummary dnsProof * option tlsState)%type.
Definition sessionOf (env : phaseEnv) : option tlsState := match ph_tls env with Ok state => Some state | Err _ => None end.
(** [summary.TLSProof.ALPN == alpn]. *)
Definition isDot (session : option tlsState) : bool :=
  match session with Some state => String.eqb (ts_protocol state) "dot" | None => false end.
Definition validationDocument (scenario : string) (s : summary) (err : option goerror) : value :=
  VObject
    ([("scenarioId", VString scenario); ("fixtureId", VString (selectedFixtureID scenario)); ("passed", VBool (bool_decide (err = None)));
      ("requestedProtocol", VString "dot"); ("observedProtocol", VString (if isDot s.2 then "dot" else ""));
      ("fallbackDetected", VBool (negb (isDot s.2)))] ++ counts s.1 ++ [("error", errorValue err)]).
Definition writeResolverArtifacts (scenario : string) (s : summary) : list (string * document part summary result) :=
  if negb (String.eqb scenario resolverScenario) then [] else
  [("dns-resolver-summary.json", Value (VObject
      [("schemaVersion", VString "protocol-lab.dns-resolver-summary.v1"); ("role", VString "recursive-resolver");
       ("cachePreparation", VString "flush-before-each-measured-operation"); ("cacheReuse", VBool false);
       ("recursionDesired", VBool true); ("recursionAvailable", VBool true); ("authoritativeAnswer", VBool false);
       ("completedOperations", VInt (CompletedOperations s.1))]));
   ("upstream-proof.json", Value (VObject
      [("schemaVersion", VString "protocol-lab.upstream-proof.v1"); ("authority", VString "runner-local-fixture");
       ("fixtureId", VString resolverFixtureID); ("endpoint", VString "127.0.0.1:5353/udp"); ("externalUpstreamUsed", VBool false)]))].
Definition writeEvidence (scenario : string) (s : summary) : list (string * document part summary result) :=
  match LastProof s.1 with Some p => [("dns-wire-summary.json", Part (DNSPart p))] | None => [] end
  ++ [("tls-negotiation.json", Part (TLSPart s.2));
      ("protocol-proof.json", Combined
         [("requestedProtocol", VString "dot"); ("observedProtocol", VString "dot");
          ("protocolVariant", VString (protocolVariant scenario)); ("fallbackDetected", VBool false)]
         [("tls", Some (TLSPart s.2)); ("dns", DNSPart <$> LastProof s.1)]);
      ("executor-identity.json", Value (identityDocument "go-dns-dot-executor" "0.3.0" [strictScenario; interopScenario; resolverScenario]))]
  ++ writeResolverArtifacts scenario s.
Definition unsupported (scenario : string) : value :=
  unsupportedDocument scenario "go-dns-dot-executor" "exact DNS scenario semantics are not implemented by this DoT-only package".
Definition run (env : mainEnv) : program part summary result :=
  let getenv := m_getenv env in
  let scenario := selectedScenario getenv in
  let phase address e once := let '(s, err, _) := runPhase getenv address e once in ((s, sessionOf e), err) in
  dnsProgram 1 "dns-dot-executor-result.json" "measured" (generatorDocument "go-dns-dot-load" "0.3.0") (m_showVersion env) (m_mkdir env)
    (checkIdentityOrExit getenv) (unsupported scenario)
    match normalizeTarget (m_parse env) (fun v => match m_split env v with Err e => Some e | Ok _ => None end) (m_target env), m_roots env with
    | Ok target, Ok _ =>
        let address := m_split env target in
        let preflight := phase address (m_preflight env) true in
        let validation := validationDocument scenario preflight.1 preflight.2 in
        Some (Phases preflight.2 (bool_decide (preflight.2 = None)) validation
          (writeValidation validation ++ writeEvidence scenario preflight.1) (m_validationOnly env) (loadConfig getenv)
          (phase address (m_warmup env) false) (phase address (m_measured env) false)
          (fun p => bool_decide (p.2 <> None) || (CompletedOperations p.1.1 =? 0) || hasFailures p.1.1)
          (fun s => normalizeResult scenario s.1) (writeResolverArtifacts scenario))
    | _, _ => None
    end.
Definition main (faults : list (option fault)) (env : mainEnv) := onDirectory faults (run env).

End DotDocuments.

(** ** go-dns-doq-executor *)

Module DoqDocuments.
Import DnsDoq.

Inductive part :=
| DNSPart (p : dnsProof) | TLSPart (s : quicState) | QUICPart (s : quicState) (reused : bool) | StreamPart (id : Z).
Definition tlsOf (p : exchangeProof) : part := TLSPart (PState p).
Definition quicOf (p : exchangeProof) : part := QUICPart (PState p) (ConnectionReused p).
Definition validationDocument (scenario : string) (s : doqSummary) (err : option goerror) : value :=
  VObject
    ([("scenarioId", VString scenario); ("fixtureId", VString "dns.plab-test-a.canonical"); ("passed", VBool (bool_decide (err = None)));
      ("requestedProtocol", VString "doq"); ("observedProtocol", VString (observedProtocol s));
      ("protocolVariant", VString (protocolVariant scenario)); ("fallbackDetected", VBool (negb (String.eqb (observedProtocol s) "doq")))]
     ++ counts (base s)
     ++ [("externalUpstreamUsed", VBool false); ("cacheEnabled", VBool false); ("error", errorValue err)]).
Definition writeEvidence (scenario : string) (s : doqSummary) (err : option goerror)
    : list (string * document part doqSummary result) :=
  writeValidation (validationDocument scenario s err) ++
  let last := LastProof (base s) in
  match last with
  | Some p => [("dns-wire-summary.json", Part (DNSPart (DNS p)));
               ("quic-summary.json", Combined [] [("quic", Some (quicOf p)); ("stream", Some (StreamPart (StreamID p)))]);
               ("tls-negotiation.json", Part (tlsOf p))]
  | None => []
  end
  ++ [("protocol-proof.json", Combined
         [("requestedProtocol", VString "doq"); ("observedProtocol", VString (observedProtocol s));
          ("protocolVariant", VString (protocolVariant scenario)); ("fallbackDetected", VBool (negb (String.eqb (observedProtocol s) "doq")))]
         [("tls", tlsOf <$> last); ("quic", quicOf <$> last); ("stream", StreamPart ∘ StreamID <$> last); ("dns", DNSPart ∘ DNS <$> last)])].
Definition writeIdentity : list (string * document part doqSummary result) :=
  [("executor-identity.json", Value (identityDocument "go-dns-doq-executor" "0.2.2" [strictScenario; interopScenario]))].
Definition unsupported (scenario : string) : value :=
  unsupportedDocument scenario "go-dns-doq-executor" "exact DNS scenario semantics are not implemented by this DoQ-only package".
Definition run (env : mainEnv) : program part doqSummary result :=
  let getenv := m_getenv env in
  let scenario := selectedScenario getenv in
  dnsProgram 1 "dns-doq-executor-result.json" "measured" (generatorDocument "go-quic-dns-load" "0.2.2") (m_showVersion env) (m_mkdir env)
    (checkIdentityOrExit getenv) (unsupported (env_value getenv "PLAB_SCENARIO_ID"))
    match normalizeTarget (m_target env) (m_split env), m_roots env with
    | Ok _, Ok _ =>
        let preflight := runPhase (m_preflight env) true in
        let validation := validationDocument scenario preflight.1 preflight.2 in
        Some (Phases preflight.2 (bool_decide (preflight.2 = None)) validation
          (writeEvidence scenario preflight.1 preflight.2 ++ writeIdentity) (m_validationOnly env) (loadConfig getenv)
          (runPhase (m_warmup env) false) (runPhase (m_measured env) false) rejected (normalizeResult scenario) (fun _ => []))
    | _, _ => None
    end.
Definition main (faults : list (option fault)) (env : mainEnv) := onDirectory faults (run env).

End DoqDocuments.

(** ** go-dns-doh2-executor *)

Module Doh2Documents.
Import DnsDoh DnsDoh2.

Inductive part := DNSPart (p : dnsProof) | HTTPPart (p : httpProof) | TLSPart (p : tlsProof).
Abbreviation summary := (dohSummary exchangeProof).
Definition validationDocument (scenario : string) (s : summary) (err : option goerror) : value :=
  let resolver := String.eqb scenario resolverScenario in
  VObject
    ([("scenarioId", VString scenario); ("fixtureId", VString (selectedFixtureID scenario)); ("passed", VBool (bool_decide (err = None)));
      ("requestedProtocol", VString "doh2"); ("observedProtocol", VString (observedProtocol s));
      ("protocolVariant", VString (protocolVariant scenario)); ("fallbackDetected", VBool (negb (String.eqb (observedProtocol s) "doh2")))]
     ++ counts (base s)
     ++ [("resolverRole", VBool resolver); ("cacheFlushedBeforeOperation", VBool resolver); ("externalUpstreamUsed", VBool false);
         ("cacheEnabled", VBool false); ("error", errorValue err)]).
Definition writeEvidence (scenario : string) (s : summary) (err : option goerror)
    : list (string * document part summary (result exchangeProof)) :=
  writeValidation (validationDocument scenario s err) ++
  let last := LastProof (base s) in
  match last with
  | Some p => [("dns-wire-summary.json", Part (DNSPart (DNS p))); ("http-summary.json", Part (HTTPPart (HTTP p)));
               ("tls-negotiation.json", Part (TLSPart (TLS p)))]
  | None => []
  end
  ++ [("protocol-proof.json", Combined
         [("requestedProtocol", VString "doh2"); ("observedProtocol", VString (observedProtocol s));
          ("protocolVariant", VString (protocolVariant scenario)); ("fallbackDetected", VBool (negb (String.eqb (observedProtocol s) "doh2")))]
         [("tls", TLSPart ∘ TLS <$> last); ("http", HTTPPart ∘ HTTP <$> last); ("dns", DNSPart ∘ DNS <$> last)])].
Definition writeIdentity : list (string * document part summary (result exchangeProof)) :=
  [("executor-identity.json", Value (identityDocument "go-dns-doh2-executor" "0.3.0" [strictScenario; interopScenario; resolverScenario]))].
Definition writeResolverArtifacts (scenario : string) (s : summary) : list (string * document part summary (result exchangeProof)) :=
  if negb (String.eqb scenario resolverScenario) then [] else
  [("dns-resolver-summary.json", Value (VObject
      [("schemaVersion", VString "protocol-lab.dns-resolver-summary.v1"); ("role", VString "recursive-resolver");
       ("cachePreparation", VString "flush-before-each-measured-operation"); ("cacheReuse", VBool false);
       ("dnssecValidationState", VString "disabled-for-local-fixture-zone");
       ("recursionDesired", VBool true); ("recursionAvailable", VBool true); ("authoritativeAnswer", VBool false);
       ("completedOperations", VInt (CompletedOperations (base s)))]));
   ("upstream-proof.json", Value (VObject
      [("schemaVersion", VString "protocol-lab.upstream-proof.v1"); ("authority", VString "runner-local-fixture");
       ("fixtureId", VString "dns.resolver-plab-test-a-v2.canonical"); ("endpoint", VString "127.0.0.1:5353/udp");
       ("externalUpstreamUsed", VBool false)]))].
Definition unsupported (scenario : string) : value :=
  unsupportedDocument scenario "go-dns-doh2-executor" "exact DNS scenario semantics are not implemented by this DoH2-only package".

Section run.
Context `{UrlLib}.
Definition run (env : mainEnv) : program part summary (result exchangeProof) :=
  let getenv := m_getenv env in
  let scenario := selectedScenario getenv in
  dnsProgram 1 "dns-doh2-executor-result.json" "measured" (generatorDocument "go-dns-doh2-load" "0.3.0") (m_showVersion env) (m_mkdir env)
    (checkIdentityOrExit getenv) (unsupported scenario)
    match normalizeTarget (m_target env), m_roots env with
    | Ok endpoint, Ok _ =>
        let phase := runPhase getenv endpoint in
        let preflight := phase (m_preflight env) true in
        let validation := validationDocument scenario preflight.1 preflight.2 in
        Some (Phases preflight.2 (bool_decide (preflight.2 = None)) validation
          (writeEvidence scenario preflight.1 preflight.2 ++ writeIdentity ++ writeResolverArtifacts scenario preflight.1)
          (m_validationOnly env) (loadConfig getenv) (phase (m_warmup env) false) (phase (m_measured env) false) rejected
          (normalizeResult scenario (protocolVariant scenario)) (writeResolverArtifacts scenario))
    | _, _ => None
    end.
Definition main (faults : list (option fault)) (env : mainEnv) := onDirectory faults (run env).
End run.

End Doh2Documents.

(** ** go-dns-doh3-executor *)

Module Doh3Documents.
Import DnsDoh DnsDoh3.

Inductive part := DNSPart (p : dnsProof) | HTTPPart (p : httpProof) | QUICPart (p : quicProof) | TLSPart (p : tlsProof).
Abbreviation summary := (dohSummary exchangeProof).
Definition validationDocument (f : fixture) (s : summary) (err : option goerror) : value :=
  VObject
    ([("scenarioId", VString (ScenarioID f)); ("fixtureId", VString (FixtureID f)); ("passed", VBool (bool_decide (err = None)));
      ("requestedProtocol", VString "doh3"); ("observedProtocol", VString (observedProtocol s));
      ("protocolVariant", VString (protocolVariant (ScenarioID f)));
      ("fallbackDetected", VBool (negb (String.eqb (observedProtocol s) "doh3")))]
     ++ counts (base s)
     ++ [("externalUpstreamUsed", VBool false); ("cacheEnabled", VBool false); ("error", errorValue err)]).
Definition writeEvidence (f : fixture) (s : summary) (err : option goerror)
    : list (string * document part summary (result exchangeProof)) :=
  writeValidation (validationDocument f s err) ++
  let last := LastProof (base s) in
  match last with
  | Some p => [("dns-wire-summary.json", Part (DNSPart (DNS p))); ("http-summary.json", Part (HTTPPart (HTTP p)));
               ("quic-summary.json", Part (QUICPart (QUIC p))); ("tls-negotiation.json", Part (TLSPart (TLS p)))]
  | None => []
  end
  ++ [("protocol-proof.json", Combined
         [("requestedProtocol", VString "doh3"); ("observedProtocol", VString (observedProtocol s));
          ("protocolVariant", VString (protocolVariant (ScenarioID f)));
          ("fallbackDetected", VBool (negb (String.eqb (observedProtocol s) "doh3")))]
         [("dns", DNSPart ∘ DNS <$> last); ("http", HTTPPart ∘ HTTP <$> last); ("tls", TLSPart ∘ TLS <$> last);
          ("quic", QUICPart ∘ QUIC <$> last)])].
(** The scenarios of the fixtures, sorted. *)
Definition writeIdentity : list (string * document part summary (result exchangeProof)) :=
  [("executor-identity.json", Value (identityDocument "go-dns-doh3-executor" "0.2.2"
      (Copies.Doh3Executor.sortedScenarioIDs fixtures)))].
Definition unsupported (scenario : string) : value :=
  unsupportedDocument scenario "go-dns-doh3-executor" "exact scenario belongs to an independent non-DoH3 DNS lane".

Section run.
Context `{UrlLib} `{DnsLib}.
Definition run (env : mainEnv) : program part summary (result exchangeProof) :=
  let getenv := m_getenv env in
  let identity := checkIdentityOrExit getenv in
  dnsProgram 1 "dns-doh3-executor-result.json" "measured" (generatorDocument "go-dns-doh3-load" "0.2.2") (m_showVersion env) (m_mkdir env)
    (match identity with inr code => Some code | inl _ => None end) (unsupported (env_value getenv "PLAB_SCENARIO_ID"))
    match identity, normalizeTarget (m_target env), m_roots env with
    | inl f, Ok endpoint, Ok _ =>
        let phase := runPhase endpoint f in
        let preflight := phase (m_preflight env) true in
        let validation := validationDocument f preflight.1 preflight.2 in
        Some (Phases preflight.2 (bool_decide (preflight.2 = None)) validation
          (writeEvidence f preflight.1 preflight.2 ++ writeIdentity) (m_validationOnly env) (loadConfig getenv)
          (phase (m_warmup env) false) (phase (m_measured env) false) rejected
          (normalizeResult (ScenarioID f) (protocolVariant (ScenarioID f))) (fun _ => []))
    | _, _, _ => None
    end.
Definition main (faults : list (option fault)) (env : mainEnv) := onDirectory faults (run env).
End run.

End Doh3Documents.
