(* ===== verification/WsDocuments.v ===== *)
(** The documents of the HTTP/1.1 WebSocket executors. The proof of an operation, its
    handshake, the summaries of phases and the normalized result are those of the models of
    the packages; every other document is here in full. *)
From S2P Require Import Copies.
From S2P Require Export RunDocuments.
From S2P Require Import WsClear WsHandshake WsClient WsRun.

Definition timedOut (err : option goerror) : bool := match err with Some err => WsRun.isTimeout err | None => false end.
(** The names of the files both packages write. *)
Definition wsProgram {P S R} :=
  @Program P S R 1 "websocket-warmup-summary.json" "websocket-load-summary.json" "websocket-executor-result.json" "warmup".

(** ** go-http1-websocket-tls-executor *)

Module WsTlsDocuments.

Inductive part := ProofPart (p : operationProof) | HandshakePart (p : handshakeProof).
Abbreviation file := (string * document part phaseSummary normalizedResult)%type.

(** The handshake of a proof, or the zero value. *)
Definition noHandshake : handshakeProof :=
  HandshakeProof "" "" "" "" "" "" "" "" 0 "" "" "" "" "" "" "" false false "" "" false false "" "" false false false false
    "" "" "" "" false false 0 "" "".
Definition handshakeOf (p : operationProof) : handshakeProof := default noHandshake (Handshake p).

Definition passed (p : operationProof) (err : option goerror) : bool :=
  bool_decide (err = None) && ConnectionEstablished (handshakeOf p) && negb (FallbackDetected (handshakeOf p)) && CleanCompletion p.
Definition validation (e : scenarioExpectation) (p : operationProof) (err : option goerror) : value :=
  let h := handshakeOf p in
  VObject
    [("scenarioId", VString (e_id e)); ("passed", VBool (passed p err)); ("requestedProtocol", VString "websocket-over-h1-tls");
     ("observedProtocol", VString (if ConnectionEstablished h then "websocket-over-h1-tls" else ""));
     ("fallbackDetected", VBool (FallbackDetected h)); ("completedOperations", VInt (Copies.boolInt (bool_decide (err = None))));
     ("failedOperations", VInt (Copies.boolInt (bool_decide (err <> None) && negb (timedOut err))));
     ("timedOutOperations", VInt (Copies.boolInt (timedOut err))); ("error", errorValue err)].
Definition negotiation (h : handshakeProof) : value :=
  VObject
    [("requestedVersion", VString "TLS 1.3"); ("observedVersion", VString (TLSVersion h)); ("requestedAlpn", VString "http/1.1");
     ("observedAlpn", VString (ALPN h)); ("serverName", VString (ServerName h)); ("cipherSuite", VString (CipherSuite h));
     ("didResume", VBool (DidResume h)); ("earlyData", VBool (EarlyData h)); ("verifiedChainCount", VInt (VerifiedChainCount h));
     ("certificateDerSha256", VString (CertificateDERSHA256 h)); ("certificateSpkiSha256", VString (CertificateSPKISHA256 h));
     ("certificateHashMatched", VBool (String.eqb (CertificateDERSHA256 h) expectedCertificateDERSHA256
                                       && String.eqb (CertificateSPKISHA256 h) expectedCertificateSPKISHA256))].
Definition writePreflightArtifacts (e : scenarioExpectation) (p : operationProof) (err : option goerror) : list file :=
  let h := handshakeOf p in
  [("validation.json", Value (validation e p err));
   ("protocol-proof.json", Combined
      [("requestedProtocol", VString "websocket-over-h1-tls"); ("observedProtocol", VString "websocket-over-h1-tls");
       ("protocolVariant", VString "websocket-h1-tls1.3-upgrade"); ("fallbackDetected", VBool (FallbackDetected h))]
      [("websocket", Some (ProofPart p))]);
   ("tls-negotiation.json", Value (negotiation h));
   ("websocket-summary.json", Part (ProofPart p));
   ("payload-hash.json", Value (VObject
      [("scenarioId", VString (e_id e)); ("generator", VString (Copies.payloadGenerator (e_operation e)));
       ("lengthBytes", VInt (len (e_payload e))); ("sha256", VString (e_payloadHash e));
       ("observedSha256", VString (DecompressedPayloadSHA256 p)); ("matched", VBool (PayloadHashMatched p))]));
   ("handshake-summary.json", Part (HandshakePart h));
   ("frame-summary.json", Value (VObject
      [("fragmentation", VString "none"); ("clientFramesMasked", VBool (ClientFrameMasked p));
       ("serverFramesMasked", VBool (ServerFrameMasked p)); ("requestOpcode", VString (RequestOpcode p));
       ("responseOpcode", VString (ResponseOpcode p)); ("requestRsv1", VBool (RequestRSV1 p)); ("responseRsv1", VBool (ResponseRSV1 p));
       ("compressedMessage", VBool (CompressedMessage p)); ("decompressedPayloadSha256", VString (DecompressedPayloadSHA256 p));
       ("payloadHashMatched", VBool (PayloadHashMatched p)); ("closeCode", VInt (CloseReceivedCode p))]));
   ("executor-identity.json", Value (identityDocument "go-http1-websocket-tls-executor" "0.2.0" Copies.WsTlsExecutor.sortedSupportedIDs));
   ("handshake-request.txt", Text (HandshakeRequest p)); ("handshake-response.txt", Text (HandshakeResponse p));
   ("result.json", Value (validation e p err))].

Definition unsupported (scenario : string) : value :=
  unsupportedDocument scenario "go-http1-websocket-tls-executor"
    "exact WebSocket identity is outside this TLS 1.3 RFC 6455 over HTTP/1.1 package".

Section run.
Variable deflate : bytes -> res bytes.
Variable inflate : bytes -> stream.
(** A run with the flag [-version] and the error of [os.MkdirAll]. *)
Definition run (showVersion : bool) (mkdir : option goerror) (env : mainEnv) : program part phaseSummary normalizedResult :=
  let getenv := m_getenv env in
  let identity := checkIdentity getenv in
  wsProgram (generatorDocument "go-http1-websocket-tls-load" "0.2.0") showVersion mkdir
    (match identity with Exit code => Some code | Known _ => None end) (unsupported (env_value getenv "PLAB_SCENARIO_ID"))
    match identity, normalizeTarget (m_target env) with
    | Known e, Ok _ =>
        let '(p, err, _) := performOperation deflate inflate (m_preflight env) e in
        let phase ph name := (runPhase deflate inflate ph e name, None) in
        Some (Phases err (passed p err) (validation e p err) (writePreflightArtifacts e p err) (m_validationOnly env)
          (loadConfigFromEnvironment getenv) (phase (m_warmup env) "warmup") (phase (m_measured env) "measured")
          (fun x => hasFailures x.1 || (CompletedOperations x.1 =? 0)) (normalizeResult e) (fun _ => []))
    | _, _ => None
    end.
Definition main (faults : list (option fault)) (showVersion : bool) (mkdir : option goerror) (env : mainEnv) :=
  onDirectory faults (run showVersion mkdir env).
End run.

End WsTlsDocuments.

(** ** go-http1-websocket-executor *)

Module WsClearDocuments.
Import Clear.

Inductive part := ProofPart (p : operationProof) | HandshakePart (p : handshakeProof).
Abbreviation file := (string * document part phaseSummary normalizedResult)%type.

Definition noHandshake : handshakeProof :=
  HandshakeProof "" "" "" "" "" "" "" "" 0 "" "" "" "" "" "" false false false false false false.
Definition handshakeOf (p : operationProof) : handshakeProof := default noHandshake (Handshake p).
(** The validation, of the fields that [Clear.writePreflightArtifacts] computes. *)
Definition validation (e : scenarioExpectation) (a : preflightArtifacts) : value :=
  VObject
    [("scenarioId", VString (e_id e)); ("passed", VBool (PPassed a)); ("requestedProtocol", VString "websocket-over-h1-cleartext");
     ("observedProtocol", VString (PObserved a)); ("fallbackDetected", VBool (PFallback a)); ("completedOperations", VInt (PCompleted a));
     ("failedOperations", VInt (PFailed a)); ("timedOutOperations", VInt (PTimedOut a)); ("error", VString (PError a))].
Definition preflightFiles (e : scenarioExpectation) (p : operationProof) (err : option goerror) : list file :=
  let a := writePreflightArtifacts e p err in
  [("validation.json", Value (validation e a));
   ("protocol-proof.json", Combined
      [("requestedProtocol", VString "websocket-over-h1-cleartext"); ("observedProtocol", VString "websocket-over-h1-cleartext");
       ("protocolVariant", VString "websocket-h1-cleartext-upgrade"); ("fallbackDetected", VBool (PFallback a))]
      [("websocket", Some (ProofPart p))]);
   ("websocket-summary.json", Part (ProofPart p));
   ("payload-hash.json", Value (VObject
      [("scenarioId", VString (e_id e)); ("generator", VString (Copies.payloadGenerator (e_operation e)));
       ("lengthBytes", VInt (len (e_payload e))); ("sha256", VString (e_payloadHash e));
       ("observedSha256", VString (PObservedSHA256 a)); ("matched", VBool (PMatched a))]));
   ("handshake-summary.json", Part (HandshakePart (handshakeOf p)));
   ("frame-summary.json", Value (VObject
      [("fragmentation", VString "none"); ("clientFramesMasked", VBool (ClientFrameMasked p));
       ("serverFramesMasked", VBool (ServerFrameMasked p)); ("requestOpcode", VString (RequestOpcode p));
       ("responseOpcode", VString (ResponseOpcode p)); ("closeCode", VInt (CloseReceivedCode p))]));
   ("executor-identity.json", Value (identityDocument "go-http1-websocket-executor" "0.1.0" Copies.WsExecutor.sortedSupportedIDs));
   ("handshake-request.txt", Text (HandshakeRequest p)); ("handshake-response.txt", Text (HandshakeResponse p));
   ("result.json", Value (validation e a))].

Definition unsupported (scenario : string) : value :=
  unsupportedDocument scenario "go-http1-websocket-executor"
    "exact WebSocket identity is outside this cleartext RFC 6455 over HTTP/1.1 package".
Definition run (env : mainEnv) : program part phaseSummary normalizedResult :=
  let getenv := m_getenv env in
  let identity := checkIdentity getenv in
  wsProgram (generatorDocument "go-http1-websocket-load" "0.1.0") (m_showVersion env) (m_mkdir env)
    (match identity with Exit code => Some code | Known _ => None end) (unsupported (env_value getenv "PLAB_SCENARIO_ID"))
    match identity, normalizeTarget (m_target env) with
    | Known e, Ok _ =>
        let '(p, err, _) := performOperation (m_preflight env) e in
        let a := writePreflightArtifacts e p err in
        let phase ph name := (runPhase ph e name, None) in
        Some (Phases err (PPassed a) (validation e a) (preflightFiles e p err) (m_validationOnly env)
          (loadConfigFromEnvironment getenv) (phase (m_warmup env) "warmup") (phase (m_measured env) "measured")
          (fun x => hasFailures x.1 || (CompletedOperations x.1 =? 0)) (normalizeResult e) (fun _ => []))
    | _, _ => None
    end.
Definition main (faults : list (option fault)) (env : mainEnv) := onDirectory faults (run env).

End WsClearDocuments.
