(* ===== verification/RunDocumentsProps.v ===== *)
(** Theorems on the documents of the DNS and the HTTP/1.1 WebSocket executors: what the result
    in their directory says of the run that left it, whatever file could not be written, or
    only in part. *)
From S2P Require Import DnsClassicProps TlsDocumentsProps.
From S2P Require Export DnsDocuments WsDocuments.

#[local] Opaque hash.

(** ** Files that are written again *)





(** ** What a run says *)

(** What a validation says of its run. *)
Definition says_passed (v : value) : bool :=
  match member "passed" v, member "status" v with
  | Some (VBool passed), _ => passed
  | None, Some (VString status) => String.eqb status "passed"
  | _, _ => false
  end.

Section told.
Context {P S R : Type}.
Implicit Types (g : program P S R) (p : phases P S R).











End told.


(** ** The packages *)






(** ** The gates of the packages *)




















(** ** Proofs of a protocol that was not spoken *)

(** The protocol proofs of the DoT and the classic executor name the protocol they ask for
    whatever the preflight met: after a handshake that failed, the validation has observed
    none. *)
Lemma dot_proof_without_session scenario s err : s.2 = None ->
  member "observedProtocol" (DotDocuments.validationDocument scenario s err) = Some (VString "") /\
  exists fields parts, ("protocol-proof.json", Combined fields parts) ∈ DotDocuments.writeEvidence scenario s
    /\ member "observedProtocol" (VObject fields) = Some (VString "dot")
    /\ member "fallbackDetected" (VObject fields) = Some (VBool false).
Proof.
  intros H. unfold DotDocuments.validationDocument. rewrite H. split; [reflexivity|].
  eexists _, _. split.
  - unfold DotDocuments.writeEvidence. apply elem_of_app. right. apply elem_of_app. left.
    apply list_elem_of_further, list_elem_of_here.
  - split; reflexivity.
Qed.

(** ** A refused run *)

(** A run whose measured phase cannot open its socket, after an accepted preflight and
    warm-up. *)
Definition unreachable : DnsClassic.phaseEnv :=
  DnsClassic.PhaseEnv (Some EDeadline) None f_zero (Conn (Stream [] EEOF) [] []) [] f_zero.
Definition stalled_run : DnsClassic.runEnv :=
  let '(DnsClassic.RunEnv getenv target parse split only version mkdir preflight warmup _) := DnsClassicProps.classic_run in
  DnsClassic.RunEnv getenv target parse split only version mkdir preflight warmup unreachable.
Example stalled_run_says_passed :
  let '(code, dir, printed) := ClassicDocuments.main [] DnsClassic.udpConfig stalled_run in
  code = 1 /\ printed = None
  /\ (d ← dir !! "result.json"; match d with Whole (Value v) => Some (says_passed v) | _ => None end) = Some true.
Proof. vm_compute. auto. Qed.
